(* ===== verification/_CoqProject ===== *)
-Q . S2P
Prelude.v
PyValue.v
Events.v
Projection.v
Spans.v
SpanFacts.v
MaskFacts.v
PyRegex.v
SecretPatterns.v
TextRedaction.v
CredentialContract.v
ValueRedaction.v
RedactionFacts.v
SchemaLimits.v
EventStore.v
EventStoreFacts.v
Response.v
ResponseFacts.v
Aggregate.v
AggregateFacts.v
StoreProperties.v
AggregateProperties.v
Protected.v
Approvals.v
ApprovalProperties.v
Fence.v
Codec.v
Capabilities.v
KeyFile.v
JsonFacts.v
Lease.v
LeaseProperties.v
Dispatch.v
DispatchProperties.v
Templating.v
TemplatingProperties.v
Transport.v
TransportProperties.v
ProcedureEdit.v
EditProperties.v
TargetSnapshot.v
SnapshotProperties.v
SchemaSpec.v
Contracts.v
HttpGuard.v
GuardProperties.v
Backends.v
BackendProperties.v
BackendPolicy.v
BackendCall.v
CallProperties.v
FailureProperties.v
CredentialAuthority.v
CredentialAuthorityProperties.v
Jobs.v
OpenBao.v
OpenBaoProperties.v
Targets.v
Akvorado.v
Admission.v
AdmissionProperties.v
Normalize.v
NormalizeDevices.v
NormalizeServices.v
NormalizeStores.v
NormalizeHosts.v
NormalizeProxmox.v
NormalizeAllowlists.v
NormalizePinned.v
NormalizeIdentity.v
NormalizeGitea.v
NormalizeRunners.v
NormalizeSambaDc.v
NormalizeAkvorado.v
NormalizePlugins.v
NormalizeDispatch.v
NormalizeProperties.v
PinnedProperties.v
SambaDcProperties.v
HandlerProperties.v
