(* ===== verification/Prelude.v ===== *)
(** * netbox-rpc: a verification development

    netbox-rpc is a NetBox plugin (Python, [src/netbox_rpc/]) that runs catalogued
    procedures on remote targets through an execution backend.  An operator asks for an
    execution of a procedure; protected procedures need a second person's approval; a
    worker then claims the execution, issues a signed lease, calls the backend once and
    records the answer.  Every step is an event in an append-only ledger, and the row of
    the execution is a projection of that ledger.

    This library translates that core into executable definitions and proves what makes
    it correct.  Python values are the type [value] of PyValue; a function that may raise
    returns [result exn]; state (rows, ledgers, fences, tables, descriptors) is passed
    explicitly; the order of steps is an inductive relation where it matters.

    ** Files, in dependency order

    - Prelude: results and exceptions, strings, the tactics [res_inv] and [bool_inv], the
      hint database [rpc].  PyValue: Python values, dictionaries, conversions, equality,
      [json.dumps].
    - Events, Projection: [domain/events.py], [domain/value_objects.py],
      [domain/projection.py]: every event class with its data and its reading back, the
      reducer and the fold.
    - Spans, SpanFacts, MaskFacts, PyRegex, SecretPatterns, TextRedaction: the text
      redaction of [event_store.py]: span algebra with provenance, a matcher for the
      subset of [re] the patterns use, the structural rules and the bounded fixed point.
    - CredentialContract: [credential_contract.py].  ValueRedaction, RedactionFacts,
      SchemaLimits: redaction of data and the string limits of result schemas.
    - EventStore, EventStoreFacts, Response, ResponseFacts, StoreProperties: the ledger
      (append with retry, append and project, every record and mark operation,
      reprojection) and the recording of a backend response.
    - Aggregate, AggregateFacts, AggregateProperties: [domain/aggregate.py], on committed
      rows and on stale copies, and the automaton it refines.
    - Protected, Approvals, ApprovalProperties: the commands of
      [application/command_handlers.py] that create, approve, reject, cancel, enqueue,
      claim and expire, with the tables of protected procedures.
    - Fence: the fence row of a Gitea runner scope and its operations.
    - Codec, Capabilities: [capabilities.py]: contract hashes, the bounded fetch and its
      cache.  KeyFile, JsonFacts (with facts on strings), Lease, LeaseProperties:
      [dispatch_lease.py]: the key file reader against an arbitrary operating system, claims, issue, verification.
    - Dispatch, DispatchProperties: [run_execution] and its stages as a stage monad over
      the ledger, the fence, the backend calls and the answers of the outside.
    - Templating, TemplatingProperties: [command_templating.py], the token checks of
      [command_contract.py] and the [clean] of a command row.
    - Transport, TransportProperties: the driver vocabulary of [transport.py], the policy
      of [RpcPluginSettings], chain resolution and routing in
      [domain/normalization.py].
    - ProcedureEdit, EditProperties: the protected field rules of [transport.py], the
      approve scope of [current_access.py], the REST update and the form save.
    - TargetSnapshot, SnapshotProperties: the budgeted snapshot of the target object in
      [domain/normalization.py].
    - SchemaSpec: a reference evaluator for the keywords of JSON Schema that the result
      schemas use.  Contracts: one Module per contract module of a procedure family
      ([gitea_upgrade_contract.py] and so on) with what the transport reads of it: names,
      budgets, byte limits and the result schemas in full.
    - HttpGuard, GuardProperties: the wall clock guard and the bounded reader of
      [jobs.py], in a state monad over the clock, the alarm, the connection and the
      buffer.  Backends, BackendProperties: [backends.py] and the backend row of
      [models.py].  BackendPolicy, BackendCall, CallProperties, FailureProperties: the
      rest of the HTTP transport of [jobs.py]: policies, request plans, failure
      responses, response normalizers and [_call_backend].
    - CredentialAuthority, CredentialAuthorityProperties: [credential_authority.py] over
      databases read at successive moments, and its guards inside a worker run.
    - Jobs: the job classes of [jobs.py], queue choice and liveness, and the expiry sweep
      of [system_jobs.py].
    - OpenBao, OpenBaoProperties: [openbao_validation.py], the scan of OpenBao parameters
      through nested JSON and HCL strings.  Targets: the validators of pinned virtual
      machines of [domain/normalization.py].  Akvorado: its check of a configuration body
      and the walk over the YAML graph.
    - Admission, AdmissionProperties: what [application/command_handlers.py] checks before
      it inserts an execution and when it claims one, composed with the commands of
      Protected.
    - Normalize: what the normalizers of [domain/normalization.py] share.  One file per
      group of procedures: NormalizeDevices (switches, Nginx, panels, game servers),
      NormalizeServices (Samba), NormalizeStores (InfluxDB, OpenBao, Passbolt),
      NormalizeHosts, NormalizeProxmox, NormalizeAllowlists, NormalizePinned (device
      bindings), NormalizeIdentity (the locked SSH identity), NormalizeGitea,
      NormalizeRunners, NormalizeSambaDc (with [samba_ad_dc_contract.py]),
      NormalizeAkvorado, NormalizePlugins (with [packer_normalizer.py]).
      NormalizeDispatch: [_dispatch_normalize_execution_params], its table, and
      [normalize_execution_params].
    - NormalizeProperties, PinnedProperties, SambaDcProperties, HandlerProperties: what
      the normalizers guarantee, by family and as a whole.

    ** What the theorems show

    - Ledger: live columns equal the fold of a gap-free ledger after any operations;
      concurrent appends keep it gap-free or raise; a stored success was validated, raw
      and redacted; a response always ends the execution.
    - Redaction: stored text is a fixed point of the patterns with no text kept from
      inside a structural rule; stored data is clean and bounded.
    - Life cycle: whatever the order of the operations of the aggregate, with a worker on
      the unlocked object it keeps, the ledger is a word of an abstract automaton and the
      status is its phase; the two error paths that record a failure past the guards are
      not among these operations and are proved as such.  Decisions are single,
      authorized and precede the start; terminal states are final; commands end where
      they should.
    - Fence: its constraints hold, a takeover excludes the former owner, a second start
      needs a proof that the scope is free.
    - Leases and capabilities: signed text determines the claims; an issued lease verifies
      until its expiry while its nonce is new, and lives for the time asked for, at most
      fifteen minutes; the reader leaves no descriptor open unless a close raises, and
      trusts no changed file; required capabilities fail closed.
    - Worker: a run always ends the execution and calls the backend at most once, with
      approval, capability and lease where they are required.
    - Templates: the passes over a Jinja token agree with a recursive scoping of its
      syntax tree, literal tokens have exactly the safe forms, output variables stay
      resolved as rows are saved.
    - Routing: a policy chain serves the driver and never needs Ansible alone; the
      fingerprint binds the routing.
    - Edits: no sequence of edits escalates; the form can write back a stale chain.
    - Snapshot: bounded in bytes and nodes, without sensitive names or secret texts, at
      any depth of what is stored.
    - Transport: a protected call returns a closed envelope whose result is valid for the
      contract and bound to the execution; every fixed failure is valid for the schema of
      its procedure; an exchange ends, accepts nothing late or oversized, wipes its buffer
      and gives the worker its alarm back; an outage is classified, with the one transport
      that raises instead; a resolver never reroutes.
    - Credentials: a release is justified by the running execution, the bound executor,
      the current snapshot, the lease, the approval and the permissions at the last read;
      stored references never change; what is prepared is what is later accepted; a run
      with references reaches the backend only when the authority agreed.
    - Jobs: a job runs the execution and the backend it was enqueued for; the sweep ends
      the overdue restarts it can see and nothing else.
    - Admission: what a creation stores has passed every gate, permission, schema, policy,
      target, capability and secret check; a row that differs from the reviewed policy is
      never started; the OpenBao scan ends and accepts exactly what an unbounded reference
      definition calls clean, which has no name for a secret and no secret text; the
      Akvorado walk ends on cyclic graphs and finds every reachable sensitive key.
    - Normalizers: a request forwards only the fields of its operation, stays on the
      bound device, the allowlisted unit or the confined paths, and its fingerprint
      determines what runs; a locked identity pins one host key and one revision and
      holds no secret; a registration reserves the fence generation it was approved for;
      a provision of a domain controller runs on its own target; the stored parameters of
      a release marker never normalize again.
    - Dispatch of the normalizers: the three stages are one lookup in a table without
      shadowed rows, and every normalized fingerprint names the handler.

    ** Outside code

    What is not under [src/] is a class of operations, with the laws the code relies on
    as class fields or named hypotheses, and an executable instance in the witnesses:
    hashes and timestamps ([PyLib]), jsonschema ([JsonSchema]), pydantic and
    [json.loads] ([ManifestLib]), ed25519 ([LeaseLib]), the operating system of the key
    reader, the Jinja parser ([TemplateLib]), NetBox permissions and parent writes
    ([NetBoxLib]), and the answers of the normalizer, the resolver, the credential
    authority and the backend in Dispatch.  For the transport, [requests], sockets, the
    signal and the monotonic clock are the record [outside] of HttpGuard; the check of a
    schema is [JsonMetaSchema], the schema of a pydantic model [Pydantic], and
    [JsonSchemaSpec] says that the validator agrees with SchemaSpec on its fragment.  For
    the authority, permissions are part of the user rows, and the provider of credentials
    and the parsing of a submitted lease are functions.  Where Dispatch takes the answers
    of the authority, a theorem of CredentialAuthorityProperties puts the authority in.
    For the normalizers: the YAML parser ([Yaml]), the rows of netbox-network,
    netbox-openbao, netbox-nms and netbox-packer, the endpoint resolver of netbox-nms and
    the answer of the binding query are the directories and arguments that
    NormalizeDispatch collects in [world].

    ** Bounds and fuel

    Recursions that the source bounds by a depth count the levels left: 33 for value
    redaction, 4 for the snapshot.  Appending retries three times, as the source does.
    The redaction of text iterates to a fixed point with the bound of the source and
    falls back to the marker.  The regular expression matcher is structural on the
    pattern and, in a repetition, on the text that is left.  The key file reader takes
    fuel for one more read than the size limit, with the lemma that more changes nothing.
    The bounded reader of a response takes fuel for its turns; the theorem [call_ends]
    says that a call has one outcome from some fuel on.  Schemas nest at most 16 deep.
    Characters of the values layer are Latin-1; integers are unbounded as in Python;
    floats are their [repr].  The OpenBao scan works on code points; its entropy bound is
    exact arithmetic, its digits are ASCII, and its JSON decoder does not bound nesting.
    [ipaddress] and [urllib.parse] are those of Python 3.12.

    ** Not modelled

    The command tables and the policy dictionaries of the contract modules are data,
    compared with the rows of the catalog as arguments; diagnostics are reports over
    modelled operations; user interface and API declarations have no logic of their own;
    migrations seed and change tables once.  The serializer, the object manager and the
    query behind the sweep are arguments or filters of rows.  Deleting a command row is
    not checked by the code against the rows that read its variable, and is not an
    operation of the model. *)

From stdpp Require Export base tactics list strings gmap sorting numbers pretty.
From Stdlib Require Export ZArith Lia Ascii.
From Stdlib Require String.

#[global] Open Scope string_scope.
#[global] Open Scope list_scope.
#[global] Open Scope Z_scope.

(** ** Fallible computations

    A Python function that may raise is a function into [result exn A]: [Ok] is
    a return, [Err] the raised exception. *)

Inductive result (E A : Type) : Type :=
| Ok (a : A)
| Err (e : E).
Arguments Ok {E A} a.
Arguments Err {E A} e.

#[export] Instance result_ret {E} : MRet (result E) := fun A a => Ok a.
#[export] Instance result_bind {E} : MBind (result E) := fun A B f m =>
  match m with Ok a => f a | Err e => Err e end.
#[export] Instance result_fmap {E} : FMap (result E) := fun A B f m =>
  match m with Ok a => Ok (f a) | Err e => Err e end.

#[export] Instance result_eq_dec {E A} `{EqDecision E} `{EqDecision A} :
  EqDecision (result E A).
Proof. solve_decision. Defined.

Definition is_Ok {E A} (r : result E A) : bool :=
  match r with Ok _ => true | Err _ => false end.

(** [require b e]: the source's [if not b: raise e]. *)
Definition require {E} (b : bool) (e : E) : result E unit :=
  if b then Ok tt else Err e.

Lemma bind_Ok {E A B} (m : result E A) (f : A -> result E B) b :
  (m ≫= f) = Ok b <-> exists a, m = Ok a /\ f a = Ok b.
Proof. destruct m; cbn; naive_solver. Qed.

Lemma require_Ok {E} (b : bool) (e : E) u : require b e = Ok u <-> b = true.
Proof. destruct b, u; naive_solver. Qed.

(** Take apart every successful bind and guard among the hypotheses. *)
Ltac res_inv :=
  repeat match goal with
  | H : (_ ≫= _) = Ok _ |- _ => apply bind_Ok in H as (? & ? & ?)
  | H : require _ _ = Ok _ |- _ => apply require_Ok in H
  | H : mret _ = Ok _ |- _ => injection H as H
  | H : Ok _ = Ok _ |- _ => injection H as H
  | H : Ok _ = Err _ |- _ => discriminate H
  | H : Err _ = Ok _ |- _ => discriminate H
  end.

(** Split booleans built by [&&], [||] and [negb] among the hypotheses. *)
Ltac bool_inv :=
  repeat match goal with
  | H : _ && _ = true |- _ => apply andb_true_iff in H as [? ?]
  | H : _ || _ = false |- _ => apply orb_false_iff in H as [? ?]
  | H : negb _ = true |- _ => apply negb_true_iff in H
  | H : negb _ = false |- _ => apply negb_false_iff in H
  | H : bool_decide _ = true |- _ => apply bool_decide_eq_true in H
  | H : bool_decide _ = false |- _ => apply bool_decide_eq_false in H
  | H : (_ <? _) = true |- _ => apply Z.ltb_lt in H
  | H : (_ <? _) = false |- _ => apply Z.ltb_ge in H
  | H : (_ <=? _) = true |- _ => apply Z.leb_le in H
  | H : (_ <=? _) = false |- _ => apply Z.leb_gt in H
  end.

Create HintDb rpc.
#[export] Hint Extern 1 (_ < _) => lia : rpc.
#[export] Hint Extern 1 (_ <= _) => lia : rpc.
#[export] Hint Extern 1 (_ ∈ _) => set_solver : rpc.

(** ** Python strings

    A [str] of the values layer is a [string], one [ascii] per code point, so
    the values layer is Latin-1.  The text engine (files PyRegex and after)
    works on lists of arbitrary code points. *)

Definition code (c : ascii) : Z := Z.of_N (N_of_ascii c).
Definition chr (z : Z) : ascii := ascii_of_N (Z.to_N z).

Fixpoint str_map (f : ascii -> ascii) (s : string) : string :=
  match s with
  | EmptyString => EmptyString
  | String c r => String (f c) (str_map f r)
  end.

(** [str.lower] on Latin-1. *)
Definition chr_lower (c : ascii) : ascii :=
  let z := code c in
  if ((65 <=? z) && (z <=? 90))
     || ((192 <=? z) && (z <=? 222) && negb (z =? 215))
  then chr (z + 32) else c.
Definition str_lower : string -> string := str_map chr_lower.

(** [str.isspace] on Latin-1. *)
Definition chr_space (c : ascii) : bool :=
  let z := code c in
  ((9 <=? z) && (z <=? 13)) || ((28 <=? z) && (z <=? 32)) || (z =? 133) || (z =? 160).

Fixpoint str_lstrip (s : string) : string :=
  match s with
  | EmptyString => EmptyString
  | String c r => if chr_space c then str_lstrip r else s
  end.
Fixpoint str_rev_app (s acc : string) : string :=
  match s with
  | EmptyString => acc
  | String c r => str_rev_app r (String c acc)
  end.
Definition str_rev (s : string) : string := str_rev_app s EmptyString.
Definition str_strip (s : string) : string :=
  str_rev (str_lstrip (str_rev (str_lstrip s))).

Definition str_len (s : string) : Z := Z.of_nat (String.length s).

(** [s[:n]] for [0 <= n]. *)
Fixpoint str_take_nat (n : nat) (s : string) : string :=
  match n, s with
  | O, _ => EmptyString
  | S _, EmptyString => EmptyString
  | S m, String c r => String c (str_take_nat m r)
  end.
Definition str_take (n : Z) (s : string) : string :=
  if str_len s <=? n then s else str_take_nat (Z.to_nat n) s.

Definition str_startswith (p s : string) : bool := String.prefix p s.
Definition str_endswith (p s : string) : bool := String.prefix (str_rev p) (str_rev s).
Fixpoint str_contains (p s : string) : bool :=
  String.prefix p s ||
  match s with
  | EmptyString => false
  | String _ r => str_contains p r
  end.

(** [sep.join(parts)]. *)
Fixpoint str_join (sep : string) (l : list string) : string :=
  match l with
  | [] => EmptyString
  | [x] => x
  | x :: r => x +:+ sep +:+ str_join sep r
  end.

Definition str_in (s : string) (l : list string) : bool := bool_decide (s ∈ l).

(** [str] of an [int]. *)
Definition str_of_Z (z : Z) : string := pretty z.

(** Python truth of a string. *)
Definition str_truthy (s : string) : bool :=
  match s with EmptyString => false | _ => true end.
(** [a or b] on strings. *)
Definition str_or (a b : string) : string := if str_truthy a then a else b.

Lemma str_take_nat_length n s :
  (String.length (str_take_nat n s) <= n)%nat.
Proof. revert s; induction n; intros [|c s]; simpl; try lia. specialize (IHn s). lia. Qed.

Lemma str_take_len n s : 0 <= n -> str_len (str_take n s) <= n.
Proof.
  intros Hn. unfold str_take. destruct (str_len s <=? n) eqn:E; bool_inv; [done|].
  unfold str_len. pose proof (str_take_nat_length (Z.to_nat n) s). lia.
Qed.

Lemma str_len_nonneg s : 0 <= str_len s.
Proof. unfold str_len; lia. Qed.

Lemma str_length_app a b : String.length (a +:+ b) = (String.length a + String.length b)%nat.
Proof. induction a; simpl; auto. Qed.
Lemma str_len_app a b : str_len (a +:+ b) = str_len a + str_len b.
Proof. unfold str_len. rewrite str_length_app. lia. Qed.

Lemma str_or_spec a b : str_or a b = a \/ (a = EmptyString /\ str_or a b = b).
Proof. destruct a; cbn; auto. Qed.
