(* ===== verification/PyValue.v ===== *)
(** * Python values

    The data the program moves around is what [json] can hold, plus timestamps
    and the odd object that only its [str()] matters of.  This file models those
    values, the dictionary and conversion operations the source applies to them
    ([get], item assignment, [pop], [bool()], [str()], [int()], [dict()], [==],
    [is]) and [json.dumps] in the canonical form the hashes use.  Nothing here is
    a translation of a repository file: it is the part of Python the translations
    stand on. *)

From S2P Require Import Prelude.

(** A float is named by its [repr()], a datetime by its [isoformat()], any
    other object by its [str()].  [VSet] lists the elements in iteration order. *)
Inductive value : Type :=
| VNone
| VBool (b : bool)
| VInt (z : Z)
| VFloat (repr : string)
| VStr (s : string)
| VDatetime (iso : string)
| VObj (txt : string)
| VList (l : list value)
| VTuple (l : list value)
| VSet (l : list value)
| VDict (d : list (string * value)).

Notation dict := (list (string * value)).

(** The exceptions the modelled code raises or lets through. *)
Inductive exn : Type :=
| TypeError
| ValueError
| KeyError
| OverflowError
| IntegrityError
| RPCEventStoreError
| CredentialContractError
| RPCExecutionAggregateError (message : string)
| RPCExecutionError (code message : string)
| ValidationError (field message : string)
| PermissionDenied (message : string)
| OtherError (text : string).

Notation res := (result exn).

#[export] Instance exn_eq_dec : EqDecision exn.
Proof. solve_decision. Defined.

(** ** What the program calls outside its own sources

    [fromisoformat] names the parsed timestamp by its ISO form, [None] is
    [ValueError]; [sha256] and [salted_hmac] give hexadecimal digests of text
    ([salted_hmac] is keyed with the deployment secret). *)
Class PyLib := {
  fromisoformat : string -> option string;
  sha256 : string -> string;
  salted_hmac : string -> string -> string;
}.

(** ** Induction and decidable equality *)

Section ValueInd.
Variable P : value -> Prop.
Hypothesis HNone : P VNone.
Hypothesis HBool : forall b, P (VBool b).
Hypothesis HInt : forall z, P (VInt z).
Hypothesis HFloat : forall s, P (VFloat s).
Hypothesis HStr : forall s, P (VStr s).
Hypothesis HDatetime : forall s, P (VDatetime s).
Hypothesis HObj : forall s, P (VObj s).
Hypothesis HList : forall l, Forall P l -> P (VList l).
Hypothesis HTuple : forall l, Forall P l -> P (VTuple l).
Hypothesis HSet : forall l, Forall P l -> P (VSet l).
Hypothesis HDict : forall d, Forall (fun kv => P kv.2) d -> P (VDict d).

Fixpoint value_ind_nested (v : value) : P v :=
let go := fix go (l : list value) : Forall P l :=
match l with
| [] => Forall_nil_2 P
| x :: r => Forall_cons_2 P x r (value_ind_nested x) (go r)
end in
match v with
| VNone => HNone
| VBool b => HBool b
| VInt z => HInt z
| VFloat s => HFloat s
| VStr s => HStr s
| VDatetime s => HDatetime s
| VObj s => HObj s
| VList l => HList l (go l)
| VTuple l => HTuple l (go l)
| VSet l => HSet l (go l)
| VDict d =>
HDict d ((fix god (d : dict) : Forall (fun kv => P kv.2) d :=
  match d with
  | [] => Forall_nil_2 _
  | (k, x) :: r => Forall_cons_2 (fun kv => P kv.2) (k, x) r
                     (value_ind_nested x) (god r)
  end) d)
end.
End ValueInd.

Fixpoint value_eqb (v w : value) {struct v} : bool :=
  let go := fix go (l m : list value) {struct l} : bool :=
    match l, m with
    | [], [] => true
    | x :: l', y :: m' => value_eqb x y && go l' m'
    | _, _ => false
    end in
  match v, w with
  | VNone, VNone => true
  | VBool a, VBool b => Bool.eqb a b
  | VInt a, VInt b => a =? b
  | VFloat a, VFloat b => String.eqb a b
  | VStr a, VStr b => String.eqb a b
  | VDatetime a, VDatetime b => String.eqb a b
  | VObj a, VObj b => String.eqb a b
  | VList a, VList b => go a b
  | VTuple a, VTuple b => go a b
  | VSet a, VSet b => go a b
  | VDict a, VDict b =>
      (fix god (d e : dict) {struct d} : bool :=
        match d, e with
        | [], [] => true
        | (k, x) :: d', (k', y) :: e' => String.eqb k k' && value_eqb x y && god d' e'
        | _, _ => false
        end) a b
  | _, _ => false
  end.

Lemma value_eqb_eq v w : value_eqb v w = true <-> v = w.
Proof.
  revert w. induction v as [| | | | | | |l IH|l IH|l IH|d IH] using value_ind_nested;
    intros w; destruct w as [| | | | | | |m|m|m|e]; cbn; try (split; congruence);
    rewrite ?eqb_true_iff, ?Z.eqb_eq, ?String.eqb_eq; try (split; congruence).
  1-3: revert m; induction IH as [|x l' Hx _ IHl]; intros [|y m]; try (split; congruence);
    rewrite andb_true_iff, Hx, IHl; clear; (split; [intros [? ?]|split]; congruence).
  revert e. induction IH as [|[k x] d' Hx _ IHd]; intros [|[k' y] e]; try (split; congruence).
  cbn in Hx. rewrite !andb_true_iff, String.eqb_eq, Hx, IHd. clear.
  split; [intros [[? ?] ?]|intros [=]; subst; repeat split]; congruence.
Qed.

#[export] Instance value_eq_dec : EqDecision value.
Proof.
  intros v w. destruct (value_eqb v w) eqn:E; [left|right].
  - by apply value_eqb_eq.
  - intros H%value_eqb_eq. congruence.
Defined.

(** ** Dictionaries: insertion-ordered, keys unique *)

Definition keys (d : dict) : list string := d.*1.
Arguments keys : simpl never.
Lemma keys_cons k v d : keys ((k, v) :: d) = k :: keys d.
Proof. done. Qed.

(** [d.get(k)], with [None] as [option]. *)
Fixpoint dict_get (k : string) (d : dict) : option value :=
  match d with
  | [] => None
  | (k', v) :: r => if String.eqb k' k then Some v else dict_get k r
  end.

(** [d.get(k)] as the Python value it returns. *)
Definition get (k : string) (d : dict) : value := default VNone (dict_get k d).

Definition dict_mem (k : string) (d : dict) : bool := bool_decide (k ∈ keys d).

(** [d[k] = v]: replaces in place, or appends. *)
Fixpoint dict_set (k : string) (v : value) (d : dict) : dict :=
  match d with
  | [] => [(k, v)]
  | (k', v') :: r => if String.eqb k' k then (k', v) :: r else (k', v') :: dict_set k v r
  end.

(** [d.pop(k, None)] without the returned value. *)
Definition dict_pop (k : string) (d : dict) : dict :=
  List.filter (fun kv => negb (String.eqb kv.1 k)) d.

Lemma dict_get_set_eq k v d : dict_get k (dict_set k v d) = Some v.
Proof.
  induction d as [|[k' v'] d IH]; cbn; [by rewrite String.eqb_refl|].
  destruct (String.eqb k' k) eqn:E; cbn; by rewrite E.
Qed.

Lemma dict_get_set_ne k k' v d : k <> k' -> dict_get k' (dict_set k v d) = dict_get k' d.
Proof.
  intros Hne. induction d as [|[k0 v0] d IH]; cbn.
  - destruct (String.eqb_spec k k'); congruence.
  - destruct (String.eqb_spec k0 k); cbn; [subst|by rewrite IH].
    destruct (String.eqb_spec k k'); congruence.
Qed.

(** The same for the reading with a default. *)
Lemma get_set_eq k v d : get k (dict_set k v d) = v.
Proof. unfold get. by rewrite dict_get_set_eq. Qed.
Lemma get_set_ne k k' v d : k <> k' -> get k' (dict_set k v d) = get k' d.
Proof. intros. unfold get. by rewrite dict_get_set_ne. Qed.

Lemma dict_get_None k d : dict_get k d = None <-> k ∉ keys d.
Proof.
  induction d as [|[k' v] d IH]; cbn; [set_solver|]. rewrite keys_cons.
  destruct (String.eqb_spec k' k); rewrite not_elem_of_cons; naive_solver.
Qed.

Lemma dict_get_elem k v d : dict_get k d = Some v -> (k, v) ∈ d.
Proof.
  induction d as [|[k' v'] d IH]; cbn; [done|].
  destruct (String.eqb_spec k' k); set_solver.
Qed.

Lemma elem_keys k v d : (k, v) ∈ d -> k ∈ keys d.
Proof. intros H. apply list_elem_of_fmap. by exists (k, v). Qed.

Lemma elem_dict_get k v d : NoDup (keys d) -> (k, v) ∈ d -> dict_get k d = Some v.
Proof.
  induction d as [|[k' v'] d IH]; cbn; [set_solver|]. rewrite keys_cons.
  intros [Hni Hnd]%NoDup_cons [Heq|Hin]%elem_of_cons.
  - simplify_eq. by rewrite String.eqb_refl.
  - destruct (String.eqb_spec k' k); [subst|by apply IH].
    exfalso; eauto using elem_keys.
Qed.

Lemma keys_set k v d : keys (dict_set k v d) = if dict_mem k d then keys d else keys d ++ [k].
Proof.
  unfold dict_mem. induction d as [|[k' v'] d IH]; cbn; [done|]. rewrite keys_cons.
  destruct (String.eqb_spec k' k); rewrite keys_cons.
  - subst. rewrite bool_decide_true by set_solver. done.
  - rewrite IH. repeat case_bool_decide; set_solver.
Qed.

Lemma NoDup_keys_set k v d : NoDup (keys d) -> NoDup (keys (dict_set k v d)).
Proof.
  intros Hnd. rewrite keys_set. unfold dict_mem. case_bool_decide; [done|].
  apply NoDup_app. set_solver by eauto using NoDup_singleton.
Qed.
#[export] Hint Resolve NoDup_keys_set : rpc.

(** ** Truth, identity, conversions *)

(** [bool(v)]. *)
Definition truthy (v : value) : bool :=
  match v with
  | VNone => false
  | VBool b => b
  | VInt z => negb (z =? 0)
  | VFloat r => negb (str_in r ["0.0"; "-0.0"])
  | VStr s => str_truthy s
  | VDatetime _ | VObj _ => true
  | VList l | VTuple l | VSet l => match l with [] => false | _ => true end
  | VDict d => match d with [] => false | _ => true end
  end.

(** [a or b]. *)
Definition py_or (a b : value) : value := if truthy a then a else b.

Definition is_dict (v : value) : bool := match v with VDict _ => true | _ => false end.
Definition is_str (v : value) : bool := match v with VStr _ => true | _ => false end.
Definition is_bool (v : value) : bool := match v with VBool _ => true | _ => false end.
Definition is_list (v : value) : bool := match v with VList _ => true | _ => false end.

(** [repr] of a string: the quoting and escapes Python uses on Latin-1. *)
Definition hex_digit (n : Z) : ascii :=
  if n <? 10 then chr (48 + n) else chr (87 + n).
Definition quote_char : ascii := "034"%char.
Definition repr_char (q c : ascii) : string :=
  let z := code c in
  if z =? 92 then "\\"
  else if z =? code q then String "\"%char (String q EmptyString)
  else if z =? 9 then "\t" else if z =? 10 then "\n" else if z =? 13 then "\r"
  else if (z <? 32) || ((127 <=? z) && (z <=? 160)) || (z =? 173)
  then String "\"%char (String "x"%char (String (hex_digit (z / 16)) (String (hex_digit (z mod 16)) EmptyString)))
  else String c EmptyString.
Fixpoint str_concat_map (f : ascii -> string) (s : string) : string :=
  match s with
  | EmptyString => EmptyString
  | String c r => f c +:+ str_concat_map f r
  end.
Definition repr_str (s : string) : string :=
  let q := if str_contains "'" s && negb (str_contains (String quote_char EmptyString) s)
           then quote_char else "'"%char in
  String q (str_concat_map (repr_char q) s) +:+ String q EmptyString.

(** [str(datetime)] is its ISO form with a space for the [T]. *)
Fixpoint iso_to_str (s : string) : string :=
  match s with
  | EmptyString => EmptyString
  | String c r => if Ascii.eqb c "T"%char then String " "%char r else String c (iso_to_str r)
  end.

Fixpoint py_repr (v : value) : string :=
  match v with
  | VNone => "None"
  | VBool true => "True"
  | VBool false => "False"
  | VInt z => str_of_Z z
  | VFloat r => r
  | VStr s => repr_str s
  | VDatetime s => "datetime(" +:+ s +:+ ")"
  | VObj s => s
  | VList l => "[" +:+ str_join ", " (map py_repr l) +:+ "]"
  | VTuple [x] => "(" +:+ py_repr x +:+ ",)"
  | VTuple l => "(" +:+ str_join ", " (map py_repr l) +:+ ")"
  | VSet [] => "set()"
  | VSet l => "{" +:+ str_join ", " (map py_repr l) +:+ "}"
  | VDict d => "{" +:+ str_join ", " (map (fun kv => repr_str kv.1 +:+ ": " +:+ py_repr kv.2) d) +:+ "}"
  end.

(** [str(v)]. *)
Definition py_str (v : value) : string :=
  match v with
  | VStr s => s
  | VDatetime s => iso_to_str s
  | _ => py_repr v
  end.

(** [dict(v)] for the values the source calls it on. *)
Definition py_dict (v : value) : res dict :=
  match v with
  | VDict d => Ok d
  | VList [] | VTuple [] | VSet [] => Ok []
  | VStr EmptyString => Ok []
  | VStr _ => Err ValueError
  | _ => Err TypeError
  end.

(** [int(v)]: decimal text with surrounding blanks, a sign, and single
    underscores between digits; a float truncates, and its [repr] is taken to be
    without an exponent unless it is infinite. *)
Definition digit_of (c : ascii) : option Z :=
  let z := code c in if (48 <=? z) && (z <=? 57) then Some (z - 48) else None.
Fixpoint parse_digits (acc : Z) (prev_digit : bool) (s : string) : option Z :=
  match s with
  | EmptyString => if prev_digit then Some acc else None
  | String c r =>
      match digit_of c with
      | Some d => parse_digits (10 * acc + d) true r
      | None => if Ascii.eqb c "_"%char && prev_digit then parse_digits acc false r else None
      end
  end.
Definition parse_int (s : string) : option Z :=
  match str_strip s with
  | String "-"%char r => Z.opp <$> parse_digits 0 false r
  | String "+"%char r => parse_digits 0 false r
  | r => parse_digits 0 false r
  end.
Fixpoint str_before (c : ascii) (s : string) : string :=
  match s with
  | EmptyString => EmptyString
  | String d r => if Ascii.eqb c d then EmptyString else String d (str_before c r)
  end.
Definition py_int (v : value) : res Z :=
  match v with
  | VInt z => Ok z
  | VBool b => Ok (if b then 1 else 0)
  | VStr s => match parse_int s with Some z => Ok z | None => Err ValueError end
  | VFloat r =>
      if str_in r ["inf"; "-inf"] then Err OverflowError else
      match parse_int (str_before "."%char r) with Some z => Ok z | None => Err ValueError end
  | _ => Err TypeError
  end.

(** ** Equality

    Python's [==] identifies [True] with [1], ignores the order of dictionary
    entries and of set elements.  It is equality of canonical forms, hence an
    equivalence.  (A float equals only the float with the same [repr].) *)

Definition key_le (a b : string * value) : Prop := Is_true (String.leb a.1 b.1).
#[export] Instance key_le_dec : RelDecision key_le.
Proof. unfold key_le. intros ??. apply _. Defined.
Definition sort_keys (d : dict) : dict := merge_sort key_le d.

Definition repr_le (a b : value) : Prop := Is_true (String.leb (py_repr a) (py_repr b)).
#[export] Instance repr_le_dec : RelDecision repr_le.
Proof. unfold repr_le. intros ??. apply _. Defined.

Fixpoint canon (v : value) : value :=
  match v with
  | VBool b => VInt (if b then 1 else 0)
  | VList l => VList (map canon l)
  | VTuple l => VTuple (map canon l)
  | VSet l => VSet (merge_sort repr_le (map canon l))
  | VDict d => VDict (sort_keys (map (fun kv => (kv.1, canon kv.2)) d))
  | _ => v
  end.

Definition py_eq (v w : value) : Prop := canon v = canon w.
#[export] Instance py_eq_dec : RelDecision py_eq.
Proof. unfold py_eq. intros ??. apply _. Defined.
#[export] Instance py_eq_equiv : Equivalence py_eq.
Proof. unfold py_eq. split; congruence. Qed.
Definition py_eqb (v w : value) : bool := bool_decide (py_eq v w).

(** ** [json.dumps(v, sort_keys=True, separators=(",", ":"), default=str)] *)

Definition json_char (c : ascii) : string :=
  let z := code c in
  if z =? 34 then String "\"%char (String quote_char EmptyString)
  else if z =? 92 then "\\"
  else if z =? 8 then "\b" else if z =? 9 then "\t" else if z =? 10 then "\n"
  else if z =? 12 then "\f" else if z =? 13 then "\r"
  else if (z <? 32) || (126 <? z)
  then "\u00" +:+ String (hex_digit (z / 16)) (String (hex_digit (z mod 16)) EmptyString)
  else String c EmptyString.
Definition json_str (s : string) : string :=
  String quote_char (str_concat_map json_char s) +:+ String quote_char EmptyString.

Fixpoint json_dumps (v : value) : string :=
  match v with
  | VNone => "null"
  | VBool true => "true"
  | VBool false => "false"
  | VInt z => str_of_Z z
  | VFloat r => r
  | VStr s => json_str s
  | VDatetime s => json_str (iso_to_str s)
  | VObj s => json_str s
  | VList l | VTuple l => "[" +:+ str_join "," (map json_dumps l) +:+ "]"
  | VSet _ => json_str (py_repr v)
  | VDict d =>
      "{" +:+ str_join "," (map (fun kv : string * string => json_str kv.1 +:+ ":" +:+ kv.2)
                     (merge_sort (fun a b : string * string => Is_true (String.leb a.1 b.1))
                        (map (fun kv => (kv.1, json_dumps kv.2)) d))) +:+ "}"
  end.
