(* ===== verification/Events.v ===== *)
(** * Value objects and domain events

    Translates [netbox_rpc/domain/value_objects.py] and
    [netbox_rpc/domain/events.py]: the status vocabulary, the typed events of an
    execution stream, the [(event_name, level, message, data)] each one is stored
    as, and [from_data] / [from_record], which rebuild a typed event from a stored
    row. *)

From S2P Require Import Prelude PyValue.

(** ** value_objects.py *)

Inductive ExecutionStatus : Type :=
| REQUESTED | PENDING_APPROVAL | APPROVED | REJECTED | EXPIRED
| QUEUED | RUNNING | SUCCEEDED | FAILED | CANCELLED.

#[export] Instance ExecutionStatus_eq_dec : EqDecision ExecutionStatus.
Proof. solve_decision. Defined.

(** The [.value] of each member of the [StrEnum]. *)
Definition status_value (s : ExecutionStatus) : string :=
  match s with
  | REQUESTED => "requested"
  | PENDING_APPROVAL => "pending_approval"
  | APPROVED => "approved"
  | REJECTED => "rejected"
  | EXPIRED => "expired"
  | QUEUED => "queued"
  | RUNNING => "running"
  | SUCCEEDED => "succeeded"
  | FAILED => "failed"
  | CANCELLED => "cancelled"
  end.

Definition all_statuses : list ExecutionStatus :=
  [REQUESTED; PENDING_APPROVAL; APPROVED; REJECTED; EXPIRED;
   QUEUED; RUNNING; SUCCEEDED; FAILED; CANCELLED].

Definition approval_terminal : list ExecutionStatus := [REJECTED; EXPIRED].

Lemma status_value_inj s t : status_value s = status_value t -> s = t.
Proof. by destruct s, t. Qed.

Inductive Effect : Type := READ | WRITE | DESTRUCTIVE.

Definition effect_value (e : Effect) : string :=
  match e with READ => "read" | WRITE => "write" | DESTRUCTIVE => "destructive" end.

Inductive ExecutionMode : Type := SEQUENTIAL | PARALLEL.

Definition mode_value (m : ExecutionMode) : string :=
  match m with SEQUENTIAL => "sequential" | PARALLEL => "parallel" end.

(** ** events.py: the event dataclasses *)

Definition _serialize_datetime (v : value) : value :=
  match v with VDatetime iso => VStr iso | _ => v end.

(** One constructor per dataclass, fields in declaration order.  [Any] fields
    are values, [dict[str, Any]] fields are dictionaries. *)
Inductive DomainEvent : Type :=
| ExecutionQueued (requested_by_id : value)
| ExecutionStarted (started_at : value)
| ParametersNormalized (normalized_params : dict) (resolved_command_hash : string)
| JobEnqueued (job_id : value)
| BackendEventRecorded (backend_event : string) (backend_data : dict)
    (event_level event_message : string)
| ExecutionSucceeded (result : dict) (finished_at : value)
| ExecutionFailed (error_message code : string) (finished_at : value) (result : dict)
| ExecutionEnqueueFailed (error_message code : string) (finished_at : value)
| ExecutionCancelled (finished_at cancelled_by_id : value) (reason : string)
| ExecutionRequested (requested_by_id : value)
| ApprovalRequested (snapshot_hash : string) (expires_at requested_by_id : value)
| ExecutionApproved (approved_by_id : value) (snapshot_hash : string)
    (decided_at : value) (reason : string)
| ExecutionRejected (rejected_by_id decided_at : value) (reason : string)
| ExecutionExpired (expired_at : value) (reason : string)
| DispatchLeaseIssued (nonce key_id : string) (key_version stream_version : Z)
    (audience : string) (expires_at : value) (envelope_version : Z).

(** The event classes themselves, as [type(event)] and [EVENT_TYPES] use them. *)
Inductive event_type : Type :=
| TExecutionQueued | TExecutionStarted | TParametersNormalized | TJobEnqueued
| TBackendEventRecorded | TExecutionSucceeded | TExecutionFailed
| TExecutionEnqueueFailed | TExecutionCancelled | TExecutionRequested
| TApprovalRequested | TExecutionApproved | TExecutionRejected | TExecutionExpired
| TDispatchLeaseIssued.

#[export] Instance event_type_eq_dec : EqDecision event_type.
Proof. solve_decision. Defined.

Definition type_of (e : DomainEvent) : event_type :=
  match e with
  | ExecutionQueued _ => TExecutionQueued
  | ExecutionStarted _ => TExecutionStarted
  | ParametersNormalized _ _ => TParametersNormalized
  | JobEnqueued _ => TJobEnqueued
  | BackendEventRecorded _ _ _ _ => TBackendEventRecorded
  | ExecutionSucceeded _ _ => TExecutionSucceeded
  | ExecutionFailed _ _ _ _ => TExecutionFailed
  | ExecutionEnqueueFailed _ _ _ => TExecutionEnqueueFailed
  | ExecutionCancelled _ _ _ => TExecutionCancelled
  | ExecutionRequested _ => TExecutionRequested
  | ApprovalRequested _ _ _ => TApprovalRequested
  | ExecutionApproved _ _ _ _ => TExecutionApproved
  | ExecutionRejected _ _ _ => TExecutionRejected
  | ExecutionExpired _ _ => TExecutionExpired
  | DispatchLeaseIssued _ _ _ _ _ _ _ => TDispatchLeaseIssued
  end.

(** The class variable [EVENT_NAME]. *)
Definition EVENT_NAME (t : event_type) : string :=
  match t with
  | TExecutionQueued => "ExecutionQueued"
  | TExecutionStarted => "ExecutionStarted"
  | TParametersNormalized => "ParametersNormalized"
  | TJobEnqueued => "JobEnqueued"
  | TBackendEventRecorded => "BackendEventRecorded"
  | TExecutionSucceeded => "ExecutionSucceeded"
  | TExecutionFailed => "ExecutionFailed"
  | TExecutionEnqueueFailed => "ExecutionEnqueueFailed"
  | TExecutionCancelled => "ExecutionCancelled"
  | TExecutionRequested => "ExecutionRequested"
  | TApprovalRequested => "ApprovalRequested"
  | TExecutionApproved => "ExecutionApproved"
  | TExecutionRejected => "ExecutionRejected"
  | TExecutionExpired => "ExecutionExpired"
  | TDispatchLeaseIssued => "DispatchLeaseIssued"
  end.

(** The [event_name] property. *)
Definition event_name (e : DomainEvent) : string :=
  match e with
  | BackendEventRecorded n _ _ _ => str_or n (EVENT_NAME TBackendEventRecorded)
  | _ => EVENT_NAME (type_of e)
  end.

(** The [level] property. *)
Definition level (e : DomainEvent) : string :=
  match e with
  | BackendEventRecorded _ _ l _ => str_or l "info"
  | ExecutionFailed _ _ _ _ | ExecutionEnqueueFailed _ _ _ => "error"
  | ExecutionCancelled _ _ _ | ExecutionRejected _ _ _ | ExecutionExpired _ _ => "warning"
  | _ => "info"
  end.

(** The [message] property. *)
Definition message (e : DomainEvent) : string :=
  match e with
  | ExecutionQueued _ => "RPC execution queued."
  | ExecutionStarted _ => "RPC execution started."
  | ParametersNormalized _ _ => "Execution parameters normalized by NetBox."
  | JobEnqueued _ => "RPC execution job enqueued."
  | BackendEventRecorded _ _ _ m => m
  | ExecutionSucceeded _ _ => "RPC execution completed."
  | ExecutionFailed m _ _ _ => str_or m "RPC execution failed."
  | ExecutionEnqueueFailed m _ _ => str_or m "Failed to enqueue RPC job."
  | ExecutionCancelled _ _ r => str_or r "RPC execution cancelled."
  | ExecutionRequested _ => "RPC execution requested (approval required)."
  | ApprovalRequested _ _ _ =>
      "Approval requested; execution is pending an authorized decision."
  | ExecutionApproved _ _ _ r => str_or r "RPC execution approved."
  | ExecutionRejected _ _ r => str_or r "RPC execution rejected."
  | ExecutionExpired _ r => str_or r "Approval request expired before a decision."
  | DispatchLeaseIssued _ _ _ _ _ _ _ => "Signed dispatch lease issued."
  end.

Definition status_entry (s : ExecutionStatus) : string * value :=
  ("status", VStr (status_value s)).

(** [if v is not None: data[k] = v]. *)
Definition opt_entry (k : string) (v : value) : dict :=
  match v with VNone => [] | _ => [(k, v)] end.
(** [if s: data[k] = s]. *)
Definition opt_str_entry (k : string) (s : string) : dict :=
  if str_truthy s then [(k, VStr s)] else [].

(** The [data] property: the payload written to the ledger. *)
Definition data (e : DomainEvent) : dict :=
  match e with
  | ExecutionQueued by_id => status_entry QUEUED :: opt_entry "requested_by_id" by_id
  | ExecutionStarted at_ =>
      [status_entry RUNNING; ("started_at", _serialize_datetime at_)]
  | ParametersNormalized params hash =>
      [("command_hash", VStr hash); ("normalized_params", VDict params)]
  | JobEnqueued job_id => [("job_id", job_id)]
  | BackendEventRecorded _ d _ _ => d
  | ExecutionSucceeded result at_ =>
      [status_entry SUCCEEDED; ("result", VDict result);
       ("finished_at", _serialize_datetime at_)]
  | ExecutionFailed m c at_ result =>
      [status_entry FAILED; ("code", VStr (str_or c "RPC_EXECUTION_FAILED"));
       ("error_message", VStr (message e)); ("finished_at", _serialize_datetime at_)]
      ++ match result with [] => [] | _ => [("result", VDict result)] end
  | ExecutionEnqueueFailed m c at_ =>
      [status_entry FAILED; ("code", VStr (str_or c "RPC_ENQUEUE_FAILED"));
       ("error_message", VStr (message e)); ("finished_at", _serialize_datetime at_)]
  | ExecutionCancelled at_ by_id reason =>
      [status_entry CANCELLED; ("finished_at", _serialize_datetime at_)]
      ++ opt_entry "cancelled_by_id" by_id ++ opt_str_entry "reason" reason
  | ExecutionRequested by_id =>
      status_entry REQUESTED :: opt_entry "requested_by_id" by_id
  | ApprovalRequested h exp by_id =>
      [status_entry PENDING_APPROVAL; ("snapshot_hash", VStr h)]
      ++ opt_entry "expires_at" (_serialize_datetime exp)
      ++ opt_entry "requested_by_id" by_id
  | ExecutionApproved by_id h at_ reason =>
      [status_entry APPROVED; ("approved_by_id", by_id); ("snapshot_hash", VStr h);
       ("decided_at", _serialize_datetime at_)]
      ++ opt_str_entry "reason" reason
  | ExecutionRejected by_id at_ reason =>
      [status_entry REJECTED; ("rejected_by_id", by_id);
       ("decided_at", _serialize_datetime at_)]
      ++ opt_str_entry "reason" reason
  | ExecutionExpired at_ reason =>
      [status_entry EXPIRED; ("expired_at", _serialize_datetime at_)]
      ++ opt_str_entry "reason" reason
  | DispatchLeaseIssued nonce kid kver sver aud exp env =>
      [("nonce", VStr nonce); ("key_id", VStr kid); ("key_version", VInt kver);
       ("stream_version", VInt sver); ("audience", VStr aud);
       ("expires_at", _serialize_datetime exp); ("envelope_version", VInt env)]
  end.

(** ** Rebuilding a typed event from its stored data *)

(** [str(data.get(k) or dflt)]. *)
Definition get_str (k dflt : string) (d : dict) : string :=
  py_str (py_or (get k d) (VStr dflt)).
(** [dict(data.get(k) or {})]. *)
Definition get_dict (k : string) (d : dict) : res dict :=
  py_dict (py_or (get k d) (VDict [])).
(** [int(data.get(k) or dflt)]. *)
Definition get_int (k : string) (dflt : Z) (d : dict) : res Z :=
  py_int (py_or (get k d) (VInt dflt)).

(** The class method [from_data]. *)
Definition from_data (t : event_type) (d : dict) : res DomainEvent :=
  match t with
  | TExecutionQueued => Ok (ExecutionQueued (get "requested_by_id" d))
  | TExecutionStarted => Ok (ExecutionStarted (get "started_at" d))
  | TParametersNormalized =>
      params ← get_dict "normalized_params" d;
      Ok (ParametersNormalized params
            (py_str (py_or (py_or (get "command_hash" d) (get "resolved_command_hash" d))
                           (VStr EmptyString))))
  | TJobEnqueued => Ok (JobEnqueued (get "job_id" d))
  | TBackendEventRecorded =>
      Ok (BackendEventRecorded (EVENT_NAME TBackendEventRecorded) d "info" EmptyString)
  | TExecutionSucceeded =>
      r ← get_dict "result" d;
      Ok (ExecutionSucceeded r (get "finished_at" d))
  | TExecutionFailed =>
      r ← get_dict "result" d;
      Ok (ExecutionFailed (get_str "error_message" "RPC execution failed." d)
            (get_str "code" "RPC_EXECUTION_FAILED" d) (get "finished_at" d) r)
  | TExecutionEnqueueFailed =>
      Ok (ExecutionEnqueueFailed (get_str "error_message" "Failed to enqueue RPC job." d)
            (get_str "code" "RPC_ENQUEUE_FAILED" d) (get "finished_at" d))
  | TExecutionCancelled =>
      Ok (ExecutionCancelled (get "finished_at" d) (get "cancelled_by_id" d)
            (get_str "reason" EmptyString d))
  | TExecutionRequested => Ok (ExecutionRequested (get "requested_by_id" d))
  | TApprovalRequested =>
      Ok (ApprovalRequested (get_str "snapshot_hash" EmptyString d) (get "expires_at" d)
            (get "requested_by_id" d))
  | TExecutionApproved =>
      Ok (ExecutionApproved (get "approved_by_id" d) (get_str "snapshot_hash" EmptyString d)
            (get "decided_at" d) (get_str "reason" EmptyString d))
  | TExecutionRejected =>
      Ok (ExecutionRejected (get "rejected_by_id" d) (get "decided_at" d)
            (get_str "reason" EmptyString d))
  | TExecutionExpired =>
      Ok (ExecutionExpired (get "expired_at" d) (get_str "reason" EmptyString d))
  | TDispatchLeaseIssued =>
      kver ← get_int "key_version" 1 d;
      sver ← get_int "stream_version" 0 d;
      env ← get_int "envelope_version" 1 d;
      Ok (DispatchLeaseIssued (get_str "nonce" EmptyString d) (get_str "key_id" EmptyString d)
            kver sver (get_str "audience" EmptyString d) (get "expires_at" d) env)
  end.

(** The keys and values of the dictionary [EVENT_TYPES]. *)
Definition EVENT_TYPES : list (string * event_type) :=
  map (fun t => (EVENT_NAME t, t))
    [TExecutionRequested; TApprovalRequested; TExecutionApproved; TExecutionRejected;
     TExecutionExpired; TExecutionQueued; TExecutionStarted; TParametersNormalized;
     TJobEnqueued; TDispatchLeaseIssued; TBackendEventRecorded; TExecutionSucceeded;
     TExecutionFailed; TExecutionEnqueueFailed; TExecutionCancelled].

Fixpoint lookup_type (name : string) (l : list (string * event_type)) : option event_type :=
  match l with
  | [] => None
  | (n, t) :: r => if String.eqb n name then Some t else lookup_type name r
  end.

Definition from_record (name : string) (d : dict) : res DomainEvent :=
  match lookup_type name EVENT_TYPES with
  | None => Ok (BackendEventRecorded name d "info" EmptyString)
  | Some t => from_data t d
  end.

(** ** Theorems *)

(** The registry is complete and maps each name to its own class. *)
Lemma EVENT_TYPES_lookup t : lookup_type (EVENT_NAME t) EVENT_TYPES = Some t.
Proof. by destruct t. Qed.

Lemma EVENT_NAME_inj t u : EVENT_NAME t = EVENT_NAME u -> t = u.
Proof. intros H. pose proof (EVENT_TYPES_lookup t). rewrite H, EVENT_TYPES_lookup in *. by simplify_eq. Qed.

Lemma lookup_type_Some name t : lookup_type name EVENT_TYPES = Some t -> name = EVENT_NAME t.
Proof.
  assert (forall l, Forall (fun p => p.1 = EVENT_NAME p.2) l ->
    lookup_type name l = Some t -> name = EVENT_NAME t) as H.
  { induction 1 as [|[n u] l Hp _ IH]; cbn; [done|].
    destruct (String.eqb_spec n name); [cbn in Hp; naive_solver|done]. }
  apply H. by repeat constructor.
Qed.

(** An internal name: one that [from_record] folds as a state transition. *)
Definition internal_name (n : string) : bool :=
  match lookup_type n EVENT_TYPES with Some _ => true | None => false end.

(** What a stored event reads back as: timestamps in ISO text, the default text
    where the stored field was empty, and [0] of the lease's counters replaced by
    the default their [or] supplies. *)
Definition wire (e : DomainEvent) : DomainEvent :=
  match e with
  | ExecutionStarted at_ => ExecutionStarted (_serialize_datetime at_)
  | BackendEventRecorded n d _ _ =>
      BackendEventRecorded (str_or n (EVENT_NAME TBackendEventRecorded)) d "info" EmptyString
  | ExecutionSucceeded r at_ => ExecutionSucceeded r (_serialize_datetime at_)
  | ExecutionFailed m c at_ r =>
      ExecutionFailed (str_or m "RPC execution failed.") (str_or c "RPC_EXECUTION_FAILED")
        (_serialize_datetime at_) r
  | ExecutionEnqueueFailed m c at_ =>
      ExecutionEnqueueFailed (str_or m "Failed to enqueue RPC job.")
        (str_or c "RPC_ENQUEUE_FAILED") (_serialize_datetime at_)
  | ExecutionCancelled at_ b r => ExecutionCancelled (_serialize_datetime at_) b r
  | ApprovalRequested h exp b => ApprovalRequested h (_serialize_datetime exp) b
  | ExecutionApproved b h at_ r => ExecutionApproved b h (_serialize_datetime at_) r
  | ExecutionRejected b at_ r => ExecutionRejected b (_serialize_datetime at_) r
  | ExecutionExpired at_ r => ExecutionExpired (_serialize_datetime at_) r
  | DispatchLeaseIssued n k kv sv a exp ev =>
      DispatchLeaseIssued n k (if kv =? 0 then 1 else kv) sv a (_serialize_datetime exp)
        (if ev =? 0 then 1 else ev)
  | _ => e
  end.

(** A backend event's name is outside the internal vocabulary, or is the neutral
    [BackendEventRecorded]. *)
Definition namespaced (e : DomainEvent) : Prop :=
  match e with
  | BackendEventRecorded n _ _ _ =>
      internal_name (event_name e) = false \/ event_name e = EVENT_NAME TBackendEventRecorded
  | _ => True
  end.

Lemma py_or_str s dflt : py_str (py_or (VStr s) (VStr dflt)) = str_or s dflt.
Proof. by destruct s. Qed.

Lemma get_opt_entry k v : get k (opt_entry k v) = v.
Proof. destruct v; cbn; unfold get; cbn; by rewrite ?String.eqb_refl. Qed.

Lemma get_dict_VDict k r d : dict_get k d = Some (VDict r) -> get_dict k d = Ok r.
Proof. unfold get_dict, get. intros ->. by destruct r. Qed.

(** Reading the stored data of an event with its own class never raises and
    gives the event's wire form. *)
Lemma from_data_data e :
  type_of e <> TBackendEventRecorded -> from_data (type_of e) (data e) = Ok (wire e).
Proof.
  intros Hb.
  destruct e as [v|v|d s|v|n d l m|r v|m c v r|m c v|v w s|v|s v w|v s w t|v w s|v s|n k kv sv a v ev];
    try done; cbn [type_of data from_data wire message].
  all: unfold opt_str_entry.
  - by destruct v.
  - cbn. unfold get, get_dict; cbn. destruct d, s; done.
  - cbn. unfold get, get_dict; cbn. by destruct r.
  - unfold get_dict, get_str, get. destruct m, c, r; done.
  - unfold get_str, get. destruct m, c; done.
  - unfold get_str, get. destruct w, s; done.
  - by destruct v.
  - unfold get_str, get. destruct v, w, s; done.
  - unfold get_str, get. destruct s, t; done.
  - unfold get_str, get. destruct s; done.
  - unfold get_str, get. destruct s; done.
  - unfold get_str, get_int, get. cbn. rewrite !py_or_str.
    replace (str_or n EmptyString) with n by by destruct n.
    replace (str_or k EmptyString) with k by by destruct k.
    replace (str_or a EmptyString) with a by by destruct a.
    unfold py_or; cbn.
    destruct (Z.eqb_spec kv 0), (Z.eqb_spec sv 0), (Z.eqb_spec ev 0); cbn; by subst.
Qed.

(** Storing an event and reading it back by its recorded name. *)
Lemma from_record_data e :
  namespaced e -> from_record (event_name e) (data e) = Ok (wire e).
Proof.
  intros Hn. destruct (decide (type_of e = TBackendEventRecorded)) as [Hb|Hb].
  - destruct e; try done. unfold from_record. cbn [namespaced] in Hn.
    destruct Hn as [Hn| Hn].
    + unfold internal_name in Hn. destruct (lookup_type _ _); [done|]. done.
    + rewrite Hn, EVENT_TYPES_lookup. cbn in *. by rewrite Hn.
  - unfold from_record. replace (event_name e) with (EVENT_NAME (type_of e)) by by destruct e.
    rewrite EVENT_TYPES_lookup. by apply from_data_data.
Qed.

Lemma wire_idemp e : wire (wire e) = wire e.
Proof.
  assert (forall v, _serialize_datetime (_serialize_datetime v) = _serialize_datetime v) as Hd
    by by intros [].
  assert (forall a b, b <> EmptyString -> str_or (str_or a b) b = str_or a b) as Hs
    by (intros [] [] ?; done).
  destruct e; cbn [wire]; rewrite ?Hd, ?Hs by done; try done.
  by destruct (Z.eqb_spec key_version 0), (Z.eqb_spec envelope_version 0); subst; cbn;
    rewrite ?(proj2 (Z.eqb_neq _ _)) by done.
Qed.

(** Storing an event and reading it back by its recorded name never raises and
    gives the event in wire form (timestamps as ISO text, empty texts as their
    defaults, a zero key or envelope version of a lease as 1); the wire form is stable,
    so a second round trip changes nothing.  A backend event must not carry the name of
    a state transition. *)
Theorem event_record_roundtrip e :
  namespaced e ->
  from_record (event_name e) (data e) = Ok (wire e) /\ wire (wire e) = wire e.
Proof. intros Hn. split; [by apply from_record_data|apply wire_idemp]. Qed.

Lemma event_record_roundtrip_witness :
  from_record "DispatchLeaseIssued"
    (data (DispatchLeaseIssued "n" "k" 0 4 "aud" (VDatetime "2026-01-02T03:04:05+00:00") 1))
  = Ok (DispatchLeaseIssued "n" "k" 1 4 "aud" (VStr "2026-01-02T03:04:05+00:00") 1).
Proof.
  exact (proj1 (event_record_roundtrip
    (DispatchLeaseIssued "n" "k" 0 4 "aud" (VDatetime "2026-01-02T03:04:05+00:00") 1) I)).
Defined.
