(* ===== verification/Projection.v ===== *)
(** * The projection fold

    Translates [netbox_rpc/domain/projection.py]: the projected state of an
    execution, the reducer [apply] and the fold [rebuild], with
    [_write_projection] of [netbox_rpc/event_store.py], which copies the changed
    fields of a folded state onto the execution row. *)

From S2P Require Import Prelude PyValue Events.

Record ProjectionState : Type := MkProjection {
  status : string;
  started_at : value;
  finished_at : value;
  error_code : string;
  error_message : string;
  result : dict;
  normalized_params : dict;
  resolved_command_hash : string;
  job_id : value;
  approved_by_id : value;
}.

Definition FIELD_NAMES : list string :=
  ["status"; "started_at"; "finished_at"; "error_code"; "error_message"; "result";
   "normalized_params"; "resolved_command_hash"; "job_id"; "approved_by_id"].

(** [ProjectionState.initial]: the dataclass defaults. *)
Definition initial : ProjectionState :=
  MkProjection (status_value QUEUED) VNone VNone EmptyString EmptyString [] []
    EmptyString VNone VNone.

(** [ProjectionState.from_execution], on the projected columns of the row. *)
Definition from_execution (cols : ProjectionState) : ProjectionState :=
  MkProjection (str_or (status cols) (status_value QUEUED))
    (started_at cols) (finished_at cols) (error_code cols) (error_message cols)
    (result cols) (normalized_params cols) (resolved_command_hash cols)
    (job_id cols) (approved_by_id cols).

(** [as_update_dict]: each field of [FIELD_NAMES] with its value. *)
Definition as_update_dict (s : ProjectionState) : dict :=
  [("status", VStr (status s)); ("started_at", started_at s);
   ("finished_at", finished_at s); ("error_code", VStr (error_code s));
   ("error_message", VStr (error_message s)); ("result", VDict (result s));
   ("normalized_params", VDict (normalized_params s));
   ("resolved_command_hash", VStr (resolved_command_hash s));
   ("job_id", job_id s); ("approved_by_id", approved_by_id s)].

Section Fold.
Context `{PyLib}.

Definition _coerce_datetime (v : value) : value :=
  match v with
  | VStr EmptyString => v
  | VStr s => match fromisoformat s with Some iso => VDatetime iso | None => v end
  | _ => v
  end.

(** [replace(state, ...)] for the groups of fields the reducer replaces. *)
Definition with_status (st : ExecutionStatus) (s : ProjectionState) : ProjectionState :=
  MkProjection (status_value st) (started_at s) (finished_at s) (error_code s)
    (error_message s) (result s) (normalized_params s) (resolved_command_hash s)
    (job_id s) (approved_by_id s).

Definition with_outcome (st : ExecutionStatus) (code msg : string) (at_ : value)
    (s : ProjectionState) : ProjectionState :=
  MkProjection (status_value st) (started_at s) (_coerce_datetime at_) code msg
    (result s) (normalized_params s) (resolved_command_hash s) (job_id s)
    (approved_by_id s).

Definition with_result (r : dict) (s : ProjectionState) : ProjectionState :=
  MkProjection (status s) (started_at s) (finished_at s) (error_code s)
    (error_message s) r (normalized_params s) (resolved_command_hash s) (job_id s)
    (approved_by_id s).

Definition apply (s : ProjectionState) (e : DomainEvent) : ProjectionState :=
  match e with
  | ExecutionRequested _ => with_status REQUESTED s
  | ApprovalRequested _ _ _ => with_status PENDING_APPROVAL s
  | ExecutionApproved by_id _ _ _ =>
      let s := with_status APPROVED s in
      MkProjection (status s) (started_at s) (finished_at s) (error_code s)
        (error_message s) (result s) (normalized_params s) (resolved_command_hash s)
        (job_id s) by_id
  | ExecutionRejected _ at_ _ => with_outcome REJECTED EmptyString EmptyString at_ s
  | ExecutionExpired at_ _ => with_outcome EXPIRED EmptyString EmptyString at_ s
  | ExecutionQueued _ => with_status QUEUED s
  | ExecutionStarted at_ =>
      let s := with_status RUNNING s in
      MkProjection (status s) (_coerce_datetime at_) (finished_at s) (error_code s)
        (error_message s) (result s) (normalized_params s) (resolved_command_hash s)
        (job_id s) (approved_by_id s)
  | ParametersNormalized params hash =>
      MkProjection (status s) (started_at s) (finished_at s) (error_code s)
        (error_message s) (result s) params hash (job_id s) (approved_by_id s)
  | JobEnqueued j =>
      MkProjection (status s) (started_at s) (finished_at s) (error_code s)
        (error_message s) (result s) (normalized_params s) (resolved_command_hash s)
        j (approved_by_id s)
  | DispatchLeaseIssued _ _ _ _ _ _ _ => s
  | BackendEventRecorded _ _ _ _ => s
  | ExecutionSucceeded r at_ =>
      with_outcome SUCCEEDED EmptyString EmptyString at_ (with_result r s)
  | ExecutionFailed _ code at_ r =>
      with_outcome FAILED (str_or code "RPC_EXECUTION_FAILED") (message e) at_
        (with_result r s)
  | ExecutionEnqueueFailed _ code at_ =>
      with_outcome FAILED (str_or code "RPC_ENQUEUE_FAILED") (message e) at_ s
  | ExecutionCancelled at_ _ _ => with_outcome CANCELLED EmptyString EmptyString at_ s
  end.

Definition rebuild (events : list DomainEvent) : ProjectionState :=
  fold_left apply events initial.

(** [_write_projection]: a field is assigned only where the row's value differs
    in the sense of Python's [!=]; the second component is [update_fields]. *)
Definition keep_equal {A} (inj : A -> value) (cur new : A) : A :=
  if py_eqb (inj cur) (inj new) then cur else new.

Definition _write_projection (cur new : ProjectionState) : ProjectionState * list string :=
  (MkProjection
     (keep_equal VStr (status cur) (status new))
     (keep_equal id (started_at cur) (started_at new))
     (keep_equal id (finished_at cur) (finished_at new))
     (keep_equal VStr (error_code cur) (error_code new))
     (keep_equal VStr (error_message cur) (error_message new))
     (keep_equal VDict (result cur) (result new))
     (keep_equal VDict (normalized_params cur) (normalized_params new))
     (keep_equal VStr (resolved_command_hash cur) (resolved_command_hash new))
     (keep_equal id (job_id cur) (job_id new))
     (keep_equal id (approved_by_id cur) (approved_by_id new)),
   List.filter (fun f => negb (py_eqb (get f (as_update_dict cur)) (get f (as_update_dict new))))
     FIELD_NAMES).

(** ** The equivalence of projections: every field equal in Python's sense *)

Definition ps_equiv (s t : ProjectionState) : Prop :=
  map (fun kv => canon kv.2) (as_update_dict s) = map (fun kv => canon kv.2) (as_update_dict t).

#[global] Instance ps_equiv_equiv : Equivalence ps_equiv.
Proof. unfold ps_equiv. split; congruence. Qed.

Lemma py_eq_str a b : py_eq (VStr a) (VStr b) <-> a = b.
Proof. unfold py_eq; cbn. split; congruence. Qed.

Lemma ps_equiv_fields s t :
  ps_equiv s t <->
  status s = status t /\ py_eq (started_at s) (started_at t) /\
  py_eq (finished_at s) (finished_at t) /\ error_code s = error_code t /\
  error_message s = error_message t /\ py_eq (VDict (result s)) (VDict (result t)) /\
  py_eq (VDict (normalized_params s)) (VDict (normalized_params t)) /\
  resolved_command_hash s = resolved_command_hash t /\
  py_eq (job_id s) (job_id t) /\ py_eq (approved_by_id s) (approved_by_id t).
Proof.
  unfold ps_equiv, py_eq, as_update_dict. cbn [map snd]. split.
  - intros [=]. cbn in *. repeat split; congruence.
  - intros (?&?&?&?&?&?&?&?&?&?).
    repeat match goal with |- _ :: _ = _ :: _ => f_equal end; congruence.
Qed.

#[global] Instance apply_proper : Proper (ps_equiv ==> eq ==> ps_equiv) apply.
Proof.
  intros s t Hst e ? <-. rewrite ps_equiv_fields in *.
  destruct Hst as (?&?&?&?&?&?&?&?&?&?). by destruct e.
Qed.

#[global] Instance from_execution_proper : Proper (ps_equiv ==> ps_equiv) from_execution.
Proof.
  intros s t Hst. rewrite ps_equiv_fields in *.
  destruct Hst as (Hs&?&?&?&?&?&?&?&?&?). cbn. by rewrite Hs.
Qed.

Lemma keep_equal_equiv {A} (inj : A -> value) cur new :
  py_eq (inj (keep_equal inj cur new)) (inj new).
Proof. unfold keep_equal, py_eqb. by case_bool_decide. Qed.

Lemma keep_equal_str cur new : keep_equal VStr cur new = new.
Proof.
  pose proof (keep_equal_equiv VStr cur new) as Hk. unfold py_eq in Hk. cbn in Hk. congruence.
Qed.

(** The write leaves the row equal to the folded state. *)
Lemma write_projection_equiv cur new : ps_equiv (_write_projection cur new).1 new.
Proof.
  apply ps_equiv_fields. cbn. rewrite !keep_equal_str.
  repeat split; first [apply (keep_equal_equiv id) | apply (keep_equal_equiv VDict)].
Qed.

(** Nothing is saved exactly when the row already equals the folded state. *)
Lemma write_projection_noop cur new :
  (_write_projection cur new).2 = [] <-> ps_equiv cur new.
Proof.
  unfold _write_projection, snd.
  assert (forall f l, List.filter f l = [] <-> Forall (fun n : string => f n = false) l) as Hf.
  { clear. intros f l. induction l as [|x l IH]; cbn; [by split|].
    rewrite Forall_cons. destruct (f x); [split; [done|naive_solver]|]. rewrite IH. naive_solver. }
  rewrite Hf. unfold FIELD_NAMES. rewrite !Forall_cons, !negb_false_iff.
  unfold py_eqb. rewrite !bool_decide_eq_true. unfold get, as_update_dict. cbn.
  rewrite ps_equiv_fields, !py_eq_str. rewrite Forall_nil. tauto.
Qed.

Lemma rebuild_snoc es e : rebuild (es ++ [e]) = apply (rebuild es) e.
Proof. unfold rebuild. by rewrite fold_left_app. Qed.

(** ** Status of a folded stream *)

(** The status an event moves the execution to, if any. *)
Definition event_status (e : DomainEvent) : option ExecutionStatus :=
  match e with
  | ExecutionRequested _ => Some REQUESTED
  | ApprovalRequested _ _ _ => Some PENDING_APPROVAL
  | ExecutionApproved _ _ _ _ => Some APPROVED
  | ExecutionRejected _ _ _ => Some REJECTED
  | ExecutionExpired _ _ => Some EXPIRED
  | ExecutionQueued _ => Some QUEUED
  | ExecutionStarted _ => Some RUNNING
  | ExecutionSucceeded _ _ => Some SUCCEEDED
  | ExecutionFailed _ _ _ _ | ExecutionEnqueueFailed _ _ _ => Some FAILED
  | ExecutionCancelled _ _ _ => Some CANCELLED
  | ParametersNormalized _ _ | JobEnqueued _ | DispatchLeaseIssued _ _ _ _ _ _ _
  | BackendEventRecorded _ _ _ _ => None
  end.

Lemma apply_status s e :
  status (apply s e) = from_option status_value (status s) (event_status e).
Proof. by destruct e. Qed.

(** The status an event stream ends in: that of its last status-bearing event. *)
Definition stream_status (es : list DomainEvent) : ExecutionStatus :=
  default QUEUED (last (omap event_status es)).

Lemma stream_status_snoc es e :
  stream_status (es ++ [e]) = default (stream_status es) (event_status e).
Proof.
  unfold stream_status. rewrite omap_app. cbn.
  destruct (event_status e); cbn; [by rewrite last_snoc|by rewrite app_nil_r].
Qed.

Lemma rebuild_status es : status (rebuild es) = status_value (stream_status es).
Proof.
  induction es as [|e es IH] using rev_ind; [done|].
  rewrite rebuild_snoc, apply_status, stream_status_snoc, IH.
  by destruct (event_status e).
Qed.

(** Audit events leave the whole projection alone. *)
Lemma apply_audit_only s e :
  type_of e = TBackendEventRecorded \/ type_of e = TDispatchLeaseIssued -> apply s e = s.
Proof. by destruct e; intros [[=]|[=]]. Qed.
End Fold.
