(* ===== verification/Spans.v ===== *)
(** * Spans and pieces

    Translates the position bookkeeping of the text redaction in
    [netbox_rpc/event_store.py]: merging of spans, the piece lists that carry the
    original position of each kept character, the forward-only cursor over them,
    the binary search that aligns a bounded text with the text it was cut from,
    and the masked ranges of the structural rules.  The file is generic in the
    character type; the only character the code looks at is the byte-order mark. *)

From S2P Require Import Prelude.

Local Open Scope nat_scope.

Notation span := (nat * nat)%type.

(** A position is covered by a list of half-open spans. *)
Definition covers (l : list span) (p : nat) : Prop := Exists (fun s => s.1 <= p < s.2) l.
Definition span_wf (s : span) : Prop := s.1 <= s.2.

#[export] Instance covers_dec l p : Decision (covers l p).
Proof. unfold covers. apply _. Defined.

(** Order of tuples, as [sorted] uses it. *)
Definition span_le (a b : span) : Prop := a.1 < b.1 \/ (a.1 = b.1 /\ a.2 <= b.2).
#[export] Instance span_le_dec : RelDecision span_le.
Proof. unfold span_le. intros ??. apply _. Defined.
#[export] Instance span_le_trans : Transitive span_le.
Proof. unfold span_le. intros [] [] []; cbn; lia. Qed.
#[export] Instance span_le_total : Total span_le.
Proof. unfold span_le. intros [] []; cbn; lia. Qed.

(** The loop shared by the two merge functions: [joins start last_end] decides
    whether the next span is folded into the last one. *)
Definition coalesce_step (joins : nat -> nat -> bool) (merged : list span) (s : span) : list span :=
  match merged with
  | last :: r => if joins s.1 last.2 then (last.1, max last.2 s.2) :: r else s :: merged
  | [] => [s]
  end.
Definition coalesce (joins : nat -> nat -> bool) (l : list span) : list span :=
  rev (fold_left (coalesce_step joins) l []).

Definition _merge_spans (spans : list span) : list span :=
  coalesce (fun start last_end => start <? last_end) (merge_sort span_le spans).

Definition _merge_touching (ranges : list span) : list span :=
  coalesce (fun start last_end => start <=? last_end) ranges.

(** ** Pieces *)

(** A piece: its length and the original index of its first character, [None]
    for inserted characters (the source writes [-1]). *)
Notation Piece := (nat * option nat)%type.

(** The original index of each character a piece list describes. *)
Definition expand1 (p : Piece) : list (option nat) :=
  match p.2 with
  | Some s => Some <$> seq s p.1
  | None => replicate p.1 None
  end.
Definition expand (l : list Piece) : list (option nat) := flat_map expand1 l.

(** [_PieceCursor]: the pieces not yet passed and the offset of the first. *)
Notation _PieceCursor := (list Piece * nat)%type.

(** [_PieceCursor.take]: the pieces that cover [text[start:end_]], and the
    cursor after the call. *)
Fixpoint take_loop (start end_ : nat) (pieces : list Piece) (offset : nat)
    : list Piece * _PieceCursor :=
  match pieces with
  | [] => ([], ([], offset))
  | (length, source) :: rest =>
      let piece_end := offset + length in
      let low := max start offset in
      let high := min end_ piece_end in
      let out := if low <? high
                 then [(high - low, (fun s => s + low - offset) <$> source)] else [] in
      if end_ <? piece_end then (out, (pieces, offset))
      else let '(more, cur) := take_loop start end_ rest piece_end in (out ++ more, cur)
  end.
Definition cursor_take (start end_ : nat) (c : _PieceCursor) : list Piece * _PieceCursor :=
  take_loop start end_ c.1 c.2.

(** [text[a:b]] for [0 <= a]. *)
Definition slice {A} (a b : nat) (l : list A) : list A := take (b - a) (drop a l).

Section Engine.
Context {A : Type} `{EqDecision A}.
Variable is_bom : A -> bool.
Variable marker : list A.

(** [len(span) - len(span.lstrip(BOM))]. *)
Fixpoint leading_boms (l : list A) : nat :=
  match l with
  | [] => 0
  | c :: r => if is_bom c then S (leading_boms r) else 0
  end.

Fixpoint redact_loop (text : list A) (spans : list span) (last : nat) (cursor : _PieceCursor)
    : list A * list Piece :=
  match spans with
  | [] => (drop last text, (cursor_take last (length text) cursor).1)
  | (start, end_) :: rest =>
      let kept := leading_boms (slice start end_ text) in
      let '(head, cursor) := cursor_take last (start + kept) cursor in
      let '(_, cursor) := cursor_take (start + kept) end_ cursor in
      let '(parts, pieces) := redact_loop text rest end_ cursor in
      (slice last start text ++ take kept (slice start end_ text) ++ marker ++ parts,
       head ++ [(length marker, None)] ++ pieces)
  end.
Definition _redact_spans_tracked (text : list A) (pieces : list Piece) (spans : list span)
    : list A * list Piece :=
  redact_loop text spans 0 (pieces, 0).

(** The binary search of [_bound_tracked]; each round shrinks [high - low]. *)
Fixpoint prefix_search (fuel : nat) (text bounded : list A) (low high : nat) : nat :=
  match fuel with
  | O => low
  | S fuel =>
      if low <? high then
        let middle := (low + high + 1) / 2 in
        if bool_decide (take middle text = take middle bounded)
        then prefix_search fuel text bounded middle high
        else prefix_search fuel text bounded low (middle - 1)
      else low
  end.
Definition _bound_tracked (text : list A) (pieces : list Piece) (bounded : list A) : list Piece :=
  if bool_decide (bounded = text) then pieces else
  let high := min (length text) (length bounded) in
  let low := prefix_search high text bounded 0 high in
  (cursor_take 0 low (pieces, 0)).1
    ++ (if low <? length bounded then [(length bounded - low, None)] else []).

(** ** Masked ranges *)

Fixpoint drop_ended (source : nat) (structural : list span) : list span :=
  match structural with
  | [] => []
  | s :: r => if s.2 <=? source then drop_ended source r else structural
  end.
Fixpoint overlapping (offset source length : nat) (structural : list span) : list span :=
  match structural with
  | [] => []
  | s :: r =>
      if s.1 <? source + length
      then (offset + (max s.1 source - source),
            offset + (min s.2 (source + length) - source)) :: overlapping offset source length r
      else []
  end.
Fixpoint masked_loop (pieces : list Piece) (structural : list span) (offset : nat) : list span :=
  match pieces with
  | [] => []
  | (length, source) :: rest =>
      match source with
      | Some src =>
          let structural := drop_ended src structural in
          overlapping offset src length structural
            ++ masked_loop rest structural (offset + length)
      | None => masked_loop rest structural (offset + length)
      end
  end.

Fixpoint inserted_loop (pieces : list Piece) (offset : nat) : list span :=
  match pieces with
  | [] => []
  | (length, source) :: rest =>
      match source with
      | None => [(offset, offset + length)]
      | Some _ => []
      end ++ inserted_loop rest (offset + length)
  end.
Definition _inserted_ranges (pieces : list Piece) : list span := inserted_loop pieces 0.

(** Tagged ranges: [(start, end, masked)], sorted as tuples ([False < True]). *)
Notation tagged := (nat * nat * bool)%type.
Definition tagged_le (a b : tagged) : Prop :=
  span_le a.1 b.1 /\ (a.1 = b.1 -> implb a.2 b.2 = true).
#[global] Instance tagged_le_dec : RelDecision tagged_le.
Proof. unfold tagged_le. intros ??. apply _. Defined.

Definition group_step (groups : list tagged) (t : tagged) : list tagged :=
  match groups with
  | g :: r => if t.1.1 <=? g.1.2
              then (g.1.1, max g.1.2 t.1.2, g.2 || t.2) :: r else t :: groups
  | [] => [t]
  end.
Definition _absorb_inserted (pieces : list Piece) (ranges : list span) : list span :=
  match ranges with
  | [] => ranges
  | _ =>
      let tags := ((fun r => (r, true)) <$> ranges)
                    ++ ((fun r => (r, false)) <$> _inserted_ranges pieces) in
      let groups := rev (fold_left group_step (merge_sort tagged_le tags) []) in
      fst <$> List.filter snd groups
  end.

Definition _masked_ranges (pieces : list Piece) (structural : list span) : list span :=
  _absorb_inserted pieces (_merge_touching (masked_loop pieces structural 0)).

Fixpoint mask_loop (text : list A) (ranges : list span) (last : nat) : list A :=
  match ranges with
  | [] => drop last text
  | (start, end_) :: rest => slice last start text ++ marker ++ mask_loop text rest end_
  end.
Definition _mask_structural (text : list A) (pieces : list Piece) (structural : list span)
    : list A :=
  mask_loop text (_masked_ranges pieces structural) 0.
End Engine.
