(* ===== verification/SpanFacts.v ===== *)
(** * Facts about spans and pieces

    The span merges keep exactly the covered positions and leave the spans in
    order; the piece cursor returns the pieces of the requested range; redaction
    and bounding keep the piece list aligned with the text; a masked text keeps no
    character that a structural span covers. *)

From S2P Require Import Prelude Spans.

Local Open Scope nat_scope.

(** Spans in order, not overlapping, none inverted. *)
Definition separated (l : list span) : Prop :=
  StronglySorted (fun a b => a.2 <= b.1) l /\ Forall span_wf l.

(** All spans end within a text of length [n]. *)
Definition within (n : nat) (l : list span) : Prop := Forall (fun s => s.2 <= n) l.

Lemma covers_nil p : ~ covers [] p.
Proof. intros H. inversion H. Qed.
Lemma covers_cons s l p : covers (s :: l) p <-> s.1 <= p < s.2 \/ covers l p.
Proof. unfold covers. by rewrite Exists_cons. Qed.
Lemma covers_app l m p : covers (l ++ m) p <-> covers l p \/ covers m p.
Proof. unfold covers. by rewrite Exists_app. Qed.
Lemma covers_elem l p : covers l p <-> exists s, s ∈ l /\ s.1 <= p < s.2.
Proof. unfold covers. by rewrite Exists_exists. Qed.
Lemma covers_perm l m p : l ≡ₚ m -> covers l p <-> covers m p.
Proof. intros Hp. rewrite !covers_elem. by setoid_rewrite Hp. Qed.
#[export] Instance covers_proper : Proper ((≡ₚ) ==> eq ==> iff) covers.
Proof. intros l m Hp p ? <-. by apply covers_perm. Qed.
Lemma covers_rev l p : covers (rev l) p <-> covers l p.
Proof. apply covers_perm. symmetry. apply Permutation_rev. Qed.

Lemma StronglySorted_rev {A} (R : relation A) l :
  StronglySorted (flip R) l -> StronglySorted R (rev l).
Proof.
  induction l as [|x l IH]; cbn; [constructor|].
  rewrite StronglySorted_cons, StronglySorted_app. intros [Hx Hl].
  split_and!; [|by apply IH|repeat constructor].
  intros y z Hy Hz. rewrite list_elem_of_singleton in Hz. subst z.
  rewrite Forall_forall in Hx. apply Hx. by rewrite <- Permutation_rev in Hy.
Qed.

Section Coalesce.
Variable joins : nat -> nat -> bool.
Hypothesis joins_le : forall a b, joins a b = true -> a <= b.
Hypothesis not_joins_le : forall a b, joins a b = false -> b <= a.

(** The accumulator read from its head: later spans first. *)
Local Definition acc_ok (acc : list span) : Prop :=
  StronglySorted (flip (fun a b => a.2 <= b.1)) acc /\ Forall span_wf acc.
Local Definition above (acc l : list span) : Prop :=
  forall a b, a ∈ acc -> b ∈ l -> a.1 <= b.1.

Lemma coalesce_step_ok acc s :
  acc_ok acc -> span_wf s -> above acc [s] ->
  acc_ok (coalesce_step joins acc s) /\
  (forall p, covers (coalesce_step joins acc s) p <-> covers acc p \/ s.1 <= p < s.2) /\
  (forall a, a ∈ coalesce_step joins acc s -> a.1 = s.1 \/ exists b, b ∈ acc /\ a.1 = b.1).
Proof.
  intros [Hs Hw] Hswf Hab. destruct s as [ss se].
  destruct acc as [|[ls le] acc]; cbn [coalesce_step fst snd].
  { split_and!; [by repeat constructor| |intros a ->%list_elem_of_singleton; by left].
    intros p. rewrite covers_cons. pose proof (covers_nil p). cbn. naive_solver. }
  rewrite StronglySorted_cons, Forall_cons in *. unfold flip in Hs; cbn [fst snd] in Hs.
  destruct Hs as [Hfa Hs], Hw as [Hl Hw]. unfold span_wf in *. cbn in Hl, Hswf.
  assert (ls <= ss) by (apply (Hab (ls, le) (ss, se)); left).
  destruct (joins ss le) eqn:E.
  - apply joins_le in E. split_and!.
    + split; [apply StronglySorted_cons; split; [exact Hfa|done]|].
      apply Forall_cons; split; [unfold span_wf; cbn; lia|done].
    + intros p. rewrite !covers_cons. cbn.
      assert (ls <= p < max le se <-> ls <= p < le \/ ss <= p < se) by lia. tauto.
    + intros a [->|?]%elem_of_cons; right;
        [exists (ls, le); by split; [left|]|exists a; by split; [right|]].
  - apply not_joins_le in E. split_and!.
    + split.
      * rewrite !StronglySorted_cons, Forall_cons. unfold flip. cbn.
        split_and!; try done. eapply Forall_impl; [exact Hfa|]. cbn. intros; lia.
      * rewrite !Forall_cons. cbn. auto.
    + intros p. rewrite !covers_cons. cbn. tauto.
    + intros a [->|?]%elem_of_cons; [by left|right; exists a; done].
Qed.

Lemma coalesce_fold_ok l acc :
  acc_ok acc -> Forall span_wf l -> StronglySorted (fun a b => a.1 <= b.1) l -> above acc l ->
  acc_ok (fold_left (coalesce_step joins) l acc) /\
  (forall p, covers (fold_left (coalesce_step joins) l acc) p <-> covers acc p \/ covers l p).
Proof.
  revert acc. induction l as [|s l IH]; intros acc Hacc Hwf Hss Hab; cbn.
  { split; [done|]. intros p. pose proof (covers_nil p). tauto. }
  apply Forall_cons in Hwf as [Hswf Hwf]. apply StronglySorted_cons in Hss as [Hle Hss].
  destruct (coalesce_step_ok acc s) as (Hok & Hcov & Hst); [done..| |].
  { intros a b Ha ->%list_elem_of_singleton. apply Hab; [done|left]. }
  destruct (IH (coalesce_step joins acc s)) as [Hok' Hcov']; [done..| |].
  { intros a b Ha Hb. rewrite Forall_forall in Hle. specialize (Hle b Hb).
    destruct (Hst a Ha) as [->|(c & Hc & ->)]; [done|]. apply (Hab c b); [done|by right]. }
  split; [done|]. intros p. rewrite Hcov', Hcov, covers_cons. tauto.
Qed.

Lemma coalesce_within n l : within n l -> within n (coalesce joins l).
Proof.
  unfold coalesce, within. intros Hl. apply Forall_rev.
  enough (forall acc, within n acc -> within n (fold_left (coalesce_step joins) l acc)) as H
    by (apply H; constructor).
  induction Hl as [|s l Hs Hl IH]; intros acc Hacc; cbn [fold_left]; [done|].
  apply IH. destruct Hacc as [|last r]; cbn [coalesce_step]; [by repeat constructor|].
  destruct (joins s.1 last.2); repeat constructor; cbn; try done; lia.
Qed.

Lemma coalesce_ok l :
  Forall span_wf l -> StronglySorted (fun a b => a.1 <= b.1) l ->
  separated (coalesce joins l) /\ (forall p, covers (coalesce joins l) p <-> covers l p).
Proof.
  intros Hwf Hss. unfold coalesce.
  destruct (coalesce_fold_ok l []) as [[Hs Hw] Hcov]; [by repeat constructor|done..| |].
  { by intros a b Ha%elem_of_nil. }
  split.
  - split; [by apply StronglySorted_rev|by apply Forall_rev].
  - intros p. rewrite covers_rev, Hcov. pose proof (covers_nil p). tauto.
Qed.
End Coalesce.

Lemma merge_spans_ok l :
  Forall span_wf l ->
  separated (_merge_spans l) /\ (forall p, covers (_merge_spans l) p <-> covers l p).
Proof.
  intros Hwf. unfold _merge_spans.
  destruct (coalesce_ok (fun a b => a <? b) ltac:(intros ??; rewrite Nat.ltb_lt; lia)
    ltac:(intros ??; rewrite Nat.ltb_ge; lia) (merge_sort span_le l)) as [Hs Hc].
  - by rewrite merge_sort_Permutation.
  - pose proof (StronglySorted_merge_sort span_le l) as Hss.
    induction Hss as [|x k Hk IHk Hx]; constructor; [done|].
    eapply Forall_impl; [exact Hx|]. unfold span_le. intros; lia.
  - split; [done|]. intros p. rewrite Hc. apply covers_perm, merge_sort_Permutation.
Qed.

Lemma separated_starts l : separated l -> StronglySorted (fun a b => a.1 <= b.1) l.
Proof.
  intros [Hs Hw]. induction Hs as [|x k Hk IHk Hx]; constructor.
  - apply IHk. by apply Forall_cons in Hw as [_ ?].
  - apply Forall_cons in Hw as [Hxw _]. eapply Forall_impl; [exact Hx|].
    unfold span_wf in Hxw. cbn. intros; lia.
Qed.

Lemma merge_touching_ok l :
  separated l -> separated (_merge_touching l) /\
  (forall p, covers (_merge_touching l) p <-> covers l p).
Proof.
  intros Hsep. apply coalesce_ok.
  - intros ??; rewrite Nat.leb_le; lia.
  - intros ??; rewrite Nat.leb_gt; lia.
  - by destruct Hsep.
  - by apply separated_starts.
Qed.

(** ** Slices *)

Section Slice.
Context {A : Type}.
Implicit Types l m : list A.

Lemma slice_app a b l m :
  slice a b (l ++ m) = slice a (min b (length l)) l ++ slice (a - length l) (b - length l) m.
Proof.
  unfold slice. rewrite drop_app, take_app, length_drop. f_equal.
  - destruct (decide (b <= length l)); [by rewrite Nat.min_l by lia|].
    rewrite Nat.min_r by lia. rewrite !take_ge; rewrite ?length_drop; [done|lia..].
  - f_equal. lia.
Qed.

Lemma slice_drop a b n l : n <= a -> slice (a - n) (b - n) (drop n l) = slice a b l.
Proof. intros. unfold slice. rewrite drop_drop. f_equal; [lia|f_equal; lia]. Qed.

Lemma slice_split a b c l : a <= b -> b <= c -> slice a c l = slice a b l ++ slice b c l.
Proof.
  intros. unfold slice. replace (c - a) with ((b - a) + (c - b)) by lia.
  rewrite <- take_take_drop. f_equal. rewrite drop_drop. do 2 f_equal. lia.
Qed.

Lemma slice_nil a b l : b <= a -> slice a b l = [].
Proof. intros. unfold slice. by replace (b - a) with 0 by lia. Qed.

Lemma slice_to_end a l : slice a (length l) l = drop a l.
Proof. unfold slice. apply take_ge. rewrite length_drop. lia. Qed.

Lemma length_slice a b l : length (slice a b l) = min (b - a) (length l - a).
Proof. unfold slice. by rewrite length_take, length_drop. Qed.

Lemma take_slice n a b l : n <= b - a -> take n (slice a b l) = slice a (a + n) l.
Proof. intros. unfold slice. rewrite take_take. f_equal. lia. Qed.

Lemma sublist_slice a b l : slice a b l `sublist_of` l.
Proof. unfold slice. etrans; [apply sublist_take|apply sublist_drop]. Qed.

Lemma lookup_slice a b l i : i < b - a -> slice a b l !! i = l !! (a + i).
Proof. intros. unfold slice. by rewrite lookup_take_lt, lookup_drop by lia. Qed.
End Slice.

Lemma Forall2_slice {A B} (P : A -> B -> Prop) a b l m :
  Forall2 P l m -> Forall2 P (slice a b l) (slice a b m).
Proof. intros. by apply Forall2_take, Forall2_drop. Qed.

Lemma slice_seq a b s n :
  b <= n -> slice a b (seq s n) = seq (s + a) (b - a).
Proof.
  intros Hb. unfold slice. apply list_eq. intros i.
  destruct (decide (i < b - a)).
  - rewrite lookup_take_lt, lookup_drop by lia. rewrite !lookup_seq_lt by lia. f_equal; lia.
  - rewrite lookup_take_ge, lookup_seq_ge by lia. done.
Qed.

(** ** The piece cursor *)

Lemma length_expand1 p : length (expand1 p) = p.1.
Proof. destruct p as [n [s|]]; cbn; [by rewrite length_fmap, length_seq|by rewrite length_replicate]. Qed.

Lemma expand_cons p l : expand (p :: l) = expand1 p ++ expand l.
Proof. done. Qed.
Lemma expand_app l m : expand (l ++ m) = expand l ++ expand m.
Proof. unfold expand. apply flat_map_app. Qed.
Lemma expand_singleton p : expand [p] = expand1 p.
Proof. cbn. by rewrite app_nil_r. Qed.

(** One piece cut to a range. *)
Lemma expand1_cut n src a b :
  b <= n -> expand (if a <? b then [(b - a, (fun s => s + a) <$> src)] else []) =
            slice a b (expand1 (n, src)).
Proof.
  intros Hb. destruct (Nat.ltb_spec a b).
  - rewrite expand_singleton. destruct src as [s|]; cbn; unfold expand1; cbn.
    + unfold slice. rewrite <- fmap_drop, <- fmap_take. f_equal.
      symmetry. apply slice_seq. lia.
    + unfold slice. rewrite drop_replicate, take_replicate. f_equal. lia.
  - by rewrite slice_nil.
Qed.

Lemma take_loop_spec start end_ pieces off :
  off <= end_ ->
  let r := take_loop start end_ pieces off in
  expand r.1 = slice (start - off) (end_ - off) (expand pieces) /\
  off <= r.2.2 <= end_ /\ expand r.2.1 = drop (r.2.2 - off) (expand pieces).
Proof.
  revert off. induction pieces as [|[n src] rest IH]; intros off Hoff; cbn [take_loop].
  { cbn. unfold slice. rewrite drop_nil, take_nil. rewrite drop_nil. split_and!; [done|lia..|done]. }
  rewrite expand_cons.
  assert (expand (if max start off <? min end_ (off + n)
            then [(min end_ (off + n) - max start off,
                   (fun s => s + max start off - off) <$> src)] else [])
          = slice (start - off) (min (end_ - off) n) (expand1 (n, src))) as Hout.
  { rewrite <- (expand1_cut n src) by lia.
    destruct (Nat.ltb_spec (max start off) (min end_ (off + n))),
      (Nat.ltb_spec (start - off) (min (end_ - off) n)); try lia; [|done].
    replace (min end_ (off + n) - max start off) with (min (end_ - off) n - (start - off)) by lia.
    destruct src as [s|]; cbn [fmap option_fmap option_map]; [|done].
    by replace (s + max start off - off) with (s + (start - off)) by lia. }
  rewrite slice_app, length_expand1. cbn [fst snd].
  destruct (Nat.ltb_spec end_ (off + n)).
  - cbn [fst snd]. rewrite Hout. split_and!; [|lia..|].
    + rewrite (slice_nil _ (end_ - off - n)) by lia. by rewrite app_nil_r.
    + rewrite Nat.sub_diag, drop_0. by rewrite expand_cons.
  - specialize (IH (off + n) ltac:(lia)).
    destruct (take_loop start end_ rest (off + n)) as [more [cp co]]; cbn [fst snd] in *.
    destruct IH as (He & Hr & Hd). rewrite expand_app, Hout, He. split_and!; [|lia..|].
    + f_equal; f_equal; lia.
    + rewrite Hd, drop_app_ge by (rewrite length_expand1; cbn; lia).
      rewrite length_expand1. f_equal. cbn; lia.
Qed.

(** What a cursor over [origins] stands for: everything from its offset on. *)
Definition cursor_at (origins : list (option nat)) (c : _PieceCursor) : Prop :=
  expand c.1 = drop c.2 origins.

Lemma cursor_take_spec start end_ c origins :
  cursor_at origins c -> c.2 <= start -> start <= end_ ->
  let r := cursor_take start end_ c in
  expand r.1 = slice start end_ origins /\ cursor_at origins r.2 /\ r.2.2 <= end_.
Proof.
  unfold cursor_at, cursor_take. destruct c as [cp co]; cbn [fst snd]. intros Hc Hs He.
  destruct (take_loop_spec start end_ cp co ltac:(lia)) as (H1 & H2 & H3).
  cbn in *. rewrite Hc in H1, H3. rewrite slice_drop in H1 by done.
  rewrite drop_drop in H3. split_and!; [done| |lia].
  rewrite H3. f_equal. lia.
Qed.

(** ** Redaction of spans *)

(** Spans in order from [last] on, inside a text of length [n]. *)
Fixpoint ordered_from (last n : nat) (spans : list span) : Prop :=
  match spans with
  | [] => last <= n
  | (s, e) :: r => last <= s /\ s <= e /\ ordered_from e n r
  end.

Lemma ordered_from_le last n spans : ordered_from last n spans -> last <= n.
Proof. revert last. induction spans as [|[s e] r IH]; cbn; [done|]. intros last (?&?&?%IH). lia. Qed.

Lemma ordered_from_separated last n l :
  separated l -> within n l -> Forall (fun s => last <= s.1) l -> last <= n ->
  ordered_from last n l.
Proof.
  intros [Hs Hw] Hn Hl Hln. revert last Hl Hln.
  induction Hs as [|[s e] r Hr IH Hx]; intros last Hl Hln; cbn; [done|].
  apply Forall_cons in Hw as [Hse Hw], Hn as [Hen Hn], Hl as [Hls Hl]. cbn in *.
  split_and!; [done..|]. apply IH; done.
Qed.

Lemma covers_ordered last n spans i : ordered_from last n spans -> covers spans i -> last <= i < n.
Proof.
  revert last. induction spans as [|[s e] r IH]; cbn; intros last Ho Hc.
  - by apply covers_nil in Hc.
  - destruct Ho as (?&?&Ho). pose proof (ordered_from_le _ _ _ Ho).
    apply covers_cons in Hc as [Hc|Hc]; cbn in *; [lia|]. specialize (IH _ Ho Hc). lia.
Qed.

(** The characters of [text] at the given positions, [None] for a marker. *)
Definition render {A} (marker text : list A) (toks : list (option nat)) : list A :=
  flat_map (fun t => match t with
                     | Some i => match text !! i with Some c => [c] | None => [] end
                     | None => marker end) toks.

(** Each character of [text] with an origin is that character of [orig]; the others
    are inserted, and satisfy [ins]. *)
Definition tracks {A} (ins : A -> Prop) (orig text : list A) (origins : list (option nat)) : Prop :=
  Forall2 (fun c o => match o with Some j => orig !! j = Some c | None => ins c end) text origins.

(** Original positions occur in increasing order. *)
Definition increasing (origins : list (option nat)) : Prop :=
  StronglySorted lt (omap id origins).

Lemma StronglySorted_sublist {A} (R : relation A) l m :
  l `sublist_of` m -> StronglySorted R m -> StronglySorted R l.
Proof.
  induction 1 as [|x k k' Hk IH|x k k' Hk IH]; [done|..]; rewrite ?StronglySorted_cons.
  - intros [Hx ?]. split; [|by apply IH]. rewrite Forall_forall in *.
    intros y Hy. apply Hx. by eapply elem_of_sublist.
  - intros [_ ?]. by apply IH.
Qed.

Lemma increasing_sublist o o' : o `sublist_of` o' -> increasing o' -> increasing o.
Proof.
  intros Hs. apply StronglySorted_sublist.
  induction Hs as [|x k k' Hk IH|x k k' Hk IH]; cbn; [done|..];
    destruct x as [x|]; cbn; try done; by constructor.
Qed.

(** The origins that are known. *)
Notation known := (omap (M:=list) (A:=option nat) (B:=nat) id).

Lemma omap_replicate_None n : omap id (replicate n (@None nat)) = [].
Proof. induction n; done. Qed.

Lemma render_seq {B} (marker text : list B) a k : a + k <= length text -> render marker text (Some <$> seq a k) = slice a (a + k) text.
Proof.
  revert a. induction k as [|k IH]; intros a Hak; cbn.
  - by rewrite slice_nil by lia.
  - destruct (lookup_lt_is_Some_2 text a) as [c Hc]; [lia|]. rewrite Hc.
    rewrite (slice_split a (S a)) by lia. f_equal.
    + unfold slice. replace (S a - a) with 1 by lia.
      rewrite (drop_S text c a Hc). done.
    + replace (a + S k) with (S a + k) by lia. apply IH. lia.
Qed.

Lemma render_app {B} (marker text : list B) t t' : render marker text (t ++ t') = render marker text t ++ render marker text t'.
Proof. apply flat_map_app. Qed.

Section Redact.
Context {A : Type} `{EqDecision A}.
Variable is_bom : A -> bool.
Variable marker : list A.
Implicit Types text orig : list A.

Lemma leading_boms_le text : leading_boms is_bom text <= length text.
Proof. induction text as [|c r IH]; cbn; [lia|]. destruct (is_bom c); lia. Qed.

Lemma leading_boms_bom text i :
  i < leading_boms is_bom text -> exists c, text !! i = Some c /\ is_bom c = true.
Proof.
  revert i. induction text as [|c r IH]; cbn; intros i Hi; [lia|].
  destruct (is_bom c) eqn:E; [|lia]. destruct i; cbn; [eauto|]. apply IH. lia.
Qed.

Fixpoint redact_toks (text : list A) (spans : list span) (last : nat) : list (option nat) :=
  match spans with
  | [] => Some <$> seq last (length text - last)
  | (s, e) :: r =>
      (Some <$> seq last (s + leading_boms is_bom (slice s e text) - last))
        ++ None :: redact_toks text r e
  end.

Lemma kept_le text s e : s <= e -> e <= length text ->
  s + leading_boms is_bom (slice s e text) <= e.
Proof.
  intros. pose proof (leading_boms_le (slice s e text)) as Hb.
  rewrite length_slice in Hb. lia.
Qed.

Lemma redact_loop_head text last s e :
  last <= s -> s <= e -> e <= length text ->
  slice last s text ++ take (leading_boms is_bom (slice s e text)) (slice s e text)
  = slice last (s + leading_boms is_bom (slice s e text)) text.
Proof.
  intros. pose proof (kept_le text s e).
  rewrite (slice_split last s (s + _)) by lia. f_equal.
  apply take_slice. lia.
Qed.

Lemma redact_loop_render text spans last c :
  ordered_from last (length text) spans ->
  (redact_loop is_bom marker text spans last c).1 = render marker text (redact_toks text spans last).
Proof.
  revert last c. induction spans as [|[s e] r IH]; intros last c Ho; cbn [redact_loop redact_toks].
  - cbn in Ho. cbn [fst]. rewrite render_seq by lia. rewrite Nat.add_comm, Nat.sub_add by lia.
    by rewrite slice_to_end.
  - destruct Ho as (Hls & Hse & Ho). pose proof (ordered_from_le _ _ _ Ho).
    pose proof (kept_le text s e Hse ltac:(lia)).
    destruct (cursor_take last _ c) as [head c1].
    destruct (cursor_take _ e c1) as [? c2].
    specialize (IH e c2 Ho). destruct (redact_loop is_bom marker text r e c2) as [parts pieces].
    cbn [fst] in *. rewrite render_app, render_seq by lia. cbn [render flat_map].
    rewrite IH, !app_assoc. f_equal. f_equal.
    rewrite redact_loop_head by lia. f_equal. lia.
Qed.

Lemma redact_toks_spec text spans last i :
  ordered_from last (length text) spans ->
  (Some i ∈ redact_toks text spans last ->
     last <= i < length text /\
     (~ covers spans i \/ exists c, text !! i = Some c /\ is_bom c = true)) /\
  (last <= i < length text -> ~ covers spans i -> Some i ∈ redact_toks text spans last).
Proof.
  revert last. induction spans as [|[s e] r IH]; intros last Ho; cbn [redact_toks].
  { cbn in Ho. rewrite list_elem_of_fmap. split.
    - intros (j & [= ->] & Hj%elem_of_seq). split; [lia|]. left. apply covers_nil.
    - intros Hi _. exists i. split; [done|]. apply elem_of_seq. lia. }
  destruct Ho as (Hls & Hse & Ho). pose proof (ordered_from_le _ _ _ Ho).
  pose proof (kept_le text s e Hse ltac:(lia)) as Hk. destruct (IH e Ho) as [IH1 IH2].
  rewrite elem_of_app, elem_of_cons, list_elem_of_fmap, covers_cons. cbn [fst snd]. split.
  - intros [(j & [= ->] & Hj%elem_of_seq)|[?|Hin]]; [|done|].
    + split; [lia|]. destruct (decide (j < s)) as [Hjs|Hjs].
      * left. intros [?|Hc]; [lia|]. apply (covers_ordered _ _ _ _ Ho) in Hc. lia.
      * right. destruct (leading_boms_bom (slice s e text) (j - s)) as (c & Hc & Hb); [lia|].
        rewrite lookup_slice in Hc by lia. exists c. split; [|done].
        rewrite <- Hc. f_equal. lia.
    + destruct (IH1 Hin) as [? [Hnc|?]]; (split; [lia|]); [left|by right].
      intros [?|?]; [lia|done].
  - intros Hi Hnc. destruct (decide (i < s)).
    + left. exists i. split; [done|]. apply elem_of_seq. lia.
    + right; right. apply IH2; [|tauto]. split; [|lia].
      destruct (decide (i < e)); [|lia]. exfalso; apply Hnc; left; lia.
Qed.

Lemma redact_loop_origins text origins spans last c :
  length origins = length text -> cursor_at origins c -> c.2 <= last ->
  ordered_from last (length text) spans ->
  expand (redact_loop is_bom marker text spans last c).2
  = render (replicate (length marker) None) origins (redact_toks text spans last).
Proof.
  intros Hlen. revert last c.
  induction spans as [|[s e] r IH]; intros last c Hc Hcl Ho; cbn [redact_loop redact_toks].
  - cbn in Ho. destruct (cursor_take_spec last (length text) c origins Hc Hcl Ho) as (H1 & _ & _).
    cbn [fst snd]. rewrite H1, render_seq by lia. f_equal. lia.
  - destruct Ho as (Hls & Hse & Ho). pose proof (ordered_from_le _ _ _ Ho).
    pose proof (kept_le text s e Hse ltac:(lia)) as Hk.
    set (kept := leading_boms is_bom (slice s e text)) in *.
    destruct (cursor_take_spec last (s + kept) c origins Hc Hcl ltac:(lia)) as (H1 & H2 & H3).
    destruct (cursor_take last (s + kept) c) as [head c1]; cbn [fst snd] in *.
    destruct (cursor_take_spec (s + kept) e c1 origins H2 H3 Hk) as (_ & H5 & H6).
    destruct (cursor_take (s + kept) e c1) as [? c2]; cbn [fst snd] in *.
    specialize (IH e c2 H5 H6 Ho).
    destruct (redact_loop is_bom marker text r e c2) as [parts pieces]; cbn [fst snd] in *.
    rewrite !expand_app, H1, expand_singleton, IH, render_app, render_seq by lia.
    cbn [expand1 fst snd render flat_map]. f_equal. f_equal. lia.
Qed.

Lemma redact_toks_sublist text (origins : list (option nat)) spans last k :
  length origins = length text -> ordered_from last (length text) spans ->
  known (render (replicate k None) origins (redact_toks text spans last))
    `sublist_of` known (drop last origins).
Proof.
  intros Hlen. revert last. induction spans as [|[s e] r IH]; intros last Ho; cbn [redact_toks].
  - cbn in Ho. rewrite render_seq by lia. rewrite Nat.add_comm, Nat.sub_add by lia.
    by rewrite <- Hlen, slice_to_end.
  - destruct Ho as (Hls & Hse & Ho). pose proof (ordered_from_le _ _ _ Ho).
    pose proof (kept_le text s e Hse ltac:(lia)) as Hk.
    set (kept := leading_boms is_bom (slice s e text)) in *.
    rewrite render_app, render_seq by lia. cbn [render flat_map].
    rewrite !omap_app, omap_replicate_None. cbn [app].
    assert (drop last origins = slice last (s + kept) origins ++ slice (s + kept) e origins
            ++ drop e origins) as ->.
    { rewrite <- (slice_to_end last), <- (slice_to_end e), Hlen.
      by rewrite <- slice_split, <- slice_split by lia. }
    rewrite !omap_app. apply sublist_app; [|by apply sublist_inserts_l, IH].
    by replace (last + (s + kept - last)) with (s + kept) by lia.
Qed.
End Redact.

Section Render.
Context {A : Type}.
Variable ins : A -> Prop.
Implicit Types text orig marker : list A.

Lemma tracks_inserted orig l : Forall ins l -> tracks ins orig l (replicate (length l) None).
Proof. induction 1; cbn; by constructor. Qed.

Lemma render_tracks marker orig text origins toks :
  Forall ins marker -> tracks ins orig text origins ->
  tracks ins orig (render marker text toks) (render (replicate (length marker) None) origins toks).
Proof.
  intros Hm Ht. induction toks as [|o toks IH]; cbn [render flat_map]; [constructor|].
  apply Forall2_app; [|done]. destruct o as [i|].
  - pose proof (Forall2_length _ _ _ Ht) as Hlen.
    destruct (text !! i) as [c|] eqn:E.
    + destruct (Forall2_lookup_l _ _ _ _ _ Ht E) as (y & Hy & ?). rewrite Hy. by repeat constructor.
    + rewrite (lookup_ge_None_2 origins); [constructor|].
      apply lookup_ge_None in E. lia.
  - by apply tracks_inserted.
Qed.

Lemma elem_of_render_origins k (origins : list (option nat)) toks j :
  Some j ∈ render (replicate k None) origins toks ->
  exists i, Some i ∈ toks /\ origins !! i = Some (Some j).
Proof.
  induction toks as [|o toks IH]; cbn [render flat_map]; [by intros ?%elem_of_nil|].
  rewrite elem_of_app. intros [Hj|(i & ? & ?)%IH]; [|exists i; split; [by right|done]].
  destruct o as [i|]; [|by apply elem_of_replicate in Hj as [? _]].
  destruct (origins !! i) as [o|] eqn:E; [|by apply elem_of_nil in Hj].
  apply list_elem_of_singleton in Hj as <-. exists i. split; [left|done].
Qed.

(** Composition of two steps. *)
Definition via (o1 o2 : list (option nat)) : list (option nat) :=
  (fun o => j ← o; mjoin (o1 !! j)) <$> o2.

Lemma tracks_via orig mid text o1 o2 :
  tracks ins orig mid o1 -> tracks ins mid text o2 -> tracks ins orig text (via o1 o2).
Proof.
  intros H1 H2. unfold via. apply Forall2_fmap_r. eapply Forall2_impl; [exact H2|].
  cbn. intros c [j|] Hc; cbn; [|done].
  destruct (Forall2_lookup_l _ _ _ _ _ H1 Hc) as (y & -> & Hy). by destruct y.
Qed.

Lemma elem_of_via o1 o2 j : Some j ∈ via o1 o2 -> Some j ∈ o1.
Proof.
  unfold via. rewrite list_elem_of_fmap. intros ([i|] & Hj & _); cbn in Hj; [|done].
  destruct (o1 !! i) as [[k|]|] eqn:E; cbn in Hj; simplify_eq.
  by eapply list_elem_of_lookup_2.
Qed.

Lemma increasing_lookup o i i' a b :
  increasing o -> i < i' -> o !! i = Some (Some a) -> o !! i' = Some (Some b) -> a < b.
Proof.
  unfold increasing. intros Hs Hi Ha Hb.
  rewrite <- (take_drop i' o), omap_app, StronglySorted_app in Hs. destruct Hs as (Hlt & _ & _).
  apply Hlt; apply list_elem_of_omap; [exists (Some a)|exists (Some b)]; (split; [|done]);
    apply list_elem_of_lookup.
  - exists i. by rewrite lookup_take_lt.
  - exists 0. by rewrite lookup_drop, Nat.add_0_r.
Qed.

Lemma increasing_via o1 o2 : increasing o1 -> increasing o2 -> increasing (via o1 o2).
Proof.
  intros H1. unfold increasing. induction o2 as [|o o2 IH]; cbn; [done|].
  destruct o as [j|]; cbn; [|done]. rewrite StronglySorted_cons, Forall_forall.
  intros [Hj Hs]. specialize (IH Hs). destruct (o1 !! j) as [[a|]|] eqn:E; cbn; [|done..].
  apply StronglySorted_cons. split; [|done]. apply Forall_forall. intros b Hb.
  apply list_elem_of_omap in Hb as ([b'|] & Hb & Heq); cbn in Heq; [|done]. injection Heq as ->.
  unfold via in Hb. apply list_elem_of_fmap in Hb as ([j'|] & Hb & Hin); cbn in Hb; [|done].
  destruct (o1 !! j') as [[?|]|] eqn:E'; cbn in Hb; simplify_eq.
  eapply increasing_lookup; [exact H1| |exact E|exact E'].
  apply Hj, list_elem_of_omap. by exists (Some j').
Qed.
End Render.
