(* ===== verification/MaskFacts.v ===== *)
(** * Facts about bounding and structural masking

    The binary search of [_bound_tracked] finds the longest common prefix; the
    masked ranges are the images of the structural spans in the working text,
    plus inserted characters that touch them; a masked text keeps no character
    of a structural span and every other character of the original. *)

From S2P Require Import Prelude Spans SpanFacts.

Local Open Scope nat_scope.

Lemma ordered_from_weaken last last' n l :
  last' <= last -> ordered_from last n l -> ordered_from last' n l.
Proof. destruct l as [|[s e] r]; cbn; [lia|]. intros ? (?&?&?). split_and!; [lia|done..]. Qed.

Lemma ordered_from_grow last n n' l :
  n <= n' -> ordered_from last n l -> ordered_from last n' l.
Proof.
  intros Hn. revert last. induction l as [|[s e] r IH]; cbn; intros last; [lia|].
  intros (?&?&?). auto.
Qed.

Lemma ordered_from_app last mid n l m :
  ordered_from last mid l -> ordered_from mid n m -> ordered_from last n (l ++ m).
Proof.
  revert last. induction l as [|[s e] r IH]; cbn; intros last Hl Hm.
  - by eapply ordered_from_weaken.
  - destruct Hl as (?&?&?). auto.
Qed.

Lemma ordered_from_spans last n l :
  ordered_from last n l ->
  separated l /\ within n l /\ Forall (fun s => last <= s.1) l.
Proof.
  revert last. induction l as [|[s e] r IH]; cbn; intros last Ho.
  { by split_and!; repeat constructor. }
  destruct Ho as (Hs & He & Ho). pose proof (ordered_from_le _ _ _ Ho).
  destruct (IH _ Ho) as ([Hss Hw] & Hin & Hf).
  split_and!; [split|..]; constructor; try done.
  eapply Forall_impl; [exact Hf|]. cbn. intros; lia.
Qed.

Lemma separated_sublist l m : l `sublist_of` m -> separated m -> separated l.
Proof.
  induction 1 as [|x l m Hs IH|x l m Hs IH]; [done|..]; intros [Hss Hw];
    apply StronglySorted_cons in Hss as [Hx Hss]; apply Forall_cons in Hw as [Hxw Hw];
    destruct (IH (conj Hss Hw)) as [Hss' Hw']; [|done].
  split; constructor; try done. rewrite Forall_forall in *. intros y Hy.
  apply Hx. by eapply elem_of_sublist.
Qed.

(** ** Bounding *)

Section Bound.
Context {A : Type} `{EqDecision A}.
Implicit Types text bounded orig : list A.

Lemma take_eq_le k k' text bounded :
  k' <= k -> take k text = take k bounded -> take k' text = take k' bounded.
Proof.
  intros Hk He. apply (f_equal (take k')) in He.
  by rewrite !take_take, !(Nat.min_l k' k) in He by lia.
Qed.

Lemma prefix_search_spec fuel text bounded low high :
  high - low <= fuel -> low <= high ->
  take low text = take low bounded ->
  let k := prefix_search fuel text bounded low high in
  low <= k <= high /\ take k text = take k bounded /\
  (forall k', k < k' <= high -> take k' text <> take k' bounded).
Proof.
  revert low high. induction fuel as [|fuel IH]; intros low high Hf Hlh Heq; cbn [prefix_search];
    assert (high <= low -> low <= low <= high /\ take low text = take low bounded /\
      (forall k', low < k' <= high -> take k' text <> take k' bounded)) as Hstop
    by (intros; split_and!; [lia|lia|done|intros; exfalso; lia]).
  { apply Hstop. lia. }
  destruct (Nat.ltb_spec low high) as [Hlt|Hge]; [|by apply Hstop].
  set (middle := (low + high + 1) / 2).
  assert (low < middle <= high) as Hm.
  { unfold middle. pose proof (Nat.div_mod (low + high + 1) 2 ltac:(lia)).
    pose proof (Nat.mod_upper_bound (low + high + 1) 2 ltac:(lia)). lia. }
  case_bool_decide as Hd.
  - destruct (IH middle high) as (?&?&?); [lia..|done|]. split_and!; [lia..|done|done].
  - destruct (IH low (middle - 1)) as (?&?&Hmax); [lia..|done|]. split_and!; [lia..|done|].
    intros k' Hk' Hke. destruct (decide (k' <= middle - 1)); [by apply (Hmax k'); [lia|]|].
    apply Hd. eapply take_eq_le; [|exact Hke]. lia.
Qed.

(** [bounded] is a prefix of [text] followed by inserted characters. *)
Definition cut_of (ins : A -> Prop) text bounded : Prop :=
  exists n, take n bounded = take n text /\ Forall ins (drop n bounded) /\
    n <= min (length text) (length bounded).

Lemma bound_tracked_spec (ins : A -> Prop) orig text pieces bounded :
  tracks ins orig text (expand pieces) -> cut_of ins text bounded ->
  let r := _bound_tracked text pieces bounded in
  tracks ins orig bounded (expand r) /\
  (increasing (expand pieces) -> increasing (expand r)) /\
  (bounded = text \/
   exists k, k <= length bounded /\ take k text = take k bounded /\
     (forall k', k < k' <= min (length text) (length bounded) -> take k' text <> take k' bounded) /\
     expand r = take k (expand pieces) ++ replicate (length bounded - k) None).
Proof.
  intros Ht (n & Hn & Hins & Hnle). unfold _bound_tracked. case_bool_decide as Hb; [subst; auto|].
  set (high := min (length text) (length bounded)).
  destruct (prefix_search_spec high text bounded 0 high) as (Hk & He & Hmax); [lia..|done|].
  set (k := prefix_search high text bounded 0 high) in *. cbn zeta.
  destruct (cursor_take_spec 0 k (pieces, 0) (expand pieces)) as (Hc & _); [done|cbn; lia..|].
  unfold slice in Hc. rewrite drop_0, Nat.sub_0_r in Hc.
  assert (expand ((cursor_take 0 k (pieces, 0)).1 ++
            (if k <? length bounded then [(length bounded - k, None)] else []))
          = take k (expand pieces) ++ replicate (length bounded - k) None) as Hx.
  { rewrite expand_app, Hc. f_equal. destruct (Nat.ltb_spec k (length bounded)) as [?|?].
    - by rewrite expand_singleton.
    - by replace (length bounded - k) with 0 by lia. }
  rewrite Hx. split_and!; [..|right; exists k; repeat split; [lia|done|exact Hmax]].
  - rewrite <- length_drop. set (rest := drop k bounded).
    rewrite <- (take_drop k bounded), <- He. apply Forall2_app; [by apply Forall2_take|].
    assert (Forall ins rest) as Hr.
    { destruct (decide (n <= k)) as [Hnk|Hnk].
      - unfold rest. replace k with (n + (k - n)) by lia. rewrite <- drop_drop.
        by apply Forall_drop.
      - exfalso. apply (Hmax n); [lia|by rewrite Hn]. }
    by apply tracks_inserted.
  - unfold increasing. rewrite omap_app, omap_replicate_None, app_nil_r.
    apply increasing_sublist, sublist_take.
Qed.
End Bound.

(** ** Masked ranges *)

Lemma drop_ended_covers src st j : src <= j -> covers (drop_ended src st) j <-> covers st j.
Proof.
  intros Hj. induction st as [|[s e] r IH]; cbn; [done|].
  destruct (Nat.leb_spec e src) as [?|?]; [|done].
  rewrite IH, covers_cons; cbn. split; [by right|]. intros [?|?]; [lia|done].
Qed.

Lemma drop_ended_ordered src last n st :
  ordered_from last n st -> ordered_from last n (drop_ended src st).
Proof.
  revert last. induction st as [|[s e] r IH]; cbn; intros last Ho; [done|].
  destruct (e <=? src); [|done]. destruct Ho as (?&?&Ho).
  eapply ordered_from_weaken; [|by apply IH]. lia.
Qed.

(** The spans that survive [drop_ended] end after [src]. *)
Lemma drop_ended_after src last n st :
  ordered_from last n st -> Forall (fun s => src < s.2) (drop_ended src st).
Proof.
  revert last. induction st as [|[s e] r IH]; cbn; intros last Ho; [constructor|].
  destruct Ho as (?&?&Ho). destruct (Nat.leb_spec e src) as [?|?]; [by eapply IH|].
  constructor; [done|]. apply ordered_from_spans in Ho as ([_ Hw] & _ & Hl).
  rewrite Forall_forall in *. unfold span_wf in Hw.
  intros x Hx. specialize (Hw x Hx). specialize (Hl x Hx). cbn in Hl. lia.
Qed.

Lemma overlapping_covers off src len last n st p :
  ordered_from last n st ->
  covers (overlapping off src len st) p <->
  off <= p < off + len /\ covers st (src + (p - off)).
Proof.
  revert last. induction st as [|[s e] r IH]; intros last Ho; cbn [overlapping fst snd].
  { pose proof (covers_nil p). pose proof (covers_nil (src + (p - off))). tauto. }
  destruct Ho as (?&?&Ho). pose proof (covers_cons (s, e) r (src + (p - off))) as Hcc.
  cbn in Hcc. destruct (Nat.ltb_spec s (src + len)) as [Hlt|Hge].
  - rewrite Hcc, covers_cons, (IH _ Ho). cbn.
    assert (off + (max s src - src) <= p < off + (min e (src + len) - src) <->
            off <= p < off + len /\ s <= src + (p - off) < e) as -> by lia. tauto.
  - split; [by intros ?%covers_nil|]. rewrite Hcc. intros [? [?|Hc]]; [lia|].
    apply (covers_ordered _ _ _ _ Ho) in Hc. lia.
Qed.

Lemma overlapping_ordered off src len last n st :
  ordered_from last n st -> Forall (fun s => src < s.2) st -> last <= src + len ->
  ordered_from (off + (max last src - src)) (off + len) (overlapping off src len st).
Proof.
  revert last. induction st as [|[s e] r IH]; intros last Ho Hf Hl; cbn [overlapping fst snd]; [cbn; lia|].
  destruct Ho as (?&?&Ho). apply Forall_cons in Hf as [Hse Hf]; cbn in Hse.
  destruct (Nat.ltb_spec s (src + len)) as [Hlt|Hge]; cbn; [|lia].
  split_and!; [lia..|]. destruct (decide (e <= src + len)) as [Hle|Hgt].
  - rewrite Nat.min_l by lia. replace (e - src) with (max e src - src) by lia. by apply IH.
  - rewrite Nat.min_r by lia. destruct r as [|[s' e'] r]; cbn [overlapping fst snd]; [cbn; lia|].
    cbn in Ho. destruct (Nat.ltb_spec s' (src + len)); cbn; lia.
Qed.

(** Piece lists the engine builds: an empty piece never has a positive source. *)
Definition proper (pieces : list Piece) : Prop :=
  Forall (fun p => p.1 = 0 -> forall s, p.2 = Some s -> s = 0) pieces.

Lemma lookup_expand1_Some len src i j :
  expand1 (len, Some src) !! i = Some (Some j) <-> i < len /\ j = src + i.
Proof.
  cbn. rewrite list_lookup_fmap. split.
  - destruct (seq src len !! i) as [k|] eqn:E; [|done]. intros [= ->].
    by apply lookup_seq in E as [-> ?].
  - intros [? ->]. by rewrite lookup_seq_lt.
Qed.

Lemma increasing_app_head len src o :
  increasing (expand1 (len, Some src) ++ o) -> 0 < len ->
  forall i j, o !! i = Some (Some j) -> src <= j.
Proof.
  unfold increasing. rewrite omap_app, StronglySorted_app. intros (Hlt & _ & _) Hlen i j Ho.
  enough (src < j) by lia. apply Hlt; apply list_elem_of_omap.
  - exists (Some src). split; [|done]. apply (list_elem_of_lookup_2 _ 0).
    apply lookup_expand1_Some. lia.
  - exists (Some j). split; [|done]. by eapply list_elem_of_lookup_2.
Qed.

Lemma increasing_app_r o o' : increasing (o ++ o') -> increasing o'.
Proof. apply increasing_sublist, sublist_inserts_l. done. Qed.

Lemma masked_loop_covers pieces last n st off p :
  ordered_from last n st -> increasing (expand pieces) -> proper pieces ->
  covers (masked_loop pieces st off) p <->
  off <= p /\ exists j, expand pieces !! (p - off) = Some (Some j) /\ covers st j.
Proof.
  revert st off. induction pieces as [|[len [src|]] r IH]; intros st off Ho Hi Hp; cbn [masked_loop].
  { pose proof (covers_nil p). cbn. setoid_rewrite lookup_nil. naive_solver. }
  all: apply Forall_cons in Hp as [Hz Hp]; cbn [fst snd] in Hz; rewrite expand_cons in *.
  - pose proof (drop_ended_ordered src _ _ _ Ho) as Hod.
    rewrite covers_app, (overlapping_covers _ _ _ _ _ _ _ Hod).
    rewrite (IH _ _ Hod (increasing_app_r _ _ Hi) Hp), drop_ended_covers by lia.
    assert (forall i j, expand r !! i = Some (Some j) -> src <= j) as Hlater.
    { intros i j Hij. destruct (decide (len = 0)) as [->|Hn].
      - rewrite (Hz eq_refl src eq_refl). lia.
      - eapply increasing_app_head; [exact Hi|lia|exact Hij]. }
    rewrite lookup_app, length_expand1; cbn [fst]. split.
    + intros [[Hr Hc]|(Hge & j & Hj & Hc)].
      * split; [lia|]. exists (src + (p - off)). split; [|done].
        assert (expand1 (len, Some src) !! (p - off) = Some (Some (src + (p - off)))) as ->; [|done].
        apply lookup_expand1_Some. lia.
      * split; [lia|]. exists j. rewrite drop_ended_covers in Hc by eauto. split; [|done].
        rewrite lookup_ge_None_2 by (rewrite length_expand1; cbn; lia).
        by replace (p - off - len) with (p - (off + len)) by lia.
    + intros (Hge & j & Hj & Hc). destruct (decide (p < off + len)) as [Hlt|Hnlt].
      * left. split; [lia|]. destruct (expand1 _ !! (p - off)) as [o|] eqn:E.
        -- simplify_eq. by apply lookup_expand1_Some in E as [_ ->].
        -- apply lookup_ge_None in E. rewrite length_expand1 in E. cbn in E. lia.
      * right. split; [lia|]. exists j.
        rewrite lookup_ge_None_2 in Hj by (rewrite length_expand1; cbn; lia).
        replace (p - (off + len)) with (p - off - len) by lia. split; [done|].
        rewrite drop_ended_covers by eauto. done.
  - rewrite (IH _ _ Ho (increasing_app_r _ _ Hi) Hp), lookup_app, length_expand1; cbn [fst].
    cbn [expand1 snd fst]. split.
    + intros (Hge & j & Hj & Hc). split; [lia|]. exists j. split; [|done].
      rewrite lookup_ge_None_2 by (rewrite length_replicate; lia).
      by replace (p - off - len) with (p - (off + len)) by lia.
    + intros (Hge & j & Hj & Hc). destruct (decide (p < off + len)) as [Hlt|Hnlt].
      * rewrite lookup_replicate_2 in Hj by lia. done.
      * rewrite lookup_ge_None_2 in Hj by (rewrite length_replicate; lia).
        split; [lia|]. exists j. replace (p - (off + len)) with (p - off - len) by lia. done.
Qed.

Lemma masked_loop_ordered pieces n st off :
  ordered_from 0 n st ->
  ordered_from off (off + length (expand pieces)) (masked_loop pieces st off).
Proof.
  revert st off. induction pieces as [|[len [src|]] r IH]; intros st off Ho; cbn [masked_loop].
  { cbn. lia. }
  all: rewrite expand_cons, length_app, length_expand1; cbn [fst].
  - eapply ordered_from_app.
    + replace off with (off + (max 0 src - src)) at 1 by lia.
      eapply overlapping_ordered; [by apply drop_ended_ordered|by eapply drop_ended_after|lia].
    + rewrite Nat.add_assoc. by apply IH, drop_ended_ordered.
  - rewrite Nat.add_assoc. eapply ordered_from_weaken; [|by apply IH]. lia.
Qed.

(** ** Inserted characters next to a masked range *)

Lemma inserted_loop_covers pieces off p :
  covers (inserted_loop pieces off) p <-> off <= p /\ expand pieces !! (p - off) = Some None.
Proof.
  revert off. induction pieces as [|[len src] r IH]; intros off; cbn [inserted_loop].
  { pose proof (covers_nil p). cbn. rewrite lookup_nil. naive_solver. }
  rewrite covers_app, IH, expand_cons, lookup_app, length_expand1. cbn [fst].
  destruct (decide (p - off < len)) as [Hlt|Hge].
  - destruct src as [src|]; cbn [expand1 fst snd].
    + rewrite list_lookup_fmap, lookup_seq_lt by lia. cbn.
      pose proof (covers_nil p). split; [|naive_solver]. intros [?|[? _]]; [done|lia].
    + rewrite lookup_replicate_2, covers_cons by lia. cbn [fst snd].
      pose proof (covers_nil p). split; [intros [[?|?]|[? _]]; [split; [lia|done]|done|lia]|].
      intros [? _]. left; left. lia.
  - rewrite (lookup_ge_None_2 (expand1 _)) by (rewrite length_expand1; cbn; lia).
    replace (p - off - len) with (p - (off + len)) by lia.
    split; [intros [Hc|[? ?]]; [|split; [lia|done]]|].
    + destruct src; [by apply covers_nil in Hc|]. apply covers_cons in Hc as [Hc|Hc%covers_nil]; [|done].
      cbn in Hc. lia.
    + intros [? ?]. right. split; [|done]. enough (len <= p - off) by lia. lia.
Qed.

Lemma inserted_loop_wf pieces off : Forall span_wf (inserted_loop pieces off).
Proof.
  revert off. induction pieces as [|[len src] r IH]; intros off; cbn; [constructor|].
  destruct src; [apply IH|]. constructor; [unfold span_wf; cbn; lia|apply IH].
Qed.

Lemma inserted_loop_within pieces off :
  within (off + length (expand pieces)) (inserted_loop pieces off).
Proof.
  revert off. induction pieces as [|[len src] r IH]; intros off; [constructor|].
  cbn [inserted_loop]. rewrite expand_cons, length_app, length_expand1; cbn [fst].
  rewrite Nat.add_assoc. apply Forall_app. split; [|apply IH].
  destruct src; repeat constructor. cbn. lia.
Qed.

Section Absorb.
Notation tagged := (nat * nat * bool)%type.
Notation joins := (fun start last_end => start <=? last_end).



#[global] Instance tagged_le_total : Total tagged_le.
Proof.
  intros [[a b] x] [[c d] y]. unfold tagged_le, span_le; cbn.
  destruct (decide (a < c)); [left; split; [lia|intros [= -> ->]; lia]|].
  destruct (decide (c < a)); [right; split; [lia|intros [= -> ->]; lia]|].
  destruct (decide (b < d)); [left; split; [lia|intros [= -> ->]; lia]|].
  destruct (decide (d < b)); [right; split; [lia|intros [= -> ->]; lia]|].
  destruct x, y; cbn; [left|right|left|left]; (split; [lia|done]).
Qed.
#[global] Instance tagged_le_trans : Transitive tagged_le.
Proof.
  intros [[a b] x] [[c d] y] [[e f] z]. unfold tagged_le, span_le; cbn.
  intros [H1 H2] [H3 H4]. split; [lia|]. intros [= -> ->].
  assert (c = e /\ d = f) as [-> ->] by lia. destruct x, y, z; naive_solver.
Qed.

Lemma group_fold_coalesce tags acc :
  fst <$> fold_left group_step tags acc
  = fold_left (coalesce_step joins) (fst <$> tags) (fst <$> acc).
Proof.
  revert acc. induction tags as [|t r IH]; intros acc; cbn; [done|]. rewrite IH. f_equal.
  destruct acc as [|g acc]; cbn; [done|]. by destruct (t.1.1 <=? g.1.2).
Qed.

(** A masked tag ends up inside a masked group. *)
Definition inside (t : tagged) (groups : list tagged) : Prop :=
  exists g, g ∈ groups /\ g.2 = true /\ g.1.1 <= t.1.1 /\ t.1.2 <= g.1.2.

Lemma group_step_inside t s groups :
  inside t groups -> inside t (group_step groups s).
Proof.
  intros (g & Hg & Hm & H1 & H2). destruct groups as [|h r]; [by apply elem_of_nil in Hg|].
  cbn [group_step]. destruct (s.1.1 <=? h.1.2); [|exists g; split_and!; [by right|done..]].
  apply elem_of_cons in Hg as [->|Hg]; [|exists g; split_and!; [by right|done..]].
  eexists; split; [left|]. cbn. rewrite Hm. split_and!; [done|lia|lia].
Qed.

Lemma group_step_self t groups :
  t.2 = true -> (forall g, g ∈ groups -> g.1.1 <= t.1.1) -> inside t (group_step groups t).
Proof.
  intros Ht Hs. destruct groups as [|h r]; cbn [group_step]; [exists t; split_and!; [left|done..]|].
  destruct (t.1.1 <=? h.1.2); [|exists t; split_and!; [left|done..]].
  eexists; split; [left|]. cbn. rewrite Ht, orb_true_r.
  split_and!; [done|apply Hs; left|lia].
Qed.

Lemma group_step_starts t u groups :
  (forall g, g ∈ groups -> g.1.1 <= u) -> t.1.1 <= u ->
  forall g, g ∈ group_step groups t -> g.1.1 <= u.
Proof.
  intros Hg Ht g. destruct groups as [|h r]; cbn [group_step].
  - by intros ->%list_elem_of_singleton.
  - destruct (_ <=? _); intros [->|?]%elem_of_cons; cbn; try done; apply Hg; first [done | by left | by right].
Qed.

Lemma group_fold_inside tags acc t :
  StronglySorted (fun a b => a.1.1 <= b.1.1) tags ->
  (forall g s, g ∈ acc -> s ∈ tags -> g.1.1 <= s.1.1) ->
  inside t acc \/ (t ∈ tags /\ t.2 = true) ->
  inside t (fold_left group_step tags acc).
Proof.
  revert acc. induction tags as [|s r IH]; intros acc Hs Hacc Hin; cbn [fold_left].
  { destruct Hin as [?|[?%elem_of_nil _]]; done. }
  apply StronglySorted_cons in Hs as [Hx Hs]. rewrite Forall_forall in Hx. apply IH; [done|..].
  - intros g u Hg Hu. eapply group_step_starts; [|exact (Hx u Hu)|exact Hg].
    intros g' Hg'. apply Hacc; [done|by right].
  - destruct Hin as [Hin|[[->|Hin]%elem_of_cons Ht]]; [left; by apply group_step_inside| |by right].
    left. apply group_step_self; [done|]. intros g Hg. apply Hacc; [done|left].
Qed.
End Absorb.

Lemma filter_masked_sublist (l : list (span * bool)) :
  (fst <$> List.filter snd l) `sublist_of` (fst <$> l).
Proof. induction l as [|g r IH]; cbn; [done|]. destruct g.2; by constructor. Qed.

Lemma absorb_inserted_ok pieces ranges :
  separated ranges ->
  separated (_absorb_inserted pieces ranges) /\
  (forall p, covers ranges p -> covers (_absorb_inserted pieces ranges) p) /\
  (forall p, covers (_absorb_inserted pieces ranges) p ->
     covers ranges p \/ expand pieces !! p = Some None) /\
  (forall n, within n ranges -> length (expand pieces) <= n ->
     within n (_absorb_inserted pieces ranges)).
Proof.
  intros Hsep. unfold _absorb_inserted. destruct ranges as [|r0 rs] eqn:Er; [by split_and!; auto|].
  rewrite <- Er in *. clear r0 rs Er.
  set (tags := ((fun r => (r, true)) <$> ranges) ++ ((fun r => (r, false)) <$> _inserted_ranges pieces)).
  set (sorted := merge_sort tagged_le tags).
  assert (StronglySorted tagged_le sorted) as Hss by apply (StronglySorted_merge_sort tagged_le).
  assert (sorted ≡ₚ tags) as Hperm by apply merge_sort_Permutation.
  assert (StronglySorted (fun a b => a.1.1 <= b.1.1) sorted) as Hst.
  { clearbody sorted. clear Hperm. induction Hss as [|x k Hk IHk Hx]; constructor; [done|].
    eapply Forall_impl; [exact Hx|]. unfold tagged_le, span_le. intros ? [? _]; lia. }
  assert (fst <$> tags = ranges ++ _inserted_ranges pieces) as Htags.
  { unfold tags. rewrite fmap_app, <- !list_fmap_compose. cbn. by rewrite !list_fmap_id. }
  set (groups := fold_left group_step sorted []).
  assert (fst <$> rev groups = coalesce (fun a b => a <=? b) (fst <$> sorted)) as Hgc.
  { unfold coalesce. rewrite (map_rev fst). f_equal. apply (group_fold_coalesce sorted []). }
  destruct (coalesce_ok (fun a b => a <=? b) ltac:(intros ??; rewrite Nat.leb_le; lia)
    ltac:(intros ??; rewrite Nat.leb_gt; lia) (fst <$> sorted)) as [Hcs Hcc].
  { rewrite Hperm, Htags. apply Forall_app. split; [by destruct Hsep|apply inserted_loop_wf]. }
  { clear -Hst. induction Hst as [|x k Hk IHk Hx]; cbn; constructor; [done|]. by apply Forall_fmap. }
  rewrite <- Hgc in Hcs. setoid_rewrite <- Hgc in Hcc.
  split_and!.
  - eapply separated_sublist; [|exact Hcs]. apply filter_masked_sublist.
  - intros p (s & Hs & Hp)%covers_elem.
    destruct (group_fold_inside sorted [] (s, true)) as (g & Hg & Hm & H1 & H2); [done|..].
    { by intros ?? ?%elem_of_nil. }
    { right. split; [|done]. rewrite Hperm. unfold tags. rewrite elem_of_app, list_elem_of_fmap. eauto. }
    apply covers_elem. exists g.1. split; [|cbn in *; lia].
    apply list_elem_of_fmap. exists g. split; [done|].
    apply list_elem_of_In, filter_In. split; [|done]. by rewrite <- list_elem_of_In, <- Permutation_rev.
  - intros p (s & Hs & Hp)%covers_elem.
    assert (covers (fst <$> rev groups) p) as Hc.
    { apply covers_elem. exists s. split; [|done]. apply list_elem_of_fmap in Hs as (g & -> & Hg).
      apply list_elem_of_In, filter_In in Hg as [Hg _]. apply list_elem_of_fmap. exists g.
      by rewrite list_elem_of_In. }
    rewrite Hcc, Hperm, Htags in Hc. apply covers_app in Hc as [?|Hc]; [by left|right].
    apply inserted_loop_covers in Hc as [_ Hc]. by rewrite Nat.sub_0_r in Hc.
  - intros n Hn Hlen.
    assert (within n (fst <$> rev groups)) as Hw.
    { rewrite Hgc. apply coalesce_within. unfold within. rewrite Hperm, Htags. apply Forall_app.
      split; [done|]. eapply Forall_impl; [apply (inserted_loop_within pieces 0)|]. cbn. intros; lia. }
    unfold within in *. rewrite Forall_forall in *. intros s Hs. apply Hw.
    by eapply elem_of_sublist; [|apply filter_masked_sublist].
Qed.

(** ** The masked text *)

Section Mask.
Context {A : Type} `{EqDecision A}.
Variable marker : list A.
Implicit Types text orig : list A.

Lemma mask_loop_redact text ranges last c :
  mask_loop marker text ranges last = (redact_loop (fun _ => false) marker text ranges last c).1.
Proof.
  revert last c. induction ranges as [|[s e] r IH]; intros last c; cbn [mask_loop redact_loop]; [done|].
  assert (leading_boms (fun _ : A => false) (slice s e text) = 0) as ->.
  { by destruct (slice s e text). }
  destruct (cursor_take last _ c) as [? c1]. destruct (cursor_take _ e c1) as [? c2].
  rewrite (IH e c2). by destruct (redact_loop _ _ text r e c2).
Qed.

Lemma masked_ranges_ok text pieces n st :
  length (expand pieces) = length text ->
  ordered_from 0 n st -> increasing (expand pieces) -> proper pieces ->
  ordered_from 0 (length text) (_masked_ranges pieces st) /\
  (forall p j, expand pieces !! p = Some (Some j) ->
     covers (_masked_ranges pieces st) p <-> covers st j).
Proof.
  intros Hlen Ho Hi Hp. unfold _masked_ranges.
  pose proof (masked_loop_ordered pieces n st 0 Ho) as Hm.
  destruct (ordered_from_spans _ _ _ Hm) as (Hsep & _ & _).
  destruct (merge_touching_ok _ Hsep) as [Hts Htc].
  destruct (absorb_inserted_ok pieces _ Hts) as (Has & Hac & Hac' & Haw).
  set (ranges := _absorb_inserted _ _) in *.
  split.
  - apply ordered_from_separated; [done| |apply Forall_forall; lia|lia].
    apply Haw; [|lia]. apply coalesce_within. rewrite <- Hlen.
    by apply ordered_from_spans in Hm as (_ & ? & _).
  - intros p j Hj. split.
    + intros Hc. destruct (Hac' p Hc) as [Hc'|Hn]; [|congruence].
      rewrite Htc, (masked_loop_covers _ _ _ _ _ _ Ho Hi Hp) in Hc'.
      destruct Hc' as (_ & j' & Hj' & Hc'). rewrite Nat.sub_0_r in Hj'. by simplify_eq.
    + intros Hc. apply Hac. rewrite Htc, (masked_loop_covers _ _ _ _ _ _ Ho Hi Hp).
      split; [lia|]. exists j. by rewrite Nat.sub_0_r.
Qed.

Lemma mask_structural_ok (ins : A -> Prop) orig text pieces n st :
  tracks ins orig text (expand pieces) -> ordered_from 0 n st ->
  increasing (expand pieces) -> proper pieces ->
  exists toks, _mask_structural marker text pieces st = render marker text toks /\
    (forall i j, expand pieces !! i = Some (Some j) -> (Some i ∈ toks <-> ~ covers st j)) /\
    (forall k, known (render (replicate k None) (expand pieces) toks) `sublist_of` known (expand pieces)).
Proof.
  intros Ht Ho Hi Hp. pose proof (Forall2_length _ _ _ Ht) as Hlen.
  destruct (masked_ranges_ok text pieces n st) as [Hord Hcov]; [by rewrite Hlen|done..|].
  exists (redact_toks (fun _ => false) text (_masked_ranges pieces st) 0). split_and!.
  - unfold _mask_structural. rewrite (mask_loop_redact _ _ _ ([], 0)). by apply redact_loop_render.
  - intros i j Hij. rewrite <- (Hcov i j Hij). apply lookup_lt_Some in Hij as Hlt.
    destruct (redact_toks_spec (fun _ => false) text (_masked_ranges pieces st) 0 i Hord) as [H1 H2].
    split; [|intros; apply H2; [lia|done]]. intros Hin.
    destruct (H1 Hin) as [_ [?|(c & _ & ?)]]; done.
  - intros k. by apply (redact_toks_sublist _ _ _ _ 0).
Qed.
End Mask.
