(* ===== verification/PyRegex.v ===== *)
(** * Python's backtracking regular expressions

    The part of [re] that [netbox_rpc/event_store.py] uses: a backtracking matcher
    in continuation-passing style over code points, with greedy, lazy and
    possessive repetition, named groups, back references, lookahead, one-character
    lookbehind, [\b], the multiline [^] and [$], [\Z], and the functions [search],
    [finditer] and [fullmatch].  The matcher is structural on the pattern, and each
    repetition is structural on the length of the remaining text, so it is total.
    A repetition stops when its body consumes nothing; no pattern of the program
    repeats a body that can be empty.  [\w] follows [str.isalnum] for code points
    below 448 and for U+212A, and is false for the others. *)

From S2P Require Import Prelude Spans SpanFacts.
Local Open Scope nat_scope.

Notation char := N.
Notation text := (list N).

Inductive re :=
  | REps
  | RSet (p : char -> bool)                     (* one character of a class *)
  | RSeq (r s : re)
  | RAlt (r s : re)
  | RRep (greedy : bool) (lo : nat) (hi : option nat) (r : re)
  | RAtomic (r : re)                            (* possessive *)
  | RGroup (name : string) (r : re)
  | RRef (name : string)
  | RLook (r : re)                              (* (?=r) *)
  | RNotLook (r : re)                           (* (?!r) *)
  | RNotBehind (p : char -> bool)               (* (?<!p), one character *)
  | RWordB | RBol | REol | REnd.                (* \b, ^, $ (multiline), \Z *)

(** The matcher's position: its index, the character before it, the text after it. *)
Record state := State { pos : nat; prev : option char; rest : text }.

(** A capture: the start, the end and the captured text. *)
Notation capture := (nat * nat * text)%type.
Notation groups := (list (string * capture)).

Definition start_state (t : text) : state := State 0 None t.

Definition group (name : string) (gs : groups) : option capture :=
  match List.find (fun g => String.eqb g.1 name) gs with Some g => Some g.2 | None => None end.

(** ** Character classes *)

Definition is_space (c : char) : bool :=
  (((9 <=? c) && (c <=? 13)) || ((28 <=? c) && (c <=? 32)) || (c =? 133) || (c =? 160)
   || (c =? 5760) || ((8192 <=? c) && (c <=? 8202)) || (c =? 8232) || (c =? 8233)
   || (c =? 8239) || (c =? 8287) || (c =? 12288))%N.

Definition between (a b c : char) : bool := ((a <=? c) && (c <=? b))%N.

Definition is_word (c : char) : bool :=
  (between 48 57 c || between 65 90 c || (c =? 95) || between 97 122 c
   || (c =? 170) || (c =? 178) || (c =? 179) || (c =? 181) || (c =? 185) || (c =? 186)
   || between 188 190 c || between 192 214 c || between 216 246 c || between 248 447 c
   || (c =? 8490))%N.

Definition word_at (o : option char) : bool := match o with Some c => is_word c | None => false end.

(** ** Matching *)

Definition step (s : state) : option (char * state) :=
  match s.(rest) with
  | [] => None
  | c :: r => Some (c, State (S s.(pos)) (Some c) r)
  end.

Fixpoint eat (w : text) (s : state) : option state :=
  match w with
  | [] => Some s
  | c :: w => match step s with
              | Some (d, s') => if (c =? d)%N then eat w s' else None
              | None => None
              end
  end.

(** What a match returns: the end position and the groups. *)
Notation answer := (state * groups)%type.
Notation cont := (state -> groups -> option answer).

Definition or_else (a : option answer) (b : unit -> option answer) : option answer :=
  match a with Some x => Some x | None => b tt end.

Section Repeat.
Variable body : state -> groups -> cont -> option answer.
Variable greedy : bool.
Fixpoint repeat_loop (n lo : nat) (hi : option nat) (s : state) (gs : groups) (k : cont)
  : option answer :=
let more := fun _ : unit =>
  match n, hi with
  | O, _ | _, Some O => None
  | S n, _ =>
      body s gs (fun s' gs' =>
        if s.(pos) <? s'.(pos)
        then repeat_loop n (pred lo) (pred <$> hi) s' gs' k else None)
  end in
match lo with
| S _ => more tt
| O => if greedy then or_else (more tt) (fun _ => k s gs)
       else or_else (k s gs) more
end.
End Repeat.

Fixpoint run (r : re) (s : state) (gs : groups) (k : cont) : option answer :=
  match r with
  | REps => k s gs
  | RSet p => match step s with
              | Some (c, s') => if p c then k s' gs else None
              | None => None
              end
  | RSeq a b => run a s gs (fun s' gs' => run b s' gs' k)
  | RAlt a b => or_else (run a s gs k) (fun _ => run b s gs k)
  | RRep g lo hi a => repeat_loop (run a) g (S (length s.(rest))) lo hi s gs k
  | RAtomic a => match run a s gs (fun s' gs' => Some (s', gs')) with
                 | Some (s', gs') => k s' gs'
                 | None => None
                 end
  | RGroup name a =>
      run a s gs (fun s' gs' =>
        k s' ((name, (s.(pos), s'.(pos), take (s'.(pos) - s.(pos)) s.(rest))) :: gs'))
  | RRef name => match group name gs with
                 | Some (_, _, w) => match eat w s with Some s' => k s' gs | None => None end
                 | None => None
                 end
  | RLook a => match run a s gs (fun s' gs' => Some (s', gs')) with
               | Some (_, gs') => k s gs'
               | None => None
               end
  | RNotLook a => match run a s gs (fun s' gs' => Some (s', gs')) with
                  | Some _ => None
                  | None => k s gs
                  end
  | RNotBehind p => match s.(prev) with
                    | Some c => if p c then None else k s gs
                    | None => k s gs
                    end
  | RWordB => if xorb (word_at s.(prev)) (word_at (head s.(rest))) then k s gs else None
  | RBol => match s.(prev) with
            | None => k s gs
            | Some c => if (c =? 10)%N then k s gs else None
            end
  | REol => match s.(rest) with
            | [] => k s gs
            | c :: _ => if (c =? 10)%N then k s gs else None
            end
  | REnd => match s.(rest) with [] => k s gs | _ => None end
  end.

(** A match object: start, end, groups. *)
Record match_ := Match { m_start : nat; m_end : nat; m_groups : groups }.
Definition m_span (m : match_) : nat * nat := (m.(m_start), m.(m_end)).
Definition span_of (name : string) (m : match_) : option (nat * nat) :=
  fst <$> group name m.(m_groups).

(** One attempt at a position; [advance]: an empty match does not count. *)
Definition match_at (r : re) (advance : bool) (s : state) : option (match_ * state) :=
  match run r s [] (fun s' gs => if advance && (s'.(pos) =? s.(pos)) then None else Some (s', gs)) with
  | Some (s', gs) => Some (Match s.(pos) s'.(pos) gs, s')
  | None => None
  end.

(** The first match at or after a position, and the position after it; [n] bounds
    the remaining length. *)
Fixpoint search_loop (r : re) (n : nat) (advance : bool) (s : state) : option (match_ * state) :=
  match match_at r advance s with
  | Some x => Some x
  | None => match n, step s with
            | S n, Some (_, s') => search_loop r n false s'
            | _, _ => None
            end
  end.
Definition search_from (r : re) (advance : bool) (s : state) : option (match_ * state) :=
  search_loop r (length s.(rest)) advance s.

(** [skip n s]: the state [n] characters later. *)
Fixpoint skip (n : nat) (s : state) : state :=
  match n with
  | O => s
  | S n => match step s with Some (_, s') => skip n s' | None => s end
  end.

(** [pattern.search(text, start)]. *)
Definition search (r : re) (t : text) (start : nat) : option match_ :=
  fst <$> search_from r false (skip start (start_state t)).

(** [pattern.search(text, start, stop)]: the text ends at [stop]. *)
Definition search_until (r : re) (t : text) (start stop : nat) : option match_ :=
  search r (take stop t) start.

(** [pattern.finditer(text)]: each match leaves a shorter text or forbids the empty
    match, so twice the length bounds the number of matches. *)
Fixpoint finditer_loop (r : re) (n : nat) (advance : bool) (s : state) : list match_ :=
  match n with
  | O => []
  | S n => match search_from r advance s with
           | Some (m, s') => m :: finditer_loop r n (m.(m_start) =? m.(m_end)) s'
           | None => []
           end
  end.
Definition finditer (r : re) (t : text) : list match_ :=
  finditer_loop r (2 * length t + 2) false (start_state t).

Definition fullmatch (r : re) (t : text) : bool :=
  match run (RSeq r REnd) (start_state t) [] (fun s gs => Some (s, gs)) with
  | Some _ => true
  | None => false
  end.

(** ** Facts *)

(** [s'] lies ahead of [s] in the same text. *)
Definition reaches (s s' : state) : Prop :=
  s.(pos) <= s'.(pos) /\ s.(pos) + length s.(rest) = s'.(pos) + length s'.(rest).
#[export] Instance reaches_refl : Reflexive reaches.
Proof. intros s. unfold reaches. lia. Qed.
#[export] Instance reaches_trans : Transitive reaches.
Proof. intros a b c. unfold reaches. lia. Qed.

(** The captures are spans of a text of length [n]. *)
Definition groups_ok (n : nat) (gs : groups) : Prop :=
  Forall (fun g => g.2.1.1 <= g.2.1.2 <= n) gs.

Lemma step_reaches s c s' : step s = Some (c, s') -> reaches s s' /\ s'.(pos) = S s.(pos).
Proof.
  unfold step, reaches. destruct s as [p o [|d r]]; cbn; [done|]. intros [= -> <-]; cbn. lia.
Qed.

Lemma eat_reaches w s s' : eat w s = Some s' -> reaches s s'.
Proof.
  revert s. induction w as [|c w IH]; intros s; cbn; [by intros [= ->]|].
  destruct (step s) as [[d s1]|] eqn:E; [|done]. destruct (c =? d)%N; [|done].
  intros H%IH. apply step_reaches in E as [? _]. by etrans.
Qed.

Lemma or_else_Some a b x : or_else a b = Some x -> a = Some x \/ (a = None /\ b tt = Some x).
Proof. destruct a; cbn; [by left|by right]. Qed.

(** A matcher calls its continuation at a later position of the same text. *)
Definition forward (f : state -> groups -> cont -> option answer) : Prop :=
  forall n s gs k x, f s gs k = Some x -> s.(pos) + length s.(rest) = n -> groups_ok n gs ->
  exists s' gs', reaches s s' /\ groups_ok n gs' /\ k s' gs' = Some x.

Lemma repeat_loop_forward body greedy m lo hi :
  forward body -> forward (repeat_loop body greedy m lo hi).
Proof.
  intros Hbody. revert lo hi. induction m as [|m IH]; intros lo hi n s gs k x Hr Hn Hg.
  { destruct lo; cbn in Hr; [|done]. exists s, gs. split_and!; [done..|].
    destruct greedy; cbn in Hr; [done|]. by apply or_else_Some in Hr as [?|[? ?]]. }
  assert (body s gs (fun s' gs' =>
            if s.(pos) <? s'.(pos)
            then repeat_loop body greedy m (pred lo) (pred <$> hi) s' gs' k else None) = Some x ->
          exists s' gs', reaches s s' /\ groups_ok n gs' /\ k s' gs' = Some x) as Hmore.
  { intros Hb. destruct (Hbody n s gs _ x Hb Hn Hg) as (s1 & g1 & H1 & H2 & H3).
    destruct (pos s <? pos s1); [|done].
    destruct (IH _ _ n s1 g1 k x H3) as (s2 & g2 & H4 & H5 & H6); [unfold reaches in H1; lia|done|].
    exists s2, g2. split_and!; [by etrans|done..]. }
  assert (k s gs = Some x -> exists s' gs', reaches s s' /\ groups_ok n gs' /\ k s' gs' = Some x) as Hk.
  { intros. exists s, gs. done. }
  destruct hi as [[|hi]|], lo, greedy; cbn in *; try done; try tauto;
    apply or_else_Some in Hr as [?|[_ ?]]; auto; done.
Qed.

(** Closes a [forward] goal when the continuation is called in the context. *)
Ltac arrive :=
  eexists _, _; split_and!; [..|eassumption]; [first [eassumption|reflexivity]|eassumption].

Lemma run_forward r : forward (run r).
Proof.
  induction r; intros n s gs k x Hr Hn Hg; cbn [run] in Hr.
  - arrive.
  - destruct (step s) as [[c s']|] eqn:E; [|done]. destruct (p c); [|done].
    apply step_reaches in E as [? _]. arrive.
  - destruct (IHr1 n _ _ _ _ Hr Hn Hg) as (s1 & g1 & H1 & H2 & H3).
    destruct (IHr2 n _ _ _ _ H3) as (s2 & g2 & H4 & H5 & H6); [unfold reaches in H1; lia|done|].
    exists s2, g2. split_and!; [by etrans|done..].
  - apply or_else_Some in Hr as [Hr|[_ Hr]]; [by eapply IHr1|by eapply IHr2].
  - exact (repeat_loop_forward (run r) _ _ _ _ IHr n s gs k x Hr Hn Hg).
  - destruct (run r s gs _) as [[s1 g1]|] eqn:E; [|done].
    destruct (IHr n _ _ _ _ E Hn Hg) as (? & ? & ? & ? & [= -> ->]). arrive.
  - destruct (IHr n _ _ _ _ Hr Hn Hg) as (s1 & g1 & H1 & H2 & H3).
    eexists _, _. split_and!; [exact H1| |exact H3]. constructor; [|done].
    cbn. unfold reaches in H1. lia.
  - destruct (group name gs) as [[[? ?] w]|]; [|done]. destruct (eat w s) eqn:E; [|done].
    apply eat_reaches in E. arrive.
  - destruct (run r s gs _) as [[s1 g1]|] eqn:E; [|done].
    destruct (IHr n _ _ _ _ E Hn Hg) as (? & ? & ? & ? & [= -> ->]). arrive.
  - destruct (run r s gs _) as [[s1 g1]|] eqn:E; [done|]. arrive.
  - destruct (prev s) as [c|]; [destruct (p c); [done|]|]; arrive.
  - destruct (xorb _ _); [|done]. arrive.
  - destruct (prev s) as [c|]; [destruct (c =? 10)%N; [|done]|]; arrive.
  - destruct (rest s) as [|c ?] eqn:?; [|destruct (c =? 10)%N; [|done]]; arrive.
  - destruct (rest s) eqn:?; [|done]. arrive.
Qed.

(** A match of the text from [s] on: it starts at or after [s], ends within the
    text, and its captures lie in the text. *)
Definition match_ok (s : state) (m : match_) (s' : state) : Prop :=
  s.(pos) <= m.(m_start) <= m.(m_end) /\ m.(m_end) = s'.(pos) /\ reaches s s' /\
  groups_ok (s.(pos) + length s.(rest)) m.(m_groups).

Lemma match_at_ok r advance s m s' :
  match_at r advance s = Some (m, s') ->
  match_ok s m s' /\ m.(m_start) = s.(pos) /\ (advance = true -> m.(m_start) < m.(m_end)).
Proof.
  unfold match_at. destruct (run r s [] _) as [[s1 gs]|] eqn:E; [|done]. intros [= <- <-].
  destruct (run_forward r _ _ _ _ _ E eq_refl) as (s2 & g2 & H1 & H2 & H3); [constructor|].
  destruct (advance && _) eqn:Ea; [done|]. injection H3 as -> ->.
  unfold match_ok. cbn. unfold reaches in *. split_and!; try done; try lia.
  intros ->. cbn in Ea. apply Nat.eqb_neq in Ea. lia.
Qed.

Lemma search_loop_ok r n advance s m s' :
  search_loop r n advance s = Some (m, s') ->
  match_ok s m s' /\
  (m.(m_start) = s.(pos) -> advance = true -> m.(m_start) < m.(m_end)).
Proof.
  revert advance s. induction n as [|n IH]; intros advance s; cbn;
    destruct (match_at r advance s) as [[m1 s1]|] eqn:E.
  1, 3: intros [= <- <-]; apply match_at_ok in E as (? & ? & ?); auto.
  - done.
  - destruct (step s) as [[c s1]|] eqn:Es; [|done]. intros H%IH. clear IH.
    apply step_reaches in Es as [Hr Hp]. destruct H as [(H1 & H2 & H3 & H4) _].
    unfold match_ok. unfold reaches in *. split_and!; try done; try lia.
    by replace (pos s + length (rest s)) with (pos s1 + length (rest s1)) by lia.
Qed.

Lemma finditer_loop_ordered (r : re) (n : nat) (advance : bool) (s : state) :
  ordered_from s.(pos) (s.(pos) + length s.(rest)) (m_span <$> finditer_loop r n advance s).
Proof.
  revert advance s. induction n as [|n IH]; intros advance s; cbn [finditer_loop]; [cbn; lia|].
  destruct (search_from r advance s) as [[m s']|] eqn:E; [|cbn; lia].
  apply search_loop_ok in E as [(H1 & H2 & H3 & _) _]. cbn. unfold reaches in H3.
  split_and!; [lia..|]. rewrite H2. replace (pos s + _) with (pos s' + length (rest s')) by lia.
  apply IH.
Qed.

(** The matches of [finditer] are in order, do not overlap, and lie in the text. *)
Lemma finditer_ordered r t : ordered_from 0 (length t) (m_span <$> finditer r t).
Proof. apply (finditer_loop_ordered r _ false (start_state t)). Qed.

Lemma finditer_loop_groups r n advance s m :
  m ∈ finditer_loop r n advance s -> groups_ok (s.(pos) + length s.(rest)) m.(m_groups).
Proof.
  revert advance s. induction n as [|n IH]; intros advance s; cbn [finditer_loop]; [by intros ?%elem_of_nil|].
  destruct (search_from r advance s) as [[m1 s']|] eqn:E; [|by intros ?%elem_of_nil].
  apply search_loop_ok in E as [(_ & _ & H3 & H4) _]. intros [->|Hin]%elem_of_cons; [done|].
  apply IH in Hin. unfold reaches in H3. by rewrite <- (proj2 H3) in Hin.
Qed.

Lemma finditer_span_of r t m name s e :
  m ∈ finditer r t -> span_of name m = Some (s, e) -> s <= e <= length t.
Proof.
  intros Hm%finditer_loop_groups. unfold span_of, group. cbn in Hm.
  destruct (List.find _ _) as [g|] eqn:E; cbn; [|done]. intros [= He].
  apply find_some in E as [Hin _]. rewrite <- list_elem_of_In in Hin.
  unfold groups_ok in Hm. rewrite Forall_forall in Hm. specialize (Hm _ Hin). by rewrite He in Hm.
Qed.

(** The bound of [finditer] is never reached: more rounds find nothing else. *)
Lemma finditer_loop_enough (r : re) (n : nat) (advance : bool) (s : state) :
  2 * length s.(rest) + (if advance then 0 else 1) < n ->
  finditer_loop r (S n) advance s = finditer_loop r n advance s.
Proof.
  revert advance s. induction n as [|n IH]; intros advance s Hn; [lia|].
  cbn [finditer_loop]. destruct (search_from r advance s) as [[m s']|] eqn:E; [|done].
  apply search_loop_ok in E as [(H1 & H2 & H3 & _) H4]. f_equal.
  apply (IH (m_start m =? m_end m) s'). unfold reaches in H3.
  destruct (Nat.eqb_spec (m_start m) (m_end m)) as [He|He]; [|lia].
  destruct (decide (m_start m = pos s)) as [Hp|Hp]; [|destruct advance; lia].
  destruct advance; [specialize (H4 Hp eq_refl); lia|lia].
Qed.

Lemma search_bounds r t start m :
  search r t start = Some m -> m.(m_start) <= m.(m_end) <= length t.
Proof.
  unfold search. destruct (search_from _ _ _) as [[m1 s1]|] eqn:E; cbn; [|done]. intros [= ->].
  apply search_loop_ok in E as [(H1 & H2 & H3 & _) _].
  assert (forall n s, reaches s (skip n s)) as Hskip.
  { induction n as [|n IH]; intros s; cbn; [done|].
    destruct (step s) as [[c s']|] eqn:Es; [|done]. apply step_reaches in Es as [? _].
    etrans; [eassumption|apply IH]. }
  specialize (Hskip start (start_state t)). unfold reaches in *. cbn in *. lia.
Qed.

(** ** Patterns of fixed width *)

Fixpoint width (r : re) : option nat :=
  match r with
  | RSet _ => Some 1
  | RSeq a b => wa ← width a; wb ← width b; Some (wa + wb)
  | RRep _ lo (Some hi) a => if lo =? hi then wa ← width a; Some (lo * wa) else None
  | RAtomic a | RGroup _ a => width a
  | RAlt _ _ | RRep _ _ None _ | RRef _ => None
  | _ => Some 0
  end.

Definition fixed (w : nat) (f : state -> groups -> cont -> option answer) : Prop :=
  forall s gs k x, f s gs k = Some x ->
  exists s' gs', (reaches s s' /\ s'.(pos) = s.(pos) + w) /\ k s' gs' = Some x.

Lemma repeat_loop_fixed body greedy m n w :
  fixed w body -> fixed (n * w) (repeat_loop body greedy m n (Some n)).
Proof.
  intros Hb. revert n. induction m as [|m IH]; intros n s gs k x Hr.
  { destruct n; cbn in Hr; [|done]. exists s, gs. split; [unfold reaches in *; cbn; lia|].
    destruct greedy; cbn in Hr; [done|]. by apply or_else_Some in Hr as [?|[? ?]]. }
  destruct n as [|n].
  { exists s, gs. split; [unfold reaches in *; cbn; lia|]. cbn in Hr. destruct greedy; cbn in Hr; [done|].
    by apply or_else_Some in Hr as [?|[? ?]]. }
  cbn [repeat_loop] in Hr. destruct (Hb s gs _ x Hr) as (s1 & g1 & H1 & H2).
  destruct (pos s <? pos s1); [|done]. cbn in H2.
  destruct (IH n s1 g1 k x H2) as (s2 & g2 & H3 & H4). exists s2, g2. split; [unfold reaches in *; cbn; lia|done].
Qed.

Lemma run_fixed r w : width r = Some w -> fixed w (run r).
Proof.
  revert w. induction r; intros w Hw s gs k x Hr; cbn [width] in Hw; try done; cbn [run] in Hr.
  1: simplify_eq; exists s, gs; split; [unfold reaches in *; lia|done].
  1: { simplify_eq. destruct (step s) as [[c s']|] eqn:E; [|done]. destruct (p c); [|done].
       apply step_reaches in E as [? ?]. exists s', gs. split; [unfold reaches in *; lia|done]. }
  1: { destruct (width r1) as [w1|]; [|done]. destruct (width r2) as [w2|]; [|done].
       cbn in Hw. simplify_eq. destruct (IHr1 _ eq_refl _ _ _ _ Hr) as (s1 & g1 & H1 & H2).
       destruct (IHr2 _ eq_refl _ _ _ _ H2) as (s2 & g2 & H3 & H4). exists s2, g2. split; [unfold reaches in *; lia|done]. }
  1: { destruct hi as [hi|]; [|done]. destruct (Nat.eqb_spec lo hi) as [->|]; [|done].
       destruct (width r) as [wa|]; [|done]. cbn in Hw. injection Hw as <-.
       exact (repeat_loop_fixed _ _ _ _ _ (IHr _ eq_refl) _ _ _ _ Hr). }
  1: { destruct (run r s gs _) as [[s1 g1]|] eqn:E; [|done].
       destruct (IHr _ Hw _ _ _ _ E) as (? & ? & ? & [= -> ->]). eauto. }
  1: { destruct (IHr _ Hw _ _ _ _ Hr) as (s1 & g1 & H1 & H2). eauto. }
  all: injection Hw as <-; exists s.
  - destruct (run r s gs _) as [[s1 g1]|]; [|done]. exists g1. split; [unfold reaches in *; lia|done].
  - destruct (run r s gs _) as [[s1 g1]|]; [done|]. exists gs. split; [unfold reaches in *; lia|done].
  - exists gs. destruct (prev s) as [c|]; [destruct (p c); [done|]|]; (split; [unfold reaches in *; lia|done]).
  - exists gs. destruct (xorb _ _); [|done]. split; [unfold reaches in *; lia|done].
  - exists gs. destruct (prev s) as [c|]; [destruct (c =? 10)%N; [|done]|]; (split; [unfold reaches in *; lia|done]).
  - exists gs. destruct (rest s) as [|c ?]; [|destruct (c =? 10)%N; [|done]]; (split; [unfold reaches in *; lia|done]).
  - exists gs. destruct (rest s); [|done]. split; [unfold reaches in *; lia|done].
Qed.

Lemma fullmatch_width r t w : width r = Some w -> fullmatch r t = true -> length t = w.
Proof.
  unfold fullmatch. intros Hw. destruct (run _ _ _ _) as [x|] eqn:E; [|done]. intros _.
  cbn [run] in E.
  destruct (run_fixed r w Hw _ _ _ _ E) as (s' & g' & [Hr Hp] & Hk).
  destruct (rest s') eqn:Hrest; [|done]. unfold reaches in Hr. rewrite Hrest in Hr. cbn in *. lia.
Qed.

(** ** Patterns that cannot match a text over a given alphabet *)

Section Dead.
Variable alphabet : text.
Definition over (s : state) : Prop := Forall (fun c => c ∈ alphabet) s.(rest).

(** No match of [r] is possible where only alphabet characters follow. *)
Fixpoint dead (r : re) : bool :=
  match r with
  | RSet p => forallb (fun c => negb (p c)) alphabet
  | RSeq a b => dead a || dead b
  | RAlt a b => dead a && dead b
  | RRep _ lo _ a => (0 <? lo) && dead a
  | RAtomic a | RGroup _ a | RLook a => dead a
  | _ => false
  end.

Lemma step_over s c s' : over s -> step s = Some (c, s') -> over s' /\ c ∈ alphabet.
Proof.
  unfold over, step. destruct s as [p o [|d r]]; cbn; [done|]. intros Hf [= -> <-].
  by apply Forall_cons in Hf as [? ?].
Qed.

Lemma eat_over w s s' : over s -> eat w s = Some s' -> over s'.
Proof.
  revert s. induction w as [|c w IH]; intros s Hs; cbn; [by intros [= <-]|].
  destruct (step s) as [[d s1]|] eqn:E; [|done]. destruct (c =? d)%N; [|done].
  apply IH. by eapply step_over.
Qed.

(** A matcher calls its continuation where only alphabet characters follow. *)
Definition stays (f : state -> groups -> cont -> option answer) : Prop :=
  forall s gs k x, over s -> f s gs k = Some x ->
  exists s' gs', over s' /\ k s' gs' = Some x.

Lemma repeat_loop_stays body greedy n lo hi : stays body -> stays (repeat_loop body greedy n lo hi).
Proof.
  intros Hb. revert lo hi. induction n as [|n IH]; intros lo hi s gs k x Hs Hr.
  { exists s, gs. split; [done|]. destruct lo; cbn in Hr; [|done].
    destruct greedy; cbn in Hr; [done|]. by apply or_else_Some in Hr as [?|[? ?]]. }
  assert (forall lo hi, body s gs (fun s' gs' => if s.(pos) <? s'.(pos)
    then repeat_loop body greedy n lo hi s' gs' k else None) = Some x ->
    exists s' gs', over s' /\ k s' gs' = Some x) as Hm.
  { intros lo' hi' H'. destruct (Hb _ _ _ _ Hs H') as (s1 & g1 & Hs1 & H1).
    destruct (_ <? _); [|done]. by eapply IH. }
  assert (k s gs = Some x -> exists s' gs', over s' /\ k s' gs' = Some x) as Hk by eauto.
  destruct hi as [[|hi]|], lo, greedy; cbn in Hr; try done; try (by eapply Hm; exact Hr);
    try (by apply Hk); apply or_else_Some in Hr as [?|[_ ?]]; (done || eauto).
Qed.

Lemma run_stays r : stays (run r).
Proof.
  induction r; intros s gs k x Hs Hr; cbn [run] in Hr.
  - eauto.
  - destruct (step s) as [[c s']|] eqn:E; [|done]. destruct (p c); [|done].
    apply step_over in E as [? _]; eauto.
  - destruct (IHr1 _ _ _ _ Hs Hr) as (s1 & g1 & Hs1 & H1). by eapply IHr2.
  - apply or_else_Some in Hr as [Hr|[_ Hr]]; [by eapply IHr1|by eapply IHr2].
  - exact (repeat_loop_stays _ _ _ _ _ IHr _ _ _ _ Hs Hr).
  - destruct (run r s gs _) as [[s1 g1]|] eqn:E; [|done].
    destruct (IHr _ _ _ _ Hs E) as (? & ? & ? & [= -> ->]). eauto.
  - destruct (IHr _ _ _ _ Hs Hr) as (s1 & g1 & ? & ?). eauto.
  - destruct (group name gs) as [[[? ?] w]|]; [|done]. destruct (eat w s) eqn:E; [|done].
    apply eat_over in E; eauto.
  - destruct (run r s gs _) as [[s1 g1]|]; [|done]. eauto.
  - destruct (run r s gs _) as [[s1 g1]|]; [done|]. eauto.
  - destruct (prev s) as [c|]; [destruct (p c); [done|]|]; eauto.
  - destruct (xorb _ _); [|done]. eauto.
  - destruct (prev s) as [c|]; [destruct (c =? 10)%N; [|done]|]; eauto.
  - destruct (rest s) as [|c ?]; [|destruct (c =? 10)%N; [|done]]; eauto.
  - destruct (rest s); [|done]. eauto.
Qed.

(** A dead pattern fails wherever only alphabet characters follow. *)
Lemma run_dead r s gs k : dead r = true -> over s -> run r s gs k = None.
Proof.
  revert s gs k. induction r; intros s gs k Hd Hs; cbn [dead] in Hd; try done; cbn [run].
  - destruct (step s) as [[c s']|] eqn:E; [|done]. apply step_over in E as [_ Hc]; [|done].
    rewrite forallb_forall in Hd. apply list_elem_of_In in Hc.
    specialize (Hd c Hc). by destruct (p c).
  - apply orb_true_iff in Hd as [Hd|Hd]; [by apply IHr1|].
    destruct (run r1 s gs _) as [x|] eqn:E; [|done].
    destruct (run_stays _ _ _ _ _ Hs E) as (s1 & g1 & Hs1 & H1).
    by rewrite IHr2 in H1.
  - apply andb_true_iff in Hd as [Hd1 Hd2]. rewrite IHr1 by done. by apply IHr2.
  - apply andb_true_iff in Hd as [Hlo Hd]. apply Nat.ltb_lt in Hlo.
    destruct lo as [|lo]; [lia|]. cbn [repeat_loop]. destruct hi as [[|hi]|]; [done|..]; by apply IHr.
  - by rewrite IHr.
  - by apply IHr.
  - by rewrite IHr.
Qed.

Lemma search_loop_dead r n advance s : dead r = true -> over s -> search_loop r n advance s = None.
Proof.
  intros Hd. revert advance s. induction n as [|n IH]; intros advance s Hs; cbn [search_loop];
    unfold match_at; rewrite run_dead by done; [done|].
  destruct (step s) as [[c s']|] eqn:E; [|done]. apply step_over in E as [? _]; [|done]. by apply IH.
Qed.

Lemma finditer_dead r t : dead r = true -> Forall (fun c => c ∈ alphabet) t -> finditer r t = [].
Proof.
  intros Hd Ht. unfold finditer. destruct (2 * length t + 2); [done|]. cbn [finditer_loop].
  unfold search_from. by rewrite search_loop_dead.
Qed.

Lemma search_dead r t start :
  dead r = true -> Forall (fun c => c ∈ alphabet) t -> search r t start = None.
Proof.
  intros Hd Ht. unfold search, search_from. rewrite search_loop_dead; [done..|].
  assert (forall n s, over s -> over (skip n s)) as Hskip.
  { induction n as [|n IH]; intros s Hs; cbn; [done|].
    destruct (step s) as [[c s']|] eqn:E; [|done]. apply step_over in E as [? _]; auto. }
  by apply Hskip.
Qed.
End Dead.

(** ** What a match consumes *)

Section Consumes.
Variable P : char -> Prop.

(** Patterns of classes, sequences, alternatives and bounded repetitions, with the
    largest number of characters they consume. *)
Inductive consumes : re -> nat -> Prop :=
  | consumes_eps : consumes REps 0
  | consumes_set p : (forall c, p c = true -> P c) -> consumes (RSet p) 1
  | consumes_seq a b m n : consumes a m -> consumes b n -> consumes (RSeq a b) (m + n)
  | consumes_alt a b n : consumes a n -> consumes b n -> consumes (RAlt a b) n
  | consumes_rep g lo hi a n : consumes a n -> consumes (RRep g lo (Some hi) a) (hi * n)
  | consumes_end : consumes REnd 0.

Definition spends (n : nat) (f : state -> groups -> cont -> option answer) : Prop :=
  forall s gs k x, f s gs k = Some x ->
  exists l s' gs', s.(rest) = l ++ s'.(rest) /\ Forall P l /\ length l <= n /\ k s' gs' = Some x.

Lemma spends_none n (k : cont) s gs x :
  k s gs = Some x ->
  exists l s' gs', s.(rest) = l ++ s'.(rest) /\ Forall P l /\ length l <= n /\ k s' gs' = Some x.
Proof. intros Hk. exists [], s, gs. split_and!; [done|constructor|cbn; lia|done]. Qed.

Lemma repeat_loop_spends body greedy m lo hi n :
  spends n body -> spends (hi * n) (repeat_loop body greedy m lo (Some hi)).
Proof.
  intros Hb. revert lo hi. induction m as [|m IH]; intros lo hi s gs k x Hr.
  { destruct lo; cbn in Hr; [|done]. apply (spends_none _ k s gs).
    destruct greedy; cbn in Hr; [done|]. by apply or_else_Some in Hr as [?|[? ?]]. }
  assert (forall hi', hi = S hi' -> body s gs (fun s' gs' => if s.(pos) <? s'.(pos)
    then repeat_loop body greedy m (pred lo) (Some hi') s' gs' k else None) = Some x ->
    exists l s' gs', s.(rest) = l ++ s'.(rest) /\ Forall P l /\ length l <= hi * n /\ k s' gs' = Some x) as Hm.
  { intros hi' -> H'. destruct (Hb _ _ _ _ H') as (l1 & s1 & g1 & E1 & F1 & L1 & K1).
    destruct (_ <? _); [|done]. destruct (IH _ _ _ _ _ _ K1) as (l2 & s2 & g2 & E2 & F2 & L2 & K2).
    exists (l1 ++ l2), s2, g2. rewrite E1, E2, app_assoc, length_app.
    split_and!; [done|by apply Forall_app|cbn; lia|done]. }
  destruct hi as [|hi], lo, greedy; cbn in Hr; try done; try (by eapply Hm);
    try (by apply (spends_none _ k s gs));
    apply or_else_Some in Hr as [?|[_ ?]]; try done; try (by apply (spends_none _ k s gs)); by eapply Hm.
Qed.

Lemma run_consumes r n : consumes r n -> spends n (run r).
Proof.
  induction 1 as [|p Hp|a b m n Ha IHa Hb IHb|a b n Ha IHa Hb IHb|g lo hi a n Ha IHa|];
    intros s gs k x Hr; cbn [run] in Hr.
  - by apply (spends_none _ k s gs).
  - destruct (step s) as [[c s']|] eqn:E; [|done]. destruct (p c) eqn:Ep; [|done].
    unfold step in E. destruct s as [ps o [|d rs]]; cbn in E; [done|]. injection E as -> <-.
    exists [c], (State (S ps) (Some c) rs), gs.
    split_and!; [done|by repeat constructor; apply Hp|cbn; lia|exact Hr].
  - destruct (IHa _ _ _ _ Hr) as (l1 & s1 & g1 & E1 & F1 & L1 & K1).
    destruct (IHb _ _ _ _ K1) as (l2 & s2 & g2 & E2 & F2 & L2 & K2).
    exists (l1 ++ l2), s2, g2. rewrite E1, E2, app_assoc, length_app.
    split_and!; [done|by apply Forall_app|lia|done].
  - apply or_else_Some in Hr as [Hr|[_ Hr]]; [by eapply IHa|by eapply IHb].
  - exact (repeat_loop_spends _ _ _ _ _ _ IHa _ _ _ _ Hr).
  - destruct (rest s) eqn:E; [|done]. rewrite <- E. by apply (spends_none _ k s gs).
Qed.

Lemma fullmatch_consumes r n t : consumes r n -> fullmatch r t = true -> Forall P t /\ length t <= n.
Proof.
  intros Hc. unfold fullmatch. destruct (run _ _ _ _) as [x|] eqn:E; [|done]. intros _. cbn [run] in E.
  destruct (run_consumes r n Hc _ _ _ _ E) as (l & s' & gs' & El & Fl & Ll & Hk).
  destruct (rest s') eqn:Er; [|done]. cbn in El. rewrite app_nil_r in El. by subst.
Qed.
End Consumes.
