(* ===== verification/SecretPatterns.v ===== *)
(** * The secret patterns

    The regular expressions of [netbox_rpc/event_store.py] and
    [NMS_SECRET_REFERENCE_RE] of [netbox_rpc/constants.py], written alternative by
    alternative as the source writes them, and the span finders built on them:
    [_secret_spans] for the base patterns, [_sensitive_value_spans] for the
    structural YAML rules.

    Under [(?i:...)] a class that holds the ASCII letters also holds U+0130,
    U+0131, U+017F and U+212A, and so does each of the letters [i], [s] and [k]
    for its own look-alikes. *)

From S2P Require Import Prelude Spans SpanFacts MaskFacts PyRegex.
Local Open Scope nat_scope.

Declare Scope re_scope.
Delimit Scope re_scope with re.
Infix "++" := RSeq : re_scope.
Infix "||" := RAlt : re_scope.

Definition codes (s : string) : text := (fun c => N_of_ascii c) <$> String.list_ascii_of_string s.

(** [x], [y], and so on as one class. *)
Definition oneof (cs : text) (c : char) : bool := existsb (N.eqb c) cs.
Definition chars (s : string) : char -> bool := oneof (codes s).

Definition CR : char := 13%N.
Definition LF : char := 10%N.
Definition TAB : char := 9%N.
Definition DQ : char := 34%N.
Definition SQ : char := 39%N.
Definition BSL : char := 92%N.
Definition BOM : char := 65279%N.

Definition set (cs : text) : re := RSet (oneof cs).
Definition notset (cs : text) : re := RSet (fun c => negb (oneof cs c)).
Definition ch (c : char) : re := set [c].
Definition any : re := RSet (fun _ => true).
Definition blank : re := set [32%N; TAB].
Definition inline : re := notset [CR; LF].

Definition star := RRep true 0 None.
Definition plus := RRep true 1 None.
Definition opt := RRep true 0 (Some 1).
Definition star_lazy := RRep false 0 None.
Definition plus_lazy := RRep false 1 None.
Definition star_poss (r : re) := RAtomic (star r).
Definition plus_poss (r : re) := RAtomic (plus r).
Definition opt_poss (r : re) := RAtomic (opt r).
Definition repeat_exact (n : nat) := RRep true n (Some n).
Definition lit (s : string) : re := foldr (fun c r => RSeq (ch c) r) REps (codes s).

(** The characters that match a letter under [(?i:...)]. *)
Definition fold_class (c : char) : text :=
  (if between 97 122 c then
     [c; c - 32] ++ (if c =? 105 then [304; 305] else if c =? 107 then [8490]
                     else if c =? 115 then [383] else [])
   else [c])%N.
Definition lit_i (s : string) : re := foldr (fun c r => RSeq (set (fold_class c)) r) REps (codes s).
Definition word (ignorecase : bool) (s : string) : re := if ignorecase then lit_i s else lit s.

Definition ascii_letter (c : char) : bool := between 65 90 c || between 97 122 c.
Definition letter_i (c : char) : bool := ascii_letter c || oneof [304; 305; 383; 8490]%N c.
Definition digit (c : char) : bool := between 48 57 c.
Definition letter (ignorecase : bool) : char -> bool := if ignorecase then letter_i else ascii_letter.
(** [[A-Za-z0-9_.-]] *)
Definition key_char (ignorecase : bool) (c : char) : bool :=
  letter ignorecase c || digit c || chars "_.-" c.

Local Open Scope re_scope.

Definition _SECRET_KEY_FRAGMENT (i : bool) : re :=
  word i "token" || word i "password" || word i "passphrase" || word i "secret"
  || word i "authorization" || (word i "api" ++ opt (RSet (chars "-_#")) ++ word i "key")
  || (word i "access" ++ opt (RSet (chars "-_")) ++ word i "key")
  || (word i "private" ++ opt (RSet (chars "-_")) ++ word i "key") || word i "credential".
Definition _SECRET_KEY_RUN (i : bool) : re := star_poss (RSet (key_char i)).

(** [(?=\r|\n|\Z)] *)
Definition at_line_end : re := RLook (ch CR || ch LF || REnd).
(** [(?<![^\r\n])] *)
Definition at_line_start : re := RNotBehind (fun c => negb (oneof [CR; LF] c)).
(** [(?:\r\n|\r(?!\n)|\n)] *)
Definition _YAML_REGION_BREAK : re := (ch CR ++ ch LF) || (ch CR ++ RNotLook (ch LF)) || ch LF.
Definition quote : re := opt (set [DQ; SQ]).
Definition space : re := RSet is_space.

(** The end of a block scalar header: indicators, blanks, a comment, the line end. *)
Definition block_header_end : re :=
  opt ((RSet (between 49 57) ++ opt (RSet (chars "+-")))
       || (RSet (chars "+-") ++ opt (RSet (between 49 57))))
  ++ star blank ++ opt (ch 35%N ++ star inline) ++ at_line_end.
(** The body lines of a block scalar: indented more than the key, or blank. *)
Definition block_body : re :=
  star (_YAML_REGION_BREAK ++ ((RRef "yaml_indent" ++ blank ++ star inline)
                               || (star blank ++ at_line_end))).

(** ** [_SECRET_CONTENT_RE], one definition per alternative *)

Definition pem_char : re := RSet (fun c => between 65 90 c || digit c || (c =? 32)%N)%bool.
Definition pem_ahead : re := RLook (star_lazy pem_char ++ lit "PRIVATE KEY").

Definition pem_block : re :=
  lit "-----BEGIN " ++ RGroup "pem" (pem_ahead ++ RAtomic (RRep true 1 (Some 128) pem_char))
  ++ lit "-----" ++ star_lazy any ++ ((lit "-----END " ++ RRef "pem" ++ lit "-----") || REnd).
Definition pem_long : re :=
  lit "-----BEGIN " ++ pem_ahead ++ star_poss pem_char ++ lit "-----" ++ star any.
Definition key_ahead (i : bool) : re :=
  RLook (quote ++ star_lazy (RSet (key_char i)) ++ _SECRET_KEY_FRAGMENT i).
Definition yaml_block : re :=
  at_line_start ++ RGroup "yaml_indent" (star blank) ++ star (ch 45%N ++ plus blank)
  ++ key_ahead false ++ quote ++ _SECRET_KEY_RUN false ++ quote
  ++ star space ++ ch 58%N ++ star space ++ RSet (chars "|>") ++ block_header_end ++ block_body.
Definition bearer : re :=
  RWordB ++ (lit_i "authorization" || lit_i "bearer") ++ star space ++ RSet (chars ":=")
  ++ star space ++ plus_lazy inline ++ RLook (opt (ch CR) ++ REol).
(** A quoted value for either quote character: doubled quotes and escapes
    included, closed or cut by the end of the text. *)
Definition quoted_value (q : char) : re :=
  ch q ++ star ((ch q ++ ch q) || (ch BSL ++ (any || REnd)) || notset [q; BSL]) ++ opt (ch q).
Definition assignment : re :=
  opt ((RBol ++ star blank) || (RSet (chars ",{") ++ star space) || (ch 45%N ++ plus space))
  ++ RNotBehind (key_char true) ++ key_ahead true ++ quote ++ _SECRET_KEY_RUN true ++ quote
  ++ star_poss space ++ RSet (chars ":=") ++ star_poss space
  ++ (quoted_value DQ || quoted_value SQ || plus inline).
Definition url_userinfo : re :=
  RNotBehind (fun c => letter_i c || digit c || chars "+.-" c)%bool ++ RSet letter_i
  ++ star_poss (RSet (fun c => letter_i c || digit c || chars "+.-" c)%bool) ++ lit "://"
  ++ plus (RSet (fun c => negb (is_space c || chars "/:@" c))) ++ ch 58%N
  ++ plus (RSet (fun c => negb (is_space c || chars "/@" c))) ++ ch 64%N.

Definition _SECRET_CONTENT_RE : re :=
  pem_block || pem_long || yaml_block || bearer || assignment || url_userinfo.

(** ** The YAML rules *)

Definition _YAML_DOUBLE_QUOTED_LINE : re :=
  ch DQ ++ star_poss ((ch BSL ++ inline) || notset [DQ; BSL; CR; LF]) ++ ch DQ.
Definition _YAML_SINGLE_QUOTED_LINE : re :=
  ch SQ ++ star_poss ((ch SQ ++ ch SQ) || notset [SQ; CR; LF]) ++ ch SQ.
Definition inline_comment : re := opt (ch 35%N ++ star_poss inline).
(** The line start, byte-order marks, the captured indentation, sequence dashes. *)
Definition line_prefix : re :=
  at_line_start ++ star_poss (ch BOM) ++ RGroup "yaml_indent" (star_poss blank)
  ++ star_poss (ch 45%N ++ plus_poss blank).

Definition _YAML_BLOCK_SCALAR_HEADER_RE : re :=
  line_prefix ++ opt_poss (ch 63%N ++ plus_poss blank)
  ++ RLook ((star_lazy inline ++ _SECRET_KEY_FRAGMENT true)
            || (set [DQ; SQ] ++ star_lazy inline ++ ch BSL))
  ++ (_YAML_DOUBLE_QUOTED_LINE || _YAML_SINGLE_QUOTED_LINE
      || star_poss (notset [CR; LF; 58%N; 35%N] || (RNotBehind (oneof [32%N; TAB]) ++ ch 35%N)))
  ++ opt (star_poss blank ++ ch 35%N ++ star_poss inline)
  ++ star space ++ ch 58%N
  ++ star_poss (plus blank ++ RSet (chars "&!") ++ star (notset [32%N; TAB; CR; LF]))
  ++ star space ++ RSet (chars "|>") ++ block_header_end ++ block_body.

(** [(?:[^\r\n:]|:(?![ \t\r\n]|\Z))] *)
Definition plain_key_char : re :=
  notset [CR; LF; 58%N] || (ch 58%N ++ RNotLook (set [32%N; TAB; CR; LF] || REnd)).
Definition _YAML_PLAIN_KEY_RUN : re := star_poss plain_key_char.
Definition _YAML_REGION_BODY : re :=
  (RRef "yaml_indent" ++ blank ++ star_poss inline)
  || (star_poss blank ++ inline_comment ++ at_line_end).
Definition _YAML_SINGLE_LINE_SCALAR : re :=
  plus_poss blank
  ++ (((_YAML_DOUBLE_QUOTED_LINE || _YAML_SINGLE_QUOTED_LINE)
       ++ star_poss blank ++ inline_comment ++ at_line_end)
      || (notset ([32%N; TAB; CR; LF; DQ; SQ] ++ codes "|>[{&!*%@`#")%list ++ star_poss inline)).
Definition _YAML_RESOLVED_EXPLICIT_KEY : re :=
  ((((ch DQ ++ star_poss (notset [DQ; BSL; CR; LF]) ++ ch DQ) || _YAML_SINGLE_QUOTED_LINE)
    ++ star_poss blank)
   || (notset ([32%N; TAB; CR; LF; DQ; SQ] ++ codes "&!*|>[{#%@`?:-")%list
       ++ star_poss (notset [CR; LF; 35%N])))
  ++ inline_comment ++ _YAML_REGION_BREAK ++ RRef "yaml_indent" ++ ch 58%N.

Definition explicit_key : re :=
  ch 63%N ++ (plus_poss blank || at_line_end)
  ++ (RLook (star_lazy inline ++ _SECRET_KEY_FRAGMENT true) || RNotLook _YAML_RESOLVED_EXPLICIT_KEY)
  ++ star_poss inline ++ RGroup "explicit_tail" (star_poss any).
Definition implicit_key : re :=
  RLook ((star_lazy plain_key_char ++ _SECRET_KEY_FRAGMENT true)
         || (ch DQ ++ star_lazy ((ch BSL ++ inline) || notset [DQ; BSL; CR; LF])
             ++ _SECRET_KEY_FRAGMENT true)
         || (ch SQ ++ star_lazy ((ch SQ ++ ch SQ) || notset [SQ; CR; LF])
             ++ _SECRET_KEY_FRAGMENT true)
         || (ch DQ ++ star_poss (notset [DQ; BSL; CR; LF]) ++ ch BSL))
  ++ RLook (star_lazy inline ++ ch 58%N ++ (set [32%N; TAB; CR; LF] || REnd))
  ++ (((_YAML_DOUBLE_QUOTED_LINE || _YAML_SINGLE_QUOTED_LINE
        || (RNotLook (set [DQ; SQ]) ++ _YAML_PLAIN_KEY_RUN))
       ++ star_poss blank ++ ch 58%N ++ _YAML_SINGLE_LINE_SCALAR
       ++ RGroup "region" (star_poss (_YAML_REGION_BREAK ++ _YAML_REGION_BODY)))
      || (star_poss inline ++ RGroup "tail" (star_poss any))).
Definition _YAML_SENSITIVE_VALUE_RE : re :=
  line_prefix ++ star_poss (RSet (chars "&!") ++ star_poss (notset [32%N; TAB; CR; LF]) ++ plus_poss blank)
  ++ (explicit_key || implicit_key).

Definition _FLOW_OPENER_RE : re := ch 123%N || (ch 91%N ++ RNotLook (lit "REDACTED]")).
Definition _FLOW_SENSITIVE_TOKEN_RE : re :=
  _SECRET_KEY_FRAGMENT true || ch BSL
  || (at_line_start ++ star_poss blank ++ ch 63%N ++ RLook (set [32%N; TAB; CR; LF] || REnd)).
Definition _QUOTED_KEY_END_RE : re := ch DQ ++ star_poss blank ++ ch 58%N.
Definition _LINE_BREAK_RE : re := (ch CR ++ ch LF) || ch CR || ch LF.

Definition hex : re := RSet (fun c => digit c || between 97 102 c || between 65 70 c)%bool.
Definition NMS_SECRET_REFERENCE_RE : re :=
  lit "nms-secret:" ++ repeat_exact 8 hex ++ lit "-" ++ repeat_exact 4 hex ++ lit "-"
  ++ RSet (between 49 53) ++ repeat_exact 3 hex ++ lit "-" ++ RSet (chars "89abAB")
  ++ repeat_exact 3 hex ++ lit "-" ++ repeat_exact 12 hex ++ REnd.
Local Close Scope re_scope.

(** ** Span finders *)

(** The index after the last CR or LF of [text[:stop]]:
    [max(text.rfind(LF, 0, stop), text.rfind(CR, 0, stop)) + 1]. *)
Fixpoint line_start_loop (t : text) (i stop acc : nat) : nat :=
  match t with
  | [] => acc
  | c :: r => if i <? stop
              then line_start_loop r (S i) stop (if oneof [CR; LF] c then S i else acc)
              else acc
  end.
Definition line_start (t : text) (stop : nat) : nat := line_start_loop t 0 stop 0.

(** [text.find(c, position)]. *)
Definition find_char (c : char) (t : text) (position : nat) : option nat :=
  (fun p => position + p.1) <$> list_find (fun d => d = c) (drop position t).

(** The loop of [_escaped_key_line_start]; each round moves past a line break. *)
Fixpoint escaped_key_loop (n : nat) (t : text) (position : nat) : option nat :=
  match n with
  | O => None
  | S n =>
      match find_char BSL t position with
      | None => None
      | Some backslash =>
          let line_break := search _LINE_BREAK_RE t backslash in
          let line_end := match line_break with Some m => m.(m_start) | None => length t end in
          match search_until _QUOTED_KEY_END_RE t backslash line_end with
          | Some _ => Some (line_start t backslash)
          | None => match line_break with
                    | None => None
                    | Some m => escaped_key_loop n t m.(m_end)
                    end
          end
      end
  end.
Definition _escaped_key_line_start (t : text) : option nat :=
  escaped_key_loop (S (length t)) t 0.

Definition _fail_closed_tails (t : text) : list span :=
  (match search _FLOW_OPENER_RE t 0 with
   | Some opener =>
       match search _FLOW_SENSITIVE_TOKEN_RE t (line_start t opener.(m_start)) with
       | Some token => [(token.(m_start), length t)]
       | None => []
       end
   | None => []
   end)
  ++ (match _escaped_key_line_start t with
      | Some start => [(start, length t)]
      | None => []
      end).

(** The first group of the three that took part in the match; one always does. *)
Definition value_span (m : match_) : option span :=
  match span_of "explicit_tail" m with
  | Some s => Some s
  | None => match span_of "tail" m with
            | Some s => Some s
            | None => span_of "region" m
            end
  end.

(** The value lines of one match, without the line break after the key line. *)
Definition value_lines (t : text) (m : match_) : list span :=
  match value_span m with
  | None => []
  | Some (start, end_) =>
      let start := start + (if bool_decide (take 2 (drop start t) = [CR; LF]) then 2 else 1) in
      if start <? end_ then [(start, end_)] else []
  end.

Definition _sensitive_value_spans (t : text) : list span :=
  flat_map (value_lines t) (finditer _YAML_SENSITIVE_VALUE_RE t)
  ++ List.filter (fun s => s.1 <? s.2) (_fail_closed_tails t).

Definition _secret_spans (t : text) : list span :=
  let spans := m_span <$> finditer _SECRET_CONTENT_RE t in
  let extra := m_span <$> finditer _YAML_BLOCK_SCALAR_HEADER_RE t in
  match extra with
  | [] => spans
  | _ => _merge_spans (spans ++ extra)
  end.

(** ** The spans lie in the text *)

Lemma merge_spans_ordered n l :
  Forall span_wf l -> within n l -> ordered_from 0 n (_merge_spans l).
Proof.
  intros Hw Hn. destruct (merge_spans_ok l Hw) as [Hs _].
  apply ordered_from_separated; [done| |apply Forall_forall; lia|lia].
  apply coalesce_within. unfold within. by rewrite merge_sort_Permutation.
Qed.

Lemma secret_spans_ordered t : ordered_from 0 (length t) (_secret_spans t).
Proof.
  unfold _secret_spans.
  pose proof (finditer_ordered _SECRET_CONTENT_RE t) as H1.
  pose proof (finditer_ordered _YAML_BLOCK_SCALAR_HEADER_RE t) as H2.
  destruct (m_span <$> finditer _YAML_BLOCK_SCALAR_HEADER_RE t) as [|x l]; [done|].
  apply ordered_from_spans in H1 as ([_ Hw1] & Hn1 & _), H2 as ([_ Hw2] & Hn2 & _).
  apply merge_spans_ordered; apply Forall_app; done.
Qed.

Lemma line_start_loop_le t i stop acc : acc <= i -> line_start_loop t i stop acc <= i + length t.
Proof.
  revert i acc. induction t as [|c r IH]; intros i acc Ha; cbn [line_start_loop]; [cbn; lia|].
  destruct (i <? stop); [|cbn; lia]. cbn [length]. rewrite <- Nat.add_succ_comm.
  apply IH. destruct (oneof _ c); lia.
Qed.

Lemma escaped_key_loop_le n t position s : escaped_key_loop n t position = Some s -> s <= length t.
Proof.
  revert position. induction n as [|n IH]; intros position; cbn [escaped_key_loop]; [done|].
  destruct (find_char BSL t position); [|done]. destruct (search_until _ _ _ _).
  - intros [= <-]. apply (line_start_loop_le t 0). lia.
  - destruct (search _LINE_BREAK_RE t _); [apply IH|done].
Qed.

Lemma sensitive_value_spans_ok t :
  Forall span_wf (_sensitive_value_spans t) /\ within (length t) (_sensitive_value_spans t).
Proof.
  enough (Forall (fun s => s.1 <= s.2 <= length t) (_sensitive_value_spans t)) as H.
  { split; eapply Forall_impl; try exact H; intros [] ?; unfold span_wf; cbn in *; lia. }
  apply Forall_app. split.
  - apply Forall_forall. intros s Hs. apply list_elem_of_In, in_flat_map in Hs as (m & Hm & Hs).
    apply list_elem_of_In in Hm, Hs. unfold value_lines in Hs.
    destruct (value_span m) as [[a b]|] eqn:E; [|by apply elem_of_nil in Hs].
    assert (a <= b <= length t) as Hab.
    { unfold value_span in E.
      destruct (span_of "explicit_tail" m) eqn:E1; [simplify_eq; by eapply finditer_span_of|].
      destruct (span_of "tail" m) eqn:E2; [simplify_eq; by eapply finditer_span_of|].
      by eapply finditer_span_of. }
    destruct (_ <? b) eqn:El in Hs; [|by apply elem_of_nil in Hs].
    apply list_elem_of_singleton in Hs as ->. apply Nat.ltb_lt in El. cbn. lia.
  - apply Forall_forall. intros [a b] Hs.
    apply list_elem_of_In, filter_In in Hs as [Hs Hlt]. apply Nat.ltb_lt in Hlt. cbn in *.
    rewrite <- list_elem_of_In in Hs. enough (b = length t) by lia.
    unfold _fail_closed_tails in Hs. apply elem_of_app in Hs as [Hs|Hs].
    + repeat case_match; apply list_elem_of_In in Hs; cbn in Hs; naive_solver.
    + repeat case_match; apply list_elem_of_In in Hs; cbn in Hs; naive_solver.
Qed.

Lemma structural_spans_ordered t :
  ordered_from 0 (length t) (_merge_spans (_sensitive_value_spans t)).
Proof. destruct (sensitive_value_spans_ok t). by apply merge_spans_ordered. Qed.
