(* ===== verification/TextRedaction.v ===== *)
(** * Redaction of text

    [_base_fixed_point], [_redact_bounded], [_redact_secret_text] and
    [contains_secret_text] of [netbox_rpc/event_store.py], on lists of code points.
    A bound is a function on texts, as in the source; the theorems are about bounds
    that cut a text and append inserted characters. *)

From S2P Require Import Prelude Spans SpanFacts MaskFacts PyRegex SecretPatterns.
Local Open Scope nat_scope.

Definition _REDACTION_MARKER : text := codes "[REDACTED]".
Definition _TRUNCATION_MARKER : text := codes "...[truncated]".
Definition _SECRET_TEXT_PASSES : nat := 4.

(** One pass of the base patterns over a text and its pieces. *)
Definition base_pass (t : text) (pieces : list Piece) : text * list Piece :=
  _redact_spans_tracked (N.eqb BOM) _REDACTION_MARKER t pieces (_secret_spans t).

Definition _redact_secret_spans (t : text) : text := (base_pass t [(length t, Some 0)]).1.

Fixpoint base_loop (n : nat) (bound : text -> text) (current : text) (pieces : list Piece)
    : option (text * list Piece) :=
  match n with
  | O => None
  | S n =>
      let '(redacted, redacted_pieces) := base_pass current pieces in
      let bounded := bound redacted in
      let bounded_pieces := _bound_tracked redacted redacted_pieces bounded in
      if bool_decide (bounded = current) then Some (current, pieces)
      else base_loop n bound bounded bounded_pieces
  end.
Definition _base_fixed_point (t : text) (bound : text -> text) : option (text * list Piece) :=
  base_loop _SECRET_TEXT_PASSES bound t (match t with [] => [] | _ => [(length t, Some 0)] end).

Definition _redact_bounded (t : text) (bound : text -> text) : text :=
  if fullmatch NMS_SECRET_REFERENCE_RE t then t else
  match _base_fixed_point t bound with
  | None => _REDACTION_MARKER
  | Some (current, pieces) =>
      match _merge_spans (_sensitive_value_spans t) with
      | [] => current
      | structural =>
          let masked := bound (_mask_structural _REDACTION_MARKER current pieces structural) in
          match _base_fixed_point masked bound with
          | None => _REDACTION_MARKER
          | Some again => again.1
          end
      end
  end.

Definition _redact_secret_text (t : text) : text := _redact_bounded t (fun value => value).
Definition contains_secret_text (t : text) : bool := negb (bool_decide (_redact_secret_text t = t)).

(** The bound of [_redact_event_text]: cut at [max_length] and append the marker. *)
Definition event_bound (max_length : nat) (t : text) : text :=
  if max_length <? length t then take max_length t ++ _TRUNCATION_MARKER else t.
(** The bound of [_bounded_event_message]: the marker stays inside [limit]. *)
Definition message_bound (limit : nat) (t : text) : text :=
  if length t <=? limit then t
  else take (limit - length _TRUNCATION_MARKER) t ++ _TRUNCATION_MARKER.

(** ** Pieces stay proper *)

Lemma take_loop_proper start end_ pieces off : proper (take_loop start end_ pieces off).1.
Proof.
  revert off. induction pieces as [|[len src] r IH]; intros off; cbn [take_loop]; [constructor|].
  assert (forall o : option nat, proper (if max start off <? min end_ (off + len)
            then [(min end_ (off + len) - max start off, o)] else [])) as Ho.
  { intros o. destruct (Nat.ltb_spec (max start off) (min end_ (off + len))); [|constructor].
    repeat constructor. cbn. intros; lia. }
  destruct (end_ <? off + len); [apply Ho|].
  specialize (IH (off + len)). destruct (take_loop _ _ r _) as [more cur].
  apply Forall_app. split; [apply Ho|exact IH].
Qed.

Lemma redact_loop_proper {A} is_bom (marker t : list A) spans last c :
  proper (redact_loop is_bom marker t spans last c).2.
Proof.
  revert last c. induction spans as [|[s e] r IH]; intros last c; cbn [redact_loop].
  - apply take_loop_proper.
  - destruct (cursor_take last _ c) as [head c1] eqn:E. destruct (cursor_take _ e c1) as [? c2].
    specialize (IH e c2). destruct (redact_loop _ _ t r e c2) as [parts pieces].
    cbn [snd]. apply Forall_app. split; [|by constructor].
    change head with ((head, c1).1). rewrite <- E. apply take_loop_proper.
Qed.

Lemma bound_tracked_proper {A} `{EqDecision A} (t : list A) pieces bounded :
  proper pieces -> proper (_bound_tracked t pieces bounded).
Proof.
  unfold _bound_tracked. intros Hp. case_bool_decide; [done|].
  apply Forall_app. split; [apply take_loop_proper|]. destruct (_ <? _); by repeat constructor.
Qed.

(** ** Provenance *)

(** What an inserted character may be: one of the marker or of the truncation mark. *)
Definition inserted (c : char) : Prop := c ∈ _REDACTION_MARKER ++ _TRUNCATION_MARKER.

(** A bound that keeps a prefix and appends inserted characters. *)
Definition cutting (bound : text -> text) : Prop := forall t, cut_of inserted t (bound t).

Lemma marker_inserted : Forall inserted _REDACTION_MARKER.
Proof. apply Forall_forall. intros c Hc. apply elem_of_app. by left. Qed.
Lemma truncation_inserted : Forall inserted _TRUNCATION_MARKER.
Proof. apply Forall_forall. intros c Hc. apply elem_of_app. by right. Qed.

(** The working text and its pieces, against the text they came from. *)
Definition provenance (orig t : text) (pieces : list Piece) : Prop :=
  tracks inserted orig t (expand pieces) /\ increasing (expand pieces) /\ proper pieces.

Lemma increasing_seq a n : increasing (Some <$> seq a n).
Proof.
  unfold increasing. revert a. induction n as [|n IH]; intros a; cbn; constructor; [apply IH|].
  apply Forall_forall. intros j Hj. apply list_elem_of_omap in Hj as (o & Ho & Heq).
  apply list_elem_of_fmap in Ho as (k & -> & Hk%elem_of_seq). cbn in Heq. simplify_eq. lia.
Qed.

Lemma provenance_start t :
  provenance t t (match t with [] => [] | _ => [(length t, Some 0)] end).
Proof.
  destruct t as [|c r]; [by repeat constructor|]. set (t := c :: r).
  unfold provenance. rewrite expand_singleton. cbn [expand1 fst snd]. split_and!.
  - apply Forall2_same_length_lookup_2; [by rewrite length_fmap, length_seq|].
    intros i x y Hx Hy. rewrite list_lookup_fmap in Hy.
    destruct (seq 0 (length t) !! i) eqn:E; cbn in Hy; [|done]. simplify_eq.
    by apply lookup_seq in E as [-> _].
  - apply increasing_seq.
  - repeat constructor. done.
Qed.

Lemma base_pass_provenance orig t pieces :
  provenance orig t pieces ->
  let r := base_pass t pieces in provenance orig r.1 r.2.
Proof.
  intros (Ht & Hi & Hp). cbn zeta. unfold base_pass, _redact_spans_tracked.
  pose proof (secret_spans_ordered t) as Ho. pose proof (Forall2_length _ _ _ Ht) as Hlen.
  set (c := (pieces, 0)). assert (cursor_at (expand pieces) c) as Hc by done.
  unfold provenance.
  rewrite (redact_loop_render _ _ _ _ 0 c Ho).
  rewrite (redact_loop_origins _ _ _ (expand pieces) _ 0 c) by (cbn; auto with lia).
  split_and!.
  - apply render_tracks; [apply marker_inserted|done].
  - unfold increasing. eapply (StronglySorted_sublist _ _ (known (expand pieces))); [|exact Hi].
    by apply (redact_toks_sublist _ _ _ _ 0).
  - apply redact_loop_proper.
Qed.

Lemma base_loop_spec n bound orig t pieces current pieces' :
  cutting bound -> provenance orig t pieces ->
  base_loop n bound t pieces = Some (current, pieces') ->
  provenance orig current pieces' /\ bound (base_pass current pieces').1 = current.
Proof.
  intros Hb. revert t pieces. induction n as [|n IH]; intros t pieces Hp; cbn [base_loop]; [done|].
  pose proof (base_pass_provenance _ _ _ Hp) as Hp'.
  destruct (base_pass t pieces) as [redacted rp] eqn:E. cbn [fst snd] in Hp'.
  case_bool_decide as Hd; [intros [= <- <-]; by rewrite E|].
  apply IH. destruct Hp' as (H1 & H2 & H3).
  destruct (bound_tracked_spec inserted orig redacted rp (bound redacted)) as (H4 & H5 & _); [done..|].
  split_and!; [done|auto|]. by apply bound_tracked_proper.
Qed.

(** The text a pass produces does not depend on the pieces. *)
Lemma base_pass_text t pieces pieces' : (base_pass t pieces).1 = (base_pass t pieces').1.
Proof.
  unfold base_pass, _redact_spans_tracked. rewrite !redact_loop_render by apply secret_spans_ordered.
  done.
Qed.

Lemma base_fixed_point_spec bound t current pieces :
  cutting bound -> _base_fixed_point t bound = Some (current, pieces) ->
  provenance t current pieces /\ bound (_redact_secret_spans current) = current.
Proof.
  intros Hb H. apply (base_loop_spec _ _ t) in H as [Hp Hf]; [|done|apply provenance_start].
  split; [done|]. unfold _redact_secret_spans. by rewrite (base_pass_text _ _ pieces).
Qed.

(** ** The redacted text *)

(** The base pass and the bound change nothing any more. *)
Definition stable (bound : text -> text) (t : text) : Prop :=
  bound (_redact_secret_spans t) = t.

(** Every kept character comes from outside the structural spans, in order. *)
Definition kept_outside (orig t : text) : Prop :=
  exists origins, tracks inserted orig t origins /\ increasing origins /\
    forall j, Some j ∈ origins -> ~ covers (_sensitive_value_spans orig) j.

Lemma tracks_cut orig t origins bounded :
  tracks inserted orig t origins -> cut_of inserted t bounded ->
  exists n, tracks inserted orig bounded (take n origins ++ replicate (length bounded - n) None).
Proof.
  intros Ht (n & Hn & Hi & Hle). exists n. rewrite <- length_drop. set (r := drop n bounded) in *.
  rewrite <- (take_drop n bounded), Hn. apply Forall2_app; [by apply Forall2_take|].
  by apply tracks_inserted.
Qed.

Lemma mask_kept_outside orig current pieces bounded :
  provenance orig current pieces ->
  cut_of inserted (_mask_structural _REDACTION_MARKER current pieces
                     (_merge_spans (_sensitive_value_spans orig))) bounded ->
  kept_outside orig bounded.
Proof.
  intros (Ht & Hi & Hp) Hcut.
  pose proof (structural_spans_ordered orig) as Ho.
  destruct (sensitive_value_spans_ok orig) as [Hw _].
  destruct (merge_spans_ok _ Hw) as [_ Hcov].
  destruct (mask_structural_ok _REDACTION_MARKER inserted orig current pieces _ _ Ht Ho Hi Hp)
    as (toks & Heq & Hin & Hsub).
  rewrite Heq in Hcut.
  pose proof (render_tracks inserted _ _ _ _ toks marker_inserted Ht) as Hm.
  destruct (tracks_cut _ _ _ _ Hm Hcut) as (n & Hb).
  eexists. split_and!; [exact Hb|..].
  - unfold increasing. rewrite omap_app, omap_replicate_None, app_nil_r.
    eapply increasing_sublist; [apply sublist_take|].
    unfold increasing. eapply StronglySorted_sublist; [apply Hsub|exact Hi].
  - intros j [Hj|Hj]%elem_of_app; [|by apply elem_of_replicate in Hj as [? _]].
    eapply elem_of_sublist in Hj; [|apply sublist_take].
    apply elem_of_render_origins in Hj as (i & Hi' & Hij).
    rewrite <- Hcov. by apply (Hin i j Hij).
Qed.

Lemma kept_outside_via orig mid t pieces :
  kept_outside orig mid -> provenance mid t pieces -> kept_outside orig t.
Proof.
  intros (o1 & H1 & H2 & H3) (H4 & H5 & _). exists (via o1 (expand pieces)). split_and!.
  - by eapply tracks_via.
  - by apply increasing_via.
  - intros j Hj%elem_of_via. auto.
Qed.

Lemma redact_bounded_cases bound t :
  cutting bound ->
  let r := _redact_bounded t bound in
  (fullmatch NMS_SECRET_REFERENCE_RE t = true /\ r = t) \/
  r = _REDACTION_MARKER \/
  (stable bound r /\ kept_outside t r).
Proof.
  intros Hb. cbn zeta. unfold _redact_bounded.
  destruct (fullmatch NMS_SECRET_REFERENCE_RE t) eqn:Ef; [by left|right].
  destruct (_base_fixed_point t bound) as [[current pieces]|] eqn:E1; [|by left].
  apply base_fixed_point_spec in E1 as [Hp Hs]; [|done].
  destruct (sensitive_value_spans_ok t) as [Hw _]. destruct (merge_spans_ok _ Hw) as [_ Hcov].
  pose proof (mask_kept_outside t current pieces) as Hmask.
  destruct (_merge_spans (_sensitive_value_spans t)) as [|x l] eqn:Em.
  - right. split; [done|]. destruct Hp as (H1 & H2 & _). exists (expand pieces).
    split_and!; [done..|]. intros j _. rewrite <- Hcov. apply covers_nil.
  - specialize (Hmask _ Hp (Hb _)).
    destruct (_base_fixed_point (bound (_mask_structural _ _ _ _)) bound) as [[again p2]|] eqn:E2; [|by left].
    apply base_fixed_point_spec in E2 as [Hp2 Hs2]; [|done].
    right. split; [done|]. by eapply kept_outside_via.
Qed.

Lemma cut_of_refl t : cut_of inserted t t.
Proof. exists (length t). rewrite drop_all. split_and!; [done|constructor|lia]. Qed.

Lemma cut_of_take n t : n <= length t -> cut_of inserted t (take n t ++ _TRUNCATION_MARKER).
Proof.
  intros Hn. exists n. rewrite take_app_le, drop_app_ge by (rewrite length_take; lia).
  rewrite take_take, Nat.min_id, length_take, length_app, length_take.
  split_and!; [done| |lia]. apply Forall_drop, truncation_inserted.
Qed.

Lemma cutting_id : cutting (fun t => t).
Proof. intros t. apply cut_of_refl. Qed.
Lemma cutting_event n : cutting (event_bound n).
Proof.
  intros t. unfold event_bound. destruct (Nat.ltb_spec n (length t)); [|apply cut_of_refl].
  apply cut_of_take. lia.
Qed.
Lemma cutting_message n : cutting (message_bound n).
Proof.
  intros t. unfold message_bound. destruct (Nat.leb_spec (length t) n); [apply cut_of_refl|].
  apply cut_of_take. lia.
Qed.

Lemma event_bound_length n t : length (event_bound n t) <= n + 14.
Proof.
  unfold event_bound. destruct (Nat.ltb_spec n (length t)); [|lia].
  rewrite length_app, length_take. change (length _TRUNCATION_MARKER) with 14. lia.
Qed.
Lemma message_bound_length n t : 14 <= n -> length (message_bound n t) <= n.
Proof.
  unfold message_bound. destruct (Nat.leb_spec (length t) n); [done|].
  rewrite length_app, length_take. change (length _TRUNCATION_MARKER) with 14. lia.
Qed.

Lemma reference_length t : fullmatch NMS_SECRET_REFERENCE_RE t = true -> length t = 47.
Proof. by apply fullmatch_width. Qed.

(** The length of a redacted text under any bound on the length of the bounded text. *)
Lemma redact_bounded_length bound t n :
  cutting bound -> (forall u, length (bound u) <= n) -> 47 <= n ->
  length (_redact_bounded t bound) <= n.
Proof.
  intros Hb Hl Hn. destruct (redact_bounded_cases bound t Hb) as [[Hf ->]|[->|[Hs _]]].
  - apply reference_length in Hf. lia.
  - cbn. lia.
  - unfold stable in Hs. rewrite <- Hs. apply Hl.
Qed.

(** ** Text that redaction leaves alone *)

(** Every pattern needs a character the alphabet does not have. *)
Definition harmless (alphabet : text) : bool :=
  dead alphabet _SECRET_CONTENT_RE && dead alphabet _YAML_BLOCK_SCALAR_HEADER_RE
  && dead alphabet _YAML_SENSITIVE_VALUE_RE && dead alphabet _FLOW_OPENER_RE
  && negb (oneof alphabet BSL).

Lemma oneof_spec l c : oneof l c = true <-> c ∈ l.
Proof.
  unfold oneof. rewrite existsb_exists, list_elem_of_In. split.
  - intros (d & Hd & ->%N.eqb_eq). done.
  - intros Hc. exists c. split; [done|]. apply N.eqb_refl.
Qed.

Lemma harmless_unchanged alphabet t bound :
  harmless alphabet = true -> Forall (fun c => c ∈ alphabet) t -> bound t = t ->
  _redact_bounded t bound = t.
Proof.
  unfold harmless. rewrite !andb_true_iff, negb_true_iff.
  intros ((((H1 & H2) & H3) & H4) & H5) Ht Hb.
  unfold _redact_bounded. destruct (fullmatch _ t); [done|].
  assert (_secret_spans t = []) as Hs.
  { unfold _secret_spans. by rewrite (finditer_dead _ _ t H1 Ht), (finditer_dead _ _ t H2 Ht). }
  assert (_escaped_key_line_start t = None) as He.
  { unfold _escaped_key_line_start. cbn [escaped_key_loop].
    assert (find_char BSL t 0 = None) as ->; [|done].
    unfold find_char. rewrite (proj2 (list_find_None _ _)); [done|].
    eapply Forall_impl; [exact Ht|]. intros c Hc%oneof_spec ->. cbn in H5. congruence. }
  assert (_sensitive_value_spans t = []) as Hv.
  { unfold _sensitive_value_spans, _fail_closed_tails.
    by rewrite (finditer_dead _ _ t H3 Ht), (search_dead _ _ t 0 H4 Ht), He. }
  unfold _base_fixed_point, _SECRET_TEXT_PASSES. cbn [base_loop].
  unfold base_pass, _redact_spans_tracked. rewrite Hs. cbn [redact_loop].
  rewrite drop_0, Hb, bool_decide_true by done. by rewrite Hv.
Qed.

(** Catalog codes, hexadecimal digests and ISO timestamps. *)
Definition CATALOG_ALPHABET : text := codes "ABCDEFGHIJKLMNOPQRSTUVWXYZ0123456789_".
Definition HEX_ALPHABET : text := codes "0123456789abcdef-".
Definition ISO_ALPHABET : text := codes "0123456789-:+.TZ ".

Lemma catalog_harmless : harmless CATALOG_ALPHABET = true.
Proof. by vm_compute. Qed.
Lemma hex_harmless : harmless HEX_ALPHABET = true.
Proof. by vm_compute. Qed.
Lemma iso_harmless : harmless ISO_ALPHABET = true.
Proof. by vm_compute. Qed.

(** C35: Redacting persisted text has three outcomes.  An exact secret reference is
    kept; text that does not settle is replaced whole; otherwise the base patterns
    find nothing more to redact in the result, and every character of it is either
    part of an inserted mark or a character of the original, in the original order,
    that no structural rule covers. *)
Theorem secret_text_redaction t :
  let r := _redact_secret_text t in
  (fullmatch NMS_SECRET_REFERENCE_RE t = true /\ r = t) \/
  r = _REDACTION_MARKER \/
  (_redact_secret_spans r = r /\ kept_outside t r).
Proof. apply (redact_bounded_cases (fun v => v)), cutting_id. Qed.
