(* ===== verification/CredentialContract.v ===== *)
(** * Credential references

    [netbox_rpc/credential_contract.py]: the closed metadata contract for named
    credential references, their fingerprint in the normalized parameters, and the
    public metadata that event redaction lets through.  The JSON Schema validator is
    third-party code: the class [JsonSchema] is its interface. *)

From S2P Require Import Prelude PyValue.

(** The first error of validating an instance against a schema, if any: its
    [absolute_path] as text and the failed keyword. *)
Class JsonSchema := { json_error : value -> value -> option (list string * option string) }.

(** [validate] does not raise. *)
Definition json_valid `{JsonSchema} (schema v : value) : bool :=
  match json_error schema v with None => true | Some _ => false end.

(** A required property of a schema of type object is present (documented). *)
Class JsonSchemaLaws `{JsonSchema} := {
  json_valid_required schema names k v :
    json_valid (VDict schema) v = true ->
    get "type" schema = VStr "object" -> get "required" schema = VList names ->
    VStr k ∈ names -> exists d x, v = VDict d /\ dict_get k d = Some x;
  json_valid_property schema props k sub d x :
    json_valid (VDict schema) (VDict d) = true ->
    get "properties" schema = VDict props -> dict_get k props = Some sub ->
    dict_get k d = Some x -> json_valid sub x = true;
  json_valid_enum schema options v :
    json_valid (VDict schema) v = true -> get "enum" schema = VList options -> v ∈ options;
  json_valid_one_of schema options v :
    json_valid (VDict schema) v = true -> get "oneOf" schema = VList options ->
    exists sub, sub ∈ options /\ json_valid sub v = true;
  json_valid_array schema v :
    json_valid (VDict schema) v = true -> get "type" schema = VStr "array" ->
    exists l, v = VList l;
}.

(** ** Shapes of text *)

Definition lower_hex (c : ascii) : bool :=
  ((48 <=? code c) && (code c <=? 57)) || ((97 <=? code c) && (code c <=? 102)).
Definition lower_alpha (c : ascii) : bool := (97 <=? code c) && (code c <=? 122).
Definition name_char (c : ascii) : bool :=
  lower_alpha c || ((48 <=? code c) && (code c <=? 57)) || (code c =? 95).

Fixpoint str_forall (p : ascii -> bool) (s : string) : bool :=
  match s with EmptyString => true | String c r => p c && str_forall p r end.

(** [re.fullmatch(_NAME_PATTERN, s)]: a lower-case letter, then at most 63 letters,
    digits or underscores. *)
Definition is_name (s : string) : bool :=
  match s with
  | EmptyString => false
  | String c r => lower_alpha c && str_forall name_char r && (str_len r <=? 63)
  end.

(** The text before and after the first occurrence of [c]. *)
Fixpoint str_split_at (c : ascii) (s : string) : option (string * string) :=
  match s with
  | EmptyString => None
  | String d r => if Ascii.eqb c d then Some (EmptyString, r)
                  else '(a, b) ← str_split_at c r; Some (String d a, b)
  end.
Definition is_object_type (s : string) : bool :=
  match str_split_at "."%char s with
  | Some (app, model) => is_name app && is_name model
  | None => false
  end.

Definition is_sha256 (s : string) : bool := str_forall lower_hex s && (str_len s =? 64).

(** [str(UUID(s)) == s]: the lower-case form with hyphens after 8, 12, 16 and 20 digits. *)
Fixpoint uuid_chars (i : Z) (s : string) : bool :=
  match s with
  | EmptyString => i =? 36
  | String c r =>
      (if (i =? 8) || (i =? 13) || (i =? 18) || (i =? 23) then code c =? 45 else lower_hex c)
      && uuid_chars (i + 1) r
  end.
Definition is_canonical_uuid (s : string) : bool := uuid_chars 0 s.

(** ** The schema *)

Definition _POSITIVE_ID : value :=
  VDict [("type", VStr "integer"); ("minimum", VInt 1); ("maximum", VInt 9007199254740991)].
Definition _NAME_PATTERN : string := "^[a-z][a-z0-9_]{0,63}$".
Definition const (s : string) : value := VDict [("const", VStr s)].
Definition closed_object (required : list string) (properties : dict) : dict :=
  [("type", VStr "object"); ("additionalProperties", VBool false);
   ("required", VList (VStr <$> required)); ("properties", VDict properties)].
Definition PURPOSES : list string :=
  ["login"; "enable"; "console"; "oob"; "api"; "agent"; "backup"].

Definition _REFERENCE_PROPERTIES : dict :=
  [("schema_version", VDict [("type", VStr "integer"); ("const", VInt 1)]);
   ("provider", const "netbox-openbao");
   ("assignment_id", _POSITIVE_ID);
   ("credential_uuid", VDict [("type", VStr "string"); ("minLength", VInt 36); ("maxLength", VInt 36)]);
   ("target", VDict (closed_object ["object_type"; "object_id"]
      [("object_type", VDict [("type", VStr "string"); ("maxLength", VInt 129);
                              ("pattern", VStr "^[a-z][a-z0-9_]{0,63}\.[a-z][a-z0-9_]{0,63}$")]);
       ("object_id", _POSITIVE_ID)]));
   ("purpose", VDict [("enum", VList (VStr <$> PURPOSES))]);
   ("fields", VDict [("type", VStr "array"); ("minItems", VInt 1); ("maxItems", VInt 16);
                     ("uniqueItems", VBool true);
                     ("items", VDict [("type", VStr "string"); ("maxLength", VInt 64);
                                      ("pattern", VStr _NAME_PATTERN)])]);
   ("version", VDict [("oneOf", VList
      [VDict (closed_object ["policy"] [("policy", const "live")]);
       VDict (closed_object ["policy"; "number"]
                [("policy", const "pinned"); ("number", _POSITIVE_ID)])])])].

Definition _REFERENCE_SCHEMA : dict :=
  closed_object ["schema_version"; "provider"; "target"; "purpose"; "fields"; "version"]
    _REFERENCE_PROPERTIES
  ++ [("oneOf", VList [VDict [("required", VList [VStr "assignment_id"])];
                       VDict [("required", VList [VStr "credential_uuid"])]])].

(** ** References *)

Record TargetReference := { object_type : string; object_id : Z }.
Record CredentialVersionPolicy := { policy : value; number : option Z }.
Record CredentialReferenceV1 := {
  schema_version : Z;
  provider : string;
  assignment_id : option Z;
  credential_uuid : option string;
  target : TargetReference;
  purpose : value;
  fields : list string;
  version : CredentialVersionPolicy;
}.

(** [v[k]]. *)
Definition item (k : string) (v : value) : res value :=
  match v with
  | VDict d => match dict_get k d with Some x => Ok x | None => Err KeyError end
  | _ => Err TypeError
  end.
(** [v.get(k)]. *)
Definition get_of (k : string) (v : value) : value :=
  match v with VDict d => get k d | _ => VNone end.
Definition has (k : string) (v : value) : bool :=
  match v with VDict d => dict_mem k d | _ => false end.

(** [type(v) is int]; a boolean is not. *)
Definition exact_int (v : value) : res Z :=
  match v with VInt z => Ok z | _ => Err CredentialContractError end.

Definition optional {A} (present : bool) (r : res A) : res (option A) :=
  if present then Some <$> r else Ok None.

(** [_strict_reference_integers], with the integers it read:
    schema version, object id, assignment id, version number. *)
Definition _strict_reference_integers (v : value) : res (Z * Z * option Z * option Z) :=
  schema ← item "schema_version" v ≫= exact_int;
  target ← item "target" v;
  obj ← item "object_id" target ≫= exact_int;
  assignment ← optional (has "assignment_id" v) (exact_int (get_of "assignment_id" v));
  version ← item "version" v;
  num ← optional (has "number" version) (exact_int (get_of "number" version));
  mret (schema, obj, assignment, num).

(** [re.fullmatch(_NAME_PATTERN, field)] on every field; a non-string raises. *)
Fixpoint checked_fields (l : list value) : res (list string) :=
  match l with
  | [] => Ok []
  | VStr s :: r => if is_name s then cons s <$> checked_fields r else Err ValueError
  | _ :: _ => Err TypeError
  end.

Definition checked_names (v : value) : res (list string) :=
  match v with VList l => checked_fields l | _ => Err TypeError end.

Definition checked_label (v : value) : res string :=
  match v with
  | VStr s => if is_object_type s then Ok s else Err ValueError
  | _ => Err TypeError
  end.

Definition checked_uuid (v : value) : res (option string) :=
  match v with
  | VNone => Ok None
  | VStr s => if is_canonical_uuid s then Ok (Some s) else Err ValueError
  | _ => Err TypeError
  end.

Section Contract.
Context `{PyLib} `{JsonSchema}.

Definition checked_reference (v : value) : res CredentialReferenceV1 :=
_ ← require (json_valid (VDict _REFERENCE_SCHEMA) v) ValueError;
'(_, obj, assignment, num) ← _strict_reference_integers v;
identifier ← checked_uuid (get_of "credential_uuid" v);
listed ← item "fields" v;
names ← checked_names listed;
target ← item "target" v;
label ← item "object_type" target;
label ← checked_label label;
purpose ← item "purpose" v;
version ← item "version" v;
policy ← item "policy" version;
mret {| schema_version := 1; provider := "netbox-openbao";
assignment_id := assignment; credential_uuid := identifier;
target := {| object_type := label; object_id := obj |};
purpose := purpose; fields := names;
version := {| policy := policy; number := num |} |}.

(** Every error the source catches becomes the value-free contract error. *)
Definition from_mapping (v : value) : res CredentialReferenceV1 :=
match checked_reference v with
| Ok r => Ok r
| Err KeyError => Err KeyError
| Err _ => Err CredentialContractError
end.

Definition to_mapping (r : CredentialReferenceV1) : dict :=
[("schema_version", VInt r.(schema_version)); ("provider", VStr r.(provider));
 ("target", VDict [("object_type", VStr r.(target).(object_type));
           ("object_id", VInt r.(target).(object_id))]);
 ("purpose", r.(purpose)); ("fields", VList (VStr <$> r.(fields)));
 ("version", VDict (("policy", r.(version).(policy)) ::
            match r.(version).(number) with
            | Some n => [("number", VInt n)] | None => [] end))]
++ [match r.(assignment_id) with
| Some a => ("assignment_id", VInt a)
| None => ("credential_uuid", match r.(credential_uuid) with
                          | Some u => VStr u | None => VNone end)
end].

Fixpoint named_loop (entries result : dict) : res dict :=
match entries with
| [] => Ok result
| (name, reference) :: r =>
if is_name name
then ref ← from_mapping reference;
 named_loop r (dict_set name (VDict (to_mapping ref)) result)
else Err CredentialContractError
end.
Definition validate_named_references (v : value) : res dict :=
match v with
| VDict d => if (16 <? Z.of_nat (length d)) then Err CredentialContractError
     else named_loop d []
| _ => Err CredentialContractError
end.

Definition canonical_hash (v : value) : string := sha256 (json_dumps v).

(** [references] and [authority] are the execution's attributes. *)
Definition apply_credential_fingerprint (references authority : value) (normalized : dict) : res dict :=
if negb (truthy references) then Ok normalized else
refs ← validate_named_references references;
if negb (truthy authority) || negb (py_eqb (get_of "references" authority) (VDict refs))
then Err CredentialContractError else
let normalized := dict_set "credential_references" (VDict refs) normalized in
let normalized := if dict_mem "command_fingerprint" normalized then normalized
          else dict_set "command_fingerprint" (VDict []) normalized in
match get "command_fingerprint" normalized with
| VDict fp =>
let fp := dict_set "credential_authority_sha256" (VStr (canonical_hash authority)) fp in
let normalized := dict_set "command_fingerprint" (VDict fp) normalized in
Ok (dict_set "credential_policy_ref"
  (VStr ("credential-authority:" +:+ canonical_hash authority)) normalized)
| _ => Err TypeError
end.

Definition _POLICY_PREFIX : string := "credential-authority:".

(** [None] also stands for the [KeyError] that a validated reference cannot raise
(see [from_mapping_no_KeyError]). *)
Definition public_credential_metadata (v : value) (key : string) : option value :=
if String.eqb key "credential_references" then
match validate_named_references v with Ok d => Some (VDict d) | Err _ => None end
else
match v with
| VStr s =>
if String.eqb key "credential_authority_sha256" && is_sha256 s then Some v
else if String.eqb key "credential_policy_ref" && str_startswith _POLICY_PREFIX s
      && is_sha256 (String.substring 21 (String.length s - 21) s) then Some v
else None
| _ => None
end.
End Contract.

(** ** Properties *)

Definition REFERENCE_KEYS : list string :=
  ["schema_version"; "provider"; "target"; "purpose"; "fields"; "version";
   "assignment_id"; "credential_uuid"].

Section Facts.
Context `{PyLib} `{JsonSchema}.

Lemma checked_fields_names l names :
  checked_fields l = Ok names -> l = VStr <$> names /\ Forall (fun s => is_name s = true) names.
Proof.
  revert names. induction l as [|v l IH]; intros names; cbn; [intros [= <-]; by split|].
  destruct v; try done. destruct (is_name s) eqn:E; [|done].
  destruct (checked_fields l) as [names'|] eqn:El; cbn; [|done]. intros [= <-].
  destruct (IH _ eq_refl) as [-> ?]. split; [done|by constructor].
Qed.
Lemma checked_fields_complete names :
  Forall (fun s => is_name s = true) names -> checked_fields (VStr <$> names) = Ok names.
Proof. induction 1 as [|s l Hs Hl IH]; cbn; [done|]. by rewrite Hs, IH. Qed.

Lemma checked_names_ok v names :
  checked_names v = Ok names -> v = VList (VStr <$> names) /\ Forall (fun s => is_name s = true) names.
Proof. destruct v; cbn; try done. by intros [-> ?]%checked_fields_names. Qed.
Lemma checked_label_ok v s : checked_label v = Ok s -> v = VStr s /\ is_object_type s = true.
Proof. destruct v as [| | | |t| | | | | |]; cbn; try done. destruct (is_object_type t) eqn:?; naive_solver. Qed.
Lemma checked_uuid_ok v s :
  checked_uuid v = Ok (Some s) -> v = VStr s /\ is_canonical_uuid s = true.
Proof. destruct v as [| | | |t| | | | | |]; cbn; try done. destruct (is_canonical_uuid t) eqn:?; naive_solver. Qed.

(** What a checked reference satisfies. *)
Definition reference_ok (r : CredentialReferenceV1) : Prop :=
  r.(schema_version) = 1 /\ r.(provider) = "netbox-openbao" /\
  is_object_type r.(target).(object_type) = true /\
  Forall (fun s => is_name s = true) r.(fields) /\
  (forall u, r.(credential_uuid) = Some u -> is_canonical_uuid u = true).

Lemma checked_reference_ok v r :
  checked_reference v = Ok r ->
  reference_ok r /\ json_valid (VDict _REFERENCE_SCHEMA) v = true /\ item "purpose" v = Ok r.(purpose).
Proof.
  unfold checked_reference. intros Hr. res_inv.
  repeat match goal with x : (_ * _)%type |- _ => destruct x end. res_inv. subst r.
  unfold reference_ok; cbn. split_and!; try done; [..|intros u ->].
  - match goal with H : checked_label ?w = _ |- _ => by apply checked_label_ok in H as [_ ?] end.
  - match goal with H : checked_names ?w = _ |- _ => by apply checked_names_ok in H as [_ ?] end.
  - match goal with H : checked_uuid ?w = _ |- _ => by apply checked_uuid_ok in H as [_ ?] end.
Qed.

Lemma to_mapping_closed r k : k ∈ keys (to_mapping r) -> k ∈ REFERENCE_KEYS.
Proof.
  unfold to_mapping. rewrite list_elem_of_In. unfold keys.
  destruct (assignment_id r); cbn; intros Hk; repeat (destruct Hk as [<-|Hk]; [compute_done|]); done.
Qed.

(** A reference that the contract produced is accepted again, unchanged. *)
Lemma checked_reference_to_mapping r :
  reference_ok r -> json_valid (VDict _REFERENCE_SCHEMA) (VDict (to_mapping r)) = true ->
  exists r', checked_reference (VDict (to_mapping r)) = Ok r' /\ to_mapping r' = to_mapping r.
Proof.
  intros (Hs & Hp & Ht & Hf & Hu) Hv. unfold checked_reference. rewrite Hv. cbn [require].
  destruct r as [sv pr asg uuid [ot oid] pu fs [po num]]; cbn in Hs, Hp, Ht, Hf, Hu. subst sv pr.
  destruct asg as [a|], num as [n|], uuid as [u|]; cbn; rewrite ?checked_fields_complete by done;
    rewrite ?(Hu _ eq_refl); cbn; rewrite Ht; cbn; eexists; (split; [reflexivity|done]).
Qed.
End Facts.

Section Laws.
Context `{PyLib} `{JsonSchemaLaws}.

Lemma item_present schema names k v :
  json_valid (VDict schema) v = true ->
  get "type" schema = VStr "object" -> get "required" schema = VList (VStr <$> names) ->
  k ∈ names -> exists x, item k v = Ok x /\ exists d, v = VDict d /\ dict_get k d = Some x.
Proof.
  intros Hv Ht Hr Hk.
  destruct (json_valid_required schema (VStr <$> names) k v Hv Ht Hr) as (d & x & -> & Hx).
  { apply list_elem_of_fmap. eauto. }
  exists x. cbn. rewrite Hx. eauto.
Qed.

(** A property of a valid reference is present and satisfies its own schema. *)
Lemma reference_property k sub v :
  json_valid (VDict _REFERENCE_SCHEMA) v = true ->
  k ∈ ["schema_version"; "provider"; "target"; "purpose"; "fields"; "version"] ->
  dict_get k _REFERENCE_PROPERTIES = Some sub ->
  exists x, item k v = Ok x /\ json_valid sub x = true.
Proof.
  intros Hv Hk Hs.
  destruct (item_present _ _ k v Hv eq_refl eq_refl Hk) as (x & Hx & d & -> & Hd).
  exists x. split; [done|]. by eapply (json_valid_property _ _ k).
Qed.

Lemma no_KeyError_bind {A B} (m : res A) (f : A -> res B) :
  m <> Err KeyError -> (forall a, m = Ok a -> f a <> Err KeyError) -> (m ≫= f) <> Err KeyError.
Proof. destruct m; cbn; intros Hm Hf; [by apply Hf|congruence]. Qed.

Lemma checked_reference_no_KeyError v : checked_reference v <> Err KeyError.
Proof.
  unfold checked_reference. destruct (json_valid _ v) eqn:Hv; cbn [require]; [|done].
  change (mbind ?f (Ok tt)) with (f tt).
  destruct (reference_property "schema_version" _ v Hv ltac:(compute_done) eq_refl) as (sv & Hsv & _).
  destruct (reference_property "target" _ v Hv ltac:(compute_done) eq_refl) as (tg & Htg & Vtg).
  destruct (reference_property "fields" _ v Hv ltac:(compute_done) eq_refl) as (fs & Hfs & _).
  destruct (reference_property "purpose" _ v Hv ltac:(compute_done) eq_refl) as (pu & Hpu & _).
  destruct (reference_property "version" _ v Hv ltac:(compute_done) eq_refl) as (ve & Hve & Vve).
  destruct (item_present _ _ "object_type" tg Vtg eq_refl eq_refl ltac:(compute_done)) as (ot & Hot & _).
  destruct (item_present _ _ "object_id" tg Vtg eq_refl eq_refl ltac:(compute_done)) as (oi & Hoi & _).
  assert (exists po, item "policy" ve = Ok po) as [po Hpo].
  { destruct (json_valid_one_of _ _ _ Vve eq_refl) as (sub & Hsub & Vsub).
    rewrite !elem_of_cons, elem_of_nil in Hsub. destruct Hsub as [->|[->|[]]].
    - destruct (item_present _ ["policy"] "policy" ve Vsub eq_refl eq_refl) as (po & ? & _);
        [compute_done|eauto].
    - destruct (item_present _ ["policy"; "number"] "policy" ve Vsub eq_refl eq_refl) as (po & ? & _);
        [compute_done|eauto]. }
  assert (forall b w, optional b (exact_int w) <> Err KeyError) as Hopt by (intros [] []; done).
  apply no_KeyError_bind.
  { unfold _strict_reference_integers. rewrite Hsv, Htg, Hve. cbn. rewrite Hoi. cbn.
    apply no_KeyError_bind; [by destruct sv|intros ? _].
    apply no_KeyError_bind; [by destruct oi|intros ? _].
    apply no_KeyError_bind; [apply Hopt|intros ? _].
    apply no_KeyError_bind; [apply Hopt|done]. }
  intros [[[? ?] ?] ?] _. rewrite Hfs, Htg, Hpu, Hve. cbn. rewrite Hot, Hpo. cbn.
  apply no_KeyError_bind; [destruct (get_of _ v); cbn; try done; by case_match|intros ? _].
  apply no_KeyError_bind.
  { destruct fs as [| | | | | | |l| | |]; try done. clear. cbn. induction l as [|[] l IH]; cbn; try done.
    case_match; [|done]. destruct (checked_fields l); cbn; congruence. }
  intros ? _. apply no_KeyError_bind; [destruct ot; cbn; try done; by case_match|done].
Qed.

(** A credential reference that passes the JSON Schema never makes the contract
    code fail with a lookup error: parsing returns a reference or the value-free
    contract error. *)
Theorem from_mapping_no_KeyError v :
  from_mapping v <> Err KeyError /\
  (forall e, from_mapping v = Err e -> e = CredentialContractError).
Proof.
  pose proof (checked_reference_no_KeyError v) as Hk. unfold from_mapping.
  destruct (checked_reference v) as [r|[]]; split; try done; intros ? [= <-]; done.
Qed.
End Laws.

Section NamedFacts.
Context `{PyLib} `{JsonSchema}.

(** A public entry: its name has the closed shape, its value is a rendered reference. *)
Definition public_entry (e : string * value) : Prop :=
  is_name e.1 = true /\
  exists r, e.2 = VDict (to_mapping r) /\ reference_ok r /\
    forall k, k ∈ keys (to_mapping r) -> k ∈ REFERENCE_KEYS.

Lemma dict_set_Forall (P : string * value -> Prop) k v d :
  P (k, v) -> Forall P d -> Forall P (dict_set k v d).
Proof.
  intros Hp. induction 1 as [|[k' v'] d Hx Hd IH]; cbn; [by repeat constructor|].
  destruct (String.eqb_spec k' k); [subst|]; constructor; done.
Qed.

Lemma dict_set_length k v d : (length (dict_set k v d) <= S (length d))%nat.
Proof.
  induction d as [|[k' v'] d IH]; cbn; [lia|]. destruct (String.eqb k' k); cbn; lia.
Qed.

Lemma named_loop_ok entries acc d :
  Forall public_entry acc -> named_loop entries acc = Ok d ->
  Forall public_entry d /\ (length d <= length acc + length entries)%nat.
Proof.
  revert acc. induction entries as [|[name v] r IH]; intros acc Ha; cbn [named_loop].
  { intros [= <-]. split; [done|cbn; lia]. }
  destruct (is_name name) eqn:En; [|done]. intros Hb. res_inv.
  unfold from_mapping in *. destruct (checked_reference v) as [ref|[]] eqn:Er; try done. res_inv. subst.
  apply checked_reference_ok in Er as (Hok & _ & _).
  match goal with Hl : named_loop r _ = _ |- _ => apply IH in Hl as [Hl1 Hl2] end.
  - split; [done|]. pose proof (dict_set_length name (VDict (to_mapping x)) acc). cbn. lia.
  - apply dict_set_Forall; [|done]. split; [done|]. exists x.
    split_and!; [done..|]. apply to_mapping_closed.
Qed.

(** Whatever mapping is submitted as named credential references, the normalized
    result has at most sixteen entries, each under a closed lower-case name and each
    holding only the eight public reference fields, with a valid target label,
    field names and canonical UUID: no credential material passes. *)
Theorem named_references_closed v d :
  validate_named_references v = Ok d ->
  (length d <= 16)%nat /\ Forall public_entry d.
Proof.
  unfold validate_named_references. destruct v; try done.
  destruct (16 <? Z.of_nat (length d0)) eqn:E; [done|]. apply Z.ltb_ge in E.
  intros Hl%named_loop_ok; [|constructor]. destruct Hl as [? Hl]. cbn in Hl. split; [lia|done].
Qed.

(** Parsing what the contract rendered gives back the same rendering, so the
    normal form of a reference is stable. *)
Theorem credential_reference_roundtrip v r :
  from_mapping v = Ok r ->
  json_valid (VDict _REFERENCE_SCHEMA) (VDict (to_mapping r)) = true ->
  to_mapping <$> from_mapping (VDict (to_mapping r)) = Ok (to_mapping r).
Proof.
  unfold from_mapping at 1. intros Hr Hv.
  destruct (checked_reference v) as [r0|[]] eqn:E; simplify_eq/=.
  apply checked_reference_ok in E as (Hok & _ & _).
  destruct (checked_reference_to_mapping r Hok Hv) as (r' & Hr' & Heq).
  unfold from_mapping. rewrite Hr'. unfold fmap, result_fmap. by rewrite Heq.
Qed.
End NamedFacts.

(** ** A validator that satisfies the interface

    The keywords of the reference schema that the laws mention; it shows that the
    laws are consistent and gives the examples something to compute with. *)
Module MiniSchema.
Section Keywords.
  Variable sub_check : value -> value -> bool.
Definition type_ok (s : dict) (v : value) : bool :=
    match get "type" s with
    | VStr "object" => is_dict v
    | VStr "array" => is_list v
    | VStr "string" => is_str v
    | VStr "integer" => match v with VInt _ => true | _ => false end
    | _ => true
    end.
Definition required_ok (s : dict) (v : value) : bool :=
    match get "required" s, v with
    | VList names, VDict d =>
        forallb (fun k => match k with VStr k => dict_mem k d | _ => true end) names
    | _, _ => true
    end.
Definition properties_ok (s : dict) (v : value) : bool :=
    match get "properties" s, v with
    | VDict props, VDict d =>
        forallb (fun e => match dict_get e.1 d with
                          | Some x => sub_check e.2 x | None => true end) props
    | _, _ => true
    end.
Definition enum_ok (s : dict) (v : value) : bool :=
    match get "enum" s with VList options => bool_decide (v ∈ options) | _ => true end.
Definition one_of_ok (s : dict) (v : value) : bool :=
    match get "oneOf" s with VList options => existsb (fun o => sub_check o v) options | _ => true end.
End Keywords.

Fixpoint check (n : nat) (schema v : value) : bool :=
  match n, schema with
  | S n, VDict s =>
      type_ok s v && required_ok s v && properties_ok (check n) s v && enum_ok s v
      && one_of_ok (check n) s v
  | _, _ => false
  end.

Lemma check_S n s v :
  check (S n) (VDict s) v = type_ok s v && required_ok s v && properties_ok (check n) s v
                            && enum_ok s v && one_of_ok (check n) s v.
Proof. done. Qed.
Opaque check.

#[export] Instance mini : JsonSchema :=
  {| json_error := fun s v => if check 8 s v then None else Some ([], Some "type") |}.

Lemma mini_valid s v : json_valid s v = check 8 s v.
Proof. unfold json_valid; cbn. by destruct (check 8 s v). Qed.

Lemma check_mono n s v : check n s v = true -> check (S n) s v = true.
Proof.
  revert s v. induction n as [|n IH]; intros s v; [done|].
  destruct s as [| | | | | | | | | |s]; try done.
  rewrite !check_S. intros H. bool_inv. rewrite !andb_true_iff. split_and!; try done.
  - unfold properties_ok in *. repeat case_match; try done.
    rewrite forallb_forall in *. intros e He.
    match goal with Hf : forall x, In x _ -> _ |- _ => specialize (Hf e He) end.
    destruct (dict_get e.1 _); [|done].
    match goal with Hc : check n _ _ = true |- _ => exact (IH _ _ Hc) end.
  - unfold one_of_ok in *. repeat case_match; try done.
    match goal with He : existsb _ _ = true |- _ => apply existsb_exists in He as (o & Ho & Hc) end.
    apply existsb_exists. exists o. split; [done|exact (IH _ _ Hc)].
Qed.

Lemma check_8 n s v : (n <= 8)%nat -> check n s v = true -> check 8 s v = true.
Proof. intros Hn. induction Hn as [|m Hm IH]; [done|]. intros. by apply check_mono, IH. Qed.

#[export] Instance mini_laws : JsonSchemaLaws.
Proof.
  split; intros *; rewrite ?mini_valid, ?check_S; intros Hv; bool_inv.
  - intros Ht Hr Hk. unfold type_ok, required_ok in *. rewrite Ht in *. rewrite Hr in *.
    destruct v; try done. rewrite forallb_forall in *.
    match goal with H : forall x, In x names -> _ |- _ => specialize (H (VStr k)) end.
    rewrite <- list_elem_of_In in *. unfold dict_mem in *.
    destruct (dict_get k d) as [x|] eqn:E; [eauto|].
    apply dict_get_None in E. exfalso. apply E. eapply bool_decide_eq_true. eauto.
  - intros Hp Hs Hx. apply (check_8 7); [lia|]. unfold properties_ok in *. rewrite Hp in *.
    rewrite forallb_forall in *. apply dict_get_elem in Hs.
    match goal with H : forall x, In x props -> _ |- _ => specialize (H (k, sub)) end.
    rewrite <- list_elem_of_In in *. cbn in *. rewrite Hx in *. auto.
  - intros He. unfold enum_ok in *. rewrite He in *. by bool_inv.
  - intros Ho. unfold one_of_ok in *. rewrite Ho in *.
    match goal with H : existsb _ _ = true |- _ => apply existsb_exists in H as (o & Ho' & Hc) end.
    exists o. rewrite list_elem_of_In. split; [done|]. rewrite mini_valid. by apply (check_8 7); [lia|].
  - intros Ht. unfold type_ok in *. rewrite Ht in *. destruct v; try done. eauto.
Qed.
Transparent check.
End MiniSchema.

(** Concrete library functions for the examples. *)
Module Demo.
#[export] Instance lib : PyLib :=
  {| fromisoformat := fun s => Some s;
     sha256 := fun _ => "9f86d081884c7d659a2feaa0c55ad015a3bf4f1b2b0b822cd15d6c15b0f00a08";
     salted_hmac := fun _ _ => "0a1b2c3d" |}.

Definition reference : value :=
  VDict [("schema_version", VInt 1); ("provider", VStr "netbox-openbao");
         ("assignment_id", VInt 7);
         ("target", VDict [("object_type", VStr "dcim.device"); ("object_id", VInt 42)]);
         ("purpose", VStr "login"); ("fields", VList [VStr "username"; VStr "password"]);
         ("version", VDict [("policy", VStr "pinned"); ("number", VInt 3)])].
End Demo.

Section Witnesses.
Import MiniSchema Demo.

Lemma from_mapping_no_KeyError_witness :
  is_Ok (from_mapping reference) = true /\ from_mapping reference <> Err KeyError.
Proof. split; [by vm_compute|]. exact (proj1 (from_mapping_no_KeyError reference)). Defined.

Lemma named_references_closed_witness :
  exists d, validate_named_references (VDict [("primary", reference)]) = Ok d /\ Forall public_entry d.
Proof.
  destruct (validate_named_references (VDict [("primary", reference)])) as [d|] eqn:E;
    [|by vm_compute in E].
  exists d. split; [done|]. exact (proj2 (named_references_closed _ d E)).
Defined.

Lemma credential_reference_roundtrip_witness :
  exists r, from_mapping reference = Ok r /\
    to_mapping <$> from_mapping (VDict (to_mapping r)) = Ok (to_mapping r).
Proof.
  eexists. split; [by vm_compute|]. eapply credential_reference_roundtrip with (v := reference); by vm_compute.
Defined.
End Witnesses.
