(* ===== verification/ValueRedaction.v ===== *)
(** * Redaction of event data

    [netbox_rpc/event_store.py] from [_is_sensitive_key] to
    [_bounded_event_message]: what the ledger stores of a value.  The recursion
    counts the levels that are left instead of the depth ([depth = 33 - levels]), so
    it is structural; the source cuts a container at depth 33, which is level 0.
    Mapping keys are strings. *)

From S2P Require Import Prelude PyValue CredentialContract.
From S2P Require Import Spans SpanFacts MaskFacts PyRegex SecretPatterns TextRedaction.

(** ** Text and values *)

Definition from_text (t : text) : string :=
  foldr (fun c s => String (ascii_of_N c) s) EmptyString t.

Definition REDACTED : string := "[REDACTED]".
Definition MAX_EVENT_STRING_LENGTH : nat := Z.to_nat 4096.
Definition MAX_EVENT_LIST_ITEMS : nat := 50.
Definition MAX_EVENT_DICT_ITEMS : nat := 100.
Definition _MAX_REDACTION_DEPTH : nat := 32.

Definition SENSITIVE_KEY_FRAGMENTS : list string :=
  ["auth"; "community"; "credential"; "key"; "password"; "private"; "secret"; "token"].
Definition SAFE_REFERENCE_KEYS : list string :=
  ["credential_pk"; "guest_credential_pk"; "host_key_fingerprint"; "host_key_pinned";
   "known_hosts_entry"; "key_id"; "key_version"; "password_bytes"; "password_sha256";
   "restconf_credential_pk"; "rpc_ssh_credential_pk"; "rpc_ssh_strict_host_key_checking"].
Definition _BOOLEAN_POLICY_KEYS : list string := ["rpc_ssh_strict_host_key_checking"].
Definition _EVENT_LEVELS : list string := ["debug"; "info"; "warning"; "error"].

Definition _is_sensitive_key (key : string) : bool :=
  let normalized := str_lower key in
  if str_in normalized SAFE_REFERENCE_KEYS || str_endswith "_credential_pk" normalized then false
  else existsb (fun fragment => str_contains fragment normalized) SENSITIVE_KEY_FRAGMENTS.

Definition _is_vaulted_secret_reference (v : value) : bool :=
  match v with VStr s => fullmatch NMS_SECRET_REFERENCE_RE (codes s) | _ => false end.

(** A path into the data, ["*"] for a list item, and the length limits by path. *)
Notation StringLimitPath := (list string).
Notation string_limits := (list (StringLimitPath * nat)).

Definition limit_of (limits : string_limits) (path : StringLimitPath) : nat :=
  match List.find (fun e => bool_decide (e.1 = path)) limits with
  | Some e => e.2
  | None => MAX_EVENT_STRING_LENGTH
  end.

Definition _redact_event_text (v : value) (limits : string_limits) (path : StringLimitPath) : string :=
  from_text (_redact_bounded (codes (py_str v)) (event_bound (limit_of limits path))).

Definition redact_secret_string (s : string) : string := from_text (_redact_secret_text (codes s)).
Definition _mapping_name_is_secret_bearing (name : string) : bool := contains_secret_text (codes name).

Definition _event_level (v : value) : string :=
  match v with VStr s => if str_in s _EVENT_LEVELS then s else "info" | _ => "info" end.

Definition _is_truncation_marker (v : value) : bool :=
  match v with
  | VDict d =>
      (length d =? 2)%nat && dict_mem "_truncated" d && dict_mem "remaining" d
      && bool_decide (get "_truncated" d = VBool true)
      && match get "remaining" d with VInt _ => true | _ => false end
  | _ => false
  end.

(** [_bounded_event_message(message)]; [message or ""] is taken first. *)
Definition _bounded_event_message (message : value) : string :=
  from_text (_redact_bounded (codes (py_str (py_or message (VStr EmptyString))))
               (message_bound MAX_EVENT_STRING_LENGTH)).

(** ** Persisted names *)

Section Names.
Context `{PyLib}.

Definition _keyed_mapping_name (name : string) : string :=
"[REDACTED-NAME:" +:+ salted_hmac "netbox_rpc.event_mapping_name.v1" name +:+ "]".

Fixpoint placeholder_loop (n : nat) (placeholder : string) (suffix : Z) (candidate : string)
(taken : list string) : string :=
match n with
| O => candidate
| S n => if str_in candidate taken
       then placeholder_loop n placeholder (suffix + 1)
              (placeholder +:+ "#" +:+ str_of_Z (suffix + 1)) taken
       else candidate
end.
(** The loop runs at most once per taken name. *)
Definition _unused_placeholder (name : string) (taken : list string) : string :=
let placeholder := _keyed_mapping_name name in
placeholder_loop (length taken) placeholder 1 placeholder taken.

(** [(persisted name, name as written, value)]. *)
Fixpoint resolve_loop (named : dict) (taken : list string) : list (string * string * value) :=
match named with
| [] => []
| (name, v) :: r =>
  if _mapping_name_is_secret_bearing name
  then let persisted := _unused_placeholder name taken in
       (persisted, name, v) :: resolve_loop r (persisted :: taken)
  else (name, name, v) :: resolve_loop r taken
end.
Definition _persisted_mapping_entries (entries : dict) : list (string * string * value) :=
resolve_loop (sort_keys entries)
(List.filter (fun name => negb (_mapping_name_is_secret_bearing name)) (keys entries)).
End Names.

(** ** Values *)

Section Redact.
Context `{PyLib} `{JsonSchema}.

Definition _redact_sensitive_value (v : value) (parent_key : string) : value :=
if is_bool v then v else
match public_credential_metadata v parent_key with
| Some metadata => metadata
| None => if _is_vaulted_secret_reference v then v else VStr REDACTED
end.

(** The entries a mapping keeps, and whether it is marked as truncated. *)
Definition mapping_window (d : dict) : dict * bool :=
if (length d =? S MAX_EVENT_DICT_ITEMS)%nat && bool_decide (get "_truncated" d = VBool true)
then (dict_pop "_truncated" d, true)
else (take MAX_EVENT_DICT_ITEMS d, (MAX_EVENT_DICT_ITEMS <? length d)%nat).

(** The items a sequence keeps, and its truncation marker. *)
Definition sequence_window (v : value) : list value * option value :=
let bounded l := take (S MAX_EVENT_LIST_ITEMS) l in
let marker l : option value :=
if (MAX_EVENT_LIST_ITEMS <? length l)%nat
then Some (VDict [("_truncated", VBool true);
                ("remaining", VInt (Z.of_nat (length l) - 50))])
else None in
match v with
| VList l | VTuple l =>
match last l with
| Some m => if (length l =? S MAX_EVENT_LIST_ITEMS)%nat && _is_truncation_marker m
            then (removelast l, Some m) else (bounded l, marker l)
| None => (bounded l, marker l)
end
| VSet l => (merge_sort repr_le (bounded l), marker l)
| _ => ([], None)
end.

Definition store_all (entries : list (string * value)) (truncated : bool) : dict :=
let d := fold_left (fun d e => dict_set e.1 e.2 d) entries [] in
if truncated then dict_set "_truncated" (VBool true) d else d.

Fixpoint redact_event_value (levels : nat) (v : value) (parent_key : string)
(limits : string_limits) (path : StringLimitPath) : value :=
if str_truthy parent_key && str_in (str_lower parent_key) _BOOLEAN_POLICY_KEYS
then if is_bool v then v else VStr REDACTED
else if str_truthy parent_key && _is_sensitive_key parent_key
then _redact_sensitive_value v parent_key
else
match v with
| VDict d =>
  match levels with
  | O => VStr "[truncated]"
  | S levels =>
      let '(entries, truncated) := mapping_window d in
      VDict (store_all
        (map (fun e => (e.1.1, redact_event_value levels e.2 e.1.2 limits (path ++ [e.1.2])))
           (_persisted_mapping_entries entries)) truncated)
  end
| VList _ | VTuple _ | VSet _ =>
  match levels with
  | O => VStr "[truncated]"
  | S levels =>
      let '(window, marker) := sequence_window v in
      VList (map (fun x => redact_event_value levels x parent_key limits (path ++ ["*"]))
               (take MAX_EVENT_LIST_ITEMS window)
             ++ match marker with Some m => [m] | None => [] end)
  end
| VNone | VBool _ | VInt _ | VFloat _ => v
| VStr _ | VDatetime _ | VObj _ => VStr (_redact_event_text v limits path)
end.

(** [redact_event_data]: the top call has depth 0. *)
Definition redact_event_data (data : value) (limits : string_limits) : dict :=
match redact_event_value (S _MAX_REDACTION_DEPTH) (py_or data (VDict [])) EmptyString limits [] with
| VDict d => d
| _ => []
end.
End Redact.

Lemma from_text_length t : String.length (from_text t) = length t.
Proof. unfold from_text. induction t as [|c t IH]; cbn; [done|]. by rewrite IH. Qed.

(** A stored event message never exceeds 4096 characters, whatever was passed. *)
Theorem event_message_bounded message :
  (String.length (_bounded_event_message message) <= MAX_EVENT_STRING_LENGTH)%nat.
Proof.
  unfold _bounded_event_message. rewrite from_text_length. apply redact_bounded_length.
  - apply cutting_message.
  - intros u. apply message_bound_length. unfold MAX_EVENT_STRING_LENGTH. lia.
  - unfold MAX_EVENT_STRING_LENGTH. lia.
Qed.
