(* ===== verification/RedactionFacts.v ===== *)
(** * What the ledger stores

    Facts about [ValueRedaction]: persisted mapping names are distinct and fresh,
    stored data is bounded JSON, and a sensitive name never keeps its value. *)

From S2P Require Import Prelude PyValue CredentialContract.
From S2P Require Import Spans SpanFacts MaskFacts PyRegex SecretPatterns TextRedaction ValueRedaction.

(** ** Placeholders *)

Section Placeholders.
Context `{PyLib}.

(** The candidates of [_unused_placeholder] for [suffix = 1, 2, ...]. *)
Definition candidate (placeholder : string) (suffix : Z) : string :=
  if suffix =? 1 then placeholder else placeholder +:+ "#" +:+ str_of_Z suffix.

Lemma candidate_inj placeholder a b :
  1 <= a -> 1 <= b -> candidate placeholder a = candidate placeholder b -> a = b.
Proof.
  assert (forall s c r, s <> s +:+ String c r) as Hne.
  { induction s; intros c' r Hs; [done|]. cbn in Hs. injection Hs as Hs. by eapply IHs. }
  unfold candidate. intros _ _.
  destruct (Z.eqb_spec a 1), (Z.eqb_spec b 1); intros Heq; [lia| | |].
  - exfalso. exact (Hne _ _ _ Heq).
  - exfalso. exact (Hne _ _ _ (eq_sym Heq)).
  - apply (inj (String.append placeholder)) in Heq.
    apply (inj (String.append "#")) in Heq. unfold str_of_Z in Heq. by apply (inj pretty) in Heq.
Qed.

Lemma placeholder_loop_taken n placeholder suffix taken :
  1 <= suffix ->
  placeholder_loop n placeholder suffix (candidate placeholder suffix) taken ∈ taken ->
  forall i, 0 <= i <= Z.of_nat n -> candidate placeholder (suffix + i) ∈ taken.
Proof.
  revert suffix. induction n as [|n IH]; intros suffix Hs Hin i Hi; cbn in Hin.
  { by replace (suffix + i) with suffix by lia. }
  unfold str_in in Hin. case_bool_decide as Hc; [|done].
  destruct (decide (i = 0)) as [->|Hi0]; [by rewrite Z.add_0_r|].
  replace (suffix + i) with (suffix + 1 + (i - 1)) by lia. apply IH; [lia| |lia].
  unfold candidate at 1. destruct (Z.eqb_spec (suffix + 1) 1); [lia|done].
Qed.

(** A loop bounded by the number of taken names always finds a free one. *)
Lemma unused_placeholder_fresh name taken : _unused_placeholder name taken ∉ taken.
Proof.
  unfold _unused_placeholder. set (ph := _keyed_mapping_name name). intros Hin.
  assert (forall i, 0 <= i <= Z.of_nat (length taken) -> candidate ph (1 + i) ∈ taken) as Hall.
  { intros i Hi. eapply placeholder_loop_taken; [lia|exact Hin|done]. }
  assert (NoDup ((fun i => candidate ph (1 + Z.of_nat i)) <$> seq 0 (S (length taken)))) as Hnd.
  { apply NoDup_fmap_2_strong; [|apply NoDup_seq].
    intros x y _ _ Hxy%candidate_inj; lia. }
  assert (incl ((fun i => candidate ph (1 + Z.of_nat i)) <$> seq 0 (S (length taken))) taken) as Hincl.
  { intros c Hc%list_elem_of_In. apply list_elem_of_In.
    apply list_elem_of_fmap in Hc as (i & -> & Hi%elem_of_seq). apply Hall. lia. }
  apply NoDup_incl_length in Hincl; [|by apply NoDup_ListNoDup].
  rewrite length_fmap, length_seq in Hincl. lia.
Qed.

Notation clean_name name := (_mapping_name_is_secret_bearing (name) = false).

(** Persisted names are pairwise distinct, and none is a secret-bearing name. *)
Lemma resolve_loop_ok named taken :
  NoDup (keys named) ->
  (forall name, name ∈ keys named -> clean_name name -> (name ∈ taken)) ->
  let out := resolve_loop named taken in
  NoDup ((out.*1).*1) /\
  (forall e, e ∈ out -> (e.1.2, e.2) ∈ named /\
     ((e.1.1 = e.1.2 /\ clean_name (e.1.2)) \/
      ((e.1.1 ∉ taken) /\ exists t, e.1.1 = _unused_placeholder e.1.2 t))) /\
  (forall name v, (name, v) ∈ named -> exists p, (p, name, v) ∈ out).
Proof.
  revert taken. induction named as [|[name v] r IH]; intros taken Hnd Htk; cbn [resolve_loop].
  { cbn. split_and!; [constructor|set_solver..]. }
  rewrite keys_cons in Hnd, Htk. apply NoDup_cons in Hnd as [Hni Hnd].
  destruct (_mapping_name_is_secret_bearing name) eqn:Es.
  - set (p := _unused_placeholder name taken).
    destruct (IH (p :: taken)) as (H1 & H2 & H3); [done| |].
    { intros n Hn Hc. right. apply Htk; [by right|done]. }
    cbn zeta. split_and!.
    + cbn. apply NoDup_cons. split; [|done]. intros Hin.
      apply list_elem_of_fmap in Hin as ([? n'] & ? & Hin); cbn in *; subst.
      apply list_elem_of_fmap in Hin as ([? v'] & ? & Hin); cbn in *; subst.
      destruct (H2 _ Hin) as [Hr [[Hp Hc]|[Hp _]]]; cbn in *; [|apply Hp; left].
      apply (unused_placeholder_fresh name taken). fold p. rewrite Hp.
      apply Htk; [right; by eapply elem_keys|done].
    + intros e [->|He]%elem_of_cons; cbn.
      { split; [left|right]. split; [apply unused_placeholder_fresh|by exists taken]. }
      destruct (H2 e He) as [? [?|[Hp ?]]]; (split; [by right|]); [by left|right].
      split; [|done]. intros ?. apply Hp. by right.
    + intros n w [Heq|Hin]%elem_of_cons; [simplify_eq; exists p; left|].
      destruct (H3 n w Hin) as [p' ?]. exists p'. by right.
  - destruct (IH taken) as (H1 & H2 & H3); [done| |].
    { intros n Hn Hc. apply Htk; [by right|done]. }
    cbn zeta. split_and!.
    + cbn. apply NoDup_cons. split; [|done]. intros Hin.
      apply list_elem_of_fmap in Hin as ([? n'] & ? & Hin); cbn in *; subst.
      apply list_elem_of_fmap in Hin as ([? v'] & ? & Hin); cbn in *; subst.
      destruct (H2 _ Hin) as [Hr [[Hp Hc]|[Hp _]]]; cbn in *.
      * subst. apply Hni. by eapply elem_keys.
      * apply Hp, Htk; [left|done].
    + intros e [->|He]%elem_of_cons; cbn; [split; [left|by left]|].
      destruct (H2 e He) as [? ?]. split; [by right|done].
    + intros n w [Heq|Hin]%elem_of_cons; [simplify_eq; eexists; left|].
      destruct (H3 n w Hin) as [p' ?]. exists p'. by right.
Qed.
End Placeholders.

(** ** Characters of a placeholder *)

Definition str_mem (c : ascii) (s : string) : bool := negb (str_forall (fun d => negb (Ascii.eqb c d)) s).

Lemma str_forall_app p s t : str_forall p (s +:+ t) = str_forall p s && str_forall p t.
Proof.
  induction s as [|c s IH]; [done|]. change (String c s +:+ t) with (String c (s +:+ t)).
  cbn [str_forall]. by rewrite IH, andb_assoc.
Qed.

Lemma str_forall_impl p q s :
  (forall c, p c = true -> q c = true) -> str_forall p s = true -> str_forall q s = true.
Proof.
  intros Hpq. induction s as [|c s IH]; cbn; [done|]. intros [Hc Hs]%andb_true_iff.
  by rewrite Hpq, IH.
Qed.

Lemma str_forall_prefix p a s : String.prefix a s = true -> str_forall p s = true -> str_forall p a = true.
Proof.
  revert s. induction a as [|c a IH]; intros [|d s]; cbn; try done.
  destruct (ascii_dec c d) as [->|]; [|done]. intros Hp [Hd Hs]%andb_true_iff.
  rewrite Hd. by eapply IH.
Qed.

(** A text whose characters all satisfy [p] contains only such texts. *)
Lemma str_contains_forall p a s :
  str_forall p s = true -> str_contains a s = true -> str_forall p a = true.
Proof.
  induction s as [|c s IH]; intros Hs Hc; cbn [str_contains] in Hc.
  - rewrite orb_false_r in Hc. by eapply str_forall_prefix.
  - apply orb_true_iff in Hc as [Hc|Hc]; [by eapply str_forall_prefix|].
    apply IH; [|done]. cbn in Hs. by apply andb_true_iff in Hs as [_ ?].
Qed.

Lemma str_forall_map p f s : str_forall p (str_map f s) = str_forall (fun c => p (f c)) s.
Proof. induction s as [|c s IH]; cbn; [done|]. by rewrite IH. Qed.

Definition decimal (c : ascii) : bool := (48 <=? code c) && (code c <=? 57).

Lemma pretty_N_go_decimal x s :
  str_forall decimal s = true -> str_forall decimal (pretty_N_go x s) = true.
Proof.
  revert s. induction (N.lt_wf_0 x) as [x _ IH]; intros s Hs.
  destruct (decide (0 < x)%N) as [Hx|Hx].
  - rewrite pretty_N_go_step by done. apply IH.
    + apply N.div_lt; lia.
    + cbn. rewrite Hs, andb_true_r. unfold pretty_N_char.
      repeat case_match; done.
  - assert (x = 0%N) as -> by lia. by rewrite pretty_N_go_0.
Qed.

Lemma str_of_Z_decimal z : 0 <= z -> str_forall decimal (str_of_Z z) = true.
Proof.
  intros Hz. destruct z as [|p|p]; [done| |lia].
  change (str_forall decimal (pretty_N_go (N.pos p) EmptyString) = true).
  by apply pretty_N_go_decimal.
Qed.

(** A keyed placeholder, with or without a suffix, names nothing sensitive: its
    characters are those of the fixed text, hexadecimal digits and decimal digits. *)
Section PlaceholderNames.
Context `{PyLib}.
Hypothesis hmac_hex : forall salt s, str_forall lower_hex (salted_hmac salt s) = true.

(** Characters that occur in every sensitive fragment but in no placeholder. *)
Definition plain_char (c : ascii) : bool := negb (str_in (String c EmptyString) ["u"; "i"; "k"; "p"; "s"]).

Lemma plain_hex c : lower_hex c = true -> plain_char (chr_lower c) = true.
Proof. destruct c as [[] [] [] [] [] [] [] []]; by vm_compute. Qed.
Lemma plain_decimal c : decimal c = true -> plain_char (chr_lower c) = true.
Proof. destruct c as [[] [] [] [] [] [] [] []]; by vm_compute. Qed.

Lemma placeholder_plain name suffix :
  1 <= suffix -> str_forall (fun c => plain_char (chr_lower c)) (candidate (_keyed_mapping_name name) suffix) = true.
Proof.
  intros Hs. assert (str_forall (fun c => plain_char (chr_lower c)) (_keyed_mapping_name name) = true) as Hk.
  { unfold _keyed_mapping_name. rewrite !str_forall_app. rewrite !andb_true_iff. split_and!; [done| |done].
    eapply str_forall_impl; [apply plain_hex|apply hmac_hex]. }
  unfold candidate. destruct (suffix =? 1); [done|]. rewrite !str_forall_app, Hk. cbn [andb].
  rewrite andb_true_iff. split; [done|].
  eapply str_forall_impl; [apply plain_decimal|]. apply str_of_Z_decimal. lia.
Qed.

Lemma placeholder_loop_candidate n ph suffix taken :
  1 <= suffix -> exists suffix', 1 <= suffix' /\
    placeholder_loop n ph suffix (candidate ph suffix) taken = candidate ph suffix'.
Proof.
  revert suffix. induction n as [|n IH]; intros suffix Hs; cbn [placeholder_loop]; [eauto|].
  destruct (str_in _ taken); [|eauto].
  destruct (IH (suffix + 1) ltac:(lia)) as (s' & ? & Heq). exists s'. split; [done|].
  rewrite <- Heq. f_equal.
  unfold candidate. destruct (Z.eqb_spec (suffix + 1) 1); [lia|done].
Qed.

Lemma placeholder_not_sensitive name taken : _is_sensitive_key (_unused_placeholder name taken) = false.
Proof.
  unfold _unused_placeholder.
  destruct (placeholder_loop_candidate (length taken) (_keyed_mapping_name name) 1 taken) as (s & Hs & Heq);
    [lia|]. change (candidate (_keyed_mapping_name name) 1) with (_keyed_mapping_name name) in Heq.
  rewrite Heq. clear Heq. set (k := candidate _ s).
  assert (str_forall plain_char (str_lower k) = true) as Hp.
  { unfold str_lower. rewrite str_forall_map. by apply placeholder_plain. }
  unfold _is_sensitive_key. destruct (_ || _); [done|].
  apply not_true_is_false. intros (f & Hf & Hc)%existsb_exists.
  apply (str_contains_forall plain_char) in Hc; [|done].
  repeat (destruct Hf as [<-|Hf]; [by vm_compute in Hc|]). done.
Qed.
End PlaceholderNames.

(** ** What a redacted value holds *)

Lemma elem_dict_set k v d k' v' :
  (k', v') ∈ dict_set k v d -> (k', v') = (k, v) \/ (k', v') ∈ d.
Proof.
  induction d as [|[k0 v0] d IH]; cbn; [intros ?%list_elem_of_singleton; by left|].
  rewrite elem_of_cons.
  destruct (String.eqb_spec k0 k) as [->|]; intros [Heq|Hin]%elem_of_cons; auto.
  destruct (IH Hin); auto.
Qed.

Lemma elem_store_all entries truncated k v :
  (k, v) ∈ store_all entries truncated -> (k, v) ∈ entries \/ (k, v) = ("_truncated", VBool true).
Proof.
  assert (forall acc, (k, v) ∈ fold_left (fun d e => dict_set e.1 e.2 d) entries acc ->
                      (k, v) ∈ acc \/ (k, v) ∈ entries) as Hf.
  { induction entries as [|[k0 v0] r IH]; intros acc; cbn; [by left|].
    intros [Hin|Hin]%IH; [|right; by right].
    apply elem_dict_set in Hin as [->|Hin]; [right; left|by left]. }
  unfold store_all. destruct truncated.
  - intros [?|Hin]%elem_dict_set; [by right|]. apply Hf in Hin as [?%elem_of_nil|?]; [done|by left].
  - intros Hin. apply Hf in Hin as [?%elem_of_nil|?]; [done|by left].
Qed.

Lemma mapping_window_sub d e : e ∈ (mapping_window d).1 -> e ∈ d.
Proof.
  unfold mapping_window. destruct (_ && _); cbn [fst].
  - unfold dict_pop. rewrite list_elem_of_In, filter_In, <- list_elem_of_In. tauto.
  - intros Hin. eapply elem_of_sublist; [exact Hin|apply sublist_take].
Qed.

Lemma truncation_marker_entries m :
  _is_truncation_marker m = true ->
  exists d, m = VDict d /\ (length d = 2)%nat /\
    forall k x, (k, x) ∈ d -> (k = "_truncated" /\ x = VBool true) \/
                             (k = "remaining" /\ exists z, x = VInt z).
Proof.
  destruct m as [| | | | | | | | | |d]; cbn; try done. intros Hm. bool_inv. exists d.
  destruct d as [|[k1 v1] [|[k2 v2] [|? ?]]]; try done.
  unfold dict_mem in *. rewrite !keys_cons in *. split_and!; [done..|]. intros k x Hin.
  assert ((k1 = "_truncated" /\ k2 = "remaining") \/ (k1 = "remaining" /\ k2 = "_truncated")) as Hk.
  { bool_inv. set_solver. }
  destruct Hk as [[-> ->]|[-> ->]]; cbn in *; simplify_eq; bool_inv;
    repeat (apply elem_of_cons in Hin as [?|Hin]); simplify_eq; try (by apply elem_of_nil in Hin);
    repeat case_match; try done; subst; eauto.
Qed.

Section Clean.
Context `{PyLib} `{JsonSchema}.

(** What may stand under a sensitive name. *)
Inductive safe (key : string) : value -> Prop :=
  | safe_bool b : safe key (VBool b)
  | safe_public v m : public_credential_metadata v key = Some m -> safe key m
  | safe_reference v : _is_vaulted_secret_reference v = true -> safe key v
  | safe_redacted : safe key (VStr REDACTED).

(** A stored value: numbers and the like, redacted text, lists and mappings in
    which every sensitive name holds a safe value. *)
Inductive clean : value -> Prop :=
  | clean_none : clean VNone
  | clean_bool b : clean (VBool b)
  | clean_int z : clean (VInt z)
  | clean_float r : clean (VFloat r)
  | clean_cut : clean (VStr "[truncated]")
  | clean_text v limits path : clean (VStr (_redact_event_text v limits path))
  | clean_list l : (forall x, x ∈ l -> clean x) -> clean (VList l)
  | clean_dict d :
      (forall k x, (k, x) ∈ d ->
         (_is_sensitive_key k = true -> safe k x) /\ (clean x \/ exists name, safe name x)) ->
      clean (VDict d).

Definition guarded (key : string) : bool :=
  str_truthy key &&
  (str_in (str_lower key) _BOOLEAN_POLICY_KEYS || _is_sensitive_key key).

Lemma redact_sensitive_safe v key : safe key (_redact_sensitive_value v key).
Proof.
  unfold _redact_sensitive_value. destruct (is_bool v) eqn:Eb.
  { destruct v; try done. constructor. }
  destruct (public_credential_metadata v key) eqn:E; [by econstructor|].
  destruct (_is_vaulted_secret_reference v) eqn:Ev; by constructor.
Qed.

Lemma marker_clean m : _is_truncation_marker m = true -> clean m.
Proof.
  intros (d & -> & _ & He)%truncation_marker_entries. apply clean_dict. intros k x Hin.
  destruct (He k x Hin) as [[-> ->]|(-> & z & ->)]; (split; [by vm_compute|left]); constructor.
Qed.

Lemma sequence_window_marker v l m : sequence_window v = (l, Some m) -> clean m.
Proof.
  assert (forall n, clean (VDict [("_truncated", VBool true); ("remaining", VInt n)])) as Hnew
    by (intros n; by apply marker_clean).
  unfold sequence_window. destruct v; try done.
  1, 2: destruct (last l0) as [x|]; [destruct (_ && _) eqn:E|].
  1, 4: intros [= <- <-]; apply andb_true_iff in E as [_ E]; by apply marker_clean.
  all: destruct (_ <? _)%nat; [|done]; intros [= <- <-]; apply Hnew.
Qed.

Lemma resolve_loop_kinds named taken e :
  e ∈ resolve_loop named taken ->
  (_mapping_name_is_secret_bearing e.1.2 = false /\ e.1.1 = e.1.2) \/
  (_mapping_name_is_secret_bearing e.1.2 = true /\ exists t, e.1.1 = _unused_placeholder e.1.2 t).
Proof.
  revert taken. induction named as [|[name v] r IH]; intros taken; cbn [resolve_loop];
    [by intros ?%elem_of_nil|].
  destruct (_mapping_name_is_secret_bearing name) eqn:E;
    intros [->|He]%elem_of_cons; cbn; rewrite ?E; eauto.
Qed.

Hypothesis hmac_hex : forall salt s, str_forall lower_hex (salted_hmac salt s) = true.

Lemma redact_guarded levels v key limits path :
  guarded key = true -> safe key (redact_event_value levels v key limits path).
Proof.
  unfold guarded. intros [Ht Hg]%andb_true_iff.
  assert (str_in (str_lower key) _BOOLEAN_POLICY_KEYS = false ->
          _is_sensitive_key key = true) as Hs by (intros E; by rewrite E in Hg).
  destruct levels; cbn [redact_event_value]; rewrite Ht; cbn [andb];
    (destruct (str_in _ _) eqn:E;
     [destruct (is_bool v) eqn:Eb; [destruct v; try done; apply safe_bool|apply safe_redacted]|]);
    rewrite Hs by done; apply redact_sensitive_safe.
Qed.

(** The part of [redact_event_value] after the two name checks. *)
Definition redact_body (levels : nat) (v : value) (key : string) limits path : value :=
  match v with
  | VDict d =>
      match levels with
      | O => VStr "[truncated]"
      | S levels =>
          let '(entries, truncated) := mapping_window d in
          VDict (store_all
            (map (fun e => (e.1.1, redact_event_value levels e.2 e.1.2 limits (path ++ [e.1.2])))
               (_persisted_mapping_entries entries)) truncated)
      end
  | VList _ | VTuple _ | VSet _ =>
      match levels with
      | O => VStr "[truncated]"
      | S levels =>
          let '(window, marker) := sequence_window v in
          VList (map (fun x => redact_event_value levels x key limits (path ++ ["*"]))
                   (take MAX_EVENT_LIST_ITEMS window)
                 ++ match marker with Some m => [m] | None => [] end)
      end
  | VNone | VBool _ | VInt _ | VFloat _ => v
  | VStr _ | VDatetime _ | VObj _ => VStr (_redact_event_text v limits path)
  end.

Lemma redact_unguarded levels v key limits path :
  guarded key = false -> redact_event_value levels v key limits path = redact_body levels v key limits path.
Proof.
  unfold guarded. intros Hg.
  assert (str_truthy key && str_in (str_lower key) _BOOLEAN_POLICY_KEYS = false /\
          str_truthy key && _is_sensitive_key key = false) as [H1 H2].
  { destruct (str_truthy key); cbn in *; [by apply orb_false_iff in Hg|done]. }
  destruct levels; cbn [redact_event_value]; by rewrite H1, H2.
Qed.

Lemma sensitive_guarded key : _is_sensitive_key key = true -> guarded key = true.
Proof.
  intros Hs. unfold guarded. rewrite Hs, orb_true_r, andb_true_r.
  destruct key; [by vm_compute in Hs|done].
Qed.

Lemma redact_event_value_clean levels v key limits path :
  guarded key = false -> clean (redact_event_value levels v key limits path).
Proof.
  revert v key path. induction levels as [|levels IH]; intros v key path Hg;
    rewrite redact_unguarded by done.
  { unfold redact_body. destruct v; first [apply clean_text|apply clean_cut|constructor]. }
  assert (forall l m, sequence_window v = (l, m) ->
    clean (VList (map (fun x => redact_event_value levels x key limits (path ++ ["*"]))
                    (take MAX_EVENT_LIST_ITEMS l) ++ match m with Some m => [m] | None => [] end))) as Hseq.
  { intros l m Hw. apply clean_list. intros x [Hx|Hx]%elem_of_app.
    - apply list_elem_of_fmap in Hx as (y & -> & _). by apply IH.
    - destruct m; [|by apply elem_of_nil in Hx]. apply list_elem_of_singleton in Hx as ->.
      by eapply sequence_window_marker. }
  unfold redact_body. destruct v as [| | | | | | |l|l|l|d].
  1-4: constructor.
  1-3: apply clean_text.
  1-3: destruct (sequence_window _) as [l' m]; by apply Hseq.
  destruct (mapping_window d) as [entries truncated]. apply clean_dict. intros k x Hin.
  apply elem_store_all in Hin as [Hin|[= -> ->]]; [|split; [by vm_compute|left; constructor]].
  apply list_elem_of_fmap in Hin as ([[p n] y] & [= -> ->] & Hin). cbn [fst snd].
  apply resolve_loop_kinds in Hin. cbn [fst snd] in Hin. split.
  - intros Hs. destruct Hin as [[_ ->]|[_ [t ->]]]; [by apply redact_guarded, sensitive_guarded|].
    by rewrite placeholder_not_sensitive in Hs.
  - destruct (guarded n) eqn:Eg; [right; exists n; by apply redact_guarded|left; by apply IH].
Qed.
End Clean.

(** ** Size of a stored value *)

Lemma codes_length s : length (codes s) = String.length s.
Proof. unfold codes. rewrite length_fmap. induction s; cbn; congruence. Qed.

Lemma from_text_codes s : from_text (codes s) = s.
Proof.
  unfold from_text, codes. induction s as [|c s IH]; cbn; [done|].
  rewrite ascii_N_embedding. f_equal. exact IH.
Qed.

Lemma store_all_length entries truncated :
  (length (store_all entries truncated) <= S (length entries))%nat.
Proof.
  assert (forall acc, length (fold_left (fun d e => dict_set e.1 e.2 d) entries acc)
                      <= length acc + length entries)%nat as Hf.
  { induction entries as [|e r IH]; intros acc; cbn; [lia|].
    pose proof (IH (dict_set e.1 e.2 acc)). pose proof (dict_set_length e.1 e.2 acc). lia. }
  specialize (Hf []). unfold store_all. cbn zeta. destruct truncated; [|cbn in *; lia].
  etrans; [apply dict_set_length|]. cbn in *. lia.
Qed.

Section Size.
Context `{PyLib} `{JsonSchema}.

(** At most [depth] nested containers, lists of at most 51 items, mappings of at
    most 101 entries, text of at most [text] characters; public credential
    metadata has its own closed shape. *)
Inductive fits (txt : nat) : nat -> value -> Prop :=
  | fits_none n : fits txt n VNone
  | fits_bool n b : fits txt n (VBool b)
  | fits_int n z : fits txt n (VInt z)
  | fits_float n r : fits txt n (VFloat r)
  | fits_str n s : (String.length s <= txt)%nat -> fits txt n (VStr s)
  | fits_public n v key m : public_credential_metadata v key = Some m -> fits txt n m
  | fits_list n l :
      (length l <= 51)%nat -> (forall x, x ∈ l -> fits txt n x) -> fits txt (S n) (VList l)
  | fits_dict n d :
      (length d <= 101)%nat -> (forall k x, (k, x) ∈ d -> fits txt n x) -> fits txt (S n) (VDict d).

Variable limits : string_limits.
Variable txt : nat.
Hypothesis txt_large : (MAX_EVENT_STRING_LENGTH + 14 <= txt)%nat.
Hypothesis limits_ok : Forall (fun e => (e.2 + 14 <= txt)%nat) limits.

Lemma limit_of_ok path : (limit_of limits path + 14 <= txt)%nat.
Proof.
  unfold limit_of. destruct (List.find _ limits) as [e|] eqn:E; [|done].
  apply find_some in E as [Hin _]. rewrite Forall_forall in limits_ok.
  apply limits_ok. by rewrite list_elem_of_In.
Qed.

Lemma txt_min : (47 <= txt)%nat.
Proof. unfold MAX_EVENT_STRING_LENGTH in txt_large. lia. Qed.

Lemma redact_event_text_length v path :
  (String.length (_redact_event_text v limits path) <= txt)%nat.
Proof.
  unfold _redact_event_text. rewrite from_text_length. apply redact_bounded_length.
  - apply cutting_event.
  - intros u. pose proof (event_bound_length (limit_of limits path) u).
    pose proof (limit_of_ok path). lia.
  - apply txt_min.
Qed.

Lemma safe_fits n key v : safe key v -> fits txt n v.
Proof.
  intros [b|w m Hm|w Hw|].
  - apply fits_bool.
  - by eapply fits_public.
  - destruct w; try done. cbn in Hw. apply reference_length in Hw. apply fits_str.
    rewrite codes_length in Hw. pose proof txt_min. lia.
  - apply fits_str. pose proof txt_min. cbn. lia.
Qed.

Lemma sequence_window_sizes v l m :
  sequence_window v = (l, m) -> (length (take MAX_EVENT_LIST_ITEMS l) <= 50)%nat.
Proof. intros _. rewrite length_take. unfold MAX_EVENT_LIST_ITEMS. lia. Qed.

Lemma marker_fits n m : _is_truncation_marker m = true -> fits txt (S n) m.
Proof.
  intros (d & -> & Hl & He)%truncation_marker_entries. apply fits_dict; [lia|]. intros k x Hin.
  destruct (He k x Hin) as [[_ ->]|(_ & z & ->)]; [apply fits_bool|apply fits_int].
Qed.

Lemma sequence_window_cases v l m :
  sequence_window v = (l, Some m) -> _is_truncation_marker m = true.
Proof.
  unfold sequence_window. destruct v; try done.
  1, 2: destruct (last l0) as [x|]; [destruct (_ && _) eqn:E|].
  1, 4: intros [= <- <-]; by apply andb_true_iff in E as [_ E].
  all: destruct (_ <? _)%nat; [|done]; by intros [= <- <-].
Qed.

Lemma mapping_window_length d : (length (mapping_window d).1 <= 100)%nat.
Proof.
  unfold mapping_window. destruct (_ && _) eqn:E; cbn [fst].
  - apply andb_true_iff in E as [El%Nat.eqb_eq Et%bool_decide_eq_true].
    assert (length (dict_pop "_truncated" d) < length d)%nat as Hlt; [|unfold MAX_EVENT_DICT_ITEMS in El; lia].
    assert ("_truncated" ∈ keys d) as Hk.
    { destruct (decide ("_truncated" ∈ keys d)) as [|Hn]; [done|].
      apply dict_get_None in Hn. unfold get in Et. by rewrite Hn in Et. }
    clear -Hk. unfold dict_pop. induction d as [|[k v] d IH]; [by apply elem_of_nil in Hk|].
    cbn [List.filter fst]. rewrite keys_cons in Hk.
    assert (forall e : dict, length (List.filter (fun kv => negb (String.eqb kv.1 "_truncated")) e) <= length e)%nat
      as Hle by (intros e; apply filter_length_le).
    destruct (String.eqb_spec k "_truncated") as [->|Hne]; cbn.
    + specialize (Hle d). lia.
    + apply elem_of_cons in Hk as [Hk|Hk]; [congruence|]. specialize (IH Hk). lia.
  - rewrite length_take. unfold MAX_EVENT_DICT_ITEMS. lia.
Qed.

Lemma resolve_loop_length named taken : length (resolve_loop named taken) = length named.
Proof.
  revert taken. induction named as [|[n v] r IH]; intros taken; cbn; [done|].
  destruct (_mapping_name_is_secret_bearing n); cbn; by rewrite IH.
Qed.

Lemma persisted_entries_length d : length (_persisted_mapping_entries d) = length d.
Proof.
  unfold _persisted_mapping_entries. rewrite resolve_loop_length. unfold sort_keys.
  by rewrite merge_sort_Permutation.
Qed.

Lemma redact_event_value_fits levels v key path :
  fits txt (S levels) (redact_event_value levels v key limits path).
Proof.
  revert v key path. induction levels as [|levels IH]; intros v key path;
    (destruct (guarded key) eqn:Hg; [by eapply safe_fits, redact_guarded|]);
    rewrite redact_unguarded by done.
  { unfold redact_body. pose proof txt_min. destruct v; try constructor;
      try apply redact_event_text_length; cbn; lia. }
  assert (forall l m, sequence_window v = (l, m) ->
    fits txt (S (S levels)) (VList (map (fun x => redact_event_value levels x key limits (path ++ ["*"]))
                    (take MAX_EVENT_LIST_ITEMS l) ++ match m with Some m => [m] | None => [] end))) as Hseq.
  { intros l m Hw. apply fits_list.
    - rewrite length_app, length_map. pose proof (sequence_window_sizes _ _ _ Hw).
      destruct m; cbn [length]; lia.
    - intros x [Hx|Hx]%elem_of_app.
      + apply list_elem_of_fmap in Hx as (y & -> & _). apply IH.
      + destruct m; [|by apply elem_of_nil in Hx]. apply list_elem_of_singleton in Hx as ->.
        by eapply marker_fits, sequence_window_cases. }
  unfold redact_body. destruct v as [| | | | | | |l|l|l|d].
  1-4: constructor.
  1-3: apply fits_str, redact_event_text_length.
  1-3: destruct (sequence_window _) as [l' m]; by apply Hseq.
  pose proof (mapping_window_length d) as Hlen.
  destruct (mapping_window d) as [entries truncated]. cbn [fst] in Hlen. apply fits_dict.
  - etrans; [apply store_all_length|]. rewrite length_map, persisted_entries_length. lia.
  - intros k x Hin. apply elem_store_all in Hin as [Hin|[= -> ->]]; [|apply fits_bool].
    apply list_elem_of_fmap in Hin as (e & [= -> ->] & _). apply IH.
Qed.
End Size.

Section Persisted.
Context `{PyLib}.

(** The names under which a mapping with distinct names is persisted. *)
Lemma persisted_entries_ok d :
  NoDup (keys d) ->
  let out := _persisted_mapping_entries d in
  NoDup ((out.*1).*1) /\
  (forall e, e ∈ out -> (e.1.2, e.2) ∈ d) /\
  (forall name v, (name, v) ∈ d -> exists p, (p, name, v) ∈ out).
Proof.
  intros Hnd. cbn zeta. unfold _persisted_mapping_entries.
  assert (sort_keys d ≡ₚ d) as Hperm by apply merge_sort_Permutation.
  destruct (resolve_loop_ok (sort_keys d)
    (List.filter (fun name => negb (_mapping_name_is_secret_bearing name)) (keys d))) as (H1 & H2 & H3).
  { unfold keys. by rewrite Hperm. }
  { intros name Hn Hc. unfold keys in Hn. rewrite Hperm in Hn.
    rewrite list_elem_of_In in *. apply filter_In. by rewrite Hc. }
  split_and!; [done| |].
  - intros e He. destruct (H2 e He) as [Hn _]. by rewrite Hperm in Hn.
  - intros name v Hin. apply H3. by rewrite Hperm.
Qed.
End Persisted.

(** ** Properties *)

(** Persisted entries [(persisted, name, value)] of a mapping: distinct names, nothing
    lost, nothing invented, and only a secret-bearing name replaced. *)
Definition names_kept `{PyLib} (d : dict) (out : list (string * string * value)) : Prop :=
  NoDup ((out.*1).*1) /\ length out = length d /\
  (forall name v, (name, v) ∈ d -> exists p, (p, name, v) ∈ out) /\
  (forall p name v, (p, name, v) ∈ out -> (name, v) ∈ d /\
     if _mapping_name_is_secret_bearing name
     then exists taken, p = _unused_placeholder name taken else p = name).

(** Mapping names are persisted without loss: of a mapping with distinct names,
    the persisted names are distinct, every entry is kept, a name without secret
    content keeps its own spelling, and a secret-bearing one is replaced by an unused
    keyed placeholder. *)
Theorem persisted_names_distinct `{PyLib} d :
  NoDup (keys d) -> names_kept d (_persisted_mapping_entries d).
Proof.
  intros Hnd. unfold names_kept. destruct (persisted_entries_ok d Hnd) as (H1 & H2 & H3).
  split_and!; [done|apply persisted_entries_length|done|]. intros p name v Hin.
  specialize (H2 _ Hin). cbn in H2. split; [done|].
  destruct (resolve_loop_kinds _ _ _ Hin) as [[Hs Hp]|[Hs Hp]]; cbn [fst snd] in *; by rewrite Hs.
Qed.

(** C36: Stored event data is clean at every depth: every entry under a sensitive name
    holds a boolean, validated public credential metadata, an exact secret reference
    or the redaction marker, and all other text went through text redaction. *)
Theorem event_data_clean `{PyLib} `{JsonSchema} data limits :
  (forall salt s, str_forall lower_hex (salted_hmac salt s) = true) ->
  clean (VDict (redact_event_data data limits)).
Proof.
  intros Hh. unfold redact_event_data.
  pose proof (redact_event_value_clean Hh (S _MAX_REDACTION_DEPTH) (py_or data (VDict []))
    EmptyString limits [] eq_refl) as Hc.
  destruct (redact_event_value _ _ _ _ _); try done; apply clean_dict; by intros ? ? ?%elem_of_nil.
Qed.

(** Stored event data is bounded: at most 34 nested containers, lists of at most
    51 items, mappings of at most 101 entries, and text within the largest declared
    limit plus the truncation mark, whatever was passed. *)
Theorem event_data_bounded `{PyLib} `{JsonSchema} data limits txt :
  (MAX_EVENT_STRING_LENGTH + 14 <= txt)%nat ->
  Forall (fun e => (e.2 + 14 <= txt)%nat) limits ->
  fits txt 34 (VDict (redact_event_data data limits)).
Proof.
  intros Ht Hl. unfold redact_event_data.
  pose proof (redact_event_value_fits limits txt Ht Hl (S _MAX_REDACTION_DEPTH)
    (py_or data (VDict [])) EmptyString []) as Hf.
  destruct (redact_event_value _ _ _ _ _); try exact Hf;
    apply fits_dict; try (cbn; lia); by intros ? ? ?%elem_of_nil.
Qed.

Section Witnesses.
Import MiniSchema Demo.

Definition demo_data : dict :=
  [("host", VStr "r1"); ("api_token", VStr "s3cr3t"); ("enable_auth", VBool true);
   ("password=hunter2", VInt 1);
   ("admin_secret_ref", VStr "nms-secret:01234567-89ab-4cde-8f01-23456789abcd");
   ("log", VList [VStr "password=hunter2"; VStr "ok"])].

Example demo_redaction :
  redact_event_data (VDict demo_data) [] =
  [("admin_secret_ref", VStr "nms-secret:01234567-89ab-4cde-8f01-23456789abcd");
   ("api_token", VStr REDACTED); ("enable_auth", VBool true); ("host", VStr "r1");
   ("log", VList [VStr REDACTED; VStr "ok"]);
   ("[REDACTED-NAME:0a1b2c3d]", VStr REDACTED)].
Proof. by vm_compute. Qed.

Lemma persisted_names_distinct_witness :
  NoDup (keys demo_data) /\ length (_persisted_mapping_entries demo_data) = 6%nat.
Proof.
  assert (NoDup (keys demo_data)) as Hnd by compute_done.
  split; [done|]. exact (proj1 (proj2 (persisted_names_distinct demo_data Hnd))).
Defined.

Lemma event_data_clean_witness : clean (VDict (redact_event_data (VDict demo_data) [])).
Proof. apply event_data_clean. done. Defined.

Lemma event_data_bounded_witness : fits 5000 34 (VDict (redact_event_data (VDict demo_data) [])).
Proof. apply event_data_bounded; [unfold MAX_EVENT_STRING_LENGTH; lia|constructor]. Defined.
End Witnesses.
