(* ===== verification/SchemaLimits.v ===== *)
(** * String limits of a result schema

    [_result_schema_string_limits], [_collect_schema_string_limits],
    [_strip_max_length_at_paths] and [_relax_schema_string_lengths] of
    [netbox_rpc/event_store.py].  The two traversals recurse into [properties] and
    [items]; here they are bounded by the depth of the schema, which is enough
    ([collect_enough], [strip_enough]). *)

From S2P Require Import Prelude PyValue CredentialContract.
From S2P Require Import Spans PyRegex SecretPatterns TextRedaction ValueRedaction.

Local Open Scope nat_scope.

(** Nesting depth of a value. *)
Fixpoint vdepth (v : value) : nat :=
  match v with
  | VList l | VTuple l | VSet l => S (foldr (fun x n => max (vdepth x) n) 0 l)
  | VDict d => S (foldr (fun e n => max (vdepth e.2) n) 0 d)
  | _ => 0
  end.

(** [limits[path] = limit]. *)
Fixpoint limit_set (path : StringLimitPath) (m : Z) (l : list (StringLimitPath * Z))
    : list (StringLimitPath * Z) :=
  match l with
  | [] => [(path, m)]
  | (q, k) :: r => if bool_decide (q = path) then (q, m) :: r else (q, k) :: limit_set path m r
  end.

(** The children a schema is traversed into, with the path component of each. *)
Definition children (schema : dict) : list (string * dict) :=
  (match get "properties" schema with
   | VDict props => omap (fun e => match e.2 with VDict c => Some (e.1, c) | _ => None end) props
   | _ => []
   end)
  ++ (match get "items" schema with VDict c => [("*", c)] | _ => [] end).

Fixpoint collect (n : nat) (schema : dict) (path : StringLimitPath)
    (limits : list (StringLimitPath * Z)) : list (StringLimitPath * Z) :=
  match n with
  | O => limits
  | S n =>
      let limits := match get "maxLength" schema with
                    | VInt m => if (4096 <? m)%Z then limit_set path m limits else limits
                    | _ => limits
                    end in
      fold_left (fun acc c => collect n c.2 (path ++ [c.1]) acc) (children schema) limits
  end.
Definition _collect_schema_string_limits (schema : dict) : list (StringLimitPath * Z) :=
  collect (vdepth (VDict schema)) schema [] [].

(** [_result_schema_string_limits] on the procedure's [result_schema]. *)
Definition _result_schema_string_limits (schema : value) : string_limits :=
  match schema with
  | VDict s => (fun e => (e.1, Z.to_nat (Z.max (e.2 - 14) 0))) <$> _collect_schema_string_limits s
  | _ => []
  end.

Definition in_limits (path : StringLimitPath) (limits : string_limits) : bool :=
  existsb (fun e => bool_decide (e.1 = path)) limits.

Fixpoint strip (n : nat) (limits : string_limits) (path : StringLimitPath) (schema : dict) : dict :=
  match n with
  | O => schema
  | S n =>
      let schema := if in_limits path limits then dict_pop "maxLength" schema else schema in
      let schema :=
        match get "properties" schema with
        | VDict props =>
            dict_set "properties"
              (VDict (map (fun e => (e.1, match e.2 with
                                          | VDict c => VDict (strip n limits (path ++ [e.1]) c)
                                          | v => v end)) props)) schema
        | _ => schema
        end in
      match get "items" schema with
      | VDict c => dict_set "items" (VDict (strip n limits (path ++ ["*"]) c)) schema
      | _ => schema
      end
  end.
(** [_strip_max_length_at_paths] on the deep copy [_relax_schema_string_lengths] makes. *)
Definition _relax_schema_string_lengths (schema : dict) (limits : string_limits) : dict :=
  strip (vdepth (VDict schema)) limits [] schema.

(** ** Facts *)

Lemma vdepth_entry k x d : (k, x) ∈ d -> vdepth x < vdepth (VDict d).
Proof.
  intros Hin. cbn. induction d as [|[k' y] d IH]; [by apply elem_of_nil in Hin|].
  apply elem_of_cons in Hin as [Heq|Hin]; cbn; [simplify_eq; lia|]. specialize (IH Hin). lia.
Qed.

Lemma get_entry k d x : get k d = x -> x <> VNone -> (k, x) ∈ d.
Proof.
  unfold get. destruct (dict_get k d) eqn:E; cbn; [|congruence].
  intros -> _. by apply dict_get_elem.
Qed.

Lemma elem_children schema k c :
  (k, c) ∈ children schema <->
  (exists props, get "properties" schema = VDict props /\ (k, VDict c) ∈ props) \/
  (k = "*" /\ get "items" schema = VDict c).
Proof.
  unfold children. rewrite elem_of_app. split.
  - intros [Hin|Hin].
    + destruct (get "properties" schema) as [| | | | | | | | | |props]; try (by apply elem_of_nil in Hin).
      left. exists props. split; [done|]. apply list_elem_of_omap in Hin as ([k' v] & Hin & Heq).
      cbn in Heq. destruct v; simplify_eq. done.
    + right. destruct (get "items" schema); try (by apply elem_of_nil in Hin).
      apply list_elem_of_singleton in Hin. by simplify_eq.
  - intros [(props & -> & Hin)|[-> ->]]; [left|right; by apply list_elem_of_singleton].
    apply list_elem_of_omap. exists (k, VDict c). done.
Qed.

Lemma children_depth schema k c : (k, c) ∈ children schema -> vdepth (VDict c) < vdepth (VDict schema).
Proof.
  intros [(props & Hp & Hin)|[_ Hi]]%elem_children.
  - apply get_entry in Hp; [|done]. apply vdepth_entry in Hp, Hin. lia.
  - apply get_entry in Hi; [|done]. by apply vdepth_entry in Hi.
Qed.

Lemma collect_enough n schema path limits :
  vdepth (VDict schema) <= n -> collect (S n) schema path limits = collect n schema path limits.
Proof.
  revert schema path limits. induction n as [|n IH]; intros schema path limits Hn; [cbn in Hn; lia|].
  set (m := S n). cbn [collect]. subst m.
  assert (forall l acc, (forall c, c ∈ l -> vdepth (VDict c.2) <= n) ->
    fold_left (fun acc c => collect (S n) c.2 (path ++ [c.1]) acc) l acc
    = fold_left (fun acc c => collect n c.2 (path ++ [c.1]) acc) l acc) as Hf.
  { induction l as [|c l IHl]; intros acc Hl; [done|]. cbn [fold_left].
    rewrite IH by (apply Hl; left). apply IHl. intros c' Hc'. apply Hl. by right. }
  change (collect (S n) schema path limits) with
    (fold_left (fun acc c => collect n c.2 (path ++ [c.1]) acc) (children schema)
       (match get "maxLength" schema with
        | VInt m => if (4096 <? m)%Z then limit_set path m limits else limits
        | _ => limits end)).
  apply Hf. intros [k c] Hc. apply children_depth in Hc. cbn [snd]. lia.
Qed.

(** [at_path schema path s]: the traversal reaches [s] under [path]. *)
Inductive at_path : dict -> StringLimitPath -> dict -> Prop :=
  | at_here s : at_path s [] s
  | at_child s k c path t : (k, c) ∈ children s -> at_path c path t -> at_path s (k :: path) t.

Lemma elem_limit_set path m l e : e ∈ limit_set path m l -> e = (path, m) \/ e ∈ l.
Proof.
  induction l as [|[q k] r IH]; cbn; [intros ?%list_elem_of_singleton; by left|].
  rewrite elem_of_cons. case_bool_decide as Hq; intros [->|Hin]%elem_of_cons; subst; auto.
  destruct (IH Hin); auto.
Qed.

Lemma at_path_snoc s path t k c : at_path s path t -> (k, c) ∈ children t -> at_path s (path ++ [k]) c.
Proof.
  induction 1 as [s|s k' c' path t Hc Hp IH]; intros Hk; cbn.
  - eapply at_child; [done|constructor].
  - eapply at_child; [done|]. by apply IH.
Qed.

(** Every collected limit is the [maxLength] of the schema at its path. *)
Lemma collect_sound n root schema path limits :
  at_path root path schema ->
  (forall q m, (q, m) ∈ limits -> exists s, at_path root q s /\ get "maxLength" s = VInt m /\ (4096 < m)%Z) ->
  forall q m, (q, m) ∈ collect n schema path limits ->
    exists s, at_path root q s /\ get "maxLength" s = VInt m /\ (4096 < m)%Z.
Proof.
  revert schema path limits. induction n as [|n IH]; intros schema path limits Hp Hl; [done|].
  cbn [collect].
  set (limits' := match get "maxLength" schema with VInt _ => _ | _ => _ end).
  assert (forall q m, (q, m) ∈ limits' ->
            exists s, at_path root q s /\ get "maxLength" s = VInt m /\ (4096 < m)%Z) as Hl'.
  { unfold limits'. intros q m. destruct (get "maxLength" schema) eqn:E; auto.
    destruct (Z.ltb_spec 4096 z); auto. intros [[= -> ->]|?]%elem_limit_set; eauto. }
  clearbody limits'. clear Hl limits.
  assert (forall c, c ∈ children schema -> c ∈ children schema) as Hsub by auto.
  revert Hsub limits' Hl'. generalize (children schema) at 1 3 as l.
  induction l as [|c l IHl]; intros Hsub limits' Hl'; cbn [fold_left]; [done|].
  apply IHl; [intros; apply Hsub; by right|].
  apply IH; [|done]. eapply at_path_snoc; [done|]. destruct c. apply Hsub. left.
Qed.

(** The length limit used to persist a wide string field is derived from the
    schema of that very field, leaves exactly the room of the truncation mark, and is
    used only above the default event limit: content and mark together never exceed
    the declared [maxLength]. *)
Theorem schema_limit_reserves_marker schema path limit :
  (path, limit) ∈ _result_schema_string_limits (VDict schema) ->
  exists s m, at_path schema path s /\ get "maxLength" s = VInt m /\
    (4096 < m)%Z /\ (Z.of_nat limit + Z.of_nat (length _TRUNCATION_MARKER) = m)%Z.
Proof.
  unfold _result_schema_string_limits. rewrite list_elem_of_fmap.
  intros ([q m] & Heq & Hin). simplify_eq/=.
  apply (collect_sound _ schema schema [] [] (at_here _)) in Hin as (s & Hs & Hm & Hlt);
    [|by intros ? ? ?%elem_of_nil].
  exists s, m. split_and!; [done..|]. lia.
Qed.

(** ** The relaxed schema *)

Lemma get_pop_ne k k' d : k <> k' -> get k (dict_pop k' d) = get k d.
Proof.
  intros Hne. unfold get, dict_pop. f_equal. induction d as [|[q v] d IH]; cbn; [done|].
  destruct (String.eqb_spec q k') as [->|]; cbn.
  - destruct (String.eqb_spec k' k); [congruence|done].
  - by rewrite IH.
Qed.
Lemma get_pop_eq k d : get k (dict_pop k d) = VNone.
Proof.
  unfold get, dict_pop. induction d as [|[q v] d IH]; cbn; [done|].
  destruct (String.eqb q k) eqn:E; cbn; [done|]. by rewrite E.
Qed.

Definition structural_keys : list string := ["maxLength"; "properties"; "items"].

(** One level of [strip]. *)
Lemma strip_level n limits path schema :
  let s' := strip (S n) limits path schema in
  (forall k, k ∉ structural_keys -> get k s' = get k schema) /\
  get "maxLength" s' = (if in_limits path limits then VNone else get "maxLength" schema) /\
  (forall k c, (k, c) ∈ children schema -> (k, strip n limits (path ++ [k]) c) ∈ children s').
Proof.
  cbn zeta. cbn [strip].
  set (s0 := if in_limits path limits then dict_pop "maxLength" schema else schema).
  assert (forall k, k <> "maxLength" -> get k s0 = get k schema) as H0.
  { intros k Hk. unfold s0. destruct (in_limits path limits); [by apply get_pop_ne|done]. }
  assert (get "maxLength" s0 = if in_limits path limits then VNone else get "maxLength" schema) as Hm.
  { unfold s0. destruct (in_limits path limits); [apply get_pop_eq|done]. }
  set (s1 := match get "properties" s0 with VDict _ => _ | _ => _ end).
  assert (forall k, k <> "properties" -> get k s1 = get k s0) as H1.
  { intros k Hk. unfold s1. destruct (get "properties" s0); try done. by apply get_set_ne. }
  set (s2 := match get "items" s1 with VDict _ => _ | _ => _ end).
  assert (forall k, k <> "items" -> get k s2 = get k s1) as H2.
  { intros k Hk. unfold s2. destruct (get "items" s1); try done. by apply get_set_ne. }
  split_and!.
  - intros k Hk. rewrite H2, H1, H0; set_solver.
  - by rewrite H2, H1.
  - intros k c [(props & Hp & Hin)|[-> Hi]]%elem_children; apply elem_children.
    + left. rewrite H2 by done. unfold s1. rewrite H0, Hp by done. rewrite get_set_eq.
      eexists. split; [done|]. apply list_elem_of_fmap. by exists (k, VDict c).
    + right. split; [done|]. unfold s2. rewrite H1, H0, Hi by done. by rewrite get_set_eq.
Qed.

Lemma strip_at_path limits schema path s :
  at_path schema path s ->
  forall n prefix, vdepth (VDict schema) <= n ->
  exists s', at_path (strip n limits prefix schema) path s' /\
    (forall k, k ∉ structural_keys -> get k s' = get k s) /\
    get "maxLength" s' = (if in_limits (prefix ++ path) limits then VNone else get "maxLength" s).
Proof.
  induction 1 as [s|s k c path t Hc Hp IH]; intros n prefix Hn;
    (destruct n as [|n]; [cbn in Hn; lia|]).
  - destruct (strip_level n limits prefix s) as (H1 & H2 & _).
    exists (strip (S n) limits prefix s). rewrite app_nil_r. split_and!; [constructor|done..].
  - destruct (strip_level n limits prefix s) as (_ & _ & H3).
    destruct (IH n (prefix ++ [k])) as (s' & H4 & H5 & H6).
    { apply children_depth in Hc. lia. }
    exists s'. split_and!; [|done|by rewrite <- app_assoc in H6].
    eapply at_child; [by apply H3|done].
Qed.

(** Relaxing a result schema for the validation of the raw value removes
    [maxLength] exactly at the wide paths and leaves every other constraint of every
    reachable subschema as it is. *)
Theorem relax_only_wide_lengths schema limits path s :
  at_path schema path s ->
  exists s', at_path (_relax_schema_string_lengths schema limits) path s' /\
    (forall k, k ∉ structural_keys -> get k s' = get k s) /\
    get "maxLength" s' = (if in_limits path limits then VNone else get "maxLength" s).
Proof. intros Hp. by apply (strip_at_path limits schema path s Hp _ []). Qed.

Section Witnesses.
Definition demo_schema : dict :=
  [("type", VStr "object");
   ("properties", VDict [("log", VDict [("type", VStr "string"); ("maxLength", VInt 4100)]);
                         ("name", VDict [("type", VStr "string"); ("maxLength", VInt 64)])])].

Lemma schema_limit_reserves_marker_witness :
  (["log"], Z.to_nat 4086) ∈ _result_schema_string_limits (VDict demo_schema) /\
  exists s, at_path demo_schema ["log"] s /\ get "maxLength" s = VInt 4100.
Proof.
  assert ((["log"], Z.to_nat 4086) ∈ _result_schema_string_limits (VDict demo_schema)) as Hin.
  { vm_compute. left. }
  split; [exact Hin|].
  destruct (schema_limit_reserves_marker demo_schema ["log"] _ Hin) as (s & m & Hs & Hm & _ & He).
  exists s. split; [exact Hs|]. rewrite Hm. f_equal. change (length _TRUNCATION_MARKER) with 14 in He. lia.
Defined.

Lemma relax_only_wide_lengths_witness :
  exists s', at_path (_relax_schema_string_lengths demo_schema
                        (_result_schema_string_limits (VDict demo_schema))) ["log"] s' /\
    get "type" s' = VStr "string" /\ get "maxLength" s' = VNone.
Proof.
  destruct (relax_only_wide_lengths demo_schema
    (_result_schema_string_limits (VDict demo_schema)) ["log"]
    [("type", VStr "string"); ("maxLength", VInt 4100)]) as (s' & H1 & H2 & H3).
  { eapply at_child; [|constructor]. vm_compute. left. }
  exists s'. split_and!; [exact H1|rewrite H2; [reflexivity|compute_done]|rewrite H3; by vm_compute].
Defined.
End Witnesses.
