(* ===== verification/EventStore.v ===== *)
(** * The event store

    [netbox_rpc/event_store.py]: rows of the execution event ledger, the append with
    its retry on a sequence collision, the append-and-project step every writer goes
    through, the [record_*] and [mark_*] operations, and the rebuild of the projection
    from the ledger.  An operation that fails leaves the execution as it was, as
    [transaction.atomic] does.  [now] stands for [timezone.now()]. *)

From S2P Require Import Prelude PyValue Events Projection CredentialContract.
From S2P Require Import Spans SpanFacts MaskFacts PyRegex SecretPatterns TextRedaction.
From S2P Require Import ValueRedaction RedactionFacts SchemaLimits.

(** A row of [RPCExecutionEvent]. *)
Record row := {
  row_sequence : Z;
  row_level : string;
  row_event : string;
  row_message : string;
  row_data : dict;
  row_payload_hash : string;
}.

(** An [RPCExecution]: the attributes the store reads, the projected columns and the
    rows of its ledger, in the order they were committed. *)
Record execution := {
  ex_pk : Z;
  ex_procedure_name : string;
  ex_result_schema : value;
  ex_params : value;
  ex_requested_by_id : value;
  ex_cols : ProjectionState;
  ex_events : list row;
}.

Definition with_ledger (ex : execution) (cols : ProjectionState) (rows : list row) : execution :=
  {| ex_pk := ex_pk ex; ex_procedure_name := ex_procedure_name ex;
     ex_result_schema := ex_result_schema ex; ex_params := ex_params ex;
     ex_requested_by_id := ex_requested_by_id ex; ex_cols := cols; ex_events := rows |}.

(** [_next_event_sequence]: one past the highest sequence. *)
Definition _next_event_sequence (rows : list row) : Z :=
  foldr (fun r m => Z.max (row_sequence r) m) 0 rows + 1.

Definition _EXECUTION_FAILED_CODE : string := "RPC_EXECUTION_FAILED".
Definition _ENQUEUE_FAILED_CODE : string := "RPC_ENQUEUE_FAILED".

(** [_BACKEND_ERROR_CODE_RE.fullmatch(code)]. *)
Definition _BACKEND_ERROR_CODE_RE : re :=
  RSeq (RSet (between 65 90))
       (RRep true 0 (Some 99%nat) (RSet (fun c => between 65 90 c || between 48 57 c || (c =? 95)%N))).
Definition _is_catalog_error_code (code : value) : bool :=
  match code with VStr s => fullmatch _BACKEND_ERROR_CODE_RE (codes s) | _ => false end.

Definition _persistable_failure_event (e : DomainEvent) : DomainEvent :=
  match e with
  | ExecutionFailed m code at_ r =>
      if _is_catalog_error_code (VStr code) then e
      else ExecutionFailed m _EXECUTION_FAILED_CODE at_ r
  | ExecutionEnqueueFailed m code at_ =>
      if _is_catalog_error_code (VStr code) then e
      else ExecutionEnqueueFailed m _ENQUEUE_FAILED_CODE at_
  | _ => e
  end.

Definition _normalized_params_string_limits : string_limits :=
  [(["normalized_params"; "config_content"], Z.to_nat 1048576);
   (["normalized_params"; "content"], Z.to_nat 1048576)].

(** The string limits an event is persisted with. *)
Definition event_limits (result_schema : value) (e : DomainEvent) : string_limits :=
  match e with
  | ExecutionSucceeded _ _ | ExecutionFailed _ _ _ _ =>
      (fun l => ("result" :: l.1, l.2)) <$> _result_schema_string_limits result_schema
  | ParametersNormalized _ _ => _normalized_params_string_limits
  | _ => []
  end.

Section Store.
Context `{PyLib} `{JsonSchema}.

(** The row an append writes, for a given sequence. *)
Definition make_row (level event message : string) (data : dict) (limits : string_limits)
    (sequence : Z) : row :=
  let level := _event_level (VStr level) in
  let event_data := redact_event_data (VDict data) limits in
  let redacted_message := _bounded_event_message (VStr message) in
  {| row_sequence := sequence; row_level := level; row_event := event;
     row_message := redacted_message; row_data := event_data;
     row_payload_hash := sha256 (json_dumps
       (VDict [("level", VStr level); ("event", VStr event);
               ("message", VStr redacted_message); ("data", VDict event_data)])) |}.

(** The retry loop.  [others] lists the rows that concurrent writers commit before
    each attempt; a row with the same sequence is the unique-constraint violation. *)
Fixpoint append_loop (n : nat) (mk : Z -> row) (sequence : Z) (rows : list row)
    (others : list (list row)) : list row * res row :=
  match n with
  | O => (rows, Err RPCEventStoreError)
  | S n =>
      let rows := rows ++ default [] (head others) in
      if existsb (fun r => row_sequence r =? sequence) rows
      then append_loop n mk (_next_event_sequence rows) rows (tail others)
      else (rows ++ [mk sequence], Ok (mk sequence))
  end.
Definition append_execution_event (level event message : string) (data : dict)
    (limits : string_limits) (rows : list row) (others : list (list row)) : list row * res row :=
  append_loop 3 (make_row level event message data limits) (_next_event_sequence rows) rows others.

Definition ledger_normalized_params (params : dict) : res dict :=
  py_dict (py_or (get "normalized_params"
    (redact_event_data (VDict [("normalized_params", VDict params)]) _normalized_params_string_limits))
    (VDict [])).

(** The writers of one execution are serialised by its row lock: no other rows. *)
Definition _append_and_project (ex : execution) (event : DomainEvent) : res execution :=
  let event := _persistable_failure_event event in
  let limits := event_limits (ex_result_schema ex) event in
  let '(rows, record) :=
    append_execution_event (level event) (event_name event) (message event) (data event)
      limits (ex_events ex) [] in
  record ← record;
  redacted_event ← from_data (type_of event) (row_data record);
  let projected := apply (from_execution (ex_cols ex)) redacted_event in
  Ok (with_ledger ex (_write_projection (ex_cols ex) projected).1 rows).

(** ** Operations *)

Definition record_execution_queued (ex : execution) : res execution :=
  _append_and_project ex (ExecutionQueued (ex_requested_by_id ex)).
Definition record_execution_enqueued (ex : execution) (job : value) : res execution :=
  _append_and_project ex (JobEnqueued job).
Definition mark_execution_running (ex : execution) (now : value) : res execution :=
  _append_and_project ex (ExecutionStarted now).
Definition record_dispatch_lease_issued (ex : execution) (nonce key_id : string)
    (key_version stream_version : Z) (audience : string) (expires_at : value)
    (envelope_version : Z) : res execution :=
  _append_and_project ex
    (DispatchLeaseIssued nonce key_id key_version stream_version audience expires_at envelope_version).
Definition mark_execution_failed (ex : execution) (msg code : string) (name : string) (now : value)
    : res execution :=
  _append_and_project ex
    (if String.eqb name (EVENT_NAME TExecutionEnqueueFailed)
     then ExecutionEnqueueFailed msg code now else ExecutionFailed msg code now []).
Definition record_execution_normalized (ex : execution) (params : dict) (hash : string) : res execution :=
  _append_and_project ex (ParametersNormalized params hash).
Definition record_execution_succeeded (ex : execution) (r : dict) (now : value) : res execution :=
  _append_and_project ex (ExecutionSucceeded r now).
Definition record_execution_cancelled (ex : execution) (user : value) (reason : string) (now : value)
    : res execution :=
  _append_and_project ex (ExecutionCancelled now user reason).
Definition record_execution_requested (ex : execution) (requested_by : value) : res execution :=
  _append_and_project ex
    (ExecutionRequested (match requested_by with VNone => ex_requested_by_id ex | v => v end)).
Definition record_approval_requested (ex : execution) (snapshot_hash : string)
    (expires_at requested_by : value) : res execution :=
  _append_and_project ex (ApprovalRequested snapshot_hash expires_at requested_by).
Definition record_execution_approved (ex : execution) (approved_by : value) (snapshot_hash reason : string)
    (now : value) : res execution :=
  _append_and_project ex (ExecutionApproved approved_by snapshot_hash now reason).
Definition record_execution_rejected (ex : execution) (rejected_by : value) (reason : string) (now : value)
    : res execution :=
  _append_and_project ex (ExecutionRejected rejected_by now reason).
Definition record_execution_expired (ex : execution) (reason : string) (now : value) : res execution :=
  _append_and_project ex (ExecutionExpired now reason).

(** ** Rebuild *)

Definition row_le (a b : row) : Prop := row_sequence a <= row_sequence b.
#[global] Instance row_le_dec : RelDecision row_le.
Proof. unfold row_le. intros ??. apply _. Defined.

Fixpoint read_events (rows : list row) : res (list DomainEvent) :=
  match rows with
  | [] => Ok []
  | r :: rest => e ← from_record (row_event r) (row_data r);
                 es ← read_events rest; Ok (e :: es)
  end.
Definition rebuild_projection (ex : execution) : res ProjectionState :=
  rebuild <$> read_events (merge_sort row_le (ex_events ex)).
Definition reproject (ex : execution) : res execution :=
  state ← rebuild_projection ex;
  Ok (with_ledger ex (_write_projection (ex_cols ex) state).1 (ex_events ex)).
End Store.
