(* ===== verification/EventStoreFacts.v ===== *)
(** * Facts about the event store

    The ledger's sequences are 1, 2, 3, ... whatever concurrent writers do; every
    operation keeps the live columns equal to the fold of the ledger; the error code
    column only ever holds a catalog code; backend events cannot act as state
    transitions. *)

From S2P Require Import Prelude PyValue Events Projection CredentialContract.
From S2P Require Import Spans SpanFacts MaskFacts PyRegex SecretPatterns TextRedaction.
From S2P Require Import ValueRedaction RedactionFacts SchemaLimits EventStore.

(** ** Sequences *)

(** The i-th committed row has sequence i + 1. *)
Definition ledger_ok (rows : list row) : Prop :=
  forall i r, rows !! i = Some r -> row_sequence r = Z.of_nat i + 1.

Lemma ledger_ok_nil : ledger_ok [].
Proof. intros i r Hr. by rewrite lookup_nil in Hr. Qed.

Lemma ledger_ok_snoc rows r :
  ledger_ok rows -> row_sequence r = Z.of_nat (length rows) + 1 -> ledger_ok (rows ++ [r]).
Proof.
  intros Hl Hr i x Hx. apply lookup_app_Some in Hx as [Hx|[Hi Hx]]; [by apply Hl|].
  apply list_lookup_singleton_Some in Hx as [Hi' <-]. lia.
Qed.

Lemma foldr_max_spec (rows : list row) :
  let m := foldr (fun r m => Z.max (row_sequence r) m) 0 rows in
  0 <= m /\ (forall r, r ∈ rows -> row_sequence r <= m) /\
  (m = 0 \/ exists r, r ∈ rows /\ row_sequence r = m).
Proof.
  induction rows as [|x rows (H1 & H2 & H3)]; cbn zeta; cbn [foldr].
  { split_and!; [done|set_solver|by left]. }
  split_and!; [lia| |].
  - intros r [->|Hr]%elem_of_cons; [lia|]. specialize (H2 r Hr). cbn in *. lia.
  - destruct (Z.max_spec (row_sequence x) (foldr (fun r m => Z.max (row_sequence r) m) 0 rows))
      as [[_ ->]|[_ ->]].
    + destruct H3 as [?|(r & Hr & ?)]; [by left|right; exists r; split; [by right|done]].
    + right. exists x. split; [left|done].
Qed.

Lemma next_sequence_ok rows : ledger_ok rows -> _next_event_sequence rows = Z.of_nat (length rows) + 1.
Proof.
  intros Hl. unfold _next_event_sequence. destruct (foldr_max_spec rows) as (H1 & H2 & H3).
  set (m := foldr _ 0 rows) in *.
  assert (m <= Z.of_nat (length rows)) as Hle.
  { destruct H3 as [->|(r & Hr & <-)]; [lia|]. apply list_elem_of_lookup in Hr as [i Hi].
    rewrite (Hl i r Hi). apply lookup_lt_Some in Hi. lia. }
  destruct (decide (rows = [])) as [->|Hne]; [cbn in *; lia|].
  destruct (last rows) as [r|] eqn:E; [|by apply last_None in E].
  rewrite last_lookup in E. pose proof (Hl _ _ E) as Hs.
  apply list_elem_of_lookup_2 in E. specialize (H2 r E).
  destruct rows; [done|]. cbn [length pred] in *. lia.
Qed.

Lemma sequence_free rows : ledger_ok rows ->
  existsb (fun r => row_sequence r =? Z.of_nat (length rows) + 1) rows = false.
Proof.
  intros Hl. apply not_true_is_false. intros (r & Hr & Heq%Z.eqb_eq)%existsb_exists.
  apply list_elem_of_In, list_elem_of_lookup in Hr as [i Hi].
  rewrite (Hl i r Hi) in Heq. apply lookup_lt_Some in Hi. lia.
Qed.

Lemma sequence_taken rows more : ledger_ok (rows ++ more) -> more <> [] ->
  existsb (fun r => row_sequence r =? Z.of_nat (length rows) + 1) (rows ++ more) = true.
Proof.
  intros Hl Hne. destruct more as [|r more]; [done|]. apply existsb_exists. exists r. split.
  - apply in_or_app. right. by left.
  - apply Z.eqb_eq. apply (Hl (length rows) r).
    rewrite lookup_app_r, Nat.sub_diag by lia. done.
Qed.

(** Concurrent writers keep the ledger well-formed too. *)
Fixpoint writers_ok (rows : list row) (others : list (list row)) : Prop :=
  match others with
  | [] => True
  | more :: rest => ledger_ok (rows ++ more) /\ writers_ok (rows ++ more) rest
  end.

Section Append.
Variable mk : Z -> row.
Hypothesis mk_sequence : forall s, row_sequence (mk s) = s.

Lemma append_loop_ok n rows others :
  ledger_ok rows -> writers_ok rows others ->
  let '(rows', r) := append_loop n mk (_next_event_sequence rows) rows others in
  ledger_ok rows' /\ rows `prefix_of` rows' /\
  match r with
  | Ok x => last rows' = Some x /\ x = mk (Z.of_nat (length rows'))
  | Err e => e = RPCEventStoreError /\
             (n <= length others)%nat /\ Forall (fun more => more <> []) (take n others)
  end.
Proof.
  revert rows others. induction n as [|n IH]; intros rows others Hl Hw; cbn [append_loop].
  { split_and!; try done. cbn. lia. }
  rewrite (next_sequence_ok _ Hl).
  destruct others as [|more rest]; cbn [head tail default from_option id].
  - rewrite !app_nil_r, (sequence_free _ Hl). split_and!.
    + apply ledger_ok_snoc; [done|]. apply mk_sequence.
    + by apply prefix_app_r.
    + apply last_snoc.
    + rewrite length_app. cbn. f_equal. lia.
  - cbn in Hw. destruct Hw as [Hl' Hw].
    destruct (decide (more = [])) as [->|Hne].
    + rewrite !app_nil_r in *. rewrite (sequence_free _ Hl). split_and!.
      * apply ledger_ok_snoc; [done|]. apply mk_sequence.
      * by apply prefix_app_r.
      * apply last_snoc.
      * rewrite length_app. cbn. f_equal. lia.
    + rewrite (sequence_taken _ _ Hl' Hne).
      specialize (IH (rows ++ more) rest Hl' Hw).
      destruct (append_loop n mk _ (rows ++ more) rest) as [rows' r]. destruct IH as (H1 & H2 & H3).
      split_and!; [done|by eapply prefix_app_l|]. destruct r as [x|e]; [done|].
      destruct H3 as (-> & Hlen & Hf). split_and!; [done|cbn; lia|by constructor].
Qed.
End Append.

(** ** The live columns are the fold of the ledger *)

(** A backend event must not carry the name of a state transition. *)
Definition writable (e : DomainEvent) : bool :=
  match e with
  | BackendEventRecorded _ _ _ _ =>
      match lookup_type (event_name e) EVENT_TYPES with
      | None | Some TBackendEventRecorded => true
      | _ => false
      end
  | _ => true
  end.

Lemma persistable_type e : type_of (_persistable_failure_event e) = type_of e.
Proof. destruct e; cbn; try done; by destruct (fullmatch _ _). Qed.
Lemma persistable_name e : event_name (_persistable_failure_event e) = event_name e.
Proof. destruct e; cbn; try done; by destruct (fullmatch _ _). Qed.

Lemma from_data_type t d e : from_data t d = Ok e -> type_of e = t.
Proof. destruct t; cbn; intros He; res_inv; subst; done. Qed.

Section Live.
Context `{PyLib} `{JsonSchema}.
Implicit Types ex : execution.

(** What the fold of the stored row does is what the live step did. *)
Lemma from_record_apply e d r :
  writable e = true -> from_data (type_of e) d = Ok r ->
  exists r', from_record (event_name e) d = Ok r' /\ forall s, apply s r' = apply s r.
Proof.
  intros Hw Hd. unfold from_record.
  destruct (decide (type_of e = TBackendEventRecorded)) as [Ht|Ht].
  - destruct e; try done. unfold writable in Hw. cbn in Hd. injection Hd as <-.
    destruct (lookup_type _ EVENT_TYPES) as [t|]; [|by eexists].
    destruct t; try done. cbn. by eexists.
  - assert (event_name e = EVENT_NAME (type_of e)) as -> by (by destruct e).
    rewrite EVENT_TYPES_lookup. eauto.
Qed.

Lemma append_unopposed level event message data limits rows :
  ledger_ok rows ->
  append_execution_event level event message data limits rows []
  = (rows ++ [make_row level event message data limits (Z.of_nat (length rows) + 1)],
     Ok (make_row level event message data limits (Z.of_nat (length rows) + 1))).
Proof.
  intros Hl. unfold append_execution_event. cbn [append_loop head default from_option id].
  by rewrite app_nil_r, (next_sequence_ok _ Hl), (sequence_free _ Hl).
Qed.

(** The row an event is stored as. *)
Definition event_row (schema : value) (e : DomainEvent) (sequence : Z) : row :=
  make_row (level e) (event_name e) (message e) (data e) (event_limits schema e) sequence.

Lemma append_and_project_spec ex e ex' :
  ledger_ok (ex_events ex) -> _append_and_project ex e = Ok ex' ->
  let p := _persistable_failure_event e in
  let r := event_row (ex_result_schema ex) p (Z.of_nat (length (ex_events ex)) + 1) in
  exists redacted, from_data (type_of e) (row_data r) = Ok redacted /\
    ex' = with_ledger ex
            (_write_projection (ex_cols ex) (apply (from_execution (ex_cols ex)) redacted)).1
            (ex_events ex ++ [r]).
Proof.
  intros Hl Ha. cbn zeta. unfold _append_and_project in Ha. cbn zeta in Ha.
  rewrite (append_unopposed _ _ _ _ _ _ Hl) in Ha. change (mbind ?f (Ok ?x)) with (f x) in Ha.
  cbn beta in Ha. apply bind_Ok in Ha as (redacted & Hr & Hx). injection Hx as <-.
  exists redacted. rewrite persistable_type in Hr. done.
Qed.

Lemma read_events_snoc rows r es e :
  read_events rows = Ok es -> from_record (row_event r) (row_data r) = Ok e ->
  read_events (rows ++ [r]) = Ok (es ++ [e]).
Proof.
  revert es. induction rows as [|x rows IH]; intros es Hes He.
  - injection Hes as <-. cbn. by rewrite He.
  - cbn [app read_events] in *. res_inv. subst es.
    match goal with Hx : from_record _ _ = Ok ?a, Hr : read_events rows = Ok ?b |- _ =>
      rewrite Hx; cbn; by rewrite (IH b Hr He) end.
Qed.

#[local] Instance row_le_trans : Transitive row_le.
Proof. unfold row_le. intros ???; lia. Qed.
#[local] Instance row_le_total : Total row_le.
Proof. unfold row_le. intros ??; lia. Qed.

Lemma ledger_ok_prefix rows r : ledger_ok (rows ++ [r]) -> ledger_ok rows.
Proof. intros Hl i x Hx. apply Hl. by apply lookup_app_l_Some. Qed.

Lemma ledger_strongly_sorted rows : ledger_ok rows -> StronglySorted row_le rows.
Proof.
  induction rows as [|r rows IH] using rev_ind; intros Hl; [constructor|].
  apply StronglySorted_app. split_and!; [|by eapply IH, ledger_ok_prefix|repeat constructor].
  intros x y Hx ->%list_elem_of_singleton. apply list_elem_of_lookup in Hx as [i Hi].
  unfold row_le. rewrite (Hl i x) by (by apply lookup_app_l_Some).
  rewrite (Hl (length rows) r) by (by rewrite lookup_app_r, Nat.sub_diag by lia).
  apply lookup_lt_Some in Hi. lia.
Qed.

Lemma ledger_sorted rows : ledger_ok rows -> merge_sort row_le rows = rows.
Proof.
  intros Hl. apply (StronglySorted_unique_strong row_le).
  - intros x1 x2 H1 H2 R1 R2. rewrite (merge_sort_Permutation row_le rows) in H1.
    apply list_elem_of_lookup in H1 as [i Hi], H2 as [j Hj].
    pose proof (Hl i x1 Hi). pose proof (Hl j x2 Hj). unfold row_le in *.
    assert (i = j) as -> by lia. congruence.
  - apply (StronglySorted_merge_sort row_le).
  - by apply ledger_strongly_sorted.
  - apply merge_sort_Permutation.
Qed.

(** The ledger is well-formed, readable, and the columns are its fold. *)
Definition consistent ex : Prop :=
  ledger_ok (ex_events ex) /\
  exists es, read_events (ex_events ex) = Ok es /\ ps_equiv (ex_cols ex) (rebuild es).

Lemma consistent_rebuild ex :
  consistent ex -> exists s, rebuild_projection ex = Ok s /\ ps_equiv (ex_cols ex) s.
Proof.
  intros (Hl & es & Hr & He). unfold rebuild_projection. rewrite (ledger_sorted _ Hl), Hr. by eexists.
Qed.

Lemma from_execution_id cols es : ps_equiv cols (rebuild es) -> from_execution cols = cols.
Proof.
  intros He. apply ps_equiv_fields in He as (Hs & _). destruct cols; cbn in *. unfold from_execution; cbn.
  rewrite Hs, rebuild_status. by destruct (stream_status es).
Qed.

Lemma append_and_project_consistent ex e ex' :
  consistent ex -> writable e = true -> _append_and_project ex e = Ok ex' -> consistent ex'.
Proof.
  intros (Hl & es & Hr & He) Hw Ha.
  destruct (append_and_project_spec ex e ex' Hl Ha) as (redacted & Hd & ->).
  set (r := event_row _ _ _) in *.
  destruct (from_record_apply e (row_data r) redacted Hw Hd) as (red' & Hf & Happ).
  split; cbn [ex_events ex_cols with_ledger].
  - by apply ledger_ok_snoc.
  - exists (es ++ [red']). split.
    + apply read_events_snoc; [done|]. change (row_event r) with (event_name (_persistable_failure_event e)).
      by rewrite persistable_name.
    + rewrite write_projection_equiv, (from_execution_id _ _ He), He, rebuild_snoc, Happ. done.
Qed.
End Live.

(** ** Scalars that survive redaction *)

Lemma store_all_id (d : dict) : NoDup (keys d) -> store_all d false = d.
Proof.
  unfold store_all. cbn zeta.
  assert (forall acc : dict, NoDup (keys (acc ++ d)) ->
    fold_left (fun a e => dict_set e.1 e.2 a) d acc = acc ++ d) as Hf.
  { induction d as [|[k v] d IH]; intros acc Hnd; cbn; [by rewrite app_nil_r|].
    assert (dict_set k v acc = acc ++ [(k, v)]) as ->.
    { assert (k ∉ keys acc) as Hk.
      { unfold keys in *. rewrite fmap_app in Hnd. apply NoDup_app in Hnd as (_ & Hd & _).
        intros Hin. apply (Hd k Hin). left. }
      clear -Hk. induction acc as [|[k' v'] acc IH]; cbn; [done|]. rewrite keys_cons in Hk.
      apply not_elem_of_cons in Hk as [Hne Hk]. destruct (String.eqb_spec k' k); [congruence|].
      by rewrite IH. }
    rewrite IH; rewrite <- app_assoc; done. }
  intros Hnd. by apply (Hf []).
Qed.

Lemma keys_persisted (f : string * string * value -> value) (l : list (string * string * value)) :
  keys (map (fun e => (e.1.1, f e)) l) = (l.*1).*1.
Proof. unfold keys. induction l as [|e l IH]; cbn; [done|]. f_equal. apply IH. Qed.

Section Scalars.
Context `{PyLib} `{JsonSchema}.

(** Data with few, distinct names is redacted entry by entry. *)
Lemma redact_data_entries d limits :
  NoDup (keys d) -> (length d <= 100)%nat -> d <> [] ->
  redact_event_data (VDict d) limits =
  map (fun e => (e.1.1, redact_event_value 32 e.2 e.1.2 limits [e.1.2])) (_persisted_mapping_entries d).
Proof.
  intros Hnd Hlen Hne. unfold redact_event_data.
  assert (py_or (VDict d) (VDict []) = VDict d) as -> by (by destruct d).
  rewrite redact_unguarded by done. unfold redact_body, _MAX_REDACTION_DEPTH.
  assert (mapping_window d = (d, false)) as ->.
  { unfold mapping_window. destruct (Nat.eqb_spec (length d) (S MAX_EVENT_DICT_ITEMS)) as [E|E].
    { unfold MAX_EVENT_DICT_ITEMS in E. lia. }
    cbn [andb]. rewrite take_ge by (unfold MAX_EVENT_DICT_ITEMS; lia). f_equal.
    apply Nat.ltb_ge. unfold MAX_EVENT_DICT_ITEMS. lia. }
  rewrite store_all_id; [done|].
  rewrite (keys_persisted (fun e => redact_event_value 32 e.2 e.1.2 limits ([] ++ [e.1.2]))).
  by apply persisted_entries_ok.
Qed.

Lemma redact_data_get d limits k v :
  NoDup (keys d) -> (length d <= 100)%nat -> (k, v) ∈ d ->
  _mapping_name_is_secret_bearing k = false ->
  get k (redact_event_data (VDict d) limits) = redact_event_value 32 v k limits [k].
Proof.
  intros Hnd Hlen Hin Hk.
  rewrite redact_data_entries; [|done..|intros ->; by apply elem_of_nil in Hin].
  destruct (persisted_entries_ok d Hnd) as (H1 & _ & H3).
  unfold get. erewrite elem_dict_get; [reflexivity| |].
  - by rewrite (keys_persisted (fun e => redact_event_value 32 e.2 e.1.2 limits [e.1.2])).
  - destruct (H3 k v Hin) as [p Hp].
    destruct (resolve_loop_kinds _ _ _ Hp) as [[_ Hpk]|[Hs _]]; cbn [fst snd] in *; [|congruence].
    subst p. apply list_elem_of_fmap. by exists (k, k, v).
Qed.

(** A name the data does not have is not in the redacted data either. *)
Lemma redact_data_absent d limits k :
  NoDup (keys d) -> (length d <= 100)%nat -> d <> [] ->
  Forall (fun n => _mapping_name_is_secret_bearing n = false) (keys d) ->
  k ∉ keys d -> get k (redact_event_data (VDict d) limits) = VNone.
Proof.
  intros Hnd Hlen Hne Hc Hk. rewrite redact_data_entries by done. unfold get.
  rewrite (proj2 (dict_get_None _ _)); [done|].
  rewrite (keys_persisted (fun e => redact_event_value 32 e.2 e.1.2 limits [e.1.2])).
  intros Hin. apply list_elem_of_fmap in Hin as ([p n] & -> & Hin).
  apply list_elem_of_fmap in Hin as ([[p' n'] v] & [= <- <-] & Hin).
  destruct (persisted_entries_ok d Hnd) as (_ & H2 & _). specialize (H2 _ Hin). cbn in H2.
  apply elem_keys in H2. rewrite Forall_forall in Hc. specialize (Hc _ H2).
  destruct (resolve_loop_kinds _ _ _ Hin) as [[_ Hpk]|[Hs _]]; cbn in *; congruence.
Qed.

Lemma redact_scalar_id alphabet s k limits path :
  guarded k = false -> harmless alphabet = true ->
  Forall (fun c => c ∈ alphabet) (codes s) -> (String.length s <= limit_of limits path)%nat ->
  redact_event_value 32 (VStr s) k limits path = VStr s.
Proof.
  intros Hg Hh Hs Hl. rewrite redact_unguarded by done. unfold redact_body, _redact_event_text.
  cbn [py_str].
  pose proof (codes_length s) as Hlen.
  rewrite (harmless_unchanged alphabet); [|done..|].
  - by rewrite from_text_codes.
  - unfold event_bound. destruct (Nat.ltb_spec (limit_of limits path) (length (codes s))); [lia|done].
Qed.

Lemma catalog_code_chars s :
  _is_catalog_error_code (VStr s) = true ->
  Forall (fun c => c ∈ CATALOG_ALPHABET) (codes s) /\ (String.length s <= 100)%nat.
Proof.
  cbn [_is_catalog_error_code]. intros Hf.
  apply (fullmatch_consumes (fun c => c ∈ CATALOG_ALPHABET) _ (1 + 99 * 1)) in Hf as [H1 H2].
  - split; [done|]. rewrite codes_length in H2. lia.
  - assert (forall c, (between 65 90 c || between 48 57 c || (c =? 95)%N)%bool = true ->
                      c ∈ CATALOG_ALPHABET) as Hc.
    { intros c Hc. apply list_elem_of_In.
      assert (c < 96)%N as Hlt.
      { unfold between in Hc. rewrite !orb_true_iff, !andb_true_iff, !N.leb_le, N.eqb_eq in Hc. lia. }
      destruct c as [|p]; [done|].
      do 7 (destruct p as [p|p|]; try (vm_compute in Hc; discriminate); try (vm_compute; tauto); try lia). }
    apply consumes_seq; [apply consumes_set|apply consumes_rep, consumes_set]; auto.
    intros c Hc'. apply Hc. by rewrite Hc'.
Qed.
End Scalars.

(** ** The error code column *)

(** Empty, or a catalog code, which fits the column of 100 characters. *)
Definition code_ok (s : string) : Prop := s = EmptyString \/ _is_catalog_error_code (VStr s) = true.

Section ErrorCode.
Context `{PyLib} `{JsonSchema}.
Implicit Types ex : execution.

Lemma catalog_nonempty c : _is_catalog_error_code (VStr c) = true -> str_truthy c = true.
Proof. by destruct c. Qed.

Lemma limit_of_result limits k :
  k <> "result" -> limit_of ((fun l => ("result" :: l.1, l.2)) <$> limits) [k] = MAX_EVENT_STRING_LENGTH.
Proof.
  intros Hk. unfold limit_of. induction limits as [|[p n] l IH]; cbn; [done|].
  rewrite bool_decide_false by congruence. apply IH.
Qed.

(** A catalog code is stored as it is. *)
Lemma stored_code schema e c d :
  data e = d -> (type_of e = TExecutionFailed \/ type_of e = TExecutionEnqueueFailed) ->
  (("code", VStr c) ∈ d) -> _is_catalog_error_code (VStr c) = true ->
  get "code" (redact_event_data (VDict d) (event_limits schema e)) = VStr c.
Proof.
  intros <- Ht Hin Hc. destruct (catalog_code_chars c Hc) as [Ha Hl].
  rewrite (redact_data_get _ _ "code" (VStr c)); [| | |done|by vm_compute].
  - apply (redact_scalar_id CATALOG_ALPHABET); [by vm_compute|apply catalog_harmless|done|].
    assert (limit_of (event_limits schema e) ["code"] = MAX_EVENT_STRING_LENGTH) as ->.
    { destruct e, Ht; try done; cbn; by apply limit_of_result. }
    unfold MAX_EVENT_STRING_LENGTH. lia.
  - destruct e, Ht; try done; unfold data; cbn; [destruct result|]; compute_done.
  - destruct e, Ht; try done; cbn; [destruct result|]; cbn; lia.
Qed.

Lemma get_str_code d c dflt :
  get "code" d = VStr c -> str_truthy c = true -> get_str "code" dflt d = c.
Proof. intros Hg Ht. unfold get_str. rewrite Hg. unfold py_or. cbn. by rewrite Ht. Qed.

Lemma persistable_code e :
  match _persistable_failure_event e with
  | ExecutionFailed _ c _ _ | ExecutionEnqueueFailed _ c _ => _is_catalog_error_code (VStr c) = true
  | _ => True
  end.
Proof.
  destruct e; cbn [_persistable_failure_event]; try done;
    destruct (_is_catalog_error_code _) eqn:E; try done; by vm_compute.
Qed.

Lemma append_error_code ex e ex' :
  ledger_ok (ex_events ex) -> _append_and_project ex e = Ok ex' ->
  code_ok (error_code (ex_cols ex)) -> code_ok (error_code (ex_cols ex')).
Proof.
  intros Hl Ha Hc. destruct (append_and_project_spec ex e ex' Hl Ha) as (red & Hd & ->).
  cbn [ex_cols with_ledger]. set (p := _persistable_failure_event e) in *.
  pose proof (persistable_code e) as Hp. pose proof (persistable_type e) as Ht. fold p in Hp, Ht.
  assert (error_code (_write_projection (ex_cols ex) (apply (from_execution (ex_cols ex)) red)).1
          = error_code (apply (from_execution (ex_cols ex)) red)) as ->.
  { cbn. apply keep_equal_str. }
  rewrite <- Ht in Hd. cbn [event_row make_row row_data] in Hd.
  destruct (decide (type_of p = TExecutionFailed \/ type_of p = TExecutionEnqueueFailed)) as [Hf|Hf].
  - assert (exists c, ("code", VStr c) ∈ data p /\ _is_catalog_error_code (VStr c) = true) as (c & Hin & Hcat).
    { destruct p as [| | | | | |m c a r|m c a| | | | | | |], Hf; try done; exists c;
        (split; [|done]); cbn; unfold str_or; rewrite (catalog_nonempty _ Hp); right; left. }
    pose proof (stored_code (ex_result_schema ex) p c _ eq_refl Hf Hin Hcat) as Hg.
    right. destruct Hf as [Hf|Hf]; rewrite Hf in Hd; cbn [from_data] in Hd; res_inv; subst red;
      cbn [apply error_code with_outcome];
      rewrite (get_str_code _ _ _ Hg (catalog_nonempty _ Hcat)); unfold str_or;
      by rewrite (catalog_nonempty _ Hcat).
  - apply from_data_type in Hd. rewrite <- Hd in Hf.
    destruct red; cbn in Hf |- *; try (by left); try exact Hc; exfalso; apply Hf; auto.
Qed.
End ErrorCode.
