(* ===== verification/Response.v ===== *)
(** * Backend responses

    The part of [netbox_rpc/event_store.py] that records a backend response: the
    validation contract of the procedure, the envelope checks, the schema checks of
    the raw and of the stored result, the progress events and the terminal event;
    with the diagnostics table of [netbox_rpc/gitea_upgrade_contract.py] and the
    procedure names of [netbox_rpc/constants.py] it consults. *)

From S2P Require Import Prelude PyValue Events Projection CredentialContract.
From S2P Require Import Spans SpanFacts MaskFacts PyRegex SecretPatterns TextRedaction.
From S2P Require Import ValueRedaction RedactionFacts SchemaLimits EventStore EventStoreFacts.

(** ** Constants *)

Definition NETBOX_STAGING_ROTATE_BACKEND_TOKEN : string := "service.netbox.staging.rotate_backend_token".
Definition NETBOX_STAGING_DEPLOY_DNS_PAIR : string := "service.netbox.staging.deploy_dns_pair".
Definition GITEA_PRODUCTION_UPGRADE_1_27_1 : string := "service.gitea.production.upgrade_1_27_1".
Definition AKVORADO_BOOTSTRAP_DEBIAN13_PREFLIGHT : string := "os.linux.debian.13.preflight_akvorado".
Definition AKVORADO_BOOTSTRAP_DEBIAN13_INSTALL : string := "os.linux.debian.13.install_akvorado".
Definition AKVORADO_BOOTSTRAP_DEBIAN13_PROCEDURE_NAMES : list string :=
  [AKVORADO_BOOTSTRAP_DEBIAN13_PREFLIGHT; AKVORADO_BOOTSTRAP_DEBIAN13_INSTALL].
Definition INFLUXDB3_DEBIAN13_PROCEDURE_NAMES : list string :=
  ["os.linux.debian.13.preflight_influxdb3_core"; "os.linux.debian.13.install_influxdb3_core"].
Definition KEYCLOAK_IAM_UI_WRITE_PROCEDURE_NAMES : list string :=
  ["service.keycloak.iam_ui.configure"; "service.keycloak.iam_ui.certificate";
   "service.keycloak.iam_ui.activate"].
Definition PROTECTED_APPROVAL_PROCEDURE_NAMES : list string :=
  KEYCLOAK_IAM_UI_WRITE_PROCEDURE_NAMES ++
  [NETBOX_STAGING_ROTATE_BACKEND_TOKEN; NETBOX_STAGING_DEPLOY_DNS_PAIR;
   GITEA_PRODUCTION_UPGRADE_1_27_1; "service.gitea.runner.register";
   "service.gitea.actions_runner.provision_org_ci_runner";
   "service.gitea.actions_runner.protected_pair.provision";
   "service.gitea.actions_runner.recover_user_ci_runner";
   "service.gitea.actions_runner.recover_org_ci_runner";
   AKVORADO_BOOTSTRAP_DEBIAN13_INSTALL; "service.openbao.1.provision_netbox_approle";
   "service.netbox.openbao_import.apply"; "service.nmulticloud.deploy.release_marker_reconcile";
   "os.linux.proxmox.oci_registry_pull"; "service.proxbox_api.release_images.recover";
   "service.netbox.production.restart_rq_worker"].

Definition RESULT_SCHEMA_MISMATCH_CODE : string := "RPC_RESULT_SCHEMA_MISMATCH".
Definition MAX_SCHEMA_MISMATCH_MESSAGE_LENGTH : Z := 512.
Definition MAX_BACKEND_EVENTS : nat := 50.
Definition _BACKEND_EVENT_PREFIX : string := "Backend::".

(** [gitea_upgrade_contract.RESULT_DIAGNOSTICS]. *)
Definition RESULT_DIAGNOSTICS : list (list value * (string * string)) :=
  [([VBool true; VBool true; VBool true; VStr "complete"], (EmptyString, EmptyString));
   ([VBool true; VBool false; VBool true; VStr "complete"], (EmptyString, EmptyString));
   ([VBool false; VBool false; VBool false; VStr "execute"],
    ("RPC_GITEA_UPGRADE_PRE_MUTATION_FAILURE",
     "Production Gitea upgrade failed before guest mutation."));
   ([VBool false; VBool false; VBool true; VStr "rolled_back"],
    ("RPC_GITEA_UPGRADE_ROLLED_BACK",
     "Production Gitea upgrade failed and was rolled back safely."));
   ([VBool false; VBool true; VBool false; VStr "complete"],
    ("RPC_GITEA_UPGRADE_COMMITTED_FAILURE",
     "Production Gitea upgrade committed but did not become healthy."));
   ([VBool false; VNone; VNone; VStr "indeterminate"],
    ("RPC_BACKEND_INDETERMINATE",
     "Backend dispatch outcome is indeterminate; reconcile before retry."))].

(** A dictionary lookup hashes its key: lists, sets and mappings raise. *)
Definition hashable (v : value) : bool :=
  match v with VList _ | VSet _ | VDict _ => false | _ => true end.
Definition result_diagnostics (r : dict) : res (string * string) :=
  let state := [get "ok" r; get "changed" r; get "healthy" r; get "stage" r] in
  if negb (forallb hashable state) then Err TypeError else
  match List.find (fun e => py_eqb (VTuple e.1) (VTuple state)) RESULT_DIAGNOSTICS with
  | Some e => Ok e.2
  | None => Ok (EmptyString, EmptyString)
  end.

(** ** The contract of a procedure *)

Record _ResponseContract := {
  is_staging_rotation : bool;
  is_dns_staging_deploy : bool;
  is_protected : bool;
  is_gitea_upgrade : bool;
  requires_envelope_state_match : bool;
}.
Definition has_dedicated_validation (c : _ResponseContract) : bool :=
  is_gitea_upgrade c || is_staging_rotation c || is_dns_staging_deploy c.

Definition _response_contract (procedure_name : string) : _ResponseContract :=
  let protected := str_in procedure_name PROTECTED_APPROVAL_PROCEDURE_NAMES in
  {| is_staging_rotation := String.eqb procedure_name NETBOX_STAGING_ROTATE_BACKEND_TOKEN;
     is_dns_staging_deploy := String.eqb procedure_name NETBOX_STAGING_DEPLOY_DNS_PAIR;
     is_protected := protected;
     is_gitea_upgrade := String.eqb procedure_name GITEA_PRODUCTION_UPGRADE_1_27_1;
     requires_envelope_state_match :=
       protected || str_in procedure_name AKVORADO_BOOTSTRAP_DEBIAN13_PROCEDURE_NAMES
       || str_in procedure_name INFLUXDB3_DEBIAN13_PROCEDURE_NAMES |}.

Record _BackendOutcome := {
  o_ok : bool;
  o_result : dict;
  o_has_nested_result : bool;
  o_error_code : string;
  o_error_message : string;
  o_skip_result_validation : bool;
}.

Definition _skips_result_validation (ok : value) (result_present : bool) (raw_result error_code : value)
    (dedicated : bool) : bool :=
  if dedicated || negb (bool_decide (ok = VBool false)) then false
  else if result_present && negb (bool_decide (raw_result = VDict [])) then false
  else _is_catalog_error_code error_code.

Definition _backend_failure_fields (response : dict) (raw_result : value) (c : _ResponseContract)
    : res (string * string) :=
  match is_gitea_upgrade c, raw_result with
  | true, VDict r => result_diagnostics r
  | _, _ => Ok (get_str "error_code" EmptyString response, get_str "error_message" EmptyString response)
  end.

(** ** Envelope checks: the mismatch text, empty for none *)

Definition _envelope_ok_state_mismatch (response : dict) (raw_result : value) : string :=
  match get "ok" response with
  | VBool outer =>
      if negb (dict_mem "result" response)
      then "Backend result schema mismatch at result: required validation failed." else
      match raw_result with
      | VDict r =>
          if bool_decide (get "ok" r = VBool outer) then EmptyString
          else "Backend result schema mismatch at result.ok: envelope state mismatch."
      | _ => "Backend result schema mismatch at result: object validation failed."
      end
  | _ => "Backend result schema mismatch at response.ok: boolean required."
  end.

Definition _protected_backend_response_mismatch (response : dict) (raw_result : value) : string :=
  let envelope := _envelope_ok_state_mismatch response raw_result in
  if str_truthy envelope then envelope else
  match get "events" response with
  | VNone | VList [] => EmptyString
  | _ => "Backend result schema mismatch at events: protected events are forbidden."
  end.

Definition _gitea_backend_response_mismatch (response : dict) (raw_result : value) : string :=
  if (length response =? 2)%nat && dict_mem "ok" response && dict_mem "result" response
  then _protected_backend_response_mismatch response raw_result
  else "Backend result schema mismatch at response: unexpected property.".

Definition _staging_backend_response_mismatch := _protected_backend_response_mismatch.

Definition _dns_staging_response_mismatch (params : value) (response : dict) (raw_result : value) : string :=
  let mismatch := _protected_backend_response_mismatch response raw_result in
  let expected_commit := get_of "commit_sha" params in
  match raw_result with
  | VDict r =>
      if negb (str_truthy mismatch) && negb (py_eqb (get "commit_sha" r) expected_commit)
      then "Backend result schema mismatch at commit_sha." else mismatch
  | _ => mismatch
  end.

Definition _envelope_response_mismatch (params : value) (c : _ResponseContract) (response : dict)
    (raw_result : value) : string :=
  if is_gitea_upgrade c then _gitea_backend_response_mismatch response raw_result
  else if is_staging_rotation c then _staging_backend_response_mismatch response raw_result
  else if is_dns_staging_deploy c then _dns_staging_response_mismatch params response raw_result
  else if requires_envelope_state_match c then _envelope_ok_state_mismatch response raw_result
  else EmptyString.

Section Response.
Context `{PyLib} `{JsonSchema}.

(** The schema itself, or relaxed at the wide paths when there are any. *)
Definition validation_schema (schema : value) (limits : string_limits) : value :=
match limits, schema with
| _ :: _, VDict s => VDict (_relax_schema_string_lengths s limits)
| _, _ => schema
end.

Definition _backend_result_schema_mismatch (schema raw_result : value) (limits : string_limits) : string :=
if negb (truthy schema) then EmptyString else
match json_error (validation_schema schema limits) raw_result with
| None => EmptyString
| Some (parts, validator) =>
let path := str_join "." (map (str_take 64) parts) in
let location := if str_truthy path then "result." +:+ path else "result" in
let validator := str_take 64 (str_or (default EmptyString validator) "schema") in
str_take MAX_SCHEMA_MISMATCH_MESSAGE_LENGTH
  ("Backend result schema mismatch at " +:+ location +:+ ": " +:+ validator +:+ " validation failed.")
end.

Definition _response_schema_mismatch (ex : execution) (c : _ResponseContract) (response : dict)
(raw_result : value) (ledger_result : value) (limits : string_limits) (should_validate : bool) : string :=
let mismatch := _envelope_response_mismatch (ex_params ex) c response raw_result in
if negb should_validate || str_truthy mismatch then mismatch else
let mismatch := _backend_result_schema_mismatch (ex_result_schema ex) raw_result limits in
if str_truthy mismatch then mismatch
else _backend_result_schema_mismatch (ex_result_schema ex) ledger_result [].

Definition _backend_progress_event (item : dict) : DomainEvent :=
let raw_name := get_str "event" "BackendEventRecorded" item in
let backend_name := _BACKEND_EVENT_PREFIX +:+
from_text (_redact_bounded (codes raw_name) (take (100 - String.length _BACKEND_EVENT_PREFIX))) in
BackendEventRecorded backend_name
(match get "data" item with VDict d => d | _ => [] end)
(_event_level (get "level" item)) (get_str "message" EmptyString item).

Fixpoint record_progress (ex : execution) (items : list value) : res execution :=
match items with
| [] => Ok ex
| VDict item :: r => ex ← _append_and_project ex (_backend_progress_event item); record_progress ex r
| _ :: r => record_progress ex r
end.
Definition _record_backend_progress_events (ex : execution) (response : dict) : res execution :=
match get "events" response with
| VList l => record_progress ex (take MAX_BACKEND_EVENTS l)
| _ => Ok ex
end.

(** The terminal event of an outcome. *)
Definition terminal_event (o : _BackendOutcome) (mismatch : string) (finished_at : value) : DomainEvent :=
if o_ok o && negb (str_truthy mismatch) then ExecutionSucceeded (o_result o) finished_at
else
let '(code, msg) :=
if str_truthy mismatch then (RESULT_SCHEMA_MISMATCH_CODE, mismatch)
else if o_skip_result_validation o
then (o_error_code o, "Backend reported " +:+ o_error_code o +:+ ".")
else (o_error_code o, o_error_message o) in
ExecutionFailed (str_or (_bounded_event_message (VStr msg)) "RPC execution failed.")
(str_or code "RPC_EXECUTION_FAILED") finished_at
(if o_has_nested_result o && negb (str_truthy mismatch) then o_result o else []).
Definition _record_backend_terminal_event (ex : execution) (o : _BackendOutcome) (mismatch : string)
(finished_at : value) : res execution :=
_append_and_project ex (terminal_event o mismatch finished_at).

Definition prefix_limits (limits : string_limits) : string_limits :=
(fun l => ("result" :: l.1, l.2)) <$> limits.
Definition _ledger_result (r : dict) (limits : string_limits) : value :=
get "result" (redact_event_data (VDict [("result", VDict r)]) (prefix_limits limits)).

(** What is decided before anything is written: the outcome and the mismatch. *)
Definition assess (ex : execution) (response : dict) : res (_BackendOutcome * string) :=
let c := _response_contract (ex_procedure_name ex) in
let ok := truthy (get "ok" response) in
let raw_result := get "result" response in
let limits := _result_schema_string_limits (ex_result_schema ex) in
let persisted := match raw_result with VDict r => r | _ => [] end in
let ledger_result := _ledger_result persisted limits in
'(error_code, error_message) ← _backend_failure_fields response raw_result c;
let present := dict_mem "result" response in
let skip := _skips_result_validation (get "ok" response) present raw_result
          (get "error_code" response) (has_dedicated_validation c) in
let should_validate := negb skip && (ok || present || requires_envelope_state_match c) in
let mismatch :=
if skip then EmptyString
else _response_schema_mismatch ex c response raw_result ledger_result limits should_validate in
Ok ({| o_ok := ok; o_result := persisted; o_has_nested_result := is_dict raw_result;
   o_error_code := error_code; o_error_message := error_message;
   o_skip_result_validation := skip |}, mismatch).

Definition record_backend_response (ex : execution) (response : dict) (now : value) : res execution :=
'(outcome, mismatch) ← assess ex response;
let c := _response_contract (ex_procedure_name ex) in
ex ← (if negb (is_protected c) && negb (o_skip_result_validation outcome)
  then _record_backend_progress_events ex response else Ok ex);
_record_backend_terminal_event ex outcome mismatch now.
End Response.
