(* ===== verification/ResponseFacts.v ===== *)
(** * Facts about backend responses

    A response is recorded as success only if it says so, passes the envelope rule
    of its procedure, and both the raw result and the stored result satisfy the
    result schema; progress events never act as state transitions; a protected
    procedure and a catalog-coded failure add exactly one row. *)

From S2P Require Import Prelude PyValue Events Projection CredentialContract.
From S2P Require Import Spans SpanFacts MaskFacts PyRegex SecretPatterns TextRedaction.
From S2P Require Import ValueRedaction RedactionFacts SchemaLimits EventStore EventStoreFacts Response.

(** ** Progress events *)

Lemma backend_name_not_internal s : lookup_type (_BACKEND_EVENT_PREFIX +:+ s) EVENT_TYPES = None.
Proof. done. Qed.

Lemma progress_writable item : writable (_backend_progress_event item) = true.
Proof. done. Qed.

Section Facts.
Context `{PyLib} `{JsonSchema}.
Implicit Types ex : execution.

Lemma event_status_type e e' : type_of e = type_of e' -> event_status e = event_status e'.
Proof. by destruct e, e'. Qed.

(** The status after an append is that of the event, if it has one. *)
Lemma append_status ex e ex' :
  ledger_ok (ex_events ex) -> _append_and_project ex e = Ok ex' ->
  status (ex_cols ex') =
    from_option status_value (str_or (status (ex_cols ex)) (status_value QUEUED)) (event_status e).
Proof.
  intros Hl Ha. destruct (append_and_project_spec ex e ex' Hl Ha) as (red & Hd & ->).
  apply from_data_type in Hd. rewrite <- (event_status_type red e Hd).
  cbn [ex_cols with_ledger]. transitivity (status (apply (from_execution (ex_cols ex)) red)).
  - cbn. apply keep_equal_str.
  - by rewrite apply_status.
Qed.

Lemma append_ledger ex e ex' :
  ledger_ok (ex_events ex) -> _append_and_project ex e = Ok ex' ->
  ledger_ok (ex_events ex') /\
  exists r, ex_events ex' = ex_events ex ++ [r] /\ row_event r = event_name e /\
    ex_procedure_name ex' = ex_procedure_name ex /\ ex_result_schema ex' = ex_result_schema ex.
Proof.
  intros Hl Ha. destruct (append_and_project_spec ex e ex' Hl Ha) as (red & Hd & ->).
  cbn [ex_events with_ledger]. split; [by apply ledger_ok_snoc|].
  eexists. split_and!; [done| |done..]. apply persistable_name.
Qed.

Lemma record_progress_ok ex items ex' :
  ledger_ok (ex_events ex) -> record_progress ex items = Ok ex' ->
  ledger_ok (ex_events ex') /\
  ex_procedure_name ex' = ex_procedure_name ex /\ ex_result_schema ex' = ex_result_schema ex /\
  exists more, ex_events ex' = ex_events ex ++ more /\ (length more <= length items)%nat /\
    Forall (fun r => internal_name (row_event r) = false) more.
Proof.
  revert ex. induction items as [|v items IH]; intros ex Hl Hp; cbn [record_progress] in Hp.
  { injection Hp as <-. split_and!; [done..|]. exists []. rewrite app_nil_r. by split_and!. }
  assert (record_progress ex items = Ok ex' -> ledger_ok (ex_events ex') /\
    ex_procedure_name ex' = ex_procedure_name ex /\ ex_result_schema ex' = ex_result_schema ex /\
    exists more, ex_events ex' = ex_events ex ++ more /\ (length more <= S (length items))%nat /\
      Forall (fun r => internal_name (row_event r) = false) more) as Hskip.
  { intros Hs. destruct (IH ex Hl Hs) as (? & ? & ? & more & ? & ? & ?).
    split_and!; [done..|]. exists more. split_and!; [done|lia|done]. }
  destruct v as [| | | | | | | | | |item]; try (by apply Hskip).
  apply bind_Ok in Hp as (ex1 & Ha & Hp).
  destruct (append_ledger _ _ _ Hl Ha) as (Hl1 & r & Hr & Hn & Hpn & Hrs).
  destruct (IH ex1 Hl1 Hp) as (? & Hpn1 & Hrs1 & more & Hm & Hlen & Hint).
  split_and!; [done|congruence|congruence|]. exists (r :: more).
  rewrite Hm, Hr, <- app_assoc. split_and!; [done|cbn; lia|].
  constructor; [|done]. rewrite Hn. unfold internal_name. cbn [event_name _backend_progress_event].
  unfold str_or. cbn [str_truthy String.append _BACKEND_EVENT_PREFIX]. done.
Qed.

Lemma record_progress_consistent ex items ex' :
  consistent ex -> record_progress ex items = Ok ex' -> consistent ex'.
Proof.
  revert ex. induction items as [|v items IH]; intros ex Hc Hp; cbn [record_progress] in Hp.
  { by injection Hp as <-. }
  destruct v as [| | | | | | | | | |item]; try (by eapply IH).
  apply bind_Ok in Hp as (ex1 & Ha & Hp). eapply IH; [|exact Hp].
  by eapply append_and_project_consistent; [|apply progress_writable|].
Qed.

(** The steps of a recorded response. *)
Lemma record_backend_response_steps ex response now ex' :
  record_backend_response ex response now = Ok ex' ->
  exists o mismatch ex1, assess ex response = Ok (o, mismatch) /\
    (ex1 = ex \/
     (is_protected (_response_contract (ex_procedure_name ex)) = false /\
      o_skip_result_validation o = false /\
      exists items, (length items <= 50)%nat /\ record_progress ex items = Ok ex1)) /\
    _append_and_project ex1 (terminal_event o mismatch now) = Ok ex'.
Proof.
  unfold record_backend_response. intros Hr. apply bind_Ok in Hr as ([o mismatch] & Ha & Hr).
  apply bind_Ok in Hr as (ex1 & Hp & Ht). exists o, mismatch, ex1. split_and!; [done| |done].
  destruct (negb _ && negb _) eqn:E; [|injection Hp as <-; by left]. bool_inv.
  unfold _record_backend_progress_events in Hp.
  destruct (get "events" response); try (injection Hp as <-; by left).
  right. split_and!; [done..|]. eexists. split; [|exact Hp]. rewrite length_take. unfold MAX_BACKEND_EVENTS. lia.
Qed.

Lemma terminal_writable o mismatch now : writable (terminal_event o mismatch now) = true.
Proof. unfold terminal_event. repeat case_match; done. Qed.

Lemma record_backend_response_consistent ex response now ex' :
  consistent ex -> record_backend_response ex response now = Ok ex' -> consistent ex'.
Proof.
  intros Hc Hr. destruct (record_backend_response_steps _ _ _ _ Hr) as (o & m & ex1 & _ & Hp & Ht).
  eapply append_and_project_consistent; [|apply terminal_writable|exact Ht].
  destruct Hp as [->|(_ & _ & items & _ & Hp)]; [done|]. by eapply record_progress_consistent.
Qed.

Lemma terminal_status o mismatch now :
  event_status (terminal_event o mismatch now) =
  Some (if o_ok o && negb (str_truthy mismatch) then SUCCEEDED else FAILED).
Proof. unfold terminal_event. destruct (_ && _); [done|]. repeat case_match; done. Qed.
End Facts.

(** ** Success *)

#[local] Opaque redact_event_value redact_event_data.

Lemma str_take_truthy n s : 0 < n -> str_truthy s = true -> str_truthy (str_take n s) = true.
Proof.
  intros Hn Hs. unfold str_take. destruct (str_len s <=? n); [done|].
  destruct s as [|c s]; [done|]. destruct (Z.to_nat n) eqn:E; [lia|done].
Qed.

Lemma str_falsy s : str_truthy s = false -> s = EmptyString.
Proof. by destruct s. Qed.

Section Success.
Context `{PyLib} `{JsonSchema}.
Implicit Types ex : execution.

Lemma schema_mismatch_empty schema raw limits :
  str_truthy (_backend_result_schema_mismatch schema raw limits) = false -> truthy schema = true ->
  json_error (validation_schema schema limits) raw = None.
Proof.
  unfold _backend_result_schema_mismatch. intros Hm Hs. rewrite Hs in Hm. cbn [negb] in Hm.
  destruct (json_error _ raw) as [[parts validator]|]; [|done].
  rewrite str_take_truthy in Hm; [done|unfold MAX_SCHEMA_MISMATCH_MESSAGE_LENGTH; lia|done].
Qed.

Lemma ledger_result_redacted r limits :
  _ledger_result r limits = redact_event_value 32 (VDict r) "result" (prefix_limits limits) ["result"].
Proof.
  unfold _ledger_result. apply redact_data_get; [compute_done|cbn; lia|left|by vm_compute].
Qed.

Lemma redacted_dict r key limits path :
  guarded key = false -> exists d, redact_event_value 32 (VDict r) key limits path = VDict d.
Proof.
  intros Hg. rewrite redact_unguarded by done. unfold redact_body.
  destruct (mapping_window r). eauto.
Qed.

(** A recorded success stores exactly the result that was validated. *)
Lemma succeeded_stores ex r now ex' :
  ledger_ok (ex_events ex) -> _append_and_project ex (ExecutionSucceeded r now) = Ok ex' ->
  py_eq (VDict (result (ex_cols ex'))) (_ledger_result r (_result_schema_string_limits (ex_result_schema ex))).
Proof.
  intros Hl Ha. destruct (append_and_project_spec ex _ ex' Hl Ha) as (red & Hd & ->).
  set (limits := _result_schema_string_limits (ex_result_schema ex)).
  rewrite ledger_result_redacted.
  destruct (redacted_dict r "result" (prefix_limits limits) ["result"]) as [d Hr]; [by vm_compute|].
  assert (get "result" (row_data (event_row (ex_result_schema ex) (ExecutionSucceeded r now)
            (Z.of_nat (length (ex_events ex)) + 1))) = VDict d) as Hg.
  { rewrite <- Hr. cbn [row_data event_row make_row]. apply (redact_data_get (data (ExecutionSucceeded r now)));
      [compute_done|cbn; lia|right; left|by vm_compute]. }
  cbn [_persistable_failure_event type_of from_data] in Hd. res_inv. subst red.
  match goal with Hx : get_dict _ _ = Ok ?x |- _ => unfold get_dict in Hx; rewrite Hg in Hx;
    assert (x = d) as -> by (destruct d; cbn in Hx; congruence) end.
  rewrite Hr. cbn [ex_cols with_ledger].
  etrans; [apply (keep_equal_equiv VDict)|]. done.
Qed.

(** What a response must satisfy to be recorded as success. *)
Lemma assess_success ex response o :
  assess ex response = Ok (o, EmptyString) -> o_ok o = true ->
  let raw := get "result" response in
  let limits := _result_schema_string_limits (ex_result_schema ex) in
  truthy (get "ok" response) = true /\
  o_result o = (match raw with VDict r => r | _ => [] end) /\
  _envelope_response_mismatch (ex_params ex) (_response_contract (ex_procedure_name ex)) response raw
    = EmptyString /\
  str_truthy (_backend_result_schema_mismatch (ex_result_schema ex) raw limits) = false /\
  str_truthy (_backend_result_schema_mismatch (ex_result_schema ex) (_ledger_result (o_result o) limits) [])
    = false.
Proof.
  unfold assess. intros Ha Hok. apply bind_Ok in Ha as ([code msg] & _ & Ha).
  injection Ha as Ho Hm. subst o. cbn [o_ok o_result] in *.
  assert (_skips_result_validation (get "ok" response) (dict_mem "result" response) (get "result" response)
            (get "error_code" response)
            (has_dedicated_validation (_response_contract (ex_procedure_name ex))) = false) as Hs.
  { unfold _skips_result_validation. rewrite (bool_decide_false (get "ok" response = VBool false)).
    - by rewrite orb_true_r.
    - intros E. by rewrite E in Hok. }
  rewrite Hs, Hok in Hm. cbn [negb andb orb] in Hm. unfold _response_schema_mismatch in Hm.
  cbn [negb orb] in Hm.
  destruct (str_truthy (_envelope_response_mismatch _ _ _ _)) eqn:E1; [by rewrite Hm in E1|].
  destruct (str_truthy (_backend_result_schema_mismatch _ (get "result" response) _)) eqn:E2;
    [by rewrite Hm in E2|].
  split_and!; [done|done|by apply str_falsy|done|by rewrite Hm].
Qed.
End Success.

(** ** Recording never fails while writers are serialised *)

Section Total.
Context `{PyLib} `{JsonSchema}.
Implicit Types ex : execution.

Lemma redact_data_dict d limits k v :
  NoDup (keys d) -> (length d <= 100)%nat -> (k, VDict v) ∈ d ->
  _mapping_name_is_secret_bearing k = false -> guarded k = false ->
  exists x, get_dict k (redact_event_data (VDict d) limits) = Ok x.
Proof.
  intros Hn Hl Hin Hs Hg. unfold get_dict. rewrite (redact_data_get d limits k (VDict v)) by done.
  destruct (redacted_dict v k limits [k] Hg) as [x ->]. exists x. by destruct x.
Qed.

Lemma redact_data_int d limits k z dflt :
  NoDup (keys d) -> (length d <= 100)%nat -> (k, VInt z) ∈ d ->
  _mapping_name_is_secret_bearing k = false -> guarded k = false ->
  exists x, get_int k dflt (redact_event_data (VDict d) limits) = Ok x.
Proof.
  intros Hn Hl Hin Hs Hg. unfold get_int. rewrite (redact_data_get d limits k (VInt z)) by done.
  rewrite redact_unguarded by done. cbn [redact_body]. unfold py_or. cbn. destruct (negb _); by eexists.
Qed.

(** A dictionary field of the data, present or not, reads back as a dictionary. *)
Lemma redact_data_opt_dict d limits k v :
  NoDup (keys d) -> (length d <= 100)%nat -> d <> [] ->
  Forall (fun n => _mapping_name_is_secret_bearing n = false) (keys d) ->
  guarded k = false -> (k ∉ keys d) \/ (k, VDict v) ∈ d ->
  exists x, get_dict k (redact_event_data (VDict d) limits) = Ok x.
Proof.
  intros Hn Hl Hne Hc Hg [Hk|Hin].
  - unfold get_dict. rewrite redact_data_absent by done. by exists [].
  - eapply redact_data_dict; [done..| |done]. rewrite Forall_forall in Hc. apply Hc. by eapply elem_keys.
Qed.

(** Every event can be read back from the row it is stored as. *)
Lemma event_row_readable schema e sequence :
  exists r, from_data (type_of e) (row_data (event_row schema e sequence)) = Ok r.
Proof.
  cbn [row_data event_row make_row]. set (limits := event_limits schema e).
  destruct e; cbn [type_of from_data]; try (by eexists).
  - destruct (redact_data_opt_dict (data (ParametersNormalized normalized_params resolved_command_hash))
      limits "normalized_params" normalized_params) as [x Hx];
      [compute_done|cbn; lia|done|repeat constructor; by vm_compute|by vm_compute|right; right; left|].
    rewrite Hx. by eexists.
  - destruct (redact_data_opt_dict (data (ExecutionSucceeded result finished_at)) limits "result" result)
      as [x Hx]; [compute_done|cbn; lia|done|repeat constructor; by vm_compute|by vm_compute|right; right; left|].
    rewrite Hx. by eexists.
  - destruct (redact_data_opt_dict (data (ExecutionFailed error_message code finished_at result))
      limits "result" result) as [x Hx].
    + destruct result; compute_done.
    + destruct result; cbn; lia.
    + done.
    + destruct result; repeat constructor; by vm_compute.
    + by vm_compute.
    + destruct result; [left; compute_done|right; right; right; right; right; left].
    + rewrite Hx. by eexists.
  - assert (NoDup (keys (data (DispatchLeaseIssued nonce key_id key_version stream_version audience
      expires_at envelope_version)))) as Hnd by compute_done.
    destruct (redact_data_int _ limits "key_version" key_version 1 Hnd) as [x Hx];
      [cbn; lia|do 2 right; left|by vm_compute..|]. rewrite Hx.
    destruct (redact_data_int _ limits "stream_version" stream_version 0 Hnd) as [y Hy];
      [cbn; lia|do 3 right; left|by vm_compute..|].
    destruct (redact_data_int _ limits "envelope_version" envelope_version 1 Hnd) as [z Hz];
      [cbn; lia|do 6 right; left|by vm_compute..|].
    change (mbind ?f (Ok x)) with (f x). cbn beta. rewrite Hy.
    change (mbind ?f (Ok y)) with (f y). cbn beta. rewrite Hz. by eexists.
Qed.

Lemma append_total ex e : ledger_ok (ex_events ex) -> exists ex', _append_and_project ex e = Ok ex'.
Proof.
  intros Hl. unfold _append_and_project. cbn zeta. rewrite (append_unopposed _ _ _ _ _ _ Hl).
  change (mbind ?f (Ok ?x)) with (f x). cbn beta.
  destruct (event_row_readable (ex_result_schema ex) (_persistable_failure_event e)
    (Z.of_nat (length (ex_events ex)) + 1)) as [r Hr].
  change (make_row _ _ _ _ _ _) with (event_row (ex_result_schema ex) (_persistable_failure_event e)
    (Z.of_nat (length (ex_events ex)) + 1)).
  rewrite Hr. by eexists.
Qed.
End Total.

(** ** Envelope rule *)

Lemma protected_envelope response raw :
  _protected_backend_response_mismatch response raw = EmptyString ->
  _envelope_ok_state_mismatch response raw = EmptyString.
Proof.
  unfold _protected_backend_response_mismatch.
  destruct (str_truthy (_envelope_ok_state_mismatch response raw)) eqn:E; [done|].
  intros _. by apply str_falsy.
Qed.

Lemma envelope_required params c response raw :
  requires_envelope_state_match c = true ->
  _envelope_response_mismatch params c response raw = EmptyString ->
  _envelope_ok_state_mismatch response raw = EmptyString.
Proof.
  intros Hr. unfold _envelope_response_mismatch. rewrite Hr.
  destruct (is_gitea_upgrade c).
  { unfold _gitea_backend_response_mismatch. destruct (_ && _); [|done]. apply protected_envelope. }
  destruct (is_staging_rotation c); [apply protected_envelope|].
  destruct (is_dns_staging_deploy c); [|done].
  unfold _dns_staging_response_mismatch. cbn zeta.
  destruct raw; try apply protected_envelope.
  destruct (negb _ && negb _); [done|apply protected_envelope].
Qed.

Lemma envelope_ok_agrees response raw :
  _envelope_ok_state_mismatch response raw = EmptyString ->
  exists b r, get "ok" response = VBool b /\ raw = VDict r /\ get "ok" r = VBool b.
Proof.
  unfold _envelope_ok_state_mismatch. destruct (get "ok" response) as [|b| | | | | | | | |]; try done.
  destruct (negb _); [done|]. destruct raw as [| | | | | | | | | |r]; try done.
  case_bool_decide as E; [|done]. eauto.
Qed.

(** ** Steps of the store *)

Section Steps.
Context `{PyLib} `{JsonSchema}.
Implicit Types ex : execution.

(** One successful operation of the store on an execution. *)
Inductive store_step : execution -> execution -> Prop :=
  | step_queued ex ex' : record_execution_queued ex = Ok ex' -> store_step ex ex'
  | step_enqueued ex job ex' : record_execution_enqueued ex job = Ok ex' -> store_step ex ex'
  | step_running ex now ex' : mark_execution_running ex now = Ok ex' -> store_step ex ex'
  | step_lease ex nonce kid kv sv aud exp ev ex' :
      record_dispatch_lease_issued ex nonce kid kv sv aud exp ev = Ok ex' -> store_step ex ex'
  | step_failed ex msg code name now ex' : mark_execution_failed ex msg code name now = Ok ex' -> store_step ex ex'
  | step_normalized ex params hash ex' : record_execution_normalized ex params hash = Ok ex' -> store_step ex ex'
  | step_succeeded ex r now ex' : record_execution_succeeded ex r now = Ok ex' -> store_step ex ex'
  | step_cancelled ex user reason now ex' :
      record_execution_cancelled ex user reason now = Ok ex' -> store_step ex ex'
  | step_requested ex user ex' : record_execution_requested ex user = Ok ex' -> store_step ex ex'
  | step_approval ex hash exp user ex' : record_approval_requested ex hash exp user = Ok ex' -> store_step ex ex'
  | step_approved ex user hash reason now ex' :
      record_execution_approved ex user hash reason now = Ok ex' -> store_step ex ex'
  | step_rejected ex user reason now ex' :
      record_execution_rejected ex user reason now = Ok ex' -> store_step ex ex'
  | step_expired ex reason now ex' : record_execution_expired ex reason now = Ok ex' -> store_step ex ex'
  | step_response ex response now ex' : record_backend_response ex response now = Ok ex' -> store_step ex ex'
  | step_reproject ex ex' : reproject ex = Ok ex' -> store_step ex ex'.

(** An execution as it is created. *)
Definition fresh ex : Prop := ex_events ex = [] /\ ex_cols ex = initial.

Lemma fresh_consistent ex : fresh ex -> consistent ex.
Proof. intros [He Hc]. split; rewrite He; [apply ledger_ok_nil|]. exists []. by rewrite Hc. Qed.

Lemma reproject_consistent ex ex' : consistent ex -> reproject ex = Ok ex' -> consistent ex'.
Proof.
  intros Hc Hr. destruct (consistent_rebuild ex Hc) as (s & Hs & Heq).
  unfold reproject in Hr. rewrite Hs in Hr. injection Hr as <-.
  destruct Hc as (Hl & es & Hes & He). split; [done|]. exists es. split; [done|].
  etrans; [apply write_projection_equiv|]. etrans; [symmetry; exact Heq|exact He].
Qed.

Lemma store_step_consistent ex ex' : store_step ex ex' -> consistent ex -> consistent ex'.
Proof.
  destruct 1; intros Hc;
    try (by eapply append_and_project_consistent; [exact Hc| |eassumption]);
    [|by eapply record_backend_response_consistent|by eapply reproject_consistent].
  eapply append_and_project_consistent; [exact Hc| |eassumption]. by destruct (String.eqb _ _).
Qed.

(** Operations that append at least one event preserve the column invariant. *)
Lemma record_progress_code ex items ex' :
  ledger_ok (ex_events ex) -> record_progress ex items = Ok ex' ->
  code_ok (error_code (ex_cols ex)) -> code_ok (error_code (ex_cols ex')).
Proof.
  revert ex. induction items as [|v items IH]; intros ex Hl Hp Hc; cbn [record_progress] in Hp.
  { by injection Hp as <-. }
  destruct v as [| | | | | | | | | |item]; try (by apply (IH ex)).
  apply bind_Ok in Hp as (ex1 & Ha & Hp). destruct (append_ledger _ _ _ Hl Ha) as (Hl1 & _).
  eapply IH; [exact Hl1|exact Hp|]. exact (append_error_code _ _ _ Hl Ha Hc).
Qed.

Lemma store_step_code ex ex' :
  store_step ex ex' -> consistent ex -> code_ok (error_code (ex_cols ex)) ->
  code_ok (error_code (ex_cols ex')).
Proof.
  intros Hs Hc Hk. destruct Hc as (Hl & Hes).
  destruct Hs as [| | | | | | | | | | | | |ex response now ex' Hr|ex ex' Hr];
    try (by eapply append_error_code).
  - destruct (record_backend_response_steps _ _ _ _ Hr) as (o & m & ex1 & _ & Hp & Ht).
    assert (ledger_ok (ex_events ex1) /\ code_ok (error_code (ex_cols ex1))) as [Hl1 Hk1].
    { destruct Hp as [->|(_ & _ & items & _ & Hp)]; [done|]. split.
      - by apply record_progress_ok in Hp as (? & _).
      - exact (record_progress_code _ _ _ Hl Hp Hk). }
    exact (append_error_code _ _ _ Hl1 Ht Hk1).
  - destruct (consistent_rebuild ex (conj Hl Hes)) as (s & Hr' & Heq).
    unfold reproject in Hr. rewrite Hr' in Hr. injection Hr as <-. cbn [ex_cols with_ledger].
    change (code_ok (keep_equal VStr (error_code (ex_cols ex)) (error_code s))).
    rewrite keep_equal_str. apply ps_equiv_fields in Heq as (_ & _ & _ & <- & _). done.
Qed.
End Steps.

(** ** Failures *)

(** The characters of the fixed failure text around a catalog code. *)
Definition FAILURE_ALPHABET : text := (CATALOG_ALPHABET ++ codes "Backend reported .")%list.

Lemma failure_harmless : harmless FAILURE_ALPHABET = true.
Proof. by vm_compute. Qed.

Definition failure_text (code : string) : string := "Backend reported " +:+ code +:+ ".".

Lemma codes_app a b : codes (a +:+ b) = (codes a ++ codes b)%list.
Proof.
  unfold codes. induction a as [|c a IH]; [done|].
  change (String c a +:+ b) with (String c (a +:+ b)). cbn. f_equal. exact IH.
Qed.

Lemma failure_text_chars code :
  _is_catalog_error_code (VStr code) = true ->
  Forall (fun c => c ∈ FAILURE_ALPHABET) (codes (failure_text code)) /\
  (String.length (failure_text code) <= 118)%nat.
Proof.
  intros Hc. destruct (catalog_code_chars code Hc) as [Ha Hl]. unfold failure_text.
  rewrite !codes_app, !str_length_app. split; [|cbn; lia].
  assert (forall s, Forall (fun c => c ∈ codes "Backend reported .") (codes s) ->
    Forall (fun c => c ∈ FAILURE_ALPHABET) (codes s)) as Hf.
  { intros s Hs. eapply Forall_impl; [exact Hs|]. intros c Hc'. apply elem_of_app. by right. }
  rewrite !Forall_app. split_and!.
  - apply Hf. compute_done.
  - eapply Forall_impl; [exact Ha|]. intros c Hc'. apply elem_of_app. by left.
  - apply Hf. compute_done.
Qed.

Lemma keep_equal_nil cur : keep_equal VDict cur [] = [].
Proof.
  unfold keep_equal, py_eqb. case_bool_decide as E; [|done].
  unfold py_eq in E. cbn in E. injection E as E. unfold sort_keys in E.
  pose proof (merge_sort_Permutation key_le (map (fun kv : string * value => (kv.1, canon kv.2)) cur)) as Hp.
  rewrite E in Hp. apply Permutation_nil_l in Hp. by destruct cur.
Qed.

Section Failures.
Context `{PyLib} `{JsonSchema}.
Implicit Types ex : execution.

Lemma failure_message_kept code :
  _is_catalog_error_code (VStr code) = true ->
  _bounded_event_message (VStr (failure_text code)) = failure_text code.
Proof.
  intros Hc. destruct (failure_text_chars code Hc) as [Ha Hl].
  unfold _bounded_event_message. change (py_or (VStr (failure_text code)) (VStr EmptyString))
    with (VStr (failure_text code)). cbn [py_str].
  rewrite (harmless_unchanged FAILURE_ALPHABET); [apply from_text_codes|apply failure_harmless|done|].
  unfold message_bound. rewrite (proj2 (Nat.leb_le _ _)); [done|].
  rewrite codes_length. unfold MAX_EVENT_STRING_LENGTH. lia.
Qed.

(** The event a catalog-coded failure is recorded as. *)
Definition catalog_failure (code : string) (now : value) : DomainEvent :=
  ExecutionFailed (failure_text code) code now [].

Lemma assess_catalog_failure ex response code o m :
  has_dedicated_validation (_response_contract (ex_procedure_name ex)) = false ->
  get "ok" response = VBool false ->
  (dict_mem "result" response = false \/ get "result" response = VDict []) ->
  get "error_code" response = VStr code -> _is_catalog_error_code (VStr code) = true ->
  assess ex response = Ok (o, m) ->
  o_skip_result_validation o = true /\ m = EmptyString /\
  forall now, terminal_event o m now = catalog_failure code now.
Proof.
  intros Hd Hok Hres Hcode Hcat Ha. unfold assess in Ha. apply bind_Ok in Ha as ([c msg] & Hf & Ha).
  assert (_skips_result_validation (get "ok" response) (dict_mem "result" response) (get "result" response)
            (get "error_code" response)
            (has_dedicated_validation (_response_contract (ex_procedure_name ex))) = true) as Hs.
  { unfold _skips_result_validation. rewrite Hd, Hok, Hcode.
    rewrite (bool_decide_true (VBool false = VBool false)) by done. cbn [negb orb].
    destruct Hres as [->| ->]; [done|]. rewrite bool_decide_true by done. by rewrite andb_false_r. }
  injection Ha as <- Hm. rewrite Hs in Hm. subst m. cbn [o_skip_result_validation].
  split_and!; [done..|]. intros now. unfold terminal_event. cbn [o_ok o_error_code o_has_nested_result o_result].
  rewrite Hs, Hok. cbn [truthy andb negb str_truthy o_skip_result_validation o_error_message].
  assert (c = code) as ->.
  { unfold _backend_failure_fields in Hf. unfold has_dedicated_validation in Hd. bool_inv.
    match goal with Hg : is_gitea_upgrade _ = false |- _ => rewrite Hg in Hf end.
    injection Hf as <- _. unfold get_str. rewrite Hcode. unfold py_or. cbn [truthy].
    by rewrite (catalog_nonempty code Hcat). }
  change ("Backend reported " +:+ code +:+ ".") with (failure_text code).
  rewrite (failure_message_kept code Hcat). unfold str_or at 2. rewrite (catalog_nonempty code Hcat).
  unfold catalog_failure. f_equal.
  assert (forall b : bool, (if b then (match get "result" response with VDict r => r | _ => [] end) else []) = [])
    as Hb; [|apply Hb].
  intros []; [|done]. destruct Hres as [Hn|Hn]; [|by rewrite Hn].
  unfold get. rewrite (proj2 (dict_get_None "result" response)); [done|].
  unfold dict_mem in Hn. by apply bool_decide_eq_false in Hn.
Qed.

Lemma catalog_failure_columns ex code now ex' :
  ledger_ok (ex_events ex) -> _is_catalog_error_code (VStr code) = true ->
  _append_and_project ex (catalog_failure code now) = Ok ex' ->
  error_code (ex_cols ex') = code /\ error_message (ex_cols ex') = failure_text code /\
  result (ex_cols ex') = [].
Proof.
  intros Hl Hcat Ha. destruct (append_and_project_spec ex _ ex' Hl Ha) as (red & Hd & ->).
  assert (_persistable_failure_event (catalog_failure code now) = catalog_failure code now) as Hp.
  { unfold catalog_failure, _persistable_failure_event. by rewrite Hcat. }
  rewrite Hp in Hd. cbn [type_of catalog_failure from_data row_data event_row make_row] in Hd.
  set (d := data (catalog_failure code now)) in *. set (limits := event_limits _ _) in *.
  assert (NoDup (keys d)) as Hnd by compute_done.
  assert (get "code" (redact_event_data (VDict d) limits) = VStr code) as Hg.
  { apply (stored_code _ (catalog_failure code now) code); [done|by left| |done].
    unfold catalog_failure. cbn. unfold str_or. rewrite (catalog_nonempty code Hcat). right; left. }
  assert (get "error_message" (redact_event_data (VDict d) limits) = VStr (failure_text code)) as Hm.
  { destruct (failure_text_chars code Hcat) as [Hc Hlen].
    rewrite (redact_data_get d limits "error_message" (VStr (failure_text code)));
      [|done|cbn; lia|right; right; left|by vm_compute].
    apply (redact_scalar_id FAILURE_ALPHABET); [by vm_compute|apply failure_harmless|done|].
    unfold limits. cbn [event_limits catalog_failure]. rewrite limit_of_result by done.
    unfold MAX_EVENT_STRING_LENGTH. lia. }
  assert (get_dict "result" (redact_event_data (VDict d) limits) = Ok []) as Hrd.
  { unfold get_dict. rewrite redact_data_absent; [done|done|cbn; lia|done|..].
    - repeat constructor; by vm_compute.
    - compute_done. }
  rewrite Hrd in Hd. unfold mbind, result_bind in Hd. injection Hd as <-.
  rewrite (get_str_code _ _ _ Hg (catalog_nonempty code Hcat)).
  assert (get_str "error_message" "RPC execution failed." (redact_event_data (VDict d) limits)
          = failure_text code) as ->.
  { unfold get_str. by rewrite Hm. }
  cbn [ex_cols with_ledger].
  split_and!.
  - etrans; [apply keep_equal_str|]. cbn. unfold str_or. by rewrite (catalog_nonempty code Hcat).
  - etrans; [apply keep_equal_str|]. done.
  - apply keep_equal_nil.
Qed.

Lemma record_response_error ex response now e :
  ledger_ok (ex_events ex) -> record_backend_response ex response now = Err e ->
  e = TypeError /\ ex_procedure_name ex = GITEA_PRODUCTION_UPGRADE_1_27_1.
Proof.
  intros Hl Hr. unfold record_backend_response in Hr.
  destruct (assess ex response) as [[o m]|e'] eqn:Ha.
  - exfalso. change (mbind ?f (Ok (o, m))) with (f (o, m)) in Hr. cbn beta iota in Hr.
    assert (exists ex1, (if negb (is_protected (_response_contract (ex_procedure_name ex)))
               && negb (o_skip_result_validation o)
               then _record_backend_progress_events ex response else Ok ex) = Ok ex1 /\
               ledger_ok (ex_events ex1)) as (ex1 & He & Hl1).
    { destruct (_ && _); [|by exists ex]. unfold _record_backend_progress_events.
      destruct (get "events" response) as [| | | | | | |l| | |]; try (by exists ex).
      generalize (take MAX_BACKEND_EVENTS l). clear -Hl. intros items. revert ex Hl.
      induction items as [|v items IH]; intros ex Hl; cbn [record_progress]; [by exists ex|].
      destruct v as [| | | | | | | | | |item]; try (by apply IH).
      destruct (append_total ex (_backend_progress_event item) Hl) as [ex1 Ha].
      destruct (append_ledger _ _ _ Hl Ha) as (Hl1 & _). rewrite Ha. by apply IH. }
    rewrite He in Hr. cbn in Hr. unfold _record_backend_terminal_event in Hr.
    destruct (append_total ex1 (terminal_event o m now) Hl1) as [ex2 Hx]. by rewrite Hx in Hr.
  - cbn in Hr. injection Hr as ->. unfold assess in Ha.
    destruct (_backend_failure_fields response (get "result" response)
      (_response_contract (ex_procedure_name ex))) as [[? ?]|e'] eqn:Hf; [done|].
    cbn in Ha. injection Ha as ->. unfold _backend_failure_fields in Hf.
    destruct (is_gitea_upgrade _) eqn:Hg; [|done]. destruct (get "result" response); try done.
    unfold result_diagnostics in Hf. destruct (negb _); [|by destruct (List.find _ _)].
    injection Hf as <-. split; [done|]. cbn in Hg. by apply String.eqb_eq in Hg.
Qed.
End Failures.
