(* ===== verification/Aggregate.v ===== *)
(** * The execution aggregate

    [netbox_rpc/domain/aggregate.py], the guards on the life cycle of an execution,
    with the approval snapshot of [netbox_rpc/models.py] and [_transition_locked] of
    [netbox_rpc/application/command_handlers.py].

    The aggregate works on an object in memory, which may be older than the row it
    came from.  A [session] is the pair: the committed execution and the columns the
    object holds.  Events are always read from and written to the database; a save
    writes only the columns that changed in memory. *)

From S2P Require Import Prelude PyValue Events Projection CredentialContract.
From S2P Require Import Spans SpanFacts MaskFacts PyRegex SecretPatterns TextRedaction.
From S2P Require Import ValueRedaction RedactionFacts SchemaLimits EventStore EventStoreFacts.
From S2P Require Import Response ResponseFacts.

#[local] Opaque redact_event_value redact_event_data.

Definition TERMINAL_STATUSES : list ExecutionStatus :=
  [SUCCEEDED; FAILED; CANCELLED; REJECTED; EXPIRED].

Definition terminal (st : string) : bool := str_in st (status_value <$> TERMINAL_STATUSES).

(** ** The approval snapshot *)

Record RPCApprovalRequest := {
  procedure_id : Z;
  procedure_version : string;
  procedure_policy_sha256 : string;
  params_schema_sha256 : string;
  result_schema_sha256 : string;
  effect : string;
  target_type_id : Z;
  target_id : Z;
  target_snapshot_hash : string;
  sn_normalized_params : dict;
  command_fingerprint : dict;
  backend_id : value;
  backend_target_sha256 : string;
  credential_policy_ref : string;
  sn_requested_by_id : value;
  payload_hash : string;
}.

Definition PROTECTED_FIELDS : list string :=
  ["procedure_id"; "procedure_version"; "procedure_policy_sha256"; "params_schema_sha256";
   "result_schema_sha256"; "effect"; "target_type_id"; "target_id"; "target_snapshot_hash";
   "normalized_params"; "command_fingerprint"; "backend_id"; "backend_target_sha256";
   "credential_policy_ref"; "requested_by_id"].

Definition protected_payload (sn : RPCApprovalRequest) : dict :=
  [("procedure_id", VInt (procedure_id sn));
   ("procedure_version", VStr (procedure_version sn));
   ("procedure_policy_sha256", VStr (procedure_policy_sha256 sn));
   ("params_schema_sha256", VStr (params_schema_sha256 sn));
   ("result_schema_sha256", VStr (result_schema_sha256 sn));
   ("effect", VStr (effect sn));
   ("target_type_id", VInt (target_type_id sn));
   ("target_id", VInt (target_id sn));
   ("target_snapshot_hash", VStr (target_snapshot_hash sn));
   ("normalized_params", VDict (sn_normalized_params sn));
   ("command_fingerprint", VDict (command_fingerprint sn));
   ("backend_id", backend_id sn);
   ("backend_target_sha256", VStr (backend_target_sha256 sn));
   ("credential_policy_ref", VStr (credential_policy_ref sn));
   ("requested_by_id", sn_requested_by_id sn)].

Definition with_payload_hash (h : string) (sn : RPCApprovalRequest) : RPCApprovalRequest :=
  {| procedure_id := procedure_id sn; procedure_version := procedure_version sn;
     procedure_policy_sha256 := procedure_policy_sha256 sn;
     params_schema_sha256 := params_schema_sha256 sn;
     result_schema_sha256 := result_schema_sha256 sn; effect := effect sn;
     target_type_id := target_type_id sn; target_id := target_id sn;
     target_snapshot_hash := target_snapshot_hash sn;
     sn_normalized_params := sn_normalized_params sn;
     command_fingerprint := command_fingerprint sn; backend_id := backend_id sn;
     backend_target_sha256 := backend_target_sha256 sn;
     credential_policy_ref := credential_policy_ref sn;
     sn_requested_by_id := sn_requested_by_id sn; payload_hash := h |}.

Section Snapshot.
Context `{PyLib}.

Definition compute_approval_snapshot_hash (protected : dict) : string :=
  sha256 (json_dumps (VDict protected)).
Definition compute_hash (sn : RPCApprovalRequest) : string :=
  compute_approval_snapshot_hash (protected_payload sn).

(** [scoped] is built from a set of names; the hash sorts them again. *)
Definition matches_current (sn : RPCApprovalRequest) (current : dict) : bool :=
  let scoped := (fun k => (k, get k current)) <$> PROTECTED_FIELDS in
  str_truthy (payload_hash sn)
  && String.eqb (payload_hash sn) (compute_approval_snapshot_hash scoped).

(** [RPCApprovalRequest.save]; [adding] is [self._state.adding]. *)
Definition save (adding : bool) (sn : RPCApprovalRequest) : res RPCApprovalRequest :=
  if negb adding
  then Err (ValidationError EmptyString "RPCApprovalRequest rows are immutable.")
  else Ok (if str_truthy (payload_hash sn) then sn else with_payload_hash (compute_hash sn) sn).
End Snapshot.

(** ** Sessions *)

Record session := {
  committed : execution;
  held : ProjectionState;
}.

(** The object in memory. *)
Definition memory (s : session) : execution :=
  with_ledger (committed s) (held s) (ex_events (committed s)).

(** [save(update_fields=...)] after the object went from [old] to [new]. *)
Definition save_field {A} (inj : A -> value) (db old new : A) : A :=
  if py_eqb (inj old) (inj new) then db else new.
Definition save_columns (db old new : ProjectionState) : ProjectionState :=
  MkProjection
    (save_field VStr (status db) (status old) (status new))
    (save_field id (started_at db) (started_at old) (started_at new))
    (save_field id (finished_at db) (finished_at old) (finished_at new))
    (save_field VStr (error_code db) (error_code old) (error_code new))
    (save_field VStr (error_message db) (error_message old) (error_message new))
    (save_field VDict (result db) (result old) (result new))
    (save_field VDict (normalized_params db) (normalized_params old) (normalized_params new))
    (save_field VStr (resolved_command_hash db) (resolved_command_hash old) (resolved_command_hash new))
    (save_field id (job_id db) (job_id old) (job_id new))
    (save_field id (approved_by_id db) (approved_by_id old) (approved_by_id new)).

(** Run an operation of the aggregate on the object in memory. *)
Definition on_memory (op : execution -> res execution) (s : session) : res session :=
  ex' ← op (memory s);
  Ok {| committed := with_ledger (committed s)
                       (save_columns (ex_cols (committed s)) (held s) (ex_cols ex')) (ex_events ex');
        held := ex_cols ex' |}.

(** An object just read from its row, and [_transition_locked], which runs a
    transition on one. *)
Definition fetch (ex : execution) : session := {| committed := ex; held := ex_cols ex |}.
Definition _transition_locked (ex : execution) (transition : session -> res session) : res execution :=
  committed <$> transition (fetch ex).

Definition set_status (st : string) (c : ProjectionState) : ProjectionState :=
  MkProjection st (started_at c) (finished_at c) (error_code c) (error_message c) (result c)
    (normalized_params c) (resolved_command_hash c) (job_id c) (approved_by_id c).

Notation refuse := (fun m => Err (RPCExecutionAggregateError m)).

Section Aggregate.
Context `{PyLib} `{JsonSchema}.
Implicit Types ex : execution.

Definition has_status ex (st : ExecutionStatus) : bool :=
String.eqb (status (ex_cols ex)) (status_value st).
Definition has_events ex : bool := match ex_events ex with [] => false | _ => true end.

Definition _ensure_not_terminal ex : res unit :=
require (negb (terminal (status (ex_cols ex))))
(RPCExecutionAggregateError
   ("Cannot transition execution from terminal status "
      +:+ repr_str (status (ex_cols ex)) +:+ ".")).

Definition queue ex : res execution :=
if negb (has_status ex QUEUED) then refuse "Only a queued execution can be queued."
else if has_events ex then refuse "ExecutionQueued must be the first event in a stream."
else record_execution_queued ex.

Definition queue_after_approval ex : res execution :=
if negb (has_status ex APPROVED)
then refuse "Only an approved execution can be queued after approval."
else record_execution_queued ex.

Definition enqueue ex (job : value) : res execution :=
_ ← _ensure_not_terminal ex;
if negb (has_status ex QUEUED) then refuse "Only a queued execution can record job enqueue."
else record_execution_enqueued ex job.

Definition start ex (now : value) : res execution :=
_ ← _ensure_not_terminal ex;
if negb (has_status ex QUEUED) then refuse "Only a queued execution can start."
else mark_execution_running ex now.

Definition normalize ex (params : dict) (hash : string) : res execution :=
_ ← _ensure_not_terminal ex;
if negb (has_status ex RUNNING)
then refuse "Only a running execution can record normalized parameters."
else record_execution_normalized ex params hash.

Definition agg_record_backend_response ex (response : dict) (now : value) : res execution :=
_ ← _ensure_not_terminal ex;
if negb (has_status ex RUNNING)
then refuse "Only a running execution can record a backend response."
else record_backend_response ex response now.

Definition agg_record_dispatch_lease_issued ex (nonce key_id : string)
(key_version stream_version : Z) (audience : string) (expires_at : value)
(envelope_version : Z) : res execution :=
_ ← _ensure_not_terminal ex;
if negb (has_status ex RUNNING)
then refuse "Only a running execution can issue a dispatch lease."
else record_dispatch_lease_issued ex nonce key_id key_version stream_version audience
     expires_at envelope_version.

Definition succeed ex (r : dict) (now : value) : res execution :=
_ ← _ensure_not_terminal ex; record_execution_succeeded ex r now.

Definition fail ex (msg code : string) (now : value) : res execution :=
_ ← _ensure_not_terminal ex;
mark_execution_failed ex msg code (EVENT_NAME TExecutionFailed) now.

Definition cancel ex (user : value) (now : value) : res execution :=
if negb (has_status ex QUEUED || has_status ex PENDING_APPROVAL)
then refuse "Only a queued or pending-approval execution can be cancelled."
else record_execution_cancelled ex user EmptyString now.

Definition request ex (requested_by : value) : res execution :=
if has_events ex then refuse "ExecutionRequested must be the first event in a stream."
else record_execution_requested ex requested_by.

Definition request_approval ex (snapshot_hash : string) (expires_at requested_by : value)
: res execution :=
if negb (has_status ex REQUESTED)
then refuse "Only a requested execution can enter pending approval."
else if negb (str_truthy snapshot_hash)
then refuse "An approval snapshot hash is required to request approval."
else record_approval_requested ex snapshot_hash expires_at requested_by.

(** ** Decisions *)

Definition _require_snapshot (snap : option RPCApprovalRequest) : res RPCApprovalRequest :=
match snap with
| Some sn => Ok sn
| None => refuse "Execution has no approval request snapshot to decide."
end.

Definition unauthenticated : string :=
"An authenticated approver is required to decide an approval.".

Definition _require_distinct_actor (actor : value) (sn : RPCApprovalRequest) : res unit :=
match actor with
| VNone => refuse unauthenticated
| _ =>
  match sn_requested_by_id sn with
  | VNone => Ok tt
  | requester =>
      require (negb (String.eqb (py_str actor) (py_str requester)))
        (RPCExecutionAggregateError
           "The requester cannot approve or reject their own execution (segregation of duties).")
  end
end.

(** The row is locked and read again; its status is what the decision starts from. *)
Definition _decide_from_pending (s : session) (record : session -> res session) : res session :=
if negb (has_status (committed s) PENDING_APPROVAL)
then refuse ("Only a pending-approval execution can be decided (currently "
             +:+ repr_str (status (ex_cols (committed s))) +:+ ").")
else record {| committed := committed s;
             held := set_status (status (ex_cols (committed s))) (held s) |}.

Definition approve (s : session) (snap : option RPCApprovalRequest) (approver : value)
(allow_requester_approval : bool) (current_protected : option dict) (reason : string)
(queue_after : bool) (now : value) : res session :=
sn ← _require_snapshot snap;
_ ← (if negb allow_requester_approval then _require_distinct_actor approver sn
   else match approver with VNone => refuse unauthenticated | _ => Ok tt end);
_ ← (match current_protected with
   | Some current =>
       require (matches_current sn current)
         (RPCExecutionAggregateError
            "Approval snapshot no longer matches the current execution state; a new request is required.")
   | None => Ok tt
   end);
_decide_from_pending s (fun s =>
s ← on_memory (fun ex => record_execution_approved ex approver (payload_hash sn) reason now) s;
if queue_after then on_memory queue_after_approval s else Ok s).

Definition reject (s : session) (snap : option RPCApprovalRequest) (rejecter : value)
(reason : string) (now : value) : res session :=
sn ← _require_snapshot snap;
_ ← _require_distinct_actor rejecter sn;
_decide_from_pending s (on_memory (fun ex => record_execution_rejected ex rejecter reason now)).

Definition expire (s : session) (reason : string) (now : value) : res session :=
_decide_from_pending s (on_memory (fun ex => record_execution_expired ex reason now)).
End Aggregate.
