(* ===== verification/AggregateFacts.v ===== *)
(** * The life cycle of an execution

    The abstract specification of the aggregate: a small automaton over the classes of
    the events, the steps the aggregate can take on a committed execution, and the
    lemmas that relate the two. *)

From S2P Require Import Prelude PyValue Events Projection CredentialContract.
From S2P Require Import Spans SpanFacts MaskFacts PyRegex SecretPatterns TextRedaction.
From S2P Require Import ValueRedaction RedactionFacts SchemaLimits EventStore EventStoreFacts.
From S2P Require Import Response ResponseFacts Aggregate.

#[local] Opaque redact_event_value redact_event_data.

(** ** The specification *)

(** [Created] is a row without events; afterwards the phase is the status. *)
Inductive phase : Type :=
| Created
| At (st : ExecutionStatus).

#[export] Instance phase_eq_dec : EqDecision phase.
Proof. solve_decision. Defined.

Definition phase_status (p : phase) : ExecutionStatus :=
  match p with Created => QUEUED | At st => st end.

Definition final (p : phase) : bool :=
  match phase_status p with
  | SUCCEEDED | FAILED | CANCELLED | REJECTED | EXPIRED => true
  | _ => false
  end.

(** The phase an event leads to; [None] where it must not happen. *)
Definition next (p : phase) (t : event_type) : option phase :=
  match t, p with
  | TExecutionQueued, (Created | At APPROVED) => Some (At QUEUED)
  | TExecutionRequested, Created => Some (At REQUESTED)
  | TApprovalRequested, At REQUESTED => Some (At PENDING_APPROVAL)
  | TExecutionApproved, At PENDING_APPROVAL => Some (At APPROVED)
  | TExecutionRejected, At PENDING_APPROVAL => Some (At REJECTED)
  | TExecutionExpired, At PENDING_APPROVAL => Some (At EXPIRED)
  | TExecutionStarted, (Created | At QUEUED) => Some (At RUNNING)
  | TExecutionCancelled, (Created | At QUEUED | At PENDING_APPROVAL) => Some (At CANCELLED)
  | (TParametersNormalized | TDispatchLeaseIssued | TBackendEventRecorded), At RUNNING => Some p
  | TExecutionSucceeded, _ => if final p then None else Some (At SUCCEEDED)
  | TExecutionFailed, _ => if final p then None else Some (At FAILED)
  | TExecutionEnqueueFailed, (Created | At QUEUED) => Some (At FAILED)
  | TJobEnqueued, _ => Some (At (phase_status p))
  | _, _ => None
  end.

Fixpoint run_from (p : phase) (w : list event_type) : option phase :=
  match w with
  | [] => Some p
  | t :: w => q ← next p t; run_from q w
  end.
Definition lifecycle (w : list event_type) : option phase := run_from Created w.

Lemma run_from_app p w1 w2 : run_from p (w1 ++ w2) = (q ← run_from p w1; run_from q w2).
Proof.
  revert p. induction w1 as [|t w IH]; intros p; cbn; [done|].
  destruct (next p t); cbn; [apply IH|done].
Qed.

Lemma lifecycle_snoc w t : lifecycle (w ++ [t]) = (q ← lifecycle w; next q t).
Proof.
  unfold lifecycle. rewrite run_from_app. cbn. destruct (run_from Created w) as [q|]; cbn; [|done].
  by destruct (next q t).
Qed.

Lemma next_At p t q : next p t = Some q -> exists st, q = At st.
Proof. destruct t, p as [|[]]; cbn; intros [=]; subst; eauto. Qed.

Lemma lifecycle_Created w : lifecycle w = Some Created -> w = [].
Proof.
  destruct w as [|t w] using rev_ind; [done|]. rewrite lifecycle_snoc. intros Hl.
  destruct (lifecycle w) as [q|]; cbn in Hl; [|done]. by apply next_At in Hl as [st ?].
Qed.

(** The status of the phase is the status of the event, if it has one. *)
Lemma next_status p e q :
  next p (type_of e) = Some q -> q = At (default (phase_status p) (event_status e)).
Proof. destruct e, p as [|[]]; cbn; intros [=]; subst; done. Qed.

(** A decision: the events only a pending approval leads to. *)
Definition is_decision (t : event_type) : bool :=
  match t with TExecutionApproved | TExecutionRejected | TExecutionExpired => true | _ => false end.
Definition undecided (p : phase) : bool :=
  match p with Created | At REQUESTED | At PENDING_APPROVAL => true | _ => false end.

Lemma lifecycle_decisions w p :
  lifecycle w = Some p ->
  (length (List.filter is_decision w) <= if undecided p then 0 else 1)%nat.
Proof.
  revert p. induction w as [|t w IH] using rev_ind; intros p Hl.
  { injection Hl as <-. cbn. lia. }
  rewrite lifecycle_snoc in Hl. destruct (lifecycle w) as [q|]; cbn in Hl; [|done].
  specialize (IH q eq_refl). rewrite List.filter_app, length_app. cbn.
  destruct t, q as [|[]]; cbn in Hl; simplify_eq; cbn in *; lia.
Qed.

Lemma lifecycle_approved w :
  lifecycle w = Some (At APPROVED) -> exists a b, w = a ++ TExecutionApproved :: b.
Proof.
  induction w as [|t w IH] using rev_ind; [done|]. rewrite lifecycle_snoc. intros Hl.
  destruct (lifecycle w) as [q|]; cbn in Hl; [|done].
  destruct (decide (t = TExecutionApproved)) as [->|Ht]; [by exists w, []|].
  destruct t, q as [|[]]; cbn in Hl; simplify_eq.
  destruct (IH eq_refl) as (a & b & ->). exists a, (b ++ [TJobEnqueued]). by rewrite <- app_assoc.
Qed.

(** On the request path the queue is reached only through an approval. *)
Lemma lifecycle_queued w :
  head w = Some TExecutionRequested -> lifecycle w = Some (At QUEUED) ->
  exists a b c, w = a ++ TExecutionApproved :: b ++ TExecutionQueued :: c.
Proof.
  induction w as [|t w IH] using rev_ind; [done|]. rewrite lifecycle_snoc. intros Hh Hl.
  destruct (lifecycle w) as [q|] eqn:Hw; cbn in Hl; [|done].
  destruct w as [|t0 w]; [destruct t, q as [|[]]; cbn in Hh; simplify_eq|]. cbn in Hh.
  assert (q <> Created) by (intros ->; by apply lifecycle_Created in Hw).
  destruct t, q as [|[]]; cbn in Hl; simplify_eq.
  - destruct (lifecycle_approved _ Hw) as (a & b & Heq). exists a, b, [].
    rewrite Heq. by rewrite <- app_assoc.
  - destruct (IH eq_refl eq_refl) as (a & b & c & Heq). exists a, b, (c ++ [TJobEnqueued]).
    rewrite Heq. rewrite <- !app_assoc. cbn. by rewrite <- app_assoc.
Qed.

Lemma lifecycle_started pre post p :
  head (pre ++ TExecutionStarted :: post) = Some TExecutionRequested ->
  lifecycle (pre ++ TExecutionStarted :: post) = Some p ->
  exists a b c, pre = a ++ TExecutionApproved :: b ++ TExecutionQueued :: c.
Proof.
  intros Hh Hl. destruct pre as [|t0 pre]; [done|]. cbn in Hh.
  unfold lifecycle in Hl. rewrite run_from_app in Hl.
  destruct (run_from Created (t0 :: pre)) as [q|] eqn:Hp; cbn in Hl; [|done].
  assert (q <> Created) by (intros ->; by apply (lifecycle_Created (t0 :: pre)) in Hp).
  destruct q as [|[]]; cbn in Hl; try done. by apply lifecycle_queued.
Qed.

(** ** The classes of a ledger *)

Definition class_of (r : row) : event_type :=
  default TBackendEventRecorded (lookup_type (row_event r) EVENT_TYPES).
Definition classes (ex : execution) : list event_type := class_of <$> ex_events ex.

(** The ledger is a word of the specification and the status is its phase. *)
Definition in_phase (p : phase) (ex : execution) : Prop :=
  ledger_ok (ex_events ex) /\ lifecycle (classes ex) = Some p /\
  status (ex_cols ex) = status_value (phase_status p).

Lemma in_phase_ext p ex ex' :
  ex_events ex' = ex_events ex -> status (ex_cols ex') = status (ex_cols ex) ->
  in_phase p ex -> in_phase p ex'.
Proof. unfold in_phase, classes. by intros -> ->. Qed.

Lemma status_value_eqb st st' :
  String.eqb (status_value st) (status_value st') = bool_decide (st = st').
Proof. by destruct st, st'. Qed.
Lemma terminal_phase p : terminal (status_value (phase_status p)) = final p.
Proof. by destruct p as [|[]]. Qed.

(** ** Steps *)

Section Steps.
Context `{PyLib} `{JsonSchema}.
Implicit Types ex : execution.

(** Operations on an object that was just read, or that its holder keeps locked. *)
Inductive row_op : (execution -> res execution) -> Prop :=
  | op_queue : row_op queue
  | op_queue_after_approval : row_op queue_after_approval
  | op_start now : row_op (fun ex => start ex now)
  | op_normalize params hash : row_op (fun ex => normalize ex params hash)
  | op_response response now : row_op (fun ex => agg_record_backend_response ex response now)
  | op_lease nonce kid kv sv aud exp ev :
      row_op (fun ex => agg_record_dispatch_lease_issued ex nonce kid kv sv aud exp ev)
  | op_succeed r now : row_op (fun ex => succeed ex r now)
  | op_fail msg code now : row_op (fun ex => fail ex msg code now)
  | op_cancel user now : row_op (fun ex => cancel ex user now)
  | op_request user : row_op (fun ex => request ex user)
  | op_request_approval hash exp user : row_op (fun ex => request_approval ex hash exp user).

(** What the worker does between its claim and the end of the run, on the object it
    keeps without a lock. *)
Inductive worker_op : (execution -> res execution) -> Prop :=
  | wo_normalize params hash : worker_op (fun ex => normalize ex params hash)
  | wo_lease nonce kid kv sv aud exp ev :
      worker_op (fun ex => agg_record_dispatch_lease_issued ex nonce kid kv sv aud exp ev)
  | wo_response response now : worker_op (fun ex => agg_record_backend_response ex response now)
  | wo_succeed r now : worker_op (fun ex => succeed ex r now)
  | wo_fail msg code now : worker_op (fun ex => fail ex msg code now).

(** What the others do on a row they have just read under its lock. *)
Inductive locked_op : (execution -> res execution) -> Prop :=
  | lo_queue : locked_op queue
  | lo_queue_after_approval : locked_op queue_after_approval
  | lo_cancel user now : locked_op (fun ex => cancel ex user now)
  | lo_request user : locked_op (fun ex => request ex user)
  | lo_request_approval hash exp user : locked_op (fun ex => request_approval ex hash exp user).

(** Decisions, on whatever copy of the row the caller holds. *)
Inductive decision : (session -> res session) -> Prop :=
  | dec_approve snap approver allow current reason after now :
      decision (fun s => approve s snap approver allow current reason after now)
  | dec_reject snap rejecter reason now : decision (fun s => reject s snap rejecter reason now)
  | dec_expire reason now : decision (fun s => expire s reason now).

(** The requester's copy is still at [queued] when it records the job, although the
    worker may have gone on meanwhile.  The other columns of a worker's object may be
    older than the row; its status agrees with it. *)
Inductive agg_step : execution -> execution -> Prop :=
  | agg_row op ex s : row_op op -> on_memory op (fetch ex) = Ok s -> agg_step ex (committed s)
  | agg_worker op ex kept s :
      worker_op op -> status kept = status (ex_cols ex) ->
      on_memory op {| committed := ex; held := kept |} = Ok s -> agg_step ex (committed s)
  | agg_enqueue ex stale job s :
      on_memory (fun ex => enqueue ex job) {| committed := ex; held := stale |} = Ok s ->
      agg_step ex (committed s)
  | agg_decision d ex stale s :
      decision d -> d {| committed := ex; held := stale |} = Ok s -> agg_step ex (committed s).

(** The row of an execution together with the object its worker keeps from the claim
    on, whatever happens to the row meanwhile: nothing is assumed of its age. *)
Definition shared : Type := execution * option ProjectionState.
Inductive sys_step : shared -> shared -> Prop :=
  | sys_locked op ex w s :
      locked_op op -> on_memory op (fetch ex) = Ok s -> sys_step (ex, w) (committed s, w)
  | sys_fail_queued msg code now ex w s :
      has_status ex QUEUED = true -> on_memory (fun ex => fail ex msg code now) (fetch ex) = Ok s ->
      sys_step (ex, w) (committed s, w)
  | sys_decision d ex w stale s :
      decision d -> d {| committed := ex; held := stale |} = Ok s -> sys_step (ex, w) (committed s, w)
  | sys_enqueue ex w stale job s :
      on_memory (fun ex => enqueue ex job) {| committed := ex; held := stale |} = Ok s ->
      sys_step (ex, w) (committed s, w)
  | sys_claim now ex w s :
      on_memory (fun ex => start ex now) (fetch ex) = Ok s -> sys_step (ex, w) (committed s, Some (held s))
  | sys_worker op ex kept s :
      worker_op op -> on_memory op {| committed := ex; held := kept |} = Ok s ->
      sys_step (ex, Some kept) (committed s, Some (held s)).

Lemma worker_row_op op : worker_op op -> row_op op.
Proof. intros []; constructor. Qed.
Lemma locked_row_op op : locked_op op -> row_op op.
Proof. intros []; constructor. Qed.

Lemma fresh_in_phase ex : fresh ex -> in_phase Created ex.
Proof.
  intros [He Hc]. unfold in_phase, classes. rewrite He, Hc. split_and!; [apply ledger_ok_nil|done..].
Qed.

Lemma lookup_writable e : writable e = true ->
  default TBackendEventRecorded (lookup_type (event_name e) EVENT_TYPES) = type_of e.
Proof.
  destruct e; try done. cbn [writable type_of]. destruct (lookup_type _ _) as [[]|]; done.
Qed.

(** Recording an event the specification allows moves to the phase it says. *)
Lemma append_in_phase p q ex e ex' :
  in_phase p ex -> writable e = true -> next p (type_of e) = Some q ->
  _append_and_project ex e = Ok ex' -> in_phase q ex' /\ classes ex' = classes ex ++ [type_of e].
Proof.
  intros (Hl & Hw & Hs) Hwr Hn Ha.
  destruct (append_ledger _ _ _ Hl Ha) as (Hl' & r & He & Hr & _).
  assert (class_of r = type_of e) as Hc by (unfold class_of; rewrite Hr; by apply lookup_writable).
  assert (classes ex' = classes ex ++ [type_of e]) as Hcl.
  { unfold classes. by rewrite He, fmap_app, <- Hc. }
  split; [|done]. split_and!; [done| |].
  - rewrite Hcl, lifecycle_snoc, Hw. done.
  - rewrite (append_status _ _ _ Hl Ha), Hs. apply next_status in Hn as ->.
    destruct (event_status e); [done|]. by destruct (phase_status p).
Qed.

Lemma progress_in_phase ex items ex' :
  in_phase (At RUNNING) ex -> record_progress ex items = Ok ex' ->
  in_phase (At RUNNING) ex' /\ exists w, classes ex' = classes ex ++ w.
Proof.
  revert ex. induction items as [|v items IH]; intros ex Hi Hp; cbn [record_progress] in Hp.
  { injection Hp as <-. split; [done|]. exists []. by rewrite app_nil_r. }
  destruct v as [| | | | | | | | | |item]; try (by apply IH).
  apply bind_Ok in Hp as (ex1 & Ha & Hp).
  destruct (append_in_phase _ (At RUNNING) _ _ _ Hi (progress_writable item) eq_refl Ha) as [Hi1 Hc].
  destruct (IH ex1 Hi1 Hp) as (Hi2 & w & Hw). split; [done|].
  eexists. by rewrite Hw, Hc, <- app_assoc.
Qed.

Lemma terminal_event_next o m now : is_Some (next (At RUNNING) (type_of (terminal_event o m now))).
Proof.
  unfold terminal_event. destruct (o_ok o && negb (str_truthy m)); [by eexists|].
  destruct (str_truthy m); [by eexists|]. destruct (o_skip_result_validation o); by eexists.
Qed.

Lemma guard_status p ex st : in_phase p ex -> has_status ex st = bool_decide (phase_status p = st).
Proof. intros (_ & _ & Hs). unfold has_status. by rewrite Hs, status_value_eqb. Qed.

Lemma guard_terminal p ex u : in_phase p ex -> _ensure_not_terminal ex = Ok u -> final p = false.
Proof.
  intros (_ & _ & Hs) Hg. apply require_Ok in Hg. rewrite Hs, terminal_phase in Hg.
  by apply negb_true_iff in Hg.
Qed.

Lemma guard_events p ex : in_phase p ex -> has_events ex = false -> p = Created.
Proof.
  intros (_ & Hw & _). unfold has_events, classes in *.
  destruct (ex_events ex); [|done]. by injection Hw.
Qed.

(** What a step does on the specification's side. *)
Definition advances ex ex' : Prop :=
  exists q w, in_phase q ex' /\ classes ex' = classes ex ++ w.

Lemma append_advances p ex e ex' :
  in_phase p ex -> writable e = true -> is_Some (next p (type_of e)) ->
  _append_and_project ex e = Ok ex' -> advances ex ex'.
Proof. intros Hi Hw [q Hq] Ha. destruct (append_in_phase _ _ _ _ _ Hi Hw Hq Ha). by exists q, [type_of e]. Qed.

Lemma response_advances ex response now ex' :
  in_phase (At RUNNING) ex -> record_backend_response ex response now = Ok ex' ->
  advances ex ex'.
Proof.
  intros Hi Hr. destruct (record_backend_response_steps _ _ _ _ Hr) as (o & m & ex1 & _ & Hp & Ht).
  assert (in_phase (At RUNNING) ex1 /\ exists w, classes ex1 = classes ex ++ w) as (Hi1 & w & Hw).
  { destruct Hp as [->|(_ & _ & items & _ & Hp)].
    - split; [done|]. exists []. by rewrite app_nil_r.
    - by eapply progress_in_phase. }
  destruct (append_advances _ _ _ _ Hi1 (terminal_writable o m now) (terminal_event_next o m now) Ht)
    as (q & w' & Hq & Hc).
  exists q, (w ++ w'). split; [done|]. by rewrite Hc, Hw, <- app_assoc.
Qed.

Lemma row_op_advances op p ex ex' :
  row_op op -> in_phase p ex -> op ex = Ok ex' -> final p = false /\ advances ex ex'.
Proof.
  intros Hop Hi Ho.
  destruct Hop; cbv beta delta [queue queue_after_approval start normalize agg_record_backend_response
    agg_record_dispatch_lease_issued succeed fail cancel request request_approval] in Ho.
  all: repeat match type of Ho with
    | (_ ≫= _) = Ok _ => apply bind_Ok in Ho as (? & Hg & Ho)
    | (if ?b then _ else _) = Ok _ => destruct b eqn:?; [discriminate Ho|]
    end.
  all: try (apply (guard_terminal _ _ _ Hi) in Hg).
  all: repeat match goal with
    | Hs : context [has_status _ _] |- _ => rewrite !(guard_status _ _ _ Hi) in Hs
    | Hs : negb _ = false |- _ => apply negb_false_iff in Hs
    | Hs : bool_decide _ || bool_decide _ = true |- _ => apply orb_true_iff in Hs as [Hs|Hs]
    | Hs : bool_decide _ = true |- _ => apply bool_decide_eq_true in Hs
    | Hs : has_events _ = false |- _ => apply (guard_events _ _ Hi) in Hs as ->
    end.
  all: (split; [done || by destruct p as [|[]]|]).
  all: try (by apply response_advances with response now; [destruct p as [|[]]|]).
  all: (eapply append_advances; [exact Hi| | |exact Ho]); [done|first [by eexists|destruct p as [|[]]; try done; by eexists]].
Qed.

(** ** Sessions *)

Definition synced (s : session) : Prop := status (held s) = status (ex_cols (committed s)).

Lemma save_status db old new :
  status (save_columns db old new) = if String.eqb (status old) (status new) then status db else status new.
Proof.
  cbn. unfold save_field, py_eqb. destruct (String.eqb_spec (status old) (status new)) as [E|E].
  - rewrite bool_decide_true; [done|by apply py_eq_str].
  - rewrite bool_decide_false; [done|by rewrite py_eq_str].
Qed.

Lemma on_memory_synced op s s' :
  synced s -> on_memory op s = Ok s' ->
  exists ex', op (memory s) = Ok ex' /\ ex_events (committed s') = ex_events ex' /\
    status (ex_cols (committed s')) = status (ex_cols ex') /\ synced s'.
Proof.
  intros Hs Ho. unfold on_memory in Ho. apply bind_Ok in Ho as (ex' & Ho & Hx). injection Hx as <-.
  exists ex'. split; [done|]. split; [done|].
  assert (status (save_columns (ex_cols (committed s)) (held s) (ex_cols ex')) = status (ex_cols ex')) as E.
  { rewrite save_status, Hs. by destruct (String.eqb_spec (status (ex_cols (committed s))) (status (ex_cols ex'))). }
  split; [done|]. unfold synced. cbn [held committed with_ledger ex_cols]. done.
Qed.

Lemma memory_in_phase p s : synced s -> in_phase p (committed s) -> in_phase p (memory s).
Proof. intros Hs. by apply in_phase_ext. Qed.

Lemma synced_append p q s e s' :
  synced s -> in_phase p (committed s) -> writable e = true -> next p (type_of e) = Some q ->
  on_memory (fun ex => _append_and_project ex e) s = Ok s' ->
  synced s' /\ in_phase q (committed s') /\
  classes (committed s') = classes (committed s) ++ [type_of e].
Proof.
  intros Hs Hi Hw Hn Ho. destruct (on_memory_synced _ _ _ Hs Ho) as (ex' & Hop & He & Hst & Hs').
  destruct (append_in_phase p q (memory s) e ex' (memory_in_phase _ _ Hs Hi) Hw Hn Hop) as [Hq Hc].
  split; [done|]. split; [by apply (in_phase_ext q ex')|]. unfold classes in *. rewrite He. exact Hc.
Qed.

(** A decision starts from the committed status and needs it to be pending. *)
Lemma decide_pending p ex stale record s :
  in_phase p ex -> _decide_from_pending {| committed := ex; held := stale |} record = Ok s ->
  p = At PENDING_APPROVAL /\ exists s0, synced s0 /\ committed s0 = ex /\ record s0 = Ok s.
Proof.
  intros Hi Hd. unfold _decide_from_pending in Hd. cbn [committed held] in Hd.
  rewrite (guard_status _ _ _ Hi) in Hd. destruct (bool_decide _) eqn:E; [|done].
  apply bool_decide_eq_true in E. split; [by destruct p as [|[]]|].
  eexists. split; [|split; [|exact Hd]]; done.
Qed.

Lemma queue_after_append s s' :
  on_memory queue_after_approval s = Ok s' ->
  on_memory (fun ex => _append_and_project ex (ExecutionQueued (ex_requested_by_id (committed s)))) s = Ok s'.
Proof.
  unfold on_memory, queue_after_approval. intros Ho. apply bind_Ok in Ho as (ex' & Ho & Hx).
  destruct (negb _); [done|]. unfold record_execution_queued in Ho.
  apply bind_Ok. by exists ex'.
Qed.

(** A decision of the specification: one decision event, and the queue entry that
    may go with an approval. *)
Definition decides ex ex' : Prop :=
  exists q t w, in_phase q ex' /\ undecided q = false /\ is_decision t = true /\
    classes ex' = classes ex ++ t :: w /\ (w = [] \/ (t = TExecutionApproved /\ w = [TExecutionQueued])).

Lemma decision_append s0 e t s :
  synced s0 -> in_phase (At PENDING_APPROVAL) (committed s0) -> type_of e = t -> is_decision t = true ->
  on_memory (fun ex => _append_and_project ex e) s0 = Ok s -> decides (committed s0) (committed s).
Proof.
  intros Hs Hi Ht Hd Ho.
  assert (exists q, next (At PENDING_APPROVAL) (type_of e) = Some q /\ undecided q = false) as (q & Hq & Hu)
    by (rewrite Ht; destruct t; try done; by eexists).
  assert (writable e = true) as Hw by (rewrite <- Ht in Hd; by destruct e).
  destruct (synced_append _ _ _ _ _ Hs Hi Hw Hq Ho) as (_ & Hi' & Hc).
  exists q, t, []. rewrite Ht in Hc. split_and!; try done. by left.
Qed.

Lemma decision_decides d p ex stale s :
  in_phase p ex -> decision d -> d {| committed := ex; held := stale |} = Ok s ->
  p = At PENDING_APPROVAL /\ decides ex (committed s).
Proof.
  intros Hi Hd Ho. destruct Hd as [snap approver allow current reason queue_after now|snap rejecter reason now|reason now].
  - unfold approve in Ho. apply bind_Ok in Ho as (sn & _ & Ho). apply bind_Ok in Ho as (? & _ & Ho).
    apply bind_Ok in Ho as (? & _ & Ho). apply (decide_pending p) in Ho as (-> & s0 & Hs & <- & Ho); [|done].
    split; [done|]. apply bind_Ok in Ho as (s1 & Ho & Hq). destruct queue_after; [|injection Hq as <-].
    + destruct (synced_append (At PENDING_APPROVAL) (At APPROVED) _
        (ExecutionApproved approver (payload_hash sn) now reason) _ Hs Hi eq_refl eq_refl Ho) as (Hs1 & Hi1 & Hc1).
      apply queue_after_append in Hq.
      destruct (synced_append (At APPROVED) (At QUEUED) _
        (ExecutionQueued (ex_requested_by_id (committed s1))) _ Hs1 Hi1 eq_refl eq_refl Hq) as (_ & Hi2 & Hc2).
      exists (At QUEUED), TExecutionApproved, [TExecutionQueued]. split_and!; try done; [|by right].
      rewrite Hc2, Hc1. by rewrite <- app_assoc.
    + exact (decision_append s0 (ExecutionApproved approver (payload_hash sn) now reason) _ _ Hs Hi eq_refl eq_refl Ho).
  - unfold reject in Ho. apply bind_Ok in Ho as (sn & _ & Ho). apply bind_Ok in Ho as (? & _ & Ho).
    apply (decide_pending p) in Ho as (-> & s0 & Hs & <- & Ho); [|done]. split; [done|]. exact (decision_append s0 (ExecutionRejected rejecter now reason) _ _ Hs Hi eq_refl eq_refl Ho).
  - apply (decide_pending p) in Ho as (-> & s0 & Hs & <- & Ho); [|done]. split; [done|]. exact (decision_append s0 (ExecutionExpired now reason) _ _ Hs Hi eq_refl eq_refl Ho).
Qed.

(** Recording the job from an old copy changes no status. *)
Lemma stale_enqueue p ex stale job s :
  in_phase p ex -> on_memory (fun ex => enqueue ex job) {| committed := ex; held := stale |} = Ok s ->
  in_phase (At (phase_status p)) (committed s) /\ classes (committed s) = classes ex ++ [TJobEnqueued] /\
  status (ex_cols (committed s)) = status (ex_cols ex).
Proof.
  intros (Hl & Hw & Hs) Ho. unfold on_memory in Ho. apply bind_Ok in Ho as (ex' & Ho & Hx). injection Hx as <-.
  unfold enqueue in Ho. apply bind_Ok in Ho as (? & _ & Ho). destruct (negb _) eqn:Hg; [done|].
  apply negb_false_iff in Hg. unfold has_status in Hg. cbn in Hg. apply String.eqb_eq in Hg.
  pose proof (append_status (memory {| committed := ex; held := stale |}) (JobEnqueued job) _ Hl Ho) as Hst.
  cbn [memory with_ledger ex_cols held event_status from_option] in Hst. rewrite Hg in Hst.
  destruct (append_ledger (memory {| committed := ex; held := stale |}) (JobEnqueued job) _ Hl Ho) as (Hl' & r & He & Hr & _).
  cbn [memory with_ledger ex_events committed] in He.
  assert (ex_events ex' = ex_events ex ++ [r]) as He' by exact He. clear He.
  cbn [committed with_ledger ex_events ex_cols].
  assert (status (save_columns (ex_cols ex) stale (ex_cols ex')) = status (ex_cols ex)) as Hsame.
  { rewrite save_status, Hg, Hst. done. }
  assert (class_of r = TJobEnqueued) as Hc by (unfold class_of; by rewrite Hr).
  assert (class_of <$> ex_events ex' = classes ex ++ [TJobEnqueued]) as Hcl.
  { rewrite He', fmap_app, <- Hc. done. }
  split; [|split; [exact Hcl|exact Hsame]].
  split; [exact Hl'|]. split; [|by rewrite Hs in Hsame].
  unfold classes at 1. cbn [ex_events]. change (lifecycle (class_of <$> ex_events ex') = Some (At (phase_status p))).
  by rewrite Hcl, lifecycle_snoc, Hw.
Qed.

Lemma fetch_op op ex s :
  on_memory op (fetch ex) = Ok s ->
  exists ex', op ex = Ok ex' /\ ex_events (committed s) = ex_events ex' /\
    status (ex_cols (committed s)) = status (ex_cols ex').
Proof.
  intros Ho. destruct (on_memory_synced op (fetch ex) s eq_refl Ho) as (ex' & Hop & He & Hs & _).
  exists ex'. by destruct ex.
Qed.

(** Every step follows the specification; from a final phase only a late job record
    can be added, and the status stays. *)
Lemma agg_step_advances p ex ex' :
  in_phase p ex -> agg_step ex ex' ->
  advances ex ex' /\
  (final p = true -> status (ex_cols ex') = status (ex_cols ex) /\ classes ex' = classes ex ++ [TJobEnqueued]).
Proof.
  intros Hi Hs. destruct Hs as [op ex s Hop Ho|op ex kept s Hop Hk Ho|ex stale job s Ho|d ex stale s Hd Ho].
  2: { destruct (on_memory_synced op {| committed := ex; held := kept |} s Hk Ho) as (ex1 & H1 & He & Hst & _).
       destruct (row_op_advances _ _ _ _ (worker_row_op _ Hop) (memory_in_phase _ {| committed := ex; held := kept |} Hk Hi) H1)
         as [Hf (q & w & Hq & Hc)].
       split; [|congruence]. exists q, w. split; [by apply (in_phase_ext q ex1)|].
       unfold classes in *. by rewrite He. }
  - destruct (fetch_op _ _ _ Ho) as (ex1 & H1 & He & Hst).
    destruct (row_op_advances _ _ _ _ Hop Hi H1) as [Hf (q & w & Hq & Hc)].
    split; [|congruence]. exists q, w. split; [by apply (in_phase_ext q ex1)|].
    unfold classes in *. by rewrite He.
  - destruct (stale_enqueue _ _ _ _ _ Hi Ho) as (Hq & Hc & Hsame). split; [|done]. by eexists _, _.
  - destruct (decision_decides _ _ _ _ _ Hi Hd Ho) as (-> & q & t & w & Hq & _ & _ & Hc & _).
    split; [|done]. by eexists _, _.
Qed.

Lemma agg_reachable_phase ex ex' : fresh ex -> rtc agg_step ex ex' -> exists p, in_phase p ex'.
Proof.
  intros Hf Hr. assert (exists p, in_phase p ex) as Hp by (exists Created; by apply fresh_in_phase).
  clear Hf. induction Hr as [|x y z Hxy _ IH]; [done|]. apply IH. destruct Hp as [p Hp].
  destruct (agg_step_advances _ _ _ Hp Hxy) as [(q & w & Hq & _) _]. by exists q.
Qed.

(** ** The worker beside the others *)

(** From here on the row belongs to the worker. *)
Definition engaged (p : phase) : bool := match phase_status p with RUNNING => true | _ => final p end.

Lemma next_engaged p t q : engaged p = true -> next p t = Some q -> engaged q = true.
Proof. destruct t, p as [|[]]; cbn; intros He Hn; simplify_eq; done. Qed.
Lemma run_engaged p w q : engaged p = true -> run_from p w = Some q -> engaged q = true.
Proof.
  revert p. induction w as [|t w IH]; cbn; intros p He Hr; [by simplify_eq|].
  destruct (next p t) as [p'|] eqn:Hn; [|done]. exact (IH p' (next_engaged _ _ _ He Hn) Hr).
Qed.
Lemma advances_engaged p ex ex' q :
  in_phase p ex -> engaged p = true -> advances ex ex' -> in_phase q ex' -> engaged q = true.
Proof.
  intros (_ & Hl & _) He (q' & w & (_ & Hq' & _) & Hc) (_ & Hq & _).
  rewrite Hq' in Hq. injection Hq as ->. rewrite Hc in Hq'. unfold lifecycle in *.
  rewrite run_from_app, Hl in Hq'. by apply (run_engaged p w).
Qed.

(** The others find a row that belongs to a worker closed. *)
Lemma locked_disengaged op p ex ex' : locked_op op -> in_phase p ex -> op ex = Ok ex' -> engaged p = false.
Proof.
  intros Hop Hi Ho.
  destruct Hop; cbv beta delta [queue queue_after_approval cancel request request_approval] in Ho;
    rewrite ?(guard_status _ _ _ Hi) in Ho; try (destruct (has_events ex) eqn:Hev);
    try (apply (guard_events _ _ Hi) in Hev as ->); try done; destruct p as [|[]]; done.
Qed.

Lemma start_running p ex now ex' : in_phase p ex -> start ex now = Ok ex' -> in_phase (At RUNNING) ex'.
Proof.
  intros Hi Ho. unfold start in Ho. apply bind_Ok in Ho as (u & _ & Ho).
  rewrite (guard_status _ _ _ Hi) in Ho. destruct (bool_decide (phase_status p = QUEUED)) eqn:E; [|discriminate Ho].
  apply bool_decide_eq_true in E.
  apply (append_in_phase p (At RUNNING) ex (ExecutionStarted now) ex' Hi eq_refl); [by destruct p as [|[]]|exact Ho].
Qed.

(** Once a worker has claimed the execution, its object agrees with the row. *)
Definition kept_in_step (s : shared) : Prop :=
  exists p, in_phase p s.1 /\ forall kept, s.2 = Some kept -> status kept = status (ex_cols s.1) /\ engaged p = true.

Lemma sys_step_simulated s s' : kept_in_step s -> sys_step s s' -> agg_step s.1 s'.1 /\ kept_in_step s'.
Proof.
  intros (p & Hi & Hk) Hs. assert (agg_step s.1 s'.1) as Ha.
  { destruct Hs as [op ex w s Hop Ho|msg code now ex w s _ Ho|d ex w stale s Hd Ho|ex w stale job s Ho|now ex w s Ho
      |op ex kept s Hop Ho]; cbn [fst snd] in *.
    - exact (agg_row _ _ _ (locked_row_op _ Hop) Ho).
    - exact (agg_row _ _ _ (op_fail msg code now) Ho).
    - exact (agg_decision _ _ _ _ Hd Ho).
    - exact (agg_enqueue _ _ _ _ Ho).
    - exact (agg_row _ _ _ (op_start now) Ho).
    - exact (agg_worker _ _ _ _ Hop (proj1 (Hk _ eq_refl)) Ho). }
  split; [exact Ha|]. destruct (agg_step_advances _ _ _ Hi Ha) as [Hadv _].
  pose proof Hadv as (q & w' & Hq & _). exists q. split; [exact Hq|].
  destruct Hs as [op ex w s Hop Ho|msg code now ex w s Hst Ho|d ex w stale s Hd Ho|ex w stale job s Ho|now ex w s Ho
    |op ex kept s Hop Ho]; cbn [fst snd] in *; intros kept' Hw.
  - destruct (Hk _ Hw) as [_ He]. destruct (fetch_op _ _ _ Ho) as (ex1 & H1 & _).
    by rewrite (locked_disengaged _ _ _ _ Hop Hi H1) in He.
  - destruct (Hk _ Hw) as [_ He]. rewrite (guard_status _ _ _ Hi) in Hst. apply bool_decide_eq_true in Hst.
    unfold engaged, final in He. by rewrite Hst in He.
  - destruct (Hk _ Hw) as [_ He]. by destruct (decision_decides _ _ _ _ _ Hi Hd Ho) as [-> _].
  - destruct (Hk _ Hw) as [Hst He]. destruct (stale_enqueue _ _ _ _ _ Hi Ho) as (_ & _ & Hsame).
    split; [congruence|]. exact (advances_engaged _ _ _ _ Hi He Hadv Hq).
  - injection Hw as <-. destruct (on_memory_synced _ (fetch ex) _ eq_refl Ho) as (ex1 & H1 & _ & _ & Hsync).
    split; [exact Hsync|]. destruct (fetch_op _ _ _ Ho) as (ex2 & H2 & He & Hst).
    assert (in_phase (At RUNNING) (committed s)) as (_ & Hl & _)
      by (apply (in_phase_ext _ ex2 _ He Hst); exact (start_running _ _ _ _ Hi H2)).
    destruct Hq as (_ & Hlq & _). rewrite Hl in Hlq. injection Hlq as Hlq. by rewrite <- Hlq.
  - injection Hw as <-. destruct (Hk _ eq_refl) as [Hst He].
    destruct (on_memory_synced _ {| committed := ex; held := kept |} _ Hst Ho) as (ex1 & _ & _ & _ & Hsync).
    split; [exact Hsync|]. exact (advances_engaged _ _ _ _ Hi He Hadv Hq).
Qed.

Lemma sys_reachable s s' : kept_in_step s -> rtc sys_step s s' -> rtc agg_step s.1 s'.1 /\ kept_in_step s'.
Proof.
  intros Hk Hr. induction Hr as [|x y z Hxy _ IH]; [done|].
  destruct (sys_step_simulated _ _ Hk Hxy) as [Ha Hk']. destruct (IH Hk') as [Hrest Hz].
  split; [by eapply rtc_l|done].
Qed.
End Steps.
