(* ===== verification/StoreProperties.v ===== *)
(** * Properties of the event store

    The theorems about the ledger, the projection and backend responses, with their
    examples. *)

From S2P Require Import Prelude PyValue Events Projection CredentialContract.
From S2P Require Import Spans SpanFacts MaskFacts PyRegex SecretPatterns TextRedaction.
From S2P Require Import ValueRedaction RedactionFacts SchemaLimits EventStore EventStoreFacts.
From S2P Require Import Response ResponseFacts.

#[local] Opaque redact_event_value redact_event_data.

(** ** What the properties say of an execution *)

Section Specs.
Context `{PyLib} `{JsonSchema}.
Implicit Types ex : execution.

(** The ledger is gap-free, its fold is the live columns, and the error code column is
empty or a catalog code. *)
Definition event_sourced ex : Prop :=
exists s, rebuild_projection ex = Ok s /\ ps_equiv (ex_cols ex) s /\
ledger_ok (ex_events ex) /\ code_ok (error_code (ex_cols ex)).

(** What an append did to [rows] while [others] were committed in between. *)
Definition appended (rows : list row) (others : list (list row)) (out : list row * res row) : Prop :=
ledger_ok out.1 /\ rows `prefix_of` out.1 /\
match out.2 with
| Ok x => last out.1 = Some x /\ row_sequence x = Z.of_nat (length out.1)
| Err e => e = RPCEventStoreError /\ Forall (fun more => more <> []) (take 3 others)
         /\ (3 <= length others)%nat
end.

(** One row was added, named after the event, and the status is that of the event. *)
Definition recorded ex (e : DomainEvent) ex' : Prop :=
exists r, ex_events ex' = ex_events ex ++ [r] /\ row_event r = event_name e /\
status (ex_cols ex') =
  from_option status_value (str_or (status (ex_cols ex)) (status_value QUEUED)) (event_status e).

(** [checked] keeps every subschema of [schema] and every keyword of it, except a
[maxLength] at a path where a limit above 4096 is declared. *)
Definition only_wide_lifted (schema checked : value) : Prop :=
forall d path sub, schema = VDict d -> at_path d path sub ->
exists d' sub', checked = VDict d' /\ at_path d' path sub' /\
  (forall k, k ∉ structural_keys -> get k sub' = get k sub) /\
  (get "maxLength" sub' = get "maxLength" sub \/
   get "maxLength" sub' = VNone /\
   exists wide m, at_path d path wide /\ get "maxLength" wide = VInt m /\ 4096 < m).

(** The raw result passes the schema with at most its wide length limits lifted, and
the stored result passes the full schema. *)
Definition validated ex (response : dict) ex' : Prop :=
(exists checked, only_wide_lifted (ex_result_schema ex) checked /\ json_error checked (get "result" response) = None) /\
exists d, py_eq (VDict (result (ex_cols ex'))) (VDict d) /\
json_error (ex_result_schema ex) (VDict d) = None.

(** Both flags of an envelope are the boolean true. *)
Definition both_succeeded (response : dict) : Prop :=
get "ok" response = VBool true /\
exists r, get "result" response = VDict r /\ get "ok" r = VBool true.

(** The execution ended, with at most fifty neutral rows before the terminal one. *)
Definition ended ex ex' : Prop :=
(status (ex_cols ex') = status_value SUCCEEDED \/ status (ex_cols ex') = status_value FAILED) /\
exists more r, ex_events ex' = ex_events ex ++ more ++ [r] /\ (length more <= 50)%nat /\
Forall (fun p => internal_name (row_event p) = false) more /\
(is_protected (_response_contract (ex_procedure_name ex)) = true -> more = []).

(** The execution failed with a code and nothing of the backend but the code. *)
Definition failed_with (code : string) ex ex' : Prop :=
length (ex_events ex') = S (length (ex_events ex)) /\
status (ex_cols ex') = status_value FAILED /\ error_code (ex_cols ex') = code /\
error_message (ex_cols ex') = "Backend reported " +:+ code +:+ "." /\
result (ex_cols ex') = [].

(** The backend reports a failure by a catalog code alone. *)
Definition bare_failure (code : string) (response : dict) : Prop :=
get "ok" response = VBool false /\
(dict_mem "result" response = false \/ get "result" response = VDict []) /\
get "error_code" response = VStr code /\ _is_catalog_error_code (VStr code) = true.

(** A nested result whose stage cannot be hashed. *)
Definition unhashable_stage (response : dict) : Prop :=
exists r l, get "result" response = VDict r /\ get "stage" r = VList l.
End Specs.

Section Properties.
Context `{PyLib} `{JsonSchema}.
Implicit Types ex : execution.

(** C1: Event sourcing is sound: after any sequence of store operations on a new
    execution, folding the ledger succeeds and gives the values of the live columns
    (in the sense of Python equality), the ledger is numbered 1, 2, 3, ..., and the
    error code column is empty or a catalog code of at most 100 characters. *)
Theorem live_projection_is_ledger_fold ex ex' :
  fresh ex -> rtc store_step ex ex' -> event_sourced ex'.
Proof.
  intros Hf Hr.
  assert (consistent ex' /\ code_ok (error_code (ex_cols ex'))) as [Hc Hk].
  { assert (consistent ex /\ code_ok (error_code (ex_cols ex))) as Hstart.
    { split; [by apply fresh_consistent|]. destruct Hf as [_ ->]. by left. }
    clear Hf. induction Hr as [|x y z Hxy Hyz IH]; [done|]. apply IH.
    destruct Hstart. split; [by eapply store_step_consistent|by eapply store_step_code]. }
  destruct (consistent_rebuild ex' Hc) as (s & Hs & He). exists s. by destruct Hc.
Qed.

(** Appending an event under concurrent writers keeps the ledger gap-free and
    append-only: the new row is the last one and its sequence is its position, or
    the append raises after three lost races and adds nothing of its own. *)
Theorem append_gap_free level event message data limits rows others :
  ledger_ok rows -> writers_ok rows others ->
  appended rows others (append_execution_event level event message data limits rows others).
Proof.
  intros Hl Hw. unfold appended, append_execution_event.
  pose proof (append_loop_ok (make_row level event message data limits) (fun s => eq_refl) 3 rows others
    Hl Hw) as Ha.
  destruct (append_loop 3 _ _ rows others) as [rows' [x|e]].
  - destruct Ha as (? & ? & ? & ->). done.
  - destruct Ha as (? & ? & ? & ? & ?). done.
Qed.

(** Recording any domain event succeeds while the writers of the execution are
    serialised: every event reads back from its redacted row, exactly one row is
    added under the name of the event, and the status becomes that of the event. *)
Theorem append_and_project_total ex e :
  ledger_ok (ex_events ex) ->
  exists ex', _append_and_project ex e = Ok ex' /\ recorded ex e ex'.
Proof.
  intros Hl. destruct (append_total ex e Hl) as [ex' Ha].
  destruct (append_ledger ex e ex' Hl Ha) as (_ & r & Hr & Hn & _).
  exists ex'. split; [done|]. exists r. split_and!; [done..|]. by apply append_status.
Qed.

Lemma validation_only_wide schema :
  only_wide_lifted schema (validation_schema schema (_result_schema_string_limits schema)).
Proof.
  intros d path sub -> Hp. unfold validation_schema.
  destruct (_result_schema_string_limits (VDict d)) as [|l limits] eqn:E.
  { exists d, sub. split_and!; [done..|]. by left. }
  destruct (relax_only_wide_lengths d (l :: limits) path sub Hp) as (s' & Hs & Hk & Hm).
  eexists _, s'. split; [done|]. split; [done|]. split; [done|].
  destruct (in_limits path (l :: limits)) eqn:Hin; [right|by left]. split; [done|].
  apply existsb_exists in Hin as ([q n] & Hin & Hq). apply bool_decide_eq_true in Hq. cbn in Hq. subst q.
  apply list_elem_of_In in Hin. rewrite <- E in Hin.
  destruct (schema_limit_reserves_marker d path n Hin) as (w & m & Hw & Hwm & Hlt & _). by exists w, m.
Qed.

(** C37: A backend response is recorded as success only when it claims success and,
    for a procedure with a result schema, the raw result passes that schema with
    nothing lifted but the length limits above 4096 characters, and the redacted and truncated value that is
    stored in the result column passes the full schema. *)
Theorem success_is_validated ex response now ex' :
  ledger_ok (ex_events ex) -> record_backend_response ex response now = Ok ex' ->
  status (ex_cols ex') = status_value SUCCEEDED ->
  truthy (get "ok" response) = true /\
  (truthy (ex_result_schema ex) = true -> validated ex response ex').
Proof.
  intros Hl Hr Hs.
  destruct (record_backend_response_steps _ _ _ _ Hr) as (o & m & ex1 & Ha & Hp & Ht).
  assert (ledger_ok (ex_events ex1) /\ ex_result_schema ex1 = ex_result_schema ex) as [Hl1 Hsch].
  { destruct Hp as [->|(_ & _ & items & _ & Hp)]; [done|].
    by apply record_progress_ok in Hp as (? & _ & ? & _). }
  rewrite (append_status _ _ _ Hl1 Ht), terminal_status in Hs. cbn [from_option] in Hs.
  destruct (o_ok o && negb (str_truthy m)) eqn:E; [|done]. bool_inv.
  assert (m = EmptyString) as -> by (by apply str_falsy).
  destruct (assess_success ex response o Ha) as (Hok & Hres & _ & Hraw & Hled); [done|].
  split; [done|]. intros Hsc. cbn zeta in *. split.
  - eexists. split; [apply validation_only_wide|exact (schema_mismatch_empty _ _ _ Hraw Hsc)].
  - assert (terminal_event o EmptyString now = ExecutionSucceeded (o_result o) now) as Hte.
    { unfold terminal_event. by rewrite H1. }
    rewrite Hte in Ht. pose proof (succeeded_stores _ _ _ _ Hl1 Ht) as Hst. rewrite Hsch in Hst.
    apply (schema_mismatch_empty _ _ _) in Hled; [|done]. cbn in Hled.
    rewrite ledger_result_redacted in Hst, Hled.
    destruct (redacted_dict (o_result o) "result"
      (prefix_limits (_result_schema_string_limits (ex_result_schema ex))) ["result"]) as [d Hd];
      [by vm_compute|].
    rewrite Hd in Hst, Hled. by exists d.
Qed.

(** For a protected or installer procedure, an outer success around a failed
    nested result is never recorded as success: both flags must be the boolean
    true. *)
Theorem envelope_states_agree ex response now ex' :
  requires_envelope_state_match (_response_contract (ex_procedure_name ex)) = true ->
  ledger_ok (ex_events ex) -> record_backend_response ex response now = Ok ex' ->
  status (ex_cols ex') = status_value SUCCEEDED -> both_succeeded response.
Proof.
  intros Hreq Hl Hr Hs.
  destruct (record_backend_response_steps _ _ _ _ Hr) as (o & m & ex1 & Ha & Hp & Ht).
  assert (ledger_ok (ex_events ex1)) as Hl1.
  { destruct Hp as [->|(_ & _ & items & _ & Hp)]; [done|]. by apply record_progress_ok in Hp as (? & _). }
  rewrite (append_status _ _ _ Hl1 Ht), terminal_status in Hs. cbn [from_option] in Hs.
  destruct (o_ok o && negb (str_truthy m)) eqn:E; [|done]. bool_inv.
  assert (m = EmptyString) as -> by (by apply str_falsy).
  destruct (assess_success ex response o Ha) as (Hok & _ & Henv & _); [done|].
  apply (envelope_required _ _ _ _ Hreq), envelope_ok_agrees in Henv as (b & r & Hb & Hraw & Hn).
  rewrite Hb in Hok. cbn in Hok. subst b. unfold both_succeeded. eauto.
Qed.

(** Recording a backend response always ends the execution as succeeded or
    failed and adds at most fifty progress rows, none of which carries the name of a
    state transition, before its one terminal row; a protected procedure gets the
    terminal row only.  The one response that cannot be recorded is a Gitea upgrade
    whose result state is not hashable. *)
Theorem response_is_terminal ex response now :
  ledger_ok (ex_events ex) ->
  match record_backend_response ex response now with
  | Ok ex' => ended ex ex'
  | Err e => e = TypeError /\ ex_procedure_name ex = GITEA_PRODUCTION_UPGRADE_1_27_1
  end.
Proof.
  intros Hl. destruct (record_backend_response ex response now) as [ex'|e] eqn:Hr.
  - destruct (record_backend_response_steps _ _ _ _ Hr) as (o & m & ex1 & Ha & Hp & Ht).
    assert (exists more, ex_events ex1 = ex_events ex ++ more /\ ledger_ok (ex_events ex1) /\
      (length more <= 50)%nat /\ Forall (fun p => internal_name (row_event p) = false) more /\
      (is_protected (_response_contract (ex_procedure_name ex)) = true -> more = []))
      as (more & Hev & Hl1 & Hlen & Hint & Hprot).
    { destruct Hp as [->|(Hnp & _ & items & Hitems & Hp)].
      - exists []. rewrite app_nil_r. split_and!; [done..|cbn; lia|constructor|done].
      - apply record_progress_ok in Hp as (? & _ & _ & more & ? & ? & ?); [|done].
        exists more. split_and!; [done..|lia|done|congruence]. }
    split.
    + rewrite (append_status _ _ _ Hl1 Ht), terminal_status. cbn.
      destruct (o_ok o && negb (str_truthy m)); auto.
    + destruct (append_ledger _ _ _ Hl1 Ht) as (_ & r & Hrr & _).
      exists more, r. rewrite Hrr, Hev, <- app_assoc. done.
  - by apply (record_response_error ex response now).
Qed.

(** A failure that carries a catalog code and no result content keeps exactly
    that code: one row is added, the code column holds the backend code, and the
    message column holds the fixed text around the code, so no free text of the
    backend is stored. *)
Theorem catalog_failure_keeps_code ex response code now ex' :
  ledger_ok (ex_events ex) ->
  has_dedicated_validation (_response_contract (ex_procedure_name ex)) = false ->
  bare_failure code response -> record_backend_response ex response now = Ok ex' ->
  failed_with code ex ex'.
Proof.
  intros Hl Hd (Hok & Hres & Hcode & Hcat) Hr.
  destruct (record_backend_response_steps _ _ _ _ Hr) as (o & m & ex1 & Ha & Hp & Ht).
  destruct (assess_catalog_failure ex response code o m Hd Hok Hres Hcode Hcat Ha) as (Hskip & -> & Hte).
  assert (ex1 = ex) as -> by (destruct Hp as [?|(_ & Hs & _)]; [done|congruence]).
  rewrite Hte in Ht.
  destruct (append_ledger _ _ _ Hl Ht) as (_ & r & Hev & _).
  split; [by rewrite Hev, length_app, Nat.add_comm|].
  split; [by rewrite (append_status _ _ _ Hl Ht)|].
  by apply (catalog_failure_columns ex code now).
Qed.
End Properties.

Section Finding.
Context `{PyLib} `{JsonSchema}.

(** The diagnostics of a Gitea upgrade are looked up before the result is
    validated, so a result whose stage is a list makes recording raise a type error
    instead of recording a schema mismatch. *)
Theorem gitea_unhashable_stage_raises ex response now :
  ex_procedure_name ex = GITEA_PRODUCTION_UPGRADE_1_27_1 -> unhashable_stage response ->
  record_backend_response ex response now = Err TypeError.
Proof.
  intros Hn (r & l & Hr & Hs). unfold record_backend_response, assess. rewrite Hn, Hr.
  unfold _backend_failure_fields. cbn [is_gitea_upgrade _response_contract].
  unfold result_diagnostics. rewrite Hs. cbn [forallb hashable].
  rewrite !andb_false_r. done.
Qed.
End Finding.

#[local] Transparent redact_event_value redact_event_data.

Section Witnesses.
Import MiniSchema Demo.

Definition demo_execution (name : string) (schema : value) : execution :=
  {| ex_pk := 7; ex_procedure_name := name; ex_result_schema := schema; ex_params := VDict [];
     ex_requested_by_id := VInt 3; ex_cols := initial; ex_events := [] |}.
Definition demo_now : value := VDatetime "2026-01-02T03:04:05+00:00".
Definition install : string := "os.linux.debian.13.install_akvorado".
Definition ok_response : dict :=
  [("ok", VBool true); ("result", VDict [("ok", VBool true); ("log", VStr "done")])].
Definition failed_response : dict :=
  [("ok", VBool false); ("error_code", VStr "RPC_SSH_UNREACHABLE");
   ("error_message", VStr "password=hunter2")].

(** The execution after a response, for computing with. *)
Definition after (r : res execution) (ex : execution) : execution :=
  match r with Ok ex' => ex' | Err _ => ex end.
Definition started (name : string) (schema : value) : execution :=
  after (mark_execution_running (demo_execution name schema) demo_now) (demo_execution name schema).
Definition finished (name : string) (schema : value) (response : dict) : execution :=
  after (record_backend_response (started name schema) response demo_now) (started name schema).

Lemma demo_ledger_ok name schema : ledger_ok (ex_events (demo_execution name schema)).
Proof. apply ledger_ok_nil. Defined.

Lemma live_projection_is_ledger_fold_witness :
  exists s, rebuild_projection (finished install (VDict demo_schema) ok_response) = Ok s /\
    status s = "succeeded".
Proof.
  destruct (live_projection_is_ledger_fold (demo_execution install (VDict demo_schema))
    (finished install (VDict demo_schema) ok_response)) as (s & Hs & He & _).
  { split; reflexivity. }
  { eapply rtc_l; [eapply step_running with (now := demo_now); vm_compute; reflexivity|].
    eapply rtc_l; [eapply step_response with (response := ok_response) (now := demo_now); vm_compute; reflexivity|].
    apply rtc_refl. }
  exists s. split; [exact Hs|]. apply ps_equiv_fields in He as [He _]. rewrite <- He. vm_compute. reflexivity.
Defined.

Lemma append_gap_free_witness :
  let other := make_row "info" "Backend::x" "m" [] [] 1 in
  ledger_ok (append_execution_event "info" "Backend::y" "m" [] [] [] [[other]]).1.
Proof.
  cbn zeta. set (other := make_row _ _ _ _ _ _).
  assert (ledger_ok [other]) as Ho.
  { intros [|i] r Hr; [injection Hr as <-; reflexivity|done]. }
  pose proof (append_gap_free "info" "Backend::y" "m" [] [] [] [[other]] ledger_ok_nil (conj Ho I)) as Ha.
  exact (proj1 Ha).
Defined.

Lemma append_and_project_total_witness :
  exists ex', _append_and_project (demo_execution install VNone) (JobEnqueued (VStr "j")) = Ok ex' /\
    recorded (demo_execution install VNone) (JobEnqueued (VStr "j")) ex'.
Proof.
  exact (append_and_project_total (demo_execution install VNone) (JobEnqueued (VStr "j")) (demo_ledger_ok _ _)).
Defined.

Definition demo_installed : execution := demo_execution install (VDict demo_schema).
Definition demo_success : execution :=
  after (record_backend_response demo_installed ok_response demo_now) demo_installed.
Lemma demo_recorded : record_backend_response demo_installed ok_response demo_now = Ok demo_success.
Proof. vm_compute. reflexivity. Defined.
Lemma demo_succeeded : status (ex_cols demo_success) = status_value SUCCEEDED.
Proof. vm_compute. reflexivity. Defined.

Lemma success_is_validated_witness :
  truthy (get "ok" ok_response) = true /\ validated demo_installed ok_response demo_success.
Proof.
  destruct (success_is_validated demo_installed ok_response demo_now demo_success
    (demo_ledger_ok _ _) demo_recorded demo_succeeded) as [Hok Hv].
  split; [exact Hok|]. apply Hv. vm_compute. reflexivity.
Defined.

Lemma envelope_states_agree_witness :
  exists r, get "result" ok_response = VDict r /\ get "ok" r = VBool true.
Proof.
  assert (requires_envelope_state_match (_response_contract (ex_procedure_name demo_installed)) = true)
    as Hc by (vm_compute; reflexivity).
  exact (proj2 (envelope_states_agree demo_installed ok_response demo_now demo_success
    Hc (demo_ledger_ok _ _) demo_recorded demo_succeeded)).
Defined.

Lemma response_is_terminal_witness :
  match record_backend_response (demo_execution install VNone) failed_response demo_now with
  | Ok ex' => status (ex_cols ex') = status_value SUCCEEDED \/ status (ex_cols ex') = status_value FAILED
  | Err _ => False
  end.
Proof.
  pose proof (response_is_terminal (demo_execution install VNone) failed_response demo_now
    (demo_ledger_ok _ _)) as Hr.
  destruct (record_backend_response _ _ _) as [ex'|e]; [exact (proj1 Hr)|].
  destruct Hr as [_ Hn]. discriminate Hn.
Defined.

Definition demo_failed : execution :=
  after (record_backend_response (demo_execution install VNone) failed_response demo_now)
    (demo_execution install VNone).
Lemma demo_failure_recorded :
  record_backend_response (demo_execution install VNone) failed_response demo_now = Ok demo_failed.
Proof. vm_compute. reflexivity. Defined.

Lemma catalog_failure_keeps_code_witness :
  error_message (ex_cols demo_failed) = "Backend reported RPC_SSH_UNREACHABLE.".
Proof.
  assert (has_dedicated_validation (_response_contract install) = false) as Hd by (vm_compute; reflexivity).
  assert (dict_mem "result" failed_response = false) as Hm by (vm_compute; reflexivity).
  assert (_is_catalog_error_code (VStr "RPC_SSH_UNREACHABLE") = true) as Hc by (vm_compute; reflexivity).
  exact (proj1 (proj2 (proj2 (proj2 (catalog_failure_keeps_code (demo_execution install VNone)
    failed_response "RPC_SSH_UNREACHABLE" demo_now demo_failed (demo_ledger_ok _ _) Hd
    (conj eq_refl (conj (or_introl Hm) (conj eq_refl Hc))) demo_failure_recorded))))).
Defined.

Lemma gitea_unhashable_stage_raises_witness :
  record_backend_response (demo_execution GITEA_PRODUCTION_UPGRADE_1_27_1 VNone)
    [("ok", VBool true); ("result", VDict [("stage", VList [])])] demo_now = Err TypeError.
Proof.
  exact (gitea_unhashable_stage_raises (demo_execution GITEA_PRODUCTION_UPGRADE_1_27_1 VNone)
    [("ok", VBool true); ("result", VDict [("stage", VList [])])] demo_now eq_refl
    (ex_intro _ _ (ex_intro _ _ (conj eq_refl eq_refl)))).
Defined.
End Witnesses.
