(* ===== verification/AggregateProperties.v ===== *)
(** * Properties of the execution aggregate

    The theorems about the life cycle of an execution, with their examples. *)

From S2P Require Import Prelude PyValue Events Projection CredentialContract.
From S2P Require Import Spans SpanFacts MaskFacts PyRegex SecretPatterns TextRedaction.
From S2P Require Import ValueRedaction RedactionFacts SchemaLimits EventStore EventStoreFacts.
From S2P Require Import Response ResponseFacts StoreProperties Aggregate AggregateFacts.

#[local] Opaque redact_event_value redact_event_data.

(** ** What the properties say of an execution *)

Section Specs.
Context `{PyLib} `{JsonSchema}.
Implicit Types ex : execution.

(** The ledger is a gap-free word of the life cycle and the status is its phase. *)
Definition follows_lifecycle ex : Prop :=
exists p, lifecycle (classes ex) = Some p /\
  status (ex_cols ex) = status_value (phase_status p) /\ ledger_ok (ex_events ex).

(** Nothing but the late record of the job was added. *)
Definition only_job_recorded ex ex' : Prop :=
status (ex_cols ex') = status (ex_cols ex) /\ classes ex' = classes ex ++ [TJobEnqueued].

Definition decisions ex : nat := length (List.filter is_decision (classes ex)).

(** Every decision is refused, from a copy of any age. *)
Definition decisions_closed ex : Prop :=
forall d stale, decision d ->
exists m, d {| committed := ex; held := stale |} = Err (RPCExecutionAggregateError m).

(** An approval, and later a queue event. *)
Definition approved_then_queued (w : list event_type) : Prop :=
exists a b c, w = a ++ TExecutionApproved :: b ++ TExecutionQueued :: c.

(** The first transition succeeds and brings the status; the second is then refused. *)
Definition wins ex (first : session -> res session) (st : ExecutionStatus)
  (second : session -> res session) : Prop :=
exists ex1 m, _transition_locked ex first = Ok ex1 /\ status (ex_cols ex1) = status_value st /\
  _transition_locked ex1 second = Err (RPCExecutionAggregateError m).

(** The conditions of an approval. *)
Definition authorized ex (snap : option RPCApprovalRequest) (approver : value) (waived : bool)
  (current : option dict) : Prop :=
exists sn, snap = Some sn /\ approver <> VNone /\
  (waived = false -> sn_requested_by_id sn <> VNone -> py_str approver <> py_str (sn_requested_by_id sn)) /\
  (forall c, current = Some c -> matches_current sn c = true) /\
  status (ex_cols ex) = status_value PENDING_APPROVAL.

(** Two failures at the end, outside the life cycle. *)
Definition failed_twice ex ex' : Prop :=
classes ex' = classes ex ++ [TExecutionFailed; TExecutionFailed] /\ lifecycle (classes ex') = None.
End Specs.

Section Properties.
Context `{PyLib} `{JsonSchema}.
Implicit Types ex : execution.

(** C2: The operations of the aggregate refine its life cycle.  The worker claims the
    row under its lock and then works on the object it keeps, without a lock and
    without reading again; meanwhile the others use the aggregate as the commands do:
    on rows they have just locked, failing only what is still queued, deciding and
    recording the job from copies of any age.  In every order of these steps the
    classes of the ledger are a word of the life cycle automaton, the status column is
    the phase that word leads to, the ledger is gap-free, and the object of the worker
    still has the status of the row.  The two places that record a failure without the
    aggregate (a failed publication and the takeover of a fence) are not among the
    steps. *)
Theorem lifecycle_refinement ex ex' w :
  fresh ex -> rtc sys_step (ex, None) (ex', w) ->
  follows_lifecycle ex' /\ forall kept, w = Some kept -> status kept = status (ex_cols ex').
Proof.
  intros Hf Hr. assert (kept_in_step (ex, None)) as Hk by (exists Created; by split; [apply fresh_in_phase|]).
  destruct (sys_reachable _ _ Hk Hr) as [_ (p & Hp & Hw)].
  split; [destruct Hp as (Hl & Hc & Hs); by exists p|]. intros kept Hkept. by apply Hw.
Qed.

(** Terminal statuses are final: whatever the aggregate does to an execution that
    succeeded, failed, was cancelled, rejected or expired, its status stays, and the
    only event that can still be added is the late record of its job. *)
Theorem terminal_is_final ex ex1 ex2 :
  fresh ex -> rtc agg_step ex ex1 -> terminal (status (ex_cols ex1)) = true -> agg_step ex1 ex2 ->
  only_job_recorded ex1 ex2.
Proof.
  intros Hf Hr Ht Hs. destruct (agg_reachable_phase _ _ Hf Hr) as (p & Hp).
  destruct (agg_step_advances _ _ _ Hp Hs) as [_ Hfin]. apply Hfin.
  destruct Hp as (_ & _ & Hst). by rewrite Hst, terminal_phase in Ht.
Qed.

(** No execution that was opened as a request starts without an approval: before
    its start event there is a queue event, and before that an approval event. *)
Theorem approval_precedes_start ex ex' pre post :
  fresh ex -> rtc agg_step ex ex' -> head (classes ex') = Some TExecutionRequested ->
  classes ex' = pre ++ TExecutionStarted :: post -> approved_then_queued pre.
Proof.
  intros Hf Hr Hh Hc. destruct (agg_reachable_phase _ _ Hf Hr) as (p & _ & Hw & _).
  rewrite Hc in Hh, Hw. by eapply lifecycle_started.
Qed.

Lemma decision_refused d p ex stale :
  in_phase p ex -> p <> At PENDING_APPROVAL -> decision d ->
  exists m, d {| committed := ex; held := stale |} = Err (RPCExecutionAggregateError m).
Proof.
  intros Hi Hp Hd.
  assert (forall record, exists m,
    _decide_from_pending {| committed := ex; held := stale |} record = Err (RPCExecutionAggregateError m)) as Hdec.
  { intros record. unfold _decide_from_pending. cbn [committed]. rewrite (guard_status _ _ _ Hi).
    case_bool_decide as E; [|by eexists]. destruct p as [|[]]; done. }
  assert (forall actor sn u, _require_distinct_actor actor sn = u ->
    u = Ok tt \/ exists m, u = Err (RPCExecutionAggregateError m)) as Hdist.
  { intros actor sn u <-. unfold _require_distinct_actor. destruct actor, (sn_requested_by_id sn);
      try (by left); try (by right; eexists); unfold require; destruct (negb _); eauto. }
  destruct Hd as [snap approver allow current reason after now|snap rejecter reason now|reason now].
  - unfold approve. destruct snap as [sn|]; [|by eexists]. cbn [_require_snapshot mbind result_bind].
    destruct (if negb allow then _ else _) as [[]|e] eqn:E; cbn [mbind result_bind].
    + destruct (match current with Some _ => _ | None => _ end) as [[]|e] eqn:E'; cbn [mbind result_bind];
        [apply Hdec|]. destruct current; [|done]. unfold require in E'. destruct (matches_current _ _); [done|].
      injection E' as <-. by eexists.
    + destruct allow; cbn in E.
      * destruct approver; try done. injection E as <-. by eexists.
      * destruct (Hdist _ _ _ E) as [|[m Hm]]; [done|]. injection Hm as ->. by eexists.
  - unfold reject. destruct snap as [sn|]; [|by eexists]. cbn [_require_snapshot mbind result_bind].
    destruct (Hdist rejecter sn _ eq_refl) as [->|[m ->]]; [apply Hdec|by eexists].
  - apply Hdec.
Qed.

(** C38: Approval decisions are exclusive: the ledger of an execution never holds more
    than one approval, rejection or expiry, and once it holds one, every further
    decision is refused, however old the copy it is taken from. *)
Theorem single_decision ex ex' :
  fresh ex -> rtc agg_step ex ex' ->
  (decisions ex' <= 1)%nat /\ (decisions ex' = 1%nat -> decisions_closed ex').
Proof.
  intros Hf Hr. destruct (agg_reachable_phase _ _ Hf Hr) as (p & Hp).
  pose proof (lifecycle_decisions _ _ (proj1 (proj2 Hp))) as Hn.
  fold (decisions ex') in Hn. split.
  - destruct (undecided p); lia.
  - intros Hone d stale Hd. eapply decision_refused; [exact Hp| |exact Hd].
    intros ->. cbn in Hn. lia.
Qed.

Lemma locked_append p q ex e op :
  in_phase p ex -> writable e = true -> next p (type_of e) = Some q ->
  (forall x, in_phase p x -> op x = _append_and_project x e) ->
  exists ex1, _transition_locked ex (on_memory op) = Ok ex1 /\ in_phase q ex1.
Proof.
  intros Hi Hw Hn Hop. destruct (append_total (memory (fetch ex)) e (proj1 Hi)) as [ex' Ha].
  assert (exists s, on_memory op (fetch ex) = Ok s) as [s Hs].
  { eexists. unfold on_memory. rewrite Hop by (by apply memory_in_phase). by rewrite Ha. }
  exists (committed s). unfold _transition_locked. rewrite Hs. split; [done|].
  apply (synced_append p q (fetch ex) e s eq_refl Hi Hw Hn).
  unfold on_memory in *. rewrite Hop in Hs by (by apply memory_in_phase). exact Hs.
Qed.

Lemma locked_refused (op : execution -> res execution) ex m :
  (forall x, status (ex_cols x) = status (ex_cols ex) -> op x = Err (RPCExecutionAggregateError m)) ->
  _transition_locked ex (on_memory op) = Err (RPCExecutionAggregateError m).
Proof. intros Hop. unfold _transition_locked, on_memory. by rewrite Hop. Qed.

(** A cancellation racing the start of a queued execution has one winner: both are
    possible, each under the row lock, and the one that comes second is refused. *)
Theorem cancel_or_start ex0 ex user now1 now2 :
  fresh ex0 -> rtc agg_step ex0 ex -> status (ex_cols ex) = status_value QUEUED ->
  let cancelling := on_memory (fun x => cancel x user now1) in
  let starting := on_memory (fun x => start x now2) in
  wins ex cancelling CANCELLED starting /\ wins ex starting RUNNING cancelling.
Proof.
  intros Hf Hr Hst. destruct (agg_reachable_phase _ _ Hf Hr) as (p & Hp). cbv zeta.
  assert (phase_status p = QUEUED) as Hq.
  { destruct Hp as (_ & _ & Hs). rewrite Hst in Hs. by apply status_value_inj. }
  assert (next p TExecutionCancelled = Some (At CANCELLED) /\ next p TExecutionStarted = Some (At RUNNING))
    as [Hc Hs] by (by destruct p as [|[]]).
  split.
  - destruct (locked_append p (At CANCELLED) ex (ExecutionCancelled now1 user EmptyString)
      (fun x => cancel x user now1) Hp eq_refl Hc) as (ex1 & H1 & Hi1).
    { intros x Hx. unfold cancel. by rewrite !(guard_status _ _ _ Hx), Hq. }
    eexists ex1, _. split; [exact H1|]. split; [apply Hi1|].
    apply locked_refused. intros x Hx. unfold start, _ensure_not_terminal.
    rewrite Hx. destruct Hi1 as (_ & _ & ->). done.
  - destruct (locked_append p (At RUNNING) ex (ExecutionStarted now2)
      (fun x => start x now2) Hp eq_refl Hs) as (ex1 & H1 & Hi1).
    { intros x Hx. unfold start, _ensure_not_terminal. rewrite (guard_status _ _ _ Hx), Hq.
      destruct Hx as (_ & _ & ->). by rewrite Hq. }
    eexists ex1, _. split; [exact H1|]. split; [apply Hi1|].
    apply locked_refused. intros x Hx. unfold cancel, has_status.
    rewrite Hx. destruct Hi1 as (_ & _ & ->). done.
Qed.

Lemma approve_authorized s snap approver allow current reason after now s' :
  approve s snap approver allow current reason after now = Ok s' ->
  authorized (committed s) snap approver allow current.
Proof.
  intros Ha. unfold approve in Ha. apply bind_Ok in Ha as (sn & Hsn & Ha).
  apply bind_Ok in Ha as ([] & Hact & Ha). apply bind_Ok in Ha as ([] & Hcur & Ha).
  exists sn. destruct snap; [injection Hsn as ->|done]. split; [done|].
  assert (approver <> VNone) as Hnn by (intros ->; by destruct allow).
  split; [done|]. split; [|split].
  - intros -> Hr. cbn in Hact. unfold _require_distinct_actor in Hact.
    assert (require (negb (String.eqb (py_str approver) (py_str (sn_requested_by_id sn))))
      (RPCExecutionAggregateError
         "The requester cannot approve or reject their own execution (segregation of duties).") = Ok tt) as Hreq
      by (destruct approver, (sn_requested_by_id sn); first [exact Hact|by destruct Hr|by destruct Hnn]).
    apply require_Ok, negb_true_iff in Hreq. by apply String.eqb_neq.
  - intros c ->. by apply require_Ok in Hcur.
  - unfold _decide_from_pending in Ha.
    destruct (has_status (committed s) PENDING_APPROVAL) eqn:E; [by apply String.eqb_eq|discriminate Ha].
Qed.

(** An approval that is recorded was allowed: there is a snapshot, the approver is
    authenticated, differs from the requester unless the caller waived that, the
    values passed as current still hash to the snapshot, and the committed status was
    pending approval. *)
Theorem approval_is_authorized s snap approver allow current reason after now s' :
  approve s snap approver allow current reason after now = Ok s' ->
  authorized (committed s) snap approver allow current.
Proof. apply approve_authorized. Qed.

(** C39: The guard against a second terminal event reads the copy in memory: when a
    running execution is failed by another party, the worker that still holds it as
    running records a second failure, and the ledger leaves the life cycle. *)
Theorem stale_failure_recorded_twice ex ex1 msg1 code1 now1 msg2 code2 now2 :
  in_phase (At RUNNING) ex ->
  mark_execution_failed ex msg1 code1 (EVENT_NAME TExecutionFailed) now1 = Ok ex1 ->
  exists s, on_memory (fun x => fail x msg2 code2 now2)
              {| committed := ex1; held := ex_cols ex |} = Ok s /\ failed_twice ex (committed s).
Proof.
  intros Hi Hm.
  destruct (append_in_phase _ (At FAILED) _ (ExecutionFailed msg1 code1 now1 []) _ Hi eq_refl eq_refl Hm)
    as [Hi1 Hc1].
  set (s1 := {| committed := ex1; held := ex_cols ex |}).
  destruct (append_total (memory s1) (ExecutionFailed msg2 code2 now2 []) (proj1 Hi1)) as [ex2 Ha].
  destruct (append_ledger (memory s1) _ _ (proj1 Hi1) Ha) as (_ & r & He & Hr & _).
  assert (classes ex2 = classes ex1 ++ [TExecutionFailed]) as Hc2.
  { unfold classes. rewrite He, fmap_app. f_equal. cbn [fmap list_fmap]. unfold class_of. by rewrite Hr. }
  assert (fail (memory s1) msg2 code2 now2 = Ok ex2) as Hfail.
  { unfold fail, _ensure_not_terminal. cbn [memory with_ledger ex_cols held s1].
    destruct Hi as (_ & _ & Hs). cbn [memory with_ledger ex_cols held s1]. rewrite Hs. exact Ha. }
  eexists. split; [unfold on_memory; by rewrite Hfail|]. split.
  - cbn [committed]. change (classes (with_ledger _ _ ?r)) with (class_of <$> r). fold (classes ex2).
    by rewrite Hc2, Hc1, <- app_assoc.
  - change (classes _) with (classes ex2). rewrite Hc2, Hc1, !lifecycle_snoc.
    destruct Hi as (_ & -> & _). done.
Qed.
End Properties.

#[local] Transparent redact_event_value redact_event_data.

(** ** Examples: a request that is approved, queued, started and fails *)

Section Witnesses.
Import MiniSchema Demo.

Definition run_op (op : execution -> res execution) (ex : execution) : execution :=
  match on_memory op (fetch ex) with Ok s => committed s | Err _ => ex end.
Definition run_decision (d : session -> res session) (ex : execution) (stale : ProjectionState) : execution :=
  match d {| committed := ex; held := stale |} with Ok s => committed s | Err _ => ex end.

Lemma run_op_step op ex :
  row_op op -> is_Ok (on_memory op (fetch ex)) = true -> agg_step ex (run_op op ex).
Proof.
  intros Hop Hok. unfold run_op. destruct (on_memory op (fetch ex)) as [s|] eqn:E; [|done].
  by eapply agg_row.
Defined.
Lemma run_decision_step d ex stale :
  decision d -> is_Ok (d {| committed := ex; held := stale |}) = true -> agg_step ex (run_decision d ex stale).
Proof.
  intros Hd Hok. unfold run_decision. destruct (d _) as [s|] eqn:E; [|done]. by eapply agg_decision.
Defined.

Definition demo_new : execution := demo_execution "service.demo.restart" VNone.
Definition demo_snapshot : RPCApprovalRequest :=
  {| procedure_id := 5; procedure_version := "1"; procedure_policy_sha256 := EmptyString;
     params_schema_sha256 := EmptyString; result_schema_sha256 := EmptyString; effect := "write";
     target_type_id := 1; target_id := 2; target_snapshot_hash := EmptyString;
     sn_normalized_params := []; command_fingerprint := []; backend_id := VInt 1;
     backend_target_sha256 := EmptyString; credential_policy_ref := "procedure_effect:write";
     sn_requested_by_id := VInt 3; payload_hash := "abc" |}.
Definition demo_approve (s : session) : res session :=
  approve s (Some demo_snapshot) (VInt 4) false None EmptyString true demo_now.

Definition demo_requested : execution := Eval vm_compute in run_op (fun x => request x (VInt 3)) demo_new.
Definition demo_pending : execution :=
  Eval vm_compute in run_op (fun x => request_approval x "abc" VNone (VInt 3)) demo_requested.
(** Approved from a copy that is still at [requested]. *)
Definition demo_queued : execution :=
  Eval vm_compute in run_decision demo_approve demo_pending (ex_cols demo_requested).
Definition demo_running : execution := Eval vm_compute in run_op (fun x => start x demo_now) demo_queued.
Definition demo_ended : execution :=
  Eval vm_compute in run_op (fun x => fail x "boom" "RPC_DEMO" demo_now) demo_running.

Lemma demo_fresh : fresh demo_new.
Proof. done. Defined.
Lemma demo_reach_queued : rtc agg_step demo_new demo_queued.
Proof.
  eapply rtc_l; [exact (run_op_step _ demo_new (op_request (VInt 3)) ltac:(vm_compute; reflexivity))|].
  eapply rtc_l; [exact (run_op_step _ demo_requested (op_request_approval "abc" VNone (VInt 3))
                          ltac:(vm_compute; reflexivity))|].
  eapply rtc_l; [|apply rtc_refl].
  exact (run_decision_step _ demo_pending (ex_cols demo_requested)
           (dec_approve (Some demo_snapshot) (VInt 4) false None EmptyString true demo_now)
           ltac:(vm_compute; reflexivity)).
Defined.
Lemma demo_start_step : agg_step demo_queued demo_running.
Proof. exact (run_op_step _ demo_queued (op_start demo_now) ltac:(vm_compute; reflexivity)). Defined.
Lemma demo_fail_step : agg_step demo_running demo_ended.
Proof.
  exact (run_op_step _ demo_running (op_fail "boom" "RPC_DEMO" demo_now) ltac:(vm_compute; reflexivity)).
Defined.
Lemma demo_reach_ended : rtc agg_step demo_new demo_ended.
Proof.
  eapply rtc_r; [|exact demo_fail_step]. eapply rtc_r; [exact demo_reach_queued|exact demo_start_step].
Defined.
Definition demo_late : session := {| committed := demo_ended; held := ex_cols demo_queued |}.
Definition demo_late_job : execution :=
  Eval vm_compute in
    match on_memory (fun x => enqueue x (VInt 11)) demo_late with Ok s => committed s | Err _ => demo_ended end.
Lemma demo_late_step : agg_step demo_ended demo_late_job.
Proof.
  destruct (on_memory (fun x => enqueue x (VInt 11)) demo_late) as [s|] eqn:E.
  - replace demo_late_job with (committed s); [by eapply agg_enqueue|].
    vm_compute in E. injection E as <-. vm_compute. reflexivity.
  - vm_compute in E. discriminate E.
Defined.

(** The start of a worker whose object is then kept while the job is recorded, and the
    failure it records from that object. *)
Definition demo_kept : session :=
  Eval vm_compute in
    match on_memory (fun x => start x demo_now) (fetch demo_queued) with Ok s => s | Err _ => fetch demo_queued end.
Definition demo_job : session :=
  Eval vm_compute in
    match on_memory (fun x => enqueue x (VInt 11)) {| committed := committed demo_kept; held := ex_cols demo_queued |}
    with Ok s => s | Err _ => demo_kept end.
Definition demo_failed : session :=
  Eval vm_compute in
    match on_memory (fun x => fail x "boom" "RPC_DEMO" demo_now) {| committed := committed demo_job; held := held demo_kept |}
    with Ok s => s | Err _ => demo_kept end.
Lemma demo_sys_reach : rtc sys_step (demo_new, None) (committed demo_failed, Some (held demo_failed)).
Proof.
  eapply rtc_l; [apply (sys_locked (fun x => request x (VInt 3)) demo_new None (fetch demo_requested));
                 [constructor|vm_compute; reflexivity]|].
  eapply rtc_l; [apply (sys_locked (fun x => request_approval x "abc" VNone (VInt 3)) demo_requested None (fetch demo_pending));
                 [constructor|vm_compute; reflexivity]|].
  eapply rtc_l; [apply (sys_decision demo_approve demo_pending None (ex_cols demo_requested) (fetch demo_queued));
                 [constructor|vm_compute; reflexivity]|].
  eapply rtc_l; [apply (sys_claim demo_now demo_queued None demo_kept); vm_compute; reflexivity|].
  eapply rtc_l; [apply (sys_enqueue (committed demo_kept) (Some (held demo_kept)) (ex_cols demo_queued) (VInt 11) demo_job);
                 vm_compute; reflexivity|].
  eapply rtc_l; [|apply rtc_refl].
  apply (sys_worker (fun x => fail x "boom" "RPC_DEMO" demo_now) (committed demo_job) (held demo_kept) demo_failed);
    [constructor|vm_compute; reflexivity].
Defined.
Lemma lifecycle_refinement_witness :
  follows_lifecycle (committed demo_failed)
  /\ forall kept, Some (held demo_failed) = Some kept -> status kept = status (ex_cols (committed demo_failed)).
Proof. exact (lifecycle_refinement demo_new (committed demo_failed) _ demo_fresh demo_sys_reach). Defined.

Lemma terminal_is_final_witness :
  only_job_recorded demo_ended demo_late_job.
Proof.
  exact (terminal_is_final demo_new demo_ended demo_late_job demo_fresh demo_reach_ended
           ltac:(vm_compute; reflexivity) demo_late_step).
Defined.

Lemma approval_precedes_start_witness :
  approved_then_queued [TExecutionRequested; TApprovalRequested; TExecutionApproved; TExecutionQueued].
Proof.
  exact (approval_precedes_start demo_new demo_ended
           [TExecutionRequested; TApprovalRequested; TExecutionApproved; TExecutionQueued]
           [TExecutionFailed] demo_fresh demo_reach_ended
           ltac:(vm_compute; reflexivity) ltac:(vm_compute; reflexivity)).
Defined.

Lemma single_decision_witness :
  exists m, reject {| committed := demo_queued; held := ex_cols demo_pending |} (Some demo_snapshot)
              (VInt 9) EmptyString demo_now = Err (RPCExecutionAggregateError m).
Proof.
  exact (proj2 (single_decision demo_new demo_queued demo_fresh demo_reach_queued)
           ltac:(vm_compute; reflexivity) _ (ex_cols demo_pending)
           (dec_reject (Some demo_snapshot) (VInt 9) EmptyString demo_now)).
Defined.

Lemma cancel_or_start_witness :
  wins demo_queued (on_memory (fun x => cancel x (VInt 3) demo_now)) CANCELLED
    (on_memory (fun x => start x demo_now)).
Proof.
  exact (proj1 (cancel_or_start demo_new demo_queued (VInt 3) demo_now demo_now demo_fresh demo_reach_queued
           ltac:(vm_compute; reflexivity))).
Defined.

Definition demo_decided : session :=
  Eval vm_compute in
    match demo_approve (fetch demo_pending) with Ok s => s | Err _ => fetch demo_pending end.
Lemma demo_approve_ok : demo_approve (fetch demo_pending) = Ok demo_decided.
Proof. vm_compute. reflexivity. Defined.
Lemma approval_is_authorized_witness : authorized demo_pending (Some demo_snapshot) (VInt 4) false None.
Proof.
  exact (approval_is_authorized (fetch demo_pending) (Some demo_snapshot) (VInt 4) false None EmptyString
           true demo_now demo_decided demo_approve_ok).
Defined.

Lemma demo_running_phase : in_phase (At RUNNING) demo_running.
Proof.
  split; [|split; vm_compute; reflexivity].
  intros i r Hr. do 5 (destruct i as [|i]; [injection Hr as <-; vm_compute; reflexivity|]). discriminate Hr.
Defined.
Lemma demo_marked_failed :
  mark_execution_failed demo_running "boom" "RPC_DEMO" (EVENT_NAME TExecutionFailed) demo_now = Ok demo_ended.
Proof. vm_compute. reflexivity. Defined.
Lemma stale_failure_recorded_twice_witness :
  exists s, on_memory (fun x => fail x "late" "RPC_SCOPE_FENCE_CHANGED" demo_now)
              {| committed := demo_ended; held := ex_cols demo_running |} = Ok s /\
    failed_twice demo_running (committed s).
Proof.
  exact (stale_failure_recorded_twice demo_running demo_ended "boom" "RPC_DEMO" demo_now "late"
           "RPC_SCOPE_FENCE_CHANGED" demo_now demo_running_phase demo_marked_failed).
Defined.
End Witnesses.
