(* ===== verification/Protected.v ===== *)
(** * Protected procedures

    The part of [netbox_rpc/application/command_handlers.py] that binds a protected
    procedure to its backend and to its approval: the tables keyed by procedure name,
    the backend binding, the approval payload, the identity policy, and the commands
    that create, approve, reject, cancel and enqueue an execution.

    What a command reads from the database or from other components is an argument:
    the catalog row ([procedure]), the target of the execution ([target]), the user,
    the resolved backend, and the outcome of the checks that precede the insert
    ([gates]), which the file Admission models. *)

From S2P Require Import Prelude PyValue Events Projection CredentialContract.
From S2P Require Import Spans SpanFacts MaskFacts PyRegex SecretPatterns TextRedaction.
From S2P Require Import ValueRedaction RedactionFacts SchemaLimits EventStore EventStoreFacts.
From S2P Require Import Response ResponseFacts Aggregate.

#[local] Opaque redact_event_value redact_event_data.

(** ** Names and tables *)

Definition GITEA_RUNNER_REGISTER : string := "service.gitea.runner.register".
Definition GITEA_ORG_CI_RUNNER_PROVISION : string := "service.gitea.actions_runner.provision_org_ci_runner".
Definition GITEA_PROTECTED_PUBLICATION_PAIR_PROVISION : string :=
  "service.gitea.actions_runner.protected_pair.provision".
Definition GITEA_USER_CI_RUNNER_RECOVER : string := "service.gitea.actions_runner.recover_user_ci_runner".
Definition GITEA_ORG_CI_RUNNER_RECOVER : string := "service.gitea.actions_runner.recover_org_ci_runner".
Definition NETBOX_OPENBAO_IMPORT_APPLY : string := "service.netbox.openbao_import.apply".
Definition NMULTICLOUD_DEPLOY_RELEASE_MARKER_RECONCILE : string :=
  "service.nmulticloud.deploy.release_marker_reconcile".
Definition LINUX_PROXMOX_OCI_REGISTRY_PULL : string := "os.linux.proxmox.oci_registry_pull".
Definition PROXBOX_API_RELEASE_IMAGES_RECOVER : string := "service.proxbox_api.release_images.recover".
Definition NETBOX_PRODUCTION_RESTART_RQ_WORKER : string := "service.netbox.production.restart_rq_worker".
Definition OPENBAO_1_PROVISION_NETBOX_APPROLE : string := "service.openbao.1.provision_netbox_approle".

Fixpoint table_get {A} (name : string) (t : list (string * A)) : option A :=
  match t with
  | [] => None
  | (n, a) :: r => if String.eqb n name then Some a else table_get name r
  end.

Definition _PROTECTED_APPROVAL_REASON : list (string * string) :=
  [(NETBOX_STAGING_ROTATE_BACKEND_TOKEN, "Approved audited staging backend token rotation.");
   (NETBOX_STAGING_DEPLOY_DNS_PAIR, "Approved audited staging DNS-pair deployment.");
   (GITEA_PRODUCTION_UPGRADE_1_27_1, "Approved audited production Gitea 1.27.1 upgrade.");
   (GITEA_RUNNER_REGISTER, "Approved audited Gitea runner registration.");
   (GITEA_ORG_CI_RUNNER_PROVISION, "Approved audited Gitea organization CI runner provisioning.");
   (GITEA_PROTECTED_PUBLICATION_PAIR_PROVISION,
    "Approved audited provisioning of the fixed protected publication-runner pair.");
   (GITEA_USER_CI_RUNNER_RECOVER, "Approved audited recovery of the fixed user-scoped Gitea CI runner.");
   (GITEA_ORG_CI_RUNNER_RECOVER,
    "Approved audited task-network reclamation for the fixed organization Gitea CI runner.");
   (AKVORADO_BOOTSTRAP_DEBIAN13_INSTALL, "Approved audited Debian 13 Akvorado bootstrap.");
   (NETBOX_OPENBAO_IMPORT_APPLY, "Approved audited netbox-openbao credential import.");
   (NMULTICLOUD_DEPLOY_RELEASE_MARKER_RECONCILE, "Approved audited release-marker reconcile.");
   (LINUX_PROXMOX_OCI_REGISTRY_PULL, "Approved audited Proxmox OCI registry pull.");
   (PROXBOX_API_RELEASE_IMAGES_RECOVER, "Approved audited recovery of retained proxbox-api release images.");
   (NETBOX_PRODUCTION_RESTART_RQ_WORKER, "Approved audited production NetBox RQ worker restart.")].

Definition _PROTECTED_REJECTION_REASON : list (string * string) :=
  [(NETBOX_STAGING_ROTATE_BACKEND_TOKEN, "Rejected audited staging backend token rotation.");
   (NETBOX_STAGING_DEPLOY_DNS_PAIR, "Rejected audited staging DNS-pair deployment.");
   (GITEA_PRODUCTION_UPGRADE_1_27_1, "Rejected audited production Gitea 1.27.1 upgrade.");
   (GITEA_RUNNER_REGISTER, "Rejected audited Gitea runner registration.");
   (GITEA_ORG_CI_RUNNER_PROVISION, "Rejected audited Gitea organization CI runner provisioning.");
   (GITEA_PROTECTED_PUBLICATION_PAIR_PROVISION,
    "Rejected audited provisioning of the fixed protected publication-runner pair.");
   (GITEA_USER_CI_RUNNER_RECOVER, "Rejected audited recovery of the fixed user-scoped Gitea CI runner.");
   (GITEA_ORG_CI_RUNNER_RECOVER,
    "Rejected audited task-network reclamation for the fixed organization Gitea CI runner.");
   (AKVORADO_BOOTSTRAP_DEBIAN13_INSTALL, "Rejected audited Debian 13 Akvorado bootstrap.");
   (NETBOX_OPENBAO_IMPORT_APPLY, "Rejected audited netbox-openbao credential import.");
   (NMULTICLOUD_DEPLOY_RELEASE_MARKER_RECONCILE, "Rejected audited release-marker reconcile.");
   (LINUX_PROXMOX_OCI_REGISTRY_PULL, "Rejected audited Proxmox OCI registry pull.");
   (PROXBOX_API_RELEASE_IMAGES_RECOVER, "Rejected audited recovery of retained proxbox-api release images.");
   (NETBOX_PRODUCTION_RESTART_RQ_WORKER, "Rejected audited production NetBox RQ worker restart.")].

(** The attributes of a contract module that bind it to one backend. *)
Record binding := {
  BACKEND_ID : option Z;
  BACKEND_BASE_URL : option string;
  BACKEND_VERIFY_SSL : bool;
}.
Definition unbound : binding :=
  {| BACKEND_ID := None; BACKEND_BASE_URL := None; BACKEND_VERIFY_SSL := false |}.
Definition local_backend : binding :=
  {| BACKEND_ID := Some 1; BACKEND_BASE_URL := Some "http://127.0.0.1:16005"; BACKEND_VERIFY_SSL := false |}.

Definition _PROTECTED_CONTRACTS : list (string * binding) :=
  ((fun n => (n, unbound)) <$> KEYCLOAK_IAM_UI_WRITE_PROCEDURE_NAMES) ++
  [(NETBOX_STAGING_ROTATE_BACKEND_TOKEN, unbound); (NETBOX_STAGING_DEPLOY_DNS_PAIR, unbound);
   (GITEA_PRODUCTION_UPGRADE_1_27_1, local_backend); (GITEA_RUNNER_REGISTER, local_backend);
   (GITEA_ORG_CI_RUNNER_PROVISION, local_backend);
   (GITEA_PROTECTED_PUBLICATION_PAIR_PROVISION, local_backend);
   (GITEA_USER_CI_RUNNER_RECOVER, local_backend); (GITEA_ORG_CI_RUNNER_RECOVER, local_backend);
   (AKVORADO_BOOTSTRAP_DEBIAN13_INSTALL, unbound); (NETBOX_OPENBAO_IMPORT_APPLY, unbound);
   (NMULTICLOUD_DEPLOY_RELEASE_MARKER_RECONCILE, unbound); (LINUX_PROXMOX_OCI_REGISTRY_PULL, unbound);
   (PROXBOX_API_RELEASE_IMAGES_RECOVER, unbound); (NETBOX_PRODUCTION_RESTART_RQ_WORKER, unbound)].

Definition _PROTECTED_LABELS : list (string * string) :=
  [(NETBOX_STAGING_ROTATE_BACKEND_TOKEN, "Staging token rotation");
   (NETBOX_STAGING_DEPLOY_DNS_PAIR, "Staging DNS-pair deployment");
   (GITEA_PRODUCTION_UPGRADE_1_27_1, "Production Gitea upgrade");
   (GITEA_RUNNER_REGISTER, "Gitea runner registration");
   (GITEA_ORG_CI_RUNNER_PROVISION, "Gitea organization CI runner provisioning");
   (GITEA_PROTECTED_PUBLICATION_PAIR_PROVISION, "Protected publication runner pair provisioning");
   (GITEA_USER_CI_RUNNER_RECOVER, "Gitea user CI runner recovery");
   (GITEA_ORG_CI_RUNNER_RECOVER, "Gitea organization CI runner network recovery");
   (AKVORADO_BOOTSTRAP_DEBIAN13_INSTALL, "Debian 13 Akvorado bootstrap");
   (NETBOX_OPENBAO_IMPORT_APPLY, "netbox-openbao credential import");
   (NMULTICLOUD_DEPLOY_RELEASE_MARKER_RECONCILE, "Release-marker reconcile");
   (LINUX_PROXMOX_OCI_REGISTRY_PULL, "Proxmox OCI registry pull");
   (PROXBOX_API_RELEASE_IMAGES_RECOVER, "Proxbox API retained-image recovery");
   (NETBOX_PRODUCTION_RESTART_RQ_WORKER, "Production NetBox RQ worker restart")].

Definition protected (name : string) : bool := str_in name PROTECTED_APPROVAL_PROCEDURE_NAMES.

Definition _protected_contract (name : string) : res binding :=
  match table_get name _PROTECTED_CONTRACTS with Some c => Ok c | None => Err ValueError end.
Definition _protected_label (name : string) : string :=
  default "Protected RPC procedure" (table_get name _PROTECTED_LABELS).

(** ** Timeouts and passwords *)

Definition _RPC_JOB_TIMEOUT_HEADROOM_SECONDS : Z := 60.
Definition _RPC_JOB_TIMEOUT_FLOOR_SECONDS : Z := 600.
Definition _execution_job_timeout (timeout_seconds : value) : res Z :=
  t ← py_int (py_or timeout_seconds (VInt 0));
  Ok (Z.max (t + _RPC_JOB_TIMEOUT_HEADROOM_SECONDS) _RPC_JOB_TIMEOUT_FLOOR_SECONDS).

(** [jobs._resolve_backend_timeout_seconds] on whole seconds, and the read timeout
    [jobs._build_backend_request_plan] derives from it. *)
Definition _resolve_backend_timeout_seconds (params : dict) (procedure_timeout : Z) : Z :=
  match get "_timeout_seconds_snapshot" params with
  | VInt t => if t <=? 0 then procedure_timeout else t
  | VBool b => if b then 1 else procedure_timeout
  | _ => procedure_timeout
  end.
Definition backend_read_timeout (timeout_seconds : Z) : Z := Z.max (timeout_seconds + 10) 30.

(** [len(s.encode("utf-8"))]: a Latin-1 character above 127 takes two bytes. *)
Fixpoint utf8_length (s : string) : Z :=
  match s with
  | EmptyString => 0
  | String c r => (if code c <? 128 then 1 else 2) + utf8_length r
  end.

Section Handlers.
Context `{PyLib} `{JsonSchema}.

Definition _scrub_password_param (params : dict) : dict :=
match dict_get "password" params with
| None => params
| Some raw =>
let params := dict_pop "password" params in
let params := dict_set "password_sha256" (VStr (sha256 (py_str raw))) params in
dict_set "password_bytes" (VInt (utf8_length (py_str raw))) params
end.

(** ** Backend binding *)

Record backend_target := {
bt_url : string;
bt_verify_ssl : bool;
}.

Definition backend_required (name : string) : exn :=
ValidationError "backend"
(_protected_label name +:+ " requires an explicitly selected authoritative RPC backend.").

Definition _require_concrete_protected_backend_id (backend_id : value) (name : string) : res Z :=
match py_int backend_id with
| Err TypeError | Err ValueError => Err (backend_required name)
| Err e => Err e
| Ok n =>
if n <=? 0 then Err (backend_required name) else
contract ← _protected_contract name;
match BACKEND_ID contract with
| Some expected =>
  if n =? expected then Ok n else
  Err (ValidationError "backend"
         (_protected_label name +:+ " requires authoritative RPC backend "
            +:+ str_of_Z expected +:+ "."))
| None => Ok n
end
end.

Definition _protected_backend_target_sha256 (backend_id : value) (name : string)
(target : option backend_target) : res string :=
contract ← _protected_contract name;
n ← _require_concrete_protected_backend_id backend_id name;
match target with
| None =>
Err (ValidationError "backend" (_protected_label name +:+ " authoritative backend is unavailable."))
| Some t =>
let drifted :=
match BACKEND_BASE_URL contract with
| Some url => negb (String.eqb (bt_url t) url) || negb (Bool.eqb (bt_verify_ssl t) (BACKEND_VERIFY_SSL contract))
| None => false
end in
if drifted
then Err (ValidationError "backend"
          (_protected_label name +:+ " authoritative backend URL/TLS policy does not match the immutable reviewed contract."))
else Ok (canonical_hash (VDict [("backend_id", VInt n); ("url", VStr (bt_url t));
                              ("verify_ssl", VBool (bt_verify_ssl t))]))
end.

Definition binding_changed (name : string) : exn :=
RPCExecutionError "RPC_APPROVAL_INVALIDATED"
(_protected_label name +:+ " backend binding changed after approval.").

Definition _require_approved_backend_target_before_io (name : string) (backend_id : value)
(snap : option RPCApprovalRequest) (target : option backend_target) : res unit :=
let expected := from_option backend_target_sha256 EmptyString snap in
match _protected_backend_target_sha256 backend_id name target with
| Err (ValidationError _ _) => Err (binding_changed name)
| Err e => Err e
| Ok current =>
require ((str_len expected =? 64) && (str_len current =? 64) && String.eqb expected current)
(binding_changed name)
end.

(** ** The approval payload *)

(** The catalog row of a procedure; [pr_policy] is [_protected_procedure_policy]. *)
Record procedure := {
pr_pk : Z;
pr_name : string;
pr_version : value;
pr_policy : value;
pr_params_schema : value;
pr_result_schema : value;
pr_effect : string;
pr_enabled : bool;
pr_timeout_seconds : value;
}.

(** The target, the backend and the credentials of an execution. *)
Record target := {
tg_type_id : Z;
tg_id : Z;
tg_model_label : string;
tg_display : string;
tg_backend_id : value;
tg_credential_references : value;
tg_credential_authority : value;
}.

Definition _APPROVAL_DISPLAY_SALT : string := "netbox_rpc.approval_target_display.v1".
Definition _approval_target_display (display : string) : string :=
if negb (contains_secret_text (codes display)) then display
else "keyed-display:" +:+ salted_hmac _APPROVAL_DISPLAY_SALT display.

Definition printable (s : string) : bool :=
str_forall (fun c => negb ((code c <? 32) || (code c =? 127))) s.

Definition _credential_policy_reference (normalized : dict) (p : procedure) (tg : target) : res string :=
normalized ← ledger_normalized_params normalized;
if truthy (tg_credential_references tg) then
let expected := "credential-authority:" +:+ canonical_hash (tg_credential_authority tg) in
if py_eqb (get "credential_policy_ref" normalized) (VStr expected) then Ok expected
else Err ValueError
else
let fallback :=
match get "rpc_ssh_credential_pk" normalized with
| VNone => str_take 255 ("procedure_effect:" +:+ pr_effect p)
| pk => str_take 255 ("device_credential:" +:+ py_str pk)
end in
match get "ssh_policy_ref" normalized with
| VStr s =>
let s := str_strip s in
if str_truthy s && (str_len s <=? 200) && printable s then Ok s else Ok fallback
| _ => Ok fallback
end.

Definition _approval_protected_payload (ex : execution) (p : procedure) (tg : target)
(normalized : dict) (backend : option backend_target) : res dict :=
normalized ← ledger_normalized_params normalized;
_ ← _protected_contract (pr_name p);
let target_snapshot :=
VDict [("target_type_id", VInt (tg_type_id tg)); ("target_id", VInt (tg_id tg));
   ("target_model_label", VStr (tg_model_label tg));
   ("target_display", VStr (_approval_target_display (tg_display tg)))] in
backend_sha ← _protected_backend_target_sha256 (tg_backend_id tg) (pr_name p) backend;
policy_ref ← _credential_policy_reference normalized p tg;
Ok [("procedure_id", VInt (pr_pk p));
("procedure_version", VStr (py_str (pr_version p)));
("procedure_policy_sha256", VStr (canonical_hash (pr_policy p)));
("params_schema_sha256", VStr (canonical_hash (pr_params_schema p)));
("result_schema_sha256", VStr (canonical_hash (pr_result_schema p)));
("effect", VStr (pr_effect p));
("target_type_id", VInt (tg_type_id tg));
("target_id", VInt (tg_id tg));
("target_snapshot_hash", VStr (canonical_hash target_snapshot));
("normalized_params", VDict normalized);
("command_fingerprint", VDict (match get "command_fingerprint" normalized with VDict d => d | _ => [] end));
("backend_id", tg_backend_id tg);
("backend_target_sha256", VStr backend_sha);
("credential_policy_ref", VStr policy_ref);
("requested_by_id", ex_requested_by_id ex)].

(** [RPCApprovalRequest.objects.create] of a payload; [save] stamps the hash. *)
Definition snapshot_of (ex : execution) (p : procedure) (tg : target) (payload : dict) : RPCApprovalRequest :=
{| procedure_id := pr_pk p;
 procedure_version := py_str (get "procedure_version" payload);
 procedure_policy_sha256 := py_str (get "procedure_policy_sha256" payload);
 params_schema_sha256 := py_str (get "params_schema_sha256" payload);
 result_schema_sha256 := py_str (get "result_schema_sha256" payload);
 effect := pr_effect p; target_type_id := tg_type_id tg; target_id := tg_id tg;
 target_snapshot_hash := py_str (get "target_snapshot_hash" payload);
 sn_normalized_params := match get "normalized_params" payload with VDict d => d | _ => [] end;
 command_fingerprint := match get "command_fingerprint" payload with VDict d => d | _ => [] end;
 backend_id := tg_backend_id tg;
 backend_target_sha256 := py_str (get "backend_target_sha256" payload);
 credential_policy_ref := py_str (get "credential_policy_ref" payload);
 sn_requested_by_id := ex_requested_by_id ex; payload_hash := EmptyString |}.
Definition _create_approval_request (ex : execution) (p : procedure) (tg : target) (normalized : dict)
(backend : option backend_target) : res RPCApprovalRequest :=
payload ← _approval_protected_payload ex p tg normalized backend;
save true (snapshot_of ex p tg payload).
End Handlers.

(** ** Theorems *)

(** A worker outlives its backend call: the job deadline computed from the timeout
    that is frozen into the parameters exceeds the read timeout of the call, derived
    later from the same frozen value, by at least fifty seconds, whatever the catalog
    says by then. *)
Theorem job_outlives_backend_call t params procedure_timeout :
  0 < t ->
  exists deadline, _execution_job_timeout (VInt t) = Ok deadline /\
    backend_read_timeout
      (_resolve_backend_timeout_seconds (dict_set "_timeout_seconds_snapshot" (VInt t) params) procedure_timeout)
    + 50 <= deadline.
Proof.
  intros Ht. unfold _execution_job_timeout, py_or. cbn [truthy].
  rewrite (proj2 (Z.eqb_neq t 0)) by lia. cbn [negb]. eexists. split; [done|].
  unfold _resolve_backend_timeout_seconds. rewrite get_set_eq, (proj2 (Z.leb_gt t 0)) by lia.
  unfold backend_read_timeout, _RPC_JOB_TIMEOUT_HEADROOM_SECONDS, _RPC_JOB_TIMEOUT_FLOOR_SECONDS. lia.
Qed.

Lemma job_outlives_backend_call_witness :
  exists deadline, _execution_job_timeout (VInt 7200) = Ok deadline /\
    backend_read_timeout
      (_resolve_backend_timeout_seconds (dict_set "_timeout_seconds_snapshot" (VInt 7200) []) 30) + 50 <= deadline.
Proof. exact (job_outlives_backend_call 7200 [] 30 eq_refl). Defined.

Lemma dict_get_pop_eq k d : dict_get k (dict_pop k d) = None.
Proof.
  unfold dict_pop. induction d as [|[q v] d IH]; cbn; [done|].
  destruct (String.eqb q k) eqn:E; cbn; [done|]. by rewrite E.
Qed.
Lemma dict_get_pop_ne k k' d : k <> k' -> dict_get k (dict_pop k' d) = dict_get k d.
Proof.
  intros Hne. unfold dict_pop. induction d as [|[q v] d IH]; cbn; [done|].
  destruct (String.eqb_spec q k') as [->|]; cbn.
  - destruct (String.eqb_spec k' k); [congruence|done].
  - by rewrite IH.
Qed.

(** A submitted password never reaches the row: after the scrub there is no
    [password] entry, a password that was there is represented by its digest and its
    length in bytes, and every other parameter is untouched. *)
Theorem password_scrubbed `{PyLib} params :
  let out := _scrub_password_param params in
  dict_get "password" out = None /\
  (forall raw, dict_get "password" params = Some raw ->
     dict_get "password_sha256" out = Some (VStr (sha256 (py_str raw))) /\
     dict_get "password_bytes" out = Some (VInt (utf8_length (py_str raw)))) /\
  (forall k, k ∉ ["password"; "password_sha256"; "password_bytes"] -> dict_get k out = dict_get k params).
Proof.
  cbv zeta. unfold _scrub_password_param. destruct (dict_get "password" params) as [raw|] eqn:E.
  - split; [by rewrite !dict_get_set_ne, dict_get_pop_eq by done|]. split.
    + intros ? [= <-]. by rewrite dict_get_set_ne, dict_get_set_eq, dict_get_set_eq by done.
    + intros k Hk. rewrite !not_elem_of_cons in Hk. destruct Hk as (H1 & H2 & H3 & _).
      by rewrite !dict_get_set_ne, dict_get_pop_ne by done.
  - split; [done|]. split; [done|]. done.
Qed.

(** An approval request matches the state it was made from: the payload computed
    again from the same execution, procedure, target, parameters and backend hashes to
    the stored snapshot, so an unchanged request can be approved and dispatched. *)
Theorem unchanged_request_matches `{PyLib} `{JsonSchema} ex p tg normalized backend sn current :
  (forall s, sha256 s <> EmptyString) ->
  _create_approval_request ex p tg normalized backend = Ok sn ->
  _approval_protected_payload ex p tg normalized backend = Ok current ->
  matches_current sn current = true.
Proof.
  intros Hsha Hc Hp. unfold _create_approval_request in Hc. rewrite Hp in Hc.
  change (mbind ?f (Ok current)) with (f current) in Hc. cbn beta in Hc.
  unfold _approval_protected_payload in Hp.
  apply bind_Ok in Hp as (n & _ & Hp). apply bind_Ok in Hp as (c & _ & Hp). cbv zeta in Hp.
  apply bind_Ok in Hp as (bsha & _ & Hp). apply bind_Ok in Hp as (pref & _ & Hp). injection Hp as <-.
  cbn [save negb payload_hash snapshot_of str_truthy] in Hc. injection Hc as <-.
  unfold matches_current. cbn [payload_hash with_payload_hash].
  destruct (str_truthy (compute_hash _)) eqn:E; [|by apply str_falsy, Hsha in E].
  apply String.eqb_eq. done.
Qed.

Section Witnesses.
Import MiniSchema Demo.

Definition demo_procedure (name : string) : procedure :=
  {| pr_pk := 5; pr_name := name; pr_version := VInt 1; pr_policy := VDict [];
     pr_params_schema := VDict []; pr_result_schema := VDict []; pr_effect := "destructive";
     pr_enabled := true; pr_timeout_seconds := VInt 300 |}.
Definition demo_target : target :=
  {| tg_type_id := 1; tg_id := 2; tg_model_label := "dcim.device"; tg_display := "edge-1";
     tg_backend_id := VInt 1; tg_credential_references := VNone; tg_credential_authority := VNone |}.
Definition demo_backend : backend_target := {| bt_url := "https://rpc"; bt_verify_ssl := true |}.
Definition demo_row : execution :=
  {| ex_pk := 7; ex_procedure_name := NETBOX_PRODUCTION_RESTART_RQ_WORKER; ex_result_schema := VNone;
     ex_params := VDict []; ex_requested_by_id := VInt 3; ex_cols := initial; ex_events := [] |}.
Definition demo_restart : procedure := demo_procedure NETBOX_PRODUCTION_RESTART_RQ_WORKER.

Definition demo_request : RPCApprovalRequest :=
  match _create_approval_request demo_row demo_restart demo_target [("service", VStr "rq")] (Some demo_backend) with
  | Ok sn => sn
  | Err _ => snapshot_of demo_row demo_restart demo_target []
  end.
Definition demo_current : dict :=
  match _approval_protected_payload demo_row demo_restart demo_target [("service", VStr "rq")] (Some demo_backend) with
  | Ok d => d
  | Err _ => []
  end.
Lemma demo_request_made :
  _create_approval_request demo_row demo_restart demo_target [("service", VStr "rq")] (Some demo_backend)
  = Ok demo_request.
Proof. vm_compute. reflexivity. Defined.
Lemma demo_current_made :
  _approval_protected_payload demo_row demo_restart demo_target [("service", VStr "rq")] (Some demo_backend)
  = Ok demo_current.
Proof. vm_compute. reflexivity. Defined.
Lemma unchanged_request_matches_witness : matches_current demo_request demo_current = true.
Proof.
  assert (forall s, sha256 s <> EmptyString) as Hsha by (intros s; discriminate).
  exact (unchanged_request_matches demo_row demo_restart demo_target [("service", VStr "rq")] (Some demo_backend)
           demo_request demo_current Hsha demo_request_made demo_current_made).
Defined.
End Witnesses.
