(* ===== verification/Approvals.v ===== *)
(** * Commands on executions

    The commands of [netbox_rpc/application/command_handlers.py] that create, approve,
    reject, cancel, enqueue and claim an execution.  A transaction that raises leaves
    the committed execution as it was; a command that writes in more than one
    transaction returns the committed execution next to its result. *)

From S2P Require Import Prelude PyValue Events Projection CredentialContract.
From S2P Require Import Spans SpanFacts MaskFacts PyRegex SecretPatterns TextRedaction.
From S2P Require Import ValueRedaction RedactionFacts SchemaLimits EventStore EventStoreFacts.
From S2P Require Import Response ResponseFacts Aggregate Protected.

#[local] Opaque redact_event_value redact_event_data.

(** A user: the permissions, and the procedures each action is granted on. *)
Record user := {
  u_pk : value;
  has_perm : string -> bool;
  is_superuser : bool;
  restrict : string -> Z -> bool;
}.

(** ** Identities *)

Definition _approval_identities_are_authorized (name : string) (requested_by approved_by : value)
    (approver_is_superuser : bool) : bool :=
  match requested_by, approved_by with
  | VNone, _ | _, VNone => false
  | _, _ =>
      if negb (String.eqb (py_str requested_by) (py_str approved_by)) then true
      else if String.eqb name NETBOX_PRODUCTION_RESTART_RQ_WORKER then false
      else approver_is_superuser
  end.

Definition _allow_protected_self_approval (name : string) (u : user) : bool :=
  negb (String.eqb name NETBOX_PRODUCTION_RESTART_RQ_WORKER) && is_superuser u.

Definition _require_approval_authorization (procedure_pk : Z) (u : user) : res unit :=
  if negb (has_perm u "netbox_rpc.approve_rpcprocedure")
  then Err (PermissionDenied "approve_rpcprocedure permission is required.")
  else require (restrict u "view" procedure_pk)
         (PermissionDenied "You do not have object-scoped access to this procedure.").

Definition _require_protected_procedure_scope (p : procedure) (u : user) (action : string) : res unit :=
  require (restrict u action (pr_pk p))
    (PermissionDenied ("Object-scoped " +:+ action +:+ "_rpcprocedure permission is required for "
                         +:+ _protected_label (pr_name p) +:+ ".")).

Definition _require_restart_control_consumer (name : string) (live_worker : bool) : res unit :=
  require (negb (String.eqb name NETBOX_PRODUCTION_RESTART_RQ_WORKER) || live_worker)
    (ValidationError "procedure_id"
       "The dedicated netbox_rpc.control queue has no live consumer; the production NetBox RQ worker restart was not accepted.").

(** ** The age of a queued restart, in seconds *)

Definition CONTROL_QUEUE_MAX_AGE_SECONDS : Z := 600.
Definition _restart_queue_is_stale (name : string) (queued_at : option Z) (now : Z) : bool :=
  if negb (String.eqb name NETBOX_PRODUCTION_RESTART_RQ_WORKER) then false else
  match queued_at with
  | None => true
  | Some q => CONTROL_QUEUE_MAX_AGE_SECONDS <=? now - q
  end.
Definition _restart_queue_deadline (queued_at : option Z) : res Z :=
  match queued_at with None => Err ValueError | Some q => Ok (q + CONTROL_QUEUE_MAX_AGE_SECONDS) end.

(** What other modules answer while a command runs. *)
Record gates := {
  g_live_worker : bool;
  g_policy : res unit;
  g_backend : option backend_target;
  g_capability : res unit;
  g_normalized : res dict;
  g_target_statuses : list string;
}.

(** ** Samba AD DC provisioning: one open run per target *)

Definition UBUNTU_26_SAMBA_AD_DC_PROVISION : string := "os.linux.ubuntu.26.samba_ad_dc.provision".
Definition _SAMBA_PROVISION_OPEN_STATUSES : list string :=
  ["requested"; "pending_approval"; "approved"; "queued"; "running"].

(** [statuses]: those of the procedure's executions for the same target object. *)
Definition _require_no_concurrent_samba_provision (name : string) (statuses : list string) : res unit :=
  if negb (String.eqb name UBUNTU_26_SAMBA_AD_DC_PROVISION) then Ok tt else
  require (negb (existsb (fun st => str_in st _SAMBA_PROVISION_OPEN_STATUSES) statuses))
    (ValidationError "assigned_object_id"
       "Another Samba AD DC provision for this target is still open (requested, pending approval, approved, queued or running). The bootstrap is not rerunnable; wait for it to finish or be rejected before requesting another.").

(** A refusal of the normalizer, as an API error. *)
Definition as_params_error {A} (r : res A) : res A :=
  match r with
  | Err (RPCExecutionError _ m) => Err (ValidationError "params" m)
  | _ => r
  end.
Definition _validate_samba_provision_at_admission (name : string) (normalized : res dict) : res unit :=
  if negb (String.eqb name UBUNTU_26_SAMBA_AD_DC_PROVISION) then Ok tt
  else _ ← as_params_error normalized; Ok tt.

Definition STALE_MESSAGE : string :=
  "The production NetBox RQ worker restart exceeded the 10-minute queue age and was not dispatched.".

(** [except RPCExecutionError ... except RPCExecutionAggregateError ...]. *)
Definition as_api_error {A} (r : res A) : res A :=
  match r with
  | Err (RPCExecutionError _ m) => Err (ValidationError "params" m)
  | Err (RPCExecutionAggregateError m) => Err (ValidationError "status" m)
  | _ => r
  end.

Section Commands.
Context `{PyLib} `{JsonSchema}.

(** The job is published first; [job] is what the queue answered.  The caller's copy
may be older than the row by then. *)
Definition _enqueue_execution_job (s : session) (job : res value) (now : value) : session * res unit :=
match job with
| Err e =>
match on_memory (fun ex => mark_execution_failed ex
  "Failed to enqueue RPC job. Check RQ/Redis connectivity." "RPC_ENQUEUE_FAILED"
  (EVENT_NAME TExecutionEnqueueFailed) now) s with
| Ok s' => (s', Err e)
| Err e' => (s, Err e')
end
| Ok j =>
match on_memory (fun ex => enqueue ex j) s with
| Ok s' => (s', Ok tt)
| Err e => (s, Err e)
end
end.

Definition _resolve_validated_protected_backend_target (backend_id : value) (name : string)
(backend : option backend_target) : res (option backend_target) :=
_ ← _require_concrete_protected_backend_id backend_id name;
_ ← _protected_backend_target_sha256 backend_id name backend;
Ok backend.

(** ** Creation *)

(** [ex] is the row just inserted for the requester. *)
Definition _persist_execution_request (ex : execution) (p : procedure) (tg : target) (u : user)
(g : gates) : res (execution * option RPCApprovalRequest) :=
_ ← _require_no_concurrent_samba_provision (pr_name p) (g_target_statuses g);
if protected (pr_name p) then
normalized ← as_params_error (g_normalized g);
ex ← request ex (u_pk u);
sn ← _create_approval_request ex p tg normalized (g_backend g);
ex ← request_approval ex (payload_hash sn) VNone (u_pk u);
Ok (ex, Some sn)
else
_ ← _validate_samba_provision_at_admission (pr_name p) (g_normalized g);
ex ← queue ex;
Ok (ex, None).

(** [admission] is the outcome of the checks that precede the insert; the first
component is the execution that was committed, if any. *)
Definition create_execution (u : user) (admission : res unit) (ex : execution) (p : procedure)
(tg : target) (g : gates) (job : res value) (now : value) : option execution * res unit :=
if negb (has_perm u "netbox_rpc.execute_rpcprocedure")
then (None, Err (PermissionDenied "execute_rpcprocedure permission is required."))
else match admission with
| Err e => (None, Err e)
| Ok _ =>
match _persist_execution_request ex p tg u g with
| Err e => (None, Err e)
| Ok (ex', _) =>
if protected (pr_name p) then (Some ex', Ok tt)
else let '(s, r) := _enqueue_execution_job (fetch ex') job now in (Some (committed s), r)
end
end.

(** The children of an intent are created in order, each as a direct request would be;
the first refusal ends the run and the children before it stay. *)
Fixpoint create_children (children : list (unit -> option execution * res unit))
: list execution * res unit :=
match children with
| [] => ([], Ok tt)
| create :: rest =>
let '(made, r) := create tt in
let kept := match made with Some ex => [ex] | None => [] end in
match r with
| Err e => (kept, Err e)
| Ok _ => let '(more, r') := create_children rest in (kept ++ more, r')
end
end.
Definition execute_intent (u : user) (enabled : bool) (params : value)
(children : list (unit -> option execution * res unit)) : list execution * res unit :=
if negb (has_perm u "netbox_rpc.execute_rpcintent")
then ([], Err (PermissionDenied "execute_rpcintent permission is required."))
else if negb enabled then ([], Err (ValidationError "intent" "This intent is disabled."))
else match params with
| VNone | VDict _ =>
match children with
| [] => ([], Err (ValidationError "intent" "This intent has no grouped procedures to run."))
| _ => create_children children
end
| _ => ([], Err (ValidationError "params" "params must be a JSON object (mapping of param name to value)."))
end.

(** ** Decisions *)

Definition approve_locked (ex : execution) (p : procedure) (tg : target)
(snap : option RPCApprovalRequest) (u : user) (g : gates) (now : value) : res execution :=
_ ← _require_restart_control_consumer (pr_name p) (g_live_worker g);
_ ← g_policy g;
backend ← _resolve_validated_protected_backend_target (tg_backend_id tg) (pr_name p) (g_backend g);
_ ← _require_approved_backend_target_before_io (pr_name p) (tg_backend_id tg) snap backend;
_ ← g_capability g;
normalized ← g_normalized g;
current ← _approval_protected_payload ex p tg normalized backend;
reason ← (match table_get (pr_name p) _PROTECTED_APPROVAL_REASON with
| Some r => Ok r
| None => Err KeyError
end);
s ← approve (fetch ex) snap (u_pk u) (_allow_protected_self_approval (pr_name p) u)
(Some current) reason true now;
Ok (committed s).

Definition _approve_protected_execution (ex : execution) (p : procedure) (tg : target)
(snap : option RPCApprovalRequest) (u : user) (g : gates) (job : res value) (now : value)
: execution * res unit :=
match as_api_error (approve_locked ex p tg snap u g now) with
| Err e => (ex, Err e)
| Ok ex' => let '(s, r) := _enqueue_execution_job (fetch ex') job now in (committed s, r)
end.

Definition operator_notes (name : string) : exn :=
ValidationError "reason" (_protected_label name +:+ " does not accept operator notes.").

(** [s] is the row and the caller's copy of it. *)
Definition approve_execution (s : session) (p : procedure) (tg : target)
(snap : option RPCApprovalRequest) (u : user) (reason : string) (g : gates) (job : res value)
(now : value) : execution * res unit :=
let refused e := (committed s, Err e) in
match _require_approval_authorization (pr_pk p) u with
| Err e => refused e
| Ok _ =>
if protected (pr_name p) then
if str_truthy reason then refused (operator_notes (pr_name p)) else
match _require_protected_procedure_scope p u "approve" with
| Err e => refused e
| Ok _ => _approve_protected_execution (committed s) p tg snap u g job now
end
else
match as_api_error (approve s snap (u_pk u) (is_superuser u) None reason false now) with
| Err e => refused e
| Ok s' => (committed s', Ok tt)
end
end.

Definition reject_execution (s : session) (p : procedure) (snap : option RPCApprovalRequest)
(u : user) (reason : string) (now : value) : res execution :=
_ ← _require_approval_authorization (pr_pk p) u;
reason ← (if protected (pr_name p) then
  if str_truthy reason then Err (operator_notes (pr_name p)) else
  _ ← _require_protected_procedure_scope p u "approve";
  match table_get (pr_name p) _PROTECTED_REJECTION_REASON with
  | Some r => Ok r
  | None => Err KeyError
  end
else Ok reason);
s' ← as_api_error (reject s snap (u_pk u) reason now);
Ok (committed s').

Definition cancel_execution (ex : execution) (u : user) (now : value) : res execution :=
if negb (has_perm u "netbox_rpc.execute_rpcprocedure")
then Err (PermissionDenied "execute_rpcprocedure permission is required.")
else as_api_error (_transition_locked ex (on_memory (fun x => cancel x (u_pk u) now))).

(** ** Claims *)

(** What the worker reads while it holds the row and the procedure. *)
Record claim := {
c_queued_at : option Z;
c_clock : Z;
c_org_refusal : option (string * string);
c_policy : res unit;
c_approver_is_superuser : bool;
}.

(** The failure a claim ends in, if any; an unexpected exception of the policy check
passes through. *)
Definition claim_refusal (p : procedure) (c : claim) (ex : execution) : res (option (string * string)) :=
if negb (pr_enabled p)
then Ok (Some ("The RPC procedure for this execution has been disabled; execution not dispatched.",
     "RPC_PROCEDURE_DISABLED"))
else if _restart_queue_is_stale (pr_name p) (c_queued_at c) (c_clock c)
then Ok (Some (STALE_MESSAGE, "RPC_CONTROL_QUEUE_STALE"))
else match c_org_refusal c with
| Some r => Ok (Some r)
| None =>
if negb (protected (pr_name p)) then Ok None else
match c_policy c with
| Err (ValidationError _ _) =>
Ok (Some (_protected_label (pr_name p) +:+ " catalog policy changed after approval.",
        "RPC_APPROVAL_INVALIDATED"))
| Err e => Err e
| Ok _ =>
if _approval_identities_are_authorized (pr_name p) (ex_requested_by_id ex)
   (approved_by_id (ex_cols ex)) (c_approver_is_superuser c)
then Ok None
else Ok (Some (_protected_label (pr_name p)
     +:+ " requires a destructive, approval-required procedure and authorized approval identities.",
     "RPC_APPROVAL_REQUIRED"))
end
end.

Definition _claim_if_procedure_enabled (p : procedure) (c : claim) (now : value) (ex : execution)
: res execution :=
if negb (has_status ex QUEUED)
then Err (RPCExecutionAggregateError "Only a queued execution can be claimed by a worker.")
else
refusal ← claim_refusal p c ex;
match refusal with
| Some (msg, code) => fail ex msg code now
| None => start ex now
end.

(** [expire_stale_restart_execution] under the row lock; the flag is its result. *)
Definition expire_stale_restart_execution (ex : execution) (p : procedure) (queued_at : option Z)
(clock : Z) (now : value) : res (execution * bool) :=
if negb (has_status ex QUEUED) then Ok (ex, false)
else if negb (_restart_queue_is_stale (pr_name p) queued_at clock) then Ok (ex, false)
else
ex' ← _transition_locked ex (on_memory (fun x => fail x STALE_MESSAGE "RPC_CONTROL_QUEUE_STALE" now));
Ok (ex', true).
End Commands.
