(* ===== verification/ApprovalProperties.v ===== *)
(** * Properties of the execution commands

    The theorems about creation, approval, claims, timeouts and passwords, with their
    examples. *)

From S2P Require Import Prelude PyValue Events Projection CredentialContract.
From S2P Require Import Spans SpanFacts MaskFacts PyRegex SecretPatterns TextRedaction.
From S2P Require Import ValueRedaction RedactionFacts SchemaLimits EventStore EventStoreFacts.
From S2P Require Import Response ResponseFacts StoreProperties Aggregate AggregateFacts.
From S2P Require Import AggregateProperties Protected Approvals.

#[local] Opaque redact_event_value redact_event_data.

(** ** Sessions at the level of columns *)

Section Columns.
Context `{PyLib} `{JsonSchema}.
Implicit Types ex : execution.

Lemma session_append s e s' :
  ledger_ok (ex_events (committed s)) ->
  on_memory (fun ex => _append_and_project ex e) s = Ok s' ->
  exists red, from_data (type_of e)
      (row_data (event_row (ex_result_schema (committed s)) (_persistable_failure_event e)
                   (Z.of_nat (length (ex_events (committed s))) + 1))) = Ok red /\
    held s' = (_write_projection (held s) (apply (from_execution (held s)) red)).1 /\
    ex_cols (committed s') = save_columns (ex_cols (committed s)) (held s) (held s') /\
    ledger_ok (ex_events (committed s')) /\
    ex_requested_by_id (committed s') = ex_requested_by_id (committed s).
Proof.
  intros Hl Ho. unfold on_memory in Ho. apply bind_Ok in Ho as (ex' & Ha & Hx). injection Hx as <-.
  destruct (append_ledger (memory s) e ex' Hl Ha) as (Hl' & _).
  destruct (append_and_project_spec (memory s) e ex' Hl Ha) as (red & Hd & ->).
  exists red. split; [exact Hd|]. by cbn.
Qed.

(** The approver is stored as it is: an integer key survives the ledger. *)
Lemma stored_approver schema z hash now reason sequence red :
  from_data TExecutionApproved
    (row_data (event_row schema (ExecutionApproved (VInt z) hash now reason) sequence)) = Ok red ->
  forall s, approved_by_id (apply s red) = VInt z.
Proof.
  intros Hd s. cbn [from_data] in Hd. injection Hd as <-. cbn [apply approved_by_id].
  cbn [row_data event_row make_row].
  rewrite (redact_data_get _ _ "approved_by_id" (VInt z)).
  - rewrite redact_unguarded by (by vm_compute). done.
  - cbn [data]. unfold opt_str_entry. destruct (str_truthy reason); compute_done.
  - cbn [data]. unfold opt_str_entry. destruct (str_truthy reason); cbn; lia.
  - cbn [data]. right. left.
  - by vm_compute.
Qed.

Lemma keep_equal_VNone (v : value) : v <> VNone -> keep_equal id VNone v = v.
Proof.
  intros Hv. unfold keep_equal, py_eqb. rewrite bool_decide_false; [done|].
  unfold py_eq. by destruct v.
Qed.

(** Approving and queueing a pending row records who approved. *)
Lemma approve_records ex snap z allow current reason now s :
  in_phase (At PENDING_APPROVAL) ex -> approved_by_id (ex_cols ex) = VNone ->
  approve (fetch ex) snap (VInt z) allow current reason true now = Ok s ->
  in_phase (At QUEUED) (committed s) /\ approved_by_id (ex_cols (committed s)) = VInt z /\
  ex_requested_by_id (committed s) = ex_requested_by_id ex.
Proof.
  intros Hi Hnone Ha.
  unfold approve in Ha. apply bind_Ok in Ha as (sn & _ & Ha). apply bind_Ok in Ha as (? & _ & Ha).
  apply bind_Ok in Ha as (? & _ & Ha).
  unfold _decide_from_pending in Ha. cbn [fetch committed held] in Ha. rewrite (guard_status _ _ _ Hi) in Ha.
  rewrite bool_decide_true in Ha by done. cbn [negb] in Ha.
  set (s0 := {| committed := ex; held := set_status (status (ex_cols ex)) (ex_cols ex) |}) in Ha.
  apply bind_Ok in Ha as (s1 & H1 & H2).
  destruct (session_append s0 (ExecutionApproved (VInt z) (payload_hash sn) now reason) s1 (proj1 Hi) H1)
    as (red1 & Hd1 & Hh1 & Hc1 & Hl1 & Hr1).
  pose proof (stored_approver _ _ _ _ _ _ _ Hd1) as Happ.
  apply queue_after_append in H2.
  destruct (session_append s1 (ExecutionQueued (ex_requested_by_id (committed s1))) s Hl1 H2)
    as (red2 & Hd2 & Hh2 & Hc2 & Hl2 & Hr2).
  assert (approved_by_id (held s1) = VInt z) as Hheld1.
  { rewrite Hh1. cbn [fst _write_projection approved_by_id]. rewrite Happ.
    cbn [held s0 set_status approved_by_id]. rewrite Hnone. by apply keep_equal_VNone. }
  assert (approved_by_id (ex_cols (committed s1)) = VInt z) as Hcol1.
  { rewrite Hc1. cbn [save_columns approved_by_id committed held s0 set_status]. rewrite Hnone, Hheld1.
    unfold save_field, py_eqb. by rewrite bool_decide_false. }
  assert (approved_by_id (held s) = VInt z) as Hheld2.
  { rewrite Hh2. cbn [from_data type_of] in Hd2. injection Hd2 as <-.
    cbn [fst _write_projection approved_by_id apply from_execution with_status]. rewrite Hheld1.
    unfold keep_equal. by destruct (py_eqb _ _). }
  split; [|split].
  - destruct (synced_append (At PENDING_APPROVAL) (At APPROVED) s0
      (ExecutionApproved (VInt z) (payload_hash sn) now reason) s1 eq_refl Hi eq_refl eq_refl H1) as (Hs1 & Hi1 & _).
    by destruct (synced_append (At APPROVED) (At QUEUED) s1 (ExecutionQueued (ex_requested_by_id (committed s1))) s
      Hs1 Hi1 eq_refl eq_refl H2) as (_ & Hi2 & _).
  - rewrite Hc2. cbn [save_columns approved_by_id]. rewrite Hheld1, Hheld2, Hcol1.
    unfold save_field. by destruct (py_eqb _ _).
  - by rewrite Hr2, Hr1.
Qed.
End Columns.

(** ** What the properties say of a command *)

Section Specs.
Context `{PyLib} `{JsonSchema}.
Implicit Types ex : execution.

(** A queued execution may start. *)
Definition may_start (p : procedure) (c : claim) ex : bool :=
pr_enabled p && negb (_restart_queue_is_stale (pr_name p) (c_queued_at c) (c_clock c))
&& (match c_org_refusal c with None => true | Some _ => false end)
&& (negb (protected (pr_name p))
  || (is_Ok (c_policy c)
      && _approval_identities_are_authorized (pr_name p) (ex_requested_by_id ex)
           (approved_by_id (ex_cols ex)) (c_approver_is_superuser c))).

(** The claim finds everything but the identities in order. *)
Definition claim_in_order (p : procedure) (c : claim) : Prop :=
pr_enabled p = true /\ _restart_queue_is_stale (pr_name p) (c_queued_at c) (c_clock c) = false /\
c_org_refusal c = None /\ c_policy c = Ok tt.

(** The permissions an approval needs. *)
Definition granted (u : user) (p : procedure) : Prop :=
has_perm u "netbox_rpc.approve_rpcprocedure" = true /\ restrict u "view" (pr_pk p) = true /\
(protected (pr_name p) = true -> restrict u "approve" (pr_pk p) = true).

(** Whether the requester may decide on their own request. *)
Definition self_approval (u : user) (p : procedure) : bool :=
if protected (pr_name p) then _allow_protected_self_approval (pr_name p) u else is_superuser u.

(** What creation leaves behind: a request waiting for a decision, or a queued
execution with its job, or one that failed because there is no job. *)
Definition created_as (p : procedure) (job : res value) ex (r : res unit) : Prop :=
if protected (pr_name p)
then classes ex = [TExecutionRequested; TApprovalRequested] /\
   status (ex_cols ex) = status_value PENDING_APPROVAL /\ r = Ok tt
else match job with
| Ok _ => classes ex = [TExecutionQueued; TJobEnqueued] /\ status (ex_cols ex) = status_value QUEUED /\ r = Ok tt
| Err e => classes ex = [TExecutionQueued; TExecutionEnqueueFailed] /\
         status (ex_cols ex) = status_value FAILED /\ r = Err e
end.

(** The protected procedures without a fixed approval text. *)
Definition without_reason : list string :=
List.filter (fun n => match table_get n _PROTECTED_APPROVAL_REASON with None => true | Some _ => false end)
PROTECTED_APPROVAL_PROCEDURE_NAMES.
End Specs.

Section Properties.
Context `{PyLib} `{JsonSchema}.
Implicit Types ex : execution.

Lemma as_api_error_Ok {A} (r : res A) a : as_api_error r = Ok a -> r = Ok a.
Proof. destruct r as [x|[]]; done. Qed.

Lemma claim_decided p c ex :
  (forall e, c_policy c = Err e -> exists f m, e = ValidationError f m) ->
  exists r, claim_refusal p c ex = Ok r /\ (r = None <-> may_start p c ex = true).
Proof.
  intros Hp. unfold claim_refusal, may_start.
  destruct (pr_enabled p); cbn [negb andb]; [|by eexists].
  destruct (_restart_queue_is_stale _ _ _); cbn [negb andb]; [by eexists|].
  destruct (c_org_refusal c); cbn [andb]; [by eexists|].
  destruct (protected (pr_name p)); cbn [negb orb]; [|by eexists].
  destruct (c_policy c) as [[]|e] eqn:E; cbn [is_Ok andb].
  - destruct (_approval_identities_are_authorized _ _ _ _); by eexists.
  - destruct (Hp e eq_refl) as (f & m & ->). by eexists.
Qed.

(** On a queued row the claim records one event: the start, or the failure. *)
Lemma claim_records p c now ex q :
  in_phase q ex -> phase_status q = QUEUED ->
  (forall e, c_policy c = Err e -> exists f m, e = ValidationError f m) ->
  exists e, writable e = true /\
    next q (type_of e) = Some (At (if may_start p c ex then RUNNING else FAILED)) /\
    _claim_if_procedure_enabled p c now ex = _append_and_project ex e.
Proof.
  intros Hq Hqs Hp. destruct (claim_decided p c ex Hp) as (r & Hc & Hiff).
  assert (final q = false) as Hfin by (by destruct q as [|[]]).
  assert (_ensure_not_terminal ex = Ok tt) as Hlive.
  { unfold _ensure_not_terminal. destruct Hq as (_ & _ & ->). by rewrite terminal_phase, Hfin. }
  unfold _claim_if_procedure_enabled. rewrite (guard_status _ _ _ Hq), Hqs, Hc. cbn [negb].
  destruct r as [[msg code]|].
  - assert (may_start p c ex = false) as -> by (destruct (may_start p c ex); [discriminate (proj2 Hiff eq_refl)|done]).
    exists (ExecutionFailed msg code now []). split; [done|].
    split; [cbn [type_of next]; by rewrite Hfin|].
    cbn [mbind result_bind]. unfold fail. by rewrite Hlive.
  - rewrite (proj1 Hiff eq_refl). exists (ExecutionStarted now). split; [done|].
    split; [by destruct q as [|[]]|].
    cbn [mbind result_bind]. unfold start. by rewrite Hlive, (guard_status _ _ _ Hq), Hqs.
Qed.

(** A claim under the row lock always decides: a queued execution starts exactly
    when its procedure is enabled, a restart is young enough, no closed organization
    runner request is refused, and a protected procedure still has its policy and
    authorized identities; in every other case it fails and is never dispatched. *)
Theorem claim_starts_or_fails ex0 ex p c now :
  fresh ex0 -> rtc agg_step ex0 ex -> status (ex_cols ex) = status_value QUEUED ->
  (forall e, c_policy c = Err e -> exists f m, e = ValidationError f m) ->
  exists ex', _transition_locked ex (on_memory (_claim_if_procedure_enabled p c now)) = Ok ex' /\
    status (ex_cols ex') = status_value (if may_start p c ex then RUNNING else FAILED).
Proof.
  intros Hf Hr Hst Hp. destruct (agg_reachable_phase _ _ Hf Hr) as (q & Hq).
  assert (phase_status q = QUEUED) as Hqs.
  { destruct Hq as (_ & _ & Hs). rewrite Hst in Hs. by apply status_value_inj. }
  pose proof (memory_in_phase _ (fetch ex) eq_refl Hq) as Hm.
  destruct (claim_records p c now (memory (fetch ex)) q Hm Hqs Hp) as (e & Hw & Hn & Hop).
  destruct (append_total (memory (fetch ex)) e (proj1 Hq)) as [ex1 Ha].
  assert (exists s, on_memory (fun x => _append_and_project x e) (fetch ex) = Ok s) as [s Hs]
    by (eexists; unfold on_memory; by rewrite Ha).
  exists (committed s). unfold _transition_locked.
  replace (on_memory (_claim_if_procedure_enabled p c now) (fetch ex)) with (Ok (E := exn) s)
    by (rewrite <- Hs; unfold on_memory; by rewrite Hop).
  split; [done|]. by destruct (synced_append q _ (fetch ex) e s eq_refl Hq Hw Hn Hs) as (_ & (_ & _ & ?) & _).
Qed.

(** What was approved can be claimed: once an approval of a protected procedure is
    committed, the worker's check of the identities accepts the same approver, so the
    execution starts when nothing else has changed; and for the production restart the
    approver is not the requester, superuser or not. *)
Theorem approval_admits_claim ex p tg sn u g now z ex' c :
  in_phase (At PENDING_APPROVAL) ex -> approved_by_id (ex_cols ex) = VNone ->
  ex_requested_by_id ex <> VNone -> sn_requested_by_id sn = ex_requested_by_id ex -> u_pk u = VInt z ->
  approve_locked ex p tg (Some sn) u g now = Ok ex' ->
  claim_in_order p c -> c_approver_is_superuser c = is_superuser u ->
  status (ex_cols ex') = status_value QUEUED /\ may_start p c ex' = true /\
  (pr_name p = NETBOX_PRODUCTION_RESTART_RQ_WORKER -> py_str (VInt z) <> py_str (ex_requested_by_id ex)).
Proof.
  intros Hi Hnone Hreq Hsn Hz Ha (Hen & Hstale & Horg & Hpol) Hsup. unfold approve_locked in Ha.
  do 8 (apply bind_Ok in Ha as (? & _ & Ha)). apply bind_Ok in Ha as (s & Ha & Hx). injection Hx as <-.
  rewrite Hz in Ha. destruct (approve_records _ _ _ _ _ _ _ _ Hi Hnone Ha) as ((_ & _ & Hst) & Hcol & Hsame).
  apply approve_authorized in Ha as (sn' & [= <-] & _ & Hdist & _ & _). rewrite Hsn in Hdist.
  split; [done|]. split.
  - unfold may_start. rewrite Hen, Hstale, Horg, Hpol, Hcol, Hsame, Hsup. cbn [andb negb is_Ok].
    apply orb_true_iff. right. unfold _approval_identities_are_authorized.
    destruct (String.eqb_spec (py_str (ex_requested_by_id ex)) (py_str (VInt z))) as [E|E]; cbn [negb].
    + unfold _allow_protected_self_approval in Hdist.
      destruct (String.eqb (pr_name p) NETBOX_PRODUCTION_RESTART_RQ_WORKER); cbn [negb andb] in Hdist;
        [by destruct (Hdist eq_refl Hreq)|].
      destruct (is_superuser u); [|by destruct (Hdist eq_refl Hreq)]. by destruct (ex_requested_by_id ex).
    + by destruct (ex_requested_by_id ex).
  - intros Hname. apply Hdist; [|done]. unfold _allow_protected_self_approval. by rewrite Hname.
Qed.

(** An approval command that succeeds was permitted: the user holds the approval
    permission, sees the procedure, for a protected procedure is granted the approval
    of that procedure, and the aggregate's conditions hold with self-approval only
    where the policy allows it. *)
Theorem approval_needs_permission s p tg snap u reason g job now ex' :
  approve_execution s p tg snap u reason g job now = (ex', Ok tt) ->
  granted u p /\ exists current, authorized (committed s) snap (u_pk u) (self_approval u p) current /\
    (protected (pr_name p) = true -> exists c, current = Some c).
Proof.
  unfold approve_execution, granted, self_approval. intros Ha.
  destruct (_require_approval_authorization (pr_pk p) u) as [[]|e] eqn:Hauth; [|done].
  unfold _require_approval_authorization in Hauth.
  destruct (has_perm u "netbox_rpc.approve_rpcprocedure"); [|done]. cbn [negb] in Hauth.
  apply require_Ok in Hauth. rewrite Hauth.
  destruct (protected (pr_name p)).
  - destruct (str_truthy reason); [done|].
    destruct (_require_protected_procedure_scope p u "approve") as [[]|e] eqn:Hsc; [|done].
    apply require_Ok in Hsc. split; [done|]. unfold _approve_protected_execution in Ha.
    destruct (as_api_error _) as [ex1|e] eqn:E; [|done]. apply as_api_error_Ok in E. unfold approve_locked in E.
    do 6 (apply bind_Ok in E as (? & _ & E)). apply bind_Ok in E as (current & _ & E).
    apply bind_Ok in E as (? & _ & E). apply bind_Ok in E as (s1 & E & _).
    apply approve_authorized in E. exists (Some current). split; [exact E|]. by eexists.
  - destruct (as_api_error _) as [s1|e] eqn:E; [|done]. apply as_api_error_Ok in E.
    apply approve_authorized in E. split; [done|]. exists None. split; [exact E|done].
Qed.

Lemma request_then_pending ex ex1 ex2 user1 hash exp user2 :
  fresh ex -> request ex user1 = Ok ex1 -> request_approval ex1 hash exp user2 = Ok ex2 ->
  in_phase (At PENDING_APPROVAL) ex2 /\ classes ex2 = [TExecutionRequested; TApprovalRequested].
Proof.
  intros Hf H1 H2. pose proof (fresh_in_phase _ Hf) as Hi. unfold request in H1.
  destruct (has_events ex); [done|].
  destruct (append_in_phase Created (At REQUESTED) ex (ExecutionRequested _) ex1 Hi eq_refl eq_refl H1) as [Hi1 Hc1].
  unfold request_approval in H2. destruct (negb (has_status ex1 REQUESTED)); [done|].
  destruct (negb (str_truthy hash)); [done|].
  destruct (append_in_phase (At REQUESTED) (At PENDING_APPROVAL) ex1 (ApprovalRequested _ _ _) ex2 Hi1 eq_refl eq_refl H2)
    as [Hi2 Hc2].
  split; [done|]. rewrite Hc2, Hc1. unfold classes. by destruct Hf as [-> _].
Qed.

Lemma queued_first ex ex' :
  fresh ex -> queue ex = Ok ex' -> in_phase (At QUEUED) ex' /\ classes ex' = [TExecutionQueued].
Proof.
  intros Hf Hq. pose proof (fresh_in_phase _ Hf) as Hi. unfold queue in Hq.
  destruct (negb (has_status ex QUEUED)); [done|]. destruct (has_events ex); [done|].
  destruct (append_in_phase Created (At QUEUED) ex (ExecutionQueued _) ex' Hi eq_refl eq_refl Hq) as [Hi1 Hc1].
  split; [done|]. rewrite Hc1. unfold classes. by destruct Hf as [-> _].
Qed.

(** The job record, or the failure to get a job, on a row that is queued. *)
Lemma enqueue_outcome ex job now s r :
  in_phase (At QUEUED) ex -> _enqueue_execution_job (fetch ex) job now = (s, r) ->
  match job with
  | Ok _ => classes (committed s) = classes ex ++ [TJobEnqueued] /\ in_phase (At QUEUED) (committed s) /\ r = Ok tt
  | Err e => classes (committed s) = classes ex ++ [TExecutionEnqueueFailed] /\ in_phase (At FAILED) (committed s) /\ r = Err e
  end.
Proof.
  intros Hi He. unfold _enqueue_execution_job in He. destruct job as [j|e].
  - destruct (on_memory (fun x => enqueue x j) (fetch ex)) as [s1|e] eqn:E.
    + injection He as <- <-. destruct (stale_enqueue _ _ _ _ _ Hi E) as (Hi' & Hc & _). done.
    + exfalso. destruct (append_total (memory (fetch ex)) (JobEnqueued j) (proj1 Hi)) as [ex1 Ha].
      pose proof (memory_in_phase _ (fetch ex) eq_refl Hi) as Hm.
      assert (enqueue (memory (fetch ex)) j = Ok ex1) as Hen.
      { unfold enqueue, _ensure_not_terminal. rewrite (guard_status _ _ _ Hm).
        destruct Hm as (_ & _ & ->). exact Ha. }
      unfold on_memory in E. rewrite Hen in E. discriminate E.
  - set (f := ExecutionEnqueueFailed "Failed to enqueue RPC job. Check RQ/Redis connectivity." "RPC_ENQUEUE_FAILED" now).
    destruct (on_memory _ (fetch ex)) as [s1|e'] eqn:E.
    + injection He as <- <-.
      destruct (synced_append (At QUEUED) (At FAILED) (fetch ex) f s1 eq_refl Hi eq_refl eq_refl E) as (_ & Hi' & Hc). done.
    + exfalso. destruct (append_total (memory (fetch ex)) f (proj1 Hi)) as [ex1 Ha].
      unfold on_memory, mark_execution_failed in E. rewrite String.eqb_refl in E. unfold f in Ha.
      rewrite Ha in E. discriminate E.
Qed.

(** Creating an execution has exactly three outcomes once it is admitted: a
    protected procedure becomes a request that waits for a decision and has no job; any
    other procedure is queued with its job recorded; and when the queue refuses the
    job the execution has failed, so nothing stays queued without a job. *)
Theorem creation_outcome u admission ex p tg g job now ex' r :
  fresh ex -> create_execution u admission ex p tg g job now = (Some ex', r) ->
  has_perm u "netbox_rpc.execute_rpcprocedure" = true /\ admission = Ok tt /\ created_as p job ex' r.
Proof.
  intros Hf Hc. unfold create_execution in Hc.
  destruct (has_perm u "netbox_rpc.execute_rpcprocedure"); [|done]. cbn [negb] in Hc. split; [done|].
  destruct admission as [[]|e]; [|done]. split; [done|].
  destruct (_persist_execution_request ex p tg u g) as [[ex1 snap]|e] eqn:Hp; [|done].
  unfold _persist_execution_request in Hp. apply bind_Ok in Hp as (? & _ & Hp). unfold created_as.
  destruct (protected (pr_name p)).
  - injection Hc as <- <-. apply bind_Ok in Hp as (n & _ & Hp). apply bind_Ok in Hp as (ex2 & H1 & Hp).
    apply bind_Ok in Hp as (sn & _ & Hp). apply bind_Ok in Hp as (ex3 & H2 & Hp). injection Hp as <- <-.
    destruct (request_then_pending _ _ _ _ _ _ _ Hf H1 H2) as ((_ & _ & Hs) & Hcl). done.
  - apply bind_Ok in Hp as (? & _ & Hp). apply bind_Ok in Hp as (ex2 & H1 & Hp). injection Hp as <- <-.
    destruct (queued_first _ _ Hf H1) as [Hi Hcl].
    destruct (_enqueue_execution_job (fetch ex2) job now) as [s r'] eqn:He. injection Hc as <- <-.
    pose proof (enqueue_outcome _ _ _ _ _ Hi He) as Ho. rewrite Hcl in Ho.
    destruct job; destruct Ho as (? & (_ & _ & ?) & ?); done.
Qed.

(** Four protected procedures can never be decided: the three Keycloak IAM UI
    writes and the OpenBao AppRole provisioning have no fixed approval or rejection
    text, so every approval and every rejection of them raises, whoever decides. *)
Theorem protected_without_reason_undecidable name :
  name ∈ without_reason ->
  protected name = true /\
  forall s p tg snap u reason g job now, pr_name p = name ->
    (exists e, approve_execution s p tg snap u reason g job now = (committed s, Err e)) /\
    (exists e, reject_execution s p snap u reason now = Err e).
Proof.
  intros Hn.
  assert (protected name = true /\ table_get name _PROTECTED_APPROVAL_REASON = None /\
    table_get name _PROTECTED_REJECTION_REASON = None) as (Hp & Ha & Hr).
  { vm_compute in Hn. repeat (apply elem_of_cons in Hn as [->|Hn]; [by vm_compute|]). by apply elem_of_nil in Hn. }
  split; [done|]. intros s p tg snap u reason g job now <-. split.
  - unfold approve_execution. destruct (_require_approval_authorization _ _) as [[]|e]; [|by eexists].
    rewrite Hp. destruct (str_truthy reason); [by eexists|].
    destruct (_require_protected_procedure_scope _ _ _) as [[]|e]; [|by eexists].
    unfold _approve_protected_execution. destruct (as_api_error _) as [ex1|e] eqn:E; [|by eexists].
    apply as_api_error_Ok in E. unfold approve_locked in E.
    do 7 (apply bind_Ok in E as (? & _ & E)). rewrite Ha in E. discriminate E.
  - unfold reject_execution. destruct (_require_approval_authorization _ _) as [[]|e]; [|by eexists].
    cbn [mbind result_bind]. rewrite Hp. destruct (str_truthy reason); [by eexists|].
    destruct (_require_protected_procedure_scope _ _ _) as [[]|e]; [|by eexists].
    cbn [mbind result_bind]. rewrite Hr. by eexists.
Qed.
End Properties.

#[local] Transparent redact_event_value redact_event_data.

(** ** Examples: the production restart, requested by user 3 and approved by user 4 *)

Section Witnesses.
Import MiniSchema Demo.

Definition demo_user (pk : Z) : user :=
  {| u_pk := VInt pk; has_perm := fun _ => true; is_superuser := false; restrict := fun _ _ => true |}.
Definition demo_gates : gates :=
  {| g_live_worker := true; g_policy := Ok tt; g_backend := Some demo_backend; g_capability := Ok tt;
     g_normalized := Ok [("service", VStr "rq")]; g_target_statuses := [] |}.
Definition demo_claim : claim :=
  {| c_queued_at := Some 1000; c_clock := 1060; c_org_refusal := None; c_policy := Ok tt;
     c_approver_is_superuser := false |}.

Definition demo_waiting : execution :=
  Eval vm_compute in
    default demo_row (create_execution (demo_user 3) (Ok tt) demo_row demo_restart demo_target demo_gates
                        (Ok (VInt 11)) demo_now).1.
Lemma demo_created_ok :
  create_execution (demo_user 3) (Ok tt) demo_row demo_restart demo_target demo_gates (Ok (VInt 11)) demo_now
  = (Some demo_waiting, Ok tt).
Proof. vm_compute. reflexivity. Defined.
Lemma creation_outcome_witness : created_as demo_restart (Ok (VInt 11)) demo_waiting (Ok tt).
Proof.
  exact (proj2 (proj2 (creation_outcome (demo_user 3) (Ok tt) demo_row demo_restart demo_target demo_gates
    (Ok (VInt 11)) demo_now demo_waiting (Ok tt) (conj eq_refl eq_refl) demo_created_ok))).
Defined.

Definition demo_go : execution :=
  Eval vm_compute in
    match approve_locked demo_waiting demo_restart demo_target (Some demo_request) (demo_user 4) demo_gates demo_now with
    | Ok ex => ex
    | Err _ => demo_waiting
    end.
Lemma demo_go_ok :
  approve_locked demo_waiting demo_restart demo_target (Some demo_request) (demo_user 4) demo_gates demo_now
  = Ok demo_go.
Proof. vm_compute. reflexivity. Defined.
Lemma demo_waiting_phase : in_phase (At PENDING_APPROVAL) demo_waiting.
Proof.
  split; [|split; vm_compute; reflexivity].
  intros i r Hr. do 2 (destruct i as [|i]; [injection Hr as <-; vm_compute; reflexivity|]). discriminate Hr.
Defined.
Lemma demo_claim_in_order : claim_in_order demo_restart demo_claim.
Proof. repeat split; vm_compute; reflexivity. Defined.
Lemma approval_admits_claim_witness :
  status (ex_cols demo_go) = status_value QUEUED /\ may_start demo_restart demo_claim demo_go = true /\
  (pr_name demo_restart = NETBOX_PRODUCTION_RESTART_RQ_WORKER -> py_str (VInt 4) <> py_str (VInt 3)).
Proof.
  assert (VInt 3 <> VNone) as Hn by discriminate.
  exact (approval_admits_claim demo_waiting demo_restart demo_target demo_request (demo_user 4) demo_gates demo_now 4
    demo_go demo_claim demo_waiting_phase eq_refl Hn eq_refl eq_refl demo_go_ok demo_claim_in_order eq_refl).
Defined.

Definition demo_published : execution :=
  Eval vm_compute in
    (approve_execution (fetch demo_waiting) demo_restart demo_target (Some demo_request) (demo_user 4) EmptyString
       demo_gates (Ok (VInt 11)) demo_now).1.
Lemma demo_approved_ok :
  approve_execution (fetch demo_waiting) demo_restart demo_target (Some demo_request) (demo_user 4) EmptyString
    demo_gates (Ok (VInt 11)) demo_now = (demo_published, Ok tt).
Proof. vm_compute. reflexivity. Defined.
Lemma approval_needs_permission_witness : granted (demo_user 4) demo_restart.
Proof.
  exact (proj1 (approval_needs_permission (fetch demo_waiting) demo_restart demo_target (Some demo_request)
    (demo_user 4) EmptyString demo_gates (Ok (VInt 11)) demo_now demo_published demo_approved_ok)).
Defined.

Lemma demo_policy_known : forall e, c_policy demo_claim = Err e -> exists f m, e = ValidationError f m.
Proof. intros e He. discriminate He. Defined.
Lemma claim_starts_or_fails_witness :
  exists ex', _transition_locked demo_queued
      (on_memory (_claim_if_procedure_enabled (demo_procedure "service.demo.restart") demo_claim demo_now)) = Ok ex' /\
    status (ex_cols ex') = status_value RUNNING.
Proof.
  exact (claim_starts_or_fails demo_new demo_queued (demo_procedure "service.demo.restart") demo_claim demo_now
    demo_fresh demo_reach_queued eq_refl demo_policy_known).
Defined.

Lemma protected_without_reason_undecidable_witness :
  length without_reason = 4%nat /\
  exists e, reject_execution (fetch demo_waiting) (demo_procedure "service.keycloak.iam_ui.configure")
    (Some demo_request) (demo_user 4) EmptyString demo_now = Err e.
Proof.
  split; [vm_compute; reflexivity|].
  assert ("service.keycloak.iam_ui.configure" ∈ without_reason) as Hin by (vm_compute; left).
  exact (proj2 (proj2 (protected_without_reason_undecidable "service.keycloak.iam_ui.configure" Hin)
    (fetch demo_waiting) (demo_procedure "service.keycloak.iam_ui.configure") demo_target (Some demo_request)
    (demo_user 4) EmptyString demo_gates (Ok (VInt 11)) demo_now eq_refl)).
Defined.
End Witnesses.
