(* ===== verification/Fence.v ===== *)
(** * The scope fence of the Gitea runner procedures

    The durable fence of one registration-token scope: [RPCGiteaRunnerScopeFence] of
    [netbox_rpc/models.py] and the three operations on it in
    [netbox_rpc/application/command_handlers.py].  Each runs in one transaction on the
    locked fence row; [clock] is the current time in seconds. *)

From S2P Require Import Prelude PyValue Events Projection CredentialContract.
From S2P Require Import Spans SpanFacts MaskFacts PyRegex SecretPatterns TextRedaction.
From S2P Require Import ValueRedaction RedactionFacts SchemaLimits EventStore EventStoreFacts.
From S2P Require Import Response ResponseFacts Aggregate AggregateFacts StoreProperties AggregateProperties Protected.

#[local] Opaque redact_event_value redact_event_data.

Inductive fence_state : Type := STATE_CLEAR | STATE_PENDING | STATE_BLOCKED.
#[export] Instance fence_state_eq_dec : EqDecision fence_state.
Proof. solve_decision. Defined.
Definition fence_state_value (st : fence_state) : string :=
  match st with STATE_CLEAR => "clear" | STATE_PENDING => "pending" | STATE_BLOCKED => "blocked" end.

Record fence := {
  f_state : fence_state;
  blocking_execution_id : option Z;
  reconciliation_execution_id : option Z;
  takeover_generation : Z;
  expected_token_sha256 : string;
  last_reset_state : string;
  last_prior_token_id : value;
  last_replacement_token_id : value;
  last_prior_active_sha256 : string;
  last_updated : Z;
}.

(** The two check constraints of the table. *)
Definition fence_consistent (f : fence) : bool :=
  match f_state f with
  | STATE_CLEAR => (match blocking_execution_id f with None => true | Some _ => false end)
                   && negb (str_truthy (expected_token_sha256 f))
  | _ => match blocking_execution_id f with Some _ => true | None => false end
  end
  && match reconciliation_execution_id f with
     | None => true
     | Some _ => bool_decide (f_state f = STATE_BLOCKED)
     end.

Definition id_value (o : option Z) : value := match o with Some z => VInt z | None => VNone end.

(** ** The two contracts *)

Definition FENCE_UNKNOWN_SHA256 : string :=
  "0000000000000000000000000000000000000000000000000000000000000000".
Definition JS_SAFE_INTEGER_MAX : Z := 9007199254740991.
Definition RECONCILIATION_QUIESCENCE_SECONDS : Z := 1800.

Definition is_org (name : string) : bool := String.eqb name GITEA_ORG_CI_RUNNER_PROVISION.
Definition _gitea_runner_start_operation (name : string) : string :=
  if is_org name then "provision" else "register".

Definition CLOSED_STATUSES : list string := ["cancelled"; "expired"; "failed"; "rejected"; "succeeded"].

(** [blocking] is the execution the fence refers to. *)
Definition _gitea_runner_fence_is_quiescent (f : fence) (blocking : option execution)
    (delay_seconds clock : Z) : bool :=
  match blocking_execution_id f, blocking with
  | Some id, Some b =>
      let st := status (ex_cols b) in
      (ex_pk b =? id)
      && (str_in st CLOSED_STATUSES
          || (bool_decide (f_state f = STATE_PENDING) && String.eqb st "running"))
      && (last_updated f <=? clock - delay_seconds)
  | _, _ => false
  end.

Definition fence_error (code message : string) : exn := RPCExecutionError code message.
Definition fence_changed : exn :=
  fence_error "RPC_SCOPE_FENCE_CHANGED" "Gitea runner scope fence changed after approval.".

Section Fence.
Context `{PyLib} `{JsonSchema}.

(** The snapshot in the normalized parameters still describes the fence, and the
generation it asks for is the next one. *)
Definition snapshot_current (f : fence) (normalized : dict) : bool :=
String.eqb (fence_state_value (f_state f)) (get_str "fence_state" EmptyString normalized)
&& py_eqb (id_value (blocking_execution_id f)) (get "fence_execution_id" normalized)
&& String.eqb (str_or (expected_token_sha256 f) FENCE_UNKNOWN_SHA256)
 (get_str "fence_expected_sha256" EmptyString normalized)
&& match get "fence_generation" normalized with
 | VInt g => (g =? takeover_generation f + 1) && (g <=? JS_SAFE_INTEGER_MAX)
 | _ => false
 end.

(** The takeover of a pending scope: a worker that is still running is failed. *)
Definition release_blocking (f : fence) (blocking : option execution) (now : value) : res (option execution) :=
if negb (bool_decide (f_state f = STATE_PENDING)) then Ok blocking else
match blocking with
| None => Err (fence_error "RPC_SCOPE_FENCE_CHANGED" "Gitea runner blocking execution is unavailable.")
| Some b =>
if String.eqb (status (ex_cols b)) "running" then
b' ← mark_execution_failed b
       "Gitea runner worker was lost after scope reservation; reconciliation is required."
       "RPC_RUNNER_WORKER_LOST" (EVENT_NAME TExecutionFailed) now;
Ok (Some b')
else if negb (str_in (status (ex_cols b)) CLOSED_STATUSES)
then Err (fence_error "RPC_SCOPE_FENCE_BUSY" "Gitea runner blocking execution is not recoverable.")
else Ok blocking
end.

Definition _reserve_gitea_runner_scope (name : string) (pk : Z) (normalized : dict) (fo : option fence)
(blocking : option execution) (clock : Z) (now : value) : res (fence * option execution) :=
let operation := get_str "operation" EmptyString normalized in
match fo with
| None => Err (fence_error "RPC_SCOPE_FENCE_UNAVAILABLE" "Gitea runner scope fence is unavailable.")
| Some f =>
if negb (snapshot_current f normalized) then Err fence_changed else
let generation := takeover_generation f + 1 in
if String.eqb operation (_gitea_runner_start_operation name) then
if negb (bool_decide (f_state f = STATE_CLEAR)) || negb (bool_decide (blocking_execution_id f = None))
then Err (fence_error "RPC_SCOPE_FENCE_BLOCKED" "Gitea runner token scope is already fenced.")
else Ok ({| f_state := STATE_PENDING; blocking_execution_id := Some pk;
            reconciliation_execution_id := None; takeover_generation := generation;
            expected_token_sha256 := EmptyString; last_reset_state := last_reset_state f;
            last_prior_token_id := last_prior_token_id f;
            last_replacement_token_id := last_replacement_token_id f;
            last_prior_active_sha256 := last_prior_active_sha256 f; last_updated := clock |}, blocking)
else if String.eqb operation "reconcile" then
if bool_decide (f_state f = STATE_CLEAR) || bool_decide (blocking_execution_id f = None)
   || negb (bool_decide (reconciliation_execution_id f = None))
then Err (fence_error "RPC_SCOPE_FENCE_CLEAR" "Gitea runner token scope has no blocked operation.")
else if negb (_gitea_runner_fence_is_quiescent f blocking RECONCILIATION_QUIESCENCE_SECONDS clock)
then Err (fence_error "RPC_SCOPE_FENCE_BUSY"
            "Gitea runner scope is still inside its remote-operation safety window.")
else
  blocking ← release_blocking f blocking now;
  Ok ({| f_state := STATE_BLOCKED; blocking_execution_id := blocking_execution_id f;
         reconciliation_execution_id := Some pk; takeover_generation := generation;
         expected_token_sha256 := expected_token_sha256 f; last_reset_state := last_reset_state f;
         last_prior_token_id := last_prior_token_id f;
         last_replacement_token_id := last_replacement_token_id f;
         last_prior_active_sha256 := last_prior_active_sha256 f; last_updated := clock |}, blocking)
else Err (fence_error "RPC_PARAM_INVALID" "Gitea runner lifecycle operation is invalid.")
end.

(** The generation and the owner recorded in the fence are those of the caller. *)
Definition require_ownership (name : string) (pk : Z) (normalized : dict) (f : fence) : res unit :=
let operation := get_str "operation" EmptyString normalized in
if negb (py_eqb (VInt (takeover_generation f)) (get "fence_generation" normalized))
then Err (fence_error "RPC_SCOPE_FENCE_CHANGED" "Gitea runner scope fence generation differs.")
else if String.eqb operation (_gitea_runner_start_operation name)
  && (negb (bool_decide (blocking_execution_id f = Some pk))
      || negb (bool_decide (reconciliation_execution_id f = None)))
then Err (fence_error "RPC_SCOPE_FENCE_CHANGED" "Gitea runner scope fence ownership differs.")
else if String.eqb operation "reconcile" && negb (bool_decide (reconciliation_execution_id f = Some pk))
then Err (fence_error "RPC_SCOPE_FENCE_CHANGED" "Gitea runner reconciliation fence ownership differs.")
else Ok tt.

Definition _block_gitea_runner_scope (name : string) (pk : Z) (normalized : dict) (f : fence) (clock : Z)
: res fence :=
let operation := get_str "operation" EmptyString normalized in
_ ← require_ownership name pk normalized f;
Ok {| f_state := STATE_BLOCKED; blocking_execution_id := blocking_execution_id f;
reconciliation_execution_id :=
  if String.eqb operation "reconcile" then None else reconciliation_execution_id f;
takeover_generation := takeover_generation f; expected_token_sha256 := expected_token_sha256 f;
last_reset_state := last_reset_state f; last_prior_token_id := last_prior_token_id f;
last_replacement_token_id := last_replacement_token_id f;
last_prior_active_sha256 := last_prior_active_sha256 f; last_updated := clock |}.

(** ** Recording a response *)

Definition bad_response : exn :=
fence_error "RPC_BACKEND_BAD_RESPONSE" "Gitea runner backend response does not match its closed contract.".

(** The response is closed, satisfies the result schema of the contract and answers
this request. *)
Definition response_valid (name : string) (result_schema : value) (normalized response r : dict) : bool :=
((length response =? 2)%nat && dict_mem "ok" response && dict_mem "result" response)
&& is_bool (get "ok" response) && bool_decide (get "ok" r = get "ok" response)
&& json_valid result_schema (VDict r)
&& py_eqb (get "operation" r) (VStr (get_str "operation" EmptyString normalized))
&& py_eqb (get "scope" r) (VStr (get_str "scope" EmptyString normalized))
&& py_eqb (get "fence_execution_id" r) (get "fence_execution_id" normalized)
&& py_eqb (get "fence_generation" r) (get "fence_generation" normalized)
&& (negb (is_org name) || py_eqb (get "lane" r) (get "lane" normalized)).

(** The outcomes after which the scope is free again. *)
Definition clear_without_token (name : string) (normalized r : dict) : bool :=
String.eqb (get_str "operation" EmptyString normalized) (_gitea_runner_start_operation name)
&& existsb (fun st => py_eqb (get "stage" r) (VStr st))
 ["generate_token"; "preconditions"; "docker"; "image"; "config"]
&& bool_decide (get "token_sha256" r = VNone) && bool_decide (get "token_reset_required" r = VBool false).
Definition reset_proven (r : dict) : bool :=
bool_decide (get "token_invalidated" r = VBool true)
&& bool_decide (get "token_reset_required" r = VBool false).

Definition after_response (name : string) (normalized r : dict) (f : fence) (clock : Z) : fence :=
let operation := get_str "operation" EmptyString normalized in
let expected :=
match get "token_sha256" r with
| VStr t => if String.eqb operation (_gitea_runner_start_operation name) then t else expected_token_sha256 f
| _ => expected_token_sha256 f
end in
let cleared := clear_without_token name normalized r || reset_proven r in
{| f_state := if cleared then STATE_CLEAR else STATE_BLOCKED;
 blocking_execution_id := if cleared then None else blocking_execution_id f;
 reconciliation_execution_id :=
 if cleared || String.eqb operation "reconcile" then None else reconciliation_execution_id f;
 takeover_generation := takeover_generation f;
 expected_token_sha256 := if cleared then EmptyString else expected;
 last_reset_state := get_str "reset_state" EmptyString r;
 last_prior_token_id := get "prior_token_id" r;
 last_replacement_token_id := get "replacement_token_id" r;
 last_prior_active_sha256 := get_str "prior_active_sha256" EmptyString r;
 last_updated := clock |}.

Definition _record_gitea_runner_response (name : string) (result_schema : value) (ex : execution)
(normalized response : dict) (f : fence) (clock : Z) (now : value) : res (fence * execution) :=
match get "result" response with
| VDict r =>
if negb (response_valid name result_schema normalized response r) then Err bad_response
else if String.eqb (get_str "operation" EmptyString normalized) "reconcile"
      && negb (py_eqb (get "token_sha256" r) (get "fence_expected_sha256" normalized))
then Err (fence_error "RPC_SCOPE_FENCE_CHANGED"
          "Gitea runner reconciliation proof does not match the scope fence.")
else
_ ← require_ownership name (ex_pk ex) normalized f;
ex' ← agg_record_backend_response ex response now;
Ok (after_response name normalized r f clock, ex')
| _ => Err bad_response
end.

(** [_block_runner_scope_after_failure]: a refusal leaves the fence as it is. *)
Definition _block_runner_scope_after_failure (name : string) (pk : Z) (normalized : dict) (f : fence)
(clock : Z) : fence :=
match _block_gitea_runner_scope name pk normalized f clock with Ok f' => f' | Err _ => f end.
End Fence.

(** ** Steps of a fence *)

Section Steps.
Context `{PyLib} `{JsonSchema}.

Definition known_operation (name : string) (normalized : dict) : bool :=
  str_in (get_str "operation" EmptyString normalized) [_gitea_runner_start_operation name; "reconcile"].

(** A worker blocks or records only after its own reservation was accepted, which
    checks the operation. *)
Inductive fence_step : fence -> fence -> Prop :=
| fs_reserve name pk n f blocking clock now f' blocking' :
    _reserve_gitea_runner_scope name pk n (Some f) blocking clock now = Ok (f', blocking') -> fence_step f f'
| fs_block name pk n f clock f' :
    known_operation name n = true -> _block_gitea_runner_scope name pk n f clock = Ok f' -> fence_step f f'
| fs_record name schema ex n response f clock now f' ex' :
    known_operation name n = true ->
    _record_gitea_runner_response name schema ex n response f clock now = Ok (f', ex') -> fence_step f f'.

(** A response that proves the scope free. *)
Definition freed_by (f f' : fence) : Prop :=
  exists name schema ex n response r clock now ex',
    _record_gitea_runner_response name schema ex n response f clock now = Ok (f', ex') /\
    get "result" response = VDict r /\ (clear_without_token name n r = true \/ reset_proven r = true).

(** What a reservation does to the fence. *)
Lemma reserve_ok name pk n f blocking clock now f' blocking' :
  _reserve_gitea_runner_scope name pk n (Some f) blocking clock now = Ok (f', blocking') ->
  takeover_generation f' = takeover_generation f + 1 /\ get "fence_generation" n = VInt (takeover_generation f') /\
  ((get_str "operation" EmptyString n = _gitea_runner_start_operation name /\
    f_state f = STATE_CLEAR /\ f_state f' = STATE_PENDING /\
    blocking_execution_id f' = Some pk /\ reconciliation_execution_id f' = None) \/
   (get_str "operation" EmptyString n = "reconcile" /\
    f_state f <> STATE_CLEAR /\ f_state f' = STATE_BLOCKED /\ reconciliation_execution_id f = None /\
    is_Some (blocking_execution_id f) /\ blocking_execution_id f' = blocking_execution_id f /\
    reconciliation_execution_id f' = Some pk /\
    _gitea_runner_fence_is_quiescent f blocking RECONCILIATION_QUIESCENCE_SECONDS clock = true /\
    release_blocking f blocking now = Ok blocking')).
Proof.
  intros Hr. cbn [_reserve_gitea_runner_scope] in Hr.
  destruct (snapshot_current f n) eqn:Hs; [|done]. cbn [negb] in Hr.
  unfold snapshot_current in Hs. apply andb_true_iff in Hs as [_ Hs].
  destruct (get "fence_generation" n) as [| |z| | | | | | | |]; try done. apply andb_true_iff in Hs as [Hz _].
  apply Z.eqb_eq in Hz as ->.
  destruct (String.eqb_spec (get_str "operation" EmptyString n) (_gitea_runner_start_operation name)) as [Ho|Ho].
  - destruct (negb (bool_decide (f_state f = STATE_CLEAR)) || _) eqn:E; [done|]. injection Hr as <- <-.
    bool_inv. cbn. split; [done|]. split; [done|]. left. done.
  - destruct (String.eqb_spec (get_str "operation" EmptyString n) "reconcile") as [Ho'|Ho']; [|done].
    destruct (_ || _) eqn:E; [done|]. destruct (_gitea_runner_fence_is_quiescent _ _ _ _) eqn:Hq; [|done].
    cbn [negb] in Hr. apply bind_Ok in Hr as (b & Hb & Hr). injection Hr as <- <-. bool_inv. cbn.
    split; [done|]. split; [done|]. right. split_and!; try done.
    destruct (blocking_execution_id f); [by eexists|done].
Qed.

(** Ownership, spelled out. *)
Lemma ownership_ok name pk n f u :
  require_ownership name pk n f = Ok u ->
  py_eq (VInt (takeover_generation f)) (get "fence_generation" n) /\
  (get_str "operation" EmptyString n = _gitea_runner_start_operation name ->
   blocking_execution_id f = Some pk /\ reconciliation_execution_id f = None) /\
  (get_str "operation" EmptyString n = "reconcile" -> reconciliation_execution_id f = Some pk).
Proof.
  unfold require_ownership. intros Ho. destruct (py_eqb _ _) eqn:E; [|done]. cbn [negb] in Ho.
  apply bool_decide_eq_true in E. split; [done|].
  destruct (String.eqb_spec (get_str "operation" EmptyString n) (_gitea_runner_start_operation name)) as [E1|E1];
    cbn [andb] in Ho.
  - destruct (_ || _) eqn:E2; [done|]. bool_inv. split; [done|].
    intros E3. rewrite E3, String.eqb_refl in Ho. cbn [andb] in Ho. case_bool_decide; done.
  - split; [done|]. intros E3. rewrite E3, String.eqb_refl in Ho. cbn [andb] in Ho. case_bool_decide; done.
Qed.

Lemma record_ok name schema ex n response f clock now f' ex' :
  _record_gitea_runner_response name schema ex n response f clock now = Ok (f', ex') ->
  exists r, get "result" response = VDict r /\ require_ownership name (ex_pk ex) n f = Ok tt /\
    f' = after_response name n r f clock.
Proof.
  unfold _record_gitea_runner_response. intros Hr. destruct (get "result" response) as [| | | | | | | | | |r]; try done.
  destruct (negb _); [done|]. destruct (_ && _); [done|].
  apply bind_Ok in Hr as ([] & Ho & Hr). apply bind_Ok in Hr as (e & _ & Hr). injection Hr as <- <-.
  by exists r.
Qed.

Lemma fence_step_generation f f' :
  fence_step f f' -> takeover_generation f <= takeover_generation f'.
Proof.
  destruct 1 as [name pk n g blocking clock now g' b' Hr|name pk n g clock g' _ Hb|name schema ex n resp g clock now g' ex' _ Hr].
  - apply reserve_ok in Hr as (-> & _). lia.
  - apply bind_Ok in Hb as (? & _ & Hb). injection Hb as <-. cbn. lia.
  - apply record_ok in Hr as (r & _ & _ & ->). cbn. lia.
Qed.

Lemma fence_steps_generation f f' :
  rtc fence_step f f' -> takeover_generation f <= takeover_generation f'.
Proof. induction 1 as [|x y z Hxy _ IH]; [lia|]. apply fence_step_generation in Hxy. lia. Qed.

Lemma fence_step_consistent f f' :
  fence_step f f' -> fence_consistent f = true -> fence_consistent f' = true.
Proof.
  assert (forall name pk n g, known_operation name n = true -> require_ownership name pk n g = Ok tt ->
    fence_consistent g = true -> is_Some (blocking_execution_id g) /\
    (get_str "operation" EmptyString n <> "reconcile" -> reconciliation_execution_id g = None)) as Howned.
  { intros name pk n g Hk Ho Hc. apply ownership_ok in Ho as (_ & Hs & Hr).
    unfold known_operation, str_in in Hk. apply bool_decide_eq_true in Hk.
    apply elem_of_cons in Hk as [E|E%list_elem_of_singleton].
    - destruct (Hs E) as [-> ->]. done.
    - split; [|done]. specialize (Hr E). unfold fence_consistent in Hc. rewrite Hr in Hc.
      apply andb_true_iff in Hc as [Hc Hb]. apply bool_decide_eq_true in Hb. rewrite Hb in Hc.
      destruct (blocking_execution_id g); done. }
  destruct 1 as [name pk n g blocking clock now g' b' Hr|name pk n g clock g' Hk Hb|name schema ex n resp g clock now g' ex' Hk Hr];
    intros Hc.
  - apply reserve_ok in Hr as (_ & _ & [(_ & _ & Hst & Hb & Hrec)|(_ & _ & Hst & _ & [z Hz] & Hb & Hrec & _)]);
      unfold fence_consistent; rewrite Hst, Hb, Hrec, ?Hz; done.
  - apply bind_Ok in Hb as ([] & Ho & Hb). injection Hb as <-.
    destruct (Howned _ _ _ _ Hk Ho Hc) as ([z Hz] & Hnone). unfold fence_consistent. cbn. rewrite Hz.
    destruct (String.eqb_spec (get_str "operation" EmptyString n) "reconcile"); [done|]. by rewrite Hnone.
  - apply record_ok in Hr as (r & _ & Ho & ->).
    destruct (Howned _ _ _ _ Hk Ho Hc) as ([z Hz] & Hnone). unfold fence_consistent, after_response.
    cbn [f_state blocking_execution_id reconciliation_execution_id expected_token_sha256].
    destruct (_ || reset_proven r); cbn [orb]; [done|]. rewrite Hz.
    destruct (String.eqb_spec (get_str "operation" EmptyString n) "reconcile"); [done|]. by rewrite Hnone.
Qed.

Lemma fence_step_clear f f' : fence_step f f' -> f_state f' = STATE_CLEAR -> freed_by f f'.
Proof.
  destruct 1 as [name pk n g blocking clock now g' b' Hr|name pk n g clock g' _ Hb|name schema ex n resp g clock now g' ex' _ Hr];
    intros Hst.
  - apply reserve_ok in Hr as (_ & _ & [(_ & _ & Hp & _)|(_ & _ & Hp & _)]); congruence.
  - apply bind_Ok in Hb as (? & _ & Hb). injection Hb as <-. done.
  - destruct (record_ok _ _ _ _ _ _ _ _ _ _ Hr) as (r & Hres & _ & ->).
    exists name, schema, ex, n, resp, r, clock, now, ex'. split; [done|]. split; [done|].
    unfold after_response in Hst. cbn [f_state] in Hst.
    destruct (clear_without_token name n r); [by left|]. destruct (reset_proven r); [by right|done].
Qed.

(** ** Properties *)

(** The check constraints of the fence table hold after every operation: a clear
    scope has no blocking execution and no expected token, a pending or blocked one has
    its blocking execution, and only a blocked one is under reconciliation; so no
    operation is ever rejected by the database for them. *)
Theorem fence_constraints_hold f f' :
  fence_consistent f = true -> rtc fence_step f f' -> fence_consistent f' = true.
Proof. intros Hc Hr. induction Hr as [|x y z Hxy _ IH]; [done|]. apply IH. by eapply fence_step_consistent. Qed.

(** C40: A takeover disarms the former owner: once a second reservation of the scope was
    accepted, whatever happens to the fence afterwards, the first owner can neither
    block the scope nor record a response on it. *)
Theorem takeover_excludes_former_owner name1 pk1 n1 f0 b0 clock0 now0 f1 b1
    name2 pk2 n2 f2 b2 clock2 now2 f3 b3 f4 :
  _reserve_gitea_runner_scope name1 pk1 n1 (Some f0) b0 clock0 now0 = Ok (f1, b1) ->
  rtc fence_step f1 f2 ->
  _reserve_gitea_runner_scope name2 pk2 n2 (Some f2) b2 clock2 now2 = Ok (f3, b3) ->
  rtc fence_step f3 f4 ->
  (forall clock, exists e, _block_gitea_runner_scope name1 pk1 n1 f4 clock = Err e) /\
  (forall schema ex response clock now,
     exists e, _record_gitea_runner_response name1 schema ex n1 response f4 clock now = Err e).
Proof.
  intros H1 R1 H2 R2. apply reserve_ok in H1 as (_ & Hg & _). apply reserve_ok in H2 as (H2 & _).
  apply fence_steps_generation in R1, R2.
  assert (forall pk u, require_ownership name1 pk n1 f4 <> Ok u) as Hno.
  { intros pk u Ho. apply ownership_ok in Ho as (Ho & _). rewrite Hg in Ho. unfold py_eq in Ho. cbn in Ho.
    injection Ho as Ho. lia. }
  split.
  - intros clock. unfold _block_gitea_runner_scope.
    destruct (require_ownership name1 pk1 n1 f4) as [u|e] eqn:E; [by destruct (Hno _ _ E)|by exists e].
  - intros schema ex response clock now.
    destruct (_record_gitea_runner_response name1 schema ex n1 response f4 clock now) as [[f' ex']|e] eqn:E; [|by exists e].
    apply record_ok in E as (r & _ & E & _). by destruct (Hno _ _ E).
Qed.

(** A scope that was reserved for a start is free for another start only after a
    response proved that no token is left behind: between the two reservations there is
    a recorded response that failed before the token was made, or one whose token is
    proven invalidated. *)
Theorem second_start_needs_proof name1 pk1 n1 f0 b0 clock0 now0 f1 b1 name2 pk2 n2 f2 b2 clock2 now2 f3 b3 :
  _reserve_gitea_runner_scope name1 pk1 n1 (Some f0) b0 clock0 now0 = Ok (f1, b1) ->
  rtc fence_step f1 f2 ->
  get_str "operation" EmptyString n2 = _gitea_runner_start_operation name2 ->
  _reserve_gitea_runner_scope name2 pk2 n2 (Some f2) b2 clock2 now2 = Ok (f3, b3) ->
  exists g h, rtc fence_step f1 g /\ freed_by g h /\ rtc fence_step h f2.
Proof.
  intros H1 R Hop H2.
  assert (f_state f1 <> STATE_CLEAR) as Hn.
  { apply reserve_ok in H1 as (_ & _ & [(_ & _ & -> & _)|(_ & _ & -> & _)]); done. }
  assert (f_state f2 = STATE_CLEAR) as Hc.
  { apply reserve_ok in H2 as (_ & _ & [(_ & Hc & _)|(E & _)]); [done|].
    rewrite Hop in E. unfold _gitea_runner_start_operation in E. by destruct (is_org name2). }
  clear H1 H2. induction R as [|x y z Hxy R IH]; [done|].
  destruct (decide (f_state y = STATE_CLEAR)) as [Hy|Hy].
  - exists x, y. split; [apply rtc_refl|]. split; [by apply fence_step_clear|done].
  - destruct (IH Hy Hc) as (g & h & Hg & Hf & Hh). exists g, h. split; [by eapply rtc_l|done].
Qed.

(** Reconciliation takes over no live worker: when a scope is reserved for
    reconciliation the safety window since its last change has passed, and the blocking
    execution is terminal, having been failed if its worker was still running. *)
Theorem reconciliation_waits_for_worker name pk n f blocking clock now f' blocking' :
  get_str "operation" EmptyString n = "reconcile" ->
  (forall b, blocking = Some b -> ledger_ok (ex_events b)) ->
  _reserve_gitea_runner_scope name pk n (Some f) blocking clock now = Ok (f', blocking') ->
  last_updated f + RECONCILIATION_QUIESCENCE_SECONDS <= clock /\
  exists b, blocking' = Some b /\ terminal (status (ex_cols b)) = true.
Proof.
  intros Hop Hl Hr. apply reserve_ok in Hr as (_ & _ & [(E & _)|Hr]).
  { rewrite Hop in E. unfold _gitea_runner_start_operation in E. by destruct (is_org name). }
  destruct Hr as (_ & Hne & _ & _ & _ & _ & _ & Hq & Hrel).
  unfold _gitea_runner_fence_is_quiescent in Hq.
  destruct (blocking_execution_id f); [|done]. destruct blocking as [b|]; [|done]. bool_inv.
  assert (forall st, str_in st CLOSED_STATUSES = true -> terminal st = true) as Hclosed.
  { intros st Hst. unfold str_in in Hst. apply bool_decide_eq_true in Hst.
    repeat (apply elem_of_cons in Hst as [->|Hst]; [by vm_compute|]). by apply elem_of_nil in Hst. }
  split; [lia|]. unfold release_blocking in Hrel.
  destruct (bool_decide (f_state f = STATE_PENDING)) eqn:Hp; cbn [negb] in Hrel.
  - destruct (String.eqb_spec (status (ex_cols b)) "running") as [E|E].
    + apply bind_Ok in Hrel as (b' & Hm & Hrel). injection Hrel as <-. exists b'. split; [done|].
      rewrite (append_status b (ExecutionFailed _ _ _ []) b' (Hl b eq_refl) Hm). by vm_compute.
    + destruct (str_in (status (ex_cols b)) CLOSED_STATUSES) eqn:Hcl; [|done]. injection Hrel as <-. eauto.
  - injection Hrel as <-. exists b. split; [done|]. rewrite orb_false_r in *. eauto.
Qed.
End Steps.

#[local] Transparent redact_event_value redact_event_data.

(** ** Examples: a registration that fails early, and one that is taken over *)

Section Witnesses.
Import MiniSchema Demo.

Definition demo_fence : fence :=
  {| f_state := STATE_CLEAR; blocking_execution_id := None; reconciliation_execution_id := None;
     takeover_generation := 0; expected_token_sha256 := EmptyString; last_reset_state := EmptyString;
     last_prior_token_id := VNone; last_replacement_token_id := VNone;
     last_prior_active_sha256 := EmptyString; last_updated := 100 |}.
Definition demo_lifecycle (operation state : string) (id : value) (generation : Z) : dict :=
  [("operation", VStr operation); ("scope", VStr "org"); ("fence_state", VStr state);
   ("fence_execution_id", id); ("fence_expected_sha256", VStr FENCE_UNKNOWN_SHA256);
   ("fence_generation", VInt generation)].
Definition demo_register : dict := demo_lifecycle "register" "clear" VNone 1.
Definition demo_reconcile : dict := demo_lifecycle "reconcile" "pending" (VInt (ex_pk demo_running)) 2.
Definition demo_runner : string := GITEA_RUNNER_REGISTER.

Definition demo_fence_of (r : res (fence * option execution)) : fence * option execution :=
  match r with Ok x => x | Err _ => (demo_fence, None) end.
Definition demo_reserved : fence * option execution :=
  Eval vm_compute in demo_fence_of
    (_reserve_gitea_runner_scope demo_runner (ex_pk demo_running) demo_register (Some demo_fence) None 200 demo_now).
Lemma demo_reserved_ok :
  _reserve_gitea_runner_scope demo_runner (ex_pk demo_running) demo_register (Some demo_fence) None 200 demo_now
  = Ok (demo_reserved.1, demo_reserved.2).
Proof. vm_compute. reflexivity. Defined.

(** The worker is lost; half an hour later execution 8 reconciles the scope. *)
Definition demo_taken_over : fence * option execution :=
  Eval vm_compute in demo_fence_of
    (_reserve_gitea_runner_scope demo_runner 8 demo_reconcile (Some demo_reserved.1) (Some demo_running) 2000 demo_now).
Lemma demo_taken_over_ok :
  _reserve_gitea_runner_scope demo_runner 8 demo_reconcile (Some demo_reserved.1) (Some demo_running) 2000 demo_now
  = Ok (demo_taken_over.1, demo_taken_over.2).
Proof. vm_compute. reflexivity. Defined.

Lemma fence_constraints_hold_witness : fence_consistent demo_taken_over.1 = true.
Proof.
  refine (fence_constraints_hold demo_fence demo_taken_over.1 eq_refl _).
  eapply rtc_l; [exact (fs_reserve _ _ _ _ _ _ _ _ _ demo_reserved_ok)|].
  eapply rtc_l; [exact (fs_reserve _ _ _ _ _ _ _ _ _ demo_taken_over_ok)|apply rtc_refl].
Defined.

Lemma takeover_excludes_former_owner_witness :
  exists e, _block_gitea_runner_scope demo_runner (ex_pk demo_running) demo_register demo_taken_over.1 2100 = Err e.
Proof.
  exact (proj1 (takeover_excludes_former_owner demo_runner (ex_pk demo_running) demo_register demo_fence None 200
    demo_now demo_reserved.1 demo_reserved.2 demo_runner 8 demo_reconcile demo_reserved.1 (Some demo_running) 2000
    demo_now demo_taken_over.1 demo_taken_over.2 demo_taken_over.1 demo_reserved_ok (rtc_refl _ _)
    demo_taken_over_ok (rtc_refl _ _)) 2100).
Defined.

(** The registration that fails before a token exists frees the scope. *)
Definition demo_early_failure : dict :=
  [("ok", VBool false);
   ("result", VDict [("ok", VBool false); ("operation", VStr "register"); ("scope", VStr "org");
                     ("fence_execution_id", VNone); ("fence_generation", VInt 1);
                     ("stage", VStr "preconditions"); ("token_sha256", VNone);
                     ("token_reset_required", VBool false)])].
Definition demo_freed : fence * execution :=
  Eval vm_compute in
    match _record_gitea_runner_response demo_runner (VDict []) demo_running demo_register demo_early_failure
            demo_reserved.1 210 demo_now with
    | Ok x => x
    | Err _ => (demo_fence, demo_running)
    end.
Lemma demo_freed_ok :
  _record_gitea_runner_response demo_runner (VDict []) demo_running demo_register demo_early_failure
    demo_reserved.1 210 demo_now = Ok (demo_freed.1, demo_freed.2).
Proof. vm_compute. reflexivity. Defined.
Definition demo_register_again : dict := demo_lifecycle "register" "clear" VNone 2.
Definition demo_second : fence * option execution :=
  Eval vm_compute in demo_fence_of
    (_reserve_gitea_runner_scope demo_runner 9 demo_register_again (Some demo_freed.1) None 220 demo_now).
Lemma demo_second_ok :
  _reserve_gitea_runner_scope demo_runner 9 demo_register_again (Some demo_freed.1) None 220 demo_now
  = Ok (demo_second.1, demo_second.2).
Proof. vm_compute. reflexivity. Defined.
Lemma demo_freed_step : rtc fence_step demo_reserved.1 demo_freed.1.
Proof.
  eapply rtc_l; [|apply rtc_refl].
  assert (known_operation demo_runner demo_register = true) as Hk by (vm_compute; reflexivity).
  exact (fs_record _ _ _ _ _ _ _ _ _ _ Hk demo_freed_ok).
Defined.
Lemma second_start_needs_proof_witness :
  exists g h, rtc fence_step demo_reserved.1 g /\ freed_by g h /\ rtc fence_step h demo_freed.1.
Proof.
  exact (second_start_needs_proof demo_runner (ex_pk demo_running) demo_register demo_fence None 200 demo_now
    demo_reserved.1 demo_reserved.2 demo_runner 9 demo_register_again demo_freed.1 None 220 demo_now
    demo_second.1 demo_second.2 demo_reserved_ok demo_freed_step eq_refl demo_second_ok).
Defined.

Lemma demo_running_ledger : forall b, Some demo_running = Some b -> ledger_ok (ex_events b).
Proof. intros b [= <-]. exact (proj1 demo_running_phase). Defined.
Lemma reconciliation_waits_for_worker_witness :
  exists b, demo_taken_over.2 = Some b /\ terminal (status (ex_cols b)) = true.
Proof.
  exact (proj2 (reconciliation_waits_for_worker demo_runner 8 demo_reconcile demo_reserved.1 (Some demo_running) 2000
    demo_now demo_taken_over.1 demo_taken_over.2 eq_refl demo_running_ledger demo_taken_over_ok)).
Defined.
End Witnesses.
