(* ===== verification/Codec.v ===== *)
(** * Byte encodings

    [base64] and UTF-8 as Python's standard library defines them, on lists of byte
    values, with the round trip the signatures rely on.  Nothing here is a translation
    of a repository file. *)

From S2P Require Import Prelude.

(** The code points of a text of the values layer. *)
Fixpoint code_points (s : string) : list Z :=
  match s with EmptyString => [] | String c r => code c :: code_points r end.

Definition is_byte (z : Z) : bool := (0 <=? z) && (z <? 256).

(** ** base64 *)

Definition b64_char (n : Z) : ascii :=
  if n <? 26 then chr (65 + n)
  else if n <? 52 then chr (71 + n)
  else if n <? 62 then chr (n - 4)
  else if n =? 62 then "+"%char else "/"%char.

Definition b64_index (c : ascii) : option Z :=
  let z := code c in
  if (65 <=? z) && (z <=? 90) then Some (z - 65)
  else if (97 <=? z) && (z <=? 122) then Some (z - 71)
  else if (48 <=? z) && (z <=? 57) then Some (z + 4)
  else if z =? 43 then Some 62 else if z =? 47 then Some 63 else None.

Definition pad : ascii := "="%char.

(** [base64.b64encode(data).decode("ascii")]. *)
Fixpoint b64encode (data : list Z) : string :=
  match data with
  | [] => EmptyString
  | [a] =>
      String (b64_char (a / 4)) (String (b64_char (a mod 4 * 16)) (String pad (String pad EmptyString)))
  | [a; b] =>
      String (b64_char (a / 4)) (String (b64_char (a mod 4 * 16 + b / 16))
        (String (b64_char (b mod 16 * 4)) (String pad EmptyString)))
  | a :: b :: c :: r =>
      String (b64_char (a / 4)) (String (b64_char (a mod 4 * 16 + b / 16))
        (String (b64_char (b mod 16 * 4 + c / 64)) (String (b64_char (c mod 64)) (b64encode r))))
  end.

(** [base64.b64decode(text, validate=True)]; [None] is [binascii.Error]. *)
Fixpoint b64decode (text : string) : option (list Z) :=
  match text with
  | EmptyString => Some []
  | String c1 (String c2 (String c3 (String c4 r))) =>
      i ← b64_index c1; j ← b64_index c2;
      if Ascii.eqb c3 pad then
        if Ascii.eqb c4 pad && negb (str_truthy r) then Some [i * 4 + j / 16] else None
      else
        k ← b64_index c3;
        if Ascii.eqb c4 pad then
          if negb (str_truthy r) then Some [i * 4 + j / 16; j mod 16 * 16 + k / 4] else None
        else
          l ← b64_index c4; rest ← b64decode r;
          Some (i * 4 + j / 16 :: j mod 16 * 16 + k / 4 :: k mod 4 * 64 + l :: rest)
  | _ => None
  end.

Lemma b64_index_char n : 0 <= n < 64 -> b64_index (b64_char n) = Some n /\ Ascii.eqb (b64_char n) pad = false.
Proof.
  intros Hn.
  assert (forallb (fun k => let n := Z.of_nat k in
            bool_decide (b64_index (b64_char n) = Some n) && negb (Ascii.eqb (b64_char n) pad)) (seq 0 64) = true)
    as Hall by (vm_compute; reflexivity).
  rewrite forallb_forall in Hall. specialize (Hall (Z.to_nat n)).
  rewrite <- list_elem_of_In, elem_of_seq in Hall. cbv zeta in Hall. rewrite Z2Nat.id in Hall by lia.
  specialize (Hall ltac:(lia)). bool_inv. done.
Qed.

Ltac b64_step n :=
  let H1 := fresh in let H2 := fresh in
  destruct (b64_index_char n ltac:(Z.to_euclidean_division_equations; lia)) as [H1 H2];
  rewrite ?H1, ?H2; clear H1 H2; cbn [mbind option_bind].

Lemma b64decode_encode data : Forall (fun z => is_byte z = true) data -> b64decode (b64encode data) = Some data.
Proof.
  assert (forall n data, (length data <= n)%nat -> Forall (fun z => is_byte z = true) data ->
            b64decode (b64encode data) = Some data) as Hgen; [|by apply (Hgen (length data))].
  clear data. induction n as [|n IH]; intros [|a [|b [|c r]]] Hlen Hf; try done; cbn in Hlen; try lia;
    unfold is_byte in Hf;
    repeat match goal with H : Forall _ (_ :: _) |- _ => apply Forall_cons in H as [? H] end; bool_inv;
    cbn [b64encode b64decode].
  - b64_step (a / 4). b64_step (a mod 4 * 16). cbn. do 2 f_equal. Z.to_euclidean_division_equations; lia.
  - b64_step (a / 4). b64_step (a mod 4 * 16 + b / 16). b64_step (b mod 16 * 4). cbn [Ascii.eqb pad str_truthy negb].
    cbn. do 2 f_equal; [|f_equal]; Z.to_euclidean_division_equations; lia.
  - b64_step (a / 4). b64_step (a mod 4 * 16 + b / 16). b64_step (b mod 16 * 4 + c / 64). b64_step (c mod 64).
    rewrite IH; [|lia|done]. cbn [mbind option_bind].
    do 2 f_equal; [Z.to_euclidean_division_equations; lia|].
    f_equal; [|f_equal]; Z.to_euclidean_division_equations; lia.
Qed.

(** The text has four characters for every three bytes begun. *)
Lemma b64encode_length data : str_len (b64encode data) = (Z.of_nat (length data) + 2) / 3 * 4.
Proof.
  assert (forall n data, (length data <= n)%nat ->
            str_len (b64encode data) = (Z.of_nat (length data) + 2) / 3 * 4) as Hgen; [|by apply (Hgen (length data))].
  clear data. induction n as [|n IH]; intros [|a [|b [|c r]]] Hlen; try done; cbn [length] in Hlen; try lia.
  assert (forall c s, str_len (String c s) = 1 + str_len s) as Hs by (intros; unfold str_len; cbn [String.length]; lia).
  cbn [b64encode]. rewrite !Hs, IH by lia. cbn [length]. Z.to_euclidean_division_equations; lia.
Qed.

(** ** UTF-8 *)

Definition continuation (z : Z) : bool := (128 <=? z) && (z <? 192).

(** [bytes.decode("utf-8")] as code points; [None] is [UnicodeDecodeError]. *)
Fixpoint utf8_decode (data : list Z) : option (list Z) :=
  match data with
  | [] => Some []
  | a :: r =>
      if (0 <=? a) && (a <? 128) then rest ← utf8_decode r; Some (a :: rest)
      else if (194 <=? a) && (a <? 224) then
        match r with
        | b :: r' => if continuation b then rest ← utf8_decode r'; Some ((a - 192) * 64 + (b - 128) :: rest) else None
        | _ => None
        end
      else if (224 <=? a) && (a <? 240) then
        match r with
        | b :: c :: r' =>
            if continuation b && continuation c
               && (negb (a =? 224) || (160 <=? b)) && (negb (a =? 237) || (b <? 160))
            then rest ← utf8_decode r'; Some ((a - 224) * 4096 + (b - 128) * 64 + (c - 128) :: rest) else None
        | _ => None
        end
      else if (240 <=? a) && (a <? 245) then
        match r with
        | b :: c :: d :: r' =>
            if continuation b && continuation c && continuation d
               && (negb (a =? 240) || (144 <=? b)) && (negb (a =? 244) || (b <? 144))
            then rest ← utf8_decode r';
                 Some ((a - 240) * 262144 + (b - 128) * 4096 + (c - 128) * 64 + (d - 128) :: rest)
            else None
        | _ => None
        end
      else None
  end.
