(* ===== verification/Capabilities.v ===== *)
(** * Backend capabilities

    [netbox_rpc/capabilities.py]: the contract hash of a procedure, the bounded fetch
    of a backend's capability manifest with its cache, and the verification of a
    procedure against the manifest; and [_verify_backend_capability] of
    [netbox_rpc/application/command_handlers.py].

    [json.loads] and the pydantic models are arguments ([ManifestLib]), as are the
    semantic contracts of the procedure families, which are data of other modules.
    Monotonic time is in nanoseconds. *)

From S2P Require Import Prelude PyValue CredentialContract Response Protected Codec.

(** ** The command contract *)

Record command := {
  sequence : Z;
  step_type : string;
  device_cli_mode : value;
  argv : list value;
  render_mode : string;
  produces_var : string;
  capture_kind : string;
  capture_expression : string;
  condition_param : string;
  condition_negate : bool;
  for_each_param : string;
  continue_on_error : bool;
}.

(** The catalog row the contract is derived from. *)
Record catalog_row := {
  cr_name : string;
  cr_handler_id : string;
  cr_version : Z;
  cr_effect : string;
  cr_commands : list command;
}.

(** [sorted(commands, key=sequence)], which is stable. *)
Fixpoint insert_command (c : command) (l : list command) : list command :=
  match l with
  | [] => [c]
  | d :: r => if sequence c <=? sequence d then c :: l else d :: insert_command c r
  end.
Definition sort_commands (l : list command) : list command := foldr insert_command [] l.

Definition command_payload (c : command) : value :=
  VDict [("sequence", VInt (sequence c)); ("step_type", VStr (step_type c));
         ("device_cli_mode", device_cli_mode c); ("argv", VList (argv c));
         ("render_mode", VStr (render_mode c)); ("produces_var", VStr (produces_var c));
         ("capture_kind", VStr (capture_kind c)); ("capture_expression", VStr (capture_expression c));
         ("condition_param", VStr (condition_param c)); ("condition_negate", VBool (condition_negate c));
         ("for_each_param", VStr (for_each_param c)); ("continue_on_error", VBool (continue_on_error c))].

(** [int(version or 1)]. *)
Definition version_or_1 (z : Z) : Z := if z =? 0 then 1 else z.

Definition _base_command_contract_payload (p : catalog_row) : dict :=
  [("handler_id", VStr (cr_handler_id p)); ("version", VInt (version_or_1 (cr_version p)));
   ("effect", VStr (cr_effect p));
   ("commands", VList (map command_payload (sort_commands (cr_commands p))))].

Definition _SEMANTIC_CAPABILITY_HANDLER_IDS : list string :=
  [GITEA_PRODUCTION_UPGRADE_1_27_1; GITEA_RUNNER_REGISTER; GITEA_ORG_CI_RUNNER_PROVISION;
   "service.gitea.actions_runner.protected_pair.prove"; GITEA_PROTECTED_PUBLICATION_PAIR_PROVISION;
   "service.gitea.actions_runner.diagnose_user_ci_runner"; GITEA_USER_CI_RUNNER_RECOVER;
   "service.gitea.actions_runner.diagnose_org_ci_runner"; GITEA_ORG_CI_RUNNER_RECOVER;
   NETBOX_STAGING_DEPLOY_DNS_PAIR].
Definition IAM_UI_HANDLER_IDS : list string :=
  "service.keycloak.iam_ui.inspect" :: KEYCLOAK_IAM_UI_WRITE_PROCEDURE_NAMES.
Definition NETBOX_PRODUCTION_RQ_WORKER_PROCEDURE_NAMES : list string :=
  ["service.netbox.production.status_rq_worker"; NETBOX_PRODUCTION_RESTART_RQ_WORKER].
Definition SAMBA_AD_DC_HANDLER_IDS : list string :=
  ["os.linux.ubuntu.26.samba_ad_dc.preflight"; "os.linux.ubuntu.26.samba_ad_dc.provision";
   "os.linux.ubuntu.26.samba_ad_dc.verify"].
Definition AKVORADO_BOOTSTRAP_HANDLER_IDS : list string :=
  ["os.linux_debian_13.preflight_akvorado"; "os.linux_debian_13.install_akvorado"].
Definition AKVORADO_LIFECYCLE_CURRENT_CAPABILITY_HASHES : list (string * string) :=
  [("service.akvorado.1.config_deploy", "6a8d8fee107c3c825db6bf334ccecfdec8a71135bd6cd2e89734b85a00de2082");
   ("service.akvorado.1.config_read", "5c9faf273d18d2316c1f00453d03cdce0ea6ca6eae416a1f0168f7dd412f53e6");
   ("service.akvorado.1.restart_stack", "472ed07c0582ebeaaaa7b5da8490bdab2386f1183910a3593c5eee8d5c707d49");
   ("service.akvorado.1.status_stack", "682f89b76b6246cbc88d4ac223c9201cd69efabacaf8dcf2da7137a6b484b785")].
Definition AKVORADO_LIFECYCLE_HANDLER_IDS : list string :=
  ["service.akvorado.1.config_read"; "service.akvorado.1.config_deploy";
   "service.akvorado.1.status_stack"; "service.akvorado.1.restart_stack"].

(** The module whose semantic contract extends the payload of a handler. *)
Inductive extension : Type :=
| ReviewedTable
| IamUi
| RqWorker
| SambaAdDc
| AkvoradoBootstrap
| AkvoradoLifecycle.
Definition extension_of (handler_id : string) : option extension :=
  if str_in handler_id _SEMANTIC_CAPABILITY_HANDLER_IDS then Some ReviewedTable
  else if str_in handler_id IAM_UI_HANDLER_IDS then Some IamUi
  else if str_in handler_id NETBOX_PRODUCTION_RQ_WORKER_PROCEDURE_NAMES then Some RqWorker
  else if str_in handler_id SAMBA_AD_DC_HANDLER_IDS then Some SambaAdDc
  else if str_in handler_id AKVORADO_BOOTSTRAP_HANDLER_IDS then Some AkvoradoBootstrap
  else if str_in handler_id AKVORADO_LIFECYCLE_HANDLER_IDS then Some AkvoradoLifecycle
  else None.

(** ** The manifest *)

Record HandlerCapability := {
  hc_handler_id : string;
  hc_version : Z;
  hc_effect : string;
  hc_contract_hash : string;
  hc_compatible_contract_hashes : list string;
}.
Record BackendCapabilityManifest := {
  bm_envelope_version : Z;
  bm_credential_reference_versions : list Z;
  bm_credential_provider_versions : list (string * list Z);
  bm_dispatch_lease_versions : list Z;
  bm_handlers : list HandlerCapability;
}.

Definition SUPPORTED_ENVELOPE_VERSIONS : list Z := [1].
Definition _MAX_MANIFEST_BYTES : Z := 512 * 1024.
Definition _CACHE_TTL : Z := 30 * 1000000000.

Class ManifestLib := {
  json_loads : list Z -> option value;
  manifest_validate : value -> option BackendCapabilityManifest;
  semantic_contract : extension -> catalog_row -> value;
}.

Definition handler (m : BackendCapabilityManifest) (handler_id : string) : option HandlerCapability :=
  List.find (fun c => String.eqb (hc_handler_id c) handler_id) (bm_handlers m).

Inductive CapabilityStatus : Type := COMPATIBLE | MISMATCH | UNKNOWN.
#[export] Instance CapabilityStatus_eq_dec : EqDecision CapabilityStatus.
Proof. solve_decision. Defined.

Section Capabilities.
Context `{PyLib} `{ManifestLib}.

Definition derive_legacy_command_contract_hash (p : catalog_row) : string :=
sha256 (json_dumps (VDict (_base_command_contract_payload p))).

Definition derive_command_contract_hash (p : catalog_row) : string :=
let payload := _base_command_contract_payload p in
sha256 (json_dumps (VDict
match extension_of (cr_handler_id p) with
| Some x => dict_set "semantic_contract" (semantic_contract x p) payload
| None => payload
end)).

(** The answer of a backend: a [RequestException], or a response with what reading at
most so many bytes of its body gives ([None]: the read raised or gave [None]). *)
Inductive http : Type :=
| RequestFailed
| Response_ (status_code : Z) (read : Z -> option (list Z)).

Definition _fetch_uncached (answer : http) : option BackendCapabilityManifest :=
match answer with
| RequestFailed => None
| Response_ status_code read =>
  if negb (status_code =? 200) then None else
  content ← read (_MAX_MANIFEST_BYTES + 1);
  if _MAX_MANIFEST_BYTES <? Z.of_nat (length content) then None else
  text ← utf8_decode content;
  data ← json_loads text;
  manifest_validate data
end.

Notation cache := (gmap string (Z * option BackendCapabilityManifest)).

(** [base] is the URL without trailing slashes; [answer] is what the backend says if it
is asked. *)
Definition fetch_backend_capabilities (c : cache) (base : string) (now : Z) (use_cache : bool)
(answer : http) : cache * option BackendCapabilityManifest :=
if negb (str_truthy base) then (c, None) else
let fetched := let m := _fetch_uncached answer in (<[base := (now, m)]> c, m) in
if use_cache then
match c !! base with
| Some (t, m) => if now - t <? _CACHE_TTL then (c, m) else fetched
| None => fetched
end
else fetched.

Definition clear_capability_cache (_ : cache) : cache := ∅.

Definition verify_procedure_capability (p : catalog_row) (m : option BackendCapabilityManifest)
: CapabilityStatus :=
match m with
| None => UNKNOWN
| Some m =>
  if negb (bool_decide (bm_envelope_version m ∈ SUPPORTED_ENVELOPE_VERSIONS)) then MISMATCH else
  match handler m (cr_handler_id p) with
  | None => MISMATCH
  | Some cap =>
      if negb (hc_version cap =? version_or_1 (cr_version p)) then MISMATCH
      else if negb (String.eqb (hc_effect cap) (cr_effect p)) then MISMATCH
      else
        let expected := derive_command_contract_hash p in
        if str_in expected (hc_contract_hash cap :: hc_compatible_contract_hashes cap) then COMPATIBLE
        else if str_in (cr_handler_id p) AKVORADO_LIFECYCLE_HANDLER_IDS
                && bool_decide (table_get (cr_handler_id p) AKVORADO_LIFECYCLE_CURRENT_CAPABILITY_HASHES
                                = Some expected)
                && String.eqb (hc_contract_hash cap) (derive_legacy_command_contract_hash p)
        then COMPATIBLE
        else MISMATCH
  end
end.

(** ** Admission *)

Definition EXPLICIT_BACKEND_CAPABILITY_PROCEDURE_NAMES : list string :=
AKVORADO_BOOTSTRAP_DEBIAN13_PROCEDURE_NAMES ++ NETBOX_PRODUCTION_RQ_WORKER_PROCEDURE_NAMES ++
IAM_UI_HANDLER_IDS ++
["service.pbs.1.cert_fingerprint"; "service.pbs.1.datastore_from_disk"; "service.pbs.1.disk_list";
 "service.pbs.1.status"] ++
SAMBA_AD_DC_HANDLER_IDS ++
[NETBOX_STAGING_DEPLOY_DNS_PAIR; GITEA_PRODUCTION_UPGRADE_1_27_1; GITEA_RUNNER_REGISTER;
 GITEA_ORG_CI_RUNNER_PROVISION; "service.gitea.actions_runner.protected_pair.prove";
 GITEA_PROTECTED_PUBLICATION_PAIR_PROVISION; "service.gitea.actions_runner.diagnose_user_ci_runner";
 GITEA_USER_CI_RUNNER_RECOVER; "service.gitea.actions_runner.diagnose_org_ci_runner";
 GITEA_ORG_CI_RUNNER_RECOVER; OPENBAO_1_PROVISION_NETBOX_APPROLE; LINUX_PROXMOX_OCI_REGISTRY_PULL;
 "service.proxbox_api.release_images.inspect"; PROXBOX_API_RELEASE_IMAGES_RECOVER].

Definition incompatible : exn :=
ValidationError "procedure_id"
"The selected backend does not advertise a compatible capability for this procedure (handler/version/effect/contract mismatch).".

Definition _verify_backend_capability (c : cache) (p : catalog_row) (base : string) (now : Z)
(use_cache : bool) (answer : http) : cache * res unit :=
let '(c', m) := fetch_backend_capabilities c base now use_cache answer in
let st := verify_procedure_capability p m in
let explicit := str_in (cr_name p) EXPLICIT_BACKEND_CAPABILITY_PROCEDURE_NAMES in
(c', require (negb (bool_decide (st = MISMATCH) || (explicit && negb (bool_decide (st = COMPATIBLE)))))
     incompatible).
End Capabilities.

Notation cache := (gmap string (Z * option BackendCapabilityManifest)).

(** ** Sorting by sequence number *)

Definition seq_le (a b : command) : Prop := sequence a <= sequence b.

Lemma insert_command_perm c l : insert_command c l ≡ₚ c :: l.
Proof.
  induction l as [|d r IH]; cbn; [done|]. destruct (sequence c <=? sequence d); [done|].
  rewrite IH. apply Permutation_swap.
Qed.
Lemma sort_commands_perm l : sort_commands l ≡ₚ l.
Proof. induction l as [|c l IH]; cbn; [done|]. by rewrite insert_command_perm, IH. Qed.

Lemma insert_command_sorted c l : StronglySorted seq_le l -> StronglySorted seq_le (insert_command c l).
Proof.
  induction 1 as [|d r Hs IH Hd]; cbn; [repeat constructor|].
  destruct (sequence c <=? sequence d) eqn:E; bool_inv.
  - constructor; [by constructor|]. constructor; [exact E|].
    eapply Forall_impl; [exact Hd|]. unfold seq_le. intros; lia.
  - constructor; [done|]. rewrite insert_command_perm. constructor; [unfold seq_le; lia|done].
Qed.
Lemma sort_commands_sorted l : StronglySorted seq_le (sort_commands l).
Proof. induction l as [|c l IH]; cbn; [constructor|by apply insert_command_sorted]. Qed.

(** Sorted lists with distinct sequence numbers and the same elements are equal. *)
Lemma sorted_unique l l' :
  StronglySorted seq_le l -> StronglySorted seq_le l' -> NoDup (map sequence l) -> l ≡ₚ l' -> l = l'.
Proof.
  revert l'. induction l as [|a l IH]; intros l' Hs Hs' Hnd Hp; [by apply Permutation_nil_l in Hp|].
  destruct l' as [|b l']; [by apply symmetry, Permutation_nil_l in Hp|].
  apply StronglySorted_inv in Hs as [Hs Ha], Hs' as [Hs' Hb]. cbn in Hnd. apply NoDup_cons in Hnd as [Hni Hnd].
  assert (a = b) as ->.
  { assert (b ∈ a :: l) as Hin by (rewrite Hp; left). apply elem_of_cons in Hin as [Hin|Hin]; [done|].
    assert (a ∈ b :: l') as Hin' by (rewrite <- Hp; left). apply elem_of_cons in Hin' as [Hin'|Hin']; [done|].
    rewrite Forall_forall in Ha, Hb. specialize (Ha b Hin). specialize (Hb a Hin'). unfold seq_le in *.
    exfalso. apply Hni. apply list_elem_of_fmap. exists b. split; [lia|done]. }
  f_equal. apply IH; [done|done|done|]. by apply Permutation_cons_inv in Hp.
Qed.

Lemma sort_commands_proper l l' : NoDup (map sequence l) -> l ≡ₚ l' -> sort_commands l = sort_commands l'.
Proof.
  intros Hnd Hp. apply sorted_unique; [apply sort_commands_sorted|apply sort_commands_sorted| |].
  - by rewrite (fmap_Permutation sequence _ _ (sort_commands_perm l)).
  - by rewrite !sort_commands_perm.
Qed.

(** ** What was fetched *)

Section Trace.
Context `{PyLib} `{ManifestLib}.

(** One call of the fetch: the URL, the time, whether the cache may answer, and what
    the backend would say. *)
Record fetch_call := {
  fc_base : string;
  fc_now : Z;
  fc_use_cache : bool;
  fc_answer : http;
}.

(** Run a sequence of calls; the result pairs each call with what it returned. *)
Fixpoint run_fetches (c : cache) (calls : list fetch_call) : cache * list (option BackendCapabilityManifest) :=
  match calls with
  | [] => (c, [])
  | k :: rest =>
      let '(c1, m) := fetch_backend_capabilities c (fc_base k) (fc_now k) (fc_use_cache k) (fc_answer k) in
      let '(c2, ms) := run_fetches c1 rest in (c2, m :: ms)
  end.

(** The manifest [m] is what the backend at [base] answered at one of the calls no
    longer than the cache lifetime before [now]. *)
Definition recent (calls : list fetch_call) (base : string) (now : Z)
    (m : option BackendCapabilityManifest) : Prop :=
  exists k, k ∈ calls /\ fc_base k = base /\ now - fc_now k < _CACHE_TTL /\ m = _fetch_uncached (fc_answer k).

Definition cache_justified (calls : list fetch_call) (c : cache) : Prop :=
  forall base t m, c !! base = Some (t, m) ->
    exists k, k ∈ calls /\ fc_base k = base /\ fc_now k = t /\ m = _fetch_uncached (fc_answer k).

Lemma fetch_justified calls c k c' m :
  cache_justified calls c ->
  fetch_backend_capabilities c (fc_base k) (fc_now k) (fc_use_cache k) (fc_answer k) = (c', m) ->
  cache_justified (calls ++ [k]) c' /\ (fc_base k <> EmptyString -> recent (calls ++ [k]) (fc_base k) (fc_now k) m).
Proof.
  intros Hc Hf. unfold fetch_backend_capabilities in Hf.
  assert (cache_justified (calls ++ [k]) c) as Hweak.
  { intros base t m' Hl. destruct (Hc base t m' Hl) as (k' & Hin & Hk). exists k'. split; [set_solver|done]. }
  assert (k ∈ calls ++ [k]) as Hk by set_solver.
  destruct (str_truthy (fc_base k)) eqn:E; cbn [negb] in Hf.
  2: { injection Hf as <- <-. split; [done|]. by destruct (fc_base k). }
  assert (forall c' m, (<[fc_base k := (fc_now k, _fetch_uncached (fc_answer k))]> c, _fetch_uncached (fc_answer k)) = (c', m) ->
    cache_justified (calls ++ [k]) c' /\ (fc_base k <> EmptyString -> recent (calls ++ [k]) (fc_base k) (fc_now k) m)) as Hfetched.
  { intros ? ? [= <- <-]. split.
    - intros base t m' Hl. apply lookup_insert_Some in Hl as [(<- & [= <- <-])|(_ & Hl)]; [by exists k|eauto].
    - intros _. exists k. split_and!; try done. rewrite Z.sub_diag. by vm_compute. }
  destruct (fc_use_cache k); [|eauto]. destruct (c !! fc_base k) as [[t m']|] eqn:El; [|eauto].
  destruct (fc_now k - t <? _CACHE_TTL) eqn:Et; [|eauto]. injection Hf as <- <-. split; [done|]. intros _.
  destruct (Hweak _ _ _ El) as (k' & Hin & Hb & <- & Hm). exists k'. bool_inv. done.
Qed.

Lemma run_fetches_justified done_ calls c c' ms :
  cache_justified done_ c -> run_fetches c calls = (c', ms) ->
  cache_justified (done_ ++ calls) c' /\
  forall i k, calls !! i = Some k -> fc_base k <> EmptyString ->
    exists m, ms !! i = Some m /\ recent (done_ ++ take (S i) calls) (fc_base k) (fc_now k) m.
Proof.
  revert done_ c c' ms. induction calls as [|k calls IH]; intros done_ c c' ms Hc Hr; cbn in Hr.
  { injection Hr as <- <-. rewrite app_nil_r. split; [done|]. intros i k Hi. done. }
  destruct (fetch_backend_capabilities _ _ _ _ _) as [c1 m] eqn:Ef.
  destruct (run_fetches c1 calls) as [c2 ms2] eqn:Er. injection Hr as <- <-.
  destruct (fetch_justified _ _ _ _ _ Hc Ef) as [Hc1 Hm].
  destruct (IH (done_ ++ [k]) c1 c2 ms2 Hc1 Er) as [Hc2 Hrest]. rewrite <- app_assoc in Hc2. split; [done|].
  intros [|i] k' Hi Hne; cbn in Hi.
  - injection Hi as <-. exists m. split; [done|]. by apply Hm.
  - destruct (Hrest i k' Hi Hne) as (m' & Hi' & Hm'). exists m'. split; [done|]. by rewrite <- app_assoc in Hm'.
Qed.

(** The body of a response that carries a manifest. *)
Definition carries (answer : http) (m : BackendCapabilityManifest) : Prop :=
  exists read content text data, answer = Response_ 200 read /\
    read (_MAX_MANIFEST_BYTES + 1) = Some content /\ Z.of_nat (length content) <= _MAX_MANIFEST_BYTES /\
    utf8_decode content = Some text /\ json_loads text = Some data /\ manifest_validate data = Some m.

Lemma fetch_uncached_Some answer m : _fetch_uncached answer = Some m -> carries answer m.
Proof.
  destruct answer as [|st read]; cbn; [done|]. destruct (Z.eqb_spec st 200) as [->|]; cbn [negb]; [|done].
  destruct (read _) as [content|] eqn:Er; [cbn [mbind option_bind]|done].
  destruct (_MAX_MANIFEST_BYTES <? Z.of_nat (length content)) eqn:El; [done|].
  destruct (utf8_decode content) as [text|] eqn:Eu; [cbn [mbind option_bind]|done].
  destruct (json_loads text) as [data|] eqn:Ej; [cbn [mbind option_bind]|done].
  intros Hm. bool_inv. by exists read, content, text, data.
Qed.

(** A manifest that covers a procedure: it names the handler with the version and the
    effect of the catalog row, and its first entry for the handler lists the contract
    hash; or, for an Akvorado lifecycle handler at its reviewed hash, the hash of the
    commands alone. *)
Definition covers_procedure (m : BackendCapabilityManifest) (p : catalog_row) : Prop :=
  bm_envelope_version m = 1 /\
  exists cap, handler m (cr_handler_id p) = Some cap /\ hc_handler_id cap = cr_handler_id p /\
    hc_version cap = version_or_1 (cr_version p) /\ hc_effect cap = cr_effect p /\
    (derive_command_contract_hash p ∈ hc_contract_hash cap :: hc_compatible_contract_hashes cap \/
     (cr_handler_id p ∈ AKVORADO_LIFECYCLE_HANDLER_IDS /\
      (cr_handler_id p, derive_command_contract_hash p) ∈ AKVORADO_LIFECYCLE_CURRENT_CAPABILITY_HASHES /\
      hc_contract_hash cap = derive_legacy_command_contract_hash p)).

Lemma table_get_elem {A} name (t : list (string * A)) a : table_get name t = Some a -> (name, a) ∈ t.
Proof.
  induction t as [|[n b] t IH]; cbn; [done|]. destruct (String.eqb_spec n name) as [->|]; [intros [= <-]; left|].
  intros Ht. right. eauto.
Qed.

Lemma compatible_covers p m : verify_procedure_capability p (Some m) = COMPATIBLE -> covers_procedure m p.
Proof.
  cbn [verify_procedure_capability].
  destruct (bool_decide (bm_envelope_version m ∈ SUPPORTED_ENVELOPE_VERSIONS)) eqn:Ee; cbn [negb]; [|done].
  destruct (handler m (cr_handler_id p)) as [cap|] eqn:Eh; [|done].
  destruct (Z.eqb_spec (hc_version cap) (version_or_1 (cr_version p))) as [Ev|]; cbn [negb]; [|done].
  destruct (String.eqb_spec (hc_effect cap) (cr_effect p)) as [Ef|]; cbn [negb]; [|done].
  intros Hc. apply bool_decide_eq_true, list_elem_of_singleton in Ee. split; [done|]. exists cap.
  pose proof (List.find_some _ _ Eh) as [_ Hid]. apply String.eqb_eq in Hid. split_and!; try done.
  destruct (str_in _ _) eqn:E in Hc; [left; by apply bool_decide_eq_true in E|].
  destruct (_ && _) eqn:E2 in Hc; [|done]. right. bool_inv. split_and!.
  - match goal with H1 : str_in _ AKVORADO_LIFECYCLE_HANDLER_IDS = true |- _ => by apply bool_decide_eq_true in H1 end.
  - by apply table_get_elem.
  - by apply String.eqb_eq.
Qed.
End Trace.

(** ** Properties *)

Section Properties.
Context `{PyLib} `{ManifestLib}.

(** The contract hash depends on what the commands are and not on the order in
    which the database returns them: two catalog rows with the same commands, whose
    sequence numbers are distinct, have the same hash. *)
Theorem contract_hash_order_free p l :
  NoDup (map sequence (cr_commands p)) -> cr_commands p ≡ₚ l ->
  let q := {| cr_name := cr_name p; cr_handler_id := cr_handler_id p; cr_version := cr_version p;
              cr_effect := cr_effect p; cr_commands := l |} in
  (forall x, extension_of (cr_handler_id p) = Some x -> semantic_contract x p = semantic_contract x q) ->
  derive_command_contract_hash q = derive_command_contract_hash p /\
  derive_legacy_command_contract_hash q = derive_legacy_command_contract_hash p.
Proof.
  intros Hnd Hp q Hx.
  assert (_base_command_contract_payload q = _base_command_contract_payload p) as Hb.
  { unfold _base_command_contract_payload, q; cbn [cr_handler_id cr_version cr_effect cr_commands].
    by rewrite (sort_commands_proper _ _ Hnd Hp). }
  unfold derive_command_contract_hash, derive_legacy_command_contract_hash. rewrite Hb. split; [|done].
  change (cr_handler_id q) with (cr_handler_id p).
  destruct (extension_of (cr_handler_id p)) as [x|]; [|done]. by rewrite (Hx x eq_refl).
Qed.

(** The manifest cache never serves another backend's manifest or a stale one: in
    any sequence of fetches that starts with an empty cache, each call for a backend
    returns what that backend answered at a call of the sequence less than thirty
    seconds earlier, and a call that bypasses the cache what it answers now. *)
Theorem cached_manifest_recent calls c ms i k :
  run_fetches ∅ calls = (c, ms) -> calls !! i = Some k -> fc_base k <> EmptyString ->
  exists m, ms !! i = Some m /\ recent (take (S i) calls) (fc_base k) (fc_now k) m /\
    (fc_use_cache k = false -> m = _fetch_uncached (fc_answer k)).
Proof.
  intros Hr Hi Hne.
  assert (cache_justified [] ∅) as Hnone by (intros base t m Hl; by rewrite lookup_empty in Hl).
  destruct (run_fetches_justified [] calls ∅ c ms Hnone Hr) as [_ Hall].
  destruct (Hall i k Hi Hne) as (m & Hm & Hrec). exists m. split; [done|]. split; [done|]. intros Hu.
  clear Hall Hrec Hnone. revert Hr Hi Hm. generalize (∅ : cache) as c0. revert ms i.
  induction calls as [|k' calls IH]; intros ms i c0 Hr Hi Hm; [done|]. cbn in Hr.
  destruct (fetch_backend_capabilities _ _ _ _ _) as [c1 m1] eqn:Ef.
  destruct (run_fetches c1 calls) as [c2 ms2] eqn:Er. injection Hr as <- <-. destruct i as [|i]; [|by eapply IH].
  injection Hi as ->. injection Hm as ->. unfold fetch_backend_capabilities in Ef. rewrite Hu in Ef.
  destruct (fc_base k); [done|]. by injection Ef as _ <-.
Qed.

Lemma explicit_covered c p base now answer c' :
  cr_name p ∈ EXPLICIT_BACKEND_CAPABILITY_PROCEDURE_NAMES ->
  _verify_backend_capability c p base now false answer = (c', Ok tt) ->
  exists m, carries answer m /\ covers_procedure m p.
Proof.
  intros Hin Hv. unfold _verify_backend_capability in Hv.
  destruct (fetch_backend_capabilities c base now false answer) as [c1 m] eqn:Ef. injection Hv as <- Hv.
  apply require_Ok, negb_true_iff in Hv.
  assert (str_in (cr_name p) EXPLICIT_BACKEND_CAPABILITY_PROCEDURE_NAMES = true) as Hs by (by apply bool_decide_eq_true).
  rewrite Hs in Hv. bool_inv. cbn [andb] in *. bool_inv.
  unfold fetch_backend_capabilities in Ef. destruct (negb (str_truthy base)); injection Ef as <- <-; [done|].
  destruct (_fetch_uncached answer) as [m|] eqn:Em; [|done]. exists m.
  split; [by apply fetch_uncached_Some|by apply compatible_covers].
Qed.

(** A procedure that needs an explicit capability is admitted past the uncached
    check only when the backend, in this very answer, sends a manifest of at most
    512 KiB that covers it: an absent route, an unreachable backend, an oversized or
    malformed body, and any drift of version, effect or contract are all refused. *)
Theorem explicit_capability_fails_closed c p base now answer c' :
  cr_name p ∈ EXPLICIT_BACKEND_CAPABILITY_PROCEDURE_NAMES ->
  _verify_backend_capability c p base now false answer = (c', Ok tt) ->
  exists m, carries answer m /\ covers_procedure m p.
Proof. apply explicit_covered. Qed.
End Properties.

(** ** Examples *)

Module DemoManifest.
Definition demo_command (n : Z) : command :=
  {| sequence := n; step_type := "shell_argv"; device_cli_mode := VStr EmptyString;
     argv := [VStr "systemctl"; VStr "status"]; render_mode := "literal"; produces_var := EmptyString;
     capture_kind := EmptyString; capture_expression := EmptyString; condition_param := EmptyString;
     condition_negate := false; for_each_param := EmptyString; continue_on_error := false |}.
Definition demo_catalog_row (name : string) : catalog_row :=
  {| cr_name := name; cr_handler_id := name; cr_version := 1; cr_effect := "read";
     cr_commands := [demo_command 2; demo_command 1] |}.
Definition demo_capability (name : string) : HandlerCapability :=
  {| hc_handler_id := name; hc_version := 1; hc_effect := "read";
     hc_contract_hash := "9f86d081884c7d659a2feaa0c55ad015a3bf4f1b2b0b822cd15d6c15b0f00a08";
     hc_compatible_contract_hashes := [] |}.
#[export] Instance manifest_lib : ManifestLib :=
  {| json_loads := fun text => Some (VInt (Z.of_nat (length text)));
     manifest_validate := fun _ =>
       Some {| bm_envelope_version := 1; bm_credential_reference_versions := [1];
     bm_credential_provider_versions := [("netbox-openbao", [1])]; bm_dispatch_lease_versions := [1]; bm_handlers := [demo_capability "service.pbs.1.status"] |};
     semantic_contract := fun _ _ => VNone |}.
Definition demo_answer : http := Response_ 200 (fun _ => Some [123; 125]).
End DemoManifest.

Section Witnesses.
Import Demo DemoManifest.

Lemma contract_hash_order_free_witness :
  derive_command_contract_hash (demo_catalog_row "service.pbs.1.status")
  = derive_command_contract_hash
      {| cr_name := "service.pbs.1.status"; cr_handler_id := "service.pbs.1.status"; cr_version := 1;
         cr_effect := "read"; cr_commands := [demo_command 1; demo_command 2] |}.
Proof.
  assert (NoDup (map sequence (cr_commands (demo_catalog_row "service.pbs.1.status")))) as Hnd
    by (apply NoDup_cons; split; [cbn; rewrite list_elem_of_singleton; lia|apply NoDup_singleton]).
  assert (cr_commands (demo_catalog_row "service.pbs.1.status") ≡ₚ [demo_command 1; demo_command 2]) as Hp
    by apply Permutation_swap.
  symmetry. exact (proj1 (contract_hash_order_free (demo_catalog_row "service.pbs.1.status")
    [demo_command 1; demo_command 2] Hnd Hp (fun x _ => eq_refl))).
Defined.

Definition demo_calls : list fetch_call :=
  [{| fc_base := "https://rpc"; fc_now := 5; fc_use_cache := true; fc_answer := demo_answer |};
   {| fc_base := "https://rpc"; fc_now := 9; fc_use_cache := true; fc_answer := RequestFailed |}].
Lemma demo_fetched :
  (run_fetches ∅ demo_calls).2 !! 1%nat
  = Some (Some {| bm_envelope_version := 1; bm_credential_reference_versions := [1];
     bm_credential_provider_versions := [("netbox-openbao", [1])]; bm_dispatch_lease_versions := [1]; bm_handlers := [demo_capability "service.pbs.1.status"] |}).
Proof. vm_compute. reflexivity. Defined.
Lemma cached_manifest_recent_witness :
  exists m, recent demo_calls "https://rpc" 9 (Some m).
Proof.
  pose proof demo_fetched as Hf. destruct (run_fetches ∅ demo_calls) as [c ms] eqn:E. cbn [snd] in Hf.
  destruct (cached_manifest_recent demo_calls c ms 1
    {| fc_base := "https://rpc"; fc_now := 9; fc_use_cache := true; fc_answer := RequestFailed |} E eq_refl)
    as (m & Hm & Hr & _); [discriminate|].
  rewrite Hf in Hm. injection Hm as <-. eexists. exact Hr.
Defined.

Lemma demo_admitted :
  (_verify_backend_capability ∅ (demo_catalog_row "service.pbs.1.status") "https://rpc" 5 false demo_answer).2 = Ok tt.
Proof. vm_compute. reflexivity. Defined.
Lemma explicit_capability_fails_closed_witness :
  exists m, carries demo_answer m /\ covers_procedure m (demo_catalog_row "service.pbs.1.status").
Proof.
  assert ("service.pbs.1.status" ∈ EXPLICIT_BACKEND_CAPABILITY_PROCEDURE_NAMES) as Hin
    by (apply (bool_decide_eq_true ("service.pbs.1.status" ∈ EXPLICIT_BACKEND_CAPABILITY_PROCEDURE_NAMES)); vm_compute; reflexivity).
  destruct (_verify_backend_capability ∅ (demo_catalog_row "service.pbs.1.status") "https://rpc" 5 false demo_answer)
    as [c r] eqn:E.
  assert (r = Ok tt) as -> by (pose proof demo_admitted as Ha; rewrite E in Ha; exact Ha).
  exact (explicit_capability_fails_closed ∅ (demo_catalog_row "service.pbs.1.status") "https://rpc" 5 demo_answer c Hin E).
Defined.
End Witnesses.
