(* ===== verification/KeyFile.v ===== *)
(** * The signing key file

    [_secure_read_signing_key_file] of [netbox_rpc/dispatch_lease.py] and the two
    predicates on file metadata.  The operating system is an argument ([os]): what each
    call answers, [None] or [false] where it raises [OSError].  [os.close] may raise too,
    with the descriptor released (as Linux does) or kept.  The descriptors that are open
    at each point are part of the state. *)

From S2P Require Import Prelude PyValue CredentialContract Codec Protected.

Definition _MAX_SIGNING_KEY_FILE_BYTES : Z := 16 * 1024.
Definition _MAX_SIGNING_KEY_PATH_BYTES : Z := 4096.

(** [os.stat_result]. *)
Record metadata := {
  st_dev : Z;
  st_ino : Z;
  st_uid : Z;
  st_mode : Z;
  st_nlink : Z;
  st_size : Z;
  st_mtime_ns : Z;
  st_ctime_ns : Z;
}.
#[export] Instance metadata_eq_dec : EqDecision metadata.
Proof. solve_decision. Defined.

(** The [stat] module; the masks are the octal 170000, 40000, 100000, 7777 and 1000. *)
Definition S_IFMT (mode : Z) : Z := Z.land mode 0xF000.
Definition S_ISDIR (mode : Z) : bool := S_IFMT mode =? 0x4000.
Definition S_ISREG (mode : Z) : bool := S_IFMT mode =? 0x8000.
Definition S_IMODE (mode : Z) : Z := Z.land mode 0xFFF.
Definition S_ISVTX : Z := 0x200.

(** Octal 022: writable by the group or by others. *)
Definition _metadata_is_trusted_directory (euid : Z) (m : metadata) : bool :=
  if negb (S_ISDIR (st_mode m)) then false
  else if negb ((st_uid m =? 0) || (st_uid m =? euid)) then false
  else
    let writable_by_others := negb (Z.land (S_IMODE (st_mode m)) 0x12 =? 0) in
    let root_sticky := (st_uid m =? 0) && negb (Z.land (st_mode m) S_ISVTX =? 0) in
    negb writable_by_others || root_sticky.

(** Octal 440 and 640. *)
Definition _metadata_is_trusted_key_file (euid : Z) (m : metadata) : bool :=
  let mode := S_IMODE (st_mode m) in
  S_ISREG (st_mode m) && ((st_uid m =? 0) || (st_uid m =? euid)) && (st_nlink m =? 1)
  && negb (Z.land mode 0x120 =? 0) && (Z.land mode (Z.lnot 0x1A0) =? 0)
  && (0 <? st_size m) && (st_size m <=? _MAX_SIGNING_KEY_FILE_BYTES).

(** A directory is named by its path from the root. *)
Inductive fd : Type := DirFd (path : list string) | FileFd.
#[export] Instance fd_eq_dec : EqDecision fd.
Proof. solve_decision. Defined.

(** What [os.close] does: it closes, or raises with the descriptor released or kept. *)
Inductive close_answer : Type := Closed | RaisedReleased | RaisedKept.
#[export] Instance close_answer_eq_dec : EqDecision close_answer.
Proof. solve_decision. Defined.

Record os := {
  supported : bool;
  geteuid : Z;
  open_dir : list string -> bool;
  fstat_dir : list string -> option metadata;
  stat_file : list string -> string -> option metadata;
  open_file : list string -> string -> bool;
  fstat_opened : option metadata;
  os_read : Z -> Z -> option (list Z);
  fstat_after : option metadata;
  os_close : fd -> close_answer;
}.

(** Releasing a descriptor takes it off the open ones; one that is not open is none of
    them. *)
Fixpoint close (d : fd) (live : list fd) : list fd :=
  match live with
  | [] => []
  | x :: r => if bool_decide (x = d) then r else x :: close d r
  end.

(** [s.split(c)]. *)
Fixpoint split_on (c : ascii) (s : string) : list string :=
  match s with
  | EmptyString => [EmptyString]
  | String d r =>
      match split_on c r with
      | [] => [String d EmptyString]
      | x :: l => if Ascii.eqb c d then EmptyString :: x :: l else String d x :: l
      end
  end.

Definition path_components (path : string) : option (list string) :=
  if negb (str_startswith "/" path) then None
  else if (_MAX_SIGNING_KEY_PATH_BYTES <? utf8_length path) || negb (printable path) then None
  else
    match tl (split_on "/"%char path) with
    | [] => None
    | components => if existsb (fun c => str_in c [EmptyString; "."; ".."]) components then None
                    else Some components
    end.

Section Read.
Variable o : os.

(** [os.close]: the open descriptors, and whether it returned. *)
Definition close_call (d : fd) (live : list fd) : list fd * bool :=
  match os_close o d with
  | Closed => (close d live, true)
  | RaisedReleased => (close d live, false)
  | RaisedKept => (live, false)
  end.
(** A close whose exception is swallowed, or ends in the one of the outer handler. *)
Definition close_quietly (d : fd) (live : list fd) : list fd := (close_call d live).1.

(** The walk down the directories: the open descriptors, the current [directory_fd],
    and whether every component was trusted and nothing raised.  Where closing the
    directory above raises, [directory_fd] still names it and nothing names the one
    below any more. *)
Fixpoint walk (here : list string) (components : list string) (live : list fd)
    : list fd * list string * bool :=
  match components with
  | [] => (live, here, true)
  | c :: rest =>
      let next := here ++ [c] in
      if negb (open_dir o next) then (live, here, false) else
      let live := DirFd next :: live in
      match fstat_dir o next with
      | None => (close_quietly (DirFd next) live, here, false)
      | Some m =>
          if negb (_metadata_is_trusted_directory (geteuid o) m)
          then (close_quietly (DirFd next) live, here, false)
          else match close_call (DirFd here) live with
               | (live, true) => walk next rest live
               | (live, false) => (live, here, false)
               end
      end
  end.

(** The reading loop: [offset] bytes are read so far.  Every chunk that does not end
    the loop has at least one byte, so [S remaining] rounds are enough. *)
Fixpoint read_loop (fuel : nat) (offset remaining : Z) : option (list Z) :=
  match fuel with
  | O => Some []
  | S fuel =>
      if remaining <=? 0 then Some [] else
      chunk ← os_read o offset (Z.min 4096 remaining);
      match chunk with
      | [] => Some []
      | _ =>
          let n := Z.of_nat (length chunk) in
          rest ← read_loop fuel (offset + n) (remaining - n);
          Some (chunk ++ rest)
      end
  end.
Definition read_fuel : nat := Z.to_nat (_MAX_SIGNING_KEY_FILE_BYTES + 2).
Definition read_all : option (list Z) := read_loop read_fuel 0 (_MAX_SIGNING_KEY_FILE_BYTES + 1).

(** From the opened file to the text. *)
Definition read_opened (before : metadata) : option (list Z) :=
  opened ← fstat_opened o;
  if negb (_metadata_is_trusted_key_file (geteuid o) opened) || negb (bool_decide (opened = before)) then None else
  material ← read_all;
  after ← fstat_after o;
  if (_MAX_SIGNING_KEY_FILE_BYTES <? Z.of_nat (length material))
     || negb (Z.of_nat (length material) =? st_size opened)
     || negb (_metadata_is_trusted_key_file (geteuid o) after) || negb (bool_decide (after = opened))
  then None
  else utf8_decode material.

(** The descriptors that are still open at the end, and the text. *)
Definition _secure_read_signing_key_file (path : string) : list fd * option (list Z) :=
  if negb (supported o) then ([], None) else
  match path_components path with
  | None => ([], None)
  | Some components =>
      if negb (open_dir o []) then ([], None) else
      let live := [DirFd []] in
      match fstat_dir o [] with
      | None => (close_quietly (DirFd []) live, None)
      | Some m =>
          if negb (_metadata_is_trusted_directory (geteuid o) m) then (close_quietly (DirFd []) live, None) else
          let '(live, directory, trusted) := walk [] (removelast components) live in
          if negb trusted then (close_quietly (DirFd directory) live, None) else
          let filename := List.last components EmptyString in
          match stat_file o directory filename with
          | None => (close_quietly (DirFd directory) live, None)
          | Some before =>
              if negb (_metadata_is_trusted_key_file (geteuid o) before) then (close_quietly (DirFd directory) live, None)
              else if negb (open_file o directory filename) then (close_quietly (DirFd directory) live, None)
              else
                let live := FileFd :: live in
                let text := read_opened before in
                (close_quietly (DirFd directory) (close_quietly FileFd live), text)
          end
      end
  end.

(** ** What the reader guarantees *)

(** The directory can only be changed by root and by the process's own user, or is
    root's and sticky. *)
Definition trusted_path (dir : list string) : Prop :=
  exists m, fstat_dir o dir = Some m /\ _metadata_is_trusted_directory (geteuid o) m = true.

(** The file was one and the same from before it was opened until after it was read,
    a regular file with one name, readable and not writable by others. *)
Definition trusted_file (dir : list string) (filename : string) (size : Z) : Prop :=
  exists m, stat_file o dir filename = Some m /\ fstat_opened o = Some m /\ fstat_after o = Some m /\
    S_ISREG (st_mode m) = true /\ (st_uid m = 0 \/ st_uid m = geteuid o) /\ st_nlink m = 1 /\
    st_size m = size /\ 0 < size <= _MAX_SIGNING_KEY_FILE_BYTES /\
    (forall bit, 0 <= bit -> Z.testbit (st_mode m) bit = true -> bit ∈ [5; 7; 8] \/ 12 <= bit).

Lemma close_head d l : close d (d :: l) = l.
Proof. cbn. by rewrite bool_decide_true. Qed.

Lemma app_ne {A} (l : list A) x : l ++ [x] <> l.
Proof. intros E. apply (f_equal length) in E. rewrite length_app in E. cbn in E. lia. Qed.

(** A descriptor that may stay open: the operating system kept it when asked to close
    it, or it is a directory below one whose own close raised. *)
Definition excused (d : fd) : Prop :=
  os_close o d = RaisedKept \/ exists dir c, d = DirFd (dir ++ [c]) /\ os_close o (DirFd dir) <> Closed.

Lemma elem_close x d l : x ∈ close d l -> x ∈ l.
Proof. induction l as [|y l IH]; cbn; [done|]. case_bool_decide; rewrite ?elem_of_cons; naive_solver. Qed.
Lemma close_nodup x d l : NoDup l -> x ∈ close d l -> x <> d.
Proof.
  induction l as [|y l IH]; cbn; [by intros _ ?%elem_of_nil|]. intros [Hy Hl]%NoDup_cons.
  case_bool_decide as E; [intros Hx ->; by subst|]. intros [->|Hx]%elem_of_cons; [done|]. by apply IH.
Qed.

(** After a close, what is open was open before, and is another descriptor unless it
    was kept. *)
Lemma elem_close_quietly x d l :
  NoDup l -> x ∈ close_quietly d l -> x ∈ l /\ (x = d -> excused d).
Proof.
  intros Hl. unfold close_quietly, close_call. destruct (os_close o d) eqn:E; cbn [fst]; intros Hx.
  - split; [by eapply elem_close|]. intros ->. by apply close_nodup in Hx.
  - split; [by eapply elem_close|]. intros ->. by apply close_nodup in Hx.
  - split; [done|]. intros _. by left.
Qed.

(** The walk leaves open the directory it reached and what is excused, and has checked
    every directory on the way. *)
Lemma walk_live here components live dir ok :
  walk here components [DirFd here] = (live, dir, ok) ->
  NoDup live /\ (forall d, d ∈ live -> d = DirFd dir \/ excused d) /\
  (ok = true -> live = [DirFd dir] /\ dir = here ++ components /\
     forall n, (0 < n <= length components)%nat -> trusted_path (here ++ take n components)).
Proof.
  revert here live dir ok. induction components as [|c rest IH]; intros here live dir ok Hw; cbn [walk] in Hw.
  { injection Hw as <- <- <-. split; [apply NoDup_singleton|]. split; [intros d Hd; left; by apply list_elem_of_singleton|].
    intros _. rewrite app_nil_r. split_and!; [done|done|]. cbn. lia. }
  assert (NoDup [DirFd (here ++ [c]); DirFd here]) as Hnd.
  { apply NoDup_cons. split; [|apply NoDup_singleton]. intros [= E]%list_elem_of_singleton. by apply app_ne in E. }
  assert (forall live ok', live = close_quietly (DirFd (here ++ [c])) [DirFd (here ++ [c]); DirFd here] -> ok' = false ->
    NoDup live /\ (forall d, d ∈ live -> d = DirFd here \/ excused d) /\ (ok' = true -> False)) as Hback.
  { intros l ok' -> ->. split; [|split; [|done]].
    - unfold close_quietly, close_call. destruct (os_close _ _); cbn [fst]; rewrite ?close_head; try done; apply NoDup_singleton.
    - intros d Hd. apply elem_close_quietly in Hd as [[->|Hd]%elem_of_cons Hx]; [right; by apply Hx| |done].
      left. by apply list_elem_of_singleton. }
  destruct (open_dir o (here ++ [c])); cbn [negb] in Hw.
  2: { injection Hw as <- <- <-. split; [apply NoDup_singleton|].
       split; [intros d Hd; left; by apply list_elem_of_singleton|done]. }
  destruct (fstat_dir o (here ++ [c])) as [m|] eqn:Em; cbn [negb] in Hw.
  2: { injection Hw as <- <- <-. by destruct (Hback _ false eq_refl eq_refl) as (? & ? & _). }
  destruct (_metadata_is_trusted_directory (geteuid o) m) eqn:Et; cbn [negb] in Hw.
  2: { injection Hw as <- <- <-. by destruct (Hback _ false eq_refl eq_refl) as (? & ? & _). }
  assert (close (DirFd here) [DirFd (here ++ [c]); DirFd here] = [DirFd (here ++ [c])]) as Hclose.
  { cbn. rewrite bool_decide_false by (intros [= E]; by apply app_ne in E). by rewrite bool_decide_true. }
  unfold close_call in Hw. rewrite Hclose in Hw.
  destruct (os_close o (DirFd here)) eqn:Ec.
  - destruct (IH _ _ _ _ Hw) as (Hl & Hd & Hok). split; [done|]. split; [done|]. intros Ht.
    destruct (Hok Ht) as (-> & -> & Hall). split; [done|]. split; [by rewrite <- app_assoc|].
  intros [|n] Hn; cbn in Hn; [lia|]. cbn [take]. destruct n as [|n]; [by exists m|].
  replace (here ++ c :: take (S n) rest) with ((here ++ [c]) ++ take (S n) rest) by (by rewrite <- app_assoc).
  apply Hall. lia.
  - injection Hw as <- <- <-. split; [apply NoDup_singleton|]. split; [|done].
    intros d ->%list_elem_of_singleton. right. right. exists here, c. by rewrite Ec.
  - injection Hw as <- <- <-. split; [done|]. split; [|done].
    intros d [->|Hd]%elem_of_cons; [|left; by apply list_elem_of_singleton].
    right. right. exists here, c. by rewrite Ec.
Qed.

(** Enough rounds: more of them change nothing. *)
Lemma read_loop_fuel fuel extra offset remaining :
  remaining < Z.of_nat fuel -> read_loop (fuel + extra) offset remaining = read_loop fuel offset remaining.
Proof.
  revert offset remaining. induction fuel as [|fuel IH]; intros offset remaining Hf.
  { cbn. destruct extra; [done|]. cbn [read_loop]. by rewrite (proj2 (Z.leb_le remaining 0)) by lia. }
  cbn [read_loop Nat.add]. destruct (remaining <=? 0) eqn:E; [done|]. bool_inv.
  destruct (os_read o offset _) as [[|b chunk]|]; [done| |done]. cbn [mbind option_bind].
  rewrite IH; [done|]. cbn [length]. lia.
Qed.

Lemma trusted_key_file_spec euid m :
  _metadata_is_trusted_key_file euid m = true ->
  S_ISREG (st_mode m) = true /\ (st_uid m = 0 \/ st_uid m = euid) /\ st_nlink m = 1 /\
  0 < st_size m <= _MAX_SIGNING_KEY_FILE_BYTES /\
  (forall bit, 0 <= bit -> Z.testbit (st_mode m) bit = true -> bit ∈ [5; 7; 8] \/ 12 <= bit).
Proof.
  unfold _metadata_is_trusted_key_file. intros Hm. bool_inv.
  split; [done|]. split. { apply orb_true_iff in H5 as [?%Z.eqb_eq|?%Z.eqb_eq]; auto. }
  split; [by apply Z.eqb_eq|]. split; [done|]. intros bit Hbit Hset.
  apply Z.eqb_eq, (f_equal (fun z => Z.testbit z bit)) in H2.
  destruct (decide (12 <= bit)) as [|Hlt]; [by right|left].
  assert (forallb (fun k => let b := Z.of_nat k in
            (Z.testbit 0xFFF b && negb (Z.testbit 0x1A0 b)) || bool_decide (b ∈ [5; 7; 8])) (seq 0 12) = true)
    as Hall by (vm_compute; reflexivity).
  rewrite forallb_forall in Hall. specialize (Hall (Z.to_nat bit)).
  rewrite <- list_elem_of_In, elem_of_seq in Hall. cbv zeta in Hall. rewrite Z2Nat.id in Hall by lia.
  specialize (Hall ltac:(lia)). apply orb_true_iff in Hall as [Hall|Hall]; [|by bool_inv].
  exfalso. unfold S_IMODE in H2. rewrite Z.bits_0, !Z.land_spec, Z.lnot_spec, Hset in H2 by lia.
  cbn [andb] in H2. rewrite H2 in Hall. done.
Qed.

Lemma read_opened_spec before text :
  read_opened before = Some text ->
  exists m material, before = m /\ fstat_opened o = Some m /\ fstat_after o = Some m /\
    _metadata_is_trusted_key_file (geteuid o) m = true /\
    read_all = Some material /\ Z.of_nat (length material) = st_size m /\ utf8_decode material = Some text.
Proof.
  unfold read_opened. intros Hr. destruct (fstat_opened o) as [opened|]; [cbn [mbind option_bind] in Hr|done].
  destruct (_metadata_is_trusted_key_file (geteuid o) opened) eqn:Et; cbn [negb orb] in Hr; [|done].
  destruct (bool_decide (opened = before)) eqn:Eo; cbn [negb] in Hr; [|done].
  destruct read_all as [material|]; [cbn [mbind option_bind] in Hr|done].
  destruct (fstat_after o) as [after|]; [cbn [mbind option_bind] in Hr|done].
  destruct (_ || _) eqn:E in Hr; [done|]. bool_inv. subst.
  match goal with E : (Z.of_nat _ =? _) = true |- _ => apply Z.eqb_eq in E end. by exists before, material.
Qed.

Lemma reader_excused path d : d ∈ (_secure_read_signing_key_file path).1 -> excused d.
Proof.
  unfold _secure_read_signing_key_file. destruct (supported o); cbn [negb]; [|by intros ?%elem_of_nil].
  destruct (path_components path) as [components|]; [|by intros ?%elem_of_nil].
  destruct (open_dir o []); cbn [negb]; [|by intros ?%elem_of_nil].
  assert (forall dir x, x ∈ close_quietly (DirFd dir) [DirFd dir] -> excused x) as Hone.
  { intros dir x [Hx He]%elem_close_quietly; [|apply NoDup_singleton]. apply list_elem_of_singleton in Hx. subst. by apply He. }
  destruct (fstat_dir o []) as [m|]; [|apply Hone].
  destruct (_metadata_is_trusted_directory _ m); cbn [negb]; [|apply Hone].
  destruct (walk [] (removelast components) [DirFd []]) as [[live dir] ok] eqn:Ew.
  destruct (walk_live _ _ _ _ _ Ew) as (Hnd & Hlive & Hok). destruct ok; cbn [negb fst].
  2: { intros [Hx He]%elem_close_quietly; [|done]. destruct (Hlive _ Hx) as [->|]; [by apply He|done]. }
  destruct (Hok eq_refl) as (-> & _).
  destruct (stat_file o dir _) as [before|]; [|apply Hone].
  destruct (_metadata_is_trusted_key_file _ before); cbn [negb]; [|apply Hone].
  destruct (open_file o dir _); cbn [negb fst]; [|apply Hone].
  assert (NoDup [FileFd; DirFd dir]) as Hfd
    by (apply NoDup_cons; split; [by intros ?%list_elem_of_singleton|apply NoDup_singleton]).
  intros [Hx He]%elem_close_quietly.
  - apply elem_close_quietly in Hx as [[->|Hx]%elem_of_cons Hf]; [by apply Hf| |done].
    apply list_elem_of_singleton in Hx. rewrite Hx. by apply He.
  - unfold close_quietly, close_call. destruct (os_close o FileFd); cbn [fst]; rewrite ?close_head; try done; apply NoDup_singleton.
Qed.

Lemma reader_text path text :
  (_secure_read_signing_key_file path).2 = Some text ->
  exists components material size, path_components path = Some components /\
    (forall n, (n < length components)%nat -> trusted_path (take n components)) /\
    trusted_file (removelast components) (List.last components EmptyString) size /\
    read_all = Some material /\ Z.of_nat (length material) = size /\ utf8_decode material = Some text.
Proof.
  unfold _secure_read_signing_key_file. destruct (supported o); cbn [negb]; [|done].
  destruct (path_components path) as [components|] eqn:Ep; [|done].
  destruct (open_dir o []); cbn [negb]; [|done]. destruct (fstat_dir o []) as [mroot|] eqn:Er; [|done].
  destruct (_metadata_is_trusted_directory (geteuid o) mroot) eqn:Et; cbn [negb]; [|done].
  destruct (walk [] (removelast components) [DirFd []]) as [[live dir] ok] eqn:Ew.
  destruct (walk_live _ _ _ _ _ Ew) as (_ & _ & Hok).
  destruct ok; cbn [negb]; [|done]. destruct (Hok eq_refl) as (-> & Hdir & Hdirs). cbn [app] in *.
  destruct (stat_file o dir _) as [before|] eqn:Eb; [|done].
  destruct (_metadata_is_trusted_key_file (geteuid o) before) eqn:Eu; cbn [negb]; [|done].
  destruct (open_file o dir _); cbn [negb]; [|done]. cbn [fst snd].
  intros Ht. destruct (read_opened_spec _ _ Ht) as (m & material & -> & Ho & Ha & Hm & Hread & Hsize & Hdec).
  exists components, material, (st_size m). split; [done|]. split_and!; try done.
  - intros n Hn. destruct n as [|n]; [by exists mroot|].
    assert (components <> []) as Hne by (intros ->; cbn in Hn; lia).
    pose proof (app_removelast_last EmptyString Hne) as Hsplit.
    assert (length components = S (length (removelast components))) as Hlen
      by (rewrite Hsplit at 1; rewrite length_app; cbn; lia).
    rewrite Hsplit, take_app_le by lia. apply Hdirs. lia.
  - subst dir. exists m. destruct (trusted_key_file_spec _ _ Hm) as (? & ? & ? & ? & ?). done.
Qed.

(** C34: The key file reader is closed in both senses.  Whatever the operating system
    answers, a descriptor that is still open at the end is one whose close raised and
    left it open, or a directory of the walk whose parent raised when it was closed: so
    when no close raises, every descriptor is closed again.  And text is returned, the
    decoding of exactly the bytes of the file, only when every directory on the path is
    trusted and the file, unchanged from before the open until after the read, is a
    regular file with a single name, owned by root or by the process, of at most 16 KiB,
    and with no permission bit beyond owner read and write and group read. *)
Theorem key_file_reader_safe path :
  (forall d, d ∈ (_secure_read_signing_key_file path).1 -> excused d) /\
  ((forall d, os_close o d = Closed) -> (_secure_read_signing_key_file path).1 = []) /\
  forall text, (_secure_read_signing_key_file path).2 = Some text ->
  exists components material size, path_components path = Some components /\
    (forall n, (n < length components)%nat -> trusted_path (take n components)) /\
    trusted_file (removelast components) (List.last components EmptyString) size /\
    read_all = Some material /\ Z.of_nat (length material) = size /\ utf8_decode material = Some text.
Proof.
  split; [apply reader_excused|]. split; [|apply reader_text].
  intros Hc. apply elem_of_nil_inv. intros d Hd. apply reader_excused in Hd as [Hd|(dir & c & _ & Hd)]; by rewrite Hc in Hd.
Qed.
End Read.

(** ** Example: a one-byte key file of root *)

Definition demo_meta (mode size : Z) : metadata :=
  {| st_dev := 1; st_ino := 2; st_uid := 0; st_mode := mode; st_nlink := 1; st_size := size;
     st_mtime_ns := 3; st_ctime_ns := 4 |}.
Definition demo_os : os :=
  {| supported := true; geteuid := 1000; open_dir := fun _ => true;
     fstat_dir := fun _ => Some (demo_meta 0x41ED 4096);
     stat_file := fun _ _ => Some (demo_meta 0x81A0 1); open_file := fun _ _ => true;
     fstat_opened := Some (demo_meta 0x81A0 1);
     os_read := fun offset _ => if offset =? 0 then Some [107] else Some [];
     fstat_after := Some (demo_meta 0x81A0 1); os_close := fun _ => Closed |}.
Lemma demo_key_read : (_secure_read_signing_key_file demo_os "/etc/rpc/key.pem").2 = Some [107].
Proof. vm_compute. reflexivity. Defined.
Lemma key_file_reader_safe_witness :
  exists components material size, path_components "/etc/rpc/key.pem" = Some components /\
    (forall n, (n < length components)%nat -> trusted_path demo_os (take n components)) /\
    trusted_file demo_os (removelast components) (List.last components EmptyString) size /\
    read_all demo_os = Some material /\ Z.of_nat (length material) = size /\ utf8_decode material = Some [107].
Proof. exact (proj2 (proj2 (key_file_reader_safe demo_os "/etc/rpc/key.pem")) [107] demo_key_read). Defined.

(** Where closing the root raises, the directory below it stays open and unnamed. *)
Definition raising_os : os :=
  {| supported := true; geteuid := 1000; open_dir := fun _ => true;
     fstat_dir := fun _ => Some (demo_meta 0x41ED 4096);
     stat_file := fun _ _ => Some (demo_meta 0x81A0 1); open_file := fun _ _ => true;
     fstat_opened := Some (demo_meta 0x81A0 1); os_read := fun _ _ => Some [];
     fstat_after := Some (demo_meta 0x81A0 1);
     os_close := fun d => if bool_decide (d = DirFd []) then RaisedReleased else Closed |}.
Example directory_leaks :
  _secure_read_signing_key_file raising_os "/etc/rpc/key.pem" = ([DirFd ["etc"]], None).
Proof. vm_compute. reflexivity. Qed.
