(* ===== verification/JsonFacts.v ===== *)
(** * Canonical JSON text can be read back

    The text [json.dumps] gives for a flat object determines the object: strings and
    integers are delimited, so a signature over the text is a signature over the
    values.  Before that, facts on concatenation, reversal and stripping. *)

From S2P Require Import Prelude PyValue CredentialContract RedactionFacts.

Lemma sapp_nil a : EmptyString +:+ a = a.
Proof. done. Qed.
Lemma sapp_cons c a b : String c a +:+ b = String c (a +:+ b).
Proof. done. Qed.
Lemma sapp_nil_r a : a +:+ EmptyString = a.
Proof. induction a as [|x a IH]; [done|]. rewrite sapp_cons. by f_equal. Qed.
Lemma sapp_assoc a b c : (a +:+ b) +:+ c = a +:+ (b +:+ c).
Proof. induction a as [|x a IH]; [done|]. rewrite !sapp_cons. by f_equal. Qed.
Lemma sapp_cancel a b c : a +:+ b = a +:+ c -> b = c.
Proof. induction a as [|x a IH]; [done|]. rewrite !sapp_cons. intros [= E]. auto. Qed.

(** ** Stripping *)

Definition head_ok (s : string) : Prop := match s with EmptyString => True | String c _ => chr_space c = false end.

Lemma lstrip_head s : head_ok (str_lstrip s).
Proof. induction s as [|c s IH]; [done|]. cbn. by destruct (chr_space c) eqn:E. Qed.
Lemma lstrip_id s : head_ok s -> str_lstrip s = s.
Proof. destruct s as [|c s]; [done|]. cbn. by intros ->. Qed.
(** A text of white space. *)
Fixpoint all_space (s : string) : Prop :=
  match s with EmptyString => True | String c r => chr_space c = true /\ all_space r end.
Lemma all_space_app a b : all_space (a +:+ b) <-> all_space a /\ all_space b.
Proof. induction a as [|c a IH]; [by rewrite sapp_nil; split; [|intros []]|]. rewrite sapp_cons. cbn. rewrite IH. tauto. Qed.
Lemma lstrip_suffix s : exists pre, s = pre +:+ str_lstrip s /\ all_space pre.
Proof.
  induction s as [|c s (pre & IH & Hp)]; [by exists EmptyString|]. cbn. destruct (chr_space c) eqn:E; [|by exists EmptyString].
  exists (String c pre). rewrite sapp_cons. split; [by f_equal|done].
Qed.
Lemma lstrip_over sp s : all_space sp -> str_lstrip (sp +:+ s) = str_lstrip s.
Proof. induction sp as [|c sp IH]; [done|]. intros [Hc Hs]. rewrite sapp_cons. cbn. rewrite Hc. by apply IH. Qed.

Lemma rev_app_spec s acc : str_rev_app s acc = str_rev s +:+ acc.
Proof.
  unfold str_rev. revert acc. induction s as [|c s IH]; intros acc; [done|]. cbn. rewrite (IH (String c acc)), (IH (String c _)).
  by rewrite sapp_assoc.
Qed.
Lemma str_rev_cons c s : str_rev (String c s) = str_rev s +:+ String c EmptyString.
Proof. exact (rev_app_spec s (String c EmptyString)). Qed.
Lemma str_rev_sapp a b : str_rev (a +:+ b) = str_rev b +:+ str_rev a.
Proof.
  induction a as [|c a IH]; [by rewrite sapp_nil, sapp_nil_r|].
  by rewrite sapp_cons, !str_rev_cons, IH, sapp_assoc.
Qed.
Lemma str_rev_involutive s : str_rev (str_rev s) = s.
Proof. induction s as [|c s IH]; [done|]. rewrite str_rev_cons, str_rev_sapp, IH. done. Qed.

Lemma str_strip_idem s : str_strip (str_strip s) = str_strip s.
Proof.
  unfold str_strip. set (t := str_lstrip s). set (u := str_lstrip (str_rev t)).
  assert (head_ok (str_rev u)) as Hr.
  { destruct (lstrip_suffix (str_rev t)) as (p & Hp & _). fold u in Hp. apply (f_equal str_rev) in Hp.
    rewrite str_rev_involutive, str_rev_sapp in Hp. pose proof (lstrip_head s) as Ht. fold t in Ht.
    destruct (str_rev u) as [|c r]; [done|]. rewrite Hp, sapp_cons in Ht. exact Ht. }
  rewrite (lstrip_id _ Hr), str_rev_involutive, (lstrip_id u); [done|apply lstrip_head].
Qed.

Lemma all_space_rev s : all_space s -> all_space (str_rev s).
Proof. induction s as [|c s IH]; [done|]. intros [Hc Hs]. rewrite str_rev_cons, all_space_app. split; [by apply IH|done]. Qed.
(** Stripping takes white space from both ends. *)
Lemma strip_inside s : exists pre post, s = pre +:+ str_strip s +:+ post /\ all_space pre /\ all_space post.
Proof.
  destruct (lstrip_suffix s) as (pre & Hs & Hpre). destruct (lstrip_suffix (str_rev (str_lstrip s))) as (post & Hr & Hpost).
  exists pre, (str_rev post). split; [|split; [done|by apply all_space_rev]].
  rewrite Hs at 1. f_equal. apply (f_equal str_rev) in Hr. by rewrite str_rev_involutive, str_rev_sapp in Hr.
Qed.
Lemma str_prefix_app p s : String.prefix p (p +:+ s) = true.
Proof.
  induction p as [|c p IH]; [by destruct s|]. rewrite sapp_cons. cbn. by destruct (ascii_dec c c).
Qed.
Lemma endswith_app p s : str_endswith s (p +:+ s) = true.
Proof. unfold str_endswith. rewrite str_rev_sapp. apply str_prefix_app. Qed.


(** ** Strings *)

Definition hex_value (c : ascii) : Z := let z := code c in if z <? 58 then z - 48 else z - 87.

(** Read one encoded character. *)
Definition json_unchar (s : string) : option (ascii * string) :=
  match s with
  | EmptyString => None
  | String c r =>
      if Ascii.eqb c quote_char then None
      else if Ascii.eqb c "\"%char then
        match r with
        | EmptyString => None
        | String e r =>
            if Ascii.eqb e "b"%char then Some (chr 8, r)
            else if Ascii.eqb e "t"%char then Some (chr 9, r)
            else if Ascii.eqb e "n"%char then Some (chr 10, r)
            else if Ascii.eqb e "f"%char then Some (chr 12, r)
            else if Ascii.eqb e "r"%char then Some (chr 13, r)
            else if Ascii.eqb e "u"%char then
              match r with
              | String _ (String _ (String a (String b r))) => Some (chr (hex_value a * 16 + hex_value b), r)
              | _ => None
              end
            else Some (e, r)
        end
      else Some (c, r)
  end.

Lemma json_unchar_char c r : json_unchar (json_char c +:+ r) = Some (c, r).
Proof. destruct c as [[] [] [] [] [] [] [] []]; reflexivity. Qed.

Lemma json_body_split s1 s2 r1 r2 :
  str_concat_map json_char s1 +:+ String quote_char r1 = str_concat_map json_char s2 +:+ String quote_char r2 ->
  s1 = s2 /\ r1 = r2.
Proof.
  revert s2. induction s1 as [|c1 s1 IH]; intros [|c2 s2] Heq; cbn [str_concat_map] in Heq;
    rewrite ?sapp_nil, ?sapp_assoc in Heq.
  - by injection Heq as ->.
  - apply (f_equal json_unchar) in Heq. rewrite json_unchar_char in Heq. done.
  - apply (f_equal json_unchar) in Heq. rewrite json_unchar_char in Heq. done.
  - apply (f_equal json_unchar) in Heq. rewrite !json_unchar_char in Heq. injection Heq as -> Heq.
    by destruct (IH _ Heq) as [-> ->].
Qed.

Lemma json_str_split s1 s2 r1 r2 : json_str s1 +:+ r1 = json_str s2 +:+ r2 -> s1 = s2 /\ r1 = r2.
Proof.
  unfold json_str. rewrite !sapp_assoc, !sapp_cons. intros [= Heq]. rewrite !sapp_nil in Heq.
  by apply json_body_split.
Qed.

(** ** Integers and [null] *)

Definition inner_char (c : ascii) : bool := negb (Ascii.eqb c ","%char) && negb (Ascii.eqb c "}"%char).
(** What follows a value in an object. *)
Definition delimited (s : string) : bool :=
  match s with String c _ => negb (inner_char c) | EmptyString => false end.

Lemma plain_split t1 t2 r1 r2 :
  str_forall inner_char t1 = true -> str_forall inner_char t2 = true ->
  delimited r1 = true -> delimited r2 = true -> t1 +:+ r1 = t2 +:+ r2 -> t1 = t2 /\ r1 = r2.
Proof.
  revert t2. induction t1 as [|c1 t1 IH]; intros [|c2 t2] H1 H2 D1 D2 Heq;
    rewrite ?sapp_nil, ?sapp_cons in Heq; cbn [str_forall] in H1, H2; bool_inv; try done.
  - subst r1. cbn [delimited] in D1. bool_inv. congruence.
  - subst r2. cbn [delimited] in D2. bool_inv. congruence.
  - injection Heq as -> Heq. by destruct (IH t2) as [-> ->].
Qed.

Lemma decimal_inner c : decimal c = true -> inner_char c = true.
Proof. destruct c as [[] [] [] [] [] [] [] []]; vm_compute; congruence. Qed.

Lemma str_of_Z_inner z : str_forall inner_char (str_of_Z z) = true.
Proof.
  destruct (decide (0 <= z)) as [Hz|Hz].
  - eapply str_forall_impl; [exact decimal_inner|]. by apply str_of_Z_decimal.
  - destruct z as [| |p]; [lia|lia|]. unfold str_of_Z. change (pretty (Z.neg p)) with ("-" +:+ pretty (Z.pos p)).
    rewrite str_forall_app. apply andb_true_iff. split; [done|].
    eapply str_forall_impl; [exact decimal_inner|]. apply (str_of_Z_decimal (Z.pos p)). lia.
Qed.

(** ** Flat objects *)

Inductive token : Type := TInt (o : option Z) | TStr (s : string).
Definition token_value (t : token) : value :=
  match t with TInt (Some z) => VInt z | TInt None => VNone | TStr s => VStr s end.
Definition same_kind (t u : token) : bool :=
  match t, u with TInt _, TInt _ | TStr _, TStr _ => true | _, _ => false end.

Lemma str_of_Z_not_null z : str_of_Z z <> "null".
Proof.
  intros E. destruct (decide (0 <= z)) as [Hz|Hz].
  - pose proof (str_of_Z_decimal z Hz) as Hd. rewrite E in Hd. vm_compute in Hd. done.
  - destruct z as [| |p]; [lia|lia|]. unfold str_of_Z in E.
    change (pretty (Z.neg p)) with ("-" +:+ pretty (Z.pos p)) in E. done.
Qed.

Lemma token_split t1 t2 r1 r2 :
  same_kind t1 t2 = true -> delimited r1 = true -> delimited r2 = true ->
  json_dumps (token_value t1) +:+ r1 = json_dumps (token_value t2) +:+ r2 -> t1 = t2 /\ r1 = r2.
Proof.
  destruct t1 as [o1|s1], t2 as [o2|s2]; try done; intros _ D1 D2 Heq.
  - assert (forall o, str_forall inner_char (json_dumps (token_value (TInt o))) = true) as Hp
      by (intros [z|]; [apply str_of_Z_inner|done]).
    destruct (plain_split _ _ _ _ (Hp o1) (Hp o2) D1 D2 Heq) as [E ->]. split; [|done]. f_equal.
    destruct o1 as [z1|], o2 as [z2|]; cbn in E; try done.
    + f_equal. by apply (inj (pretty (A := Z))).
    + by apply str_of_Z_not_null in E.
    + symmetry in E. by apply str_of_Z_not_null in E.
  - destruct (json_str_split s1 s2 r1 r2 Heq) as [-> ->]. done.
Qed.

(** The entries of an object after its opening brace. *)
Fixpoint render_fields (l : list (string * token)) : string :=
  match l with
  | [] => "}"
  | [(k, t)] => json_str k +:+ ":" +:+ json_dumps (token_value t) +:+ "}"
  | (k, t) :: r => json_str k +:+ ":" +:+ json_dumps (token_value t) +:+ "," +:+ render_fields r
  end.

Lemma render_fields_inj l1 l2 :
  Forall2 (fun a b => same_kind a.2 b.2 = true) l1 l2 -> render_fields l1 = render_fields l2 -> l1 = l2.
Proof.
  induction 1 as [|[k1 t1] [k2 t2] l1 l2 Hk Hl IH]; [done|]. cbn [snd] in Hk. intros Heq.
  assert (exists r1, render_fields ((k1, t1) :: l1) = json_str k1 +:+ ":" +:+ json_dumps (token_value t1) +:+ r1 /\
            delimited r1 = true /\ (r1 = "}" /\ l1 = [] \/ r1 = "," +:+ render_fields l1 /\ l1 <> [])) as (r1 & E1 & D1 & C1).
  { destruct l1; eexists; (split; [reflexivity|]); (split; [done|]); [by left|by right]. }
  assert (exists r2, render_fields ((k2, t2) :: l2) = json_str k2 +:+ ":" +:+ json_dumps (token_value t2) +:+ r2 /\
            delimited r2 = true /\ (r2 = "}" /\ l2 = [] \/ r2 = "," +:+ render_fields l2 /\ l2 <> [])) as (r2 & E2 & D2 & C2).
  { destruct l2; eexists; (split; [reflexivity|]); (split; [done|]); [by left|by right]. }
  rewrite E1, E2 in Heq. apply json_str_split in Heq as [-> Heq]. apply sapp_cancel in Heq.
  destruct (token_split _ _ _ _ Hk D1 D2 Heq) as [-> Er]. f_equal.
  destruct C1 as [[-> ->]|[-> _]], C2 as [[-> ->]|[-> _]]; try done. apply IH. by apply (sapp_cancel ",").
Qed.

(** ** Decimal text is read back *)

Lemma digit_of_pretty x : (x < 10)%N -> digit_of (pretty_N_char x) = Some (Z.of_N x).
Proof.
  intros Hx. assert (x ∈ [0; 1; 2; 3; 4; 5; 6; 7; 8; 9]%N) as Hin.
  { rewrite !elem_of_cons. lia. }
  repeat (apply elem_of_cons in Hin as [->|Hin]; [reflexivity|]). by apply elem_of_nil in Hin.
Qed.

Lemma parse_pretty x :
  exists p, forall acc pd s,
    parse_digits acc pd (pretty_N_go x s) = parse_digits (acc * p + Z.of_N x) (pd || (0 <? x)%N) s.
Proof.
  induction (N.lt_wf_0 x) as [x _ IH]. destruct (decide (0 < x)%N) as [Hx|Hx].
  - destruct (IH (x / 10)%N) as [p Hp]; [apply N.div_lt; lia|]. exists (10 * p). intros acc pd s.
    rewrite pretty_N_go_step, Hp by done. cbn [parse_digits].
    rewrite digit_of_pretty by (apply N.mod_lt; lia). rewrite (proj2 (N.ltb_lt 0 x) Hx), orb_true_r.
    f_equal. rewrite N2Z.inj_mod, N2Z.inj_div. Z.to_euclidean_division_equations; lia.
  - assert (x = 0%N) as -> by lia. exists 1. intros acc pd s. rewrite pretty_N_go_0, orb_false_r. f_equal. lia.
Qed.

(** [str] and back, without the blanks and underscores [int] also takes. *)
Definition read_Z (s : string) : option Z :=
  match s with
  | String "-"%char r => Z.opp <$> parse_digits 0 false r
  | _ => parse_digits 0 false s
  end.
Lemma read_str_of_Z z : read_Z (str_of_Z z) = Some z.
Proof.
  destruct z as [|p|p]; [done| |]; destruct (parse_pretty (N.pos p)) as [q Hq]; specialize (Hq 0 false EmptyString).
  - assert (parse_digits 0 false (str_of_Z (Z.pos p)) = Some (Z.pos p)) as Hp by (etransitivity; [exact Hq|done]).
    unfold read_Z. pose proof (str_of_Z_decimal (Z.pos p) ltac:(lia)) as Hd.
    destruct (str_of_Z (Z.pos p)) as [|[[] [] [] [] [] [] [] []] r] eqn:E; try exact Hp. done.
  - unfold str_of_Z. change (pretty (Z.neg p)) with ("-" +:+ pretty_N_go (N.pos p) EmptyString).
    rewrite sapp_cons, sapp_nil. cbn [read_Z]. rewrite Hq. done.
Qed.
