(* ===== verification/Lease.v ===== *)
(** * Dispatch leases

    [netbox_rpc/dispatch_lease.py] without the key file reader (file KeyFile): the
    claims and their canonical text, the signing and verifying keys a configuration
    gives, the issue of a lease and the reference verifier.

    The ed25519 primitives and the timestamps are arguments ([LeaseLib]) with the
    behaviour the code relies on in [LeaseLaws].  An instant is a number of
    microseconds since 1970; the values of the claims are Latin-1 text and integers. *)

From S2P Require Import Prelude PyValue CredentialContract Protected Codec Capabilities KeyFile.

(** [datetime.fromisoformat] gives an aware or a naive timestamp. *)
Inductive timestamp : Type := Aware (t : Z) | Naive (t : Z).

(** [load_pem_private_key] and [load_pem_public_key] give only ed25519 keys; text is
    code points, a signature bytes. *)
Class LeaseLib := {
  private_key : Type;
  public_key : Type;
  load_pem_private_key : list Z -> option private_key;
  load_pem_public_key : string -> option public_key;
  from_public_bytes : list Z -> option public_key;
  public_of : private_key -> public_key;
  ed25519_sign : private_key -> string -> list Z;
  ed25519_verify : public_key -> list Z -> string -> bool;
  isoformat : Z -> string;
  parse_timestamp : string -> option timestamp;
}.

(** The instants from the first day of year 1 to the last of year 9999. *)
Definition representable (t : Z) : Prop := -62135596800000000 <= t < 253402300800000000.

Class LeaseLaws `{LeaseLib} := {
  law_verify_sign k m : ed25519_verify (public_of k) (ed25519_sign k m) m = true;
  law_signature_bytes k m : Forall (fun z => is_byte z = true) (ed25519_sign k m);
  law_signature_length k m : length (ed25519_sign k m) = 64%nat;
  law_isoformat t : representable t -> parse_timestamp (isoformat t) = Some (Aware t);
  law_isoformat_text t : representable t -> isoformat t <> EmptyString;
}.

(** ** Constants *)

Definition LEASE_ENVELOPE_VERSION : Z := 1.
Definition LEASE_SUPPORTED_ENVELOPE_VERSIONS : list Z := [1].
Definition SIGNING_ALGORITHM : string := "ed25519".
Definition DEFAULT_AUDIENCE : string := "netbox-rpc-backend".
Definition DEFAULT_TTL_SECONDS : Z := 120.
Definition _MAX_TTL_SECONDS : Z := 900.
Definition MAX_REFERENCE_LEASE_SECONDS : Z := 300.
Definition _MAX_ENV_KEY_VERSION : Z := 2147483647.
Definition _MAX_ID_LEN : Z := 255.
Definition _MAX_HASH_LEN : Z := 128.
Definition _MAX_NONCE_LEN : Z := 128.
Definition _MAX_SIG_LEN : Z := 512.
Definition _MAX_REF_LEN : Z := 255.

(** ** Claims *)

Record LeaseClaims := {
  envelope_version : Z;
  lc_execution_id : Z;
  stream_version : Z;
  nonce : string;
  audience : string;
  handler_id : string;
  handler_version : Z;
  lc_effect : string;
  contract_hash : string;
  lc_target_snapshot_hash : string;
  params_fingerprint : string;
  credential_policy : string;
  lc_requested_by_id : option Z;
  lc_approved_by_id : option Z;
  issued_at : string;
  expires_at : string;
  trace_id : string;
  key_id : string;
  key_version : Z;
}.

Definition text_within (lo hi : Z) (s : string) : bool := (lo <=? str_len s) && (str_len s <=? hi).
Definition natural (z : Z) : bool := 0 <=? z.
Definition optional_natural (o : option Z) : bool := match o with Some z => natural z | None => true end.

(** The field constraints of the model; construction raises when one fails. *)
Definition claims_valid (c : LeaseClaims) : bool :=
  natural (envelope_version c) && natural (lc_execution_id c) && natural (stream_version c)
  && text_within 1 _MAX_NONCE_LEN (nonce c) && text_within 1 _MAX_REF_LEN (audience c)
  && text_within 0 _MAX_ID_LEN (handler_id c) && natural (handler_version c)
  && text_within 0 20 (lc_effect c) && text_within 0 _MAX_HASH_LEN (contract_hash c)
  && text_within 0 _MAX_HASH_LEN (lc_target_snapshot_hash c)
  && text_within 0 _MAX_HASH_LEN (params_fingerprint c)
  && text_within 0 _MAX_REF_LEN (credential_policy c)
  && optional_natural (lc_requested_by_id c) && optional_natural (lc_approved_by_id c)
  && text_within 0 64 (issued_at c) && text_within 0 64 (expires_at c)
  && text_within 0 _MAX_ID_LEN (trace_id c) && text_within 1 _MAX_ID_LEN (key_id c)
  && natural (key_version c).

Definition optional_int (o : option Z) : value := match o with Some z => VInt z | None => VNone end.

Definition model_dump (c : LeaseClaims) : dict :=
  [("envelope_version", VInt (envelope_version c)); ("execution_id", VInt (lc_execution_id c));
   ("stream_version", VInt (stream_version c)); ("nonce", VStr (nonce c)); ("audience", VStr (audience c));
   ("handler_id", VStr (handler_id c)); ("handler_version", VInt (handler_version c));
   ("effect", VStr (lc_effect c)); ("contract_hash", VStr (contract_hash c));
   ("target_snapshot_hash", VStr (lc_target_snapshot_hash c));
   ("params_fingerprint", VStr (params_fingerprint c)); ("credential_policy", VStr (credential_policy c));
   ("requested_by_id", optional_int (lc_requested_by_id c));
   ("approved_by_id", optional_int (lc_approved_by_id c)); ("issued_at", VStr (issued_at c));
   ("expires_at", VStr (expires_at c)); ("trace_id", VStr (trace_id c)); ("key_id", VStr (key_id c));
   ("key_version", VInt (key_version c))].

(** The text is ASCII, so it is its own UTF-8 encoding. *)
Definition canonical_bytes (c : LeaseClaims) : string := json_dumps (VDict (model_dump c)).

Record SignedDispatchLease := {
  algorithm : string;
  claims : LeaseClaims;
  signature : string;
}.
Definition lease_valid (l : SignedDispatchLease) : bool :=
  text_within 0 32 (algorithm l) && text_within 1 _MAX_SIG_LEN (signature l).

Inductive LeaseStatus : Type := VALID | INVALID | NOT_ISSUED.
Record LeaseVerification := { lv_status : LeaseStatus; lv_reason : string }.
Definition _invalid (reason : string) : LeaseVerification :=
  {| lv_status := INVALID; lv_reason := str_take 255 reason |}.

(** ** Small conversions *)

(** [_maybe_int]: other errors pass through. *)
Definition _maybe_int (v : value) : res (option Z) :=
  match v with
  | VNone => Ok None
  | _ => match py_int v with
         | Ok z => Ok (Some z)
         | Err TypeError | Err ValueError => Ok None
         | Err e => Err e
         end
  end.

Definition key_id_char (c : ascii) : bool :=
  let z := code c in
  ((48 <=? z) && (z <=? 57)) || ((65 <=? z) && (z <=? 90)) || ((97 <=? z) && (z <=? 122))
  || str_contains (String c EmptyString) "._:-".
Definition key_id_first (c : ascii) : bool :=
  key_id_char c && negb (str_contains (String c EmptyString) "._:-").
Definition _ENV_KEY_ID_RE (s : string) : bool :=
  match s with
  | EmptyString => false
  | String c r => key_id_first c && str_forall key_id_char r && (str_len r <=? 254)
  end.

Section Lease.
Context `{PyLib} `{ManifestLib} `{LeaseLib}.

Definition _hash_json (v : value) : string :=
match v with VNone => EmptyString | _ => sha256 (json_dumps v) end.

Definition _parse_iso (s : string) : option timestamp :=
if str_truthy s then parse_timestamp s else None.

(** ** Keys *)

Record _SigningKey := { sk_key_id : string; sk_key_version : Z; sk_private : private_key }.
Definition sign (k : _SigningKey) (message : string) : string :=
b64encode (ed25519_sign (sk_private k) message).

Definition _load_ed25519_public_key (material : string) : option public_key :=
let text := str_strip material in
if str_contains "BEGIN" text then load_pem_public_key text
else raw ← b64decode text; from_public_bytes raw.

(** The three environment variables and the operating system. *)
Record environment := {
env_key_file : option string;
env_key_id : option string;
env_key_version : option string;
env_os : os;
}.

Definition _load_environment_signing_key (env : environment) : option _SigningKey :=
match env_key_file env, env_key_id env, env_key_version env with
| Some path, Some id, Some raw_version =>
  if negb (str_truthy path && str_truthy id && str_truthy raw_version && _ENV_KEY_ID_RE id) then None else
  match py_int (VStr raw_version) with
  | Ok version =>
      if negb ((1 <=? version) && (version <=? _MAX_ENV_KEY_VERSION)) then None else
      pem ← (_secure_read_signing_key_file (env_os env) path).2;
      k ← load_pem_private_key pem;
      Some {| sk_key_id := id; sk_key_version := version; sk_private := k |}
  | Err _ => None
  end
| _, _, _ => None
end.

(** [PLUGINS_CONFIG["netbox_rpc"]]; [None] when it cannot be read. *)
Definition _plugin_setting (config : option dict) (name : string) : option value :=
d ← config; dict_get name d.

Definition lineage_id (entry : dict) : string := str_strip (py_str (py_or (get "key_id" entry) (VStr EmptyString))).
Definition lineage_version (entry : dict) : res Z :=
py_int (default (VInt 1) (dict_get "key_version" entry)).
(** Infinity is the one number [int] refuses with another error than the two caught. *)
Definition caught {A} (r : res A) (skip : res (option _SigningKey)) (f : A -> res (option _SigningKey))
: res (option _SigningKey) :=
match r with
| Ok a => f a
| Err TypeError | Err ValueError => skip
| Err e => Err e
end.

Fixpoint first_active (entries : list value) : res (option _SigningKey) :=
match entries with
| [] => Ok None
| VDict entry :: rest =>
  if negb (truthy (get "active" entry)) then first_active rest else
  let id := lineage_id entry in
  match get "private_key_pem" entry with
  | VStr pem =>
      if negb (str_truthy id && str_truthy (str_strip pem)) then first_active rest else
      caught (lineage_version entry) (first_active rest) (fun version =>
        if (version <? 0) || (_MAX_ID_LEN <? str_len id) then first_active rest else
        match load_pem_private_key (code_points pem) with
        | None => first_active rest
        | Some k => Ok (Some {| sk_key_id := id; sk_key_version := version; sk_private := k |})
        end)
  | _ => first_active rest
  end
| _ :: rest => first_active rest
end.

Definition load_active_signing_key (config : option dict) (env : environment) : res (option _SigningKey) :=
match _plugin_setting config "dispatch_lease_signing_keys" with
| None => Ok (_load_environment_signing_key env)
| Some (VList entries) | Some (VTuple entries) => first_active entries
| Some _ => Ok None
end.

Notation key_map := (gmap (string * Z) public_key).

Definition public_of_entry (entry : dict) : option public_key :=
let material := py_or (get "public_key_pem" entry) (get "public_key_b64" entry) in
let public :=
match material with
| VStr m => if str_truthy (str_strip m) then _load_ed25519_public_key m else None
| _ => None
end in
match public with
| Some k => Some k
| None => match get "private_key_pem" entry with
        | VStr pem => public_of <$> load_pem_private_key (code_points pem)
        | _ => None
        end
end.

Fixpoint collect_public_keys (entries : list value) (out : key_map) : res key_map :=
match entries with
| [] => Ok out
| VDict entry :: rest =>
  let id := lineage_id entry in
  if negb (str_truthy id) then collect_public_keys rest out else
  match lineage_version entry with
  | Ok version =>
      match public_of_entry entry with
      | Some k => collect_public_keys rest (<[(id, version) := k]> out)
      | None => collect_public_keys rest out
      end
  | Err TypeError | Err ValueError => collect_public_keys rest out
  | Err e => Err e
  end
| _ :: rest => collect_public_keys rest out
end.

Definition load_verifier_public_keys (config : option dict) (env : environment) : res key_map :=
match _plugin_setting config "dispatch_lease_signing_keys" with
| None =>
  Ok match _load_environment_signing_key env with
     | Some k => {[ (sk_key_id k, sk_key_version k) := public_of (sk_private k) ]}
     | None => ∅
     end
| Some (VList entries) | Some (VTuple entries) => collect_public_keys entries ∅
| Some _ => Ok ∅
end.

(** ** Issue *)

Record lease_execution := {
le_pk : value;
le_procedure : option catalog_row;
le_requested_by_id : value;
le_approved_by_id : value;
le_credential_references : value;
}.

Definition resolved_audience (audience setting : value) : string :=
str_take _MAX_REF_LEN (py_str (py_or (py_or audience setting) (VStr DEFAULT_AUDIENCE))).

Definition resolved_ttl (ttl_seconds setting : value) (references : bool) : res Z :=
let ttl := match ttl_seconds with VNone => setting | t => t end in
n ← (match ttl with
   | VNone => Ok DEFAULT_TTL_SECONDS
   | t => match py_int t with
          | Err TypeError | Err ValueError => Ok DEFAULT_TTL_SECONDS
          | r => r
          end
   end);
let n := Z.max 1 (Z.min n _MAX_TTL_SECONDS) in
Ok (if references then Z.min n MAX_REFERENCE_LEASE_SECONDS else n).

Definition target_hash (fingerprint_source : value) : string :=
match fingerprint_source with
| VDict d => str_take _MAX_HASH_LEN (py_str (py_or (get "target_object_sha256" d) (VStr EmptyString)))
| _ => EmptyString
end.

(** The body of the [try]. *)
Definition build_claims (k : _SigningKey) (ex : lease_execution) (p : catalog_row) (stream : Z)
(fingerprint_source : value) (now ttl : Z) (policy trace nonce audience : string) : res LeaseClaims :=
id ← py_int (le_pk ex);
requested ← _maybe_int (le_requested_by_id ex);
approved ← _maybe_int (le_approved_by_id ex);
let c :=
{| envelope_version := LEASE_ENVELOPE_VERSION; lc_execution_id := id; stream_version := stream;
   nonce := nonce; audience := audience; handler_id := str_take _MAX_ID_LEN (cr_handler_id p);
   handler_version := version_or_1 (cr_version p); lc_effect := str_take 20 (cr_effect p);
   contract_hash := derive_command_contract_hash p;
   lc_target_snapshot_hash := target_hash fingerprint_source;
   params_fingerprint := _hash_json fingerprint_source;
   credential_policy := str_take _MAX_REF_LEN policy;
   lc_requested_by_id := requested; lc_approved_by_id := approved;
   issued_at := isoformat now; expires_at := isoformat (now + ttl * 1000000);
   trace_id := str_take _MAX_ID_LEN trace; key_id := sk_key_id k; key_version := sk_key_version k |} in
if claims_valid c then Ok c else Err ValueError.

(** [nonce] is what [generate_nonce] drew. *)
Definition issue_dispatch_lease (config : option dict) (env : environment) (ex : lease_execution) (stream : Z)
(normalized : dict) (now : Z) (policy trace nonce : string) (audience ttl_seconds : value)
: res (option SignedDispatchLease) :=
k ← load_active_signing_key config env;
match k, le_procedure ex, le_pk ex with
| None, _, _ | _, None, _ | _, _, VNone => Ok None
| Some k, Some p, _ =>
  let to := resolved_audience audience (default VNone (_plugin_setting config "dispatch_lease_audience")) in
  ttl ← resolved_ttl ttl_seconds (default VNone (_plugin_setting config "dispatch_lease_ttl_seconds"))
          (truthy (le_credential_references ex));
  let source := get "command_fingerprint" normalized in
  match build_claims k ex p stream source now ttl policy trace nonce to with
  | Err TypeError | Err ValueError => Ok None
  | Err e => Err e
  | Ok c =>
      let lease := {| algorithm := SIGNING_ALGORITHM; claims := c; signature := sign k (canonical_bytes c) |} in
      if lease_valid lease then Ok (Some lease) else Err (OtherError "pydantic.ValidationError")
  end
end.

(** ** Verify *)

(** The optional expectations of the verifier. *)
Record expectations := {
x_execution_id : option Z;
x_stream_version : option Z;
x_contract_hash : option string;
x_handler_id : option string;
x_handler_version : option Z;
x_effect : option string;
x_target_snapshot_hash : option string;
x_params_fingerprint : option string;
x_credential_policy : option string;
x_requested_by_id : option Z;
x_approved_by_id : option Z;
x_seen_nonces : option (gset string);
}.

Definition meets_Z (x : option Z) (z : Z) : bool := match x with Some y => z =? y | None => true end.
Definition meets_str (x : option string) (s : string) : bool :=
match x with Some t => String.eqb s t | None => true end.
Definition meets_opt (x o : option Z) : bool :=
match x with Some _ => bool_decide (o = x) | None => true end.

(** The expectations in the order they are checked, each with its reason. *)
Definition expectation_checks (x : expectations) (c : LeaseClaims) : list (bool * string) :=
[(meets_Z (x_execution_id x) (lc_execution_id c), "execution id mismatch");
 (meets_Z (x_stream_version x) (stream_version c), "stream version mismatch");
 (meets_str (x_contract_hash x) (contract_hash c), "contract hash mismatch");
 (meets_str (x_handler_id x) (handler_id c), "handler id mismatch");
 (meets_Z (x_handler_version x) (handler_version c), "handler version mismatch");
 (meets_str (x_effect x) (lc_effect c), "effect mismatch");
 (meets_str (x_target_snapshot_hash x) (lc_target_snapshot_hash c), "target snapshot mismatch");
 (meets_str (x_params_fingerprint x) (params_fingerprint c), "params fingerprint mismatch");
 (meets_str (x_credential_policy x) (credential_policy c), "credential policy mismatch");
 (meets_opt (x_requested_by_id x) (lc_requested_by_id c), "requester mismatch");
 (meets_opt (x_approved_by_id x) (lc_approved_by_id c), "approver mismatch");
 (match x_seen_nonces x with Some seen => negb (bool_decide (nonce c ∈ seen)) | None => true end,
"nonce replay")].

Fixpoint first_failure (checks : list (bool * string)) : LeaseVerification :=
match checks with
| [] => {| lv_status := VALID; lv_reason := EmptyString |}
| (ok, reason) :: rest => if ok then first_failure rest else _invalid reason
end.

(** Comparing an aware instant with a naive timestamp raises [TypeError]. *)
Definition verify_dispatch_lease (l : SignedDispatchLease) (public_keys : key_map) (to : string) (now : Z)
(x : expectations) : res LeaseVerification :=
let c := claims l in
if negb (bool_decide (envelope_version c ∈ LEASE_SUPPORTED_ENVELOPE_VERSIONS))
then Ok (_invalid "unsupported envelope version")
else if negb (String.eqb (algorithm l) SIGNING_ALGORITHM) then Ok (_invalid "unsupported signing algorithm")
else match public_keys !! (key_id c, key_version c) with
| None => Ok (_invalid "unknown signing key lineage")
| Some k =>
  match b64decode (signature l) with
  | None => Ok (_invalid "malformed signature encoding")
  | Some sig =>
      if negb (ed25519_verify k sig (canonical_bytes c)) then Ok (_invalid "signature verification failed")
      else if negb (String.eqb (audience c) to) then Ok (_invalid "wrong audience")
      else match _parse_iso (expires_at c), _parse_iso (issued_at c) with
      | Some expires, Some _ =>
          match expires with
          | Naive _ => Err TypeError
          | Aware t =>
              if t <? now then Ok (_invalid "lease expired") else Ok (first_failure (expectation_checks x c))
          end
      | _, _ => Ok (_invalid "malformed lease timestamps")
      end
  end
end.
End Lease.
