(* ===== verification/LeaseProperties.v ===== *)
(** * Properties of dispatch leases

    What a lease that verifies says of its dispatch, that a lease that was issued
    verifies, the lifetime of a lease, and that the signed text determines the claims. *)

From S2P Require Import Prelude PyValue CredentialContract Protected Codec Capabilities KeyFile JsonFacts Lease.

(** ** The signed text determines the claims *)

(** The claims as the canonical text lists them. *)
Definition claim_fields (c : LeaseClaims) : list (string * token) :=
  [("approved_by_id", TInt (lc_approved_by_id c)); ("audience", TStr (audience c));
   ("contract_hash", TStr (contract_hash c)); ("credential_policy", TStr (credential_policy c));
   ("effect", TStr (lc_effect c)); ("envelope_version", TInt (Some (envelope_version c)));
   ("execution_id", TInt (Some (lc_execution_id c))); ("expires_at", TStr (expires_at c));
   ("handler_id", TStr (handler_id c)); ("handler_version", TInt (Some (handler_version c)));
   ("issued_at", TStr (issued_at c)); ("key_id", TStr (key_id c));
   ("key_version", TInt (Some (key_version c))); ("nonce", TStr (nonce c));
   ("params_fingerprint", TStr (params_fingerprint c)); ("requested_by_id", TInt (lc_requested_by_id c));
   ("stream_version", TInt (Some (stream_version c)));
   ("target_snapshot_hash", TStr (lc_target_snapshot_hash c)); ("trace_id", TStr (trace_id c))].

Lemma join_fields l :
  l <> [] ->
  str_join "," (map (fun kv : string * string => json_str kv.1 +:+ ":" +:+ kv.2)
                  (map (fun kt => (kt.1, json_dumps (token_value kt.2))) l)) +:+ "}" = render_fields l.
Proof.
  induction l as [|[k t] l IH]; [done|]. intros _. destruct l as [|[k' t'] l].
  - cbn [map str_join render_fields fst snd]. by rewrite !sapp_assoc.
  - specialize (IH ltac:(done)). cbn [map fst snd] in IH.
    change (render_fields ((k, t) :: (k', t') :: l))
      with (json_str k +:+ ":" +:+ json_dumps (token_value t) +:+ "," +:+ render_fields ((k', t') :: l)).
    rewrite <- IH. cbn [map fst snd].
    match goal with |- str_join "," (?a :: ?b :: ?r) +:+ _ = _ =>
      change (str_join "," (a :: b :: r)) with (a +:+ "," +:+ str_join "," (b :: r)) end.
    by rewrite !sapp_assoc.
Qed.

Lemma canonical_render c : canonical_bytes c = "{" +:+ render_fields (claim_fields c).
Proof. rewrite <- join_fields by done. reflexivity. Qed.

Lemma claim_fields_inj c d : claim_fields c = claim_fields d -> c = d.
Proof. destruct c, d. unfold claim_fields. cbn. intros [=]. by subst. Qed.

(** C11: The signed text determines the claims: two claim sets with the same canonical
    text are equal, so no signature can be reused for other claims. *)
Theorem canonical_bytes_injective c d : canonical_bytes c = canonical_bytes d -> c = d.
Proof.
  rewrite !canonical_render. intros Heq%sapp_cancel. apply claim_fields_inj. apply render_fields_inj; [|done].
  repeat (constructor; [done|]). constructor.
Qed.

(** ** Verification *)

Section Verify.
Context `{PyLib} `{ManifestLib} `{LeaseLib}.

Definition meets {A} (x : option A) (a : A) : Prop := forall y, x = Some y -> a = y.

(** What the verifier has established of a lease it accepts. *)
Definition lease_binds (l : SignedDispatchLease) (keys : gmap (string * Z) public_key) (to : string) (now : Z)
    (x : expectations) : Prop :=
  let c := claims l in
  envelope_version c = 1 /\ algorithm l = "ed25519" /\
  (exists k sig, keys !! (key_id c, key_version c) = Some k /\ b64decode (signature l) = Some sig /\
     ed25519_verify k sig (canonical_bytes c) = true) /\
  audience c = to /\
  (exists t i, _parse_iso (expires_at c) = Some (Aware t) /\ _parse_iso (issued_at c) = Some i /\ now <= t) /\
  meets (x_execution_id x) (lc_execution_id c) /\ meets (x_stream_version x) (stream_version c) /\
  meets (x_contract_hash x) (contract_hash c) /\ meets (x_handler_id x) (handler_id c) /\
  meets (x_handler_version x) (handler_version c) /\ meets (x_effect x) (lc_effect c) /\
  meets (x_target_snapshot_hash x) (lc_target_snapshot_hash c) /\
  meets (x_params_fingerprint x) (params_fingerprint c) /\
  meets (x_credential_policy x) (credential_policy c) /\
  meets (Some <$> x_requested_by_id x) (lc_requested_by_id c) /\
  meets (Some <$> x_approved_by_id x) (lc_approved_by_id c) /\
  (forall seen, x_seen_nonces x = Some seen -> nonce c ∉ seen).

Lemma first_failure_valid checks :
  lv_status (first_failure checks) = VALID <-> Forall (fun p : bool * string => p.1 = true) checks.
Proof.
  induction checks as [|[ok reason] rest IH]; cbn [first_failure]; [done|]. rewrite Forall_cons.
  destruct ok; [by rewrite IH; naive_solver|]. naive_solver.
Qed.

Lemma meets_Z_spec x z : meets_Z x z = true <-> meets x z.
Proof. unfold meets. destruct x as [y|]; cbn; [rewrite Z.eqb_eq|]; naive_solver. Qed.
Lemma meets_str_spec x s : meets_str x s = true <-> meets x s.
Proof. unfold meets. destruct x as [y|]; cbn; [rewrite String.eqb_eq|]; naive_solver. Qed.
Lemma meets_opt_spec x o : meets_opt x o = true <-> meets (Some <$> x) o.
Proof. unfold meets. destruct x as [y|]; cbn; [rewrite bool_decide_eq_true|]; naive_solver. Qed.
Lemma unseen_spec x n :
  match x with Some seen => negb (bool_decide (n ∈ seen)) | None => true end = true <->
  forall seen : gset string, x = Some seen -> n ∉ seen.
Proof. destruct x as [seen|]; [rewrite negb_true_iff, bool_decide_eq_false|]; naive_solver. Qed.

Lemma expectations_spec x c :
  lv_status (first_failure (expectation_checks x c)) = VALID <->
  meets (x_execution_id x) (lc_execution_id c) /\ meets (x_stream_version x) (stream_version c) /\
  meets (x_contract_hash x) (contract_hash c) /\ meets (x_handler_id x) (handler_id c) /\
  meets (x_handler_version x) (handler_version c) /\ meets (x_effect x) (lc_effect c) /\
  meets (x_target_snapshot_hash x) (lc_target_snapshot_hash c) /\
  meets (x_params_fingerprint x) (params_fingerprint c) /\
  meets (x_credential_policy x) (credential_policy c) /\
  meets (Some <$> x_requested_by_id x) (lc_requested_by_id c) /\
  meets (Some <$> x_approved_by_id x) (lc_approved_by_id c) /\
  (forall seen, x_seen_nonces x = Some seen -> nonce c ∉ seen).
Proof.
  rewrite first_failure_valid. unfold expectation_checks. rewrite !Forall_cons, Forall_nil. cbn [fst].
  rewrite !meets_Z_spec, !meets_str_spec, !meets_opt_spec, unseen_spec. tauto.
Qed.

Lemma verify_spec l keys to now x :
  (exists v, verify_dispatch_lease l keys to now x = Ok v /\ lv_status v = VALID) <-> lease_binds l keys to now x.
Proof.
  unfold lease_binds. rewrite <- expectations_spec. unfold verify_dispatch_lease. cbv zeta.
  destruct (bool_decide (envelope_version (claims l) ∈ LEASE_SUPPORTED_ENVELOPE_VERSIONS)) eqn:Ev; cbn [negb].
  2: { apply bool_decide_eq_false in Ev. split; [by intros (v & [= <-] & ?)|]. intros (E & _). destruct Ev.
       rewrite E. left. }
  apply bool_decide_eq_true, list_elem_of_singleton in Ev.
  destruct (String.eqb_spec (algorithm l) SIGNING_ALGORITHM) as [Ea|Ea]; cbn [negb];
    [|split; [by intros (v & [= <-] & ?)|by intros (_ & ? & _)]].
  destruct (keys !! _) as [k|] eqn:Ek;
    [|split; [by intros (v & [= <-] & ?)|by intros (_ & _ & (? & ? & ? & _) & _)]].
  destruct (b64decode (signature l)) as [sig|] eqn:Es;
    [|split; [by intros (v & [= <-] & ?)|by intros (_ & _ & (? & ? & _ & ? & _) & _)]].
  destruct (ed25519_verify k sig _) eqn:Eg; cbn [negb];
    [|split; [by intros (v & [= <-] & ?)|intros (_ & _ & (k' & s' & [= <-] & [= <-] & E) & _); congruence]].
  destruct (String.eqb_spec (audience (claims l)) to) as [Et|Et]; cbn [negb];
    [|split; [by intros (v & [= <-] & ?)|by intros (_ & _ & _ & ? & _)]].
  destruct (_parse_iso (expires_at (claims l))) as [[t|t]|];
    [|destruct (_parse_iso (issued_at (claims l)))|];
    try (split; [by intros (v & Hv & ?)|by intros (_ & _ & _ & _ & (? & ? & ? & ? & _) & _)]).
  2-3: split; [intros (v & [= <-] & ?); done|by intros (_ & _ & _ & _ & (? & ? & ? & ? & _) & _)].
  destruct (_parse_iso (issued_at (claims l))) as [i|];
    [|split; [by intros (v & [= <-] & ?)|by intros (_ & _ & _ & _ & (? & ? & _ & ? & _) & _)]].
  destruct (t <? now) eqn:Ex; bool_inv.
  { split; [by intros (v & [= <-] & ?)|]. intros (_ & _ & _ & _ & (t' & i' & [= <-] & _ & ?) & _). lia. }
  split.
  - intros (v & [= <-] & Hv). split_and!; try done; [by exists k, sig|by exists t, i].
  - intros (_ & _ & _ & _ & _ & Hx). by eexists.
Qed.
End Verify.

(** ** Issue *)

Section Issue.
Context `{PyLib} `{ManifestLib} `{LeaseLib}.
Implicit Types ex : lease_execution.

Lemma issue_inv config env ex stream normalized now policy trace nonce audience ttl_seconds l :
  issue_dispatch_lease config env ex stream normalized now policy trace nonce audience ttl_seconds = Ok (Some l) ->
  exists k p ttl c, load_active_signing_key config env = Ok (Some k) /\ le_procedure ex = Some p /\
    resolved_ttl ttl_seconds (default VNone (_plugin_setting config "dispatch_lease_ttl_seconds"))
      (truthy (le_credential_references ex)) = Ok ttl /\
    build_claims k ex p stream (get "command_fingerprint" normalized) now ttl policy trace nonce
      (resolved_audience audience (default VNone (_plugin_setting config "dispatch_lease_audience"))) = Ok c /\
    l = {| algorithm := SIGNING_ALGORITHM; claims := c; signature := sign k (canonical_bytes c) |}.
Proof.
  unfold issue_dispatch_lease. intros Hi. apply bind_Ok in Hi as (k & Hk & Hi).
  destruct k as [k|]; [|done]. destruct (le_procedure ex) as [p|]; [|done].
  assert (exists ttl, resolved_ttl ttl_seconds (default VNone (_plugin_setting config "dispatch_lease_ttl_seconds"))
      (truthy (le_credential_references ex)) = Ok ttl /\
    match build_claims k ex p stream (get "command_fingerprint" normalized) now ttl policy trace nonce
      (resolved_audience audience (default VNone (_plugin_setting config "dispatch_lease_audience"))) with
    | Err TypeError | Err ValueError => Ok None
    | Err e => Err e
    | Ok c =>
        let lease := {| algorithm := SIGNING_ALGORITHM; claims := c; signature := sign k (canonical_bytes c) |} in
        if lease_valid lease then Ok (Some lease) else Err (OtherError "pydantic.ValidationError")
    end = Ok (Some l)) as (ttl & Ht & Hl).
  { destruct (le_pk ex); try done; apply bind_Ok in Hi as (ttl & Ht & Hi); by exists ttl. }
  exists k, p, ttl. destruct (build_claims _ _ _ _ _ _ _ _ _ _ _) as [c|[]] eqn:Ec; try done.
  exists c. split_and!; try done. cbv zeta in Hl. destruct (lease_valid _); [by injection Hl|done].
Qed.

Lemma resolved_ttl_bounds ttl_seconds setting references ttl :
  resolved_ttl ttl_seconds setting references = Ok ttl ->
  1 <= ttl <= _MAX_TTL_SECONDS /\ (references = true -> ttl <= MAX_REFERENCE_LEASE_SECONDS).
Proof.
  unfold resolved_ttl, _MAX_TTL_SECONDS, MAX_REFERENCE_LEASE_SECONDS. intros Ht.
  apply bind_Ok in Ht as (n & _ & [= <-]). destruct references; split; try done; lia.
Qed.

(** The claims of a lease, as functions of the execution. *)
Lemma build_claims_inv k ex p stream source now ttl policy trace nonce0 to c :
  build_claims k ex p stream source now ttl policy trace nonce0 to = Ok c ->
  py_int (le_pk ex) = Ok (lc_execution_id c) /\ _maybe_int (le_requested_by_id ex) = Ok (lc_requested_by_id c) /\
  _maybe_int (le_approved_by_id ex) = Ok (lc_approved_by_id c) /\
  envelope_version c = 1 /\ stream_version c = stream /\ nonce c = nonce0 /\ audience c = to /\
  handler_id c = str_take _MAX_ID_LEN (cr_handler_id p) /\ handler_version c = version_or_1 (cr_version p) /\
  lc_effect c = str_take 20 (cr_effect p) /\ contract_hash c = derive_command_contract_hash p /\
  lc_target_snapshot_hash c = target_hash source /\ params_fingerprint c = _hash_json source /\
  credential_policy c = str_take _MAX_REF_LEN policy /\
  issued_at c = isoformat now /\ expires_at c = isoformat (now + ttl * 1000000) /\
  key_id c = sk_key_id k /\ key_version c = sk_key_version k.
Proof.
  unfold build_claims. intros Hb. apply bind_Ok in Hb as (id & Hid & Hb). apply bind_Ok in Hb as (req & Hreq & Hb).
  apply bind_Ok in Hb as (app & Happ & Hb). cbv zeta in Hb. destruct (claims_valid _); [|done].
  injection Hb as <-. done.
Qed.

(** What a backend that recomputes everything from the execution expects of a lease. *)
Definition expected_of ex (p : catalog_row) (stream : Z) (source : value) (policy : string)
    (id : Z) (requested approved : option Z) (seen : gset string) : expectations :=
  {| x_execution_id := Some id; x_stream_version := Some stream;
     x_contract_hash := Some (derive_command_contract_hash p);
     x_handler_id := Some (str_take _MAX_ID_LEN (cr_handler_id p));
     x_handler_version := Some (version_or_1 (cr_version p)); x_effect := Some (str_take 20 (cr_effect p));
     x_target_snapshot_hash := Some (target_hash source); x_params_fingerprint := Some (_hash_json source);
     x_credential_policy := Some (str_take _MAX_REF_LEN policy);
     x_requested_by_id := requested; x_approved_by_id := approved; x_seen_nonces := Some seen |}.

Context `{!LeaseLaws}.

Lemma parse_isoformat t : representable t -> _parse_iso (isoformat t) = Some (Aware t).
Proof.
  intros Ht. unfold _parse_iso. destruct (isoformat t) eqn:E; [by apply law_isoformat_text in E|]. cbn [str_truthy].
  rewrite <- E. by apply law_isoformat.
Qed.
(** Both ends of the longest lease are representable. *)
Definition lease_time (now : Z) : Prop := representable now /\ representable (now + 900000000).
Lemma lease_time_expiry now ttl : lease_time now -> 1 <= ttl <= 900 -> representable (now + ttl * 1000000).
Proof. unfold lease_time, representable. lia. Qed.

Lemma sign_decodes k m : b64decode (sign k m) = Some (ed25519_sign (sk_private k) m).
Proof. apply b64decode_encode, law_signature_bytes. Qed.

(** The seconds a lease is asked for: by the argument, else by the setting, else the
    default, which also stands for what is no number. *)
Inductive asks (ttl_seconds setting : value) : Z -> Prop :=
| asks_argument n : ttl_seconds <> VNone -> py_int ttl_seconds = Ok n -> asks ttl_seconds setting n
| asks_setting n : ttl_seconds = VNone -> setting <> VNone -> py_int setting = Ok n -> asks ttl_seconds setting n
| asks_nothing : ttl_seconds = VNone -> setting = VNone -> asks ttl_seconds setting 120
| asks_no_number v : v = match ttl_seconds with VNone => setting | _ => ttl_seconds end ->
    py_int v = Err TypeError \/ py_int v = Err ValueError -> asks ttl_seconds setting 120.
(** What is granted: at least a second, at most fifteen minutes, five with references. *)
Definition granted (n : Z) (references : bool) : Z := Z.max 1 (Z.min n (if references then 300 else 900)).

Lemma resolved_ttl_granted ttl_seconds setting references ttl :
  resolved_ttl ttl_seconds setting references = Ok ttl ->
  exists n, asks ttl_seconds setting n /\ ttl = granted n references.
Proof.
  unfold resolved_ttl, granted, _MAX_TTL_SECONDS, MAX_REFERENCE_LEASE_SECONDS. intros Ht.
  apply bind_Ok in Ht as (n & Hn & Ht). exists n.
  split; [|injection Ht as <-; destruct references; lia].
  set (asked := match ttl_seconds with VNone => setting | t => t end) in *.
  assert ((asked = VNone /\ n = 120) \/
    (asked <> VNone /\ (py_int asked = Ok n \/ n = 120 /\ (py_int asked = Err TypeError \/ py_int asked = Err ValueError)))) as Hc.
  { destruct asked; try (left; split; [done|by injection Hn as <-]); right; (split; [done|]);
      destruct (py_int _) as [?|[]]; try discriminate Hn; injection Hn as <-; auto. }
  destruct Hc as [[Ha ->]|[Ha [Hz|[-> Hz]]]].
  - apply asks_nothing; subst asked; by destruct ttl_seconds.
  - destruct (decide (ttl_seconds = VNone)) as [E|E].
    + subst asked. rewrite E in Ha, Hz. by apply asks_setting.
    + replace asked with ttl_seconds in Hz by (subst asked; by destruct ttl_seconds). by apply asks_argument.
  - eapply asks_no_number; [|exact Hz]. subst asked. by destruct ttl_seconds.
Qed.


(** C13: A lease lives for at least a second and at most fifteen minutes, five when the
    execution carries credential references: it states its issue time and an expiry in
    that range, and no verifier accepts it later, whatever else it expects. *)
Theorem lease_lifetime_bounded config env ex stream normalized now policy trace nonce0 to ttl_seconds l :
  lease_time now ->
  issue_dispatch_lease config env ex stream normalized now policy trace nonce0 to ttl_seconds = Ok (Some l) ->
  exists ttl, issued_at (claims l) = isoformat now /\ expires_at (claims l) = isoformat (now + ttl * 1000000) /\
    1 <= ttl <= 900 /\ (truthy (le_credential_references ex) = true -> ttl <= 300) /\
    forall keys audience later x v, now + ttl * 1000000 < later ->
      verify_dispatch_lease l keys audience later x = Ok v -> lv_status v <> VALID.
Proof.
  intros Hnow Hi. apply issue_inv in Hi as (k & p & ttl & c & _ & _ & Ht & Hc & ->).
  apply resolved_ttl_bounds in Ht as [Ht Href].
  destruct (build_claims_inv _ _ _ _ _ _ _ _ _ _ _ _ Hc) as (_ & _ & _ & _ & _ & _ & _ & _ & _ & _ & _ & _ & _ & _ & Eis & Eex & _).
  unfold _MAX_TTL_SECONDS, MAX_REFERENCE_LEASE_SECONDS in *.
  exists ttl. cbn [claims]. split_and!; try done; try lia. intros keys audience later x v Hlater Hv Hst.
  assert (lease_binds {| algorithm := SIGNING_ALGORITHM; claims := c; signature := sign k (canonical_bytes c) |}
            keys audience later x) as Hb by (apply verify_spec; by exists v).
  destruct Hb as (_ & _ & _ & _ & (t & i & He & _ & Hle) & _). cbn [claims] in He.
  rewrite Eex, parse_isoformat in He by (by apply lease_time_expiry). injection He as <-. lia.
Qed.

(** A number [int] converts or refuses with one of the two errors the code catches. *)
Definition finite (v : value) : Prop := v <> VFloat "inf" /\ v <> VFloat "-inf".
(** No number of the configuration or of the execution is infinite. *)
Definition finite_inputs (config : option dict) ex (ttl_seconds : value) : Prop :=
  finite (le_pk ex) /\ finite (le_requested_by_id ex) /\ finite (le_approved_by_id ex) /\ finite ttl_seconds /\
  finite (default VNone (_plugin_setting config "dispatch_lease_ttl_seconds")) /\
  forall entries entry, (_plugin_setting config "dispatch_lease_signing_keys" = Some (VList entries) \/
      _plugin_setting config "dispatch_lease_signing_keys" = Some (VTuple entries)) ->
    VDict entry ∈ entries -> finite (default (VInt 1) (dict_get "key_version" entry)).

Lemma py_int_finite v : finite v -> (exists z, py_int v = Ok z) \/ py_int v = Err TypeError \/ py_int v = Err ValueError.
Proof.
  intros [Hinf Hneg]. destruct v as [|b|z|r|s| | | | | |]; cbn [py_int]; eauto.
  - destruct (str_in r ["inf"; "-inf"]) eqn:E; [|destruct (parse_int _); eauto].
    apply bool_decide_eq_true in E. exfalso. repeat (apply elem_of_cons in E as [->|E]; [done|]). by apply elem_of_nil in E.
  - destruct (parse_int s); eauto.
Qed.

Lemma maybe_int_finite v : finite v -> exists o, _maybe_int v = Ok o.
Proof.
  intros Hf. destruct (py_int_finite v Hf) as [[z E]|[E|E]]; unfold _maybe_int; rewrite E; destruct v; eauto.
Qed.

Lemma first_active_finite entries :
  (forall entry, VDict entry ∈ entries -> finite (default (VInt 1) (dict_get "key_version" entry))) ->
  exists k, first_active entries = Ok k.
Proof.
  induction entries as [|e entries IH]; intros Hf; [by eexists|].
  assert (exists k, first_active entries = Ok k) as Hrest by (apply IH; intros entry Hin; apply Hf; by right).
  destruct e as [| | | | | | | | | |entry]; try exact Hrest. cbn [first_active].
  destruct (negb (truthy _)); [done|]. destruct (get "private_key_pem" entry); try done.
  destruct (negb _); [done|]. unfold lineage_version.
  destruct (py_int_finite _ (Hf entry (list_elem_of_here _ _))) as [[z E]|[E|E]]; rewrite E; cbn [caught]; try done.
  destruct (_ || _); [done|]. destruct (load_pem_private_key _); [by eexists|done].
Qed.

(** Issuing a lease never raises into the worker when no number involved is an
    infinite float: a missing or malformed key, an execution without identity and
    claims outside their bounds all give no lease, and a signature always fits. *)
Theorem issue_never_raises config env ex stream normalized now policy trace nonce0 to ttl_seconds :
  finite_inputs config ex ttl_seconds ->
  exists l, issue_dispatch_lease config env ex stream normalized now policy trace nonce0 to ttl_seconds = Ok l.
Proof.
  intros (Hpk & Hreq & Happ & Httl & Hset & Hkeys). unfold issue_dispatch_lease.
  assert (exists k, load_active_signing_key config env = Ok k) as [k ->].
  { unfold load_active_signing_key. destruct (_plugin_setting config "dispatch_lease_signing_keys") as [v|]; [|by eexists].
    destruct v; try (by eexists); apply first_active_finite; eauto. }
  cbn [mbind result_bind]. destruct k as [k|]; [|by eexists]. destruct (le_procedure ex) as [p|]; [|by eexists].
  assert (exists n, resolved_ttl ttl_seconds (default VNone (_plugin_setting config "dispatch_lease_ttl_seconds"))
                      (truthy (le_credential_references ex)) = Ok n) as [n Hn].
  { unfold resolved_ttl.
    assert (finite (match ttl_seconds with
                    | VNone => default VNone (_plugin_setting config "dispatch_lease_ttl_seconds")
                    | t => t end)) as Hf by (by destruct ttl_seconds).
    destruct (match ttl_seconds with VNone => _ | t => t end) as [| | | | | | | | | |] eqn:Et; cbn [mbind result_bind];
      try (by eexists); destruct (py_int_finite _ Hf) as [[z E]|[E|E]]; rewrite E; cbn [mbind result_bind]; by eexists. }
  rewrite Hn. cbn [mbind result_bind].
  assert (exists l, match build_claims k ex p stream (get "command_fingerprint" normalized) now n policy trace nonce0
      (resolved_audience to (default VNone (_plugin_setting config "dispatch_lease_audience"))) with
    | Err TypeError | Err ValueError => Ok None
    | Err e => Err e
    | Ok c =>
        let lease := {| algorithm := SIGNING_ALGORITHM; claims := c; signature := sign k (canonical_bytes c) |} in
        if lease_valid lease then Ok (Some lease) else Err (OtherError "pydantic.ValidationError")
    end = Ok l) as [l Hl].
  { destruct (build_claims _ _ _ _ _ _ _ _ _ _ _) as [c|e] eqn:Eb.
    - cbv zeta. assert (str_len (sign k (canonical_bytes c)) = 88) as Hs
        by (unfold sign; rewrite b64encode_length, law_signature_length; done).
      unfold lease_valid, text_within. cbn [algorithm signature]. rewrite Hs. by eexists.
    - unfold build_claims in Eb. destruct (maybe_int_finite _ Hreq) as [req Hr]. destruct (maybe_int_finite _ Happ) as [app Ha].
      rewrite Hr, Ha in Eb.
      destruct (py_int_finite _ Hpk) as [[z E]|[E|E]]; rewrite E in Eb; cbn [mbind result_bind] in Eb;
        [|injection Eb as <-; by eexists|injection Eb as <-; by eexists].
      cbv zeta in Eb. destruct (claims_valid _); [done|]. injection Eb as <-. by eexists. }
  destruct (le_pk ex); eauto.
Qed.
End Issue.

(** ** Example: a signature scheme with a one-character key *)

Module DemoLease.
Definition demo_sign (k : Z) (m : string) : list Z := repeat ((k + str_len m) mod 256) 64.
(** An instant is written as [@] and its number. *)
Definition demo_parse (s : string) : option timestamp :=
  match s with String "@"%char r => Aware <$> read_Z r | _ => None end.
#[export] Instance demo_lease_lib : LeaseLib :=
  {| private_key := Z; public_key := Z;
     load_pem_private_key := fun text => List.hd_error text;
     load_pem_public_key := fun s => List.hd_error (code_points s);
     from_public_bytes := fun l => List.hd_error l;
     public_of := fun k => k;
     ed25519_sign := demo_sign;
     ed25519_verify := fun k sig m => bool_decide (sig = demo_sign k m);
     isoformat := fun t => "@" +:+ str_of_Z t;
     parse_timestamp := demo_parse |}.
#[export] Instance demo_lease_laws : LeaseLaws.
Proof.
  split; cbn -[str_of_Z demo_sign].
  - intros k m. by rewrite bool_decide_true.
  - intros k m. unfold demo_sign. apply Forall_forall. intros z Hz. apply list_elem_of_In, repeat_spec in Hz as ->.
    unfold is_byte. pose proof (Z.mod_pos_bound (k + str_len m) 256). apply andb_true_iff.
    rewrite Z.leb_le, Z.ltb_lt. lia.
  - intros k m. unfold demo_sign. apply repeat_length.
  - intros t _. rewrite sapp_cons, sapp_nil. cbn [demo_parse]. by rewrite read_str_of_Z.
  - done.
Qed.
End DemoLease.

Section Witnesses.
Import Demo DemoManifest DemoLease.

Definition demo_config : option dict :=
  Some [("dispatch_lease_signing_keys",
         VList [VDict [("key_id", VStr "retired"); ("private_key_pem", VStr "a")];
                VDict [("key_id", VStr "current"); ("key_version", VInt 2); ("private_key_pem", VStr "k");
                       ("active", VBool true)]])].
Definition demo_env : environment :=
  {| env_key_file := None; env_key_id := None; env_key_version := None; env_os := demo_os |}.
Definition demo_leased : lease_execution :=
  {| le_pk := VInt 7; le_procedure := Some (demo_catalog_row "service.pbs.1.status");
     le_requested_by_id := VInt 3; le_approved_by_id := VInt 4; le_credential_references := VNone |}.
Definition demo_normalized : dict :=
  [("command_fingerprint", VDict [("target_object_sha256", VStr "0a1b")])].
Definition demo_issue : res (option SignedDispatchLease) :=
  issue_dispatch_lease demo_config demo_env demo_leased 3 demo_normalized 1000000 "procedure_effect:read"
    EmptyString "00ff" VNone VNone.
Definition demo_lease : SignedDispatchLease :=
  Eval vm_compute in
    match demo_issue with
    | Ok (Some l) => l
    | _ => {| algorithm := EmptyString; claims := {| envelope_version := 0; lc_execution_id := 0; stream_version := 0;
                nonce := EmptyString; audience := EmptyString; handler_id := EmptyString; handler_version := 0;
                lc_effect := EmptyString; contract_hash := EmptyString; lc_target_snapshot_hash := EmptyString;
                params_fingerprint := EmptyString; credential_policy := EmptyString; lc_requested_by_id := None;
                lc_approved_by_id := None; issued_at := EmptyString; expires_at := EmptyString;
                trace_id := EmptyString; key_id := EmptyString; key_version := 0 |}; signature := EmptyString |}
    end.
Lemma demo_issued :
  issue_dispatch_lease demo_config demo_env demo_leased 3 demo_normalized 1000000 "procedure_effect:read"
    EmptyString "00ff" VNone VNone = Ok (Some demo_lease).
Proof. vm_compute. reflexivity. Defined.
Lemma demo_lease_time : lease_time 1000000.
Proof. unfold lease_time, representable. lia. Defined.

Definition demo_signer : _SigningKey := {| sk_key_id := "current"; sk_key_version := 2; sk_private := 107 |}.
Definition demo_keys : gmap (string * Z) Z := {[ ("current", 2) := 107 ]}.

Lemma canonical_bytes_injective_witness :
  canonical_bytes (claims demo_lease) <> canonical_bytes
    {| envelope_version := 1; lc_execution_id := 8; stream_version := 3; nonce := "00ff";
       audience := "netbox-rpc-backend"; handler_id := "service.pbs.1.status"; handler_version := 1;
       lc_effect := "read"; contract_hash := EmptyString; lc_target_snapshot_hash := EmptyString;
       params_fingerprint := EmptyString; credential_policy := EmptyString; lc_requested_by_id := None;
       lc_approved_by_id := None; issued_at := EmptyString; expires_at := EmptyString; trace_id := EmptyString;
       key_id := "current"; key_version := 2 |} /\ claims demo_lease = claims demo_lease.
Proof.
  split; [|exact (canonical_bytes_injective (claims demo_lease) (claims demo_lease) eq_refl)].
  intros E. apply canonical_bytes_injective in E. discriminate E.
Defined.


Lemma lease_lifetime_bounded_witness :
  exists ttl, issued_at (claims demo_lease) = isoformat 1000000 /\
    expires_at (claims demo_lease) = isoformat (1000000 + ttl * 1000000) /\ 1 <= ttl <= 900.
Proof.
  destruct (lease_lifetime_bounded demo_config demo_env demo_leased 3 demo_normalized 1000000
    "procedure_effect:read" EmptyString "00ff" VNone VNone demo_lease demo_lease_time demo_issued)
    as (ttl & H1 & H2 & H3 & _).
  exact (ex_intro _ ttl (conj H1 (conj H2 H3))).
Defined.

Lemma demo_finite : finite_inputs demo_config demo_leased VNone.
Proof.
  unfold finite_inputs, finite. split_and!; try discriminate. intros entries entry [E|E] Hin; [|discriminate E].
  injection E as <-. repeat (apply elem_of_cons in Hin as [Hin|Hin]; [injection Hin as ->; split; discriminate|]).
  by apply elem_of_nil in Hin.
Defined.
Lemma issue_never_raises_witness :
  exists l, issue_dispatch_lease demo_config demo_env demo_leased 3 demo_normalized 1000000 EmptyString
    EmptyString EmptyString VNone VNone = Ok l.
Proof.
  exact (issue_never_raises demo_config demo_env demo_leased 3 demo_normalized 1000000 EmptyString EmptyString
    EmptyString VNone VNone demo_finite).
Defined.

(** The one exception: an infinite lifetime in the configuration. *)
Example infinite_ttl_raises :
  issue_dispatch_lease (Some (("dispatch_lease_ttl_seconds", VFloat "inf") :: default [] demo_config)) demo_env
    demo_leased 3 demo_normalized 1000000 EmptyString EmptyString "00ff" VNone VNone = Err OverflowError.
Proof. vm_compute. reflexivity. Qed.
End Witnesses.
