(* ===== verification/Dispatch.v ===== *)
(** * The worker: from a queued execution to its end

    [run_execution] of [netbox_rpc/application/command_handlers.py] and the stages it
    is made of, composing the claim (Approvals), the backend binding and the approval
    payload (Protected), the capability check (Capabilities), the dispatch lease
    (Lease), the scope fence (Fence) and the aggregate (Aggregate).

    A stage is a state transformer that may raise and keeps what it wrote when it does.
    What the worker asks of the outside ([world]) is the resolver of backends, the
    normalizer, the guards of the credential authority, the keys and the clock, and the
    backend itself. *)

From S2P Require Import Prelude PyValue Events Projection CredentialContract.
From S2P Require Import Spans SpanFacts MaskFacts PyRegex SecretPatterns TextRedaction.
From S2P Require Import ValueRedaction RedactionFacts SchemaLimits EventStore EventStoreFacts.
From S2P Require Import Response ResponseFacts Aggregate Protected Approvals Fence.
From S2P Require Import Codec Capabilities KeyFile Lease.

#[local] Opaque redact_event_value redact_event_data.

(** ** The outside *)

Section World.
Context `{PyLib} `{JsonSchema} `{ManifestLib} `{LeaseLib}.

Record world := {
  (** the claim, the settings row and the argument of the job *)
  w_claim : claim;
  w_enabled : bool;
  w_backend_pk : value;
  (** [resolve_backend] *)
  w_resolve : value -> res (option backend_target);
  (** the credential authority, for executions with references *)
  w_reference_backend : value -> res unit;
  w_reference_dispatch : backend_target -> res unit;
  w_reference_approval : dict -> backend_target -> res unit;
  (** the manifest request *)
  w_row : catalog_row;
  w_manifest : http;
  (** [normalize_execution_params], the policy check and the stored snapshot *)
  w_normalized : res dict;
  w_policy : res unit;
  w_snapshot : option RPCApprovalRequest;
  (** the lease: plugin settings, environment, microseconds, nonce *)
  w_config : option dict;
  w_env : environment;
  w_instant : Z;
  w_nonce : string;
  (** the fence row, its blocking execution, and the clock in seconds *)
  w_blocking : option execution;
  w_clock : Z;
  w_fence_schema : value;
  (** [_call_backend] *)
  w_call : backend_target -> option SignedDispatchLease -> res dict;
  w_now : value;
}.

(** ** Stages *)

(** [d_calls]: the requests sent to the backend, in order. *)
Record dispatch_state := {
  d_session : session;
  d_fence : option fence;
  d_normalized : dict;
  d_runner_scope_reserved : bool;
  d_calls : list (backend_target * option SignedDispatchLease);
}.

Definition stage (A : Type) : Type := dispatch_state -> dispatch_state * res A.
Definition stage_ret {A} (a : A) : stage A := fun d => (d, Ok a).
Definition raise {A} (e : exn) : stage A := fun d => (d, Err e).
Definition stage_bind {A B} (m : stage A) (f : A -> stage B) : stage B := fun d =>
  match m d with
  | (d', Ok a) => f a d'
  | (d', Err e) => (d', Err e)
  end.
Definition lift {A} (r : res A) : stage A := fun d => (d, r).

Definition set_session (s : session) (d : dispatch_state) : dispatch_state :=
  {| d_session := s; d_fence := d_fence d; d_normalized := d_normalized d;
     d_runner_scope_reserved := d_runner_scope_reserved d; d_calls := d_calls d |}.
Definition set_fence (f : option fence) (reserved : bool) (d : dispatch_state) : dispatch_state :=
  {| d_session := d_session d; d_fence := f; d_normalized := d_normalized d;
     d_runner_scope_reserved := reserved; d_calls := d_calls d |}.
Definition set_normalized (n : dict) (d : dispatch_state) : dispatch_state :=
  {| d_session := d_session d; d_fence := d_fence d; d_normalized := n;
     d_runner_scope_reserved := d_runner_scope_reserved d; d_calls := d_calls d |}.
Definition log_call (c : backend_target * option SignedDispatchLease) (d : dispatch_state) : dispatch_state :=
  {| d_session := d_session d; d_fence := d_fence d; d_normalized := d_normalized d;
     d_runner_scope_reserved := d_runner_scope_reserved d; d_calls := d_calls d ++ [c] |}.

(** An operation of the aggregate on the worker's object. *)
Definition aggregate_op (op : execution -> res execution) : stage unit := fun d =>
  match on_memory op (d_session d) with
  | Ok s => (set_session s d, Ok tt)
  | Err e => (d, Err e)
  end.
End World.

Notation "x <- m ;; k" := (stage_bind m (fun x => k)) (at level 100, m at next level, right associativity).
Notation "m ;;; k" := (stage_bind m (fun _ => k)) (at level 100, right associativity).

Definition _GITEA_RUNNER_SCOPE_PROCEDURE_NAMES : list string :=
  [GITEA_RUNNER_REGISTER; GITEA_ORG_CI_RUNNER_PROVISION].

(** [url.rstrip("/")]. *)
Fixpoint lstrip_slash (s : string) : string :=
  match s with String "/"%char r => lstrip_slash r | _ => s end.
Definition rstrip_slash (s : string) : string := str_rev (lstrip_slash (str_rev s)).

Definition binding_invalid (name : string) : exn :=
  RPCExecutionError "RPC_BACKEND_BINDING_INVALID" (_protected_label name +:+ " backend binding is invalid.").

Definition approval_gone (name m code : string) : exn :=
  RPCExecutionError code (_protected_label name +:+ m).

(** [_require_current_protected_approval] on what it reads: the outcome of the policy
    check, whether the approver is a superuser, and the stored snapshot. *)
Definition recheck_approval `{PyLib} `{JsonSchema} (policy : res unit) (superuser : bool)
    (snapshot : option RPCApprovalRequest) (p : procedure) (tg : target) (ex : execution)
    (normalized : dict) (t : option backend_target) : res unit :=
  let name := pr_name p in
  match policy with
  | Err (ValidationError _ _) =>
      Err (approval_gone name " procedure policy changed after approval." "RPC_APPROVAL_INVALIDATED")
  | Err e => Err e
  | Ok _ =>
    if negb (_approval_identities_are_authorized name (ex_requested_by_id ex)
               (approved_by_id (ex_cols ex)) superuser)
    then Err (approval_gone name " requires authorized approval identities." "RPC_APPROVAL_REQUIRED")
    else
    current ← _approval_protected_payload ex p tg normalized t;
    require (match snapshot with Some sn => matches_current sn current | None => false end)
      (approval_gone name " approval no longer matches the execution." "RPC_APPROVAL_INVALIDATED")
  end.

Section Worker.
Context `{PyLib} `{JsonSchema} `{ManifestLib} `{LeaseLib}.
Variable str_exn : exn -> string.
Variable w : world.
Variable p : procedure.
Variable tg : target.

Definition name : string := pr_name p.
Definition has_references : bool := truthy (tg_credential_references tg).
Definition _reference_execution_guard (r : res unit) : stage unit :=
if has_references then lift r else stage_ret tt.

Definition _requires_signed_dispatch : bool := protected name || has_references.

Definition require_binding : res value :=
match _require_concrete_protected_backend_id (tg_backend_id tg) name with
| Err e => Err e
| Ok bound =>
match w_backend_pk w with
| VNone => Ok (VInt bound)
| pk => n ← py_int pk; if n =? bound then Ok (VInt bound) else Err ValueError
end
end.

(** The selector and, for a protected procedure, the bound backend. *)
Definition _select_backend : stage (value * value) :=
if negb (protected name)
then stage_ret (match w_backend_pk w with VNone => tg_backend_id tg | pk => pk end, VNone)
else match require_binding with
| Ok bound => stage_ret (bound, bound)
| Err TypeError | Err ValueError | Err (ValidationError _ _) =>
aggregate_op (fun ex => fail ex (_protected_label name +:+ " backend binding is invalid.")
                      "RPC_BACKEND_BINDING_INVALID" (w_now w)) ;;;
raise (binding_invalid name)
| Err e => raise e
end.

Definition _resolve_dispatch_target (selector bound : value) : stage backend_target :=
match w_resolve w selector with
| Err _ => raise (RPCExecutionError "RPC_BACKEND_RESOLUTION_FAILED"
            "RPC backend resolution failed; execution not dispatched.")
| Ok None => raise (RPCExecutionError "RPC_BACKEND_NOT_CONFIGURED" "No NMSBackend configured for RPC execution.")
| Ok (Some t) =>
(if protected name then
 lift (match _resolve_validated_protected_backend_target bound name (Some t) with
     | Err (ValidationError _ _) => Err (binding_invalid name)
     | Err e => Err e
     | Ok _ => Ok tt
     end) ;;;
 lift (_require_approved_backend_target_before_io name (tg_backend_id tg) (w_snapshot w) (Some t))
 else stage_ret tt) ;;;
(if str_in name EXPLICIT_BACKEND_CAPABILITY_PROCEDURE_NAMES
 then lift (_verify_backend_capability ∅ (w_row w) (rstrip_slash (bt_url t)) 0 false (w_manifest w)).2
 else stage_ret tt) ;;;
stage_ret t
end.

(** [ex] is the worker's object.  Its [approved_by] is a cached relation: the claim has
read it wherever the identities make the recheck read it, so the flag is the one of the
claim. *)
Definition _require_current_protected_approval (ex : execution) (normalized : dict) (t : backend_target) : res unit :=
recheck_approval (w_policy w) (c_approver_is_superuser (w_claim w)) (w_snapshot w) p tg ex normalized (Some t).

(** The sequence number of the last event. *)
Definition _current_stream_version (ex : execution) : Z := foldr Z.max 0 (row_sequence <$> ex_events ex).

Definition leased (ex : execution) : lease_execution :=
{| le_pk := VInt (ex_pk ex); le_procedure := Some (w_row w); le_requested_by_id := ex_requested_by_id ex;
 le_approved_by_id := approved_by_id (ex_cols ex); le_credential_references := tg_credential_references tg |}.
Definition correlation_id : string :=
match tg_credential_authority tg with
| VDict d => py_str (py_or (get "correlation_id" d) (VStr EmptyString))
| _ => EmptyString
end.

Definition _issue_dispatch_lease (normalized : dict) : stage (option SignedDispatchLease) := fun d =>
let ex := memory (d_session d) in
(policy <- lift (_credential_policy_reference normalized p tg) ;;
 lease <- lift (issue_dispatch_lease (w_config w) (w_env w) (leased ex) (_current_stream_version ex)
          normalized (w_instant w) policy correlation_id (w_nonce w) VNone VNone) ;;
 match lease with
 | None => stage_ret None
 | Some l =>
 let c := claims l in
 aggregate_op (fun ex => agg_record_dispatch_lease_issued ex (nonce c) (key_id c) (key_version c)
                       (stream_version c) (audience c) (VStr (expires_at c)) (envelope_version c)) ;;;
 stage_ret (Some l)
 end) d.

Definition _prepare_dispatch (t : backend_target) : stage (option SignedDispatchLease) :=
_reference_execution_guard (w_reference_dispatch w t) ;;;
raw <- lift (w_normalized w) ;;
normalized <- lift (ledger_normalized_params raw) ;;
(fun d => (set_normalized normalized d, Ok tt)) ;;;
_reference_execution_guard (w_reference_approval w normalized t) ;;;
(if protected name
 then fun d => (d, _require_current_protected_approval (memory (d_session d)) normalized t)
 else stage_ret tt) ;;;
aggregate_op (fun ex => normalize ex normalized (_hash_json (get "command_fingerprint" normalized))) ;;;
lease <- _issue_dispatch_lease normalized ;;
if _requires_signed_dispatch && (match lease with None => true | Some _ => false end)
then raise (approval_gone name " requires a signed one-time dispatch lease." "RPC_DISPATCH_LEASE_REQUIRED")
else stage_ret lease.

Definition _call_backend (t : backend_target) (lease : option SignedDispatchLease) : stage dict :=
fun d => (log_call (t, lease) d, w_call w t lease).

Definition _dispatch_to_backend (t : backend_target) (lease : option SignedDispatchLease) : stage unit :=
if negb (str_in name _GITEA_RUNNER_SCOPE_PROCEDURE_NAMES) then
response <- _call_backend t lease ;;
aggregate_op (fun ex => agg_record_backend_response ex response (w_now w))
else
(fun d =>
 match _reserve_gitea_runner_scope name (ex_pk (committed (d_session d))) (d_normalized d) (d_fence d)
     (w_blocking w) (w_clock w) (w_now w) with
 | Ok (f, _) => (set_fence (Some f) true d, Ok tt)
 | Err e => (d, Err e)
 end) ;;;
response <- _call_backend t lease ;;
(fun d =>
 match d_fence d with
 | None => (d, Err (fence_error "RPC_SCOPE_FENCE_UNAVAILABLE" "Gitea runner scope fence is unavailable."))
 | Some f =>
 match _record_gitea_runner_response name (w_fence_schema w) (memory (d_session d)) (d_normalized d)
         response f (w_clock w) (w_now w) with
 | Ok (f', ex') =>
     (set_fence (Some f') true
        (set_session {| committed := with_ledger (committed (d_session d))
                          (save_columns (ex_cols (committed (d_session d))) (held (d_session d)) (ex_cols ex'))
                          (ex_events ex');
                        held := ex_cols ex' |} d), Ok tt)
 | Err e => (d, Err e)
 end
 end).

Definition dispatch (selector bound : value) : stage unit :=
_reference_execution_guard (w_reference_backend w selector) ;;;
t <- _resolve_dispatch_target selector bound ;;
lease <- _prepare_dispatch t ;;
_dispatch_to_backend t lease.

Definition error_code_of (e : exn) : string :=
match e with
| RPCExecutionError code _ => code
| RPCExecutionAggregateError _ => "RPC_EXECUTION_INVALID_TRANSITION"
| _ => "RPC_EXECUTION_FAILED"
end.

(** [aggregate.fail] under [except RPCExecutionAggregateError: pass]. *)
Definition try_fail (msg code : string) : stage unit := fun d =>
match aggregate_op (fun ex => fail ex msg code (w_now w)) d with
| (d', Err (RPCExecutionAggregateError _)) => (d', Ok tt)
| r => r
end.

(** The shared failure handler: the scope is blocked, the failure recorded, and the
error raised again. *)
Definition after_failure (e : exn) : stage unit := fun d =>
let d := if d_runner_scope_reserved d then
   match d_fence d with
   | Some f => set_fence (Some (_block_runner_scope_after_failure name (ex_pk (committed (d_session d)))
                                  (d_normalized d) f (w_clock w))) true d
   | None => d
   end
 else d in
(try_fail (str_exn e) (error_code_of e) ;;; raise e) d.

(** The whole run on the committed execution and the fence of its scope. *)
Definition run_execution (ex : execution) (f : option fence) : dispatch_state * res unit :=
let start s := {| d_session := s; d_fence := f; d_normalized := []; d_runner_scope_reserved := false; d_calls := [] |} in
match on_memory (_claim_if_procedure_enabled p (w_claim w) (w_now w)) (fetch ex) with
| Err (RPCExecutionAggregateError _) => (start (fetch ex), Ok tt)
| Err e => (start (fetch ex), Err e)
| Ok s =>
if negb (String.eqb (status (held s)) (status_value RUNNING)) then (start s, Ok tt) else
if negb (w_enabled w) then
try_fail "The netbox-rpc integration is disabled; execution not dispatched." "RPC_INTEGRATION_DISABLED" (start s)
else
match _select_backend (start s) with
| (d, Err e) => (d, Err e)
| (d, Ok (selector, bound)) =>
  match dispatch selector bound d with
  | (d', Ok _) => (d', Ok tt)
  | (d', Err e) => after_failure e d'
  end
end
end.
End Worker.
