(* ===== verification/DispatchProperties.v ===== *)
(** * Properties of the worker

    A run always ends the execution, and the backend is called at most once and only
    when everything the dispatch depends on was checked. *)

From S2P Require Import Prelude PyValue Events Projection CredentialContract.
From S2P Require Import Spans SpanFacts MaskFacts PyRegex SecretPatterns TextRedaction.
From S2P Require Import ValueRedaction RedactionFacts SchemaLimits EventStore EventStoreFacts.
From S2P Require Import Response ResponseFacts StoreProperties Aggregate AggregateFacts AggregateProperties.
From S2P Require Import Protected Approvals ApprovalProperties Fence.
From S2P Require Import Codec Capabilities KeyFile JsonFacts Lease LeaseProperties Dispatch.

#[local] Opaque redact_event_value redact_event_data.
#[local] Opaque ledger_normalized_params issue_dispatch_lease _credential_policy_reference _verify_backend_capability.

Section Stages.
Context `{PyLib} `{JsonSchema} `{ManifestLib} `{LeaseLib}.
Implicit Types ex : execution.

(** The worker's object and the row agree that the execution is running. *)
Definition live (d : dispatch_state) : Prop :=
  synced (d_session d) /\ in_phase (At RUNNING) (committed (d_session d)).
Definition ended_run (d : dispatch_state) : Prop :=
  terminal (status (ex_cols (committed (d_session d)))) = true.

(** A stage that leaves a running execution running. *)
Definition keeps {A} (m : stage A) : Prop := forall d, live d -> live (m d).1.

Lemma keeps_ret {A} (a : A) : keeps (stage_ret a).
Proof. by intros d. Qed.
Lemma keeps_raise {A} e : keeps (raise (A := A) e).
Proof. by intros d. Qed.
Lemma keeps_lift {A} (r : res A) : keeps (lift r).
Proof. by intros d. Qed.
Lemma keeps_bind {A B} (m : stage A) (f : A -> stage B) :
  keeps m -> (forall a, keeps (f a)) -> keeps (stage_bind m f).
Proof.
  intros Hm Hf d Hd. unfold stage_bind. specialize (Hm d Hd). destruct (m d) as [d' [a|e]]; [|done]. by apply Hf.
Qed.

(** An operation that appends one event. *)
Lemma op_append op e q s s' :
  synced s -> in_phase (At RUNNING) (committed s) ->
  (forall x x', op x = Ok x' -> _append_and_project x e = Ok x') ->
  writable e = true -> next (At RUNNING) (type_of e) = Some q ->
  on_memory op s = Ok s' -> synced s' /\ in_phase q (committed s').
Proof.
  intros Hs Hi Hop Hw Hn Ho.
  assert (on_memory (fun x => _append_and_project x e) s = Ok s') as Ha.
  { unfold on_memory in *. apply bind_Ok in Ho as (x' & Hx & Ho). rewrite (Hop _ _ Hx). exact Ho. }
  by destruct (synced_append _ _ _ _ _ Hs Hi Hw Hn Ha) as (? & ? & _).
Qed.

Lemma keeps_append op e :
  (forall x x', op x = Ok x' -> _append_and_project x e = Ok x') ->
  writable e = true -> next (At RUNNING) (type_of e) = Some (At RUNNING) -> keeps (aggregate_op op).
Proof.
  intros Hop Hw Hn d [Hs Hi]. unfold aggregate_op. destruct (on_memory op (d_session d)) as [s|] eqn:E; [|done].
  exact (op_append op e _ _ _ Hs Hi Hop Hw Hn E).
Qed.

Lemma normalize_append n h x x' : normalize x n h = Ok x' -> _append_and_project x (ParametersNormalized n h) = Ok x'.
Proof. unfold normalize. intros Hx. apply bind_Ok in Hx as (? & _ & Hx). by destruct (negb _). Qed.
Lemma lease_append a b c e f g h x x' :
  agg_record_dispatch_lease_issued x a b c e f g h = Ok x' ->
  _append_and_project x (DispatchLeaseIssued a b c e f g h) = Ok x'.
Proof.
  unfold agg_record_dispatch_lease_issued. intros Hx. apply bind_Ok in Hx as (? & _ & Hx). by destruct (negb _).
Qed.

(** Failing a running execution works and ends it. *)
Lemma fail_live msg code now d :
  live d -> exists d', aggregate_op (fun ex => fail ex msg code now) d = (d', Ok tt) /\ ended_run d' /\
    d_calls d' = d_calls d.
Proof.
  intros [Hs Hi]. pose proof (memory_in_phase _ _ Hs Hi) as Hm.
  destruct (append_total (memory (d_session d)) (ExecutionFailed msg code now []) (proj1 Hm)) as [x Hx].
  assert (fail (memory (d_session d)) msg code now = Ok x) as Hf.
  { unfold fail, _ensure_not_terminal. destruct Hm as (_ & _ & ->). cbn [mbind result_bind]. exact Hx. }
  unfold aggregate_op, on_memory. rewrite Hf. cbn [mbind result_bind]. eexists. split; [reflexivity|].
  assert (on_memory (fun y => _append_and_project y (ExecutionFailed msg code now [])) (d_session d)
    = Ok {| committed := with_ledger (committed (d_session d))
              (save_columns (ex_cols (committed (d_session d))) (held (d_session d)) (ex_cols x)) (ex_events x);
            held := ex_cols x |}) as Ho by (unfold on_memory; by rewrite Hx).
  destruct (synced_append (At RUNNING) (At FAILED) _ (ExecutionFailed msg code now []) _ Hs Hi eq_refl eq_refl Ho) as (_ & (_ & _ & Hst) & _).
  split; [|done]. unfold ended_run. cbn [set_session d_session]. rewrite Hst. reflexivity.
Qed.

Lemma try_fail_live w msg code d :
  live d -> exists d', try_fail w msg code d = (d', Ok tt) /\ ended_run d' /\ d_calls d' = d_calls d.
Proof.
  intros Hl. destruct (fail_live msg code (w_now w) d Hl) as (d' & Hf & He & Hc). exists d'. split; [|done].
  unfold try_fail. by rewrite Hf.
Qed.

(** A recorded response ends the execution. *)
Lemma response_ends ex response now ex' :
  ledger_ok (ex_events ex) -> agg_record_backend_response ex response now = Ok ex' ->
  terminal (status (ex_cols ex')) = true.
Proof.
  intros Hl Hr. unfold agg_record_backend_response in Hr. apply bind_Ok in Hr as (? & _ & Hr).
  destruct (negb _); [done|]. destruct (record_backend_response_steps _ _ _ _ Hr) as (o & m & ex1 & _ & Hp & Ht).
  assert (ledger_ok (ex_events ex1)) as Hl1
    by (destruct Hp as [->|(_ & _ & items & _ & Hp)]; [done|by apply record_progress_ok in Hp as (? & _)]).
  rewrite (append_status _ _ _ Hl1 Ht), terminal_status. cbn [from_option].
  by destruct (o_ok o && negb (str_truthy m)).
Qed.
End Stages.

#[export] Hint Resolve keeps_ret keeps_raise keeps_lift : rpc.

Section Run.
Context `{PyLib} `{JsonSchema} `{ManifestLib} `{LeaseLib}.
Variable str_exn : exn -> string.
Variable w : world.
Variable p : procedure.
Variable tg : target.
Implicit Types ex : execution.

Lemma keeps_guard r : keeps (_reference_execution_guard tg r).
Proof. unfold _reference_execution_guard. destruct (has_references tg); auto with rpc. Qed.

Lemma keeps_resolve selector bound : keeps (_resolve_dispatch_target w p tg selector bound).
Proof.
  unfold _resolve_dispatch_target. destruct (w_resolve w selector) as [[t|]|]; auto with rpc.
  repeat (apply keeps_bind; [|intros]); auto with rpc.
  - destruct (protected (name p)); [|auto with rpc]. apply keeps_bind; auto with rpc.
  - destruct (str_in _ _); auto with rpc.
Qed.

Lemma keeps_lease normalized : keeps (_issue_dispatch_lease w p tg normalized).
Proof.
  intros d Hd. unfold _issue_dispatch_lease.
  match goal with |- live (?m d).1 => cut (keeps m); [by intros Hk; apply Hk|] end.
  repeat (apply keeps_bind; [auto with rpc|intros ?]).
  match goal with l : option SignedDispatchLease |- _ => destruct l; [|auto with rpc] end.
  apply keeps_bind; [|auto with rpc]. eapply keeps_append; [intros x x'; apply lease_append|done|done].
Qed.

Lemma keeps_prepare t : keeps (_prepare_dispatch w p tg t).
Proof.
  unfold _prepare_dispatch. apply keeps_bind; [apply keeps_guard|intros _].
  apply keeps_bind; [auto with rpc|intros raw]. apply keeps_bind; [auto with rpc|intros n].
  apply keeps_bind; [by intros d Hd|intros _]. apply keeps_bind; [apply keeps_guard|intros _].
  apply keeps_bind; [destruct (protected _); [by intros d Hd|auto with rpc]|intros _].
  apply keeps_bind; [eapply keeps_append; [intros x x'; apply normalize_append|done|done]|intros _].
  apply keeps_bind; [apply keeps_lease|intros l]. destruct (_ && _); auto with rpc.
Qed.

(** The last stage ends the execution or leaves it running. *)
Lemma dispatch_ends t lease d d' r :
  live d -> _dispatch_to_backend w p t lease d = (d', r) ->
  match r with Ok _ => ended_run d' | Err _ => live d' end.
Proof.
  intros [Hs Hi] Hd. unfold _dispatch_to_backend in Hd.
  pose proof (memory_in_phase _ _ Hs Hi) as Hm.
  destruct (negb _).
  - unfold stage_bind, _call_backend in Hd. destruct (w_call w t lease) as [response|e]; [|by injection Hd as <- <-].
    unfold aggregate_op in Hd. destruct (on_memory _ _) as [s|e] eqn:Eo; injection Hd as <- <-; [|done].
    unfold ended_run. cbn [set_session d_session log_call] in *.
    destruct (on_memory_synced _ _ _ Hs Eo) as (x' & Hx & _ & Hst & _). rewrite Hst. by eapply response_ends; [apply Hm|].
  - unfold stage_bind in Hd.
    destruct (_reserve_gitea_runner_scope _ _ _ _ _ _ _) as [[f b]|e]; [|by injection Hd as <- <-].
    unfold _call_backend in Hd. destruct (w_call w t lease) as [response|e]; [|by injection Hd as <- <-].
    cbn [set_fence d_session d_fence d_normalized log_call] in Hd.
    destruct (_record_gitea_runner_response _ _ _ _ _ _ _ _) as [[f' x']|e] eqn:Er; injection Hd as <- <-; [|done].
    unfold ended_run. cbn [set_session set_fence d_session committed with_ledger ex_cols].
    assert (agg_record_backend_response (memory (d_session d)) response (w_now w) = Ok x') as Ha.
    { unfold _record_gitea_runner_response in Er. destruct (get "result" response); try done.
      destruct (negb _); [done|]. destruct (_ && _); [done|]. apply bind_Ok in Er as ([] & _ & Er).
      apply bind_Ok in Er as (y & Hy & Er). by injection Er as _ <-. }
    pose proof (response_ends _ _ _ _ (proj1 Hm) Ha) as Hend.
    rewrite save_status, Hs. by destruct (String.eqb_spec (status (ex_cols (committed (d_session d)))) (status (ex_cols x'))) as [->|].
Qed.

(** What the claim leaves. *)
Lemma claim_spec q ex :
  in_phase q ex -> phase_status q = QUEUED ->
  (forall e, c_policy (w_claim w) = Err e -> exists f m, e = ValidationError f m) ->
  exists s, on_memory (_claim_if_procedure_enabled p (w_claim w) (w_now w)) (fetch ex) = Ok s /\ synced s /\
    in_phase (At (if may_start p (w_claim w) ex then RUNNING else FAILED)) (committed s).
Proof.
  intros Hi Hq Hp. destruct (claim_records p (w_claim w) (w_now w) (memory (fetch ex)) q
    (memory_in_phase _ (fetch ex) eq_refl Hi) Hq Hp) as (e & Hw & Hn & Hop).
  destruct (append_total (memory (fetch ex)) e (proj1 Hi)) as [ex1 Ha].
  assert (exists s, on_memory (fun x => _append_and_project x e) (fetch ex) = Ok s) as [s Hs]
    by (eexists; unfold on_memory; by rewrite Ha).
  exists s. split; [rewrite <- Hs; unfold on_memory; by rewrite Hop|].
  by destruct (synced_append q _ (fetch ex) e s eq_refl Hi Hw Hn Hs) as (? & ? & _).
Qed.

(** The numbers the binding check converts are finite. *)
Definition finite_binding : Prop := finite (tg_backend_id tg) /\ finite (w_backend_pk w).

Lemma binding_caught e :
  finite_binding -> require_binding w p tg = Err e -> e = TypeError \/ e = ValueError \/ exists f m, e = ValidationError f m.
Proof.
  intros [Hf1 Hf2] Hb. unfold require_binding, _require_concrete_protected_backend_id in Hb.
  destruct (py_int_finite _ Hf1) as [[z E]|[E|E]]; rewrite E in Hb; [|injection Hb as <-; unfold backend_required; eauto..].
  destruct (z <=? 0); [injection Hb as <-; unfold backend_required; eauto|]. unfold _protected_contract in Hb.
  destruct (table_get _ _) as [c|]; cbn [mbind result_bind] in Hb; [|injection Hb as <-; auto].
  destruct (match BACKEND_ID c with Some _ => _ | None => _ end) as [bound|e'] eqn:Ec in Hb.
  - destruct (w_backend_pk w) eqn:Ew; try done;
      (rewrite <- Ew in Hb, Hf2; destruct (py_int_finite _ Hf2) as [[n E']|[E'|E']]; rewrite E' in Hb;
       cbn [mbind result_bind] in Hb; [destruct (n =? bound); [done|]|..]; injection Hb as <-; eauto).
  - injection Hb as <-. destruct (BACKEND_ID c); [|done]. destruct (z =? z0); [done|]. injection Ec as <-. eauto.
Qed.

Lemma select_live d :
  finite_binding -> live d ->
  match _select_backend w p tg d with
  | (d', Ok _) => d' = d
  | (d', Err _) => ended_run d' /\ d_calls d' = d_calls d
  end.
Proof.
  intros Hf Hl. unfold _select_backend. destruct (negb _); [done|].
  destruct (require_binding w p tg) as [bound|e] eqn:Eb; [done|].
  destruct (fail_live (_protected_label (name p) +:+ " backend binding is invalid.") "RPC_BACKEND_BINDING_INVALID"
    (w_now w) d Hl) as (d' & Hd & He & Hc).
  destruct (binding_caught e Hf Eb) as [->|[->|(? & ? & ->)]]; unfold stage_bind; rewrite Hd; done.
Qed.

Lemma dispatch_live selector bound d :
  live d ->
  match dispatch w p tg selector bound d with
  | (d', Ok _) => ended_run d'
  | (d', Err _) => live d'
  end.
Proof.
  intros Hl. unfold dispatch, stage_bind at 1.
  pose proof (keeps_guard (w_reference_backend w selector) d Hl) as Hl1.
  destruct (_reference_execution_guard _ _ d) as [d1 [[]|e]]; [|done]. unfold stage_bind at 1.
  pose proof (keeps_resolve selector bound d1 Hl1) as Hl2.
  destruct (_resolve_dispatch_target _ _ _ _ _ d1) as [d2 [t|e]]; [|done]. unfold stage_bind at 1.
  pose proof (keeps_prepare t d2 Hl2) as Hl3.
  destruct (_prepare_dispatch _ _ _ _ d2) as [d3 [lease|e]]; [|done].
  destruct (_dispatch_to_backend w p t lease d3) as [d4 r] eqn:E4.
  pose proof (dispatch_ends _ _ _ _ _ Hl3 E4) as Hend. by destruct r.
Qed.

Lemma after_failure_live e d :
  live d -> ended_run (after_failure str_exn w p e d).1 /\ d_calls (after_failure str_exn w p e d).1 = d_calls d.
Proof.
  intros Hl. unfold after_failure.
  set (d0 := if d_runner_scope_reserved d then _ else d).
  assert (live d0 /\ d_calls d0 = d_calls d) as [Hl0 Hc0]
    by (unfold d0; destruct (d_runner_scope_reserved d); [destruct (d_fence d)|]; done).
  destruct (try_fail_live w (str_exn e) (error_code_of e) d0 Hl0) as (d' & Ht & He & Hc).
  unfold stage_bind. rewrite Ht. cbn. by rewrite Hc.
Qed.


(** ** The one call *)

Definition quiet {A} (m : stage A) : Prop := forall d, d_calls (m d).1 = d_calls d.

Lemma quiet_bind {A B} (m : stage A) (f : A -> stage B) :
  quiet m -> (forall a, quiet (f a)) -> quiet (stage_bind m f).
Proof.
  intros Hm Hf d. unfold stage_bind. specialize (Hm d). destruct (m d) as [d' [a|e]]; [|done]. rewrite (Hf a d'). done.
Qed.
Lemma quiet_op op : quiet (aggregate_op op).
Proof. intros d. unfold aggregate_op. by destruct (on_memory op (d_session d)). Qed.

Lemma stage_bind_Ok {A B} (m : stage A) (f : A -> stage B) d d' b :
  stage_bind m f d = (d', Ok b) <-> exists d1 a, m d = (d1, Ok a) /\ f a d1 = (d', Ok b).
Proof. unfold stage_bind. destruct (m d) as [d1 [a|e]]; naive_solver. Qed.

Lemma pair_ok {A} (d d' : dispatch_state) (r : res A) a : (d, r) = (d', Ok a) -> d' = d /\ r = Ok a.
Proof. by intros [= -> ->]. Qed.
Lemma lift_ok {A} (r : res A) d d' a : lift r d = (d', Ok a) -> d' = d /\ r = Ok a.
Proof. apply pair_ok. Qed.

Lemma guard_ok r d d' u : _reference_execution_guard tg r d = (d', Ok u) -> d' = d.
Proof. unfold _reference_execution_guard. destruct (has_references tg); by intros [= -> _]. Qed.

Lemma resolve_ok selector bound d d' t :
  _resolve_dispatch_target w p tg selector bound d = (d', Ok t) ->
  d' = d /\
  (protected (name p) = true ->
   _require_approved_backend_target_before_io (name p) (tg_backend_id tg) (w_snapshot w) (Some t) = Ok tt) /\
  (name p ∈ EXPLICIT_BACKEND_CAPABILITY_PROCEDURE_NAMES -> exists c,
   _verify_backend_capability ∅ (w_row w) (rstrip_slash (bt_url t)) 0 false (w_manifest w) = (c, Ok tt)).
Proof.
  unfold _resolve_dispatch_target. intros Hr. destruct (w_resolve w selector) as [[t0|]|]; [|done..].
  apply stage_bind_Ok in Hr as (d1 & u1 & Hp & Hr). apply stage_bind_Ok in Hr as (d2 & u2 & Hc & Hr).
  injection Hr as -> ->.
  assert (d1 = d /\ (protected (name p) = true ->
    _require_approved_backend_target_before_io (name p) (tg_backend_id tg) (w_snapshot w) (Some t) = Ok tt)) as [-> Happ].
  { destruct (protected (name p)); [|by injection Hp as <- _]. apply stage_bind_Ok in Hp as (d3 & u3 & Hv & Hp).
    injection Hv as <- _. injection Hp as <- Hp. by destruct u1. }
  destruct (str_in (name p) _) eqn:Es.
  - injection Hc as <- Hc. split; [done|]. split; [done|]. intros _.
    destruct (_verify_backend_capability _ _ _ _ _ _) as [c r]. cbn in Hc. subst r. exists c. by destruct u2.
  - injection Hc as <- _. split; [done|]. split; [done|]. intros Hin.
    apply bool_decide_eq_false in Es. done.
Qed.

Definition lease_for (pk : Z) (n : dict) (l : SignedDispatchLease) : Prop :=
  lc_execution_id (claims l) = pk /\ nonce (claims l) = w_nonce w /\
  params_fingerprint (claims l) = _hash_json (get "command_fingerprint" n) /\
  contract_hash (claims l) = derive_command_contract_hash (w_row w).

Lemma lease_ok n d d' lease :
  _issue_dispatch_lease w p tg n d = (d', Ok lease) ->
  forall l, lease = Some l -> lease_for (ex_pk (committed (d_session d))) n l.
Proof.
  unfold _issue_dispatch_lease. intros Hi l ->. apply stage_bind_Ok in Hi as (d1 & policy & Hpol & Hi).
  apply stage_bind_Ok in Hi as (d2 & lease & Hl & Hi). apply lift_ok in Hpol as [-> _], Hl as [-> Hl].
  destruct lease as [l'|]; [|discriminate Hi]. apply stage_bind_Ok in Hi as (d3 & u & _ & Hi). injection Hi as _ ->.
  destruct (issue_inv _ _ _ _ _ _ _ _ _ _ _ _ Hl) as (k & row & ttl & c & _ & Hrow & _ & Hc & ->).
  injection Hrow as <-. destruct (build_claims_inv _ _ _ _ _ _ _ _ _ _ _ _ Hc)
    as (Hid & _ & _ & _ & _ & Hn & _ & _ & _ & _ & Hch & _ & Hfp & _).
  cbn [leased le_pk py_int] in Hid. injection Hid as Hid.
  exact (conj (eq_sym Hid) (conj Hn (conj Hfp Hch))).
Qed.

Lemma op_pk op d d' u : aggregate_op op d = (d', Ok u) -> ex_pk (committed (d_session d')) = ex_pk (committed (d_session d)).
Proof.
  unfold aggregate_op, on_memory. destruct (op _) as [x|]; [|done]. cbn [mbind result_bind]. by intros [= <- _].
Qed.

Lemma prepare_ok t d d' lease :
  _prepare_dispatch w p tg t d = (d', Ok lease) ->
  exists raw n, w_normalized w = Ok raw /\ ledger_normalized_params raw = Ok n /\
    (protected (name p) = true -> _require_current_protected_approval w p tg (memory (d_session d)) n t = Ok tt) /\
    (_requires_signed_dispatch p tg = true -> is_Some lease) /\
    (forall l, lease = Some l -> lease_for (ex_pk (committed (d_session d))) n l).
Proof.
  unfold _prepare_dispatch. intros Hp.
  apply stage_bind_Ok in Hp as (d1 & u1 & Hg & Hp). apply guard_ok in Hg as ->.
  apply stage_bind_Ok in Hp as (d2 & raw & Hraw & Hp). apply lift_ok in Hraw as [-> Hraw].
  apply stage_bind_Ok in Hp as (d3 & n & Hn & Hp). apply lift_ok in Hn as [-> Hn].
  apply stage_bind_Ok in Hp as (d4 & u4 & Hset & Hp). apply pair_ok in Hset as [-> _].
  apply stage_bind_Ok in Hp as (d5 & u5 & Hg & Hp). apply guard_ok in Hg as ->.
  apply stage_bind_Ok in Hp as (d6 & u6 & Ha & Hp).
  assert (d6 = set_normalized n d /\ (protected (name p) = true ->
    _require_current_protected_approval w p tg (memory (d_session d)) n t = Ok tt)) as [-> Happ].
  { destruct (protected (name p)); apply pair_ok in Ha as [-> Ha]; (split; [reflexivity|]); [|intros E; discriminate E].
    intros _. destruct u6. exact Ha. }
  apply stage_bind_Ok in Hp as (d7 & u7 & Hop & Hp). apply op_pk in Hop. cbn [set_normalized d_session] in Hop.
  apply stage_bind_Ok in Hp as (d8 & lease' & Hl & Hp).
  exists raw, n. split; [exact Hraw|]. split; [exact Hn|]. split; [exact Happ|].
  pose proof (lease_ok _ _ _ _ Hl) as Hfor. rewrite Hop in Hfor.
  destruct (_requires_signed_dispatch p tg); cbn [andb] in Hp.
  - destruct lease' as [l|]; [|discriminate Hp]. apply pair_ok in Hp as [_ [= <-]]. split; [by eexists|exact Hfor].
  - apply pair_ok in Hp as [_ [= <-]]. split; [intros E; discriminate E|exact Hfor].
Qed.

(** What was established before a request left for the backend. *)
Definition authorized_call ex (t : backend_target) (lease : option SignedDispatchLease) : Prop :=
  w_enabled w = true /\ may_start p (w_claim w) ex = true /\
  exists raw n, w_normalized w = Ok raw /\ ledger_normalized_params raw = Ok n /\
  (protected (name p) = true -> exists sn current, w_snapshot w = Some sn /\ w_policy w = Ok tt /\
     _protected_backend_target_sha256 (tg_backend_id tg) (name p) (Some t) = Ok (backend_target_sha256 sn) /\
     _approval_protected_payload ex p tg n (Some t) = Ok current /\ matches_current sn current = true) /\
  (name p ∈ EXPLICIT_BACKEND_CAPABILITY_PROCEDURE_NAMES ->
     exists m, carries (w_manifest w) m /\ covers_procedure m (w_row w)) /\
  (_requires_signed_dispatch p tg = true -> is_Some lease) /\
  (forall l, lease = Some l -> lease_for (ex_pk ex) n l).

Lemma quiet_guard r : quiet (_reference_execution_guard tg r).
Proof. intros d. unfold _reference_execution_guard. by destruct (has_references tg). Qed.
Lemma quiet_resolve selector bound : quiet (_resolve_dispatch_target w p tg selector bound).
Proof.
  intros d. unfold _resolve_dispatch_target. destruct (w_resolve w selector) as [[t|]|]; [|done..].
  match goal with |- d_calls (?m d).1 = _ => cut (quiet m); [intros Hq; apply Hq|] end.
  apply quiet_bind; [destruct (protected (name p)); [by apply quiet_bind|done]|intros _].
  apply quiet_bind; [by destruct (str_in _ _)|done].
Qed.
Lemma quiet_prepare t : quiet (_prepare_dispatch w p tg t).
Proof.
  unfold _prepare_dispatch. apply quiet_bind; [apply quiet_guard|intros _]. apply quiet_bind; [done|intros raw].
  apply quiet_bind; [done|intros n]. apply quiet_bind; [done|intros _]. apply quiet_bind; [apply quiet_guard|intros _].
  apply quiet_bind; [by destruct (protected _)|intros _]. apply quiet_bind; [apply quiet_op|intros _].
  apply quiet_bind; [|intros l; by destruct (_ && _)].
  intros d. unfold _issue_dispatch_lease. unfold stage_bind at 1.
  unfold lift at 1. destruct (_credential_policy_reference n p tg) as [policy|e]; [|reflexivity].
  unfold stage_bind at 1, lift at 1. destruct (issue_dispatch_lease _ _ _ _ _ _ _ _ _ _ _) as [[l|]|e]; [|reflexivity..].
  apply (quiet_bind (aggregate_op _) (fun _ => stage_ret (Some l))); [apply quiet_op|done].
Qed.

Lemma send_calls t lease d :
  d_calls d = [] ->
  d_calls (_dispatch_to_backend w p t lease d).1 = [] \/ d_calls (_dispatch_to_backend w p t lease d).1 = [(t, lease)].
Proof.
  intros Hc. unfold _dispatch_to_backend. destruct (negb _); unfold stage_bind, _call_backend.
  - right. destruct (w_call w t lease) as [response|e]; [|cbn; by rewrite Hc].
    rewrite quiet_op. cbn. by rewrite Hc.
  - destruct (_reserve_gitea_runner_scope _ _ _ _ _ _ _) as [[f b]|e]; [|by left]. right.
    destruct (w_call w t lease) as [response|e]; [|cbn; by rewrite Hc].
    cbn [set_fence log_call d_fence]. destruct (_record_gitea_runner_response _ _ _ _ _ _ _ _) as [[f' x']|e]; cbn; by rewrite Hc.
Qed.

Lemma dispatch_calls selector bound d :
  d_calls d = [] ->
  d_calls (dispatch w p tg selector bound d).1 = [] \/
  exists t lease d', _reference_execution_guard tg (w_reference_backend w selector) d = (d, Ok tt) /\
    _resolve_dispatch_target w p tg selector bound d = (d, Ok t) /\
    _prepare_dispatch w p tg t d = (d', Ok lease) /\ d_calls (dispatch w p tg selector bound d).1 = [(t, lease)].
Proof.
  intros Hc. unfold dispatch, stage_bind at 1 4.
  pose proof (quiet_guard (w_reference_backend w selector) d) as H1'.
  destruct (_reference_execution_guard _ _ d) as [d1 [u|e]] eqn:E1; [|left; cbn in *; congruence].
  pose proof E1 as E1'. apply guard_ok in E1' as ->. destruct u. unfold stage_bind at 1 3.
  pose proof (quiet_resolve selector bound d) as H2'.
  destruct (_resolve_dispatch_target _ _ _ _ _ d) as [d2 [t|e]] eqn:E2; [|left; cbn in *; congruence].
  assert (d2 = d) as -> by (by apply resolve_ok in E2 as (? & _)). unfold stage_bind at 1 2.
  pose proof (quiet_prepare t d) as H3'.
  destruct (_prepare_dispatch _ _ _ _ d) as [d3 [lease|e]] eqn:E3; [|left; cbn in *; congruence].
  assert (d_calls d3 = []) as Hc3 by (cbn in H3'; congruence).
  destruct (send_calls t lease d3 Hc3) as [Hs|Hs]; [by left|right]. by exists t, lease, d3.
Qed.

Lemma approved_target name0 id snap t :
  _require_approved_backend_target_before_io name0 id snap (Some t) = Ok tt ->
  exists sn, snap = Some sn /\ _protected_backend_target_sha256 id name0 (Some t) = Ok (backend_target_sha256 sn).
Proof.
  unfold _require_approved_backend_target_before_io. intros Hr.
  destruct (_protected_backend_target_sha256 id name0 (Some t)) as [sha|[]]; try done.
  apply require_Ok in Hr. bool_inv. destruct snap as [sn|]; cbn in *; [|done].
  exists sn. split; [done|]. f_equal. symmetry. by apply String.eqb_eq.
Qed.

Lemma current_approval ex x n t :
  ex_requested_by_id x = ex_requested_by_id ex ->
  _require_current_protected_approval w p tg x n t = Ok tt ->
  w_policy w = Ok tt /\ exists sn current, w_snapshot w = Some sn /\
    _approval_protected_payload ex p tg n (Some t) = Ok current /\ matches_current sn current = true.
Proof.
  intros Hreq Hr. unfold _require_current_protected_approval, recheck_approval in Hr.
  destruct (w_policy w) as [[]|[]]; try done. split; [done|]. destruct (negb _); [done|].
  apply bind_Ok in Hr as (current & Hc & Hr). apply require_Ok in Hr. destruct (w_snapshot w) as [sn|]; [|done].
  exists sn, current. split; [done|]. split; [|done]. rewrite <- Hc. unfold _approval_protected_payload. by rewrite Hreq.
Qed.

Lemma claimed_same ex s :
  on_memory (_claim_if_procedure_enabled p (w_claim w) (w_now w)) (fetch ex) = Ok s ->
  ex_pk (committed s) = ex_pk ex /\ ex_requested_by_id (memory s) = ex_requested_by_id ex.
Proof. unfold on_memory. intros Hs. apply bind_Ok in Hs as (x & _ & Hs). by injection Hs as <-. Qed.

(** The start of a run on the claimed execution. *)
Definition started (s : session) (f : option fence) : dispatch_state :=
  {| d_session := s; d_fence := f; d_normalized := []; d_runner_scope_reserved := false; d_calls := [] |}.

(** A run that calls the backend went through every stage before. *)
Lemma run_calls ex0 ex f :
  fresh ex0 -> rtc agg_step ex0 ex -> status (ex_cols ex) = status_value QUEUED ->
  (forall e, c_policy (w_claim w) = Err e -> exists field m, e = ValidationError field m) -> finite_binding ->
  d_calls (run_execution str_exn w p tg ex f).1 = [] \/
  w_enabled w = true /\ may_start p (w_claim w) ex = true /\ exists s selector bound t lease d3,
    on_memory (_claim_if_procedure_enabled p (w_claim w) (w_now w)) (fetch ex) = Ok s /\
    _reference_execution_guard tg (w_reference_backend w selector) (started s f) = (started s f, Ok tt) /\
    _resolve_dispatch_target w p tg selector bound (started s f) = (started s f, Ok t) /\
    _prepare_dispatch w p tg t (started s f) = (d3, Ok lease) /\
    d_calls (run_execution str_exn w p tg ex f).1 = [(t, lease)].
Proof.
  intros Hf Hr Hst Hp Hfin. destruct (agg_reachable_phase _ _ Hf Hr) as (q & Hq).
  assert (phase_status q = QUEUED) as Hqs by (destruct Hq as (_ & _ & Hs); rewrite Hst in Hs; by apply status_value_inj).
  destruct (claim_spec q ex Hq Hqs Hp) as (s & Hs & Hsync & Hi). unfold run_execution. rewrite Hs.
  pose proof Hi as (Hlo & Hlc & Hstat). rewrite Hsync, Hstat.
  destruct (may_start p (w_claim w) ex); cbn [phase_status] in *; [|by left].
  rewrite String.eqb_refl. cbn [negb]. fold (started s f). assert (live (started s f)) as Hl by done.
  destruct (w_enabled w); cbn [negb].
  2: { left. edestruct (try_fail_live w) as (d' & Ht & _ & Hc); [exact Hl|]. rewrite Ht. exact Hc. }
  pose proof (select_live (started s f) Hfin Hl) as Hsel.
  destruct (_select_backend w p tg (started s f)) as [d1 [[selector bound]|e]]; [|left; apply Hsel].
  subst d1. pose proof (dispatch_live selector bound (started s f) Hl) as Hdis.
  assert (d_calls (match dispatch w p tg selector bound (started s f) with
                   | (d', Ok _) => (d', Ok tt)
                   | (d', Err e) => after_failure str_exn w p e d' end).1
          = d_calls (dispatch w p tg selector bound (started s f)).1) as Hfinal.
  { destruct (dispatch w p tg selector bound (started s f)) as [d2 [[]|e]]; [done|]. by apply after_failure_live. }
  rewrite Hfinal.
  destruct (dispatch_calls selector bound (started s f) eq_refl) as [Hc|(t & lease & d3 & Hg & Hres & Hprep & Hc)]; [by left|].
  right. split; [done|]. split; [done|]. by exists s, selector, bound, t, lease, d3.
Qed.

(** C4: A run calls the backend at most once, and only when everything was checked:
    the integration is enabled and the claim in order; a protected procedure has an
    approval whose snapshot matches the parameters that are sent and the very backend
    target that is called; a procedure that needs a capability is covered by the
    manifest the backend sent for this run; and a protected or reference-bearing
    execution carries a signed lease for this execution, its parameters and its
    contract. *)
Theorem call_is_authorized ex0 ex f :
  fresh ex0 -> rtc agg_step ex0 ex -> status (ex_cols ex) = status_value QUEUED ->
  (forall e, c_policy (w_claim w) = Err e -> exists field m, e = ValidationError field m) -> finite_binding ->
  cr_name (w_row w) = name p ->
  d_calls (run_execution str_exn w p tg ex f).1 = [] \/
  exists t lease, d_calls (run_execution str_exn w p tg ex f).1 = [(t, lease)] /\ authorized_call ex t lease.
Proof.
  intros Hf Hr Hst Hp Hfin Hname.
  destruct (run_calls ex0 ex f Hf Hr Hst Hp Hfin)
    as [Hc|(Hen & Hmay & s & selector & bound & t & lease & d3 & Hs & _ & Hres & Hprep & Hc)]; [by left|].
  destruct (claimed_same _ _ Hs) as [Hpk Hreq].
  right. exists t, lease. split; [done|]. split; [done|]. split; [done|].
  apply resolve_ok in Hres as (_ & Hbind & Hcap). apply prepare_ok in Hprep as (raw & n & Hraw & Hn & Happ & Hsig & Hfor).
  exists raw, n. split; [done|]. split; [done|]. split; [|split; [|split; [done|]]].
  - intros Hprot. destruct (approved_target _ _ _ _ (Hbind Hprot)) as (sn & Hsn & Hsha).
    destruct (current_approval ex _ _ _ Hreq (Happ Hprot)) as (Hpol & sn' & current & Hsn' & Hcur & Hmatch).
    rewrite Hsn in Hsn'. injection Hsn' as <-. exists sn, current.
    exact (conj Hsn (conj Hpol (conj Hsha (conj Hcur Hmatch)))).
  - intros Hin. destruct (Hcap Hin) as [c Hv]. eapply explicit_covered; [|exact Hv]. by rewrite Hname.
  - intros l Hl'. specialize (Hfor l Hl'). cbn [started d_session] in Hfor. by rewrite Hpk in Hfor.
Qed.
End Run.

#[local] Transparent redact_event_value redact_event_data.
#[local] Transparent ledger_normalized_params issue_dispatch_lease _credential_policy_reference _verify_backend_capability.

(** ** Example: a read procedure that needs a capability, run to success *)

Section Witnesses.
Import MiniSchema Demo DemoManifest DemoLease.

Definition demo_world : world :=
  {| w_claim := demo_claim; w_enabled := true; w_backend_pk := VNone;
     w_resolve := fun _ => Ok (Some demo_backend); w_reference_backend := fun _ => Ok tt;
     w_reference_dispatch := fun _ => Ok tt; w_reference_approval := fun _ _ => Ok tt;
     w_row := demo_catalog_row "service.pbs.1.status"; w_manifest := demo_answer;
     w_normalized := Ok demo_normalized; w_policy := Ok tt; w_snapshot := None;
     w_config := demo_config; w_env := demo_env; w_instant := 1000000; w_nonce := "00ff";
     w_blocking := None; w_clock := 0; w_fence_schema := VDict [];
     w_call := fun _ _ => Ok ok_response; w_now := demo_now |}.
Definition demo_str_exn (_ : exn) : string := "error".
Definition demo_status : procedure := demo_procedure "service.pbs.1.status".
Definition demo_run : dispatch_state * res unit :=
  run_execution demo_str_exn demo_world demo_status demo_target demo_queued None.

Example demo_run_calls :
  (length (d_calls demo_run.1), status (ex_cols (committed (d_session demo_run.1)))) = (1%nat, "succeeded").
Proof. vm_compute. reflexivity. Qed.

Lemma demo_finite_binding : finite_binding demo_world demo_target.
Proof. repeat split; discriminate. Defined.
Lemma call_is_authorized_witness :
  d_calls (run_execution demo_str_exn demo_world demo_status demo_target demo_queued None).1 = [] \/
  exists t lease, d_calls (run_execution demo_str_exn demo_world demo_status demo_target demo_queued None).1
    = [(t, lease)] /\ authorized_call demo_world demo_status demo_target demo_queued t lease.
Proof.
  exact (call_is_authorized demo_str_exn demo_world demo_status demo_target demo_new demo_queued None
    demo_fresh demo_reach_queued eq_refl demo_policy_known demo_finite_binding eq_refl).
Defined.
End Witnesses.
