(* ===== verification/Templating.v ===== *)
(** * Command templates

    [netbox_rpc/command_templating.py] (the analysis of Jinja tokens and the capture
    rules), the token checks of [netbox_rpc/command_contract.py], and
    [RPCProcedureCommand.clean] of [netbox_rpc/models.py], which applies both to one row
    and checks that the other rows of the procedure still resolve.

    The Jinja parser and [re.compile] are arguments ([TemplateLib]); a syntax tree is a
    [node] with the classes the analysis looks at.  Sets of names are lists. *)

From S2P Require Import Prelude PyValue CredentialContract.

(** ** Vocabulary *)

Definition RENDER_LITERAL : string := "literal".
Definition RENDER_JINJA : string := "jinja".
Definition RENDER_MODES : list string := [RENDER_LITERAL; RENDER_JINJA].

Definition CAPTURE_KINDS : list string := ["stdout"; "stdout_stripped"; "json"; "regex"; "line"].
Definition CAPTURE_KINDS_REQUIRING_EXPRESSION : list string := ["json"; "regex"; "line"].
Definition ROOT_PARAMS : string := "params".
Definition ROOT_TARGET : string := "target".
Definition ROOT_VARS : string := "vars".
Definition ROOT_RUNTIME : string := "runtime".
Definition ROOT_ITEM : string := "item".
Definition JINJA_CONTEXT_ROOTS : list string := [ROOT_PARAMS; ROOT_TARGET; ROOT_VARS; ROOT_RUNTIME; ROOT_ITEM].
Definition JINJA_RUNTIME_KEYS : list string :=
  ["rpc_ssh_host"; "rpc_ssh_port"; "rpc_ssh_credential_pk"; "rpc_ssh_known_hosts_entry";
   "rpc_ssh_strict_host_key_checking"].
Definition ALLOWED_FILTERS : list string :=
  ["int"; "float"; "string"; "default"; "upper"; "lower"; "trim"; "capitalize"; "title"; "replace";
   "truncate"; "length"; "abs"; "round"; "join"].

Definition alnum (c : ascii) : bool :=
  let z := code c in
  ((48 <=? z) && (z <=? 57)) || ((65 <=? z) && (z <=? 90)) || ((97 <=? z) && (z <=? 122)).
Definition one_of (chars : string) (c : ascii) : bool := str_contains (String c EmptyString) chars.

(** [[A-Za-z0-9_@%+=:,./-]*]. *)
Definition safe_char (c : ascii) : bool := alnum c || one_of "_@%+=:,./-" c.
Definition JINJA_LITERAL_SAFE_RE (s : string) : bool := str_forall safe_char s.
(** [[a-z][a-z0-9_]*]. *)
Definition VAR_NAME_RE (s : string) : bool :=
  match s with
  | EmptyString => false
  | String c r => (97 <=? code c) && (code c <=? 122)
                  && str_forall (fun d => ((97 <=? code d) && (code d <=? 122)) || ((48 <=? code d) && (code d <=? 57))
                                          || one_of "_" d) r
  end.
(** Letters, digits, underscore, dot, brackets, both quotes and the hyphen. *)
Definition JSON_PATH_RE (s : string) : bool :=
  str_truthy s && str_forall (fun c => alnum c || one_of (String quote_char "_.[]'-") c) s.
(** [{%], [%}], [{#] or [#}] anywhere. *)
Definition _STATEMENT_RE (s : string) : bool :=
  existsb (fun b => str_contains b s) ["{%"; "%}"; "{#"; "#}"].

(** [", ".join(sorted(names))]. *)
Definition name_le (a b : string) : Prop := Is_true (String.leb a b).
#[export] Instance name_le_dec : RelDecision name_le.
Proof. unfold name_le. intros ??. apply _. Defined.
Definition join_sorted (names : list string) : string := str_join ", " (merge_sort name_le names).

(** ** Literal tokens *)

(** [[A-Za-z0-9_@%+=:,./{}-]+]. *)
Definition SAFE_TOKEN_RE (s : string) : bool :=
  str_truthy s && str_forall (fun c => safe_char c || one_of "{}" c) s.
Definition COMMAND_RUNTIME_KEYS : list string :=
  ["rpc_ssh_host"; "rpc_ssh_port"; "rpc_ssh_credential_pk"; "rpc_openbao_assignment_id";
   "rpc_ssh_known_hosts_entry"; "rpc_ssh_strict_host_key_checking"; "target"; "item"; "members_csv"].

Definition ident_start (c : ascii) : bool := (alnum c && negb ((48 <=? code c) && (code c <=? 57))) || one_of "_" c.
Definition ident_char (c : ascii) : bool := alnum c || one_of "_" c.
Definition lbrace : ascii := "{"%char.
Definition rbrace : ascii := "}"%char.

(** [PLACEHOLDER_RE], a brace, an identifier and a brace, matched from left to right
    without overlap: inside an attempt [pending] holds what was read since its opening
    brace.  The result is the names found and the text with the matches removed. *)
Fixpoint scan (pending : option string) (s : string) : list string * string :=
  match s with
  | EmptyString =>
      ([], match pending with Some name => String lbrace name | None => EmptyString end)
  | String c r =>
      match pending with
      | None =>
          if Ascii.eqb c lbrace then scan (Some EmptyString) r
          else let '(names, rest) := scan None r in (names, String c rest)
      | Some name =>
          if Ascii.eqb c rbrace && str_truthy name then
            let '(names, rest) := scan None r in (name :: names, rest)
          else if (if str_truthy name then ident_char c else ident_start c) then
            scan (Some (name +:+ String c EmptyString)) r
          else if Ascii.eqb c lbrace then
            let '(names, rest) := scan (Some EmptyString) r in (names, String lbrace name +:+ rest)
          else
            let '(names, rest) := scan None r in (names, String lbrace name +:+ String c rest)
      end
  end.
Definition extract_placeholders (token : string) : list string := (scan None token).1.
Definition token_has_balanced_placeholders (token : string) : bool :=
  let stripped := (scan None token).2 in
  negb (str_contains "{" stripped) && negb (str_contains "}" stripped).
Definition token_is_safe (token : string) : bool := SAFE_TOKEN_RE token.

(** ** Syntax trees *)

Inductive kind : Type :=
| Call
| Filter (name : string)
| TemplateData (data : string)
| Const (v : value)
| Getattr (attr : string)
| Getitem
| Name (name : string)
| Other.

(** The children are in the order of [iter_child_nodes]: the first child of an access
    is what is accessed, the second child of [Getitem] its argument. *)
Inductive node : Type := Node (k : kind) (children : list node).
Definition node_kind (n : node) : kind := let 'Node k _ := n in k.
Definition node_children (n : node) : list node := let 'Node _ c := n in c.

(** [jinja_parse] gives the children of the template node or the text of a syntax
    error, [regex_groups] the groups of [re.compile(expression)] or its error. *)
Class TemplateLib := {
  jinja_parse : string -> result string (list node);
  regex_groups : string -> result string Z;
}.

(** [find_all] over every class: the proper descendants in document order. *)
Fixpoint descendants (n : node) : list node :=
  match n with Node _ cs => flat_map (fun c => c :: descendants c) cs end.

Definition all_nodes (body : list node) : list node := flat_map (fun c => c :: descendants c) body.

Record VarRef := { vr_root : string; vr_attr : option string }.

Definition _const_str (n : option node) : option string :=
  match n with Some (Node (Const (VStr s)) _) => Some s | _ => None end.

(** The attribute or string key of an access. *)
Definition access_attr (n : node) : option string :=
  match n with
  | Node (Getattr a) _ => Some a
  | Node Getitem cs => _const_str (cs !! 1%nat)
  | _ => None
  end.
Definition is_access (n : node) : bool :=
  match node_kind n with Getattr _ | Getitem => true | _ => false end.
Definition name_of (n : node) : option string := match node_kind n with Name s => Some s | _ => None end.

(** The references through an access, and the names that are not the object of one. *)
Definition access_ref (n : node) : list VarRef :=
  if is_access n then
    match node_children n with
    | inner :: _ => match name_of inner with Some s => [{| vr_root := s; vr_attr := access_attr n |}] | None => [] end
    | [] => []
    end
  else [].
Definition bare_name (attributed : bool) (n : node) : list VarRef :=
  match name_of n with
  | Some s => if attributed then [] else [{| vr_root := s; vr_attr := None |}]
  | None => []
  end.
Fixpoint bare_names (n : node) : list VarRef :=
  match n with
  | Node _ [] => []
  | Node _ (c :: rest) =>
      bare_name (is_access n) c ++ bare_names c ++ flat_map (fun d => bare_name false d ++ bare_names d) rest
  end.

Record TokenAnalysis := { ta_errors : list string; ta_refs : list VarRef }.

Section Templating.
Context `{TemplateLib}.

Definition call_errors (token : string) (nodes : list node) : list string :=
if existsb (fun n => match node_kind n with Call => true | _ => false end) nodes
then [repr_str token +:+ ": function/method calls are not allowed in command tokens"] else [].
Definition filter_errors (token : string) (nodes : list node) : list string :=
flat_map (fun n =>
match node_kind n with
| Filter f => if str_in f ALLOWED_FILTERS then [] else
[repr_str token +:+ ": filter " +:+ repr_str f +:+ " is not allowed (allowed: "
 +:+ join_sorted ALLOWED_FILTERS +:+ ")"]
| _ => []
end) nodes.
Definition data_errors (token : string) (nodes : list node) : list string :=
flat_map (fun n =>
match node_kind n with
| TemplateData d => if JINJA_LITERAL_SAFE_RE d then [] else
[repr_str token +:+ ": literal text " +:+ repr_str d
 +:+ " contains characters outside the safe argv charset"]
| _ => []
end) nodes.
Definition const_errors (token : string) (nodes : list node) : list string :=
flat_map (fun n =>
match node_kind n with
| Const (VStr s) => if JINJA_LITERAL_SAFE_RE s then [] else
[repr_str token +:+ ": string literal " +:+ repr_str s
 +:+ " contains characters outside the safe argv charset"]
| _ => []
end) nodes.
Definition private_errors (token : string) (nodes : list node) : list string :=
flat_map (fun n =>
match access_attr n with
| Some a => if str_startswith "_" a then
[repr_str token +:+ ": private/dunder attribute access (" +:+ repr_str a +:+ ") is not allowed"] else []
| None => []
end) nodes.

Definition token_error (m : string) : TokenAnalysis := {| ta_errors := [m]; ta_refs := [] |}.
Definition analyze_token (token : value) : TokenAnalysis :=
match token with
| VStr token =>
if negb (str_truthy token) then token_error "must be a non-empty string"
else if _STATEMENT_RE token
then token_error (repr_str token +:+ ": statement/comment blocks ({% %} / {# #}) are not allowed; command tokens are expressions only")
else match jinja_parse token with
| Err m => token_error (repr_str token +:+ ": invalid Jinja template (" +:+ m +:+ ")")
| Ok body =>
let nodes := all_nodes body in
{| ta_errors := call_errors token nodes ++ filter_errors token nodes ++ data_errors token nodes
            ++ const_errors token nodes ++ private_errors token nodes;
 ta_refs := flat_map access_ref nodes
          ++ flat_map (fun d => bare_name false d ++ bare_names d) body |}
end
| _ => token_error "must be a non-empty string"
end.

Definition _validate_ref (ref : VarRef) (param_names produced_vars : list string) (for_each_present : bool)
: list string :=
let root := vr_root ref in
if negb (str_in root JINJA_CONTEXT_ROOTS)
then ["unknown variable root " +:+ repr_str root +:+ " (allowed roots: " +:+ join_sorted JINJA_CONTEXT_ROOTS +:+ ")"]
else if String.eqb root ROOT_ITEM
then if for_each_present then [] else ["'item' is only available when a 'for each' parameter is set"]
else match vr_attr ref with
| None => ["reference a specific key of " +:+ repr_str root +:+ " (for example " +:+ root
 +:+ ".<name>), not the whole object"]
| Some attr =>
if String.eqb root ROOT_PARAMS && negb (str_in attr param_names)
then ["params." +:+ attr +:+ " is not declared in the procedure params schema (available: "
+:+ str_or (join_sorted param_names) "(none declared)" +:+ ")"]
else if String.eqb root ROOT_VARS && negb (str_in attr produced_vars)
then ["vars." +:+ attr +:+ " is not produced by any earlier command (available output variables: "
+:+ str_or (join_sorted produced_vars) "(none produced earlier)" +:+ ")"]
else if String.eqb root ROOT_RUNTIME && negb (str_in attr JINJA_RUNTIME_KEYS)
then ["runtime." +:+ attr +:+ " is not a known runtime key (available: " +:+ join_sorted JINJA_RUNTIME_KEYS +:+ ")"]
else []
end.

Definition at_token (index : nat) (m : string) : string := "token " +:+ str_of_Z (Z.of_nat index) +:+ ": " +:+ m.
Fixpoint validate_tokens (index : nat) (argv : list value) (param_names produced_vars : list string)
(for_each_present : bool) : list string :=
match argv with
| [] => []
| token :: rest =>
let a := analyze_token token in
map (at_token index) (ta_errors a)
++ flat_map (fun ref => map (at_token index) (_validate_ref ref param_names produced_vars for_each_present)) (ta_refs a)
++ validate_tokens (S index) rest param_names produced_vars for_each_present
end.
Definition validate_jinja_argv (argv : value) (param_names produced_vars : list string) (for_each_present : bool)
: list string :=
match argv with
| VList ((_ :: _) as tokens) => validate_tokens 1 tokens param_names produced_vars for_each_present
| _ => ["argv must be a non-empty list of non-empty string tokens."]
end.

(** ** Captures *)

Definition expression_errors (kind expression : string) : list string :=
let requires := str_in kind CAPTURE_KINDS_REQUIRING_EXPRESSION in
(if requires && negb (str_truthy expression)
 then ["capture_expression is required for capture_kind=" +:+ kind +:+ "."] else [])
++ (if negb requires && str_truthy expression
then ["capture_expression must be empty for capture_kind=" +:+ kind +:+ "."] else [])
++ (if String.eqb kind "regex" && str_truthy expression then
match regex_groups expression with
| Err m => ["capture_expression is not a valid regex: " +:+ m +:+ "."]
| Ok n => if n =? 1 then [] else
["regex capture_expression must contain exactly one capturing group (found " +:+ str_of_Z n +:+ ")."]
end
else if String.eqb kind "line" && str_truthy expression then
match py_int (VStr expression) with
| Err _ => ["line capture_expression must be an integer line index."]
| Ok _ => []
end
else if String.eqb kind "json" && str_truthy expression && negb (JSON_PATH_RE expression)
then ["json capture_expression may only contain identifiers, digits, dots, and [] indexing."]
else []).

Definition validate_capture (produces_var capture_kind capture_expression : string) (other_var_names : list string)
: list string :=
let var := str_strip produces_var in
let kind := str_strip capture_kind in
let expression := str_strip capture_expression in
if negb (str_truthy var) then
if str_truthy kind || str_truthy expression
then ["capture_kind/capture_expression require produces_var to be set."] else []
else
(if VAR_NAME_RE var then [] else
 ["produces_var " +:+ repr_str var +:+ " must be a snake_case identifier ([a-z][a-z0-9_]*)."])
++ (if str_in var JINJA_CONTEXT_ROOTS
then ["produces_var " +:+ repr_str var +:+ " is a reserved context name (" +:+ join_sorted JINJA_CONTEXT_ROOTS +:+ ")."]
else [])
++ (if str_in var other_var_names
then ["produces_var " +:+ repr_str var +:+ " is already produced by another command in this procedure; output variable names must be unique."]
else [])
++ (if negb (str_truthy kind) then ["capture_kind is required when produces_var is set."]
else if negb (str_in kind CAPTURE_KINDS)
then ["capture_kind " +:+ repr_str kind +:+ " is not one of "
  +:+ py_str (VList (map VStr (merge_sort name_le CAPTURE_KINDS))) +:+ "."]
else expression_errors kind expression).

(** ** One row of a procedure *)

Record command_row := {
rc_pk : Z;
rc_sequence : Z;
rc_step_type : string;
rc_device_cli_mode : string;
rc_argv : value;
rc_condition_param : string;
rc_for_each_param : string;
rc_render_mode : string;
rc_produces_var : string;
rc_capture_kind : string;
rc_capture_expression : string;
}.

Definition render_mode_of (r : command_row) : string := str_or (rc_render_mode r) RENDER_LITERAL.
Definition produced (r : command_row) : string := str_strip (rc_produces_var r).
(** The variables produced by [rows] before position [seq]. *)
Definition produced_before (rows : list command_row) (seq : Z) : list string :=
List.filter str_truthy (map produced (List.filter (fun r => rc_sequence r <? seq) rows)).

Definition _param_names (params_schema : value) : list string :=
match params_schema with
| VDict s => match get "properties" s with VDict props => keys props | _ => [] end
| _ => []
end.
Definition _allowed_placeholder_names (params_schema : value) : list string :=
_param_names params_schema ++ COMMAND_RUNTIME_KEYS.

Definition literal_token_errors (allowed : list string) (index : nat) (token : value) : list string :=
match token with
| VStr t =>
if negb (str_truthy t) then ["token " +:+ str_of_Z (Z.of_nat index) +:+ " must be a non-empty string"]
else if negb (token_is_safe t) then [repr_str t +:+ " contains unsafe characters"]
else
let placeholders := extract_placeholders t in
(if (1 <? length placeholders)%nat then [repr_str t +:+ " contains more than one placeholder"] else [])
++ (if negb (token_has_balanced_placeholders t) then [repr_str t +:+ " contains malformed placeholder braces"] else [])
++ flat_map (fun p => if str_in p allowed then [] else
         [repr_str t +:+ " references unknown placeholder " +:+ repr_str p]) placeholders
| _ => ["token " +:+ str_of_Z (Z.of_nat index) +:+ " must be a non-empty string"]
end.
Fixpoint literal_argv_errors (allowed : list string) (index : nat) (argv : list value) : list string :=
match argv with
| [] => []
| t :: rest => literal_token_errors allowed index t ++ literal_argv_errors allowed (S index) rest
end.

(** The [vars] keys a Jinja row refers to. *)
Definition row_var_refs (r : command_row) : list string :=
match rc_argv r with
| VList argv =>
flat_map (fun token =>
flat_map (fun ref => if String.eqb (vr_root ref) ROOT_VARS
               then match vr_attr ref with Some a => if str_truthy a then [a] else [] | None => [] end
               else []) (ta_refs (analyze_token token))) argv
| _ => []
end.

Definition _chain_consistency_errors (self : command_row) (siblings : list command_row) : list string :=
flat_map (fun r =>
if negb (String.eqb (render_mode_of r) RENDER_JINJA) then [] else
match rc_argv r with
| VList _ =>
let before := produced_before (siblings ++ [self]) (rc_sequence r) in
let missing := List.filter (fun v => negb (str_in v before)) (row_var_refs r) in
match missing with
| [] => []
| _ => ["This change leaves command #" +:+ str_of_Z (rc_sequence r) +:+ "'s output variable reference(s) "
    +:+ join_sorted (remove_dups missing) +:+ " unresolved (no earlier command produces them)."]
end
| _ => []
end) siblings.

Definition field_error (name : string) (es : list string) : list (string * list string) :=
match es with [] => [] | _ => [(name, es)] end.

(** [clean]: the errors by field; none means the row may be saved. *)
Definition clean (params_schema : value) (self : command_row) (siblings : list command_row)
: list (string * list string) :=
let allowed := _allowed_placeholder_names params_schema in
let mode := render_mode_of self in
let other_var_names := List.filter str_truthy (map produced siblings) in
let before := produced_before siblings (rc_sequence self) in
(if negb (String.eqb (rc_step_type self) "device_cli") && str_truthy (rc_device_cli_mode self)
 then [("device_cli_mode", ["device_cli_mode is only valid for device_cli steps."])] else [])
++ (if str_in mode RENDER_MODES then [] else [("render_mode", [repr_str mode +:+ " is not a valid render mode."])])
++ field_error "argv"
 match rc_argv self with
 | VList ((_ :: _) as argv) =>
 if String.eqb mode RENDER_JINJA
 then validate_jinja_argv (rc_argv self) (_param_names params_schema) before (str_truthy (rc_for_each_param self))
 else literal_argv_errors allowed 1 argv
 | _ => ["argv must be a non-empty list of non-empty string tokens."]
 end
++ flat_map (fun '(field, v) =>
 if str_truthy v && negb (str_in v allowed)
 then [(field, [repr_str v +:+ " is not declared in the procedure params schema."])] else [])
 [("condition_param", rc_condition_param self); ("for_each_param", rc_for_each_param self)]
++ field_error "produces_var"
 (validate_capture (rc_produces_var self) (rc_capture_kind self) (rc_capture_expression self) other_var_names)
++ field_error "__all__" (_chain_consistency_errors self siblings).

(** Saving a row that is clean: the row with its key is replaced, or the row is added. *)
Definition siblings_of (rows : list command_row) (self : command_row) : list command_row :=
List.filter (fun r => negb (rc_pk r =? rc_pk self)) rows.
Definition save_row (params_schema : value) (rows : list command_row) (self : command_row) : res (list command_row) :=
let siblings := siblings_of rows self in
match clean params_schema self siblings with
| [] => Ok (siblings ++ [self])
| _ => Err (ValidationError "__all__" "command row is not valid")
end.
End Templating.
