(* ===== verification/TemplatingProperties.v ===== *)
(** * Properties of command templates

    The passes of the analysis agree with a recursive reading of the syntax tree, the
    output variables of a procedure stay resolved as rows are saved, and a literal token
    that is accepted is fixed text around at most one declared placeholder. *)

From S2P Require Import Prelude PyValue CredentialContract RedactionFacts JsonFacts Templating.

Section NodeInd.
Variable P : node -> Prop.
Hypothesis HNode : forall k cs, Forall P cs -> P (Node k cs).
Fixpoint node_ind_nested (n : node) : P n :=
  match n with
  | Node k cs => HNode k cs ((fix go (l : list node) : Forall P l :=
      match l with
      | [] => Forall_nil_2 P
      | x :: r => Forall_cons_2 P x r (node_ind_nested x) (go r)
      end) cs)
  end.
End NodeInd.

(** ** A recursive reading of a token *)

Section Scoped.
Variable params vars : list string.
Variable for_each : bool.

(** A reference to [root], through [attr] if there is one, has a value at run time. *)
Definition resolves (root : string) (attr : option string) : bool :=
if String.eqb root ROOT_ITEM then for_each else
match attr with
| None => false
| Some a =>
  (String.eqb root ROOT_PARAMS && str_in a params) || (String.eqb root ROOT_VARS && str_in a vars)
  || (String.eqb root ROOT_RUNTIME && str_in a JINJA_RUNTIME_KEYS) || String.eqb root ROOT_TARGET
end.

Definition public_attr (a : option string) : bool :=
match a with Some a => negb (str_startswith "_" a) | None => true end.

(** What a node may be, apart from the names in it. *)
Definition local_ok (n : node) : bool :=
match node_kind n with
| Call => false
| Filter f => str_in f ALLOWED_FILTERS
| TemplateData d => JINJA_LITERAL_SAFE_RE d
| Const (VStr s) => JINJA_LITERAL_SAFE_RE s
| Const _ | Other | Name _ => true
| Getattr _ | Getitem => public_attr (access_attr n)
end.

(** The tree in scope: [via] is the attribute through which the node is read, if it is
the object of an access. *)
Fixpoint scoped (via : option string) (n : node) : bool :=
local_ok n
&& (match name_of n with Some s => resolves s via | None => true end)
&& match n with
 | Node _ [] => true
 | Node _ (c :: rest) =>
     scoped (if is_access n then access_attr n else None) c && forallb (scoped None) rest
 end.

(** An argv that may be rendered: tokens of text, without statements, that parse to a
tree in scope. *)
Definition renderable `{TemplateLib} (token : value) : Prop :=
exists t body, token = VStr t /\ t <> EmptyString /\ _STATEMENT_RE t = false /\ jinja_parse t = Ok body /\
forallb (scoped None) body = true.
End Scoped.

(** Decide the comparisons between two context roots. *)
Ltac compute_roots :=
  repeat match goal with
  | |- context [String.eqb ?a ?b] => is_const a; is_const b;
      let v := eval vm_compute in (String.eqb a b) in change (String.eqb a b) with v; cbn [andb orb negb]
  end.

Section Analysis.
Context `{TemplateLib}.
Variable params vars : list string.
Variable for_each : bool.
Notation resolves := (resolves params vars for_each).
Notation scoped := (scoped params vars for_each).
Definition ref_ok (r : VarRef) : Prop := resolves (vr_root r) (vr_attr r) = true.

Lemma validate_ref_spec r : _validate_ref r params vars for_each = [] <-> ref_ok r.
Proof.
  unfold ref_ok, resolves, _validate_ref. destruct r as [root attr]. cbn [vr_root vr_attr].
  destruct (str_in root JINJA_CONTEXT_ROOTS) eqn:Er; cbn [negb].
  - destruct (String.eqb root ROOT_ITEM) eqn:Ei; [by destruct for_each|]. destruct attr as [a|]; [|done].
    apply bool_decide_eq_true in Er. unfold JINJA_CONTEXT_ROOTS in Er.
    rewrite !elem_of_cons in Er. destruct Er as [Er|[Er|[Er|[Er|[Er|Er]]]]]; try (by apply elem_of_nil in Er);
      subst root; compute_roots; try destruct (str_in a _); cbn [negb]; try done; naive_solver.
  - split; [done|]. apply bool_decide_eq_false in Er.
    assert (forall s, s ∈ JINJA_CONTEXT_ROOTS -> String.eqb root s = false) as Hne.
    { intros s Hs. destruct (String.eqb_spec root s) as [->|]; done. }
    rewrite !Hne by (by apply (bool_decide_eq_true (_ ∈ JINJA_CONTEXT_ROOTS)); vm_compute). by destruct attr.
Qed.

Definition forest_ok (body : list node) : Prop :=
  Forall (fun n => local_ok n = true) (all_nodes body) /\
  Forall ref_ok (flat_map access_ref (all_nodes body)) /\
  Forall ref_ok (flat_map (fun d => bare_name false d ++ bare_names d) body).

Definition below_ok (n : node) : Prop :=
  Forall (fun m => local_ok m = true) (descendants n) /\
  Forall ref_ok (access_ref n) /\ Forall ref_ok (flat_map access_ref (descendants n)) /\
  Forall ref_ok (bare_names n).

Lemma forest_ok_Forall body :
  forest_ok body <-> Forall (fun n => local_ok n = true /\ Forall ref_ok (bare_name false n) /\ below_ok n) body.
Proof.
  unfold forest_ok, below_ok, all_nodes. induction body as [|n body IH]; cbn [flat_map]; [by repeat split|].
  rewrite Forall_cons, <- IH. cbn [app flat_map]. rewrite !Forall_cons, flat_map_app, !Forall_app.
  unfold all_nodes. tauto.
Qed.

Lemma bare_name_ok n : Forall ref_ok (bare_name false n) <->
  (match name_of n with Some s => resolves s None | None => true end) = true.
Proof. unfold bare_name. destruct (name_of n); [rewrite Forall_singleton|]; naive_solver. Qed.

Lemma head_name_ok k c rest :
  let n := Node k (c :: rest) in
  Forall ref_ok (access_ref n) /\ Forall ref_ok (bare_name (is_access n) c) <->
  (match name_of c with Some s => resolves s (if is_access n then access_attr n else None) | None => true end) = true.
Proof.
  intros n. unfold access_ref, bare_name. cbn [n node_children].
  destruct (is_access _), (name_of c); rewrite ?Forall_singleton, ?Forall_nil; unfold ref_ok; cbn [vr_root vr_attr]; tauto.
Qed.

Lemma below_ok_cons k c rest :
  let n := Node k (c :: rest) in
  below_ok n <->
  local_ok c = true /\
  (match name_of c with Some s => resolves s (if is_access n then access_attr n else None) | None => true end) = true /\
  below_ok c /\ forest_ok rest.
Proof.
  intros n. pose proof (head_name_ok k c rest) as Hhead. cbv zeta in Hhead. fold n in Hhead. rewrite <- Hhead.
  unfold below_ok, forest_ok, all_nodes.
  change (descendants n) with ((c :: descendants c) ++ flat_map (fun c => c :: descendants c) rest).
  change (bare_names n) with
    (bare_name (is_access n) c ++ bare_names c ++ flat_map (fun d => bare_name false d ++ bare_names d) rest).
  rewrite flat_map_app. cbn [flat_map]. rewrite !Forall_app, !Forall_cons. tauto.
Qed.

(** What [scoped] says of a node, from what it says of the parts. *)
Definition scoped_iff (n : node) : Prop := forall via,
  scoped via n = true <->
  local_ok n = true /\ (match name_of n with Some s => resolves s via | None => true end) = true /\ below_ok n.

Lemma forest_scoped body : Forall scoped_iff body -> forallb (scoped None) body = true <-> forest_ok body.
Proof.
  rewrite forest_ok_Forall, forallb_forall, !Forall_forall. intros IH. split; intros Hall m Hm.
  - rewrite bare_name_ok. apply (IH m Hm None), Hall, list_elem_of_In, Hm.
  - apply list_elem_of_In in Hm. apply (IH m Hm None). rewrite <- bare_name_ok. by apply Hall.
Qed.

Lemma scoped_spec n : scoped_iff n.
Proof.
  induction n as [k cs IH] using node_ind_nested. intros via. destruct cs as [|c rest].
  - cbn [scoped]. rewrite !andb_true_iff. unfold below_ok, access_ref. cbn [descendants flat_map bare_names node_children].
    destruct (is_access _); rewrite !Forall_nil; tauto.
  - apply Forall_cons in IH as [IHc IHr]. apply forest_scoped in IHr.
    cbn [scoped]. rewrite !andb_true_iff, IHr, (IHc _), below_ok_cons. tauto.
Qed.
Lemma flat_map_nil {A B} (f : A -> list B) l : flat_map f l = [] <-> Forall (fun x => f x = []) l.
Proof.
  induction l as [|x l IH]; cbn [flat_map]; [done|]. rewrite Forall_cons, <- IH. split.
  - intros ?%app_eq_nil. done.
  - by intros [-> ->].
Qed.

(** The five passes over the nodes of a token, as one check of each node. *)
Lemma structural_passes token nodes :
  call_errors token nodes ++ filter_errors token nodes ++ data_errors token nodes ++ const_errors token nodes
    ++ private_errors token nodes = [] <-> Forall (fun n => local_ok n = true) nodes.
Proof.
  induction nodes as [|n nodes IH]; [done|]. rewrite Forall_cons, <- IH.
  unfold call_errors, filter_errors, data_errors, const_errors, private_errors. cbn [existsb flat_map].
  destruct n as [k cs]. unfold local_ok, public_attr. cbn [node_kind access_attr].
  destruct (existsb _ nodes); [by destruct k; cbn [orb]; naive_solver|].
  destruct k as [|f|d|v|a| |s|]; cbn [orb app]; try tauto.
  - naive_solver.
  - by destruct (str_in f ALLOWED_FILTERS); cbn [app]; naive_solver.
  - by destruct (JINJA_LITERAL_SAFE_RE d); destruct (flat_map _ _); cbn [app]; naive_solver.
  - destruct v; try tauto. destruct (JINJA_LITERAL_SAFE_RE _); repeat destruct (flat_map _ _); cbn [app]; naive_solver.
  - destruct (str_startswith "_" a); repeat destruct (flat_map _ _); cbn [app negb]; naive_solver.
  - destruct (_const_str _) as [a|]; [|tauto].
    destruct (str_startswith "_" a); repeat destruct (flat_map _ _); cbn [app negb]; naive_solver.
Qed.

Lemma analyze_token_spec token :
  (ta_errors (analyze_token token) = [] /\ Forall ref_ok (ta_refs (analyze_token token))) <->
  renderable params vars for_each token.
Proof.
  unfold renderable. destruct token; try (split; [by intros []|naive_solver]). rename s into t.
  cbn [analyze_token]. destruct (str_truthy t) eqn:Et; cbn [negb]; [|split; [by intros []|]].
  2: { intros (t' & body & [= <-] & Hne & _). by destruct t. }
  destruct (_STATEMENT_RE t) eqn:Es; [split; [by intros []|intros (? & ? & [= <-] & ?); intuition congruence]|].
  destruct (jinja_parse t) as [body|m] eqn:Ep; [|split; [by intros []|intros (? & ? & [= <-] & ?); intuition congruence]].
  cbn [ta_errors ta_refs]. rewrite structural_passes, Forall_app.
  assert (Forall scoped_iff body) as Hb by (apply Forall_forall; intros; apply scoped_spec).
  apply forest_scoped in Hb. split.
  - intros Hok. exists t, body. repeat split; try done; [by destruct t|]. by apply Hb.
  - intros (t' & body' & [= <-] & _ & _ & Ep' & Hs). rewrite Ep in Ep'. injection Ep' as <-. by apply Hb in Hs.
Qed.

Lemma validate_tokens_spec argv index :
  validate_tokens index argv params vars for_each = [] <-> Forall (renderable params vars for_each) argv.
Proof.
  revert index. induction argv as [|token argv IH]; intros index; cbn [validate_tokens]; [done|].
  rewrite Forall_cons, <- analyze_token_spec, <- (IH (S index)). rewrite !app_nil, flat_map_nil.
  assert (forall l, map (at_token index) l = [] <-> l = []) as Hmap by (by intros []).
  rewrite Hmap. setoid_rewrite Hmap. setoid_rewrite validate_ref_spec. tauto.
Qed.
End Analysis.

Lemma jinja_argv_spec `{TemplateLib} argv params vars fe :
  validate_jinja_argv argv params vars fe = [] <->
  exists tokens, argv = VList tokens /\ tokens <> [] /\ Forall (renderable params vars fe) tokens.
Proof.
  unfold validate_jinja_argv. split.
  - destruct argv as [| | | | | | |[|token tokens]| | |]; try done. rewrite validate_tokens_spec. intros Hall.
    exists (token :: tokens). split_and!; [done|by intros ?|]. done.
  - intros (tokens & -> & Hne & Hall). destruct tokens; [done|]. by apply validate_tokens_spec.
Qed.

(** C15: the author-time check of a Jinja argv accepts exactly the lists of tokens that can be rendered:
    every token is non-empty text without statement blocks, parses, and its syntax tree is in scope,
    read from the root down: no call, only allowed filters, safe literals, no private attribute, and every
    name a context root read through a declared parameter, a variable an earlier command produces, a known
    runtime key or a field of the target ([item] when there is a loop). *)
Theorem jinja_argv_in_scope `{TemplateLib} argv param_names produced_vars for_each_present :
  validate_jinja_argv argv param_names produced_vars for_each_present = [] <->
  exists tokens, argv = VList tokens /\ tokens <> [] /\
    Forall (renderable param_names produced_vars for_each_present) tokens.
Proof. apply jinja_argv_spec. Qed.

(** ** The rows of a procedure *)

Section Rows.
Context `{TemplateLib}.

(** Every output variable a Jinja row reads is produced by an earlier row. *)
Definition chain_closed (rows : list command_row) : Prop :=
  forall r v, r ∈ rows -> render_mode_of r = RENDER_JINJA -> v ∈ row_var_refs r ->
  v ∈ produced_before rows (rc_sequence r).

(** The names the rows produce. *)
Definition produced_names (rows : list command_row) : list string := List.filter str_truthy (map produced rows).

(** A name that a row may produce. *)
Definition var_name_ok (v : string) : Prop := VAR_NAME_RE v = true /\ v ∉ JINJA_CONTEXT_ROOTS.

Definition procedure_ok (rows : list command_row) : Prop :=
  chain_closed rows /\ NoDup (produced_names rows) /\ Forall var_name_ok (produced_names rows).

(** The rows of a procedure as its operations leave them. *)
Inductive edited (schema : value) : list command_row -> Prop :=
| edited_none : edited schema []
| edited_save rows self rows' : edited schema rows -> save_row schema rows self = Ok rows' -> edited schema rows'.

Lemma elem_of_produced_before rows seq v :
  v ∈ produced_before rows seq <-> exists r, r ∈ rows /\ rc_sequence r < seq /\ produced r = v /\ v <> EmptyString.
Proof.
  unfold produced_before. rewrite list_elem_of_In, filter_In, in_map_iff. split.
  - intros [(r & <- & Hr%filter_In) Hv]. exists r. rewrite list_elem_of_In, <- Z.ltb_lt.
    repeat split; try apply Hr. by destruct (produced r).
  - intros (r & Hr%list_elem_of_In & Hs%Z.ltb_lt & <- & Hv). split; [|by destruct (produced r)].
    exists r. split; [done|]. by apply filter_In.
Qed.

Lemma field_error_nil name es : field_error name es = [] <-> es = [].
Proof. by destruct es. Qed.

(** What a clean row says of the output variables. *)
Lemma clean_nil schema self siblings : clean schema self siblings = [] ->
  (render_mode_of self = RENDER_JINJA ->
     validate_jinja_argv (rc_argv self) (_param_names schema) (produced_before siblings (rc_sequence self))
       (str_truthy (rc_for_each_param self)) = []) /\
  validate_capture (rc_produces_var self) (rc_capture_kind self) (rc_capture_expression self)
    (produced_names siblings) = [] /\
  _chain_consistency_errors self siblings = [].
Proof.
  unfold clean. rewrite !app_nil, !field_error_nil. intros (_ & _ & Hargv & _ & Hcap & Hchain). repeat split; try done.
  intros Hmode. rewrite Hmode in Hargv. change (String.eqb RENDER_JINJA RENDER_JINJA) with true in Hargv.
  by destruct (rc_argv self) as [| | | | | | |[|]| | |].
Qed.

Lemma capture_nil var kind expr others : validate_capture var kind expr others = [] ->
  str_strip var <> EmptyString -> var_name_ok (str_strip var) /\ str_strip var ∉ others.
Proof.
  unfold validate_capture, var_name_ok. intros Hv Hne. destruct (str_strip var) as [|c s] eqn:E; [done|].
  cbn [str_truthy negb] in Hv. rewrite !app_nil in Hv. destruct Hv as (H1' & H2' & H3' & _).
  destruct (VAR_NAME_RE _); [|done]. destruct (str_in _ JINJA_CONTEXT_ROOTS) eqn:E2; [done|].
  destruct (str_in _ others) eqn:E3; [done|]. apply bool_decide_eq_false in E2, E3. done.
Qed.

(** The variables read by a renderable argv are among those allowed. *)
Lemma renderable_vars r params before fe :
  validate_jinja_argv (rc_argv r) params before fe = [] -> forall v, v ∈ row_var_refs r -> v ∈ before.
Proof.
  intros (tokens & Ea & _ & Hall)%jinja_argv_spec v. unfold row_var_refs. rewrite Ea, list_elem_of_In, in_flat_map.
  intros (token & Ht & (ref & Href & Hv)%in_flat_map). rewrite Forall_forall in Hall.
  apply list_elem_of_In, Hall, analyze_token_spec in Ht as [_ Hrefs]. rewrite Forall_forall in Hrefs.
  apply list_elem_of_In, Hrefs in Href. unfold ref_ok, resolves in Href.
  destruct (String.eqb_spec (vr_root ref) ROOT_VARS) as [Er|]; [|done]. rewrite Er in Href.
  destruct (vr_attr ref) as [a|]; [|done]. destruct (str_truthy a); [|done].
  destruct Hv as [->|[]]. revert Href. compute_roots. rewrite !orb_false_r. apply bool_decide_eq_true.
Qed.

Lemma save_row_inv schema rows self rows' : save_row schema rows self = Ok rows' ->
  rows' = siblings_of rows self ++ [self] /\ clean schema self (siblings_of rows self) = [].
Proof. unfold save_row. destruct (clean _ _ _); [|done]. by intros [= <-]. Qed.

Lemma chain_closed_saved schema self siblings :
  clean schema self siblings = [] -> chain_closed (siblings ++ [self]).
Proof.
  intros (Hargv & _ & Hchain)%clean_nil r v Hr Hmode Hv. apply elem_of_app in Hr as [Hr|Hr%list_elem_of_singleton].
  - unfold _chain_consistency_errors in Hchain. rewrite flat_map_nil, Forall_forall in Hchain.
    specialize (Hchain r Hr). rewrite Hmode in Hchain. cbn in Hchain. unfold row_var_refs in *.
    destruct (rc_argv r); try by apply elem_of_nil in Hv.
    set (refs := flat_map _ _) in *. destruct (List.filter _ _) eqn:Ef; [|done].
    destruct (str_in v (produced_before (siblings ++ [self]) (rc_sequence r))) eqn:E; [by apply bool_decide_eq_true in E|].
    assert (In v []) as []. rewrite <- Ef. apply filter_In. split; [by apply list_elem_of_In|]. by rewrite E.
  - subst r. apply (renderable_vars _ _ _ _ (Hargv Hmode)) in Hv. apply elem_of_produced_before in Hv as (r & Hr & ?).
    apply elem_of_produced_before. exists r. split; [set_solver|done].
Qed.

Lemma produced_names_app rows rows' : produced_names (rows ++ rows') = produced_names rows ++ produced_names rows'.
Proof. unfold produced_names. by rewrite map_app, List.filter_app. Qed.

Lemma produced_names_sublist rows self : sublist (produced_names (siblings_of rows self)) (produced_names rows).
Proof.
  unfold produced_names, siblings_of. induction rows as [|r rows IH]; cbn [List.filter map]; [done|].
  destruct (negb _); cbn [map List.filter]; destruct (str_truthy (produced r)); by try constructor.
Qed.

Lemma saved_names_ok schema rows self rows' : save_row schema rows self = Ok rows' ->
  NoDup (produced_names rows) -> Forall var_name_ok (produced_names rows) ->
  NoDup (produced_names rows') /\ Forall var_name_ok (produced_names rows').
Proof.
  intros [-> (_ & Hcap & _)%clean_nil]%save_row_inv Hnd Hok. rewrite produced_names_app, NoDup_app, Forall_app.
  pose proof (produced_names_sublist rows self) as Hsub.
  assert (NoDup (produced_names (siblings_of rows self))) as Hnd' by by eapply sublist_NoDup.
  assert (Forall var_name_ok (produced_names (siblings_of rows self))) as Hok' by (rewrite Forall_forall in Hok |- *; intros x Hx; by eapply Hok, elem_of_sublist).
  change (produced_names [self]) with (if str_truthy (produced self) then [produced self] else []).
  destruct (str_truthy (produced self)) eqn:E.
  - destruct (capture_nil _ _ _ _ Hcap) as [Hvar Hnew]; [by unfold produced in E; destruct (str_strip _)|].
    repeat split; try done; [|apply NoDup_singleton|by apply Forall_singleton].
    by intros x Hx ->%list_elem_of_singleton.
  - repeat split; [done|set_solver|constructor|done|constructor].
Qed.
End Rows.

(** whatever rows an operator saves, in whatever order and with whatever changes of position or name,
    the stored procedure keeps its chain of output variables: every variable a Jinja row reads is produced
    by a row of smaller sequence, no two rows produce the same variable, and every produced name is an
    identifier that is not a context root. *)
Theorem saved_procedure_chains `{TemplateLib} schema rows : edited schema rows -> procedure_ok rows.
Proof.
  induction 1 as [|rows self rows' _ (_ & Hnd & Hok) Hs].
  - repeat split; [by intros ?? ?%elem_of_nil|constructor..].
  - split; [|by eapply saved_names_ok]. apply save_row_inv in Hs as [-> Hc]. by eapply chain_closed_saved.
Qed.

(** ** Literal tokens *)

Definition identifier (s : string) : bool :=
  match s with EmptyString => false | String c r => ident_start c && str_forall ident_char r end.

Definition placeholder (name : string) : string := String lbrace (name +:+ String rbrace EmptyString).

Lemma identifier_snoc name c :
  (name = EmptyString \/ identifier name = true) ->
  (if str_truthy name then ident_char c else ident_start c) = true ->
  identifier (name +:+ String c EmptyString) = true.
Proof.
  destruct name as [|d name]; cbn [str_truthy].
  - intros _ Hc. change (EmptyString +:+ String c EmptyString) with (String c EmptyString).
    cbn [identifier str_forall]. by rewrite Hc.
  - intros [|Hn] Hc; [done|]. rewrite sapp_cons. cbn [identifier] in *. apply andb_true_iff in Hn as [-> Hn].
    rewrite str_forall_app, Hn. cbn [str_forall andb]. by rewrite Hc.
Qed.

(** What a scan of [text] found: nothing, or one placeholder whose removal leaves the rest, or more. *)
Definition found (text : string) (r : list string * string) : Prop :=
  match r with
  | ([], rest) => rest = text
  | ([name], rest) => exists pre post, text = pre +:+ placeholder name +:+ post /\ rest = pre +:+ post /\ identifier name = true
  | _ => True
  end.

Lemma found_prepend p text r : found text r -> found (p +:+ text) (r.1, p +:+ r.2).
Proof.
  destruct r as [[|name [|]] rest]; cbn; try done; [by intros ->|].
  intros (pre & post & -> & -> & Hn). exists (p +:+ pre), post. by rewrite !sapp_assoc.
Qed.

Lemma found_placeholder name text r :
  identifier name = true -> found text r -> found (placeholder name +:+ text) (name :: r.1, r.2).
Proof. intros Hn. destruct r as [[|] rest]; cbn; [|done]. intros ->. by exists EmptyString, text. Qed.

(** The text an attempt holds. *)
Definition pending_text (pending : option string) : string :=
  match pending with Some name => String lbrace name | None => EmptyString end.

Lemma scan_found s : forall pending,
  match pending with Some name => name = EmptyString \/ identifier name = true | None => True end ->
  found (pending_text pending +:+ s) (scan pending s).
Proof.
  induction s as [|c s IH]; intros pending Hp.
  { cbn [scan]. destruct pending; cbn [pending_text found]; by rewrite ?sapp_nil_r. }
  pose proof (IH None I) as IHn. pose proof (IH (Some EmptyString) (or_introl eq_refl)) as IHb.
  cbn [scan]. destruct pending as [name|]; cbn [pending_text] in *.
  - destruct (Ascii.eqb_spec c rbrace) as [->|Hc]; [destruct (str_truthy name) eqn:Et|]; cbn [andb].
    + destruct Hp as [->|Hp]; [done|]. apply (found_placeholder name) in IHn; [|done].
      destruct (scan None s). unfold placeholder in IHn. rewrite sapp_cons, sapp_assoc in IHn. exact IHn.
    + destruct name; [|done]. apply (found_prepend (String lbrace (String rbrace EmptyString))) in IHn.
      by destruct (scan None s).
    + destruct (if str_truthy name then ident_char c else ident_start c) eqn:Ec.
      * pose proof (IH (Some (name +:+ String c EmptyString)) (or_intror (identifier_snoc _ _ Hp Ec))) as IHs.
        cbn [pending_text] in IHs. rewrite sapp_cons, sapp_assoc in IHs. exact IHs.
      * destruct (Ascii.eqb_spec c lbrace) as [->|].
        -- apply (found_prepend (String lbrace name)) in IHb. by destruct (scan (Some EmptyString) s).
        -- apply (found_prepend (String lbrace name +:+ String c EmptyString)) in IHn.
           destruct (scan None s). rewrite !sapp_assoc in IHn. exact IHn.
  - destruct (Ascii.eqb_spec c lbrace) as [->|]; [done|].
    apply (found_prepend (String c EmptyString)) in IHn. by destruct (scan None s).
Qed.

Lemma contains_char b s : str_contains (String b EmptyString) s = negb (str_forall (fun c => negb (Ascii.eqb b c)) s).
Proof.
  induction s as [|c s IH]; [done|]. cbn [str_contains str_forall String.prefix]. rewrite IH.
  destruct (ascii_dec b c) as [->|Hne]; [by rewrite Ascii.eqb_refl; destruct s|].
  apply Ascii.eqb_neq in Hne as ->. done.
Qed.

Lemma str_forall_and p q s : str_forall (fun c => p c && q c) s = str_forall p s && str_forall q s.
Proof. induction s as [|c s IH]; [done|]. cbn [str_forall]. rewrite IH. by destruct (p c), (q c), (str_forall p s). Qed.

(** Safe text is text of the token alphabet without braces. *)
Lemma safe_text s :
  JINJA_LITERAL_SAFE_RE s =
  str_forall (fun c => safe_char c || one_of "{}" c) s && (negb (str_contains "{" s) && negb (str_contains "}" s)).
Proof.
  change "{"%string with (String lbrace EmptyString). change "}"%string with (String rbrace EmptyString).
  rewrite !contains_char, !negb_involutive, <- !str_forall_and. unfold JINJA_LITERAL_SAFE_RE.
  induction s as [|c s IH]; [done|]. cbn [str_forall]. rewrite IH. f_equal.
  destruct c as [[] [] [] [] [] [] [] []]; reflexivity.
Qed.

Lemma scan_prepend pre s : str_forall safe_char pre = true ->
  scan None (pre +:+ s) = ((scan None s).1, pre +:+ (scan None s).2).
Proof.
  induction pre as [|c pre IH]; [by rewrite !sapp_nil; destruct (scan None s)|].
  rewrite !sapp_cons. cbn [str_forall scan]. intros [Hc Hpre]%andb_true_iff.
  destruct (Ascii.eqb_spec c lbrace) as [->|_]; [done|]. by rewrite IH.
Qed.

Lemma scan_placeholder name s : identifier name = true ->
  scan None (placeholder name +:+ s) = (name :: (scan None s).1, (scan None s).2).
Proof.
  assert (forall r n, n <> EmptyString -> str_forall ident_char r = true ->
    scan (Some n) (r +:+ String rbrace s) = ((n +:+ r) :: (scan None s).1, (scan None s).2)) as Hgo.
  { induction r as [|c r IH]; intros n Hn Hr.
    - rewrite sapp_nil. cbn [scan]. change (Ascii.eqb rbrace rbrace) with true. destruct n; [done|]. cbn [str_truthy andb].
      destruct (scan None s). by rewrite sapp_nil_r.
    - rewrite sapp_cons. cbn [scan]. cbn [str_forall] in Hr. apply andb_true_iff in Hr as [Hc Hr].
      destruct (Ascii.eqb_spec c rbrace) as [->|_]; [done|]. destruct n as [|d n]; [done|]. cbn [str_truthy andb]. rewrite Hc.
      rewrite IH by done. by rewrite sapp_assoc. }
  destruct name as [|c name]; [done|]. cbn [identifier]. intros [Hc Hname]%andb_true_iff.
  unfold placeholder. rewrite !sapp_cons, sapp_assoc. cbn [scan]. change (Ascii.eqb lbrace lbrace) with true. cbv iota.
  destruct (Ascii.eqb_spec c rbrace) as [->|_]; [done|]. cbn [str_truthy andb]. rewrite Hc, !sapp_nil, sapp_cons, sapp_nil.
  by rewrite Hgo.
Qed.

Lemma safe_identifier name : identifier name = true -> str_forall (fun c => safe_char c || one_of "{}" c) name = true.
Proof.
  destruct name as [|c name]; [done|]. cbn [identifier str_forall]. intros [Hc Hn]%andb_true_iff. apply andb_true_iff. split.
  - revert Hc. by destruct c as [[] [] [] [] [] [] [] []].
  - eapply str_forall_impl; [|exact Hn]. intros d. by destruct d as [[] [] [] [] [] [] [] []].
Qed.

Lemma str_forall_placeholder p name :
  str_forall p (placeholder name) = p lbrace && (str_forall p name && (p rbrace && true)).
Proof. unfold placeholder. cbn [str_forall]. by rewrite str_forall_app. Qed.

(** The accepted forms of a literal token. *)
Definition literal_form (allowed : list string) (t : string) : Prop :=
  (t <> EmptyString /\ JINJA_LITERAL_SAFE_RE t = true) \/
  exists pre name post, t = pre +:+ placeholder name +:+ post /\ identifier name = true /\ name ∈ allowed /\
    JINJA_LITERAL_SAFE_RE pre = true /\ JINJA_LITERAL_SAFE_RE post = true.

Lemma literal_form_accepted allowed index t :
  literal_form allowed t -> literal_token_errors allowed index (VStr t) = [].
Proof.
  unfold literal_token_errors, token_is_safe, SAFE_TOKEN_RE, extract_placeholders, token_has_balanced_placeholders.
  intros [[Hne Hs]|(pre & name & post & -> & Hn & Hal & Hpre & Hpost)].
  - pose proof (scan_prepend t EmptyString Hs) as Hscan. cbn [scan fst snd] in Hscan. rewrite !sapp_nil_r in Hscan.
    rewrite Hscan. cbn [fst snd]. rewrite safe_text, !andb_true_iff in Hs. destruct Hs as (-> & -> & ->). by destruct t.
  - rewrite scan_prepend, scan_placeholder by done.
    pose proof (scan_prepend post EmptyString Hpost) as Hscan. cbn [scan fst snd] in Hscan. rewrite !sapp_nil_r in Hscan.
    rewrite Hscan. cbn [fst snd].
    assert (JINJA_LITERAL_SAFE_RE (pre +:+ post) = true) as Hrest.
    { unfold JINJA_LITERAL_SAFE_RE in *. by rewrite str_forall_app, Hpre. }
    rewrite safe_text, !andb_true_iff in Hrest, Hpre, Hpost. destruct Hrest as (_ & -> & ->).
    assert (str_truthy (pre +:+ placeholder name +:+ post) = true) as -> by (by destruct pre).
    destruct Hpre as [Hpre _], Hpost as [Hpost _]. apply safe_identifier in Hn.
    rewrite !str_forall_app, str_forall_placeholder, Hpre, Hn, Hpost.
    apply (bool_decide_eq_true (name ∈ allowed)) in Hal. cbn. unfold str_in. by rewrite Hal.
Qed.

Lemma literal_token_accepted allowed index t :
  literal_token_errors allowed index (VStr t) = [] -> literal_form allowed t.
Proof.
  unfold literal_token_errors, token_is_safe, SAFE_TOKEN_RE, extract_placeholders, token_has_balanced_placeholders.
  intros He. destruct (str_truthy t) eqn:Et; [|done]. cbn [negb andb] in He.
  destruct (str_forall _ t) eqn:Ea; [|done]. cbn [negb] in He.
  pose proof (scan_found t None I) as Hf. cbn [pending_text] in Hf. rewrite sapp_nil in Hf.
  destruct (scan None t) as [names rest]. cbn [fst snd] in He. rewrite !app_nil in He. destruct He as (Hlen & Hbal & Hal).
  destruct (negb (str_contains "{" rest) && negb (str_contains "}" rest)) eqn:Eb; [|done].
  destruct names as [|name [|]]; [|destruct Hf as (pre & post & -> & -> & Hn)|done].
  - cbn in Hf. subst rest. left. split; [by destruct t|]. by rewrite safe_text, Ea, Eb.
  - right. exists pre, name, post. cbn [flat_map] in Hal. destruct (str_in name allowed) eqn:Ein; [|done].
    apply bool_decide_eq_true in Ein. rewrite !str_forall_app in Ea. apply andb_true_iff in Ea as [Epre [_ Epost]%andb_true_iff].
    assert (JINJA_LITERAL_SAFE_RE (pre +:+ post) = true) as Hs by (by rewrite safe_text, str_forall_app, Epre, Epost, Eb).
    unfold JINJA_LITERAL_SAFE_RE in Hs. rewrite str_forall_app in Hs. by apply andb_true_iff in Hs as [? ?].
Qed.

(** a literal argv is accepted exactly when every token is text of the safe alphabet, not empty, or
    such text around one placeholder: an identifier between braces that names a declared parameter or a
    runtime key.  Nothing else (a second placeholder, a stray brace, a shell character) gets through, and
    the position of the token in the list does not matter. *)
Theorem literal_argv_forms allowed index argv :
  literal_argv_errors allowed index argv = [] <->
  Forall (fun token => exists t, token = VStr t /\ literal_form allowed t) argv.
Proof.
  revert index. induction argv as [|token argv IH]; intros index; cbn [literal_argv_errors]; [done|].
  rewrite app_nil, Forall_cons, (IH (S index)). apply and_iff_compat_r. split.
  - destruct token; try done. intros He%literal_token_accepted. eauto.
  - intros (t & -> & Hf). by apply literal_form_accepted.
Qed.

(** ** Witness *)

(** A parser for the two tokens of the example: text, and one reference. *)
#[local] Instance demo_lib : TemplateLib := {|
  jinja_parse t := Ok [Node Other [
    if String.eqb t "{{ vars.vmid }}" then Node (Getattr "vmid") [Node (Name "vars") []] else Node (TemplateData t) []]];
  regex_groups _ := Ok 1 |}.

Definition demo_row (pk seq : Z) (mode var kind : string) (argv : list value) : command_row :=
  {| rc_pk := pk; rc_sequence := seq; rc_step_type := "shell"; rc_device_cli_mode := EmptyString; rc_argv := VList argv;
     rc_condition_param := EmptyString; rc_for_each_param := EmptyString; rc_render_mode := mode;
     rc_produces_var := var; rc_capture_kind := kind; rc_capture_expression := EmptyString |}.
Definition demo_producer : command_row := demo_row 1 10 "literal" "vmid" "stdout_stripped" [VStr "pvesh"; VStr "{target}"].
Definition demo_consumer : command_row := demo_row 2 20 "jinja" EmptyString EmptyString [VStr "qm"; VStr "{{ vars.vmid }}"].

(** The consumer cannot be saved first, nor the producer moved behind it. *)
Lemma saved_procedure_chains_witness :
  procedure_ok [demo_producer; demo_consumer] /\ row_var_refs demo_consumer = ["vmid"] /\
  clean (VDict []) demo_consumer [] <> [] /\
  clean (VDict []) (demo_row 1 30 "literal" "vmid" "stdout_stripped" [VStr "pvesh"]) [demo_consumer] <> [].
Proof.
  split_and!; [|vm_compute; reflexivity|vm_compute; discriminate|vm_compute; discriminate].
  apply (saved_procedure_chains (VDict [])).
  eapply (edited_save _ [demo_producer] demo_consumer); [|vm_compute; reflexivity].
  eapply (edited_save _ [] demo_producer); [constructor|vm_compute; reflexivity].
Defined.
