(* ===== verification/Transport.v ===== *)
(** * Transport routing

    The driver vocabulary of [netbox_rpc/transport.py], the transport policy of
    [RpcPluginSettings] ([models.py]) and the part of [domain/normalization.py] that
    routes an execution: [resolve_driver_chain], [_apply_ansible_context] and
    [_apply_driver_pipeline_overrides].  The settings row, or nothing when it cannot be
    read, is an argument; so is the slug of the platform of the target. *)

From S2P Require Import Prelude PyValue Lease.

(** ** Vocabulary *)

Definition TRANSPORT_ANSIBLE : string := "ansible".
Definition TRANSPORT_ANSIBLE_NETWORK : string := "ansible-network".
Definition TRANSPORT_ASYNCSSH : string := "asyncssh".
Definition TRANSPORT_PARAMIKO : string := "paramiko".
Definition TRANSPORT_SUBPROCESS : string := "subprocess".
Definition TRANSPORT_FABRIC : string := "fabric".
Definition TRANSPORT_SCRAPLI : string := "scrapli".
Definition TRANSPORT_NETMIKO : string := "netmiko".
Definition TRANSPORT_NAPALM : string := "napalm".
Definition TRANSPORT_NORNIR : string := "nornir".

Definition CAPABILITY_LINUX_SHELL : string := "linux_shell".
Definition CAPABILITY_NETWORK_CLI : string := "network_cli".
Definition LINUX_SHELL_DRIVERS : list string :=
  [TRANSPORT_ANSIBLE; TRANSPORT_ASYNCSSH; TRANSPORT_PARAMIKO; TRANSPORT_SUBPROCESS; TRANSPORT_FABRIC].
Definition NETWORK_CLI_DRIVERS : list string :=
  [TRANSPORT_ANSIBLE_NETWORK; TRANSPORT_SCRAPLI; TRANSPORT_NETMIKO; TRANSPORT_NAPALM; TRANSPORT_NORNIR].
Definition ANSIBLE_DRIVERS : list string := [TRANSPORT_ANSIBLE; TRANSPORT_ANSIBLE_NETWORK].

(** [RAW_CAPABILITY_DEFAULT[capability]]; the callers only use its two keys. *)
Definition RAW_CAPABILITY_DEFAULT (capability : string) : string :=
  if String.eqb capability CAPABILITY_NETWORK_CLI then TRANSPORT_SCRAPLI else TRANSPORT_ASYNCSSH.
Definition ANSIBLE_CONTEXT_STRING_KEYS : list string := ["network_os"; "connection"; "become_method"].

Definition dash (c : ascii) : ascii := if Ascii.eqb c "_"%char then "-"%char else c.
Definition normalize_driver_name (driver : string) : string := str_map dash (str_lower (str_strip driver)).
Definition driver_capability (driver : string) : string :=
  let normalized := normalize_driver_name driver in
  if str_in normalized LINUX_SHELL_DRIVERS then CAPABILITY_LINUX_SHELL
  else if str_in normalized NETWORK_CLI_DRIVERS then CAPABILITY_NETWORK_CLI
  else EmptyString.

(** The keys of an entry that are sent. *)
Definition context_text (entry : dict) (context : dict) (key : string) : dict :=
  match get key entry with
  | VStr s => if str_truthy (str_strip s) then dict_set key (VStr (str_strip s)) context else context
  | _ => context
  end.
Definition ansible_context_from_platform_map (mapping : value) (platform_slug : string) : dict :=
  let slug := str_lower (str_strip platform_slug) in
  if negb (str_truthy slug) then [] else
  match mapping with
  | VDict m =>
      match get slug m with
      | VDict entry =>
          let context := fold_left (context_text entry) ANSIBLE_CONTEXT_STRING_KEYS [] in
          match get "become" entry with VBool b => dict_set "become" (VBool b) context | _ => context end
      | _ => []
      end
  | _ => []
  end.

(** ** The settings row *)

Record RpcPluginSettings := {
  default_transport_driver_chain : list string;
  default_network_driver_chain : list string;
  ansible_platform_map : value;
}.

(** The entries of [clean] that are refused, by field; none means the row may be saved. *)
Definition wrong_drivers (chain : list string) (capability : string) : list string :=
  List.filter (fun e => negb (String.eqb (driver_capability e) capability)) chain.
Definition settings_errors (s : RpcPluginSettings) : list (string * list string) :=
  flat_map (fun '(field, wrong) => match wrong with [] => [] | _ => [(field, wrong)] end)
    [("default_transport_driver_chain", wrong_drivers (default_transport_driver_chain s) CAPABILITY_LINUX_SHELL);
     ("default_network_driver_chain", wrong_drivers (default_network_driver_chain s) CAPABILITY_NETWORK_CLI)].

(** [[str(e).strip() for e in raw if str(e).strip()]]. *)
Definition stripped (raw : list string) : list string := List.filter str_truthy (map str_strip raw).
Definition default_chain_for (s : RpcPluginSettings) (capability : string) : list string :=
  stripped (if String.eqb capability CAPABILITY_NETWORK_CLI
            then default_network_driver_chain s else default_transport_driver_chain s).
Definition ansible_context_for_platform (s : RpcPluginSettings) (slug : string) : dict :=
  ansible_context_from_platform_map (ansible_platform_map s) slug.

(** ** Routing an execution *)

(** The columns of a procedure that route it. *)
Record routing := {
  transport_driver : string;
  transport_pinned : bool;
  transport_driver_chain : list string;
  output_parser : string;
  output_schema : value;
}.

Definition is_ansible (driver : string) : bool := str_in driver ANSIBLE_DRIVERS.

Definition resolve_driver_chain (procedure : routing) (policy : option RpcPluginSettings) : list string :=
  match stripped (transport_driver_chain procedure) with
  | (_ :: _) as explicit => explicit
  | [] =>
      if transport_pinned procedure then [] else
      let driver := str_strip (transport_driver procedure) in
      if negb (str_truthy driver) then [] else
      let capability := driver_capability driver in
      if negb (str_truthy capability) then [] else
      match policy with
      | None => []
      | Some policy =>
          match default_chain_for policy capability with
          | [] => []
          | (_ :: _) as default_chain =>
              let chain := if str_in driver default_chain then default_chain else default_chain ++ [driver] in
              if forallb is_ansible chain then chain ++ [RAW_CAPABILITY_DEFAULT capability] else chain
          end
      end
  end.

(** [fingerprint[key] = v] where [fingerprint] is [normalized["command_fingerprint"]],
    when that is a dict: the change is seen through [normalized]. *)
Definition fingerprint_set (key : string) (v : value) (normalized : dict) : dict :=
  match get "command_fingerprint" normalized with
  | VDict fp => dict_set "command_fingerprint" (VDict (dict_set key v fp)) normalized
  | _ => normalized
  end.

Definition _DEFAULT_TRANSPORT_DRIVER : string := "asyncssh".
Definition _DEFAULT_OUTPUT_PARSER : string := "none".

Definition _apply_ansible_context (slug : string) (chain : list string) (policy : option RpcPluginSettings)
    (normalized : dict) : dict :=
  if negb (existsb is_ansible chain) then normalized else
  match policy with
  | None => normalized
  | Some policy =>
      match ansible_context_for_platform policy slug with
      | [] => normalized
      | (_ :: _) as context =>
          fingerprint_set "ansible_context" (VDict context) (dict_set "_ansible" (VDict context) normalized)
      end
  end.

(** [normalized[key] = v] and its line of the fingerprint. *)
Definition route (key : string) (v : value) (fp_key : string) (fp_v : value) (normalized : dict) : dict :=
  fingerprint_set fp_key fp_v (dict_set key v normalized).

Section Overrides.
Context `{PyLib}.

Definition _apply_driver_pipeline_overrides (procedure : routing) (slug : string) (policy : option RpcPluginSettings)
  (normalized : dict) : dict :=
let driver := str_strip (transport_driver procedure) in
let normalized :=
  if str_truthy driver && negb (String.eqb driver _DEFAULT_TRANSPORT_DRIVER)
  then route "transport_driver" (VStr driver) "transport_driver" (VStr driver) normalized else normalized in
let chain := resolve_driver_chain procedure policy in
let normalized :=
  match chain with
  | [] => normalized
  | _ :: _ =>
      let v := VList (map VStr chain) in
      _apply_ansible_context slug chain policy
        (route "transport_driver_chain" v "transport_driver_chain" v normalized)
  end in
let parser := str_strip (output_parser procedure) in
let normalized :=
  if str_truthy parser && negb (String.eqb parser _DEFAULT_OUTPUT_PARSER)
  then route "output_parser" (VStr parser) "output_parser" (VStr parser) normalized else normalized in
if truthy (output_schema procedure)
then route "output_schema" (output_schema procedure)
       "output_schema_sha256" (VStr (sha256 (json_dumps (output_schema procedure)))) normalized
else normalized.
End Overrides.
