(* ===== verification/TransportProperties.v ===== *)
(** * Properties of transport routing

    The chain the policy gives a procedure serves the capability of its driver and
    always has a driver that needs no Ansible control node; the command fingerprint
    binds what was routed. *)

From S2P Require Import Prelude PyValue JsonFacts Transport.

(** ** Chains *)

Lemma capability_strip d : driver_capability (str_strip d) = driver_capability d.
Proof. unfold driver_capability, normalize_driver_name. by rewrite str_strip_idem. Qed.

Lemma capability_values d : str_truthy (driver_capability d) = true ->
  driver_capability d = CAPABILITY_LINUX_SHELL \/ driver_capability d = CAPABILITY_NETWORK_CLI.
Proof. unfold driver_capability. destruct (str_in _ LINUX_SHELL_DRIVERS); [by left|].
  destruct (str_in _ NETWORK_CLI_DRIVERS); [by right|done]. Qed.

(** The raw driver of a capability serves it and is not an Ansible driver. *)
Lemma raw_default_serves d : str_truthy (driver_capability d) = true ->
  driver_capability (RAW_CAPABILITY_DEFAULT (driver_capability d)) = driver_capability d /\
  is_ansible (RAW_CAPABILITY_DEFAULT (driver_capability d)) = false.
Proof. by intros [-> | ->]%capability_values. Qed.

Lemma settings_chain_serves s cap : settings_errors s = [] ->
  cap = CAPABILITY_LINUX_SHELL \/ cap = CAPABILITY_NETWORK_CLI ->
  Forall (fun e => driver_capability e = cap) (default_chain_for s cap).
Proof.
  assert (forall l c, wrong_drivers l c = [] -> Forall (fun e => driver_capability e = c) (stripped l)) as Hl.
  { intros l c Hw. apply Forall_forall. intros e. unfold stripped.
    rewrite list_elem_of_In, filter_In, in_map_iff. intros [(e0 & <- & He0) _]. rewrite capability_strip.
    destruct (String.eqb_spec (driver_capability e0) c) as [|Hne]; [done|].
    assert (In e0 []) as []. rewrite <- Hw. apply filter_In. split; [done|]. by apply negb_true_iff, String.eqb_neq. }
  unfold settings_errors. cbn [flat_map]. intros Hs Hcap.
  destruct (wrong_drivers (default_transport_driver_chain s) _) eqn:E1; [|done].
  destruct (wrong_drivers (default_network_driver_chain s) _) eqn:E2; [|done].
  unfold default_chain_for. by destruct Hcap as [-> | ->]; apply Hl.
Qed.

(** The chain with the driver and the raw fallback added. *)
Definition completed (driver cap : string) (default_chain : list string) : list string :=
  let chain := if str_in driver default_chain then default_chain else default_chain ++ [driver] in
  if forallb is_ansible chain then chain ++ [RAW_CAPABILITY_DEFAULT cap] else chain.

Lemma completed_spec driver default_chain :
  let cap := driver_capability driver in
  let chain := completed driver cap default_chain in
  str_truthy cap = true ->
  default_chain `prefix_of` chain /\ driver ∈ chain /\ (exists e, e ∈ chain /\ is_ansible e = false) /\
  (Forall (fun e => driver_capability e = cap) default_chain -> Forall (fun e => driver_capability e = cap) chain).
Proof.
  intros cap chain Hcap. destruct (raw_default_serves _ Hcap) as [Hraw Hna]. fold cap in Hraw, Hna.
  unfold chain, completed. set (c := if str_in driver default_chain then default_chain else default_chain ++ [driver]).
  assert (default_chain `prefix_of` c /\ driver ∈ c /\
    (Forall (fun e => driver_capability e = cap) default_chain -> Forall (fun e => driver_capability e = cap) c)) as (Hp & Hd & Hf).
  { unfold c. destruct (str_in driver default_chain) eqn:E.
    - apply bool_decide_eq_true in E. done.
    - split_and!; [by apply prefix_app_r|set_solver|]. intros Hall. apply Forall_app. by repeat constructor. }
  destruct (forallb is_ansible c) eqn:Ea.
  - split_and!; [by apply prefix_app_r|set_solver| |].
    + exists (RAW_CAPABILITY_DEFAULT cap). split; [set_solver|done].
    + intros Hall. apply Forall_app. split; [auto|]. by repeat constructor.
  - split_and!; try done. clear -Ea. induction c as [|e c IH]; [done|]. cbn [forallb] in Ea.
    destruct (is_ansible e) eqn:E; [|exists e; set_solver]. destruct (IH Ea) as (e' & ? & ?). exists e'. set_solver.
Qed.

Lemma resolve_by_policy p s : stripped (transport_driver_chain p) = [] -> resolve_driver_chain p (Some s) <> [] ->
  let driver := str_strip (transport_driver p) in let cap := driver_capability driver in
  transport_pinned p = false /\ str_truthy cap = true /\
  resolve_driver_chain p (Some s) = completed driver cap (default_chain_for s cap).
Proof.
  intros He. unfold resolve_driver_chain. rewrite He. destruct (transport_pinned p); [done|].
  destruct (str_truthy (str_strip (transport_driver p))) eqn:Ed; [|done]. cbn [negb].
  destruct (str_truthy (driver_capability _)) eqn:Ec; [|done]. cbn [negb].
  by destruct (default_chain_for s _).
Qed.

(** a procedure's own chain is sent as it is, and a pinned procedure never gets any other.  When the
    chain comes from the estate policy instead, it starts with the policy's order, holds the procedure's own
    driver, has at least one driver that does not need an Ansible control node, and, for settings that passed
    their check, every entry serves the capability of the procedure's driver, so that none is skipped. *)
Theorem policy_chain_serves_driver p policy :
  (stripped (transport_driver_chain p) <> [] \/ transport_pinned p = true ->
     resolve_driver_chain p policy = stripped (transport_driver_chain p)) /\
  (forall s, policy = Some s -> settings_errors s = [] ->
     stripped (transport_driver_chain p) = [] -> resolve_driver_chain p policy <> [] ->
     let driver := str_strip (transport_driver p) in let chain := resolve_driver_chain p policy in
     default_chain_for s (driver_capability driver) `prefix_of` chain /\ driver ∈ chain /\
     (exists e, e ∈ chain /\ is_ansible e = false) /\
     Forall (fun e => driver_capability e = driver_capability driver) chain).
Proof.
  split.
  - unfold resolve_driver_chain. intros [Hne|Hp]; destruct (stripped _); try done. by rewrite Hp.
  - intros s -> Hs He Hne. destruct (resolve_by_policy p s He Hne) as (_ & Hcap & ->).
    destruct (completed_spec _ (default_chain_for s (driver_capability (str_strip (transport_driver p)))) Hcap)
      as (? & ? & ? & Hall). split_and!; [done..|]. apply Hall, settings_chain_serves; [done|]. by apply capability_values.
Qed.

(** ** What the fingerprint binds *)

Section Fingerprint.
Context `{PyLib}.

(** The routing keys of the payload and their lines of the fingerprint. *)
Definition routed_keys : list (string * string) :=
  [("transport_driver", "transport_driver"); ("transport_driver_chain", "transport_driver_chain");
   ("_ansible", "ansible_context"); ("output_parser", "output_parser"); ("output_schema", "output_schema_sha256")].
Definition fingerprint_value (key : string) (v : value) : value :=
  if String.eqb key "output_schema" then VStr (sha256 (json_dumps v)) else v.

Definition bound_by (fp normalized : dict) : Prop :=
  forall key fp_key, (key, fp_key) ∈ routed_keys ->
  dict_get fp_key fp = fingerprint_value key <$> dict_get key normalized.
Definition mirrored (normalized : dict) : Prop :=
  exists fp, dict_get "command_fingerprint" normalized = Some (VDict fp) /\ bound_by fp normalized.

Lemma routed_keys_distinct k fk k' fk' : (k, fk) ∈ routed_keys -> (k', fk') ∈ routed_keys ->
  k <> "command_fingerprint" /\ ((k = k' /\ fk = fk') \/ (k <> k' /\ fk <> fk')).
Proof.
  unfold routed_keys. rewrite !elem_of_cons, !elem_of_nil. intros Hk Hk'.
  repeat (destruct Hk as [[= -> ->]|Hk]; [split; [done|]; repeat (destruct Hk' as [[= -> ->]|Hk']; [by auto|]); done|]); done.
Qed.

Lemma route_mirrored k v fk normalized : (k, fk) ∈ routed_keys ->
  mirrored normalized -> mirrored (route k v fk (fingerprint_value k v) normalized).
Proof.
  intros Hk (fp & Hfp & Hb). pose proof (routed_keys_distinct _ _ _ _ Hk Hk) as [Hne _].
  assert (dict_get "command_fingerprint" (dict_set k v normalized) = Some (VDict fp)) as Hfp'
    by (by rewrite dict_get_set_ne by done).
  unfold route, fingerprint_set, get. rewrite Hfp'. cbn [from_option id]. cbv iota.
  exists (dict_set fk (fingerprint_value k v) fp). split; [apply dict_get_set_eq|].
  intros k' fk' Hk'. destruct (routed_keys_distinct _ _ _ _ Hk' Hk) as [Hne' [[-> ->]|[Hkk Hff]]].
  - rewrite (dict_get_set_ne "command_fingerprint") by congruence. by rewrite !dict_get_set_eq.
  - rewrite !dict_get_set_ne by congruence. by apply Hb.
Qed.

Lemma route_frame k v fk fv normalized key : key <> k -> key <> "command_fingerprint" ->
  dict_get key (route k v fk fv normalized) = dict_get key normalized.
Proof.
  intros Hk Hf. unfold route, fingerprint_set. destruct (get _ _); rewrite ?dict_get_set_ne by done; done.
Qed.

(** The overrides as a sequence of routed keys. *)
Lemma overrides_ind (P : dict -> Prop) procedure slug policy normalized :
  (forall k v fk n, (k, fk) ∈ routed_keys -> P n -> P (route k v fk (fingerprint_value k v) n)) ->
  P normalized -> P (_apply_driver_pipeline_overrides procedure slug policy normalized).
Proof.
  intros Hroute Hn. unfold _apply_driver_pipeline_overrides, _apply_ansible_context.
  assert (forall (b : bool) k v fk n, (k, fk) ∈ routed_keys -> P n ->
    P (if b then route k v fk (fingerprint_value k v) n else n)) as Hif by (intros []; auto).
  apply (Hif _ "output_schema"); [set_solver|]. apply (Hif _ "output_parser"); [set_solver|].
  pose proof (Hif (str_truthy (str_strip (transport_driver procedure))
    && negb (String.eqb (str_strip (transport_driver procedure)) _DEFAULT_TRANSPORT_DRIVER))
    "transport_driver" (VStr (str_strip (transport_driver procedure))) "transport_driver" normalized ltac:(set_solver) Hn) as H1'.
  destruct (resolve_driver_chain procedure policy) as [|d chain]; [exact H1'|].
  pose proof (Hroute "transport_driver_chain" (VList (map VStr (d :: chain))) "transport_driver_chain" _ ltac:(set_solver) H1') as H2'.
  destruct (existsb is_ansible (d :: chain)); [|exact H2']. destruct policy as [s|]; [|exact H2'].
  destruct (ansible_context_for_platform s slug); [exact H2'|].
  exact (Hroute "_ansible" _ "ansible_context" _ ltac:(set_solver) H2').
Qed.
End Fingerprint.

(** routing is bound by the command fingerprint.  The overrides keep a payload whose fingerprint
    mirrors it so, leave every other key alone, and leave the whole payload alone for a procedure with the
    historical defaults; so two routed payloads with equal fingerprints have the same driver, chain, Ansible
    context and parser, and output schemas with the same digest. *)
Theorem fingerprint_binds_routing `{PyLib} procedure slug policy normalized :
  let out := _apply_driver_pipeline_overrides procedure slug policy normalized in
  (mirrored normalized -> mirrored out) /\
  (forall key, key ∉ routed_keys.*1 -> key <> "command_fingerprint" -> dict_get key out = dict_get key normalized) /\
  (str_strip (transport_driver procedure) = _DEFAULT_TRANSPORT_DRIVER -> resolve_driver_chain procedure policy = [] ->
   str_strip (output_parser procedure) = _DEFAULT_OUTPUT_PARSER -> truthy (output_schema procedure) = false ->
   out = normalized) /\
  (forall other, mirrored normalized -> mirrored other ->
     dict_get "command_fingerprint" out = dict_get "command_fingerprint" other ->
     forall key fp_key, (key, fp_key) ∈ routed_keys ->
     fingerprint_value key <$> dict_get key out = fingerprint_value key <$> dict_get key other).
Proof.
  intros out. assert (mirrored normalized -> mirrored out) as Hm by (apply (overrides_ind mirrored); auto using route_mirrored).
  split_and!; [exact Hm| | |].
  - intros key Hk Hf. apply (overrides_ind (fun n => dict_get key n = dict_get key normalized)); [|done].
    intros k v fk n Hkk <-. apply route_frame; [|done]. intros ->. apply Hk, list_elem_of_fmap. by exists (k, fk).
  - intros Hd Hc Hp Hs. unfold out, _apply_driver_pipeline_overrides. by rewrite Hd, Hc, Hp, Hs.
  - intros other (fp & Hfp & Hb)%Hm (fp' & Hfp' & Hb') Heq key fp_key Hk. rewrite Hfp, Hfp' in Heq. simplify_eq.
    by rewrite <- (Hb _ _ Hk), <- (Hb' _ _ Hk).
Qed.

(** ** Witnesses *)

Definition demo_settings : RpcPluginSettings :=
  {| default_transport_driver_chain := ["ansible"]; default_network_driver_chain := ["ansible-network"; "scrapli"];
     ansible_platform_map := VDict [("debian", VDict [("become", VBool true)])] |}.
Definition demo_routing : routing :=
  {| transport_driver := "ansible"; transport_pinned := false; transport_driver_chain := []; output_parser := "jc";
     output_schema := VDict [] |}.

(** An estate of one Ansible driver: the raw default is added. *)
Lemma policy_chain_serves_driver_witness :
  resolve_driver_chain demo_routing (Some demo_settings) = ["ansible"; "asyncssh"] /\
  "ansible" ∈ resolve_driver_chain demo_routing (Some demo_settings).
Proof.
  split; [vm_compute; reflexivity|].
  exact (proj1 (proj2 (proj2 (policy_chain_serves_driver demo_routing (Some demo_settings)) demo_settings
    eq_refl eq_refl eq_refl ltac:(vm_compute; discriminate)))).
Defined.

#[local] Instance demo_py : PyLib := {| fromisoformat _ := None; sha256 s := s; salted_hmac _ s := s |}.

Definition demo_payload : dict := [("host", VStr "h"); ("command_fingerprint", VDict [("op", VStr "restart")])].

Lemma fingerprint_binds_routing_witness :
  mirrored (_apply_driver_pipeline_overrides demo_routing "Debian" (Some demo_settings) demo_payload) /\
  dict_get "_ansible" (_apply_driver_pipeline_overrides demo_routing "Debian" (Some demo_settings) demo_payload)
    = Some (VDict [("become", VBool true)]).
Proof.
  split; [|vm_compute; reflexivity].
  refine (proj1 (fingerprint_binds_routing demo_routing "Debian" (Some demo_settings) demo_payload) _).
  exists [("op", VStr "restart")]. split; [reflexivity|]. intros key fp_key Hk. unfold routed_keys in Hk.
  rewrite !elem_of_cons, elem_of_nil in Hk.
  destruct Hk as [Hk|[Hk|[Hk|[Hk|[Hk|Hk]]]]]; [injection Hk as -> ->; reflexivity..|destruct Hk].
Defined.
