(* ===== verification/ProcedureEdit.v ===== *)
(** * Edits of a procedure

    The rules for the protected fields of [netbox_rpc/transport.py], the approve scope of
    [current_access.py], and the two ways to edit a stored procedure: the update of
    [RPCProcedureSerializer] ([api/serializers.py]) and the save of [RPCProcedureForm]
    ([forms.py]).

    A procedure is the dict of its columns, a tag its primary key, and the table maps
    primary keys to rows.  NetBox is an argument ([NetBoxLib]): its evaluation of object
    permissions over the stored rows, the reload of a user, and the parent [update] and
    [save], which write the row.  The advisory lock and the row lock make an edit one
    step on the table. *)

From S2P Require Import Prelude PyValue.

(** ** Rules *)

Definition is_None (v : value) : bool := match v with VNone => true | _ => false end.
Definition is_True (v : value) : bool := match v with VBool true => true | _ => false end.
Definition is_False (v : value) : bool := match v with VBool false => true | _ => false end.

Definition lowering_is_refused (previously_set requested : value) (may_approve : bool) : bool :=
  if negb (is_True previously_set) || is_None requested then false
  else if truthy requested then false
  else negb may_approve.

Definition EFFECT_RANKS : list (string * Z) := [("read", 0); ("write", 1); ("destructive", 2)].
Definition effect_rank (default_rank : Z) (v : value) : Z :=
  match List.find (fun e => String.eqb e.1 (py_str v)) EFFECT_RANKS with Some e => e.2 | None => default_rank end.
Definition effect_lowering_is_refused (previous requested : value) (may_approve : bool) : bool :=
  if is_None previous || is_None requested || py_eqb requested previous then false
  else if effect_rank (Z.of_nat (length EFFECT_RANKS)) previous <=? effect_rank (-1) requested then false
  else negb may_approve.

Definition enabling_is_refused (previously_enabled requested : value) (may_approve : bool) : bool :=
  if negb (is_False previously_enabled) || is_None requested || is_False requested then false
  else negb may_approve.

(** Two values have the same canonical form when they are of the same type and equal at
    every depth, with lists and tuples identified. *)
Fixpoint _as_comparable (v : value) : value :=
  match v with
  | VList l | VTuple l => VList (map _as_comparable l)
  | VDict d => VDict (sort_keys (map (fun kv => (kv.1, _as_comparable kv.2)) d))
  | VFloat r => VFloat (if String.eqb r "-0.0" then "0.0" else r)
  | VSet _ => canon v
  | _ => v
  end.
Definition change_is_refused (previous requested : value) (may_approve : bool) : bool :=
  if is_None previous || is_None requested then false
  else if bool_decide (_as_comparable previous = _as_comparable requested) then false
  else negb may_approve.

Inductive rule : Type := LoweringRule | EffectRule | EnablingRule | ChangeRule.
Definition apply_rule (r : rule) : value -> value -> bool -> bool :=
  match r with
  | LoweringRule => lowering_is_refused
  | EffectRule => effect_lowering_is_refused
  | EnablingRule => enabling_is_refused
  | ChangeRule => change_is_refused
  end.

Definition denied (what : string) : string := "Only users with netbox_rpc.approve_rpcprocedure can " +:+ what.
Definition _change_denied_message (label : string) : string :=
  denied ("change the " +:+ label +:+ " of an existing RPC procedure.").
Definition change_of (field label : string) : string * (rule * string) :=
  (field, (ChangeRule, _change_denied_message label)).

Definition PROTECTED_PROCEDURE_FIELD_RULES : list (string * (rule * string)) :=
  [("transport_pinned", (LoweringRule, denied "un-pin a transport-pinned RPC procedure."));
   ("approval_required", (LoweringRule, denied "disable approval for an existing RPC procedure."));
   ("effect", (EffectRule, denied "lower the effect of an existing RPC procedure."));
   ("enabled", (EnablingRule, denied "enable a disabled RPC procedure."));
   change_of "transport_driver" "transport driver";
   change_of "transport_driver_chain" "transport driver chain";
   change_of "handler_id" "handler"; change_of "name" "name"; change_of "version" "version";
   change_of "target_models" "target models"; change_of "params_schema" "parameter schema";
   change_of "timeout_seconds" "timeout"; change_of "result_schema" "result schema";
   change_of "output_parser" "output parser"; change_of "output_schema" "output schema";
   change_of "tags" "tags"; change_of "custom_field_data" "custom fields"].
Definition PROTECTED_PROCEDURE_FIELDS : list string := PROTECTED_PROCEDURE_FIELD_RULES.*1.
Definition RELATION_PROTECTED_FIELDS : list string := ["tags"; "custom_field_data"].

(** ** Tags *)

(** The items of a collection of tags. *)
Definition tag_pks (v : value) : list Z :=
  match v with
  | VList l | VTuple l | VSet l => flat_map (fun t => match t with VInt z => [z] | _ => [] end) l
  | _ => []
  end.
Definition tuple_of (pks : list Z) : value := VTuple (map VInt (merge_sort Z.le pks)).
Definition tag_keys (v : value) : value := if is_None v then VNone else tuple_of (tag_pks v).

(** ** Snapshot and refusals *)

Definition protected_field_snapshot (procedure : dict) : dict :=
  map (fun field => (field, if String.eqb field "tags" then tag_keys (get field procedure) else get field procedure))
    PROTECTED_PROCEDURE_FIELDS.

(** [stored] is the snapshot of an existing procedure. *)
Definition requested_value (requested : dict) (field : string) : value :=
  if String.eqb field "tags" then tag_keys (get field requested) else get field requested.
Definition protected_field_refusals (stored requested : dict) (may_approve : bool) : list (string * string) :=
  flat_map (fun '(field, (r, message)) =>
    if apply_rule r (get field stored) (requested_value requested field) may_approve then [(field, message)] else [])
    PROTECTED_PROCEDURE_FIELD_RULES.

(** The tags after [add_tags] and [remove_tags]. *)
Definition changed_tags (current add remove : list Z) : list Z :=
  List.filter (fun t => negb (bool_decide (t ∈ remove))) (remove_dups (current ++ add)).
Definition _requested_protected_values (stored data : dict) : dict :=
  if is_None (get "tags" data) && (truthy (get "add_tags" data) || truthy (get "remove_tags" data))
  then dict_set "tags" (tuple_of (changed_tags (tag_pks (get "tags" stored)) (tag_pks (get "add_tags" data))
                                    (tag_pks (get "remove_tags" data)))) data
  else data.

(** ** NetBox *)

Notation table := (gmap Z dict).

(** [may_approve u t pk]: the approve permission of [u] on a row, by the constraints of
    its grants over the stored rows; [restrict] the rows those constraints select;
    [reload] the user as stored now. *)
Class NetBoxLib := {
  account : Type;
  has_perm : account -> table -> Z -> bool;
  restrict : account -> table -> gset Z;
  reload : account -> option account;
  parent_update : dict -> dict -> dict -> dict;
  parent_save : dict -> dict -> dict -> dict;
}.

Section Edit.
Context `{NetBoxLib}.

Definition reload_requesting_user (user : option account) : option account := user ≫= reload.
Definition may_approve_procedure (user : option account) (t : table) (pk : Z) : bool :=
match user with None => false | Some u => has_perm u t pk end.
Definition approvable_procedure_pks (user : option account) (t : table) : gset Z :=
match user with None => ∅ | Some u => restrict u t end.

Definition APPROVAL_SCOPE_GAIN_MESSAGE : string :=
"This change would add RPC procedures to your netbox_rpc.approve_rpcprocedure scope, which only a user who already holds that permission on them may do.".
Definition refuse_approval_scope_gain (user : option account) (before : gset Z) (t : table) : res unit :=
require (bool_decide (approvable_procedure_pks (reload_requesting_user user) t ∖ before = ∅))
(ValidationError "__all__" APPROVAL_SCOPE_GAIN_MESSAGE).

(** [setattr(instance, field, stored.field)] for the fields that are omitted. *)
Definition restore (fields : list string) (given stored instance : dict) : dict :=
fold_left (fun inst field => if is_None (get field given) then dict_set field (get field stored) inst else inst)
fields instance.

(** [ValidationError(refused)], with the first field of the dict, and the [AbortRequest] of the form. *)
Definition refuse (refused : list (string * string)) : res unit :=
match refused with [] => Ok tt | (field, message) :: _ => Err (ValidationError field message) end.
Definition abort (refused : list (string * string)) : res unit :=
match refused with [] => Ok tt | _ => Err (OtherError (str_join " " (remove_dups refused.*2))) end.

(** [RPCProcedureSerializer.update]: [instance] is the copy the request holds. *)
Definition update (t : table) (pk : Z) (request_user : option account) (instance validated_data : dict)
: res table :=
match t !! pk with
| None => Err (OtherError "DoesNotExist")
| Some stored =>
  let user := reload_requesting_user request_user in
  let stored_flags := protected_field_snapshot stored in
  let may_approve := may_approve_procedure user t pk in
  let approvable_before := approvable_procedure_pks user t in
  _ ← refuse (protected_field_refusals stored_flags (_requested_protected_values stored_flags validated_data) may_approve);
  let instance := restore (List.filter (fun f => negb (String.eqb f "tags")) PROTECTED_PROCEDURE_FIELDS)
                    validated_data stored instance in
  let t' := <[pk := parent_update stored instance validated_data]> t in
  _ ← refuse_approval_scope_gain request_user approvable_before t';
  Ok t'
end.

(** [RPCProcedureForm.save] with [commit]: [instance] holds the submitted values already. *)
Definition form_save (t : table) (pk : Z) (request_user : option account) (instance cleaned_data : dict)
: res table :=
match t !! pk with
| None => Err (OtherError "DoesNotExist")
| Some stored =>
  let user := reload_requesting_user request_user in
  let requested := dict_set "custom_field_data" (get "custom_field_data" instance) cleaned_data in
  let may_approve := may_approve_procedure user t pk in
  _ ← abort (protected_field_refusals (protected_field_snapshot stored) requested may_approve);
  let instance := restore (List.filter (fun f => negb (str_in f RELATION_PROTECTED_FIELDS)) PROTECTED_PROCEDURE_FIELDS)
                    cleaned_data stored instance in
  let t' := <[pk := parent_save stored instance cleaned_data]> t in
  _ ← refuse_approval_scope_gain request_user (approvable_procedure_pks user t) t';
  Ok t'
end.
End Edit.
