(* ===== verification/EditProperties.v ===== *)
(** * Properties of procedure edits

    An editor without the approve permission can neither weaken a procedure nor bring it
    into the scope of that permission, by any number of REST edits; the form can write
    back a stale chain. *)

From S2P Require Import Prelude PyValue ProcedureEdit.

(** ** What NetBox promises *)

Class NetBoxLaws `{NetBoxLib} := {
  (** The permission on a row and the selection of rows evaluate the same constraints. *)
  scope_agrees : forall u t pk, has_perm u t pk = true -> pk ∈ restrict u t;
  (** The parent update writes the validated values over the instance. *)
  parent_update_field : forall stored inst data f, f <> "tags" ->
    get f (parent_update stored inst data) = match dict_get f data with Some v => v | None => get f inst end;
  (** Tags are a relation: they are set, or changed from what is stored. *)
  parent_update_tags : forall stored inst data, exists pks,
    get "tags" (parent_update stored inst data) = VList (map VInt pks) /\ NoDup pks /\
    pks ≡ₚ (if is_None (get "tags" data)
            then changed_tags (tag_pks (get "tags" stored)) (tag_pks (get "add_tags" data)) (tag_pks (get "remove_tags" data))
            else remove_dups (tag_pks (get "tags" data)));
}.

(** ** Rows and edits of the right type *)

(** What the type of a column allows. *)
Definition field_ok (r : rule) (v : value) : Prop :=
  match r with
  | LoweringRule | EnablingRule => exists b, v = VBool b
  | EffectRule => exists s, v = VStr s /\ s ∈ EFFECT_RANKS.*1
  | ChangeRule => v <> VNone
  end.
Definition row_ok (row : dict) : Prop :=
  (forall f r m, (f, (r, m)) ∈ PROTECTED_PROCEDURE_FIELD_RULES -> f <> "tags" -> field_ok r (get f row)) /\
  exists pks, get "tags" row = VList (map VInt pks) /\ NoDup pks.
Definition data_ok (data : dict) : Prop :=
  forall f r m v, (f, (r, m)) ∈ PROTECTED_PROCEDURE_FIELD_RULES -> f <> "tags" -> dict_get f data = Some v -> field_ok r v.

(** [new] is no weaker than [old] as far as the rule goes. *)
Definition no_weaker (r : rule) (old new : value) : Prop :=
  match r with
  | LoweringRule => old = VBool true -> new = VBool true
  | EnablingRule => old = VBool false -> new = VBool false
  | EffectRule => effect_rank 0 old <= effect_rank 0 new
  | ChangeRule => _as_comparable old = _as_comparable new
  end.
Definition no_weaker_row (old new : dict) : Prop :=
  forall f r m, (f, (r, m)) ∈ PROTECTED_PROCEDURE_FIELD_RULES ->
  no_weaker r (get f (protected_field_snapshot old)) (get f (protected_field_snapshot new)).

Lemma no_weaker_refl r v : no_weaker r v v.
Proof. destruct r; cbn; try done; lia. Qed.
Lemma no_weaker_trans r a b c : no_weaker r a b -> no_weaker r b c -> no_weaker r a c.
Proof. destruct r; cbn; intros; try (by auto); [lia|congruence]. Qed.

#[export] Instance no_weaker_row_preorder : PreOrder no_weaker_row.
Proof. split; [intros row f r m _; apply no_weaker_refl|intros a b c Hab Hbc f r m Hr; eauto using no_weaker_trans]. Qed.

Lemma known_rank s d : s ∈ EFFECT_RANKS.*1 -> effect_rank d (VStr s) = effect_rank 0 (VStr s).
Proof.
  unfold EFFECT_RANKS. cbn [fmap list_fmap fst]. rewrite !elem_of_cons, elem_of_nil.
  by intros [-> | [-> | [-> | []]]].
Qed.

(** A rule that does not refuse, without the permission, keeps the field. *)
Lemma rule_keeps r old new : field_ok r old -> field_ok r new -> apply_rule r old new false = false -> no_weaker r old new.
Proof.
  destruct r; cbn [field_ok apply_rule no_weaker].
  - intros [b ->] [b' ->] Hr [= ->]. by destruct b'.
  - intros (s & -> & Hs) (s' & -> & Hs'). unfold effect_lowering_is_refused. cbn [is_None orb negb].
    destruct (py_eqb _ _) eqn:E; [apply bool_decide_eq_true in E; unfold py_eq in E; cbn in E; injection E as ->; intros _; lia|].
    rewrite (known_rank s (Z.of_nat _)), (known_rank s' (-1)) by done.
    destruct (_ <=? _) eqn:El; [intros _; apply Z.leb_le, El|done].
  - intros [b ->] [b' ->] Hr [= ->]. by destruct b'.
  - intros Ho Hn. unfold change_is_refused. destruct old, new; try done; cbn [is_None orb];
      case_bool_decide; done.
Qed.

Lemma snapshot_get f row : f ∈ PROTECTED_PROCEDURE_FIELDS ->
  get f (protected_field_snapshot row) = requested_value row f.
Proof.
  unfold protected_field_snapshot, requested_value, get. generalize PROTECTED_PROCEDURE_FIELDS. intros l Hf.
  induction l as [|g l IH]; [by apply elem_of_nil in Hf|]. cbn [map dict_get].
  destruct (String.eqb_spec g f) as [->|]; [done|]. apply IH. by apply elem_of_cons in Hf as [|].
Qed.

Lemma rule_field f r m : (f, (r, m)) ∈ PROTECTED_PROCEDURE_FIELD_RULES -> f ∈ PROTECTED_PROCEDURE_FIELDS.
Proof. intros Hf. apply list_elem_of_fmap. by exists (f, (r, m)). Qed.

Lemma no_refusals stored requested may :
  protected_field_refusals stored requested may = [] ->
  forall f r m, (f, (r, m)) ∈ PROTECTED_PROCEDURE_FIELD_RULES ->
  apply_rule r (get f stored) (requested_value requested f) may = false.
Proof.
  unfold protected_field_refusals. induction PROTECTED_PROCEDURE_FIELD_RULES as [|[g [r' m']] l IH]; cbn [flat_map].
  - intros _ f r m Hf. by apply elem_of_nil in Hf.
  - intros [Hg Hl]%app_nil f r m [Hf|Hf]%elem_of_cons; [|by eapply IH].
    injection Hf as -> -> ->. by destruct (apply_rule r' _ _ _).
Qed.

(** ** Tags *)

Lemma sorted_pks_eq l l' : l ≡ₚ l' -> merge_sort Z.le l = merge_sort Z.le l'.
Proof.
  intros Hp. apply (StronglySorted_unique Z.le); [apply (StronglySorted_merge_sort Z.le)..|].
  by rewrite !(merge_sort_Permutation Z.le).
Qed.
Lemma tag_pks_ints l : tag_pks (VList (map VInt l)) = l /\ tag_pks (VTuple (map VInt l)) = l.
Proof. cbn. induction l as [|z l [IH _]]; [done|]. cbn. by rewrite IH. Qed.
Lemma tag_keys_tuple l : tag_keys (tuple_of l) = tuple_of l.
Proof.
  unfold tag_keys, tuple_of. cbn [is_None]. rewrite (proj2 (tag_pks_ints _)). do 2 f_equal. apply sorted_pks_eq, merge_sort_Permutation.
Qed.
Lemma tag_keys_list l : tag_keys (VList (map VInt l)) = tuple_of l.
Proof. unfold tag_keys. cbn [is_None]. by rewrite (proj1 (tag_pks_ints l)). Qed.
Lemma comparable_tuple l l' : _as_comparable (tuple_of l) = _as_comparable (tuple_of l') -> l ≡ₚ l'.
Proof.
  unfold tuple_of. cbn [_as_comparable]. rewrite !map_map. cbn. intros [= Heq].
  assert (forall a b, map (fun x => _as_comparable (VInt x)) a = map (fun x => _as_comparable (VInt x)) b -> a = b) as Hinj.
  { induction a as [|x a IH]; intros [|y b]; try done. cbn. intros [= -> ?]. f_equal. auto. }
  apply Hinj in Heq. by rewrite <- (merge_sort_Permutation Z.le l), Heq, merge_sort_Permutation.
Qed.

Lemma elem_of_changed_tags x cur add rem : x ∈ changed_tags cur add rem <-> (x ∈ cur \/ x ∈ add) /\ x ∉ rem.
Proof.
  unfold changed_tags. rewrite list_elem_of_In, filter_In, <- list_elem_of_In, elem_of_remove_dups, elem_of_app.
  by rewrite negb_true_iff, bool_decide_eq_false.
Qed.
Lemma NoDup_changed_tags cur add rem : NoDup (changed_tags cur add rem).
Proof. apply NoDup_ListNoDup, List.NoDup_filter, NoDup_ListNoDup, NoDup_remove_dups. Qed.
Lemma changed_tags_perm cur cur' add rem : cur ≡ₚ cur' -> changed_tags cur add rem ≡ₚ changed_tags cur' add rem.
Proof. intros Hp. apply NoDup_Permutation; [apply NoDup_changed_tags..|]. intros x. by rewrite !elem_of_changed_tags, Hp. Qed.
Lemma remove_dups_perm (l : list Z) : NoDup l -> remove_dups l ≡ₚ l.
Proof. intros Hl. apply NoDup_Permutation; [apply NoDup_remove_dups|done|]. intros x. apply elem_of_remove_dups. Qed.
Lemma falsy_tags v : truthy v = false -> tag_pks v = [].
Proof. by destruct v as [| | | | | | |[]|[]|[]|]. Qed.

(** The tags the update leaves are those the rule saw. *)
Lemma tags_kept stored data pks saved :
  get "tags" stored = VList (map VInt pks) -> NoDup pks ->
  saved ≡ₚ (if is_None (get "tags" data)
            then changed_tags (tag_pks (get "tags" stored)) (tag_pks (get "add_tags" data)) (tag_pks (get "remove_tags" data))
            else remove_dups (tag_pks (get "tags" data))) ->
  change_is_refused (tag_keys (get "tags" stored))
    (requested_value (_requested_protected_values (protected_field_snapshot stored) data) "tags") false = false ->
  saved ≡ₚ pks.
Proof.
  intros Est Hnd Hs. unfold requested_value, _requested_protected_values. cbn [String.eqb Ascii.eqb eqb].
  change (String.eqb "tags" "tags") with true. cbv iota.
  rewrite snapshot_get by (apply (bool_decide_eq_true (_ ∈ PROTECTED_PROCEDURE_FIELDS)); vm_compute; reflexivity).
  unfold requested_value. change (String.eqb "tags" "tags") with true. cbv iota. rewrite Est in *.
  rewrite (proj1 (tag_pks_ints pks)) in Hs. rewrite !tag_keys_list.
  assert (forall l, change_is_refused (tuple_of pks) (tuple_of l) false = false -> pks ≡ₚ l) as Hsame.
  { intros l. unfold change_is_refused. cbn [is_None orb tuple_of negb]. case_bool_decide as Hc; [|done].
    intros _. by apply comparable_tuple. }
  destruct (is_None (get "tags" data)) eqn:En; cbn [andb].
  - destruct (truthy (get "add_tags" data) || truthy (get "remove_tags" data)) eqn:Et.
    + unfold get at 1. rewrite dict_get_set_eq. cbn [from_option id]. rewrite tag_keys_tuple. intros Hp%Hsame.
      rewrite Hs. etrans; [|symmetry; exact Hp]. apply changed_tags_perm. unfold tuple_of. rewrite (proj2 (tag_pks_ints _)).
      by rewrite (merge_sort_Permutation Z.le).
    + intros _. apply orb_false_iff in Et as [Ha Hr]. rewrite (falsy_tags _ Ha), (falsy_tags _ Hr) in Hs. rewrite Hs.
      apply NoDup_Permutation; [apply NoDup_changed_tags|done|]. intros x. rewrite elem_of_changed_tags. set_solver.
  - unfold tag_keys. rewrite En. intros Hp%Hsame. rewrite Hs, remove_dups_perm by (by rewrite <- Hp). done.
Qed.

(** ** One edit *)

Lemma restore_get fields given stored inst f :
  get f (restore fields given stored inst) =
  if str_in f fields && is_None (get f given) then get f stored else get f inst.
Proof.
  unfold restore. revert inst. induction fields as [|g fields IH]; intros inst; cbn [fold_left]; [done|].
  rewrite IH. unfold str_in. destruct (decide (f = g)) as [->|Hne].
  - rewrite (bool_decide_true (g ∈ g :: fields)) by set_solver. cbn [andb].
    destruct (is_None (get g given)); [|by rewrite andb_false_r].
    rewrite andb_true_r. case_bool_decide; [done|]. unfold get at 1. by rewrite dict_get_set_eq.
  - rewrite (bool_decide_ext (f ∈ g :: fields) (f ∈ fields)) by set_solver.
    destruct (is_None (get g given)); [|done].
    assert (get f (dict_set g (get g stored) inst) = get f inst) as -> by (unfold get; by rewrite dict_get_set_ne). done.
Qed.

Section OneEdit.
Context `{NetBoxLaws}.

(** The updated row. *)
Definition saved_row (stored inst data : dict) : dict :=
  parent_update stored
    (restore (List.filter (fun f => negb (String.eqb f "tags")) PROTECTED_PROCEDURE_FIELDS) data stored inst) data.

(** An omitted field keeps the stored value, not the one of the request's copy. *)
Lemma saved_field stored inst data f : f ∈ PROTECTED_PROCEDURE_FIELDS -> f <> "tags" ->
  get f (saved_row stored inst data) = match dict_get f data with Some v => v | None => get f stored end.
Proof.
  intros Hf Ht. unfold saved_row. rewrite parent_update_field by done. destruct (dict_get f data) eqn:E; [done|].
  rewrite restore_get. unfold get at 1. rewrite E. cbn [from_option is_None].
  assert (str_in f (List.filter (fun f => negb (String.eqb f "tags")) PROTECTED_PROCEDURE_FIELDS) = true) as ->; [|done].
  apply (bool_decide_eq_true (f ∈ _)), list_elem_of_In, filter_In. split; [by apply list_elem_of_In|].
  by apply negb_true_iff, String.eqb_neq.
Qed.

Lemma saved_row_ok stored inst data : row_ok stored -> data_ok data -> row_ok (saved_row stored inst data).
Proof.
  intros [Hst _] Hd. split.
  - intros f r m Hr Hf. rewrite saved_field by eauto using rule_field. destruct (dict_get f data) eqn:E; [by eapply Hd|].
    by eapply Hst.
  - destruct (parent_update_tags stored (restore (List.filter (fun f => negb (String.eqb f "tags"))
      PROTECTED_PROCEDURE_FIELDS) data stored inst) data) as (pks & ? & ? & _). by exists pks.
Qed.

Lemma tags_rule r m : ("tags", (r, m)) ∈ PROTECTED_PROCEDURE_FIELD_RULES -> r = ChangeRule.
Proof.
  unfold PROTECTED_PROCEDURE_FIELD_RULES, change_of. rewrite !elem_of_cons, elem_of_nil. intros Hr.
  repeat (destruct Hr as [Hr|Hr]; [first [discriminate Hr|by injection Hr as -> _]|]). done.
Qed.

Lemma other_field_requested stored data f : f <> "tags" ->
  requested_value (_requested_protected_values stored data) f = get f data.
Proof.
  intros Hf. unfold requested_value, _requested_protected_values. apply String.eqb_neq in Hf as Hf'. rewrite Hf'.
  destruct (_ && _); [|done]. unfold get. by rewrite dict_get_set_ne by congruence.
Qed.

Lemma saved_no_weaker stored inst data : row_ok stored -> data_ok data ->
  protected_field_refusals (protected_field_snapshot stored)
    (_requested_protected_values (protected_field_snapshot stored) data) false = [] ->
  no_weaker_row stored (saved_row stored inst data).
Proof.
  intros [Hst (pks & Etags & Hnd)] Hd Href f r m Hr. pose proof (no_refusals _ _ _ Href f r m Hr) as Hrule.
  pose proof (rule_field _ _ _ Hr) as Hf. rewrite !snapshot_get in * by done.
  destruct (decide (f = "tags")) as [->|Ht].
  - apply tags_rule in Hr as ->. cbn [apply_rule no_weaker] in *. unfold requested_value in Hrule at 1. unfold requested_value.
    change (String.eqb "tags" "tags") with true in *. cbv iota in *.
    destruct (parent_update_tags stored (restore (List.filter (fun f => negb (String.eqb f "tags"))
      PROTECTED_PROCEDURE_FIELDS) data stored inst) data) as (saved & Es & _ & Hperm).
    unfold saved_row. rewrite Es. pose proof (tags_kept _ _ _ _ Etags Hnd Hperm Hrule) as Hp. rewrite Etags, !tag_keys_list.
    unfold tuple_of. by rewrite (sorted_pks_eq _ _ Hp).
  - rewrite other_field_requested in Hrule by done. unfold requested_value in *. apply String.eqb_neq in Ht as Ht'.
    rewrite Ht' in *. rewrite saved_field by done. unfold get at 2 in Hrule.
    destruct (dict_get f data) as [v|] eqn:E; cbn [from_option id] in Hrule; [|apply no_weaker_refl].
    apply rule_keeps; [by eapply Hst|by eapply Hd|done].
Qed.
End OneEdit.

(** ** Sequences of edits *)

Lemma chain_is_protected : "transport_driver_chain" ∈ PROTECTED_PROCEDURE_FIELDS.
Proof. apply (bool_decide_eq_true (_ ∈ PROTECTED_PROCEDURE_FIELDS)). vm_compute. reflexivity. Qed.

Section Edits.
Context `{NetBoxLaws}.

Definition table_ok (t : table) : Prop := map_Forall (fun _ row => row_ok row) t.

(** The tables that edits of any procedures by one user lead to, each with any copy of
    its row in hand. *)
Inductive edits_by (u : account) (t : table) : table -> Prop :=
| edits_none : edits_by u t t
| edits_step t1 t2 pk instance data :
    edits_by u t t1 -> data_ok data -> update t1 pk (Some u) instance data = Ok t2 -> edits_by u t t2.

Definition scope (u : account) (t : table) : gset Z := approvable_procedure_pks (reload_requesting_user (Some u)) t.

Lemma no_gain (a b : gset Z) : a ∖ b = ∅ -> a ⊆ b.
Proof. intros Hd x Hx. destruct (decide (x ∈ b)); [done|]. set_solver. Qed.

#[local] Opaque restore PROTECTED_PROCEDURE_FIELDS PROTECTED_PROCEDURE_FIELD_RULES protected_field_snapshot.

Lemma refuse_Ok l x : refuse l = Ok x -> l = [].
Proof. by destruct l as [|[] ?]. Qed.

Lemma update_inv t pk u inst data t' : update t pk (Some u) inst data = Ok t' ->
  exists stored, t !! pk = Some stored /\ t' = <[pk := saved_row stored inst data]> t /\ scope u t' ⊆ scope u t /\
    protected_field_refusals (protected_field_snapshot stored)
      (_requested_protected_values (protected_field_snapshot stored) data)
      (may_approve_procedure (reload_requesting_user (Some u)) t pk) = [].
Proof.
  unfold update. destruct (t !! pk) as [stored|]; [|discriminate]. intros Hu. exists stored. split; [reflexivity|].
  apply bind_Ok in Hu as (x & Hr%refuse_Ok & Hu). apply bind_Ok in Hu as (y & Hg%require_Ok & Hu). injection Hu as <-.
  split; [reflexivity|]. split; [|exact Hr]. apply no_gain. apply bool_decide_eq_true in Hg. exact Hg.
Qed.

Lemma out_of_scope u t pk : pk ∉ scope u t -> may_approve_procedure (reload_requesting_user (Some u)) t pk = false.
Proof.
  unfold scope, may_approve_procedure, approvable_procedure_pks. destruct (reload_requesting_user _) as [u'|]; [|done].
  intros Hn. apply not_true_is_false. by intros ?%scope_agrees.
Qed.

Lemma edits_invariant u t t' : table_ok t -> edits_by u t t' ->
  table_ok t' /\ scope u t' ⊆ scope u t /\
  forall pk old, pk ∉ scope u t -> t !! pk = Some old -> exists new, t' !! pk = Some new /\ no_weaker_row old new.
Proof.
  intros Hok. induction 1 as [|t1 t2 pk inst data _ (Hok1 & Hsc1 & Hrow1) Hd Hu].
  - split_and!; [done..|]. intros pk old _ Hold. exists old. split; [done|reflexivity].
  - apply update_inv in Hu as (stored & Hst & -> & Hsc & Href). split_and!.
    + apply map_Forall_insert_2; [|done]. apply saved_row_ok; [by eapply Hok1|done].
    + by etrans.
    + intros pk' old Hn Hold. destruct (Hrow1 pk' old Hn Hold) as (mid & Hmid & Hw).
      destruct (decide (pk' = pk)) as [->|Hne]; [|exists mid; by rewrite lookup_insert_ne by done].
      exists (saved_row stored inst data). rewrite lookup_insert_eq. split; [done|]. rewrite Hst in Hmid. injection Hmid as <-.
      etrans; [exact Hw|]. apply saved_no_weaker; [by eapply Hok1|done|].
      rewrite out_of_scope in Href by set_solver. done.
Qed.
End Edits.

(** C16: a user cannot edit his way to power over a procedure.  Whatever REST edits of whatever procedures he
    makes, with copies of any age in hand, his approve scope gains nothing; and of a procedure outside it he
    can neither drop the pin or the approval requirement, nor lower the effect, nor enable it, nor change its
    driver, handler, name, version, targets, schemas, timeout, parser, tags or custom fields. *)
Theorem editor_cannot_escalate `{NetBoxLaws} u t t' pk old :
  table_ok t -> edits_by u t t' -> pk ∉ scope u t -> t !! pk = Some old ->
  (pk ∉ scope u t') /\ exists new, t' !! pk = Some new /\ no_weaker_row old new.
Proof.
  intros Hok He Hn Hold. destruct (edits_invariant u t t' Hok He) as (_ & Hsc & Hrow). split; [set_solver|by apply Hrow].
Qed.

(** ** The form *)

Lemma apply_rule_same r v may : apply_rule r v v may = false.
Proof.
  destruct r; cbn [apply_rule].
  - unfold lowering_is_refused. by destruct v as [|[]| | | | | | | | |].
  - unfold effect_lowering_is_refused, py_eqb. rewrite (bool_decide_true (py_eq v v)) by reflexivity. by rewrite orb_true_r.
  - unfold enabling_is_refused. by destruct v as [|[]| | | | | | | | |].
  - unfold change_is_refused. rewrite bool_decide_true by done. by destruct (_ || _).
Qed.

Lemma nothing_refused stored requested may :
  (forall f, f ∈ PROTECTED_PROCEDURE_FIELDS -> requested_value requested f = requested_value stored f) ->
  protected_field_refusals (protected_field_snapshot stored) requested may = [].
Proof.
  intros Hsame. unfold protected_field_refusals.
  assert (forall l : list (string * (rule * string)), (forall x, x ∈ l -> x.1 ∈ PROTECTED_PROCEDURE_FIELDS) ->
    flat_map (fun '(field, (r, message)) =>
      if apply_rule r (get field (protected_field_snapshot stored)) (requested_value requested field) may
      then [(field, message)] else []) l = []) as Hl.
  { induction l as [|[f [r m]] l IH]; intros Hin; [done|]. cbn [flat_map].
    assert (f ∈ PROTECTED_PROCEDURE_FIELDS) as Hf by (apply (Hin (f, (r, m))); set_solver).
    rewrite Hsame, snapshot_get, apply_rule_same by done. apply IH. intros x Hx. apply Hin. by right. }
  apply Hl. intros x Hx. by apply list_elem_of_fmap_2.
Qed.

(** the form restores the stored value of an omitted field only when its cleaned value is [None].  A
    chain left out of the submitted data is cleaned to the empty list, and Django keeps the value of the copy
    in hand; so a user without any approve grant, whose copy is older than the edit that emptied the chain,
    writes the old chain back, and no rule refuses it. *)
Theorem form_writes_stale_chain `{NetBoxLib} t pk user stored stale cleaned :
  t !! pk = Some stored ->
  may_approve_procedure (reload_requesting_user user) t pk = false ->
  (forall t', approvable_procedure_pks (reload_requesting_user user) t' = ∅) ->
  (forall instance data f, f <> "tags" -> get f (parent_save stored instance data) = get f instance) ->
  (forall f, f ∈ PROTECTED_PROCEDURE_FIELDS -> f <> "custom_field_data" ->
     requested_value cleaned f = requested_value stored f) ->
  get "custom_field_data" stale = get "custom_field_data" stored ->
  get "transport_driver_chain" stored = VList [] ->
  exists t' new, form_save t pk user stale cleaned = Ok t' /\ t' !! pk = Some new /\
    get "transport_driver_chain" new = get "transport_driver_chain" stale.
Proof.
  intros Hst Hmay Hscope Hsave Hsame Hcf Hchain. unfold form_save. rewrite Hst, Hmay.
  rewrite nothing_refused.
  2: { intros f Hf. destruct (decide (f = "custom_field_data")) as [->|Hne].
    - unfold requested_value, get. rewrite dict_get_set_eq. exact Hcf.
    - rewrite <- (Hsame f Hf Hne). unfold requested_value, get. by rewrite dict_get_set_ne by congruence. }
  cbn [abort mbind result_bind]. unfold refuse_approval_scope_gain. rewrite !Hscope.
  rewrite bool_decide_true by apply difference_diag_L. cbn [require].
  eexists _, _. split; [reflexivity|]. split; [apply lookup_insert_eq|].
  rewrite Hsave by discriminate. rewrite restore_get.
  assert (get "transport_driver_chain" cleaned = VList []) as ->.
  { rewrite <- Hchain. exact (Hsame "transport_driver_chain" chain_is_protected ltac:(discriminate)). }
  cbn [is_None]. rewrite andb_false_r. reflexivity.
Qed.

#[local] Transparent restore PROTECTED_PROCEDURE_FIELDS PROTECTED_PROCEDURE_FIELD_RULES protected_field_snapshot.

(** ** Witnesses *)

(** A NetBox with one account, which may approve the procedures whose name starts with [own]. *)
Definition own (row : dict) : bool := match get "name" row with VStr s => str_startswith "own" s | _ => false end.
#[local] Instance demo_netbox : NetBoxLib := {|
  account := unit;
  has_perm _ t pk := match t !! pk with Some row => own row | None => false end;
  restrict _ t := dom (filter (fun kv => own kv.2 = true) t);
  reload u := Some u;
  parent_update stored inst data :=
    dict_set "tags" (VList (map VInt
        (if is_None (get "tags" data)
         then changed_tags (tag_pks (get "tags" stored)) (tag_pks (get "add_tags" data)) (tag_pks (get "remove_tags" data))
         else remove_dups (tag_pks (get "tags" data)))))
      (fold_right (fun kv row => dict_set kv.1 kv.2 row) inst data);
  parent_save _ inst _ := inst |}.

Lemma fold_set_get f (data inst : dict) :
  dict_get f (fold_right (fun kv row => dict_set kv.1 kv.2 row) inst data) =
  match dict_get f data with Some v => Some v | None => dict_get f inst end.
Proof.
  induction data as [|[k v] data IH]; [done|]. cbn [fold_right dict_get fst snd].
  destruct (String.eqb_spec k f) as [->|Hne]; [apply dict_get_set_eq|]. by rewrite dict_get_set_ne.
Qed.

Definition demo_user : account := tt.

#[local] Instance demo_laws : NetBoxLaws.
Proof.
  split.
  - intros u t pk Hp. cbn in *. destruct (t !! pk) as [row|] eqn:E; [|done].
    apply elem_of_dom. exists row. by apply map_lookup_filter_Some.
  - intros stored inst data f Hf. cbn. unfold get. rewrite dict_get_set_ne by congruence. rewrite fold_set_get.
    by destruct (dict_get f data).
  - intros stored inst data. cbn. eexists. split; [unfold get; by rewrite dict_get_set_eq|]. split; [|reflexivity].
    destruct (is_None _); [apply NoDup_changed_tags|apply NoDup_remove_dups].
Qed.

(** The same with an account that has no grant. *)
Definition grantless : NetBoxLib := {|
  account := unit; has_perm _ _ _ := false; restrict _ _ := ∅; reload u := Some u;
  parent_update := parent_update; parent_save _ inst _ := inst |}.

Definition demo_proc (name effect : string) (chain : list string) : dict :=
  [("transport_pinned", VBool true); ("approval_required", VBool true); ("effect", VStr effect); ("enabled", VBool false);
   ("transport_driver", VStr "asyncssh"); ("transport_driver_chain", VList (map VStr chain)); ("handler_id", VStr "h");
   ("name", VStr name); ("version", VInt 1); ("target_models", VList []); ("params_schema", VDict []);
   ("timeout_seconds", VInt 30); ("result_schema", VDict []); ("output_parser", VStr "none"); ("output_schema", VDict []);
   ("tags", VList [VInt 3]); ("custom_field_data", VDict []); ("description", VStr "old")].

Lemma demo_proc_ok name effect chain : effect ∈ EFFECT_RANKS.*1 -> row_ok (demo_proc name effect chain).
Proof.
  intros He. split; [|exists [3]; split; [reflexivity|apply NoDup_singleton]].
  intros f r m Hr _. unfold PROTECTED_PROCEDURE_FIELD_RULES, change_of in Hr. rewrite !elem_of_cons, elem_of_nil in Hr.
  repeat (destruct Hr as [Hr|Hr]; [injection Hr as -> -> _; cbn; eauto; discriminate|]). done.
Qed.

Definition demo_table : table := {[1 := demo_proc "other" "write" []]}.
(** The description changes, the effect is raised, and a tag is added and removed. *)
Definition demo_edit : dict :=
  [("description", VStr "new"); ("effect", VStr "destructive"); ("add_tags", VList [VInt 4]); ("remove_tags", VList [VInt 4])].
Definition demo_result : table :=
  {[1 := saved_row (demo_proc "other" "write" []) (demo_proc "stale" "read" ["fabric"]) demo_edit]}.

Lemma known_destructive : "destructive" ∈ EFFECT_RANKS.*1.
Proof. apply (bool_decide_eq_true (_ ∈ EFFECT_RANKS.*1)). reflexivity. Qed.
Lemma known_write : "write" ∈ EFFECT_RANKS.*1.
Proof. apply (bool_decide_eq_true (_ ∈ EFFECT_RANKS.*1)). reflexivity. Qed.

Lemma demo_edit_ok : data_ok demo_edit.
Proof.
  intros f r m v Hr _ Hv. unfold PROTECTED_PROCEDURE_FIELD_RULES, change_of in Hr. rewrite !elem_of_cons, elem_of_nil in Hr.
  repeat (destruct Hr as [Hr|Hr];
    [injection Hr as -> -> _; cbn in Hv; first [discriminate Hv|injection Hv as <-; exists "destructive"; split; [done|exact known_destructive]]|]).
  done.
Qed.

Lemma editor_cannot_escalate_witness :
  (1 ∉ scope demo_user demo_result) /\
  (exists new, demo_result !! 1 = Some new /\ no_weaker_row (demo_proc "other" "write" []) new) /\
  (** the same user may not enable the procedure *)
  update demo_table 1 (Some demo_user) (demo_proc "other" "write" []) [("enabled", VBool true)]
    = Err (ValidationError "enabled" (denied "enable a disabled RPC procedure.")).
Proof.
  assert ((1 ∉ scope demo_user demo_table) /\ edits_by demo_user demo_table demo_result) as [Hs He].
  { split; [apply (bool_decide_eq_true (1 ∉ scope demo_user demo_table)); vm_compute; reflexivity|].
    apply (edits_step demo_user demo_table demo_table demo_result 1 (demo_proc "stale" "read" ["fabric"]) demo_edit);
      [constructor|exact demo_edit_ok|]. vm_compute. reflexivity. }
  assert (table_ok demo_table) as Hok by (apply map_Forall_singleton, demo_proc_ok, known_write).
  pose proof (editor_cannot_escalate demo_user demo_table demo_result 1 (demo_proc "other" "write" []) Hok He Hs
    ltac:(reflexivity)) as [Hn Hrow].
  split; [exact Hn|]. split; [exact Hrow|]. vm_compute. reflexivity.
Defined.

Lemma form_writes_stale_chain_witness :
  exists t' new, @form_save grantless demo_table 1 (Some tt) (demo_proc "other" "write" ["fabric"]) (demo_proc "other" "write" []) = Ok t'
    /\ t' !! 1 = Some new /\ get "transport_driver_chain" new = VList [VStr "fabric"].
Proof.
  refine (@form_writes_stale_chain grantless demo_table 1 (Some tt) (demo_proc "other" "write" [])
    (demo_proc "other" "write" ["fabric"]) (demo_proc "other" "write" []) _ _ _ _ _ _ _); try reflexivity.
Defined.
