(* ===== verification/TargetSnapshot.v ===== *)
(** * The snapshot of the target object

    [domain/normalization.py] from [_json_safe_scalar] to [_apply_target_object_context]:
    the bounded copy of the NetBox object a Jinja command may read, its redacted form in
    the payload, and the two digests in the command fingerprint.

    A [_MatchedText] is a leaf with a mark.  [_json_safe_value] counts the levels that are
    left instead of the depth, so it is structural.  Mapping keys are strings. *)

From S2P Require Import Prelude PyValue CredentialContract TextRedaction ValueRedaction Templating Transport.
From S2P Require Import SecretPatterns.

Definition _TARGET_SNAPSHOT_MAX_NODES : Z := 1000.
Definition _TARGET_SNAPSHOT_MAX_BYTES : Z := 65536.
Definition _TARGET_SNAPSHOT_MAX_KEYS : nat := 95.
Definition _TARGET_SNAPSHOT_MAX_ITEMS : nat := 50.
Definition _TARGET_SNAPSHOT_MAX_VALUE_LEN : Z := 1024.
Definition _TARGET_SNAPSHOT_MAX_DEPTH : nat := 4.
Definition _TARGET_SNAPSHOT_MARKER : string := "_truncated".
(** [len] of a comma, the quoted marker, a colon and [true]. *)
Definition _TARGET_SNAPSHOT_MARKER_BYTES : Z := 18.

(** [private[_-]?key] and the like. *)
Definition key_variants (prefix : string) : list string := [prefix +:+ "key"; prefix +:+ "_key"; prefix +:+ "-key"].
Definition _SENSITIVE_FIELD_RE (name : string) : bool :=
  existsb (fun part => str_contains part (str_lower name))
    (["pass"; "secret"; "token"; "credential"; "community"; "psk"; "passphrase"]
     ++ flat_map key_variants ["private"; "api"; "ssh"; "auth"; "access"; "encryption"; "secret"]).

(** ** Snapshot values *)

Inductive snap : Type :=
| Leaf (matched : bool) (v : value)
| Seq (l : list snap)
| Map (d : list (string * snap)).

(** The snapshot as it serializes. *)
Fixpoint raw (s : snap) : value :=
  match s with
  | Leaf _ v => v
  | Seq l => VList (map raw l)
  | Map d => VDict (map (fun kv => (kv.1, raw kv.2)) d)
  end.

Fixpoint snap_set (k : string) (s : snap) (d : list (string * snap)) : list (string * snap) :=
  match d with
  | [] => [(k, s)]
  | (k', s') :: r => if String.eqb k' k then (k', s) :: r else (k', s') :: snap_set k s r
  end.

Definition _json_safe_scalar (v : value) : value :=
  let safe := match v with VNone | VBool _ | VInt _ | VFloat _ | VStr _ => v | _ => VStr (py_str v) end in
  match safe with VStr s => VStr (str_take _TARGET_SNAPSHOT_MAX_VALUE_LEN s) | _ => safe end.

(** ** The budget *)

Record _TargetSnapshotBudget := { b_nodes : Z; b_bytes : Z; b_truncated : bool }.
Definition new_budget : _TargetSnapshotBudget := {| b_nodes := 0; b_bytes := 0; b_truncated := false |}.
Definition mark_truncated (b : _TargetSnapshotBudget) : _TargetSnapshotBudget :=
  {| b_nodes := b_nodes b; b_bytes := b_bytes b; b_truncated := true |}.
(** [restore(checkpoint)]; the mark stays. *)
Definition restore_budget (checkpoint b : _TargetSnapshotBudget) : _TargetSnapshotBudget :=
  {| b_nodes := b_nodes checkpoint; b_bytes := b_bytes checkpoint; b_truncated := b_truncated b |}.
Definition spend (nodes bytes : Z) (b : _TargetSnapshotBudget) : bool * _TargetSnapshotBudget :=
  if (_TARGET_SNAPSHOT_MAX_NODES - 1 <? b_nodes b + nodes)
     || (_TARGET_SNAPSHOT_MAX_BYTES - _TARGET_SNAPSHOT_MARKER_BYTES <? b_bytes b + bytes)
  then (false, mark_truncated b)
  else (true, {| b_nodes := b_nodes b + nodes; b_bytes := b_bytes b + bytes; b_truncated := b_truncated b |}).
Definition add_marker (snapshot : list (string * snap)) : list (string * snap) :=
  snap_set _TARGET_SNAPSHOT_MARKER (Leaf false (VBool true)) snapshot.

Definition _json_length (v : value) : Z := str_len (json_dumps v).
Definition _mapping_entry_bytes (key : string) (has_entries : bool) : Z :=
  _json_length (VStr key) + 1 + (if has_entries then 1 else 0).
Definition nonempty {A} (l : list A) : bool := match l with [] => false | _ => true end.

(** ** Mappings and sequences *)

Definition entry_le (a b : string * string * value) : Prop :=
  if String.eqb a.1.1 b.1.1 then Is_true (String.leb a.1.2 b.1.2) else Is_true (String.leb a.1.1 b.1.1).
#[export] Instance entry_le_dec : RelDecision entry_le.
Proof. unfold entry_le. intros a b. destruct (String.eqb a.1.1 b.1.1); apply _. Defined.

Fixpoint unseen (seen : list string) (entries : list (string * string * value)) (truncated : bool) : dict * bool :=
  match entries with
  | [] => ([], truncated)
  | (key, _, item) :: r =>
      if str_in key seen then unseen seen r true
      else let '(d, t) := unseen (key :: seen) r truncated in ((key, item) :: d, t)
  end.
Definition _canonical_mapping_items (d : dict) (b : _TargetSnapshotBudget) : dict * _TargetSnapshotBudget :=
  let limited := take _TARGET_SNAPSHOT_MAX_KEYS d in
  let ordered := merge_sort entry_le
    (map (fun kv => (str_take _TARGET_SNAPSHOT_MAX_VALUE_LEN kv.1, repr_str kv.1, kv.2)) limited) in
  let '(items, truncated) := unseen [] ordered ((length limited <? length d)%nat) in
  (items, if truncated then mark_truncated b else b).

Section Loops.
Variable safe_value : value -> _TargetSnapshotBudget -> option snap * _TargetSnapshotBudget.

(** [_append_snapshot_value], whose result no caller reads. *)
Definition append_value (key : string) (v : value) (st : list (string * snap) * _TargetSnapshotBudget)
: list (string * snap) * _TargetSnapshotBudget :=
let '(output, b) := st in
let '(ok, b1) := spend 0 (_mapping_entry_bytes key (nonempty output)) b in
if negb ok then (output, b1) else
match safe_value v b1 with
| (None, b2) => (output, mark_truncated (restore_budget b b2))
| (Some s, b2) => (snap_set key s output, b2)
end.
Definition append_all (items : dict) (st : list (string * snap) * _TargetSnapshotBudget)
: list (string * snap) * _TargetSnapshotBudget :=
fold_left (fun st kv => append_value kv.1 kv.2 st) items st.

Definition _json_safe_mapping (d : dict) (b : _TargetSnapshotBudget) : option snap * _TargetSnapshotBudget :=
let '(ok, b1) := spend 1 2 b in
if negb ok then (None, b1) else
let '(items, b2) := _canonical_mapping_items d b1 in
let '(output, b3) := append_all items ([], b2) in
(Some (Map output), b3).

Fixpoint safe_items (items : list value) (output : list snap) (b : _TargetSnapshotBudget)
: list snap * _TargetSnapshotBudget :=
match items with
| [] => (output, b)
| item :: r =>
  let '(ok, b1) := spend 0 (if nonempty output then 1 else 0) b in
  if negb ok then (output, b1) else
  match safe_value item b1 with
  | (None, b2) => safe_items r output (mark_truncated (restore_budget b b2))
  | (Some s, b2) => safe_items r (output ++ [s]) b2
  end
end.
Definition _json_safe_sequence (l : list value) (b : _TargetSnapshotBudget) : option snap * _TargetSnapshotBudget :=
let '(ok, b1) := spend 1 2 b in
if negb ok then (None, b1) else
let '(output, b2) := safe_items (take _TARGET_SNAPSHOT_MAX_ITEMS l) [] b1 in
(Some (Seq output), if (length output <? length l)%nat then mark_truncated b2 else b2).
End Loops.

Definition _matches_secret_pattern (s : string) : bool := contains_secret_text (codes s).
Definition safe_leaf (v : value) (b : _TargetSnapshotBudget) : option snap * _TargetSnapshotBudget :=
  let safe := _json_safe_scalar v in
  let '(ok, b1) := spend 1 (_json_length safe) b in
  if negb ok then (None, b1) else
  (Some (Leaf match v with VStr s => _matches_secret_pattern s | _ => false end safe), b1).

Fixpoint _json_safe_value (levels : nat) (v : value) (b : _TargetSnapshotBudget)
    : option snap * _TargetSnapshotBudget :=
  match v with
  | VDict d =>
      match levels with
      | O => safe_leaf (VStr "[truncated]") b
      | S levels => _json_safe_mapping (_json_safe_value levels) d b
      end
  | VList l | VTuple l =>
      match levels with
      | O => safe_leaf (VStr "[truncated]") b
      | S levels => _json_safe_sequence (_json_safe_value levels) l b
      end
  | _ => safe_leaf v b
  end.

(** [_append_snapshot_value] at depth 0. *)
Definition _append_snapshot_value (key : string) (v : value) (st : list (string * snap) * _TargetSnapshotBudget)
    : list (string * snap) * _TargetSnapshotBudget :=
  append_value (_json_safe_value _TARGET_SNAPSHOT_MAX_DEPTH) key v st.

(** ** The target object *)

(** The attributes the builder reads; [to_meta] are the concrete fields with their
    attribute names, [to_dict] the instance dict of a plain object. *)
Record target_object := {
  to_pk : value;
  to_id : value;
  to_str : string;
  to_name : value;
  to_custom : value;
  to_meta : dict;
  to_dict : dict;
}.

Definition _target_field_items (o : target_object) : dict * bool :=
  match to_meta o with
  | (_ :: _) as fields =>
      (List.filter (fun kv => str_truthy kv.1) (take _TARGET_SNAPSHOT_MAX_KEYS fields),
       (_TARGET_SNAPSHOT_MAX_KEYS <? length fields)%nat)
  | [] =>
      (List.filter (fun kv => negb (str_startswith "_" kv.1)) (take _TARGET_SNAPSHOT_MAX_KEYS (to_dict o)),
       (_TARGET_SNAPSHOT_MAX_KEYS <? length (to_dict o))%nat)
  end.

Definition _append_custom_fields (custom_fields : dict) (st : list (string * snap) * _TargetSnapshotBudget)
    : list (string * snap) * _TargetSnapshotBudget :=
  let '(snapshot, b) := st in
  let '(ok, b1) := spend 0 (_mapping_entry_bytes "custom_fields" (nonempty snapshot)) b in
  if negb ok then (snapshot, b1) else
  let '(ok, b2) := spend 1 2 b1 in
  if negb ok then (snapshot, restore_budget b b2) else
  let '(items, b3) := _canonical_mapping_items custom_fields b2 in
  let '(output, b4) := append_all (_json_safe_value _TARGET_SNAPSHOT_MAX_DEPTH)
    (List.filter (fun kv => negb (_SENSITIVE_FIELD_RE kv.1)) items) ([], b3) in
  if nonempty output then (snap_set "custom_fields" (Map output) snapshot, b4)
  else (snapshot, restore_budget b b4).

Fixpoint append_fields (items : dict) (st : list (string * snap) * _TargetSnapshotBudget)
    : list (string * snap) * _TargetSnapshotBudget :=
  match items with
  | [] => st
  | (name, v) :: r =>
      let name := str_take _TARGET_SNAPSHOT_MAX_VALUE_LEN name in
      if str_startswith "_" name || str_in name ["custom_field_data"] || _SENSITIVE_FIELD_RE name
         || str_in name st.1.*1
      then append_fields r st
      else if (_TARGET_SNAPSHOT_MAX_KEYS - 1 <=? length st.1)%nat then (st.1, mark_truncated st.2)
      else append_fields r (_append_snapshot_value name v st)
  end.

Definition _build_target_object_snapshot (o : target_object) : list (string * snap) :=
  let b := (spend 1 2 new_budget).2 in
  let st := _append_snapshot_value "id" (match to_pk o with VNone => to_id o | pk => pk end) ([], b) in
  let st := _append_snapshot_value "display" (VStr (to_str o)) st in
  let st := match to_name o with VNone => st | name => _append_snapshot_value "name" name st end in
  let st := match to_custom o with VDict ((_ :: _) as custom) => _append_custom_fields custom st | _ => st end in
  let '(items, many) := _target_field_items o in
  let st := append_fields items (if many then (st.1, mark_truncated st.2) else st) in
  if b_truncated st.2 then add_marker st.1 else st.1.

(** ** The persisted copy *)

Section Persisted.
Context `{PyLib} `{JsonSchema}.

Definition _free_text_policy_key (key : string) : string :=
if negb (_matches_secret_pattern key) then key
else "[REDACTED-FIELD:" +:+ str_take 32 (salted_hmac "netbox_rpc.target_object.key.v1" key) +:+ "]".
Fixpoint _free_text_policy_copy (s : snap) : value :=
match s with
| Leaf matched v => if matched then VStr "[REDACTED]" else v
| Seq l => VList (map _free_text_policy_copy l)
| Map d => VDict (fold_left (fun d kv => dict_set kv.1 kv.2 d)
                  (map (fun kv => (_free_text_policy_key kv.1, _free_text_policy_copy kv.2)) d) [])
end.

Definition _bounded_persisted_snapshot (snapshot : value) : list (string * snap) :=
match redact_event_value (S _MAX_REDACTION_DEPTH) snapshot EmptyString [] [] with
| VDict redacted =>
  let b := (spend 1 2 new_budget).2 in
  let items := List.filter (fun kv => negb (String.eqb kv.1 _TARGET_SNAPSHOT_MARKER)) (sort_keys redacted) in
  let '(output, b) := append_all (_json_safe_value _TARGET_SNAPSHOT_MAX_DEPTH) items ([], b) in
  if b_truncated b || bool_decide (get _TARGET_SNAPSHOT_MARKER redacted = VBool true)
  then add_marker output else output
| _ => []
end.

Definition _keyed_target_snapshot_digest (snapshot : value) : string :=
salted_hmac "netbox_rpc.target_object.raw.v1" (json_dumps snapshot).

Definition _apply_target_object_context (has_jinja_command : bool) (target : option target_object) (normalized : dict)
: dict :=
if negb has_jinja_command then normalized else
match target with
| None => normalized
| Some o =>
  match _build_target_object_snapshot o with
  | [] => normalized
  | (_ :: _) as snapshot =>
      let persisted := raw (Map (_bounded_persisted_snapshot (_free_text_policy_copy (Map snapshot)))) in
      fingerprint_set "target_object_raw_hmac_sha256" (VStr (_keyed_target_snapshot_digest (raw (Map snapshot))))
        (fingerprint_set "target_object_sha256" (VStr (sha256 (json_dumps persisted)))
           (dict_set "_target_object" persisted normalized))
  end
end.
End Persisted.
