(* ===== verification/SnapshotProperties.v ===== *)
(** * Properties of the target snapshot

    The budget accounts for every byte and node of the copy, so both the raw and the
    persisted snapshot stay within their limits; names that look like secrets are left
    out and texts that match the secret patterns are marked. *)

From S2P Require Import Prelude PyValue CredentialContract JsonFacts ValueRedaction RedactionFacts Transport TargetSnapshot.

#[local] Opaque json_dumps redact_event_value.

(** ** The length of JSON text *)

Definition total (l : list Z) : Z := foldr Z.add 0 l.
(** Items with a comma between two of them. *)
Definition joined_len (l : list Z) : Z := total l + Z.max 0 (Z.of_nat (length l) - 1).

Lemma total_app l l' : total (l ++ l') = total l + total l'.
Proof. induction l as [|x l IH]; [done|]. unfold total in *. cbn. lia. Qed.
Lemma total_perm l l' : l ≡ₚ l' -> total l = total l'.
Proof. induction 1; unfold total in *; cbn; lia. Qed.
Lemma joined_len_perm l l' : l ≡ₚ l' -> joined_len l = joined_len l'.
Proof. intros Hp. unfold joined_len. by rewrite (total_perm _ _ Hp), Hp. Qed.

Lemma str_join_len l : str_len (str_join "," l) = joined_len (map str_len l).
Proof.
  induction l as [|x l IH]; [done|]. destruct l as [|y l]; [unfold joined_len, total; cbn; lia|].
  change (str_join "," (x :: y :: l)) with (x +:+ "," +:+ str_join "," (y :: l)). rewrite !str_len_app, IH.
  unfold joined_len, total. cbn [map foldr length]. change (str_len ",") with 1. lia.
Qed.

#[local] Transparent json_dumps.
Lemma json_length_list l : _json_length (VList l) = 2 + joined_len (map _json_length l).
Proof.
  unfold _json_length. cbn [json_dumps]. rewrite !str_len_app, str_join_len, map_map.
  change (str_len "[") with 1. change (str_len "]") with 1. lia.
Qed.

Lemma json_length_dict (d : dict) :
  _json_length (VDict d) = 2 + joined_len (map (fun kv => _json_length (VStr kv.1) + 1 + _json_length kv.2) d).
Proof.
  unfold _json_length. cbn [json_dumps]. rewrite !str_len_app, str_join_len, map_map.
  change (str_len "{") with 1. change (str_len "}") with 1.
  rewrite (joined_len_perm _ (map (fun x : string * string => str_len (json_str x.1 +:+ ":" +:+ x.2))
    (map (fun kv => (kv.1, json_dumps kv.2)) d))) by (apply Permutation_map, merge_sort_Permutation).
  rewrite map_map. rewrite (map_ext _ (fun kv => str_len (json_str kv.1) + 1 + str_len (json_dumps kv.2))); [lia|].
  intros kv. cbn [fst snd]. rewrite !str_len_app. change (str_len ":") with 1. lia.
Qed.
#[local] Opaque json_dumps.

Lemma json_length_nonneg v : 0 <= _json_length v.
Proof. apply str_len_nonneg. Qed.

(** ** Sizes of a snapshot *)

Definition snap_len (s : snap) : Z := _json_length (raw s).
Definition entry_len (kv : string * snap) : Z := _json_length (VStr kv.1) + 1 + snap_len kv.2.
Definition body_len (d : list (string * snap)) : Z := joined_len (map entry_len d).

Fixpoint count (s : snap) : Z :=
  match s with
  | Leaf _ _ => 1
  | Seq l => 1 + total (map count l)
  | Map d => 1 + total (map (fun kv => count kv.2) d)
  end.
Definition body_count (d : list (string * snap)) : Z := total (map (fun kv => count kv.2) d).

Lemma snap_len_seq l : snap_len (Seq l) = 2 + joined_len (map snap_len l).
Proof. unfold snap_len. cbn [raw]. by rewrite json_length_list, map_map. Qed.
Lemma snap_len_map d : snap_len (Map d) = 2 + body_len d.
Proof. unfold snap_len. cbn [raw]. by rewrite json_length_dict, map_map. Qed.

Section SnapInd.
Variable P : snap -> Prop.
Hypothesis HLeaf : forall m v, P (Leaf m v).
Hypothesis HSeq : forall l, Forall P l -> P (Seq l).
Hypothesis HMap : forall d, Forall (fun kv => P kv.2) d -> P (Map d).
Fixpoint snap_ind_nested (s : snap) : P s :=
  match s with
  | Leaf m v => HLeaf m v
  | Seq l => HSeq l ((fix go (l : list snap) : Forall P l :=
      match l with
      | [] => Forall_nil_2 P
      | x :: r => Forall_cons_2 P x r (snap_ind_nested x) (go r)
      end) l)
  | Map d => HMap d ((fix go (d : list (string * snap)) : Forall (fun kv => P kv.2) d :=
      match d with
      | [] => Forall_nil_2 _
      | kv :: r => Forall_cons_2 _ kv r (snap_ind_nested kv.2) (go r)
      end) d)
  end.
End SnapInd.

Lemma total_nonneg {A} (f : A -> Z) l : Forall (fun x => 0 <= f x) l -> 0 <= total (map f l).
Proof. induction 1; unfold total in *; cbn in *; lia. Qed.
Lemma count_pos s : 1 <= count s.
Proof.
  induction s as [m v|l IH|d IH] using snap_ind_nested; cbn [count]; [lia| |].
  - pose proof (total_nonneg count l ltac:(eapply Forall_impl; [exact IH|cbn; lia])). lia.
  - pose proof (total_nonneg (fun kv => count kv.2) d ltac:(eapply Forall_impl; [exact IH|cbn; lia])). lia.
Qed.

(** Setting a key costs at most its entry. *)
Lemma snap_set_sizes k s d :
  body_len (snap_set k s d) <= body_len d + _mapping_entry_bytes k (nonempty d) + snap_len s /\
  body_count (snap_set k s d) <= body_count d + count s /\
  (length (snap_set k s d) <= S (length d))%nat.
Proof.
  assert (total (map entry_len (snap_set k s d)) <= total (map entry_len d) + entry_len (k, s) /\
    body_count (snap_set k s d) <= body_count d + count s /\ (length (snap_set k s d) <= S (length d))%nat) as (Ht & Hc & Hl).
  { unfold body_count. induction d as [|[k' s'] d (IH1 & IH2 & IH3)]; [unfold total; cbn; lia|]. cbn [snap_set].
    destruct (String.eqb_spec k' k) as [->|]; cbn [map length]; unfold total in *; cbn [foldr].
    - unfold entry_len. cbn [fst snd]. pose proof (json_length_nonneg (raw s')). pose proof (json_length_nonneg (VStr k)).
      pose proof (count_pos s'). unfold snap_len. cbn [snd]. lia.
    - lia. }
  split_and!; [|done|done]. unfold body_len, joined_len, _mapping_entry_bytes in *. rewrite !length_map.
  unfold entry_len in Ht at 3. cbn [fst snd] in Ht.
  destruct d as [|e d]; cbn [nonempty length] in *; [cbn [snap_set length] in *; lia|]. lia.
Qed.

(** ** The budget accounts for the copy *)

Notation budget := _TargetSnapshotBudget.

Definition within (b : budget) : Prop :=
  b_nodes b <= _TARGET_SNAPSHOT_MAX_NODES - 1 /\ b_bytes b <= _TARGET_SNAPSHOT_MAX_BYTES - _TARGET_SNAPSHOT_MARKER_BYTES.

(** [b'] has paid for [n] nodes and [k] bytes since [b]. *)
Definition paid (b b' : budget) (n k : Z) : Prop :=
  within b' /\ b_nodes b + n <= b_nodes b' /\ b_bytes b + k <= b_bytes b'.

Lemma spend_spec n k b ok b' : within b -> spend n k b = (ok, b') ->
  if ok then paid b b' n k else paid b b' 0 0 /\ b_nodes b' = b_nodes b /\ b_bytes b' = b_bytes b.
Proof.
  unfold spend, paid, within. intros Hb. destruct (_ || _) eqn:E; intros [= <- <-]; cbn; [lia|]. bool_inv. lia.
Qed.

Definition accounts (f : value -> budget -> option snap * budget) : Prop :=
  forall v b, within b ->
  match f v b with
  | (Some s, b') => paid b b' (count s) (snap_len s)
  | (None, b') => within b'
  end.

(** The output so far is paid for on top of [n] and [k]. *)
Definition mapping_paid (n k : Z) (st : list (string * snap) * budget) : Prop :=
  within st.2 /\ n + body_count st.1 <= b_nodes st.2 /\ k + body_len st.1 <= b_bytes st.2.

Lemma within_mark b : within b -> within (mark_truncated b).
Proof. done. Qed.

Lemma append_value_paid f n k key v st : accounts f -> mapping_paid n k st -> mapping_paid n k (append_value f key v st).
Proof.
  intros Hf. destruct st as [out b]. intros (Hw & Hn & Hk). cbn [fst snd] in *. unfold append_value.
  destruct (spend _ _ b) as [ok b1] eqn:Es. apply spend_spec in Es; [|done]. destruct ok; cbn [negb].
  - destruct Es as (Hw1 & Hn1 & Hk1). specialize (Hf v b1 Hw1). destruct (f v b1) as [[s|] b2].
    + destruct Hf as (Hw2 & Hn2 & Hk2). destruct (snap_set_sizes key s out) as (? & ? & _).
      unfold mapping_paid. cbn [fst snd]. split; [done|]. lia.
    + unfold mapping_paid, mark_truncated, restore_budget. cbn [fst snd b_nodes b_bytes]. split; [exact Hw|]. lia.
  - destruct Es as ((Hw1 & _) & En & Ek). unfold mapping_paid. cbn [fst snd]. rewrite En, Ek. done.
Qed.

Lemma append_all_paid f n k items st : accounts f -> mapping_paid n k st -> mapping_paid n k (append_all f items st).
Proof.
  intros Hf. unfold append_all. revert st. induction items as [|kv items IH]; intros st Hst; [done|].
  apply IH. by apply append_value_paid.
Qed.

Lemma canonical_budget d b :
  b_nodes (_canonical_mapping_items d b).2 = b_nodes b /\ b_bytes (_canonical_mapping_items d b).2 = b_bytes b.
Proof. unfold _canonical_mapping_items. destruct (unseen _ _ _) as [items []]; done. Qed.

Lemma mapping_paid_start n k b b' : within b -> b_nodes b' = b_nodes b -> b_bytes b' = b_bytes b ->
  b_nodes b = n -> b_bytes b = k -> mapping_paid n k ([], b').
Proof. unfold mapping_paid, within, body_count, body_len, joined_len, total. cbn. lia. Qed.

Lemma mapping_accounts f : accounts f -> forall d b, within b ->
  match _json_safe_mapping f d b with
  | (Some s, b') => paid b b' (count s) (snap_len s)
  | (None, b') => within b'
  end.
Proof.
  intros Hf d b Hb. unfold _json_safe_mapping. destruct (spend 1 2 b) as [ok b1] eqn:Es. apply spend_spec in Es; [|done].
  destruct ok; cbn [negb]; [|by destruct Es as [[? _] _]]. destruct Es as (Hw1 & Hn1 & Hk1).
  pose proof (canonical_budget d b1) as [Hcn Hck]. destruct (_canonical_mapping_items d b1) as [items b2]. cbn [snd] in *.
  pose proof (append_all_paid f (b_nodes b1) (b_bytes b1) items ([], b2) Hf
    (mapping_paid_start _ _ b1 b2 Hw1 Hcn Hck eq_refl eq_refl)) as Hp.
  destruct (append_all f items ([], b2)) as [out b3]. destruct Hp as (Hw3 & Hn3 & Hk3). cbn [fst snd] in *.
  split; [done|]. rewrite snap_len_map. cbn [count]. fold (body_count out). lia.
Qed.

Definition seq_paid (n k : Z) (out : list snap) (b : budget) : Prop :=
  within b /\ n + total (map count out) <= b_nodes b /\ k + joined_len (map snap_len out) <= b_bytes b.

Lemma seq_paid_snoc n k out s b1 b2 : paid b1 b2 (count s) (snap_len s) ->
  n + total (map count out) <= b_nodes b1 ->
  k + joined_len (map snap_len out) + (if nonempty out then 1 else 0) <= b_bytes b1 ->
  seq_paid n k (out ++ [s]) b2.
Proof.
  intros (Hw & Hn & Hk) Hn1 Hk1. unfold seq_paid, joined_len in *. rewrite !map_app, !total_app, length_app, !length_map in *.
  cbn [map length]. change (total [count s]) with (count s + 0). change (total [snap_len s]) with (snap_len s + 0).
  destruct out; cbn [nonempty length] in *; split_and!; try done; lia.
Qed.

Lemma safe_items_paid f n k items out b : accounts f -> seq_paid n k out b ->
  seq_paid n k (safe_items f items out b).1 (safe_items f items out b).2.
Proof.
  intros Hf. revert out b. induction items as [|item items IH]; intros out b Hs; [done|]. destruct Hs as (Hw & Hn & Hk).
  cbn [safe_items]. destruct (spend 0 _ b) as [ok b1] eqn:Es. apply spend_spec in Es; [|done]. destruct ok; cbn [negb].
  - destruct Es as (Hw1 & Hn1 & Hk1). specialize (Hf item b1 Hw1). destruct (f item b1) as [[s|] b2]; apply IH.
    + eapply seq_paid_snoc; [exact Hf|lia|]. destruct (nonempty out); lia.
    + unfold seq_paid, mark_truncated, restore_budget. cbn [b_nodes b_bytes]. split; [exact Hw|]. lia.
  - destruct Es as ((Hw1 & _) & En & Ek). cbn [fst snd]. unfold seq_paid. rewrite En, Ek. done.
Qed.

Lemma sequence_accounts f : accounts f -> forall l b, within b ->
  match _json_safe_sequence f l b with
  | (Some s, b') => paid b b' (count s) (snap_len s)
  | (None, b') => within b'
  end.
Proof.
  intros Hf l b Hb. unfold _json_safe_sequence. destruct (spend 1 2 b) as [ok b1] eqn:Es. apply spend_spec in Es; [|done].
  destruct ok; cbn [negb]; [|by destruct Es as [[? _] _]]. destruct Es as (Hw1 & Hn1 & Hk1).
  assert (seq_paid (b_nodes b1) (b_bytes b1) [] b1) as Hs by (unfold seq_paid, joined_len, total; cbn; split; [done|lia]).
  apply (safe_items_paid f _ _ (take _TARGET_SNAPSHOT_MAX_ITEMS l)) in Hs; [|done].
  destruct (safe_items f _ [] b1) as [out b2]. destruct Hs as (Hw2 & Hn2 & Hk2). cbn [fst snd] in *.
  assert (paid b b2 (count (Seq out)) (snap_len (Seq out))) as Hp.
  { split; [done|]. rewrite snap_len_seq. cbn [count]. lia. }
  by destruct (_ <? _)%nat.
Qed.

Lemma leaf_accounts : accounts safe_leaf.
Proof.
  intros v b Hb. unfold safe_leaf. destruct (spend 1 _ b) as [ok b1] eqn:Es. apply spend_spec in Es; [|done].
  destruct ok; cbn [negb]; [exact Es|by destruct Es as [[? _] _]].
Qed.

Lemma safe_value_accounts levels : accounts (_json_safe_value levels).
Proof.
  induction levels as [|levels IH]; intros v b Hb; destruct v; cbn [_json_safe_value];
    first [exact (leaf_accounts _ b Hb)|exact (mapping_accounts _ IH _ b Hb)|exact (sequence_accounts _ IH _ b Hb)].
Qed.

(** ** The whole snapshot *)

Lemma snapshot_value_paid n k key v st : mapping_paid n k st -> mapping_paid n k (_append_snapshot_value key v st).
Proof. apply append_value_paid, safe_value_accounts. Qed.

Lemma custom_fields_paid n k custom st : mapping_paid n k st -> mapping_paid n k (_append_custom_fields custom st).
Proof.
  destruct st as [out b]. intros (Hw & Hn & Hk). cbn [fst snd] in *. unfold _append_custom_fields.
  destruct (spend 0 _ b) as [ok b1] eqn:Es. apply spend_spec in Es; [|done]. destruct ok; cbn [negb].
  2: { destruct Es as ((Hw1 & _) & En & Ek). unfold mapping_paid. cbn [fst snd]. by rewrite En, Ek. }
  destruct Es as (Hw1 & Hn1 & Hk1). destruct (spend 1 2 b1) as [ok b2] eqn:Es. apply spend_spec in Es; [|done].
  destruct ok; cbn [negb]; [|done]. destruct Es as (Hw2 & Hn2 & Hk2).
  pose proof (canonical_budget custom b2) as [Hcn Hck]. destruct (_canonical_mapping_items custom b2) as [items b3]. cbn [snd] in *.
  set (kept := List.filter _ items).
  pose proof (append_all_paid _ (b_nodes b2) (b_bytes b2) kept ([], b3) (safe_value_accounts _TARGET_SNAPSHOT_MAX_DEPTH)
    (mapping_paid_start _ _ b2 b3 Hw2 Hcn Hck eq_refl eq_refl)) as Hp.
  destruct (append_all _ kept ([], b3)) as [inner b4]. destruct Hp as (Hw4 & Hn4 & Hk4). cbn [fst snd] in *.
  destruct (nonempty inner); [|done]. destruct (snap_set_sizes "custom_fields" (Map inner) out) as (Hl & Hc & _).
  rewrite snap_len_map in Hl. cbn [count] in Hc. fold (body_count inner) in Hc. split; [done|]. cbn [fst snd]. lia.
Qed.

Lemma append_fields_paid n k items st : mapping_paid n k st -> mapping_paid n k (append_fields items st).
Proof.
  revert st. induction items as [|[name v] items IH]; intros st Hst; cbn [append_fields]; [done|].
  destruct (_ || _); [by apply IH|]. destruct (_ <=? _)%nat; [by destruct Hst|]. by apply IH, snapshot_value_paid.
Qed.

(** What a finished snapshot costs, with its marker. *)
Lemma finished_bounds (mark : bool) st : mapping_paid 1 2 st ->
  let d := if mark then add_marker st.1 else st.1 in
  snap_len (Map d) <= _TARGET_SNAPSHOT_MAX_BYTES /\ count (Map d) <= _TARGET_SNAPSHOT_MAX_NODES.
Proof.
  intros ((Hwn & Hwk) & Hn & Hk). cbv zeta. rewrite snap_len_map. cbn [count]. fold (body_count (if mark then add_marker st.1 else st.1)).
  unfold _TARGET_SNAPSHOT_MAX_BYTES, _TARGET_SNAPSHOT_MARKER_BYTES, _TARGET_SNAPSHOT_MAX_NODES in *.
  destruct mark; [|lia].
  destruct (snap_set_sizes _TARGET_SNAPSHOT_MARKER (Leaf false (VBool true)) st.1) as (Hl & Hc & _).
  fold (add_marker st.1) in Hl, Hc. unfold _mapping_entry_bytes in Hl.
  change (_json_length (VStr _TARGET_SNAPSHOT_MARKER)) with 12 in Hl.
  change (snap_len (Leaf false (VBool true))) with 4 in Hl. cbn [count] in Hc. revert Hl. destruct (nonempty st.1); lia.
Qed.

Lemma start_paid : mapping_paid 1 2 ([], (spend 1 2 new_budget).2).
Proof. unfold mapping_paid, within. split_and!; vm_compute; intros ?; discriminate. Qed.

(** The state before the marker. *)
Definition built (o : target_object) : list (string * snap) * budget :=
  let st := _append_snapshot_value "id" (match to_pk o with VNone => to_id o | pk => pk end) ([], (spend 1 2 new_budget).2) in
  let st := _append_snapshot_value "display" (VStr (to_str o)) st in
  let st := match to_name o with VNone => st | name => _append_snapshot_value "name" name st end in
  let st := match to_custom o with VDict ((_ :: _) as custom) => _append_custom_fields custom st | _ => st end in
  let '(items, many) := _target_field_items o in
  append_fields items (if many then (st.1, mark_truncated st.2) else st).

Lemma build_built o : _build_target_object_snapshot o =
  if b_truncated (built o).2 then add_marker (built o).1 else (built o).1.
Proof. unfold _build_target_object_snapshot, built. by destruct (_target_field_items o). Qed.

Lemma built_paid o : mapping_paid 1 2 (built o).
Proof.
  unfold built. destruct (_target_field_items o) as [items many]. apply append_fields_paid.
  set (s1 := _append_snapshot_value "display" _ _).
  assert (mapping_paid 1 2 s1) as H1' by (by repeat apply snapshot_value_paid; apply start_paid).
  set (s2 := match to_name o with VNone => s1 | _ => _ end).
  assert (mapping_paid 1 2 s2) as H2' by (unfold s2; destruct (to_name o); try done; by apply snapshot_value_paid).
  set (s3 := match to_custom o with VDict _ => _ | _ => s2 end).
  assert (mapping_paid 1 2 s3) as H3' by (unfold s3; destruct (to_custom o) as [| | | | | | | | | |[]]; try done; by apply custom_fields_paid).
  by destruct many.
Qed.

Lemma append_value_length f key v st : (length (append_value f key v st).1 <= S (length st.1))%nat.
Proof.
  destruct st as [out b]. unfold append_value. destruct (spend _ _ b) as [[] b1]; cbn [negb fst]; [|lia].
  destruct (f v b1) as [[s|] b2]; cbn [fst]; [apply snap_set_sizes|lia].
Qed.
Lemma snapshot_value_length key v st : (length (_append_snapshot_value key v st).1 <= S (length st.1))%nat.
Proof. apply append_value_length. Qed.
Lemma custom_fields_length custom st : (length (_append_custom_fields custom st).1 <= S (length st.1))%nat.
Proof.
  destruct st as [out b]. unfold _append_custom_fields. destruct (spend 0 _ b) as [[] b1]; cbn [negb fst]; [|lia].
  destruct (spend 1 2 b1) as [[] b2]; cbn [negb fst]; [|lia]. destruct (_canonical_mapping_items custom b2) as [items b3].
  destruct (append_all _ _ _) as [inner b4]. destruct (nonempty inner); cbn [fst]; [apply snap_set_sizes|lia].
Qed.
Lemma append_fields_length items st : (length st.1 <= 94)%nat -> (length (append_fields items st).1 <= 94)%nat.
Proof.
  revert st. induction items as [|[name v] items IH]; intros st Hl; cbn [append_fields]; [done|].
  destruct (_ || _); [by apply IH|]. destruct (_ <=? _)%nat eqn:E; [done|]. apply IH.
  pose proof (snapshot_value_length (str_take _TARGET_SNAPSHOT_MAX_VALUE_LEN name) v st).
  apply Nat.leb_gt in E. unfold _TARGET_SNAPSHOT_MAX_KEYS in E. lia.
Qed.

Lemma built_length o : (length (built o).1 <= 94)%nat.
Proof.
  unfold built. destruct (_target_field_items o) as [items many].
  set (s1 := _append_snapshot_value "display" _ _).
  assert (length s1.1 <= 2)%nat as H1'.
  { unfold s1. etrans; [apply snapshot_value_length|]. apply le_n_S. etrans; [apply snapshot_value_length|]. done. }
  set (s2 := match to_name o with VNone => s1 | _ => _ end).
  assert (length s2.1 <= 3)%nat as H2'.
  { pose proof (fun v => snapshot_value_length "name" v s1) as Hf. unfold s2.
    destruct (to_name o); first [lia|etrans; [apply Hf|lia]]. }
  set (s3 := match to_custom o with VDict _ => _ | _ => s2 end).
  assert (length s3.1 <= 4)%nat as H3'.
  { pose proof (fun c => custom_fields_length c s2) as Hf. unfold s3.
    destruct (to_custom o) as [| | | | | | | | | |[]]; first [lia|etrans; [apply Hf|lia]]. }
  apply append_fields_length. destruct many; cbn [fst]; lia.
Qed.

Lemma raw_bounds o :
  let snapshot := _build_target_object_snapshot o in
  snap_len (Map snapshot) <= _TARGET_SNAPSHOT_MAX_BYTES /\ count (Map snapshot) <= _TARGET_SNAPSHOT_MAX_NODES /\
  (length snapshot <= _TARGET_SNAPSHOT_MAX_KEYS)%nat.
Proof.
  cbv zeta. rewrite build_built. destruct (finished_bounds (b_truncated (built o).2) (built o) (built_paid o)) as [Hl Hc].
  split_and!; [done..|]. pose proof (built_length o). unfold _TARGET_SNAPSHOT_MAX_KEYS. destruct (b_truncated _); [|lia].
  pose proof (proj2 (proj2 (snap_set_sizes _TARGET_SNAPSHOT_MARKER (Leaf false (VBool true)) (built o).1))).
  unfold add_marker. lia.
Qed.

Section Context_.
Context `{PyLib} `{JsonSchema}.

Lemma empty_bounds : snap_len (Map []) <= _TARGET_SNAPSHOT_MAX_BYTES /\ count (Map []) <= _TARGET_SNAPSHOT_MAX_NODES.
Proof. split; vm_compute; discriminate. Qed.

Lemma persisted_bounds v :
  let d := _bounded_persisted_snapshot v in
  snap_len (Map d) <= _TARGET_SNAPSHOT_MAX_BYTES /\ count (Map d) <= _TARGET_SNAPSHOT_MAX_NODES.
Proof.
  cbv zeta. unfold _bounded_persisted_snapshot. generalize (redact_event_value (S _MAX_REDACTION_DEPTH) v EmptyString [] []).
  intros r. destruct r as [| | | | | | | | | |redacted]; try exact empty_bounds. set (items := List.filter _ _).
  pose proof (append_all_paid _ 1 2 items _ (safe_value_accounts _TARGET_SNAPSHOT_MAX_DEPTH) start_paid) as Hp.
  destruct (append_all _ items _) as [out b].
  exact (finished_bounds (b_truncated b || bool_decide (get _TARGET_SNAPSHOT_MARKER redacted = VBool true)) (out, b) Hp).
Qed.
End Context_.

Lemma fingerprint_set_frame k v n key : key <> "command_fingerprint" ->
  dict_get key (fingerprint_set k v n) = dict_get key n.
Proof. intros Hk. unfold fingerprint_set. destruct (get _ n); try done. by rewrite dict_get_set_ne by congruence. Qed.

(** C30: whatever the target object holds, what is taken of it is bounded: the raw snapshot has at most 95
    fields, 1000 nodes and 65536 bytes of compact JSON, and the redacted copy that enters the payload has at
    most 1000 nodes and 65536 bytes too, although redaction can make a value longer; a procedure without a
    Jinja command carries none. *)
Theorem target_snapshot_bounded `{PyLib} `{JsonSchema} o normalized :
  let snapshot := _build_target_object_snapshot o in
  _json_length (raw (Map snapshot)) <= 65536 /\ count (Map snapshot) <= 1000 /\ (length snapshot <= 95)%nat /\
  _apply_target_object_context false (Some o) normalized = normalized /\
  exists p, _json_length (raw (Map p)) <= 65536 /\ count (Map p) <= 1000 /\
    dict_get "_target_object" (_apply_target_object_context true (Some o) normalized) =
      match snapshot with [] => dict_get "_target_object" normalized | _ => Some (raw (Map p)) end.
Proof.
  cbv zeta. destruct (raw_bounds o) as (Hl & Hc & Hk). split_and!; [exact Hl|exact Hc|exact Hk|reflexivity|].
  exists (_bounded_persisted_snapshot (_free_text_policy_copy (Map (_build_target_object_snapshot o)))).
  destruct (persisted_bounds (_free_text_policy_copy (Map (_build_target_object_snapshot o)))) as [Hpl Hpc].
  split; [exact Hpl|]. split; [exact Hpc|]. unfold _apply_target_object_context. cbn [negb].
  destruct (_build_target_object_snapshot o) as [|e snapshot]; [reflexivity|].
  rewrite !fingerprint_set_frame by discriminate. apply dict_get_set_eq.
Qed.

(** ** What the snapshot hides *)

(** The scalars of a value, at any depth. *)
Fixpoint atoms (v : value) : list value :=
  match v with
  | VList l | VTuple l => flat_map atoms l
  | VDict d => flat_map (fun kv => atoms kv.2) d
  | _ => [v]
  end.

(** The scalars of an object, and the two the builder writes itself. *)
Definition sources (o : target_object) : list value :=
  atoms (to_pk o) ++ atoms (to_id o) ++ [VStr (to_str o)] ++ atoms (to_name o) ++ atoms (to_custom o)
  ++ atoms (VDict (to_meta o)) ++ atoms (VDict (to_dict o)) ++ [VStr "[truncated]"; VBool true].

Lemma take_sub {A} n (l : list A) x : x ∈ take n l -> x ∈ l.
Proof. intros Hx. rewrite <- (take_drop n l). apply elem_of_app. by left. Qed.

Lemma atoms_entry (d : dict) k v a : (k, v) ∈ d -> a ∈ atoms v -> a ∈ atoms (VDict d).
Proof.
  intros Hin Ha. cbn [atoms]. apply list_elem_of_In, in_flat_map. exists (k, v). cbn [snd].
  split; by apply list_elem_of_In.
Qed.
Lemma atoms_item l v a : v ∈ l -> a ∈ atoms v -> a ∈ flat_map atoms l.
Proof. intros Hin Ha. apply list_elem_of_In, in_flat_map. exists v. split; by apply list_elem_of_In. Qed.

Lemma elem_snap_set k s d e : e ∈ snap_set k s d -> e = (k, s) \/ e ∈ d.
Proof.
  induction d as [|[k' s'] d IH]; cbn [snap_set]; [intros ?%list_elem_of_singleton; by left|].
  destruct (String.eqb_spec k' k) as [->|]; intros [Heq|Hin]%elem_of_cons; set_solver.
Qed.

(** Every entry satisfies [P], given what is appended. *)
Lemma append_value_entries (P : string * snap -> Prop) f key v st :
  (forall s b b', f v b = (Some s, b') -> P (key, s)) -> Forall P st.1 -> Forall P (append_value f key v st).1.
Proof.
  intros Hf. destruct st as [out b]. unfold append_value. destruct (spend _ _ b) as [[] b1]; [|done]. cbn [negb fst].
  destruct (f v b1) as [[s|] b2] eqn:E; [|done]. cbn [fst]. intros Hout. apply Forall_forall. intros e [->|He]%elem_snap_set.
  - by eapply Hf.
  - rewrite Forall_forall in Hout. auto.
Qed.
Lemma append_all_entries (P : string * snap -> Prop) f (items : dict) st :
  (forall kv s b b', kv ∈ items -> f kv.2 b = (Some s, b') -> P (kv.1, s)) -> Forall P st.1 -> Forall P (append_all f items st).1.
Proof.
  unfold append_all. revert st. induction items as [|kv items IH]; intros st Hf Hst; [done|]. cbn [fold_left]. apply IH.
  - intros. eapply Hf; [by right|done].
  - apply append_value_entries; [|done]. intros. eapply Hf; [by left|done].
Qed.

Lemma unseen_sub seen entries truncated k v :
  (k, v) ∈ (unseen seen entries truncated).1 -> exists r, (k, r, v) ∈ entries.
Proof.
  revert seen truncated. induction entries as [|[[key r] item] entries IH]; intros seen truncated; cbn [unseen];
    [by intros ?%elem_of_nil|].
  destruct (str_in key seen).
  - intros (r0 & Hin)%IH. exists r0. by right.
  - destruct (unseen (key :: seen) entries truncated) as [d t] eqn:E. cbn [fst].
    intros [[= -> ->]|Hin]%elem_of_cons; [exists r; by left|].
    specialize (IH (key :: seen) truncated). rewrite E in IH. destruct (IH Hin) as (r0 & ?). exists r0. by right.
Qed.
Lemma canonical_sub d b k v :
  (k, v) ∈ (_canonical_mapping_items d b).1 ->
  exists k0, (k0, v) ∈ d /\ k = str_take _TARGET_SNAPSHOT_MAX_VALUE_LEN k0.
Proof.
  unfold _canonical_mapping_items. destruct (unseen _ _ _) as [items t] eqn:E. cbn [fst]. intros Hin.
  match type of E with unseen _ ?l ?t = _ => pose proof (unseen_sub [] l t k v) as Hu end.
  rewrite E in Hu. destruct (Hu Hin) as (r & Hk). rewrite merge_sort_Permutation in Hk.
  apply list_elem_of_fmap in Hk as ([k1 v1] & [= -> -> ->] & Hk).
  exists k1. split; [|done]. eapply take_sub; exact Hk.
Qed.

Section Drawn.
(** The scalars the copy may be made of. *)
Variable from : list value.
Definition drawn (v : value) : Prop := forall a, a ∈ atoms v -> a ∈ from.
Hypothesis cut_known : VStr "[truncated]" ∈ from.

(** The bounded form of one of them, and of no text that matches the secret patterns. *)
Definition harmless (v : value) : Prop :=
exists src, src ∈ from /\ v = _json_safe_scalar src /\ forall t, src = VStr t -> _matches_secret_pattern t = false.

Fixpoint leaves (s : snap) : list (bool * value) :=
  match s with
  | Leaf m v => [(m, v)]
  | Seq l => flat_map leaves l
  | Map d => flat_map (fun kv => leaves kv.2) d
  end.
Definition marked (s : snap) : Prop := forall v, (false, v) ∈ leaves s -> harmless v.
Definition marks (f : value -> budget -> option snap * budget) : Prop :=
  forall v b s b', drawn v -> f v b = (Some s, b') -> marked s.

Lemma marked_seq l : Forall marked l -> marked (Seq l).
Proof.
  intros Hl v. cbn [leaves]. rewrite list_elem_of_In, in_flat_map. intros (s & Hs & Hv). rewrite Forall_forall in Hl.
  apply (Hl s); by apply list_elem_of_In.
Qed.
Lemma marked_map (d : list (string * snap)) : Forall (fun kv => marked kv.2) d -> marked (Map d).
Proof.
  intros Hl v. cbn [leaves]. rewrite list_elem_of_In, in_flat_map. intros (s & Hs & Hv). rewrite Forall_forall in Hl.
  apply (Hl s); by apply list_elem_of_In.
Qed.

Lemma drawn_items d b : drawn (VDict d) -> forall kv, kv ∈ (_canonical_mapping_items d b).1 -> drawn kv.2.
Proof. intros Hd [k v] (k0 & Hk & _)%canonical_sub a Ha. apply Hd. by eapply atoms_entry. Qed.

Lemma mapping_marks f d b s b' : marks f -> drawn (VDict d) -> _json_safe_mapping f d b = (Some s, b') -> marked s.
Proof.
  intros Hf Hd. unfold _json_safe_mapping. destruct (spend 1 2 b) as [[] b1]; [|done]. cbn [negb].
  pose proof (drawn_items d b1 Hd) as Hitems. destruct (_canonical_mapping_items d b1) as [items b2]. cbn [fst] in Hitems.
  pose proof (append_all_entries (fun kv => marked kv.2) f items ([], b2)
    ltac:(intros kv s0 b0 b0' Hkv; apply Hf; by apply Hitems) ltac:(constructor)) as Hall.
  destruct (append_all f items ([], b2)) as [out b3]. intros [= <- <-]. by apply marked_map.
Qed.

Lemma safe_items_marks f items out b :
  marks f -> (forall v, v ∈ items -> drawn v) -> Forall marked out -> Forall marked (safe_items f items out b).1.
Proof.
  intros Hf. revert out b. induction items as [|item items IH]; intros out b Hd Hout; [done|]. cbn [safe_items].
  assert (forall v, v ∈ items -> drawn v) as Hd' by (intros v Hv; apply Hd; by right).
  destruct (spend _ _ b) as [[] b1]; [|done]. cbn [negb]. destruct (f item b1) as [[s|] b2] eqn:E; apply IH; try done.
  apply Forall_app. split; [done|]. apply Forall_singleton. eapply Hf; [|exact E]. apply Hd. by left.
Qed.

Lemma sequence_marks f l b s b' :
  marks f -> drawn (VList l) -> _json_safe_sequence f l b = (Some s, b') -> marked s.
Proof.
  intros Hf Hd. unfold _json_safe_sequence. destruct (spend 1 2 b) as [[] b1]; [|done]. cbn [negb].
  pose proof (safe_items_marks f (take _TARGET_SNAPSHOT_MAX_ITEMS l) [] b1 Hf
    ltac:(intros v Hv a Ha; apply Hd; cbn [atoms]; eapply atoms_item; [by eapply take_sub|exact Ha]) ltac:(constructor)) as Hall.
  destruct (safe_items f _ [] b1) as [out b2]. intros [= <- _]. by apply marked_seq.
Qed.

Lemma leaf_marks v b s b' : v ∈ from -> safe_leaf v b = (Some s, b') -> marked s.
Proof.
  intros Hv. unfold safe_leaf. destruct (spend _ _ b) as [[] b1]; [|done]. cbn [negb]. intros [= <- _] w.
  cbn [leaves]. intros Hw%list_elem_of_singleton. injection Hw as Hm ->. exists v. split; [done|]. split; [done|]. by intros t ->.
Qed.

Lemma safe_value_marks levels : marks (_json_safe_value levels).
Proof.
  induction levels as [|levels IH]; intros v b s b' Hd; destruct v; cbn [_json_safe_value];
    first [by apply leaf_marks|apply leaf_marks, Hd; by apply list_elem_of_singleton
          |apply (mapping_marks _ _ b s b' IH Hd)|apply (sequence_marks _ _ b s b' IH Hd)].
Qed.

(** A field the snapshot may have. *)
Definition field_allowed (kv : string * snap) : Prop :=
  marked kv.2 /\
  (kv.1 ∈ ["id"; "display"; "name"] \/ kv = (_TARGET_SNAPSHOT_MARKER, Leaf false (VBool true)) \/
   (exists d, kv = ("custom_fields", Map d) /\ Forall (fun e => _SENSITIVE_FIELD_RE e.1 = false) d) \/
   (_SENSITIVE_FIELD_RE kv.1 = false /\ str_startswith "_" kv.1 = false)).

Lemma snapshot_value_allowed key v st :
  drawn v -> key ∈ ["id"; "display"; "name"] \/ (_SENSITIVE_FIELD_RE key = false /\ str_startswith "_" key = false) ->
  Forall field_allowed st.1 -> Forall field_allowed (_append_snapshot_value key v st).1.
Proof.
  intros Hv Hkey. apply append_value_entries. intros s b b' Hs. split; [exact (safe_value_marks _ _ _ _ _ Hv Hs)|]. cbn [fst]. tauto.
Qed.

Lemma custom_fields_allowed custom st :
  drawn (VDict custom) -> Forall field_allowed st.1 -> Forall field_allowed (_append_custom_fields custom st).1.
Proof.
  intros Hd. destruct st as [out b]. unfold _append_custom_fields. destruct (spend 0 _ b) as [[] b1]; [|done]. cbn [negb].
  destruct (spend 1 2 b1) as [[] b2]; [|done]. cbn [negb].
  pose proof (drawn_items custom b2 Hd) as Hitems. destruct (_canonical_mapping_items custom b2) as [items b3]. cbn [fst] in Hitems.
  set (kept := List.filter _ items).
  pose proof (append_all_entries (fun kv => marked kv.2 /\ _SENSITIVE_FIELD_RE kv.1 = false)
    (_json_safe_value _TARGET_SNAPSHOT_MAX_DEPTH) kept ([], b3)) as Hall.
  destruct (append_all _ kept ([], b3)) as [inner b4]. cbn [fst] in *. destruct (nonempty inner); [|done]. cbn [fst].
  intros Hout. apply Forall_forall. intros e [->|He]%elem_snap_set; [|rewrite Forall_forall in Hout; auto].
  assert (Forall (fun kv : string * snap => marked kv.2 /\ _SENSITIVE_FIELD_RE kv.1 = false) inner) as Hin.
  { apply Hall; [|constructor]. intros kv s b0 b0' Hkv Hs. apply list_elem_of_In, filter_In in Hkv as [Hin Hkv%negb_true_iff].
    split; [|exact Hkv]. eapply safe_value_marks; [|exact Hs]. apply Hitems. by apply list_elem_of_In. }
  split; [apply marked_map; by eapply Forall_impl; [exact Hin|]; intros ? []|]. right. right. left. exists inner.
  split; [done|]. by eapply Forall_impl; [exact Hin|]; intros ? [].
Qed.

Lemma append_fields_allowed items st :
  drawn (VDict items) -> Forall field_allowed st.1 -> Forall field_allowed (append_fields items st).1.
Proof.
  revert st. induction items as [|[name v] items IH]; intros st Hd Hst; cbn [append_fields]; [done|].
  assert (drawn (VDict items)) as Hd' by (intros a Ha; apply Hd; cbn [atoms flat_map]; apply elem_of_app; by right).
  destruct (_ || _) eqn:E; [by apply IH|]. destruct (_ <=? _)%nat; [done|]. apply IH, snapshot_value_allowed; [done| | |done].
  { intros a Ha. apply Hd. eapply atoms_entry; [by left|exact Ha]. }
  apply orb_false_iff in E as [E _]. apply orb_false_iff in E as [E Hs]. apply orb_false_iff in E as [Hu _]. by right.
Qed.

End Drawn.

Lemma field_items_sub o kv : kv ∈ (_target_field_items o).1 -> kv ∈ to_meta o \/ kv ∈ to_dict o.
Proof.
  unfold _target_field_items. destruct (to_meta o) as [|e fields]; cbn [fst]; rewrite list_elem_of_In;
    intros [Hin _]%filter_In; [right|left]; eapply take_sub; by apply list_elem_of_In.
Qed.
Lemma drawn_fields o : drawn (sources o) (VDict (_target_field_items o).1).
Proof.
  intros a. cbn [atoms]. rewrite list_elem_of_In, in_flat_map. intros ([k v] & Hkv & Ha).
  apply list_elem_of_In in Hkv, Ha. unfold sources.
  destruct (field_items_sub o _ Hkv) as [Hin|Hin]; pose proof (atoms_entry _ _ _ a Hin Ha); rewrite !elem_of_app; tauto.
Qed.

Lemma build_allowed o : Forall (field_allowed (sources o)) (_build_target_object_snapshot o).
Proof.
  assert (VStr "[truncated]" ∈ sources o) as Hcut by (unfold sources; set_solver).
  assert (Forall (field_allowed (sources o)) (built o).1) as Hb.
  { unfold built. pose proof (drawn_fields o) as Hdf. destruct (_target_field_items o) as [items many]. cbn [fst] in Hdf.
    set (s1 := _append_snapshot_value "display" _ _).
    assert (Forall (field_allowed (sources o)) s1.1) as H1'.
    { apply snapshot_value_allowed; [done| |set_solver|apply snapshot_value_allowed; [done| |set_solver|constructor]].
      - intros a ->%list_elem_of_singleton. unfold sources. set_solver.
      - intros a Ha. unfold sources. destruct (to_pk o) eqn:Ep; set_solver. }
    set (s2 := match to_name o with VNone => s1 | _ => _ end).
    assert (Forall (field_allowed (sources o)) s2.1) as H2'.
    { assert (drawn (sources o) (to_name o)) as Hn by (intros a Ha; unfold sources; set_solver).
      unfold s2. destruct (to_name o); try done; by (apply snapshot_value_allowed; [done|done|set_solver|done]). }
    set (s3 := match to_custom o with VDict _ => _ | _ => s2 end).
    assert (Forall (field_allowed (sources o)) s3.1) as H3'.
    { assert (drawn (sources o) (to_custom o)) as Hc by (intros a Ha; unfold sources; set_solver).
      unfold s3. destruct (to_custom o) as [| | | | | | | | | |[]]; try done; by apply custom_fields_allowed. }
    apply append_fields_allowed; [done|done|]. by destruct many. }
  rewrite build_built. destruct (b_truncated _); [|done]. apply Forall_forall.
  intros e [->|He]%elem_snap_set; [|rewrite Forall_forall in Hb; auto]. split; [|by right; left].
  intros v Hv%list_elem_of_singleton. injection Hv as ->. exists (VBool true). unfold sources. split; [set_solver|done].
Qed.

(** The texts and the names of a value, at any depth. *)
Fixpoint texts (v : value) : list string :=
  match v with
  | VStr s => [s]
  | VList l | VTuple l | VSet l => flat_map texts l
  | VDict d => flat_map (fun kv => texts kv.2) d
  | _ => []
  end.
Fixpoint names (v : value) : list string :=
  match v with
  | VList l | VTuple l | VSet l => flat_map names l
  | VDict d => flat_map (fun kv => kv.1 :: names kv.2) d
  | _ => []
  end.

Section Policy.
Context `{PyLib}.

Lemma policy_entries (entries acc : dict) k v :
  (k, v) ∈ fold_left (fun d kv => dict_set kv.1 kv.2 d) entries acc -> (k, v) ∈ acc \/ (k, v) ∈ entries.
Proof.
  revert acc. induction entries as [|[k0 v0] r IH]; intros acc; cbn [fold_left fst snd]; [by left|].
  intros [Hin|Hin]%IH; [|right; by right]. apply elem_dict_set in Hin as [->|Hin]; [right; left|by left].
Qed.

(** The persisted form of a name. *)
Definition name_hidden (k : string) : Prop :=
  _matches_secret_pattern k = false \/ exists k0, k = _free_text_policy_key k0 /\ _matches_secret_pattern k0 = true.

Lemma policy_key_hidden k : name_hidden (_free_text_policy_key k).
Proof.
  destruct (_matches_secret_pattern k) eqn:E; [right; by exists k|]. left. unfold _free_text_policy_key. by rewrite E.
Qed.

Lemma scalar_texts from v t : harmless from v -> t ∈ texts v -> harmless from (VStr t).
Proof.
  intros (src & Hin & -> & Hsrc) Ht. exists src. split; [done|]. split; [|done].
  unfold _json_safe_scalar in *. by destruct src; cbn [texts] in Ht; apply list_elem_of_singleton in Ht as -> || apply elem_of_nil in Ht.
Qed.

Lemma policy_texts from s t :
  marked from s -> t ∈ texts (_free_text_policy_copy s) -> t = "[REDACTED]" \/ harmless from (VStr t).
Proof.
  induction s as [m v|l IH|d IH] using snap_ind_nested; cbn [_free_text_policy_copy texts]; intros Hm.
  - destruct m; [intros ->%list_elem_of_singleton; by left|]. intros Ht. right. eapply scalar_texts; [|exact Ht].
    apply Hm. cbn [leaves]. by apply list_elem_of_singleton.
  - rewrite list_elem_of_In, in_flat_map. intros (v & (s & <- & Hs)%in_map_iff & Ht). rewrite Forall_forall in IH.
    apply (IH s); [by apply list_elem_of_In| |by apply list_elem_of_In]. intros w Hw. apply Hm. cbn [leaves].
    apply list_elem_of_In, in_flat_map. exists s. split; [done|]. by apply list_elem_of_In.
  - rewrite list_elem_of_In, in_flat_map. intros ([k v] & Hkv & Ht). cbn [snd] in Ht.
    apply list_elem_of_In, policy_entries in Hkv as [Hkv|Hkv]; [by apply elem_of_nil in Hkv|].
    apply list_elem_of_In, in_map_iff in Hkv as ([k0 s] & [= <- <-] & Hs). rewrite Forall_forall in IH.
    apply (IH (k0, s)); [by apply list_elem_of_In| |by apply list_elem_of_In]. intros w Hw. apply Hm. cbn [leaves].
    apply list_elem_of_In, in_flat_map. exists (k0, s). split; [done|]. by apply list_elem_of_In.
Qed.

Lemma scalar_names v : names (_json_safe_scalar v) = [].
Proof. by destruct v. Qed.

Lemma policy_names from s k : marked from s -> k ∈ names (_free_text_policy_copy s) -> name_hidden k.
Proof.
  induction s as [m v|l IH|d IH] using snap_ind_nested; cbn [_free_text_policy_copy names]; intros Hm.
  - destruct m; [intros ?%elem_of_nil; done|]. destruct (Hm v) as (src & _ & -> & _); [cbn [leaves]; by apply list_elem_of_singleton|].
    rewrite scalar_names. intros ?%elem_of_nil. done.
  - rewrite list_elem_of_In, in_flat_map. intros (v & (s & <- & Hs)%in_map_iff & Ht). rewrite Forall_forall in IH.
    apply (IH s); [by apply list_elem_of_In| |by apply list_elem_of_In]. intros w Hw. apply Hm. cbn [leaves].
    apply list_elem_of_In, in_flat_map. exists s. split; [done|]. by apply list_elem_of_In.
  - rewrite list_elem_of_In, in_flat_map. intros ([k1 v] & Hkv & Ht). cbn [fst snd] in Ht.
    apply list_elem_of_In, policy_entries in Hkv as [Hkv|Hkv]; [by apply elem_of_nil in Hkv|].
    apply list_elem_of_In, in_map_iff in Hkv as ([k0 s] & [= <- <-] & Hs). destruct Ht as [<-|Ht]; [apply policy_key_hidden|].
    rewrite Forall_forall in IH. apply (IH (k0, s)); [by apply list_elem_of_In| |by apply list_elem_of_In]. intros w Hw.
    apply Hm. cbn [leaves]. apply list_elem_of_In, in_flat_map. exists (k0, s). split; [done|]. by apply list_elem_of_In.
Qed.
End Policy.

(** *** What is stored *)

(** A bounded copy: nothing but scalars cut to their bound, entries under their names
    cut to the bound, items, and marks of a cut. *)
Inductive bounded_copy : value -> value -> Prop :=
  | copy_scalar v : bounded_copy v (_json_safe_scalar v)
  | copy_cut v : bounded_copy v (VStr "[truncated]")
  | copy_list l l' : (forall x', x' ∈ l' -> exists x, x ∈ l /\ bounded_copy x x') -> bounded_copy (VList l) (VList l')
  | copy_tuple l l' : (forall x', x' ∈ l' -> exists x, x ∈ l /\ bounded_copy x x') -> bounded_copy (VTuple l) (VList l')
  | copy_dict (d d' : dict) :
      (forall k' x', (k', x') ∈ d' ->
         exists k x, (k, x) ∈ d /\ k' = str_take _TARGET_SNAPSHOT_MAX_VALUE_LEN k /\ bounded_copy x x') ->
      bounded_copy (VDict d) (VDict d').

Definition copies (f : value -> budget -> option snap * budget) : Prop :=
  forall v b s b', f v b = (Some s, b') -> bounded_copy v (raw s).

Lemma mapping_copies f d b s b' : copies f -> _json_safe_mapping f d b = (Some s, b') -> bounded_copy (VDict d) (raw s).
Proof.
  intros Hf. unfold _json_safe_mapping. destruct (spend 1 2 b) as [[] b1]; [|done]. cbn [negb].
  pose proof (canonical_sub d b1) as Hitems. destruct (_canonical_mapping_items d b1) as [items b2]. cbn [fst] in Hitems.
  pose proof (append_all_entries (fun kv => exists k x, (k, x) ∈ d /\
      kv.1 = str_take _TARGET_SNAPSHOT_MAX_VALUE_LEN k /\ bounded_copy x (raw kv.2)) f items ([], b2)) as Hall.
  destruct (append_all f items ([], b2)) as [out b3]. intros [= <- <-]. cbn [raw]. apply copy_dict.
  assert (Forall (fun kv : string * snap => exists k x, (k, x) ∈ d /\
      kv.1 = str_take _TARGET_SNAPSHOT_MAX_VALUE_LEN k /\ bounded_copy x (raw kv.2)) out) as Hout.
  { apply Hall; [|constructor]. intros [k v] s b0 b0' Hkv Hs. destruct (Hitems k v Hkv) as (k0 & Hk0 & ->).
    exists k0, v. split; [done|]. split; [done|]. by eapply Hf. }
  intros k' x' ([k s] & [= -> ->] & Hin)%list_elem_of_fmap. rewrite Forall_forall in Hout. exact (Hout _ Hin).
Qed.

Lemma safe_items_copies f (l items : list value) out b :
  copies f -> (forall v, v ∈ items -> v ∈ l) -> Forall (fun s => exists x, x ∈ l /\ bounded_copy x (raw s)) out ->
  Forall (fun s => exists x, x ∈ l /\ bounded_copy x (raw s)) (safe_items f items out b).1.
Proof.
  intros Hf. revert out b. induction items as [|item items IH]; intros out b Hd Hout; [done|]. cbn [safe_items].
  assert (forall v, v ∈ items -> v ∈ l) as Hd' by (intros v Hv; apply Hd; by right).
  destruct (spend _ _ b) as [[] b1]; [|done]. cbn [negb]. destruct (f item b1) as [[s|] b2] eqn:E; apply IH; try done.
  apply Forall_app. split; [done|]. apply Forall_singleton. exists item. split; [apply Hd; by left|by eapply Hf].
Qed.

Lemma sequence_copies f (l : list value) b s b' :
  copies f -> _json_safe_sequence f l b = (Some s, b') ->
  exists l', raw s = VList l' /\ forall x', x' ∈ l' -> exists x, x ∈ l /\ bounded_copy x x'.
Proof.
  intros Hf. unfold _json_safe_sequence. destruct (spend 1 2 b) as [[] b1]; [|done]. cbn [negb].
  pose proof (safe_items_copies f l (take _TARGET_SNAPSHOT_MAX_ITEMS l) [] b1 Hf (take_sub _ l) ltac:(constructor)) as Hall.
  destruct (safe_items f _ [] b1) as [out b2]. intros [= <- _]. cbn [raw]. eexists. split; [done|].
  intros x' (s & -> & Hin)%list_elem_of_fmap. rewrite Forall_forall in Hall. exact (Hall _ Hin).
Qed.

Lemma leaf_raw v b s b' : safe_leaf v b = (Some s, b') -> raw s = _json_safe_scalar v.
Proof. unfold safe_leaf. destruct (spend _ _ b) as [[] b1]; [|done]. cbn [negb]. by intros [= <- _]. Qed.

Lemma safe_value_copies levels : copies (_json_safe_value levels).
Proof.
  induction levels as [|levels IH]; intros v b s b'; destruct v; cbn [_json_safe_value]; intros Hs.
  all: try (rewrite (leaf_raw _ _ _ _ Hs); apply copy_scalar).
  1-3: rewrite (leaf_raw _ _ _ _ Hs); apply copy_cut.
  - destruct (sequence_copies _ _ _ _ _ IH Hs) as (l' & -> & Hl). by apply copy_list.
  - destruct (sequence_copies _ _ _ _ _ IH Hs) as (l' & -> & Hl). by apply copy_tuple.
  - exact (mapping_copies _ _ _ _ _ IH Hs).
Qed.

(** Of the redacted copy [redacted], the stored snapshot holds a bounded copy of each
    value it takes, and its own mark. *)
Definition stored_from (redacted : dict) (stored : list (string * snap)) : Prop :=
  forall k s, (k, s) ∈ stored ->
    (k = _TARGET_SNAPSHOT_MARKER /\ s = Leaf false (VBool true)) \/ exists x, (k, x) ∈ redacted /\ bounded_copy x (raw s).

Section Stored.
Context `{PyLib} `{JsonSchema}.
Hypothesis hmac_hex : forall salt s, str_forall lower_hex (salted_hmac salt s) = true.

Lemma stored_clean snapshot :
  exists redacted, clean (VDict redacted) /\ stored_from redacted (_bounded_persisted_snapshot snapshot).
Proof.
  unfold _bounded_persisted_snapshot.
  pose proof (redact_event_value_clean hmac_hex (S _MAX_REDACTION_DEPTH) snapshot EmptyString [] [] eq_refl) as Hc.
  destruct (redact_event_value _ snapshot _ _ _) as [| | | | | | | | | |redacted];
    try (exists []; split; [apply clean_dict; by intros ? ? ?%elem_of_nil|by intros ? ? ?%elem_of_nil]).
  exists redacted. split; [exact Hc|]. set (items := List.filter _ _).
  pose proof (append_all_entries (fun kv => exists x, (kv.1, x) ∈ redacted /\ bounded_copy x (raw kv.2))
    (_json_safe_value _TARGET_SNAPSHOT_MAX_DEPTH) items ([], (spend 1 2 new_budget).2)) as Hall.
  destruct (append_all _ items _) as [out b].
  assert (Forall (fun kv : string * snap => exists x, (kv.1, x) ∈ redacted /\ bounded_copy x (raw kv.2)) out) as Hout.
  { apply Hall; [|constructor]. intros [k v] s b0 b0' Hkv Hs. exists v. split; [|by eapply safe_value_copies].
    apply list_elem_of_In, filter_In in Hkv as [Hin _]. apply list_elem_of_In in Hin.
    unfold sort_keys in Hin. by rewrite merge_sort_Permutation in Hin. }
  rewrite Forall_forall in Hout.
  destruct (_ || _); intros k s Hin; [apply elem_snap_set in Hin as [[= -> ->]|Hin]; [by left|]|]; right; exact (Hout _ Hin).
Qed.
End Stored.


(** ** An example *)

#[local] Transparent json_dumps redact_event_value.

Definition demo_object : target_object :=
  {| to_pk := VInt 7; to_id := VNone; to_str := "sw1"; to_name := VStr "sw1";
     to_custom := VDict [("api_token", VStr "x"); ("rack", VList [VInt 1; VTuple [VBool true]])];
     to_meta := [("id", VInt 7); ("serial", VStr "S1"); ("_state", VNone); ("auth_key", VStr "y");
                 ("custom_field_data", VDict [("api_token", VStr "x")])];
     to_dict := [] |}.

Lemma demo_snapshot :
  raw (Map (_build_target_object_snapshot demo_object)) =
  VDict [("id", VInt 7); ("display", VStr "sw1"); ("name", VStr "sw1");
         ("custom_fields", VDict [("rack", VList [VInt 1; VList [VBool true]])]); ("serial", VStr "S1")].
Proof. vm_compute. reflexivity. Qed.

(** The count of the budget is the length of the compact text. *)
Lemma demo_snapshot_bytes :
  b_bytes (built demo_object).2 = _json_length (raw (Map (_build_target_object_snapshot demo_object))) /\
  b_nodes (built demo_object).2 = count (Map (_build_target_object_snapshot demo_object)).
Proof. vm_compute. done. Qed.

Section Witnesses.
Import MiniSchema Demo.

(** A name that holds a password and a nested sensitive name. *)
Definition secret_object : target_object :=
  {| to_pk := VInt 7; to_id := VNone; to_str := "sw1"; to_name := VStr "password=hunter2";
     to_custom := VDict [("rack", VDict [("door", VDict [("lock_key", VStr "1234")])])];
     to_meta := []; to_dict := [] |}.

Example secret_object_stored :
  raw (Map (_bounded_persisted_snapshot (_free_text_policy_copy (Map (_build_target_object_snapshot secret_object))))) =
  VDict [("custom_fields", VDict [("rack", VDict [("door", VDict [("lock_key", VStr REDACTED)])])]);
         ("display", VStr "sw1"); ("id", VInt 7); ("name", VStr REDACTED)].
Proof. vm_compute. reflexivity. Qed.

End Witnesses.
