(* ===== verification/SchemaSpec.v ===== *)
(** * JSON Schema, the fragment the procedure contracts use

    The validator is third-party code ([JsonSchema] in [CredentialContract]).  This
    file writes down what its documentation says of the keywords that occur in the
    result schemas of the repository, as an executable evaluator [valid], and states
    as a class that the validator agrees with it on schemas of that fragment
    ([JsonSchemaSpec]).  The evaluator recurses into sub-schemas with fuel, the depth
    of the schema; [supported] checks that the fuel is enough and that the schema
    uses no other keyword. *)

From S2P Require Import Prelude PyValue CredentialContract.

(** ** Instances: what [json.loads] returns, numbers with a fraction apart *)
Fixpoint json_value (v : value) : bool :=
  match v with
  | VNone | VBool _ | VInt _ | VStr _ => true
  | VList l => forallb json_value l
  | VDict d => bool_decide (NoDup (keys d)) && forallb (fun kv => json_value kv.2) d
  | _ => false
  end.

(** Equality of JSON values: objects are unordered, [true] is not [1]. *)
Fixpoint jcanon (v : value) : value :=
  match v with
  | VList l => VList (map jcanon l)
  | VDict d => VDict (sort_keys (map (fun kv => (kv.1, jcanon kv.2)) d))
  | _ => v
  end.
Definition json_eqb (v w : value) : bool := bool_decide (jcanon v = jcanon w).

(** ** Patterns

    [$] also matches before a final newline; [(?![\s\S])] matches at the end only. *)
Definition hex_of (n : Z) (s : string) : bool := str_forall lower_hex s && (str_len s =? n).
Definition newline : string := String "010"%char EmptyString.
Definition drop_newline (s : string) : string :=
  if str_endswith newline s then str_take (str_len s - 1) s else s.
Definition PATTERNS : list (string * (string -> bool)) :=
  [("^[0-9a-f]{64}$", fun s => hex_of 64 s || hex_of 64 (drop_newline s));
   ("^[0-9a-f]{64}(?![\s\S])", hex_of 64);
   ("^[0-9a-f]{40}(?![\s\S])", hex_of 40)].
Definition pattern_of (p : string) : option (string -> bool) :=
  (fun e => e.2.2) <$> list_find (fun e => e.1 = p) PATTERNS.

(** ** Keywords *)
Definition has_type (t : value) (v : value) : bool :=
  match t, v with
  | VStr "object", VDict _ | VStr "array", VList _ | VStr "string", VStr _
  | VStr "integer", VInt _ | VStr "number", VInt _ | VStr "boolean", VBool _
  | VStr "null", VNone => true
  | _, _ => false
  end.
Definition names_of (v : value) : list string :=
  match v with VDict d => keys d | _ => [] end.
Definition count {A} (p : A -> bool) (l : list A) : nat := length (List.filter p l).

Section Keywords.
Variable sub : value -> value -> bool.

Definition type_ok (arg v : value) : bool :=
  match arg with
  | VList ts => existsb (fun t => has_type t v) ts
  | t => has_type t v
  end.
Definition required_ok (arg v : value) : bool :=
  match arg, v with
  | VList names, VDict d =>
      forallb (fun n => match n with VStr k => dict_mem k d | _ => true end) names
  | _, _ => true
  end.
Definition properties_ok (arg v : value) : bool :=
  match arg, v with
  | VDict props, VDict d =>
      forallb (fun e => match dict_get e.1 d with Some x => sub e.2 x | None => true end) props
  | _, _ => true
  end.
Definition additional_ok (s : dict) (arg v : value) : bool :=
  match arg, v with
  | VBool false, VDict d => forallb (fun k => str_in k (names_of (get "properties" s))) (keys d)
  | _, _ => true
  end.
Definition length_ok (cmp : Z -> Z -> bool) (arg v : value) : bool :=
  match arg, v with
  | VInt n, VStr s => cmp (str_len s) n
  | _, _ => true
  end.
Definition bound_ok (cmp : Z -> Z -> bool) (arg v : value) : bool :=
  match arg, v with
  | VInt n, VInt z => cmp z n
  | _, _ => true
  end.
Definition pattern_ok (arg v : value) : bool :=
  match arg, v with
  | VStr p, VStr s => match pattern_of p with Some m => m s | None => false end
  | _, _ => true
  end.
Definition items_ok (arg v : value) : bool :=
  match v with VList l => forallb (sub arg) l | _ => true end.
Definition size_ok (cmp : Z -> Z -> bool) (arg v : value) : bool :=
  match arg, v with
  | VInt n, VList l => cmp (Z.of_nat (length l)) n
  | _, _ => true
  end.
Fixpoint all_distinct (l : list value) : bool :=
  match l with
  | [] => true
  | x :: r => negb (existsb (json_eqb x) r) && all_distinct r
  end.
Definition unique_ok (arg v : value) : bool :=
  match arg, v with VBool true, VList l => all_distinct l | _, _ => true end.
Definition each (f : list value -> bool) (arg : value) : bool :=
  match arg with VList l => f l | _ => true end.
Definition branch (s : dict) (k : string) (v : value) : bool :=
  match dict_get k s with Some arg => sub arg v | None => true end.

Definition keyword_ok (s : dict) (v : value) (kw : string * value) : bool :=
  let arg := kw.2 in
  match kw.1 with
  | "type" => type_ok arg v
  | "const" => json_eqb arg v
  | "enum" => each (existsb (fun o => json_eqb o v)) arg
  | "required" => required_ok arg v
  | "properties" => properties_ok arg v
  | "additionalProperties" => additional_ok s arg v
  | "minLength" => length_ok Z.geb arg v
  | "maxLength" => length_ok Z.leb arg v
  | "minimum" => bound_ok Z.geb arg v
  | "maximum" => bound_ok Z.leb arg v
  | "pattern" => pattern_ok arg v
  | "items" => items_ok arg v
  | "minItems" => size_ok Z.geb arg v
  | "maxItems" => size_ok Z.leb arg v
  | "uniqueItems" => unique_ok arg v
  | "allOf" => each (forallb (fun o => sub o v)) arg
  | "anyOf" => each (existsb (fun o => sub o v)) arg
  | "oneOf" => each (fun l => Nat.eqb (count (fun o => sub o v) l) 1) arg
  | "not" => negb (sub arg v)
  | "if" => if sub arg v then branch s "then" v else branch s "else" v
  | _ => true
  end.
End Keywords.

Fixpoint valid (n : nat) (schema v : value) : bool :=
  match n, schema with
  | S n, VDict s => forallb (keyword_ok (valid n) s v) s
  | S _, VBool b => b
  | _, _ => false
  end.

(** ** The fragment *)
Definition SUB_SCHEMA_KEYWORDS : list string := ["items"; "not"; "if"; "then"; "else"].
Definition SUB_SCHEMA_LIST_KEYWORDS : list string := ["allOf"; "anyOf"; "oneOf"].
Definition PLAIN_KEYWORDS : list string :=
  ["type"; "const"; "enum"; "required"; "additionalProperties"; "minLength"; "maxLength";
   "minimum"; "maximum"; "minItems"; "maxItems"; "uniqueItems"; "description"].

Fixpoint supported (n : nat) (schema : value) : bool :=
  match n, schema with
  | S n, VDict s =>
      bool_decide (NoDup (keys s)) &&
      forallb (fun kw : string * value =>
        if String.eqb kw.1 "properties" then
          match kw.2 with
          | VDict props => bool_decide (NoDup (keys props)) && forallb (fun e => supported n e.2) props
          | _ => false
          end
        else if String.eqb kw.1 "pattern" then
          match kw.2 with VStr p => match pattern_of p with Some _ => true | None => false end | _ => false end
        else if str_in kw.1 SUB_SCHEMA_KEYWORDS then supported n kw.2
        else if str_in kw.1 SUB_SCHEMA_LIST_KEYWORDS then
          match kw.2 with VList l => forallb (supported n) l | _ => false end
        else str_in kw.1 PLAIN_KEYWORDS && json_value kw.2) s
  | S _, VBool _ => true
  | _, _ => false
  end.

(** No schema of the repository nests deeper. *)
Definition DEPTH : nat := 16.
Definition in_fragment (schema : value) : bool := supported DEPTH schema.
Definition schema_valid (schema v : value) : bool := valid DEPTH schema v.

(** What the validator documents of the fragment. *)
Class JsonSchemaSpec `{JsonSchema} := {
  json_valid_spec schema v :
    in_fragment schema = true -> json_value v = true ->
    json_valid schema v = schema_valid schema v
}.

(** ** A validator that meets it *)
Module RefSchema.
#[export] Instance reference_validator : JsonSchema :=
  {| json_error := fun s v => if schema_valid s v then None else Some ([], None) |}.
#[export] Instance reference_spec : JsonSchemaSpec.
Proof.
  split. intros s v _ _. unfold json_valid; cbn -[schema_valid]. by destruct (schema_valid s v).
Qed.
End RefSchema.
