(* ===== verification/Contracts.v ===== *)
(** * Procedure contracts

    The constants of the catalog contracts that the HTTP transport to the backend
    consults: route budgets, response limits, fixed identities and the result
    schemas, one module per contract file of [netbox_rpc].  Derived constants
    ([sorted], comprehensions, f-strings) are computed the way the contract does. *)

From S2P Require Import Prelude PyValue CredentialContract Response.

(** JSON is written as in Python: text, numbers and booleans are values. *)
Module JsonNotations.
Coercion VStr : string >-> value.
Coercion VInt : Z >-> value.
Coercion VBool : bool >-> value.
Notation "k :- v" := (@pair string value k v) (at level 69, no associativity).
Notation "[: x ; .. ; y :]" := (@cons value x .. (@cons value y (@nil value)) ..).
End JsonNotations.
Import JsonNotations.

Definition str_le (a b : string) : Prop := Is_true (String.leb a b).
#[export] Instance str_le_dec : RelDecision str_le.
Proof. unfold str_le. intros ??. apply _. Defined.

(** ["0" * n]. *)
Fixpoint zeros (n : nat) : string :=
  match n with O => EmptyString | S n => String "0"%char (zeros n) end.
Definition dict_of (v : value) : dict := match v with VDict d => d | _ => [] end.
Definition texts (l : list value) : list string :=
  omap (fun v => match v with VStr s => Some s | _ => None end) l.
(** [sorted(set(values))]. *)
Definition distinct_sorted (l : list value) : list string := merge_sort str_le (remove_dups (texts l)).
(** [sorted(lane[key] for lane in LANES.values() if isinstance(lane[key], str))]. *)
Definition lane_strings (key : string) (lanes : dict) : list string :=
  merge_sort str_le (texts (map (get_of key) lanes.*2)).
(** [set(d) == {names}], keys being unique. *)
Definition same_keys (d : dict) (names : list string) : bool :=
  forallb (fun k => dict_mem k d) names && forallb (fun k => str_in k names) (keys d).
(** An object schema that requires its properties and admits no other. *)
Definition closed (properties : dict) : dict :=
  ["type" :- "object"; "required" :- VList (VStr <$> keys properties);
   "additionalProperties" :- false; "properties" :- VDict properties].
Definition all_true : value := VDict ["const" :- true].

(** Python loops over a list whose body may raise. *)
Fixpoint map_res {A B} (f : A -> res B) (l : list A) : res (list B) :=
  match l with
  | [] => Ok []
  | x :: r => y ← f x; ys ← map_res f r; Ok (y :: ys)
  end.
Fixpoint all_res {A} (f : A -> res bool) (l : list A) : res bool :=
  match l with
  | [] => Ok true
  | x :: r => b ← f x; match b with true => all_res f r | false => Ok false end
  end.

(** ** [gitea_upgrade_contract.py] *)
Module GiteaUpgrade.
Definition PROCEDURE_NAME : string := "service.gitea.production.upgrade_1_27_1".
Definition HANDLER_ID : string := PROCEDURE_NAME.
Definition TARGET_NAME : string := "Gitea".
Definition RESULT_SCHEMA : dict :=
[
  "type" :- "object";
  "additionalProperties" :- false;
  "required" :- VList [:"ok"; "procedure"; "target"; "changed"; "healthy"; "stage":];
  "properties" :- VDict [
      "ok" :- VDict ["type" :- "boolean"];
      "procedure" :- VDict ["const" :- HANDLER_ID];
      "target" :- VDict ["const" :- TARGET_NAME];
      "changed" :- VDict ["type" :- VList [:"boolean"; "null":]];
      "healthy" :- VDict ["type" :- VList [:"boolean"; "null":]];
      "stage" :- VDict [
          "type" :- "string";
          "enum" :- VList [:"execute"; "rolled_back"; "complete"; "indeterminate":]]];
  "oneOf" :- VList [:
      VDict [
        "properties" :- VDict [
            "ok" :- VDict ["const" :- true];
            "changed" :- VDict ["const" :- true];
            "healthy" :- VDict ["const" :- true];
            "stage" :- VDict ["const" :- "complete"]]];
      VDict [
        "properties" :- VDict [
            "ok" :- VDict ["const" :- true];
            "changed" :- VDict ["const" :- false];
            "healthy" :- VDict ["const" :- true];
            "stage" :- VDict ["const" :- "complete"]]];
      VDict [
        "properties" :- VDict [
            "ok" :- VDict ["const" :- false];
            "changed" :- VDict ["const" :- false];
            "healthy" :- VDict ["const" :- false];
            "stage" :- VDict ["const" :- "execute"]]];
      VDict [
        "properties" :- VDict [
            "ok" :- VDict ["const" :- false];
            "changed" :- VDict ["const" :- false];
            "healthy" :- VDict ["const" :- true];
            "stage" :- VDict ["const" :- "rolled_back"]]];
      VDict [
        "properties" :- VDict [
            "ok" :- VDict ["const" :- false];
            "changed" :- VDict ["const" :- true];
            "healthy" :- VDict ["const" :- false];
            "stage" :- VDict ["const" :- "complete"]]];
      VDict [
        "properties" :- VDict [
            "ok" :- VDict ["const" :- false];
            "changed" :- VDict ["const" :- VNone];
            "healthy" :- VDict ["const" :- VNone];
            "stage" :- VDict ["const" :- "indeterminate"]]]:]].
End GiteaUpgrade.

(** ** [dns_staging_deploy_contract.py] *)
Module DnsStaging.
Definition PROCEDURE_NAME : string := "service.netbox.staging.deploy_dns_pair".
Definition HANDLER_ID : string := PROCEDURE_NAME.
Definition TARGET : string := "nms-front-door".
Definition ROUTE_BUDGET_SECONDS : Z := 2640.
Definition BACKEND_RESPONSE_MAX_BYTES : Z := 4096.
Definition RESULT_SCHEMA : dict :=
[
  "type" :- "object";
  "additionalProperties" :- false;
  "required" :- VList [:"ok"; "procedure"; "target"; "commit_sha"; "deployed"; "stage":];
  "properties" :- VDict [
      "ok" :- VDict ["type" :- "boolean"];
      "procedure" :- VDict ["const" :- HANDLER_ID];
      "target" :- VDict ["const" :- TARGET];
      "commit_sha" :- VDict ["type" :- "string"; "pattern" :- "^[0-9a-f]{40}(?![\s\S])"];
      "deployed" :- VDict ["type" :- VList [:"boolean"; "null":]];
      "stage" :- VDict [
          "type" :- "string";
          "enum" :- VList [:"execute"; "complete"; "indeterminate":]]];
  "oneOf" :- VList [:
      VDict [
        "properties" :- VDict [
            "ok" :- VDict ["const" :- true];
            "deployed" :- VDict ["const" :- true];
            "stage" :- VDict ["const" :- "complete"]]];
      VDict [
        "properties" :- VDict [
            "ok" :- VDict ["const" :- false];
            "deployed" :- VDict ["const" :- false];
            "stage" :- VDict ["const" :- "execute"]]];
      VDict [
        "properties" :- VDict [
            "ok" :- VDict ["const" :- false];
            "deployed" :- VDict ["const" :- VNone];
            "stage" :- VDict ["const" :- "indeterminate"]]]:]].
End DnsStaging.

(** ** [gitea_runner_contract.py] *)
Module GiteaRunner.
Definition PROCEDURE_NAME : string := "service.gitea.runner.register".
Definition HANDLER_ID : string := PROCEDURE_NAME.
Definition JS_SAFE_INTEGER_MAX : Z := 9007199254740991.
Definition ROUTE_BUDGET_SECONDS : Z := 300.
Definition BACKEND_RESPONSE_MAX_BYTES : Z := 4096.
Definition RUNNER_TARGET_NAME : string := "nmultifibra-ci-untrusted-01".
Definition SCOPE_TO_GITEA_SCOPE : dict :=
[
  "netbox-proxbox" :- "emersonfelipesp/netbox-proxbox";
  "nmulticloud-org" :- "N-MultiCloud";
  "nmulticloud-org-root" :- "N-MultiCloud";
  "proxbox-api" :- "emersonfelipesp/proxbox-api";
  "release-netbox-proxbox-validation" :- "emersonfelipesp/netbox-proxbox";
  "release-netbox-proxbox-build" :- "emersonfelipesp/netbox-proxbox";
  "release-proxbox-api-validation" :- "emersonfelipesp/proxbox-api";
  "release-proxbox-api-build" :- "emersonfelipesp/proxbox-api"].
Definition SCOPES : list string := merge_sort str_le (keys SCOPE_TO_GITEA_SCOPE).
Definition OPERATIONS : list string := ["reconcile"; "register"].
Definition FENCE_UNKNOWN_SHA256 : string := zeros 64.
Definition RESULT_SCHEMA : dict :=
[
  "type" :- "object";
  "additionalProperties" :- false;
  "required" :- VList [:
      "ok"; "procedure"; "target"; "operation"; "scope"; "fence_execution_id";
      "fence_generation"; "registered"; "reconciled"; "token_invalidated";
      "token_reset_required"; "token_sha256"; "reset_state"; "prior_token_id";
      "prior_active_sha256"; "replacement_token_id"; "stage":];
  "properties" :- VDict [
      "ok" :- VDict ["type" :- "boolean"];
      "procedure" :- VDict ["const" :- HANDLER_ID];
      "target" :- VDict ["const" :- RUNNER_TARGET_NAME];
      "operation" :- VDict ["type" :- "string"; "enum" :- VList (VStr <$> OPERATIONS)];
      "scope" :- VDict ["type" :- "string"; "enum" :- VList (VStr <$> SCOPES)];
      "fence_execution_id" :-
        VDict [
          "type" :- VList [:"integer"; "null":];
          "minimum" :- 1;
          "maximum" :- JS_SAFE_INTEGER_MAX];
      "fence_generation" :- VDict ["type" :- "integer"; "minimum" :- 1; "maximum" :- JS_SAFE_INTEGER_MAX];
      "registered" :- VDict ["type" :- VList [:"boolean"; "null":]];
      "reconciled" :- VDict ["type" :- VList [:"boolean"; "null":]];
      "token_invalidated" :- VDict ["type" :- "boolean"];
      "token_reset_required" :- VDict ["type" :- "boolean"];
      "token_sha256" :- VDict ["type" :- VList [:"string"; "null":]; "pattern" :- "^[0-9a-f]{64}$"];
      "reset_state" :- VDict [
          "type" :- "string";
          "enum" :- VList [:
              "not_started"; "rotated"; "already_inactive"; "reconciled_expected_active";
              "reconciled_expected_inactive"; "reconciled_no_active"; "failed";
              "indeterminate":]];
      "prior_token_id" :- VDict [
          "type" :- VList [:"integer"; "null":];
          "minimum" :- 1;
          "maximum" :- JS_SAFE_INTEGER_MAX];
      "prior_active_sha256" :-
        VDict ["type" :- VList [:"string"; "null":]; "pattern" :- "^[0-9a-f]{64}$"];
      "replacement_token_id" :-
        VDict [
          "type" :- VList [:"integer"; "null":];
          "minimum" :- 1;
          "maximum" :- JS_SAFE_INTEGER_MAX];
      "stage" :- VDict [
          "type" :- "string";
          "enum" :- VList [:
              "generate_token"; "register"; "reset"; "reconcile"; "complete";
              "indeterminate":]]];
  "oneOf" :- VList [:
      VDict [
        "properties" :- VDict [
            "ok" :- VDict ["const" :- true];
            "operation" :- VDict ["const" :- "register"];
            "registered" :- VDict ["const" :- true];
            "reconciled" :- VDict ["const" :- VNone];
            "token_invalidated" :- VDict ["const" :- true];
            "token_reset_required" :- VDict ["const" :- false];
            "token_sha256" :- VDict ["type" :- "string"; "pattern" :- "^[0-9a-f]{64}$"];
            "reset_state" :- VDict ["enum" :- VList [:"rotated"; "already_inactive":]];
            "prior_token_id" :- VDict ["type" :- "integer"; "minimum" :- 1];
            "prior_active_sha256" :- VDict ["const" :- VNone];
            "replacement_token_id" :- VDict ["type" :- "integer"; "minimum" :- 1];
            "stage" :- VDict ["const" :- "complete"]]];
      VDict [
        "properties" :- VDict [
            "ok" :- VDict ["const" :- false];
            "operation" :- VDict ["const" :- "register"];
            "registered" :- VDict ["const" :- false];
            "reconciled" :- VDict ["const" :- VNone];
            "token_invalidated" :- VDict ["const" :- false];
            "token_reset_required" :- VDict ["const" :- false];
            "token_sha256" :- VDict ["const" :- VNone];
            "reset_state" :- VDict ["const" :- "not_started"];
            "prior_token_id" :- VDict ["const" :- VNone];
            "prior_active_sha256" :- VDict ["const" :- VNone];
            "replacement_token_id" :- VDict ["const" :- VNone];
            "stage" :- VDict ["const" :- "generate_token"]]];
      VDict [
        "properties" :- VDict [
            "ok" :- VDict ["const" :- false];
            "operation" :- VDict ["const" :- "register"];
            "registered" :- VDict ["type" :- VList [:"boolean"; "null":]];
            "reconciled" :- VDict ["const" :- VNone];
            "token_invalidated" :- VDict ["const" :- true];
            "token_reset_required" :- VDict ["const" :- false];
            "token_sha256" :- VDict ["type" :- "string"; "pattern" :- "^[0-9a-f]{64}$"];
            "reset_state" :- VDict ["enum" :- VList [:"rotated"; "already_inactive":]];
            "prior_token_id" :- VDict ["type" :- "integer"; "minimum" :- 1];
            "prior_active_sha256" :- VDict ["const" :- VNone];
            "replacement_token_id" :- VDict ["type" :- "integer"; "minimum" :- 1];
            "stage" :- VDict ["enum" :- VList [:"register"; "indeterminate":]]]];
      VDict [
        "properties" :- VDict [
            "ok" :- VDict ["const" :- false];
            "operation" :- VDict ["const" :- "register"];
            "registered" :- VDict ["type" :- VList [:"boolean"; "null":]];
            "reconciled" :- VDict ["const" :- VNone];
            "token_invalidated" :- VDict ["const" :- false];
            "token_reset_required" :- VDict ["const" :- true];
            "token_sha256" :- VDict ["type" :- VList [:"string"; "null":]; "pattern" :- "^[0-9a-f]{64}$"];
            "reset_state" :- VDict ["enum" :- VList [:"failed"; "indeterminate":]];
            "prior_token_id" :- VDict ["type" :- VList [:"integer"; "null":]; "minimum" :- 1];
            "prior_active_sha256" :- VDict ["const" :- VNone];
            "replacement_token_id" :-
              VDict ["type" :- VList [:"integer"; "null":]; "minimum" :- 1];
            "stage" :- VDict ["enum" :- VList [:"register"; "reset"; "indeterminate":]]]];
      VDict [
        "properties" :- VDict [
            "ok" :- VDict ["const" :- true];
            "operation" :- VDict ["const" :- "reconcile"];
            "registered" :- VDict ["const" :- VNone];
            "reconciled" :- VDict ["const" :- true];
            "token_invalidated" :- VDict ["const" :- true];
            "token_reset_required" :- VDict ["const" :- false];
            "token_sha256" :- VDict ["type" :- "string"; "pattern" :- "^[0-9a-f]{64}$"];
            "reset_state" :- VDict [
                "enum" :- VList [:
                    "reconciled_expected_active"; "reconciled_expected_inactive";
                    "reconciled_no_active":]];
            "prior_token_id" :- VDict ["type" :- VList [:"integer"; "null":]; "minimum" :- 1];
            "prior_active_sha256" :-
              VDict ["type" :- VList [:"string"; "null":]; "pattern" :- "^[0-9a-f]{64}$"];
            "replacement_token_id" :- VDict ["type" :- "integer"; "minimum" :- 1];
            "stage" :- VDict ["const" :- "complete"]]];
      VDict [
        "properties" :- VDict [
            "ok" :- VDict ["const" :- false];
            "operation" :- VDict ["const" :- "reconcile"];
            "registered" :- VDict ["const" :- VNone];
            "reconciled" :- VDict ["type" :- VList [:"boolean"; "null":]];
            "token_invalidated" :- VDict ["const" :- false];
            "token_reset_required" :- VDict ["const" :- true];
            "token_sha256" :- VDict ["type" :- "string"; "pattern" :- "^[0-9a-f]{64}$"];
            "reset_state" :- VDict ["enum" :- VList [:"failed"; "indeterminate":]];
            "prior_token_id" :- VDict ["type" :- VList [:"integer"; "null":]; "minimum" :- 1];
            "prior_active_sha256" :-
              VDict ["type" :- VList [:"string"; "null":]; "pattern" :- "^[0-9a-f]{64}$"];
            "replacement_token_id" :-
              VDict ["type" :- VList [:"integer"; "null":]; "minimum" :- 1];
            "stage" :- VDict ["enum" :- VList [:"reconcile"; "indeterminate":]]]]:]].
End GiteaRunner.

(** ** [gitea_org_ci_runner_contract.py] *)
Module OrgCiRunner.
Definition PROCEDURE_NAME : string := "service.gitea.actions_runner.provision_org_ci_runner".
Definition HANDLER_ID : string := PROCEDURE_NAME.
Definition JS_SAFE_INTEGER_MAX : Z := 9007199254740991.
Definition ROUTE_BUDGET_SECONDS : Z := 1740.
Definition BACKEND_RESPONSE_MAX_BYTES : Z := 8192.
Definition TARGET_NAME : string := "Gitea-Runner".
Definition DEFAULT_GITEA_INSTANCE_URL : string := "http://10.0.30.96:3000".
Definition DEFAULT_ORGANIZATION : string := "N-MultiCloud".
Definition HOST_GENERATION_DEPENDENCY : string := "N-MultiCloud/nmulticloud-context#411".
Definition HOST_GENERATION_ACTIVATION_ELIGIBLE : bool := false.
Definition HOST_GENERATION_PROVISION_HELPER_PATH : value := VNone.
Definition HOST_GENERATION_PROVISION_HELPER_SHA256 : value := VNone.
Definition HOST_GENERATION_PROVE_HELPER_PATH : value := VNone.
Definition HOST_GENERATION_PROVE_HELPER_SHA256 : value := VNone.
Definition ROOT_BASE_IMAGE : string :=
"ghcr.io/astral-sh/uv:0.12.5-python3.12-trixie-slim@"
+:+ "sha256:0d05436f6b7b8c88236dcaeab65c2b819df944e9af0be7f4b3a2117c38fe868f".
Definition ROOT_BASE_IMAGE_DIGEST : string :=
"0d05436f6b7b8c88236dcaeab65c2b819df944e9af0be7f4b3a2117c38fe868f".
Definition ROOT_PYTHON_VERSION : string := "3.12.14".
Definition ROOT_PYTHON_SOURCE_SHA256 : string :=
"5c8462af5790baf43a321a1559dbe0db06d1be4300fb85fb53c40060668e548a".
Definition ROOT_UV_VERSION : string := "0.12.5".
Definition ROOT_UV_ARCHIVE_SHA256 : string :=
"68a509da24b06b4223a1c0175fb5eb5bc79342b76cbeff0cfe51ac3f5b17b6b2".
Definition LANES : dict :=
[
"root-python312" :- VDict [
"compose_project_dir" :- "/opt/nmc-ci-untrusted-root-org-241";
"runner_name" :- "ci-untrusted-root-nmulticloud-org-241";
"runner_image" :- VNone;
"runner_labels" :- VList [:"ci-untrusted-root-python312":];
"runner_label" :- "ci-untrusted-root-python312";
"executor" :- "docker";
"runner_mounts_docker_socket" :- true;
"jobs_mount_docker_socket" :- false;
"runner_cap_drop_all" :- true;
"runner_no_new_privileges" :- true;
"job_user" :- "0:0";
"service_user" :- "gitea-runner-nmulticloud-org-root";
"service_user_login" :- false;
"state_dir" :- "/var/lib/gitea-runner-nmulticloud-org-root";
"config_path" :- "/etc/gitea-runner/nmulticloud-org-root.yaml";
"capacity" :- 1;
"fresh_container_per_job" :- true;
"rootless_user_namespace" :- true;
"container_uid0_maps_to_host_root" :- false;
"container_privileged" :- false;
"container_host_network" :- false;
"container_host_pid" :- false;
"container_host_ipc" :- false;
"container_host_uts" :- false;
"container_bind_workdir" :- false;
"container_valid_volumes" :- VList [];
"container_devices" :- VList [];
"container_host_effective_capabilities" :- VList [];
"container_host_ambient_capabilities" :- VList [];
"job_cap_drop_all" :- true;
"job_no_new_privileges" :- true;
"container_cap_add" :- VList [:"CHOWN"; "SETUID"; "SETGID"; "FOWNER"; "DAC_OVERRIDE":];
"container_daemon_socket_in_job" :- false;
"job_network_policy" :-
  VDict [
    "default_action" :- "deny";
    "build" :- VDict [
        "network_mode" :- "none";
        "dns_resolvers" :- VList [];
        "egress" :- VList []];
    "publisher" :- VDict [
        "network_mode" :- "filtered";
        "dns_required" :- false;
        "dns_resolvers" :- VList [];
        "host_bindings" :- VList [:VDict ["hostname" :- "git.nmulti.cloud"; "ipv4" :- "10.0.30.96"]:];
        "https_origins" :- VList [:"https://git.nmulti.cloud:443":];
        "ipv4_destinations" :- VList [:"10.0.30.96/32":];
        "tcp_ports" :- VList [:443:];
        "tls_server_names" :- VList [:"git.nmulti.cloud":];
        "tls_verify" :- true;
        "redirects" :- false];
    "other_egress" :- "deny"];
"job_resource_limits" :-
  VDict [
    "cgroup_version" :- 2;
    "cpu_period_us" :- 100000;
    "cpu_quota_us" :- 200000;
    "cpu_weight" :- 100;
    "memory_max_bytes" :- 4294967296;
    "memory_swap_max_bytes" :- 0;
    "pids_max" :- 512;
    "root_filesystem_read_only" :- true;
    "writable_paths" :- VList [:"/workspace"; "/tmp"; "/run":];
    "workspace" :- VDict [
        "path" :- "/workspace";
        "kind" :- "ephemeral-volume";
        "host_bind" :- false;
        "disk_quota_bytes" :- 8589934592];
    "tmpfs" :- VList [:
        VDict [
          "path" :- "/tmp";
          "size_bytes" :- 1073741824;
          "options" :- VList [:"nodev"; "nosuid"; "noexec":]];
        VDict [
          "path" :- "/run";
          "size_bytes" :- 67108864;
          "options" :- VList [:"nodev"; "nosuid"; "noexec":]]:];
    "ulimits" :- VDict [
        "core" :- VDict ["soft" :- 0; "hard" :- 0];
        "fsize" :- VDict ["soft" :- 8589934592; "hard" :- 8589934592];
        "nofile" :- VDict ["soft" :- 1024; "hard" :- 1024];
        "nproc" :- VDict ["soft" :- 512; "hard" :- 512]];
    "wall_clock_timeout_seconds" :- 1800;
    "kill_grace_seconds" :- 10];
"management_egress_policy" :- "deny-except-gitea-publisher";
"production_egress_policy" :- "deny-except-gitea-publisher";
"cross_scope_state" :- false;
"activation_eligible" :- HOST_GENERATION_ACTIVATION_ELIGIBLE;
"activation_blocker" :- HOST_GENERATION_DEPENDENCY;
"base_image_reference" :- ROOT_BASE_IMAGE;
"base_image_digest" :- ROOT_BASE_IMAGE_DIGEST;
"provision_helper_path" :- HOST_GENERATION_PROVISION_HELPER_PATH;
"provision_helper_sha256" :- HOST_GENERATION_PROVISION_HELPER_SHA256;
"prove_helper_path" :- HOST_GENERATION_PROVE_HELPER_PATH;
"prove_helper_sha256" :- HOST_GENERATION_PROVE_HELPER_SHA256;
"python_version" :- ROOT_PYTHON_VERSION;
"python_source_sha256" :- ROOT_PYTHON_SOURCE_SHA256;
"uv_version" :- ROOT_UV_VERSION;
"uv_archive_sha256" :- ROOT_UV_ARCHIVE_SHA256]].
Definition SCOPE_BY_LANE : dict := ["root-python312" :- "nmulticloud-org-root"].
Definition OPERATIONS : list string := ["provision"; "reconcile"].
Definition FENCE_UNKNOWN_SHA256 : string := zeros 64.
Definition _LANE_NAMES : list string := merge_sort str_le (keys LANES).
Definition _SCOPES : list string := distinct_sorted SCOPE_BY_LANE.*2.
Definition _ALL_RUNNER_NAMES : list string := lane_strings "runner_name" LANES.
Definition _ALL_RUNNER_IMAGES : list string := lane_strings "runner_image" LANES.
Definition _ALL_COMPOSE_DIRS : list string := lane_strings "compose_project_dir" LANES.
Definition _SHA256_PATTERN : string := "^[0-9a-f]{64}(?![\s\S])".
Definition _lane_binding (lane_name : string) : value :=
let lane := dict_of (get lane_name LANES) in
VDict
["if" :- VDict ["properties" :- VDict ["lane" :- VDict ["const" :- VStr lane_name]];
           "required" :- VList [VStr "lane"]];
 "then" :- VDict
["required" :- VList (VStr <$> keys lane);
 "properties" :- VDict
    (("scope" :- VDict ["const" :- get lane_name SCOPE_BY_LANE])
     :: map (fun kv => kv.1 :- VDict ["const" :- kv.2]) lane)]].
Definition _LANE_RESULT_PROPERTIES : dict :=
[
"compose_project_dir" :- VDict ["enum" :- VList (VStr <$> _ALL_COMPOSE_DIRS)];
"runner_name" :- VDict ["enum" :- VList (VStr <$> _ALL_RUNNER_NAMES)];
"runner_image" :- VDict ["enum" :- VList ((VStr <$> _ALL_RUNNER_IMAGES) ++ [:VNone:])];
"runner_labels" :- VDict [
"type" :- "array";
"items" :- VDict ["type" :- "string"; "maxLength" :- 512];
"minItems" :- 1;
"maxItems" :- 8;
"uniqueItems" :- true];
"executor" :- VDict ["type" :- "string"; "enum" :- VList [:"host"; "docker":]];
"runner_mounts_docker_socket" :- VDict ["type" :- "boolean"];
"jobs_mount_docker_socket" :- VDict ["type" :- "boolean"];
"runner_cap_drop_all" :- VDict ["type" :- "boolean"];
"runner_no_new_privileges" :- VDict ["type" :- "boolean"];
"job_user" :- VDict ["type" :- VList [:"string"; "null":]; "maxLength" :- 64];
"runner_label" :- VDict ["const" :- "ci-untrusted-root-python312"];
"service_user" :- VDict ["const" :- "gitea-runner-nmulticloud-org-root"];
"service_user_login" :- VDict ["const" :- false];
"state_dir" :- VDict ["const" :- "/var/lib/gitea-runner-nmulticloud-org-root"];
"config_path" :- VDict ["const" :- "/etc/gitea-runner/nmulticloud-org-root.yaml"];
"capacity" :- VDict ["const" :- 1];
"fresh_container_per_job" :- VDict ["const" :- true];
"rootless_user_namespace" :- VDict ["const" :- true];
"container_uid0_maps_to_host_root" :- VDict ["const" :- false];
"container_privileged" :- VDict ["const" :- false];
"container_host_network" :- VDict ["const" :- false];
"container_host_pid" :- VDict ["const" :- false];
"container_host_ipc" :- VDict ["const" :- false];
"container_host_uts" :- VDict ["const" :- false];
"container_bind_workdir" :- VDict ["const" :- false];
"container_valid_volumes" :- VDict ["const" :- VList []];
"container_devices" :- VDict ["const" :- VList []];
"container_host_effective_capabilities" :- VDict ["const" :- VList []];
"container_host_ambient_capabilities" :- VDict ["const" :- VList []];
"job_cap_drop_all" :- VDict ["const" :- true];
"job_no_new_privileges" :- VDict ["const" :- true];
"container_cap_add" :-
VDict ["const" :- VList [:"CHOWN"; "SETUID"; "SETGID"; "FOWNER"; "DAC_OVERRIDE":]];
"container_daemon_socket_in_job" :- VDict ["const" :- false];
"job_network_policy" :-
VDict ["const" :- get_of "job_network_policy" (get "root-python312" LANES)];
"job_resource_limits" :-
VDict ["const" :- get_of "job_resource_limits" (get "root-python312" LANES)];
"management_egress_policy" :- VDict ["const" :- "deny-except-gitea-publisher"];
"production_egress_policy" :- VDict ["const" :- "deny-except-gitea-publisher"];
"cross_scope_state" :- VDict ["const" :- false];
"activation_eligible" :- VDict ["const" :- false];
"activation_blocker" :- VDict ["const" :- HOST_GENERATION_DEPENDENCY];
"base_image_reference" :- VDict ["const" :- ROOT_BASE_IMAGE];
"base_image_digest" :- VDict ["const" :- ROOT_BASE_IMAGE_DIGEST];
"provision_helper_path" :- VDict ["const" :- VNone];
"provision_helper_sha256" :- VDict ["const" :- VNone];
"prove_helper_path" :- VDict ["const" :- VNone];
"prove_helper_sha256" :- VDict ["const" :- VNone];
"python_version" :- VDict ["const" :- ROOT_PYTHON_VERSION];
"python_source_sha256" :- VDict ["const" :- ROOT_PYTHON_SOURCE_SHA256];
"uv_version" :- VDict ["const" :- ROOT_UV_VERSION];
"uv_archive_sha256" :- VDict ["const" :- ROOT_UV_ARCHIVE_SHA256]].
Definition RESULT_SCHEMA : dict :=
[
"type" :- "object";
"additionalProperties" :- false;
"required" :- VList [:
"ok"; "procedure"; "target"; "operation"; "scope"; "lane"; "fence_execution_id";
"fence_generation"; "provisioned"; "registered"; "reconciled"; "stage"; "organization";
"gitea_instance_url"; "token_invalidated"; "token_reset_required"; "token_sha256";
"reset_state"; "prior_token_id"; "prior_active_sha256"; "replacement_token_id";
"runner_name"; "runner_labels"; "runner_image"; "compose_project_dir"; "executor";
"runner_mounts_docker_socket"; "jobs_mount_docker_socket"; "runner_cap_drop_all";
"runner_no_new_privileges"; "job_user":];
"properties" :- VDict (
[
  "ok" :- VDict ["type" :- "boolean"];
  "procedure" :- VDict ["const" :- HANDLER_ID];
  "target" :- VDict ["const" :- TARGET_NAME];
  "operation" :- VDict ["type" :- "string"; "enum" :- VList (VStr <$> OPERATIONS)];
  "scope" :- VDict ["type" :- "string"; "enum" :- VList (VStr <$> _SCOPES)];
  "lane" :- VDict ["type" :- "string"; "enum" :- VList (VStr <$> _LANE_NAMES)];
  "fence_execution_id" :-
    VDict [
      "type" :- VList [:"integer"; "null":];
      "minimum" :- 1;
      "maximum" :- JS_SAFE_INTEGER_MAX];
  "fence_generation" :- VDict ["type" :- "integer"; "minimum" :- 1; "maximum" :- JS_SAFE_INTEGER_MAX];
  "provisioned" :- VDict ["type" :- VList [:"boolean"; "null":]];
  "registered" :- VDict ["type" :- VList [:"boolean"; "null":]];
  "reconciled" :- VDict ["type" :- VList [:"boolean"; "null":]];
  "stage" :- VDict [
      "type" :- "string";
      "enum" :- VList [:
          "preconditions"; "docker"; "image"; "config"; "register"; "start"; "verify";
          "reset"; "reconcile"; "complete"; "indeterminate":]];
  "organization" :- VDict ["const" :- DEFAULT_ORGANIZATION];
  "gitea_instance_url" :- VDict ["const" :- DEFAULT_GITEA_INSTANCE_URL];
  "token_invalidated" :- VDict ["type" :- "boolean"];
  "token_reset_required" :- VDict ["type" :- "boolean"];
  "token_sha256" :- VDict ["type" :- VList [:"string"; "null":]; "pattern" :- _SHA256_PATTERN];
  "reset_state" :- VDict [
      "type" :- "string";
      "enum" :- VList [:
          "not_started"; "rotated"; "already_inactive"; "reconciled_expected_active";
          "reconciled_expected_inactive"; "reconciled_no_active"; "failed";
          "indeterminate":]];
  "prior_token_id" :- VDict [
      "type" :- VList [:"integer"; "null":];
      "minimum" :- 1;
      "maximum" :- JS_SAFE_INTEGER_MAX];
  "prior_active_sha256" :-
    VDict ["type" :- VList [:"string"; "null":]; "pattern" :- _SHA256_PATTERN];
  "replacement_token_id" :-
    VDict [
      "type" :- VList [:"integer"; "null":];
      "minimum" :- 1;
      "maximum" :- JS_SAFE_INTEGER_MAX]]
++ _LANE_RESULT_PROPERTIES);
"allOf" :- VList (map _lane_binding _LANE_NAMES);
"oneOf" :- VList [:
VDict [
  "properties" :- VDict [
      "ok" :- VDict ["const" :- true];
      "operation" :- VDict ["const" :- "provision"];
      "provisioned" :- VDict ["const" :- true];
      "registered" :- VDict ["const" :- true];
      "reconciled" :- VDict ["const" :- VNone];
      "stage" :- VDict ["const" :- "complete"];
      "token_invalidated" :- VDict ["const" :- true];
      "token_reset_required" :- VDict ["const" :- false];
      "token_sha256" :- VDict ["type" :- "string"; "pattern" :- _SHA256_PATTERN];
      "reset_state" :- VDict ["enum" :- VList [:"rotated"; "already_inactive":]];
      "prior_token_id" :- VDict ["type" :- "integer"; "minimum" :- 1];
      "replacement_token_id" :- VDict ["type" :- "integer"; "minimum" :- 1]]];
VDict [
  "properties" :- VDict [
      "ok" :- VDict ["const" :- false];
      "operation" :- VDict ["const" :- "provision"];
      "provisioned" :- VDict ["const" :- false];
      "registered" :- VDict ["const" :- false];
      "reconciled" :- VDict ["const" :- VNone];
      "token_invalidated" :- VDict ["const" :- false];
      "token_reset_required" :- VDict ["const" :- false];
      "token_sha256" :- VDict ["const" :- VNone];
      "reset_state" :- VDict ["const" :- "not_started"];
      "prior_token_id" :- VDict ["const" :- VNone];
      "prior_active_sha256" :- VDict ["const" :- VNone];
      "replacement_token_id" :- VDict ["const" :- VNone];
      "stage" :- VDict ["enum" :- VList [:"preconditions"; "docker"; "image"; "config":]]]];
VDict [
  "properties" :- VDict [
      "ok" :- VDict ["const" :- false];
      "operation" :- VDict ["const" :- "provision"];
      "provisioned" :- VDict ["type" :- VList [:"boolean"; "null":]];
      "registered" :- VDict ["type" :- VList [:"boolean"; "null":]];
      "reconciled" :- VDict ["const" :- VNone];
      "token_invalidated" :- VDict ["const" :- true];
      "token_reset_required" :- VDict ["const" :- false];
      "token_sha256" :- VDict ["type" :- "string"; "pattern" :- _SHA256_PATTERN];
      "reset_state" :- VDict ["enum" :- VList [:"rotated"; "already_inactive":]];
      "prior_token_id" :- VDict ["type" :- "integer"; "minimum" :- 1];
      "replacement_token_id" :- VDict ["type" :- "integer"; "minimum" :- 1];
      "stage" :- VDict ["enum" :- VList [:"register"; "start"; "verify"; "indeterminate":]]]];
VDict [
  "properties" :- VDict [
      "ok" :- VDict ["const" :- false];
      "operation" :- VDict ["const" :- "provision"];
      "provisioned" :- VDict ["type" :- VList [:"boolean"; "null":]];
      "registered" :- VDict ["type" :- VList [:"boolean"; "null":]];
      "reconciled" :- VDict ["const" :- VNone];
      "token_invalidated" :- VDict ["const" :- false];
      "token_reset_required" :- VDict ["const" :- true];
      "reset_state" :- VDict ["enum" :- VList [:"failed"; "indeterminate":]];
      "stage" :- VDict [
          "enum" :- VList [:"register"; "start"; "verify"; "reset"; "indeterminate":]]]];
VDict [
  "properties" :- VDict [
      "ok" :- VDict ["const" :- true];
      "operation" :- VDict ["const" :- "reconcile"];
      "provisioned" :- VDict ["const" :- VNone];
      "registered" :- VDict ["const" :- VNone];
      "reconciled" :- VDict ["const" :- true];
      "stage" :- VDict ["const" :- "complete"];
      "token_invalidated" :- VDict ["const" :- true];
      "token_reset_required" :- VDict ["const" :- false];
      "token_sha256" :- VDict ["type" :- "string"; "pattern" :- _SHA256_PATTERN];
      "reset_state" :- VDict [
          "enum" :- VList [:
              "reconciled_expected_active"; "reconciled_expected_inactive";
              "reconciled_no_active":]];
      "replacement_token_id" :- VDict ["type" :- "integer"; "minimum" :- 1]]];
VDict [
  "properties" :- VDict [
      "ok" :- VDict ["const" :- false];
      "operation" :- VDict ["const" :- "reconcile"];
      "provisioned" :- VDict ["const" :- VNone];
      "registered" :- VDict ["const" :- VNone];
      "reconciled" :- VDict ["type" :- VList [:"boolean"; "null":]];
      "token_invalidated" :- VDict ["const" :- false];
      "token_reset_required" :- VDict ["const" :- true];
      "token_sha256" :- VDict ["type" :- "string"; "pattern" :- _SHA256_PATTERN];
      "reset_state" :- VDict ["enum" :- VList [:"failed"; "indeterminate":]];
      "replacement_token_id" :-
        VDict ["type" :- VList [:"integer"; "null":]; "minimum" :- 1];
      "stage" :- VDict ["enum" :- VList [:"reconcile"; "indeterminate":]]]]:]].
End OrgCiRunner.

(** ** [gitea_protected_publication_pair_contract.py] *)
Module PublicationPair.
Definition PROVE_PROCEDURE : string := "service.gitea.actions_runner.protected_pair.prove".
Definition PROVISION_PROCEDURE : string :=
"service.gitea.actions_runner.protected_pair.provision".
Definition TARGET_OBJECT_ID : Z := 416.
Definition TARGET_NAME : string := "Gitea-Runner".
Definition TARGET_OBJECT : dict :=
["content_type" :- "virtualization.virtualmachine"; "object_id" :- TARGET_OBJECT_ID].
Definition SCOPE_OWNER : string := "N-MultiCloud".
Definition SCOPE_TYPE : string := "organization".
Definition HOST_GENERATION_SHA256 : string :=
"11fc017aff23a9572db7b4a2d38cba895dcba50bfd600a2127dfad7bfcb778b5".
Definition RUNTIME_INVENTORY_SHA256 : string :=
"0398104f4485b623c10a9e236a53b4e950c9b03ba4101aa6cc5d33b7679ebd4e".
Definition PROVE_HELPER_SHA256 : string :=
"43e47fe535e4497624cc423097bf7a386aedbbd10fde2ae90c72c280005aa0a7".
Definition PROVISION_HELPER_SHA256 : string :=
"a977c99a33ab26ae4beb0b8c71848d3ed116daf821a4088caa29a31ea8979216".
Definition BUILD_SANDBOX : string := "/usr/local/bin/nmulticloud-release-build-sandbox".
Definition BUILD_SANDBOX_SHA256 : string :=
"2e644e715af33b73a91e517f6b5b59f76e0c0c2461576a9f87f522a3603f18ec".
Definition PUBLICATION_BROKER_SHA256 : string :=
"452b1a3b61413509e9f2de07a0d603961dfb06e3564f28eb7c9029b8d1fee153".
Definition PUBLICATION_POLICY_SHA256 : string :=
"75844eb1293ae8ebc06d2d2ef76c16604901a1b6825a8cea30ea664273ecac40".
Definition BACKEND_RESPONSE_MAX_BYTES : Z := 32768.
Definition ROUTE_BUDGET_SECONDS : list (string * Z) :=
[(PROVE_PROCEDURE, 300); (PROVISION_PROCEDURE, 1740)].
Definition _SHA256 : dict := ["type" :- "string"; "pattern" :- "^[0-9a-f]{64}$"].
Definition _POSITIVE_ID : dict :=
["type" :- "integer"; "minimum" :- 1; "maximum" :- 9007199254740991].
Definition _role_schema (role : string) : dict :=
let service_user := "nmc-rpc-release-" +:+ role in
let runner_name := "ci-release-" +:+ role +:+ "-netbox-rpc-backend" in
closed
  [("runner_id" :- VDict _POSITIVE_ID);
   ("runner_name" :- VDict [("const" :- runner_name)]);
   ("labels" :- VDict ["const" :- VList [:"release-" +:+ role:]]);
   ("online" :- VDict [("const" :- true)]);
   ("busy" :- VDict [("const" :- false)]);
   ("service_active" :- VDict [("const" :- true)]);
   ("service_user" :- VDict [("const" :- service_user)]);
   ("service_name" :- VDict [("const" :- service_user +:+ ".service")]);
   ("process_identity" :- VDict [("type" :- "string"); ("minLength" :- 1); ("maxLength" :- 128)]);
   ("workspace_root" :- VDict [("const" :- "/var/lib/" +:+ service_user +:+ "/work")]);
   ("state_root" :- VDict [("const" :- "/var/lib/" +:+ service_user)]);
   ("cache_root" :- VDict [("const" :- "/var/cache/" +:+ service_user)]);
   ("config_path" :- VDict [("const" :- "/etc/nmc-protected-publication/" +:+ role +:+ ".yaml")]);
   ("launcher_sha256" :-
     VDict [("const" :- "7cc722a0de44af661d299c0b86eeee03231f993effa517718e48a45c2c188ef1")]);
   ("scope_owner" :- VDict [("const" :- SCOPE_OWNER)]);
   ("scope_type" :- VDict [("const" :- SCOPE_TYPE)]);
   ("scope_sha256" :- VDict _SHA256);
   ("runtime_inventory_sha256" :- VDict [("const" :- RUNTIME_INVENTORY_SHA256)]);
   ("accepts_pull_requests" :- VDict [("const" :- false)]);
   ("control_plane_https" :- VDict [("const" :- "same-origin-gitea-only")]);
   ("candidate_build_network" :- VDict [("const" :- "none")]);
   ("package_write_credential_present" :- VDict [("const" :- false)]);
   ("package_mutation" :-
     VDict [("const" :- if String.eqb role "publisher" then "broker-socket-only" else "none")])].
Definition _PAIR_SCHEMA : dict :=
[
  "type" :- "object";
  "required" :- VList [:
      "distinct_runner_ids"; "distinct_service_users"; "distinct_processes";
      "distinct_workspaces"; "distinct_state_roots"; "distinct_cache_roots";
      "crossover_absent":];
  "additionalProperties" :- false;
  "properties" :- VDict [
      "distinct_runner_ids" :- VDict ["const" :- true];
      "distinct_service_users" :- VDict ["const" :- true];
      "distinct_processes" :- VDict ["const" :- true];
      "distinct_workspaces" :- VDict ["const" :- true];
      "distinct_state_roots" :- VDict ["const" :- true];
      "distinct_cache_roots" :- VDict ["const" :- true];
      "crossover_absent" :- VDict ["const" :- true]]].
Definition _SET_FIELDS : list string :=
[
  "all_cache_roots_distinct"; "all_processes_distinct"; "all_runner_ids_distinct";
  "all_service_users_distinct"; "all_state_roots_distinct"; "all_workspaces_distinct";
  "crossover_absent"; "validator_build_authority_absent";
  "validator_publisher_socket_absent"].
Definition _SET_SCHEMA : dict := closed (map (fun field => (field, all_true)) _SET_FIELDS).
Definition _ISOLATION_FIELDS : list string :=
[
  "fresh_unprivileged_execution"; "candidate_network_blocked";
  "candidate_credentials_hidden"; "source_read_only"; "output_scoped";
  "authority_paths_hidden"; "sibling_paths_hidden"; "runner_control_paths_hidden";
  "environment_cleared"; "resources_bounded"; "processes_reaped"; "writable_layer_absent";
  "persistence_absent"].
Definition _ISOLATION_SCHEMA : dict := closed (map (fun field => (field, all_true)) _ISOLATION_FIELDS).
Definition _PUBLICATION_BROKER_SCHEMA : dict :=
[
  "type" :- "object";
  "required" :- VList [:
      "socket_path"; "service_template"; "credential_scope"; "broker_sha256";
      "policy_sha256"; "credential_exposed_to_runner"; "credential_exposed_to_candidate";
      "canonical_main_reauthorized"; "active_run_reauthorized";
      "workflow_digest_reauthorized"; "same_origin_https_only"; "redirects_denied";
      "mutations_scoped":];
  "additionalProperties" :- false;
  "properties" :- VDict [
      "socket_path" :- VDict ["const" :- "/run/nmc-release-control/publish.sock"];
      "service_template" :- VDict ["const" :- "nmc-release-publish@.service"];
      "credential_scope" :- VDict ["const" :- "netbox-rpc-backend-package-write-only"];
      "broker_sha256" :- VDict ["const" :- PUBLICATION_BROKER_SHA256];
      "policy_sha256" :- VDict ["const" :- PUBLICATION_POLICY_SHA256];
      "credential_exposed_to_runner" :- VDict ["const" :- false];
      "credential_exposed_to_candidate" :- VDict ["const" :- false];
      "canonical_main_reauthorized" :- VDict ["const" :- true];
      "active_run_reauthorized" :- VDict ["const" :- true];
      "workflow_digest_reauthorized" :- VDict ["const" :- true];
      "same_origin_https_only" :- VDict ["const" :- true];
      "redirects_denied" :- VDict ["const" :- true];
      "mutations_scoped" :- VDict ["const" :- true]]].
Definition _result_schema (procedure operation : string) : dict :=
closed
  [("ok" :- VDict [("const" :- true)]);
   ("schema_version" :- VDict [("const" :- 1)]);
   ("procedure" :- VDict [("const" :- procedure)]);
   ("operation" :- VDict [("const" :- operation)]);
   ("stage" :- VDict [("const" :- "complete")]);
   ("target" :- VDict [("const" :- TARGET_NAME)]);
   ("target_object" :- VDict [("const" :- VDict TARGET_OBJECT)]);
   ("scope" :- VDict [("const" :- VDict [("owner" :- SCOPE_OWNER); ("type" :- SCOPE_TYPE)])]);
   ("host_generation_sha256" :- VDict [("const" :- HOST_GENERATION_SHA256)]);
   ("runtime_inventory_sha256" :- VDict [("const" :- RUNTIME_INVENTORY_SHA256)]);
   ("helper_sha256" :-
     VDict [("const" :- if String.eqb operation "prove" then PROVE_HELPER_SHA256
                      else PROVISION_HELPER_SHA256)]);
   ("sandbox_path" :- VDict [("const" :- BUILD_SANDBOX)]);
   ("sandbox_owner" :- VDict [("const" :- "root")]);
   ("sandbox_mode" :- VDict [("const" :- "0755")]);
   ("sandbox_sha256" :- VDict [("const" :- BUILD_SANDBOX_SHA256)]);
   ("roles" :- VDict (closed
     [("builder" :- VDict (_role_schema "builder"));
      ("publisher" :- VDict (_role_schema "publisher"));
      ("validator" :- VDict (_role_schema "validator"))]));
   ("pair" :- VDict _PAIR_SCHEMA);
   ("set" :- VDict _SET_SCHEMA);
   ("isolation" :- VDict _ISOLATION_SCHEMA);
   ("publication_broker" :- VDict _PUBLICATION_BROKER_SCHEMA)].
Definition RESULT_SCHEMAS : dict :=
[(PROVE_PROCEDURE, VDict (_result_schema PROVE_PROCEDURE "prove"));
 (PROVISION_PROCEDURE, VDict (_result_schema PROVISION_PROCEDURE "provision"))].

(** [role.get(field)]. *)
Definition role_get (field : string) (role : value) : res value :=
match role with VDict d => Ok (get field d) | _ => Err (OtherError "AttributeError") end.
Definition DISTINCT_FIELDS : list string :=
["runner_id"; "service_user"; "process_identity"; "workspace_root"; "state_root"; "cache_root"].
(** [len({role.get(field) for role in role_values}) == 3]. *)
Definition distinct_field (role_values : list value) (field : string) : res bool :=
values ← map_res (role_get field) role_values;
_ ← require (forallb hashable values) TypeError;
Ok (Nat.eqb (length (remove_dups (canon <$> values))) 3).
Definition _roles_have_distinct_values (role_values : list value) : res bool :=
all_res (distinct_field role_values) DISTINCT_FIELDS.

Definition is_true (v : value) : bool := bool_decide (v = VBool true).
Definition is_text (s : string) (v : value) : bool := py_eqb v s.
Definition result_semantics_are_valid (result : value) : res bool :=
match result with
| VDict result =>
  match get "roles" result, get "pair" result, get "set" result with
  | VDict roles, VDict pair_of, VDict role_set =>
      if negb (same_keys roles ["builder"; "publisher"; "validator"]) then Ok false else
      (_roles_have_distinct_values roles.*2) ≫= fun distinct : bool =>
      if negb distinct then Ok false else
      builder ← role_get "package_mutation" (get "builder" roles);
      validator ← role_get "package_mutation" (get "validator" roles);
      publisher ← role_get "package_mutation" (get "publisher" roles);
      Ok (is_text "none" builder && is_text "none" validator
          && is_text "broker-socket-only" publisher
          && is_true (get "crossover_absent" pair_of)
          && is_true (get "crossover_absent" role_set)
          && is_true (get "validator_build_authority_absent" role_set)
          && is_true (get "validator_publisher_socket_absent" role_set))
  | _, _, _ => Ok false
  end
| _ => Ok false
end.
End PublicationPair.

(** ** [netbox_rq_worker_contract.py] *)
Module RqWorker.
Definition NETBOX_PRODUCTION_STATUS_RQ_WORKER : string := "service.netbox.production.status_rq_worker".
Definition NETBOX_PRODUCTION_RESTART_RQ_WORKER : string := "service.netbox.production.restart_rq_worker".
Definition NETBOX_PRODUCTION_RQ_WORKER_PROCEDURE_NAMES : list string :=
[NETBOX_PRODUCTION_STATUS_RQ_WORKER; NETBOX_PRODUCTION_RESTART_RQ_WORKER].
Definition TARGET_NAME : string := "nmc-prod-207".
Definition COMPOSE_PROJECT : string := "nmc-netbox".
Definition COMPOSE_SERVICE : string := "netbox-rq".
Definition MAX_OUTPUT_BYTES : Z := 8192.
Definition CONTROL_QUEUE_NAME : string := "netbox_rpc.control".
Definition CONTROL_WORKER_HEARTBEAT_MAX_AGE_SECONDS : Z := 120.
Definition BACKEND_RESPONSE_MAX_BYTES : Z := 16384.
Definition BACKEND_ROUTE_BUDGET_SECONDS : list (string * Z) :=
[(NETBOX_PRODUCTION_STATUS_RQ_WORKER, 55); (NETBOX_PRODUCTION_RESTART_RQ_WORKER, 160)].
Definition _result_schema (handler_id : string) : dict :=
closed
  [("ok" :- VDict [("type" :- "boolean")]);
   ("procedure" :- VDict [("const" :- handler_id)]);
   ("target" :- VDict [("const" :- TARGET_NAME)]);
   ("project" :- VDict [("const" :- COMPOSE_PROJECT)]);
   ("service" :- VDict [("const" :- COMPOSE_SERVICE)]);
   ("status" :- VDict [("enum" :- VList
      [:"running"; "stopped"; "degraded"; "missing"; "status_failed"; "restart_failed";
       "timeout"; "indeterminate":])]);
   ("phase" :- VDict [("enum" :- VList [:"status"; "restart"; "readiness":])]);
   ("retry_requires_status_check" :- VDict [("type" :- "boolean")]);
   ("state" :- VDict [("type" :- "string"); ("maxLength" :- 64)]);
   ("health" :- VDict [("type" :- "string"); ("maxLength" :- 64)]);
   ("container" :- VDict [("type" :- "string"); ("maxLength" :- 255)]);
   ("exit_code" :- VDict [("type" :- "integer")]);
   ("output" :- VDict [("type" :- "string"); ("maxLength" :- MAX_OUTPUT_BYTES)])].
Definition RESULT_SCHEMAS : dict :=
map (fun handler_id => (handler_id, VDict (_result_schema handler_id)))
  NETBOX_PRODUCTION_RQ_WORKER_PROCEDURE_NAMES.
End RqWorker.

(** ** [akvorado_bootstrap_contract.py] *)
Module AkvoradoBootstrap.
Definition BACKEND_RESPONSE_MAX_BYTES : Z := 64 * 1024.
End AkvoradoBootstrap.

(** ** [gitea_docker_runner_contract.py], [gitea_org_docker_runner_recovery_contract.py]

    [_gitea_docker_runner_contract] picks one of the two modules at run time, so a
    module is a record of the constants the transport reads; [hasattr] is an option.
    The result schemas are what pydantic derives from the model classes
    ([model_json_schema]), an argument. *)
Record docker_contract := {
  DIAGNOSE_PROCEDURE_NAME : string;
  RECOVER_PROCEDURE_NAME : string;
  TARGET_NAME : string;
  TARGET_OBJECT_ID : Z;
  LANE : string;
  RUNNER_IDENTITY : string;
  PROBE_HOSTS : option (list string);
  REVIEWED_DNS : option (list string);
}.
Definition DOCKER_BACKEND_RESPONSE_MAX_BYTES : Z := 65536.
Definition gitea_docker_runner_contract : docker_contract := {|
  DIAGNOSE_PROCEDURE_NAME := "service.gitea.actions_runner.diagnose_user_ci_runner";
  RECOVER_PROCEDURE_NAME := "service.gitea.actions_runner.recover_user_ci_runner";
  TARGET_NAME := "Gitea-Runner";
  TARGET_OBJECT_ID := 604;
  LANE := "user-ubuntu";
  RUNNER_IDENTITY := "ci-ubuntu-emersonfelipesp-241";
  PROBE_HOSTS := Some ["git.nmulti.cloud"; "github.com"];
  REVIEWED_DNS := Some ["168.0.96.26"; "168.0.96.27"];
|}.
Definition gitea_org_docker_runner_recovery_contract : docker_contract := {|
  DIAGNOSE_PROCEDURE_NAME := "service.gitea.actions_runner.diagnose_org_ci_runner";
  RECOVER_PROCEDURE_NAME := "service.gitea.actions_runner.recover_org_ci_runner";
  TARGET_NAME := "Gitea-Runner";
  TARGET_OBJECT_ID := 604;
  LANE := "general-ubuntu";
  RUNNER_IDENTITY := "ci-ubuntu-nmulticloud-org-241";
  PROBE_HOSTS := None;
  REVIEWED_DNS := None;
|}.
Class Pydantic := { model_json_schema : docker_contract -> string -> dict }.
Definition DOCKER_RESULT_SCHEMAS `{Pydantic} (contract : docker_contract) : dict :=
  [(DIAGNOSE_PROCEDURE_NAME contract, VDict (model_json_schema contract "DiagnoseResult"));
   (RECOVER_PROCEDURE_NAME contract, VDict (model_json_schema contract "RecoverResult"))].
