(* ===== verification/HttpGuard.v ===== *)
(** * The guarded HTTP exchange

    [netbox_rpc/jobs.py], the part under the request: the exceptions and their
    [__cause__]/[__context__] chains, the wall-clock guard that arms the worker's
    interval timer around an exchange and puts the outer timer back, the socket
    deadline and the bounded JSON reader.

    Time is in nanoseconds.  What the operating system, [requests] and the backend
    do is an [outside]: every clock reading, answer and chunk of the response is
    arbitrary there, and [SIGALRM] may raise at any call into it.  A computation
    threads the state of the exchange ([net]) and returns or raises. *)

From S2P Require Import Prelude PyValue.

(** ** Exceptions

    The classes [isinstance] tests here tell apart.  [NoFuel] is no exception of the
    program: it marks a loop of the model that was given too little fuel. *)
Inductive exc_class : Type :=
| WallClockError
| ProtectedResponseError
| ConnectTimeout
| RequestException
| RequestsJSONDecodeError
| PyValueError
| OSError
| RPCError (code message : string)
| PyKeyError
| PyRuntimeError
| PyTypeError
| OtherException
| NoFuel.
#[export] Instance exc_class_eq_dec : EqDecision exc_class.
Proof. solve_decision. Defined.

(** [_ProtectedBackendWallClockError] is a [TimeoutError], hence an [OSError];
    so is every exception of [requests]. *)
Definition is_value_error (c : exc_class) : bool :=
  match c with ProtectedResponseError | RequestsJSONDecodeError | PyValueError => true | _ => false end.
Definition is_request_exception (c : exc_class) : bool :=
  match c with ConnectTimeout | RequestException | RequestsJSONDecodeError => true | _ => false end.
Definition is_os_error (c : exc_class) : bool :=
  match c with WallClockError | OSError => true | _ => is_request_exception c end.

(** Exception objects refer to each other, possibly in a cycle: an exception is the
    objects reachable from it and the identity of one of them. *)
Record exc_object := {
  exc_type : exc_class;
  exc_text : string;
  cause : option nat;
  context : option nat;
}.
Record exc := { objects : list exc_object; root : nat }.

Definition object_at (e : exc) (id : nat) : option exc_object := objects e !! id.
Definition class_of (e : exc) : exc_class :=
  match object_at e (root e) with Some o => exc_type o | None => OtherException end.
Definition text_of (e : exc) : string :=
  match object_at e (root e) with Some o => exc_text o | None => EmptyString end.

Definition new_exc (c : exc_class) (text : string) : exc :=
  {| objects := [{| exc_type := c; exc_text := text; cause := None; context := None |}]; root := 0 |}.
(** [raise c(text) from e]. *)
Definition raise_from (c : exc_class) (text : string) (e : exc) : exc :=
  {| objects := objects e ++
       [{| exc_type := c; exc_text := text; cause := Some (root e); context := Some (root e) |}];
     root := length (objects e) |}.

(** [current.__cause__ or current.__context__]. *)
Definition next_exc (o : exc_object) : option nat :=
  match cause o with Some id => Some id | None => context o end.

(** The [while] loop; one object is seen per turn, so there are at most as many
    turns as objects. *)
Fixpoint cause_loop (n : nat) (e : exc) (current : option nat) (seen : list nat) : option exc :=
  match n, current with
  | S n, Some id =>
      if bool_decide (id ∈ seen) then None else
      match object_at e id with
      | None => None
      | Some o =>
          if bool_decide (exc_type o = WallClockError) then Some {| objects := objects e; root := id |}
          else cause_loop n e (next_exc o) (id :: seen)
      end
  | _, _ => None
  end.
Definition _protected_wall_clock_cause (e : exc) : option exc :=
  cause_loop (S (length (objects e))) e (Some (root e)) [].

(** ** The outside *)

(** The next item of [response.iter_content]. *)
Inductive item : Type :=
| Chunk (bytes : list Z)
| NotBytes (truthy : bool)
| StopIteration
| Raised (e : exc).

(** A socket object: [settimeout] is callable or not, and may raise. *)
Record sock := { settimeout_callable : bool; settimeout_error : option exc }.

Record response := {
  status_code : Z;
  content_encoding : option string;
  content_length : option string;
  (** [response.raw]: the socket through [_connection] and through [_fp], at the
      n-th call on the clock *)
  connection_sock : nat -> option sock;
  fp_sock : nat -> option sock;
  (** the items of the body, and [response.json()] *)
  items : nat -> item;
  json_body : result exc value;
}.

Record outside := {
  clock : nat -> Z;
  main_thread : bool;
  json_loads : list Z -> result exc value;
}.

(** ** The state of an exchange *)

Inductive handler : Type := OuterHandler (id : Z) | DeadlineExceeded.

(** [ITIMER_REAL]: the instant it is due, if armed, and its interval. *)
Record timer := { due : option Z; interval : Z }.

Record net := {
  ticks : nat;
  alarm : handler;
  itimer : timer;
  position : nat;
  body : list Z;
  closed : bool;
}.

Definition io (A : Type) : Type := net -> net * result exc A.
#[export] Instance io_ret : MRet io := fun A a s => (s, Ok a).
#[export] Instance io_bind : MBind io := fun A B f m s =>
  match m s with
  | (s, Ok a) => f a s
  | (s, Err e) => (s, Err e)
  end.
Definition raise {A} (e : exc) : io A := fun s => (s, Err e).
Definition lift {A} (r : result exc A) : io A := fun s => (s, r).
Definition io_require (b : bool) (e : exc) : io unit := lift (require b e).
Definition get_net : io net := fun s => (s, Ok s).
Definition modify (f : net -> net) : io unit := fun s => (f s, Ok tt).
(** [try: m except: h(e)], the classes tested by [h], which re-raises the others. *)
Definition catch {A} (m : io A) (h : exc -> io A) : io A := fun s =>
  match m s with
  | (s, Ok a) => (s, Ok a)
  | (s, Err e) => h e s
  end.
(** [try: m finally: f]. *)
Definition finally {A} (m : io A) (f : net -> net) : io A := fun s =>
  let (s, r) := m s in (f s, r).

Definition set_ticks (n : nat) (s : net) : net :=
  {| ticks := n; alarm := alarm s; itimer := itimer s; position := position s; body := body s; closed := closed s |}.
Definition set_alarm (h : handler) (s : net) : net :=
  {| ticks := ticks s; alarm := h; itimer := itimer s; position := position s; body := body s; closed := closed s |}.
Definition set_timer (t : timer) (s : net) : net :=
  {| ticks := ticks s; alarm := alarm s; itimer := t; position := position s; body := body s; closed := closed s |}.
Definition set_position (n : nat) (s : net) : net :=
  {| ticks := ticks s; alarm := alarm s; itimer := itimer s; position := n; body := body s; closed := closed s |}.
Definition set_body (b : list Z) (s : net) : net :=
  {| ticks := ticks s; alarm := alarm s; itimer := itimer s; position := position s; body := b; closed := closed s |}.
Definition close (s : net) : net :=
  {| ticks := ticks s; alarm := alarm s; itimer := itimer s; position := position s; body := body s; closed := true |}.

Definition response_error (text : string) : exc :=
  new_exc ProtectedResponseError ("protected backend response " +:+ text).
Definition wall_clock_error (text : string) : exc :=
  new_exc WallClockError ("protected backend request " +:+ text).
Definition deadline_exceeded : exc := wall_clock_error "exceeded its total deadline".

Section Exchange.
Variable w : outside.

(** [time.monotonic()]; the system calls on the timer read the same clock. *)
Definition monotonic : io Z := fun s => (set_ticks (S (ticks s)) s, Ok (clock w (ticks s))).

(** ** The timer of the process *)
Definition getsignal : io handler := s ← get_net; mret (alarm s).
Definition signal (h : handler) : io unit := modify (set_alarm h).
Definition getitimer : io (Z * Z) :=
now ← monotonic;
s ← get_net;
mret (match due (itimer s) with Some t => Z.max 0 (t - now) | None => 0 end, interval (itimer s)).
Definition setitimer (seconds every : Z) : io unit :=
now ← monotonic;
modify (set_timer (if 0 <? seconds then {| due := Some (now + seconds); interval := every |}
             else {| due := None; interval := 0 |})).

(** ** [_protected_backend_wall_clock] *)

(** The clean-up of the [finally] block. *)
Definition restore_outer (started : Z) (ended : option Z) (previous_handler : handler)
(previous_remaining previous_interval : Z) : io unit :=
ended ← (match ended with Some t => mret t | None => monotonic end : io Z);
let elapsed := ended - started in
_ ← setitimer 0 0;
_ ← signal previous_handler;
if elapsed <? previous_remaining
then setitimer (previous_remaining - elapsed) previous_interval
else mret tt.

(** The [yield] inside [try], followed by the [finally] block. *)
Definition timed {A} (m : io A) (deadline started : Z) (previous_handler : handler)
(previous_remaining previous_interval : Z) : io A := fun s =>
let (s, r) := m s in
match r with
| Ok a =>
(ended ← monotonic;
 _ ← restore_outer started (Some ended) previous_handler previous_remaining previous_interval;
 if deadline <=? ended then raise deadline_exceeded else mret a) s
| Err e =>
(_ ← restore_outer started None previous_handler previous_remaining previous_interval;
 raise e) s
end.

Definition _protected_backend_wall_clock {A} (deadline : Z) (m : io A) : io A :=
if negb (main_thread w) then raise (wall_clock_error "requires the worker main thread") else
now ← monotonic;
let remaining := deadline - now in
if remaining <=? 0 then raise deadline_exceeded else
previous_handler ← getsignal;
previous ← getitimer;
let (previous_remaining, previous_interval) := (previous : Z * Z) in
if (0 <? previous_remaining) && (previous_remaining <=? remaining) then
a ← m;
ended ← monotonic;
if deadline <=? ended then raise deadline_exceeded else mret a
else
let started := deadline - remaining in
_ ← signal DeadlineExceeded;
_ ← setitimer remaining 0;
timed m deadline started previous_handler previous_remaining previous_interval.

(** ** Reading the body *)

Definition _set_protected_response_socket_deadline (r : response) (deadline : Z) : io unit :=
before ← get_net;
let n := ticks before in
now ← monotonic;
_ ← io_require (0 <? deadline - now) (response_error "exceeded its total deadline");
match (match connection_sock r n with Some k => Some k | None => fp_sock r n end) with
| Some k =>
if negb (settimeout_callable k) then raise (response_error "socket is unavailable") else
match settimeout_error k with
| None => mret tt
| Some e =>
  if is_os_error (class_of e)
  then raise (raise_from ProtectedResponseError "protected backend response deadline could not be applied" e)
  else raise e
end
| None => raise (response_error "socket is unavailable")
end.

(** [next(chunks)]. *)
Definition next_item (r : response) : io item := fun s =>
match items r (position s) with
| Raised e => (set_position (S (position s)) s, Err e)
| StopIteration => (s, Ok StopIteration)
| i => (set_position (S (position s)) s, Ok i)
end.

Definition byte_limit : exc := response_error "exceeds the byte limit".
Definition body_length (s : net) : Z := Z.of_nat (length (body s)).
(** [body.extend(chunk)]. *)
Definition extend (chunk : list Z) : io unit := modify (fun s => set_body (body s ++ chunk) s).

(** The look-ahead of one item once the limit is reached without a length header. *)
Definition refuse_extra (r : response) (deadline : Z) : io unit :=
_ ← _set_protected_response_socket_deadline r deadline;
extra ← next_item r;
match extra with
| StopIteration => mret tt
| Chunk [] | NotBytes false => mret tt
| _ => raise byte_limit
end.

(** One turn of the [while] loop: [true] continues, [false] breaks. *)
Definition read_step (r : response) (deadline max_bytes : Z) (expected_length : option Z) : io bool :=
_ ← _set_protected_response_socket_deadline r deadline;
chunk ← next_item r;
match chunk with
| StopIteration => mret false
| Chunk [] | NotBytes false => mret true
| NotBytes true | Raised _ => raise (response_error "yielded a non-byte chunk")
| Chunk chunk =>
s ← get_net;
_ ← io_require (negb (max_bytes <? body_length s + Z.of_nat (length chunk))) byte_limit;
_ ← extend chunk;
s ← get_net;
match expected_length with
| None => if body_length s =? max_bytes
        then _ ← refuse_extra r deadline; mret false else mret true
| Some _ => mret true
end
end.

Fixpoint read_loop (n : nat) (r : response) (deadline max_bytes : Z) (expected_length : option Z) : io unit :=
match n with
| O => raise (new_exc NoFuel EmptyString)
| S n =>
s ← get_net;
if match expected_length with Some l => body_length s <? l | None => true end then
continue ← read_step r deadline max_bytes expected_length;
match continue : bool with
| true => read_loop n r deadline max_bytes expected_length
| false => mret tt
end
else mret tt
end.

(** [int(raw_length)] after [isascii] and [isdecimal]; Python refuses to convert more
than 4300 digits. *)
Definition is_decimal (s : string) : bool :=
str_truthy s && forallb (fun c => (48 <=? code c) && (code c <=? 57)) (String.list_ascii_of_string s).
Definition decimal (s : string) : Z :=
fold_left (fun acc c => 10 * acc + (code c - 48)) (String.list_ascii_of_string s) 0.
Definition parse_content_length (r : response) (max_bytes : Z) : io (option Z) :=
match content_length r with
| None => mret None
| Some raw_length =>
if negb (is_decimal raw_length) then raise (response_error "Content-Length is invalid") else
if 4300 <? str_len raw_length then raise (new_exc PyValueError EmptyString) else
if max_bytes <? decimal raw_length then raise byte_limit else mret (Some (decimal raw_length))
end.

(** [body[index] = 0] for every index. *)
Definition wipe (s : net) : net := set_body (map (fun _ => 0) (body s)) s.

Definition read_body (n : nat) (r : response) (deadline max_bytes : Z) (expected_length : option Z) : io value :=
_ ← read_loop n r deadline max_bytes expected_length;
s ← get_net;
_ ← io_require (match expected_length with Some l => body_length s =? l | None => true end)
(response_error "ended before Content-Length");
match body s with
| [] => raise (response_error "body is empty")
| data => lift (json_loads w data)
end.

Definition encoding_ok (r : response) : bool :=
str_in (str_lower (default EmptyString (content_encoding r))) [EmptyString; "identity"].

Definition _read_bounded_json_response (n : nat) (r : response) (deadline max_bytes : Z) : io value :=
_ ← io_require (encoding_ok r) (response_error "content encoding is forbidden");
expected_length ← parse_content_length r max_bytes;
_ ← modify (set_body []);
finally (read_body n r deadline max_bytes expected_length) wipe.
End Exchange.
