(* ===== verification/GuardProperties.v ===== *)
(** * Properties of the guarded exchange

    The search for a wall-clock exception in a chain of causes (it ends on any graph
    of exceptions and finds exactly the reachable ones), the outer timer after the
    guard, and the bounded reader: it ends whatever the backend streams, holds at most
    the limit, and leaves no byte of the body behind. *)

From S2P Require Import Prelude PyValue HttpGuard.

(** Run the state through a straight line of operations. *)
Ltac io_step :=
  cbv [mbind io_bind mret io_ret raise lift modify get_net monotonic setitimer signal getsignal getitimer];
  cbn -[Z.ltb Z.leb Z.sub Z.add Z.max Z.min restore_outer timed].

(** ** The chain of causes *)

(** One step of the chain, and its reflexive transitive closure. *)
Definition linked (e : exc) (a b : nat) : Prop :=
  exists o, object_at e a = Some o /\ next_exc o = Some b.
Definition chain (e : exc) : nat -> nat -> Prop := rtc (linked e).
(** A wall-clock exception is among the causes. *)
Definition caused_by_clock (e : exc) : Prop :=
  exists id o, chain e (root e) id /\ object_at e id = Some o /\ exc_type o = WallClockError.

Lemma object_at_lt e id o : object_at e id = Some o -> (id < length (objects e))%nat.
Proof. apply lookup_lt_Some. Qed.

Section Chain.
Variable e : exc.

(** What was seen leads to [current], has no wall-clock exception, and is followed by
    what was seen or by [current]. *)
Definition visited (current : option nat) (seen : list nat) : Prop :=
  NoDup seen /\
  (forall id, id ∈ seen -> exists o, object_at e id = Some o /\ exc_type o <> WallClockError /\
     forall id', next_exc o = Some id' -> id' ∈ seen \/ current = Some id').

Lemma visited_bound current seen : visited current seen -> (length seen <= length (objects e))%nat.
Proof.
  intros [Hnd Hs]. rewrite <- (length_seq (length (objects e)) 0). apply submseteq_length.
  apply NoDup_submseteq; [done|]. intros id Hid. destruct (Hs id Hid) as (o & Ho & _).
  apply object_at_lt in Ho. apply elem_of_seq. lia.
Qed.

(** A set closed under the links contains what its elements reach. *)
Lemma chain_closed (S : nat -> Prop) a b :
  (forall x y, S x -> linked e x y -> S y) -> chain e a b -> S a -> S b.
Proof. intros Hc Hab. induction Hab; eauto. Qed.

Lemma cause_loop_sound n current seen e' id0 :
  (forall id, current = Some id -> chain e id0 id) ->
  cause_loop n e current seen = Some e' ->
  exists id o, e' = {| objects := objects e; root := id |} /\ chain e id0 id /\
    object_at e id = Some o /\ exc_type o = WallClockError.
Proof.
  revert current seen. induction n as [|n IH]; intros [id|] seen Hc; try done. cbn.
  case_bool_decide; [done|]. destruct (object_at e id) as [o|] eqn:Ho; [|done].
  case_bool_decide as Ht.
  - intros [= <-]. exists id, o. auto.
  - apply IH. intros id' Hn. eapply rtc_r; [by apply Hc|]. by exists o.
Qed.

(** Nothing is found: no wall-clock exception is reachable from what was visited. *)
Lemma cause_loop_complete n current seen :
  visited current seen -> (length (objects e) < n + length seen)%nat ->
  cause_loop n e current seen = None ->
  exists S : nat -> Prop, (forall id, current = Some id -> S id) /\
    (forall id, id ∈ seen -> S id) /\ (forall x y, S x -> linked e x y -> S y) /\
    (forall id o, S id -> object_at e id = Some o -> exc_type o <> WallClockError).
Proof.
  revert current seen. induction n as [|n IH]; intros current seen Hv Hn.
  { apply visited_bound in Hv. lia. }
  destruct Hv as [Hnd Hs]. destruct current as [id|]; cbn.
  2: { intros _. exists (fun x => x ∈ seen). split_and!; try done.
       - intros x y Hx (o & Ho & Hy). destruct (Hs x Hx) as (o' & Ho' & _ & Hnext).
         simplify_eq. destruct (Hnext y Hy); [done|congruence].
       - intros x o Hx Ho. destruct (Hs x Hx) as (o' & Ho' & Ht & _). by simplify_eq. }
  case_bool_decide as Hin.
  { intros _. exists (fun x => x ∈ seen). split_and!; try done.
    - by intros ? [= <-].
    - intros x y Hx (o & Ho & Hy). destruct (Hs x Hx) as (o' & Ho' & _ & Hnext).
      simplify_eq. destruct (Hnext y Hy) as [|[= <-]]; done.
    - intros x o Hx Ho. destruct (Hs x Hx) as (o' & Ho' & Ht & _). by simplify_eq. }
  destruct (object_at e id) as [o|] eqn:Ho.
  2: { intros _. exists (fun x => x ∈ id :: seen). split_and!; [intros ? [= <-]; set_solver|set_solver| |].
       - intros x y Hx (o & Ho' & Hy). apply elem_of_cons in Hx as [->|Hx]; [congruence|].
         destruct (Hs x Hx) as (o' & Ho'' & _ & Hnext). simplify_eq.
         destruct (Hnext y Hy) as [|[= <-]]; set_solver.
       - intros x o Hx Ho'. apply elem_of_cons in Hx as [->|Hx]; [congruence|].
         destruct (Hs x Hx) as (o' & Ho'' & Ht & _). by simplify_eq. }
  case_bool_decide as Ht; [done|]. intros Hnone.
  apply IH in Hnone as (S & HS1 & HS2 & HS3 & HS4); [|split|cbn; lia].
  - exists S. split_and!; [intros ? [= <-]; apply HS2; set_solver| |done|done].
    intros x Hx. apply HS2. set_solver.
  - by apply NoDup_cons.
  - intros x [->|Hx]%elem_of_cons.
    + exists o. split_and!; try done. intros id' Hn'. by right.
    + destruct (Hs x Hx) as (o' & Ho' & Ht' & Hnext). exists o'. split_and!; try done.
      intros id' Hn'. left. destruct (Hnext id' Hn') as [|[= <-]]; set_solver.
Qed.
End Chain.

(** Recovering a wall-clock exception from a chain of causes is exact: on any
    graph of exceptions, cyclic ones included, the search ends, it returns an
    exception of the chain whose class is the wall-clock error, and it returns none
    only when no exception that [__cause__ or __context__] leads to is one. *)
Theorem wall_clock_cause_exact e :
  (forall e', _protected_wall_clock_cause e = Some e' ->
     class_of e' = WallClockError /\ objects e' = objects e /\ chain e (root e) (root e')) /\
  (is_Some (_protected_wall_clock_cause e) <-> caused_by_clock e).
Proof.
  unfold _protected_wall_clock_cause.
  assert (Hs : forall e', cause_loop (S (length (objects e))) e (Some (root e)) [] = Some e' ->
    exists id o, e' = {| objects := objects e; root := id |} /\ chain e (root e) id /\
      object_at e id = Some o /\ exc_type o = WallClockError).
  { intros e'. apply cause_loop_sound. intros ? [= <-]. apply rtc_refl. }
  split; [|split].
  - intros e' (id & o & -> & Hc & Ho & Ht)%Hs. split_and!; try done.
    unfold class_of, object_at in *. cbn. by rewrite Ho.
  - intros [e' (id & o & _ & Hc & Ho & Ht)%Hs]. by exists id, o.
  - intros (id & o & Hc & Ho & Ht). destruct (cause_loop _ _ _ _) eqn:E; [done|exfalso].
    apply cause_loop_complete in E as (S & HS1 & _ & HS3 & HS4); [|split|cbn; lia].
    + eapply HS4; [|done..]. eapply chain_closed; eauto.
    + constructor.
    + set_solver.
Qed.

(** ** The outer timer *)

(** Time does not go back. *)
Definition forward_clock (w : outside) : Prop := forall i j, (i <= j)%nat -> clock w i <= clock w j.
(** The guarded body leaves the timer of the process alone. *)
Definition keeps_timer {A} (m : io A) : Prop :=
  forall s, alarm (m s).1 = alarm s /\ itimer (m s).1 = itimer s /\ (ticks s <= ticks (m s).1)%nat.

(** The outer timer was due at [d]; [t] is the tick at which the guard was entered, and
    reading the clock and the timer are two system calls, [gap] apart. *)
Definition gap (w : outside) (t : nat) : Z := clock w (S t) - clock w t.
Definition timer_back (w : outside) (t : nat) (d every : Z) (s : net) : Prop :=
  exists k d', (t <= k < ticks s)%nat /\ itimer s = {| due := Some d'; interval := every |} /\
    d - gap w t <= d' <= d + (clock w (ticks s) - clock w k).
Definition timer_lost {A} (w : outside) (t : nat) (d deadline : Z) (s : net) (r : result exc A) : Prop :=
  due (itimer s) = None /\ is_Ok r = false /\
  exists k, (t <= k < ticks s)%nat /\ deadline < clock w k /\ d <= clock w k + gap w t.

Section Timer.
Variable w : outside.
Hypothesis Hclock : forward_clock w.

Lemma restore_outer_spec started ended h pr pi s :
  exists s', restore_outer w started ended h pr pi s = (s', Ok tt) /\ alarm s' = h /\
    (ticks s < ticks s')%nat /\
    let e := match ended with Some e => e | None => clock w (ticks s) end in
    itimer s' = if e - started <? pr
                then {| due := Some (clock w (pred (ticks s')) + (pr - (e - started))); interval := pi |}
                else {| due := None; interval := 0 |}.
Proof.
  unfold restore_outer. destruct ended as [e|]; io_step.
  - destruct (e - started <? pr) eqn:E; io_step; eexists; (split; [reflexivity|]); cbn;
      (split_and!; [done|lia|]); [|done].
    apply Z.ltb_lt in E. by rewrite (proj2 (Z.ltb_lt 0 _)) by lia.
  - destruct (clock w (ticks s) - started <? pr) eqn:E; io_step; eexists; (split; [reflexivity|]); cbn;
      (split_and!; [done|lia|]); [|done].
    apply Z.ltb_lt in E. by rewrite (proj2 (Z.ltb_lt 0 _)) by lia.
Qed.

(** Entered at tick [t] with an outer timer due at [d]: the armed branch. *)
Lemma timed_timer {A} (m : io A) deadline t d every h s :
  keeps_timer m -> (S t < ticks s)%nat ->
  deadline - clock w t < d - clock w (S t) ->
  let r := timed w m deadline (clock w t) h (d - clock w (S t)) every s in
  alarm r.1 = h /\ (ticks s < ticks r.1)%nat /\
  (timer_back w t d every r.1 \/ timer_lost w t d deadline r.1 r.2).
Proof.
  intros Hm Ht Hd. unfold timed. destruct (m s) as [s1 r1] eqn:E.
  specialize (Hm s). rewrite E in Hm. cbn in Hm. destruct Hm as (_ & _ & Hticks).
  assert (Hend : forall ended k s0 s2, (t <= k < ticks s2)%nat -> (k <= ticks s0)%nat ->
    (ticks s0 < ticks s2)%nat -> ended = clock w k ->
    itimer s2 = (if ended - clock w t <? d - clock w (S t)
                then {| due := Some (clock w (pred (ticks s2)) + (d - clock w (S t) - (ended - clock w t)));
                        interval := every |}
                else {| due := None; interval := 0 |}) ->
    timer_back w t d every s2 \/
    (due (itimer s2) = None /\ deadline < ended /\ d <= ended + gap w t)).
  { intros ended k s0 s2 Hk Hk0 Hs -> Hi. destruct (_ <? _) eqn:Hc.
    - left. apply Z.ltb_lt in Hc.
      assert (clock w k <= clock w (pred (ticks s2))) by (apply Hclock; lia).
      assert (clock w (pred (ticks s2)) <= clock w (ticks s2)) by (apply Hclock; lia).
      assert (clock w t <= clock w (S t)) by (apply Hclock; lia).
      eexists k, _. unfold gap. split_and!; [lia|lia|exact Hi|lia|lia].
    - right. apply Z.ltb_ge in Hc. rewrite Hi. unfold gap.
      assert (clock w t <= clock w (S t)) by (apply Hclock; lia). split_and!; [done|lia|lia]. }
  destruct r1 as [a|e]; io_step.
  - destruct (restore_outer_spec (clock w t) (Some (clock w (ticks s1))) h
      (d - clock w (S t)) every (set_ticks (S (ticks s1)) s1)) as (s2 & -> & Ha & Hs & Hi).
    cbn in Hs, Hi.
    destruct (Hend _ (ticks s1) (set_ticks (S (ticks s1)) s1) s2 ltac:(lia) ltac:(cbn; lia) Hs eq_refl Hi)
      as [Hb|(Hn & Hd' & Hg)];
      (destruct (deadline <=? clock w (ticks s1)) eqn:Hdl; cbn; (split_and!; [done|lia|])).
    + by left.
    + by left.
    + right. split_and!; [done|done|exists (ticks s1); split_and!; [lia|lia|done|done]].
    + apply Z.leb_gt in Hdl. lia.
  - destruct (restore_outer_spec (clock w t) None h (d - clock w (S t)) every s1)
      as (s2 & -> & Ha & Hs & Hi).
    cbn in Hs, Hi. cbn. split_and!; [done|lia|].
    destruct (Hend _ (ticks s1) s1 s2 ltac:(lia) ltac:(lia) Hs eq_refl Hi) as [Hb|(Hn & Hd' & Hg)];
      [by left|right].
    split_and!; [done|done|exists (ticks s1); split_and!; [lia|lia|done|done]].
Qed.

(** The timer after the guard. *)
Lemma guard_timer {A} (m : io A) deadline s d :
  keeps_timer m -> due (itimer s) = Some d -> clock w (S (ticks s)) < d ->
  let r := _protected_backend_wall_clock w deadline m s in
  alarm r.1 = alarm s /\
  (itimer r.1 = itimer s \/ timer_back w (ticks s) d (interval (itimer s)) r.1
   \/ timer_lost w (ticks s) d deadline r.1 r.2).
Proof.
  intros Hm Hd Hlt. unfold _protected_backend_wall_clock.
  destruct (main_thread w); io_step; [|by auto].
  destruct (deadline - clock w (ticks s) <=? 0) eqn:Hr; io_step; [by auto|]. rewrite Hd.
  rewrite (Z.max_r 0 (d - clock w (S (ticks s)))) by lia.
  rewrite (proj2 (Z.ltb_lt 0 (d - clock w (S (ticks s))))) by lia. cbn [andb].
  destruct (d - clock w (S (ticks s)) <=? deadline - clock w (ticks s)) eqn:Hb; io_step.
  - destruct (m (set_ticks _ _)) as [s1 r1] eqn:E.
    match type of E with m ?s0 = _ => specialize (Hm s0); rewrite E in Hm; cbn in Hm end.
    destruct Hm as (Ha & Hi & _).
    destruct r1 as [a|e]; io_step; [|by auto].
    destruct (deadline <=? clock w (ticks s1)); cbn; auto.
  - apply Z.leb_gt in Hb, Hr. rewrite (proj2 (Z.ltb_lt 0 _)) by lia.
    replace (deadline - (deadline - clock w (ticks s))) with (clock w (ticks s)) by lia.
    match goal with |- context [timed w m deadline _ _ _ _ ?s0] =>
      destruct (timed_timer m deadline (ticks s) d (interval (itimer s)) (alarm s) s0) as (Ha & _ & H3);
        [done|cbn; lia|lia|] end.
    split; [exact Ha|right; exact H3].
Qed.
End Timer.

(** ** The bounded reader *)

(** The bytes among the items of a body between two positions. *)
Definition bytes_of (i : item) : list Z := match i with Chunk b => b | _ => [] end.
Definition delivered (r : response) (from to : nat) : list Z :=
  concat (map (fun i => bytes_of (items r i)) (seq from (to - from))).

Arguments delivered : simpl never.
Lemma delivered_snoc r from to : (from <= to)%nat ->
  delivered r from (S to) = delivered r from to ++ bytes_of (items r to).
Proof.
  intros Hle. unfold delivered. replace (S to - from)%nat with (S (to - from)) by lia.
  rewrite seq_S, map_app, concat_app. cbn. rewrite app_nil_r. do 3 f_equal. lia.
Qed.
Lemma delivered_nil r from : delivered r from from = [].
Proof. unfold delivered. by rewrite Nat.sub_diag. Qed.

(** The result [Ok a] of a computation, and what holds of its final state. *)
Definition ensures {A} (m : io A) (s : net) (P : net -> Prop) (Q : A -> net -> Prop) : Prop :=
  P (m s).1 /\ forall a, (m s).2 = Ok a -> Q a (m s).1.

Lemma ensures_bind {A B} (m : io A) (f : A -> io B) s P (Q : A -> net -> Prop) Q' :
  ensures m s P Q -> (forall a s', Q a s' -> P s' -> ensures (f a) s' P Q') -> ensures (m ≫= f) s P Q'.
Proof.
  unfold ensures, mbind, io_bind. destruct (m s) as [s1 [a|e]]; cbn; intros [HP HQ] Hf.
  - by apply Hf; auto.
  - by split.
Qed.
Lemma ensures_ret {A} (a : A) s (P : net -> Prop) (Q : A -> net -> Prop) : P s -> Q a s -> ensures (mret a) s P Q.
Proof. intros HP HQ. split; [done|]. cbn. by intros ? [= <-]. Qed.
Lemma ensures_raise {A} e s (P : net -> Prop) (Q : A -> net -> Prop) : P s -> ensures (raise e) s P Q.
Proof. by split. Qed.
Lemma ensures_weaken {A} (m : io A) s (P P' : net -> Prop) (Q Q' : A -> net -> Prop) :
  ensures m s P Q -> (forall s', P s' -> P' s') -> (forall a s', P s' -> Q a s' -> Q' a s') -> ensures m s P' Q'.
Proof. intros [HP HQ] H1 H2. split; auto. Qed.

Section Reader.
Variable w : outside.
Variable r : response.
Variable p0 : nat.
Variables deadline max_bytes : Z.

(** The buffer holds what was delivered, within the limit. *)
Definition buffered (s : net) : Prop :=
  (p0 <= position s)%nat /\ body s = delivered r p0 (position s) /\ body_length s <= max_bytes.

Definition within (s : net) : Prop := body_length s <= max_bytes.

Lemma socket_deadline_ensures s : buffered s ->
  ensures (_set_protected_response_socket_deadline w r deadline) s within (fun _ => buffered).
Proof.
  intros Hs. assert (Hs' : buffered (set_ticks (S (ticks s)) s)) by exact Hs.
  assert (Hw : within (set_ticks (S (ticks s)) s)) by apply Hs.
  unfold _set_protected_response_socket_deadline, io_require, ensures. io_step.
  destruct (0 <? _); cbn; [|by split].
  destruct (match connection_sock r (ticks s) with Some k => _ | None => _ end) as [k|]; cbn; [|by split].
  destruct (settimeout_callable k); cbn; [|by split].
  destruct (settimeout_error k) as [e|]; cbn; [|by split].
  destruct (is_os_error _); by split.
Qed.

(** An item that adds nothing, and one that adds its bytes. *)
Lemma buffered_skip s : buffered s -> bytes_of (items r (position s)) = [] ->
  buffered (set_position (S (position s)) s).
Proof.
  intros (Hp & Hb & Hl) Hn. split_and!; cbn; [lia| |done].
  by rewrite delivered_snoc, Hn, app_nil_r by done.
Qed.
Lemma buffered_extend s chunk : buffered s -> items r (position s) = Chunk chunk ->
  body_length s + Z.of_nat (length chunk) <= max_bytes ->
  buffered (set_body (body s ++ chunk) (set_position (S (position s)) s)).
Proof.
  intros (Hp & Hb & Hl) Hi Hn. split_and!; cbn; [lia| |].
  - by rewrite delivered_snoc, Hi, Hb by done.
  - unfold body_length in *. cbn. rewrite length_app. lia.
Qed.

(** What [next_item] leaves, by the item. *)
Definition after_item (i : item) (s0 s : net) : Prop :=
  match i with
  | StopIteration => s = s0
  | i => i = items r (position s0) /\ s = set_position (S (position s0)) s0
  end.
Lemma next_item_ensures s : within s -> ensures (next_item r) s within (fun i s' => after_item i s s').
Proof.
  intros Hs. unfold next_item, ensures. destruct (items r (position s)) eqn:Hi; cbn;
    (split; [exact Hs|]); intros a [= <-]; cbn; auto.
Qed.

Lemma refuse_extra_ensures s : buffered s ->
  ensures (refuse_extra w r deadline) s within (fun _ => buffered).
Proof.
  intros Hs. unfold refuse_extra. eapply ensures_bind; [by apply socket_deadline_ensures|].
  intros [] s1 Hb1 Hw1. eapply ensures_bind; [by apply next_item_ensures|].
  intros i s2 Hi Hw2. destruct i as [[|]|[]| |]; cbn in Hi; try by apply ensures_raise.
  1,2: destruct Hi as [Hi ->]; apply ensures_ret; [done|]; apply buffered_skip; [done|by rewrite <- Hi].
  subst. by apply ensures_ret.
Qed.

Lemma read_step_ensures s expected : buffered s ->
  ensures (read_step w r deadline max_bytes expected) s within (fun _ => buffered).
Proof.
  intros Hs. unfold read_step. eapply ensures_bind; [by apply socket_deadline_ensures|].
  intros [] s1 Hb1 Hw1. eapply ensures_bind; [by apply next_item_ensures|].
  intros i s2 Hi Hw2. destruct i as [[|c l]|[]| |]; cbn in Hi; try by apply ensures_raise.
  - destruct Hi as [Hi ->]. apply ensures_ret; [done|]. apply buffered_skip; [done|by rewrite <- Hi].
  - destruct Hi as [Hi ->]. unfold io_require, ensures, extend. io_step.
    destruct (max_bytes <? _) eqn:Hm; cbn -[refuse_extra]; [by split|].
    apply Z.ltb_ge in Hm.
    pose proof (buffered_extend s1 (c :: l) Hb1 (eq_sym Hi) Hm) as Hb2.
    assert (Hw : within (set_body (body s1 ++ c :: l) (set_position (S (position s1)) s1))) by apply Hb2.
    destruct expected as [n|]; [by split|].
    destruct (_ =? max_bytes); [|by split].
    destruct (refuse_extra_ensures _ Hb2) as [HP HQ].
    cbn in *. destruct (refuse_extra w r deadline _) as [s3 [u|e]]; cbn in *; [|by split].
    split; [done|]. intros a [= <-]. by apply (HQ u).
  - destruct Hi as [Hi ->]. apply ensures_ret; [done|]. apply buffered_skip; [done|by rewrite <- Hi].
  - subst. by apply ensures_ret.
Qed.

Lemma read_loop_ensures n expected s : buffered s ->
  ensures (read_loop w n r deadline max_bytes expected) s within (fun _ => buffered).
Proof.
  revert s. induction n as [|n IH]; intros s Hs; cbn [read_loop]; [apply ensures_raise, Hs|].
  change (ensures ((fun s0 : net => (if match expected with Some l => body_length s0 <? l | None => true end
    then continue ← read_step w r deadline max_bytes expected;
         match continue with true => read_loop w n r deadline max_bytes expected | false => mret () end
    else mret ()) s0) : io unit) s within (fun _ => buffered)).
  unfold ensures. destruct (match expected with Some l => body_length s <? l | None => true end);
    [|by split; [apply Hs|intros ? _]].
  eapply ensures_bind; [by apply read_step_ensures|].
  intros [] s1 Hb1 Hw1; [by apply IH|by apply ensures_ret].
Qed.
End Reader.

(** What reading a body of at most [max_bytes] amounts to. *)
Definition read_exactly (w : outside) (r : response) (max_bytes : Z) (from : nat) (v : value) (s : net) : Prop :=
  let data := delivered r from (position s) in
  data <> [] /\ Z.of_nat (length data) <= max_bytes /\ json_loads w data = Ok v /\
  encoding_ok r = true /\
  (forall text, content_length r = Some text ->
     is_decimal text = true /\ decimal text = Z.of_nat (length data)).

Lemma wipe_zero s : Forall (eq 0) (body (wipe s)).
Proof. apply Forall_forall. by intros x (y & -> & _)%list_elem_of_fmap. Qed.
Lemma wipe_length s : body_length (wipe s) = body_length s.
Proof. unfold body_length. cbn. by rewrite length_map. Qed.

(** [body_ok]: the buffer at the end, and a returned value. *)
Definition body_ok (w : outside) (r : response) (max_bytes : Z) (from : nat) (result : net * result exc value) : Prop :=
  Forall (eq 0) (body result.1) /\ body_length result.1 <= max_bytes /\
  forall v, result.2 = Ok v -> read_exactly w r max_bytes from v result.1.

Lemma body_ok_err w r max_bytes s e : 0 <= max_bytes -> body s = [] ->
  body_ok w r max_bytes (position s) (s, Err e).
Proof. intros Hm Hb. unfold body_ok, body_length. cbn. rewrite Hb. by split_and!. Qed.

Lemma read_body_ok w n r deadline max_bytes expected s :
  0 <= max_bytes -> body s = [] -> encoding_ok r = true ->
  (forall text, content_length r = Some text -> is_decimal text = true /\ expected = Some (decimal text)) ->
  body_ok w r max_bytes (position s) (finally (read_body w n r deadline max_bytes expected) wipe s).
Proof.
  intros Hmax Hbody Henc Hexp. unfold finally, read_body.
  assert (Hb0 : buffered r (position s) max_bytes s).
  { split_and!; [lia|by rewrite delivered_nil|unfold body_length; by rewrite Hbody]. }
  destruct (read_loop_ensures w r (position s) deadline max_bytes n expected _ Hb0) as [HP HQ].
  unfold io_require. io_step.
  assert (Herr : forall s1 e, body_length s1 <= max_bytes -> body_ok w r max_bytes (position s) (wipe s1, Err e)).
  { intros s1 e Hl. split_and!; [apply wipe_zero|cbn; by rewrite wipe_length|done]. }
  destruct (read_loop w n r deadline max_bytes expected s) as [s1 [u|e]]; cbn in HP, HQ; [|by apply Herr].
  specialize (HQ u eq_refl) as (Hp & Hb & Hl).
  destruct (match expected with Some l => _ | None => _ end) eqn:Hlen; cbn -[wipe]; [|by apply Herr].
  destruct (body s1) as [|c l] eqn:Hbs; cbn -[wipe]; [by apply Herr|].
  split_and!; [apply wipe_zero|cbn [fst]; by rewrite wipe_length|].
  intros v Hv. unfold read_exactly, body_length in *. cbn [fst snd position wipe set_body] in *.
  rewrite <- Hb. rewrite Hbs in Hl. split_and!; [done|done|exact Hv|done|].
  intros text Ht. destruct (Hexp text Ht) as [Hd ->]. apply Z.eqb_eq in Hlen.
  rewrite Hbs in Hlen. auto.
Qed.

(** A protected response is read within its byte limit and leaves nothing behind:
    whatever the backend streams, the buffer never holds more than the limit and every
    byte of it is zeroed when the reader returns or raises; a value is returned only
    for exactly the bytes delivered, identity-encoded, not empty, and as long as the
    length header said when there was one. *)
Theorem bounded_read w n r deadline max_bytes s :
  0 <= max_bytes -> body s = [] ->
  body_ok w r max_bytes (position s) (_read_bounded_json_response w n r deadline max_bytes s).
Proof.
  intros Hmax Hbody. unfold _read_bounded_json_response, io_require, parse_content_length. io_step.
  destruct (encoding_ok r) eqn:Henc; cbn -[read_body]; [|by apply body_ok_err].
  destruct (content_length r) as [text|] eqn:Ht; io_step.
  - destruct (is_decimal text) eqn:Hd; cbn -[read_body]; [|by apply body_ok_err].
    destruct (4300 <? _); cbn -[read_body]; [by apply body_ok_err|].
    destruct (max_bytes <? _); cbn -[read_body]; [by apply body_ok_err|].
    apply (read_body_ok w n r deadline max_bytes _ (set_body [] s)); try done.
    intros ? Heq. rewrite Ht in Heq. injection Heq as <-. auto.
  - apply (read_body_ok w n r deadline max_bytes _ (set_body [] s)); try done. congruence.
Qed.

(** ** What leaves the timer alone *)
Section Keeps.
Variable w : outside.

Lemma keeps_timer_bind {A B} (m : io A) (f : A -> io B) :
  keeps_timer m -> (forall a, keeps_timer (f a)) -> keeps_timer (m ≫= f).
Proof.
  unfold keeps_timer, mbind, io_bind. intros Hm Hf s. specialize (Hm s).
  destruct (m s) as [s1 [a|e]]; [|done]. cbn in Hm. destruct Hm as (<- & <- & Hle).
  destruct (Hf a s1) as (? & ? & ?). split_and!; [done|done|lia].
Qed.
Lemma keeps_timer_state {A} (m : io A) : (forall s, (m s).1 = s) -> keeps_timer m.
Proof. intros Hm s. by rewrite Hm. Qed.
Lemma keeps_timer_lift {A} (res : result exc A) : keeps_timer (lift res).
Proof. by apply keeps_timer_state. Qed.
Lemma keeps_timer_ret {A} (a : A) : keeps_timer (mret a : io A).
Proof. by apply keeps_timer_state. Qed.
Lemma keeps_timer_raise {A} e : keeps_timer (raise e : io A).
Proof. by apply keeps_timer_state. Qed.
Lemma keeps_timer_require b e : keeps_timer (io_require b e).
Proof. apply keeps_timer_lift. Qed.
Lemma keeps_timer_get : keeps_timer get_net.
Proof. by apply keeps_timer_state. Qed.
Lemma keeps_timer_modify f :
  (forall s, alarm (f s) = alarm s /\ itimer (f s) = itimer s /\ ticks (f s) = ticks s) ->
  keeps_timer (modify f).
Proof. intros Hf s. destruct (Hf s) as (? & ? & Ht). split_and!; [done|done|cbn; lia]. Qed.
Lemma keeps_timer_finally {A} (m : io A) f : keeps_timer m ->
  (forall s, alarm (f s) = alarm s /\ itimer (f s) = itimer s /\ ticks (f s) = ticks s) ->
  keeps_timer (finally m f).
Proof.
  intros Hm Hf s. unfold finally. specialize (Hm s). destruct (m s) as [s1 r]. cbn in *.
  destruct (Hf s1) as (-> & -> & ->). done.
Qed.
Lemma keeps_timer_catch {A} (m : io A) h : keeps_timer m -> (forall e, keeps_timer (h e)) ->
  keeps_timer (catch m h).
Proof.
  intros Hm Hh s. unfold catch. specialize (Hm s). destruct (m s) as [s1 [a|e]]; [done|].
  cbn in Hm. destruct Hm as (<- & <- & ?), (Hh e s1) as (? & ? & ?). split_and!; [done|done|lia].
Qed.
Lemma keeps_timer_monotonic : keeps_timer (monotonic w).
Proof. intros s. cbn. auto. Qed.
Lemma keeps_timer_next r : keeps_timer (next_item r).
Proof. intros s. unfold next_item. destruct (items r (position s)); cbn; auto. Qed.

#[local] Hint Resolve keeps_timer_lift keeps_timer_ret keeps_timer_raise keeps_timer_require keeps_timer_get
  keeps_timer_monotonic keeps_timer_next : rpc.

(** Take binds, tests and matches apart. *)
Ltac keeps :=
  repeat match goal with
  | |- keeps_timer (_ ≫= _) => apply keeps_timer_bind; [|intros]
  | |- keeps_timer (if ?b then _ else _) => destruct b
  | |- keeps_timer (match ?x with _ => _ end) => destruct x
  | |- keeps_timer (modify _) => apply keeps_timer_modify; by intros
  | |- keeps_timer _ => solve [auto with rpc]
  end.

Lemma keeps_timer_socket r deadline : keeps_timer (_set_protected_response_socket_deadline w r deadline).
Proof. unfold _set_protected_response_socket_deadline. keeps. Qed.
#[local] Hint Resolve keeps_timer_socket : rpc.

Lemma keeps_timer_read_step r deadline max_bytes expected :
  keeps_timer (read_step w r deadline max_bytes expected).
Proof. unfold read_step, extend, refuse_extra. keeps. Qed.
#[local] Hint Resolve keeps_timer_read_step : rpc.

Lemma keeps_timer_read n r deadline max_bytes :
  keeps_timer (_read_bounded_json_response w n r deadline max_bytes).
Proof.
  unfold _read_bounded_json_response, parse_content_length.
  apply keeps_timer_bind; [auto with rpc|intros _]. apply keeps_timer_bind; [keeps|intros expected].
  apply keeps_timer_bind; [keeps|intros _].
  apply keeps_timer_finally; [|done]. unfold read_body.
  apply keeps_timer_bind; [|intros; keeps].
  induction n as [|n IH]; cbn [read_loop]; keeps.
Qed.
End Keeps.

(** ** The reader ends *)

(** What comes from outside is an exception of the program. *)
Definition python (e : exc) : Prop := class_of e <> NoFuel.
Definition python_result {A} (res : result exc A) : Prop := forall e, res = Err e -> python e.
Definition python_response (r : response) : Prop :=
  (forall i e, items r i = Raised e -> python e) /\
  (forall n k e, connection_sock r n = Some k \/ fp_sock r n = Some k ->
     settimeout_error k = Some e -> python e) /\
  python_result (json_body r).
(** The clock passes every instant. *)
Definition unbounded_clock (w : outside) : Prop := forall t, exists n, t <= clock w n.

(** Two computations agree from a state on and raise no fuel error. *)
Definition settled {A} (m m' : io A) (s : net) : Prop := m s = m' s /\ python_result (m s).2.

Lemma settled_bind {A B} (m m' : io A) (f f' : A -> io B) s :
  settled m m' s ->
  (forall a s', m s = (s', Ok a) -> settled (f a) (f' a) s') -> settled (m ≫= f) (m' ≫= f') s.
Proof.
  unfold settled, mbind, io_bind. intros [<- Hp] Hf. destruct (m s) as [s1 [a|e]]; [by apply Hf|].
  split; [done|]. intros ? [= <-]. by apply Hp.
Qed.
Lemma settled_same {A} (m : io A) s : python_result (m s).2 -> settled m m s.
Proof. by split. Qed.
Lemma python_ok {A} (a : A) : python_result (Ok a).
Proof. by intros ? [=]. Qed.
Lemma python_raise {A} e : python e -> python_result (Err e : result exc A).
Proof. by intros ? ? [= <-]. Qed.
Lemma python_raise_from c text e : c <> NoFuel -> python (raise_from c text e).
Proof.
  unfold python, class_of, object_at. cbn. by rewrite lookup_app_r, Nat.sub_diag by done.
Qed.
Lemma python_new c text : c <> NoFuel -> python (new_exc c text).
Proof. done. Qed.
#[local] Hint Extern 1 (python _) => (apply python_new; discriminate) : rpc.
#[local] Hint Resolve python_ok python_raise python_raise_from : rpc.

Section Ends.
Variable w : outside.
Variable r : response.
Variables deadline max_bytes : Z.
Hypothesis Hclock : forward_clock w.
Hypothesis Hr : python_response r.

Lemma socket_deadline_python s :
  let result := _set_protected_response_socket_deadline w r deadline s in
  python_result result.2 /\ ticks result.1 = S (ticks s) /\
  (deadline <= clock w (ticks s) -> exists e, result.2 = Err e).
Proof.
  unfold _set_protected_response_socket_deadline, io_require. io_step.
  destruct (0 <? deadline - clock w (ticks s)) eqn:Hd; cbn; [|split_and!; eauto with rpc].
  apply Z.ltb_lt in Hd.
  destruct (match connection_sock r (ticks s) with Some k => Some k | None => fp_sock r (ticks s) end)
    as [k|] eqn:Hk; cbn; [|split_and!; [auto with rpc|done|lia]].
  assert (Hk' : connection_sock r (ticks s) = Some k \/ fp_sock r (ticks s) = Some k)
    by (destruct (connection_sock r (ticks s)); auto).
  destruct (settimeout_callable k); cbn; [|split_and!; [auto with rpc|done|lia]].
  destruct (settimeout_error k) as [e|] eqn:He; cbn; [|split_and!; [auto with rpc|done|lia]].
  assert (python e) by (eapply (proj1 (proj2 Hr)); eauto).
  destruct (is_os_error _); cbn; (split_and!; [|done|lia]); auto with rpc.
Qed.

Lemma next_item_python s : python_result (next_item r s).2 /\ ticks (next_item r s).1 = ticks s.
Proof.
  unfold next_item. destruct (items r (position s)) eqn:E; cbn; split; auto with rpc.
  apply python_raise, (proj1 Hr (position s)), E.
Qed.

(** [m] raises no fuel error and does not turn the clock back. *)
Definition calm {A} (m : io A) : Prop :=
  forall s, python_result (m s).2 /\ (ticks s <= ticks (m s).1)%nat.

Lemma calm_bind {A B} (m : io A) (f : A -> io B) : calm m -> (forall a, calm (f a)) -> calm (m ≫= f).
Proof.
  unfold calm, mbind, io_bind. intros Hm Hf s. specialize (Hm s). destruct (m s) as [s1 [a|e]]; cbn in *.
  - destruct Hm, (Hf a s1). split; [done|lia].
  - split; [|apply Hm]. apply python_raise. by apply Hm.
Qed.
Lemma calm_lift {A} (res : result exc A) : python_result res -> calm (lift res).
Proof. by split. Qed.
Lemma calm_ret {A} (a : A) : calm (mret a).
Proof. split; [apply python_ok|done]. Qed.
Lemma calm_raise {A} e : python e -> calm (raise e : io A).
Proof. split; [by apply python_raise|done]. Qed.
Lemma calm_require b e : python e -> calm (io_require b e).
Proof. intros. apply calm_lift. destruct b; cbn; auto with rpc. Qed.
Lemma calm_get : calm get_net.
Proof. split; [apply python_ok|done]. Qed.
Lemma calm_extend c : calm (extend c).
Proof. split; [apply python_ok|done]. Qed.
Lemma calm_socket : calm (_set_protected_response_socket_deadline w r deadline).
Proof. intros s. destruct (socket_deadline_python s) as (? & -> & _). auto. Qed.
Lemma calm_next : calm (next_item r).
Proof. intros s. destruct (next_item_python s) as [? ->]. auto. Qed.

#[local] Hint Resolve calm_bind calm_ret calm_raise calm_require calm_get calm_extend calm_socket calm_next : rpc.

Lemma calm_refuse_extra : calm (refuse_extra w r deadline).
Proof.
  unfold refuse_extra. apply calm_bind; [auto with rpc|intros _].
  apply calm_bind; [auto with rpc|]. intros [[|]|[]| |]; auto with rpc.
Qed.
#[local] Hint Resolve calm_refuse_extra : rpc.

(** A turn of the loop without its socket deadline. *)
Lemma calm_take expected : calm (
  chunk ← next_item r;
  match chunk with
  | StopIteration => mret false
  | Chunk [] | NotBytes false => mret true
  | NotBytes true | Raised _ => raise (response_error "yielded a non-byte chunk")
  | Chunk chunk =>
      s ← get_net;
      _ ← io_require (negb (max_bytes <? body_length s + Z.of_nat (length chunk))) byte_limit;
      _ ← extend chunk;
      s ← get_net;
      match expected : option Z with
      | None => if body_length s =? max_bytes
                then _ ← refuse_extra w r deadline; mret false else mret true
      | Some _ => mret true
      end
  end).
Proof.
  apply calm_bind; [auto with rpc|]. intros [[|c l]|[]| |]; auto with rpc.
  apply calm_bind; [auto with rpc|intros s]. apply calm_bind; [auto with rpc|intros _].
  apply calm_bind; [auto with rpc|intros _]. apply calm_bind; [auto with rpc|intros s'].
  destruct expected; [auto with rpc|]. destruct (_ =? _); auto with rpc.
Qed.

Lemma read_step_python s expected :
  let result := read_step w r deadline max_bytes expected s in
  python_result result.2 /\ (S (ticks s) <= ticks result.1)%nat /\
  (deadline <= clock w (ticks s) -> exists e, result.2 = Err e).
Proof.
  destruct (socket_deadline_python s) as (Hp & Ht & He).
  assert (Hrest := calm_take expected). unfold read_step.
  match type of Hrest with calm ?rest => set (take := rest) in * end.
  change (let result := (_set_protected_response_socket_deadline w r deadline ≫= fun _ => take) s in
    python_result result.2 /\ (S (ticks s) <= ticks result.1)%nat /\
    (deadline <= clock w (ticks s) -> exists e, result.2 = Err e)).
  clearbody take. unfold mbind, io_bind.
  destruct (_set_protected_response_socket_deadline w r deadline s) as [s1 [[]|e]]; cbn [fst snd] in *.
  - destruct (Hrest s1). split_and!; [done|lia|]. intros Hd. by destruct (He Hd).
  - split_and!; [apply python_raise; by apply Hp|lia|eauto].
Qed.

(** With a tick [T] past the deadline, the loop ends within [T] turns. *)
Lemma read_loop_settled T expected n m s :
  deadline <= clock w T -> (T <= n + ticks s)%nat -> (T <= m + ticks s)%nat ->
  settled (read_loop w (S n) r deadline max_bytes expected)
          (read_loop w (S m) r deadline max_bytes expected) s.
Proof.
  intros HT. revert m s. induction n as [|n IH]; intros m s Hn Hm; cbn [read_loop];
    (apply settled_bind; [apply settled_same, python_ok|]); intros s0 s1 Hs0;
    injection Hs0 as <- <-;
    (destruct (match expected with Some l => _ | None => _ end); [|apply settled_same, python_ok]);
    destruct (read_step_python s expected) as (Hp & Ht & He);
    (apply settled_bind; [by apply settled_same|]); intros b s1 Hs1;
    rewrite Hs1 in Ht, He; cbn [fst snd] in Ht, He;
    assert (Hlt : (ticks s < T)%nat) by
      (destruct (decide (ticks s < T)%nat); [done|]; destruct He as [e He]; [|discriminate He];
       specialize (Hclock T (ticks s)); lia).
  - lia.
  - destruct b; [|apply settled_same, python_ok]. destruct m as [|m]; [lia|]. apply IH; lia.
Qed.

Hypothesis Hw : forall data, python_result (json_loads w data).

Lemma settled_finally {A} (m m' : io A) f s : settled m m' s -> settled (finally m f) (finally m' f) s.
Proof. unfold settled, finally. intros [<- Hp]. by destruct (m s). Qed.

Lemma calm_content_length : calm (parse_content_length r max_bytes).
Proof.
  unfold parse_content_length. destruct (content_length r) as [text|]; [|apply calm_ret].
  repeat match goal with |- calm (if ?b then _ else _) => destruct b end;
    first [apply calm_ret|apply calm_raise, python_new; discriminate].
Qed.

Lemma read_settled T n m s : deadline <= clock w T -> (T <= n)%nat -> (T <= m)%nat ->
  settled (_read_bounded_json_response w (S n) r deadline max_bytes)
          (_read_bounded_json_response w (S m) r deadline max_bytes) s.
Proof.
  intros HT Hn Hm. unfold _read_bounded_json_response, read_body.
  apply settled_bind; [apply settled_same, calm_require, python_new; discriminate|intros _ s1 _].
  apply settled_bind; [apply settled_same, calm_content_length|intros expected s2 _].
  apply settled_bind; [apply settled_same, python_ok|intros _ s3 _]. apply settled_finally.
  apply settled_bind; [apply (read_loop_settled T); [done|lia..]|intros _ s4 _].
  apply settled_same. apply calm_bind; [apply calm_get|intros s5].
  apply calm_bind; [apply calm_require, python_new; discriminate|intros _].
  destruct (body s5); [apply calm_raise, python_new; discriminate|apply calm_lift, Hw].
Qed.
End Ends.

(** Settled computations compose. *)
Lemma settled_catch {A} (m m' : io A) h h' s :
  settled m m' s -> (forall e s', python e -> settled (h e) (h' e) s') -> settled (catch m h) (catch m' h') s.
Proof.
  unfold settled, catch. intros [<- Hp] Hh. destruct (m s) as [s1 [a|e]]; [split; [done|apply python_ok]|].
  apply Hh. by apply Hp.
Qed.

Section SettledGuard.
Variable w : outside.

Lemma calm_restore started ended h pr pi : calm (restore_outer w started ended h pr pi).
Proof.
  intros s. destruct (restore_outer_spec w started ended h pr pi s) as (s' & -> & _ & Ht & _).
  split; [apply python_ok|cbn; lia].
Qed.
Lemma python_deadline : python deadline_exceeded.
Proof. done. Qed.
#[local] Hint Resolve python_deadline : rpc.

Lemma settled_timed {A} (m m' : io A) deadline started h pr pi s : settled m m' s ->
  settled (timed w m deadline started h pr pi) (timed w m' deadline started h pr pi) s.
Proof.
  unfold settled at 1. intros [Hm Hp]. unfold settled, timed. rewrite <- Hm.
  destruct (m s) as [s1 [a|e]]; (split; [done|]).
  - apply (calm_bind (monotonic w)); [intros s2; cbn; split; [apply python_ok|auto]|intros ended].
    apply calm_bind; [apply calm_restore|intros _].
    destruct (deadline <=? ended); [by apply calm_raise|apply calm_ret].
  - apply (calm_bind (restore_outer w started None h pr pi)); [apply calm_restore|intros _].
    apply calm_raise. by apply Hp.
Qed.

Lemma settled_guard {A} (m m' : io A) deadline s : (forall s, settled m m' s) ->
  settled (_protected_backend_wall_clock w deadline m) (_protected_backend_wall_clock w deadline m') s.
Proof.
  intros Hm. unfold _protected_backend_wall_clock.
  destruct (negb (main_thread w)); [by apply settled_same, python_raise|].
  apply settled_bind; [apply settled_same, python_ok|intros now s1 _].
  destruct (_ <=? 0); [by apply settled_same, python_raise|].
  apply settled_bind; [apply settled_same, python_ok|intros h s2 _].
  apply settled_bind; [apply settled_same, python_ok|intros [pr pi] s3 _].
  destruct (_ && _).
  - apply settled_bind; [apply Hm|intros a s4 _].
    apply settled_bind; [apply settled_same, python_ok|intros ended s5 _].
    apply settled_same. destruct (deadline <=? ended); [by apply python_raise|apply python_ok].
  - apply settled_bind; [apply settled_same, python_ok|intros _ s4 _].
    apply settled_bind; [apply settled_same, python_ok|intros _ s5 _]. apply settled_timed, Hm.
Qed.

(** What the guard lets through came from the body, before the deadline. *)
Lemma guard_returns {A} deadline (m : io A) s s' a :
  _protected_backend_wall_clock w deadline m s = (s', Ok a) ->
  exists s0 s1, m s0 = (s1, Ok a) /\ clock w (ticks s1) < deadline.
Proof.
  unfold _protected_backend_wall_clock. destruct (negb (main_thread w)); [done|].
  unfold mbind at 1, io_bind at 1, monotonic at 1. destruct (_ <=? 0); [done|].
  unfold mbind at 1, io_bind at 1, getsignal at 1. unfold mbind at 1, io_bind at 1, get_net at 1.
  unfold mret at 1, io_ret at 1. unfold mbind at 1, io_bind at 1.
  destruct (getitimer w _) as [s1 [[pr pi]|e]]; [|done]. destruct (_ && _).
  - unfold mbind at 1, io_bind at 1. destruct (m s1) as [s2 [b|e]] eqn:Hm; [|done].
    unfold mbind, io_bind, monotonic. destruct (deadline <=? clock w (ticks s2)) eqn:Hd; [done|].
    intros [= _ ->]. apply Z.leb_gt in Hd. eauto.
  - unfold mbind at 1, io_bind at 1, signal at 1, modify at 1.
    unfold mbind at 1, io_bind at 1. destruct (setitimer w _ _ _) as [s2 [u|e]]; [|done].
    unfold timed. destruct (m s2) as [s3 [b|e]] eqn:Hm; unfold mbind, io_bind, monotonic.
    + destruct (restore_outer w _ _ _ _ _ _) as [s4 [v|e]]; [|done].
      destruct (deadline <=? clock w (ticks s3)) eqn:Hd; [done|].
      intros [= _ ->]. apply Z.leb_gt in Hd. eauto.
    + by destruct (restore_outer w _ _ _ _ _ _) as [s4 [v|e']].
Qed.
End SettledGuard.

(** Reading always ends.  However long the backend streams, empty chunks included,
    a clock that passes the deadline bounds the turns of the loop: from some number of
    turns on the reader gives one and the same answer, in the same state, and it is an
    answer of the program, not an exhausted loop. *)
Theorem reading_ends w r deadline max_bytes s :
  forward_clock w -> unbounded_clock w -> python_response r ->
  (forall data, python_result (json_loads w data)) ->
  exists N, forall n, (N <= n)%nat ->
    _read_bounded_json_response w n r deadline max_bytes s
      = _read_bounded_json_response w N r deadline max_bytes s /\
    python_result (_read_bounded_json_response w n r deadline max_bytes s).2.
Proof.
  intros Hc Hu Hr Hw. destruct (Hu deadline) as [T HT]. exists (S T). intros [|n] Hn; [lia|].
  apply (read_settled w r deadline max_bytes Hc Hr Hw T); [done|lia|lia].
Qed.

(** ** Concrete exchanges *)
Module GuardDemo.
(** Two exceptions that are each other's context, the second caused by the first. *)
Definition cyclic (c : exc_class) : exc :=
  {| objects := [{| exc_type := RequestException; exc_text := EmptyString; cause := None; context := Some 1%nat |};
                 {| exc_type := c; exc_text := EmptyString; cause := Some 0%nat; context := None |}];
     root := 0 |}.
Definition demo_outside : outside :=
  {| clock := fun n => Z.of_nat n; main_thread := true; json_loads := fun _ => Ok VNone |}.
Definition demo_sock : sock := {| settimeout_callable := true; settimeout_error := None |}.
(** A backend that streams empty chunks for ever, and one that sends two bytes. *)
Definition endless : response :=
  {| status_code := 200; content_encoding := None; content_length := None;
     connection_sock := fun _ => Some demo_sock; fp_sock := fun _ => None;
     items := fun _ => Chunk []; json_body := Ok VNone |}.
Definition two_bytes : response :=
  {| status_code := 200; content_encoding := Some "identity"; content_length := Some "2";
     connection_sock := fun _ => None; fp_sock := fun _ => Some demo_sock;
     items := fun n => if Nat.ltb n 2 then Chunk [1] else StopIteration; json_body := Ok VNone |}.
Definition start : net :=
  {| ticks := 0; alarm := OuterHandler 1; itimer := {| due := None; interval := 0 |};
     position := 0; body := []; closed := false |}.
End GuardDemo.

Section GuardWitnesses.
Import GuardDemo.

Lemma wall_clock_cause_exact_witness :
  _protected_wall_clock_cause (cyclic OSError) = None /\
  is_Some (_protected_wall_clock_cause (cyclic WallClockError)).
Proof.
  split; [reflexivity|]. apply (proj2 (wall_clock_cause_exact (cyclic WallClockError))).
  exists 1%nat, {| exc_type := WallClockError; exc_text := EmptyString; cause := Some 0%nat; context := None |}.
  split_and!; [|reflexivity|reflexivity]. apply rtc_once. eexists. split; reflexivity.
Defined.

Lemma bounded_read_witness :
  (_read_bounded_json_response demo_outside 9 two_bytes 100 2 start).2 = Ok VNone /\
  body_ok demo_outside two_bytes 2 0 (_read_bounded_json_response demo_outside 9 two_bytes 100 2 start).
Proof. split; [reflexivity|]. apply (bounded_read demo_outside 9 two_bytes 100 2 start); [lia|reflexivity]. Defined.

Lemma reading_ends_witness :
  exists N, forall n, (N <= n)%nat ->
    _read_bounded_json_response demo_outside n endless 100 4096 start
      = _read_bounded_json_response demo_outside N endless 100 4096 start /\
    python_result (_read_bounded_json_response demo_outside n endless 100 4096 start).2.
Proof.
  apply (reading_ends demo_outside endless 100 4096 start).
  - intros i j Hij. cbn. lia.
  - intros t. exists (Z.to_nat t). cbn. lia.
  - split_and!; cbn; [by intros ? ? [=]|intros n k e [[= <-]|[=]] [=]|by intros ? [=]].
  - by intros ? ? [=].
Defined.
End GuardWitnesses.
