(* ===== verification/Backends.v ===== *)
(** * Backend rows and their resolution

    [netbox_rpc/backends.py] and the [RPCBackend] row of [netbox_rpc/models.py]: how
    the URL, the authentication header and the TLS flag of a backend are composed, and
    how a requested primary key becomes the target of a dispatch: through the
    configured resolver, [netbox_nms], or the local table.  A resolver of another
    package and [netbox_nms] are arguments. *)

From S2P Require Import Prelude PyValue CredentialContract.

(** ** [RPCBackend] *)
Record RPCBackend := {
  ip_address : option string;
  domain : string;
  port : Z;
  use_https : bool;
  base_url : string;
  verify_ssl : bool;
  auth_header_name : string;
  auth_token : string;
}.

(** [_BACKEND_HOSTNAME_RE.fullmatch]: letters, digits, dots and hyphens, the first
    and the last neither a dot nor a hyphen. *)
Definition alnum (c : ascii) : bool :=
  let z := code c in
  ((48 <=? z) && (z <=? 57)) || ((65 <=? z) && (z <=? 90)) || ((97 <=? z) && (z <=? 122)).
Definition host_char (c : ascii) : bool := alnum c || Ascii.eqb c "."%char || Ascii.eqb c "-"%char.
Definition first_alnum (s : string) : bool :=
  match s with String c _ => alnum c | EmptyString => false end.
Definition _BACKEND_HOSTNAME_RE (s : string) : bool :=
  str_forall host_char s && first_alnum s && first_alnum (str_rev s).

Definition port_ok (b : RPCBackend) : bool := (1 <=? port b) && (port b <=? 65535).
(** The dash of the message is written as a hyphen. *)
Definition clean (b : RPCBackend) : res unit :=
  let domain := str_strip (domain b) in
  if str_truthy domain && negb (_BACKEND_HOSTNAME_RE domain)
  then Err (ValidationError "domain"
         ("Enter a bare hostname or domain (letters, digits, dots, and hyphens only "
          +:+ "- no scheme, port, path, or spaces)."))
  else Ok tt.

(** [str(self.ip_address.address).split("/")[0]]. *)
Definition ip (b : RPCBackend) : string :=
  match ip_address b with None => EmptyString | Some a => str_before "/"%char a end.
Definition url (b : RPCBackend) : string :=
  let host := str_or (str_strip (domain b)) (ip b) in
  if negb (str_truthy host) then EmptyString else
  let host := if str_contains ":" host && negb (str_startswith "[" host)
              then "[" +:+ host +:+ "]" else host in
  (if use_https b then "https" else "http") +:+ "://" +:+ host +:+ ":" +:+ str_of_Z (port b).
Definition backend_url (b : RPCBackend) : string := str_or (base_url b) (url b).
Definition get_auth_headers (b : RPCBackend) : list (string * string) :=
  if str_truthy (auth_token b) then [(auth_header_name b, auth_token b)] else [].

(** ** [BackendTarget] *)
Record BackendTarget := {
  target_url : string;
  headers : list (string * string);
  target_verify_ssl : bool;
}.
#[export] Instance BackendTarget_eq_dec : EqDecision BackendTarget.
Proof. solve_decision. Defined.

Definition _adapt_backend (b : RPCBackend) : BackendTarget :=
  {| target_url := backend_url b; headers := get_auth_headers b; target_verify_ssl := verify_ssl b |}.

(** What follows the first [c]. *)
Fixpoint str_after (c : ascii) (s : string) : string :=
  match s with
  | EmptyString => EmptyString
  | String d r => if Ascii.eqb c d then r else str_after c r
  end.

(** [path.rpartition(".")]: what precedes and follows the last dot. *)
Fixpoint rpartition_dot (s : string) : option (string * string) :=
  match s with
  | EmptyString => None
  | String c r =>
      match rpartition_dot r with
      | Some (a, b) => Some (String c a, b)
      | None => if Ascii.eqb c "."%char then Some (EmptyString, r) else None
      end
  end.

(** An attribute of an imported module. *)
Inductive attribute : Type :=
| Callable (f : value -> res (option BackendTarget))
| NotCallable.

Section Resolution.
(** The rows of the table by primary key, in the order of their names; the plugin
setting; [import_module] with [getattr]; [netbox_nms.backend.get_backend], absent
when the package is not installed, as an adapted target. *)
Variable table : list (Z * RPCBackend).
Variable backend_resolver : value.
Variable import_attribute : string -> string -> res attribute.
Variable nms_get_backend : option (value -> res (option RPCBackend)).

Definition unset (pk : value) : bool := py_eqb pk VNone || py_eqb pk (VStr EmptyString).

Definition find_backend (pk : Z) : option RPCBackend :=
snd <$> List.find (fun e => e.1 =? pk) table.

Definition _resolve_local_backend (pk : value) : res (option BackendTarget) :=
if unset pk then Ok None else
match py_int pk with
| Err TypeError | Err ValueError => Ok None
| Err e => Err e
| Ok backend_pk => Ok (_adapt_backend <$> find_backend backend_pk)
end.

Definition local_rpcbackend_resolver (pk : value) : res (option BackendTarget) :=
if negb (unset pk) then _resolve_local_backend pk else
match table with
| [(_, row)] => Ok (Some (_adapt_backend row))
| _ => Ok None
end.

Definition _import_dotted_path (path : string) : res (value -> res (option BackendTarget)) :=
match rpartition_dot path with
| None => Err (OtherError (py_repr (VStr path) +:+ " is not a dotted import path."))
| Some (module_path, attr) =>
  match import_attribute module_path attr with
  | Err e => Err e
  | Ok (Callable f) => Ok f
  | Ok NotCallable => Err TypeError
  end
end.

Definition resolve_backend (pk : value) : res (option BackendTarget) :=
if truthy backend_resolver then
resolver ← _import_dotted_path (py_str backend_resolver);
resolver pk
else
match nms_get_backend with
| Some get_backend =>
  nms_backend ← get_backend pk;
  Ok (option_map _adapt_backend nms_backend)
| None => _resolve_local_backend pk
end.
End Resolution.

(** ** Facts *)

Section Facts.
Variable table : list (Z * RPCBackend).

Lemma find_backend_elem pk b : find_backend table pk = Some b -> (pk, b) ∈ table.
Proof.
  unfold find_backend. destruct (List.find _ table) as [[k r]|] eqn:E; [|done].
  cbn. intros [= ->]. apply List.find_some in E as [Hin Hk]. cbn in Hk.
  apply Z.eqb_eq in Hk. subst. by apply list_elem_of_In.
Qed.

Lemma resolve_local_exact pk t : _resolve_local_backend table pk = Ok (Some t) ->
  exists n b, py_int pk = Ok n /\ (n, b) ∈ table /\ t = _adapt_backend b.
Proof.
  unfold _resolve_local_backend. destruct (unset pk); [done|].
  destruct (py_int pk) as [n|[]]; try done.
  destruct (find_backend table n) as [b|] eqn:E; [|done]. cbn. intros [= <-].
  exists n, b. split_and!; auto using find_backend_elem.
Qed.
End Facts.
