(* ===== verification/BackendProperties.v ===== *)
(** * Properties of backend resolution

    A requested backend is never replaced by another one, and the URL composed from a
    validated row names exactly its host and its port. *)

From S2P Require Import Prelude PyValue CredentialContract RedactionFacts JsonFacts Backends.

(** ** Resolution never reroutes *)

Lemma key_unique {A} (l : list (Z * A)) n a b : NoDup l.*1 -> (n, a) ∈ l -> (n, b) ∈ l -> a = b.
Proof.
  induction l as [|[k x] l IH]; cbn; [intros _ []%elem_of_nil|].
  intros [Hk Hnd]%NoDup_cons [Ha|Ha]%elem_of_cons [Hb|Hb]%elem_of_cons; simplify_eq; auto;
    exfalso; apply Hk, list_elem_of_fmap; eexists; by split; [|eassumption].
Qed.

(** The only row a request may reach: the one it names, or the only one there is when
    it names none. *)
Definition designated (table : list (Z * RPCBackend)) (pk : value) (b : RPCBackend) : Prop :=
  if unset pk then exists n, table = [(n, b)] else exists n, py_int pk = Ok n /\ (n, b) ∈ table.

(** A request for a backend is never rerouted.  The local resolver returns the row
    that the request names, or, when it names none, the single configured row; a
    missing row, a malformed key and an ambiguous table give no backend at all. *)
Theorem resolver_never_reroutes table pk t :
  NoDup table.*1 ->
  local_rpcbackend_resolver table pk = Ok (Some t) <->
  exists b, designated table pk b /\ t = _adapt_backend b.
Proof.
  intros Hnd. unfold local_rpcbackend_resolver, designated.
  destruct (unset pk) eqn:Hu; cbn [negb].
  - destruct table as [|[n b] [|]]; split; try (by intros (? & (? & [=]) & _)); try done.
    + intros [= <-]. eauto.
    + by intros (? & (? & [= _ <-]) & ->).
  - split.
    + intros (n & b & Hn & Hin & ->)%resolve_local_exact. eauto.
    + intros (b & (n & Hn & Hin) & ->). unfold _resolve_local_backend. rewrite Hu, Hn.
      destruct (find_backend table n) as [b'|] eqn:E.
      * apply find_backend_elem in E. cbn. repeat f_equal.
        by apply (key_unique table n).
      * exfalso. unfold find_backend in E. destruct (List.find _ table) eqn:Ef; [done|].
        apply list_elem_of_In in Hin. apply (List.find_none _ _ Ef) in Hin. cbn in Hin.
        apply Z.eqb_neq in Hin. done.
Qed.

(** ** The composed URL names the validated host *)

Fixpoint skip_chars (n : nat) (s : string) : string :=
  match n, s with
  | S n, String _ r => skip_chars n r
  | _, _ => s
  end.
(** A character that ends the authority of a URL or splits off a user name. *)
Definition delimiter (c : ascii) : bool :=
  Ascii.eqb c "/"%char || Ascii.eqb c "@"%char || Ascii.eqb c "?"%char || Ascii.eqb c "#"%char
  || Ascii.eqb c "\"%char.
(** The scheme, host and port a client reads from a URL that is only an authority. *)
Definition read_url (u : string) : option (bool * string * string) :=
  let read https n :=
    let a := skip_chars n u in
    if str_forall (fun c => negb (delimiter c)) a
    then Some (https, str_before ":"%char a, str_after ":"%char a) else None in
  if str_startswith "https://" u then read true 8%nat
  else if str_startswith "http://" u then read false 7%nat else None.

Lemma host_char_plain c : host_char c = true -> delimiter c = false /\ Ascii.eqb ":"%char c = false.
Proof. by destruct c as [[] [] [] [] [] [] [] []]. Qed.
Lemma decimal_plain c : decimal c = true -> delimiter c = false.
Proof. by destruct c as [[] [] [] [] [] [] [] []]. Qed.

Lemma before_after d r : str_forall host_char d = true ->
  str_before ":"%char (d +:+ String ":"%char r) = d /\ str_after ":"%char (d +:+ String ":"%char r) = r.
Proof.
  induction d as [|c d IH]; [done|]. intros Hd. rewrite sapp_cons.
  cbn [str_forall] in Hd. apply andb_true_iff in Hd as [Hc Hd].
  apply host_char_plain in Hc as [_ Hc]. cbn [str_before str_after]. rewrite Hc.
  destruct (IH Hd) as [-> ->]. done.
Qed.

Lemma startswith_app p s : str_startswith p (p +:+ s) = true.
Proof.
  unfold str_startswith. induction p as [|c p IH]; [by destruct s|]. rewrite sapp_cons.
  cbn [String.prefix]. by destruct (ascii_dec c c).
Qed.

Lemma no_colon d : str_forall host_char d = true -> str_contains ":" d = false.
Proof.
  intros Hd. destruct (str_contains ":" d) eqn:E; [|done].
  by apply (str_contains_forall host_char ":" d Hd) in E.
Qed.

(** A validated row cannot steer a request to another host.  For a row whose domain
    passes validation and that has no explicit URL, what a client reads from the
    composed URL is the scheme of the row, exactly its domain and exactly its port. *)
Theorem composed_url_names_host b :
  clean b = Ok tt -> port_ok b = true -> base_url b = EmptyString ->
  str_strip (domain b) <> EmptyString ->
  read_url (backend_url b) = Some (use_https b, str_strip (domain b), str_of_Z (port b)).
Proof.
  unfold clean, backend_url, url. intros Hc Hp -> Hd. cbn [str_or str_truthy].
  set (d := str_strip (domain b)) in *. clearbody d.
  assert (Ht : str_truthy d = true) by (by destruct d). rewrite Ht in Hc.
  unfold str_or at 1. cbn [str_truthy]. unfold str_or. rewrite Ht. cbn [negb].
  destruct (_BACKEND_HOSTNAME_RE d) eqn:Hre; [|done]. clear Hc.
  unfold _BACKEND_HOSTNAME_RE in Hre. bool_inv.
  assert (Hchars : str_forall host_char d = true) by done.
  rewrite Ht, (no_colon d Hchars). cbn [negb andb].
  unfold port_ok in Hp. bool_inv.
  assert (Hport : str_forall decimal (str_of_Z (port b)) = true) by (apply str_of_Z_decimal; lia).
  assert (Ha : str_forall (fun c => negb (delimiter c)) (d +:+ String ":"%char (str_of_Z (port b))) = true).
  { rewrite str_forall_app. cbn [str_forall]. rewrite andb_true_iff. split.
    - eapply str_forall_impl; [|exact Hchars]. by intros c [-> _]%host_char_plain.
    - rewrite andb_true_iff. split; [done|]. eapply str_forall_impl; [|exact Hport].
      by intros c ->%decimal_plain. }
  destruct (before_after d (str_of_Z (port b)) Hchars) as [Hb Haft].
  change (":" +:+ str_of_Z (port b)) with (String ":"%char (str_of_Z (port b))).
  generalize dependent (d +:+ String ":"%char (str_of_Z (port b))). intros a Ha Hb Haft.
  destruct (use_https b).
  - change ("https" +:+ "://" +:+ a) with ("https://" +:+ a). unfold read_url.
    rewrite startswith_app. change (skip_chars 8 ("https://" +:+ a)) with a. by rewrite Ha, Hb, Haft.
  - change ("http" +:+ "://" +:+ a) with ("http://" +:+ a). unfold read_url.
    rewrite startswith_app. change (str_startswith "https://" ("http://" +:+ a)) with false.
    change (skip_chars 7 ("http://" +:+ a)) with a. by rewrite Ha, Hb, Haft.
Qed.

(** ** Witnesses *)
Definition demo_backend : RPCBackend :=
  {| ip_address := Some "10.0.0.5/24"; domain := " rpc.example.net "; port := 8000; use_https := true;
     base_url := EmptyString; verify_ssl := true; auth_header_name := "Authorization"; auth_token := "t" |}.

Lemma resolver_never_reroutes_witness :
  local_rpcbackend_resolver [(7, demo_backend)] (VInt 8) = Ok None /\
  exists b, designated [(7, demo_backend)] (VStr "7") b /\ _adapt_backend demo_backend = _adapt_backend b.
Proof.
  split; [reflexivity|]. apply (resolver_never_reroutes [(7, demo_backend)] (VStr "7") (_adapt_backend demo_backend)).
  - apply (bool_decide_eq_true (NoDup _)). reflexivity.
  - reflexivity.
Defined.

Lemma composed_url_names_host_witness :
  backend_url demo_backend = "https://rpc.example.net:8000" /\
  read_url (backend_url demo_backend) = Some (true, "rpc.example.net", "8000").
Proof.
  split; [reflexivity|].
  exact (composed_url_names_host demo_backend eq_refl eq_refl eq_refl ltac:(discriminate)).
Defined.
