(* ===== verification/BackendPolicy.v ===== *)
(** * Transport policy of a call to the backend

    [netbox_rpc/jobs.py]: the transport kind of a procedure and its policy, the
    response limits, the request plan, the fixed responses that stand for a transport
    whose outcome is unknown, and the classification of a failed request. *)

From S2P Require Import Prelude PyValue CredentialContract Response Contracts SchemaSpec.
From S2P Require Import Lease Backends HttpGuard.
Import JsonNotations.

(** ** Transport kinds *)
Inductive _BackendTransportKind : Type :=
| GENERIC
| GITEA_UPGRADE
| GITEA_RUNNER
| GITEA_ORG_CI_RUNNER
| GITEA_PROTECTED_PUBLICATION_PAIR
| GITEA_DOCKER_RUNNER
| DNS_STAGING_DEPLOY
| AKVORADO_INSTALL
| NETBOX_RQ_WORKER.
#[export] Instance kind_eq_dec : EqDecision _BackendTransportKind.
Proof. solve_decision. Defined.

Definition _PROCEDURE_TRANSPORT_KINDS : list (string * _BackendTransportKind) :=
  [("service.gitea.production.upgrade_1_27_1", GITEA_UPGRADE);
   ("service.gitea.runner.register", GITEA_RUNNER);
   ("service.gitea.actions_runner.provision_org_ci_runner", GITEA_ORG_CI_RUNNER);
   ("service.gitea.actions_runner.protected_pair.prove", GITEA_PROTECTED_PUBLICATION_PAIR);
   ("service.gitea.actions_runner.protected_pair.provision", GITEA_PROTECTED_PUBLICATION_PAIR);
   ("service.gitea.actions_runner.diagnose_user_ci_runner", GITEA_DOCKER_RUNNER);
   ("service.gitea.actions_runner.recover_user_ci_runner", GITEA_DOCKER_RUNNER);
   ("service.gitea.actions_runner.diagnose_org_ci_runner", GITEA_DOCKER_RUNNER);
   ("service.gitea.actions_runner.recover_org_ci_runner", GITEA_DOCKER_RUNNER);
   ("service.netbox.staging.deploy_dns_pair", DNS_STAGING_DEPLOY);
   (AKVORADO_BOOTSTRAP_DEBIAN13_INSTALL, AKVORADO_INSTALL)]
  ++ map (fun procedure_name => (procedure_name, NETBOX_RQ_WORKER))
       RqWorker.NETBOX_PRODUCTION_RQ_WORKER_PROCEDURE_NAMES.

Definition _SECRET_PROTECTED_TRANSPORTS : list _BackendTransportKind :=
  [GITEA_UPGRADE; GITEA_RUNNER; GITEA_ORG_CI_RUNNER; GITEA_DOCKER_RUNNER;
   GITEA_PROTECTED_PUBLICATION_PAIR; DNS_STAGING_DEPLOY].
Definition _STREAMED_TRANSPORTS : list _BackendTransportKind :=
  [GITEA_RUNNER; GITEA_ORG_CI_RUNNER; GITEA_DOCKER_RUNNER; DNS_STAGING_DEPLOY;
   AKVORADO_INSTALL; GITEA_PROTECTED_PUBLICATION_PAIR; NETBOX_RQ_WORKER].
Definition _CONNECT_FAILURE_STAGES : list (_BackendTransportKind * string) :=
  [(GITEA_UPGRADE, "execute"); (GITEA_RUNNER, "generate_token");
   (GITEA_ORG_CI_RUNNER, "preconditions"); (DNS_STAGING_DEPLOY, "execute")].

Definition assoc {K A} `{EqDecision K} (k : K) (l : list (K * A)) : option A :=
  snd <$> List.find (fun e => bool_decide (e.1 = k)) l.

(** ** The execution and its policy *)
Record rpc_execution := {
  x_pk : Z;
  x_procedure_name : string;
  x_timeout_seconds : Z;
  x_result_schema : value;
  x_params : value;
  x_normalized_params : value;
  x_target_display : string;
}.

Record _BackendTransportPolicy := {
  kind : _BackendTransportKind;
  timeout : Z;
  params : dict;
  normalized : dict;
  x_execution : rpc_execution;
}.

Definition procedure_name (p : _BackendTransportPolicy) : string := x_procedure_name (x_execution p).
Definition secret_protected (p : _BackendTransportPolicy) : bool :=
  bool_decide (kind p ∈ _SECRET_PROTECTED_TRANSPORTS).
Definition streamed (p : _BackendTransportPolicy) : bool :=
  bool_decide (kind p ∈ _STREAMED_TRANSPORTS).
Definition target_display (p : _BackendTransportPolicy) : string := x_target_display (x_execution p).

(** [str(d.get(key) or fallback)]. *)
Definition str_param (key fallback : string) (d : dict) : string := py_str (py_or (get key d) fallback).
Definition operation (p : _BackendTransportPolicy) : string := str_param "operation" "register" (params p).
Definition runner_scope (p : _BackendTransportPolicy) : string := str_param "scope" EmptyString (params p).
Definition org_runner_scope (p : _BackendTransportPolicy) : string :=
  str_param "scope" EmptyString (normalized p).
Definition org_runner_lane (p : _BackendTransportPolicy) : string := str_param "lane" EmptyString (params p).
Definition dns_commit_sha (p : _BackendTransportPolicy) : string :=
  str_param "commit_sha" EmptyString (params p).
Definition fence_digest (p : _BackendTransportPolicy) : value := get "fence_expected_sha256" (normalized p).
Definition fence_execution_id (p : _BackendTransportPolicy) : value := get "fence_execution_id" (normalized p).
Definition fence_generation (p : _BackendTransportPolicy) : value := get "fence_generation" (normalized p).

(** Seconds as nanoseconds; a float is read from its decimal [repr].  A JSON column
    holds no infinity and no NaN, which are read as no number. *)
Definition NS : Z := 1000000000.
Definition float_ns (repr : string) : option Z :=
  let mantissa := str_before "e"%char repr in
  let fraction := str_after "."%char mantissa in
  let exponent := default 0 (parse_int (str_after "e"%char repr)) + 9 - str_len fraction in
  (fun m => if 0 <=? exponent then m * 10 ^ exponent else m / 10 ^ (- exponent))
    <$> parse_int (str_before "."%char mantissa +:+ fraction).

(** [_resolve_backend_timeout_seconds]. *)
Definition resolve_backend_timeout (x : rpc_execution) (params : dict) : Z :=
  let given := match get "_timeout_seconds_snapshot" params with
               | VInt n => Some (n * NS)
               | VBool b => Some (if b then NS else 0)
               | VFloat repr => float_ns repr
               | _ => None
               end in
  match given with
  | Some t => if t <=? 0 then x_timeout_seconds x * NS else t
  | None => x_timeout_seconds x * NS
  end.

Definition _resolve_backend_transport_policy (x : rpc_execution) : _BackendTransportPolicy :=
  let params := dict_of (x_params x) in
  {| kind := default GENERIC (assoc (x_procedure_name x) _PROCEDURE_TRANSPORT_KINDS);
     timeout := resolve_backend_timeout x params;
     params := params;
     normalized := dict_of (x_normalized_params x);
     x_execution := x |}.

(** [d[k]] for the tables of budgets. *)
Definition lookup_key {K A} `{EqDecision K} (k : K) (l : list (K * A)) : result exc A :=
  match assoc k l with Some a => Ok a | None => Err (new_exc PyKeyError EmptyString) end.

Definition read_budget (p : _BackendTransportPolicy) : Z := Z.max (timeout p + 10 * NS) (30 * NS).

Definition _protected_response_limits (p : _BackendTransportPolicy) : result exc (option (Z * Z)) :=
  match kind p with
  | GITEA_ORG_CI_RUNNER =>
      Ok (Some (OrgCiRunner.ROUTE_BUDGET_SECONDS * NS, OrgCiRunner.BACKEND_RESPONSE_MAX_BYTES))
  | GITEA_RUNNER =>
      Ok (Some (GiteaRunner.ROUTE_BUDGET_SECONDS * NS, GiteaRunner.BACKEND_RESPONSE_MAX_BYTES))
  | DNS_STAGING_DEPLOY =>
      Ok (Some (DnsStaging.ROUTE_BUDGET_SECONDS * NS, DnsStaging.BACKEND_RESPONSE_MAX_BYTES))
  | AKVORADO_INSTALL => Ok (Some (read_budget p, AkvoradoBootstrap.BACKEND_RESPONSE_MAX_BYTES))
  | GITEA_DOCKER_RUNNER => Ok (Some (read_budget p, DOCKER_BACKEND_RESPONSE_MAX_BYTES))
  | GITEA_PROTECTED_PUBLICATION_PAIR =>
      budget ← lookup_key (procedure_name p) PublicationPair.ROUTE_BUDGET_SECONDS;
      Ok (Some (budget * NS, PublicationPair.BACKEND_RESPONSE_MAX_BYTES))
  | NETBOX_RQ_WORKER =>
      budget ← lookup_key (procedure_name p) RqWorker.BACKEND_ROUTE_BUDGET_SECONDS;
      Ok (Some (budget * NS, RqWorker.BACKEND_RESPONSE_MAX_BYTES))
  | _ => Ok None
  end.

(** ** The request plan *)
Inductive request_timeout : Type :=
| ConnectRead (connect read : Z)
| Urllib3Timeout (total connect read : Z).

Record _BackendRequestPlan := {
  plan_url : string;
  plan_headers : list (string * string);
  plan_json : dict;
  plan_verify : bool;
  plan_allow_redirects : bool;
  plan_stream : bool;
  plan_timeout : request_timeout;
  response_deadline : option Z;
  response_max_bytes : option Z;
}.

Definition to_body (l : SignedDispatchLease) : dict :=
  ["algorithm" :- algorithm l; "claims" :- VDict (model_dump (claims l)); "signature" :- signature l].

Fixpoint lstrip_slash (s : string) : string :=
  match s with String "/"%char r => lstrip_slash r | _ => s end.
Definition run_url (t : BackendTarget) (x : rpc_execution) : string :=
  str_rev (lstrip_slash (str_rev (target_url t))) +:+ "/rpc/executions/" +:+ str_of_Z (x_pk x) +:+ "/run".

Definition follows_redirects (p : _BackendTransportPolicy) : bool :=
  negb (secret_protected p
        || bool_decide (kind p ∈ [AKVORADO_INSTALL; GITEA_PROTECTED_PUBLICATION_PAIR; NETBOX_RQ_WORKER])).

Definition _build_backend_request_plan (w : outside) (t : BackendTarget) (x : rpc_execution)
    (p : _BackendTransportPolicy) (lease : option SignedDispatchLease) : io _BackendRequestPlan :=
  let body := match lease with Some l => ["dispatch_lease" :- VDict (to_body l)] | None => [] end in
  limits ← lift (_protected_response_limits p);
  match limits with
  | None =>
      mret {| plan_url := run_url t x; plan_headers := headers t; plan_json := body;
              plan_verify := target_verify_ssl t; plan_allow_redirects := follows_redirects p;
              plan_stream := false;
              plan_timeout := ConnectRead (10 * NS) (read_budget p);
              response_deadline := None; response_max_bytes := None |}
  | Some (route_budget, max_bytes) =>
      now ← monotonic w;
      let connect := Z.min (10 * NS) route_budget in
      mret {| plan_url := run_url t x; plan_headers := headers t; plan_json := body;
              plan_verify := target_verify_ssl t; plan_allow_redirects := follows_redirects p;
              plan_stream := true;
              plan_timeout := Urllib3Timeout route_budget connect (Z.max NS (route_budget - connect));
              response_deadline := Some (now + route_budget);
              response_max_bytes := Some max_bytes |}
  end.

(** ** Responses that stand for a failed transport *)

Definition is_indeterminate (stage : string) : bool := String.eqb stage "indeterminate".
Definition none_if (b : bool) (v : value) : value := if b then VNone else v.

Definition _gitea_transport_failure_response (stage : string) : dict :=
  ["ok" :- false;
   "result" :- VDict
     ["ok" :- false;
      "procedure" :- GiteaUpgrade.PROCEDURE_NAME;
      "target" :- GiteaUpgrade.TARGET_NAME;
      "changed" :- none_if (is_indeterminate stage) false;
      "healthy" :- none_if (is_indeterminate stage) false;
      "stage" :- stage]].

Definition _dns_staging_transport_failure_response (commit_sha stage : string) : dict :=
  let safe_commit := if hex_of 40 commit_sha then commit_sha else zeros 40 in
  ["ok" :- false;
   "result" :- VDict
     ["ok" :- false;
      "procedure" :- DnsStaging.PROCEDURE_NAME;
      "target" :- DnsStaging.TARGET;
      "commit_sha" :- safe_commit;
      "deployed" :- none_if (is_indeterminate stage) false;
      "stage" :- stage]].

(** A fence field that is an integer of JavaScript's exact range; [bool] is not. *)
Definition safe_fence (limit : Z) (fallback v : value) : value :=
  match v with
  | VInt z => if (0 <? z) && (z <=? limit) then v else fallback
  | _ => fallback
  end.
Definition safe_digest (unknown : string) (v : value) : value :=
  match v with VStr s => if hex_of 64 s then v else unknown | _ => unknown end.

Definition _gitea_runner_transport_failure_response (stage operation : string)
    (fence_digest fence_execution_id fence_generation : value) (scope : string) : dict :=
  let safe_operation := if str_in operation GiteaRunner.OPERATIONS then operation else "register" in
  let reconcile := String.eqb safe_operation "reconcile" in
  let stage := if reconcile && String.eqb stage "generate_token" then "reconcile" else stage in
  let indeterminate := is_indeterminate stage in
  let safe_scope := if str_in scope GiteaRunner.SCOPES then scope
                    else default EmptyString (head GiteaRunner.SCOPES) in
  let common :=
    ["ok" :- false;
     "procedure" :- GiteaRunner.PROCEDURE_NAME;
     "target" :- GiteaRunner.RUNNER_TARGET_NAME;
     "operation" :- safe_operation;
     "scope" :- safe_scope;
     "fence_execution_id" :- safe_fence GiteaRunner.JS_SAFE_INTEGER_MAX VNone fence_execution_id;
     "fence_generation" :- safe_fence GiteaRunner.JS_SAFE_INTEGER_MAX 1 fence_generation] in
  let tokens :=
    ["prior_token_id" :- VNone;
     "prior_active_sha256" :- VNone;
     "replacement_token_id" :- VNone;
     "stage" :- stage] in
  let middle :=
    if reconcile then
      ["registered" :- VNone;
       "reconciled" :- false;
       "token_invalidated" :- false;
       "token_reset_required" :- true;
       "token_sha256" :- safe_digest GiteaRunner.FENCE_UNKNOWN_SHA256 fence_digest;
       "reset_state" :- "indeterminate"]
    else
      ["registered" :- none_if indeterminate false;
       "reconciled" :- VNone;
       "token_invalidated" :- false;
       "token_reset_required" :- indeterminate;
       "token_sha256" :- VNone;
       "reset_state" :- if indeterminate then "indeterminate" else "not_started"] in
  ["ok" :- false; "result" :- VDict (common ++ middle ++ tokens)].

Definition _gitea_org_ci_runner_transport_failure_response (stage operation lane scope : string)
    (fence_digest fence_execution_id fence_generation : value) : dict :=
  let safe_operation := if str_in operation OrgCiRunner.OPERATIONS then operation else "provision" in
  let safe_lane := if dict_mem lane OrgCiRunner.LANES then lane else "root-python312" in
  let expected_scope := get safe_lane OrgCiRunner.SCOPE_BY_LANE in
  let safe_scope := if py_eqb scope expected_scope then VStr scope else expected_scope in
  let common :=
    ["ok" :- false;
     "procedure" :- OrgCiRunner.PROCEDURE_NAME;
     "target" :- OrgCiRunner.TARGET_NAME;
     "operation" :- safe_operation;
     "scope" :- safe_scope;
     "lane" :- safe_lane;
     "fence_execution_id" :- safe_fence 9007199254740991 VNone fence_execution_id;
     "fence_generation" :- safe_fence OrgCiRunner.JS_SAFE_INTEGER_MAX 1 fence_generation;
     "organization" :- OrgCiRunner.DEFAULT_ORGANIZATION;
     "gitea_instance_url" :- OrgCiRunner.DEFAULT_GITEA_INSTANCE_URL;
     "prior_token_id" :- VNone;
     "prior_active_sha256" :- VNone;
     "replacement_token_id" :- VNone] ++ dict_of (get safe_lane OrgCiRunner.LANES) in
  let outcome :=
    if String.eqb safe_operation "reconcile" then
      ["provisioned" :- VNone;
       "registered" :- VNone;
       "reconciled" :- false;
       "stage" :- if is_indeterminate stage then stage else "reconcile";
       "token_invalidated" :- false;
       "token_reset_required" :- true;
       "token_sha256" :- safe_digest OrgCiRunner.FENCE_UNKNOWN_SHA256 fence_digest;
       "reset_state" :- "indeterminate"]
    else
      let indeterminate := is_indeterminate stage in
      ["provisioned" :- none_if indeterminate false;
       "registered" :- none_if indeterminate false;
       "reconciled" :- VNone;
       "stage" :- stage;
       "token_invalidated" :- false;
       "token_reset_required" :- indeterminate;
       "token_sha256" :- VNone;
       "reset_state" :- if indeterminate then "indeterminate" else "not_started"] in
  ["ok" :- false; "result" :- VDict (common ++ outcome)].

Definition _akvorado_transport_failure_response (target : string) : dict :=
  let services := [:"clickhouse"; "console"; "inlet"; "kafka"; "orchestrator"; "outlet"; "redis":] in
  ["ok" :- false;
   "result" :- VDict
     ["ok" :- false;
      "procedure" :- AKVORADO_BOOTSTRAP_DEBIAN13_INSTALL;
      "target" :- str_take 255 target;
      "installed" :- VNone;
      "changed" :- VNone;
      "config_created" :- VNone;
      "docker_package_version" :- EmptyString;
      "compose_package_version" :- EmptyString;
      "docker_version" :- EmptyString;
      "compose_version" :- EmptyString;
      "compose_path" :- "/opt/nmulticloud/deploy/compose/akvorado/docker-compose.yml";
      "config_path" :- "/opt/nmulticloud/deploy/compose/akvorado/akvorado.yaml";
      "stack_healthy" :- false;
      "services_expected" :- VList services;
      "services_running" :- VList [];
      "services_healthy" :- VList [];
      "console_ready" :- false;
      "ingress_ports_ready" :- false;
      "ready" :- false;
      "stage" :- "outcome_unknown";
      "warnings" :- VList [:"Run Akvorado bootstrap preflight before retrying.":];
      "error" :- "Backend transport outcome is indeterminate."]].

Definition _netbox_rq_worker_transport_failure_response (p : _BackendTransportPolicy) : dict :=
  let restart := String.eqb (procedure_name p) RqWorker.NETBOX_PRODUCTION_RESTART_RQ_WORKER in
  ["ok" :- false;
   "result" :- VDict
     ["ok" :- false;
      "procedure" :- procedure_name p;
      "target" :- RqWorker.TARGET_NAME;
      "project" :- RqWorker.COMPOSE_PROJECT;
      "service" :- RqWorker.COMPOSE_SERVICE;
      "status" :- "indeterminate";
      "phase" :- if restart then "restart" else "status";
      "retry_requires_status_check" :- true;
      "state" :- EmptyString;
      "health" :- EmptyString;
      "container" :- EmptyString;
      "exit_code" :- -1;
      "output" :- ("The backend response is indeterminate. Run "
                   +:+ RqWorker.NETBOX_PRODUCTION_STATUS_RQ_WORKER +:+ " before retry.")];
   "error_code" :- "RPC_BACKEND_OUTCOME_UNKNOWN";
   "error_message" :- "The backend response is indeterminate; reconcile worker status before retry."].

Definition _protected_publication_pair_transport_failure_response (p : _BackendTransportPolicy) : dict :=
  ["ok" :- false;
   "result" :- VNone;
   "events" :- VList [];
   "error_code" :- "RPC_BACKEND_INDETERMINATE";
   "error_message" :- (procedure_name p
      +:+ " outcome is indeterminate; prove current state before retrying.")].

Definition _gitea_docker_runner_contract (p : _BackendTransportPolicy) : docker_contract :=
  if str_endswith "_org_ci_runner" (procedure_name p)
  then gitea_org_docker_runner_recovery_contract else gitea_docker_runner_contract.

Definition _gitea_docker_runner_snapshot (contract : docker_contract) : dict :=
  ["docker_active" :- false;
   "runner_container_name" :- RUNNER_IDENTITY contract;
   "runner_container_id" :- VNone;
   "runner_state" :- "unknown";
   "active_job" :- false;
   "default_address_pools" :- VList [];
   "networks" :- VList [];
   "address_pool_exhausted" :- false;
   "last_log_activity" :- VNone;
   "truncated" :- true]
  ++ match PROBE_HOSTS contract with
     | None => []
     | Some hosts =>
         ["daemon_dns" :- VList [];
          "probes" :- VList (map (fun host => VDict
            ["host" :- VStr host; "resolved" :- false; "addresses" :- VList [];
             "status" :- "error"]) hosts)]
     end.

Definition _gitea_docker_runner_transport_failure_response (p : _BackendTransportPolicy) : dict :=
  let contract := _gitea_docker_runner_contract p in
  let snapshot := _gitea_docker_runner_snapshot contract in
  let identity (procedure stage : string) :=
    ["ok" :- false;
     "procedure" :- procedure;
     "target" :- TARGET_NAME contract;
     "target_object_id" :- TARGET_OBJECT_ID contract;
     "lane" :- LANE contract;
     "stage" :- stage] in
  let result :=
    if String.eqb (procedure_name p) (DIAGNOSE_PROCEDURE_NAME contract)
    then snapshot ++ identity (DIAGNOSE_PROCEDURE_NAME contract) "diagnose"
    else identity (RECOVER_PROCEDURE_NAME contract) "indeterminate"
         ++ ["before" :- VDict snapshot;
             "after" :- VNone;
             "removed_network_ids" :- VList [];
             "refused_active_job" :- false]
         ++ match REVIEWED_DNS contract with
            | Some _ => ["resolver_reconciled" :- false; "restart_performed" :- false]
            | None => []
            end in
  ["ok" :- false; "result" :- VDict result].

Definition _closed_backend_transport_failure (p : _BackendTransportPolicy) (stage : string) : result exc dict :=
  match kind p with
  | AKVORADO_INSTALL => Ok (_akvorado_transport_failure_response (target_display p))
  | GITEA_ORG_CI_RUNNER =>
      Ok (_gitea_org_ci_runner_transport_failure_response stage (operation p) (org_runner_lane p)
            (org_runner_scope p) (fence_digest p) (fence_execution_id p) (fence_generation p))
  | GITEA_RUNNER =>
      Ok (_gitea_runner_transport_failure_response stage (operation p) (fence_digest p)
            (fence_execution_id p) (fence_generation p) (runner_scope p))
  | DNS_STAGING_DEPLOY => Ok (_dns_staging_transport_failure_response (dns_commit_sha p) stage)
  | GITEA_UPGRADE => Ok (_gitea_transport_failure_response stage)
  | GITEA_DOCKER_RUNNER => Ok (_gitea_docker_runner_transport_failure_response p)
  | GITEA_PROTECTED_PUBLICATION_PAIR => Ok (_protected_publication_pair_transport_failure_response p)
  | NETBOX_RQ_WORKER => Ok (_netbox_rq_worker_transport_failure_response p)
  | GENERIC => Err (new_exc PyRuntimeError "generic backend transport has no closed failure envelope")
  end.

Definition _classify_backend_request_failure (p : _BackendTransportPolicy) (e : exc) : result exc dict :=
  if bool_decide (class_of e = WallClockError) then _closed_backend_transport_failure p "indeterminate"
  else if bool_decide (kind p ∈ [AKVORADO_INSTALL; GITEA_DOCKER_RUNNER; NETBOX_RQ_WORKER])
  then _closed_backend_transport_failure p "indeterminate"
  else if secret_protected p then
    stage ← (if bool_decide (class_of e = ConnectTimeout)
             then lookup_key (kind p) _CONNECT_FAILURE_STAGES else Ok "indeterminate");
    _closed_backend_transport_failure p stage
  else Err (raise_from (RPCError "RPC_BACKEND_UNREACHABLE" ("nms-backend is unreachable: " +:+ text_of e))
              EmptyString e).
