(* ===== verification/BackendCall.v ===== *)
(** * The call to the backend

    [netbox_rpc/jobs.py], [_call_backend]: the normalization of a response against
    the contract of its procedure, and the composition of plan, request, early
    classification, bounded read and normalization under the wall-clock guard
    ([HttpGuard]).

    The answer to [requests.post] is an argument.  [jsonschema.validate] first checks
    the schema itself ([check_schema]) and then the instance. *)

From S2P Require Import Prelude PyValue CredentialContract Response Contracts SchemaSpec.
From S2P Require Import Lease Backends HttpGuard BackendPolicy.
Import JsonNotations.

Class JsonMetaSchema := { check_schema : value -> bool }.

(** [jsonschema.validate], [false] for a [ValidationError]. *)
Definition validate `{JsonSchema} `{JsonMetaSchema} (schema instance : value) : result exc bool :=
  if check_schema schema then Ok (json_valid schema instance)
  else Err (new_exc OtherException "SchemaError").

Definition closed_failure (p : _BackendTransportPolicy) : result exc dict :=
  _closed_backend_transport_failure p "indeterminate".

(** ** Envelopes *)
Definition ENVELOPE_KEYS : list string := ["ok"; "result"; "events"; "error_code"; "error_message"].

(** [not (ok and (code or message))], for texts. *)
Definition diagnostics_ok (ok : bool) (data : dict) : bool :=
  is_str (get "error_code" data) && is_str (get "error_message" data)
  && negb (ok && (truthy (get "error_code" data) || truthy (get "error_message" data))).

(** What the five-key envelopes have in common: the keys, a boolean [ok] that the
    result repeats, no events, diagnostics only on failure; [bound] is the identity
    that a contract asks of the result. *)
Definition closed_envelope (bound : dict -> bool) (data : value) : option (bool * dict) :=
  match data with
  | VDict data =>
      if negb (same_keys data ENVELOPE_KEYS) then None else
      match get "ok" data, get "result" data with
      | VBool ok, VDict result =>
          if bool_decide (get "ok" result = VBool ok) && bound result
             && py_eqb (get "events" data) (VList []) && diagnostics_ok ok data
          then Some (ok, result) else None
      | _, _ => None
      end
  | _ => None
  end.

Section Normalize.
Context `{JsonSchema} `{JsonMetaSchema} `{Pydantic}.

(** [return {"ok": data["ok"], "result": result}] once the result is valid. *)
Definition reduced (schema : value) (envelope : option (bool * dict)) : result exc (option dict) :=
match envelope with
| None => Ok None
| Some (ok, result) =>
valid ← validate schema (VDict result);
Ok (if valid : bool then Some ["ok" :- ok; "result" :- VDict result] else None)
end.

Definition _normalize_gitea_closed_response (data : value) : result exc (option dict) :=
reduced (VDict GiteaUpgrade.RESULT_SCHEMA) (closed_envelope (fun _ => true) data).

Definition _normalize_dns_staging_closed_response (data : value) (commit_sha : string)
: result exc (option dict) :=
reduced (VDict DnsStaging.RESULT_SCHEMA)
(closed_envelope (fun result => py_eqb (get "commit_sha" result) commit_sha) data).

Definition _normalize_gitea_runner_closed_response (data : value) (operation scope : string)
(fence_execution_id fence_generation : value) : result exc (option dict) :=
reduced (VDict GiteaRunner.RESULT_SCHEMA)
(closed_envelope (fun result =>
 py_eqb (get "operation" result) operation && py_eqb (get "scope" result) scope
 && py_eqb (get "fence_execution_id" result) fence_execution_id
 && py_eqb (get "fence_generation" result) fence_generation) data).

Definition _normalize_gitea_org_ci_runner_closed_response (data : value) (operation lane scope : string)
(fence_execution_id fence_generation : value) : result exc (option dict) :=
reduced (VDict OrgCiRunner.RESULT_SCHEMA)
(closed_envelope (fun result =>
 py_eqb (get "operation" result) operation && py_eqb (get "lane" result) lane
 && py_eqb (get "scope" result) scope
 && py_eqb (get "fence_execution_id" result) fence_execution_id
 && py_eqb (get "fence_generation" result) fence_generation) data).

Definition _normalize_gitea_docker_runner_closed_response (p : _BackendTransportPolicy) (data : value)
: result exc (option dict) :=
let contract := _gitea_docker_runner_contract p in
match get (procedure_name p) (DOCKER_RESULT_SCHEMAS contract) with
| VDict schema =>
reduced (VDict schema)
(closed_envelope (fun result =>
   py_eqb (get "procedure" result) (procedure_name p)
   && py_eqb (get "target" result) (TARGET_NAME contract)
   && py_eqb (get "target_object_id" result) (TARGET_OBJECT_ID contract)
   && py_eqb (get "lane" result) (LANE contract)) data)
| _ => Ok None
end.

Definition exc_of_exn (e : exn) : exc :=
match e with
| TypeError => new_exc PyTypeError EmptyString
| _ => new_exc OtherException EmptyString
end.

Definition _normalize_protected_publication_pair_closed_response (p : _BackendTransportPolicy)
(data : value) : result exc (option dict) :=
match data with
| VDict data =>
if negb (same_keys data ENVELOPE_KEYS) then Ok None else
match get "result" data, get (procedure_name p) PublicationPair.RESULT_SCHEMAS with
| VDict result, VDict schema =>
  if negb (bool_decide (get "ok" data = VBool true)
           && py_eqb (get "events" data) (VList [])
           && py_eqb (get "error_code" data) EmptyString
           && py_eqb (get "error_message" data) EmptyString) then Ok None else
  if negb (bool_decide (get "ok" result = VBool true)
           && py_eqb (get "procedure" result) (procedure_name p)
           && py_eqb (get "target" result) PublicationPair.TARGET_NAME) then Ok None else
  valid ← validate (VDict schema) (VDict result);
  if negb valid then Ok None else
  match PublicationPair.result_semantics_are_valid (VDict result) with
  | Err e => Err (exc_of_exn e)
  | Ok false => Ok None
  | Ok true => Ok (Some ["ok" :- true; "result" :- VDict result])
  end
| _, _ => Ok None
end
| _ => Ok None
end.

Definition _normalize_akvorado_install_closed_response (x : rpc_execution) (data : value)
: result exc (option dict) :=
match data with
| VDict envelope =>
if negb (same_keys envelope ENVELOPE_KEYS) then Ok None else
match get "ok" envelope, get "result" envelope, x_result_schema x with
| VBool ok, VDict result, VDict ((_ :: _) as result_schema) =>
  if bool_decide (get "ok" result = VBool ok) && is_list (get "events" envelope)
     && diagnostics_ok ok envelope
     && py_eqb (get "target" result) (str_take 255 (x_target_display x))
  then valid ← validate (VDict result_schema) (VDict result);
       Ok (if valid : bool then Some envelope else None)
  else Ok None
| _, _, _ => Ok None
end
| _ => Ok None
end.

(** ** By transport *)
Definition success (r : response) : bool := (200 <=? status_code r) && (status_code r <? 300).
Definition _closed_response_matches_http_status (r : response) (normalized : dict) : bool :=
success r || bool_decide (get "ok" normalized = VBool false).

(** The four wrappers that fall back on the closed failure. *)
Definition or_closed_failure (p : _BackendTransportPolicy) (r : response)
(normalized : result exc (option dict)) : result exc dict :=
normalized ← normalized;
match normalized with
| Some d => if _closed_response_matches_http_status r d then Ok d else closed_failure p
| None => closed_failure p
end.

Definition _normalize_gitea_upgrade_backend_response (p : _BackendTransportPolicy) (r : response)
(data : value) : result exc dict :=
or_closed_failure p r (_normalize_gitea_closed_response data).
Definition _normalize_gitea_org_ci_runner_backend_response (p : _BackendTransportPolicy) (r : response)
(data : value) : result exc dict :=
or_closed_failure p r
(_normalize_gitea_org_ci_runner_closed_response data (operation p) (org_runner_lane p)
 (org_runner_scope p) (fence_execution_id p) (fence_generation p)).
Definition _normalize_gitea_runner_backend_response (p : _BackendTransportPolicy) (r : response)
(data : value) : result exc dict :=
or_closed_failure p r
(_normalize_gitea_runner_closed_response data (operation p) (runner_scope p)
 (fence_execution_id p) (fence_generation p)).
Definition _normalize_dns_staging_backend_response (p : _BackendTransportPolicy) (r : response)
(data : value) : result exc dict :=
or_closed_failure p r (_normalize_dns_staging_closed_response data (dns_commit_sha p)).

Definition _normalize_gitea_docker_runner_backend_response (p : _BackendTransportPolicy) (r : response)
(data : value) : result exc dict :=
normalized ← _normalize_gitea_docker_runner_closed_response p data;
Ok (match normalized with
| Some d => if _closed_response_matches_http_status r d then d
          else _gitea_docker_runner_transport_failure_response p
| None => _gitea_docker_runner_transport_failure_response p
end).
Definition _normalize_protected_publication_pair_backend_response (p : _BackendTransportPolicy)
(r : response) (data : value) : result exc dict :=
normalized ← _normalize_protected_publication_pair_closed_response p data;
Ok (match normalized with
| Some d => if success r && _closed_response_matches_http_status r d then d
          else _protected_publication_pair_transport_failure_response p
| None => _protected_publication_pair_transport_failure_response p
end).

Definition http_text (r : response) : string := "HTTP " +:+ str_of_Z (status_code r).
Definition _normalize_generic_backend_response (r : response) (data : value) : result exc value :=
if status_code r <? 400 then Ok data else
match data with
| VDict d =>
let message := match get "detail" d with
             | VStr detail => detail
             | _ => py_str (default (VStr (http_text r)) (dict_get "error" d))
             end in
Err (new_exc (RPCError (py_str (py_or (get "code" d) "RPC_BACKEND_ERROR")) message) EmptyString)
| _ => Err (new_exc (RPCError "RPC_BACKEND_ERROR" ("nms-backend returned " +:+ http_text r)) EmptyString)
end.

Definition _normalize_akvorado_backend_response (p : _BackendTransportPolicy) (x : rpc_execution)
(r : response) (data : value) : result exc value :=
if (status_code r =? 408) || (status_code r =? 504) || (500 <=? status_code r) then
VDict <$> closed_failure p
else if success r then
normalized ← _normalize_akvorado_install_closed_response x data;
match normalized with
| Some d => Ok (VDict d)
| None => VDict <$> closed_failure p
end
else _normalize_generic_backend_response r data.

(** A schema that is missing or invalid also fails closed. *)
Definition _normalize_netbox_rq_worker_backend_response (p : _BackendTransportPolicy) (r : response)
(data : value) : result exc dict :=
match data with
| VDict d =>
match get "ok" d, get "result" d with
| VBool ok, VDict result =>
  if negb (bool_decide (get "ok" result = VBool ok)) then closed_failure p else
  match dict_get (procedure_name p) RqWorker.RESULT_SCHEMAS with
  | None => closed_failure p
  | Some schema =>
      match validate schema (VDict result) with
      | Ok true => if success r then Ok d else closed_failure p
      | _ => closed_failure p
      end
  end
| _, _ => closed_failure p
end
| _ => closed_failure p
end.

Definition _normalize_backend_response (p : _BackendTransportPolicy) (x : rpc_execution) (r : response)
(data : value) : result exc value :=
match kind p with
| GITEA_UPGRADE => VDict <$> _normalize_gitea_upgrade_backend_response p r data
| GITEA_ORG_CI_RUNNER => VDict <$> _normalize_gitea_org_ci_runner_backend_response p r data
| GITEA_RUNNER => VDict <$> _normalize_gitea_runner_backend_response p r data
| DNS_STAGING_DEPLOY => VDict <$> _normalize_dns_staging_backend_response p r data
| AKVORADO_INSTALL => _normalize_akvorado_backend_response p x r data
| GITEA_DOCKER_RUNNER => VDict <$> _normalize_gitea_docker_runner_backend_response p r data
| GITEA_PROTECTED_PUBLICATION_PAIR =>
VDict <$> _normalize_protected_publication_pair_backend_response p r data
| NETBOX_RQ_WORKER => VDict <$> _normalize_netbox_rq_worker_backend_response p r data
| GENERIC => _normalize_generic_backend_response r data
end.

(** ** The request *)
Variable w : outside.
Variable post : _BackendRequestPlan -> result exc response.

Inductive request_result : Type :=
| Response (r : response)
| Failure (d : dict).

Definition _perform_backend_request (plan : _BackendRequestPlan) (p : _BackendTransportPolicy)
: io request_result :=
catch (r ← lift (post plan); mret (Response r)) (fun e =>
if is_request_exception (class_of e) then
match _protected_wall_clock_cause e with
| Some wall_clock => raise wall_clock
| None => d ← lift (_classify_backend_request_failure p e); mret (Failure d)
end
else raise e).

Definition redirected (r : response) : bool := (300 <=? status_code r) && (status_code r <? 400).

(** [Some d]: the response is not read and [d] stands for it. *)
Definition _classify_backend_http_response (p : _BackendTransportPolicy) (r : response)
: io (option dict) :=
if bool_decide (kind p = NETBOX_RQ_WORKER) && negb (success r) then
_ ← modify close; d ← lift (closed_failure p); mret (Some d)
else if (status_code r =? 401) && negb (secret_protected p) then
_ ← (if bool_decide (kind p = AKVORADO_INSTALL) then modify close else mret tt);
raise (new_exc (RPCError "RPC_BACKEND_UNAUTHORIZED" "nms-backend returned 401 Unauthorized.") EmptyString)
else if (secret_protected p || bool_decide (kind p = GITEA_DOCKER_RUNNER)) && redirected r then
_ ← (if streamed p then modify close else mret tt); d ← lift (closed_failure p); mret (Some d)
else if bool_decide (kind p = AKVORADO_INSTALL) && redirected r then
_ ← modify close; d ← lift (closed_failure p); mret (Some d)
else mret None.

Inductive read_result : Type :=
| ReadData (data : value)
| ReadFailure (d : dict).

Definition fails_closed (p : _BackendTransportPolicy) : bool :=
secret_protected p || bool_decide (kind p ∈ [GITEA_DOCKER_RUNNER; AKVORADO_INSTALL; NETBOX_RQ_WORKER]).

(** The [except] clause of the reader. *)
Definition read_failed (p : _BackendTransportPolicy) (r : response) (e : exc) : io read_result :=
if is_value_error (class_of e) || is_request_exception (class_of e) then
match _protected_wall_clock_cause e with
| Some wall_clock => raise wall_clock
| None =>
if fails_closed p then d ← lift (closed_failure p); mret (ReadFailure d)
else raise (raise_from (RPCError "RPC_BACKEND_BAD_RESPONSE"
              ("nms-backend returned non-JSON response: " +:+ http_text r)) EmptyString e)
end
else raise e.

(** [n] bounds the turns of the reading loop. *)
Definition _read_backend_response (n : nat) (plan : _BackendRequestPlan) (p : _BackendTransportPolicy)
(r : response) : io read_result :=
let attempt : io value :=
if streamed p then
match response_deadline plan, response_max_bytes plan with
| Some deadline, Some max_bytes => _read_bounded_json_response w n r deadline max_bytes
| _, _ => raise (response_error "deadline is unavailable")
end
else lift (json_body r) in
let handled : io read_result := catch (data ← attempt; mret (ReadData data)) (read_failed p r) in
if streamed p then finally handled close else handled.

Definition _call_backend_with_plan (n : nat) (x : rpc_execution) (plan : _BackendRequestPlan)
(p : _BackendTransportPolicy) : io value :=
requested ← _perform_backend_request plan p;
match requested with
| Failure d => mret (VDict d)
| Response r =>
early ← _classify_backend_http_response p r;
match early with
| Some d => mret (VDict d)
| None =>
  read ← _read_backend_response n plan p r;
  match read with
  | ReadFailure d => mret (VDict d)
  | ReadData data => lift (_normalize_backend_response p x r data)
  end
end
end.

Definition _call_backend (n : nat) (t : BackendTarget) (x : rpc_execution)
(lease : option SignedDispatchLease) : io value :=
let p := _resolve_backend_transport_policy x in
plan ← _build_backend_request_plan w t x p lease;
match response_deadline plan with
| None => _call_backend_with_plan n x plan p
| Some deadline =>
catch (_protected_backend_wall_clock w deadline (_call_backend_with_plan n x plan p)) (fun e =>
if bool_decide (class_of e = WallClockError)
then d ← lift (_classify_backend_request_failure p e); mret (VDict d)
else raise e)
end.
End Normalize.
