(* ===== verification/CallProperties.v ===== *)
(** * Properties of the call to the backend

    A protected transport returns only fixed failures and results its contract
    admits; outages become closed failures; nothing is accepted after the deadline;
    the response is closed and the worker's alarm is back on every path; the call
    ends; and the fixed failures are valid results of their contracts. *)

From S2P Require Import Prelude PyValue CredentialContract Response Contracts SchemaSpec.
From S2P Require Import Lease Backends HttpGuard GuardProperties BackendPolicy BackendCall.
Import JsonNotations.

(** ** Specification *)
Section Spec.
Context `{JsonSchema} `{Pydantic}.

(** A failure envelope with no input from the backend. *)
Definition fixed_failure (p : _BackendTransportPolicy) (d : dict) : Prop :=
exists stage, _closed_backend_transport_failure p stage = Ok d /\
(stage = "indeterminate" \/ assoc (kind p) _CONNECT_FAILURE_STAGES = Some stage).

(** The keys of a failure: the pair fails with the whole envelope of the backend. *)
Definition failure_keys (p : _BackendTransportPolicy) : list string :=
match kind p with
| GITEA_PROTECTED_PUBLICATION_PAIR => ["ok"; "result"; "events"; "error_code"; "error_message"]
| _ => ["ok"; "result"]
end.

(** The schema and the identity that the contract of a protected transport asks of a
result; the Gitea upgrade asks none beyond its schema. *)
Definition contract_of (p : _BackendTransportPolicy) : option (value * (dict -> bool)) :=
let field (k : string) (v : value) (result : dict) := py_eqb (get k result) v in
match kind p with
| GITEA_UPGRADE => Some (VDict GiteaUpgrade.RESULT_SCHEMA, fun _ => true)
| DNS_STAGING_DEPLOY =>
Some (VDict DnsStaging.RESULT_SCHEMA, field "commit_sha" (dns_commit_sha p))
| GITEA_RUNNER =>
Some (VDict GiteaRunner.RESULT_SCHEMA, fun result =>
  field "operation" (operation p) result && field "scope" (runner_scope p) result
  && field "fence_execution_id" (fence_execution_id p) result
  && field "fence_generation" (fence_generation p) result)
| GITEA_ORG_CI_RUNNER =>
Some (VDict OrgCiRunner.RESULT_SCHEMA, fun result =>
  field "operation" (operation p) result && field "lane" (org_runner_lane p) result
  && field "scope" (org_runner_scope p) result
  && field "fence_execution_id" (fence_execution_id p) result
  && field "fence_generation" (fence_generation p) result)
| GITEA_DOCKER_RUNNER =>
let contract := _gitea_docker_runner_contract p in
Some (get (procedure_name p) (DOCKER_RESULT_SCHEMAS contract), fun result =>
  field "procedure" (procedure_name p) result && field "target" (TARGET_NAME contract) result
  && field "target_object_id" (TARGET_OBJECT_ID contract) result
  && field "lane" (LANE contract) result)
| GITEA_PROTECTED_PUBLICATION_PAIR =>
Some (get (procedure_name p) PublicationPair.RESULT_SCHEMAS, fun result =>
  field "procedure" (procedure_name p) result
  && field "target" PublicationPair.TARGET_NAME result
  && bool_decide (PublicationPair.result_semantics_are_valid (VDict result) = Ok true))
| _ => None
end.

(** The envelope the worker accepts: two keys, the result valid and bound to this
execution, success only with HTTP success. *)
Definition accepted (p : _BackendTransportPolicy) (r : response) (d : dict) : Prop :=
exists (schema : value) (bound : dict -> bool) (ok : bool) (result : dict),
contract_of p = Some (schema, bound) /\
d = ["ok" :- ok; "result" :- VDict result] /\ get "ok" result = VBool ok /\
json_valid schema (VDict result) = true /\ bound result = true /\
(ok = true -> success r = true).
End Spec.

(** ** What a computation returns *)
Definition returns {A} (m : io A) (s : net) (a : A) : Prop := (m s).2 = Ok a.

Lemma returns_bind {A B} (m : io A) (f : A -> io B) s b :
  returns (m ≫= f) s b -> exists a s1, m s = (s1, Ok a) /\ returns (f a) s1 b.
Proof.
  unfold returns, mbind, io_bind. destruct (m s) as [s1 [a|e]]; [|done]. eauto.
Qed.
Lemma returns_lift {A} (res : result exc A) s a : returns (lift res) s a -> res = Ok a.
Proof. done. Qed.
Lemma returns_catch {A} (m : io A) h s a : returns (catch m h) s a ->
  returns m s a \/ exists s1 e, m s = (s1, Err e) /\ returns (h e) s1 a.
Proof. unfold returns, catch. destruct (m s) as [s1 [b|e]]; cbn; eauto. Qed.
Lemma returns_finally {A} (m : io A) f s a : returns (finally m f) s a -> returns m s a.
Proof. unfold returns, finally. by destruct (m s). Qed.
Lemma returns_raise {A} e s (a : A) : returns (raise e) s a -> False.
Proof. done. Qed.

Ltac returns_inv :=
  repeat match goal with
  | H : returns (_ ≫= _) _ _ |- _ => apply returns_bind in H as (? & ? & ? & H)
  | H : returns (lift _) _ _ |- _ => apply returns_lift in H
  | H : returns (raise _) _ _ |- _ => by destruct (returns_raise _ _ _ H)
  | H : returns (mret _) _ _ |- _ => injection H as <-
  | H : returns (finally _ _) _ _ |- _ => apply returns_finally in H
  | H : lift _ _ = (_, Ok _) |- _ => injection H as ? ?
  end.

Section Closed.
Context `{JsonSchema} `{JsonMetaSchema} `{Pydantic}.
Variable w : outside.
Variable post : _BackendRequestPlan -> result exc response.

Lemma validate_true schema v b : validate schema v = Ok b -> b = json_valid schema v.
Proof. unfold validate. by destruct (check_schema schema); intros [= <-]. Qed.

Lemma closed_envelope_spec bound data ok result :
  closed_envelope bound data = Some (ok, result) ->
  get "ok" result = VBool ok /\ bound result = true.
Proof.
  unfold closed_envelope. destruct data; try done. case_match; [done|].
  destruct (get "ok" _); try done. destruct (get "result" _); try done.
  case_match eqn:E; [|done]. intros [= <- <-]. bool_inv. auto.
Qed.

Lemma reduced_spec schema bound data d :
  reduced schema (closed_envelope bound data) = Ok (Some d) ->
  exists (ok : bool) result, d = ["ok" :- ok; "result" :- VDict result] /\ get "ok" result = VBool ok /\
    json_valid schema (VDict result) = true /\ bound result = true.
Proof.
  unfold reduced. destruct (closed_envelope bound data) as [[ok result]|] eqn:E; [|done].
  apply closed_envelope_spec in E as [Hok Hb]. intros Hr. apply bind_Ok in Hr as (b & Hv & Hr).
  apply validate_true in Hv. destruct b; [|done]. injection Hr as <-. exists ok, result. auto.
Qed.

Lemma matches_status r ok result :
  _closed_response_matches_http_status r ["ok" :- VBool ok; "result" :- VDict result] = true ->
  ok = true -> success r = true.
Proof.
  unfold _closed_response_matches_http_status. intros Hm ->. apply orb_true_iff in Hm as [|Hm]; [done|].
  bool_inv. discriminate.
Qed.

Lemma or_closed_failure_spec p r schema bound data d :
  contract_of p = Some (schema, bound) ->
  or_closed_failure p r (reduced schema (closed_envelope bound data)) = Ok d ->
  fixed_failure p d \/ accepted p r d.
Proof.
  intros Hc Ho. apply bind_Ok in Ho as ([d'|] & Hr & Ho).
  - apply reduced_spec in Hr as (ok & result & -> & Hok & Hv & Hb).
    destruct (_closed_response_matches_http_status r _) eqn:Hm.
    + injection Ho as <-. right. exists schema, bound, ok, result. split_and!; eauto using matches_status.
    + left. exists "indeterminate". auto.
  - left. exists "indeterminate". auto.
Qed.

Lemma fixed_indeterminate p d : closed_failure p = Ok d -> fixed_failure p d.
Proof. exists "indeterminate". auto. Qed.

Lemma docker_response_spec p r data d : kind p = GITEA_DOCKER_RUNNER ->
  _normalize_gitea_docker_runner_backend_response p r data = Ok d ->
  fixed_failure p d \/ accepted p r d.
Proof.
  intros Hk Hn. assert (Hf : fixed_failure p (_gitea_docker_runner_transport_failure_response p)).
  { apply fixed_indeterminate. unfold closed_failure, _closed_backend_transport_failure. by rewrite Hk. }
  apply bind_Ok in Hn as ([d'|] & Hr & Hn); [|injection Hn as <-; by left].
  unfold _normalize_gitea_docker_runner_closed_response in Hr.
  destruct (get (procedure_name p) _) as [| | | | | | | | | |schema] eqn:Hs; try discriminate Hr.
  apply reduced_spec in Hr as (ok & result & -> & Hok & Hv & Hb).
  destruct (_closed_response_matches_http_status r _) eqn:Hm; injection Hn as <-; [right|by left].
  eexists (VDict schema), _, ok, result. unfold contract_of. rewrite Hk, Hs.
  split_and!; eauto using matches_status.
Qed.

Lemma pair_response_spec p r data d : kind p = GITEA_PROTECTED_PUBLICATION_PAIR ->
  _normalize_protected_publication_pair_backend_response p r data = Ok d ->
  fixed_failure p d \/ accepted p r d.
Proof.
  intros Hk Hn.
  assert (Hf : fixed_failure p (_protected_publication_pair_transport_failure_response p)).
  { apply fixed_indeterminate. unfold closed_failure, _closed_backend_transport_failure. by rewrite Hk. }
  apply bind_Ok in Hn as ([d'|] & Hr & Hn); [|injection Hn as <-; by left].
  unfold _normalize_protected_publication_pair_closed_response in Hr.
  destruct data as [| | | | | | | | | |data]; try discriminate Hr.
  destruct (negb (same_keys data ENVELOPE_KEYS)); [discriminate Hr|].
  destruct (get "result" data) as [| | | | | | | | | |result]; try discriminate Hr.
  destruct (get (procedure_name p) _) as [| | | | | | | | | |schema] eqn:Hs; try discriminate Hr.
  destruct (negb _); [discriminate Hr|]. destruct (negb _) eqn:Hid; [discriminate Hr|].
  apply bind_Ok in Hr as (b & Hv & Hr). apply validate_true in Hv. destruct b; [|discriminate Hr].
  cbn [negb] in Hr. destruct (PublicationPair.result_semantics_are_valid _) as [[]|] eqn:Hsem;
    try discriminate Hr. injection Hr as <-.
  destruct (success r && _) eqn:Hm; injection Hn as <-; [right|by left].
  eexists (VDict schema), _, true, result. unfold contract_of. rewrite Hk, Hs.
  bool_inv. split_and!; try done. rewrite !andb_true_iff. split_and!; try done. by rewrite Hsem.
Qed.

Lemma normalized_closed p x r data v : secret_protected p = true ->
  _normalize_backend_response p x r data = Ok v ->
  exists d, v = VDict d /\ (fixed_failure p d \/ accepted p r d).
Proof.
  unfold secret_protected. intros Hs%bool_decide_eq_true Hn. unfold _normalize_backend_response in Hn.
  assert (Hd : forall m : result exc dict, VDict <$> m = Ok v -> exists d, v = VDict d /\ m = Ok d).
  { intros [d|] Hm; [|discriminate Hm]. injection Hm as <-. eauto. }
  destruct (kind p) eqn:Hk; try (exfalso; set_solver); apply Hd in Hn as (d & -> & Hn);
    exists d; (split; [done|]).
  1, 2, 3, 6: eapply or_closed_failure_spec; [unfold contract_of; rewrite Hk; reflexivity|exact Hn].
  - by eapply pair_response_spec.
  - by eapply docker_response_spec.
Qed.

Lemma classified_failure p e d : secret_protected p = true ->
  _classify_backend_request_failure p e = Ok d -> fixed_failure p d.
Proof.
  intros Hs. unfold _classify_backend_request_failure. rewrite Hs.
  repeat case_bool_decide; try by apply fixed_indeterminate.
  - intros Hd. apply bind_Ok in Hd as (stage & Hst & Hd). exists stage. split; [done|].
    unfold lookup_key in Hst. destruct (assoc (kind p) _CONNECT_FAILURE_STAGES); [|done].
    injection Hst as ->. auto.
Qed.

Lemma requested_closed plan p s s1 a : secret_protected p = true ->
  _perform_backend_request post plan p s = (s1, Ok a) ->
  match a with Response r => post plan = Ok r | Failure d => fixed_failure p d end.
Proof.
  intros Hs Hp. assert (Hr : returns (_perform_backend_request post plan p) s a)
    by (unfold returns; by rewrite Hp).
  apply returns_catch in Hr as [Hr|(s2 & e & _ & Hr)].
  - returns_inv. done.
  - destruct (is_request_exception _); [|by returns_inv].
    destruct (_protected_wall_clock_cause e); [by returns_inv|]. returns_inv.
    subst. eauto using classified_failure.
Qed.

Lemma early_closed p r s s1 d :
  _classify_backend_http_response p r s = (s1, Ok (Some d)) -> fixed_failure p d.
Proof.
  intros He. assert (Hr : returns (_classify_backend_http_response p r) s (Some d))
    by (unfold returns; by rewrite He).
  unfold _classify_backend_http_response in Hr.
  repeat match type of Hr with returns (if ?b then _ else _) _ _ => destruct b end;
    returns_inv; subst; eauto using fixed_indeterminate; discriminate.
Qed.

Lemma read_failure_closed n plan p r s s1 d :
  _read_backend_response w n plan p r s = (s1, Ok (ReadFailure d)) -> fixed_failure p d.
Proof.
  intros He. assert (Hr : returns (_read_backend_response w n plan p r) s (ReadFailure d))
    by (unfold returns; by rewrite He).
  unfold _read_backend_response in Hr.
  assert (Hr' : exists attempt : io value,
    returns (catch (data ← attempt; mret (ReadData data)) (read_failed p r)) s (ReadFailure d))
    by (destruct (streamed p); returns_inv; eauto).
  destruct Hr' as [attempt Hr'].
  apply returns_catch in Hr' as [Hr'|(s2 & e & _ & Hr')]; [by returns_inv|].
  unfold read_failed in Hr'.
  destruct (_ || _); [|by returns_inv]. destruct (_protected_wall_clock_cause e); [by returns_inv|].
  destruct (fails_closed p); returns_inv. subst. eauto using fixed_indeterminate.
Qed.

(** A value a protected transport may return. *)
Definition closed_value (p : _BackendTransportPolicy) (v : value) : Prop :=
  exists d, v = VDict d /\
    ((fixed_failure p d /\ get "ok" d = VBool false /\ keys d = failure_keys p)
     \/ exists plan r, post plan = Ok r /\ accepted p r d).

Lemma failure_shape p d : secret_protected p = true -> fixed_failure p d ->
  get "ok" d = VBool false /\ keys d = failure_keys p.
Proof.
  unfold secret_protected. intros Hs%bool_decide_eq_true (stage & Hd & _).
  unfold _closed_backend_transport_failure in Hd. unfold failure_keys.
  destruct (kind p) eqn:Hk; try (exfalso; set_solver); injection Hd as <-;
    first [done|unfold _gitea_runner_transport_failure_response, _gitea_org_ci_runner_transport_failure_response,
      _gitea_docker_runner_transport_failure_response; cbv zeta; repeat case_match; done].
Qed.
Lemma failure_closed p d : secret_protected p = true -> fixed_failure p d -> closed_value p (VDict d).
Proof. intros Hs Hf. exists d. split; [done|]. left. split; [done|]. by apply failure_shape. Qed.

Lemma plan_call_closed n x plan p s v : secret_protected p = true ->
  returns (_call_backend_with_plan w post n x plan p) s v -> closed_value p v.
Proof.
  intros Hs Hr. apply returns_bind in Hr as (a & s1 & Ha & Hr).
  apply requested_closed in Ha; [|done]. destruct a as [r|d]; [|returns_inv; by apply failure_closed].
  apply returns_bind in Hr as ([d|] & s2 & He & Hr).
  { apply early_closed in He. returns_inv. by apply failure_closed. }
  apply returns_bind in Hr as ([data|d] & s3 & Hd & Hr).
  - returns_inv. apply normalized_closed in Hr as (d & -> & [Hf|Ha']); [by apply failure_closed| |done].
    exists d. split; [done|]. right. eauto.
  - apply read_failure_closed in Hd. returns_inv. by apply failure_closed.
Qed.

Lemma returns_guard {A} deadline (m : io A) s a :
  returns (_protected_backend_wall_clock w deadline m) s a -> exists s1, returns m s1 a.
Proof.
  intros Hr. unfold returns in *. destruct (_protected_backend_wall_clock w deadline m s) as [s' r] eqn:E.
  cbn in Hr. subst r. apply guard_returns in E as (s0 & s1 & Hm & _). exists s0. by rewrite Hm.
Qed.

(** C7: A secret-protected transport is closed.  What the worker gets from the call is
    either a fixed failure, built from the execution alone, with [ok] false and the
    keys [ok] and [result] (the publication pair: the five keys of the envelope), or
    the two-key envelope of a result that is valid against the schema of the contract,
    repeats [ok] and reports success only with an HTTP success.  Such a result carries
    the identity of this execution wherever the contract names one: operation, scope,
    lane and fence for the runners, procedure, target and lane for Docker, commit for
    the DNS deployment, procedure and target for the pair; the Gitea upgrade names
    none beyond its schema.  No other text of the backend, of its events or of its
    diagnostics passes. *)
Theorem protected_call_closed n t x lease s v :
  secret_protected (_resolve_backend_transport_policy x) = true ->
  returns (_call_backend w post n t x lease) s v ->
  closed_value (_resolve_backend_transport_policy x) v.
Proof.
  intros Hs Hr. unfold _call_backend in Hr. apply returns_bind in Hr as (plan & s1 & _ & Hr).
  destruct (response_deadline plan) as [deadline|]; [|by eapply plan_call_closed].
  apply returns_catch in Hr as [Hr|(s2 & e & _ & Hr)].
  - apply returns_guard in Hr as [s2 Hr]. by eapply plan_call_closed.
  - destruct (bool_decide _); [|by apply returns_raise in Hr]. returns_inv.
    subst. apply failure_closed; eauto using classified_failure.
Qed.
End Closed.

(** ** Every path *)
Section Paths.
Context `{JsonSchema} `{JsonMetaSchema} `{Pydantic}.
Variable w : outside.
Variable post : _BackendRequestPlan -> result exc response.

(** A streamed transport has the clock in its limits. *)
Lemma streamed_limits p : streamed p = true -> _protected_response_limits p <> Ok None.
Proof.
  unfold streamed, _protected_response_limits. intros Hs%bool_decide_eq_true.
  destruct (kind p); try done; try (exfalso; set_solver); unfold lookup_key;
    by destruct (assoc _ _).
Qed.

Lemma closed_failure_total p : kind p <> GENERIC -> exists d, closed_failure p = Ok d.
Proof. unfold closed_failure, _closed_backend_transport_failure. destruct (kind p); eauto. done. Qed.

(** *** The response is closed *)
Definition keeps_closed {A} (m : io A) : Prop := forall s, closed s = true -> closed (m s).1 = true.

Lemma keeps_closed_bind {A B} (m : io A) (f : A -> io B) :
  keeps_closed m -> (forall a, keeps_closed (f a)) -> keeps_closed (m ≫= f).
Proof.
  intros Hm Hf s Hs. unfold mbind, io_bind. specialize (Hm s Hs).
  destruct (m s) as [s1 [a|e]]; [by apply Hf|done].
Qed.
Lemma keeps_closed_lift {A} (res : result exc A) : keeps_closed (lift res).
Proof. by intros s. Qed.
Lemma keeps_closed_ret {A} (a : A) : keeps_closed (mret a).
Proof. by intros s. Qed.
Lemma keeps_closed_raise {A} e : keeps_closed (raise e : io A).
Proof. by intros s. Qed.
#[local] Hint Resolve keeps_closed_bind keeps_closed_lift keeps_closed_ret keeps_closed_raise : rpc.

Lemma secret_kind p : secret_protected p =
  match kind p with GENERIC | AKVORADO_INSTALL | NETBOX_RQ_WORKER => false | _ => true end.
Proof. unfold secret_protected. by destruct (kind p). Qed.
Lemma streamed_kind p : streamed p = match kind p with GENERIC | GITEA_UPGRADE => false | _ => true end.
Proof. unfold streamed. by destruct (kind p). Qed.
Lemma fails_closed_kind p : fails_closed p = match kind p with GENERIC => false | _ => true end.
Proof. unfold fails_closed. rewrite secret_kind. by destruct (kind p). Qed.

(** The early classification either closes the response or leaves it to the reader. *)
Lemma early_closes p r s : streamed p = true ->
  closed (_classify_backend_http_response p r s).1 = true \/
  _classify_backend_http_response p r s = (s, Ok None).
Proof.
  intros Hs. destruct (closed_failure_total p) as [d Hd].
  { rewrite streamed_kind in Hs. by destruct (kind p). }
  unfold _classify_backend_http_response. rewrite Hs, Hd, secret_kind.
  rewrite streamed_kind in Hs. unfold success, redirected.
  destruct (kind p); try discriminate Hs; cbn [bool_decide decide decide_rel];
    repeat match goal with |- context [bool_decide ?P] => let b := eval vm_compute in (bool_decide P) in
      change (bool_decide P) with b end; cbn [andb orb negb];
    rewrite ?andb_false_r, ?andb_true_r;
    repeat match goal with |- context [if ?b then _ else _] =>
      lazymatch b with context [if _ then _ else _] => fail | _ => destruct b eqn:? end end;
    io_step; auto; bool_inv; lia.
Qed.

Lemma reader_closes n plan p r s : streamed p = true ->
  closed (_read_backend_response w n plan p r s).1 = true.
Proof.
  intros Hs. unfold _read_backend_response. rewrite Hs. unfold finally.
  match goal with |- context [let (_, _) := ?m s in _] => by destruct (m s) end.
Qed.

(** The plan of the call, the response of its request. *)
Definition answered (plan : _BackendRequestPlan) (r : response) : Prop := post plan = Ok r.

(** A streamed response is never left open: whenever the request of a streamed
    transport is answered, the response is closed when the call returns or raises,
    on early refusals (redirects, 401, an RQ answer without success), after reading,
    and when reading or normalizing fails. *)
Theorem streamed_response_closed n x plan p r s :
  streamed p = true -> answered plan r ->
  closed (_call_backend_with_plan w post n x plan p s).1 = true.
Proof.
  intros Hs Ha. unfold _call_backend_with_plan, _perform_backend_request. rewrite Ha.
  unfold mbind at 1, io_bind at 1, catch, mbind at 1, io_bind at 1, lift at 1. cbn [mret io_ret].
  unfold mbind at 1, io_bind at 1.
  destruct (early_closes p r s Hs) as [Hc|He].
  - destruct (_classify_backend_http_response p r s) as [s1 [[d|]|e]] eqn:E; cbn [fst] in Hc; try done.
    (* not refused, hence read *)
    unfold mbind, io_bind. pose proof (reader_closes n plan p r s1 Hs) as Hr.
    destruct (_read_backend_response w n plan p r s1) as [s2 [[data|d]|e]]; exact Hr.
  - rewrite He. unfold mbind, io_bind. pose proof (reader_closes n plan p r s Hs) as Hr.
    destruct (_read_backend_response w n plan p r s) as [s2 [[data|d]|e]]; exact Hr.
Qed.

(** *** An outage *)

(** The response of each transport to a request that raised. *)
Definition outage_response (p : _BackendTransportPolicy) (c : exc_class) : result exc dict :=
  match kind p with
  | GITEA_UPGRADE | GITEA_RUNNER | GITEA_ORG_CI_RUNNER | DNS_STAGING_DEPLOY =>
      _closed_backend_transport_failure p
        (if bool_decide (c = ConnectTimeout)
         then default EmptyString (assoc (kind p) _CONNECT_FAILURE_STAGES) else "indeterminate")
  | GITEA_PROTECTED_PUBLICATION_PAIR =>
      if bool_decide (c = ConnectTimeout) then Err (new_exc PyKeyError EmptyString)
      else closed_failure p
  | _ => closed_failure p
  end.

(** A request that raises is classified by its transport.  A protected transport
    answers with its closed failure, whose stage tells a connection that was never made
    from an outcome that is unknown, and so do Akvorado, the Docker runner and the RQ
    worker, without a stage.  The publication pair is the exception: it is among the
    secret-protected transports but has no connect stage, so a connect timeout raises
    [KeyError] instead of returning its closed failure. *)
Theorem outage_is_classified n x plan p e s :
  kind p <> GENERIC -> post plan = Err e -> is_request_exception (class_of e) = true ->
  _protected_wall_clock_cause e = None ->
  (_call_backend_with_plan w post n x plan p s).2 = VDict <$> outage_response p (class_of e).
Proof.
  intros Hg Hp He Hc. unfold _call_backend_with_plan, _perform_backend_request. rewrite Hp.
  unfold mbind at 1, io_bind at 1, catch, mbind at 1, io_bind at 1, lift at 1. rewrite He, Hc.
  assert (Ht : class_of e <> WallClockError) by (by intros Heq; rewrite Heq in He).
  unfold _classify_backend_request_failure, outage_response, lookup_key. rewrite secret_kind.
  rewrite (bool_decide_false (class_of e = WallClockError)) by done.
  destruct (kind p) eqn:Hk; try done;
    repeat match goal with |- context [bool_decide (?k ∈ ?l)] =>
      let b := eval vm_compute in (bool_decide (k ∈ l)) in change (bool_decide (k ∈ l)) with b end;
    cbn [assoc]; destruct (bool_decide (class_of e = ConnectTimeout));
    unfold closed_failure, _closed_backend_transport_failure; rewrite ?Hk; reflexivity.
Qed.

(** *** The timer and the deadline *)
Lemma keeps_timer_call n x plan p : keeps_timer (_call_backend_with_plan w post n x plan p).
Proof.
  unfold _call_backend_with_plan, _perform_backend_request.
  apply keeps_timer_bind.
  { apply keeps_timer_catch; [apply keeps_timer_bind; auto using keeps_timer_lift, keeps_timer_ret|].
    intros e. repeat case_match; try apply keeps_timer_raise.
    apply keeps_timer_bind; auto using keeps_timer_lift, keeps_timer_ret. }
  assert (Hclose : keeps_timer (modify close)) by (by apply keeps_timer_modify).
  assert (Hfail : forall m : result exc dict, keeps_timer (d ← lift m; mret (Some d) : io (option dict)))
    by (intros; apply keeps_timer_bind; auto using keeps_timer_lift, keeps_timer_ret).
  intros [r|d]; [|apply keeps_timer_ret]. apply keeps_timer_bind.
  { unfold _classify_backend_http_response.
    repeat match goal with |- keeps_timer (if ?b then _ else _) => destruct b end;
      try apply keeps_timer_ret; (apply keeps_timer_bind; [|intros; auto using keeps_timer_raise]);
      auto; repeat case_match; auto using keeps_timer_ret. }
  intros [d|]; [apply keeps_timer_ret|]. apply keeps_timer_bind.
  2: { intros [data|d]; [apply keeps_timer_lift|apply keeps_timer_ret]. }
  unfold _read_backend_response.
  assert (Hh : forall (attempt : io value) h, keeps_timer attempt -> (forall e, keeps_timer (h e)) ->
    keeps_timer (catch (data ← attempt; mret (ReadData data)) h)).
  { intros. apply keeps_timer_catch; [|done]. apply keeps_timer_bind; auto using keeps_timer_ret. }
  destruct (streamed p); [apply keeps_timer_finally; [|done]|];
    (apply Hh; [|intros e; unfold read_failed; repeat case_match; try apply keeps_timer_raise;
                 apply keeps_timer_bind; auto using keeps_timer_lift, keeps_timer_ret]).
  - repeat case_match; try apply keeps_timer_raise. apply keeps_timer_read.
  - apply keeps_timer_lift.
Qed.

(** The call of a transport with limits is the guarded exchange with what handles a
    wall-clock error. *)
Lemma call_guarded n t x lease s budget max_bytes :
  let p := _resolve_backend_transport_policy x in
  _protected_response_limits p = Ok (Some (budget, max_bytes)) ->
  exists plan, response_deadline plan = Some (clock w (ticks s) + budget) /\
    response_max_bytes plan = Some max_bytes /\
    _call_backend w post n t x lease s =
    catch (_protected_backend_wall_clock w (clock w (ticks s) + budget)
             (_call_backend_with_plan w post n x plan p)) (fun e =>
      if bool_decide (class_of e = WallClockError)
      then d ← lift (_classify_backend_request_failure p e); mret (VDict d)
      else raise e) (set_ticks (S (ticks s)) s).
Proof.
  cbv zeta. intros Hl. unfold _call_backend, _build_backend_request_plan. rewrite Hl. io_step.
  eexists. split_and!; [| |reflexivity]; reflexivity.
Qed.

Lemma wall_clock_failure p e : class_of e = WallClockError ->
  _classify_backend_request_failure p e = closed_failure p.
Proof. intros He. unfold _classify_backend_request_failure. by rewrite bool_decide_true. Qed.

(** The outer timer, due at [d], after a call that entered its guard at tick [t]: as it
    was; armed again within the time the guard's system calls take; or dropped after
    an exchange past its own deadline, which yields no result but the closed failure. *)
Definition alarm_back (p : _BackendTransportPolicy) (s : net) (d deadline : Z)
    (result : net * result exc value) : Prop :=
  let t := S (ticks s) in
  alarm result.1 = alarm s /\
  (itimer result.1 = itimer s \/ timer_back w t d (interval (itimer s)) result.1 \/
   (due (itimer result.1) = None /\
    (exists k, deadline < clock w k /\ d <= clock w k + gap w t) /\
    forall v, result.2 = Ok v -> closed_failure p = Ok (dict_of v) /\ v = VDict (dict_of v))).

(** The call gives the worker its own alarm back.  Whatever the exchange with the
    backend returns or raises, the signal handler is the worker's again and its timer,
    the job's death penalty, is armed again with its interval, off by no more than
    the guard's own system calls take.  Only an exchange that overran both its own
    deadline and the worker's timer leaves the timer dropped, and then the call has
    returned nothing but its closed failure. *)
Theorem call_returns_alarm n t x lease s d budget max_bytes :
  let p := _resolve_backend_transport_policy x in
  forward_clock w -> _protected_response_limits p = Ok (Some (budget, max_bytes)) ->
  due (itimer s) = Some d -> clock w (S (S (ticks s))) < d ->
  alarm_back p s d (clock w (ticks s) + budget) (_call_backend w post n t x lease s).
Proof.
  cbv zeta. intros Hc Hl Hd Hlt.
  destruct (call_guarded n t x lease s budget max_bytes Hl) as (plan & _ & _ & ->).
  set (s0 := set_ticks (S (ticks s)) s). set (p := _resolve_backend_transport_policy x).
  destruct (guard_timer w Hc (_call_backend_with_plan w post n x plan p) (clock w (ticks s) + budget) s0 d)
    as (Ha & Hcases); [apply keeps_timer_call|exact Hd|exact Hlt|].
  unfold catch. destruct (_protected_backend_wall_clock w _ _ s0) as [s1 [v|e]]; cbn [fst snd] in *.
  - split; [exact Ha|]. destruct Hcases as [Hi|[Hb|(Hn & Hr & _)]]; [by left|by right; left|done].
  - assert (Hstate : forall r : net * result exc value, r.1 = s1 ->
      (forall v, r.2 = Ok v -> closed_failure p = Ok (dict_of v) /\ v = VDict (dict_of v)) ->
      alarm_back p s d (clock w (ticks s) + budget) r).
    { intros r Hr Hv. unfold alarm_back. rewrite Hr. split; [exact Ha|].
      destruct Hcases as [Hi|[Hb|(Hn & _ & k & _ & Hk)]]; [by left|by right; left|].
      right. right. split_and!; [done|by exists k|done]. }
    case_bool_decide as Hw; [|by apply Hstate].
    rewrite (wall_clock_failure p e Hw). unfold mbind, io_bind, lift.
    destruct (closed_failure p) as [d'|e'] eqn:Hf; apply Hstate; try done.
    cbn. by intros ? [= <-].
Qed.

(** A budgeted transport reads through the bounded reader, and its limits are positive. *)
Lemma limits_streamed p budget max_bytes :
  _protected_response_limits p = Ok (Some (budget, max_bytes)) -> streamed p = true /\ 0 <= max_bytes.
Proof.
  unfold _protected_response_limits. rewrite streamed_kind.
  destruct (kind p); try discriminate; try (intros [= <- <-]; split; [done|by vm_compute]);
    unfold lookup_key; destruct (assoc _ _); try discriminate; intros [= <- <-]; (split; [done|by vm_compute]).
Qed.

Lemma budgeted_failure p e d : streamed p = true -> _classify_backend_request_failure p e = Ok d -> fixed_failure p d.
Proof.
  intros Hs. destruct (secret_protected p) eqn:E; [by apply classified_failure|].
  rewrite streamed_kind in Hs. rewrite secret_kind in E. unfold _classify_backend_request_failure.
  case_bool_decide; [by apply fixed_indeterminate|].
  rewrite bool_decide_true by (destruct (kind p); try done; set_solver). by apply fixed_indeterminate.
Qed.

Lemma reader_value n r deadline max_bytes s s1 v : 0 <= max_bytes ->
  _read_bounded_json_response w n r deadline max_bytes s = (s1, Ok v) ->
  read_exactly w r max_bytes (position s) v s1.
Proof.
  intros Hm Hr. pose proof (bounded_read w n r deadline max_bytes (set_body [] s) Hm eq_refl) as (_ & _ & Hv).
  assert (_read_bounded_json_response w n r deadline max_bytes (set_body [] s) = (s1, Ok v)) as E.
  { revert Hr. unfold _read_bounded_json_response, io_require, parse_content_length. io_step.
    destruct (encoding_ok r); cbn -[read_body]; [|done]. destruct (content_length r) as [text|]; io_step; [|done].
    destruct (is_decimal text); cbn -[read_body]; [|done]. destruct (4300 <? _); cbn -[read_body]; [done|].
    by destruct (max_bytes <? _). }
  rewrite E in Hv. exact (Hv v eq_refl).
Qed.

(** What was read of the answer: the data parse exactly the bytes that were delivered
    from some item on, at most [max_bytes] of them. *)
Definition read_within (r : response) (max_bytes : Z) (data : value) : Prop :=
  exists from s, read_exactly w r max_bytes from data s.

Lemma read_data n plan p r deadline max_bytes s s1 data :
  streamed p = true -> response_deadline plan = Some deadline -> response_max_bytes plan = Some max_bytes ->
  0 <= max_bytes -> _read_backend_response w n plan p r s = (s1, Ok (ReadData data)) -> read_within r max_bytes data.
Proof.
  intros Hs Hd Hb Hm Hr. assert (Hr' : returns (_read_backend_response w n plan p r) s (ReadData data))
    by (unfold returns; by rewrite Hr).
  unfold _read_backend_response in Hr'. rewrite Hs, Hd, Hb in Hr'. apply returns_finally in Hr'.
  apply returns_catch in Hr' as [Hr'|(s2 & e & _ & Hr')].
  - apply returns_bind in Hr' as (data' & s2 & Hread & Hr'). injection Hr' as ->.
    apply reader_value in Hread; [|done]. by eexists _, _.
  - unfold read_failed in Hr'. destruct (_ || _); [|by returns_inv].
    destruct (_protected_wall_clock_cause e); [by returns_inv|]. destruct (fails_closed p); returns_inv. done.
Qed.

Lemma requested_budgeted plan p s s1 a : streamed p = true ->
  _perform_backend_request post plan p s = (s1, Ok a) ->
  match a with Response r => post plan = Ok r | Failure d => fixed_failure p d end.
Proof.
  intros Hs Hp. assert (Hr : returns (_perform_backend_request post plan p) s a)
    by (unfold returns; by rewrite Hp).
  apply returns_catch in Hr as [Hr|(s2 & e & _ & Hr)].
  - returns_inv. done.
  - destruct (is_request_exception _); [|by returns_inv].
    destruct (_protected_wall_clock_cause e); [by returns_inv|]. returns_inv. subst. eauto using budgeted_failure.
Qed.

(** The value of an exchange: a fixed failure, or the normalization of what was read of
    the answer to the request. *)
Definition failed_or_read (x : rpc_execution) (plan : _BackendRequestPlan) (max_bytes : Z) (v : value) : Prop :=
  let p := _resolve_backend_transport_policy x in
  (exists d, v = VDict d /\ fixed_failure p d) \/
  exists r data, post plan = Ok r /\ read_within r max_bytes data /\ _normalize_backend_response p x r data = Ok v.

Lemma exchange_within n x plan deadline max_bytes s s1 v :
  let p := _resolve_backend_transport_policy x in
  streamed p = true -> response_deadline plan = Some deadline -> response_max_bytes plan = Some max_bytes ->
  0 <= max_bytes -> _call_backend_with_plan w post n x plan p s = (s1, Ok v) -> failed_or_read x plan max_bytes v.
Proof.
  cbv zeta. intros Hs Hd Hb Hm Hc.
  assert (Hr : returns (_call_backend_with_plan w post n x plan (_resolve_backend_transport_policy x)) s v)
    by (unfold returns; by rewrite Hc).
  apply returns_bind in Hr as (a & s2 & Ha & Hr). apply requested_budgeted in Ha; [|done].
  destruct a as [r|d]; [|returns_inv; left; by exists d].
  apply returns_bind in Hr as ([d|] & s3 & He & Hr).
  { apply early_closed in He. returns_inv. left. by exists d. }
  apply returns_bind in Hr as ([data|d] & s4 & Hread & Hr).
  - returns_inv. right. exists r, data. split; [done|]. split; [by eapply read_data|done].
  - apply read_failure_closed in Hread. returns_inv. left. by exists d.
Qed.

(** [v] is the closed failure, or the value of an exchange that ended, and whose last
    clock reading is, before the deadline, and which read no more than its limit. *)
Definition in_time (n : nat) (x : rpc_execution) (deadline max_bytes : Z) (v : value) : Prop :=
  let p := _resolve_backend_transport_policy x in
  closed_failure p = Ok (dict_of v) \/
  exists plan s0 s1, response_deadline plan = Some deadline /\ response_max_bytes plan = Some max_bytes /\
    _call_backend_with_plan w post n x plan p s0 = (s1, Ok v) /\ clock w (ticks s1) < deadline /\
    failed_or_read x plan max_bytes v.

(** C32: Nothing is accepted late or oversized.  A transport with a route budget returns
    its closed failure or the value of an exchange that ended, request, reading, parsing
    and normalization included, before the budget counted from the start of the call was
    spent.  That value is a fixed failure, or the normalization of data parsed from
    exactly the bytes delivered while it was read, identity-encoded, as many as its length
    header said when there was one, and never more than the limit of the transport. *)
Theorem nothing_accepted_late n t x lease s budget max_bytes v :
  _protected_response_limits (_resolve_backend_transport_policy x) = Ok (Some (budget, max_bytes)) ->
  returns (_call_backend w post n t x lease) s v ->
  in_time n x (clock w (ticks s) + budget) max_bytes v.
Proof.
  intros Hl Hr. destruct (call_guarded n t x lease s budget max_bytes Hl) as (plan & Hd & Hm & Hc).
  destruct (limits_streamed _ _ _ Hl) as [Hs Hpos].
  unfold returns in Hr. rewrite Hc in Hr. apply returns_catch in Hr as [Hr|(s2 & e & _ & Hr)].
  - right. unfold returns in Hr. destruct (_protected_backend_wall_clock w _ _ _) as [s' r] eqn:E.
    cbn in Hr. subst r. apply guard_returns in E as (s0 & s1 & Hb & Ht). exists plan, s0, s1.
    split_and!; try done. by eapply exchange_within.
  - left. case_bool_decide as Hw; [|by apply returns_raise in Hr].
    rewrite (wall_clock_failure _ _ Hw) in Hr. returns_inv. by subst.
Qed.

(** *** The call ends *)
Definition python_world : Prop :=
  (forall plan, python_result (post plan)) /\
  (forall plan r, post plan = Ok r -> python_response r) /\
  (forall data, python_result (json_loads w data)).

Lemma closed_failure_python p : python_result (closed_failure p).
Proof. unfold closed_failure, _closed_backend_transport_failure. by destruct (kind p); intros e [=<-]. Qed.

Lemma result_fmap_python {A B} (f : A -> B) (r : result exc A) : python_result r -> python_result (f <$> r).
Proof. destruct r as [a|e]; intros Hr e' [=]. subst. by apply Hr. Qed.
Lemma result_bind_python {A B} (r : result exc A) (f : A -> result exc B) :
  python_result r -> (forall a, python_result (f a)) -> python_result (r ≫= f).
Proof. destruct r as [a|e]; cbn; intros Hr Hf; [apply Hf|]. intros e' [= <-]. by apply Hr. Qed.

Lemma validate_python schema v : python_result (validate schema v).
Proof. unfold validate. by destruct (check_schema schema); intros e [=<-]. Qed.
Lemma reduced_python schema envelope : python_result (reduced schema envelope).
Proof.
  unfold reduced. destruct envelope as [[ok result]|]; [|by intros e [=]].
  apply result_bind_python; [apply validate_python|by intros ? ? [=]].
Qed.
Lemma or_closed_python p r m : python_result m -> python_result (or_closed_failure p r m).
Proof.
  intros Hm. apply result_bind_python; [done|]. intros [d|]; [|apply closed_failure_python].
  destruct (_closed_response_matches_http_status r d); [by intros e [=]|apply closed_failure_python].
Qed.
Lemma generic_python r data : python_result (_normalize_generic_backend_response r data).
Proof.
  unfold _normalize_generic_backend_response. destruct (_ <? 400); [by intros e [=]|].
  destruct data; by intros e [=<-].
Qed.

#[local] Hint Resolve closed_failure_python validate_python reduced_python or_closed_python generic_python
  result_fmap_python : rpc.
#[local] Hint Extern 1 (python_result (Ok _)) => (by intros ? [=]) : rpc.

Lemma docker_python p r data : python_result (_normalize_gitea_docker_runner_backend_response p r data).
Proof.
  apply result_bind_python; [|by intros ? ? [=]].
  unfold _normalize_gitea_docker_runner_closed_response.
  destruct (get (procedure_name p) _); auto with rpc.
Qed.
Lemma pair_python p r data : python_result (_normalize_protected_publication_pair_backend_response p r data).
Proof.
  apply result_bind_python; [|by intros ? ? [=]].
  unfold _normalize_protected_publication_pair_closed_response.
  destruct data as [| | | | | | | | | |data]; auto with rpc.
  destruct (negb (same_keys data ENVELOPE_KEYS)); [auto with rpc|].
  destruct (get "result" data) as [| | | | | | | | | |result]; auto with rpc.
  destruct (get (procedure_name p) _); auto with rpc.
  destruct (negb _); [auto with rpc|]. destruct (negb _); [auto with rpc|].
  apply result_bind_python; [auto with rpc|intros b]. destruct (negb b); [auto with rpc|].
  destruct (PublicationPair.result_semantics_are_valid _) as [[]|e]; auto with rpc.
  intros e' [= <-]. by destruct e.
Qed.
Lemma akvorado_python p x r data : python_result (_normalize_akvorado_backend_response p x r data).
Proof.
  unfold _normalize_akvorado_backend_response.
  destruct (_ || _); [auto with rpc|]. destruct (success r); [|auto with rpc].
  apply result_bind_python; [|intros [d|]; auto with rpc].
  unfold _normalize_akvorado_install_closed_response. destruct data; auto with rpc.
  destruct (negb _); [auto with rpc|].
  destruct (get "ok" _); auto with rpc. destruct (get "result" _); auto with rpc.
  destruct (x_result_schema x) as [| | | | | | | | | |[|]]; auto with rpc.
  destruct (_ && _); [|auto with rpc]. apply result_bind_python; auto with rpc.
Qed.
Lemma rq_python p r data : python_result (_normalize_netbox_rq_worker_backend_response p r data).
Proof.
  unfold _normalize_netbox_rq_worker_backend_response. repeat case_match; auto with rpc.
Qed.
#[local] Hint Resolve docker_python pair_python akvorado_python rq_python : rpc.

Lemma normalize_python p x r data : python_result (_normalize_backend_response p x r data).
Proof.
  unfold _normalize_backend_response. destruct (kind p); auto with rpc; apply result_fmap_python.
  all: apply or_closed_python.
  all: unfold _normalize_gitea_docker_runner_closed_response; apply reduced_python.
Qed.

Lemma classify_python p e : python e -> python_result (_classify_backend_request_failure p e).
Proof.
  intros He. unfold _classify_backend_request_failure.
  destruct (bool_decide _); [apply closed_failure_python|].
  destruct (bool_decide _); [apply closed_failure_python|].
  destruct (secret_protected p).
  - apply result_bind_python; [|intros stage e' Hf].
    + destruct (bool_decide _); [unfold lookup_key; destruct (assoc _ _)|]; by intros ? [=<-].
    + unfold _closed_backend_transport_failure in Hf. destruct (kind p); try discriminate Hf.
      by injection Hf as <-.
  - intros ? [= <-]. by apply python_raise_from.
Qed.

Lemma calm_catch {A} (m : io A) h : calm m -> (forall e, python e -> calm (h e)) -> calm (catch m h).
Proof.
  intros Hm Hh s. destruct (Hm s) as [Hp Ht]. unfold catch. destruct (m s) as [s1 [a|e]]; cbn in *.
  - by split; [apply python_ok|].
  - destruct (Hh e (Hp e eq_refl) s1). split; [done|lia].
Qed.
Lemma cause_python e e' : _protected_wall_clock_cause e = Some e' -> python e'.
Proof.
  intros Hc. unfold python. destruct (decide (class_of e' = NoFuel)) as [Hn|]; [|done].
  unfold _protected_wall_clock_cause in Hc. apply (cause_loop_sound e _ _ _ _ (root e)) in Hc.
  - destruct Hc as (id & o & -> & _ & Ho & Ht). unfold class_of, object_at in *. cbn in *.
    rewrite Ho in *. congruence.
  - intros ? [= <-]. apply rtc_refl.
Qed.

#[local] Hint Resolve calm_bind calm_ret calm_raise calm_lift classify_python cause_python : rpc.

Lemma calm_modify f : (forall s, ticks (f s) = ticks s) -> calm (modify f).
Proof. intros Hf s. cbn. rewrite Hf. split; [apply python_ok|done]. Qed.
#[local] Hint Extern 1 (calm (modify close)) => (by apply calm_modify) : rpc.

Lemma calm_request plan p : python_world -> calm (_perform_backend_request post plan p).
Proof.
  intros (Hp & _ & _). unfold _perform_backend_request. apply calm_catch; [auto with rpc|].
  intros e He. destruct (is_request_exception _); [|auto with rpc].
  destruct (_protected_wall_clock_cause e) eqn:E; eauto with rpc.
Qed.
Lemma calm_early p r : calm (_classify_backend_http_response p r).
Proof.
  unfold _classify_backend_http_response.
  repeat match goal with |- calm (if ?b then _ else _) => destruct b end; auto with rpc;
    (apply calm_bind; [auto with rpc; repeat case_match; auto with rpc|]); intros _; auto with rpc.
  all: by apply calm_raise.
Qed.

Lemma calm_read_failed p r e : python e -> calm (read_failed p r e).
Proof.
  intros He. unfold read_failed. destruct (_ || _); [|by apply calm_raise].
  destruct (_protected_wall_clock_cause e) eqn:E; [apply calm_raise; by eapply cause_python|].
  destruct (fails_closed p); [|by apply calm_raise, python_raise_from].
  apply calm_bind; [apply calm_lift, closed_failure_python|intros; apply calm_ret].
Qed.

(** The reader with enough fuel, and the rest of the exchange. *)
Lemma read_response_settled T n m plan p r s deadline :
  forward_clock w -> (forall data, python_result (json_loads w data)) -> python_response r ->
  response_deadline plan = Some deadline ->
  deadline <= clock w T -> (T <= n)%nat -> (T <= m)%nat ->
  settled (_read_backend_response w (S n) plan p r) (_read_backend_response w (S m) plan p r) s.
Proof.
  intros Hc Hw Hr Hd HT Hn Hm. unfold _read_backend_response. rewrite Hd.
  assert (Hhandled : forall (a a' : io value) s, (forall s, settled a a' s) ->
    settled (catch (data ← a; mret (ReadData data)) (read_failed p r))
            (catch (data ← a'; mret (ReadData data)) (read_failed p r)) s).
  { intros b b' s0 Hb. apply settled_catch.
    - apply settled_bind; [apply Hb|intros v s1 _; apply settled_same, python_ok].
    - intros e s1 He. apply settled_same, calm_read_failed, He. }
  destruct (streamed p); [|apply Hhandled; intros s0; apply settled_same, Hr].
  apply settled_finally, Hhandled. intros s0.
  destruct (response_max_bytes plan); [|by apply settled_same, python_raise].
  by apply (read_settled w r deadline z Hc Hr Hw T).
Qed.

Lemma plan_call_settled T n m x plan p s deadline :
  forward_clock w -> python_world -> response_deadline plan = Some deadline ->
  deadline <= clock w T -> (T <= n)%nat -> (T <= m)%nat ->
  settled (_call_backend_with_plan w post (S n) x plan p) (_call_backend_with_plan w post (S m) x plan p) s.
Proof.
  intros Hc Hp Hd HT Hn Hm. unfold _call_backend_with_plan.
  apply settled_bind; [by apply settled_same, calm_request|]. intros [r|d] s1 Hr.
  2: apply settled_same, python_ok.
  assert (Hpr : python_response r).
  { destruct Hp as (_ & Hp & _). apply (Hp plan).
    assert (Hret : returns (_perform_backend_request post plan p) s (Response r)) by (unfold returns; by rewrite Hr).
    apply returns_catch in Hret as [Hret|(s2 & e & _ & Hret)].
    - by returns_inv.
    - destruct (is_request_exception _); [|by returns_inv].
      destruct (_protected_wall_clock_cause e); [by returns_inv|]. by returns_inv. }
  apply settled_bind; [apply settled_same, calm_early|]. intros [d|] s2 _; [apply settled_same, python_ok|].
  apply settled_bind; [|intros [data|d] s3 _; apply settled_same; [apply normalize_python|apply python_ok]].
  destruct Hp as (_ & _ & Hw). by apply (read_response_settled T) with (deadline := deadline).
Qed.

(** From some number of turns of the reading loop on, the call gives one and the same
    answer, which is an answer of the program. *)
Definition call_settles (t : BackendTarget) (x : rpc_execution) (lease : option SignedDispatchLease)
    (s : net) : Prop :=
  exists N, forall n, (N <= n)%nat ->
    _call_backend w post n t x lease s = _call_backend w post N t x lease s /\
    python_result (_call_backend w post n t x lease s).2.

(** C33: The call of a transport with a route budget ends.  Whatever the backend
    streams and whatever is raised on the way, a clock that passes the deadline bounds
    the exchange: the call returns or raises, with nothing left running. *)
Theorem call_ends t x lease s budget max_bytes :
  forward_clock w -> unbounded_clock w -> python_world ->
  _protected_response_limits (_resolve_backend_transport_policy x) = Ok (Some (budget, max_bytes)) ->
  call_settles t x lease s.
Proof.
  intros Hc Hu Hp Hl. destruct (Hu (clock w (ticks s) + budget)) as [T HT].
  exists (S T). intros [|n] Hn; [lia|]. unfold _call_backend, _build_backend_request_plan. rewrite Hl.
  match goal with |- ?m s = ?m' s /\ _ => change (settled m m' s) end.
  apply settled_bind; [apply settled_same, python_ok|]. intros plan s1 Hplan.
  assert (Hd : response_deadline plan = Some (clock w (ticks s) + budget)).
  { unfold mbind, io_bind, lift, monotonic, mret, io_ret in Hplan. by injection Hplan as _ <-. }
  rewrite Hd. apply settled_catch.
  - apply settled_guard. intros s2. apply (plan_call_settled T) with (deadline := clock w (ticks s) + budget);
      [done|done|done|done|lia|lia].
  - intros e s2 He. apply settled_same. destruct (bool_decide _); [|by apply python_raise].
    apply (calm_bind (lift (_classify_backend_request_failure (_resolve_backend_transport_policy x) e)));
      [by apply calm_lift, classify_python|intros d; apply calm_ret].
Qed.
End Paths.

(** ** A concrete exchange *)
Module CallDemo.
Import RefSchema.
#[export] Instance demo_meta : JsonMetaSchema := {| check_schema := fun _ => true |}.
#[export] Instance demo_pydantic : Pydantic := {| model_json_schema := fun _ _ => [] |}.

Definition commit : string := "0123456789abcdef0123456789abcdef01234567".
Definition envelope : value :=
  VDict ["ok" :- true;
         "result" :- VDict ["ok" :- true; "procedure" :- DnsStaging.PROCEDURE_NAME;
                            "target" :- DnsStaging.TARGET; "commit_sha" :- commit;
                            "deployed" :- true; "stage" :- "complete"];
         "events" :- VList []; "error_code" :- EmptyString; "error_message" :- EmptyString].

(** A millisecond per tick; the body is two bytes and an empty chunk. *)
Definition demo_outside : outside :=
  {| clock := fun n => Z.of_nat n * 1000000; main_thread := true; json_loads := fun _ => Ok envelope |}.
Definition demo_sock : sock := {| settimeout_callable := true; settimeout_error := None |}.
Definition demo_response : response :=
  {| status_code := 200; content_encoding := None; content_length := Some "2";
     connection_sock := fun _ => Some demo_sock; fp_sock := fun _ => None;
     items := fun n => match n with O => Chunk [123] | 1%nat => Chunk [] | 2%nat => Chunk [125] | _ => StopIteration end;
     json_body := Err (new_exc PyValueError EmptyString) |}.
Definition demo_post (plan : _BackendRequestPlan) : result exc response := Ok demo_response.
Definition refused : exc := new_exc ConnectTimeout "timed out".
Definition refused_post (plan : _BackendRequestPlan) : result exc response := Err refused.

Definition execution_of (name : string) : rpc_execution :=
  {| x_pk := 5; x_procedure_name := name; x_timeout_seconds := 60; x_result_schema := VNone;
     x_params := VDict ["commit_sha" :- commit]; x_normalized_params := VDict []; x_target_display := "host" |}.
Definition dns : rpc_execution := execution_of "service.netbox.staging.deploy_dns_pair".
Definition pair_prove : rpc_execution := execution_of "service.gitea.actions_runner.protected_pair.prove".
Definition demo_target : BackendTarget :=
  {| target_url := "http://127.0.0.1:16005/"; headers := []; target_verify_ssl := false |}.
(** The worker's own alarm is due in an hour and a second. *)
Definition start : net :=
  {| ticks := 0; alarm := OuterHandler 1; itimer := {| due := Some (3601 * NS); interval := 0 |};
     position := 0; body := []; closed := false |}.

Lemma demo_forward : forward_clock demo_outside.
Proof. intros i j Hij. cbn. lia. Qed.
Lemma demo_unbounded : unbounded_clock demo_outside.
Proof. intros t. exists (Z.to_nat t). cbn. lia. Qed.
Lemma demo_python : python_world demo_outside demo_post.
Proof.
  split_and!; [by intros ? ? [=]| |by intros ? ? [=]].
  intros plan r [= <-]. split_and!; cbn.
  - intros i e. by destruct i as [|[|[|]]].
  - intros n k e [[= <-]|[=]] [=].
  - by intros e [= <-].
Qed.
Definition dns_plan : _BackendRequestPlan :=
  {| plan_url := "http://127.0.0.1:16005/rpc/executions/5/run"; plan_headers := []; plan_json := [];
     plan_verify := false; plan_allow_redirects := false; plan_stream := true;
     plan_timeout := Urllib3Timeout (2640 * NS) (10 * NS) (2630 * NS);
     response_deadline := Some (2640 * NS); response_max_bytes := Some 4096 |}.
End CallDemo.

Section Witnesses.
Import RefSchema CallDemo.

Lemma protected_call_closed_witness :
  exists v, returns (_call_backend demo_outside demo_post 9 demo_target dns None) start v /\
    closed_value demo_post (_resolve_backend_transport_policy dns) v.
Proof.
  eexists. split; [vm_compute; reflexivity|].
  eapply (protected_call_closed demo_outside demo_post 9 demo_target dns None start); vm_compute; reflexivity.
Defined.

Lemma streamed_response_closed_witness :
  closed (_call_backend_with_plan demo_outside demo_post 9 dns dns_plan
            (_resolve_backend_transport_policy dns) start).1 = true.
Proof.
  apply (streamed_response_closed demo_outside demo_post 9 dns dns_plan _ demo_response); reflexivity.
Defined.

Lemma outage_is_classified_witness :
  (_call_backend_with_plan demo_outside refused_post 9 pair_prove dns_plan
     (_resolve_backend_transport_policy pair_prove) start).2 = Err (new_exc PyKeyError EmptyString).
Proof.
  rewrite (outage_is_classified demo_outside refused_post 9 pair_prove dns_plan
    (_resolve_backend_transport_policy pair_prove) refused start ltac:(discriminate) eq_refl eq_refl eq_refl).
  reflexivity.
Defined.

Lemma call_returns_alarm_witness :
  alarm_back demo_outside (_resolve_backend_transport_policy dns) start (3601 * NS) (2640 * NS)
    (_call_backend demo_outside demo_post 9 demo_target dns None start).
Proof.
  apply (call_returns_alarm demo_outside demo_post 9 demo_target dns None start (3601 * NS) (2640 * NS) 4096);
    [apply demo_forward|reflexivity|reflexivity|reflexivity].
Defined.

Lemma nothing_accepted_late_witness :
  exists v, returns (_call_backend demo_outside demo_post 9 demo_target dns None) start v /\
    in_time demo_outside demo_post 9 dns (2640 * NS) 4096 v.
Proof.
  eexists. split; [vm_compute; reflexivity|].
  apply (nothing_accepted_late demo_outside demo_post 9 demo_target dns None start (2640 * NS) 4096);
    [reflexivity|vm_compute; reflexivity].
Defined.

Lemma call_ends_witness : call_settles demo_outside demo_post demo_target dns None start.
Proof.
  apply (call_ends demo_outside demo_post demo_target dns None start (2640 * NS) 4096);
    [apply demo_forward|apply demo_unbounded|apply demo_python|reflexivity].
Defined.
End Witnesses.
