(* ===== verification/FailureProperties.v ===== *)
(** * The fixed failures are results of their contracts

    [jobs.py] builds the failure envelopes of the protected transports from
    identifiers it does not trust (operation, scope, lane, fence, commit), and calls
    them schema-valid.  They are: whatever those identifiers are, the result of a
    fixed failure validates against the result schema of its contract. *)

From S2P Require Import Prelude PyValue CredentialContract Response Contracts SchemaSpec.
From S2P Require Import Lease Backends HttpGuard BackendPolicy BackendCall CallProperties.
Import JsonNotations.

(** The transports whose contract gives a result schema for a failure. *)
Definition failure_schema (p : _BackendTransportPolicy) : option value :=
  match kind p with
  | GITEA_UPGRADE => Some (VDict GiteaUpgrade.RESULT_SCHEMA)
  | DNS_STAGING_DEPLOY => Some (VDict DnsStaging.RESULT_SCHEMA)
  | GITEA_RUNNER => Some (VDict GiteaRunner.RESULT_SCHEMA)
  | GITEA_ORG_CI_RUNNER => Some (VDict OrgCiRunner.RESULT_SCHEMA)
  | NETBOX_RQ_WORKER => dict_get (procedure_name p) RqWorker.RESULT_SCHEMAS
  | _ => None
  end.

(** Valid in the sense of the specification of the validator. *)
Definition conforms (schema v : value) : bool :=
  in_fragment schema && json_value v && schema_valid schema v.

Lemma conforms_valid `{JsonSchemaSpec} schema v : conforms schema v = true -> json_valid schema v = true.
Proof. unfold conforms. intros Hc. bool_inv. by rewrite json_valid_spec. Qed.

(** ** Untrusted identifiers *)
(** An integer JavaScript represents exactly. *)
Definition js_exact (limit z : Z) : Prop := (z >=? 1) = true /\ (z <=? limit) = true.

Lemma safe_fence_cases limit fallback v :
  safe_fence limit fallback v = fallback \/
  exists z, safe_fence limit fallback v = VInt z /\ js_exact limit z.
Proof.
  unfold safe_fence. destruct v; auto. destruct (_ && _) eqn:E; [|auto]. right. bool_inv.
  eexists. unfold js_exact. split_and!; [done|rewrite Z.geb_leb; apply Z.leb_le; lia|by apply Z.leb_le].
Qed.
Lemma safe_generation limit v : 1 <= limit -> exists z, safe_fence limit 1 v = VInt z /\ js_exact limit z.
Proof.
  intros Hl. destruct (safe_fence_cases limit 1 v) as [->|(z & -> & Hz)]; [exists 1|eauto].
  unfold js_exact. split_and!; [done|done|by apply Z.leb_le].
Qed.

Lemma safe_digest_hex unknown v : hex_of 64 unknown = true ->
  exists s, safe_digest unknown v = VStr s /\ hex_of 64 s = true.
Proof.
  unfold safe_digest. intros Hu. destruct v; eauto. destruct (hex_of 64 s) eqn:E; eauto.
Qed.

(** [s if s in l else fallback] is an element of [l]. *)
Lemma chosen_elem s l fallback : fallback ∈ l -> (if str_in s l then s else fallback) ∈ l.
Proof. unfold str_in. case_bool_decide; auto. Qed.

(** Evaluate both sides of a membership in a concrete list. *)
Ltac split_elem H :=
  repeat (apply elem_of_cons in H as [H|H]; [|]); try (exfalso; exact (not_elem_of_nil _ H)).

Lemma runner_fragment : in_fragment (VDict GiteaRunner.RESULT_SCHEMA) = true.
Proof. vm_compute. reflexivity. Qed.
Lemma org_fragment : in_fragment (VDict OrgCiRunner.RESULT_SCHEMA) = true.
Proof. vm_compute. reflexivity. Qed.
Lemma dns_fragment : in_fragment (VDict DnsStaging.RESULT_SCHEMA) = true.
Proof. vm_compute. reflexivity. Qed.

Ltac evaluate fragment :=
  unfold conforms; rewrite fragment;
  unfold GiteaRunner.JS_SAFE_INTEGER_MAX, OrgCiRunner.JS_SAFE_INTEGER_MAX in *;
  cbv -[Z.leb Z.geb hex_of drop_newline];
  repeat match goal with H : _ = true |- _ => rewrite H end; reflexivity.

Lemma upgrade_failure_conforms stage : stage = "indeterminate" \/ stage = "execute" ->
  conforms (VDict GiteaUpgrade.RESULT_SCHEMA)
    (get "result" (_gitea_transport_failure_response stage)) = true.
Proof. intros [->| ->]; reflexivity. Qed.

Lemma dns_failure_conforms commit_sha stage : stage = "indeterminate" \/ stage = "execute" ->
  conforms (VDict DnsStaging.RESULT_SCHEMA)
    (get "result" (_dns_staging_transport_failure_response commit_sha stage)) = true.
Proof.
  unfold _dns_staging_transport_failure_response.
  destruct (hex_of 40 commit_sha) eqn:E; intros [->| ->]; evaluate dns_fragment.
Qed.

Lemma runner_failure_conforms stage operation digest execution_id generation scope :
  stage = "indeterminate" \/ stage = "generate_token" ->
  conforms (VDict GiteaRunner.RESULT_SCHEMA)
    (get "result" (_gitea_runner_transport_failure_response stage operation digest
                     execution_id generation scope)) = true.
Proof.
  unfold _gitea_runner_transport_failure_response. cbv zeta.
  assert (Ho : (if str_in operation GiteaRunner.OPERATIONS then operation else "register")
               ∈ GiteaRunner.OPERATIONS) by (apply chosen_elem; unfold GiteaRunner.OPERATIONS; set_solver).
  assert (Hs : (if str_in scope GiteaRunner.SCOPES then scope
                else default EmptyString (head GiteaRunner.SCOPES)) ∈ GiteaRunner.SCOPES)
    by (apply chosen_elem, (bool_decide_eq_true (_ ∈ _)); vm_compute; reflexivity).
  revert Ho Hs.
  generalize (if str_in operation GiteaRunner.OPERATIONS then operation else "register").
  generalize (if str_in scope GiteaRunner.SCOPES then scope
              else default EmptyString (head GiteaRunner.SCOPES)).
  intros sc op Ho Hs.
  destruct (safe_digest_hex GiteaRunner.FENCE_UNKNOWN_SHA256 digest eq_refl) as (s & -> & Hd).
  destruct (safe_generation GiteaRunner.JS_SAFE_INTEGER_MAX generation) as (g & -> & Hg1 & Hg2); [done|].
  destruct (safe_fence_cases GiteaRunner.JS_SAFE_INTEGER_MAX VNone execution_id) as [->|(i & -> & Hi1 & Hi2)];
  unfold GiteaRunner.OPERATIONS in Ho; split_elem Ho; subst op;
  (assert (Hs' : sc ∈ ["netbox-proxbox"; "nmulticloud-org"; "nmulticloud-org-root"; "proxbox-api";
      "release-netbox-proxbox-build"; "release-netbox-proxbox-validation";
      "release-proxbox-api-build"; "release-proxbox-api-validation"]) by exact Hs);
  clear Hs; split_elem Hs'; subst sc;
  intros [->| ->]; evaluate runner_fragment.
Qed.

Lemma safe_lane lane : (if dict_mem lane OrgCiRunner.LANES then lane else "root-python312") = "root-python312".
Proof.
  unfold dict_mem. case_bool_decide as Hl; [|done].
  change (keys OrgCiRunner.LANES) with ["root-python312"] in Hl.
  by apply list_elem_of_singleton in Hl.
Qed.

Lemma safe_scope (scope expected : string) :
  (if py_eqb (VStr scope) (VStr expected) then VStr scope else VStr expected) = VStr expected.
Proof. unfold py_eqb. case_bool_decide as Hs; [|done]. by injection Hs as ->. Qed.

Lemma org_failure_conforms stage operation lane scope digest execution_id generation :
  stage = "indeterminate" \/ stage = "preconditions" ->
  conforms (VDict OrgCiRunner.RESULT_SCHEMA)
    (get "result" (_gitea_org_ci_runner_transport_failure_response stage operation lane scope
                     digest execution_id generation)) = true.
Proof.
  unfold _gitea_org_ci_runner_transport_failure_response. rewrite safe_lane. cbv zeta.
  change (get "root-python312" OrgCiRunner.SCOPE_BY_LANE) with (VStr "nmulticloud-org-root").
  rewrite safe_scope.
  assert (Ho : (if str_in operation OrgCiRunner.OPERATIONS then operation else "provision")
               ∈ OrgCiRunner.OPERATIONS) by (apply chosen_elem; unfold OrgCiRunner.OPERATIONS; set_solver).
  revert Ho. generalize (if str_in operation OrgCiRunner.OPERATIONS then operation else "provision").
  intros op Ho.
  destruct (safe_digest_hex OrgCiRunner.FENCE_UNKNOWN_SHA256 digest eq_refl) as (s & -> & Hd).
  destruct (safe_generation OrgCiRunner.JS_SAFE_INTEGER_MAX generation) as (g & -> & Hg1 & Hg2); [done|].
  destruct (safe_fence_cases 9007199254740991 VNone execution_id) as [->|(i & -> & Hi1 & Hi2)];
  unfold OrgCiRunner.OPERATIONS in Ho; split_elem Ho; subst op; intros [->| ->]; evaluate org_fragment.
Qed.

Lemma rq_failure_conforms p schema : dict_get (procedure_name p) RqWorker.RESULT_SCHEMAS = Some schema ->
  conforms schema (get "result" (_netbox_rq_worker_transport_failure_response p)) = true.
Proof.
  unfold _netbox_rq_worker_transport_failure_response. generalize (procedure_name p). intros name Hn.
  apply dict_get_elem, list_elem_of_fmap in Hn as (n & [= -> ->] & Hn).
  unfold RqWorker.NETBOX_PRODUCTION_RQ_WORKER_PROCEDURE_NAMES in Hn.
  split_elem Hn; subst n; vm_compute; reflexivity.
Qed.

(** A fixed failure is a valid result.  Whatever the operation, scope, lane, commit
    and fence of an execution are, malformed ones included, and whatever the stage of
    the failure, the result in the failure envelope of a protected transport (Gitea
    upgrade, DNS pair, runner registration, organization runner, RQ worker) validates
    against the result schema of its contract. *)
Theorem fixed_failure_valid `{JsonSchemaSpec} p d schema :
  failure_schema p = Some schema -> fixed_failure p d -> json_valid schema (get "result" d) = true.
Proof.
  intros Hs (stage & Hd & Hst). apply conforms_valid. unfold failure_schema in Hs.
  unfold _closed_backend_transport_failure in Hd.
  destruct (kind p) eqn:Hk; try discriminate Hs; injection Hd as <-; try (injection Hs as <-).
  - apply upgrade_failure_conforms. destruct Hst as [|[=]]; auto.
  - apply runner_failure_conforms. destruct Hst as [|[=]]; auto.
  - apply org_failure_conforms. destruct Hst as [|[=]]; auto.
  - apply dns_failure_conforms. destruct Hst as [|[=]]; auto.
  - by apply rq_failure_conforms.
Qed.

Section FailureWitness.
Import RefSchema.

(** An execution whose identifiers are all malformed. *)
Definition malformed : rpc_execution :=
  {| x_pk := 5; x_procedure_name := "service.gitea.runner.register"; x_timeout_seconds := 60;
     x_result_schema := VNone;
     x_params := VDict ["operation" :- "reconcile"; "scope" :- "../../etc"];
     x_normalized_params := VDict ["fence_generation" :- 0; "fence_execution_id" :- true;
                                   "fence_expected_sha256" :- "<script>"];
     x_target_display := "host" |}.

Lemma fixed_failure_valid_witness :
  exists d, closed_failure (_resolve_backend_transport_policy malformed) = Ok d /\
    json_valid (VDict GiteaRunner.RESULT_SCHEMA) (get "result" d) = true.
Proof.
  eexists. split; [reflexivity|].
  apply (fixed_failure_valid (_resolve_backend_transport_policy malformed)); [reflexivity|].
  exists "indeterminate". split; [reflexivity|by left].
Defined.
End FailureWitness.
