(* ===== verification/CredentialAuthority.v ===== *)
(** * The credential authority

    [netbox_rpc/credential_authority.py]: which execution may have which named
    credential revealed.  Its functions only read the database.  A [database] holds the
    rows they read, as they are at one moment; a function that reads permissions again
    after other work takes the database of that later moment.  What NetBox computes from
    the permission tables ([has_perm], [QuerySet.restrict]) is part of a user row.  The
    credential provider ([netbox_openbao]) and the parsing of a submitted lease
    (pydantic) are arguments. *)

From S2P Require Import Prelude PyValue Events Projection CredentialContract.
From S2P Require Import Spans SpanFacts MaskFacts PyRegex SecretPatterns TextRedaction.
From S2P Require Import ValueRedaction RedactionFacts SchemaLimits EventStore EventStoreFacts.
From S2P Require Import Response ResponseFacts Aggregate Protected Approvals Fence.
From S2P Require Import Codec Capabilities KeyFile Lease Dispatch Backends.

(** ** Refusals *)

Definition SecretResolutionDenied : exn :=
  PermissionDenied "Credential resolution is not authorized for this execution.".
Definition _require (condition : bool) : res unit := require condition SecretResolutionDenied.
(** [except Exception: raise SecretResolutionDenied() from None]. *)
Definition denied {A} (r : res A) : res A :=
  match r with Ok a => Ok a | Err _ => Err SecretResolutionDenied end.

Definition DoesNotExist : exn := OtherError "DoesNotExist".
Definition AttributeError : exn := OtherError "AttributeError".
(** [v.get(k)] on a value that need not be a dictionary. *)
Definition attr_get (k : string) (v : value) : res value :=
  match v with VDict d => Ok (get k d) | _ => Err AttributeError end.

(** ** The database *)

(** [ac_restrict model action pk]: the row is in [objects.restrict(user, action)]. *)
Record actor := {
  ac_pk : Z;
  ac_is_active : bool;
  ac_is_authenticated : bool;
  ac_is_superuser : bool;
  ac_has_perm : string -> bool;
  ac_restrict : string -> string -> Z -> bool;
}.

Record procedure_row := {
  pc_base : procedure;
  pc_catalog : catalog_row;
  pc_target_models : list string;
  pc_approval_required : bool;
  pc_transport_driver : value;
  pc_transport_driver_chain : value;
  pc_transport_pinned : value;
  pc_output_parser : value;
  pc_output_schema : value;
}.
Definition pc_pk (p : procedure_row) : Z := pr_pk (pc_base p).

Record backend_row := {
  be_pk : Z;
  be_backend : RPCBackend;
  be_executor_identity_id : option Z;
  be_last_updated : string;
}.
Record target_row := { tr_pk : Z; tr_last_updated : string }.

(** [rx_row] holds the columns and the ledger, [rx_target] the target, the backend and
    the credential columns, [rx_approval_request] the stored approval snapshot. *)
Record reference_execution := {
  rx_row : execution;
  rx_target : target;
  rx_procedure_id : Z;
  rx_approval_request : option RPCApprovalRequest;
}.
Definition rx_pk (x : reference_execution) : Z := ex_pk (rx_row x).
Definition rx_requested_by_id (x : reference_execution) : value := ex_requested_by_id (rx_row x).
Definition rx_approved_by_id (x : reference_execution) : value := approved_by_id (ex_cols (rx_row x)).
Definition rx_references (x : reference_execution) : value := tg_credential_references (rx_target x).
Definition rx_authority (x : reference_execution) : value := tg_credential_authority (rx_target x).

(** [db_targets label] is [None] when the content type has no model. *)
Record database := {
  db_users : list actor;
  db_procedures : list procedure_row;
  db_backends : list backend_row;
  db_targets : string -> option (list target_row);
  db_settings_enabled : bool;
  db_settings_backend_id : option Z;
  db_executions : list reference_execution;
}.

Definition PROCEDURE_MODEL : string := "netbox_rpc.rpcprocedure".
Definition BACKEND_MODEL : string := "netbox_rpc.rpcbackend".

(** [filter(pk=v).first()] and [get(pk=v)]. *)
Definition first_by {A} (key : A -> Z) (rows : list A) (v : value) : option A :=
  match v with VInt n => List.find (fun a => key a =? n) rows | _ => None end.
Definition get_by {A} (key : A -> Z) (rows : list A) (v : value) : res A :=
  match first_by key rows v with Some a => Ok a | None => Err DoesNotExist end.
(** A foreign key followed from a row. *)
Definition related {A} (key : A -> Z) (rows : list A) (v : value) : res (option A) :=
  match v with VNone => Ok None | _ => Some <$> get_by key rows v end.
(** [model.objects.restrict(user, action).filter(pk=v).exists()]. *)
Definition exists_for {A} (key : A -> Z) (rows : list A) (model : string) (user : actor) (action : string)
    (v : value) : bool :=
  match first_by key rows v with
  | Some a => ac_restrict user model action (key a)
  | None => false
  end.

(** Rows are locked inside a transaction, which changes nothing that is read. *)
Definition _viewable {A} (key : A -> Z) (rows : list A) (model : string) (user : actor) (v : value) : res A :=
  _ ← _require (exists_for key rows model user "view" v);
  get_by key rows v.

Definition target_rows (db : database) (model : string) : res (list target_row) :=
  match db_targets db model with Some rows => Ok rows | None => Err AttributeError end.

(** ** Permissions now *)

Definition _active_actor (user : option actor) (permission : string) : res actor :=
  match user with
  | None => Err SecretResolutionDenied
  | Some a =>
      _ ← _require (ac_is_active a);
      _ ← _require (ac_has_perm a permission);
      Ok a
  end.

Definition _fresh_rpc_actor (db : database) (actor_id : value) (procedure_id : Z) (action : string) : res actor :=
  user ← get_by ac_pk (db_users db) actor_id;
  user ← _active_actor (Some user) ("netbox_rpc." +:+ action +:+ "_rpcprocedure");
  _ ← _require (exists_for pc_pk (db_procedures db) PROCEDURE_MODEL user action (VInt procedure_id));
  _ ← _require (exists_for pc_pk (db_procedures db) PROCEDURE_MODEL user "view" (VInt procedure_id));
  Ok user.

Definition _fresh_execution_permissions (db : database) (requester_id approved_by_id : value) (procedure_id : Z)
    (backend_id : value) (target_model : string) (target_id : Z) : res unit :=
  user ← _fresh_rpc_actor db requester_id procedure_id "execute";
  _ ← _require (exists_for be_pk (db_backends db) BACKEND_MODEL user "view" backend_id);
  rows ← target_rows db target_model;
  _ ← _require (exists_for tr_pk rows target_model user "view" (VInt target_id));
  match approved_by_id with
  | VNone => Ok tt
  | _ =>
      approver ← _fresh_rpc_actor db approved_by_id procedure_id "approve";
      _require (exists_for tr_pk rows target_model approver "view" (VInt target_id))
  end.

Definition _check_execution_permissions (db : database) (x : reference_execution) : res unit :=
  _fresh_execution_permissions db (rx_requested_by_id x) (rx_approved_by_id x) (rx_procedure_id x)
    (tg_backend_id (rx_target x)) (tg_model_label (rx_target x)) (tg_id (rx_target x)).

(** ** What is being prepared or checked *)

(** The attributes that the preparation of a request and a stored execution share. *)
Record subject := {
  su_procedure_id : Z;
  su_backend_id : value;
  su_references : value;
  su_model_label : string;
  su_object_id : Z;
  su_params : value;
}.
Definition subject_of (x : reference_execution) : subject :=
  {| su_procedure_id := rx_procedure_id x; su_backend_id := tg_backend_id (rx_target x);
     su_references := rx_references x; su_model_label := tg_model_label (rx_target x);
     su_object_id := tg_id (rx_target x); su_params := ex_params (rx_row x) |}.

(** The fresh procedure is stored on the execution by the source. *)
Definition _reference_context (db : database) (x : subject) (user : option actor)
    : res (actor * procedure_row * backend_row * target_row) :=
  user ← _active_actor user "netbox_rpc.execute_rpcprocedure";
  procedure ← _viewable pc_pk (db_procedures db) PROCEDURE_MODEL user (VInt (su_procedure_id x));
  _ ← _require (pr_enabled (pc_base procedure));
  _ ← _require (exists_for pc_pk (db_procedures db) PROCEDURE_MODEL user "execute" (VInt (pc_pk procedure)));
  backend ← _viewable be_pk (db_backends db) BACKEND_MODEL user (su_backend_id x);
  executor ← related ac_pk (db_users db)
               (match be_executor_identity_id backend with
                | Some n => if n =? 0 then VNone else VInt n
                | None => VNone
                end);
  _ ← _require (match executor with Some e => ac_is_active e | None => false end);
  _ ← _require (db_settings_enabled db && bool_decide (db_settings_backend_id db = Some (be_pk backend)));
  rows ← target_rows db (su_model_label x);
  target ← _viewable tr_pk rows (su_model_label x) user (VInt (su_object_id x));
  _ ← _require (str_in (su_model_label x) (pc_target_models procedure));
  Ok (user, procedure, backend, target).

(** ** Canonical UUIDs *)

(** [s.replace(sub, EmptyString)] for a non-empty [sub]; [skip] letters are dropped first. *)
Fixpoint str_remove (sub : string) (skip : nat) (s : string) : string :=
  match s, skip with
  | EmptyString, _ => EmptyString
  | String _ r, S k => str_remove sub k r
  | String c r, O => if String.prefix sub s then str_remove sub (String.length sub - 1) r
                     else String c (str_remove sub 0 r)
  end.
Fixpoint lstrip_braces (s : string) : string :=
  match s with
  | EmptyString => EmptyString
  | String c r => if (code c =? 123) || (code c =? 125) then lstrip_braces r else s
  end.
Definition strip_braces (s : string) : string := str_rev (lstrip_braces (str_rev (lstrip_braces s))).

(** [int(s, 16)]: blanks around, a sign, a prefix and single underscores are allowed. *)
Definition hex_value (c : ascii) : option Z :=
  let z := code (chr_lower c) in
  if (48 <=? z) && (z <=? 57) then Some (z - 48)
  else if (97 <=? z) && (z <=? 102) then Some (z - 87) else None.
Fixpoint parse_hex (acc : Z) (prev_digit : bool) (s : string) : option Z :=
  match s with
  | EmptyString => if prev_digit then Some acc else None
  | String c r =>
      match hex_value c with
      | Some d => parse_hex (16 * acc + d) true r
      | None => if Ascii.eqb c "_"%char && prev_digit then parse_hex acc false r else None
      end
  end.
Definition unsigned_hex (s : string) : option Z :=
  match s with
  | String "0"%char (String x r) =>
      if str_in (String x EmptyString) ["x"; "X"]
      then parse_hex 0 false (match r with String "_"%char r' => r' | _ => r end)
      else parse_hex 0 false s
  | _ => parse_hex 0 false s
  end.
Definition int16 (s : string) : option Z :=
  match str_strip s with
  | String "-"%char r => Z.opp <$> unsigned_hex r
  | String "+"%char r => unsigned_hex r
  | r => unsigned_hex r
  end.

(** [UUID(s)] does not raise. *)
Definition is_uuid_text (s : string) : bool :=
  let hex := str_remove "-" 0 (strip_braces (str_remove "uuid:" 0 (str_remove "urn:" 0 s))) in
  (str_len hex =? 32) && match int16 hex with Some n => 0 <=? n | None => false end.

(** [str(UUID(v)) == v]. *)
Definition uuid_is_canonical (v : value) : res bool :=
  match v with
  | VStr s => if is_canonical_uuid s then Ok true else if is_uuid_text s then Ok false else Err ValueError
  | VNone => Err TypeError
  | _ => Err AttributeError
  end.

Definition dict_of_value (v : value) : dict := match v with VDict d => d | _ => [] end.
Definition provider_versions (name : string) (l : list (string * list Z)) : list Z :=
  match List.find (fun e => String.eqb e.1 name) l with Some e => e.2 | None => [] end.

Section Authority.
Context `{PyLib} `{JsonSchema} `{ManifestLib} `{LeaseLib}.

(** ** The frozen snapshot *)

Definition target_reference (x : subject) (t : target_row) : dict :=
[("object_type", VStr (su_model_label x)); ("object_id", VInt (tr_pk t))].

Definition procedure_policy (p : procedure_row) : dict :=
[("contract", VDict (_base_command_contract_payload (pc_catalog p)));
 ("name", VStr (pr_name (pc_base p)));
 ("params_schema", pr_params_schema (pc_base p));
 ("result_schema", pr_result_schema (pc_base p));
 ("target_models", VList (map VStr (pc_target_models p)));
 ("approval_required", VBool (pc_approval_required p));
 ("timeout_seconds", pr_timeout_seconds (pc_base p));
 ("transport_policy", VDict
    [("transport_driver", pc_transport_driver p); ("transport_driver_chain", pc_transport_driver_chain p);
     ("transport_pinned", pc_transport_pinned p); ("output_parser", pc_output_parser p);
     ("output_schema", pc_output_schema p)])].

Definition _snapshot_payload (x : subject) (user : actor) (p : procedure_row) (b : backend_row) (t : target_row)
: res dict :=
references ← validate_named_references (su_references x);
_ ← _require (forallb (fun e => py_eqb (get_of "target" e.2) (VDict (target_reference x t))) references);
Ok [("schema_version", VInt 1);
    ("references", VDict references);
    ("requested_by_id", VInt (ac_pk user));
    ("backend_id", VInt (be_pk b));
    ("executor_id", match be_executor_identity_id b with Some n => VInt n | None => VNone end);
    ("backend_identity", VDict
       [("url", VStr (backend_url (be_backend b))); ("verify_ssl", VBool (verify_ssl (be_backend b)));
        ("auth_header_name", VStr (auth_header_name (be_backend b)));
        ("revision", VStr (be_last_updated b))]);
    ("target", VDict (target_reference x t ++ [("revision", VStr (tr_last_updated t))]));
    ("procedure_id", VInt (pc_pk p));
    ("procedure_policy_sha256", VStr (canonical_hash (VDict (procedure_policy p))));
    ("params_sha256", VStr (canonical_hash (su_params x)))].

(** ** Provider identities *)

Definition PROVIDER_IDENTITY_KEYS : list string :=
["credential_uuid"; "assignment_id"; "target"; "purpose"; "username"; "fingerprint"; "credential_type";
 "policy_id"; "engine_id"; "engine_identity_sha256"; "schema_sha256"].
(** [type(v) is int and 0 < v <= 9007199254740991]. *)
Definition positive_safe (v : value) : bool :=
match v with VInt z => (0 <? z) && (z <=? 9007199254740991) | _ => false end.
Definition short_text (v : value) : bool :=
match v with VStr s => str_len s <=? 1024 | _ => false end.
Definition sha256_text (v : value) : bool :=
match v with VStr s => is_sha256 s | _ => false end.
Definition same_keys (d : dict) (names : list string) : bool :=
forallb (fun k => str_in k names) (keys d) && forallb (fun k => dict_mem k d) names.

Definition _validated_provider_identity (v : value) (r : CredentialReferenceV1) : res dict :=
match v with
| VDict d =>
  _ ← _require (same_keys d PROVIDER_IDENTITY_KEYS);
  _ ← _require (py_eqb (get "target" d) (get "target" (to_mapping r)));
  object_id ← item "object_id" (get "target" d);
  _ ← _require (match object_id with VInt _ => true | _ => false end);
  _ ← _require (py_eqb (get "purpose" d) (purpose r));
  _ ← _require (forallb (fun k => positive_safe (get k d)) ["assignment_id"; "policy_id"; "engine_id"]);
  _ ← _require (forallb (fun k => short_text (get k d)) ["username"; "fingerprint"; "credential_type"]);
  _ ← _require (forallb (fun k => sha256_text (get k d)) ["engine_identity_sha256"; "schema_sha256"]);
  canonical ← uuid_is_canonical (get "credential_uuid" d);
  _ ← _require canonical;
  _ ← _require (match assignment_id r with
                | Some n => py_eqb (VInt n) (get "assignment_id" d) | None => true end);
  _ ← _require (match credential_uuid r with
                | Some u => py_eqb (VStr u) (get "credential_uuid" d) | None => true end);
  Ok d
| _ => Err SecretResolutionDenied
end.

Definition _reference_reason (p : procedure_row) (r : CredentialReferenceV1) : string :=
"Execute " +:+ pr_name (pc_base p) +:+ " using the assigned " +:+ py_str (purpose r) +:+ " credential.".

(** What [netbox_openbao] captures for a reference, an actor, a target and a reason;
[None] when the package is not installed. *)
Variable capture_reference_identity : option (CredentialReferenceV1 -> actor -> target_row -> string -> res value).

Fixpoint capture_loop (capture : CredentialReferenceV1 -> actor -> target_row -> string -> res value)
(user : actor) (t : target_row) (p : procedure_row) (references identities : dict) : res dict :=
match references with
| [] => Ok identities
| (name, v) :: rest =>
  r ← from_mapping v;
  identity ← capture r user t (_reference_reason p r);
  identity ← _validated_provider_identity identity r;
  capture_loop capture user t p rest (dict_set name (VDict identity) identities)
end.
Definition _capture_provider_identities (references : dict) (user : actor) (t : target_row) (p : procedure_row)
: res dict :=
denied match capture_reference_identity with
       | None => Err (OtherError "ImportError")
       | Some capture => capture_loop capture user t p references []
       end.

(** ** Preparation of a request *)

(** The two columns to store, [None] when the request names no credential.
[correlation_id] is the drawn UUID; the permissions are read again in [later]. *)
Definition prepare_reference_execution (db later : database) (x : subject) (user : actor)
(correlation_id : string) : res (option (dict * dict)) :=
if negb (truthy (su_references x)) then Ok None else
references ← validate_named_references (su_references x);
let x := {| su_procedure_id := su_procedure_id x; su_backend_id := su_backend_id x;
            su_references := VDict references; su_model_label := su_model_label x;
            su_object_id := su_object_id x; su_params := su_params x |} in
'(user, p, b, t) ← _reference_context db x (Some user);
snapshot ← _snapshot_payload x user p b t;
identities ← _capture_provider_identities references user t p;
_ ← _fresh_execution_permissions later (VInt (ac_pk user)) VNone (su_procedure_id x) (su_backend_id x)
      (su_model_label x) (tr_pk t);
Ok (Some (references, dict_set "provider_identities" (VDict identities)
                        (dict_set "correlation_id" (VStr correlation_id) snapshot))).

(** ** Immutability of the stored columns *)

Definition invalid_snapshot : exn := ValidationError EmptyString "Invalid credential authority snapshot.".
Definition immutable_references : exn :=
ValidationError EmptyString "Execution credential references are immutable.".

(** [original]: the stored columns, if the row exists. *)
Definition validate_immutable_reference_fields (references authority : value) (adding : bool)
(original : option (value * value)) : res unit :=
_ ← (if truthy references then
       match (named ← validate_named_references references;
              saved ← attr_get "references" authority;
              _require (py_eqb (VDict named) saved)) with
       | Ok _ => Ok tt
       | Err e => Err (if bool_decide (e = CredentialContractError) || bool_decide (e = SecretResolutionDenied)
                       then invalid_snapshot else e)
       end
     else Ok tt);
if adding then _require (Bool.eqb (truthy references) (truthy authority)) else
match original with
| Some (r, a) => require (py_eqb r references && py_eqb a authority) immutable_references
| None => Ok tt
end.

(** ** The snapshot against the current rows *)

Definition saved_snapshot (authority : dict) : dict :=
dict_pop "provider_identities" (dict_pop "correlation_id" authority).

Fixpoint identities_current (references identities : dict) : res unit :=
match references with
| [] => Ok tt
| (name, v) :: rest =>
  r ← from_mapping v;
  _ ← _validated_provider_identity (get name identities) r;
  identities_current rest identities
end.

(** The permissions are read again in [later]. *)
Definition _current_reference_snapshot (db later : database) (x : reference_execution)
: res (actor * procedure_row * backend_row * target_row) :=
requester ← related ac_pk (db_users db) (rx_requested_by_id x);
'(user, p, b, t) ← _reference_context db (subject_of x) requester;
current ← _snapshot_payload (subject_of x) user p b t;
authority ← py_dict (rx_authority x);
let references := dict_of_value (get "references" current) in
identities ← (match get "provider_identities" authority with
              | VDict d => _ ← _require (same_keys d (keys references)); Ok d
              | _ => Err SecretResolutionDenied
              end);
canonical ← (match get "correlation_id" authority with
             | VStr s => uuid_is_canonical (VStr s)
             | _ => Err SecretResolutionDenied
             end);
_ ← _require canonical;
_ ← identities_current references identities;
_ ← _require (py_eqb (VDict (saved_snapshot authority)) (VDict current));
_ ← _check_execution_permissions later x;
Ok (user, p, b, t).

Definition require_reference_backend (db later : database) (x : reference_execution) (selector : value) : res unit :=
if negb (truthy (rx_references x)) then Ok tt else
bound ← attr_get "backend_id" (rx_authority x);
_ ← _require (py_eqb selector bound);
_ ← _current_reference_snapshot db later x;
Ok tt.

(** The configuration of leases, and what the backend answers to the manifest request. *)
Variable config : option dict.
Variable env : environment.

Definition require_reference_dispatch_ready (db later last : database) (x : reference_execution)
(t : backend_target) (answer : http) : res unit :=
if negb (truthy (rx_references x)) then Ok tt else
'(_, p, b, _) ← _current_reference_snapshot db later x;
_ ← _require (String.eqb (bt_url t) (backend_url (be_backend b)));
_ ← _require (Bool.eqb (bt_verify_ssl t) (verify_ssl (be_backend b)));
match (fetch_backend_capabilities ∅ (rstrip_slash (bt_url t)) 0 false answer).2 with
| None => Err SecretResolutionDenied
| Some m =>
  _ ← _require (bool_decide (verify_procedure_capability (pc_catalog p) (Some m) = COMPATIBLE));
  _ ← _require (bool_decide (1 ∈ bm_credential_reference_versions m));
  _ ← _require (bool_decide (1 ∈ provider_versions "netbox-openbao" (bm_credential_provider_versions m)));
  _ ← _require (bool_decide (1 ∈ bm_dispatch_lease_versions m));
  key ← load_active_signing_key config env;
  _ ← _require (match key with Some _ => true | None => false end);
  _check_execution_permissions last x
end.

(** ** Approval *)

(** [resolve_backend]. *)
Variable resolve : value -> res (option BackendTarget).
Definition protected_target (t : BackendTarget) : backend_target :=
{| bt_url := target_url t; bt_verify_ssl := target_verify_ssl t |}.

Definition _approval_backend_target (x : reference_execution) (t : option backend_target)
: res (option backend_target) :=
match t with
| Some t => Ok (Some t)
| None => denied (option_map protected_target <$> resolve (tg_backend_id (rx_target x)))
end.

Definition user_of (a : actor) : user :=
{| u_pk := VInt (ac_pk a); has_perm := ac_has_perm a; is_superuser := ac_is_superuser a;
   restrict := fun action pk => ac_restrict a PROCEDURE_MODEL action pk |}.

(** [p] is the procedure on the execution; [policy] the outcome of
[_require_protected_procedure_policy] on it. *)
Definition _current_approval (db : database) (x : reference_execution) (p : procedure_row) (policy : res unit)
(normalized : dict) (t : option backend_target) : res string :=
if negb (pc_approval_required p) && negb (String.eqb (pr_effect (pc_base p)) "destructive") then
  _ ← _require (bool_decide (rx_approved_by_id x = VNone));
  _ ← _check_execution_permissions db x;
  Ok EmptyString
else
  _ ← _require (protected (pr_name (pc_base p)));
  approver ← related ac_pk (db_users db) (rx_approved_by_id x);
  let superuser := match approver with Some a => ac_is_superuser a | None => false end in
  _ ← _require (negb (bool_decide (rx_approved_by_id x = rx_requested_by_id x)) || superuser);
  approver ← _active_actor approver "netbox_rpc.approve_rpcprocedure";
  _ ← _require_protected_procedure_scope (pc_base p) (user_of approver) "approve";
  _ ← _viewable pc_pk (db_procedures db) PROCEDURE_MODEL approver (VInt (pc_pk p));
  rows ← target_rows db (tg_model_label (rx_target x));
  _ ← _viewable tr_pk rows (tg_model_label (rx_target x)) approver (VInt (tg_id (rx_target x)));
  t ← _approval_backend_target x t;
  _ ← recheck_approval policy superuser (rx_approval_request x) (pc_base p) (rx_target x) (rx_row x) normalized t;
  _ ← _check_execution_permissions db x;
  match rx_approval_request x with
  | Some sn => Ok (payload_hash sn)
  | None => Err AttributeError
  end.

Definition require_reference_approval (db : database) (x : reference_execution) (p : procedure_row)
(policy : res unit) (normalized : dict) (t : option backend_target) : res unit :=
if negb (truthy (rx_references x)) then Ok tt else
denied (_ ← _current_approval db x p policy normalized t; Ok tt).

(** ** The lease that was presented *)

Definition _lease_times (c : LeaseClaims) (now : Z) : res unit :=
match parse_timestamp (issued_at c), parse_timestamp (expires_at c) with
| Some (Aware issued), Some (Aware expires) =>
  _ ← _require ((issued <=? now) && (now <? expires));
  _require ((0 <? expires - issued) && (expires - issued <=? MAX_REFERENCE_LEASE_SECONDS * 1000000))
| _, _ => Err SecretResolutionDenied
end.

Definition sequence_le (a b : row) : Prop := row_sequence a <= row_sequence b.
#[local] Instance sequence_le_dec : RelDecision sequence_le.
Proof. unfold sequence_le. intros ??. apply _. Defined.

Definition issuance_data (c : LeaseClaims) : dict :=
[("nonce", VStr (nonce c)); ("key_id", VStr (key_id c)); ("key_version", VInt (key_version c));
 ("stream_version", VInt (stream_version c)); ("audience", VStr (audience c));
 ("expires_at", VStr (expires_at c)); ("envelope_version", VInt (envelope_version c))].

Definition _issuance_event (x : reference_execution) (c : LeaseClaims) : res row :=
let events := merge_sort sequence_le (ex_events (rx_row x)) in
match List.find (fun r => String.eqb (row_event r) "DispatchLeaseIssued"
                          && bool_decide (get "nonce" (row_data r) = VStr (nonce c))) events with
| None => Err SecretResolutionDenied
| Some event =>
  _ ← _require (py_eqb (VDict (row_data event)) (VDict (issuance_data c)));
  _ ← _require (row_sequence event =? stream_version c + 1);
  _ ← _require (negb (existsb (fun r => row_sequence event <? row_sequence r) events));
  _ ← _require (existsb (fun r => (row_sequence r =? stream_version c)
                                  && String.eqb (row_event r) "ParametersNormalized") events);
  Ok event
end.

Definition optional_id (v : value) : option Z := match v with VInt n => Some n | _ => None end.
Definition lease_expectations (x : reference_execution) (p : procedure_row) (fingerprint : dict) (event : row)
: expectations :=
{| x_execution_id := Some (rx_pk x);
   x_stream_version := Some (row_sequence event - 1);
   x_contract_hash := Some (derive_command_contract_hash (pc_catalog p));
   x_handler_id := Some (cr_handler_id (pc_catalog p));
   x_handler_version := Some (cr_version (pc_catalog p));
   x_effect := Some (cr_effect (pc_catalog p));
   x_target_snapshot_hash :=
     Some (py_str (py_or (get "target_object_sha256" fingerprint) (VStr EmptyString)));
   x_params_fingerprint := Some (canonical_hash (VDict fingerprint));
   x_credential_policy := Some ("credential-authority:" +:+ canonical_hash (rx_authority x));
   x_requested_by_id := optional_id (rx_requested_by_id x);
   x_approved_by_id := optional_id (rx_approved_by_id x);
   x_seen_nonces := None |}.

Definition normalized_of (x : reference_execution) : dict := normalized_params (ex_cols (rx_row x)).

Definition _verify_lease (x : reference_execution) (p : procedure_row) (l : SignedDispatchLease) (event : row)
(now : Z) : res unit :=
let normalized := normalized_of x in
match default (VDict []) (dict_get "command_fingerprint" normalized) with
| VDict fingerprint =>
  _ ← _require (py_eqb (get "credential_authority_sha256" fingerprint) (VStr (canonical_hash (rx_authority x))));
  references ← item "references" (rx_authority x);
  _ ← _require (py_eqb (get "credential_references" normalized) references);
  _ ← _require (py_eqb (optional_int (lc_approved_by_id (claims l))) (rx_approved_by_id x));
  correlation_id ← item "correlation_id" (rx_authority x);
  _ ← _require (py_eqb (VStr (trace_id (claims l))) correlation_id);
  public_keys ← load_verifier_public_keys config env;
  let to := py_str (py_or (default VNone (_plugin_setting config "dispatch_lease_audience")) (VStr DEFAULT_AUDIENCE)) in
  result ← verify_dispatch_lease l public_keys to now (lease_expectations x p fingerprint event);
  _require (match lv_status result with VALID => true | _ => false end)
| _ => Err AttributeError
end.

(** ** Authorization *)

Record SecretResolutionAuthorization := {
au_initiating_actor : actor;
au_executor_id : value;
au_execution_id : Z;
au_stream_version : Z;
au_target_model : string;
au_target_object : target_row;
au_reference : CredentialReferenceV1;
au_reference_name : string;
au_dispatch_nonce : string;
au_correlation_id : value;
au_approval_snapshot_hash : string;
au_reason : string;
au_provider_identity : value;
au_expires_at : timestamp;
au_procedure_id : Z;
au_backend_id : value;
au_approved_by_id : value;
}.

Definition check_authorization_permissions (db : database) (a : SecretResolutionAuthorization) : res unit :=
denied
  (executor ← get_by ac_pk (db_users db) (au_executor_id a);
   _ ← _require (ac_is_active executor && ac_is_authenticated executor);
   _fresh_execution_permissions db (VInt (ac_pk (au_initiating_actor a))) (au_approved_by_id a)
     (au_procedure_id a) (au_backend_id a) (au_target_model a) (tr_pk (au_target_object a))).

Definition check_authorization_lifetime (a : SecretResolutionAuthorization) (current : timestamp) : res unit :=
match au_expires_at a, current with
| Aware expires, Aware now => _require (now <? expires)
| _, _ => Err SecretResolutionDenied
end.

(** Pydantic's reading of the submitted lease. *)
Variable model_validate : dict -> option SignedDispatchLease.

Definition reference_of (references : value) (name : string) : res CredentialReferenceV1 :=
v ← item name references; from_mapping v.

(** The state of the database at each of the reads in order: the locked rows, the
permissions of the snapshot check, the approval, the final check; and the clock before
the verification and at the end. *)
Record moments := {
at_rows : database;
at_snapshot : database;
at_approval : database;
at_end : database;
now_verified : Z;
now_end : Z;
}.

Definition authorize (m : moments) (execution_pk : Z) (policy : res unit) (dispatch_lease : value)
(executor_pk : Z) (reference_name : string) (step_id : value) : res SecretResolutionAuthorization :=
_ ← _require (bool_decide (step_id = VNone) || bool_decide (step_id = VStr EmptyString));
x ← get_by rx_pk (db_executions (at_rows m)) (VInt execution_pk);
_ ← get_by ac_pk (db_users (at_rows m)) (rx_requested_by_id x);
_ ← (if truthy (rx_approved_by_id x)
     then _ ← get_by ac_pk (db_users (at_rows m)) (rx_approved_by_id x); Ok tt
     else Ok tt);
executor ← get_by ac_pk (db_users (at_rows m)) (VInt executor_pk);
_ ← _require (String.eqb (status (ex_cols (rx_row x))) (status_value RUNNING));
'(requester, p, b, t) ← _current_reference_snapshot (at_rows m) (at_snapshot m) x;
_ ← _require (ac_is_authenticated executor && ac_is_active executor);
_ ← _require (bool_decide (be_executor_identity_id b = Some (ac_pk executor)));
_ ← _require (negb (ac_pk executor =? ac_pk requester));
reference ← reference_of (rx_references x) reference_name;
submitted ← py_dict dispatch_lease;
lease ← (match model_validate submitted with Some l => Ok l | None => Err ValueError end);
_ ← _lease_times (claims lease) (now_verified m);
event ← _issuance_event x (claims lease);
_ ← _verify_lease x p lease event (now_verified m);
approval_hash ← _current_approval (at_approval m) x p policy (normalized_of x) None;
correlation_id ← item "correlation_id" (rx_authority x);
identities ← item "provider_identities" (rx_authority x);
identity ← item reference_name identities;
expires ← (match parse_timestamp (expires_at (claims lease)) with Some e => Ok e | None => Err ValueError end);
let a := {| au_initiating_actor := requester;
            au_executor_id := match be_executor_identity_id b with Some n => VInt n | None => VNone end;
            au_execution_id := rx_pk x; au_stream_version := stream_version (claims lease);
            au_target_model := tg_model_label (rx_target x); au_target_object := t;
            au_reference := reference; au_reference_name := reference_name;
            au_dispatch_nonce := nonce (claims lease); au_correlation_id := correlation_id;
            au_approval_snapshot_hash := approval_hash; au_reason := _reference_reason p reference;
            au_provider_identity := identity; au_expires_at := expires;
            au_procedure_id := rx_procedure_id x; au_backend_id := tg_backend_id (rx_target x);
            au_approved_by_id := rx_approved_by_id x |} in
_ ← check_authorization_permissions (at_end m) a;
_ ← check_authorization_lifetime a (Aware (now_end m));
Ok a.

Definition validate_secret_resolution_dispatch (m : moments) (execution_pk : Z) (policy : res unit)
(dispatch_lease : value) (executor_pk : Z) (reference_name : string) (step_id : value)
: res SecretResolutionAuthorization :=
denied (authorize m execution_pk policy dispatch_lease executor_pk reference_name step_id).
End Authority.
