(* ===== verification/CredentialAuthorityProperties.v ===== *)
(** * Properties of the credential authority

    What an authorization to reveal a credential establishes, the immutability of the
    stored references, the acceptance of a prepared request, and the guards of the
    authority inside a worker run. *)

From S2P Require Import Prelude PyValue Events Projection CredentialContract.
From S2P Require Import Spans SpanFacts MaskFacts PyRegex SecretPatterns TextRedaction.
From S2P Require Import ValueRedaction RedactionFacts SchemaLimits EventStore EventStoreFacts.
From S2P Require Import Response ResponseFacts Aggregate AggregateFacts StoreProperties AggregateProperties Protected Approvals ApprovalProperties Fence.
From S2P Require Import Codec Capabilities KeyFile JsonFacts Lease LeaseProperties Dispatch DispatchProperties.
From S2P Require Import Backends CredentialAuthority.

#[local] Opaque redact_event_value redact_event_data.

(** ** Permissions *)

Definition may (db : database) (actor_id : value) (procedure_id : Z) (action : string) (a : actor) : Prop :=
  get_by ac_pk (db_users db) actor_id = Ok a /\ ac_is_active a = true /\
  ac_has_perm a ("netbox_rpc." +:+ action +:+ "_rpcprocedure") = true /\
  exists_for pc_pk (db_procedures db) PROCEDURE_MODEL a action (VInt procedure_id) = true /\
  exists_for pc_pk (db_procedures db) PROCEDURE_MODEL a "view" (VInt procedure_id) = true.

(** The requester may execute the procedure on the backend and the target, and the
    approver, if there is one, may approve it for the target. *)
Definition permissions_hold (db : database) (requester_id approved_by_id : value) (procedure_id : Z)
    (backend_id : value) (model : string) (target_id : Z) : Prop :=
  exists a rows, may db requester_id procedure_id "execute" a /\
    exists_for be_pk (db_backends db) BACKEND_MODEL a "view" backend_id = true /\
    db_targets db model = Some rows /\ exists_for tr_pk rows model a "view" (VInt target_id) = true /\
    (approved_by_id = VNone \/
     exists b, may db approved_by_id procedure_id "approve" b /\
       exists_for tr_pk rows model b "view" (VInt target_id) = true).

Lemma allowed b u : _require b = Ok u <-> b = true.
Proof. apply require_Ok. Qed.
Lemma denied_Ok {A} (r : res A) a : denied r = Ok a <-> r = Ok a.
Proof. destruct r; naive_solver. Qed.

(** Take apart a chain of reads and requirements. *)
Ltac granted :=
  repeat match goal with
  | E : (_ ≫= _) = Ok _ |- _ => apply bind_Ok in E as (? & ? & ?)
  | E : _require _ = Ok _ |- _ => apply allowed in E
  | E : require _ _ = Ok _ |- _ => apply require_Ok in E
  | E : denied _ = Ok _ |- _ => apply denied_Ok in E
  | E : Err _ = Ok _ |- _ => discriminate E
  end.

(** Boolean equality tests as equations. *)
Ltac tests_inv :=
  repeat match goal with
  | E : (_ =? _)%Z = true |- _ => apply Z.eqb_eq in E
  | E : String.eqb _ _ = true |- _ => apply String.eqb_eq in E
  | E : (_ =? _)%Z = false |- _ => apply Z.eqb_neq in E
  end.

Lemma active_actor_ok user perm a :
  _active_actor user perm = Ok a <-> user = Some a /\ ac_is_active a = true /\ ac_has_perm a perm = true.
Proof.
  unfold _active_actor. destruct user as [b|]; [|naive_solver]. split.
  - intros. granted. naive_solver.
  - intros ([= ->] & -> & ->). reflexivity.
Qed.

Lemma fresh_actor_ok db id procedure_id action a :
  _fresh_rpc_actor db id procedure_id action = Ok a <-> may db id procedure_id action a.
Proof.
  unfold _fresh_rpc_actor, may. split.
  - intros. granted.
    match goal with E : _active_actor _ _ = _ |- _ => apply active_actor_ok in E as ([= ->] & ? & ?) end. naive_solver.
  - intros (Hu & Ha & Hp & Hx & Hv). rewrite Hu. cbn [mbind result_bind].
    replace (_active_actor (Some a) _) with (@Ok exn actor a) by (symmetry; by apply active_actor_ok).
    cbn [mbind result_bind]. rewrite Hx, Hv. reflexivity.
Qed.

Lemma fresh_permissions_ok db requester approver procedure_id backend_id model target_id u :
  _fresh_execution_permissions db requester approver procedure_id backend_id model target_id = Ok u <->
  permissions_hold db requester approver procedure_id backend_id model target_id.
Proof.
  unfold _fresh_execution_permissions, permissions_hold, target_rows. split.
  - intros. granted. destruct (db_targets db model) as [rows|]; [|done].
    match goal with E : _fresh_rpc_actor _ _ _ _ = Ok ?a |- _ => apply fresh_actor_ok in E; exists a end.
    exists rows. match goal with E : Ok rows = Ok _ |- _ => injection E as <- end. split_and!; try done.
    destruct approver; [by left|right; granted..];
      match goal with E : _fresh_rpc_actor _ _ _ "approve" = Ok ?b |- _ => apply fresh_actor_ok in E; by exists b end.
  - intros (a & rows & Hm & Hb & Ht & Hv & Happ). apply fresh_actor_ok in Hm as ->. cbn [mbind result_bind].
    rewrite Hb, Ht. cbn [_require require mbind result_bind]. rewrite Hv. cbn [mbind result_bind _require require].
    destruct u. destruct Happ as [->|(b & Hm & Hw)]; [done|]. apply fresh_actor_ok in Hm. rewrite Hm.
    cbn [mbind result_bind]. rewrite Hw. by destruct approver.
Qed.

Lemma viewable_ok {A} (key : A -> Z) rows model user v a :
  _viewable key rows model user v = Ok a ->
  get_by key rows v = Ok a /\ exists_for key rows model user "view" v = true.
Proof. unfold _viewable. intros. granted. done. Qed.

Lemma get_by_key {A} (key : A -> Z) rows v a : get_by key rows v = Ok a -> v = VInt (key a) /\ a ∈ rows.
Proof.
  unfold get_by, first_by. destruct v as [| |n| | | | | | | |]; try done.
  destruct (List.find _ rows) as [b|] eqn:E; [|done]. intros [= ->].
  apply find_some in E as [Hin E]. apply Z.eqb_eq in E. rewrite list_elem_of_In. by subst.
Qed.

(** ** The rows a reference is bound to *)

Record context_holds (db : database) (x : subject) (user : actor) (p : procedure_row) (b : backend_row)
    (t : target_row) : Prop := {
  ch_actor : ac_is_active user = true /\ ac_has_perm user "netbox_rpc.execute_rpcprocedure" = true;
  ch_procedure : p ∈ db_procedures db /\ pc_pk p = su_procedure_id x /\ pr_enabled (pc_base p) = true;
  ch_execute : exists_for pc_pk (db_procedures db) PROCEDURE_MODEL user "execute" (VInt (su_procedure_id x)) = true;
  ch_backend : b ∈ db_backends db /\ su_backend_id x = VInt (be_pk b) /\
    db_settings_enabled db = true /\ db_settings_backend_id db = Some (be_pk b);
  ch_executor : exists e, e ∈ db_users db /\ be_executor_identity_id b = Some (ac_pk e) /\ ac_is_active e = true;
  ch_target : exists rows, db_targets db (su_model_label x) = Some rows /\ t ∈ rows /\ tr_pk t = su_object_id x /\
    exists_for tr_pk rows (su_model_label x) user "view" (VInt (su_object_id x)) = true;
  ch_model : su_model_label x ∈ pc_target_models p;
}.

Lemma executor_ok db (id : option Z) o :
  related ac_pk (db_users db) (match id with Some n => if n =? 0 then VNone else VInt n | None => VNone end) = Ok o ->
  match o with Some e => ac_is_active e | None => false end = true ->
  exists e, o = Some e /\ e ∈ db_users db /\ id = Some (ac_pk e).
Proof.
  intros Hr Hact. destruct o as [e|]; [|done]. exists e. destruct id as [n|]; [|done].
  destruct (n =? 0); [done|]. cbn [related] in Hr. destruct (get_by _ _ _) as [e'|] eqn:Eg; [|done].
  injection Hr as ->. apply get_by_key in Eg as [[= ->] ?]. done.
Qed.

Lemma context_ok db x user u p b t :
  _reference_context db x user = Ok (u, p, b, t) -> user = Some u /\ context_holds db x u p b t.
Proof.
  unfold _reference_context. intros Hc. granted.
  repeat match goal with E : Ok _ = Ok _ |- _ => injection E as -> -> -> -> end.
  repeat match goal with
  | E : _viewable _ _ _ _ _ = Ok _ |- _ => apply viewable_ok in E as [E ?]; apply get_by_key in E as [? ?]
  | E : _active_actor _ _ = _ |- _ => apply active_actor_ok in E as (-> & ? & ?)
  end.
  assert (forall n m : Z, VInt n = VInt m -> n = m) as Hint by (by intros n m [= ->]).
  repeat match goal with E : VInt (_ x) = VInt _ |- _ => apply Hint in E end.
  bool_inv. split; [done|].
  match goal with E : target_rows _ _ = Ok ?r |- _ =>
    unfold target_rows in E; destruct (db_targets db (su_model_label x)) eqn:Et; [injection E as ->|done] end.
  split; try by split_and!.
  - match goal with E : _ = pc_pk p |- _ => by rewrite E end.
  - match goal with E : related _ _ _ = Ok ?o |- _ => apply executor_ok in E as (e & -> & ? & ?); [by exists e|done] end.
  - by eexists.
  - by apply (bool_decide_eq_true (su_model_label x ∈ pc_target_models p)).
Qed.

(** ** Named references *)

Section Authority.
Context `{PyLib} `{JsonSchema} `{ManifestLib} `{LeaseLib}.

Lemma named_loop_keeps entries acc d name :
  named_loop entries acc = Ok d -> name ∉ keys entries -> dict_get name d = dict_get name acc.
Proof.
  revert acc. induction entries as [|[k v] rest IH]; intros acc; cbn [named_loop]; [by intros [= ->]|].
  rewrite keys_cons, not_elem_of_cons. destruct (is_name k); [|done]. intros Hn [Hne Hni].
  apply bind_Ok in Hn as (r & _ & Hn). rewrite (IH _ Hn Hni). by apply dict_get_set_ne.
Qed.

Lemma named_loop_get entries acc d name v :
  named_loop entries acc = Ok d -> NoDup (keys entries) -> (name, v) ∈ entries ->
  exists r, from_mapping v = Ok r /\ dict_get name d = Some (VDict (to_mapping r)).
Proof.
  revert acc. induction entries as [|[k w] rest IH]; intros acc; cbn [named_loop]; [by intros _ _ ?%not_elem_of_nil|].
  rewrite keys_cons. destruct (is_name k); [|done]. intros Hn [Hni Hnd]%NoDup_cons [[= <- <-]|Hin]%elem_of_cons;
    apply bind_Ok in Hn as (r & Hr & Hn); [|by eapply IH].
  exists r. split; [done|]. rewrite (named_loop_keeps _ _ _ _ Hn Hni). apply dict_get_set_eq.
Qed.

(** The reference read by its name is the one that was validated. *)
Lemma named_reference references d name r :
  NoDup (keys references) -> validate_named_references (VDict references) = Ok d ->
  reference_of (VDict references) name = Ok r -> (name, VDict (to_mapping r)) ∈ d.
Proof.
  unfold validate_named_references, reference_of. intros Hnd Hv Hr. destruct (16 <? _); [done|].
  granted. cbn [item] in *. destruct (dict_get name references) as [v|] eqn:Eg; [|done].
  match goal with E : Ok v = Ok _ |- _ => injection E as <- end. apply dict_get_elem in Eg.
  destruct (named_loop_get _ _ _ _ _ Hv Hnd Eg) as (r' & Hr' & Hd).
  match goal with E : from_mapping v = Ok r |- _ => rewrite E in Hr'; injection Hr' as <- end. by apply dict_get_elem.
Qed.

Lemma snapshot_targets x u p b t current name r :
  _snapshot_payload x u p b t = Ok current ->
  (forall references, validate_named_references (su_references x) = Ok references ->
     (name, VDict (to_mapping r)) ∈ references) ->
  object_type (CredentialContract.target r) = su_model_label x /\ object_id (CredentialContract.target r) = tr_pk t.
Proof.
  unfold _snapshot_payload. intros Hs Hin. granted. specialize (Hin _ ltac:(eassumption)).
  match goal with E : forallb _ _ = true |- _ => rewrite forallb_forall in E; specialize (E (name, VDict (to_mapping r)));
    rewrite <- list_elem_of_In in E; specialize (E Hin) end.
  cbn [snd get_of] in *. unfold py_eqb in *. bool_inv. destruct r as [? ? ? ? [ot oid] ? ? ?].
  match goal with E : py_eq _ _ |- _ => vm_compute in E; by injection E as -> -> end.
Qed.

(** ** The snapshot is current *)

Definition identity_binds (identity : dict) (x : subject) (t : target_row) (r : CredentialReferenceV1) : Prop :=
  py_eq (get "target" identity) (VDict (target_reference x t)) /\
  match assignment_id r with
  | Some n => py_eq (VInt n) (get "assignment_id" identity)
  | None => forall id, credential_uuid r = Some id -> py_eq (VStr id) (get "credential_uuid" identity)
  end.

Record snapshot_holds (db later : database) (x : reference_execution) (user : actor) (p : procedure_row)
    (b : backend_row) (t : target_row) : Prop := {
  sh_requester : rx_requested_by_id x = VInt (ac_pk user) /\ user ∈ db_users db;
  sh_context : context_holds db (subject_of x) user p b t;
  sh_current : exists authority current, py_dict (rx_authority x) = Ok authority /\
    _snapshot_payload (subject_of x) user p b t = Ok current /\
    py_eq (VDict (saved_snapshot authority)) (VDict current);
  sh_permissions : permissions_hold later (rx_requested_by_id x) (rx_approved_by_id x) (rx_procedure_id x)
    (tg_backend_id (rx_target x)) (tg_model_label (rx_target x)) (tg_id (rx_target x));
}.

Lemma related_ok db v (u : actor) :
  related ac_pk (db_users db) v = Ok (Some u) -> v = VInt (ac_pk u) /\ u ∈ db_users db.
Proof.
  unfold related. destruct v as [| |n| | | | | | | |]; try done.
  destruct (get_by _ _ _) as [a|] eqn:E; [|done]. intros [= ->]. by apply get_by_key in E.
Qed.

Lemma identities_ok references identities name v :
  identities_current references identities = Ok tt -> (name, v) ∈ references ->
  exists r d, from_mapping v = Ok r /\ _validated_provider_identity (get name identities) r = Ok d.
Proof.
  induction references as [|[k w] rest IH]; cbn [identities_current]; [by intros _ ?%not_elem_of_nil|].
  intros Hc [[= <- <-]|Hin]%elem_of_cons; granted; [|by apply IH].
  eexists _, _. split; eassumption.
Qed.

Lemma snapshot_references x u p b t current :
  _snapshot_payload x u p b t = Ok current ->
  exists references, validate_named_references (su_references x) = Ok references /\
    get "references" current = VDict references.
Proof.
  unfold _snapshot_payload. intros Hs. apply bind_Ok in Hs as (references & Hr & Hs).
  apply bind_Ok in Hs as (? & _ & [= <-]). by exists references.
Qed.

Lemma saved_snapshot_ok db later x user p b t :
  _current_reference_snapshot db later x = Ok (user, p, b, t) ->
  snapshot_holds db later x user p b t /\
  exists authority references identities, py_dict (rx_authority x) = Ok authority /\
    validate_named_references (rx_references x) = Ok references /\
    get "provider_identities" authority = VDict identities /\ identities_current references identities = Ok tt.
Proof.
  unfold _current_reference_snapshot. intros Hc. apply bind_Ok in Hc as (requester & Hr & Hc).
  apply bind_Ok in Hc as ([[[user' p'] b'] t'] & Hx & Hc). apply context_ok in Hx as [-> Hx].
  granted. match goal with E : Ok _ = Ok _ |- _ => injection E as -> -> -> -> end.
  match goal with E : _check_execution_permissions _ _ = Ok _ |- _ => apply fresh_permissions_ok in E end.
  apply related_ok in Hr. unfold py_eqb in *. bool_inv.
  match goal with E : _snapshot_payload _ _ _ _ _ = Ok ?c |- _ => rename c into current; rename E into Hpay end.
  match goal with E : py_dict _ = Ok ?c |- _ => rename c into authority; rename E into Hdict end.
  split; [split; try done; by exists authority, current|].
  destruct (snapshot_references _ _ _ _ _ _ Hpay) as (references & Hrefs & Hget).
  rewrite Hget in *. cbn [dict_of_value] in *. exists authority, references.
  match goal with E : match get "provider_identities" authority with _ => _ end = Ok ?d |- _ =>
    exists d; destruct (get "provider_identities" authority); try done; apply bind_Ok in E as (? & _ & [= ->]) end.
  match goal with E : identities_current _ _ = Ok ?v |- _ => by destruct v end.
Qed.

Lemma reparsed r r' : from_mapping (VDict (to_mapping r)) = Ok r' -> reference_ok r -> to_mapping r' = to_mapping r.
Proof.
  unfold from_mapping. intros Hr Hok. destruct (checked_reference _) as [r0|[]] eqn:E; try done.
  injection Hr as <-. pose proof E as E'. apply checked_reference_ok in E' as (_ & Hv & _).
  destruct (checked_reference_to_mapping r Hok Hv) as (r1 & Hr1 & Heq). congruence.
Qed.

Lemma same_mapping r r' :
  to_mapping r' = to_mapping r ->
  CredentialContract.target r' = CredentialContract.target r /\ assignment_id r' = assignment_id r /\
  (assignment_id r = None -> forall id, credential_uuid r = Some id -> credential_uuid r' = Some id).
Proof.
  destruct r as [sv pr [a|] [u|] [ot oid] pu fs [po num]], r' as [sv' pr' [a'|] [u'|] [ot' oid'] pu' fs' [po' num']];
    unfold to_mapping; cbn; intros E; injection E; intros; subst; try done; split_and!; congruence.
Qed.

Lemma identity_ok v r r' d x t :
  _validated_provider_identity v r' = Ok d -> to_mapping r' = to_mapping r ->
  object_type (CredentialContract.target r) = su_model_label x /\ object_id (CredentialContract.target r) = tr_pk t ->
  v = VDict d /\ identity_binds d x t r.
Proof.
  unfold _validated_provider_identity. intros Hv Hm [Ht Ho]. destruct v as [| | | | | | | | | |d']; try done.
  granted. match goal with E : Ok _ = Ok _ |- _ => injection E as -> end. split; [done|]. unfold py_eqb in *. bool_inv.
  pose proof (same_mapping _ _ Hm) as (Htar & Ha & Hu). unfold identity_binds, target_reference. split.
  - match goal with E : py_eq (get "target" d) _ |- _ => rewrite E end. cbn [get to_mapping dict_get].
    unfold get. cbn. by rewrite Htar, Ht, Ho.
  - rewrite Ha in *. destruct (assignment_id r) as [n|]; [by bool_inv|]. intros id Hid. rewrite (Hu eq_refl _ Hid) in *. by bool_inv.
Qed.

(** ** An authorization is justified *)

(** The submitted lease is signed by a known key for exactly this execution, procedure,
    parameters, credentials and people, and lives at most five minutes around [now]. *)
Record lease_holds (config : option dict) (env : environment) (x : reference_execution) (p : procedure_row)
    (l : SignedDispatchLease) (now : Z) : Prop := {
  lh_bound : exists keys to fingerprint event, load_verifier_public_keys config env = Ok keys /\
    default (VDict []) (dict_get "command_fingerprint" (normalized_of x)) = VDict fingerprint /\
    event ∈ ex_events (rx_row x) /\ row_event event = "DispatchLeaseIssued" /\
    py_eq (VDict (row_data event)) (VDict (issuance_data (claims l))) /\
    row_sequence event = stream_version (claims l) + 1 /\
    lease_binds l keys to now (lease_expectations x p fingerprint event);
  lh_last : Forall (fun r => row_sequence r <= stream_version (claims l) + 1) (ex_events (rx_row x));
  lh_normalized : exists r, r ∈ ex_events (rx_row x) /\ row_sequence r = stream_version (claims l) /\
    row_event r = "ParametersNormalized";
  lh_lifetime : exists issued expires, parse_timestamp (issued_at (claims l)) = Some (Aware issued) /\
    parse_timestamp (expires_at (claims l)) = Some (Aware expires) /\
    issued <= now < expires /\ expires - issued <= 300 * 1000000;
}.

Lemma lease_times_ok c now u :
  _lease_times c now = Ok u ->
  exists issued expires, parse_timestamp (issued_at c) = Some (Aware issued) /\
    parse_timestamp (expires_at c) = Some (Aware expires) /\ issued <= now < expires /\ expires - issued <= 300 * 1000000.
Proof.
  unfold _lease_times. destruct (parse_timestamp (issued_at c)) as [[i|]|]; try done.
  destruct (parse_timestamp (expires_at c)) as [[e|]|]; try done. intros. granted. bool_inv.
  exists i, e. unfold MAX_REFERENCE_LEASE_SECONDS in *. split_and!; done.
Qed.

Lemma sorted_elem r l : In r (merge_sort sequence_le l) <-> r ∈ l.
Proof. by rewrite <- list_elem_of_In, merge_sort_Permutation. Qed.

Lemma issuance_ok x c event :
  _issuance_event x c = Ok event ->
  event ∈ ex_events (rx_row x) /\ row_event event = "DispatchLeaseIssued" /\
  py_eq (VDict (row_data event)) (VDict (issuance_data c)) /\ row_sequence event = stream_version c + 1 /\
  Forall (fun r => row_sequence r <= stream_version c + 1) (ex_events (rx_row x)) /\
  exists r, r ∈ ex_events (rx_row x) /\ row_sequence r = stream_version c /\ row_event r = "ParametersNormalized".
Proof.
  unfold _issuance_event. cbv zeta. destruct (List.find _ _) as [e|] eqn:Ef; [|done].
  intros. granted. match goal with E : Ok _ = Ok _ |- _ => injection E as -> end.
  apply find_some in Ef as [Hin Ef]. apply sorted_elem in Hin.
  match goal with E : existsb _ _ = true |- _ => apply existsb_exists in E as (r & Hr & Hnorm) end.
  apply sorted_elem in Hr. unfold py_eqb in *. bool_inv. tests_inv. split_and!; try done; [|by exists r].
  apply Forall_forall. intros r' Hin'. apply Z.le_ngt. intros Hlt.
  match goal with E : existsb ?f ?l = false |- _ => assert (existsb f l = true) as E'; [|congruence] end.
  apply existsb_exists. exists r'. split; [by apply sorted_elem|]. apply Z.ltb_lt. lia.
Qed.

Lemma verify_ok config env x p l event now u :
  _verify_lease config env x p l event now = Ok u ->
  exists keys to fingerprint, load_verifier_public_keys config env = Ok keys /\
    default (VDict []) (dict_get "command_fingerprint" (normalized_of x)) = VDict fingerprint /\
    lease_binds l keys to now (lease_expectations x p fingerprint event).
Proof.
  unfold _verify_lease. cbv zeta. intros Hv.
  destruct (default (VDict []) _) as [| | | | | | | | | |fingerprint]; try done. granted.
  match goal with E : verify_dispatch_lease _ ?ks ?to _ _ = Ok ?v |- _ =>
    exists ks, to, fingerprint; split; [done|]; split; [done|]; apply verify_spec; exists v; split; [done|] end.
  match goal with E : match lv_status ?v with _ => _ end = true |- _ => by destruct (lv_status v) end.
Qed.

(** Either the procedure needs no approval and none was given, or it is protected and
    its stored snapshot matches what would be approved now. *)
Definition approval_holds (db : database) (x : reference_execution) (p : procedure_row) (policy : res unit)
    (normalized : dict) (t : option backend_target) (hash : string) : Prop :=
  (pc_approval_required p = false /\ pr_effect (pc_base p) <> "destructive" /\ rx_approved_by_id x = VNone /\
   hash = EmptyString) \/
  (protected (pr_name (pc_base p)) = true /\ exists approver sn bt,
     rx_approved_by_id x = VInt (ac_pk approver) /\ approver ∈ db_users db /\
     (rx_approved_by_id x <> rx_requested_by_id x \/ ac_is_superuser approver = true) /\
     ac_is_active approver = true /\ ac_has_perm approver "netbox_rpc.approve_rpcprocedure" = true /\
     ac_restrict approver PROCEDURE_MODEL "approve" (pc_pk p) = true /\
     rx_approval_request x = Some sn /\ hash = payload_hash sn /\
     (forall given, t = Some given -> bt = Some given) /\
     recheck_approval policy (ac_is_superuser approver) (Some sn) (pc_base p) (rx_target x) (rx_row x) normalized bt
     = Ok tt).

Lemma current_approval_ok resolve db x p policy normalized t hash :
  _current_approval resolve db x p policy normalized t = Ok hash ->
  approval_holds db x p policy normalized t hash.
Proof.
  unfold _current_approval, approval_holds. intros Ha.
  destruct (negb (pc_approval_required p) && negb (String.eqb (pr_effect (pc_base p)) "destructive")) eqn:En.
  - left. bool_inv. granted. bool_inv. match goal with E : Ok _ = Ok hash |- _ => injection E as <- end. split_and!; try done.
    by apply String.eqb_neq.
  - right. clear En. unfold _require_protected_procedure_scope in Ha. granted.
    match goal with E : related _ _ _ = Ok ?o |- _ => rename o into who; rename E into Hrel end.
    destruct who as [approver|]; [|done]. apply related_ok in Hrel as [Happ Hin].
    match goal with E : _active_actor _ _ = _ |- _ => apply active_actor_ok in E as ([= <-] & ? & ?) end.
    destruct (rx_approval_request x) as [sn|]; [|done].
    match goal with E : recheck_approval _ _ _ _ _ _ _ ?b = Ok ?v |- _ => destruct v; rename b into bt end.
    match goal with E : Ok _ = Ok hash |- _ => injection E as <- end.
    split; [done|]. exists approver, sn, bt. split_and!; try done.
    + match goal with E : _ || _ = true |- _ => apply orb_true_iff in E as [E|E] end; bool_inv; auto.
    + intros given ->. match goal with E : _approval_backend_target _ _ _ = _ |- _ => by injection E as <- end.
Qed.

(** What is known when the requested credential may be revealed: [x] is the stored
    execution, [user] its requester, [p], [b] and [t] the rows it is bound to. *)
Record authorization_holds (config : option dict) (env : environment)
    (resolve : value -> res (option BackendTarget)) (m : moments) (policy : res unit) (execution_pk executor_pk : Z)
    (name : string) (x : reference_execution) (user : actor) (p : procedure_row) (b : backend_row) (t : target_row)
    (l : SignedDispatchLease) (a : SecretResolutionAuthorization) : Prop := {
  ah_running : x ∈ db_executions (at_rows m) /\ rx_pk x = execution_pk /\
    status (ex_cols (rx_row x)) = status_value RUNNING;
  ah_executor : be_executor_identity_id b = Some executor_pk /\ executor_pk <> ac_pk user /\
    exists e, e ∈ db_users (at_rows m) /\ ac_pk e = executor_pk /\ ac_is_active e = true /\ ac_is_authenticated e = true;
  ah_snapshot : snapshot_holds (at_rows m) (at_snapshot m) x user p b t;
  ah_reference : reference_of (rx_references x) name = Ok (au_reference a) /\
    object_type (CredentialContract.target (au_reference a)) = tg_model_label (rx_target x) /\
    object_id (CredentialContract.target (au_reference a)) = tg_id (rx_target x);
  ah_identity : exists identity, au_provider_identity a = VDict identity /\
    identity_binds identity (subject_of x) t (au_reference a);
  ah_lease : lease_holds config env x p l (now_verified m) /\ au_dispatch_nonce a = nonce (claims l);
  ah_approval : approval_holds (at_approval m) x p policy (normalized_of x) None (au_approval_snapshot_hash a);
  ah_end : permissions_hold (at_end m) (VInt (ac_pk user)) (rx_approved_by_id x) (rx_procedure_id x)
      (tg_backend_id (rx_target x)) (tg_model_label (rx_target x)) (tg_id (rx_target x)) /\
    exists expires, au_expires_at a = Aware expires /\ now_end m < expires;
}.

Lemma lifetime_ok a now u :
  check_authorization_lifetime a (Aware now) = Ok u -> exists expires, au_expires_at a = Aware expires /\ now < expires.
Proof.
  unfold check_authorization_lifetime. destruct (au_expires_at a) as [e|e]; [|done]. intros. granted. bool_inv. by exists e.
Qed.

(** The reference is found by its name in the validated mapping of the snapshot. *)
Lemma reference_ok_of v name r : reference_of v name = Ok r -> reference_ok r.
Proof.
  unfold reference_of. intros. granted. unfold from_mapping in *.
  destruct (checked_reference _) as [r0|[]] eqn:E; try done.
  match goal with Er : Ok r0 = Ok r |- _ => injection Er as <- end. by apply checked_reference_ok in E as (? & _).
Qed.

Definition distinct_names (v : value) : Prop := forall d, v = VDict d -> NoDup (keys d).

Lemma reference_bound db later x user p b t name r v identities :
  _current_reference_snapshot db later x = Ok (user, p, b, t) -> distinct_names (rx_references x) ->
  is_dict (rx_authority x) = true ->
  reference_of (rx_references x) name = Ok r ->
  item "provider_identities" (rx_authority x) = Ok identities -> item name identities = Ok v ->
  (object_type (CredentialContract.target r) = tg_model_label (rx_target x) /\
   object_id (CredentialContract.target r) = tr_pk t) /\
  exists identity, v = VDict identity /\ identity_binds identity (subject_of x) t r.
Proof.
  intros Hs Hnd Hdict Href Hid Hv. pose proof (reference_ok_of _ _ _ Href) as Hok.
  apply saved_snapshot_ok in Hs as [Hs (authority & references & ids & Ha & Hr & Hg & Hcur)].
  destruct (rx_authority x) as [| | | | | | | | | |d]; try done. injection Ha as ->.
  unfold get in Hg. cbn [item] in Hid. destruct (dict_get "provider_identities" authority) as [w|]; [|done].
  injection Hid as ->. cbn [from_option id] in Hg. cbv [default] in Hg. subst identities.
  assert ((name, VDict (to_mapping r)) ∈ references) as Hin.
  { destruct (rx_references x) as [| | | | | | | | | |refs]; try done. eapply named_reference; eauto. }
  destruct Hs as [_ _ (authority' & current & _ & Hpay & _) _].
  assert (object_type (CredentialContract.target r) = tg_model_label (rx_target x) /\
          object_id (CredentialContract.target r) = tr_pk t) as Ht.
  { eapply (snapshot_targets (subject_of x)); [exact Hpay|]. intros references' Hr'.
    change (su_references (subject_of x)) with (rx_references x) in Hr'. rewrite Hr in Hr'. by injection Hr' as <-. }
  split; [exact Ht|]. destruct (identities_ok _ _ _ _ Hcur Hin) as (r' & d & Hr' & Hval).
  unfold get in Hval. cbn [item] in Hv. destruct (dict_get name ids) as [w|]; [|done]. injection Hv as ->.
  exists d. eapply identity_ok; [exact Hval|by apply reparsed|exact Ht].
Qed.

(** C6: A credential is released only to the right executor for a live, authorized
    dispatch.  If the authority grants the request, the stored execution is running; the
    caller is the active identity bound to the backend and not the requester; the frozen
    snapshot equals what the current rows give; the named reference and the provider's
    identity are for the execution's own target; the presented lease verifies for this
    execution, was issued as the last event right after the parameters were normalized,
    and lives at most five minutes; the approval is current; and the requester and the
    approver still have their permissions at the last read, before the lease expires. *)
Theorem authorization_is_justified config env resolve model_validate m pk policy lease executor_pk name step a :
  Forall (fun x => distinct_names (rx_references x)) (db_executions (at_rows m)) ->
  validate_secret_resolution_dispatch config env resolve model_validate m pk policy lease executor_pk name step
    = Ok a ->
  exists x user p b t l,
    authorization_holds config env resolve m policy pk executor_pk name x user p b t l a.
Proof.
  intros Hnames Hv. unfold validate_secret_resolution_dispatch in Hv. apply (proj1 (denied_Ok _ _)) in Hv. unfold authorize in Hv.
  apply bind_Ok in Hv as (u1 & _ & Hv). apply bind_Ok in Hv as (x & Hx & Hv). apply bind_Ok in Hv as (u2 & _ & Hv).
  apply bind_Ok in Hv as (u3 & _ & Hv). apply bind_Ok in Hv as (e & He & Hv). apply bind_Ok in Hv as (u4 & Hrun & Hv).
  apply bind_Ok in Hv as ([[[user p] b] t] & Hs & Hv). apply bind_Ok in Hv as (u5 & Hact & Hv).
  apply bind_Ok in Hv as (u6 & Hbe & Hv). apply bind_Ok in Hv as (u7 & Hne & Hv).
  apply bind_Ok in Hv as (r & Href & Hv). apply bind_Ok in Hv as (submitted & _ & Hv).
  apply bind_Ok in Hv as (l & _ & Hv). apply bind_Ok in Hv as (u8 & Htimes & Hv).
  apply bind_Ok in Hv as (event & Hev & Hv). apply bind_Ok in Hv as (u9 & Hver & Hv).
  apply bind_Ok in Hv as (hash & Happ & Hv). apply bind_Ok in Hv as (correlation & Hcor & Hv).
  apply bind_Ok in Hv as (identities & Hids & Hv). apply bind_Ok in Hv as (identity & Hident & Hv).
  apply bind_Ok in Hv as (expires & Hexp & Hv). apply bind_Ok in Hv as (u10 & Hperm & Hv).
  apply bind_Ok in Hv as (u11 & Hlife & Hv). injection Hv as <-.
  apply get_by_key in Hx as [[= ->] Hx], He as [[= ->] He].
  pose proof Hs as Hs'. apply saved_snapshot_ok in Hs' as [Hsnap _].
  unfold check_authorization_permissions in Hperm. apply (proj1 (denied_Ok _ _)) in Hperm.
  apply bind_Ok in Hperm as (e' & _ & Hperm). apply bind_Ok in Hperm as (u12 & _ & Hperm).
  apply fresh_permissions_ok in Hperm. apply lifetime_ok in Hlife.
  assert (is_dict (rx_authority x) = true) as Hdict by (by destruct (rx_authority x)).
  rewrite Forall_forall in Hnames.
  destruct (reference_bound _ _ _ _ _ _ _ _ _ _ _ Hs (Hnames x Hx) Hdict Href Hids Hident) as [[Hty Hid] Hbind].
  pose proof (ch_target _ _ _ _ _ _ (sh_context _ _ _ _ _ _ _ Hsnap)) as (rows & _ & _ & Hpk & _).
  cbn [subject_of su_object_id] in Hpk.
  apply allowed in Hrun, Hact, Hbe, Hne. bool_inv. tests_inv.
  exists x, user, p, b, t, l. split.
  - done.
  - split; [done|]. split; [done|]. by exists e.
  - exact Hsnap.
  - cbn [au_reference]. split; [done|]. split; [done|congruence].
  - exact Hbind.
  - split; [|done]. apply issuance_ok in Hev as (Hin & Hname & Hdata & Hseq & Hlast & Hnorm).
    apply verify_ok in Hver as (ks & to & fp & Hks & Hfp & Hb). split.
    + exists ks, to, fp, event. split_and!; done.
    + exact Hlast.
    + exact Hnorm.
    + by apply lease_times_ok in Htimes.
  - by apply current_approval_ok in Happ.
  - cbn [au_initiating_actor au_approved_by_id au_procedure_id au_backend_id au_target_model au_target_object] in Hperm.
    rewrite Hpk in Hperm. done.
Qed.

(** ** The columns never change *)

(** A model save of an existing row that passes the check. *)
Inductive save_step : value * value -> value * value -> Prop :=
| Saved r a r' a' :
    validate_immutable_reference_fields r' a' false (Some (r, a)) = Ok tt -> save_step (r, a) (r', a').

Definition columns_agree (r a : value) : Prop :=
  truthy r = true -> exists named, validate_named_references r = Ok named /\ py_eq (get_of "references" a) (VDict named).

Lemma fields_checked r a adding original :
  validate_immutable_reference_fields r a adding original = Ok tt -> columns_agree r a.
Proof.
  unfold validate_immutable_reference_fields, columns_agree. intros Hv Ht. rewrite Ht in Hv.
  apply bind_Ok in Hv as (u & Hv & _). destruct (_ ≫= _) as [w|] eqn:E; [|by destruct (_ || _)].
  apply bind_Ok in E as (named & Hn & E). apply bind_Ok in E as (saved & Hs & E). apply allowed in E.
  unfold py_eqb in E. bool_inv. exists named. split; [done|]. destruct a; try done. injection Hs as <-.
  cbn [get_of]. by symmetry.
Qed.

(** However often an execution is saved after its insert, its credential references
    and its frozen authority stay what they were inserted as, the references stay valid
    and equal to those in the authority, and an execution inserted without references
    has no authority. *)
Theorem references_immutable r a r' a' :
  validate_immutable_reference_fields r a true None = Ok tt -> rtc save_step (r, a) (r', a') ->
  py_eq r' r /\ py_eq a' a /\ columns_agree r' a' /\ truthy r = truthy a.
Proof.
  intros Hi Hr.
  assert (truthy r = truthy a) as Ht.
  { unfold validate_immutable_reference_fields in Hi. apply bind_Ok in Hi as (u & _ & Hi). apply allowed in Hi.
    by apply eqb_prop. }
  assert (forall c c', rtc save_step c c' -> columns_agree c.1 c.2 ->
            py_eq c'.1 c.1 /\ py_eq c'.2 c.2 /\ columns_agree c'.1 c'.2) as Hinv.
  { clear. induction 1 as [c|c1 c2 c3 Hs _ IH]; [done|]. intros _. destruct Hs as [r a r' a' Hv].
    pose proof (fields_checked _ _ _ _ Hv) as Hc. destruct (IH Hc) as (Hr & Ha & Hk). cbn [fst snd] in *.
    unfold validate_immutable_reference_fields in Hv. apply bind_Ok in Hv as (u & _ & Hv). apply require_Ok in Hv.
    unfold py_eqb in Hv. bool_inv. split; [|split; [|done]]; by etransitivity; [|symmetry]. }
  apply Hinv in Hr as (? & ? & ?); [done|]. by eapply fields_checked.
Qed.

(** ** A prepared request is current *)

Lemma named_loop_stable entries acc :
  Forall (fun e => is_name e.1 = true /\ exists r, from_mapping e.2 = Ok r /\ VDict (to_mapping r) = e.2) entries ->
  NoDup (keys acc ++ keys entries) -> named_loop entries acc = Ok (acc ++ entries).
Proof.
  intros Hf. revert acc. induction Hf as [|[k v] rest (Hn & r & Hr & Hv) _ IH]; intros acc Hnd; cbn [named_loop fst snd] in *.
  { by rewrite app_nil_r. }
  rewrite Hn, Hr. cbn [mbind result_bind]. rewrite Hv. rewrite keys_cons in Hnd.
  assert (dict_set k v acc = acc ++ [(k, v)]) as ->.
  { apply NoDup_app in Hnd as (_ & Hd & _). assert (k ∉ keys acc) as Hni by (intros Hin; apply (Hd k Hin); left).
    clear -Hni. induction acc as [|[k' v'] acc IH]; [done|]. rewrite keys_cons, not_elem_of_cons in Hni. cbn.
    destruct (String.eqb_spec k' k); [naive_solver|]. by rewrite IH by apply Hni. }
  rewrite IH; [by rewrite <- app_assoc|].
  unfold keys in *. by rewrite fmap_app, <- app_assoc.
Qed.

Lemma named_loop_NoDup entries acc d : named_loop entries acc = Ok d -> NoDup (keys acc) -> NoDup (keys d).
Proof.
  revert acc. induction entries as [|[k v] rest IH]; intros acc; cbn [named_loop]; [by intros [= ->]|].
  destruct (is_name k); [|done]. intros Hn Hnd. apply bind_Ok in Hn as (r & _ & Hn). eapply IH; [exact Hn|].
  by apply NoDup_keys_set.
Qed.

(** The normal form of named references is stable. *)
Lemma named_references_stable v d :
  validate_named_references v = Ok d ->
  Forall (fun e => json_valid (VDict _REFERENCE_SCHEMA) e.2 = true) d ->
  validate_named_references (VDict d) = Ok d.
Proof.
  intros Hv Hj. pose proof (named_references_closed v d Hv) as [Hlen Hpub].
  assert (NoDup (keys d)) as Hnd.
  { unfold validate_named_references in Hv. destruct v; try done. destruct (16 <? _); [done|].
    eapply named_loop_NoDup; [exact Hv|constructor]. }
  unfold validate_named_references. replace (16 <? Z.of_nat (length d)) with false by (symmetry; apply Z.ltb_ge; lia).
  rewrite (named_loop_stable d []); [done| |done].
  rewrite !Forall_forall in *. intros [k v'] Hin. destruct (Hpub _ Hin) as (Hn & r & Hr & Hok & _). split; [done|].
  specialize (Hj _ Hin). cbn [snd] in *. subst v'.
  destruct (checked_reference_to_mapping r Hok Hj) as (r' & Hr' & Heq). exists r'. unfold from_mapping. by rewrite Hr', Heq.
Qed.

Lemma validated_is v r d : _validated_provider_identity v r = Ok d -> v = VDict d.
Proof. unfold _validated_provider_identity. destruct v; try done. intros. granted. congruence. Qed.

Lemma capture_keeps capture user t p references acc d name :
  capture_loop capture user t p references acc = Ok d -> name ∉ keys references -> dict_get name d = dict_get name acc.
Proof.
  revert acc. induction references as [|[k v] rest IH]; intros acc; cbn [capture_loop]; [by intros [= ->]|].
  rewrite keys_cons, not_elem_of_cons. intros Hc [Hne Hni].
  apply bind_Ok in Hc as (r & _ & Hc). apply bind_Ok in Hc as (i & _ & Hc). apply bind_Ok in Hc as (j & _ & Hc).
  rewrite (IH _ Hc Hni). by apply dict_get_set_ne.
Qed.

Lemma capture_keys capture user t p references acc d :
  capture_loop capture user t p references acc = Ok d ->
  forall k, k ∈ keys d <-> k ∈ keys acc \/ k ∈ keys references.
Proof.
  revert acc. induction references as [|[k v] rest IH]; intros acc; cbn [capture_loop].
  { intros [= ->] k. split; [auto|]. by intros [?|?%not_elem_of_nil]. }
  intros Hc k'. apply bind_Ok in Hc as (r & _ & Hc). apply bind_Ok in Hc as (i & _ & Hc).
  apply bind_Ok in Hc as (j & _ & Hc). rewrite (IH _ Hc), keys_set, keys_cons. unfold dict_mem.
  case_bool_decide; set_solver.
Qed.

Lemma capture_current capture user t p references acc d :
  capture_loop capture user t p references acc = Ok d -> NoDup (keys references) ->
  identities_current references d = Ok tt.
Proof.
  revert acc. induction references as [|[k v] rest IH]; intros acc; cbn [capture_loop identities_current]; [done|].
  rewrite keys_cons. intros Hc [Hni Hnd]%NoDup_cons.
  apply bind_Ok in Hc as (r & Hr & Hc). apply bind_Ok in Hc as (i & _ & Hc). apply bind_Ok in Hc as (j & Hj & Hc).
  rewrite Hr. cbn [mbind result_bind]. unfold get. rewrite (capture_keeps _ _ _ _ _ _ _ _ Hc Hni), dict_get_set_eq.
  cbn [from_option id]. pose proof (validated_is _ _ _ Hj) as ->. rewrite Hj. cbn [mbind result_bind]. eapply IH; eauto.
Qed.

Lemma same_keys_iff d names : (forall k, k ∈ keys d <-> k ∈ names) -> same_keys d names = true.
Proof.
  intros Hk. unfold same_keys. apply andb_true_iff. split; apply forallb_forall; intros k Hin%list_elem_of_In;
    by apply bool_decide_eq_true, Hk.
Qed.

(** The request as it is stored: an execution of the same subject with the two columns. *)
Definition stored_request (x : subject) (user : actor) (references authority : dict) (y : reference_execution) : Prop :=
  rx_procedure_id y = su_procedure_id x /\ tg_backend_id (rx_target y) = su_backend_id x /\
  tg_model_label (rx_target y) = su_model_label x /\ tg_id (rx_target y) = su_object_id x /\
  ex_params (rx_row y) = su_params x /\ rx_requested_by_id y = VInt (ac_pk user) /\ rx_approved_by_id y = VNone /\
  rx_references y = VDict references /\ rx_authority y = VDict authority.

Lemma context_references db x x' user :
  su_procedure_id x = su_procedure_id x' -> su_backend_id x = su_backend_id x' ->
  su_model_label x = su_model_label x' -> su_object_id x = su_object_id x' ->
  _reference_context db x user = _reference_context db x' user.
Proof. unfold _reference_context. by intros -> -> -> ->. Qed.

(** What preparing stores, split into its parts. *)
Lemma prepare_inv capture db later x user correlation_id references authority :
  prepare_reference_execution capture db later x user correlation_id = Ok (Some (references, authority)) ->
  exists x' p b t snapshot identities capture', validate_named_references (su_references x) = Ok references /\
    x' = {| su_procedure_id := su_procedure_id x; su_backend_id := su_backend_id x; su_references := VDict references;
            su_model_label := su_model_label x; su_object_id := su_object_id x; su_params := su_params x |} /\
    _reference_context db x' (Some user) = Ok (user, p, b, t) /\ _snapshot_payload x' user p b t = Ok snapshot /\
    capture_loop capture' user t p references [] = Ok identities /\
    permissions_hold later (VInt (ac_pk user)) VNone (su_procedure_id x) (su_backend_id x) (su_model_label x) (tr_pk t) /\
    authority = dict_set "provider_identities" (VDict identities)
                  (dict_set "correlation_id" (VStr correlation_id) snapshot).
Proof.
  unfold prepare_reference_execution. destruct (negb _); [done|]. intros Hp.
  apply bind_Ok in Hp as (refs & Hrefs & Hp). cbv zeta in Hp. apply bind_Ok in Hp as ([[[u p] b] t] & Hx & Hp).
  apply bind_Ok in Hp as (snapshot & Hs & Hp). apply bind_Ok in Hp as (ids & Hc & Hp).
  apply bind_Ok in Hp as (u' & Hf & Hp). injection Hp as <- <-. unfold _capture_provider_identities in Hc.
  apply (proj1 (denied_Ok _ _)) in Hc. destruct capture as [capture'|]; [|done]. apply fresh_permissions_ok in Hf.
  pose proof (context_ok _ _ _ _ _ _ _ Hx) as [[= ->] _].
  eexists _, p, b, t, snapshot, ids, capture'. split_and!; try reflexivity; done.
Qed.

Lemma snapshot_read x u p b t current c ids :
  _snapshot_payload x u p b t = Ok current ->
  let authority := dict_set "provider_identities" (VDict ids) (dict_set "correlation_id" (VStr c) current) in
  saved_snapshot authority = current /\ get "references" authority = get "references" current /\
  get "provider_identities" authority = VDict ids /\ get "correlation_id" authority = VStr c /\
  get "backend_id" authority = VInt (be_pk b) /\ authority <> [].
Proof.
  unfold _snapshot_payload. intros Hs. apply bind_Ok in Hs as (references & Hr & Hs).
  apply bind_Ok in Hs as (? & _ & [= <-]). split_and!; try reflexivity. done.
Qed.

Lemma get_by_self db (u : actor) v : get_by ac_pk (db_users db) v = Ok u -> related ac_pk (db_users db) v = Ok (Some u).
Proof. unfold related. intros E. rewrite E. destruct v; try done. Qed.

(** Preparing and checking agree.  The references and the authority that the
    preparation stores with a request are accepted by the insert check, and as long as
    the rows are unchanged and the requester keeps the permissions, the checks before
    the backend is chosen accept them for the backend of the request and for no other. *)
Theorem prepared_request_is_current capture db later x user correlation_id references authority y :
  prepare_reference_execution capture db later x user correlation_id = Ok (Some (references, authority)) ->
  Forall (fun e => json_valid (VDict _REFERENCE_SCHEMA) e.2 = true) references ->
  is_canonical_uuid correlation_id = true ->
  get_by ac_pk (db_users db) (VInt (ac_pk user)) = Ok user ->
  stored_request x user references authority y -> references <> [] ->
  validate_immutable_reference_fields (VDict references) (VDict authority) true None = Ok tt /\
  (exists p b t, _current_reference_snapshot db later y = Ok (user, p, b, t)) /\
  (forall selector, require_reference_backend db later y selector = Ok tt <-> py_eq selector (su_backend_id x)).
Proof.
  intros Hp Hj Hu Huser Hst Hne.
  destruct (prepare_inv _ _ _ _ _ _ _ _ Hp) as (x' & p & b & t & snapshot & ids & capture' & Hrefs & Hx' & Hctx & Hsnap & Hcap & Hperm & Hauth).
  pose proof (named_references_stable _ _ Hrefs Hj) as Hstable.
  destruct (snapshot_read _ _ _ _ _ _ correlation_id ids Hsnap) as (Hsaved & Hgetr & Hgeti & Hgetc & Hgetb & Hnil).
  rewrite <- Hauth in *. destruct (snapshot_references _ _ _ _ _ _ Hsnap) as (refs & Hr & Hgr).
  assert (refs = references) as -> by (rewrite Hx' in Hr; cbn [su_references] in Hr; congruence).
  assert (NoDup (keys references)) as Hnd.
  { unfold validate_named_references in Hrefs. destruct (su_references x); try done. destruct (16 <? _); [done|].
    eapply named_loop_NoDup; [exact Hrefs|constructor]. }
  destruct Hst as (S1 & S2 & S3 & S4 & S5 & S6 & S7 & S8 & S9).
  assert (subject_of y = x') as Hsub by (rewrite Hx'; unfold subject_of; by rewrite S1, S2, S3, S4, S5, S8).
  pose proof (context_ok _ _ _ _ _ _ _ Hctx) as [_ Hch].
  assert (_current_reference_snapshot db later y = Ok (user, p, b, t)) as Hcur.
  { unfold _current_reference_snapshot. rewrite S6, (get_by_self _ _ _ Huser), Hsub, S9. cbn [mbind result_bind].
    rewrite Hctx. cbn [mbind result_bind]. rewrite Hsnap. cbn [mbind result_bind py_dict]. rewrite Hgr, Hgeti, Hgetc.
    cbn [dict_of_value uuid_is_canonical]. rewrite Hu.
    rewrite same_keys_iff by (intros k; rewrite (capture_keys _ _ _ _ _ _ _ Hcap k); set_solver).
    cbn [mbind result_bind _require require]. rewrite (capture_current _ _ _ _ _ _ _ Hcap Hnd). cbn [mbind result_bind].
    rewrite Hsaved. unfold py_eqb. rewrite bool_decide_true by done. cbn [mbind result_bind _require require].
    unfold _check_execution_permissions. rewrite S1, S2, S3, S4, S6, S7.
    destruct (ch_target _ _ _ _ _ _ Hch) as (rows & _ & _ & Hpk & _). rewrite Hx' in Hpk. cbn [su_object_id] in Hpk.
    rewrite <- Hpk. apply (fresh_permissions_ok _ _ _ _ _ _ _ tt) in Hperm. by rewrite Hperm. }
  split; [|split; [by exists p, b, t|]].
  - unfold validate_immutable_reference_fields. destruct references as [|e rest]; [done|]. cbn [truthy].
    rewrite Hstable. cbn [mbind result_bind attr_get]. rewrite Hgetr, Hgr. unfold py_eqb. rewrite bool_decide_true by done.
    cbn [_require require mbind result_bind]. by destruct authority.
  - intros selector. unfold require_reference_backend. rewrite S8, S9.
    destruct references as [|e rest]; [done|]. cbn [truthy negb attr_get mbind result_bind]. rewrite Hgetb, Hcur.
    destruct (ch_backend _ _ _ _ _ _ Hch) as (_ & Hb & _). rewrite Hx' in Hb. cbn [su_backend_id] in Hb. rewrite Hb.
    unfold py_eqb. case_bool_decide; cbn; naive_solver.
Qed.
End Authority.

(** ** The guards inside a worker run *)

Section WorkerRun.
Context `{PyLib} `{JsonSchema} `{ManifestLib} `{LeaseLib}.
Variable str_exn : exn -> string.
Variable w : world.
Variable p : procedure.
Variable tg : Protected.target.

Lemma guard_passed r d d' u :
  has_references tg = true -> _reference_execution_guard tg r d = (d', Ok u) -> d' = d /\ r = Ok tt.
Proof. unfold _reference_execution_guard. intros ->. intros [= -> ->]. by destruct u. Qed.

(** The lease of an execution with references names the authority and lives at most
    five minutes. *)
Definition reference_lease (l : SignedDispatchLease) : Prop :=
  credential_policy (claims l)
    = str_take 255 ("credential-authority:" +:+ canonical_hash (tg_credential_authority tg)) /\
  exists ttl, 1 <= ttl <= 300 /\ issued_at (claims l) = isoformat (w_instant w) /\
    expires_at (claims l) = isoformat (w_instant w + ttl * 1000000).

Lemma reference_lease_issued n d d' l :
  has_references tg = true -> _issue_dispatch_lease w p tg n d = (d', Ok (Some l)) -> reference_lease l.
Proof.
  unfold _issue_dispatch_lease, has_references. intros Href Hi. apply (stage_bind_Ok str_exn) in Hi as (d1 & policy & Hpol & Hi).
  apply (stage_bind_Ok str_exn) in Hi as (d2 & lease & Hl & Hi). apply lift_ok in Hpol as [-> Hpol], Hl as [-> Hl].
  destruct lease as [l'|]; [|discriminate Hi]. apply (stage_bind_Ok str_exn) in Hi as (d3 & u & _ & Hi). injection Hi as _ ->.
  destruct (issue_inv _ _ _ _ _ _ _ _ _ _ _ _ Hl) as (k & row & ttl & c & _ & _ & Httl & Hc & ->).
  cbn [leased le_credential_references] in Httl. rewrite Href in Httl.
  destruct (resolved_ttl_bounds _ _ _ _ Httl) as [Hlo Hhi]. specialize (Hhi eq_refl).
  unfold MAX_REFERENCE_LEASE_SECONDS in Hhi.
  destruct (build_claims_inv _ _ _ _ _ _ _ _ _ _ _ _ Hc)
    as (_ & _ & _ & _ & _ & _ & _ & _ & _ & _ & _ & _ & _ & Hcp & His & Hex & _).
  split; [|exists ttl; exact (conj (conj (proj1 Hlo) Hhi) (conj His Hex))]. cbn [claims]. rewrite Hcp.
  unfold _credential_policy_reference in Hpol. apply bind_Ok in Hpol as (n' & _ & Hpol). rewrite Href in Hpol.
  cbv zeta in Hpol. destruct (py_eqb _ _); [|done]. by injection Hpol as <-.
Qed.

Lemma prepare_guards t d d' lease :
  has_references tg = true -> _prepare_dispatch w p tg t d = (d', Ok lease) ->
  w_reference_dispatch w t = Ok tt /\
  (exists raw n, w_normalized w = Ok raw /\ ledger_normalized_params raw = Ok n /\ w_reference_approval w n t = Ok tt) /\
  exists l, lease = Some l /\ reference_lease l.
Proof.
  intros Href Hp. unfold _prepare_dispatch in Hp.
  apply (stage_bind_Ok str_exn) in Hp as (d1 & u1 & Hg1 & Hp). apply (guard_passed _ _ _ _ Href) in Hg1 as [-> Hg1].
  apply (stage_bind_Ok str_exn) in Hp as (d2 & raw & Hraw & Hp). apply lift_ok in Hraw as [-> Hraw].
  apply (stage_bind_Ok str_exn) in Hp as (d3 & n & Hn & Hp). apply lift_ok in Hn as [-> Hn].
  apply (stage_bind_Ok str_exn) in Hp as (d4 & u4 & Hset & Hp). apply pair_ok in Hset as [-> _].
  apply (stage_bind_Ok str_exn) in Hp as (d5 & u5 & Hg2 & Hp). apply (guard_passed _ _ _ _ Href) in Hg2 as [-> Hg2].
  apply (stage_bind_Ok str_exn) in Hp as (d6 & u6 & _ & Hp). apply (stage_bind_Ok str_exn) in Hp as (d7 & u7 & _ & Hp).
  apply (stage_bind_Ok str_exn) in Hp as (d8 & lease' & Hl & Hp).
  split; [exact Hg1|]. split; [exists raw, n; exact (conj Hraw (conj Hn Hg2))|].
  assert (_requires_signed_dispatch p tg = true) as Hreq by (unfold _requires_signed_dispatch; rewrite Href; apply orb_true_r).
  rewrite Hreq in Hp. destruct lease' as [l|]; [|discriminate Hp]. apply pair_ok in Hp as [_ [= <-]].
  exists l. split; [done|]. by eapply reference_lease_issued.
Qed.

(** The outside of the run is the credential authority on the execution [y] of the run:
    the database when the dispatch is checked, at its two later permission reads, and
    when the approval is checked. *)
Variable resolve : value -> res (option BackendTarget).
Variable y : reference_execution.
Variable row : procedure_row.
Variable policy : res unit.
Variables ready ready_later ready_last approved : database.
Hypothesis guard_dispatch : forall t, w_reference_dispatch w t
  = require_reference_dispatch_ready (w_config w) (w_env w) ready ready_later ready_last y t (w_manifest w).
Hypothesis guard_approval : forall n t, w_reference_approval w n t
  = require_reference_approval resolve approved y row policy n (Some t).
Hypothesis same_references : rx_references y = tg_credential_references tg.

(** What holds of a request that leaves with references. *)
Definition references_authorized (t : backend_target) (l : SignedDispatchLease) : Prop :=
  reference_lease l /\
  (exists user pr b tr m, snapshot_holds ready ready_later y user pr b tr /\
     bt_url t = backend_url (be_backend b) /\ bt_verify_ssl t = verify_ssl (be_backend b) /\
     _fetch_uncached (w_manifest w) = Some m /\
     verify_procedure_capability (pc_catalog pr) (Some m) = COMPATIBLE /\
     1 ∈ bm_credential_reference_versions m /\ 1 ∈ bm_dispatch_lease_versions m /\
     1 ∈ provider_versions "netbox-openbao" (bm_credential_provider_versions m)) /\
  permissions_hold ready_last (rx_requested_by_id y) (rx_approved_by_id y) (rx_procedure_id y)
    (tg_backend_id (rx_target y)) (tg_model_label (rx_target y)) (tg_id (rx_target y)) /\
  exists raw n hash, w_normalized w = Ok raw /\ ledger_normalized_params raw = Ok n /\
    approval_holds approved y row policy n (Some t) hash.

Lemma dispatch_ready_ok t :
  truthy (rx_references y) = true ->
  require_reference_dispatch_ready (w_config w) (w_env w) ready ready_later ready_last y t (w_manifest w) = Ok tt ->
  (exists user pr b tr m, snapshot_holds ready ready_later y user pr b tr /\
     bt_url t = backend_url (be_backend b) /\ bt_verify_ssl t = verify_ssl (be_backend b) /\
     _fetch_uncached (w_manifest w) = Some m /\
     verify_procedure_capability (pc_catalog pr) (Some m) = COMPATIBLE /\
     1 ∈ bm_credential_reference_versions m /\ 1 ∈ bm_dispatch_lease_versions m /\
     1 ∈ provider_versions "netbox-openbao" (bm_credential_provider_versions m)) /\
  permissions_hold ready_last (rx_requested_by_id y) (rx_approved_by_id y) (rx_procedure_id y)
    (tg_backend_id (rx_target y)) (tg_model_label (rx_target y)) (tg_id (rx_target y)).
Proof.
  intros Href Hd. unfold require_reference_dispatch_ready in Hd. rewrite Href in Hd. cbn [negb] in Hd.
  apply bind_Ok in Hd as ([[[user pr] b] tr] & Hs & Hd). apply saved_snapshot_ok in Hs as [Hs _].
  apply bind_Ok in Hd as (u1 & Hurl & Hd). apply bind_Ok in Hd as (u2 & Hssl & Hd). apply allowed in Hurl, Hssl.
  apply String.eqb_eq in Hurl. apply eqb_prop in Hssl.
  unfold fetch_backend_capabilities in Hd. destruct (negb (str_truthy _)); [done|]. cbn [snd] in Hd.
  destruct (_fetch_uncached (w_manifest w)) as [m|]; [|done].
  apply bind_Ok in Hd as (u3 & Hcap & Hd). apply bind_Ok in Hd as (u4 & Hrv & Hd).
  apply bind_Ok in Hd as (u5 & Hpv & Hd). apply bind_Ok in Hd as (u6 & Hlv & Hd).
  apply bind_Ok in Hd as (k & _ & Hd). apply bind_Ok in Hd as (u7 & _ & Hd).
  apply allowed in Hcap, Hrv, Hpv, Hlv. bool_inv. apply fresh_permissions_ok in Hd.
  split; [|done]. by exists user, pr, b, tr, m.
Qed.

(** C14: A worker run of an execution with credential references calls the backend at
    most once, with a signed lease that names the frozen authority and lives at most
    five minutes, and only when the authority agreed: the snapshot equalled the current
    rows, the target called is the backend of the snapshot, its manifest covers the
    procedure and the reference, provider and lease versions, requester and approver
    still had their permissions after that, and the approval was current. *)
Theorem references_reach_backend_authorized ex0 ex f :
  fresh ex0 -> rtc agg_step ex0 ex -> status (ex_cols ex) = status_value QUEUED ->
  (forall e, c_policy (w_claim w) = Err e -> exists field m, e = ValidationError field m) -> finite_binding w tg ->
  has_references tg = true ->
  d_calls (run_execution str_exn w p tg ex f).1 = [] \/
  exists t l, d_calls (run_execution str_exn w p tg ex f).1 = [(t, Some l)] /\ references_authorized t l.
Proof.
  intros Hf Hr Hst Hp Hfin Href.
  destruct (run_calls str_exn w p tg ex0 ex f Hf Hr Hst Hp Hfin)
    as [Hc|(_ & _ & s & selector & bound & t & lease & d3 & _ & _ & _ & Hprep & Hc)]; [by left|]. right.
  apply (prepare_guards _ _ _ _ Href) in Hprep as (Hd & (raw & n & Hraw & Hn & Ha) & l & -> & Hl).
  exists t, l. split; [done|]. split; [done|]. rewrite guard_dispatch in Hd. rewrite guard_approval in Ha.
  assert (truthy (rx_references y) = true) as Ht by (by rewrite same_references).
  destruct (dispatch_ready_ok t Ht Hd) as [Hsnap Hperm]. split; [exact Hsnap|]. split; [exact Hperm|].
  unfold require_reference_approval in Ha. rewrite Ht in Ha. apply (proj1 (denied_Ok _ _)) in Ha.
  apply bind_Ok in Ha as (hash & Ha & _). exists raw, n, hash. split; [done|]. split; [done|].
  by apply current_approval_ok in Ha.
Qed.
End WorkerRun.

(** ** Example: a read of a device with one login credential *)

Module AuthorityDemo.
Import MiniSchema Demo DemoManifest DemoLease.

Definition demo_actor (pk : Z) : actor :=
  {| ac_pk := pk; ac_is_active := true; ac_is_authenticated := true; ac_is_superuser := false;
     ac_has_perm := fun _ => true; ac_restrict := fun _ _ _ => true |}.
Definition demo_read : procedure :=
  {| pr_pk := 5; pr_name := "service.pbs.1.status"; pr_version := VInt 1; pr_policy := VDict [];
     pr_params_schema := VDict []; pr_result_schema := VDict []; pr_effect := "read";
     pr_enabled := true; pr_timeout_seconds := VInt 300 |}.
Definition demo_procedure_row : procedure_row :=
  {| pc_base := demo_read; pc_catalog := demo_catalog_row "service.pbs.1.status";
     pc_target_models := ["dcim.device"]; pc_approval_required := false; pc_transport_driver := VStr "asyncssh";
     pc_transport_driver_chain := VList []; pc_transport_pinned := VBool false; pc_output_parser := VStr "none";
     pc_output_schema := VDict [] |}.
Definition demo_backend_row : backend_row :=
  {| be_pk := 1;
     be_backend := {| ip_address := None; domain := "rpc"; port := 443; use_https := true; base_url := "https://rpc";
                      verify_ssl := true; auth_header_name := "X-RPC-Key"; auth_token := "t" |};
     be_executor_identity_id := Some 9; be_last_updated := "2026-01-01" |}.
Definition demo_device : target_row := {| tr_pk := 42; tr_last_updated := "2026-01-02" |}.
Definition demo_database (executions : list reference_execution) : database :=
  {| db_users := [demo_actor 3; demo_actor 9]; db_procedures := [demo_procedure_row];
     db_backends := [demo_backend_row];
     db_targets := fun model => if String.eqb model "dcim.device" then Some [demo_device] else None;
     db_settings_enabled := true; db_settings_backend_id := Some 1; db_executions := executions |}.

Definition demo_subject : subject :=
  {| su_procedure_id := 5; su_backend_id := VInt 1; su_references := VDict [("primary", Demo.reference)];
     su_model_label := "dcim.device"; su_object_id := 42; su_params := VDict [] |}.
Definition demo_uuid : string := "01234567-89ab-cdef-0123-456789abcdef".
Definition demo_identity : value :=
  VDict [("credential_uuid", VStr demo_uuid); ("assignment_id", VInt 7);
         ("target", VDict [("object_type", VStr "dcim.device"); ("object_id", VInt 42)]);
         ("purpose", VStr "login"); ("username", VStr "admin"); ("fingerprint", VStr "f");
         ("credential_type", VStr "password"); ("policy_id", VInt 1); ("engine_id", VInt 1);
         ("engine_identity_sha256", VStr (sha256 "e")); ("schema_sha256", VStr (sha256 "s"))].
Definition demo_capture : option (CredentialReferenceV1 -> actor -> target_row -> string -> res value) :=
  Some (fun _ _ _ _ => Ok demo_identity).
Definition demo_prepared : dict * dict :=
  Eval vm_compute in
    match prepare_reference_execution demo_capture (demo_database []) (demo_database []) demo_subject (demo_actor 3)
            demo_uuid with
    | Ok (Some c) => c
    | _ => ([], [])
    end.
Lemma demo_prepare :
  prepare_reference_execution demo_capture (demo_database []) (demo_database []) demo_subject (demo_actor 3) demo_uuid
    = Ok (Some (demo_prepared.1, demo_prepared.2)).
Proof. vm_compute. reflexivity. Qed.

(** The columns of the running execution, its ledger and the lease it was given. *)
Definition demo_bound : Protected.target :=
  {| tg_type_id := 1; tg_id := 42; tg_model_label := "dcim.device"; tg_display := "edge-1"; tg_backend_id := VInt 1;
     tg_credential_references := VDict demo_prepared.1; tg_credential_authority := VDict demo_prepared.2 |}.
Definition demo_policy_ref : string := "credential-authority:" +:+ canonical_hash (VDict demo_prepared.2).
Definition demo_params : dict :=
  [("credential_references", VDict demo_prepared.1); ("credential_policy_ref", VStr demo_policy_ref);
   ("command_fingerprint", VDict [("credential_authority_sha256", VStr (canonical_hash (VDict demo_prepared.2)))])].
Definition demo_row_of (n : Z) (name : string) (data : dict) : row :=
  {| row_sequence := n; row_level := "info"; row_event := name; row_message := EmptyString; row_data := data;
     row_payload_hash := EmptyString |}.
Definition demo_issued_lease : SignedDispatchLease :=
  Eval vm_compute in
    match issue_dispatch_lease demo_config demo_env
            {| le_pk := VInt 7; le_procedure := Some (demo_catalog_row "service.pbs.1.status");
               le_requested_by_id := VInt 3; le_approved_by_id := VNone;
               le_credential_references := VDict demo_prepared.1 |} 1 demo_params 1000000 demo_policy_ref demo_uuid
            "00ff" VNone VNone with
    | Ok (Some l) => l
    | _ => demo_lease
    end.
Definition demo_reference_execution : reference_execution :=
  {| rx_row := {| ex_pk := 7; ex_procedure_name := "service.pbs.1.status"; ex_result_schema := VNone;
                  ex_params := VDict []; ex_requested_by_id := VInt 3;
                  ex_cols := MkProjection "running" VNone VNone EmptyString EmptyString [] demo_params EmptyString VNone VNone;
                  ex_events := [demo_row_of 1 "ParametersNormalized" [];
                                demo_row_of 2 "DispatchLeaseIssued" (issuance_data (claims demo_issued_lease))] |};
     rx_target := demo_bound; rx_procedure_id := 5; rx_approval_request := None |}.
Definition demo_moments : moments :=
  let db := demo_database [demo_reference_execution] in
  {| at_rows := db; at_snapshot := db; at_approval := db; at_end := db; now_verified := 1500000; now_end := 2000000 |}.
Definition demo_resolve (_ : value) : res (option BackendTarget) := Ok None.
Definition demo_reveal (executor_pk : Z) : res SecretResolutionAuthorization :=
  validate_secret_resolution_dispatch demo_config demo_env demo_resolve (fun _ => Some demo_issued_lease) demo_moments
    7 (Ok tt) (VDict []) executor_pk "primary" VNone.

(** The bound executor is granted, the requester is not. *)
Example demo_reveal_only_executor :
  is_Ok (demo_reveal 9) = true /\ demo_reveal 3 = Err SecretResolutionDenied.
Proof. split; vm_compute; reflexivity. Qed.
End AuthorityDemo.

Section Witnesses.
Import MiniSchema Demo DemoManifest DemoLease AuthorityDemo.

Lemma demo_distinct : Forall (fun x => distinct_names (rx_references x)) (db_executions (at_rows demo_moments)).
Proof.
  constructor; [|constructor]. intros d Hd. injection Hd as <-. apply (bool_decide_eq_true (NoDup _)).
  vm_compute. reflexivity.
Defined.
Lemma authorization_is_justified_witness :
  exists a, demo_reveal 9 = Ok a /\ exists x user p b t l,
    authorization_holds demo_config demo_env demo_resolve demo_moments (Ok tt) 7 9 "primary" x user p b t l a.
Proof.
  destruct (demo_reveal 9) as [a|e] eqn:E; [|exfalso; vm_compute in E; discriminate E].
  exists a. split; [reflexivity|].
  exact (authorization_is_justified demo_config demo_env demo_resolve (fun _ => Some demo_issued_lease) demo_moments
    7 (Ok tt) (VDict []) 9 "primary" VNone a demo_distinct E).
Defined.

Lemma demo_insert :
  validate_immutable_reference_fields (VDict demo_prepared.1) (VDict demo_prepared.2) true None = Ok tt.
Proof. vm_compute. reflexivity. Defined.
Lemma demo_saved : rtc save_step (VDict demo_prepared.1, VDict demo_prepared.2) (VDict demo_prepared.1, VDict demo_prepared.2).
Proof. apply rtc_once. constructor. vm_compute. reflexivity. Defined.
Lemma references_immutable_witness :
  py_eq (VDict demo_prepared.1) (VDict demo_prepared.1) /\
  columns_agree (VDict demo_prepared.1) (VDict demo_prepared.2) /\
  validate_immutable_reference_fields VNone (VDict demo_prepared.2) false
    (Some (VDict demo_prepared.1, VDict demo_prepared.2)) = Err immutable_references.
Proof.
  destruct (references_immutable _ _ _ _ demo_insert demo_saved) as (Hr & _ & Ha & _).
  split; [exact Hr|]. split; [exact Ha|]. vm_compute. reflexivity.
Defined.

Lemma demo_closed : Forall (fun e => json_valid (VDict _REFERENCE_SCHEMA) e.2 = true) demo_prepared.1.
Proof. repeat constructor. Defined.
Lemma demo_stored : stored_request demo_subject (demo_actor 3) demo_prepared.1 demo_prepared.2 demo_reference_execution.
Proof. repeat split. Defined.
Lemma prepared_request_is_current_witness :
  require_reference_backend (demo_database []) (demo_database []) demo_reference_execution (VInt 1) = Ok tt /\
  require_reference_backend (demo_database []) (demo_database []) demo_reference_execution (VInt 2) <> Ok tt.
Proof.
  assert (demo_prepared.1 <> []) as Hne by discriminate.
  destruct (prepared_request_is_current demo_capture (demo_database []) (demo_database []) demo_subject (demo_actor 3)
    demo_uuid _ _ demo_reference_execution demo_prepare demo_closed eq_refl eq_refl demo_stored Hne) as (_ & _ & Hsel).
  split; [by apply Hsel|]. intros E. apply Hsel in E. discriminate E.
Defined.

(** A run of the worker with that authority. *)
Definition demo_reference_world : world :=
  {| w_claim := demo_claim; w_enabled := true; w_backend_pk := VNone; w_resolve := fun _ => Ok (Some demo_backend);
     w_reference_backend := require_reference_backend (demo_database []) (demo_database []) demo_reference_execution;
     w_reference_dispatch := fun t => require_reference_dispatch_ready demo_config demo_env (demo_database [])
       (demo_database []) (demo_database []) demo_reference_execution t demo_answer;
     w_reference_approval := fun n t => require_reference_approval demo_resolve (demo_database [])
       demo_reference_execution demo_procedure_row (Ok tt) n (Some t);
     w_row := demo_catalog_row "service.pbs.1.status"; w_manifest := demo_answer;
     w_normalized := Ok demo_params; w_policy := Ok tt; w_snapshot := None;
     w_config := demo_config; w_env := demo_env; w_instant := 1000000; w_nonce := "00ff";
     w_blocking := None; w_clock := 0; w_fence_schema := VDict [];
     w_call := fun _ _ => Ok ok_response; w_now := demo_now |}.
Example demo_reference_run :
  length (d_calls (run_execution demo_str_exn demo_reference_world demo_read demo_bound demo_queued None).1) = 1%nat.
Proof. vm_compute. reflexivity. Qed.

Lemma demo_reference_binding : finite_binding demo_reference_world demo_bound.
Proof. repeat split; discriminate. Defined.
Lemma references_reach_backend_authorized_witness :
  d_calls (run_execution demo_str_exn demo_reference_world demo_read demo_bound demo_queued None).1 = [] \/
  exists t l, d_calls (run_execution demo_str_exn demo_reference_world demo_read demo_bound demo_queued None).1
    = [(t, Some l)] /\
    references_authorized demo_reference_world demo_bound demo_reference_execution demo_procedure_row
      (Ok tt) (demo_database []) (demo_database []) (demo_database []) (demo_database []) t l.
Proof.
  exact (references_reach_backend_authorized demo_str_exn demo_reference_world demo_read demo_bound demo_resolve
    demo_reference_execution demo_procedure_row (Ok tt) (demo_database []) (demo_database []) (demo_database [])
    (demo_database []) (fun t => eq_refl) (fun n t => eq_refl) eq_refl
    demo_new demo_queued None demo_fresh demo_reach_queued eq_refl demo_policy_known demo_reference_binding eq_refl).
Defined.
End Witnesses.
