(* ===== verification/Jobs.v ===== *)
(** * Jobs: queues, job data and the expiry sweep

    The job classes of [netbox_rpc/jobs.py], the liveness check of the control queue, and
    the expiry of overdue restarts: [RPCExecutionQueueExpiryJob] and the sweep of
    [netbox_rpc/system_jobs.py] with [expire_stale_restart_executions] of
    [netbox_rpc/application/command_handlers.py].  NetBox's [JobRunner] and RQ are
    arguments: what enqueueing does with its arguments, and what the worker registry
    says.  Instants are microseconds, as in Lease. *)

From S2P Require Import Prelude PyValue Events Projection CredentialContract EventStore EventStoreFacts Aggregate AggregateFacts.
From S2P Require Import Response ResponseFacts StoreProperties AggregateProperties Protected Approvals ApprovalProperties Lease CredentialAuthority Contracts.

(** ** The control queue *)

(** [getattr(state, "value", state)]: a member of an enumeration, or the state itself. *)
Inductive rq_state : Type := Member (v : value) | Plain (v : value).
Definition state_value (s : rq_state) : value := match s with Member v | Plain v => v end.

(** A worker of the registry: its state and its heartbeat ([None]: not a timestamp), or
    the error of reading them. *)
Record rq_worker := { get_state : res rq_state; last_heartbeat : option timestamp }.

Definition HEARTBEAT_MAX_AGE : Z := RqWorker.CONTROL_WORKER_HEARTBEAT_MAX_AGE_SECONDS * 1000000.
Definition _worker_is_live (k : rq_worker) (now : Z) : bool :=
  match get_state k with
  | Err _ => false
  | Ok s =>
      str_in (str_lower (py_str (state_value s))) ["started"; "idle"; "busy"] &&
      match last_heartbeat k with
      | Some (Aware t) => (0 <=? now - t) && (now - t <=? HEARTBEAT_MAX_AGE)
      | _ => false
      end
  end.

(** The registry: whether work is suspended, and the workers of the queue. *)
Definition control_queue_has_live_worker (registry : res (bool * list rq_worker)) (now : Z) : bool :=
  match registry with
  | Ok (suspended, workers) => negb suspended && existsb (fun k => _worker_is_live k now) workers
  | Err _ => false
  end.

Definition RPC_QUEUE_NAME : string := "default".
Definition RPC_JOB_TIMEOUT : Z := 600.
Definition _execution_queue_name (procedure_name : value) : string :=
  match procedure_name with
  | VStr s => if str_in s RqWorker.NETBOX_PRODUCTION_RQ_WORKER_PROCEDURE_NAMES
              then RqWorker.CONTROL_QUEUE_NAME else RPC_QUEUE_NAME
  | _ => RPC_QUEUE_NAME
  end.

(** ** The execution job *)

Record job := { job_data : value; job_object_id : value }.
Definition with_data (j : job) (d : dict) : job := {| job_data := VDict d; job_object_id := job_object_id j |}.

(** [kwargs.setdefault(k, v)]. *)
Definition setdefault (k : string) (v : value) (d : dict) : dict := if dict_mem k d then d else dict_set k v d.
Definition is_None (v : value) : bool := match v with VNone => true | _ => false end.
Definition set_if (k : string) (v : value) (d : dict) : dict := if is_None v then d else dict_set k v d.
Definition RuntimeError (message : string) : exn := OtherError message.

Module RPCExecutionJob.
Section Job.
(** [JobRunner.enqueue]: the row it stores. *)
Variable super_enqueue : dict -> job.

(** The arguments handed to the parent. *)
Definition enqueue_arguments (kwargs : dict) : res dict :=
let backend_pk := get "backend_pk" kwargs in
let procedure_name := get "procedure_name" kwargs in
let kwargs := dict_pop "procedure_name" (dict_pop "backend_pk" kwargs) in
let execution_pk := get "execution_pk" kwargs in
let kwargs := setdefault "queue_name" (VStr (_execution_queue_name procedure_name)) kwargs in
let kwargs := setdefault "job_timeout" (VInt RPC_JOB_TIMEOUT) kwargs in
if is_None backend_pk && is_None execution_pk then Ok kwargs else
data ← py_dict (py_or (get "data" kwargs) (VDict []));
Ok (dict_set "data" (VDict (set_if "execution_pk" execution_pk (set_if "backend_pk" backend_pk data))) kwargs).

(** The data is wrong or missing for [k]. *)
Definition stale (k : string) (v : value) (d : dict) : bool := negb (is_None v) && negb (py_eqb (get k d) v).

(** The stored row: the parent's, saved again when its data lacks an identifier. *)
Definition enqueue (kwargs : dict) : res job :=
let backend_pk := get "backend_pk" kwargs in
let execution_pk := get "execution_pk" kwargs in
arguments ← enqueue_arguments kwargs;
let parent := super_enqueue arguments in
data ← py_dict (py_or (job_data parent) (VDict []));
let needs_backend := stale "backend_pk" backend_pk data in
let data := if needs_backend then dict_set "backend_pk" backend_pk data else data in
let needs_execution := stale "execution_pk" execution_pk data in
let data := if needs_execution then dict_set "execution_pk" execution_pk data else data in
Ok (if needs_backend || needs_execution then with_data parent data else parent).
End Job.

Section Run.
(** [RPCExecution.objects.get]: the backend of the row. *)
Variable backend_of : Z -> option value.

Definition saved_data (k : string) (j : job) : res value := attr_get k (py_or (job_data j) (VDict [])).

Definition _get_execution (j : job) (execution_pk : value) : res (Z * value) :=
raw_pk ← (if is_None execution_pk then saved_data "execution_pk" j else Ok execution_pk);
let raw_pk := if is_None raw_pk then job_object_id j else raw_pk in
_ ← require (negb (is_None raw_pk)) (RuntimeError "RPCExecutionJob requires an RPCExecution primary key.");
match py_int raw_pk with
| Err TypeError | Err ValueError =>
  Err (RuntimeError "RPCExecutionJob received an invalid RPCExecution primary key.")
| Err e => Err e
| Ok pk => match backend_of pk with Some b => Ok (pk, b) | None => Err DoesNotExist end
end.

(** The execution and the backend that [run_execution] is called with. *)
Definition run (j : job) (kwargs : dict) : res (Z * value) :=
let runtime_data := match get "data" kwargs with VDict d => d | _ => [] end in
'(pk, backend_id) ← _get_execution j (py_or (get "execution_pk" kwargs) (get "execution_pk" runtime_data));
let runtime_backend := get "backend_pk" runtime_data in
backend_pk ← (if truthy runtime_backend then Ok runtime_backend else
            saved ← saved_data "backend_pk" j;
            Ok (py_or saved backend_id));
Ok (pk, backend_pk).
End Run.
End RPCExecutionJob.

(** ** Expiry of overdue restarts *)

(** A stored execution with its procedure and its [ExecutionQueued] events: sequence
    number and creation time in seconds. *)
Record stored := { st_execution : execution; st_procedure : procedure; st_queued : list (Z * Z) }.
Definition st_pk (x : stored) : Z := ex_pk (st_execution x).
Definition with_execution (x : stored) (ex : execution) : stored :=
  {| st_execution := ex; st_procedure := st_procedure x; st_queued := st_queued x |}.

(** The creation time of the queue event with the highest sequence number. *)
Fixpoint latest (l : list (Z * Z)) : option (Z * Z) :=
  match l with
  | [] => None
  | (n, t) :: r => match latest r with
                   | Some (m, u) => if n <=? m then Some (m, u) else Some (n, t)
                   | None => Some (n, t)
                   end
  end.
Definition _restart_queued_at (x : stored) : option Z := snd <$> latest (st_queued x).

Section Expiry.
Context `{PyLib} `{JsonSchema}.
(** The event timestamp that a failure records. *)
Variable now : value.

Definition expire (clock : Z) (x : stored) : res (stored * bool) :=
'(ex, b) ← expire_stale_restart_execution (st_execution x) (st_procedure x) (_restart_queued_at x) clock now;
Ok (with_execution x ex, b).

(** [get(pk=pk)] and the update of that row. *)
Fixpoint expire_pk (clock : Z) (pk : Z) (rows : list stored) : res (list stored * bool) :=
match rows with
| [] => Err DoesNotExist
| x :: rest =>
  if st_pk x =? pk then '(x', b) ← expire clock x; Ok (x' :: rest, b)
  else '(rest', b) ← expire_pk clock pk rest; Ok (x :: rest', b)
end.

(** [RPCExecutionQueueExpiryJob.run]. *)
Definition run_expiry (clock : Z) (kwargs : dict) (rows : list stored) : res (list stored * bool) :=
match get "execution_pk" kwargs with
| VNone => Err (RuntimeError "RPCExecutionQueueExpiryJob requires an RPCExecution primary key.")
| v => pk ← py_int v; expire_pk clock pk rows
end.

(** The join with the events gives a row for every event that is old enough. *)
Definition overdue_events (cutoff : Z) (x : stored) : list Z :=
if has_status (st_execution x) QUEUED && String.eqb (pr_name (st_procedure x)) NETBOX_PRODUCTION_RESTART_RQ_WORKER
then map (fun _ => st_pk x) (List.filter (fun e => snd e <=? cutoff) (st_queued x)) else [].

Fixpoint expire_all (clock : Z) (pks : list Z) (rows : list stored) : res (list stored * Z) :=
match pks with
| [] => Ok (rows, 0)
| pk :: rest =>
  '(rows, b) ← expire_pk clock pk rows;
  '(rows, n) ← expire_all clock rest rows;
  Ok (rows, n + (if b : bool then 1 else 0))
end.

(** [rows] in the order of their keys; the clock is read once for the query and again for
each row. *)
Definition expire_stale_restart_executions (query_clock clock : Z) (batch_size : nat) (rows : list stored)
: res (list stored * Z) :=
let cutoff := query_clock - CONTROL_QUEUE_MAX_AGE_SECONDS in
expire_all clock (take batch_size (concat (map (overdue_events cutoff) rows))) rows.
End Expiry.

(** ** The identifiers of a job *)

Section JobFacts.
Variable super_enqueue : dict -> job.

(** The arguments RQ hands to [run]: without the identifiers, or with them. *)
Definition handed (e : Z) (b : Z) (kwargs : dict) : Prop :=
  (get "execution_pk" kwargs = VNone \/ get "execution_pk" kwargs = VInt e) /\
  match get "data" kwargs with
  | VDict d => (get "execution_pk" d = VNone \/ get "execution_pk" d = VInt e) /\
               (get "backend_pk" d = VNone \/ get "backend_pk" d = VInt b)
  | _ => True
  end.

Lemma py_eq_int v n : py_eq v (VInt n) -> v = VInt n \/ exists b : bool, v = VBool b /\ n = if b then 1 else 0.
Proof. unfold py_eq. destruct v; cbn; try done; intros [= <-]; eauto. Qed.

Lemma py_dict_or v d : py_dict (py_or v (VDict [])) = Ok d -> py_or v (VDict []) = VDict d.
Proof.
  unfold py_or. destruct (truthy v) eqn:E; [|by intros [= <-]].
  destruct v as [| | | |s| | |l|l|l|d']; cbn in *; try done; try (by destruct l); [by destruct s|by intros [= ->]].
Qed.

(** What the saved row holds under an identifier that was given. *)
Lemma saved_identifier (k : string) n data :
  py_eq (get k (if RPCExecutionJob.stale k (VInt n) data then dict_set k (VInt n) data else data)) (VInt n).
Proof.
  unfold RPCExecutionJob.stale, is_None, py_eqb. cbn [negb andb]. case_bool_decide as E; cbn [negb]; [exact E|].
  rewrite get_set_eq. reflexivity.
Qed.

Lemma enqueue_saves kwargs j e b :
  RPCExecutionJob.enqueue super_enqueue kwargs = Ok j ->
  get "execution_pk" kwargs = VInt e -> get "backend_pk" kwargs = VInt b ->
  exists d, py_or (job_data j) (VDict []) = VDict d /\
    py_eq (get "execution_pk" d) (VInt e) /\ py_eq (get "backend_pk" d) (VInt b).
Proof.
  unfold RPCExecutionJob.enqueue. intros Hj He Hb. rewrite He, Hb in Hj.
  apply bind_Ok in Hj as (arguments & _ & Hj). apply bind_Ok in Hj as (data & Hd & Hj). cbv zeta in Hj.
  apply py_dict_or in Hd. injection Hj as <-.
  set (data1 := if RPCExecutionJob.stale "backend_pk" (VInt b) data then dict_set "backend_pk" (VInt b) data else data).
  set (data2 := if RPCExecutionJob.stale "execution_pk" (VInt e) data1
                then dict_set "execution_pk" (VInt e) data1 else data1).
  assert (py_eq (get "execution_pk" data2) (VInt e)) as H2 by apply saved_identifier.
  assert (get "backend_pk" data2 = get "backend_pk" data1) as Hsame.
  { unfold data2. destruct (RPCExecutionJob.stale "execution_pk" _ _); [by apply get_set_ne|done]. }
  assert (py_eq (get "backend_pk" data1) (VInt b)) as H1 by apply saved_identifier.
  rewrite <- Hsame in H1. exists data2. split; [|done].
  destruct (RPCExecutionJob.stale "backend_pk" (VInt b) data) eqn:E1; cbn [orb].
  - fold data1. fold data2. cbn [with_data job_data]. unfold py_or. destruct (truthy (VDict data2)) eqn:Et; [done|].
    by destruct data2.
  - fold data1 in E1. subst data1. fold data2.
    destruct (RPCExecutionJob.stale "execution_pk" (VInt e) data) eqn:E2; [|by subst data2].
    cbn [with_data job_data]. unfold py_or. destruct (truthy (VDict data2)) eqn:Et; [done|]. by destruct data2.
Qed.

Lemma int_of_equal v n : py_eq v (VInt n) -> py_int v = Ok n /\ is_None v = false.
Proof. by intros [E|(b & E & E')]%py_eq_int; subst. Qed.
Lemma truthy_equal v n : py_eq v (VInt n) -> n <> 0 -> truthy v = true.
Proof. intros [E|(b & E & E')]%py_eq_int Hn; subst; cbn; [by apply negb_true_iff, Z.eqb_neq|by destruct b]. Qed.

Lemma handed_execution e b kwargs :
  handed e b kwargs -> e <> 0 ->
  let v := py_or (get "execution_pk" kwargs)
             (get "execution_pk" (match get "data" kwargs with VDict d => d | _ => [] end)) in
  v = VNone \/ v = VInt e.
Proof.
  intros [Hk Hd] He. cbv zeta. unfold py_or. destruct Hk as [-> | ->]; cbn [truthy].
  - destruct (get "data" kwargs); try (by left). by destruct Hd as [? _].
  - right. by replace (e =? 0) with false by (symmetry; by apply Z.eqb_neq).
Qed.

(** A job runs the execution it was enqueued for with the backend it was enqueued
    with, whatever the parent class did with its data argument and however the queue
    hands the arguments back. *)
Theorem job_runs_its_execution backend_of kwargs run_kwargs j e b x :
  RPCExecutionJob.enqueue super_enqueue kwargs = Ok j ->
  get "execution_pk" kwargs = VInt e -> get "backend_pk" kwargs = VInt b -> e <> 0 -> b <> 0 ->
  handed e b run_kwargs -> backend_of e = Some x ->
  exists v, RPCExecutionJob.run backend_of j run_kwargs = Ok (e, v) /\ py_eq v (VInt b).
Proof.
  intros Hj He Hb He0 Hb0 Hh Hx. destruct (enqueue_saves _ _ _ _ Hj He Hb) as (d & Hd & Hde & Hdb).
  assert (forall pk, pk = VNone \/ pk = VInt e -> RPCExecutionJob._get_execution backend_of j pk = Ok (e, x)) as Hget.
  { intros pk Hpk. unfold RPCExecutionJob._get_execution, RPCExecutionJob.saved_data. rewrite Hd. cbn [attr_get].
    destruct (int_of_equal _ _ Hde) as [Hint Hnone].
    destruct Hpk as [->| ->]; cbn [is_None mbind result_bind].
    - rewrite Hnone. cbn [negb require mbind result_bind]. rewrite Hnone. cbn [negb require mbind result_bind].
      by rewrite Hint, Hx.
    - cbn [negb require mbind result_bind py_int]. by rewrite Hx. }
  unfold RPCExecutionJob.run. cbv zeta. rewrite (Hget _ (handed_execution _ _ _ Hh He0)). cbn [mbind result_bind].
  destruct Hh as [_ Hh]. unfold RPCExecutionJob.saved_data. rewrite Hd. cbn [attr_get mbind result_bind].
  unfold py_or at 1. rewrite (truthy_equal _ _ Hdb Hb0).
  destruct (get "data" run_kwargs) as [| | | | | | | | | |rd]; cbn [get dict_get truthy]; try (by eexists).
  destruct Hh as [_ [-> | ->]]; cbn [truthy mbind result_bind]; [by eexists|].
  replace (b =? 0) with false by (symmetry; by apply Z.eqb_neq). by eexists.
Qed.
End JobFacts.

(** ** The sweep *)

Section SweepFacts.
Context `{PyLib} `{JsonSchema}.
Variable now : value.

(** A queued execution that its ledger agrees with. *)
Definition queued (x : stored) : Prop :=
  exists q, in_phase q (st_execution x) /\ phase_status q = QUEUED.
Definition row_sound (x : stored) : Prop := exists q, in_phase q (st_execution x).

(** An overdue restart: queued, and its latest queue event is old enough at [clock]. *)
Definition overdue (clock : Z) (x : stored) : bool :=
  has_status (st_execution x) QUEUED && _restart_queue_is_stale (pr_name (st_procedure x)) (_restart_queued_at x) clock.

Lemma has_status_spec ex st : has_status ex st = true <-> status (ex_cols ex) = status_value st.
Proof. unfold has_status. apply String.eqb_eq. Qed.

(** The locked helper: it fails an overdue restart, and changes nothing else. *)
Lemma expire_spec clock x :
  row_sound x -> exists x', expire now clock x = Ok (x', overdue clock x) /\ row_sound x' /\
    st_pk x' = st_pk x /\ st_procedure x' = st_procedure x /\ st_queued x' = st_queued x /\
    (overdue clock x = true -> status (ex_cols (st_execution x')) = status_value FAILED) /\
    (overdue clock x = false -> x' = x).
Proof.
  intros [q Hq]. unfold expire, overdue, expire_stale_restart_execution.
  destruct (has_status (st_execution x) QUEUED) eqn:Es; cbn [negb andb].
  2: { exists x. destruct x. split_and!; try done. by exists q. }
  destruct (_restart_queue_is_stale _ _ clock); cbn [negb].
  2: { exists x. destruct x. split_and!; try done. by exists q. }
  apply has_status_spec in Es. pose proof Hq as (_ & _ & Hst). rewrite Es in Hst. apply status_value_inj in Hst.
  assert (final q = false) as Hfin by (by destruct q as [|[]]).
  set (e := ExecutionFailed STALE_MESSAGE "RPC_CONTROL_QUEUE_STALE" now []).
  assert (fail (memory (fetch (st_execution x))) STALE_MESSAGE "RPC_CONTROL_QUEUE_STALE" now
          = _append_and_project (memory (fetch (st_execution x))) e) as Hop.
  { unfold fail, _ensure_not_terminal. rewrite (proj2 (proj2 (memory_in_phase _ (fetch _) eq_refl Hq))), terminal_phase, Hfin.
    reflexivity. }
  destruct (append_total (memory (fetch (st_execution x))) e (proj1 Hq)) as [ex1 Ha].
  assert (exists s, on_memory (fun y => _append_and_project y e) (fetch (st_execution x)) = Ok s) as [s Hs]
    by (eexists; unfold on_memory; by rewrite Ha).
  assert (next q (type_of e) = Some (At FAILED)) as Hn by (cbn [e type_of next]; by rewrite Hfin).
  destruct (synced_append q _ (fetch (st_execution x)) e s eq_refl Hq eq_refl Hn Hs) as (_ & Hf & _).
  assert (ex_pk (committed s) = ex_pk (st_execution x)) as Hpk.
  { unfold on_memory in Hs. rewrite Ha in Hs. by injection Hs as <-. }
  exists (with_execution x (committed s)). unfold _transition_locked.
  replace (on_memory _ (fetch (st_execution x))) with (Ok (E := exn) s)
    by (rewrite <- Hs; unfold on_memory; by rewrite Hop).
  split_and!; try done; [by exists (At FAILED)|]. intros _. apply Hf.
Qed.

(** What a sweep may do to a row. *)
Definition swept (clock : Z) (x x' : stored) : Prop :=
  st_pk x' = st_pk x /\ row_sound x' /\ (x' = x \/ overdue clock x = true /\ status (ex_cols (st_execution x')) = status_value FAILED).

Lemma failed_settled clock x : status (ex_cols (st_execution x)) = status_value FAILED -> overdue clock x = false.
Proof. intros Hs. unfold overdue, has_status. by rewrite Hs. Qed.

Lemma swept_trans clock x y z : swept clock x y -> swept clock y z -> swept clock x z.
Proof.
  intros (Hp & _ & Hy) (Hp' & Hs & Hz). split; [congruence|]. split; [done|].
  destruct Hz as [-> | [Ho Hf]]; [done|]. destruct Hy as [-> | [_ Hf']]; [by right|].
  by rewrite (failed_settled _ _ Hf') in Ho.
Qed.

Lemma swept_refl clock rows : Forall row_sound rows -> Forall2 (swept clock) rows rows.
Proof. induction 1; constructor; [|done]. split; [done|]. by split; [|left]. Qed.

Lemma swept_settled clock x y : swept clock x y -> overdue clock x = false -> overdue clock y = false.
Proof. intros (_ & _ & [-> | [E _]]) Ho; [done|congruence]. Qed.

Lemma expire_pk_spec clock pk rows :
  Forall row_sound rows -> NoDup (map st_pk rows) -> pk ∈ map st_pk rows ->
  exists rows' b, expire_pk now clock pk rows = Ok (rows', b) /\ Forall2 (swept clock) rows rows' /\
    forall x, x ∈ rows' -> st_pk x = pk -> overdue clock x = false.
Proof.
  induction 1 as [|x rest Hx Hrest IH]; cbn [map expire_pk]; [by intros _ ?%not_elem_of_nil|].
  intros [Hni Hnd]%NoDup_cons Hin. destruct (st_pk x =? pk) eqn:E; [apply Z.eqb_eq in E; subst pk|apply Z.eqb_neq in E].
  - destruct (expire_spec clock x Hx) as (x' & He & Hs & Hp & Hpr & Hq & Hf & Hn). rewrite He. cbn [mbind result_bind].
    exists (x' :: rest), (overdue clock x). split; [done|]. split.
    + constructor; [|by apply swept_refl]. split; [done|]. split; [done|].
      destruct (overdue clock x); [right; split; [done|by apply Hf]|left; by apply Hn].
    + intros y [->|Hy]%elem_of_cons Hpk.
      * destruct (overdue clock x) eqn:Eo; [apply failed_settled; by apply Hf|rewrite Hn; done].
      * exfalso. apply Hni. rewrite <- Hpk. by apply (list_elem_of_fmap_2 st_pk).
  - apply elem_of_cons in Hin as [Hin|Hin]; [by destruct E|].
    destruct (IH Hnd Hin) as (rest' & b & He & Hs & Hd). rewrite He. cbn [mbind result_bind].
    exists (x :: rest'), b. split; [done|]. split.
    + constructor; [|done]. split; [done|]. by split; [|left].
    + intros y [->|Hy]%elem_of_cons Hpk; [by destruct E|by apply Hd].
Qed.

Lemma Forall2_swept_trans clock a b c :
  Forall2 (swept clock) a b -> Forall2 (swept clock) b c -> Forall2 (swept clock) a c.
Proof.
  intros Hab. revert c. induction Hab as [|x y a b Hxy Hab IH]; intros c Hbc; inversion Hbc; subst; constructor; eauto.
  by eapply swept_trans.
Qed.
Lemma swept_sound clock a b : Forall2 (swept clock) a b -> Forall row_sound b /\ map st_pk b = map st_pk a.
Proof.
  induction 1 as [|x y a b (Hp & Hs & _) _ [IH1 IH2]]; [done|]. split; [by constructor|]. cbn. congruence.
Qed.

Lemma expire_all_spec clock pks rows :
  Forall row_sound rows -> NoDup (map st_pk rows) -> Forall (fun pk => pk ∈ map st_pk rows) pks ->
  exists rows' n, expire_all now clock pks rows = Ok (rows', n) /\ Forall2 (swept clock) rows rows' /\
    forall x, x ∈ rows' -> st_pk x ∈ pks -> overdue clock x = false.
Proof.
  revert rows. induction pks as [|pk pks IH]; intros rows Hs Hnd; cbn [expire_all].
  { intros _. exists rows, 0. split; [done|]. split; [by apply swept_refl|]. by intros x _ ?%not_elem_of_nil. }
  intros [Hin Hall]%Forall_cons. destruct (expire_pk_spec clock pk rows Hs Hnd Hin) as (rows1 & b & He & H1 & Hd1).
  rewrite He. cbn [mbind result_bind]. destruct (swept_sound _ _ _ H1) as [Hs1 Hp1].
  destruct (IH rows1 Hs1) as (rows2 & n & Hr & H2 & Hd2); [by rewrite Hp1|by rewrite Hp1|].
  rewrite Hr. cbn [mbind result_bind]. eexists rows2, _. split; [reflexivity|].
  split; [by eapply Forall2_swept_trans|]. intros x Hx [Hpk|Hpk]%elem_of_cons; [|by apply Hd2].
  apply list_elem_of_lookup in Hx as [i Hi]. destruct (Forall2_lookup_r _ _ _ _ _ H2 Hi) as (y & Hy & Hyx).
  eapply swept_settled; [exact Hyx|]. apply Hd1; [by eapply list_elem_of_lookup_2|]. destruct Hyx as [Hyx _]. congruence.
Qed.

Lemma latest_elem l e : latest l = Some e -> e ∈ l.
Proof.
  revert e. induction l as [|[n t] l IH]; intros e; cbn [latest]; [done|].
  destruct (latest l) as [[m u]|]; [destruct (n <=? m)|]; intros [= <-]; [right; by apply IH|left..].
Qed.
Lemma latest_some l : l <> [] -> is_Some (latest l).
Proof. destruct l as [|[n t] l]; [done|]. intros _. cbn. destruct (latest l) as [[m u]|]; [destruct (n <=? m)|]; eauto. Qed.

(** A restart with a queue event that is overdue when the query runs is a candidate. *)
Lemma overdue_candidate clock x :
  overdue clock x = true -> st_queued x <> [] ->
  st_pk x ∈ overdue_events (clock - CONTROL_QUEUE_MAX_AGE_SECONDS) x.
Proof.
  intros Ho Hq. unfold overdue, _restart_queue_is_stale, _restart_queued_at in Ho.
  destruct (latest_some _ Hq) as [[n t] Hl]. rewrite Hl in Ho. cbn in Ho. apply andb_true_iff in Ho as [Hs Ho].
  unfold overdue_events. rewrite Hs. destruct (String.eqb _ _); [|done]. cbn [negb andb] in *. bool_inv.
  apply latest_elem in Hl. apply list_elem_of_In, in_map_iff. exists (n, t). split; [done|]. apply filter_In.
  split; [by apply list_elem_of_In|]. apply Z.leb_le. cbn. lia.
Qed.
Lemma candidates_known clock x : Forall (fun pk => pk = st_pk x) (overdue_events clock x).
Proof.
  unfold overdue_events. destruct (_ && _); [|done]. apply Forall_forall. intros pk Hpk.
  apply list_elem_of_In, in_map_iff in Hpk as (e & <- & _). done.
Qed.

Lemma overdue_later clock later x : clock <= later -> overdue clock x = true -> overdue later x = true.
Proof.
  unfold overdue, _restart_queue_is_stale. intros Hle Ho. apply andb_true_iff in Ho as [-> Ho].
  destruct (negb _); [done|]. destruct (_restart_queued_at x); [|done]. bool_inv. apply Z.leb_le. lia.
Qed.

(** The sweep terminates every overdue restart and nothing else.  It never raises;
    a row that is not an overdue queued restart is left exactly as it was, whatever the
    batch; and when the batch holds all candidates, every queued restart with an audited
    queue event that was overdue when the sweep started ends failed. *)
Theorem sweep_ends_overdue_restarts query_clock clock batch rows :
  Forall row_sound rows -> NoDup (map st_pk rows) -> query_clock <= clock ->
  exists rows' n, expire_stale_restart_executions now query_clock clock batch rows = Ok (rows', n) /\
    Forall2 (fun x x' => (overdue clock x = false -> x' = x) /\
      ((length (concat (map (overdue_events (query_clock - CONTROL_QUEUE_MAX_AGE_SECONDS)) rows)) <= batch)%nat ->
       overdue query_clock x = true -> st_queued x <> [] ->
       status (ex_cols (st_execution x')) = status_value FAILED)) rows rows'.
Proof.
  intros Hs Hnd Hle. unfold expire_stale_restart_executions. cbv zeta.
  set (candidates := concat _). assert (Forall (fun pk => pk ∈ map st_pk rows) candidates) as Hall.
  { unfold candidates. clear -rows. apply Forall_concat, Forall_map, Forall_forall. intros x Hx. cbn.
    eapply Forall_impl; [apply candidates_known|]. intros pk ->. by apply (list_elem_of_fmap_2 st_pk). }
  destruct (expire_all_spec clock (take batch candidates) rows Hs Hnd) as (rows' & n & Hr & H2 & Hd); [by apply Forall_take|].
  exists rows', n. split; [exact Hr|]. apply Forall2_same_length_lookup. split; [by eapply Forall2_length|].
  intros i x x' Hx Hx'. destruct (Forall2_lookup_lr _ _ _ _ _ _ H2 Hx Hx') as (Hp & _ & Hc). split.
  - intros Ho. destruct Hc as [?|[E _]]; [done|congruence].
  - intros Hlen Ho Hq. destruct Hc as [->|[_ ?]]; [|done]. exfalso.
    assert (overdue clock x = false); [|by rewrite (overdue_later query_clock clock x Hle Ho) in *].
    apply (Hd x); [by eapply list_elem_of_lookup_2|]. rewrite take_ge by done. unfold candidates.
    apply list_elem_of_In, in_concat. exists (overdue_events (query_clock - CONTROL_QUEUE_MAX_AGE_SECONDS) x).
    split; [|by apply list_elem_of_In, overdue_candidate]. apply in_map, list_elem_of_In. by eapply list_elem_of_lookup_2.
Qed.
End SweepFacts.

(** ** Examples *)

Section Witnesses.
Import MiniSchema Demo.

(** A parent that drops the data, and arguments handed back without identifiers. *)
Definition forgetful (_ : dict) : job := {| job_data := VNone; job_object_id := VNone |}.
Definition demo_arguments : dict :=
  [("execution_pk", VInt 7); ("backend_pk", VInt 1); ("procedure_name", VStr "service.pbs.1.status")].
Definition demo_job : job :=
  {| job_data := VDict [("backend_pk", VInt 1); ("execution_pk", VInt 7)]; job_object_id := VNone |}.
Lemma job_runs_its_execution_witness :
  exists v, RPCExecutionJob.run (fun _ => Some (VInt 9)) demo_job [] = Ok (7, v) /\ py_eq v (VInt 1).
Proof.
  assert (RPCExecutionJob.enqueue forgetful demo_arguments = Ok demo_job) as He by reflexivity.
  assert (7 <> 0) as H7 by lia. assert (1 <> 0) as H1 by lia.
  assert (handed 7 1 []) as Hh by (split; [by left|done]).
  exact (job_runs_its_execution forgetful (fun _ => Some (VInt 9)) demo_arguments [] demo_job 7 1 (VInt 9) He
    eq_refl eq_refl H7 H1 Hh eq_refl).
Defined.

(** Two queued restarts: one overdue, one young. *)
Definition demo_restart_row (pk queued_at : Z) : stored :=
  {| st_execution := {| ex_pk := pk; ex_procedure_name := ex_procedure_name demo_queued;
       ex_result_schema := ex_result_schema demo_queued; ex_params := ex_params demo_queued;
       ex_requested_by_id := ex_requested_by_id demo_queued; ex_cols := ex_cols demo_queued;
       ex_events := ex_events demo_queued |};
     st_procedure := demo_restart; st_queued := [(2, queued_at)] |}.
Definition demo_rows : list stored := [demo_restart_row 7 0; demo_restart_row 8 500].
Example demo_sweep :
  (fun r => (map (fun x => status (ex_cols (st_execution x))) r.1, r.2)) <$>
    expire_stale_restart_executions demo_now 700 700 1000 demo_rows = Ok (["failed"; "queued"], 1).
Proof. vm_compute. reflexivity. Qed.

Lemma demo_rows_sound : Forall row_sound demo_rows.
Proof.
  destruct (agg_reachable_phase _ _ demo_fresh demo_reach_queued) as (q & Hq).
  repeat constructor; exists q; apply (in_phase_ext q demo_queued); done.
Defined.
Lemma sweep_ends_overdue_restarts_witness :
  exists rows' n, expire_stale_restart_executions demo_now 700 700 1000 demo_rows = Ok (rows', n) /\
    forall x', rows' !! 1%nat = Some x' -> x' = demo_restart_row 8 500.
Proof.
  assert (NoDup (map st_pk demo_rows)) as Hnd by (apply (bool_decide_eq_true (NoDup _)); reflexivity).
  destruct (sweep_ends_overdue_restarts demo_now 700 700 1000 demo_rows demo_rows_sound Hnd (Z.le_refl 700))
    as (rows' & n & Hr & Hf).
  exists rows', n. split; [exact Hr|]. intros x' Hx'.
  destruct (Forall2_lookup_r _ _ _ _ _ Hf Hx') as (x & Hx & Hsame & _). injection Hx as <-. by apply Hsame.
Defined.
End Witnesses.
