(* ===== verification/OpenBao.v ===== *)
(** * Secret ingress of OpenBao parameters

    [netbox_rpc/openbao_validation.py]: the scan of the parameters of an OpenBao
    procedure before an execution is stored.  Every key and every string is checked
    by shape and by assignment, read as a JSON document, and searched for HCL
    quoted strings, whose decoded text is checked and read as JSON again.

    Text is a list of code points.  [json.loads] is a decoder of the standard
    grammar; it refuses an integer of more than 4300 digits, as Python does, and
    does not bound the nesting.  The entropy of an identifier is compared in exact
    arithmetic where the code uses floats.  The digits of [\d] are the ASCII ones,
    and [str.lower] is that of Latin-1 with U+0130 and U+212A, the only other code
    points whose lower case holds an ASCII letter. *)

From S2P Require Import Prelude PyValue Spans SpanFacts MaskFacts PyRegex SecretPatterns.

Local Open Scope nat_scope.

(** ** Trees of text *)

Inductive tree : Type :=
| TAtom
| TText (t : text)
| TSeq (l : list tree)
| TMap (d : list (text * tree)).

(** What the scan sees of a Python value; a set is not a [Sequence]. *)
Fixpoint tree_of (v : value) : tree :=
  match v with
  | VStr s => TText (codes s)
  | VList l | VTuple l => TSeq (map tree_of l)
  | VDict d => TMap (map (fun kv => (codes kv.1, tree_of kv.2)) d)
  | _ => TAtom
  end.

Section TreeInd.
Variable P : tree -> Prop.
Hypothesis HAtom : P TAtom.
Hypothesis HText : forall t, P (TText t).
Hypothesis HSeq : forall l, Forall P l -> P (TSeq l).
Hypothesis HMap : forall d, Forall (fun kv => P kv.2) d -> P (TMap d).
Fixpoint tree_ind_nested (v : tree) : P v :=
match v with
| TAtom => HAtom
| TText t => HText t
| TSeq l => HSeq l ((fix go l : Forall P l :=
  match l with [] => Forall_nil_2 P | x :: r => Forall_cons_2 P x r (tree_ind_nested x) (go r) end) l)
| TMap d => HMap d ((fix go d : Forall (fun kv => P kv.2) d :=
  match d with
  | [] => Forall_nil_2 _
  | (k, x) :: r => Forall_cons_2 (fun kv => P kv.2) (k, x) r (tree_ind_nested x) (go r)
  end) d)
end.
End TreeInd.

(** ** [json.loads] *)

Definition json_space (c : char) : bool := oneof [32; 9; 10; 13]%N c.
Fixpoint skip_space (t : text) : text :=
  match t with c :: r => if json_space c then skip_space r else t | [] => [] end.

Definition hex_value (c : char) : option N :=
  if between 48 57 c then Some (c - 48)%N
  else if between 65 70 c then Some (c - 55)%N
  else if between 97 102 c then Some (c - 87)%N
  else None.
Fixpoint hex_digits (n : nat) (acc : N) (t : text) : option (N * text) :=
  match n, t with
  | O, _ => Some (acc, t)
  | S n, c :: r => match hex_value c with Some d => hex_digits n (16 * acc + d)%N r | None => None end
  | S _, [] => None
  end.

(** The character after a backslash, other than [u]. *)
Definition json_escape (c : char) : option char :=
  match List.find (fun p => (p.1 =? c)%N)
    [(34, 34); (92, 92); (47, 47); (98, 8); (102, 12); (110, 10); (114, 13); (116, 9)]%N with
  | Some p => Some p.2
  | None => None
  end.

Definition high_surrogate (u : N) : bool := between 55296 56319 u.
Definition low_surrogate (u : N) : bool := between 56320 57343 u.
Definition join_surrogates (hi lo : N) : N := (65536 + (hi - 55296) * 1024 + (lo - 56320))%N.

(** What follows [\u]: one code unit, or a pair of surrogates as one code point. *)
Definition second_unit (t : text) : option (option (N * text)) :=
  match t with
  | b :: u :: r =>
      if (b =? BSL)%N && (u =? 117)%N
      then match hex_digits 4 0 r with Some x => Some (Some x) | None => None end
      else Some None
  | _ => Some None
  end.
Definition json_unicode (t : text) : option (char * text) :=
  match hex_digits 4 0 t with
  | None => None
  | Some (u, r) =>
      if negb (high_surrogate u) then Some (u, r) else
      match second_unit r with
      | None => None
      | Some (Some (v, r')) => if low_surrogate v then Some (join_surrogates u v, r') else Some (u, r)
      | Some None => Some (u, r)
      end
  end.
(** One character of a string, which is neither the closing quote nor a control. *)
Definition json_char (c : char) (r : text) : option (char * text) :=
  if (c =? BSL)%N then
    match r with
    | [] => None
    | e :: r => if (e =? 117)%N then json_unicode r
                else match json_escape e with Some d => Some (d, r) | None => None end
    end
  else if (c <? 32)%N then None else Some (c, r).

(** A string, after its opening quote. *)
Fixpoint json_string (n : nat) (t : text) : option (text * text) :=
  match n, t with
  | S n, c :: r =>
      if (c =? DQ)%N then Some ([], r) else
      match json_char c r with
      | Some (d, r) => match json_string n r with Some (s, r) => Some (d :: s, r) | None => None end
      | None => None
      end
  | _, _ => None
  end.

Fixpoint digits (t : text) : nat * text :=
  match t with
  | c :: r => if digit c then let '(n, r) := digits r in (S n, r) else (O, t)
  | [] => (O, [])
  end.
(** [t] without a first character of the class. *)
Definition skip_one (p : char -> bool) (t : text) : text :=
  match t with c :: r => if p c then r else t | [] => [] end.
(** The text after a mark and at least one digit, or [t] itself. *)
Definition marked_digits (mark sign : char -> bool) (t : text) : text :=
  match t with
  | c :: r => if mark c then match digits (skip_one sign r) with (O, _) => t | (_, r) => r end else t
  | [] => []
  end.

(** The text after a JSON number: a sign, digits without a leading zero, a fraction
    and an exponent. *)
Definition json_number (t : text) : option text :=
  let t := skip_one (chars "-") t in
  let '(count, r) := match t with
                     | c :: r => if (c =? 48)%N then (1, r) else digits t
                     | [] => (O, [])
                     end in
  if count =? 0 then None else
  let r' := marked_digits (chars "eE") (chars "+-") (marked_digits (chars ".") (fun _ => false) r) in
  if (length r' =? length r) && (4300 <? count) then None else Some r'.

Definition starts (w t : text) : option text :=
  if bool_decide (take (length w) t = w) then Some (drop (length w) t) else None.
(** [null], [true], [false], [NaN], [Infinity], [-Infinity] or a number. *)
Definition json_atom (t : text) : option text :=
  match List.find (fun w => bool_decide (take (length w) t = w))
    (map codes ["null"; "true"; "false"; "NaN"; "Infinity"; "-Infinity"]) with
  | Some w => starts w t
  | None => json_number t
  end.

(** A repeated key keeps its place and takes the later value. *)
Fixpoint map_put (k : text) (v : tree) (d : list (text * tree)) : list (text * tree) :=
  match d with
  | [] => [(k, v)]
  | (k', v') :: r => if bool_decide (k' = k) then (k', v) :: r else (k', v') :: map_put k v r
  end.

(** The text after an expected character. *)
Definition expect (c : char) (t : text) : option text :=
  match t with d :: r => if (d =? c)%N then Some r else None | [] => None end.

Fixpoint json_value (n : nat) (t : text) : option (tree * text) :=
  match n, t with
  | S n, c :: r =>
      if (c =? DQ)%N then match json_string (length t) r with Some (s, r) => Some (TText s, r) | None => None end
      else if (c =? 123)%N then
        match expect 125%N (skip_space r) with
        | Some r => Some (TMap [], r)
        | None => json_members n [] (skip_space r)
        end
      else if (c =? 91)%N then
        match expect 93%N (skip_space r) with
        | Some r => Some (TSeq [], r)
        | None => json_elements n [] (skip_space r)
        end
      else match json_atom t with Some r => Some (TAtom, r) | None => None end
  | _, _ => None
  end
with json_members (n : nat) (acc : list (text * tree)) (t : text) : option (tree * text) :=
  match n with
  | O => None
  | S n =>
      r ← expect DQ t;
      '(k, r) ← json_string (length t) r;
      r ← expect 58%N (skip_space r);
      '(v, r) ← json_value n (skip_space r);
      let r := skip_space r in
      match expect 125%N r with
      | Some r => Some (TMap (map_put k v acc), r)
      | None => r ← expect 44%N r; json_members n (map_put k v acc) (skip_space r)
      end
  end
with json_elements (n : nat) (acc : list tree) (t : text) : option (tree * text) :=
  match n with
  | O => None
  | S n =>
      '(v, r) ← json_value n t;
      let r := skip_space r in
      match expect 93%N r with
      | Some r => Some (TSeq (acc ++ [v]), r)
      | None => r ← expect 44%N r; json_elements n (acc ++ [v]) (skip_space r)
      end
  end.

(** Every nested call consumes a character, so the length bounds the depth. *)
Definition json_loads (t : text) : option tree :=
  match json_value (2 * length t) (skip_space t) with
  | Some (v, r) => match skip_space r with [] => Some v | _ => None end
  | None => None
  end.

(** ** The patterns *)

Definition OPENBAO_PROCEDURE_PREFIX : string := "service.openbao.1.".
Definition OPENBAO_MAX_STRING_BYTES : N := (1024 * 1024)%N.

Definition _SENSITIVE_FIELD_COMPONENTS : list string :=
  ["authorization"; "credential"; "credentials"; "passphrase"; "passwd"; "password"; "pin";
   "secret"; "secrets"; "token"; "tokens"; "unseal"].
Definition _SENSITIVE_KEY_PREFIXES : list string :=
  ["access"; "account"; "api"; "client"; "current"; "previous"; "private"; "root"; "shared"].
Definition _NON_SECRET_FIELD_NAMES : list string :=
  ["key_id"; "key_label"; "key_name"; "tls_key_file"; "token_label"].
Definition _IDENTIFIER_FIELD_NAMES : list string :=
  ["mount_path"; "peer_id"; "policy_name"; "snapshot_name"].

Definition among (t : text) (names : list string) : bool := bool_decide (t ∈ map codes names).

Section Patterns.
Local Open Scope re_scope.

Definition field_char : re := RSet (key_char true).
Definition not_after_field : re := RNotBehind (key_char true).
Definition colon_or_equals : re := RSet (chars ":=").
Definition hex_char : re := RSet (fun c => digit c || between 65 70 c || between 97 102 c)%bool.
Definition dot : re := notset [LF].

(** The value of an assignment; either quote character. *)
Definition assigned_string (q : char) : re :=
ch q ++ star ((ch BSL ++ dot) || notset [q; BSL; CR; LF]) ++ ch q.
Definition bare_char : re := RSet (fun c => negb (is_space c || chars ",}]" c))%bool.
Definition _ASSIGNMENT_RE : re :=
RGroup "prefix" (not_after_field ++ RGroup "key" (quote ++ plus field_char ++ quote)
               ++ star space ++ colon_or_equals ++ star space)
++ RGroup "value" (assigned_string DQ || assigned_string SQ
                 || (lit_i "bearer" ++ plus space ++ plus bare_char) || plus bare_char).

Definition unicode_escape : re :=
ch BSL ++ ((lit_i "u" ++ repeat_exact 4 hex_char) || (lit_i "u" ++ repeat_exact 8 hex_char)
         || (lit_i "x" ++ repeat_exact 2 hex_char)).
Definition _ESCAPED_ASSIGNMENT_KEY_RE : re :=
not_after_field ++ plus (field_char || unicode_escape) ++ unicode_escape
++ star (field_char || unicode_escape) ++ star space ++ colon_or_equals.

Definition quoted (q : char) : re := ch q ++ star ((ch BSL ++ any) || notset [q; BSL]) ++ ch q.
Definition _QUOTED_STRING_RE : re := quoted DQ || quoted SQ.

Definition _TOKEN_LITERAL_RE : re :=
RWordB ++ (lit_i "hvs" || lit_i "hvb" || lit_i "s") ++ lit "."
++ RRep true 8 None (RSet (fun c => letter_i c || digit c || chars "_-" c)%bool) ++ RWordB.

Definition base64_char (c : char) : bool := ascii_letter c || digit c || chars "+/_-" c.
Definition base64_end : re := RNotLook (RSet (fun c => base64_char c || chars "=" c)%bool).
Definition base64_run : re :=
RRep true 40 None (RSet base64_char) ++ RRep true 0 (Some 2) (lit "=").
Definition _BASE64_MATERIAL_RE : re :=
RNotBehind (fun c => base64_char c || chars "=" c)%bool
++ RLook (base64_run ++ base64_end)
++ RLook (star (RSet base64_char)
        ++ RSet (fun c => between 71 90 c || between 103 122 c || chars "+/_-" c)%bool)
++ base64_run ++ base64_end.

Definition _HEX_MATERIAL_RE : re :=
RNotBehind (fun c => digit c || between 65 70 c || between 97 102 c)%bool
++ RRep true 64 None hex_char ++ RNotLook hex_char.
Definition _PRIVATE_KEY_RE : re :=
lit "-----BEGIN " ++ star (RSet (fun c => between 65 90 c || (c =? 32)%N)%bool) ++ lit "PRIVATE KEY-----".
(** The same pattern as in the event store. *)
Definition _AUTHORIZATION_RE : re := bearer.
Definition _URL_CREDENTIAL_RE : re :=
RWordB ++ RSet letter_i ++ star (RSet (fun c => letter_i c || digit c || chars "+.-" c)%bool)
++ lit "://" ++ plus (RSet (fun c => negb (is_space c || chars "/:@" c)))
++ ch 58%N ++ plus (RSet (fun c => negb (is_space c || chars "/@" c))) ++ ch 64%N.
Definition _KEY_MATERIAL_LINE_RE : re :=
RBol ++ star space
++ ((lit_i "unseal" ++ plus space ++ lit_i "key" ++ opt (plus space ++ plus (RSet digit)))
  || (lit_i "initial" ++ plus space ++ lit_i "root" ++ plus space ++ lit_i "token")
  || (lit_i "root" ++ plus space ++ lit_i "token"))
++ star space ++ RSet (chars "=:") ++ star space ++ star dot ++ REol.

Definition _SECRET_SHAPE_PATTERNS : list re :=
[_PRIVATE_KEY_RE; _AUTHORIZATION_RE; _URL_CREDENTIAL_RE; _TOKEN_LITERAL_RE; _HEX_MATERIAL_RE;
 _KEY_MATERIAL_LINE_RE].
End Patterns.

(** ** Field names *)

Definition lower_char (c : char) : text :=
  if between 65 90 c || (between 192 222 c && negb (c =? 215)%N) then [(c + 32)%N]
  else if (c =? 8490)%N then [107%N] else if (c =? 304)%N then [105; 775]%N else [c].
Definition lower (t : text) : text := concat (map lower_char t).

(** [t.strip(chars)]. *)
Fixpoint lstrip (p : char -> bool) (t : text) : text :=
  match t with c :: r => if p c then lstrip p r else t | [] => [] end.
Definition rstrip (p : char -> bool) (t : text) : text := rev (lstrip p (rev t)).
Definition strip_chars (p : char -> bool) (t : text) : text := rstrip p (lstrip p t).

(** [re.sub(r"[.-]+", "_", t)]; [joined]: the character before was a dot or a dash. *)
Fixpoint join_words (joined : bool) (t : text) : text :=
  match t with
  | [] => []
  | c :: r =>
      if chars ".-" c then (if joined then [] else codes "_") ++ join_words true r
      else c :: join_words false r
  end.
(** The non-empty parts of [t.split("_")]. *)
Fixpoint parts (current : text) (t : text) : list text :=
  let flush := match current with [] => [] | _ => [rev current] end in
  match t with
  | [] => flush
  | c :: r => if chars "_" c then flush ++ parts [] r else parts (c :: current) r
  end.
Fixpoint adjacent (p : text -> text -> bool) (l : list text) : bool :=
  match l with
  | a :: (b :: _) as r => p a b || adjacent p r
  | _ => false
  end.

Definition _sensitive_field_name (value : text) : bool :=
  let normalized := join_words false (lower (strip_chars (oneof [DQ; SQ]) value)) in
  let components := parts [] normalized in
  if among normalized _NON_SECRET_FIELD_NAMES then false
  else if bool_decide (components = []) then false
  else if existsb (fun part => among part _SENSITIVE_FIELD_COMPONENTS) components then true
  else if among normalized ["auth_info"; "connection_string"; "connection_url"; "key"; "keys"] then true
  else adjacent (fun a b => among a _SENSITIVE_KEY_PREFIXES && among b ["key"; "keys"]) components.

(** ** HCL strings *)

Definition _SIMPLE_HCL_ESCAPES : list (char * char) :=
  [(34, 34); (39, 39); (92, 92); (110, 10); (114, 13); (116, 9)]%N.
Definition simple_escape (c : char) : option char :=
  match List.find (fun p => (p.1 =? c)%N) _SIMPLE_HCL_ESCAPES with Some p => Some p.2 | None => None end.

(** [None] is [ValueError]; the fuel is the length of the text. *)
Fixpoint hcl_loop (n : nat) (t : text) : option text :=
  match n, t with
  | _, [] => Some []
  | O, _ => None
  | S n, c :: r =>
      if negb (c =? BSL)%N then cons c <$> hcl_loop n r else
      match r with
      | [] => None
      | e :: r =>
          match simple_escape e with
          | Some d => cons d <$> hcl_loop n r
          | None =>
              if chars "uU" e then
                match hex_digits (if chars "u" e then 4 else 8) 0 r with
                | Some (u, r) => if (1114111 <? u)%N then None else cons u <$> hcl_loop n r
                | None => None
                end
              else None
          end
      end
  end.
Definition _decode_hcl_escapes (t : text) : option text := hcl_loop (length t) t.

(** [pattern.sub(replace, value)], and the literals that were decoded. *)
Fixpoint replace_quoted (matches : list match_) (from : nat) (t : text) : text * list text :=
  match matches with
  | [] => (drop from t, [])
  | m :: more =>
      let whole := take (m_end m - m_start m) (drop (m_start m) t) in
      let body := take (length whole - 2) (drop 1 whole) in
      let '(tail, literals) := replace_quoted more (m_end m) t in
      let gap := take (m_start m - from) (drop from t) in
      match _decode_hcl_escapes body with
      | Some decoded => (gap ++ decoded ++ tail, decoded :: literals)
      | None => (gap ++ whole ++ tail, literals)
      end
  end.
Definition line_separators (t : text) : text :=
  map (fun c => if (c =? 8232)%N || (c =? 8233)%N then LF else c) t.
Definition _decode_hcl_quoted_strings (value : text) : text * list text :=
  let '(decoded, literals) := replace_quoted (finditer _QUOTED_STRING_RE value) 0 value in
  (line_separators decoded, literals).

(** ** The checks of one text *)

Inductive ingress : Type :=
| SecretShaped
| TooLong
| NotObject
| UnicodeEncodeError.
#[export] Instance ingress_eq_dec : EqDecision ingress.
Proof. solve_decision. Defined.
Notation scanned := (result ingress unit).

(** [len(value.encode("utf-8"))]; a surrogate has no encoding. *)
Fixpoint utf8_size (t : text) : result ingress N :=
  match t with
  | [] => Ok 0%N
  | c :: r =>
      if between 55296 57343 c then Err UnicodeEncodeError else
      n ← utf8_size r;
      Ok ((if c <? 128 then 1 else if c <? 2048 then 2 else if c <? 65536 then 3 else 4) + n)%N
  end.

(** [Counter(value).values()]. *)
Fixpoint count (c : char) (t : text) : N :=
  match t with [] => 0%N | d :: r => ((if c =? d then 1 else 0) + count c r)%N end.
Definition counts (t : text) : list N := map (fun c => count c t) (remove_dups t).
(** [_shannon_entropy_bits(t) < 4.5], with both sides multiplied by twice the length
    and raised to a power of two. *)
Definition low_entropy (t : text) : bool :=
  match t with
  | [] => true
  | _ =>
      let n := N.of_nat (length t) in
      (n ^ (2 * n) <? 2 ^ (9 * n) * foldr (fun c acc => c ^ (2 * c) * acc) 1 (counts t))%N
  end.

Definition matched (m : match_) (t : text) : text := take (m_end m - m_start m) (drop (m_start m) t).

Definition secret_shape (identifier_field : option text) (value : text) : bool :=
  let base64_matches := finditer _BASE64_MATERIAL_RE value in
  existsb (fun p => match search p value 0 with Some _ => true | None => false end) _SECRET_SHAPE_PATTERNS
  || negb (bool_decide (base64_matches = [])
           || (match identifier_field with Some f => among f _IDENTIFIER_FIELD_NAMES | None => false end
               && forallb (fun m => (m_start m =? 0) && (m_end m =? length value)
                                    && low_entropy (rstrip (chars "=") (matched m value))) base64_matches)).
Definition _reject_secret_shapes (identifier_field : option text) (value : text) : scanned :=
  require (negb (secret_shape identifier_field value)) SecretShaped.

Definition sensitive_assignment (value : text) : bool :=
  existsb (fun m => match group "key" (m_groups m) with
                    | Some (_, _, key) => _sensitive_field_name key
                    | None => false
                    end) (finditer _ASSIGNMENT_RE value).
Definition _reject_sensitive_assignments (value : text) : scanned :=
  require (negb (sensitive_assignment value)) SecretShaped.

(** ** The scan *)

Fixpoint each {A} (f : A -> scanned) (l : list A) : scanned :=
  match l with [] => Ok tt | x :: r => _ ← f x; each f r end.

Section ScanValue.
(** The scan of a text, given the field name it stands under. *)
Variable scan_text : option text -> text -> scanned.
Fixpoint scan_value (identifier_field : option text) (allow_identifier_fields : bool) (v : tree) : scanned :=
match v with
| TMap d =>
each (fun kv =>
  _ ← scan_text None kv.1;
  _ ← require (negb (_sensitive_field_name kv.1)) SecretShaped;
  scan_value (if allow_identifier_fields && among kv.1 _IDENTIFIER_FIELD_NAMES then Some kv.1 else None)
    false kv.2) d
| TSeq l => each (scan_value None false) l
| TText t => scan_text identifier_field t
| TAtom => Ok tt
end.
End ScanValue.

(** [n] bounds the length of the text: what a text hides is shorter than the text. *)
Fixpoint scan_text (n : nat) (decode_documents : bool) (identifier_field : option text) (value : text) : scanned :=
  match n with
  | O => Ok tt
  | S n =>
      let scan_json t :=
        match json_loads t with
        | Some decoded => scan_value (scan_text n false) None false decoded
        | None => Ok tt
        end in
      size ← utf8_size value;
      _ ← require (negb (OPENBAO_MAX_STRING_BYTES <? size)%N) TooLong;
      _ ← _reject_secret_shapes identifier_field value;
      _ ← _reject_sensitive_assignments value;
      _ ← (if decode_documents then scan_json value else Ok tt);
      let '(decoded_hcl, decoded_literals) := _decode_hcl_quoted_strings value in
      _ ← each (fun literal => _ ← _reject_secret_shapes None literal; scan_json literal) decoded_literals;
      _ ← (if bool_decide (decoded_hcl = value) then Ok tt else
             _ ← _reject_secret_shapes None decoded_hcl;
             _reject_sensitive_assignments decoded_hcl);
      require (match search _ESCAPED_ASSIGNMENT_KEY_RE value 0 with Some _ => false | None => true end) SecretShaped
  end.

(** The scan with enough fuel for the text at hand. *)
Definition _scan_text (decode_documents : bool) (identifier_field : option text) (value : text) : scanned :=
  scan_text (S (length value)) decode_documents identifier_field value.
Definition _scan_value (decode_documents allow_identifier_fields : bool) (v : tree) : scanned :=
  scan_value (_scan_text decode_documents) None allow_identifier_fields v.

Definition validate_openbao_params_for_persistence (procedure_name : string) (params : value) : scanned :=
  if negb (str_startswith OPENBAO_PROCEDURE_PREFIX procedure_name) then Ok tt
  else match params with
       | VDict _ => _scan_value true true (tree_of params)
       | _ => Err NotObject
       end.
