(* ===== verification/OpenBaoProperties.v ===== *)
(** * Properties of the OpenBao secret ingress

    What a JSON document or an HCL literal hides is shorter than the text around it,
    so the scan ends; it accepts exactly the parameters that are clean in the sense
    of an unbounded reference definition, and accepted parameters hide no secret, by
    name or by text, under any wrapping. *)

From S2P Require Import Prelude PyValue Spans SpanFacts MaskFacts PyRegex SecretPatterns OpenBao.

Local Open Scope nat_scope.

(** ** The texts of a tree *)

(** Every text with the field name it is scanned under; keys have none. *)
Fixpoint texts (identifier_field : option text) (allow : bool) (v : tree) : list (option text * text) :=
  match v with
  | TAtom => []
  | TText t => [(identifier_field, t)]
  | TSeq l => concat (map (texts None false) l)
  | TMap d =>
      concat (map (fun kv =>
        (None, kv.1)
        :: texts (if allow && among kv.1 _IDENTIFIER_FIELD_NAMES then Some kv.1 else None) false kv.2) d)
  end.
Fixpoint names (v : tree) : list text :=
  match v with
  | TAtom | TText _ => []
  | TSeq l => concat (map names l)
  | TMap d => concat (map (fun kv => kv.1 :: names kv.2) d)
  end.

Lemma elem_of_concat_map {A B} (f : A -> list B) (l : list A) x :
  x ∈ concat (map f l) <-> exists a, a ∈ l /\ x ∈ f a.
Proof. induction l as [|a l IH]; cbn; [set_solver|]. rewrite elem_of_app, IH. set_solver. Qed.

Lemma each_Ok {A} (f : A -> scanned) l : each f l = Ok tt <-> forall x, x ∈ l -> f x = Ok tt.
Proof.
  induction l as [|x l IH]; cbn; [set_solver|]. split.
  - intros (u & Hx & Hl)%bind_Ok y [->|Hy]%elem_of_cons; [by destruct u|by apply IH].
  - intros H. rewrite (H x) by set_solver. apply IH. set_solver.
Qed.

Lemma scan_value_Ok scan f allow v :
  scan_value scan f allow v = Ok tt <->
  (forall g t, (g, t) ∈ texts f allow v -> scan g t = Ok tt) /\
  (forall k, k ∈ names v -> _sensitive_field_name k = false).
Proof.
  revert f allow. induction v as [|t|l IH|d IH] using tree_ind_nested; intros f allow; cbn [scan_value texts names].
  - split; [|done]. intros _. split; set_solver.
  - split; [|set_solver]. intros H. split; set_solver.
  - rewrite each_Ok, Forall_forall in *. setoid_rewrite elem_of_concat_map. split.
    + intros H. split; [intros g t|intros k]; intros (v & Hv & Hx); pose proof (H v Hv) as Hs; apply (IH v Hv) in Hs as [??]; eauto.
    + intros [Ht Hn] v Hv. apply (IH v Hv). split; intros; [apply Ht|apply Hn]; eauto.
  - rewrite each_Ok, Forall_forall in *. setoid_rewrite elem_of_concat_map. split.
    + intros H. split; [intros g t|intros k]; intros (kv & Hv & Hx%elem_of_cons);
        specialize (H kv Hv) as (u & Hk & (w & Hs & Hc)%bind_Ok)%bind_Ok; apply (IH kv Hv) in Hc as [Hc Hd];
        apply require_Ok in Hs; bool_inv; destruct u, Hx as [Hx|Hx]; try (injection Hx as -> ->); subst; eauto.
    + intros [Ht Hn] kv Hv. rewrite (Ht None kv.1), (Hn kv.1) by (exists kv; set_solver). cbn.
      apply (IH kv Hv). split; [intros g t Hg; apply Ht|intros k Hk; apply Hn]; exists kv; set_solver.
Qed.

(** ** Decoded text is shorter *)

Lemma skip_space_length t : length (skip_space t) <= length t.
Proof. induction t as [|c t IH]; cbn [skip_space length]; [done|]. destruct (json_space c); cbn [length]; lia. Qed.
Lemma hex_digits_length n acc t u r : hex_digits n acc t = Some (u, r) -> length r <= length t.
Proof.
  revert acc t. induction n as [|n IH]; intros acc t; cbn; [by intros [= _ ->]|].
  destruct t as [|c t]; [done|]. destruct (hex_value c); [|done]. intros H%IH. cbn. lia.
Qed.
Lemma digits_length t n r : digits t = (n, r) -> length r <= length t.
Proof.
  revert n r. induction t as [|c t IH]; intros n r; cbn; [by intros [= _ <-]|].
  destruct (digit c); [|by intros [= _ <-]]. destruct (digits t) as [m u]. intros [= _ <-].
  specialize (IH m u eq_refl). cbn. lia.
Qed.
Lemma skip_one_length p t : length (skip_one p t) <= length t.
Proof. destruct t as [|c t]; cbn; [done|]. destruct (p c); cbn; lia. Qed.
Lemma marked_digits_length mark sign t : length (marked_digits mark sign t) <= length t.
Proof.
  destruct t as [|c t]; cbn; [done|]. destruct (mark c); [|done].
  destruct (digits (skip_one sign t)) as [n r] eqn:E. apply digits_length in E.
  pose proof (skip_one_length sign t). destruct n; cbn; lia.
Qed.
Lemma json_number_length t r : json_number t = Some r -> length r <= length t.
Proof.
  unfold json_number. pose proof (skip_one_length (chars "-") t). set (u := skip_one (chars "-") t) in *.
  destruct (match u with [] => _ | _ => _ end) as [n s] eqn:E.
  assert (length s <= length u).
  { destruct u as [|c u]; [by injection E as _ <-|]. destruct (c =? 48)%N; [injection E as _ <-; cbn; lia|].
    by apply digits_length in E. }
  destruct (n =? 0); [done|].
  match goal with |- context [marked_digits ?m ?g (marked_digits ?m' ?g' s)] =>
    pose proof (marked_digits_length m g (marked_digits m' g' s)); pose proof (marked_digits_length m' g' s) end.
  destruct (_ && _); [done|]. intros [= <-]. lia.
Qed.
Lemma json_atom_length t r : json_atom t = Some r -> length r <= length t.
Proof.
  unfold json_atom. destruct (List.find _ _); [|apply json_number_length]. unfold starts.
  case_bool_decide; [|done]. intros [= <-]. rewrite length_drop. lia.
Qed.
Lemma expect_length c t r : expect c t = Some r -> length r < length t.
Proof. destruct t as [|d t]; cbn; [done|]. destruct (d =? c)%N; [|done]. intros [= ->]. lia. Qed.

Lemma json_unicode_length t c r : json_unicode t = Some (c, r) -> length r <= length t.
Proof.
  unfold json_unicode. destruct (hex_digits 4 0 t) as [[u r1]|] eqn:E; [|done]. apply hex_digits_length in E.
  destruct (negb _); [by intros [= _ <-]|].
  destruct (second_unit r1) as [[[v r2]|]|] eqn:E2; [| |done].
  - assert (length r2 <= length r1).
    { unfold second_unit in E2. destruct r1 as [|b [|e r1]]; [done..|]. destruct (_ && _); [|done].
      destruct (hex_digits 4 0 r1) as [[? ?]|] eqn:E3; [|done]. injection E2 as -> ->.
      apply hex_digits_length in E3. cbn. lia. }
    destruct (low_surrogate v); intros [= _ <-]; lia.
  - intros [= _ <-]; lia.
Qed.
Lemma json_char_length c r d r' : json_char c r = Some (d, r') -> length r' <= length r.
Proof.
  unfold json_char. destruct (c =? BSL)%N.
  - destruct r as [|e r]; [done|]. destruct (e =? 117)%N; [intros H%json_unicode_length; cbn; lia|].
    destruct (json_escape e); [intros [= _ <-]; cbn; lia|done].
  - destruct (c <? 32)%N; [done|]. by intros [= _ <-].
Qed.
Lemma json_string_length n t s r : json_string n t = Some (s, r) -> length s + length r < length t.
Proof.
  revert t s r. induction n as [|n IH]; intros [|c t] s r; cbn; [done..|].
  destruct (c =? DQ)%N; [intros [= <- <-]; cbn; lia|].
  destruct (json_char c t) as [[d r1]|] eqn:E; [|done]. apply json_char_length in E.
  destruct (json_string n r1) as [[s' r']|] eqn:Es; [|done]. apply IH in Es.
  intros [= <- <-]. cbn. lia.
Qed.

(** Every text and key of a tree, whatever it stands under. *)
Definition all_texts (v : tree) : list text := (texts None false v).*2.
Definition below (B : nat) (v : tree) : Prop := forall s, s ∈ all_texts v -> length s < B.
Definition pairs_below (B : nat) (d : list (text * tree)) : Prop :=
  Forall (fun kv => length kv.1 < B /\ below B kv.2) d.

Lemma below_text B t : below B (TText t) <-> length t < B.
Proof. unfold below, all_texts. cbn. split; [intros H; apply H; set_solver|intros H s; set_solver]. Qed.
Lemma below_seq B l : below B (TSeq l) <-> Forall (below B) l.
Proof.
  unfold below, all_texts. cbn [texts]. rewrite Forall_forall. setoid_rewrite list_elem_of_fmap.
  setoid_rewrite elem_of_concat_map. split.
  - intros H v Hv s (p & -> & Hp). apply H. eauto.
  - intros H s (p & -> & v & Hv & Hp). apply (H v Hv). eauto.
Qed.
Lemma below_map B d : below B (TMap d) <-> pairs_below B d.
Proof.
  unfold below, pairs_below, below, all_texts. cbn [texts andb]. rewrite Forall_forall. setoid_rewrite list_elem_of_fmap.
  setoid_rewrite elem_of_concat_map. split.
  - intros H kv Hv. split; [apply H; exists (None, kv.1); set_solver|].
    intros s (p & -> & Hp). apply H. exists p. split; [done|]. exists kv. set_solver.
  - intros H s (p & -> & kv & Hv & [->|Hp]%elem_of_cons); [by apply H|]. apply (H kv Hv). eauto.
Qed.

Lemma map_put_below B k v d :
  length k < B -> below B v -> pairs_below B d -> pairs_below B (map_put k v d).
Proof.
  intros Hk Hv. induction d as [|[k' v'] d IH]; intros Hd; cbn.
  - by constructor.
  - inversion Hd as [|? ? [H1 H2] H3]; subst; cbn in *. case_bool_decide; constructor; auto.
    by apply IH.
Qed.

(** A parser leaves no more text than it was given and hides texts below [B]. *)
Definition shrinks (B : nat) (t : text) (o : option (tree * text)) : Prop :=
  match o with Some (v, r) => length r <= length t /\ below B v | None => True end.

Definition value_shrinks (n : nat) : Prop :=
  forall B t, length t <= B -> shrinks B t (json_value n t).
Definition members_shrink (n : nat) : Prop :=
  forall B t acc, length t <= B -> pairs_below B acc -> shrinks B t (json_members n acc t).
Definition elements_shrink (n : nat) : Prop :=
  forall B t acc, length t <= B -> Forall (below B) acc -> shrinks B t (json_elements n acc t).

#[local] Arguments length : simpl never.
#[local] Arguments skip_space : simpl never.

Lemma shrinks_trans B t u o : shrinks B u o -> length u <= length t -> shrinks B t o.
Proof. destruct o as [[v r]|]; cbn; [|done]. intros [? ?] ?. split; [lia|done]. Qed.

Lemma value_step n : members_shrink n -> elements_shrink n -> value_shrinks (S n).
Proof.
  intros IHm IHe B [|c t] HB; cbn; [done|]. pose proof (skip_space_length t) as Hs. rewrite length_cons in *.
  destruct (c =? DQ)%N.
  { destruct (json_string (S (length t)) t) as [[s r]|] eqn:E; [|done]. apply json_string_length in E. cbn.
    rewrite below_text, length_cons. lia. }
  destruct (c =? 123)%N.
  { destruct (expect 125%N (skip_space t)) as [r|] eqn:E.
    - apply expect_length in E. cbn. rewrite below_map, length_cons. split; [lia|constructor].
    - eapply shrinks_trans; [apply IHm; [lia|constructor]|rewrite length_cons; lia]. }
  destruct (c =? 91)%N.
  { destruct (expect 93%N (skip_space t)) as [r|] eqn:E.
    - apply expect_length in E. cbn. rewrite below_seq, length_cons. split; [lia|constructor].
    - eapply shrinks_trans; [apply IHe; [lia|constructor]|rewrite length_cons; lia]. }
  destruct (json_atom (c :: t)) as [r|] eqn:E; [|done]. apply json_atom_length in E. cbn.
  split; [lia|]. intros s Hs'. by apply elem_of_nil in Hs'.
Qed.

Lemma members_step n : value_shrinks n -> members_shrink n -> members_shrink (S n).
Proof.
  intros IHv IHm B t acc HB Hacc. cbn. destruct (expect DQ t) as [r1|] eqn:E1; [|done]. cbn.
  apply expect_length in E1. destruct (json_string (length t) r1) as [[k r2]|] eqn:E2; [|done]. cbn.
  apply json_string_length in E2. pose proof (skip_space_length r2).
  destruct (expect 58%N (skip_space r2)) as [r3|] eqn:E3; [|done]. cbn. apply expect_length in E3.
  pose proof (skip_space_length r3). specialize (IHv B (skip_space r3)).
  destruct (json_value n (skip_space r3)) as [[v r4]|]; [|done]. cbn. destruct IHv as [Hr Hv]; [lia|].
  pose proof (skip_space_length r4). pose proof (map_put_below B k v acc ltac:(lia) Hv Hacc) as Hput.
  destruct (expect 125%N (skip_space r4)) as [r5|] eqn:E5.
  { apply expect_length in E5. cbn. rewrite below_map. split; [lia|done]. }
  destruct (expect 44%N (skip_space r4)) as [r5|] eqn:E6; [|done]. apply expect_length in E6. cbn.
  pose proof (skip_space_length r5). eapply shrinks_trans; [apply IHm; [lia|done]|lia].
Qed.

Lemma elements_step n : value_shrinks n -> elements_shrink n -> elements_shrink (S n).
Proof.
  intros IHv IHe B t acc HB Hacc. cbn. specialize (IHv B t HB).
  destruct (json_value n t) as [[v r1]|]; [|done]. cbn. destruct IHv as [Hr Hv].
  pose proof (skip_space_length r1).
  assert (Forall (below B) (acc ++ [v])) as Happ by (apply Forall_app; by repeat constructor).
  destruct (expect 93%N (skip_space r1)) as [r2|] eqn:E5.
  { apply expect_length in E5. cbn. rewrite below_seq. split; [lia|done]. }
  destruct (expect 44%N (skip_space r1)) as [r2|] eqn:E6; [|done]. apply expect_length in E6. cbn.
  pose proof (skip_space_length r2). eapply shrinks_trans; [apply IHe; [lia|done]|lia].
Qed.

Lemma json_shrinks n : value_shrinks n /\ members_shrink n /\ elements_shrink n.
Proof.
  induction n as [|n (? & ? & ?)]; [done|].
  split_and!; [by apply value_step|by apply members_step|by apply elements_step].
Qed.

Lemma json_loads_below t v : json_loads t = Some v -> below (length t) v.
Proof.
  unfold json_loads. intros H.
  pose proof (proj1 (json_shrinks (2 * length t)) (length t) (skip_space t) (skip_space_length t)) as Hs.
  destruct (json_value _ _) as [[w r]|]; [|done]. destruct (skip_space r); [|done]. injection H as ->. apply Hs.
Qed.

(** The fuel of [json_loads] is never the reason of a refusal. *)
Lemma json_fuel n : forall m,
  (forall t, 2 * length t <= n -> 2 * length t <= m -> json_value n t = json_value m t) /\
  (forall t acc, 2 * length t < n -> 2 * length t < m -> json_members n acc t = json_members m acc t) /\
  (forall t acc, 2 * length t < n -> 2 * length t < m -> json_elements n acc t = json_elements m acc t).
Proof.
  induction n as [|n IH]; intros m.
  { split_and!; [|lia..]. intros [|c t]; [by destruct m|rewrite length_cons; lia]. }
  destruct m as [|m].
  { split_and!; [|lia..]. intros [|c t]; [done|rewrite length_cons; lia]. }
  destruct (IH m) as (IHv & IHm & IHe). split_and!.
  - intros [|c t]; [done|]. rewrite length_cons. intros Hn Hm. cbn. pose proof (skip_space_length t).
    rewrite (IHm (skip_space t)), (IHe (skip_space t)) by lia. done.
  - intros t acc Hn Hm. cbn. destruct (expect DQ t) as [r1|] eqn:E1; [|done]. cbn. apply expect_length in E1.
    destruct (json_string (length t) r1) as [[k r2]|] eqn:E2; [|done]. cbn. apply json_string_length in E2.
    pose proof (skip_space_length r2). destruct (expect 58%N (skip_space r2)) as [r3|] eqn:E3; [|done]. cbn.
    apply expect_length in E3. pose proof (skip_space_length r3). rewrite (IHv (skip_space r3)) by lia.
    pose proof (proj1 (json_shrinks m) _ (skip_space r3) (le_n _)) as Hs.
    destruct (json_value m (skip_space r3)) as [[v r4]|]; [|done]. cbn. destruct Hs as [Hs _].
    pose proof (skip_space_length r4). destruct (expect 125%N (skip_space r4)); [done|].
    destruct (expect 44%N (skip_space r4)) as [r5|] eqn:E6; [|done]. apply expect_length in E6. cbn.
    pose proof (skip_space_length r5). apply IHm; lia.
  - intros t acc Hn Hm. cbn. rewrite (IHv t) by lia.
    pose proof (proj1 (json_shrinks m) _ t (le_n _)) as Hs.
    destruct (json_value m t) as [[v r1]|]; [|done]. cbn. destruct Hs as [Hs _].
    pose proof (skip_space_length r1). destruct (expect 93%N (skip_space r1)); [done|].
    destruct (expect 44%N (skip_space r1)) as [r2|] eqn:E6; [|done]. apply expect_length in E6. cbn.
    pose proof (skip_space_length r2). apply IHe; lia.
Qed.

Lemma hcl_loop_length n t d : hcl_loop n t = Some d -> length d <= length t.
Proof.
  revert t d. induction n as [|n IH]; intros [|c t] d; cbn [hcl_loop]; try done; [by intros [= <-]..|].
  rewrite length_cons. destruct (negb _).
  { destruct (hcl_loop n t) eqn:E; [|done]. apply IH in E. intros [= <-]. rewrite length_cons. lia. }
  destruct t as [|e t]; [done|]. rewrite length_cons. destruct (simple_escape e).
  { destruct (hcl_loop n t) eqn:E; [|done]. apply IH in E. intros [= <-]. rewrite length_cons. lia. }
  destruct (chars "uU" e); [|done]. destruct (hex_digits _ 0 t) as [[u r]|] eqn:Eh; [|done]. apply hex_digits_length in Eh.
  destruct (_ <? u)%N; [done|]. destruct (hcl_loop n r) eqn:E; [|done]. apply IH in E. intros [= <-].
  rewrite length_cons. lia.
Qed.

Lemma literal_length l t : l ∈ (_decode_hcl_quoted_strings t).2 -> length l <= length t.
Proof.
  unfold _decode_hcl_quoted_strings. generalize (finditer _QUOTED_STRING_RE t), 0 at 1. intros ms from.
  destruct (replace_quoted ms from t) as [d ls] eqn:E. cbn. revert from d ls E.
  induction ms as [|m ms IH]; intros from d ls; cbn; [intros [= _ <-]; by intros ?%elem_of_nil|].
  destruct (replace_quoted ms (m_end m) t) as [tail lits] eqn:E. specialize (IH _ _ _ E).
  destruct (_decode_hcl_escapes _) as [dec|] eqn:Ed; intros [= _ <-]; [|done].
  intros [->|Hl]%elem_of_cons; [|by apply IH]. apply hcl_loop_length in Ed.
  rewrite length_take, length_drop, !length_take, !length_drop in Ed. lia.
Qed.

(** ** The reference definition *)

(** A text the scan may let through, however deep its wrapping goes. *)
Inductive clean : bool -> option text -> text -> Prop :=
| Clean decode f t size :
    utf8_size t = Ok size -> (size <= OPENBAO_MAX_STRING_BYTES)%N ->
    secret_shape f t = false -> sensitive_assignment t = false ->
    search _ESCAPED_ASSIGNMENT_KEY_RE t 0 = None ->
    (let decoded := (_decode_hcl_quoted_strings t).1 in
     decoded <> t -> secret_shape None decoded = false /\ sensitive_assignment decoded = false) ->
    (forall v, decode = true -> json_loads t = Some v -> clean_tree v) ->
    (forall l, l ∈ (_decode_hcl_quoted_strings t).2 ->
       secret_shape None l = false /\ forall v, json_loads l = Some v -> clean_tree v) ->
    clean decode f t
with clean_tree : tree -> Prop :=
| CleanTree v :
    (forall f s, (f, s) ∈ texts None false v -> clean false f s) ->
    (forall k, k ∈ names v -> _sensitive_field_name k = false) ->
    clean_tree v.

Lemma scan_json_clean n v t :
  (forall s b f, length s < n -> scan_text n b f s = Ok tt <-> clean b f s) ->
  length t <= n -> json_loads t = Some v ->
  scan_value (scan_text n false) None false v = Ok tt <-> clean_tree v.
Proof.
  intros IH Hn Hv%json_loads_below. rewrite scan_value_Ok.
  assert (forall f s, (f, s) ∈ texts None false v -> length s < n) as Hlen.
  { intros f s Hs. enough (length s < length t) by lia. apply Hv. unfold all_texts.
    apply (list_elem_of_fmap_2 snd _ _ Hs). }
  split.
  - intros [H1 H2]. constructor; [|done]. intros f s Hs. apply (IH s false f); [by eapply Hlen|by apply H1].
  - inversion 1 as [w H1 H2]; subst. split; [|done]. intros f s Hs. apply (IH s false f); [by eapply Hlen|by apply H1].
Qed.

Lemma bind_Ok_tt (m : scanned) (k : unit -> scanned) : (m ≫= k) = Ok tt <-> m = Ok tt /\ k tt = Ok tt.
Proof. rewrite bind_Ok. split; [by intros ([] & ? & ?)|intros [??]; eauto]. Qed.
Lemma reject_shapes_Ok f t : _reject_secret_shapes f t = Ok tt <-> secret_shape f t = false.
Proof. unfold _reject_secret_shapes. by rewrite require_Ok, negb_true_iff. Qed.
Lemma reject_assignments_Ok t : _reject_sensitive_assignments t = Ok tt <-> sensitive_assignment t = false.
Proof. unfold _reject_sensitive_assignments. by rewrite require_Ok, negb_true_iff. Qed.

(** The scan with fuel for the text decides the reference definition. *)
Lemma scan_text_clean n : forall t b f, length t < n -> scan_text n b f t = Ok tt <-> clean b f t.
Proof.
  induction n as [|n IH]; intros t b f Hn; [lia|]. cbn [scan_text].
  pose proof (fun l => literal_length l t) as Hlit.
  assert (forall u, length u <= n ->
            (match json_loads u with Some v => scan_value (scan_text n false) None false v | None => Ok tt end = Ok tt
             <-> forall v, json_loads u = Some v -> clean_tree v)) as Hjson.
  { intros u Hu. destruct (json_loads u) as [v|] eqn:E; [|split; [|done]; by intros _ v].
    rewrite (scan_json_clean n v u) by eauto. split; [by intros ? ? [= <-]|auto]. }
  split.
  - intros (size & Hsize & H)%bind_Ok. apply bind_Ok_tt in H as [Hle H]. apply require_Ok in Hle. bool_inv.
    apply bind_Ok_tt in H as [Hs H]. apply bind_Ok_tt in H as [Ha H]. apply bind_Ok_tt in H as [Hd H].
    destruct (_decode_hcl_quoted_strings t) as [decoded literals] eqn:Edec.
    apply bind_Ok_tt in H as [Hl H]. apply bind_Ok_tt in H as [Hc He]. rewrite each_Ok in Hl.
    apply reject_shapes_Ok in Hs. apply reject_assignments_Ok in Ha. apply require_Ok in He.
    econstructor; rewrite ?Edec; cbn; try eassumption.
    + by apply N.ltb_ge.
    + by destruct (search _ESCAPED_ASSIGNMENT_KEY_RE t 0).
    + intros Hne. rewrite bool_decide_false in Hc by done. apply bind_Ok_tt in Hc as [Hc1 Hc2].
      split; [by apply reject_shapes_Ok|by apply reject_assignments_Ok].
    + intros v -> Hv. apply (Hjson t); [lia|done|done].
    + intros l Hin. specialize (Hl l Hin). apply bind_Ok_tt in Hl as [H1 H2]. apply reject_shapes_Ok in H1.
      split; [done|]. apply Hjson; [|done]. specialize (Hlit l Hin). lia.
  - intros Hcl. revert Hn Hlit. destruct Hcl as [decode g u size Hsize Hle Hs Ha He Hc Hd Hl]. intros Hn Hlit.
    rewrite Hsize. cbn.
    rewrite (proj2 (N.ltb_ge _ _) Hle). cbn. rewrite (proj2 (reject_shapes_Ok g u) Hs). cbn.
    rewrite (proj2 (reject_assignments_Ok u) Ha). cbn.
    assert ((if decode then match json_loads u with Some v => scan_value (scan_text n false) None false v | None => Ok tt end
             else Ok tt) = Ok tt) as ->.
    { destruct decode; [|done]. apply Hjson; [lia|auto]. }
    cbn. destruct (_decode_hcl_quoted_strings u) as [decoded literals] eqn:Edec. cbn in *.
    rewrite (proj2 (each_Ok _ literals)).
    2:{ intros l Hin. destruct (Hl l Hin) as [H1 H2]. rewrite (proj2 (reject_shapes_Ok None l) H1). cbn.
        apply Hjson; [|done]. specialize (Hlit l Hin). lia. }
    cbn. rewrite He. case_bool_decide as Hdec; cbn; [done|]. destruct (Hc Hdec) as [H1 H2].
    rewrite (proj2 (reject_shapes_Ok None decoded) H1). cbn. by rewrite (proj2 (reject_assignments_Ok decoded) H2).
Qed.

(** C9: The scan accepts the parameters of an OpenBao procedure exactly when they are an
    object whose keys and strings, at every depth, are clean by a definition without
    bounds: no secret shape, no sensitive name or assignment, in the text, in the JSON
    document it holds and in the HCL literals it quotes, through every wrapping.  So
    the scan always ends, and its fuel decides nothing. *)
Theorem ingress_accepts_clean procedure_name params :
  validate_openbao_params_for_persistence procedure_name params = Ok tt <->
  str_startswith OPENBAO_PROCEDURE_PREFIX procedure_name = false \/
  (is_dict params = true /\
   (forall f t, (f, t) ∈ texts None true (tree_of params) -> clean true f t) /\
   forall k, k ∈ names (tree_of params) -> _sensitive_field_name k = false).
Proof.
  unfold validate_openbao_params_for_persistence, _scan_value, _scan_text.
  destruct (str_startswith _ procedure_name); cbn [negb]; [|by split; [left|]].
  destruct params as [| | | | | | | | | |d];
    try (split; [done|intros [?|[? _]]; done]).
  cbn [is_dict]. rewrite scan_value_Ok. setoid_rewrite scan_text_clean; [|lia]. split; [by right|].
  intros [?|(_ & H)]; done.
Qed.

(** ** What acceptance means for a secret *)

(** [u] can be read out of [t]: a literal it quotes, a text of the JSON document that
    [t] or a literal holds, or [t] with its literals decoded. *)
Inductive unwraps : bool -> text -> text -> Prop :=
| unwraps_here b t : unwraps b t t
| unwraps_decoded b t : unwraps b t (_decode_hcl_quoted_strings t).1
| unwraps_literal b t l : l ∈ (_decode_hcl_quoted_strings t).2 -> unwraps b t l
| unwraps_document t v f s u :
    json_loads t = Some v -> (f, s) ∈ texts None false v -> unwraps false s u -> unwraps true t u
| unwraps_literal_document b t l v f s u :
    l ∈ (_decode_hcl_quoted_strings t).2 -> json_loads l = Some v ->
    (f, s) ∈ texts None false v -> unwraps false s u -> unwraps b t u.

Lemma texts_unnamed v g t : (g, t) ∈ texts None false v -> g = None.
Proof.
  revert g t. induction v as [|s|l IH|d IH] using tree_ind_nested; cbn [texts andb]; intros g t.
  - by intros ?%elem_of_nil.
  - intros ?%list_elem_of_singleton. congruence.
  - rewrite Forall_forall in IH. intros (v & Hv & H)%elem_of_concat_map. by apply (IH v Hv) in H.
  - rewrite Forall_forall in IH. intros (kv & Hv & [?|H]%elem_of_cons)%elem_of_concat_map; [congruence|].
    by apply (IH kv Hv) in H.
Qed.

Lemma clean_unwraps b s u : unwraps b s u ->
  forall f, clean b f s -> secret_shape None u = false \/ (u = s /\ secret_shape f s = false).
Proof.
  induction 1 as [b t|b t|b t l Hl|t v g s u Hv Hs Hu IH|b t l v g s u Hl Hv Hs Hu IH]; intros f Hc;
    inversion Hc as [b' f' t' size Hsize Hle Hsh Ha He Hd Hj Hli]; subst.
  - by right.
  - destruct (decide ((_decode_hcl_quoted_strings t).1 = t)) as [E|Hne]; [right; by rewrite E|].
    left. by apply Hd.
  - left. by apply Hli.
  - pose proof (texts_unnamed _ _ _ Hs) as ->. destruct (Hj v eq_refl Hv) as [v Ht _]. left.
    destruct (IH None (Ht _ _ Hs)) as [?|[-> ?]]; done.
  - pose proof (texts_unnamed _ _ _ Hs) as ->. destruct (proj2 (Hli l Hl) v Hv) as [v Ht _]. left.
    destruct (IH None (Ht _ _ Hs)) as [?|[-> ?]]; done.
Qed.

(** Identifier fields may hold a long base64 name of low entropy; nothing else may. *)
Definition identifier_name (f : option text) (t : text) : Prop :=
  (exists k, f = Some k /\ among k _IDENTIFIER_FIELD_NAMES = true) /\ low_entropy (rstrip (chars "=") t) = true.

Lemma shape_of f u :
  secret_shape f u = false ->
  (forall p, p ∈ _SECRET_SHAPE_PATTERNS -> search p u 0 = None) /\
  (finditer _BASE64_MATERIAL_RE u = [] \/ identifier_name f u).
Proof.
  unfold secret_shape. intros [Hp Hb]%orb_false_iff. split.
  - intros p Hin. destruct (search p u 0) as [m|] eqn:E; [|done]. exfalso.
    assert (existsb (fun p => match search p u 0 with Some _ => true | None => false end) _SECRET_SHAPE_PATTERNS = true)
      by (apply existsb_exists; exists p; rewrite E; split; [by apply list_elem_of_In|done]). congruence.
  - apply negb_false_iff, orb_true_iff in Hb as [Hb|[Hf Hb]%andb_true_iff]; [left; by apply bool_decide_eq_true in Hb|].
    destruct (finditer _BASE64_MATERIAL_RE u) as [|m ms] eqn:E; [by left|right].
    cbn in Hb. apply andb_true_iff in Hb as [[[H1 H2]%andb_true_iff H3]%andb_true_iff _].
    apply Nat.eqb_eq in H1, H2. split.
    + destruct f as [k|]; [eauto|done].
    + revert H3. unfold matched. rewrite H1, H2, drop_0, Nat.sub_0_r, firstn_all. done.
Qed.

(** ** Names of secrets *)

(** What a name is compared as: without its quotes, in lower case. *)
Definition bare_name (k : text) : text := lower (strip_chars (oneof [DQ; SQ]) k).
Definition separator (c : char) : bool := chars "._-" c.
(** [w] is a word, or a run of words, of [t]: what is next to it are separators. *)
Definition word_in (w t : text) : Prop :=
  exists a b, t = a ++ w ++ b /\ (a = [] \/ exists a' c, a = a' ++ [c] /\ separator c = true) /\
    (b = [] \/ exists c b', b = c :: b' /\ separator c = true).
(** The names that are no secret although a word of theirs says so, with dashes and dots
    for underscores. *)
Definition label_name (k : text) : Prop :=
  join_words false (bare_name k) ∈ map codes ["key_id"; "key_label"; "key_name"; "tls_key_file"; "token_label"].
(** A name for a secret: a word for a credential, a key qualified by a word before it,
    or one of five whole names. *)
Definition secret_name (k : text) : Prop :=
  ~ label_name k /\
  ((exists w, w ∈ ["authorization"; "credential"; "credentials"; "passphrase"; "passwd"; "password"; "pin"; "secret";
                   "secrets"; "token"; "tokens"; "unseal"] /\ word_in (codes w) (bare_name k)) \/
   (exists w s n, w ∈ ["access"; "account"; "api"; "client"; "current"; "previous"; "private"; "root"; "shared"] /\
      s <> [] /\ Forall (fun c => separator c = true) s /\ n ∈ ["key"; "keys"] /\
      word_in (codes w ++ s ++ codes n) (bare_name k)) \/
   bare_name k ∈ map codes ["auth_info"; "connection_string"; "connection_url"; "key"; "keys"]).

(** The words of a name, split at any separator. *)
Fixpoint words (current : text) (t : text) : list text :=
  let flush := match current with [] => [] | _ => [rev current] end in
  match t with
  | [] => flush
  | c :: r => if separator c then flush ++ words [] r else words (c :: current) r
  end.
Lemma separator_cases c : separator c = chars ".-" c || chars "_" c.
Proof.
  change (existsb (N.eqb c) [46; 95; 45]%N = existsb (N.eqb c) [46; 45]%N || existsb (N.eqb c) [95]%N).
  cbn [existsb]. by destruct (c =? 46)%N, (c =? 95)%N, (c =? 45)%N.
Qed.
Lemma parts_words t : forall j current, (j = true -> current = []) -> parts current (join_words j t) = words current t.
Proof.
  induction t as [|c t IH]; intros j current Hj; cbn [join_words words]; [done|].
  rewrite separator_cases. destruct (chars ".-" c); cbn [orb].
  - destruct j; [rewrite Hj by done; cbn [app]; by rewrite IH|]. change (codes "_") with [95%N]. cbn [app parts].
    change (chars "_" 95%N) with true. cbn iota. by rewrite IH.
  - cbn [parts]. destruct (chars "_" c); by rewrite IH.
Qed.

Lemma words_after a c t : separator c = true -> forall current, exists l, words current (a ++ c :: t) = l ++ words [] t.
Proof.
  intros Hc. induction a as [|d a IH]; intros current; cbn [app words]; [rewrite Hc; eauto|].
  destruct (separator d); [|apply IH]. destruct (IH []) as [l ->].
  eexists (_ ++ l). by rewrite <- app_assoc.
Qed.
Lemma words_over w t : Forall (fun c => separator c = false) w -> forall current, words current (w ++ t) = words (rev w ++ current) t.
Proof.
  induction 1 as [|c w Hc _ IH]; intros current; cbn [app words rev]; [done|]. by rewrite Hc, IH, <- app_assoc.
Qed.
Lemma words_skip s t : Forall (fun c => separator c = true) s -> words [] (s ++ t) = words [] t.
Proof. induction 1 as [|c s Hc _ IH]; cbn [app words]; [done|]. by rewrite Hc. Qed.

(** A word that ends the text, or is followed by a separator, is one of the words. *)
Lemma words_first w b :
  w <> [] -> Forall (fun c => separator c = false) w -> (b = [] \/ exists c b', b = c :: b' /\ separator c = true) ->
  exists b', words [] (w ++ b) = w :: b'.
Proof.
  intros Hne Hw Hb. rewrite words_over by done. rewrite app_nil_r.
  assert (match rev w with [] => [] | _ => [rev (rev w)] end = [w]) as Hf.
  { rewrite rev_involutive. destruct (rev w) eqn:E; [|done]. by apply (f_equal (@rev _)) in E; rewrite rev_involutive in E. }
  destruct Hb as [->|(c & b' & -> & Hc)]; cbn [words]; [|rewrite Hc]; rewrite Hf; cbn [app]; eauto.
Qed.
Lemma words_from a t :
  (a = [] \/ exists a' c, a = a' ++ [c] /\ separator c = true) -> exists l, words [] (a ++ t) = l ++ words [] t.
Proof.
  intros [->|(a' & c & -> & Hc)]; [by exists []|]. rewrite <- app_assoc. cbn [app]. by apply words_after.
Qed.

Lemma word_in_words w t : w <> [] -> Forall (fun c => separator c = false) w -> word_in w t -> w ∈ words [] t.
Proof.
  intros Hne Hw (a & b & -> & Ha & Hb). destruct (words_from a (w ++ b) Ha) as [l ->].
  destruct (words_first w b Hne Hw Hb) as [b' ->]. set_solver.
Qed.
Lemma pair_in_words w s n t :
  w <> [] -> n <> [] -> s <> [] -> Forall (fun c => separator c = false) w -> Forall (fun c => separator c = false) n ->
  Forall (fun c => separator c = true) s -> word_in (w ++ s ++ n) t ->
  exists l r, words [] t = l ++ w :: n :: r.
Proof.
  intros Hw Hn Hs Hws Hns Hss (a & b & -> & Ha & Hb). destruct (words_from a ((w ++ s ++ n) ++ b) Ha) as [l ->].
  rewrite <- !app_assoc. rewrite words_over, app_nil_r by done.
  destruct Hss as [|c s Hc Hss]; [done|]. cbn [app words]. rewrite Hc.
  destruct (rev w) as [|d r] eqn:E; [by apply (f_equal (@rev _)) in E; rewrite rev_involutive in E|].
  rewrite <- E, rev_involutive, words_skip by done. destruct (words_first n b Hn Hns Hb) as [b' ->].
  exists l, b'. done.
Qed.
Lemma adjacent_app p l a b r : p a b = true -> adjacent p (l ++ a :: b :: r) = true.
Proof.
  intros Hp. induction l as [|x l IH]; cbn; [by rewrite Hp|].
  destruct l as [|y l]; cbn in *; by rewrite ?IH, ?orb_true_r.
Qed.
Lemma plain_words (l : list string) w :
  w ∈ l -> forallb (fun w => negb (bool_decide (codes w = [])) && forallb (fun c => negb (separator c)) (codes w)) l = true ->
  codes w <> [] /\ Forall (fun c => separator c = false) (codes w).
Proof.
  intros Hw Hl. rewrite forallb_forall in Hl. specialize (Hl w (proj1 (list_elem_of_In _ _) Hw)).
  apply andb_true_iff in Hl as [H1 H2]. bool_inv. split; [done|]. apply Forall_forall. intros c Hc.
  rewrite forallb_forall in H2. specialize (H2 c (proj1 (list_elem_of_In _ _) Hc)). by apply negb_true_iff.
Qed.

(** The check finds every name for a secret. *)
Lemma sensitive_complete k : _sensitive_field_name k = false -> ~ secret_name k.
Proof.
  unfold _sensitive_field_name, secret_name, label_name. fold (bare_name k). intros Hs [Hl Hn].
  rewrite parts_words in Hs by done. destruct (among _ _NON_SECRET_FIELD_NAMES) eqn:El.
  { apply Hl. by apply bool_decide_eq_true in El. }
  clear Hl El. revert Hs. case_bool_decide as Hnil; intros Hs.
  - destruct Hn as [(w & Hw & Hin)|[(w & s & n & Hw & Hne & Hss & Hn & Hin)|Hin]].
    + destruct (plain_words _ w Hw eq_refl) as [??]. apply word_in_words in Hin; [|done..]. rewrite Hnil in Hin. set_solver.
    + destruct (plain_words _ w Hw eq_refl) as [??]. destruct (plain_words _ n Hn eq_refl) as [??].
      apply pair_in_words in Hin as (l & r & Hin); [|done..]. rewrite Hnil in Hin. by destruct l.
    + cbn [map] in Hin. rewrite !elem_of_cons in Hin. destruct_or!; try (by apply elem_of_nil in Hin); by rewrite Hin in Hnil.
  - destruct (existsb _ (words [] _)) eqn:Ee; [done|]. destruct (among _ ["auth_info"; _; _; _; _]) eqn:Ea; [done|].
    destruct Hn as [(w & Hw & Hin)|[(w & s & n & Hw & Hne & Hss & Hn & Hin)|Hin]].
    + destruct (plain_words _ w Hw eq_refl) as [??]. apply word_in_words in Hin; [|done..].
      assert (existsb (fun part => among part _SENSITIVE_FIELD_COMPONENTS) (words [] (bare_name k)) = true); [|congruence].
      apply existsb_exists. exists (codes w). split; [by apply list_elem_of_In|].
      apply bool_decide_eq_true, list_elem_of_fmap. by exists w.
    + destruct (plain_words _ w Hw eq_refl) as [??]. destruct (plain_words _ n Hn eq_refl) as [??].
      apply pair_in_words in Hin as (l & r & Hin); [|done..]. rewrite Hin, adjacent_app in Hs; [done|].
      apply andb_true_iff. split; apply bool_decide_eq_true, list_elem_of_fmap; eauto.
    + revert Hin Ea. cbn [map]. rewrite !elem_of_cons. intros Hin Ea.
      destruct_or!; try (by apply elem_of_nil in Hin); rewrite Hin in Ea; discriminate Ea.
Qed.

(** ** What a text holds *)

(** [u] is [t] or a text of a JSON document inside it, at any depth; the flags say
    whether the text itself is read as a document. *)
Inductive inner : bool -> text -> bool -> text -> Prop :=
| inner_here b t : inner b t b t
| inner_document t v f s b u :
    json_loads t = Some v -> (f, s) ∈ texts None false v -> inner false s b u -> inner true t b u
| inner_literal b t l v f s b' u :
    l ∈ (_decode_hcl_quoted_strings t).2 -> json_loads l = Some v ->
    (f, s) ∈ texts None false v -> inner false s b' u -> inner b t b' u.
(** A document the text holds: itself, or one of its literals. *)
Definition document (b : bool) (u : text) (v : tree) : Prop :=
  (b = true /\ json_loads u = Some v) \/ exists l, l ∈ (_decode_hcl_quoted_strings u).2 /\ json_loads l = Some v.
(** [k] is assigned a value in [u]. *)
Definition assigned (u k : text) : Prop :=
  exists m a b, m ∈ finditer _ASSIGNMENT_RE u /\ group "key" (m_groups m) = Some (a, b, k).

Lemma clean_inner b t b' u : inner b t b' u -> forall f, clean b f t -> exists f', clean b' f' u.
Proof.
  induction 1 as [b t|t v g s b u Hv Hs Hu IH|b t l v g s b' u Hl Hv Hs Hu IH]; intros f Hc; [eauto|..];
    inversion Hc as [b1 f1 t1 size Hsize Hle Hsh Ha He Hd Hj Hli]; subst.
  - destruct (Hj v eq_refl Hv) as [v Ht _]. exact (IH _ (Ht _ _ Hs)).
  - destruct (proj2 (Hli l Hl) v Hv) as [v Ht _]. exact (IH _ (Ht _ _ Hs)).
Qed.
Lemma unassigned u k : sensitive_assignment u = false -> assigned u k -> ~ secret_name k.
Proof.
  intros Hs (m & a & b & Hm & Hg). apply sensitive_complete. destruct (_sensitive_field_name k) eqn:E; [|done].
  rewrite <- Hs. symmetry. apply existsb_exists. exists m. rewrite Hg. split; [by apply list_elem_of_In|done].
Qed.
Lemma clean_names b f u : clean b f u ->
  (forall v k, document b u v -> k ∈ names v -> ~ secret_name k) /\
  (forall w k, w = u \/ w = (_decode_hcl_quoted_strings u).1 -> assigned w k -> ~ secret_name k).
Proof.
  intros Hc. inversion Hc as [b1 f1 t1 size Hsize Hle Hsh Ha He Hd Hj Hli]; subst. split.
  - intros v k Hv Hk. apply sensitive_complete. destruct Hv as [[-> Hv]|(l & Hl & Hv)].
    + destruct (Hj v eq_refl Hv) as [v _ Hn]. by apply Hn.
    + destruct (proj2 (Hli l Hl) v Hv) as [v _ Hn]. by apply Hn.
  - intros w k Hw. apply unassigned. destruct Hw as [->| ->]; [done|].
    destruct (decide ((_decode_hcl_quoted_strings u).1 = u)) as [E|Hne]; [by rewrite E|by apply Hd].
Qed.

(** C8: No accepted parameter of an OpenBao procedure carries a secret, whatever it is
    wrapped in.  No key of the parameters, at any depth, is a name for a secret (a word
    such as password or token in it, a qualified key, or one of five whole names), and
    neither is a key of a JSON document or the name in an assignment that can be read
    out of one of their texts, through documents and HCL literals nested to any depth.
    And any text that can be read out of a key or a string matches none of the secret
    patterns, and holds no base64 run unless it is the value of an identifier field of
    the top level itself, with low entropy. *)
Theorem accepted_hides_no_secret procedure_name params :
  str_startswith OPENBAO_PROCEDURE_PREFIX procedure_name = true ->
  validate_openbao_params_for_persistence procedure_name params = Ok tt ->
  (forall k, k ∈ names (tree_of params) -> ~ secret_name k) /\
  forall f s, (f, s) ∈ texts None true (tree_of params) ->
    (forall b u, inner true s b u ->
      (forall v k, document b u v -> k ∈ names v -> ~ secret_name k) /\
      (forall w k, w = u \/ w = (_decode_hcl_quoted_strings u).1 -> assigned w k -> ~ secret_name k)) /\
    (forall u, unwraps true s u ->
  (forall p, p ∈ _SECRET_SHAPE_PATTERNS -> search p u 0 = None) /\
      (finditer _BASE64_MATERIAL_RE u = [] \/ (u = s /\ identifier_name f s))).
Proof.
  intros Hp Hv. unfold validate_openbao_params_for_persistence, _scan_value, _scan_text in Hv.
  rewrite Hp in Hv. cbn [negb] in Hv. destruct params as [| | | | | | | | | |d]; try done.
  apply scan_value_Ok in Hv as [Ht Hn]. split; [intros k Hk; by apply sensitive_complete, Hn|].
  intros f s Hs. specialize (Ht f s Hs). apply scan_text_clean in Ht; [|lia]. split.
  - intros b u Hu. destruct (clean_inner _ _ _ _ Hu _ Ht) as [f' Hc]. by eapply clean_names.
  - intros u Hu. destruct (clean_unwraps _ _ _ Hu f Ht) as [H|[-> H]]; apply shape_of in H as [H1 H2]; (split; [done|]).
    + destruct H2 as [?|[(k & ? & _) _]]; [by left|done].
    + destruct H2; [by left|by right].
Qed.

Definition demo_name : string := "service.openbao.1.policy_write".
Definition dq (s : string) : string := String quote_char (s +:+ String quote_char EmptyString).
Definition demo_policy : string :=
  "path " +:+ dq "kv/data/app" +:+ " { capabilities = [" +:+ dq "read" +:+ "] }".
Definition demo_params : value := VDict [("policy_name", VStr "app-reader"); ("policy", VStr demo_policy)].

Lemma accepted_hides_no_secret_witness :
  ~ secret_name (codes "policy_name") /\ search _TOKEN_LITERAL_RE (codes "read") 0 = None.
Proof.
  destruct (accepted_hides_no_secret demo_name demo_params) as [Hn Ht]; [vm_compute; reflexivity|vm_compute; reflexivity|].
  split; [apply Hn, list_elem_of_In; vm_compute; tauto|].
  refine (proj1 (proj2 (Ht None (codes demo_policy) _) (codes "read") _) _ _).
  - apply list_elem_of_In. vm_compute. tauto.
  - apply unwraps_literal. apply list_elem_of_In. vm_compute. tauto.
  - unfold _SECRET_SHAPE_PATTERNS. repeat (apply elem_of_cons; (by left) || right).
Defined.

(** The names a field may not have, in any spelling. *)
Example secret_names :
  Forall (fun k => secret_name (codes k)) ["password"; "DB-Password"; "api.key"; "root_token"; "connection_url"].
Proof.
  unfold secret_name, label_name.
  repeat apply Forall_cons_2; [..|by apply Forall_nil_2];
    (split; [apply (bool_decide_eq_false_1 _); vm_compute; reflexivity|]).
  - left. exists "password". split; [set_solver|]. exists [], []. vm_compute. auto.
  - left. exists "password". split; [set_solver|]. exists (codes "db-"), []. split; [done|].
    split; [right; by exists (codes "db"), 45%N|by left].
  - right; left. exists "api", (codes "."), "key". split; [set_solver|]. split; [done|]. split; [by repeat constructor|].
    split; [set_solver|]. exists [], []. vm_compute. auto.
  - left. exists "token". split; [set_solver|]. exists (codes "root_"), []. split; [done|].
    split; [right; by exists (codes "root"), 95%N|by left].
  - right; right. apply (bool_decide_eq_true_1 _). vm_compute. reflexivity.
Qed.

(** A lone surrogate in a JSON document has no UTF-8 form: the size check raises an
    error of its own in place of the refusal the admission translates. *)
Lemma lone_surrogate_raises :
  validate_openbao_params_for_persistence demo_name
    (VDict [("policy", VStr ("{" +:+ dq "a" +:+ ":" +:+ dq "\ud800" +:+ "}"))]) = Err UnicodeEncodeError.
Proof. vm_compute. reflexivity. Qed.
