(* ===== verification/Targets.v ===== *)
(** * Pinned targets

    The validators of [netbox_rpc/domain/normalization.py] that require one reviewed
    virtual machine: the production Gitea VM, the isolated runner VM, the dedicated
    runner VM and the Docker runner VM; and [ipaddress.ip_address], on which they
    decide the primary address.

    A Django object is its attributes, of which some are objects in turn. *)

From S2P Require Import Prelude PyValue CredentialContract Protected Contracts Backends.
Import JsonNotations.

(** ** [ipaddress.ip_address] *)

Fixpoint split_on (c : ascii) (current : string) (s : string) : list string :=
  match s with
  | EmptyString => [str_rev current]
  | String d r => if Ascii.eqb c d then str_rev current :: split_on c EmptyString r
                  else split_on c (String d current) r
  end.
(** [s.split(c)]. *)
Definition str_split (c : ascii) (s : string) : list string := split_on c EmptyString s.

Definition is_digit (c : ascii) : bool := (48 <=? code c) && (code c <=? 57).
Definition is_hex (c : ascii) : bool :=
  is_digit c || ((65 <=? code c) && (code c <=? 70)) || ((97 <=? code c) && (code c <=? 102)).
Definition decimal (s : string) : Z := default 0 (parse_digits 0 false s).

(** At most three ASCII digits, no leading zero, at most 255. *)
Definition octet (s : string) : bool :=
  str_truthy s && str_forall is_digit s && (str_len s <=? 3)
  && (String.eqb s "0" || negb (str_startswith "0" s)) && (decimal s <=? 255).
Definition is_ipv4 (s : string) : bool :=
  let octets := str_split "."%char s in
  (Z.of_nat (length octets) =? 4) && forallb octet octets.

(** One to four hexadecimal digits. *)
Definition hextet (s : string) : bool := str_truthy s && str_forall is_hex s && (str_len s <=? 4).
Definition is_empty (s : string) : bool := negb (str_truthy s).
Definition last_part (l : list string) : string := List.last l EmptyString.

(** The groups of an IPv6 address, where the last may be an IPv4 address worth two. *)
Definition ipv6_parts (s : string) : option (list string) :=
  let parts := str_split ":"%char s in
  if (length parts <? 3)%nat then None else
  if str_contains "." (last_part parts) then
    if is_ipv4 (last_part parts) then Some (removelast parts ++ ["0"; "0"]) else None
  else Some parts.
(** The places of the empty groups that are neither first nor last. *)
Definition inner_gaps (parts : list string) : list nat :=
  List.filter (fun i => is_empty (nth i parts EmptyString)) (seq 1 (length parts - 2)).
Definition is_ipv6_address (s : string) : bool :=
  match ipv6_parts s with
  | None => false
  | Some parts =>
      let n := length parts in
      if (9 <? n)%nat then false else
      match inner_gaps parts with
      | [] =>
          (n =? 8)%nat && forallb hextet parts
      | [i] =>
          let parts_hi := i in
          let parts_lo := (n - i - 1)%nat in
          let first_empty := is_empty (nth 0 parts EmptyString) in
          let last_empty := is_empty (last_part parts) in
          let hi := if first_empty then pred parts_hi else parts_hi in
          let lo := if last_empty then pred parts_lo else parts_lo in
          (negb first_empty || (hi =? 0)%nat) && (negb last_empty || (lo =? 0)%nat)
          && (hi + lo <? 8)%nat
          && forallb hextet (take hi parts) && forallb hextet (drop (n - lo) parts)
      | _ => false
      end
  end.
(** A scope follows a single percent sign and is not empty. *)
Definition is_ipv6 (s : string) : bool :=
  match str_split "%"%char s with
  | [address] => is_ipv6_address address
  | [address; scope] => str_truthy scope && is_ipv6_address address
  | _ => false
  end.

(** [None] is [ValueError]; the text of an IPv4 address is its canonical form. *)
Inductive address : Type := IPv4 (s : string) | IPv6.
Definition ip_address (s : string) : option address :=
  if str_contains "/" s then None
  else if is_ipv4 s then Some (IPv4 s)
  else if is_ipv6 s then Some IPv6
  else None.

(** ** Objects *)

(** The value of an attribute: a plain value, or an object with attributes and a text. *)
Inductive attribute : Type :=
| Val (v : value)
| Obj (attrs : list (string * attribute)) (text : string).
Notation nothing := (Val VNone).

(** [getattr(o, name, fallback)]; a plain value has none of the attributes asked for. *)
Definition getattr (o : attribute) (name : string) (fallback : attribute) : attribute :=
  match o with
  | Obj attrs _ => default fallback (table_get name attrs)
  | Val _ => fallback
  end.
Definition attr (o : attribute) (name : string) : attribute := getattr o name nothing.
Definition is_nothing (o : attribute) : bool := match o with nothing => true | _ => false end.
(** [o == v]. *)
Definition attr_is (o : attribute) (v : value) : bool := match o with Val w => py_eqb w v | Obj _ _ => false end.
Definition attr_bool (o : attribute) : bool := match o with Val v => is_bool v | Obj _ _ => false end.
(** [str(o)]. *)
Definition attr_str (o : attribute) : string := match o with Val v => py_str v | Obj _ text => text end.
(** [str(o or "")]. *)
Definition attr_text (o : attribute) : string :=
  match o with Val v => py_str (py_or v (VStr EmptyString)) | Obj _ text => text end.
(** [type(o) is int and o == n]. *)
Definition attr_int (o : attribute) (n : Z) : bool := match o with Val (VInt m) => m =? n | _ => false end.

(** [str(getattr(status, "value", status) or "").lower()]. *)
Definition status_text (target : attribute) : string :=
  let raw_status := attr target "status" in
  str_lower (attr_text (getattr raw_status "value" raw_status)).
(** [ip_address(str(getattr(primary_ip4, "address", primary_ip4)).split("/", 1)[0])]. *)
Definition primary_address (target : attribute) : option address :=
  let primary_ip4 := attr target "primary_ip4" in
  ip_address (str_before "/"%char (attr_str (getattr primary_ip4 "address" primary_ip4))).

Definition invalid {A} (message : string) : res A := Err (RPCExecutionError "RPC_TARGET_INVALID" message).
Definition demand (b : bool) (message : string) : res unit := require b (RPCExecutionError "RPC_TARGET_INVALID" message).

Definition VM_TYPE : string := "virtualization.virtualmachine".
Definition target_object (id : Z) : value := VDict ["content_type" :- VM_TYPE; "object_id" :- id].

(** ** The production Gitea VM *)

Module Upgrade.
Definition TARGET_NAME : string := "Gitea".
Definition TARGET_OBJECT_ID : Z := 170.
Definition PROXMOX_VMID : Z := 222.
Definition CLUSTER_ID : Z := 6.
Definition CLUSTER_NAME : string := "PVE-CLUSTER-02".
Definition NODE_ID : Z := 27.
Definition NODE_NAME : string := "pve03".
Definition IPV4_ADDRESS : string := "10.0.30.96".
End Upgrade.

Definition _strict_target_int (v : attribute) (field : string) (expected : Z) : res Z :=
  if attr_int v expected then Ok expected
  else invalid ("Production Gitea target " +:+ field +:+ " must be exactly " +:+ str_of_Z expected +:+ ".").

Definition _target_relation (target : attribute) (field : string) (expected_id : Z) (expected_name : string)
    : res attribute :=
  let relation := attr target field in
  _ ← _strict_target_int (attr target (field +:+ "_id")) (field +:+ "_id") expected_id;
  if is_nothing relation || negb (attr_is (attr relation "pk") expected_id)
     || negb (attr_is (attr relation "name") expected_name)
  then invalid ("Production Gitea target " +:+ field +:+ " must be " +:+ expected_name +:+ " (PK "
                +:+ str_of_Z expected_id +:+ ").")
  else Ok relation.

(** What the tag manager of an object answers: it has none, it fails, or its slugs. *)
Definition tag_manager : Type := option (res (list value)).
Definition _target_tag_slugs (tags : tag_manager) : res (option (list string)) :=
  match tags with
  | None => Ok None
  | Some (Ok slugs) => Ok (Some (map py_str slugs))
  | Some (Err e) =>
      if bool_decide (e ∈ [TypeError; ValueError; OtherError "AttributeError"])
      then invalid "Production Gitea target tags could not be validated."
      else Err e
  end.

Definition custom_field (target : attribute) (key : string) : option attribute :=
  match attr target "custom_field_data" with
  | Val (VDict d) => Some (Val (get key d))
  | _ => None
  end.

Definition validate_gitea_upgrade_target (target : attribute) (tags : tag_manager) (target_model_label : string)
    (assigned_object_id : value) (target_display : attribute) : res dict :=
  _ ← demand (String.eqb target_model_label VM_TYPE)
        "Production Gitea upgrade requires a virtualization.virtualmachine target.";
  _ ← _strict_target_int (Val assigned_object_id) "assigned_object_id" Upgrade.TARGET_OBJECT_ID;
  _ ← demand (negb (is_nothing target) && attr_is (attr target "pk") Upgrade.TARGET_OBJECT_ID
              && attr_is (attr target "name") Upgrade.TARGET_NAME)
        "Production Gitea upgrade requires VM PK 170 named Gitea.";
  _ ← demand (is_nothing target_display || attr_is target_display Upgrade.TARGET_NAME)
        "Production Gitea target display must be exactly Gitea.";
  cluster ← _target_relation target "cluster" Upgrade.CLUSTER_ID Upgrade.CLUSTER_NAME;
  node ← _target_relation target "device" Upgrade.NODE_ID Upgrade.NODE_NAME;
  vmid ← (match custom_field target "proxmox_vm_id" with
          | Some v => _strict_target_int v "custom_field_data.proxmox_vm_id" Upgrade.PROXMOX_VMID
          | None => invalid "Production Gitea target custom fields are unavailable."
          end);
  ipv4 ← (match primary_address target with
          | None => invalid "Production Gitea target primary_ip4 is invalid."
          | Some (IPv4 s) =>
              if String.eqb s Upgrade.IPV4_ADDRESS then Ok s
              else invalid ("Production Gitea target primary_ip4 must be " +:+ Upgrade.IPV4_ADDRESS +:+ ".")
          | Some IPv6 => invalid ("Production Gitea target primary_ip4 must be " +:+ Upgrade.IPV4_ADDRESS +:+ ".")
          end);
  _ ← demand (String.eqb (status_text target) "active") "Production Gitea target must be active.";
  tag_slugs ← _target_tag_slugs tags;
  _ ← demand (match tag_slugs with Some slugs => str_in "production" slugs | None => true end)
        "Production Gitea target must carry the production tag.";
  Ok ["target" :- Upgrade.TARGET_NAME; "target_object" :- target_object Upgrade.TARGET_OBJECT_ID; "vmid" :- VInt vmid;
      "cluster_id" :- Upgrade.CLUSTER_ID; "node" :- Upgrade.NODE_NAME; "ipv4" :- VStr ipv4].

(** ** The isolated runner VM *)

Module Runner.
Definition TARGET_ID : Z := 399.
Definition TARGET_NAME : string := "nmultifibra-ci-untrusted-01".
Definition CLUSTER_ID : Z := 8.
Definition CLUSTER_NAME : string := "CLUSTER01-DC01".
Definition NODE_ID : Z := 34.
Definition NODE_NAME : string := "node01".
Definition PROXMOX_VMID : Z := 10040.
Definition TENANT_ID : Z := 14.
Definition TENANT_NAME : string := "N-MultiFibra".
Definition ROLE_ID : Z := 5.
Definition ROLE_NAME : string := "Virtual Machine (QEMU)".
Definition VCPUS : Z := 8.
Definition MEMORY_MIB : Z := 16384.
Definition DISK_MIB : Z := 122880.
Definition relations : list (string * Z * string) :=
[("cluster", CLUSTER_ID, CLUSTER_NAME); ("device", NODE_ID, NODE_NAME);
 ("tenant", TENANT_ID, TENANT_NAME); ("role", ROLE_ID, ROLE_NAME)].
End Runner.

(** The identity every runner validator starts from. *)
Definition exact_vm (target : attribute) (target_model_label : string) (assigned_object_id : value)
    (target_display : attribute) (id : Z) (name : string) : bool :=
  String.eqb target_model_label VM_TYPE && py_eqb assigned_object_id id && negb (is_bool assigned_object_id)
  && negb (is_nothing target) && attr_is (attr target "pk") id && attr_is (attr target "name") name
  && (is_nothing target_display || attr_is target_display name).

(** [float(v) == n]: decimal text without underscores, as Django gives a decimal. *)
Definition decimal_is (s : string) (n : Z) : option bool :=
  let s := str_lower (str_strip s) in
  let '(negative, s) := match s with
                        | String "-"%char r => (true, r)
                        | String "+"%char r => (false, r)
                        | _ => (false, s)
                        end in
  if str_in s ["inf"; "infinity"; "nan"] then Some false else
  let mantissa := str_before "e"%char s in
  let fraction := str_after "."%char mantissa in
  let exponent := if str_contains "e" s then parse_int (str_after "e"%char s) else Some 0 in
  match parse_digits 0 false (str_before "."%char mantissa +:+ fraction), exponent with
  | Some m, Some e =>
      let e := e - str_len fraction in
      let m := if negative then - m else m in
      Some (if 0 <=? e then m * 10 ^ e =? n else m =? n * 10 ^ (- e))
  | _, _ => None
  end.
Definition float_is (o : attribute) (n : Z) : res bool :=
  match o with
  | Val (VInt m) => Ok (m =? n)
  | Val (VBool b) => Ok ((if b then 1 else 0) =? n)
  | Val (VFloat s) | Val (VStr s) | Val (VObj s) =>
      match decimal_is s n with Some b => Ok b | None => Err ValueError end
  | _ => Err TypeError
  end.

Definition resources_mismatch : string := "Gitea runner target resources do not match reviewed policy.".

Definition check_relation (target : attribute) (expected : string * Z * string) : res unit :=
  let '(field, id, name) := expected in
  let relation := attr target field in
  let relation_id := attr target (field +:+ "_id") in
  demand (negb (is_nothing relation) && attr_is relation_id id && negb (attr_bool relation_id)
          && attr_is (attr relation "pk") id && attr_is (attr relation "name") name)
    ("Gitea runner target " +:+ field +:+ " does not match reviewed policy.").
Fixpoint check_relations (target : attribute) (l : list (string * Z * string)) : res unit :=
  match l with
  | [] => Ok tt
  | x :: r => _ ← check_relation target x; check_relations target r
  end.

(** [except (TypeError, ValueError)]. *)
Definition as_invalid {A} (m : res A) (message : string) : res A :=
  match m with Err TypeError | Err ValueError => invalid message | _ => m end.

Definition validate_gitea_runner_target (target : attribute) (target_model_label : string)
    (assigned_object_id : value) (target_display : attribute) : res dict :=
  _ ← demand (exact_vm target target_model_label assigned_object_id target_display Runner.TARGET_ID Runner.TARGET_NAME)
        "Gitea runner registration requires the exact isolated-runner VM.";
  _ ← check_relations target Runner.relations;
  _ ← demand (String.eqb (status_text target) "active") "Gitea runner target must be active before registration.";
  _ ← demand (negb (attr_bool (attr target "vcpus"))) resources_mismatch;
  vcpus ← as_invalid (float_is (attr target "vcpus") Runner.VCPUS) resources_mismatch;
  _ ← demand (vcpus && attr_int (attr target "memory") Runner.MEMORY_MIB
              && attr_int (attr target "disk") Runner.DISK_MIB) resources_mismatch;
  proxmox_vmid ← (match custom_field target "proxmox_vm_id" with
                  | Some v => _strict_target_int v "custom_field_data.proxmox_vm_id" Runner.PROXMOX_VMID
                  | None => invalid "Gitea runner target custom fields are unavailable."
                  end);
  match primary_address target with
  | Some (IPv4 host) =>
      Ok ["target" :- Runner.TARGET_NAME; "target_object" :- target_object Runner.TARGET_ID;
          "runner_cluster_id" :- Runner.CLUSTER_ID; "runner_node_id" :- Runner.NODE_ID;
          "runner_node" :- Runner.NODE_NAME; "runner_proxmox_vmid" :- VInt proxmox_vmid;
          "runner_tenant_id" :- Runner.TENANT_ID; "runner_role_id" :- Runner.ROLE_ID;
          "runner_vcpus" :- VFloat "8.0"; "runner_memory_mib" :- Runner.MEMORY_MIB;
          "runner_disk_mib" :- Runner.DISK_MIB; "runner_ipv4" :- host]
  | _ => invalid "Gitea runner target requires an explicit primary IPv4 address."
  end.

(** ** The dedicated runner VM *)

Module DedicatedRunner.
Definition TARGET_OBJECT_ID : Z := 416.
Definition TARGET_NAME : string := "Gitea-Runner".
Definition TARGET_IPV4_ADDRESS : string := "10.0.30.241".
End DedicatedRunner.

Definition validate_gitea_org_ci_runner_target (target : attribute) (target_model_label : string)
    (assigned_object_id : value) (target_display : attribute) : res dict :=
  _ ← demand (exact_vm target target_model_label assigned_object_id target_display
                DedicatedRunner.TARGET_OBJECT_ID DedicatedRunner.TARGET_NAME)
        "Gitea org CI runner provisioning requires the exact dedicated runner VM.";
  let mismatch := "Gitea org CI runner target primary_ip4 does not match reviewed policy." in
  ipv4 ← (match primary_address target with
          | None => invalid "Gitea org CI runner target primary_ip4 is invalid."
          | Some (IPv4 s) => if String.eqb s DedicatedRunner.TARGET_IPV4_ADDRESS then Ok s else invalid mismatch
          | Some IPv6 => invalid mismatch
          end);
  _ ← demand (String.eqb (status_text target) "active") "Gitea org CI runner target must be active.";
  Ok ["target" :- DedicatedRunner.TARGET_NAME;
      "target_object" :- target_object DedicatedRunner.TARGET_OBJECT_ID; "runner_ipv4" :- VStr ipv4].

(** ** The Docker runner VM *)

Definition _validate_gitea_docker_runner_target (contract : docker_contract) (lane_label : string)
    (target : attribute) (target_model_label : string) (assigned_object_id : value)
    (target_display : attribute) : res string :=
  _ ← demand (exact_vm target target_model_label assigned_object_id target_display
                (TARGET_OBJECT_ID contract) (TARGET_NAME contract))
        ("Gitea " +:+ lane_label +:+ " CI runner operations require the exact dedicated runner VM.");
  _ ← demand (String.eqb (status_text target) "active") ("Gitea " +:+ lane_label +:+ " CI runner target must be active.");
  match primary_address target with
  | Some (IPv4 host) => Ok host
  | _ => invalid ("Gitea " +:+ lane_label +:+ " CI runner target requires one canonical primary IPv4 address.")
  end.
Definition validate_gitea_docker_runner_target :=
  _validate_gitea_docker_runner_target gitea_docker_runner_contract "user".
Definition validate_gitea_org_docker_runner_recovery_target :=
  _validate_gitea_docker_runner_target gitea_org_docker_runner_recovery_contract "organization".
