(* ===== verification/Akvorado.v ===== *)
(** * Akvorado file bodies

    [validate_akvorado_content_params] of [netbox_rpc/domain/normalization.py]: the
    shape checks of a configuration text and the walk over the YAML tree it holds.

    The YAML parser is an argument.  Its result is a graph: an anchor gives one
    object several parents, and an alias inside its own anchor gives a cycle.  A node
    is the identity of an object; the walk marks the nodes it has seen in a set the
    recursive calls share.

    The walk ends on shared and cyclic graphs, and answers whether a sensitive key can be
    reached from the root. *)

From S2P Require Import Prelude PyValue Spans SpanFacts MaskFacts PyRegex SecretPatterns.

Definition AKVORADO_1_CONFIG_DEPLOY : string := "service.akvorado.1.config_deploy".
Definition _AKVORADO_MAX_CONTENT_LEN : Z := 1024 * 1024.

(** ** Patterns *)

Section Patterns.
Local Open Scope re_scope.

(** The alternatives both assignment patterns share. *)
Definition secret_word (i : bool) : re :=
word i "token" || word i "password" || word i "passphrase" || word i "secret" || word i "authorization"
|| (word i "api" ++ opt (RSet (chars "-_")) ++ word i "key")
|| (word i "access" ++ opt (RSet (chars "-_")) ++ word i "key")
|| (word i "private" ++ opt (RSet (chars "-_")) ++ word i "key") || word i "credential".
Definition key_run (i : bool) : re := star (RSet (key_char i)).
Definition not_newline : re := notset [LF].

Definition _AKVORADO_SENSITIVE_KEY_RE : re := secret_word true.
Definition _AKVORADO_SECRET_ASSIGNMENT_RE : re :=
((RBol ++ star blank) || (RSet (chars ",{") ++ star space) || (ch 45%N ++ plus space))
++ quote ++ key_run true ++ secret_word true ++ key_run true ++ quote
++ star space ++ RSet (chars ":=") ++ star space
++ quote ++ star blank ++ plus (RSet (fun c => negb (is_space c || oneof [DQ; SQ] c))).
Definition _AKVORADO_BLOCK_SCALAR_SECRET_RE : re :=
RBol ++ RGroup "1" (star blank) ++ quote ++ key_run false ++ secret_word false ++ key_run false ++ quote
++ star space ++ ch 58%N ++ star space ++ RSet (chars "|>")
++ opt ((RSet (between 49 57) ++ opt (RSet (chars "+-"))) || (RSet (chars "+-") ++ opt (RSet (between 49 57))))
++ star blank ++ opt (ch 35%N ++ star inline)
++ REol ++ star (ch LF ++ ((RRef "1" ++ blank ++ star not_newline) || (star blank ++ REol))).
Definition _AKVORADO_PRIVATE_KEY_RE : re :=
lit "-----BEGIN " ++ star (RSet (fun c => between 65 90 c || (c =? 32)%N)%bool) ++ lit "PRIVATE KEY-----".
(** The same pattern as in the event store. *)
Definition _AKVORADO_AUTHORIZATION_RE : re := bearer.
Definition _AKVORADO_URL_CREDENTIAL_RE : re :=
RWordB ++ RSet letter_i ++ star (RSet (fun c => letter_i c || digit c || chars "+.-" c)%bool)
++ lit "://" ++ plus (RSet (fun c => negb (is_space c || chars "/:@" c)))
++ ch 58%N ++ plus (RSet (fun c => negb (is_space c || chars "/@" c))) ++ ch 64%N.
Definition content_patterns : list re :=
[_AKVORADO_PRIVATE_KEY_RE; _AKVORADO_SECRET_ASSIGNMENT_RE; _AKVORADO_BLOCK_SCALAR_SECRET_RE;
 _AKVORADO_AUTHORIZATION_RE; _AKVORADO_URL_CREDENTIAL_RE].
End Patterns.

Definition found (p : re) (t : text) : bool := match search p t 0 with Some _ => true | None => false end.

(** A control other than tab and line breaks, DEL and the C1 controls, a surrogate. *)
Definition _akvorado_unsafe_codepoint (c : char) : bool :=
  ((c <? 32)%N && negb (oneof [TAB; LF; CR] c)) || between 127 159 c || between 55296 57343 c.

(** ** The YAML graph *)

(** What a node holds; the text of a key is its [str()]. *)
Inductive node : Type :=
| Scalar
| Sequence (items : list nat)
| Mapping (entries : list (text * nat)).
Notation graph := (list node).
Definition node_at (g : graph) (i : nat) : node := nth i g Scalar.

Definition sensitive_key (k : text) : bool := found _AKVORADO_SENSITIVE_KEY_RE k.

(** [any(...)] over the entries of a node, the set of seen nodes passed along; a
    sequence has no keys. *)
Section AnyEntry.
Variable walk : nat -> list nat -> bool * list nat.
Fixpoint any_entry (entries : list (option text * nat)) (seen : list nat) : bool * list nat :=
match entries with
| [] => (false, seen)
| (key, item) :: rest =>
  if match key with Some k => sensitive_key k | None => false end then (true, seen) else
  let '(b, seen) := walk item seen in
  if b then (true, seen) else any_entry rest seen
end.
End AnyEntry.
Definition entries_of (n : node) : list (option text * nat) :=
  match n with
  | Scalar => []
  | Sequence items => map (fun i => (None, i)) items
  | Mapping entries => map (fun e => (Some e.1, e.2)) entries
  end.
Definition is_scalar (n : node) : bool := match n with Scalar => true | _ => false end.

(** [fuel] bounds the nodes that are not yet seen. *)
Fixpoint _akvorado_has_sensitive_decoded_key (fuel : nat) (g : graph) (value : nat) (seen : list nat)
    : bool * list nat :=
  match fuel with
  | O => (false, seen)
  | S fuel =>
      if is_scalar (node_at g value) then (false, seen)
      else if bool_decide (value ∈ seen) then (false, seen)
      else any_entry (_akvorado_has_sensitive_decoded_key fuel g) (entries_of (node_at g value)) (value :: seen)
  end.
Definition has_sensitive_key (g : graph) (root : nat) : bool :=
  (_akvorado_has_sensitive_decoded_key (S (length g)) g root []).1.

(** ** The content checks *)

(** [yaml.safe_load]: [None] is [YAMLError]. *)
Class Yaml := { safe_load : text -> option (graph * nat) }.

Section Content.
Context `{Yaml}.

Definition param_invalid {A} (message : string) : res A := Err (RPCExecutionError "RPC_PARAM_INVALID" message).
Definition secret_forbidden (field_name : string) : exn :=
RPCExecutionError "RPC_PARAM_SECRET_FORBIDDEN"
(field_name +:+ " contains secret-shaped material; use an nms-secret reference instead.").

Definition _normalize_akvorado_content (raw_content : value) (field_name : string) : res string :=
match raw_content with
| VStr s =>
  if negb (str_truthy (str_strip s)) then param_invalid (field_name +:+ " must be a non-empty string.")
  else if _AKVORADO_MAX_CONTENT_LEN <? str_len s
  then param_invalid (field_name +:+ " may contain at most " +:+ str_of_Z _AKVORADO_MAX_CONTENT_LEN +:+ " characters.")
  else if existsb _akvorado_unsafe_codepoint (codes s)
  then param_invalid (field_name +:+ " contains control characters unsafe for JSONB storage.")
  else if existsb (fun p => found p (codes s)) content_patterns then Err (secret_forbidden field_name)
  else match safe_load (codes s) with
       | None => Ok s
       | Some (g, root) => if has_sensitive_key g root then Err (secret_forbidden field_name) else Ok s
       end
| _ => param_invalid (field_name +:+ " must be a non-empty string.")
end.

Definition validate_akvorado_content_params (procedure_name : string) (params : dict) : res unit :=
if String.eqb procedure_name AKVORADO_1_CONFIG_DEPLOY
then _ ← _normalize_akvorado_content (get "config_content" params) "config_content"; Ok tt
else Ok tt.
End Content.

(** ** Properties of the walk *)

Local Close Scope re_scope.

#[local] Notation walk := _akvorado_has_sensitive_decoded_key.

Section Walk.
Variable g : graph.

Definition edge (i j : nat) : Prop := exists k, (k, j) ∈ entries_of (node_at g i).
(** A key of the node is sensitive. *)
Definition exposed (i : nat) : Prop := exists k j, (Some k, j) ∈ entries_of (node_at g i) /\ sensitive_key k = true.
Definition reaches_exposed (i : nat) : Prop := exists j, rtc edge i j /\ exposed j.

(** No key of [i] is sensitive and the walk has been through its children. *)
Definition done_with (seen : list nat) (j : nat) : Prop := is_scalar (node_at g j) = true \/ j ∈ seen.
Definition closed_off (seen : list nat) (i : nat) : Prop := ~ exposed i /\ forall j, edge i j -> done_with seen j.
Definition closes (before after : list nat) : Prop :=
before ⊆ after /\ forall i, i ∈ after -> i ∉ before -> closed_off after i.

Lemma done_mono a b j : a ⊆ b -> done_with a j -> done_with b j.
Proof. unfold done_with. set_solver. Qed.
Lemma closed_mono a b i : a ⊆ b -> closed_off a i -> closed_off b i.
Proof. intros Hab [H1 H2]. split; [done|]. intros j Hj. eapply done_mono, H2; done. Qed.
Lemma closes_trans a b c : closes a b -> closes b c -> closes a c.
Proof.
intros [H1 H2] [H3 H4]. split; [set_solver|]. intros i Hi Hn.
destruct (decide (i ∈ b)); [by eapply closed_mono, H2|by apply H4].
Qed.
Lemma closes_refl a : closes a a.
Proof. split; done. Qed.

(** The nodes that are not yet seen. *)
Definition unseen (seen : list nat) : nat :=
size (list_to_set (seq 0 (length g)) ∖ list_to_set seen : gset nat).
Lemma unseen_mono a b : a ⊆ b -> (unseen b <= unseen a)%nat.
Proof. intros H. unfold unseen. apply subseteq_size. set_solver. Qed.
Lemma unseen_cons i seen :
is_scalar (node_at g i) = false -> i ∉ seen -> (unseen (i :: seen) < unseen seen)%nat.
Proof.
intros Hs Hn. assert (i < length g)%nat as Hi.
{ destruct (decide (i < length g)%nat) as [|Hge]; [done|]. exfalso.
  unfold node_at in Hs. rewrite nth_overflow in Hs by lia. done. }
unfold unseen. apply subset_size. apply strict_spec. split; [set_solver|]. intros Hsub.
assert (i ∈ (list_to_set (seq 0 (length g)) ∖ list_to_set seen : gset nat)) as Hin.
{ apply elem_of_difference. rewrite !elem_of_list_to_set, elem_of_seq. split; [lia|done]. }
apply Hsub in Hin. set_solver.
Qed.

(** What a walk from [i] answers. *)
Definition answers (i : nat) (seen : list nat) (r : bool * list nat) : Prop :=
if r.1 then reaches_exposed i else closes seen r.2 /\ done_with r.2 i.

Lemma any_entry_answers fuel es seen :
(forall i seen', seen ⊆ seen' -> answers i seen' (walk fuel g i seen')) ->
let r := any_entry (walk fuel g) es seen in
if r.1 then exists k j, (k, j) ∈ es /\ ((exists w, k = Some w /\ sensitive_key w = true) \/ reaches_exposed j)
else closes seen r.2 /\ forall k j, (k, j) ∈ es ->
  (forall w, k = Some w -> sensitive_key w = false) /\ done_with r.2 j.
Proof.
revert seen. induction es as [|[k i] es IH]; intros seen Hw; cbn.
{ split; [apply closes_refl|]. intros k j Hj. by apply elem_of_nil in Hj. }
destruct (match k with Some w => sensitive_key w | None => false end) eqn:Hk; cbn.
{ destruct k as [w|]; [|done]. exists (Some w), i. split; [by left|]. left. eauto. }
pose proof (Hw i seen (reflexivity _)) as Hi. unfold answers in Hi.
destruct (walk fuel g i seen) as [[] seen1]; cbn in *.
{ exists k, i. split; [by left|by right]. }
destruct Hi as [Hc Hd]. specialize (IH seen1). cbn in IH.
destruct (any_entry (walk fuel g) es seen1) as [[] seen2]; cbn in *.
- destruct IH as (k' & j & Hin & H); [intros; apply Hw; destruct Hc; set_solver|].
  exists k', j. split; [by right|done].
- destruct IH as [Hc2 Hd2]; [intros; apply Hw; destruct Hc; set_solver|].
  split; [by eapply closes_trans|]. intros k' j [[= -> ->]|Hin]%elem_of_cons; [|by apply Hd2].
  split; [by intros w ->|]. destruct Hc2. by eapply done_mono.
Qed.

Lemma reaches_step i j k : (k, j) ∈ entries_of (node_at g i) -> reaches_exposed j -> reaches_exposed i.
Proof. intros He (x & Hr & Hx). exists x. split; [|done]. eapply rtc_l; [by exists k|done]. Qed.

Lemma walk_answers fuel : forall i seen, (unseen seen < fuel)%nat -> answers i seen (walk fuel g i seen).
Proof.
induction fuel as [|fuel IH]; intros i seen Hf; [lia|]. cbn.
destruct (is_scalar (node_at g i)) eqn:Hs.
{ split; [apply closes_refl|by left]. }
case_bool_decide as Hin.
{ split; [apply closes_refl|by right]. }
pose proof (any_entry_answers fuel (entries_of (node_at g i)) (i :: seen)) as Ha. cbn in Ha.
pose proof (unseen_cons i seen Hs Hin) as Hlt.
unfold answers. destruct (any_entry _ _ _) as [[] seen']; cbn in *.
- destruct Ha as (k & j & He & H).
  { intros i' seen2 Hsub. apply IH. pose proof (unseen_mono _ _ Hsub). lia. }
  destruct H as [(w & -> & Hw)|H]; [|by eapply reaches_step]. exists i. split; [done|]. by exists w, j.
- destruct Ha as [[Hsub Hcl] Hd].
  { intros i' seen2 Hsub. apply IH. pose proof (unseen_mono _ _ Hsub). lia. }
  split; [|right; set_solver]. split; [set_solver|]. intros x Hx Hn.
  destruct (decide (x = i)) as [->|Hne]; [|apply Hcl; set_solver]. split.
  + intros (w & j & He & Hw). destruct (Hd _ _ He) as [Hk _]. specialize (Hk w eq_refl). congruence.
  + intros j (k & He). by apply (Hd k j).
Qed.

(** A set of nodes that is closed holds everything that is reachable from it. *)
Lemma closed_unexposed seen i :
(forall x, x ∈ seen -> closed_off seen x) -> done_with seen i -> ~ reaches_exposed i.
Proof.
intros Hcl Hd (j & Hr & Hj). induction Hr as [i|i i' j He Hr IH].
- destruct Hd as [Hs|Hin]; [|by apply (Hcl i Hin)]. destruct Hj as (w & j & He & _).
  destruct (node_at g i); [by apply elem_of_nil in He|done..].
- apply IH; [|done]. destruct Hd as [Hs|Hin]; [|by apply (Hcl i Hin)]. exfalso. destruct He as (k & He).
  destruct (node_at g i); [by apply elem_of_nil in He|done..].
Qed.
End Walk.

Lemma walk_decides g root :
  has_sensitive_key g root = true <-> reaches_exposed g root.
Proof.
  unfold has_sensitive_key.
  assert (unseen g [] < S (length g))%nat as Hf.
  { unfold unseen. rewrite Nat.lt_succ_r. etrans; [apply subseteq_size, subseteq_difference_l; reflexivity|].
    rewrite size_list_to_set by apply NoDup_seq. by rewrite length_seq. }
  pose proof (walk_answers g _ root [] Hf) as Ha. unfold answers in Ha.
  destruct (walk (S (length g)) g root []) as [[] seen]; cbn in *; [done|]. split; [done|].
  destruct Ha as [[_ Hcl] Hd]. intros H. exfalso. revert H. apply (closed_unexposed g seen); [|done].
  intros x Hx. apply Hcl; [done|set_solver].
Qed.

(** C29: The walk over a decoded YAML document answers true exactly when some mapping that
    can be reached from its root has a sensitive key, on shared and cyclic documents as
    well; the set of seen nodes makes it end. *)
Theorem walk_finds_sensitive_keys g root :
  has_sensitive_key g root = true <-> reaches_exposed g root.
Proof. apply walk_decides. Qed.
