(* ===== verification/Admission.v ===== *)
(** * Admission of an execution

    The checks of [netbox_rpc/application/command_handlers.py] that precede the insert
    of an execution: the code gates of [netbox_rpc/domain/normalization.py], the catalog
    policy of a protected procedure, the shape of the request, the target object, the
    secret-bearing parameters and the backend; the creation they guard; and the check
    of an organization runner request at claim time.

    The reviewed policies and schemas of a contract module are a value
    ([reviewed_contract]).  What the database, the serializer and the other components
    answer is the environment ([admission_env]). *)

From S2P Require Import Prelude PyValue Events Projection CredentialContract.
From S2P Require Import Spans SpanFacts MaskFacts PyRegex SecretPatterns TextRedaction.
From S2P Require Import ValueRedaction RedactionFacts SchemaLimits EventStore EventStoreFacts.
From S2P Require Import Response ResponseFacts Aggregate Protected Approvals Codec Capabilities Dispatch.
From S2P Require Import Contracts Backends CredentialAuthority OpenBao Targets Akvorado.
Import JsonNotations.

Local Open Scope Z_scope.
#[local] Opaque redact_event_value redact_event_data.

(** ** Code gates *)

Definition HUAWEI_NE8000_F1A_SHOW_BGP_PEER : string := "network.device.huawei.router.ne8000.f1a.show_bgp_peer".
Definition NETBOX_PLUGIN_INSTALL : string := "netbox.plugin.install".
Definition LINUX_ENV_FILE_UPSERT_VAR : string := "os.linux_env_file.upsert_var".
Definition PBS_1_PROCEDURE_NAMES : list string :=
  ["service.pbs.1.status"; "service.pbs.1.cert_fingerprint"; "service.pbs.1.disk_list";
   "service.pbs.1.datastore_from_disk"].
Definition GITEA_ORG_CI_RUNNER_PROCEDURE_NAMES : list string := [GITEA_ORG_CI_RUNNER_PROVISION].
Definition GITEA_PROTECTED_PUBLICATION_PAIR_PROCEDURE_NAMES : list string :=
  [PublicationPair.PROVE_PROCEDURE; PublicationPair.PROVISION_PROCEDURE].

(** The module flags; a release opens a gate by changing its constant. *)
Record code_gates := {
  _LINUX_ENV_FILE_UPSERT_AVAILABLE : bool;
  _HUAWEI_NE8000_BGP_AVAILABLE : bool;
  _NETBOX_PLUGIN_INSTALL_AVAILABLE : bool;
  _INFLUXDB3_DEBIAN13_AVAILABLE : bool;
  _PBS_1_AVAILABLE : bool;
  _GITEA_RUNNER_REGISTER_AVAILABLE : bool;
  _GITEA_ORG_CI_RUNNER_AVAILABLE : bool;
  _GITEA_PROTECTED_PUBLICATION_PAIR_AVAILABLE : bool;
  _AKVORADO_BOOTSTRAP_DEBIAN13_AVAILABLE : bool;
}.
Definition shipped_gates : code_gates := Build_code_gates false false false false false false false false false.

Definition _gitea_runner_code_gate_unavailable_reason (f : code_gates) (procedure_name : string) : option string :=
  if str_in procedure_name GITEA_ORG_CI_RUNNER_PROCEDURE_NAMES && negb (_GITEA_ORG_CI_RUNNER_AVAILABLE f)
  then Some (procedure_name +:+ " cannot run yet: no service.gitea.actions_runner.* execution handler is deployed in netbox-rpc-backend, so an execution could only queue and then fail on an unknown handler. Enable it in the coordinated rollout that ships the handler and its approved capability contract.")
  else if str_in procedure_name GITEA_PROTECTED_PUBLICATION_PAIR_PROCEDURE_NAMES
          && negb (_GITEA_PROTECTED_PUBLICATION_PAIR_AVAILABLE f)
  then Some (procedure_name +:+ " cannot run until the fixed protected publication runner host generation, content-addressed helpers, and matching backend semantic capability are deployed and reviewed.")
  else None.

Definition code_gate_unavailable_reason (f : code_gates) (procedure_name : string) : option string :=
  if String.eqb procedure_name LINUX_ENV_FILE_UPSERT_VAR && negb (_LINUX_ENV_FILE_UPSERT_AVAILABLE f)
  then Some "os.linux_env_file.upsert_var cannot run yet: the nms-backend execution handler is not deployed, credential_pk is not object-scoped-authorization checked against the requester (issue #203), and approval decisions are not yet bound to an allowlist-policy snapshot (issue #163)."
  else if String.eqb procedure_name NETBOX_PLUGIN_INSTALL && negb (_NETBOX_PLUGIN_INSTALL_AVAILABLE f)
  then Some "netbox.plugin.install cannot run yet: the nms-backend execution handler is not deployed. Note also that approval decisions are not yet bound to a snapshot of the RPCNetBoxPluginAllowlist row the worker resolves at claim time (issue #163), so an approver could approve against one row and the worker execute against another edited in between."
  else if String.eqb procedure_name GITEA_RUNNER_REGISTER && negb (_GITEA_RUNNER_REGISTER_AVAILABLE f)
  then Some "service.gitea.runner.register cannot run until the composite secret-silent backend handler and exact isolated-runner host generation are deployed and reviewed."
  else if String.eqb procedure_name HUAWEI_NE8000_F1A_SHOW_BGP_PEER && negb (_HUAWEI_NE8000_BGP_AVAILABLE f)
  then Some (HUAWEI_NE8000_F1A_SHOW_BGP_PEER +:+ " cannot run yet: the netbox-rpc-backend execution handler and its approved capability contract are not deployed, and the coordinated BGP rollout has not been authorized.")
  else if str_in procedure_name INFLUXDB3_DEBIAN13_PROCEDURE_NAMES && negb (_INFLUXDB3_DEBIAN13_AVAILABLE f)
  then Some (procedure_name +:+ " cannot run yet: no os.linux_debian_13.* execution handler is deployed in netbox-rpc-backend, so an execution could only queue and then fail on an unknown handler. Enable it in the coordinated rollout that ships the handlers and their approved capability contract.")
  else if str_in procedure_name PBS_1_PROCEDURE_NAMES && negb (_PBS_1_AVAILABLE f)
  then Some (procedure_name +:+ " cannot run yet: the service.pbs.1.* backend handlers and matching capability contracts must be deployed before the catalog procedures are enabled.")
  else match _gitea_runner_code_gate_unavailable_reason f procedure_name with
       | Some reason => Some reason
       | None =>
           if str_in procedure_name AKVORADO_BOOTSTRAP_DEBIAN13_PROCEDURE_NAMES
              && negb (_AKVORADO_BOOTSTRAP_DEBIAN13_AVAILABLE f)
           then Some (procedure_name +:+ " cannot run yet: the Debian 13 Akvorado bootstrap handlers and approved capability contracts are not deployed in netbox-rpc-backend.")
           else None
       end.

(** ** The organization runner lane *)

Module OrgParams.
Import OrgCiRunner.
Definition _NMS_SECRET_REF_PATTERN : string :=
"^nms-secret:[0-9a-fA-F]{8}-[0-9a-fA-F]{4}-[1-5][0-9a-fA-F]{3}-[89abAB][0-9a-fA-F]{3}-[0-9a-fA-F]{12}(?![\s\S])".
Definition when_operation (operation : string) (consequence : dict) : value :=
VDict ["if" :- VDict ["properties" :- VDict ["operation" :- VDict ["const" :- operation]];
                  "required" :- VList [VStr "operation"]];
   "then" :- VDict consequence].
Definition secret_ref_required : dict := ["required" :- VList [VStr "registration_token_secret_ref"]].
Definition _secret_reference_operation_bindings : list value :=
[when_operation "provision" secret_ref_required;
 when_operation "reconcile" ["not" :- VDict secret_ref_required]].
Definition switch (standard : bool) : value := VDict ["type" :- "boolean"; "default" :- standard].
Definition PARAMS_SCHEMA : dict :=
["type" :- "object";
 "required" :- VList [VStr "operation"; VStr "lane"];
 "additionalProperties" :- false;
 "properties" :- VDict
 ["operation" :- VDict ["type" :- "string"; "enum" :- VList (VStr <$> OPERATIONS)];
"registration_token_secret_ref" :- VDict
  ["type" :- "string"; "minLength" :- 47; "maxLength" :- 47; "pattern" :- _NMS_SECRET_REF_PATTERN;
   "description" :- "Reference to the vaulted one-time Gitea runner token."];
"lane" :- VDict
  ["type" :- "string"; "enum" :- VList (VStr <$> _LANE_NAMES);
   "description" :- "Selects one complete frozen runner trust domain."];
"install_docker" :- switch true;
"build_runner_image" :- switch true;
"load_prebuilt_runner_image" :- switch false;
"force_recreate" :- switch false];
 "not" :- VDict
 ["required" :- VList [VStr "build_runner_image"; VStr "load_prebuilt_runner_image"];
"properties" :- VDict ["build_runner_image" :- all_true; "load_prebuilt_runner_image" :- all_true]];
 "allOf" :- VList _secret_reference_operation_bindings].

Definition activation_unavailable_reason (params : value) : option string :=
match params with
| VDict d =>
match get "lane" d with
| VStr lane =>
    match get lane LANES with
    | VDict lane_contract =>
        if bool_decide (get "activation_eligible" lane_contract = VBool false)
        then Some (lane +:+ " host generation is unavailable until " +:+ HOST_GENERATION_DEPENDENCY
                   +:+ " publishes a reviewed content-addressed provision-and-prove boundary.")
        else None
    | _ => None
    end
| _ => None
end
| _ => None
end.
End OrgParams.

(** ** The catalog policy of a protected procedure *)

(** The catalog row with the descriptions of its commands, by their sequence number,
    which is unique in a procedure. *)
Record admission_row := {
  ar_row : procedure_row;
  ar_description : Z -> string;
}.
Definition ar_base (p : admission_row) : procedure := pc_base (ar_row p).
Definition ar_name (p : admission_row) : string := pr_name (ar_base p).
Definition ar_catalog (p : admission_row) : catalog_row := pc_catalog (ar_row p).

(** What the admission reads of a contract module; an attribute that the module does not
    have is empty, [None] or [VNone], as the [getattr] default says. *)
Record reviewed_contract := {
  PROTECTED_PROCEDURE_POLICIES : list (string * dict);
  PROCEDURE_POLICIES : list (string * dict);
  PROCEDURE_POLICY : dict;
  CONTRACT_RESULT_SCHEMAS : list (string * value);
  CONTRACT_RESULT_SCHEMA : value;
  CONTRACT_PARAMS_SCHEMA : value;
  SEMANTIC_CAPABILITY_SHA256 : value;
  TRANSPORT_PINNED : value;
}.

Definition AKVORADO_BOOTSTRAP_INSTALL_HASH : string :=
  "b7a42b3e417541a9593726d64eb2159401dfcd8faffc807cdcfa1f39090afcfa".

(** The names whose target must exist and be viewable by the requester. *)
Definition _ASSIGNED_OBJECT_SCOPED_PROCEDURE_NAMES : list string :=
  AKVORADO_LIFECYCLE_HANDLER_IDS ++ AKVORADO_BOOTSTRAP_DEBIAN13_PROCEDURE_NAMES
  ++ INFLUXDB3_DEBIAN13_PROCEDURE_NAMES ++ NETBOX_PRODUCTION_RQ_WORKER_PROCEDURE_NAMES
  ++ SAMBA_AD_DC_HANDLER_IDS
  ++ [GITEA_RUNNER_REGISTER; GITEA_ORG_CI_RUNNER_PROVISION;
      "service.gitea.actions_runner.diagnose_org_ci_runner"; GITEA_ORG_CI_RUNNER_RECOVER]
  ++ GITEA_PROTECTED_PUBLICATION_PAIR_PROCEDURE_NAMES
  ++ ["service.gitea.actions_runner.diagnose_user_ci_runner"; GITEA_USER_CI_RUNNER_RECOVER;
      "service.netbox.openbao_import.dry_run"; NETBOX_OPENBAO_IMPORT_APPLY;
      "service.nmulticloud.deploy.release_marker_check"; NMULTICLOUD_DEPLOY_RELEASE_MARKER_RECONCILE;
      LINUX_PROXMOX_OCI_REGISTRY_PULL; "service.proxbox_api.release_images.inspect";
      PROXBOX_API_RELEASE_IMAGES_RECOVER].
Definition _OPENBAO_PROCEDURE_PREFIX : string := "service.openbao.1.".

Definition _STAGING_ROTATION_CREATE_FIELDS : list string :=
  ["procedure_id"; "assigned_object_type"; "assigned_object_id"; "params"; "credential_references"].
Definition _PASSWORD_BEARING_HANDLER_IDS : list string :=
  ["service.samba_1.user_create"; "service.samba_1.user_set_password"].

(** An attribute of the instance, [None] when it has none. *)
Definition command_policy (p : admission_row) (c : command) : value :=
  VDict ["sequence" :- sequence c; "step_type" :- step_type c; "device_cli_mode" :- device_cli_mode c;
         "argv" :- VList (argv c); "description" :- ar_description p (sequence c);
         "condition_param" :- condition_param c; "condition_negate" :- condition_negate c;
         "for_each_param" :- for_each_param c; "continue_on_error" :- continue_on_error c;
         "render_mode" :- render_mode c; "produces_var" :- produces_var c; "capture_kind" :- capture_kind c;
         "capture_expression" :- capture_expression c].

(** The digest of a module, or of the procedure when the module has a table. *)
Definition semantic_digest (contract : reviewed_contract) (name : string) : value :=
  match SEMANTIC_CAPABILITY_SHA256 contract with VDict d => get name d | v => v end.
(** An entry that is left out when it has no value. *)
Definition optional_entry (k : string) (v : value) (d : dict) : dict :=
  if bool_decide (v = VNone) then d else dict_set k v d.

Section Policy.
Context `{PyLib} `{ManifestLib}.

(** The contract module of a name has to exist. *)
Definition _protected_procedure_policy (reviewed : string -> reviewed_contract) (p : admission_row)
  (contract_name : string) : res dict :=
_ ← _protected_contract contract_name;
let contract := reviewed contract_name in
let row := ar_row p in
let policy :=
["name" :- ar_name p; "handler_id" :- cr_handler_id (ar_catalog p); "version" :- pr_version (ar_base p);
 "enabled" :- pr_enabled (ar_base p); "target_models" :- VList (VStr <$> pc_target_models row);
 "effect" :- pr_effect (ar_base p); "timeout_seconds" :- pr_timeout_seconds (ar_base p);
 "approval_required" :- pc_approval_required row; "transport_driver" :- pc_transport_driver row;
 "transport_driver_chain" :- pc_transport_driver_chain row; "output_parser" :- pc_output_parser row;
 "output_schema" :- pc_output_schema row;
 "command_contract_sha256" :-
   canonical_hash (VList (map (command_policy p) (sort_commands (cr_commands (ar_catalog p)))))] in
let policy := optional_entry "semantic_contract_sha256" (semantic_digest contract (ar_name p)) policy in
Ok (if bool_decide (TRANSPORT_PINNED contract = VNone) then policy
  else dict_set "transport_pinned" (pc_transport_pinned row) policy).

(** [getattr(contract, "PROTECTED_PROCEDURE_POLICIES", {}).get(name)], or the entry of
  the other table, or the policy of the module. *)
Definition expected_policy (contract : reviewed_contract) (name : string) : dict :=
match table_get name (PROTECTED_PROCEDURE_POLICIES contract) with
| Some policy => policy
| None => default (PROCEDURE_POLICY contract) (table_get name (PROCEDURE_POLICIES contract))
end.
Definition expected_result_schema (contract : reviewed_contract) (name : string) : value :=
default (CONTRACT_RESULT_SCHEMA contract) (table_get name (CONTRACT_RESULT_SCHEMAS contract)).

Definition _require_protected_procedure_policy (reviewed : string -> reviewed_contract) (p : admission_row)
  (expected_name : option string) : res unit :=
let procedure_name := ar_name p in
let contract_name := default procedure_name expected_name in
_ ← _protected_contract contract_name;
if String.eqb contract_name AKVORADO_BOOTSTRAP_DEBIAN13_INSTALL then
require (String.eqb procedure_name AKVORADO_BOOTSTRAP_DEBIAN13_INSTALL && pr_enabled (ar_base p)
         && String.eqb (derive_command_contract_hash (ar_catalog p)) AKVORADO_BOOTSTRAP_INSTALL_HASH)
  (ValidationError "procedure_id"
     "Debian 13 Akvorado bootstrap catalog policy does not match the immutable reviewed contract.")
else
actual_policy ← _protected_procedure_policy reviewed p contract_name;
let contract := reviewed contract_name in
require (py_eqb (VDict actual_policy) (VDict (expected_policy contract procedure_name))
         && py_eqb (pr_params_schema (ar_base p)) (CONTRACT_PARAMS_SCHEMA contract)
         && py_eqb (pr_result_schema (ar_base p)) (expected_result_schema contract procedure_name))
  (ValidationError "procedure_id"
     (_protected_label procedure_name +:+ " catalog policy does not match the immutable reviewed contract.")).
End Policy.

(** ** The request and what surrounds it *)

(** The serializer: the data as sent, the outcome of [is_valid], and the validated
    fields ([cq_params] is [validated_data.get("params")]). *)
Record creation_request := {
  cq_initial_data : value;
  cq_is_valid : res unit;
  cq_row : admission_row;
  cq_params : value;
  cq_content_type : option (string * string);
  cq_object_id : value;
  cq_references : value;
}.

(** [en_view] is [model_class().objects.restrict(user, "view").filter(pk=...).first()] of
    a content type, with the tag manager of the object. *)
Record admission_env := {
  en_gates : code_gates;
  en_reviewed : string -> reviewed_contract;
  en_settings_enabled : bool;
  en_settings_backend : option (Z * RPCBackend);
  en_resolve : value -> res (option BackendTarget);
  en_view : string * string -> value -> res (option (Targets.attribute * tag_manager));
  en_schema_message : value -> value -> string;
  en_cache : gmap string (Z * option BackendCapabilityManifest);
  en_now : Z;
  en_answer : http;
  en_live_worker : bool;
  en_database : database;
  en_later : database;
  en_uuid : string;
  en_actor : actor;
}.

Definition user_of (a : actor) : user :=
  {| u_pk := VInt (ac_pk a); has_perm := ac_has_perm a; is_superuser := ac_is_superuser a;
     restrict := ac_restrict a PROCEDURE_MODEL |}.
Definition settings_backend_id (env : admission_env) : value :=
  match en_settings_backend env with Some (pk, _) => VInt pk | None => VNone end.
(** [RpcPluginSettings.resolved_backend_target]. *)
Definition resolved_backend_target (env : admission_env) : res (option backend_target) :=
  match en_settings_backend env with
  | Some (_, b) => Ok (Some (protected_target (_adapt_backend b)))
  | None => option_map protected_target <$> en_resolve env VNone
  end.

(** ** The checks *)

Definition required_object (message : string) : exn := ValidationError "assigned_object_id" message.

(** The object, or nothing when the lookup fails the way the code expects. *)
Definition viewable (env : admission_env) (ct : option (string * string)) (object_id : value)
    : res (option (Targets.attribute * tag_manager)) :=
  match ct with
  | None => Ok None
  | Some ct =>
      match en_view env ct object_id with
      | Err e => if bool_decide (e ∈ [TypeError; ValueError; AttributeError]) then Ok None else Err e
      | r => r
      end
  end.
Definition object_or_nothing (o : option (Targets.attribute * tag_manager)) : Targets.attribute :=
  match o with Some (a, _) => a | None => nothing end.
Definition tags_of (o : option (Targets.attribute * tag_manager)) : tag_manager :=
  match o with Some (_, t) => t | None => None end.

Definition _require_viewable_assigned_object (env : admission_env) (rq : creation_request) : res unit :=
  let name := ar_name (cq_row rq) in
  if negb (str_in name _ASSIGNED_OBJECT_SCOPED_PROCEDURE_NAMES) && negb (str_startswith _OPENBAO_PROCEDURE_PREFIX name)
  then Ok tt
  else match cq_content_type rq, cq_object_id rq with
       | None, _ | _, VNone => Err (required_object "An assigned NetBox object is required.")
       | ct, object_id =>
           o ← viewable env ct object_id;
           require (match o with Some _ => true | None => false end)
             (required_object "The assigned NetBox object does not exist.")
       end.

Definition _require_staging_rotation_assigned_object (env : admission_env) (rq : creation_request) : res unit :=
  if negb (str_in (ar_name (cq_row rq)) [NETBOX_STAGING_ROTATE_BACKEND_TOKEN; NETBOX_STAGING_DEPLOY_DNS_PAIR])
  then Ok tt
  else if negb (bool_decide (cq_content_type rq = Some ("dcim", "device"))) || bool_decide (cq_object_id rq = VNone)
  then Err (required_object "The nms-front-door device is required.")
  else
    o ← viewable env (cq_content_type rq) (cq_object_id rq);
    require (match o with Some (a, _) => attr_is (attr a "name") (VStr "nms-front-door") | None => false end)
      (required_object "The nms-front-door device does not exist.").

(** [f"{app_label}.{model}"]. *)
Definition type_label (ct : option (string * string)) : string :=
  match ct with Some (app, model) => app +:+ "." +:+ model | None => "." end.
(** [except RPCExecutionError]. *)
Definition as_object_error {A} (r : res A) : res A :=
  match r with Err (RPCExecutionError _ m) => Err (required_object m) | _ => r end.

Definition _require_gitea_upgrade_assigned_object (env : admission_env) (rq : creation_request) : res unit :=
  if negb (String.eqb (ar_name (cq_row rq)) GITEA_PRODUCTION_UPGRADE_1_27_1) then Ok tt
  else if negb (String.eqb (type_label (cq_content_type rq)) VM_TYPE) || negb (py_eqb (cq_object_id rq) (VInt 170))
  then Err (required_object "Production Gitea VM PK 170 is required.")
  else
    o ← viewable env (cq_content_type rq) (cq_object_id rq);
    let a := object_or_nothing o in
    _ ← as_object_error (validate_gitea_upgrade_target a (tags_of o) (type_label (cq_content_type rq))
                           (cq_object_id rq) (attr a "name"));
    Ok tt.

(** [_GITEA_RUNNER_TARGET_POLICIES]: the pinned VM and the validator of a procedure. *)
Record runner_policy := {
  rp_object_id : Z;
  rp_validator : Targets.attribute -> string -> value -> Targets.attribute -> res unit;
  rp_required_message : string;
}.
Definition forget {A} (r : res A) : res unit := _ ← r; Ok tt.
Definition _GITEA_RUNNER_TARGET_POLICIES : list (string * runner_policy) :=
  [(GITEA_RUNNER_REGISTER,
    {| rp_object_id := Runner.TARGET_ID;
       rp_validator := fun o l i d => forget (validate_gitea_runner_target o l i d);
       rp_required_message := "The exact isolated Gitea runner VM is required." |});
   (GITEA_ORG_CI_RUNNER_PROVISION,
    {| rp_object_id := DedicatedRunner.TARGET_OBJECT_ID;
       rp_validator := fun o l i d => forget (validate_gitea_org_ci_runner_target o l i d);
       rp_required_message := "The exact dedicated Gitea CI runner VM is required." |})]
  ++ map (fun name => (name,
    {| rp_object_id := PublicationPair.TARGET_OBJECT_ID;
       rp_validator := fun o l i d => forget (validate_gitea_org_ci_runner_target o l i d);
       rp_required_message := "The exact dedicated Gitea runner VM is required." |}))
    GITEA_PROTECTED_PUBLICATION_PAIR_PROCEDURE_NAMES
  ++ map (fun name => (name,
    {| rp_object_id := TARGET_OBJECT_ID gitea_docker_runner_contract;
       rp_validator := fun o l i d => forget (validate_gitea_docker_runner_target o l i d);
       rp_required_message := "The exact user-scoped Gitea CI runner VM is required." |}))
    [DIAGNOSE_PROCEDURE_NAME gitea_docker_runner_contract; GITEA_USER_CI_RUNNER_RECOVER]
  ++ map (fun name => (name,
    {| rp_object_id := TARGET_OBJECT_ID gitea_org_docker_runner_recovery_contract;
       rp_validator := fun o l i d => forget (validate_gitea_org_docker_runner_recovery_target o l i d);
       rp_required_message := "The exact organization-scoped Gitea CI runner VM is required." |}))
    [DIAGNOSE_PROCEDURE_NAME gitea_org_docker_runner_recovery_contract; GITEA_ORG_CI_RUNNER_RECOVER].

Definition _require_gitea_runner_assigned_object (env : admission_env) (rq : creation_request) : res unit :=
  match table_get (ar_name (cq_row rq)) _GITEA_RUNNER_TARGET_POLICIES with
  | None => Ok tt
  | Some policy =>
      if negb (String.eqb (type_label (cq_content_type rq)) VM_TYPE)
         || negb (py_eqb (cq_object_id rq) (VInt (rp_object_id policy))) || is_bool (cq_object_id rq)
      then Err (required_object (rp_required_message policy))
      else
        o ← viewable env (cq_content_type rq) (cq_object_id rq);
        let a := object_or_nothing o in
        as_object_error (rp_validator policy a (type_label (cq_content_type rq)) (cq_object_id rq) (attr a "name"))
  end.

Definition ingress_message (e : ingress) : string :=
  match e with
  | TooLong => "OpenBao params contain a string exceeding the 1 MiB UTF-8 byte limit."
  | NotObject => "OpenBao params must be an object."
  | SecretShaped | UnicodeEncodeError => "OpenBao params contain secret-shaped material and cannot be persisted."
  end.
(** A [UnicodeEncodeError] is not an [OpenBaoSecretIngressError]. *)
Definition _validate_openbao_payload (procedure_name : string) (params : dict) : res unit :=
  match validate_openbao_params_for_persistence procedure_name (VDict params) with
  | Ok _ => Ok tt
  | Err UnicodeEncodeError => Err (OtherError "UnicodeEncodeError")
  | Err e => Err (ValidationError "params" (ingress_message e))
  end.

(** ** The steps of [create_execution] *)

Section Creation.
Context `{PyLib} `{JsonSchema} `{ManifestLib} `{Yaml}.
Variable capture_reference_identity : option (CredentialReferenceV1 -> actor -> target_row -> string -> res value).

Definition _validate_creation_admission (env : admission_env) (rq : creation_request) (params : dict) : res unit :=
let p := ar_base (cq_row rq) in
_ ← require (pr_enabled p) (ValidationError "procedure_id" "This procedure is disabled.");
_ ← require (negb (truthy (pr_params_schema p)) || json_valid (pr_params_schema p) (VDict params))
  (ValidationError "params" (en_schema_message env (pr_params_schema p) (VDict params)));
_ ← (if String.eqb (pr_name p) GITEA_ORG_CI_RUNNER_PROVISION then
   match OrgParams.activation_unavailable_reason (VDict params) with
   | Some reason => Err (ValidationError "params" reason)
   | None => Ok tt
   end
 else Ok tt);
match code_gate_unavailable_reason (en_gates env) (pr_name p) with
| Some reason => Err (ValidationError "procedure_id" reason)
| None => Ok tt
end.

Definition _require_enabled_and_authoritative_backend (env : admission_env) : res value :=
_ ← require (en_settings_enabled env)
  (PermissionDenied "The netbox-rpc integration is disabled. Enable it in RPC settings before creating executions.");
t ← resolved_backend_target env;
_ ← require (match t with Some _ => true | None => false end)
  (ValidationError "backend" "No RPC backend is configured. Select a backend in RPC settings before creating executions.");
Ok (settings_backend_id env).

Definition invalid_references : exn :=
ValidationError "credential_references" "Invalid named credential references.".
Definition _require_validated_reference_creation_shape (rq : creation_request) (supplied : value) : res unit :=
match validate_named_references supplied with
| Ok references => require (py_eqb (VDict references) (cq_references rq)) invalid_references
| Err CredentialContractError => Err invalid_references
| Err e => Err e
end.
Definition _require_protected_creation_shape (rq : creation_request) : res unit :=
let supplied := match cq_initial_data rq with VDict d => d | _ => [] end in
_ ← (match dict_get "credential_references" supplied with
 | Some v => _require_validated_reference_creation_shape rq v
 | None => Ok tt
 end);
require (forallb (fun k => str_in k _STAGING_ROTATION_CREATE_FIELDS) (keys supplied))
(ValidationError "non_field_errors"
 (_protected_label (ar_name (cq_row rq)) +:+ " accepts only procedure_id, assigned object, its closed params object and validated credential references; other request metadata is forbidden.")).

Definition _require_restart_requester_scopes (p : procedure) (u : user) : res unit :=
if negb (String.eqb (pr_name p) NETBOX_PRODUCTION_RESTART_RQ_WORKER) then Ok tt
else _require_protected_procedure_scope p u "approve".

(** The backend of a protected procedure is resolved once, here. *)
Definition _prepare_creation_authorization (env : admission_env) (rq : creation_request) (backend_id : value)
: res (value * option backend_target) :=
let p := ar_base (cq_row rq) in
let u := user_of (en_actor env) in
if protected (pr_name p) then
concrete ← _require_concrete_protected_backend_id backend_id (pr_name p);
_ ← _require_protected_procedure_policy (en_reviewed env) (cq_row rq) None;
_ ← _require_protected_procedure_scope p u "execute";
_ ← _require_restart_requester_scopes p u;
_ ← _require_restart_control_consumer (pr_name p) (en_live_worker env);
_ ← _require_protected_creation_shape rq;
resolved ← en_resolve env (VInt concrete);
t ← _resolve_validated_protected_backend_target (VInt concrete) (pr_name p) (option_map protected_target resolved);
Ok (VInt concrete, t)
else
_ ← require (negb (pc_approval_required (ar_row (cq_row rq))) || has_perm u "netbox_rpc.approve_rpcprocedure")
    (PermissionDenied "This procedure requires approval (approve_rpcprocedure permission).");
Ok (backend_id, None).

Definition _validate_creation_payload (env : admission_env) (rq : creation_request) (params : dict) : res dict :=
let name := ar_name (cq_row rq) in
_ ← _validate_openbao_payload name params;
_ ← _require_viewable_assigned_object env rq;
_ ← _require_staging_rotation_assigned_object env rq;
_ ← _require_gitea_upgrade_assigned_object env rq;
_ ← _require_gitea_runner_assigned_object env rq;
_ ← as_params_error (validate_akvorado_content_params name params);
Ok (if str_in (cr_handler_id (ar_catalog (cq_row rq))) _PASSWORD_BEARING_HANDLER_IDS
then _scrub_password_param params else params).

(** [validated_data.get("params") or {}], copied. *)
Definition request_params (rq : creation_request) : res dict :=
match py_or (cq_params rq) (VDict []) with
| VDict d => Ok d
| _ => Err (ValidationError "params" "Parameters must be a JSON object.")
end.

(** The base URL the capability manifest is asked from. *)
Definition capability_base (env : admission_env) (t : option backend_target) : res string :=
t ← (match t with Some t => Ok (Some t) | None => resolved_backend_target env end);
Ok (match t with Some t => rstrip_slash (bt_url t) | None => EmptyString end).

(** Everything before the first request to a backend: the parameters to store, the
authoritative backend and the resolved protected target. *)
Definition admit_locally (env : admission_env) (rq : creation_request)
: res (dict * value * option backend_target * string) :=
_ ← cq_is_valid rq;
params ← request_params rq;
_ ← _validate_creation_admission env rq params;
backend_id ← _require_enabled_and_authoritative_backend env;
'(backend_id, t) ← _prepare_creation_authorization env rq backend_id;
params ← _validate_creation_payload env rq params;
base ← capability_base env t;
Ok (params, backend_id, t, base).

Definition credential_columns (env : admission_env) (rq : creation_request) (backend_id : value) (params : dict)
: res (option (dict * dict)) :=
if negb (truthy (cq_references rq)) then Ok None else
match cq_content_type rq, cq_object_id rq with
| None, _ => Err AttributeError
| Some _, VInt object_id =>
prepare_reference_execution capture_reference_identity (en_database env) (en_later env)
  {| su_procedure_id := pr_pk (ar_base (cq_row rq)); su_backend_id := backend_id;
     su_references := cq_references rq; su_model_label := type_label (cq_content_type rq);
     su_object_id := object_id; su_params := VDict params |} (en_actor env) (en_uuid env)
| Some _, _ => Err SecretResolutionDenied
end.

Record admitted := {
ad_params : dict;
ad_backend_id : value;
ad_target : option backend_target;
ad_credentials : option (dict * dict);
}.

(** The admission, with the manifest cache it leaves. *)
Definition run_admission (env : admission_env) (rq : creation_request) : gmap string (Z * option BackendCapabilityManifest) * res admitted :=
match admit_locally env rq with
| Err e => (en_cache env, Err e)
| Ok (params, backend_id, t, base) =>
let '(c, verified) := _verify_backend_capability (en_cache env) (ar_catalog (cq_row rq)) base (en_now env) true
                        (en_answer env) in
(c, _ ← verified;
    let params := dict_set "_timeout_seconds_snapshot" (pr_timeout_seconds (ar_base (cq_row rq))) params in
    credentials ← credential_columns env rq backend_id params;
    _ ← _validate_openbao_payload (ar_name (cq_row rq)) params;
    Ok {| ad_params := params; ad_backend_id := backend_id; ad_target := t; ad_credentials := credentials |})
end.

(** The row as [serializer.save] inserts it, and its target. *)
Definition inserted (env : admission_env) (rq : creation_request) (pk : Z) (a : admitted) : execution :=
{| ex_pk := pk; ex_procedure_name := ar_name (cq_row rq); ex_result_schema := pr_result_schema (ar_base (cq_row rq));
 ex_params := VDict (ad_params a); ex_requested_by_id := VInt (ac_pk (en_actor env));
 ex_cols := initial; ex_events := [] |}.
Definition saved_target (tg : target) (a : admitted) : target :=
{| tg_type_id := tg_type_id tg; tg_id := tg_id tg; tg_model_label := tg_model_label tg; tg_display := tg_display tg;
 tg_backend_id := ad_backend_id a;
 tg_credential_references := match ad_credentials a with Some (r, _) => VDict r | None => VDict [] end;
 tg_credential_authority := match ad_credentials a with Some (_, s) => VDict s | None => VDict [] end |}.
(** The catalog row with the policy the approval payload hashes. *)
Definition with_policy (env : admission_env) (row : admission_row) : procedure :=
let p := ar_base row in
{| pr_pk := pr_pk p; pr_name := pr_name p; pr_version := pr_version p;
 pr_policy := match _protected_procedure_policy (en_reviewed env) row (pr_name p) with Ok d => VDict d | Err _ => VNone end;
 pr_params_schema := pr_params_schema p; pr_result_schema := pr_result_schema p; pr_effect := pr_effect p;
 pr_enabled := pr_enabled p; pr_timeout_seconds := pr_timeout_seconds p |}.

(** [create_execution] with its admission.  [tg] is the assigned object as the row holds
it, [normalize] the normalizer, [statuses] those of the executions for the target. *)
Definition create_from_request (env : admission_env) (rq : creation_request) (pk : Z) (tg : target)
(normalize : execution -> target -> res dict) (statuses : list string) (job : res value) (now : value)
: gmap string (Z * option BackendCapabilityManifest) * (option execution * res unit) :=
let u := user_of (en_actor env) in
if negb (has_perm u "netbox_rpc.execute_rpcprocedure")
then (en_cache env, (None, Err (PermissionDenied "execute_rpcprocedure permission is required.")))
else
let '(c, admission) := run_admission env rq in
match admission with
| Err e => (c, (None, Err e))
| Ok a =>
  let ex := inserted env rq pk a in
  let tg := saved_target tg a in
  let g := {| g_live_worker := en_live_worker env; g_policy := Ok tt; g_backend := ad_target a;
              g_capability := Ok tt; g_normalized := normalize ex tg; g_target_statuses := statuses |} in
  (c, create_execution u (Ok tt) ex (with_policy env (cq_row rq)) tg g job now)
end.

(** ** The claim *)

Definition internal_keys : list string := ["_intent"; "_intent_name"; "_timeout_seconds_snapshot"].
Definition closed_schema_refusal : string * string :=
("Gitea organization CI runner params do not match the closed schema.", "RPC_PARAM_INVALID").
(** The failure an organization runner request ends in before it starts, if any. *)
Definition _reject_invalid_gitea_org_claim (name : string) (params : value) : option (string * string) :=
if negb (String.eqb name GITEA_ORG_CI_RUNNER_PROVISION) then None else
match params with
| VDict d =>
let properties := dict_of (get "properties" OrgParams.PARAMS_SCHEMA) in
if negb (forallb (fun k => dict_mem k properties || str_in k internal_keys) (keys d))
then Some closed_schema_refusal
else
  let raw_params := List.filter (fun kv => negb (str_in kv.1 internal_keys)) d in
  if negb (json_valid (VDict OrgParams.PARAMS_SCHEMA) (VDict raw_params)) then Some closed_schema_refusal
  else match OrgParams.activation_unavailable_reason (VDict raw_params) with
       | Some reason => Some (reason, "RPC_HOST_GENERATION_UNAVAILABLE")
       | None => None
       end
| _ => Some closed_schema_refusal
end.

(** [_claim_if_procedure_enabled] with the checks it makes. *)
Definition claim_of (reviewed : string -> reviewed_contract) (row : admission_row) (ex : execution)
(queued_at : option Z) (clock : Z) (approver_is_superuser : bool) : claim :=
{| c_queued_at := queued_at; c_clock := clock;
 c_org_refusal := _reject_invalid_gitea_org_claim (ar_name row) (ex_params ex);
 c_policy := _require_protected_procedure_policy reviewed row None;
 c_approver_is_superuser := approver_is_superuser |}.
End Creation.
