(* ===== verification/AdmissionProperties.v ===== *)
(** * Properties of the admission

    A creation that commits an execution has passed every check ([admission_holds], one
    field for each of them), and stores the parameters it was asked for without their
    password; a procedure behind a closed code gate is never created; a Gitea runner
    procedure is created for its pinned machine alone; the policy check accepts only the
    reviewed policy. *)

From S2P Require Import Prelude PyValue Events Projection CredentialContract.
From S2P Require Import Spans SpanFacts MaskFacts PyRegex SecretPatterns TextRedaction.
From S2P Require Import ValueRedaction RedactionFacts SchemaLimits EventStore EventStoreFacts.
From S2P Require Import Response ResponseFacts StoreProperties Aggregate AggregateFacts AggregateProperties.
From S2P Require Import Protected Approvals ApprovalProperties Codec Capabilities Dispatch.
From S2P Require Import Contracts Backends CredentialAuthority CredentialAuthorityProperties OpenBao Targets Akvorado Admission.
Import JsonNotations.

Local Open Scope Z_scope.
#[local] Opaque redact_event_value redact_event_data.

(** ** The request columns never change *)

Definition same_request (a b : execution) : Prop :=
  ex_pk b = ex_pk a /\ ex_procedure_name b = ex_procedure_name a /\ ex_params b = ex_params a /\
  ex_requested_by_id b = ex_requested_by_id a.
#[export] Instance same_request_refl : Reflexive same_request.
Proof. done. Qed.
#[export] Instance same_request_trans : Transitive same_request.
Proof. unfold same_request. intros a b c (? & ? & ? & ?) (? & ? & ? & ?). split_and!; congruence. Qed.

Section Keeps.
Context `{PyLib} `{JsonSchema}.

Lemma append_keeps ex e ex' : _append_and_project ex e = Ok ex' -> same_request ex ex'.
Proof.
  unfold _append_and_project. destruct (append_execution_event _ _ _ _ _ _ _) as [rows record].
  intros (r & _ & (e' & _ & [= <-])%bind_Ok)%bind_Ok. done.
Qed.
Lemma request_keeps ex u ex' : request ex u = Ok ex' -> same_request ex ex'.
Proof. unfold request. destruct (has_events ex); [done|]. apply append_keeps. Qed.
Lemma request_approval_keeps ex h e u ex' : request_approval ex h e u = Ok ex' -> same_request ex ex'.
Proof.
  unfold request_approval. destruct (negb (has_status _ _)); [done|]. destruct (negb _); [done|]. apply append_keeps.
Qed.
Lemma queue_keeps ex ex' : queue ex = Ok ex' -> same_request ex ex'.
Proof. unfold queue. destruct (negb _); [done|]. destruct (has_events ex); [done|]. apply append_keeps. Qed.

Lemma on_memory_keeps op s s' : on_memory op s = Ok s' -> same_request (committed s) (committed s').
Proof. unfold on_memory. by intros (? & _ & [= <-])%bind_Ok. Qed.
Lemma enqueue_job_keeps s job now s' r :
  _enqueue_execution_job s job now = (s', r) -> same_request (committed s) (committed s').
Proof.
  unfold _enqueue_execution_job. destruct job; destruct (on_memory _ s) as [s1|] eqn:E;
    intros [= <- <-]; try done; by apply on_memory_keeps in E.
Qed.

Lemma persist_keeps ex p tg u g ex' sn :
  _persist_execution_request ex p tg u g = Ok (ex', sn) -> same_request ex ex'.
Proof.
  unfold _persist_execution_request. intros (? & _ & Hp)%bind_Ok. destruct (protected _).
  - apply bind_Ok in Hp as (? & _ & Hp). apply bind_Ok in Hp as (ex1 & H1%request_keeps & Hp).
    apply bind_Ok in Hp as (? & _ & Hp). apply bind_Ok in Hp as (ex2 & H2%request_approval_keeps & [= <- <-]).
    by etrans.
  - apply bind_Ok in Hp as (? & _ & Hp). by apply bind_Ok in Hp as (ex1 & H1%queue_keeps & [= <- <-]).
Qed.

Lemma create_keeps u admission ex p tg g job now ex' r :
  create_execution u admission ex p tg g job now = (Some ex', r) -> same_request ex ex'.
Proof.
  unfold create_execution. destruct (negb _); [done|]. destruct admission; [|done].
  destruct (_persist_execution_request ex p tg u g) as [[ex1 sn]|] eqn:E; [|done]. apply persist_keeps in E.
  destruct (protected _); [by intros [= <- _]|].
  destruct (_enqueue_execution_job _ _ _) as [s r'] eqn:Ej. apply enqueue_job_keeps in Ej.
  intros [= <- _]. by etrans.
Qed.

(** A creation that commits nothing has raised. *)
Lemma create_none u admission ex p tg g job now r :
  create_execution u admission ex p tg g job now = (None, r) -> exists e, r = Err e.
Proof.
  unfold create_execution. destruct (negb _); [intros [= <-]; eauto|]. destruct admission; [|intros [= <-]; eauto].
  destruct (_persist_execution_request ex p tg u g) as [[ex1 sn]|]; [|intros [= <-]; eauto].
  destruct (protected _); [done|]. by destruct (_enqueue_execution_job _ _ _).
Qed.
End Keeps.

(** ** Pinned machines *)

(** The object is the machine of that id, active, with a primary IPv4 address. *)
Definition pinned (o : Targets.attribute) (id : Z) : Prop :=
  attr_is (attr o "pk") (VInt id) = true /\ status_text o = "active" /\
  exists host, primary_address o = Some (IPv4 host).

Lemma demand_Ok b m u : demand b m = Ok u -> b = true.
Proof. unfold demand. apply require_Ok. Qed.
Lemma exact_vm_pk o l i d id n : exact_vm o l i d id n = true -> attr_is (attr o "pk") (VInt id) = true.
Proof. unfold exact_vm. intros Hv. bool_inv. done. Qed.

Lemma runner_pinned o l i d r : validate_gitea_runner_target o l i d = Ok r -> pinned o Runner.TARGET_ID.
Proof.
  unfold validate_gitea_runner_target.
  intros (? & He%demand_Ok%exact_vm_pk & (? & _ & (? & Hs%demand_Ok & Hv)%bind_Ok)%bind_Ok)%bind_Ok.
  apply String.eqb_eq in Hs. do 4 (apply bind_Ok in Hv as (? & _ & Hv)).
  destruct (primary_address o) as [[host|]|] eqn:E; [|done..]. unfold pinned. eauto.
Qed.
Lemma dedicated_pinned o l i d r :
  validate_gitea_org_ci_runner_target o l i d = Ok r -> pinned o DedicatedRunner.TARGET_OBJECT_ID.
Proof.
  unfold validate_gitea_org_ci_runner_target. intros (? & He%demand_Ok%exact_vm_pk & Hv)%bind_Ok.
  apply bind_Ok in Hv as (ip & Hip & Hv). apply bind_Ok in Hv as (? & Hs%demand_Ok & _). apply String.eqb_eq in Hs.
  destruct (primary_address o) as [[host|]|] eqn:E; [|done..]. unfold pinned. eauto.
Qed.
Lemma docker_pinned contract lane o l i d r :
  _validate_gitea_docker_runner_target contract lane o l i d = Ok r -> pinned o (TARGET_OBJECT_ID contract).
Proof.
  unfold _validate_gitea_docker_runner_target. intros (? & He%demand_Ok%exact_vm_pk & Hv)%bind_Ok.
  apply bind_Ok in Hv as (? & Hs%demand_Ok & Hv). apply String.eqb_eq in Hs.
  destruct (primary_address o) as [[host|]|] eqn:E; [|done..]. unfold pinned. eauto.
Qed.

Lemma forget_Ok {A} (r : res A) u : forget r = Ok u -> exists a, r = Ok a.
Proof. unfold forget. intros (a & -> & _)%bind_Ok. eauto. Qed.
Lemma as_object_error_Ok {A} (r : res A) a : as_object_error r = Ok a -> r = Ok a.
Proof. destruct r as [|[]]; done. Qed.

(** Every validator of the table pins the machine its policy names. *)
Lemma policies_pin name policy o l i d u :
  table_get name _GITEA_RUNNER_TARGET_POLICIES = Some policy ->
  rp_validator policy o l i d = Ok u -> pinned o (rp_object_id policy).
Proof.
  intros Ht%table_get_elem. unfold _GITEA_RUNNER_TARGET_POLICIES in Ht.
  rewrite !elem_of_app, !list_elem_of_fmap, !elem_of_cons in Ht.
  destruct Ht as [[[= -> ->]|[[= -> ->]|Hn]]|[(? & [= -> ->] & _)|[(? & [= -> ->] & _)|(? & [= -> ->] & _)]]];
    try (by apply elem_of_nil in Hn); cbn [rp_validator rp_object_id]; intros [r Hr]%forget_Ok.
  - by eapply runner_pinned.
  - by eapply dedicated_pinned.
  - by eapply (dedicated_pinned o l i d).
  - exact (docker_pinned _ _ _ _ _ _ _ Hr).
  - exact (docker_pinned _ _ _ _ _ _ _ Hr).
Qed.

(** The object is the production Gitea machine, as it is reviewed. *)
Definition production_gitea (o : Targets.attribute) (tags : tag_manager) : Prop :=
  pinned o 170 /\ attr_is (attr o "name") (VStr "Gitea") = true /\
  primary_address o = Some (IPv4 "10.0.30.96") /\
  attr_int (attr o "cluster_id") 6 = true /\ attr_is (attr (attr o "cluster") "name") (VStr "PVE-CLUSTER-02") = true /\
  attr_int (attr o "device_id") 27 = true /\ attr_is (attr (attr o "device") "name") (VStr "pve03") = true /\
  (exists v, custom_field o "proxmox_vm_id" = Some v /\ attr_int v 222 = true) /\
  forall slugs, tags = Some (Ok slugs) -> "production" ∈ map py_str slugs.

Lemma target_int_Ok v field n m : _strict_target_int v field n = Ok m -> attr_int v n = true.
Proof. unfold _strict_target_int. by destruct (attr_int v n). Qed.
Lemma relation_Ok o field id name r :
  _target_relation o field id name = Ok r ->
  attr_int (attr o (field +:+ "_id")) id = true /\ attr_is (attr (attr o field) "name") (VStr name) = true.
Proof.
  unfold _target_relation. intros (? & Hi%target_int_Ok & Hr)%bind_Ok. split; [done|].
  destruct (_ || _) eqn:E; [done|]. by bool_inv.
Qed.
Lemma upgrade_checked o tags l i d r : validate_gitea_upgrade_target o tags l i d = Ok r -> production_gitea o tags.
Proof.
  unfold validate_gitea_upgrade_target. intros (? & _ & Hv)%bind_Ok. apply bind_Ok in Hv as (? & _ & Hv).
  apply bind_Ok in Hv as (? & Hn%demand_Ok & Hv). apply bind_Ok in Hv as (? & _ & Hv).
  apply bind_Ok in Hv as (? & [Hc Hc']%relation_Ok & Hv). apply bind_Ok in Hv as (? & [Hd Hd']%relation_Ok & Hv).
  apply bind_Ok in Hv as (? & Hm & Hv). apply bind_Ok in Hv as (? & Ha & Hv).
  apply bind_Ok in Hv as (? & Hs%demand_Ok & Hv). apply String.eqb_eq in Hs.
  apply bind_Ok in Hv as (slugs & Ht & Hv). apply bind_Ok in Hv as (? & Hp%demand_Ok & _). bool_inv.
  assert (primary_address o = Some (IPv4 "10.0.30.96")) as Haddr.
  { destruct (primary_address o) as [[s|]|]; [|done..]. destruct (String.eqb s _) eqn:Es; [|done]. by apply String.eqb_eq in Es as ->. }
  unfold production_gitea, pinned. split_and!; try done; [by eexists|..].
  - destruct (custom_field o "proxmox_vm_id") as [v|]; [|done]. apply target_int_Ok in Hm. by exists v.
  - intros sl ->. injection Ht as <-. by apply bool_decide_eq_true in Hp.
Qed.

(** ** What an admission has checked *)

Definition scrubbed_keys : list string := ["password"; "password_sha256"; "password_bytes"].

Lemma scrub_password `{PyLib} d : dict_get "password" (_scrub_password_param d) = None.
Proof.
  unfold _scrub_password_param. destruct (dict_get "password" d) eqn:E; [|done].
  rewrite !dict_get_set_ne by done. apply dict_get_pop_eq.
Qed.
Lemma scrub_other `{PyLib} k d : k ∉ scrubbed_keys -> dict_get k (_scrub_password_param d) = dict_get k d.
Proof.
  intros Hk. unfold _scrub_password_param. destruct (dict_get "password" d); [|done].
  rewrite !dict_get_set_ne by set_solver. apply dict_get_pop_ne. set_solver.
Qed.

Section AdmissionChecks.
Context `{PyLib} `{JsonSchema} `{ManifestLib} `{Yaml}.
Variable capture : option (CredentialReferenceV1 -> actor -> target_row -> string -> res value).
Variable env : admission_env.
Variable rq : creation_request.

Notation row := (cq_row rq).
Notation base := (ar_base (cq_row rq)).
Notation name := (ar_name (cq_row rq)).
Notation requester := (user_of (en_actor env)).

(** A scoped procedure or an OpenBao one. *)
Definition object_scoped (procedure_name : string) : bool :=
str_in procedure_name _ASSIGNED_OBJECT_SCOPED_PROCEDURE_NAMES
|| str_startswith _OPENBAO_PROCEDURE_PREFIX procedure_name.

(** The gates of the sources, with the procedures behind each of them. *)
Definition gates (f : code_gates) : list (list string * bool) :=
[([LINUX_ENV_FILE_UPSERT_VAR], _LINUX_ENV_FILE_UPSERT_AVAILABLE f);
 ([NETBOX_PLUGIN_INSTALL], _NETBOX_PLUGIN_INSTALL_AVAILABLE f);
 ([GITEA_RUNNER_REGISTER], _GITEA_RUNNER_REGISTER_AVAILABLE f);
 ([HUAWEI_NE8000_F1A_SHOW_BGP_PEER], _HUAWEI_NE8000_BGP_AVAILABLE f);
 (INFLUXDB3_DEBIAN13_PROCEDURE_NAMES, _INFLUXDB3_DEBIAN13_AVAILABLE f);
 (PBS_1_PROCEDURE_NAMES, _PBS_1_AVAILABLE f);
 (GITEA_ORG_CI_RUNNER_PROCEDURE_NAMES, _GITEA_ORG_CI_RUNNER_AVAILABLE f);
 (GITEA_PROTECTED_PUBLICATION_PAIR_PROCEDURE_NAMES, _GITEA_PROTECTED_PUBLICATION_PAIR_AVAILABLE f);
 (AKVORADO_BOOTSTRAP_DEBIAN13_PROCEDURE_NAMES, _AKVORADO_BOOTSTRAP_DEBIAN13_AVAILABLE f)].

(** The backend of a request: the configured one, which for a protected procedure is
the one its contract names, with the reviewed URL and TLS policy. *)
Definition chosen_backend (t : backend_target) : Prop :=
if protected name then
exists n b contract, settings_backend_id env = VInt n /\ 0 < n /\ en_resolve env (VInt n) = Ok (Some b) /\
  t = protected_target b /\ table_get name _PROTECTED_CONTRACTS = Some contract /\
  (forall expected, BACKEND_ID contract = Some expected -> n = expected) /\
  (forall url, BACKEND_BASE_URL contract = Some url -> bt_url t = url /\ bt_verify_ssl t = BACKEND_VERIFY_SSL contract)
else resolved_backend_target env = Ok (Some t).
(** What is known of the manifest at that URL: the answer of less than thirty seconds
ago, or what is answered now. *)
Definition known_manifest (base : string) (m : option BackendCapabilityManifest) : Prop :=
(exists t, en_cache env !! base = Some (t, m) /\ en_now env - t < 30000000000) \/
(forall mf, m = Some mf -> carries (en_answer env) mf).

(** A configuration text: no blank or long one, no unsafe character, no secret by
pattern, and no sensitive key anywhere in the document it holds. *)
Definition harmless_content (t : string) : Prop :=
str_truthy (str_strip t) = true /\ str_len t <= 1048576 /\
(forall c, c ∈ codes t -> _akvorado_unsafe_codepoint c = false) /\
(forall p, p ∈ content_patterns -> found p (codes t) = false) /\
(forall g root, safe_load (codes t) = Some (g, root) -> ~ reaches_exposed g root).

(** The requester may view the object [o] of the request, of type [ct]. *)
Definition views (ct : string * string) (o : Targets.attribute) (tags : tag_manager) : Prop :=
cq_content_type rq = Some ct /\ en_view env ct (cq_object_id rq) = Ok (Some (o, tags)).

(** The target the request names is one the procedure may run on. *)
Record target_admitted : Prop := {
ta_viewable : object_scoped name = true -> exists ct o tags, views ct o tags;
ta_staging : name ∈ [NETBOX_STAGING_ROTATE_BACKEND_TOKEN; NETBOX_STAGING_DEPLOY_DNS_PAIR] ->
  exists o tags, views ("dcim", "device") o tags /\ attr_is (attr o "name") (VStr "nms-front-door") = true;
ta_upgrade : name = GITEA_PRODUCTION_UPGRADE_1_27_1 ->
  exists ct o tags, views ct o tags /\ type_label (Some ct) = VM_TYPE /\ production_gitea o tags;
ta_runner : forall policy, table_get name _GITEA_RUNNER_TARGET_POLICIES = Some policy ->
  exists ct o tags, views ct o tags /\ type_label (Some ct) = VM_TYPE /\
    py_eq (cq_object_id rq) (VInt (rp_object_id policy)) /\ pinned o (rp_object_id policy);
}.

(** The parameters [d] of the request were admitted and are stored as [stored]. *)
Record admission_holds (d stored : dict) : Prop := {
ah_valid : cq_is_valid rq = Ok tt;
ah_params : request_params rq = Ok d;
ah_enabled : pr_enabled base = true;
ah_schema : truthy (pr_params_schema base) = true -> json_valid (pr_params_schema base) (VDict d) = true;
ah_gate : forall names flag, (names, flag) ∈ gates (en_gates env) -> name ∈ names -> flag = true;
ah_lane : forall lane contract, name = GITEA_ORG_CI_RUNNER_PROVISION ->
  get "lane" d = VStr lane -> get lane OrgCiRunner.LANES = VDict contract ->
  get "activation_eligible" contract <> VBool false;
ah_settings : en_settings_enabled env = true /\ exists t, resolved_backend_target env = Ok (Some t);
ah_protected : protected name = true ->
  _require_protected_procedure_policy (en_reviewed env) row None = Ok tt /\
  restrict requester "execute" (pr_pk base) = true /\
  (name = NETBOX_PRODUCTION_RESTART_RQ_WORKER ->
     restrict requester "approve" (pr_pk base) = true /\ en_live_worker env = true) /\
  (forall sent k, cq_initial_data rq = VDict sent -> k ∈ keys sent -> k ∈ _STAGING_ROTATION_CREATE_FIELDS) /\
  (forall sent v, cq_initial_data rq = VDict sent -> dict_get "credential_references" sent = Some v ->
     exists references, validate_named_references v = Ok references /\ py_eq (VDict references) (cq_references rq));
ah_approval : protected name = false -> pc_approval_required (ar_row row) = true ->
  has_perm requester "netbox_rpc.approve_rpcprocedure" = true;
ah_target : target_admitted;
ah_capability : exists t m, chosen_backend t /\ known_manifest (rstrip_slash (bt_url t)) m /\
  (forall mf, m = Some mf -> covers_procedure mf (ar_catalog row)) /\
  (cr_name (ar_catalog row) ∈ EXPLICIT_BACKEND_CAPABILITY_PROCEDURE_NAMES -> m <> None);
ah_content : name = AKVORADO_1_CONFIG_DEPLOY ->
  exists t, get "config_content" d = VStr t /\ harmless_content t;
ah_references : truthy (cq_references rq) = true ->
  exists ct object_id columns, cq_content_type rq = Some ct /\ cq_object_id rq = VInt object_id /\
    prepare_reference_execution capture (en_database env) (en_later env)
      {| su_procedure_id := pr_pk base; su_backend_id := settings_backend_id env; su_references := cq_references rq;
         su_model_label := type_label (Some ct); su_object_id := object_id; su_params := VDict stored |}
      (en_actor env) (en_uuid env) = Ok (Some columns);
ah_openbao : validate_openbao_params_for_persistence name (VDict d) = Ok tt /\
  validate_openbao_params_for_persistence name (VDict stored) = Ok tt;
ah_timeout : dict_get "_timeout_seconds_snapshot" stored = Some (pr_timeout_seconds base);
ah_password : str_in (cr_handler_id (ar_catalog row)) _PASSWORD_BEARING_HANDLER_IDS = true ->
  dict_get "password" stored = None;
ah_kept : forall k, k ∉ "_timeout_seconds_snapshot" :: scrubbed_keys -> dict_get k stored = dict_get k d;
}.

Lemma gate_open (b flag : bool) : b && negb flag = false -> b = true -> flag = true.
Proof. by destruct b, flag. Qed.
Lemma gates_checked :
code_gate_unavailable_reason (en_gates env) name = None ->
forall names flag, (names, flag) ∈ gates (en_gates env) -> name ∈ names -> flag = true.
Proof.
unfold code_gate_unavailable_reason, _gitea_runner_code_gate_unavailable_reason. intros Hg names flag Hin Hn.
repeat match type of Hg with context [if ?b then _ else _] => destruct b eqn:?; [discriminate Hg|] end.
unfold gates in Hin. rewrite !elem_of_cons in Hin. destruct_or!; try (by apply elem_of_nil in Hin); injection Hin as -> ->;
  (eapply gate_open; [eassumption|]);
  solve [by apply String.eqb_eq, list_elem_of_singleton|by apply bool_decide_eq_true].
Qed.

Lemma creation_checked d :
_validate_creation_admission env rq d = Ok tt ->
pr_enabled base = true /\
(truthy (pr_params_schema base) = true -> json_valid (pr_params_schema base) (VDict d) = true) /\
(forall names flag, (names, flag) ∈ gates (en_gates env) -> name ∈ names -> flag = true) /\
(forall lane contract, name = GITEA_ORG_CI_RUNNER_PROVISION ->
 get "lane" d = VStr lane -> get lane OrgCiRunner.LANES = VDict contract ->
 get "activation_eligible" contract <> VBool false).
Proof.
unfold _validate_creation_admission. intros (? & He%require_Ok & (? & Hs%require_Ok & Hg)%bind_Ok)%bind_Ok.
apply bind_Ok in Hg as (? & Ho & Hg). split; [done|]. split; [|split].
- intros Ht. by rewrite Ht in Hs.
- apply gates_checked. fold (ar_name row) in Hg. by destruct (code_gate_unavailable_reason _ _).
- intros lane contract Hn Hl Hc Hf. fold (ar_name row) in Ho. rewrite Hn, String.eqb_refl in Ho.
  unfold OrgParams.activation_unavailable_reason in Ho. by rewrite Hl, Hc, Hf in Ho.
Qed.

Lemma settings_checked v :
_require_enabled_and_authoritative_backend env = Ok v ->
v = settings_backend_id env /\ en_settings_enabled env = true /\ exists t, resolved_backend_target env = Ok (Some t).
Proof.
unfold _require_enabled_and_authoritative_backend.
intros (? & He%require_Ok & ([t|] & Ht & (? & Hr & [= <-])%bind_Ok)%bind_Ok)%bind_Ok; [eauto|done].
Qed.

Lemma references_checked sent v :
_require_protected_creation_shape rq = Ok tt ->
cq_initial_data rq = VDict sent -> dict_get "credential_references" sent = Some v ->
exists references, validate_named_references v = Ok references /\ py_eq (VDict references) (cq_references rq).
Proof.
unfold _require_protected_creation_shape. intros (? & Hr & _)%bind_Ok Hs Hv. rewrite Hs in Hr.
cbv zeta in Hr. rewrite Hv in Hr. unfold _require_validated_reference_creation_shape in Hr.
destruct (validate_named_references v) as [references|[]] eqn:E; try done. apply require_Ok in Hr.
exists references. split; [done|]. by apply bool_decide_eq_true in Hr.
Qed.
Lemma shape_checked sent k :
_require_protected_creation_shape rq = Ok tt ->
cq_initial_data rq = VDict sent -> k ∈ keys sent -> k ∈ _STAGING_ROTATION_CREATE_FIELDS.
Proof.
unfold _require_protected_creation_shape. intros (? & _ & Hf%require_Ok)%bind_Ok Hs Hk.
rewrite Hs in Hf. rewrite forallb_forall in Hf. specialize (Hf k (proj1 (list_elem_of_In _ _) Hk)).
unfold str_in in Hf. by apply bool_decide_eq_true in Hf.
Qed.

Lemma concrete_id n :
_require_concrete_protected_backend_id (settings_backend_id env) name = Ok n -> settings_backend_id env = VInt n.
Proof.
unfold settings_backend_id, _require_concrete_protected_backend_id.
destruct (en_settings_backend env) as [[m ?]|]; [|done]. cbn [py_int]. destruct (m <=? 0); [done|].
intros (contract & _ & Hn)%bind_Ok. destruct (BACKEND_ID contract) as [expected|]; [|by injection Hn as ->].
destruct (m =? expected); [by injection Hn as ->|done].
Qed.
Lemma references_prepared stored columns :
credential_columns capture env rq (settings_backend_id env) stored = Ok columns -> truthy (cq_references rq) = true ->
exists ct object_id cols, cq_content_type rq = Some ct /\ cq_object_id rq = VInt object_id /\
  prepare_reference_execution capture (en_database env) (en_later env)
    {| su_procedure_id := pr_pk base; su_backend_id := settings_backend_id env; su_references := cq_references rq;
       su_model_label := type_label (Some ct); su_object_id := object_id; su_params := VDict stored |}
    (en_actor env) (en_uuid env) = Ok (Some cols).
Proof.
unfold credential_columns. intros Hc Ht. rewrite Ht in Hc. cbn [negb] in Hc.
destruct (cq_content_type rq) as [ct|]; [|done]. destruct (cq_object_id rq) as [| |object_id| | | | | | | |]; try done.
exists ct, object_id. assert (exists cols, columns = Some cols) as [cols ->]; [|by exists cols].
unfold prepare_reference_execution in Hc. cbn [su_references] in Hc. rewrite Ht in Hc. cbn [negb] in Hc.
apply bind_Ok in Hc as (? & _ & Hc). cbv zeta in Hc. apply bind_Ok in Hc as ([[[? ?] ?] ?] & _ & Hc).
do 3 (apply bind_Ok in Hc as (? & _ & Hc)). injection Hc as <-. eauto.
Qed.

(** The backend a protected procedure is bound to. *)
Lemma concrete_backend v n t t' b :
_require_concrete_protected_backend_id v name = Ok n -> v = settings_backend_id env ->
en_resolve env (VInt n) = Ok b ->
_resolve_validated_protected_backend_target (VInt n) name (option_map protected_target b) = Ok t ->
protected name = true -> t = Some t' -> chosen_backend t'.
Proof.
intros Hn -> Hb Ht Hp ->. unfold chosen_backend. rewrite Hp.
unfold _resolve_validated_protected_backend_target in Ht. apply bind_Ok in Ht as (? & _ & Ht).
apply bind_Ok in Ht as (? & Hh & [= Hopt]). destruct b as [b|]; [|done]. injection Hopt as <-.
unfold _require_concrete_protected_backend_id in Hn. destruct (py_int _) as [m|[]] eqn:Em; try done.
destruct (m <=? 0) eqn:Hpos; [done|]. apply bind_Ok in Hn as (contract & Hc & Hn).
unfold _protected_backend_target_sha256 in Hh. rewrite Hc in Hh. cbn [mbind result_bind] in Hh.
apply bind_Ok in Hh as (? & _ & Hh). cbn [option_map] in Hh. unfold _protected_contract in Hc.
destruct (table_get name _PROTECTED_CONTRACTS) as [contract'|] eqn:Et; [|done]. injection Hc as ->.
assert (m = n /\ forall expected, BACKEND_ID contract = Some expected -> n = expected) as [-> Hexp].
{ destruct (BACKEND_ID contract) as [expected|]; [|by injection Hn as ->].
  destruct (Z.eqb_spec m expected) as [->|]; [|done]. injection Hn as <-. split; [done|]. by intros ? [= ->]. }
exists n, b, contract. bool_inv. split_and!; try done.
- unfold settings_backend_id in *. destruct (en_settings_backend env) as [[pk ?]|]; [|done]. by injection Em as ->.
- intros url Hu. rewrite Hu in Hh. destruct (_ || _) eqn:E in Hh; [done|]. bool_inv.
  split; [by apply String.eqb_eq|by apply eqb_prop].
Qed.

Lemma authorization_checked v b t :
_prepare_creation_authorization env rq v = Ok (b, t) -> v = settings_backend_id env ->
b = settings_backend_id env /\
(protected name = true ->
   _require_protected_procedure_policy (en_reviewed env) row None = Ok tt /\
   restrict requester "execute" (pr_pk base) = true /\
   (name = NETBOX_PRODUCTION_RESTART_RQ_WORKER ->
      restrict requester "approve" (pr_pk base) = true /\ en_live_worker env = true) /\
   _require_protected_creation_shape rq = Ok tt /\ exists t', t = Some t' /\ chosen_backend t') /\
(protected name = false -> t = None /\ (pc_approval_required (ar_row row) = true ->
   has_perm requester "netbox_rpc.approve_rpcprocedure" = true)).
Proof.
unfold _prepare_creation_authorization. cbv zeta. fold (ar_name row). destruct (protected name) eqn:Hpn.
- intros (n & Hn & (u1 & Hp & (u2 & Hx & (u3 & Ha & (u4 & Hw & (u5 & Hs & Hb)%bind_Ok)%bind_Ok)%bind_Ok)%bind_Ok)%bind_Ok)%bind_Ok Hv.
  apply bind_Ok in Hb as (rb & Hrb & Hb). apply bind_Ok in Hb as (t1 & Ht1 & [= <- <-]).
  split; [by rewrite Hv in Hn; symmetry; apply concrete_id|]. split; [|done]. intros _. destruct u1, u5. split; [done|]. apply require_Ok in Hx. split; [done|].
  split; [|split; [done|]].
  + intros Hr. unfold _require_restart_requester_scopes in Ha.
    fold (ar_name row) in Ha. rewrite Hr, String.eqb_refl in Ha. cbn [negb] in Ha. apply require_Ok in Ha. split; [done|].
    unfold _require_restart_control_consumer in Hw. apply require_Ok in Hw. by rewrite Hr, String.eqb_refl in Hw.
  + assert (exists t', t1 = Some t') as [t' ->].
    { unfold _resolve_validated_protected_backend_target, _protected_backend_target_sha256 in Ht1.
      apply bind_Ok in Ht1 as (? & _ & Ht1). apply bind_Ok in Ht1 as (? & Hh & [= <-]).
      do 2 (apply bind_Ok in Hh as (? & _ & Hh)). destruct (option_map _ _); [eauto|done]. }
    exists t'. split; [done|]. by eapply concrete_backend.
- intros (? & Hr%require_Ok & [= <- <-])%bind_Ok ->. split; [done|]. split; [done|]. intros _. split; [done|]. intros Ha.
  by rewrite Ha in Hr.
Qed.

Lemma view_checked ct oid o : viewable env ct oid = Ok (Some o) -> exists c, ct = Some c /\ en_view env c oid = Ok (Some o).
Proof.
unfold viewable. destruct ct as [c|]; [|done]. destruct (en_view env c oid) as [r|e] eqn:E; [by intros [= ->]; eauto|].
by destruct (bool_decide _).
Qed.

Lemma object_checked :
_require_viewable_assigned_object env rq = Ok tt -> object_scoped name = true -> exists ct o tags, views ct o tags.
Proof.
unfold _require_viewable_assigned_object, object_scoped. rewrite <- negb_orb. intros Hv Hn. rewrite Hn in Hv. cbn [negb] in Hv.
assert (exists o, viewable env (cq_content_type rq) (cq_object_id rq) = Ok (Some o)) as [[o tags] Ho].
{ destruct (cq_content_type rq); [|done]. destruct (cq_object_id rq); try done;
    apply bind_Ok in Hv as ([o|] & Ho & Hr); try done; eauto. }
apply view_checked in Ho as (c & Hc & Ho). by exists c, o, tags.
Qed.

Lemma staging_checked :
_require_staging_rotation_assigned_object env rq = Ok tt ->
name ∈ [NETBOX_STAGING_ROTATE_BACKEND_TOKEN; NETBOX_STAGING_DEPLOY_DNS_PAIR] ->
exists o tags, views ("dcim", "device") o tags /\ attr_is (attr o "name") (VStr "nms-front-door") = true.
Proof.
unfold _require_staging_rotation_assigned_object, str_in. intros Hs Hn. rewrite bool_decide_true in Hs by done.
cbn [negb] in Hs. destruct (_ || _) eqn:E in Hs; [done|]. bool_inv.
apply bind_Ok in Hs as (o & Ho & Hr%require_Ok). destruct o as [[o tags]|]; [|done].
apply view_checked in Ho as (c & Hc & Ho). exists o, tags. unfold views. split; [|done]. split; [done|]. congruence.
Qed.

Lemma upgrade_target_checked :
_require_gitea_upgrade_assigned_object env rq = Ok tt -> name = GITEA_PRODUCTION_UPGRADE_1_27_1 ->
exists ct o tags, views ct o tags /\ type_label (Some ct) = VM_TYPE /\ production_gitea o tags.
Proof.
unfold _require_gitea_upgrade_assigned_object. intros Hu Hn. rewrite Hn, String.eqb_refl in Hu. cbn [negb] in Hu.
destruct (_ || _) eqn:E in Hu; [done|]. apply orb_false_iff in E as [El%negb_false_iff _].
apply bind_Ok in Hu as (o & Ho & Hu). apply bind_Ok in Hu as (? & Hv%as_object_error_Ok%upgrade_checked & _).
destruct o as [[o tags]|]; [|by destruct Hv as [[Hv _] _]]. apply view_checked in Ho as (ct & Hc & Ho).
exists ct, o, tags. rewrite Hc in El. split; [done|]. split; [by apply String.eqb_eq|done].
Qed.

Lemma runner_target_checked policy :
_require_gitea_runner_assigned_object env rq = Ok tt ->
table_get name _GITEA_RUNNER_TARGET_POLICIES = Some policy ->
exists ct o tags, views ct o tags /\ type_label (Some ct) = VM_TYPE /\
  py_eq (cq_object_id rq) (VInt (rp_object_id policy)) /\ pinned o (rp_object_id policy).
Proof.
unfold _require_gitea_runner_assigned_object. intros Hg Ht. rewrite Ht in Hg. destruct (_ || _) eqn:E in Hg; [done|].
apply orb_false_iff in E as [[El Ei]%orb_false_iff _]. apply negb_false_iff in El, Ei.
apply bind_Ok in Hg as (o & Ho & Hv). apply as_object_error_Ok, (policies_pin _ _ _ _ _ _ _ Ht) in Hv.
destruct o as [[o tags]|]; [|by destruct Hv as [Hv _]].
apply view_checked in Ho as (ct & Hc & Ho). exists ct, o, tags. rewrite Hc in El.
split_and!; [done|by apply String.eqb_eq|by apply bool_decide_eq_true in Ei|done].
Qed.

Lemma content_checked d :
as_params_error (validate_akvorado_content_params name d) = Ok tt -> name = AKVORADO_1_CONFIG_DEPLOY ->
exists t, get "config_content" d = VStr t /\ harmless_content t.
Proof.
unfold validate_akvorado_content_params. intros Hc Hn. rewrite Hn, String.eqb_refl in Hc.
assert (exists s, _normalize_akvorado_content (get "config_content" d) "config_content" = Ok s) as [s Hs].
{ destruct (_normalize_akvorado_content _ _) as [s|[]]; try done. eauto. }
unfold _normalize_akvorado_content in Hs. destruct (get "config_content" d) as [| | | |t| | | | | |]; try done. exists t.
split; [done|]. repeat (destruct (negb _) eqn:? in Hs || destruct (_ <? _) eqn:? in Hs); try done.
destruct (existsb _akvorado_unsafe_codepoint _) eqn:Hu in Hs; [done|].
destruct (existsb _ content_patterns) eqn:Hp in Hs; [done|]. bool_inv. unfold harmless_content. split_and!; try done.
- intros c Hin. destruct (_akvorado_unsafe_codepoint c) eqn:E; [|done]. rewrite <- Hu. symmetry. apply existsb_exists.
  exists c. by rewrite <- list_elem_of_In.
- intros p Hin. destruct (found p (codes t)) eqn:E; [|done]. rewrite <- Hp. symmetry. apply existsb_exists.
  exists p. by rewrite <- list_elem_of_In.
- intros g root Hg Hr%walk_decides. by rewrite Hg, Hr in Hs.
Qed.

Lemma openbao_checked n d :
_validate_openbao_payload n d = Ok tt -> validate_openbao_params_for_persistence n (VDict d) = Ok tt.
Proof. unfold _validate_openbao_payload. destruct (validate_openbao_params_for_persistence _ _) as [[]|[]]; done. Qed.

Lemma payload_checked d s :
_validate_creation_payload env rq d = Ok s ->
validate_openbao_params_for_persistence name (VDict d) = Ok tt /\ target_admitted /\
(name = AKVORADO_1_CONFIG_DEPLOY -> exists t, get "config_content" d = VStr t /\ harmless_content t) /\
s = if str_in (cr_handler_id (ar_catalog row)) _PASSWORD_BEARING_HANDLER_IDS then _scrub_password_param d else d.
Proof.
unfold _validate_creation_payload.
intros ([] & Ho & ([] & Hv & ([] & Hs & ([] & Hu & ([] & Hg & ([] & Hc & [= <-])%bind_Ok)%bind_Ok)%bind_Ok)%bind_Ok)%bind_Ok)%bind_Ok.
split; [by apply openbao_checked|]. split; [|split; [by apply content_checked|done]]. constructor.
- by apply object_checked.
- by apply staging_checked.
- by apply upgrade_target_checked.
- intros policy. by apply runner_target_checked.
Qed.

(** The capability check on what is known of the manifest. *)
Lemma capability_checked base c :
_verify_backend_capability (en_cache env) (ar_catalog row) base (en_now env) true (en_answer env) = (c, Ok tt) ->
exists m, known_manifest base m /\ (forall mf, m = Some mf -> covers_procedure mf (ar_catalog row)) /\
  (cr_name (ar_catalog row) ∈ EXPLICIT_BACKEND_CAPABILITY_PROCEDURE_NAMES -> m <> None).
Proof.
unfold _verify_backend_capability. destruct (fetch_backend_capabilities _ _ _ _ _) as [c' m] eqn:Ef.
intros [= _ Hv%require_Ok]. exists m. apply negb_true_iff, orb_false_iff in Hv as [Hm He].
apply bool_decide_eq_false in Hm. split; [|split].
- unfold fetch_backend_capabilities in Ef. destruct (negb (str_truthy base)); [injection Ef as _ <-; by right|].
  assert (forall mf, _fetch_uncached (en_answer env) = Some mf -> carries (en_answer env) mf) as Hf
    by (intros; by apply fetch_uncached_Some).
  destruct (en_cache env !! base) as [[t m']|] eqn:El; [|injection Ef as _ <-; right; apply Hf].
  destruct (_ <? _) eqn:Et; injection Ef as _ <-; [|right; apply Hf].
  left. exists t. bool_inv. by unfold _CACHE_TTL in *.
- intros mf ->. apply compatible_covers. destruct (verify_procedure_capability _ (Some mf)) eqn:E; try done.
  cbn in E. repeat (destruct (negb _) in E || destruct (handler _ _) in E || destruct (str_in _ _) in E || destruct (_ && _) in E); done.
- intros Hin ->. assert (str_in (cr_name (ar_catalog row)) EXPLICIT_BACKEND_CAPABILITY_PROCEDURE_NAMES = true) as Hx
    by (by apply bool_decide_eq_true). by rewrite Hx in He.
Qed.

(** The URL the manifest is asked from is that of the chosen backend. *)
Lemma base_checked t base :
capability_base env t = Ok base ->
(protected name = true -> exists t', t = Some t' /\ chosen_backend t') ->
(protected name = false -> t = None /\ exists t', resolved_backend_target env = Ok (Some t')) ->
exists t', chosen_backend t' /\ base = rstrip_slash (bt_url t').
Proof.
unfold capability_base. intros (t1 & Ht & [= <-])%bind_Ok Hp Hn. destruct (protected name) eqn:E.
- destruct (Hp eq_refl) as (t' & -> & Hc). injection Ht as <-. by exists t'.
- destruct (Hn eq_refl) as (-> & t' & Hr). rewrite Hr in Ht. injection Ht as <-. exists t'. split; [|done].
  unfold chosen_backend. by rewrite E.
Qed.

Lemma admit_checked c a :
run_admission capture env rq = (c, Ok a) -> exists d, admission_holds d (ad_params a).
Proof.
unfold run_admission. destruct (admit_locally env rq) as [[[[s b] t] u]|e] eqn:El; [|done].
destruct (_verify_backend_capability _ _ _ _ _ _) as [c' v] eqn:Ev. intros [= <- Ha].
apply bind_Ok in Ha as ([] & -> & Ha). apply bind_Ok in Ha as (cred & Hcred & Ha).
apply bind_Ok in Ha as ([] & Ho%openbao_checked & [= <-]). cbn [ad_params].
unfold admit_locally in El. apply bind_Ok in El as ([] & Hval & El). apply bind_Ok in El as (d & Hd & El).
apply bind_Ok in El as ([] & Hc & El). apply bind_Ok in El as (v0 & Hs & El).
apply bind_Ok in El as ([b' t'] & Hp & El). apply bind_Ok in El as (s' & Hl & El).
apply bind_Ok in El as (u' & Hu & [= -> -> -> ->]).
apply creation_checked in Hc as (? & ? & ? & ?). apply settings_checked in Hs as (-> & He & Hr).
apply authorization_checked in Hp as (-> & Hprot & Hopen); [|done]. apply payload_checked in Hl as (Hop & Hg & Hak & ->).
apply capability_checked in Ev as (m & Hm & Hcov & Hex).
apply base_checked in Hu as (tb & Htb & ->); [|by intros (_ & _ & _ & _ & ?)%Hprot|by intros [? _]%Hopen].
exists d. constructor; try done.
- intros (? & ? & ? & Hsh & _)%Hprot. split_and!; try done.
  + intros sent k. by apply shape_checked.
  + intros sent v. by apply references_checked.
- by intros [_ ?]%Hopen.
- by exists tb, m.
- by eapply references_prepared.
- apply dict_get_set_eq.
- intros Hb. rewrite Hb, dict_get_set_ne by done. apply scrub_password.
- intros k Hk. rewrite dict_get_set_ne by set_solver. destruct (str_in _ _); [|done]. apply scrub_other. intros Hin. apply Hk. by right.
Qed.
End AdmissionChecks.

Section Creations.
Context `{PyLib} `{JsonSchema} `{ManifestLib} `{Yaml}.

Lemma created_admitted capture env rq pk tg normalize statuses job now c ex r :
  create_from_request capture env rq pk tg normalize statuses job now = (c, (Some ex, r)) ->
  exists a, run_admission capture env rq = (c, Ok a) /\ ex_params ex = VDict (ad_params a) /\
    ex_pk ex = pk /\ ex_procedure_name ex = ar_name (cq_row rq) /\
    ex_requested_by_id ex = VInt (ac_pk (en_actor env)) /\
    has_perm (user_of (en_actor env)) "netbox_rpc.execute_rpcprocedure" = true.
Proof.
  unfold create_from_request. destruct (has_perm _ _) eqn:Hp; [|done]. cbn [negb].
  destruct (run_admission capture env rq) as [c' [a|e]]; [|done]. intros [= <- Hc].
  apply create_keeps in Hc as (? & ? & ? & ?). exists a. split_and!; done.
Qed.


(** The procedures whose gate is closed in the sources. *)
Definition gated_procedures : list string :=
  [LINUX_ENV_FILE_UPSERT_VAR; NETBOX_PLUGIN_INSTALL; GITEA_RUNNER_REGISTER; HUAWEI_NE8000_F1A_SHOW_BGP_PEER]
  ++ INFLUXDB3_DEBIAN13_PROCEDURE_NAMES ++ PBS_1_PROCEDURE_NAMES ++ GITEA_ORG_CI_RUNNER_PROCEDURE_NAMES
  ++ GITEA_PROTECTED_PUBLICATION_PAIR_PROCEDURE_NAMES ++ AKVORADO_BOOTSTRAP_DEBIAN13_PROCEDURE_NAMES.

Lemma gated_by name : name ∈ gated_procedures -> exists names, (names, false) ∈ gates shipped_gates /\ name ∈ names.
Proof.
  unfold gated_procedures, gates. rewrite !elem_of_app, !elem_of_cons. cbn [shipped_gates].
  intros Hn. destruct_or!; try (by apply elem_of_nil in Hn); eexists; (split; [|first [eassumption|by apply list_elem_of_singleton]]); set_solver.
Qed.

(** A procedure whose gate is closed in the sources is never created: the creation
    raises and stores nothing, whoever asks, whatever the catalog row says, and whatever
    the database and the backend answer. *)
Theorem closed_gate_creates_nothing capture env rq pk tg normalize statuses job now :
  en_gates env = shipped_gates -> ar_name (cq_row rq) ∈ gated_procedures ->
  exists c e, create_from_request capture env rq pk tg normalize statuses job now = (c, (None, Err e)).
Proof.
  intros Hg Hn.
  destruct (create_from_request capture env rq pk tg normalize statuses job now) as [c [[ex|] r]] eqn:E.
  - exfalso. apply created_admitted in E as (a & Ha & _). apply admit_checked in Ha as (d & Hd).
    destruct (gated_by _ Hn) as (names & Hin & Hname). specialize (ah_gate _ _ _ _ _ Hd names false). rewrite Hg.
    intros Hopen. by specialize (Hopen Hin Hname).
  - exists c. unfold create_from_request in E. destruct (negb _); [injection E as _ <-; eauto|].
    destruct (run_admission capture env rq) as [c' [a|e]]; [|injection E as _ <-; eauto].
    injection E as _ E. apply create_none in E as [e ->]. eauto.
Qed.

(** An execution of a Gitea runner procedure is only ever created for the machine
    reviewed for that procedure: the requested object is the virtual machine of that id,
    the requester can view it, and when it is read it carries that primary key, is
    active and has a primary IPv4 address. *)
Theorem gitea_runner_is_pinned capture env rq pk tg normalize statuses job now c ex r policy :
  create_from_request capture env rq pk tg normalize statuses job now = (c, (Some ex, r)) ->
  table_get (ar_name (cq_row rq)) _GITEA_RUNNER_TARGET_POLICIES = Some policy ->
  exists ct o tags,
    cq_content_type rq = Some ct /\ type_label (Some ct) = VM_TYPE /\
    py_eq (cq_object_id rq) (VInt (rp_object_id policy)) /\
    en_view env ct (cq_object_id rq) = Ok (Some (o, tags)) /\ pinned o (rp_object_id policy).
Proof.
  intros (a & Ha & _)%created_admitted Ht. apply admit_checked in Ha as (d & Hd).
  destruct (ta_runner _ _ (ah_target _ _ _ _ _ Hd) policy Ht) as (ct & o & tags & [Hc Ho] & Hl & Hi & Hp).
  by exists ct, o, tags.
Qed.
End Creations.

(** ** The reviewed policy *)

(** Equal dictionaries agree on every key. *)
Lemma dict_get_perm k (a b : dict) : NoDup (keys a) -> a ≡ₚ b -> dict_get k a = dict_get k b.
Proof.
  intros Hnd Hp. induction Hp as [|[k' v] a b _ IH|[k1 v1] [k2 v2] a|a b c Hab IHab Hbc IHbc]; cbn; [done|..].
  - rewrite keys_cons in Hnd. apply NoDup_cons in Hnd as [_ Hnd]. by rewrite IH.
  - rewrite !keys_cons, NoDup_cons in Hnd. destruct Hnd as [Hni _].
    destruct (String.eqb_spec k1 k) as [->|], (String.eqb_spec k2 k) as [->|]; try done. set_solver.
  - rewrite IHab by done. apply IHbc. unfold keys. by rewrite <- Hab.
Qed.
Lemma dict_get_canon k d : dict_get k (map (fun kv => (kv.1, canon kv.2)) d) = canon <$> dict_get k d.
Proof. induction d as [|[k' v] d IH]; cbn; [done|]. by destruct (String.eqb k' k). Qed.
Lemma py_eq_get k a b : NoDup (keys a) -> py_eq (VDict a) (VDict b) -> py_eq (get k a) (get k b).
Proof.
  intros Hnd Heq. unfold py_eq in *. cbn [canon] in Heq. injection Heq as Heq.
  assert (map (fun kv => (kv.1, canon kv.2)) a ≡ₚ map (fun kv => (kv.1, canon kv.2)) b) as Hp.
  { rewrite <- (merge_sort_Permutation key_le (map _ a)), <- (merge_sort_Permutation key_le (map _ b)).
    unfold sort_keys in Heq. by rewrite Heq. }
  apply (dict_get_perm k) in Hp; [|unfold keys in *; by rewrite map_map].
  rewrite !dict_get_canon in Hp. unfold get. by destruct (dict_get k a), (dict_get k b); cbn in *; inversion Hp.
Qed.

Section PolicyFacts.
Context `{PyLib} `{JsonSchema} `{ManifestLib}.

Lemma policy_keys reviewed row name actual :
_protected_procedure_policy reviewed row name = Ok actual -> NoDup (keys actual).
Proof.
unfold _protected_procedure_policy, optional_entry. intros (? & _ & [= <-])%bind_Ok.
do 2 case_bool_decide; repeat apply NoDup_keys_set;
  apply (bool_decide_eq_true_1 _); vm_compute; reflexivity.
Qed.

(** The policy check compares every field, and the two schemas. *)
Lemma policy_checked reviewed row :
ar_name row <> AKVORADO_BOOTSTRAP_DEBIAN13_INSTALL ->
_require_protected_procedure_policy reviewed row None = Ok tt ->
exists actual, _protected_procedure_policy reviewed row (ar_name row) = Ok actual /\
  (forall k, py_eq (get k actual) (get k (expected_policy (reviewed (ar_name row)) (ar_name row)))) /\
  py_eq (pr_params_schema (ar_base row)) (CONTRACT_PARAMS_SCHEMA (reviewed (ar_name row))) /\
  py_eq (pr_result_schema (ar_base row)) (expected_result_schema (reviewed (ar_name row)) (ar_name row)).
Proof.
intros Hn. unfold _require_protected_procedure_policy. cbn [default from_option].
intros (? & _ & Hp)%bind_Ok. rewrite (proj2 (String.eqb_neq _ _) Hn) in Hp.
apply bind_Ok in Hp as (actual & Ha & Hr%require_Ok). bool_inv. exists actual. split; [done|].
unfold py_eqb in *. bool_inv. split; [|done]. intros k. apply py_eq_get; [|done]. by eapply policy_keys.
Qed.

(** The catalog row of a protected procedure differs from what was reviewed: in a field of
the policy, or in a schema.  Of the Akvorado bootstrap the review knows the hash of its
contract alone. *)
Inductive drifted (reviewed : string -> reviewed_contract) (row : admission_row) : Prop :=
| drifted_field actual k : ar_name row <> AKVORADO_BOOTSTRAP_DEBIAN13_INSTALL ->
  _protected_procedure_policy reviewed row (ar_name row) = Ok actual ->
    ~ py_eq (get k actual) (get k (expected_policy (reviewed (ar_name row)) (ar_name row))) -> drifted reviewed row
| drifted_params : ar_name row <> AKVORADO_BOOTSTRAP_DEBIAN13_INSTALL ->
    ~ py_eq (pr_params_schema (ar_base row)) (CONTRACT_PARAMS_SCHEMA (reviewed (ar_name row))) -> drifted reviewed row
| drifted_result : ar_name row <> AKVORADO_BOOTSTRAP_DEBIAN13_INSTALL ->
    ~ py_eq (pr_result_schema (ar_base row)) (expected_result_schema (reviewed (ar_name row)) (ar_name row)) ->
    drifted reviewed row
| drifted_bootstrap : ar_name row = AKVORADO_BOOTSTRAP_DEBIAN13_INSTALL ->
    derive_command_contract_hash (ar_catalog row) <> AKVORADO_BOOTSTRAP_INSTALL_HASH -> drifted reviewed row.

Lemma drift_detected reviewed row contract :
  drifted reviewed row -> table_get (ar_name row) _PROTECTED_CONTRACTS = Some contract ->
  exists f m, _require_protected_procedure_policy reviewed row None = Err (ValidationError f m).
Proof.
  intros Hd Hc. destruct (_require_protected_procedure_policy reviewed row None) as [[]|e] eqn:E.
  - exfalso. destruct Hd as [actual k Hn Ha Hk|Hn Hs|Hn Hs|Hn Hh].
    1-3: apply policy_checked in E as (actual' & Ha' & Heq & Hps & Hrs); [|exact Hn].
    + rewrite Ha in Ha'. injection Ha' as <-. by apply Hk.
    + by apply Hs.
    + by apply Hs.
    + unfold _require_protected_procedure_policy in E. cbn [default from_option] in E.
      apply bind_Ok in E as (? & _ & E). rewrite Hn, String.eqb_refl in E. apply require_Ok in E. bool_inv.
      by apply Hh, String.eqb_eq.
  - revert E. unfold _require_protected_procedure_policy, _protected_procedure_policy, _protected_contract.
    cbn [default from_option]. rewrite Hc. cbn [mbind result_bind].
    destruct (String.eqb (ar_name row) AKVORADO_BOOTSTRAP_DEBIAN13_INSTALL); unfold require;
      destruct (_ && _); intros [= <-]; eauto.
Qed.

(** A claim whose policy check raises fails the execution or raises, like one whose check
refuses. *)
Lemma unknown_policy_refusal p c e f m ex r :
  protected (pr_name p) = true -> c_policy c = Err e -> claim_refusal p c ex = Ok r ->
  claim_refusal p {| c_queued_at := c_queued_at c; c_clock := c_clock c; c_org_refusal := c_org_refusal c;
                     c_policy := Err (ValidationError f m); c_approver_is_superuser := c_approver_is_superuser c |} ex = Ok r.
Proof.
  intros Hp He. unfold claim_refusal. cbn [c_queued_at c_clock c_org_refusal c_policy].
  destruct (negb _); [done|]. destruct (_restart_queue_is_stale _ _ _); [done|]. destruct (c_org_refusal c); [done|].
  rewrite Hp, He. cbn [negb]. by destruct e.
Qed.
Lemma refused_policy_fails ex0 ex p c now ex' e :
  fresh ex0 -> rtc agg_step ex0 ex -> status (ex_cols ex) = status_value QUEUED ->
  protected (pr_name p) = true -> c_policy c = Err e ->
  _transition_locked ex (on_memory (_claim_if_procedure_enabled p c now)) = Ok ex' ->
    status (ex_cols ex') = status_value FAILED.
Proof.
  intros Hf Hr Hs Hp He Ht.
  set (c' := {| c_queued_at := c_queued_at c; c_clock := c_clock c; c_org_refusal := c_org_refusal c;
                c_policy := Err (ValidationError EmptyString EmptyString);
                c_approver_is_superuser := c_approver_is_superuser c |}).
  destruct (claim_starts_or_fails ex0 ex p c' now Hf Hr Hs) as (ex2 & Hc & Hst); [intros ? [= <-]; eauto|].
  assert (may_start p c' ex = false) as Hm
    by (unfold may_start; rewrite Hp; cbn [c' c_policy is_Ok negb orb andb]; by rewrite andb_false_r).
  rewrite Hm in Hst. assert (ex2 = ex') as <-; [|done].
  assert (_claim_if_procedure_enabled p c now (memory (fetch ex)) = _claim_if_procedure_enabled p c' now (memory (fetch ex))) as Heq.
  { unfold _transition_locked, on_memory in Ht. unfold _claim_if_procedure_enabled in *. destruct (negb _); [done|].
    destruct (claim_refusal p c (memory (fetch ex))) as [r|e'] eqn:Er.
    - assert (claim_refusal p c' (memory (fetch ex)) = Ok r) as -> by (by eapply unknown_policy_refusal). done.
    - done. }
  unfold _transition_locked, on_memory in Ht, Hc. rewrite Heq in Ht. rewrite Hc in Ht. by injection Ht.
Qed.

(** C10: A catalog edit after the approval stops the execution.  When the row of a protected
    procedure differs from what was reviewed, the worker's claim of a queued execution
    never starts it: the claim fails it, or, for a procedure without a contract module
    (the AppRole one), raises and stores nothing.  A difference is any field of the
    policy (identity, version, effect, timeout, approval and transport settings, output
    format, the digests of the commands and the contract) or one of the two schemas; for
    the Akvorado bootstrap, which is only compared by the hash of its command contract,
    it is a different hash. *)
Theorem drifted_policy_never_starts reviewed row ex0 ex queued_at clock sup now :
  fresh ex0 -> rtc agg_step ex0 ex -> status (ex_cols ex) = status_value QUEUED ->
  protected (ar_name row) = true ->
  drifted reviewed row \/ table_get (ar_name row) _PROTECTED_CONTRACTS = None ->
  match _transition_locked ex (on_memory
      (_claim_if_procedure_enabled (ar_base row) (claim_of reviewed row ex queued_at clock sup) now)) with
  | Ok ex' => status (ex_cols ex') = status_value FAILED
  | Err _ => table_get (ar_name row) _PROTECTED_CONTRACTS = None
  end.
Proof.
  intros Hf Hr Hs Hp Hd. set (c := claim_of reviewed row ex queued_at clock sup).
  destruct (table_get (ar_name row) _PROTECTED_CONTRACTS) as [contract|] eqn:Et.
  - destruct Hd as [Hd|]; [|done]. destruct (drift_detected _ _ _ Hd Et) as (f & m & He).
    destruct (claim_starts_or_fails ex0 ex (ar_base row) c now Hf Hr Hs) as (ex' & Hc & _).
    { cbn [c claim_of c_policy]. intros e' He'. rewrite He in He'. injection He' as <-. eauto. }
    rewrite Hc. exact (refused_policy_fails ex0 ex (ar_base row) c now ex' _ Hf Hr Hs Hp He Hc).
  - destruct (_transition_locked _ _) eqn:Hc; [|done].
    eapply (refused_policy_fails ex0 ex (ar_base row) c now _ ValueError); try done.
    cbn [c claim_of c_policy]. unfold _require_protected_procedure_policy, _protected_contract.
    cbn [default from_option]. by rewrite Et.
Qed.
End PolicyFacts.

#[local] Transparent redact_event_value redact_event_data.

(** ** Examples *)

Section Witnesses.
Import MiniSchema Demo AuthorityDemo.

#[local] Instance admission_yaml : Yaml := {| safe_load := fun _ => None |}.
Definition demo_diagnose : string := "service.gitea.actions_runner.diagnose_user_ci_runner".
#[local] Instance admission_manifest : ManifestLib :=
  {| Capabilities.json_loads := fun text => Some (VInt (Z.of_nat (length text)));
     manifest_validate := fun _ =>
       Some {| bm_envelope_version := 1; bm_credential_reference_versions := [1];
               bm_credential_provider_versions := [("netbox-openbao", [1])]; bm_dispatch_lease_versions := [1];
               bm_handlers := [DemoManifest.demo_capability demo_diagnose] |};
     semantic_contract := fun _ _ => VNone |}.

(** The runner machine, and a user whose password is set. *)
Definition demo_vm : Targets.attribute :=
  Obj [("pk", Val (VInt 604)); ("name", Val (VStr "Gitea-Runner")); ("status", Val (VStr "Active"));
       ("primary_ip4", Obj [("address", Val (VStr "10.0.30.241/24"))] "10.0.30.241/24")] "Gitea-Runner".
Definition demo_admission_env (answer : http) : admission_env :=
  {| en_gates := shipped_gates;
     en_reviewed := fun _ =>
       {| PROTECTED_PROCEDURE_POLICIES := []; PROCEDURE_POLICIES := []; PROCEDURE_POLICY := [];
          CONTRACT_RESULT_SCHEMAS := []; CONTRACT_RESULT_SCHEMA := VDict []; CONTRACT_PARAMS_SCHEMA := VDict [];
          SEMANTIC_CAPABILITY_SHA256 := VNone; TRANSPORT_PINNED := VNone |};
     en_settings_enabled := true; en_settings_backend := Some (1, be_backend demo_backend_row);
     en_resolve := fun _ => Ok None;
     en_view := fun ct oid =>
       Ok (if bool_decide (ct = ("virtualization", "virtualmachine")) && py_eqb oid (VInt 604)
           then Some (demo_vm, None) else None);
     en_schema_message := fun _ _ => "invalid"; en_cache := ∅; en_now := 5; en_answer := answer;
     en_live_worker := true; en_database := demo_database []; en_later := demo_database []; en_uuid := demo_uuid;
     en_actor := demo_actor 3 |}.
Definition demo_admission_row (name : string) : admission_row :=
  {| ar_row := {| pc_base := {| pr_pk := 5; pr_name := name; pr_version := VInt 1; pr_policy := VDict [];
                                pr_params_schema := VDict []; pr_result_schema := VDict []; pr_effect := "read";
                                pr_enabled := true; pr_timeout_seconds := VInt 300 |};
                  pc_catalog := DemoManifest.demo_catalog_row name; pc_target_models := [VM_TYPE];
                  pc_approval_required := false; pc_transport_driver := VStr "asyncssh";
                  pc_transport_driver_chain := VList []; pc_transport_pinned := VBool false;
                  pc_output_parser := VStr "none"; pc_output_schema := VDict [] |};
     ar_description := fun _ => "a command" |}.
Definition demo_creation (name : string) (params : dict) : creation_request :=
  {| cq_initial_data := VDict [("params", VDict params)]; cq_is_valid := Ok tt; cq_row := demo_admission_row name;
     cq_params := VDict params; cq_content_type := Some ("virtualization", "virtualmachine");
     cq_object_id := VInt 604; cq_references := VDict [] |}.
Definition demo_create (answer : http) (name : string) (params : dict) :=
  create_from_request None (demo_admission_env answer) (demo_creation name params) 7 demo_target (fun _ _ => Ok []) []
    (Ok (VInt 11)) demo_now.
Definition demo_password : dict := [("username", VStr "alice"); ("password", VStr "hunter2")].
Definition demo_user_create : string := "service.samba_1.user_create".

Definition demo_committed (answer : http) (name : string) (params : dict) : execution :=
  default demo_new (demo_create answer name params).2.1.
Definition demo_stored : execution := Eval vm_compute in demo_committed RequestFailed demo_user_create demo_password.
Definition demo_diagnosis : execution :=
  Eval vm_compute in demo_committed DemoManifest.demo_answer demo_diagnose [].
Lemma demo_creates :
  (demo_create RequestFailed demo_user_create demo_password).2 = (Some demo_stored, Ok tt) /\
  (demo_create DemoManifest.demo_answer demo_diagnose []).2 = (Some demo_diagnosis, Ok tt).
Proof. split; vm_compute; reflexivity. Qed.


Lemma closed_gate_creates_nothing_witness :
  exists c e, demo_create RequestFailed GITEA_RUNNER_REGISTER [] = (c, (None, Err e)).
Proof.
  apply closed_gate_creates_nothing; [reflexivity|]. apply (bool_decide_eq_true_1 _). vm_compute. reflexivity.
Defined.

Lemma demo_policy :
  exists policy, table_get demo_diagnose _GITEA_RUNNER_TARGET_POLICIES = Some policy /\ rp_object_id policy = 604.
Proof.
  assert (option_map rp_object_id (table_get demo_diagnose _GITEA_RUNNER_TARGET_POLICIES) = Some 604) as Hp
    by (vm_compute; reflexivity).
  destruct (table_get _ _) as [policy|]; [|done]. injection Hp as Hp. eauto.
Qed.
Lemma gitea_runner_is_pinned_witness :
  exists ct o tags, en_view (demo_admission_env DemoManifest.demo_answer) ct (VInt 604) = Ok (Some (o, tags)) /\ pinned o 604.
Proof.
  destruct (demo_create DemoManifest.demo_answer demo_diagnose []) as [c s] eqn:E.
  pose proof (proj2 demo_creates) as Hs. rewrite E in Hs. cbn [snd] in Hs. subst s.
  destruct demo_policy as (policy & Ht & Hid).
  destruct (gitea_runner_is_pinned None (demo_admission_env DemoManifest.demo_answer) (demo_creation demo_diagnose [])
    7 demo_target (fun _ _ => Ok []) [] (Ok (VInt 11)) demo_now c demo_diagnosis (Ok tt) policy E Ht)
    as (ct & o & tags & _ & _ & _ & Hv & Hp).
  rewrite Hid in Hp. exists ct, o, tags. split; [exact Hv|exact Hp].
Defined.

(** The reviewed policy of the restart says version 2, the row version 1. *)
Definition demo_reviewed (_ : string) : reviewed_contract :=
  {| PROTECTED_PROCEDURE_POLICIES := [(NETBOX_PRODUCTION_RESTART_RQ_WORKER, ["version" :- 2])];
     PROCEDURE_POLICIES := []; PROCEDURE_POLICY := []; CONTRACT_RESULT_SCHEMAS := [];
     CONTRACT_RESULT_SCHEMA := VDict []; CONTRACT_PARAMS_SCHEMA := VDict [];
     SEMANTIC_CAPABILITY_SHA256 := VNone; TRANSPORT_PINNED := VNone |}.
Definition demo_actual : dict :=
  Eval vm_compute in
    match _protected_procedure_policy demo_reviewed (demo_admission_row NETBOX_PRODUCTION_RESTART_RQ_WORKER)
            NETBOX_PRODUCTION_RESTART_RQ_WORKER with
    | Ok d => d
    | Err _ => []
    end.
Lemma drifted_policy_never_starts_witness :
  exists ex', status (ex_cols ex') = status_value FAILED.
Proof.
  assert (drifted demo_reviewed (demo_admission_row NETBOX_PRODUCTION_RESTART_RQ_WORKER)) as Hd
    by (eapply (drifted_field _ _ demo_actual "version"); vm_compute; (reflexivity || discriminate)).
  pose proof (drifted_policy_never_starts demo_reviewed (demo_admission_row NETBOX_PRODUCTION_RESTART_RQ_WORKER)
    demo_new demo_queued (Some 1000) 1060 false demo_now demo_fresh demo_reach_queued eq_refl eq_refl (or_introl Hd)) as Hc.
  destruct (_transition_locked _ _) as [ex'|e]; [|discriminate Hc]. exists ex'. exact Hc.
Defined.
End Witnesses.
