(* ===== verification/Normalize.v ===== *)
(** * Normalization of parameters: the common part

    The helpers of [netbox_rpc/domain/normalization.py] that the normalizers of the
    procedure families share: reading a parameter as an integer, a boolean or a text,
    the SSH overrides, and the patterns a text has to match as a whole.

    A normalizer builds the payload of an execution and, beside it, the fingerprint the
    approval hashes; the two dictionaries are the record [payload], which [assembled]
    puts together (the order of keys is nowhere observed: they are hashed and stored
    sorted).  The [params] column is an object, as the admission demands; another value
    raises where it is first read. *)

From S2P Require Import Prelude PyValue CredentialContract Spans PyRegex SecretPatterns.
From S2P Require Import Protected Contracts CredentialAuthority Targets.
Import JsonNotations.

Local Open Scope Z_scope.

(** ** The execution a normalizer reads *)

Record norm_input := {
  ni_procedure : string;
  ni_handler_id : string;
  ni_params : value;
  ni_app_label : string;
  ni_model : string;
  ni_object_id : value;
  ni_object : Targets.attribute;
  ni_type_id : value;
  ni_references : value;
}.
(** [RPCExecution.target_model_label] and [RPCExecution.target_display]. *)
Definition ni_target_model (i : norm_input) : string := ni_app_label i +:+ "." +:+ ni_model i.
Definition ni_target (i : norm_input) : string :=
  match ni_object i with
  | Val VNone => ni_target_model i +:+ ":" +:+ py_str (ni_object_id i)
  | o => match attr o "name" with
         | Val v => if truthy v then py_str v else attr_str o
         | name => attr_str name
         end
  end.
(** [execution.params or {}]. *)
Definition params_of (i : norm_input) : res dict :=
  match py_or (ni_params i) (VDict []) with VDict d => Ok d | _ => Err AttributeError end.

(** ** The payload *)

Record payload := { body : dict; fingerprint : dict }.
Definition put (k : string) (v : value) (p : payload) : payload :=
  {| body := dict_set k v (body p); fingerprint := fingerprint p |}.
Definition mark (k : string) (v : value) (p : payload) : payload :=
  {| body := body p; fingerprint := dict_set k v (fingerprint p) |}.
(** The same entry in both. *)
Definition both (k : string) (v : value) (p : payload) : payload := mark k v (put k v p).
Definition both_if (b : bool) (k : string) (v : value) (p : payload) : payload := if b then both k v p else p.
Definition both_opt (k : string) (v : option Z) (p : payload) : payload :=
  match v with Some z => both k (VInt z) p | None => p end.
Definition assembled (p : payload) : dict := dict_set "command_fingerprint" (VDict (fingerprint p)) (body p).

(** ** Errors *)

Definition invalid_param (message : string) : exn := RPCExecutionError "RPC_PARAM_INVALID" message.
Definition out_of_range (message : string) : exn := RPCExecutionError "RPC_PARAM_OUT_OF_RANGE" message.
Definition invalid_target (message : string) : exn := RPCExecutionError "RPC_TARGET_INVALID" message.
Definition not_normalizable (name : string) : exn :=
  RPCExecutionError "RPC_PROCEDURE_NOT_NORMALIZABLE" ("Procedure " +:+ repr_str name +:+ " has no NetBox normalizer.").

(** ** Reading a parameter *)

(** [v in (None, "")]. *)
Definition blank (v : value) : bool := match v with VNone | VStr EmptyString => true | _ => false end.
(** [str(params.get(key) or default).strip()]. *)
Definition text_or (standard : string) (v : value) : string := str_strip (py_str (py_or v (VStr standard))).
Definition text_of (v : value) : string := text_or EmptyString v.
(** The elements of a list or a tuple. *)
Definition sequence_of (v : value) : option (list value) :=
  match v with VList l | VTuple l => Some l | _ => None end.

Definition upper_bound (maximum : option Z) : string :=
  match maximum with Some m => " and <= " +:+ str_of_Z m | None => EmptyString end.
Definition in_range (minimum : Z) (maximum : option Z) (n : Z) : bool :=
  (minimum <=? n) && match maximum with Some m => n <=? m | None => true end.
Definition _int_range (params : dict) (key : string) (minimum : Z) (maximum : option Z) : res Z :=
  n ← match py_int (get key params) with
      | Err OverflowError => Err OverflowError
      | Err _ => Err (invalid_param (key +:+ " must be an integer."))
      | r => r
      end;
  _ ← require (in_range minimum maximum n)
        (out_of_range (key +:+ " must be >= " +:+ str_of_Z minimum +:+ upper_bound maximum +:+ "."));
  Ok n.
Definition _optional_int_range (params : dict) (key : string) (minimum : Z) (maximum : option Z) : res (option Z) :=
  if blank (get key params) then Ok None else Some <$> _int_range params key minimum maximum.

Definition _bool_param (params : dict) (key : string) (standard : bool) : res bool :=
  let refusal := Err (invalid_param (key +:+ " must be a boolean.")) in
  match get key params with
  | VNone => Ok standard
  | VBool b => Ok b
  | VStr s =>
      let lowered := str_lower (str_strip s) in
      if str_in lowered ["true"; "1"; "yes"; "on"] then Ok true
      else if str_in lowered ["false"; "0"; "no"; "off"] then Ok false
      else refusal
  | _ => refusal
  end.

(** ** Patterns *)

Section Patterns.
Local Open Scope re_scope.

(** Letters, digits and the characters of [extra]. *)
Definition word_char (extra : string) (c : char) : bool := digit c || ascii_letter c || chars extra c.
Definition cls (extra : string) : re := RSet (word_char extra).
Definition rep (lo hi : nat) (r : re) : re := RRep true lo (Some hi) r.
(** A letter or a digit, then at most [n] characters of the class. *)
Definition named (extra : string) (n : nat) : re := cls EmptyString ++ rep 0 n (cls extra).
Definition digits_re : re := RSet digit.
(** One label of a host name. *)
Definition label : re := cls EmptyString ++ opt (rep 0 61 (cls "-") ++ cls EmptyString).
Definition labels : re := label ++ star (ch 46%N ++ label).

Definition _DNS_SEARCH_DOMAIN_RE : re := labels ++ opt (ch 46%N).
Definition _POSIX_USERNAME_RE : re :=
RSet (fun c => between 97 122 c || chars "_" c)%bool
++ rep 0 31 (RSet (fun c => between 97 122 c || digit c || chars "_-" c)%bool).
End Patterns.

(** [pattern.fullmatch(value)] on a text of the values layer. *)
Definition full (r : re) (s : string) : bool := fullmatch r (codes s).

(** A control character or a space, as [ch.isspace() or ord(ch) < 32]. *)
Definition space_or_control (c : ascii) : bool := chr_space c || (code c <? 32).
Definition str_any (p : ascii -> bool) (s : string) : bool := negb (str_forall (fun c => negb (p c)) s).
Fixpoint lstrip_char (c : ascii) (s : string) : string :=
  match s with
  | String d r => if Ascii.eqb c d then lstrip_char c r else s
  | EmptyString => s
  end.
(** [s.rstrip(c)]. *)
Definition rstrip_char (c : ascii) (s : string) : string := str_rev (lstrip_char c (str_rev s)).

Section Hashes.
Context `{PyLib}.
Definition _hash_text (s : string) : value := VStr (sha256 s).
Definition _hash_json (v : value) : value :=
match v with VNone => VStr EmptyString | _ => VStr (sha256 (json_dumps v)) end.

(** ** SSH overrides *)

Definition _validate_ssh_host (host empty_message : string) : res unit :=
_ ← require (str_truthy host) (invalid_param empty_message);
_ ← require (str_len host <=? 255) (invalid_param "rpc_ssh_host may contain at most 255 characters.");
require (negb (str_any space_or_control host))
  (invalid_param "rpc_ssh_host must not contain whitespace or control characters.").

Definition _copy_optional_credential_override (params : dict) (p : payload) : res payload :=
credential_pk ← _optional_int_range params "rpc_ssh_credential_pk" 1 None;
Ok (both_opt "rpc_ssh_credential_pk" credential_pk p).

Definition _copy_optional_ssh_overrides (params : dict) (p : payload) : res payload :=
p ← _copy_optional_credential_override params p;
p ← (if dict_mem "rpc_ssh_host" params then
       let host := text_of (get "rpc_ssh_host" params) in
       _ ← _validate_ssh_host host "rpc_ssh_host must be a non-empty string.";
       Ok (both "rpc_ssh_host" (VStr host) p)
     else Ok p);
port ← _optional_int_range params "rpc_ssh_port" 1 (Some 65535);
let p := both_opt "rpc_ssh_port" port p in
let p := if dict_mem "rpc_ssh_known_hosts_entry" params then
           let known_hosts_entry := text_of (get "rpc_ssh_known_hosts_entry" params) in
           mark "rpc_ssh_known_hosts_entry_sha256" (_hash_text known_hosts_entry)
             (put "rpc_ssh_known_hosts_entry" (VStr known_hosts_entry) p)
         else p in
if dict_mem "rpc_ssh_strict_host_key_checking" params then
  strict ← _bool_param params "rpc_ssh_strict_host_key_checking" true;
  Ok (both "rpc_ssh_strict_host_key_checking" (VBool strict) p)
else Ok p.
End Hashes.

(** ** Deployment settings *)

(** [PLUGINS_CONFIG["netbox_rpc"]]; [None] when it cannot be read. *)
Definition _netbox_rpc_plugin_setting (config : option dict) (key standard : string) : string :=
  match config with
  | Some d => py_str (py_or (get key d) (VStr standard))
  | None => standard
  end.
Definition strip_dots (s : string) : string := lstrip_char "."%char (rstrip_char "."%char s).
Definition _default_dns_host_domain (config : option dict) : string :=
  strip_dots (_netbox_rpc_plugin_setting config "dns_host_domain" EmptyString).
Definition _default_zabbix_server (config : option dict) : string :=
  _netbox_rpc_plugin_setting config "default_zabbix_server" EmptyString.

(** ** Keys a caller may send *)

(** [sorted(set(params) & forbidden)] and [sorted(set(params) - allowed)]. *)
Definition sorted_names (names : list string) : list string := merge_sort (fun a b => Is_true (String.leb a b)) names.
Definition common_keys (params : dict) (names : list string) : list string :=
  sorted_names (List.filter (fun k => str_in k names) (keys params)).
Definition foreign_keys (params : dict) (names : list string) : list string :=
  sorted_names (List.filter (fun k => negb (str_in k names)) (keys params)).
Definition require_none (names : list string) (e : exn) : res unit :=
  require (match names with [] => true | _ => false end) e.

(** An integer that is positive and not a boolean. *)
Definition positive_id (v : value) : bool := match v with VInt n => 1 <=? n | _ => false end.
