(* ===== verification/NormalizeDevices.v ===== *)
(** * Normalization: network devices, panels and web nodes

    The normalizers of [netbox_rpc/domain/normalization.py] for the Huawei and Dell OS10
    devices, the Nginx nodes, the Pterodactyl panel and the Minecraft servers.  A branch
    of [_dispatch_normalize_execution_params] that has no function of its own is a
    definition named after its procedure. *)

From S2P Require Import Prelude PyValue CredentialContract Spans PyRegex SecretPatterns.
From S2P Require Import Protected Contracts CredentialAuthority Targets Admission Normalize.
Import JsonNotations.

Local Open Scope Z_scope.

(** ** Patterns *)

Section Patterns.
Local Open Scope re_scope.
Definition digit_run (lo hi : nat) : re := rep lo hi digits_re.

Definition _DELL_OS10_INTERFACE_RE : re := RSet ascii_letter ++ rep 0 63 (cls "/._:-").
Definition _DELL_OS10_IP_RE : re :=
digit_run 1 3 ++ ch 46%N ++ digit_run 1 3 ++ ch 46%N ++ digit_run 1 3 ++ ch 46%N ++ digit_run 1 3.
Definition hex_pair : re := hex ++ hex.
Definition _DELL_OS10_MAC_RE : re := hex_pair ++ rep 5 5 (ch 58%N ++ hex_pair).
Definition vlan_range : re := digit_run 1 4 ++ opt (ch 45%N ++ digit_run 1 4).
Definition _DELL_OS10_TRUNK_VLANS_RE : re := vlan_range ++ star (ch 44%N ++ vlan_range).
Definition _DELL_OS10_BREAKOUT_PORT_RE : re :=
plus digits_re ++ ch 47%N ++ plus digits_re ++ ch 47%N ++ plus digits_re.
Definition _DELL_OS10_BREAKOUT_MODE_RE : re := plus digits_re ++ lit "g-" ++ plus digits_re ++ lit "x".
Definition _HUAWEI_NE8000_TARGET_RE : re :=
cls EmptyString ++ opt (rep 0 253 (cls "_.:-") ++ cls EmptyString).
Definition _HUAWEI_NE8000_VRF_RE : re := rep 1 31 (cls "_.:-").
Definition _PVESH_PATH_RE : re := ch 47%N ++ rep 1 128 (cls "/_.-").
Definition _PTERODACTYL_CONTAINER_NAME_RE : re := named "_.-" 127.
Definition _MINECRAFT_SERVER_UUID_RE : re :=
rep 8 8 hex ++ ch 45%N ++ rep 4 4 hex ++ ch 45%N ++ rep 4 4 hex ++ ch 45%N ++ rep 4 4 hex ++ ch 45%N ++ rep 12 12 hex.
Definition _MINECRAFT_JAR_FILENAME_RE : re := plus (cls "._-") ++ lit ".jar".
Definition _MINECRAFT_VERSION_RE : re := rep 1 64 (cls "._+-").
End Patterns.

Definition _HUAWEI_NE8000_BGP_PARAM_KEYS : list string := ["vrf"].
Definition _PTERODACTYL_ARTISAN_ALLOWLIST : list string :=
  ["queue:status"; "schedule:run"; "cache:clear"; "config:clear"; "queue:restart"; "migrate"].
Definition _MINECRAFT_VIAVERSION_PLUGINS : list string := ["viaversion"; "viabackwards"; "viarewind"].
Definition _MINECRAFT_VIAVERSION_PRESETS : list (string * list string) :=
  [("minimal", ["viaversion"]); ("standard", ["viaversion"; "viabackwards"]);
   ("full", ["viaversion"; "viabackwards"; "viarewind"])].
Definition _MINECRAFT_PAPERMC_PROJECTS : list string := ["paper"; "folia"; "velocity"].

Definition opening (i : norm_input) (b f : dict) : payload :=
  {| body := ("target" :- ni_target i) :: b; fingerprint := ("handler_id" :- ni_handler_id i) :: f |}.

(** ** Huawei *)

Definition huawei_start_ont (i : norm_input) : res payload :=
  params ← params_of i;
  frame ← _int_range params "frame" 0 None;
  slot ← _int_range params "slot" 1 (Some 17);
  port ← _int_range params "port" 0 (Some 15);
  ont_id ← _int_range params "ont_id" 0 (Some 127);
  let entries := ["frame" :- VInt frame; "slot" :- VInt slot; "port" :- VInt port; "ont_id" :- VInt ont_id] in
  Ok (opening i entries entries).

(** The names of the unknown parameters: at most eight of them, cut to 64 characters. *)
Definition shown_names (names : list string) : string :=
  str_join ", " (take 8 names) +:+ (if 8 <? Z.of_nat (length names) then ", ..." else EmptyString).
Definition _normalize_huawei_ne8000_bgp_execution (f : code_gates) (i : norm_input) : res payload :=
  _ ← (match code_gate_unavailable_reason f (ni_procedure i) with
       | Some reason => Err (RPCExecutionError "RPC_PROCEDURE_NOT_AVAILABLE" reason)
       | None => Ok tt
       end);
  params ← (match ni_params i with
            | VNone => Ok []
            | VDict d => Ok d
            | _ => Err (invalid_param "Huawei NE8000 BGP params must be an object.")
            end);
  let unknown := sorted_names (map (str_take 64)
                   (List.filter (fun k => negb (str_in k _HUAWEI_NE8000_BGP_PARAM_KEYS)) (keys params))) in
  _ ← require_none unknown (invalid_param ("Unknown Huawei NE8000 BGP param(s): " +:+ shown_names unknown +:+ "."));
  _ ← require (String.eqb (ni_target_model i) "dcim.device")
        (invalid_target "Huawei NE8000 BGP requires a dcim.device target.");
  _ ← require (String.eqb (ni_app_label i +:+ "." +:+ ni_model i) "dcim.device" && positive_id (ni_object_id i))
        (invalid_target "Huawei NE8000 BGP requires an existing assigned dcim.device.");
  let target_object := VDict ["content_type" :- "dcim.device"; "object_id" :- ni_object_id i] in
  let target := str_strip (ni_target i) in
  _ ← require (full _HUAWEI_NE8000_TARGET_RE target)
        (invalid_target "Huawei NE8000 BGP target must be a 1-255 character device name using only letters, digits, '.', '_', ':', or '-' and must start and end with a letter or digit.");
  raw_vrf ← (match default (VStr EmptyString) (dict_get "vrf" params) with
             | VStr s => Ok s
             | _ => Err (invalid_param "vrf must be a string.")
             end);
  let vrf := str_strip raw_vrf in
  _ ← require (String.eqb raw_vrf vrf) (invalid_param "vrf must not contain leading or trailing whitespace.");
  _ ← require (negb (str_truthy vrf) || full _HUAWEI_NE8000_VRF_RE vrf)
        (invalid_param "vrf must contain 1-31 letters, digits, '.', '_', ':', or '-'.");
  let entries := ["target_object" :- target_object; "vrf" :- VStr vrf] in
  Ok {| body := ("target" :- VStr target) :: entries; fingerprint := ("handler_id" :- ni_handler_id i) :: entries |}.

(** ** Dell OS10 *)

Definition _dell_os10_description (params : dict) : res string :=
  let description := py_str (py_or (get "description" params) (VStr EmptyString)) in
  _ ← require (str_len description <=? 240) (invalid_param "description may contain at most 240 characters.");
  _ ← require (negb (str_any (fun c => (code c <? 32) && negb (code c =? 9)) description))
        (invalid_param "description must not contain control characters.");
  Ok description.
Definition interface_name_of (params : dict) : res string :=
  let name := text_of (get "interface_name" params) in
  _ ← require (full _DELL_OS10_INTERFACE_RE name)
        (invalid_param "interface_name must be a valid OS10 interface identifier.");
  Ok name.

Section Families.
Context `{PyLib}.
Variable i : norm_input.

Definition _normalize_dell_os10_simple_execution : res payload :=
params ← params_of i;
_copy_optional_credential_override params (opening i [] []).
Definition _normalize_pipeline_fixed_execution : res payload :=
params ← params_of i;
_copy_optional_credential_override params (opening i [] []).

Definition set_interface_description : res payload :=
params ← params_of i;
interface_name ← interface_name_of params;
description ← _dell_os10_description params;
write_memory ← _bool_param params "write_memory" false;
_copy_optional_credential_override params
  (opening i ["interface_name" :- VStr interface_name; "description" :- VStr description; "write_memory" :- VBool write_memory]
           ["interface_name" :- VStr interface_name; "description_sha256" :- _hash_text description;
            "write_memory" :- VBool write_memory]).

Definition set_vlan_description : res payload :=
params ← params_of i;
vlan_id ← _int_range params "vlan_id" 1 (Some 4094);
description ← _dell_os10_description params;
write_memory ← _bool_param params "write_memory" false;
_copy_optional_credential_override params
  (opening i ["vlan_id" :- VInt vlan_id; "description" :- VStr description; "write_memory" :- VBool write_memory]
           ["vlan_id" :- VInt vlan_id; "description_sha256" :- _hash_text description;
            "write_memory" :- VBool write_memory]).

Definition show_vlt : res payload :=
params ← params_of i;
domain_id ← _optional_int_range params "domain_id" 1 (Some 255);
let entries := ["domain_id" :- VInt (default 1 domain_id)] in
_copy_optional_credential_override params (opening i entries entries).

Definition configure_vlt_domain : res payload :=
params ← params_of i;
domain_id ← _int_range params "domain_id" 1 (Some 255);
unit_id ← _optional_int_range params "unit_id" 1 (Some 2);
primary_priority ← _optional_int_range params "primary_priority" 1 (Some 65535);
discovery_port_channel ← _int_range params "discovery_port_channel" 1 (Some 4096);
let backup_destination := text_of (get "backup_destination" params) in
_ ← require (full _DELL_OS10_IP_RE backup_destination)
      (invalid_param "backup_destination must be a valid IPv4 address.");
let vlt_mac := text_of (get "vlt_mac" params) in
_ ← require (negb (str_truthy vlt_mac) || full _DELL_OS10_MAC_RE vlt_mac)
      (invalid_param "vlt_mac must be a valid MAC address (XX:XX:XX:XX:XX:XX).");
write_memory ← _bool_param params "write_memory" true;
let entries := ["domain_id" :- VInt domain_id; "primary_priority" :- VInt (default 32768 primary_priority);
                "discovery_port_channel" :- VInt discovery_port_channel;
                "backup_destination" :- VStr backup_destination] in
let p := opening i (entries ++ ["write_memory" :- VBool write_memory]) entries in
_copy_optional_credential_override params
  (both_if (str_truthy vlt_mac) "vlt_mac" (VStr vlt_mac) (both_opt "unit_id" unit_id p)).

Definition configure_vlt_peer : res payload :=
params ← params_of i;
port_channel_id ← _int_range params "port_channel_id" 1 (Some 4096);
vlt_port_channel_id ← _int_range params "vlt_port_channel_id" 1 (Some 4096);
remove ← _bool_param params "remove" false;
write_memory ← _bool_param params "write_memory" true;
let entries := ["port_channel_id" :- VInt port_channel_id; "vlt_port_channel_id" :- VInt vlt_port_channel_id;
                "remove" :- VBool remove] in
_copy_optional_credential_override params
  (opening i (entries ++ ["write_memory" :- VBool write_memory]) entries).

(** A description goes into the payload as text, into the fingerprint as a digest. *)
Definition put_description (description : string) (p : payload) : payload :=
if str_truthy description
then mark "description_sha256" (_hash_text description) (put "description" (VStr description) p) else p.

Definition configure_port_channel : res payload :=
params ← params_of i;
port_channel_id ← _int_range params "port_channel_id" 1 (Some 4096);
let trunk_vlans := text_of (get "trunk_vlans" params) in
_ ← require (negb (str_truthy trunk_vlans) || full _DELL_OS10_TRUNK_VLANS_RE trunk_vlans)
      (invalid_param "trunk_vlans must be a comma-separated list of VLAN IDs or ranges (e.g. '20,111' or '10-20,100').");
description ← _dell_os10_description params;
remove ← _bool_param params "remove" false;
write_memory ← _bool_param params "write_memory" true;
let entries := ["port_channel_id" :- VInt port_channel_id; "remove" :- VBool remove] in
let p := opening i (entries ++ ["write_memory" :- VBool write_memory]) entries in
_copy_optional_credential_override params
  (put_description description (both_if (str_truthy trunk_vlans) "trunk_vlans" (VStr trunk_vlans) p)).

Definition configure_interface_lacp : res payload :=
params ← params_of i;
interface_name ← interface_name_of params;
port_channel_id ← _int_range params "port_channel_id" 1 (Some 4096);
let lacp_mode := str_lower (text_or "active" (get "lacp_mode" params)) in
_ ← require (str_in lacp_mode ["active"; "passive"; "on"])
      (invalid_param "lacp_mode must be 'active', 'passive', or 'on'.");
description ← _dell_os10_description params;
remove ← _bool_param params "remove" false;
write_memory ← _bool_param params "write_memory" false;
let entries := ["interface_name" :- VStr interface_name; "port_channel_id" :- VInt port_channel_id;
                "lacp_mode" :- VStr lacp_mode; "remove" :- VBool remove] in
let p := opening i (entries ++ ["write_memory" :- VBool write_memory]) entries in
_copy_optional_credential_override params (put_description description p).

Definition configure_interface_breakout : res payload :=
params ← params_of i;
let interface_port := text_of (get "interface_port" params) in
_ ← require (full _DELL_OS10_BREAKOUT_PORT_RE interface_port)
      (invalid_param "interface_port must be in slot/port/subport format, e.g. '1/1/1'.");
let breakout_mode := text_of (get "breakout_mode" params) in
_ ← require (full _DELL_OS10_BREAKOUT_MODE_RE breakout_mode)
      (invalid_param "breakout_mode must be in Ng-Mx format, e.g. '40g-1x' or '10g-4x'.");
write_memory ← _bool_param params "write_memory" true;
let entries := ["interface_port" :- VStr interface_port; "breakout_mode" :- VStr breakout_mode] in
_copy_optional_credential_override params
  (opening i (entries ++ ["write_memory" :- VBool write_memory]) entries).

Definition configure_interface_fec : res payload :=
params ← params_of i;
interface_name ← interface_name_of params;
let fec_mode := str_lower (text_or "cl91" (get "fec_mode" params)) in
_ ← require (str_in fec_mode ["cl91"; "cl108"; "auto"; "none"])
      (invalid_param "fec_mode must be one of: cl91, cl108, auto, none.");
write_memory ← _bool_param params "write_memory" true;
let entries := ["interface_name" :- VStr interface_name; "fec_mode" :- VStr fec_mode] in
_copy_optional_credential_override params
  (opening i (entries ++ ["write_memory" :- VBool write_memory]) entries).

Definition _normalize_dell_os10_bootstrap_execution : res payload :=
params ← params_of i;
configure_user ← _bool_param params "configure_user" false;
restconf_credential_pk ← _optional_int_range params "restconf_credential_pk" 1 None;
_ ← require (negb configure_user || match restconf_credential_pk with Some _ => true | None => false end)
      (invalid_param "restconf_credential_pk is required when configure_user is true.");
session_timeout ← _optional_int_range params "session_timeout" 1 (Some 1440);
raw_suites ← (match py_or (get "cipher_suites" params) (VList []) with
              | VList l => Ok l
              | _ => Err (invalid_param "cipher_suites must be a list of OS10 cipher suite names.")
              end);
let cipher_suites := List.filter str_truthy (map (fun v => str_strip (py_str v)) raw_suites) in
_ ← require (Z.of_nat (length cipher_suites) <=? 12) (invalid_param "cipher_suites may contain at most 12 entries.");
let certificate_name := text_of (get "certificate_name" params) in
_ ← require (forallb (fun s => negb (str_any space_or_control s)) (certificate_name :: cipher_suites))
      (invalid_param "Dell OS10 RESTCONF bootstrap parameters must not contain whitespace or control characters.");
enable_ssh ← _bool_param params "enable_ssh" true;
enable_restconf ← _bool_param params "enable_restconf" true;
write_memory ← _bool_param params "write_memory" true;
let entries := ["configure_user" :- VBool configure_user; "enable_ssh" :- VBool enable_ssh;
                "enable_restconf" :- VBool enable_restconf; "write_memory" :- VBool write_memory] in
let p := both_opt "restconf_credential_pk" restconf_credential_pk (opening i entries entries) in
let p := both_if (str_truthy certificate_name) "certificate_name" (VStr certificate_name) p in
let p := both_opt "session_timeout" session_timeout p in
let p := both_if (negb (bool_decide (cipher_suites = []))) "cipher_suites" (VList (map VStr cipher_suites)) p in
_copy_optional_credential_override params p.

(** ** [pvesh], Nginx and Pterodactyl *)

Definition _normalize_pvesh_json_execution : res payload :=
params ← params_of i;
let pvesh_path := text_of (get "pvesh_path" params) in
_ ← require (full _PVESH_PATH_RE pvesh_path) (invalid_param "pvesh_path must match ^/[A-Za-z0-9/_.-]{1,128}$.");
timeout ← _optional_int_range params "timeout" 1 (Some 600);
let entries := ["pvesh_path" :- VStr pvesh_path] in
_copy_optional_credential_override params (both_opt "timeout" timeout (opening i entries entries)).

Definition _normalize_nginx_node_execution (extra_params : dict) : res payload :=
params ← params_of i;
node_id ← _int_range params "node_id" 1 None;
Ok (opening i (("node_id" :- VInt node_id) :: extra_params) ["node_id" :- VInt node_id]).
Definition nginx_config_deploy : res payload :=
params ← params_of i;
let config_content := text_of (get "config_content" params) in
_ ← require (str_truthy config_content) (invalid_param "config_content must be a non-empty string.");
deployment_id ← _int_range params "deployment_id" 1 None;
let config_path := text_of (get "config_path" params) in
_normalize_nginx_node_execution
  (["config_content" :- VStr config_content; "deployment_id" :- VInt deployment_id]
   ++ (if str_truthy config_path then ["config_path" :- VStr config_path] else [])).
Definition nginx_rollback : res payload :=
params ← params_of i;
deployment_id ← _int_range params "deployment_id" 1 None;
let previous_config := text_of (get "previous_config" params) in
_ ← require (str_truthy previous_config) (invalid_param "previous_config must be a non-empty string.");
_normalize_nginx_node_execution ["deployment_id" :- VInt deployment_id; "previous_config" :- VStr previous_config].

Definition container_name_of (params : dict) : res string :=
let container_name := text_or "pterodactyl-panel-1" (get "container_name" params) in
_ ← require (full _PTERODACTYL_CONTAINER_NAME_RE container_name)
      (invalid_param "container_name contains invalid characters.");
Ok container_name.
(** [max(1, min(500, int(params.get("lines", 100))))]; [int] may raise. *)
Definition tail_lines (params : dict) : res Z :=
n ← py_int (default (VInt 100) (dict_get "lines" params));
Ok (Z.max 1 (Z.min 500 n)).

Definition pterodactyl_bootstrap : res payload :=
params ← params_of i;
container_name ← container_name_of params;
Ok (opening i ["container_name" :- VStr container_name] []).
Definition pterodactyl_artisan : res payload :=
params ← params_of i;
let command := text_of (get "command" params) in
_ ← require (str_in command _PTERODACTYL_ARTISAN_ALLOWLIST)
      (invalid_param ("command must be one of: " +:+ str_join ", " (sorted_names _PTERODACTYL_ARTISAN_ALLOWLIST)));
container_name ← container_name_of params;
let entries := ["command" :- VStr command; "container_name" :- VStr container_name] in
Ok (opening i entries entries).
Definition pterodactyl_logs : res payload :=
params ← params_of i;
container_name ← container_name_of params;
lines ← tail_lines params;
let entries := ["container_name" :- VStr container_name; "lines" :- VInt lines] in
Ok (opening i entries entries).

Definition _normalize_pterodactyl_wings_service_execution (action : string) : res payload :=
params ← params_of i;
let entries := ["service_name" :- "wings.service"; "action" :- VStr action] in
_copy_optional_ssh_overrides params (opening i entries entries).
Definition wings_logs : res payload :=
p ← _normalize_pterodactyl_wings_service_execution "logs";
params ← params_of i;
lines ← tail_lines params;
Ok (both "lines" (VInt lines) p).

(** ** Minecraft *)

Definition _minecraft_server_uuid (params : dict) : res string :=
let server_uuid := text_of (get "server_uuid" params) in
_ ← require (full _MINECRAFT_SERVER_UUID_RE server_uuid) (invalid_param "server_uuid must be a canonical UUID.");
Ok (str_lower server_uuid).
Definition _minecraft_jar_filename (raw : value) (field_name : string) : res string :=
let filename := text_of raw in
_ ← require (full _MINECRAFT_JAR_FILENAME_RE filename && negb (str_contains ".." filename)
             && negb (str_contains "/" filename) && negb (str_contains "\" filename))
      (invalid_param (field_name +:+ " must be a safe .jar filename."));
Ok filename.

(** The preset and the plugins, in their fixed order. *)
Definition viaversion_plugins (params : dict) : res (string * list string) :=
let raw_plugins := get "plugins" params in
if truthy raw_plugins then
  raw ← (match raw_plugins with VList l => Ok l | _ => Err (invalid_param "plugins must be a list.") end);
  let plugins := map (fun v => str_lower (str_strip (py_str v))) raw in
  _ ← require (negb (bool_decide (plugins = [])) && (Z.of_nat (length plugins) <=? 3)
               && bool_decide (NoDup plugins))
        (invalid_param "plugins must contain one to three unique entries.");
  _ ← require (forallb (fun p => str_in p _MINECRAFT_VIAVERSION_PLUGINS) plugins)
        (invalid_param "plugins must be viaversion, viabackwards, and/or viarewind.");
  Ok ("custom", List.filter (fun p => str_in p plugins) ["viaversion"; "viabackwards"; "viarewind"])
else
  let preset := str_lower (text_or "standard" (get "preset" params)) in
  match table_get preset _MINECRAFT_VIAVERSION_PRESETS with
  | Some plugins => Ok (preset, plugins)
  | None => Err (invalid_param "preset must be minimal, standard, or full.")
  end.
Definition _normalize_minecraft_viaversion_install_execution : res payload :=
params ← params_of i;
server_uuid ← _minecraft_server_uuid params;
'(preset, plugins) ← viaversion_plugins params;
restart ← _bool_param params "restart" false;
let entries := ["server_uuid" :- VStr server_uuid; "preset" :- VStr preset; "plugins" :- VList (map VStr plugins);
                "restart" :- VBool restart] in
_copy_optional_ssh_overrides params (opening i entries entries).

Definition _normalize_minecraft_papermc_install_execution : res payload :=
params ← params_of i;
server_uuid ← _minecraft_server_uuid params;
let project := str_lower (text_of (get "project" params)) in
_ ← require (str_in project _MINECRAFT_PAPERMC_PROJECTS) (invalid_param "project must be paper, folia, or velocity.");
let version := text_of (get "version" params) in
_ ← require (full _MINECRAFT_VERSION_RE version)
      (invalid_param "version must be a safe PaperMC version identifier.");
server_jarfile ← _minecraft_jar_filename (py_or (get "server_jarfile" params) (VStr "server.jar")) "server_jarfile";
restart ← _bool_param params "restart" false;
let entries := ["server_uuid" :- VStr server_uuid; "project" :- VStr project; "version" :- VStr version;
                "server_jarfile" :- VStr server_jarfile; "restart" :- VBool restart] in
build_id ← _optional_int_range params "build_id" 1 None;
_copy_optional_ssh_overrides params (both_opt "build_id" build_id (opening i entries entries)).
End Families.
