(* ===== verification/NormalizeServices.v ===== *)
(** * Normalization: hosted services

    The normalizers of [netbox_rpc/domain/normalization.py] for Samba, and what the hosted
    services share of [pathlib.PurePosixPath] and
    [posixpath.normpath].

    The walk over an [smb.conf] body joins continued lines before it looks for a
    directive; NormalizeProperties says what it accepts. *)

From S2P Require Import Prelude PyValue CredentialContract Spans PyRegex SecretPatterns.
From S2P Require Import Protected Contracts Backends CredentialAuthority Targets Akvorado Admission Normalize.
Import JsonNotations.

Local Open Scope Z_scope.

(** ** Paths *)

(** [PurePosixPath]: the leading slashes that count, and the parts below. *)
Record posix_path := { pp_root : string; pp_parts : list string }.
#[export] Instance posix_path_eq_dec : EqDecision posix_path.
Proof. solve_decision. Defined.
Definition root_of (s : string) : string :=
  if str_startswith "///" s then "/" else if str_startswith "//" s then "//"
  else if str_startswith "/" s then "/" else EmptyString.
Definition PurePosixPath (s : string) : posix_path :=
  {| pp_root := root_of s;
     pp_parts := List.filter (fun c => negb (str_in c [EmptyString; "."])) (str_split "/"%char s) |}.
Definition is_absolute (p : posix_path) : bool := str_truthy (pp_root p).
(** [p.parts], whose first element is the root when there is one. *)
Definition all_parts (p : posix_path) : list string := (if is_absolute p then [pp_root p] else []) ++ pp_parts p.
Definition is_relative_to (p q : posix_path) : bool :=
  String.eqb (pp_root p) (pp_root q) && bool_decide (pp_parts q `prefix_of` pp_parts p).
Definition join_path (p q : posix_path) : posix_path :=
  if is_absolute q then q else {| pp_root := pp_root p; pp_parts := pp_parts p ++ pp_parts q |}.
Definition path_str (p : posix_path) : string := str_or (pp_root p +:+ str_join "/" (pp_parts p)) ".".

(** [posixpath.normpath]. *)
Fixpoint norm_comps (root : string) (done_ : list string) (comps : list string) : list string :=
  match comps with
  | [] => done_
  | c :: r =>
      if str_in c [EmptyString; "."] then norm_comps root done_ r
      else if negb (String.eqb c "..") || (negb (str_truthy root) && bool_decide (done_ = []))
              || (match List.last done_ EmptyString with ".." => true | _ => false end)
      then norm_comps root (done_ ++ [c]) r
      else norm_comps root (removelast done_) r
  end.
Definition normpath (s : string) : string :=
  str_or (root_of s +:+ str_join "/" (norm_comps (root_of s) [] (str_split "/"%char s))) ".".

(** ** Samba *)

Section SambaPatterns.
Local Open Scope re_scope.
Definition dotdot_ahead : re :=
RNotLook (star (notset [LF]) ++ (RBol || ch 47%N) ++ lit ".." ++ (ch 47%N || REol)).
Definition path_run : re := plus (cls "._@+-").
Definition _SAMBA_INCLUDE_FILE_RE : re :=
dotdot_ahead ++ opt (lit "/etc/samba/") ++ path_run ++ star (ch 47%N ++ path_run) ++ lit ".conf".
Definition _SAMBA_SHARE_NAME_RE : re := cls "_" ++ rep 0 79 (cls "_.@+-").
Definition _SAMBA_SNAPSHOT_ID_RE : re := named "_.:-" 127.
Definition _SAMBA_SHARE_PATH_RE : re := ch 47%N ++ path_run ++ star (ch 47%N ++ path_run).
Definition _SAMBA_PRINCIPAL_RE : re := opt (ch 64%N) ++ cls "_" ++ rep 0 127 (cls "_.@+\-").
Definition _SAMBA_MASK_RE : re := rep 3 4 (RSet (between 48 55)).
Definition _SAMBA_IDENTIFIER_RE : re := cls "_" ++ rep 0 63 (cls "_.@-").
Definition _HEX_SHA256_RE : re := rep 64 64 (RSet (fun c => digit c || between 97 102 c)%bool).
End SambaPatterns.

Definition _SAMBA_CONF_ROOT : posix_path := PurePosixPath "/etc/samba".
Definition _SAMBA_MAX_CONFIG_BODY_LEN : Z := 1024 * 1024.
Definition _SAMBA_SHARE_TEXT_MAX_LEN : Z := 240.
Definition _SAMBA_SERVICE_UNITS : list string := ["smbd"; "nmbd"; "winbind"; "samba-ad-dc"].
Definition _SAMBA_SERVICE_ACTIONS : list string := ["start"; "stop"; "restart"; "reload"].
Definition _SAMBA_MAX_GROUP_MEMBERS : Z := 128.
Definition _SAMBA_COMMAND_DIRECTIVE_SUFFIXES : list string := ["script"; "command"; "action"].
Definition _SAMBA_COMMAND_DIRECTIVE_NAMES : list string :=
  ["preexec"; "postexec"; "rootpreexec"; "rootpostexec"; "preexecclose"; "rootpreexecclose"].

(** [text.splitlines()]. *)
Definition line_break (c : ascii) : bool :=
  existsb (Z.eqb (code c)) [10; 11; 12; 13; 28; 29; 30; 133].
Fixpoint split_lines (current : string) (s : string) : list string :=
  match s with
  | EmptyString => if str_truthy current then [str_rev current] else []
  | String c r =>
      if line_break c then
        str_rev current ::
          match r with
          | String d r' => if (code c =? 13) && (code d =? 10) then split_lines EmptyString r'
                           else split_lines EmptyString r
          | EmptyString => []
          end
      else split_lines (String c current) r
  end.
Definition splitlines (s : string) : list string := split_lines EmptyString s.
Definition str_rstrip (s : string) : string := str_rev (str_lstrip (str_rev s)).
Definition drop_last (s : string) : string := str_take (str_len s - 1) s.

(** The continuation of a physical line: the text it leaves open, if any. *)
Definition continued (physical : string) : option string :=
  let trimmed := str_rstrip physical in
  if str_endswith "\" trimmed then Some (drop_last trimmed) else None.

(** [_iter_samba_logical_lines]: [open] is the joined text and the line it started on. *)
Fixpoint logical_lines (line_number : Z) (open : option (Z * string)) (lines : list string) : list (Z * string) :=
  match lines with
  | [] => match open with Some o => [o] | None => [] end
  | physical :: r =>
      let '(start_line, joined) := default (line_number, EmptyString) open in
      match continued physical with
      | Some part => logical_lines (line_number + 1) (Some (start_line, joined +:+ part)) r
      | None => (start_line, joined +:+ physical) :: logical_lines (line_number + 1) None r
      end
  end.
Definition _iter_samba_logical_lines (content : string) : list (Z * string) :=
  logical_lines 1 None (splitlines content).

(** A logical line is an assignment unless it is blank, a comment or a section. *)
Definition assignment_of (raw_line : string) : option (string * string) :=
  let stripped := str_strip raw_line in
  if negb (str_truthy stripped)
     || str_startswith "#" stripped || str_startswith ";" stripped || str_startswith "[" stripped
     || negb (str_contains "=" raw_line)
  then None
  else
    let raw_name := str_before "="%char raw_line in
    let raw_value := str_after "="%char raw_line in
    if str_truthy (str_strip raw_name) then Some (raw_name, raw_value) else None.
Definition _iter_samba_config_assignments (content : string) : list (Z * string * string) :=
  omap (fun l => '(name, v) ← assignment_of l.2; Some (l.1, name, v)) (_iter_samba_logical_lines content).

Fixpoint str_filter (p : ascii -> bool) (s : string) : string :=
  match s with
  | String c r => if p c then String c (str_filter p r) else str_filter p r
  | EmptyString => EmptyString
  end.
(** ["".join(name.lower().split())]. *)
Definition _normalize_samba_config_param_name (raw_name : string) : string :=
  str_filter (fun c => negb (chr_space c)) (str_lower raw_name).

(** The text before the first marker that stands first or behind a space. *)
Fixpoint uncommented (marker : ascii) (behind_space : bool) (s : string) : string :=
  match s with
  | EmptyString => EmptyString
  | String c r =>
      if Ascii.eqb c marker && behind_space then EmptyString else String c (uncommented marker (chr_space c) r)
  end.
Definition _strip_samba_inline_comment (v : string) (marker : ascii) : string := str_strip (uncommented marker true v).
(** The first and the last character, when there are two. *)
Definition quoted_by (q : ascii) (s : string) : bool :=
  match s with String c (String _ _) => Ascii.eqb c q && str_endswith (String q EmptyString) s | _ => false end.
Definition single_quote : ascii := "039"%char.
Definition _strip_samba_config_value (raw_value : string) : string :=
  let v := _strip_samba_inline_comment (_strip_samba_inline_comment (str_strip raw_value) "#"%char) ";"%char in
  if quoted_by single_quote v || quoted_by quote_char v
  then match v with String _ r => str_strip (drop_last r) | EmptyString => v end
  else v.

Definition _normalize_samba_include_path (raw_path : value) : res string :=
  let v := text_of raw_path in
  _ ← require (str_truthy v && (str_len v <=? 255) && full _SAMBA_INCLUDE_FILE_RE v)
        (invalid_param "include_path must be a .conf file under /etc/samba without traversal or shell metacharacters.");
  let confined_path := join_path _SAMBA_CONF_ROOT (PurePosixPath v) in
  _ ← require (negb (str_in ".." (all_parts confined_path)) && is_relative_to confined_path _SAMBA_CONF_ROOT
               && negb (bool_decide (confined_path = _SAMBA_CONF_ROOT)))
        (invalid_param "include_path must be confined under /etc/samba.");
  Ok (path_str confined_path).

Definition at_line (field_name : string) (line_number : Z) (m : string) : exn :=
  invalid_param (field_name +:+ " line " +:+ str_of_Z line_number +:+ m).
Definition _validate_samba_config_include_directive (raw_value field_name : string) (line_number : Z) : res unit :=
  let include_target := _strip_samba_config_value raw_value in
  _ ← require (negb (String.eqb (str_lower include_target) "registry"))
        (at_line field_name line_number " uses forbidden Samba registry include.");
  match _normalize_samba_include_path (VStr include_target) with
  | Err (RPCExecutionError _ _) =>
      Err (at_line field_name line_number " include target must be confined under /etc/samba.")
  | Err e => Err e
  | Ok _ => Ok tt
  end.

Definition command_directive (name : string) : bool :=
  str_in name _SAMBA_COMMAND_DIRECTIVE_NAMES
  || existsb (fun suffix => str_endswith suffix name) _SAMBA_COMMAND_DIRECTIVE_SUFFIXES.
Definition check_directive (field_name : string) (a : Z * string * string) : res unit :=
  let '(line_number, raw_name, raw_value) := a in
  let name := _normalize_samba_config_param_name raw_name in
  if negb (str_truthy name) then Ok tt
  else if command_directive name
  then Err (at_line field_name line_number
              (" uses forbidden Samba command directive " +:+ repr_str (str_strip raw_name) +:+ "."))
  else if String.eqb name "include" then _validate_samba_config_include_directive raw_value field_name line_number
  else Ok tt.
Fixpoint for_each {A} (f : A -> res unit) (l : list A) : res unit :=
  match l with [] => Ok tt | x :: r => _ ← f x; for_each f r end.
Definition _validate_samba_config_body_directives (content field_name : string) : res unit :=
  for_each (check_directive field_name) (_iter_samba_config_assignments content).

(** What every body of a file has to satisfy: not blank, no NUL, bounded. *)
Definition body_text (raw_content : value) (field_name : string) (bound : Z) : res string :=
  let content := py_str (py_or raw_content (VStr EmptyString)) in
  _ ← require (str_truthy (str_strip content)) (invalid_param (field_name +:+ " must be a non-empty string."));
  _ ← require (negb (str_any (fun c => code c =? 0) content))
        (invalid_param (field_name +:+ " must not contain NUL bytes."));
  _ ← require (str_len content <=? bound)
        (invalid_param (field_name +:+ " may contain at most " +:+ str_of_Z bound +:+ " characters."));
  Ok content.
Definition _normalize_samba_config_body (raw_content : value) (field_name : string) : res string :=
  content ← body_text raw_content field_name _SAMBA_MAX_CONFIG_BODY_LEN;
  _ ← _validate_samba_config_body_directives content field_name;
  Ok content.

(** A text that has to be present and match as a whole. *)
Definition matching (r : re) (raw : value) (message : string) : res string :=
  let v := text_of raw in
  _ ← require (str_truthy v && full r v) (invalid_param message);
  Ok v.
(** A text that may be missing. *)
Definition matching_or_empty (r : re) (raw : value) (message : string) : res string :=
  let v := text_of raw in
  _ ← require (negb (str_truthy v) || full r v) (invalid_param message);
  Ok v.
Definition _normalize_samba_snapshot_id (raw : value) : res string :=
  matching _SAMBA_SNAPSHOT_ID_RE raw "snapshot_id must be a safe backend-issued Samba snapshot identifier.".
Definition _normalize_samba_share_name (raw : value) : res string :=
  matching _SAMBA_SHARE_NAME_RE raw "share_name must be a safe Samba share name without shell metacharacters.".
Definition _normalize_samba_username (raw : value) : res string :=
  matching _SAMBA_IDENTIFIER_RE raw "username must be a safe Samba/AD identifier without shell metacharacters.".
Definition _normalize_samba_group_name (raw : value) : res string :=
  matching _SAMBA_IDENTIFIER_RE raw "group_name must be a safe Samba/AD identifier without shell metacharacters.".
Definition _normalize_samba_optional_principal (raw : value) (field_name : string) : res string :=
  matching_or_empty _SAMBA_PRINCIPAL_RE raw (field_name +:+ " must contain only safe Samba principal characters.").
Definition _normalize_samba_octal_mask (raw : value) (field_name : string) : res string :=
  matching_or_empty _SAMBA_MASK_RE raw (field_name +:+ " must be a three- or four-digit octal mask.").
Definition _normalize_samba_service_unit (raw : value) : res string :=
  let unit_ := text_of raw in
  _ ← require (str_in unit_ _SAMBA_SERVICE_UNITS)
        (invalid_param "unit must be one of: samba-ad-dc, smbd, nmbd, winbind.");
  Ok unit_.
Definition _normalize_samba_service_action (raw : value) : res string :=
  let action := text_of raw in
  _ ← require (str_in action _SAMBA_SERVICE_ACTIONS)
        (invalid_param "action must be one of: start, stop, restart, reload.");
  Ok action.
Definition _normalize_samba_share_text (raw : value) : res string :=
  let text := text_of raw in
  _ ← require ((str_len text <=? _SAMBA_SHARE_TEXT_MAX_LEN) && negb (str_any (fun c => code c <? 32) text))
        (invalid_param ("comment must not contain control characters and may contain at most "
                        +:+ str_of_Z _SAMBA_SHARE_TEXT_MAX_LEN +:+ " characters."));
  Ok text.
Definition _normalize_samba_share_path (raw : value) : res string :=
  let v := text_of raw in
  _ ← require (str_truthy v && (str_len v <=? 255) && full _SAMBA_SHARE_PATH_RE v)
        (invalid_param "path must be an absolute safe POSIX path without traversal or shell metacharacters.");
  let path := PurePosixPath v in
  _ ← require (is_absolute path && negb (str_in ".." (all_parts path)) && negb (bool_decide (path = PurePosixPath "/")))
        (invalid_param "path must be an absolute safe POSIX path below a concrete directory.");
  Ok (path_str path).

(** The loop of the two list normalizers: each entry is read and must be new. *)
Fixpoint unique_texts (read : value -> res string) (field_name : string) (seen : list string) (l : list value)
    : res (list string) :=
  match l with
  | [] => Ok (rev seen)
  | raw :: r =>
      v ← read raw;
      _ ← require (negb (str_in v seen)) (invalid_param (field_name +:+ " entries must be unique."));
      unique_texts read field_name (v :: seen) r
  end.
Definition text_list (read : value -> res string) (raw_values : value) (field_name kind : string) (bound : Z)
    : res (list string) :=
  if blank raw_values then Ok [] else
  match sequence_of raw_values with
  | None => Err (invalid_param (field_name +:+ " must be a list of " +:+ kind))
  | Some l =>
      _ ← require (Z.of_nat (length l) <=? bound)
            (invalid_param (field_name +:+ " may contain at most " +:+ str_of_Z bound +:+ " entries."));
      unique_texts read field_name [] l
  end.
Definition required_principal (field_name : string) (raw : value) : res string :=
  v ← _normalize_samba_optional_principal raw field_name;
  _ ← require (str_truthy v) (invalid_param (field_name +:+ " entries must be non-empty."));
  Ok v.
Definition _normalize_samba_principal_list (raw_values : value) (field_name : string) : res (list string) :=
  text_list (required_principal field_name) raw_values field_name "safe Samba principals." 64.
Definition _normalize_samba_member_list (raw_values : value) (field_name : string) : res (list string) :=
  text_list _normalize_samba_username raw_values field_name "safe Samba/AD identifiers." _SAMBA_MAX_GROUP_MEMBERS.

Definition _extract_samba_password_fingerprint (params : dict) : res (string * Z) :=
  let password_sha256 := str_lower (text_of (get "password_sha256" params)) in
  _ ← require (str_truthy password_sha256 && full _HEX_SHA256_RE password_sha256)
        (invalid_param "password_sha256 must be a 64-character lowercase hex sha256 digest computed by the server; a raw password was never expected here.");
  password_bytes ← (match get "password_bytes" params with
                    | VInt n => Ok n
                    | _ => Err (invalid_param "password_bytes must be an integer byte count computed by the server.")
                    end);
  _ ← require ((1 <=? password_bytes) && (password_bytes <=? 4096))
        (invalid_param "password_bytes must be between 1 and 4096.");
  Ok (password_sha256, password_bytes).

(** [f p] when the procedure is one of [names]. *)
Definition step_for (name : string) (names : list string) (f : payload -> res payload) (p : payload) : res payload :=
  if str_in name names then f p else Ok p.
(** A text, in both dictionaries when it is not empty. *)
Definition both_text (k v : string) (p : payload) : payload := both_if (str_truthy v) k (VStr v) p.
Definition texts_value (l : list string) : value := VList (map VStr l).

Section Services.
Context `{PyLib}.

(** A file body: the text, and beside it its digest and its size. *)
Definition put_content (k content : string) (p : payload) : payload :=
mark (k +:+ "_bytes") (VInt (utf8_length content)) (mark (k +:+ "_sha256") (_hash_text content) (put k (VStr content) p)).

Definition samba_flag (params : dict) (key : string) (standard : bool) (p : payload) : res payload :=
v ← _bool_param params key standard; Ok (both key (VBool v) p).
Definition samba_principals (params : dict) (key : string) (p : payload) : res payload :=
values ← _normalize_samba_principal_list (get key params) key;
Ok (both_if (negb (bool_decide (values = []))) key (texts_value values) p).
Definition samba_mask (params : dict) (key : string) (p : payload) : res payload :=
v ← _normalize_samba_octal_mask (get key params) key; Ok (both_text key v p).
Definition _copy_samba_share_upsert_params (params : dict) (p : payload) : res payload :=
share_path ← _normalize_samba_share_path (get "path" params);
let p := both "path" (VStr share_path) p in
comment ← _normalize_samba_share_text (get "comment" params);
let p := if str_truthy comment then mark "comment_sha256" (_hash_text comment) (put "comment" (VStr comment) p) else p in
p ← samba_flag params "read_only" true p;
p ← samba_flag params "browseable" true p;
p ← samba_flag params "guest_ok" false p;
p ← samba_principals params "valid_users" p;
p ← samba_principals params "write_list" p;
p ← samba_mask params "create_mask" p;
p ← samba_mask params "directory_mask" p;
force_group ← _normalize_samba_optional_principal (get "force_group" params) "force_group";
Ok (both_text "force_group" force_group p).

(** The payload every service family starts from. *)
Definition service_payload (i : norm_input) : payload :=
{| body := ["target" :- VStr (ni_target i)];
   fingerprint := ["handler_id" :- VStr (ni_handler_id i); "procedure" :- VStr (ni_procedure i)] |}.

Definition _normalize_samba_1_execution (i : norm_input) : res payload :=
params ← params_of i;
let on := step_for (ni_procedure i) in
let p := service_payload i in
p ← on ["service.samba.1.config_deploy"] (fun p =>
      content ← _normalize_samba_config_body (get "config_content" params) "config_content";
      Ok (put_content "config_content" content p)) p;
p ← on ["service.samba.1.config_rollback"] (fun p =>
      snapshot_id ← _normalize_samba_snapshot_id (get "snapshot_id" params);
      Ok (both "snapshot_id" (VStr snapshot_id) p)) p;
p ← on ["service.samba.1.include_file_read"; "service.samba.1.include_file_write"; "service.samba.1.include_file_delete"] (fun p =>
      include_path ← _normalize_samba_include_path (get "include_path" params);
      Ok (both "include_path" (VStr include_path) p)) p;
p ← on ["service.samba.1.include_file_write"] (fun p =>
      content ← _normalize_samba_config_body (get "content" params) "content";
      Ok (put_content "content" content p)) p;
p ← on ["service.samba.1.share_acl_read"; "service.samba.1.share_upsert"; "service.samba.1.share_delete"] (fun p =>
      share_name ← _normalize_samba_share_name (get "share_name" params);
      Ok (both "share_name" (VStr share_name) p)) p;
p ← on ["service.samba.1.share_upsert"] (_copy_samba_share_upsert_params params) p;
p ← on ["service.samba.1.service_control"] (fun p =>
      unit_ ← _normalize_samba_service_unit (get "unit" params);
      action ← _normalize_samba_service_action (get "action" params);
      Ok (both "systemd_unit" (VStr (unit_ +:+ ".service")) (both "action" (VStr action) (both "unit" (VStr unit_) p)))) p;
p ← on ["service.samba.1.user_create"; "service.samba.1.user_delete"; "service.samba.1.user_set_password";
        "service.samba.1.user_enable"; "service.samba.1.user_disable"] (fun p =>
      username ← _normalize_samba_username (get "username" params);
      Ok (both "username" (VStr username) p)) p;
p ← on ["service.samba.1.user_create"; "service.samba.1.user_set_password"] (fun p =>
      '(password_sha256, password_bytes) ← _extract_samba_password_fingerprint params;
      Ok (both "password_bytes" (VInt password_bytes) (both "password_sha256" (VStr password_sha256) p))) p;
p ← on ["service.samba.1.user_create"] (fun p =>
      full_name ← _normalize_samba_share_text (get "full_name" params);
      let p := if str_truthy full_name
               then mark "full_name_sha256" (_hash_text full_name) (put "full_name" (VStr full_name) p) else p in
      samba_flag params "disabled" false p) p;
p ← on ["service.samba.1.group_create"; "service.samba.1.group_delete"] (fun p =>
      group_name ← _normalize_samba_group_name (get "group_name" params);
      Ok (both "group_name" (VStr group_name) p)) p;
p ← on ["service.samba.1.group_add_members"; "service.samba.1.group_remove_members"] (fun p =>
      group_name ← _normalize_samba_group_name (get "group_name" params);
      members ← _normalize_samba_member_list (get "members" params) "members";
      _ ← require (negb (bool_decide (members = [])))
            (invalid_param "members must contain at least one safe Samba/AD identifier.");
      Ok (both "members" (texts_value members)
            (put "members_csv" (VStr (str_join "," members)) (both "group_name" (VStr group_name) p)))) p;
_copy_optional_ssh_overrides params p.
End Services.
