(* ===== verification/NormalizeStores.v ===== *)
(** * Normalization: InfluxDB, OpenBao and Passbolt

    The normalizers of [netbox_rpc/domain/normalization.py] for the InfluxDB family, the
    Debian 13 installer of InfluxDB 3, the closed OpenBao catalog and the Passbolt
    migration. *)

From S2P Require Import Prelude PyValue CredentialContract Spans PyRegex SecretPatterns.
From S2P Require Import Protected Contracts Backends CredentialAuthority Targets Akvorado Admission.
From S2P Require Import Normalize NormalizeServices.
Import JsonNotations.

Local Open Scope Z_scope.

(** ** InfluxDB *)

Section InfluxPatterns.
Local Open Scope re_scope.
Definition path_part : re := cls EmptyString ++ star (cls "._@+-").
Definition _INFLUXDB_RELATIVE_PATH_RE : re :=
dotdot_ahead ++ path_part ++ rep 0 7 (ch 47%N ++ path_part) ++ ch 46%N
++ (lit "conf" || lit "toml" || lit "json" || lit "yaml" || lit "yml" || lit "py" || lit "txt" || lit "crt" || lit "pem").
Definition _INFLUXDB_SNAPSHOT_ID_RE : re := rep 8 8 digits_re ++ lit "T" ++ rep 12 12 digits_re ++ lit "Z".
Definition _INFLUXDB_FORBIDDEN_PATH_PART_RE : re :=
lit_i "secret" || lit_i "token" || lit_i "password" || lit_i "private".
Definition _INFLUXDB_SECRET_ASSIGNMENT_RE : re :=
(RBol || (RSet (chars ",{") ++ star space) || (ch 45%N ++ plus space))
++ quote ++ key_run true ++ secret_word true ++ key_run true ++ quote
++ star space ++ RSet (chars ":=") ++ star space
++ quote ++ RNotLook (ch 47%N) ++ plus (RSet (fun c => negb (is_space c || oneof [DQ; SQ] c))).
Definition _INFLUXDB_PRIVATE_KEY_RE : re := _AKVORADO_PRIVATE_KEY_RE.
Definition _INFLUXDB_AUTHORIZATION_RE : re :=
RWordB ++ (lit_i "authorization" || lit_i "bearer") ++ star space ++ RSet (chars ":=") ++ star space
++ quote ++ plus (RSet (fun c => negb (is_space c || oneof [DQ; SQ] c))).
Definition _INFLUXDB_URL_CREDENTIAL_RE : re := _AKVORADO_URL_CREDENTIAL_RE.
Definition _INFLUXDB_RESOURCE_NAME_RE : re := named ".-" 127.
Definition _INFLUXDB_USERNAME_RE : re := named "._@-" 63.
Definition _INFLUXDB_SECRET_NAME_RE : re := named "._ -" 159.
Definition _INFLUXDB_SECRET_REF_RE : re :=
lit "nms-secret:" ++ rep 8 8 hex ++ ch 45%N ++ rep 4 4 hex ++ ch 45%N ++ RSet (between 49 53) ++ rep 3 3 hex
++ ch 45%N ++ RSet (chars "89abAB") ++ rep 3 3 hex ++ ch 45%N ++ rep 12 12 hex.

Definition segment_run : re := plus (cls "._-").
Definition _INFLUXDB3_ABSOLUTE_PATH_RE : re := ch 47%N ++ segment_run ++ star (ch 47%N ++ segment_run).
Definition _INFLUXDB3_NODE_ID_RE : re := plus (cls EmptyString) ++ opt (star (cls "-") ++ cls EmptyString).
Definition bind_host_re : re := cls EmptyString ++ rep 0 252 (cls ".-").
Definition bind_port_re : re := rep 1 5 digits_re.
Definition _INFLUXDB3_BIND_RE : re := bind_host_re ++ ch 58%N ++ bind_port_re.
Definition _INFLUXDB3_WAL_FLUSH_INTERVAL_RE : re := rep 1 9 digits_re ++ (lit "ms" || lit "s").
Definition _INFLUXDB3_LOG_FILTER_RE : re := rep 1 128 (cls "_=,.-").
Definition _INFLUXDB3_PACKAGE_VERSION_RE : re := rep 1 64 (cls ".+:~_-").

Definition _OPENBAO_NAME_RE : re := named "_.-" 127.
Definition _OPENBAO_MOUNT_PATH_RE : re := named "_.-" 63 ++ star (ch 47%N ++ named "_.-" 63) ++ opt (ch 47%N).
Definition lower_digit (extra : string) (c : char) : bool := between 97 122 c || digit c || chars extra c.
Definition _OPENBAO_APPROLE_SEGMENT_RE : re := RSet (lower_digit EmptyString) ++ rep 0 62 (RSet (lower_digit "_-")).
Definition _OPENBAO_ENGINE_SLUG_RE : re := RSet (lower_digit EmptyString) ++ rep 0 62 (RSet (lower_digit "-")).

Definition _PASSBOLT_SAFE_NAME_RE : re := named "_.-" 127.
Definition _PASSBOLT_DB_NAME_RE : re := rep 1 64 (cls "_").
Definition _PASSBOLT_ENV_NAME_RE : re :=
RSet (fun c => ascii_letter c || chars "_" c)%bool ++ rep 0 63 (cls "_").
Definition _PASSBOLT_PATH_SAFE_CHARS_RE : re := ch 47%N ++ rep 1 254 (cls "._/-").
Definition _PASSBOLT_HOST_RE : re := labels.
Definition _PASSBOLT_POSIX_USER_RE : re := _POSIX_USERNAME_RE.
End InfluxPatterns.

Definition _INFLUXDB_FAMILIES : list string := ["oss2"; "core3"].
Definition _INFLUXDB_FILE_SCOPES : list string := ["managed"; "plugins"].
Definition _INFLUXDB_SERVICE_ACTIONS : list string := ["start"; "stop"; "restart"; "enable"; "disable"].
Definition _INFLUXDB_MAX_CONTENT_LEN : Z := 1024 * 1024.

Definition _normalize_influxdb_named_value (raw : value) (field_name : string) (pattern : re) : res string :=
  let v := text_of raw in
  _ ← require (full pattern v) (invalid_param (field_name +:+ " has an invalid or unsupported value."));
  Ok v.
(** A named value, copied into both dictionaries. *)
Definition copy_named (params : dict) (key : string) (pattern : re) (p : payload) : res payload :=
  v ← _normalize_influxdb_named_value (get key params) key pattern; Ok (both key (VStr v) p).
Definition _copy_influxdb_admin_ref (params : dict) (p : payload) : res payload :=
  let secret_ref := text_of (get "admin_secret_ref" params) in
  _ ← require (full _INFLUXDB_SECRET_REF_RE secret_ref)
        (invalid_param "admin_secret_ref must be an nms-secret UUID reference.");
  Ok (both "admin_secret_ref" (VStr secret_ref) p).
Definition copy_int (params : dict) (key : string) (minimum : Z) (maximum : option Z) (p : payload) : res payload :=
  v ← _optional_int_range params key minimum maximum; Ok (both_opt key v p).
Definition _copy_influxdb_tenant_id (params : dict) (p : payload) : res payload := copy_int params "tenant_id" 1 None p.
Definition _copy_influxdb_retention (params : dict) (p : payload) : res payload :=
  copy_int params "retention_seconds" 3600 (Some 315360000) p.

Definition _normalize_influxdb_relative_path (raw_path : value) : res string :=
  let path := text_of raw_path in
  _ ← require (full _INFLUXDB_RELATIVE_PATH_RE path)
        (invalid_param "relative_path must be a confined supported InfluxDB file path.");
  let pure := PurePosixPath path in
  _ ← require (negb (is_absolute pure) && forallb (fun c => negb (str_in c [EmptyString; "."; ".."])) (all_parts pure))
        (invalid_param "relative_path must stay beneath its selected InfluxDB scope.");
  _ ← require (forallb (fun c => negb (found _INFLUXDB_FORBIDDEN_PATH_PART_RE (codes c))) (all_parts pure))
        (invalid_param "relative_path must not identify secret, token, password, private, or env files.");
  Ok (path_str pure).
Definition _normalize_influxdb_content (raw_content : value) (field_name : string) : res string :=
  content ← body_text raw_content field_name _INFLUXDB_MAX_CONTENT_LEN;
  _ ← require (forallb (fun r => negb (found r (codes content)))
                 [_INFLUXDB_PRIVATE_KEY_RE; _INFLUXDB_SECRET_ASSIGNMENT_RE; _INFLUXDB_AUTHORIZATION_RE;
                  _INFLUXDB_URL_CREDENTIAL_RE])
        (RPCExecutionError "RPC_PARAM_SECRET_FORBIDDEN"
           (field_name +:+ " contains secret-shaped material; use netbox-nms secret references instead."));
  Ok content.

(** One of a closed set of words, in lower case. *)
Definition choice (params : dict) (key : string) (words : list string) (message : string) : res string :=
  let v := str_lower (text_of (get key params)) in
  _ ← require (str_in v words) (invalid_param message);
  Ok v.
Definition none_given (params : dict) (names : list string) (message : string) : res unit :=
  require (forallb (fun k => blank (get k params)) names) (invalid_param message).

Section Influx.
Context `{PyLib}.

Definition influx_bootstrap (params : dict) (family : string) (p : payload) : res payload :=
p ← copy_named params "secret_name_prefix" _INFLUXDB_SECRET_NAME_RE p;
p ← _copy_influxdb_tenant_id params p;
if String.eqb family "oss2" then
  p ← copy_named params "username" _INFLUXDB_USERNAME_RE p;
  p ← copy_named params "organization" _INFLUXDB_RESOURCE_NAME_RE p;
  p ← copy_named params "database" _INFLUXDB_RESOURCE_NAME_RE p;
  _copy_influxdb_retention params p
else
  _ ← none_given params ["username"; "organization"; "database"; "retention_seconds"]
        "Core 3 bootstrap accepts only family, secret_name_prefix, and optional tenant_id.";
  Ok p.

Definition influx_database_create (params : dict) (family : string) (p : payload) : res payload :=
p ← _copy_influxdb_admin_ref params p;
p ← copy_named params "database" _INFLUXDB_RESOURCE_NAME_RE p;
p ← _copy_influxdb_retention params p;
if String.eqb family "oss2" then copy_named params "organization" _INFLUXDB_RESOURCE_NAME_RE p
else
  _ ← none_given params ["organization"] "organization is supported only for family='oss2'.";
  Ok p.

Definition influx_token_create (params : dict) (family : string) (p : payload) : res payload :=
p ← _copy_influxdb_admin_ref params p;
token_name ← _normalize_influxdb_named_value (get "token_name" params) "token_name" _INFLUXDB_SECRET_NAME_RE;
let access := str_lower (text_of (get "access" params)) in
_ ← require (negb (String.eqb family "oss2") || str_in access ["query"; "writer"])
      (invalid_param "OSS 2 token access must be 'query' or 'writer'.");
_ ← require (negb (String.eqb family "core3") || String.eqb access "admin")
      (invalid_param "Core 3 currently supports only named admin tokens.");
let p := both "access" (VStr access) (both "token_name" (VStr token_name) p) in
p ← _copy_influxdb_tenant_id params p;
if String.eqb family "oss2" then
  p ← copy_named params "organization" _INFLUXDB_RESOURCE_NAME_RE p;
  p ← copy_named params "database" _INFLUXDB_RESOURCE_NAME_RE p;
  _ ← require (bool_decide (get "expiry_seconds" params = VNone))
        (invalid_param "expiry_seconds is supported only for Core 3 named admin tokens.");
  Ok p
else
  _ ← none_given params ["organization"; "database"]
        "Core 3 named admin tokens are server-wide and do not accept organization/database.";
  copy_int params "expiry_seconds" 3600 (Some 315360000) p.

(** [family] is what [normalized["family"]] holds; the inspection has none. *)
Definition _normalize_influxdb_1_execution (i : norm_input) : res payload :=
params ← params_of i;
let name := ni_procedure i in
let on := step_for name in
let p := service_payload i in
family ← (if String.eqb name "service.influxdb.1.inspect" then Ok EmptyString
          else choice params "family" _INFLUXDB_FAMILIES "family must be 'oss2' or 'core3'.");
let p := both_text "family" family p in
p ← on ["service.influxdb.1.file_read"; "service.influxdb.1.file_write"; "service.influxdb.1.file_delete"] (fun p =>
      scope ← choice params "scope" _INFLUXDB_FILE_SCOPES "scope must be 'managed' or 'plugins'.";
      _ ← require (negb (String.eqb scope "plugins" && negb (String.eqb family "core3")))
            (invalid_param "scope='plugins' is supported only for family='core3'.");
      relative_path ← _normalize_influxdb_relative_path (get "relative_path" params);
      Ok (both "relative_path" (VStr relative_path) (both "scope" (VStr scope) p))) p;
p ← on ["service.influxdb.1.config_deploy"; "service.influxdb.1.file_write"] (fun p =>
      let field_name := if String.eqb name "service.influxdb.1.config_deploy" then "config_content" else "content" in
      content ← _normalize_influxdb_content (get field_name params) field_name;
      Ok (put_content field_name content p)) p;
p ← on ["service.influxdb.1.file_write"] (fun p =>
      let mode := text_or "0640" (get "mode" params) in
      _ ← require (str_in mode ["0640"; "0644"]) (invalid_param "mode must be '0640' or '0644'.");
      Ok (both "mode" (VStr mode) p)) p;
p ← on ["service.influxdb.1.config_rollback"] (fun p =>
      let snapshot_id := text_of (get "snapshot_id" params) in
      _ ← require (full _INFLUXDB_SNAPSHOT_ID_RE snapshot_id)
            (invalid_param "snapshot_id must be a backend-issued UTC snapshot identifier.");
      Ok (both "snapshot_id" (VStr snapshot_id) p)) p;
p ← on ["service.influxdb.1.journal"] (fun p =>
      lines ← _optional_int_range params "lines" 1 (Some 500);
      Ok (both "lines" (VInt (default 100 lines)) p)) p;
p ← on ["service.influxdb.1.service_control"] (fun p =>
      action ← choice params "action" _INFLUXDB_SERVICE_ACTIONS "action must be start, stop, restart, enable, or disable.";
      Ok (both "action" (VStr action) p)) p;
p ← on ["service.influxdb.1.bootstrap"] (influx_bootstrap params family) p;
p ← on ["service.influxdb.1.database_create"] (influx_database_create params family) p;
p ← on ["service.influxdb.1.token_create"] (influx_token_create params family) p;
_copy_optional_ssh_overrides params p.
End Influx.

(** ** InfluxDB 3 on Debian 13 *)

Definition _INFLUXDB3_FORBIDDEN_DATA_DIR_ROOTS : list string := ["/home"; "/root"; "/run"; "/tmp"; "/var/tmp"].
Definition _INFLUXDB3_LOOPBACK_BIND_HOSTS : list string := ["127.0.0.1"; "localhost"].
Definition _INFLUXDB3_TARGET_MODEL_LABELS : list string := ["dcim.device"; "virtualization.virtualmachine"].
Definition _INFLUXDB3_BOOLEAN_PARAM_DEFAULTS : list (string * bool) :=
  [("enable_plugins", false); ("disable_telemetry", true); ("hold_package", true); ("upgrade_package", false);
   ("force_reconfigure", false); ("allow_plaintext_remote", false)].
Definition _INFLUXDB3_INSTALL_STRING_PARAMS : list string :=
  ["node_id"; "data_dir"; "http_bind"; "tls_cert"; "tls_key"; "wal_flush_interval"; "log_filter"; "package_version"].
Definition _INFLUXDB3_FORBIDDEN_SSH_OVERRIDE_PARAMS : list string :=
  ["rpc_ssh_credential_pk"; "rpc_ssh_host"; "rpc_ssh_port"; "rpc_ssh_known_hosts_entry";
   "rpc_ssh_strict_host_key_checking"].
Definition _INFLUXDB3_INTERNAL_PARAM_KEYS : list string := ["_intent"; "_intent_name"; "_timeout_seconds_snapshot"].
Definition INFLUXDB3_DEBIAN13_PREFLIGHT : string := "os.linux.debian.13.preflight_influxdb3_core".
Definition INFLUXDB3_DEBIAN13_INSTALL : string := "os.linux.debian.13.install_influxdb3_core".

Definition _influxdb3_absolute_path (raw_value : value) (field_name : string) : res string :=
  let v := text_of raw_value in
  _ ← require (full _INFLUXDB3_ABSOLUTE_PATH_RE v)
        (invalid_param (field_name +:+ " must be a safe absolute path without whitespace."));
  _ ← require (str_len v <=? 255) (invalid_param (field_name +:+ " may contain at most 255 characters."));
  _ ← require (forallb (fun c => negb (str_in c [EmptyString; "."; ".."])) (drop 1 (str_split "/"%char v)))
        (invalid_param (field_name +:+ " must be canonical: '.' and '..' segments are rejected."));
  _ ← require (String.eqb (normpath v) v)
        (invalid_param (field_name +:+ " must already be a canonical absolute path."));
  Ok v.
Definition _influxdb3_pattern_param := _normalize_influxdb_named_value.

(** [f p] when the parameter is given. *)
Definition given (params : dict) (key : string) (f : payload -> res payload) (p : payload) : res payload :=
  if blank (get key params) then Ok p else f p.
Definition gate_open (f : code_gates) (name : string) : res unit :=
  match code_gate_unavailable_reason f name with
  | Some reason => Err (RPCExecutionError "RPC_PROCEDURE_NOT_AVAILABLE" reason)
  | None => Ok tt
  end.

Definition influxdb3_tls (params : dict) (p : payload) : res (payload * bool) :=
  let tls_cert_present := negb (blank (get "tls_cert" params)) in
  let tls_key_present := negb (blank (get "tls_key" params)) in
  _ ← require (Bool.eqb tls_cert_present tls_key_present)
        (invalid_param "tls_cert and tls_key must be supplied together, or neither.");
  let tls_enabled := tls_cert_present && tls_key_present in
  p ← (if tls_enabled then
         cert ← _influxdb3_absolute_path (get "tls_cert" params) "tls_cert";
         key ← _influxdb3_absolute_path (get "tls_key" params) "tls_key";
         Ok (both "tls_key" (VStr key) (both "tls_cert" (VStr cert) p))
       else Ok p);
  Ok (both "tls_enabled" (VBool tls_enabled) p, tls_enabled).

Fixpoint copy_flags (params : dict) (flags : list (string * bool)) (p : payload) : res payload :=
  match flags with
  | [] => Ok p
  | (key, standard) :: r => v ← _bool_param params key standard; copy_flags params r (both key (VBool v) p)
  end.
Definition data_dir_allowed (data_dir : string) : bool :=
  forallb (fun root => negb (String.eqb data_dir root || str_startswith (root +:+ "/") data_dir))
    _INFLUXDB3_FORBIDDEN_DATA_DIR_ROOTS.

(** The groups of the bind pattern: what precedes and what follows the one colon. *)
Definition influxdb3_bind (params : dict) (p : payload) : res (payload * string) :=
  if blank (get "http_bind" params) then Ok (p, "127.0.0.1") else
  let http_bind := text_of (get "http_bind" params) in
  _ ← require (full _INFLUXDB3_BIND_RE http_bind)
        (invalid_param "http_bind must use hostname-or-IPv4:port syntax, for example 127.0.0.1:8181.");
  let bind_host := str_before ":"%char http_bind in
  let bind_port := decimal (str_after ":"%char http_bind) in
  _ ← require ((1 <=? bind_port) && (bind_port <=? 65535))
        (out_of_range "http_bind port must be between 1 and 65535.");
  Ok (both "http_bind" (VStr (bind_host +:+ ":" +:+ str_of_Z bind_port)) p, bind_host).

Definition influxdb3_install (params : dict) (tls_enabled : bool) (p : payload) : res payload :=
  p ← copy_flags params _INFLUXDB3_BOOLEAN_PARAM_DEFAULTS p;
  p ← given params "node_id" (fun p =>
        node_id ← _influxdb3_pattern_param (get "node_id" params) "node_id" _INFLUXDB3_NODE_ID_RE;
        _ ← require (str_len node_id <=? 128) (invalid_param "node_id may contain at most 128 characters.");
        Ok (both "node_id" (VStr node_id) p)) p;
  p ← given params "data_dir" (fun p =>
        data_dir ← _influxdb3_absolute_path (get "data_dir" params) "data_dir";
        _ ← require (data_dir_allowed data_dir)
              (invalid_param "data_dir must not be under /home, /root, /run, /tmp, or /var/tmp: the packaged systemd unit sandboxes those trees.");
        Ok (both "data_dir" (VStr data_dir) p)) p;
  p ← given params "wal_flush_interval" (copy_named params "wal_flush_interval" _INFLUXDB3_WAL_FLUSH_INTERVAL_RE) p;
  p ← given params "log_filter" (copy_named params "log_filter" _INFLUXDB3_LOG_FILTER_RE) p;
  p ← given params "package_version" (copy_named params "package_version" _INFLUXDB3_PACKAGE_VERSION_RE) p;
  '(p, bind_host) ← influxdb3_bind params p;
  let remote_bind := negb (str_in bind_host _INFLUXDB3_LOOPBACK_BIND_HOSTS) in
  _ ← require (negb (remote_bind && negb tls_enabled && negb (bool_decide (get "allow_plaintext_remote" (body p) = VBool true))))
        (invalid_param "Refusing to expose token authentication over plaintext HTTP: supply tls_cert and tls_key, keep http_bind on loopback behind a TLS reverse proxy, or set allow_plaintext_remote=true for a trusted, firewalled network.");
  Ok (both "remote_bind" (VBool remote_bind) p).

Definition _normalize_influxdb3_debian13_execution (f : code_gates) (i : norm_input) : res payload :=
  let name := ni_procedure i in
  params ← params_of i;
  _ ← gate_open f name;
  _ ← require (str_in (ni_target_model i) _INFLUXDB3_TARGET_MODEL_LABELS)
        (invalid_target "Debian 13 InfluxDB 3 Core procedures require a dcim.device or virtualization.virtualmachine target.");
  let content_type := ni_app_label i +:+ "." +:+ ni_model i in
  _ ← require (String.eqb content_type (ni_target_model i) && str_in content_type _INFLUXDB3_TARGET_MODEL_LABELS
               && positive_id (ni_object_id i))
        (invalid_target "Debian 13 InfluxDB 3 Core procedures require an existing assigned dcim.device or virtualization.virtualmachine.");
  let p := {| body := ["target" :- VStr (ni_target i);
                       "target_object" :- VDict ["content_type" :- VStr content_type; "object_id" :- ni_object_id i]];
              fingerprint := ["handler_id" :- VStr (ni_handler_id i); "procedure" :- VStr name;
                              "target_content_type" :- VStr content_type; "target_object_id" :- ni_object_id i] |} in
  let supplied_overrides := common_keys params _INFLUXDB3_FORBIDDEN_SSH_OVERRIDE_PARAMS in
  _ ← require_none supplied_overrides
        (invalid_param ("Caller-supplied SSH overrides are not accepted for " +:+ name +:+ ": "
           +:+ str_join ", " supplied_overrides +:+ ". The execution backend resolves host, port, credential, and known-host policy from the execution's assigned NetBox object."));
  allowed ← (if String.eqb name INFLUXDB3_DEBIAN13_PREFLIGHT then Ok ["tls_cert"; "tls_key"]
             else if String.eqb name INFLUXDB3_DEBIAN13_INSTALL
             then Ok (_INFLUXDB3_INSTALL_STRING_PARAMS ++ _INFLUXDB3_BOOLEAN_PARAM_DEFAULTS.*1)
             else Err (not_normalizable name));
  let unexpected := foreign_keys params (allowed ++ _INFLUXDB3_INTERNAL_PARAM_KEYS) in
  _ ← require_none unexpected
        (invalid_param ("Unsupported parameters for " +:+ name +:+ ": " +:+ str_join ", " unexpected +:+ "."));
  '(p, tls_enabled) ← influxdb3_tls params p;
  if String.eqb name INFLUXDB3_DEBIAN13_PREFLIGHT then Ok p else influxdb3_install params tls_enabled p.

(** ** OpenBao *)

Definition _OPENBAO_TARGET_MODEL_LABELS : list string := ["dcim.device"].
Definition _OPENBAO_FORBIDDEN_SSH_OVERRIDE_PARAMS : list string := _INFLUXDB3_FORBIDDEN_SSH_OVERRIDE_PARAMS.
Definition _OPENBAO_INTERNAL_PARAM_KEYS : list string := ["_intent"; "_intent_name"; "_timeout_seconds_snapshot"].
Definition _OPENBAO_AUTH_TYPES : list string := ["approle"; "cert"; "jwt"; "kubernetes"; "ldap"; "oidc"; "userpass"].
Definition _OPENBAO_ENGINE_TYPES : list string := ["database"; "kv"; "pki"; "ssh"; "transit"; "totp"].
Definition _OPENBAO_AUDIT_TYPES : list string := ["file"; "syslog"].
Definition _OPENBAO_SERVICE_ACTIONS : list string := ["start"; "stop"; "restart"; "reload"; "enable"; "disable"].

Definition openbao_operation (name : string) : string :=
  if str_startswith "service.openbao.1." name then String.substring 18 (String.length name - 18) name else name.
Definition allowed_by_operation (operation : string) : option (list string) :=
  if str_in operation
       ["inspect"; "seal_status"; "health"; "policies_list"; "auth_list"; "secrets_list"; "audit_list";
        "raft_list_peers"; "raft_autopilot_state"; "snapshots_list"; "seal"; "step_down"] then Some []
  else match operation with
       | "auth_enable" => Some ["auth_type"; "mount_path"]
       | "secrets_enable" => Some ["engine_type"; "mount_path"; "kv_version"]
       | "audit_enable" => Some ["audit_type"; "mount_path"]
       | "snapshot_create" => Some ["snapshot_name"]
       | "service_action" => Some ["action"]
       | "raft_remove_peer" => Some ["peer_id"]
       | "policy_delete" => Some ["policy_name"]
       | "auth_disable" | "secrets_disable" | "audit_disable" => Some ["mount_path"]
       | "provision_netbox_approle" =>
           Some ["mount"; "role_name"; "engine_slug"; "path_prefix"; "ttl_seconds"; "restart_netbox"]
       | _ => None
       end.

Definition required_string (params : dict) (key : string) (pattern : re) : res string :=
  let refusal := Err (invalid_param (key +:+ " has an invalid or unsupported value.")) in
  match get key params with
  | VStr v => if full pattern v then Ok v else refusal
  | _ => refusal
  end.
Definition copy_required (params : dict) (key : string) (pattern : re) (p : payload) : res payload :=
  v ← required_string params key pattern; Ok (both key (VStr v) p).
(** The same, with the trailing slashes of a mount path removed. *)
Definition copy_mount (params : dict) (key : string) (p : payload) : res payload :=
  v ← required_string params key _OPENBAO_MOUNT_PATH_RE; Ok (both key (VStr (rstrip_char "/"%char v)) p).
Definition copy_word (params : dict) (key : string) (words : list string) (message : string) (p : payload) : res payload :=
  match get key params with
  | VStr v => if str_in v words then Ok (both key (VStr v) p) else Err (invalid_param message)
  | _ => Err (invalid_param message)
  end.
(** [f p] unless the parameter is missing or [None]. *)
Definition unless_none (params : dict) (key : string) (f : payload -> res payload) (p : payload) : res payload :=
  match get key params with VNone => Ok p | _ => f p end.
Definition copy_int_if (params : dict) (key : string) (accepted : Z -> bool) (message : string) (p : payload)
  : res payload :=
  match get key params with
  | VInt n => if accepted n then Ok (both key (VInt n) p) else Err (invalid_param message)
  | _ => Err (invalid_param message)
  end.

Definition provision_approle (params : dict) (p : payload) : res payload :=
  p ← copy_mount params "mount" p;
  p ← copy_required params "role_name" _OPENBAO_APPROLE_SEGMENT_RE p;
  p ← copy_required params "engine_slug" _OPENBAO_ENGINE_SLUG_RE p;
  p ← unless_none params "path_prefix" (copy_required params "path_prefix" _OPENBAO_APPROLE_SEGMENT_RE) p;
  p ← unless_none params "ttl_seconds"
        (copy_int_if params "ttl_seconds" (fun n => (0 <=? n) && (n <=? 31536000))
           "ttl_seconds has an invalid or unsupported value.") p;
  unless_none params "restart_netbox" (fun p =>
    match get "restart_netbox" params with
    | VBool b => Ok (both "restart_netbox" (VBool b) p)
    | _ => Err (invalid_param "restart_netbox must be a boolean.")
    end) p.

Definition openbao_fields (params : dict) (operation : string) (p : payload) : res payload :=
  let on := step_for operation in
  p ← on ["policy_delete"] (copy_required params "policy_name" _OPENBAO_NAME_RE) p;
  p ← on ["auth_enable"]
        (copy_word params "auth_type" _OPENBAO_AUTH_TYPES "auth_type is not a supported OpenBao authentication method.") p;
  p ← on ["secrets_enable"] (fun p =>
        p ← copy_word params "engine_type" _OPENBAO_ENGINE_TYPES
              "engine_type is not a supported OpenBao secrets engine." p;
        unless_none params "kv_version"
          (copy_int_if params "kv_version"
             (fun n => ((n =? 1) || (n =? 2)) && bool_decide (get "engine_type" params = VStr "kv"))
             "kv_version must be 1 or 2 and is supported only for kv.") p) p;
  p ← on ["audit_enable"] (copy_word params "audit_type" _OPENBAO_AUDIT_TYPES "audit_type must be file or syslog.") p;
  p ← on ["auth_enable"; "secrets_enable"; "audit_enable"] (unless_none params "mount_path" (copy_mount params "mount_path")) p;
  p ← on ["auth_disable"; "secrets_disable"; "audit_disable"] (copy_mount params "mount_path") p;
  p ← on ["snapshot_create"] (unless_none params "snapshot_name" (copy_required params "snapshot_name" _OPENBAO_NAME_RE)) p;
  p ← on ["service_action"]
        (copy_word params "action" _OPENBAO_SERVICE_ACTIONS "action is not a supported OpenBao service action.") p;
  p ← on ["raft_remove_peer"] (copy_required params "peer_id" _OPENBAO_NAME_RE) p;
  on ["provision_netbox_approle"] (provision_approle params) p.

Section OpenBao.
Context `{PyLib}.

Definition openbao_payload (i : norm_input) : payload :=
let target_object := VDict ["content_type" :- VStr (ni_target_model i); "object_id" :- ni_object_id i] in
{| body := ["target" :- VStr (ni_target i); "target_object" :- target_object];
 fingerprint := ["handler_id" :- VStr (ni_handler_id i); "procedure" :- VStr (ni_handler_id i);
                 "target" :- VStr (ni_target i); "target_object" :- target_object;
                 "target_object_sha256" :- _hash_json target_object] |}.

Definition _normalize_openbao_1_execution (i : norm_input) : res payload :=
match py_or (ni_params i) (VDict []) with
| VDict params =>
  let name := ni_procedure i in
  let operation := openbao_operation name in
  allowed ← match allowed_by_operation operation with
            | Some a => Ok a
            | None => Err (not_normalizable name)
            end;
  _ ← require_none (common_keys params _OPENBAO_FORBIDDEN_SSH_OVERRIDE_PARAMS)
        (invalid_param "Caller-supplied SSH overrides are not accepted for OpenBao; the execution backend resolves SSH from the assigned NetBox object.");
  let unexpected := foreign_keys params (allowed ++ _OPENBAO_INTERNAL_PARAM_KEYS) in
  _ ← require_none unexpected
        (invalid_param ("Unsupported parameters for " +:+ name +:+ ": " +:+ str_join ", " unexpected +:+ "."));
  _ ← require (str_in (ni_target_model i) _OPENBAO_TARGET_MODEL_LABELS && positive_id (ni_object_id i))
        (invalid_target "OpenBao procedures require an existing assigned dcim.device.");
  let target := ni_target i in
  _ ← require (str_truthy target && (str_len target <=? 255)
               && negb (str_any (fun c => (code c <? 32) || (code c =? 127)) target))
        (invalid_target "The assigned OpenBao target has an invalid display name.");
  openbao_fields params operation (openbao_payload i)
| _ => Err (invalid_param "OpenBao params must be an object.")
end.
End OpenBao.

(** ** The Passbolt migration *)

Definition PASSBOLT_EXPORT_SECRETS : string := "services.passbolt.export_secrets".
Definition PASSBOLT_TRANSFER_SECRETS : string := "services.passbolt.transfer_secrets".
Definition PASSBOLT_IMPORT_SECRETS : string := "services.passbolt.import_secrets".
Definition PASSBOLT_CLEANUP : string := "services.passbolt.cleanup".
Definition _PASSBOLT_BROAD_DIRS : list string := ["/"; "/tmp"; "/var/tmp"; "/etc"].

(** The pattern and the message of a kind of field; [KeyError] for another kind. *)
Definition passbolt_validator (kind : string) : res (re * string) :=
  match kind with
  | "container" => Ok (_PASSBOLT_SAFE_NAME_RE, "must be a safe Docker container name")
  | "db_name" => Ok (_PASSBOLT_DB_NAME_RE, "must contain only letters, digits, and _")
  | "env" => Ok (_PASSBOLT_ENV_NAME_RE, "must be a valid environment variable name")
  | "host" => Ok (_PASSBOLT_HOST_RE, "must be a DNS name or IP address")
  | "posix_user" => Ok (_PASSBOLT_POSIX_USER_RE, "must be a POSIX username")
  | _ => Err KeyError
  end.
Definition _copy_passbolt_field (params : dict) (key kind : string) (p : payload) : res payload :=
  let v := text_of (get key params) in
  _ ← require (str_truthy v) (invalid_param (key +:+ " is required."));
  '(pattern, message) ← passbolt_validator kind;
  _ ← require (full pattern v) (invalid_param (key +:+ " " +:+ message +:+ "."));
  Ok (both key (VStr v) p).

(** A directory that holds one of the broad ones, or is one. *)
Definition broad_dir (p : posix_path) : bool :=
  existsb (fun blocked => bool_decide (p = PurePosixPath blocked) || is_relative_to (PurePosixPath blocked) p)
    _PASSBOLT_BROAD_DIRS.
Definition passbolt_path (key : string) (v : string) : res string :=
  let unsafe := invalid_param (key +:+ " must be an absolute safe path without traversal or shell metacharacters.") in
  _ ← require (str_truthy v) (invalid_param (key +:+ " is required."));
  _ ← require (full _PASSBOLT_PATH_SAFE_CHARS_RE v) unsafe;
  let path := PurePosixPath ("/" +:+ lstrip_char "/"%char v) in
  _ ← require (negb (str_in ".." (all_parts path))) unsafe;
  _ ← require (negb (broad_dir path)) (invalid_param (key +:+ " must not be a root or broad system directory."));
  Ok v.
Definition _copy_passbolt_path (params : dict) (key standard : string) (p : payload) : res payload :=
  let raw := get key params in
  v ← passbolt_path key (str_strip (if blank raw then standard else py_str raw));
  Ok (both key (VStr v) p).

Definition passbolt_port (params : dict) (key : string) (p : payload) : res payload :=
  port ← _int_range params key 1 (Some 65535); Ok (both key (VInt port) p).

Section Passbolt.
Context `{PyLib}.

Definition _copy_required_ssh_overrides (params : dict) (p : payload) : res payload :=
p ← _copy_optional_ssh_overrides params p;
_ ← require (dict_mem "rpc_ssh_host" (body p) && dict_mem "rpc_ssh_credential_pk" (body p))
      (invalid_param "rpc_ssh_host and rpc_ssh_credential_pk are required.");
_ ← require (full _PASSBOLT_HOST_RE (py_str (get "rpc_ssh_host" (body p))))
      (invalid_param "rpc_ssh_host must be a DNS name or IP address without shell metacharacters.");
Ok p.

Definition passbolt_transfer (params : dict) (p : payload) : res payload :=
p ← _copy_passbolt_path params "source_staging_dir" EmptyString p;
p ← _copy_passbolt_field params "target_host" "host" p;
p ← _copy_passbolt_field params "target_ssh_user" "posix_user" p;
p ← passbolt_port params "target_ssh_port" p;
_copy_passbolt_path params "target_staging_dir" EmptyString p.
Definition passbolt_export (params : dict) (p : payload) : res payload :=
p ← _copy_passbolt_field params "app_container_name" "container" p;
p ← _copy_passbolt_field params "db_container_name" "container" p;
p ← _copy_passbolt_field params "db_name" "db_name" p;
p ← _copy_passbolt_field params "db_host" "host" p;
p ← passbolt_port params "db_port" p;
p ← _copy_passbolt_field params "db_user_env" "env" p;
p ← _copy_passbolt_field params "db_password_env" "env" p;
p ← _copy_passbolt_path params "gpg_dir" "/etc/passbolt/gpg" p;
p ← _copy_passbolt_path params "jwt_dir" "/etc/passbolt/jwt" p;
_copy_passbolt_path params "staging_dir" EmptyString p.
Definition passbolt_import (params : dict) (p : payload) : res payload :=
p ← _copy_passbolt_path params "staging_dir" EmptyString p;
p ← _copy_passbolt_field params "db_name" "db_name" p;
p ← _copy_passbolt_path params "gpg_dest_dir" "/etc/passbolt/gpg" p;
p ← _copy_passbolt_path params "jwt_dest_dir" "/etc/passbolt/jwt" p;
_copy_passbolt_path params "cake_bin_path" "/usr/share/php/passbolt/bin/cake" p.

Definition _normalize_passbolt_migration_execution (i : norm_input) : res payload :=
params ← params_of i;
let name := ni_procedure i in
p ← _copy_required_ssh_overrides params (service_payload i);
if String.eqb name PASSBOLT_EXPORT_SECRETS then passbolt_export params p
else if String.eqb name PASSBOLT_TRANSFER_SECRETS then passbolt_transfer params p
else if String.eqb name PASSBOLT_IMPORT_SECRETS then passbolt_import params p
else if String.eqb name PASSBOLT_CLEANUP then passbolt_transfer params p
else Err (invalid_param ("Procedure " +:+ repr_str name +:+ " is not a Passbolt migration procedure.")).
End Passbolt.
