(* ===== verification/NormalizeHosts.v ===== *)
(** * Normalization: hosts

    The normalizers of [netbox_rpc/domain/normalization.py] for procedures that run on
    any host: the nmap scan, the DNS stack, the SSH key, the agents, the Ookla diagnostic
    and the Ubuntu upgrade; with [ipaddress.ip_network] as the scan uses it. *)

From S2P Require Import Prelude PyValue CredentialContract Spans PyRegex SecretPatterns.
From S2P Require Import Protected Contracts Backends CredentialAuthority Targets.
From S2P Require Import Normalize NormalizeServices NormalizeDevices.
Import JsonNotations.

Local Open Scope Z_scope.

Section HostPatterns.
Local Open Scope re_scope.
(** The scanned text holds no line break, on which the two readings of [$] differ. *)
Definition _NMAP_HOSTNAME_RE : re :=
RLook (rep 1 253 (notset [LF]) ++ opt (ch 46%N) ++ REol)
++ RLook (star (notset [LF]) ++ RSet ascii_letter)
++ star (label ++ ch 46%N) ++ label ++ opt (ch 46%N).
Definition port_run : re := rep 1 5 digits_re.
Definition _NMAP_PORT_TOKEN_RE : re := port_run ++ opt (ch 45%N ++ port_run).
Definition _DNS_HOST_TARGET_RE : re := named "-" 62.
Definition _OOKLA_ABS_PATH_RE : re := ch 47%N ++ rep 1 255 (cls "/._-").
Definition _UBUNTU_UPGRADE_26_ABS_PATH_RE : re := _OOKLA_ABS_PATH_RE.
End HostPatterns.

Definition _NMAP_SCAN_TYPES : list string := ["connect"; "syn"; "os-detect"].
Definition _NMAP_MIN_CIDR_PREFIXLEN : Z := 24.
Definition _NMAP_MAX_CIDR_HOSTS : Z := 256.
Definition _DNS_HOST_COMPOSE_PROJECT : string := "powerdns-dns-api".

(** ** [ipaddress.ip_network], strict *)

(** The integer of dotted octets. *)
Definition octets_value (l : list string) : Z := fold_left (fun n o => 256 * n + decimal o) l 0.
Definition ipv4_value (s : string) : Z := octets_value (str_split "."%char s).

(** The prefix whose mask of [bits] bits is [m]. *)
Definition mask_of (bits prefix : Z) : Z := Z.shiftl (Z.ones prefix) (bits - prefix).
Definition prefix_of_mask (m : Z) : option Z :=
  List.find (fun p => mask_of 32 p =? m) (seqZ 0 33).
Definition prefix_of_digits (bits : Z) (s : string) : option Z :=
  if str_truthy s && str_forall is_digit s && (decimal s <=? bits) then Some (decimal s) else None.
(** A prefix length, a netmask or a host mask. *)
Definition ipv4_prefix (s : string) : option Z :=
  match prefix_of_digits 32 s with
  | Some p => Some p
  | None =>
      if is_ipv4 s then
        match prefix_of_mask (ipv4_value s) with
        | Some p => Some p
        | None => prefix_of_mask (Z.lxor (ipv4_value s) (Z.ones 32))
        end
      else None
  end.

Fixpoint hex_int (acc : Z) (s : string) : Z :=
  match s with
  | EmptyString => acc
  | String c r =>
      hex_int (16 * acc + (if is_digit c then code c - 48 else if code c <? 97 then code c - 55 else code c - 87)) r
  end.
(** The last group, when it is an IPv4 address, is worth the two groups [h] and [l]. *)
Definition tail_groups (parts : list string) : list Z :=
  let l := last_part parts in
  if is_ipv4 l then map (hex_int 0) (removelast parts) ++ [Z.shiftr (ipv4_value l) 16; Z.land (ipv4_value l) 65535]
  else map (hex_int 0) parts.
(** Sixteen-bit groups, the gap filled with zeros; the address is known to be valid. *)
Definition ipv6_groups (s : string) : list Z :=
  let parts := str_split ":"%char (str_before "%"%char s) in
  let groups := tail_groups parts in
  match inner_gaps (match ipv6_parts (str_before "%"%char s) with Some p => p | None => [] end) with
  | [i] => let hi := take i groups in
           let lo := drop (S i) groups in
           let hi := if is_empty (nth 0 parts EmptyString) then [] else hi in
           let lo := if is_empty (last_part parts) then [] else lo in
           hi ++ repeat 0 (8 - length hi - length lo) ++ lo
  | _ => groups
  end.
Definition ipv6_value (s : string) : Z := fold_left (fun n g => 65536 * n + g) (ipv6_groups s) 0.

Inductive network : Type := Net4 (base : string) (prefix : Z) | Net6.
(** No host bit is set. *)
Definition aligned (bits prefix v : Z) : bool := Z.land v (Z.ones (bits - prefix)) =? 0.
(** [None] is [ValueError]. *)
Definition ip_network (s : string) : option network :=
  match str_split "/"%char s with
  | [a; m] =>
      match (if is_ipv4 a then ipv4_prefix m else None) with
      | Some p => if aligned 32 p (ipv4_value a) then Some (Net4 a p) else None
      | None =>
          match (if is_ipv6 a then prefix_of_digits 128 m else None) with
          | Some p => if aligned 128 p (ipv6_value a) then Some Net6 else None
          | None => None
          end
      end
  | [a] => if is_ipv4 a then Some (Net4 a 32) else if is_ipv6 a then Some Net6 else None
  | _ => None
  end.
Definition num_addresses (prefix : Z) : Z := 2 ^ (32 - prefix).
Definition network_str (base : string) (prefix : Z) : string := base +:+ "/" +:+ str_of_Z prefix.

(** ** The nmap scan *)

Definition _normalize_nmap_target (raw_target : value) : res string :=
  let target := text_of raw_target in
  _ ← require (str_truthy target) (invalid_param "target is required.");
  _ ← require (negb (str_any space_or_control target))
        (invalid_param "target must not contain whitespace or control characters.");
  if str_contains "/" target then
    match ip_network target with
    | None => Err (invalid_param "target CIDR must be a valid IPv4 network.")
    | Some Net6 => Err (invalid_param "target CIDR must be IPv4.")
    | Some (Net4 base prefix) =>
        _ ← require (num_addresses prefix <=? _NMAP_MAX_CIDR_HOSTS)
              (invalid_param ("target CIDR is too broad; use a network no larger than /"
                 +:+ str_of_Z _NMAP_MIN_CIDR_PREFIXLEN +:+ " (" +:+ str_of_Z _NMAP_MAX_CIDR_HOSTS +:+ " addresses)."));
        Ok (network_str base prefix)
    end
  else match ip_address target with
  | Some (IPv4 a) => Ok a
  | Some IPv6 => Err (invalid_param "target IP address must be IPv4.")
  | None =>
      if full _NMAP_HOSTNAME_RE target then Ok (str_lower target)
      else Err (invalid_param "target must be an IPv4 address, IPv4 CIDR, or strict hostname.")
  end.

Definition port_in_range (n : Z) : bool := (1 <=? n) && (n <=? 65535).
Definition port_token (token : string) : res string :=
  _ ← require (full _NMAP_PORT_TOKEN_RE token) (invalid_param "ports must contain only integers or integer ranges.");
  let outside := invalid_param "ports entries must be between 1 and 65535." in
  if str_contains "-" token then
    let start := decimal (str_before "-"%char token) in
    let end_ := decimal (str_after "-"%char token) in
    _ ← require (start <=? end_) (invalid_param "ports ranges must be ascending.");
    _ ← require (port_in_range start && port_in_range end_) outside;
    Ok (str_of_Z start +:+ "-" +:+ str_of_Z end_)
  else
    _ ← require (port_in_range (decimal token)) outside;
    Ok (str_of_Z (decimal token)).
Fixpoint map_res {A B} (f : A -> res B) (l : list A) : res (list B) :=
  match l with
  | [] => Ok []
  | x :: r => y ← f x; ys ← map_res f r; Ok (y :: ys)
  end.
Definition _normalize_nmap_port_tokens (tokens : list string) : res string :=
  _ ← require (Z.of_nat (length tokens) <=? 32) (invalid_param "ports may contain at most 32 entries.");
  normalized ← map_res port_token tokens;
  Ok (str_join "," normalized).

(** An entry of a list of ports. *)
Definition port_entry (v : value) : res Z :=
  match v with
  | VInt n => _ ← require (port_in_range n) (invalid_param "ports entries must be between 1 and 65535."); Ok n
  | _ => Err (invalid_param "ports entries must be integers.")
  end.
Definition _normalize_nmap_ports (raw_ports : value) : res string :=
  let empty := invalid_param "ports must not be empty when provided." in
  match raw_ports with
  | VNone => Ok EmptyString
  | VStr s =>
      let ports := str_strip s in
      _ ← require (str_truthy ports) empty;
      _ ← require (negb (str_any space_or_control ports))
            (invalid_param "ports must not contain whitespace or control characters.");
      _normalize_nmap_port_tokens (str_split ","%char ports)
  | VList l | VTuple l =>
      _ ← require (negb (bool_decide (l = []))) empty;
      _ ← require (Z.of_nat (length l) <=? 32) (invalid_param "ports may contain at most 32 entries.");
      numbers ← map_res port_entry l;
      Ok (str_join "," (map str_of_Z numbers))
  | _ => Err (invalid_param "ports must be a comma-separated string or list of integers.")
  end.

(** The whitespace-separated words. *)
Fixpoint words_from (current : string) (s : string) : list string :=
  match s with
  | EmptyString => if str_truthy current then [str_rev current] else []
  | String c r =>
      if chr_space c then (if str_truthy current then [str_rev current] else []) ++ words_from EmptyString r
      else words_from (String c current) r
  end.
Definition str_words (s : string) : list string := words_from EmptyString s.

Section Hosts.
Context `{PyLib}.

Definition _normalize_nmap_execution (i : norm_input) : res payload :=
params ← params_of i;
target ← _normalize_nmap_target (get "target" params);
let scan_type := text_or "connect" (get "scan_type" params) in
_ ← require (str_in scan_type _NMAP_SCAN_TYPES) (invalid_param "scan_type must be one of: connect, syn, os-detect.");
let p := {| body := ["target" :- VStr target; "scan_type" :- VStr scan_type];
          fingerprint := ["handler_id" :- VStr (ni_handler_id i); "procedure" :- VStr (ni_procedure i);
                          "target" :- VStr target; "scan_type" :- VStr scan_type] |} in
ports ← (if dict_mem "ports" params then _normalize_nmap_ports (get "ports" params) else Ok EmptyString);
_copy_optional_ssh_overrides params (both_text "ports" ports p).

(** ** The DNS stack *)

Definition _validate_dns_host_ssh_host (host : string) : res unit :=
_validate_ssh_host host "rpc_ssh_host could not be resolved from params.".
Definition dns_ssh_host (config : option dict) (params : dict) (target : string) : res string :=
let host := text_of (get "rpc_ssh_host" params) in
if str_truthy host then Ok host else
let domain := _default_dns_host_domain config in
_ ← require (str_truthy domain)
    (invalid_param "rpc_ssh_host is required: pass it explicitly, or configure the netbox_rpc 'dns_host_domain' plugin setting to derive '<target>.<domain>'.");
Ok (target +:+ "." +:+ domain).
Definition _normalize_dns_host_execution (config : option dict) (i : norm_input) : res payload :=
params ← params_of i;
let target := text_of (get "target" params) in
_ ← require (full _DNS_HOST_TARGET_RE target)
    (invalid_param "target must be a short DNS host name such as dns01 or dns02.");
credential_pk ← _int_range params "rpc_ssh_credential_pk" 1 None;
host ← dns_ssh_host config params target;
_ ← _validate_dns_host_ssh_host host;
port ← _optional_int_range params "rpc_ssh_port" 1 (Some 65535);
let ssh_port := VInt (default 22 port) in
let known_hosts_entry := py_str (py_or (get "rpc_ssh_known_hosts_entry" params) (VStr EmptyString)) in
_ ← require (negb (str_any (fun c => (code c =? 10) || (code c =? 13)) known_hosts_entry))
    (invalid_param "rpc_ssh_known_hosts_entry must be a single line.");
_ ← require (str_len known_hosts_entry <=? 8192)
    (invalid_param "rpc_ssh_known_hosts_entry may contain at most 8192 characters.");
strict ← _bool_param params "rpc_ssh_strict_host_key_checking" true;
Ok {| body := ["target" :- VStr target; "rpc_ssh_host" :- VStr host; "rpc_ssh_port" :- ssh_port;
             "rpc_ssh_credential_pk" :- VInt credential_pk; "rpc_ssh_known_hosts_entry" :- VStr known_hosts_entry;
             "rpc_ssh_strict_host_key_checking" :- VBool strict;
             "compose_project" :- VStr _DNS_HOST_COMPOSE_PROJECT];
    fingerprint := ["handler_id" :- VStr (ni_handler_id i); "procedure" :- VStr (ni_procedure i);
                    "target" :- VStr target; "compose_project" :- VStr _DNS_HOST_COMPOSE_PROJECT;
                    "rpc_ssh_host" :- VStr host; "rpc_ssh_port" :- ssh_port] |}.
Definition _normalize_dns_host_deploy_execution (config : option dict) (i : norm_input) : res payload :=
p ← _normalize_dns_host_execution config i;
params ← params_of i;
force_recreate ← _bool_param params "force_recreate" false;
Ok (both "force_recreate" (VBool force_recreate) p).
Definition _normalize_dns_host_status_execution (config : option dict) (i : norm_input) : res payload :=
_normalize_dns_host_execution config i.

(** ** SSH keys *)

Definition ssh_key_text (public_key : string) : string :=
match str_words public_key with w :: w' :: _ => w +:+ " " +:+ w' | _ => public_key end.
Definition _normalize_ssh_install_key_execution (i : norm_input) : res payload :=
params ← params_of i;
let public_key := text_of (get "public_key" params) in
_ ← require (str_truthy public_key) (invalid_param "public_key is required.");
_ ← require (negb (str_any (fun c => (code c =? 10) || (code c =? 13)) public_key))
    (invalid_param "public_key must be a single line without newlines.");
_ ← require (existsb (fun prefix => str_startswith prefix public_key) ["ssh-ed25519 "; "ssh-rsa "; "ecdsa-sha2-"])
    (invalid_param "public_key must start with a supported key type prefix.");
let public_key := ssh_key_text public_key in
let p := opening i ["public_key" :- VStr public_key] ["public_key_prefix" :- VStr (str_take 64 public_key)] in
let username := text_of (get "username" params) in
if str_truthy username then
_ ← require (full _POSIX_USERNAME_RE username)
      (invalid_param "username must be a valid POSIX username (lowercase letters, digits, _ or -; starts with letter or _; max 32 chars).");
Ok (put "username" (VStr username) p)
else Ok p.

(** ** Agents *)

Definition _normalize_zabbix_server (raw : value) : res string :=
let v := rstrip_char "."%char (text_of raw) in
_ ← require (str_truthy v) (invalid_param "zabbix_server is required.");
match ip_address v with
| Some _ => Ok v
| None =>
  _ ← require ((str_len v <=? 253) && full _DNS_SEARCH_DOMAIN_RE v)
        (invalid_param "zabbix_server must be a valid DNS name or IP address.");
  Ok v
end.
(** The server asked for, or the configured one. *)
Definition zabbix_server_of (config : option dict) (params : dict) (missing : string) : res string :=
let raw := str_or (text_of (get "zabbix_server" params)) (_default_zabbix_server config) in
_ ← require (str_truthy raw) (invalid_param missing);
_normalize_zabbix_server (VStr raw).
Definition _normalize_linux_agent_install_execution (config : option dict) (zabbix_server : bool) (i : norm_input)
: res payload :=
params ← params_of i;
let p := opening i [] [] in
p ← (if zabbix_server then
     server ← zabbix_server_of config params
       "zabbix_server is required: pass it explicitly, or configure the netbox_rpc 'default_zabbix_server' plugin setting.";
     Ok (both "zabbix_server" (VStr server) p)
   else Ok p);
_copy_optional_ssh_overrides params p.

(** ** The Ookla diagnostic *)

Definition ookla_path (params : dict) (key : string) (p : payload) : res payload :=
let path := text_of (get key params) in
_ ← require (negb (str_truthy path) || full _OOKLA_ABS_PATH_RE path)
    (invalid_param (key +:+ " must be an absolute path (/... up to 255 safe chars)."));
Ok (both_text key path p).
Definition ookla_ports (params : dict) (p : payload) : res payload :=
match get "ports" params with
| VNone => Ok p
| VList raw_ports | VTuple raw_ports =>
  _ ← require (Z.of_nat (length raw_ports) <=? 16) (invalid_param "ports may contain at most 16 entries.");
  ports ← map_res port_entry raw_ports;
  Ok (both_if (negb (bool_decide (ports = []))) "ports" (VList (map VInt ports)) p)
| _ => Err (invalid_param "ports must be a list of integers.")
end.
Definition _normalize_ookla_execution (i : norm_input) : res payload :=
params ← params_of i;
p ← ookla_path params "install_dir" (service_payload i);
p ← ookla_path params "config_path" p;
p ← ookla_ports params p;
_copy_optional_ssh_overrides params p.

(** ** The Ubuntu upgrade *)

Definition UBUNTU_UPGRADE_26_SAVE_PREUPGRADE_STATE : string := "os.linux.ubuntu.24.upgrade_26.save_preupgrade_state".
Definition UBUNTU_UPGRADE_26_RUN_UPGRADE : string := "os.linux.ubuntu.24.upgrade_26.run_upgrade".
Definition UBUNTU_UPGRADE_26_VERIFY_POSTUPGRADE : string := "os.linux.ubuntu.24.upgrade_26.verify_postupgrade".
(** [bool(params.get(key, standard))]. *)
Definition flag_of (params : dict) (key : string) (standard : bool) : bool :=
if dict_mem key params then truthy (get key params) else standard.
Definition upgrade_text (params : dict) (key message : string) (accepted : string -> bool) (p : payload) : res payload :=
if dict_mem key params then
match get key params with
| VStr s => _ ← require (accepted s) (invalid_param message); Ok (both key (VStr s) p)
| _ => Err (invalid_param message)
end
else Ok p.
Definition _normalize_ubuntu_upgrade_26_execution (i : norm_input) : res payload :=
params ← params_of i;
let on := step_for (ni_procedure i) in
p ← on [UBUNTU_UPGRADE_26_SAVE_PREUPGRADE_STATE]
    (upgrade_text params "backup_dir" "backup_dir must be an absolute path (/... up to 255 safe chars)."
       (full _UBUNTU_UPGRADE_26_ABS_PATH_RE)) (service_payload i);
p ← on [UBUNTU_UPGRADE_26_RUN_UPGRADE] (fun p =>
    Ok (both "reboot_after_upgrade" (VBool (flag_of params "reboot_after_upgrade" false))
          (both "dry_run" (VBool (flag_of params "dry_run" true)) p))) p;
p ← on [UBUNTU_UPGRADE_26_VERIFY_POSTUPGRADE]
    (upgrade_text params "expected_version_id"
       "expected_version_id must be a non-empty string of at most 32 characters."
       (fun s => str_truthy s && (str_len s <=? 32))) p;
_copy_optional_ssh_overrides params p.
End Hosts.
