(* ===== verification/NormalizeProxmox.v ===== *)
(** * Normalization: Proxmox

    The normalizers of [netbox_rpc/domain/normalization.py] for the Proxmox procedures
    that resolve the SSH binding of an endpoint: the virtual machine lifecycle, the pull
    of an appliance image and the conversion of Mellanox adapters; and the read-only
    listing of services.

    [resolve_proxmox_endpoint_ssh] belongs to netbox-nms: [None] where that version does
    not have it, otherwise what it returns for an endpoint. *)

From S2P Require Import Prelude PyValue CredentialContract Spans PyRegex SecretPatterns.
From S2P Require Import Protected Contracts Backends CredentialAuthority Targets.
From S2P Require Import Normalize NormalizeServices NormalizeDevices NormalizeHosts.
Import JsonNotations.

Local Open Scope Z_scope.

Section ProxmoxPatterns.
Local Open Scope re_scope.
Definition _PROXMOX_NODE_RE : re := named "_.-" 63.
Definition _PROXMOX_STORAGE_RE : re := named "_.:-" 127.
Definition _PROXMOX_BRIDGE_RE : re := named "_.:-" 63.
Definition _PROXMOX_VM_NAME_RE : re := named "_.-" 62.
Definition _PROXMOX_DISK_RE : re := (lit "scsi" || lit "virtio" || lit "sata" || lit "ide") ++ plus digits_re.
Definition _PROXMOX_NO_COMMA_SPACE_RE : re := rep 1 64 (RSet (fun c => negb (is_space c || chars "," c))).
Definition guest_interface_re : re := RSet ascii_letter ++ rep 0 31 (cls "_.:-").
Definition _PROXMOX_OCI_NODE_RE : re := named "_.-" 63.
Definition _PROXMOX_OCI_STORAGE_RE : re := named "_.-" 63.
Definition _PROXMOX_OCI_REFERENCE_RE : re :=
opt (lit "docker.io/") ++ lit "emersonfelipesp/netbox-proxbox:" ++ cls "_" ++ rep 0 127 (cls "_.-").
Definition _PROXMOX_OCI_FILENAME_RE : re := named "_.-" 254.
Definition _SYSTEMCTL_UNIT_NAME_RE : re := cls "_" ++ star (cls "_.@:-").
End ProxmoxPatterns.

Definition _PROXMOX_QEMU_OPERATIONS : list string :=
  ["nextid"; "clone"; "migrate"; "configure"; "resize"; "start"; "stop"; "status"; "agent_ping";
   "agent_network_get_interfaces"; "agent_configure_debian_network"; "agent_set_user_password";
   "agent_pbs_zabbix_status"; "agent_configure_zabbix_agent2"].
Definition _PROXMOX_QEMU_NIC_MODELS : list string := ["virtio"; "e1000"; "e1000e"; "vmxnet3"; "rtl8139"].
Definition _MAX_SYSTEMCTL_UNITS : Z := 32.

(** ** The SSH binding of an endpoint *)

Notation ssh_resolver := (option (Z -> res dict)).
(** The binding found, which is empty where there is none, and its host without the
    spaces around it. *)
Definition _resolve_proxmox_ssh_binding (resolve_proxmox_endpoint_ssh : ssh_resolver) (endpoint_id : Z)
  : res (dict * string) :=
  match resolve_proxmox_endpoint_ssh with
  | None => Err (RPCExecutionError "RPC_PROXMOX_SSH_RESOLVER_MISSING"
                   "netbox-nms does not expose the Proxmox SSH resolver; upgrade netbox-nms to a version with ProxmoxEndpointSSHBinding.")
  | Some resolve =>
      resolved ← resolve endpoint_id;
      _ ← require (negb (bool_decide (resolved = [])))
            (RPCExecutionError "RPC_PROXMOX_SSH_BINDING_NOT_FOUND"
               ("No Proxmox Endpoint SSH binding is configured for endpoint " +:+ str_of_Z endpoint_id
                +:+ ". Create one in NetBox NMS (Proxmox Endpoint SSH Bindings) before running this procedure."));
      let host := text_of (get "host" resolved) in
      _ ← require (str_truthy host)
            (RPCExecutionError "RPC_PROXMOX_SSH_HOST_UNRESOLVED"
               ("The Proxmox Endpoint SSH binding for endpoint " +:+ str_of_Z endpoint_id
                +:+ " has no resolvable host. Set an SSH host override or an endpoint IP/domain."));
      _ ← require (negb (bool_decide (get "credential_pk" resolved = VNone)))
            (RPCExecutionError "RPC_PROXMOX_SSH_CREDENTIAL_MISSING"
               ("The Proxmox Endpoint SSH binding for endpoint " +:+ str_of_Z endpoint_id
                +:+ " has no linked SSH credential."));
      Ok (resolved, host)
  end.
(** The SSH keys of the payload; the fingerprint has none of them. *)
Definition ssh_entries (binding : dict * string) : res dict :=
  let resolved := binding.1 in
  port ← py_int (py_or (get "port" resolved) (VInt 22));
  credential_pk ← py_int (get "credential_pk" resolved);
  Ok ["rpc_ssh_host" :- VStr binding.2; "rpc_ssh_port" :- VInt port; "rpc_ssh_credential_pk" :- VInt credential_pk;
      "rpc_ssh_known_hosts_entry" :- VStr (py_str (py_or (get "known_hosts_entry" resolved) (VStr EmptyString)));
      "rpc_ssh_strict_host_key_checking" :- VBool (flag_of resolved "strict_host_key_checking" true)].

(** ** Fields *)

Definition _optional_regex_param (params : dict) (key : string) (regex : re) : res string :=
  let v := text_of (get key params) in
  _ ← require (negb (str_truthy v) || full regex v) (invalid_param (key +:+ " contains invalid characters."));
  Ok v.

Fixpoint operations_of (seen : list string) (l : list value) : res (list string) :=
  match l with
  | [] => Ok []
  | item :: r =>
      let v := text_of item in
      _ ← require (str_in v _PROXMOX_QEMU_OPERATIONS) (invalid_param ("Unsupported Proxmox QEMU operation: " +:+ v));
      _ ← require (negb (str_in v seen)) (invalid_param "operations must not contain duplicates.");
      rest ← operations_of (seen ++ [v]) r;
      Ok (v :: rest)
  end.
Definition _proxmox_operations (params : dict) : res (list string) :=
  match get "operations" params with
  | VList (x :: r) => operations_of [] (x :: r)
  | _ => Err (invalid_param "operations must be a non-empty list.")
  end.

(** A list of at most eight objects: the key of each, which no two share, then its fields. *)
Section Entries.
Context {K : Type} `{EqDecision K}.
Variable key_of : dict -> res K.
Variable fields_of : K -> dict -> res dict.
Variables plural single repeated : string.
Fixpoint unique_entries (seen : list K) (l : list value) : res (list (K * dict)) :=
match l with
| [] => Ok []
| VDict item :: r =>
  k ← key_of item;
  _ ← require (negb (bool_decide (k ∈ seen))) (invalid_param repeated);
  entry ← fields_of k item;
  rest ← unique_entries (k :: seen) r;
  Ok ((k, entry) :: rest)
| _ :: _ => Err (invalid_param (single +:+ " entries must be objects."))
end.
Definition bounded_entries (raw : value) : res (list (K * dict)) :=
match raw with
| VNone | VStr EmptyString => Ok []
| VList l =>
  _ ← require (Z.of_nat (length l) <=? 8) (invalid_param (plural +:+ " may contain at most 8 entries."));
  unique_entries [] l
| _ => Err (invalid_param (plural +:+ " must be a list."))
end.
End Entries.
(** The entries in the order of their keys. *)
Definition by_index (l : list (Z * dict)) : list value := map VDict (merge_sort (fun a b => Is_true (a.1 <=? b.1)) l).*2.
Definition by_name (l : list (string * dict)) : list value :=
  map VDict (merge_sort (fun a b => Is_true (String.leb a.1 b.1)) l).*2.

Definition network_fields (index : Z) (item : dict) : res dict :=
  let model := text_or "virtio" (get "model" item) in
  _ ← require (str_in model _PROXMOX_QEMU_NIC_MODELS) (invalid_param "network model is not allowlisted.");
  let bridge := text_of (get "bridge" item) in
  _ ← require (full _PROXMOX_BRIDGE_RE bridge) (invalid_param "network bridge contains invalid characters.");
  tag ← _optional_int_range item "tag" 1 (Some 4094);
  let entry := ["index" :- VInt index; "model" :- VStr model; "bridge" :- VStr bridge] ++
               match tag with Some n => ["tag" :- VInt n] | None => [] end in
  if dict_mem "firewall" item then
    firewall ← _bool_param item "firewall" false;
    Ok (entry ++ ["firewall" :- VBool firewall])
  else Ok entry.
Definition _normalize_proxmox_networks (raw : value) : res (list value) :=
  by_index <$> bounded_entries (fun item => _int_range item "index" 0 (Some 31)) network_fields
                 "networks" "network" "network indexes must be unique." raw.

(** An address without spaces or commas, and an optional gateway of the same form. *)
Definition address_fields (what address gateway : string) (key : string * value) (item : dict) : res dict :=
  let refusal (name : string) := invalid_param (what +:+ " " +:+ name +:+ " contains invalid characters.") in
  let a := text_of (get address item) in
  _ ← require (full _PROXMOX_NO_COMMA_SPACE_RE a) (refusal address);
  let g := text_of (get gateway item) in
  _ ← require (negb (str_truthy g) || full _PROXMOX_NO_COMMA_SPACE_RE g) (refusal gateway);
  Ok ([key; address :- VStr a] ++ if str_truthy g then [gateway :- VStr g] else []).
Definition _normalize_proxmox_ipconfigs (raw : value) : res (list value) :=
  by_index <$> bounded_entries (fun item => _int_range item "index" 0 (Some 31))
                 (fun index => address_fields "ipconfig" "ip" "gw" ("index" :- VInt index))
                 "ipconfigs" "ipconfig" "ipconfig indexes must be unique." raw.
Definition guest_interface (item : dict) : res string :=
  let interface := text_of (get "interface" item) in
  _ ← require (full guest_interface_re interface) (invalid_param "guest_network interface contains invalid characters.");
  Ok interface.
Definition _normalize_proxmox_guest_networks (raw : value) : res (list value) :=
  by_name <$> bounded_entries guest_interface
                (fun interface => address_fields "guest_network" "address" "gateway" ("interface" :- VStr interface))
                "guest_networks" "guest_network" "guest_network interfaces must be unique." raw.

Definition _normalize_dns_search_domain (raw : value) : res string :=
  let v := rstrip_char "."%char (text_of raw) in
  if str_truthy v then
    _ ← require ((str_len v <=? 253) && full _DNS_SEARCH_DOMAIN_RE v)
          (invalid_param "search_domain must be a valid DNS search domain.");
    Ok v
  else Ok EmptyString.
Fixpoint dns_servers_of (seen : list string) (l : list value) : res (list string) :=
  match l with
  | [] => Ok []
  | item :: r =>
      let v := text_of item in
      _ ← require (str_truthy v) (invalid_param "dns_servers must not contain empty entries.");
      _ ← require (match ip_address v with Some _ => true | None => false end)
            (invalid_param "dns_servers entries must be valid IP addresses.");
      _ ← require (negb (str_in v seen)) (invalid_param "dns_servers must not contain duplicates.");
      rest ← dns_servers_of (seen ++ [v]) r;
      Ok (v :: rest)
  end.
Definition _normalize_dns_servers (raw : value) : res (list string) :=
  match raw with
  | VNone | VStr EmptyString => Ok []
  | VList l =>
      _ ← require (Z.of_nat (length l) <=? 3) (invalid_param "dns_servers may contain at most 3 entries.");
      dns_servers_of [] l
  | _ => Err (invalid_param "dns_servers must be a list.")
  end.

(** ** What an operation needs *)

Definition missing_keys (params : dict) (names : list string) : list string :=
  List.filter (fun k => match get k params with VNone | VStr EmptyString | VList [] => true | _ => false end) names.
Definition _require_keys (params : dict) (names : list string) : res unit :=
  let missing := missing_keys params names in
  require (bool_decide (missing = []))
    (invalid_param ("Missing required Proxmox lifecycle field(s): " +:+ str_join ", " missing +:+ ".")).
Definition node_operations : list string :=
  ["configure"; "resize"; "start"; "stop"; "status"; "agent_ping"; "agent_network_get_interfaces";
   "agent_configure_debian_network"; "agent_set_user_password"; "agent_pbs_zabbix_status";
   "agent_configure_zabbix_agent2"].
Definition some_of (operations names : list string) : bool := existsb (fun o => str_in o names) operations.
Definition _require_proxmox_fields (operations : list string) (params : dict) : res unit :=
  let needs (names : list string) (fields : list string) : res unit :=
    if some_of operations names then _require_keys params fields else Ok tt in
  if str_in "nextid" operations then
    require (Z.of_nat (length operations) =? 1) (invalid_param "nextid must be run as a standalone operation.")
  else
    _ ← _require_keys params ["vmid"];
    _ ← needs ["clone"] ["template_vmid"; "source_node"; "name"];
    _ ← needs ["migrate"] ["source_node"; "target_node"];
    _ ← needs node_operations ["node"];
    _ ← needs ["resize"] ["disk_gb"; "resize_disk"];
    _ ← needs ["agent_configure_debian_network"] ["guest_networks"];
    needs ["agent_set_user_password"] ["guest_credential_pk"].

(** ** The procedures *)

Section Proxmox.
Context `{PyLib}.
Variable resolve_proxmox_endpoint_ssh : ssh_resolver.
Variable config : option dict.

Fixpoint copy_matching (params : dict) (fields : list (string * re)) (p : payload) : res payload :=
match fields with
| [] => Ok p
| (key, regex) :: r => v ← _optional_regex_param params key regex; copy_matching params r (both_text key v p)
end.
Fixpoint copy_ranges (params : dict) (fields : list (string * Z * option Z)) (p : payload) : res payload :=
match fields with
| [] => Ok p
| (key, minimum, maximum) :: r =>
  v ← _optional_int_range params key minimum maximum; copy_ranges params r (both_opt key v p)
end.
(** A list, in both dictionaries when it is not empty. *)
Definition both_list (k : string) (l : list value) (p : payload) : payload :=
both_if (negb (bool_decide (l = []))) k (VList l) p.

Definition lifecycle_fields : list (string * re) :=
[("name", _PROXMOX_VM_NAME_RE); ("source_node", _PROXMOX_NODE_RE); ("node", _PROXMOX_NODE_RE);
 ("target_node", _PROXMOX_NODE_RE); ("storage", _PROXMOX_STORAGE_RE); ("target_storage", _PROXMOX_STORAGE_RE)].
Definition lifecycle_ranges : list (string * Z * option Z) :=
[("template_vmid", 100, Some 999999999); ("memory_mb", 128, Some 1048576); ("cores", 1, Some 512);
 ("disk_gb", 1, Some 262144); ("guest_credential_pk", 1, None)].

Definition lifecycle_guest (params : dict) (p : payload) : res payload :=
let ciuser := text_of (get "ciuser" params) in
_ ← require (negb (str_truthy ciuser) || full _POSIX_USERNAME_RE ciuser)
    (invalid_param "ciuser must be a valid POSIX username.");
let p := both_text "ciuser" ciuser p in
search_domain ← _normalize_dns_search_domain (get "search_domain" params);
let p := both_text "search_domain" search_domain p in
dns_servers ← _normalize_dns_servers (py_or (get "dns_servers" params) (VList []));
Ok (both_list "dns_servers" (map VStr dns_servers) p).
Definition lifecycle_disk (params : dict) (operations : list string) (p : payload) : res payload :=
if str_in "resize" operations then
let resize_disk := text_or "scsi0" (get "resize_disk" params) in
_ ← require (full _PROXMOX_DISK_RE resize_disk) (invalid_param "resize_disk must be a valid Proxmox disk key.");
Ok (both "resize_disk" (VStr resize_disk) p)
else Ok p.
Definition lifecycle_networks (params : dict) (p : payload) : res payload :=
networks ← _normalize_proxmox_networks (py_or (get "networks" params) (VList []));
let p := both_list "networks" networks p in
ipconfigs ← _normalize_proxmox_ipconfigs (py_or (get "ipconfigs" params) (VList []));
let p := both_list "ipconfigs" ipconfigs p in
guest_networks ← _normalize_proxmox_guest_networks (py_or (get "guest_networks" params) (VList []));
Ok (both_list "guest_networks" guest_networks p).
Definition lifecycle_zabbix (params : dict) (operations : list string) (p : payload) : res payload :=
if some_of operations ["agent_pbs_zabbix_status"; "agent_configure_zabbix_agent2"] then
zabbix_server ← zabbix_server_of config params
  "zabbix_server is required for the requested operation: pass it explicitly, or configure the netbox_rpc 'default_zabbix_server' plugin setting.";
Ok (both "zabbix_server" (VStr zabbix_server) p)
else Ok p.

Definition _normalize_proxmox_qemu_vm_lifecycle_execution (i : norm_input) : res payload :=
params ← params_of i;
endpoint_id ← _int_range params "proxmox_endpoint_id" 1 None;
resolved ← _resolve_proxmox_ssh_binding resolve_proxmox_endpoint_ssh endpoint_id;
operations ← _proxmox_operations params;
vmid ← _optional_int_range params "vmid" 100 (Some 999999999);
ssh ← ssh_entries resolved;
let entries := ["proxmox_endpoint_id" :- VInt endpoint_id; "operations" :- texts_value operations] in
let p := both_opt "vmid" vmid (opening i (ssh ++ entries) entries) in
p ← copy_matching params lifecycle_fields p;
p ← copy_ranges params lifecycle_ranges p;
full_clone ← _bool_param params "full_clone" true;
agent_enabled ← _bool_param params "agent_enabled" true;
p ← lifecycle_guest params (both "agent_enabled" (VBool agent_enabled) (both "full_clone" (VBool full_clone) p));
p ← lifecycle_disk params operations p;
p ← lifecycle_networks params p;
p ← lifecycle_zabbix params operations p;
_ ← _require_proxmox_fields operations (body p);
Ok p.

(** The endpoint the payload names is the object the execution is recorded for. *)
Definition same_endpoint (i : norm_input) (endpoint_id : Z) : res unit :=
match ni_object_id i with
| VNone => Ok tt
| assigned_id =>
  n ← py_int assigned_id;
  require (n =? endpoint_id) (invalid_param "proxmox_endpoint_id must match the execution target object.")
end.

Definition _normalize_proxmox_oci_registry_pull_execution (i : norm_input) : res payload :=
params ← params_of i;
endpoint_id ← _int_range params "proxmox_endpoint_id" 1 None;
_ ← same_endpoint i endpoint_id;
node ← _optional_regex_param params "node" _PROXMOX_OCI_NODE_RE;
storage ← _optional_regex_param params "storage" _PROXMOX_OCI_STORAGE_RE;
reference ← _optional_regex_param params "reference" _PROXMOX_OCI_REFERENCE_RE;
_ ← require (str_truthy node && str_truthy storage && str_truthy reference)
    (invalid_param "node, storage, and reference are required.");
filename ← _optional_regex_param params "filename" _PROXMOX_OCI_FILENAME_RE;
resolved ← _resolve_proxmox_ssh_binding resolve_proxmox_endpoint_ssh endpoint_id;
ssh ← ssh_entries resolved;
let entries := ["proxmox_endpoint_id" :- VInt endpoint_id; "node" :- VStr node; "storage" :- VStr storage;
              "reference" :- VStr reference] in
let p := opening i (ssh ++ entries) entries in
Ok (mark "filename" (VStr filename) (if str_truthy filename then put "filename" (VStr filename) p else p)).

Definition _normalize_convert_mellanox_nic_execution (i : norm_input) : res payload :=
params ← params_of i;
endpoint_id ← _int_range params "proxmox_endpoint_id" 1 None;
resolved ← _resolve_proxmox_ssh_binding resolve_proxmox_endpoint_ssh endpoint_id;
let interfaces_content := VStr (py_str (py_or (get "interfaces_content" params) (VStr EmptyString))) in
let bond_name := str_or (text_or "bond1" (get "bond_name" params)) "bond1" in
let bond_vlans := str_filter (fun c => negb (Ascii.eqb " "%char c)) (text_of (get "bond_vlans" params)) in
bond_mtu ← _int_range (if dict_mem "bond_mtu" params then params else ["bond_mtu" :- VInt 9216]) "bond_mtu" 576 (Some 9216);
ssh ← ssh_entries resolved;
let flags := ["reboot" :- VBool (flag_of params "reboot" false);
            "apply_network" :- VBool (flag_of params "apply_network" false)] in
let settings := ["dry_run" :- VBool (flag_of params "dry_run" false); "bond_name" :- VStr bond_name;
               "bond_vlans" :- VStr bond_vlans; "bond_mtu" :- VInt bond_mtu] in
Ok (opening i (ssh ++ flags ++ ["interfaces_content" :- interfaces_content] ++ settings)
    (["proxmox_endpoint_id" :- VInt endpoint_id] ++ flags ++ settings ++
     ["interfaces_content_sha" :- if truthy interfaces_content then _hash_json interfaces_content else VStr EmptyString])).

(** ** The listing of services *)

Definition unit_name (v : value) : res string :=
match v with
| VStr s =>
  let name := str_strip s in
  _ ← require (str_truthy name && (str_len name <=? 100) && full _SYSTEMCTL_UNIT_NAME_RE name)
        (invalid_param "each units entry must be a valid systemd unit name.");
  Ok name
| _ => Err (invalid_param "each units entry must be a string systemd unit name.")
end.
Definition unit_names (raw_units : value) : res (list string) :=
match raw_units with
| VNone | VStr EmptyString => Ok []
| VList l | VTuple l =>
  _ ← require (Z.of_nat (length l) <=? _MAX_SYSTEMCTL_UNITS)
        (invalid_param ("units may contain at most " +:+ str_of_Z _MAX_SYSTEMCTL_UNITS +:+ " entries."));
  map_res unit_name l
| _ => Err (invalid_param "units must be a list of systemd unit names.")
end.
Definition _normalize_show_systemctl_services_execution (i : norm_input) : res payload :=
params ← params_of i;
endpoint_id ← _int_range params "proxmox_endpoint_id" 1 None;
_ ← same_endpoint i endpoint_id;
units ← unit_names (get "units" params);
let entries := ["proxmox_endpoint_id" :- VInt endpoint_id; "units" :- texts_value units] in
Ok (opening i entries entries).
End Proxmox.
