(* ===== verification/NormalizeAllowlists.v ===== *)
(** * Normalization: allowlisted procedures

    The normalizers of [netbox_rpc/domain/normalization.py] whose parameters name a row
    of an allowlist: the service procedures, the environment file and the plugin install,
    with the credential reference such a row carries.

    The rows are the lists of their tables.  netbox-openbao is outside the program: its
    [CredentialAssignment] rows and what the requester may view are what
    [openbao_directory] holds. *)

From S2P Require Import Prelude PyValue CredentialContract Spans PyRegex SecretPatterns.
From S2P Require Import Protected Contracts Backends CredentialAuthority Targets Admission.
From S2P Require Import Normalize NormalizeDevices NormalizeHosts NormalizeStores.
Import JsonNotations.

Local Open Scope Z_scope.

Section AllowlistPatterns.
Local Open Scope re_scope.
Definition upper (c : char) : bool := between 65 90 c.
Definition _LINUX_ENV_VAR_NAME_RE : re := RSet upper ++ star (RSet (fun c => upper c || digit c || chars "_" c)%bool).
Definition _ENVIRONMENT_FILE_PATH_RE : re :=
ch 47%N ++ RNotLook (star (notset [LF]) ++ lit "..") ++ rep 1 254 (cls "/._-").
Definition _PYTHON_DISTRIBUTION_RE : re := cls EmptyString ++ opt (rep 0 98 (cls "._-") ++ cls EmptyString).
Definition identifier_re : re := RSet (fun c => ascii_letter c || chars "_" c)%bool ++ star (cls "_").
Definition _PYTHON_MODULE_RE : re := identifier_re ++ star (ch 46%N ++ identifier_re).
Definition _PYTHON_EXACT_VERSION_RE : re := RSet digit ++ rep 0 63 (cls ".!+-").
End AllowlistPatterns.

(** ** The tables *)

Record RPCLinuxServiceAllowlist := {
  sa_slug : string;
  sa_systemd_unit : string;
  sa_environment_file : option string;
  sa_enabled : bool;
  sa_target_models : list string;
  sa_ssh_credential_override_id : option Z;
  sa_openbao_assignment_id : option Z;
}.
Record RPCNetBoxPluginAllowlist := {
  pa_slug : string;
  pa_distribution : string;
  pa_module : string;
  pa_venv_python : string;
  pa_manage_py : string;
  pa_settings_file : string;
  pa_service_slugs : list string;
  pa_enabled : bool;
  pa_target_models : list string;
  pa_ssh_credential_override_id : option Z;
  pa_openbao_assignment_id : option Z;
}.
Record tables := { services : list RPCLinuxServiceAllowlist; plugins : list RPCNetBoxPluginAllowlist }.

(** [objects.filter(slug=slug, enabled=True).first()]. *)
Definition service_row (t : tables) (slug : string) : option RPCLinuxServiceAllowlist :=
  List.find (fun r => String.eqb (sa_slug r) slug && sa_enabled r) (services t).
Definition plugin_row (t : tables) (slug : string) : option RPCNetBoxPluginAllowlist :=
  List.find (fun r => String.eqb (pa_slug r) slug && pa_enabled r) (plugins t).

(** ** Credential references *)

Record CredentialAssignment := {
  ca_enabled : bool;
  ca_purpose : string;
  ca_object_type_id : value;
  ca_object_id : value;
  ca_credential_id : Z;
}.
(** [od_viewable] is [None] when the execution has no requester. *)
Record openbao_directory := {
  od_installed : bool;
  od_assignment : Z -> option CredentialAssignment;
  od_viewable : option (Z -> bool);
}.
Definition _OPENBAO_SSH_ASSIGNMENT_PURPOSE : string := "login".

Definition resolve_openbao_assignment_reference (d : openbao_directory) (i : norm_input)
  (assignment_id : option Z) (enforce_target_binding : bool) : res (option Z) :=
  match assignment_id with
  | None => Ok None
  | Some pk =>
      _ ← require (od_installed d)
            (RPCExecutionError "RPC_OPENBAO_NOT_INSTALLED"
               "An OpenBao credential assignment is configured but netbox-openbao is not installed.");
      assignment ← match od_assignment d pk with
                   | Some a => if ca_enabled a then Ok a else
                       Err (RPCExecutionError "RPC_OPENBAO_ASSIGNMENT_INVALID"
                              "The configured OpenBao credential assignment does not exist or is disabled.")
                   | None => Err (RPCExecutionError "RPC_OPENBAO_ASSIGNMENT_INVALID"
                              "The configured OpenBao credential assignment does not exist or is disabled.")
                   end;
      _ ← require (String.eqb (ca_purpose assignment) _OPENBAO_SSH_ASSIGNMENT_PURPOSE)
            (RPCExecutionError "RPC_OPENBAO_ASSIGNMENT_PURPOSE_MISMATCH"
               "The configured OpenBao credential assignment has the wrong purpose for SSH dispatch.");
      _ ← require (negb enforce_target_binding
                   || (py_eqb (ca_object_type_id assignment) (ni_type_id i)
                       && py_eqb (ca_object_id assignment) (ni_object_id i)))
            (RPCExecutionError "RPC_OPENBAO_ASSIGNMENT_TARGET_MISMATCH"
               "The configured OpenBao credential assignment is not bound to this execution's target.");
      _ ← require (match od_viewable d with None => true | Some view => view (ca_credential_id assignment) end)
            (RPCExecutionError "RPC_OPENBAO_CREDENTIAL_PERMISSION_DENIED"
               "You do not have permission to view the configured OpenBao credential.");
      Ok (Some pk)
  end.

(** The reference of OpenBao comes first; the legacy one is not in the fingerprint. *)
Definition _apply_allowlist_credential_reference (d : openbao_directory) (i : norm_input)
  (openbao_assignment_id ssh_credential_override_id : option Z) (p : payload) : res payload :=
  openbao_reference ← resolve_openbao_assignment_reference d i openbao_assignment_id true;
  Ok (match openbao_reference, ssh_credential_override_id with
      | Some pk, _ => both "rpc_openbao_assignment_id" (VInt pk) p
      | None, Some pk => put "rpc_ssh_credential_pk" (VInt pk) p
      | None, None => p
      end).

(** ** The normalizers *)

(** A row that names models serves those alone. *)
Definition serves (target_models : list string) (i : norm_input) : bool :=
  bool_decide (target_models = []) || str_in (ni_target_model i) target_models.
Definition allowed_service (t : tables) (i : norm_input) (slug : string) : res RPCLinuxServiceAllowlist :=
  allow ← match service_row t slug with
          | Some r => Ok r
          | None => Err (RPCExecutionError "RPC_LINUX_SERVICE_NOT_ALLOWLISTED"
                           ("Linux service " +:+ repr_str slug +:+ " is not allowlisted."))
          end;
  _ ← require (serves (sa_target_models allow) i)
        (RPCExecutionError "RPC_LINUX_SERVICE_TARGET_DENIED"
           ("Linux service " +:+ repr_str slug +:+ " is not allowed for " +:+ ni_target_model i +:+ "."));
  Ok allow.

Definition _normalize_linux_service_execution (t : tables) (d : openbao_directory) (i : norm_input) : res payload :=
  params ← params_of i;
  let slug := text_of (get "service_slug" params) in
  allow ← allowed_service t i slug;
  let unit := VStr (sa_systemd_unit allow) in
  _apply_allowlist_credential_reference d i (sa_openbao_assignment_id allow) (sa_ssh_credential_override_id allow)
    (opening i ["service_slug" :- VStr slug; "systemd_unit" :- unit] ["systemd_unit" :- unit]).

(** [int(params.get("lines", 100))] of the journal. *)
Definition journal_tail (t : tables) (d : openbao_directory) (i : norm_input) : res payload :=
  p ← _normalize_linux_service_execution t d i;
  params ← params_of i;
  lines ← py_int (if dict_mem "lines" params then get "lines" params else VInt 100);
  Ok (put "lines" (VInt lines) p).
Definition daemon_reload (i : norm_input) : res payload := Ok (opening i [] []).

Definition _normalize_linux_env_file_upsert_execution (f : code_gates) (t : tables) (d : openbao_directory)
  (i : norm_input) : res payload :=
  _ ← gate_open f (ni_procedure i);
  params ← params_of i;
  let slug := text_of (get "service_slug" params) in
  allow ← allowed_service t i slug;
  let environment_file := str_strip (default EmptyString (sa_environment_file allow)) in
  _ ← require (str_truthy environment_file)
        (RPCExecutionError "RPC_LINUX_SERVICE_ENVIRONMENT_FILE_MISSING"
           ("Linux service " +:+ repr_str slug +:+ " has no environment file configured."));
  _ ← require (full _ENVIRONMENT_FILE_PATH_RE environment_file)
        (RPCExecutionError "RPC_LINUX_SERVICE_ENVIRONMENT_FILE_MISSING"
           ("Linux service " +:+ repr_str slug +:+ " has a malformed environment file path."));
  let var_name := py_str (py_or (get "var_name" params) (VStr EmptyString)) in
  _ ← require (full _LINUX_ENV_VAR_NAME_RE var_name) (invalid_param "var_name must match ^[A-Z][A-Z0-9_]*$.");
  credential_pk ← _int_range params "credential_pk" 1 None;
  let entries := ["systemd_unit" :- VStr (sa_systemd_unit allow); "environment_file" :- VStr environment_file;
                  "var_name" :- VStr var_name; "credential_pk" :- VInt credential_pk] in
  _apply_allowlist_credential_reference d i (sa_openbao_assignment_id allow) (sa_ssh_credential_override_id allow)
    (opening i (["service_slug" :- VStr slug] ++ entries) entries).

(** The units of the services a plugin row lists: each has to be on the service allowlist. *)
Fixpoint restart_units (t : tables) (slug : string) (service_slugs : list string) : res (list string) :=
  match service_slugs with
  | [] => Ok []
  | service_slug :: r =>
      match service_row t (str_strip service_slug) with
      | None => Err (RPCExecutionError "RPC_LINUX_SERVICE_NOT_ALLOWLISTED"
                       ("NetBox plugin " +:+ repr_str slug +:+ " lists service " +:+ repr_str service_slug
                        +:+ ", which is not allowlisted."))
      | Some service => units ← restart_units t slug r; Ok (sa_systemd_unit service :: units)
      end
  end.
Fixpoint paths_ok (slug : string) (paths : list (string * string)) : res unit :=
  match paths with
  | [] => Ok tt
  | (field, v) :: r =>
      _ ← require (full _ENVIRONMENT_FILE_PATH_RE v)
            (RPCExecutionError "RPC_NETBOX_PLUGIN_ROW_INVALID"
               ("NetBox plugin " +:+ repr_str slug +:+ " has a malformed " +:+ field +:+ "."));
      paths_ok slug r
  end.
Definition allowed_plugin (t : tables) (i : norm_input) (slug : string) : res RPCNetBoxPluginAllowlist :=
  allow ← match plugin_row t slug with
          | Some r => Ok r
          | None => Err (RPCExecutionError "RPC_NETBOX_PLUGIN_NOT_ALLOWLISTED"
                           ("NetBox plugin " +:+ repr_str slug +:+ " is not allowlisted."))
          end;
  _ ← require (serves (pa_target_models allow) i)
        (RPCExecutionError "RPC_NETBOX_PLUGIN_TARGET_DENIED"
           ("NetBox plugin " +:+ repr_str slug +:+ " is not allowed for " +:+ ni_target_model i +:+ "."));
  Ok allow.

Definition _normalize_netbox_plugin_install_execution (f : code_gates) (t : tables) (d : openbao_directory)
  (i : norm_input) : res payload :=
  _ ← gate_open f (ni_procedure i);
  params ← params_of i;
  let slug := text_of (get "plugin_slug" params) in
  allow ← allowed_plugin t i slug;
  let malformed (what : string) :=
    RPCExecutionError "RPC_NETBOX_PLUGIN_ROW_INVALID" ("NetBox plugin " +:+ repr_str slug +:+ " has a malformed " +:+ what) in
  let distribution := str_strip (pa_distribution allow) in
  let module := str_strip (pa_module allow) in
  _ ← require (full _PYTHON_DISTRIBUTION_RE distribution) (malformed "distribution name.");
  _ ← require (full _PYTHON_MODULE_RE module) (malformed "module path.");
  let venv_python := str_strip (pa_venv_python allow) in
  let manage_py := str_strip (pa_manage_py allow) in
  let settings_file := str_strip (pa_settings_file allow) in
  _ ← paths_ok slug [("venv_python", venv_python); ("manage_py", manage_py); ("settings_file", settings_file)];
  let version := text_of (get "version" params) in
  _ ← require (full _PYTHON_EXACT_VERSION_RE version)
        (invalid_param "version must be an exact version, not a range or an unpinned name.");
  systemd_units ← restart_units t slug (pa_service_slugs allow);
  _ ← require (negb (bool_decide (systemd_units = [])))
        (RPCExecutionError "RPC_NETBOX_PLUGIN_NO_SERVICES"
           ("NetBox plugin " +:+ repr_str slug +:+ " lists no services to restart; the install would never take effect."));
  let entries := ["distribution" :- VStr distribution; "version" :- VStr version; "module" :- VStr module;
                  "settings_file" :- VStr settings_file; "systemd_units" :- VList (map VStr systemd_units)] in
  _apply_allowlist_credential_reference d i (pa_openbao_assignment_id allow) (pa_ssh_credential_override_id allow)
    (opening i (["plugin_slug" :- VStr slug; "venv_python" :- VStr venv_python; "manage_py" :- VStr manage_py;
                 "dry_run" :- VBool (flag_of params "dry_run" false)] ++ entries) entries).
