(* ===== verification/NormalizePinned.v ===== *)
(** * Normalization: procedures bound to one reviewed device

    The normalizers of [netbox_rpc/domain/normalization.py] that take next to no
    parameter and run on one device: the rotation of the staging token, the credential
    importer, the release marker and the retained images, whose device is the one an
    [RPCTargetBinding] row names; the Proxmox Backup Server; and the RQ worker and the
    IAM interface, which check their payload against the schema of the contract.

    The bindings are what [RPCTargetBinding.objects.filter(slug=slug).first()] answers; an
    error is the exception of the query.  A [last_updated] is a datetime or nothing, as
    the column gives it. *)

From S2P Require Import Prelude PyValue CredentialContract Protected Contracts Lease.
From S2P Require Import Capabilities Backends CredentialAuthority Targets Admission.
From S2P Require Import Normalize NormalizeDevices NormalizeStores.
Import JsonNotations.

Local Open Scope Z_scope.

(** ** Constants *)

Definition NETBOX_OPENBAO_IMPORT_DRY_RUN : string := "service.netbox.openbao_import.dry_run".
Definition NMULTICLOUD_DEPLOY_RELEASE_MARKER_CHECK : string := "service.nmulticloud.deploy.release_marker_check".
Definition PROXBOX_API_RELEASE_IMAGES_INSPECT : string := "service.proxbox_api.release_images.inspect".
Definition PBS_1_DATASTORE_FROM_DISK : string := "service.pbs.1.datastore_from_disk".
Definition RPC_TARGET_BINDING_SLUG_NMULTICLOUD_DEPLOY_HOST : string := "nmulticloud-deploy-host".
Definition NMULTICLOUD_DEPLOY_RELEASE_MARKER_APPS : list string := ["nms-backend-staging"; "nms-backend"].
Definition _STAGING_BACKEND_TOKEN_ROTATION_INTERNAL_PARAM_KEYS : list string :=
  ["_intent"; "_intent_name"; "_timeout_seconds_snapshot"].
Definition _OPENBAO_IMPORT_BINDING_SLUGS : list (string * string) :=
  [("staging", "netbox-openbao-import-staging"); ("production", "netbox-openbao-import-production")].
Definition DEVICE_TYPE : string := "dcim.device".

(** ** The target and the parameters *)

(** The object exists and its key is the one of the execution. *)
Definition same_object (i : norm_input) : bool :=
  positive_id (ni_object_id i) && negb (is_nothing (ni_object i)) && attr_is (attr (ni_object i) "pk") (ni_object_id i).
Definition named_object (i : norm_input) (name : string) : bool :=
  same_object i && attr_is (attr (ni_object i) "name") name.
(** The model of the target is the device. *)
Definition device_target (i : norm_input) (type_message : string) : res unit :=
  demand (String.eqb (ni_target_model i) DEVICE_TYPE) type_message.
(** [{} if params is None else params], an object. *)
Definition object_params (i : norm_input) (message : string) : res dict :=
  match ni_params i with
  | VNone => Ok []
  | VDict d => Ok d
  | _ => Err (invalid_param message)
  end.
Definition only_keys (params : dict) (allowed : list string) (prefix : string) : res unit :=
  let unexpected := foreign_keys params allowed in
  require_none unexpected (invalid_param (prefix +:+ " unexpected field(s): " +:+ str_join ", " unexpected +:+ ".")).
(** [v in names] for texts. *)
Definition text_in (v : value) (names : list string) : option string :=
  match v with VStr s => if str_in s names then Some s else None | _ => None end.

Definition object_of (i : norm_input) : value :=
  VDict ["content_type" :- DEVICE_TYPE; "object_id" :- ni_object_id i].

(** ** Revisions *)

(** [s.replace(old, new)]; [skip] characters belong to the occurrence just replaced. *)
Fixpoint replace_from (old new : string) (skip : nat) (s : string) : string :=
  match s with
  | EmptyString => EmptyString
  | String c r =>
      match skip with
      | S n => replace_from old new n r
      | O => if str_startswith old s then new +:+ replace_from old new (String.length old - 1) r
             else String c (replace_from old new O r)
      end
  end.
Definition str_replace (old new s : string) : string := replace_from old new O s.

Definition positive_attr (o : Targets.attribute) : option Z :=
  match o with Val (VInt n) => if 1 <=? n then Some n else None | _ => None end.

Section Revisions.
Context `{LeaseLib}.
(** The aware timestamp in UTC; [None] is the [ValueError] of a naive one or the
  [OverflowError] of one that has no date in UTC. *)
Definition rendered_utc (iso : string) : option string :=
match parse_timestamp iso with
| Some (Aware t) =>
  if (-62135596800000000 <=? t) && (t <? 253402300800000000)
  then Some (str_replace "+00:00" "Z" (isoformat t)) else None
| _ => None
end.
(** [_rpc_target_binding_revision] and [_model_revision] are this body with the message
  of their caller. *)
Definition revision_of (o : Targets.attribute) (subject : string) : res string :=
match attr o "last_updated" with
| Val (VDatetime iso) =>
  let refusal := invalid (subject +:+ " revision is invalid.") in
  match rendered_utc iso with
  | Some rendered => if str_truthy rendered && (str_len rendered <=? 64) then Ok rendered else refusal
  | None => refusal
  end
| _ => invalid (subject +:+ " requires a stable revision.")
end.
Definition _rpc_target_binding_revision (binding : Targets.attribute) (slug : string) : res string :=
revision_of binding ("netbox-openbao import target binding " +:+ repr_str slug).
Definition _model_revision (o : Targets.attribute) (label : string) : res string :=
revision_of o ("Production Gitea " +:+ label).
End Revisions.

Definition _positive_model_pk (o : Targets.attribute) (label : string) : res Z :=
  match positive_attr (attr o "pk") with
  | Some pk => Ok pk
  | None => invalid ("Production Gitea " +:+ label +:+ " requires a stable positive ID.")
  end.

(** ** Bindings *)

Definition bindings : Type := string -> res (option Targets.attribute).
Record bound := { bound_device : Z; bound_id : Z; bound_revision : string }.

Section Normalizers.
Context `{PyLib} `{LeaseLib} `{JsonSchema}.

(** The body of the two resolvers, with their messages. *)
Definition resolve_binding (rows : bindings) (slug query_message missing_message subject : string) : res bound :=
binding ← match rows slug with
          | Err _ => invalid query_message
          | Ok None => invalid missing_message
          | Ok (Some b) => Ok b
          end;
device_id ← match positive_attr (attr binding "device_id") with
            | Some n => Ok n
            | None => invalid (subject +:+ " has no valid device.")
            end;
binding_id ← match positive_attr (attr binding "pk") with
             | Some n => Ok n
             | None => invalid (subject +:+ " has no valid id.")
             end;
revision ← _rpc_target_binding_revision binding slug;
Ok {| bound_device := device_id; bound_id := binding_id; bound_revision := revision |}.
Definition _openbao_import_target_binding (rows : bindings) (environment : string) : res bound :=
slug ← match table_get environment _OPENBAO_IMPORT_BINDING_SLUGS with Some s => Ok s | None => Err KeyError end;
resolve_binding rows slug
  ("netbox-openbao import could not resolve the " +:+ repr_str slug +:+ " target binding.")
  ("netbox-openbao import requires an RPCTargetBinding with slug " +:+ repr_str slug +:+ ".")
  ("netbox-openbao import target binding " +:+ repr_str slug).
Definition _release_marker_target_binding (rows : bindings) : res bound :=
let slug := RPC_TARGET_BINDING_SLUG_NMULTICLOUD_DEPLOY_HOST in
resolve_binding rows slug
  ("the release-marker procedures could not resolve the " +:+ repr_str slug +:+ " target binding.")
  ("the release-marker procedures require an RPCTargetBinding with slug " +:+ repr_str slug +:+ ".")
  ("release-marker target binding " +:+ repr_str slug).

Definition bound_here (i : norm_input) (b : bound) (message : string) : res unit :=
demand (py_eqb (ni_object_id i) (bound_device b)) message.
(** The binding and the object, in the fingerprint. *)
Definition mark_target (i : norm_input) (p : payload) : payload :=
mark "target_object_sha256" (_hash_json (object_of i))
  (mark "assigned_object_id" (ni_object_id i) (put "target_object" (object_of i) p)).
Definition mark_binding (b : bound) (p : payload) : payload :=
mark "target_binding_revision" (VStr (bound_revision b)) (mark "target_binding_id" (VInt (bound_id b)) p).

(** ** The rotation of the staging token *)

Definition _normalize_staging_backend_token_rotation_execution (i : norm_input) : res payload :=
_ ← device_target i "Staging backend token rotation requires the nms-front-door device target.";
let target := str_strip (ni_target i) in
_ ← demand (String.eqb target "nms-front-door") "Staging backend token rotation requires the nms-front-door target.";
_ ← demand (named_object i target) "Staging backend token rotation requires the existing nms-front-door device.";
params ← object_params i "Staging backend token rotation params must be an object.";
_ ← only_keys params _STAGING_BACKEND_TOKEN_ROTATION_INTERNAL_PARAM_KEYS
      "Staging backend token rotation accepts no caller parameters;";
Ok (put "target" (VStr target) (mark "target" (VStr target) (mark_target i (opening i [] [])))).

(** ** The credential importer *)

Definition _normalize_openbao_import_execution (rows : bindings) (i : norm_input) : res payload :=
_ ← device_target i "The netbox-openbao credential importer requires a dcim.device target.";
_ ← demand (same_object i) "The netbox-openbao credential importer requires an existing viewable dcim.device target.";
params ← object_params i "netbox-openbao import params must be an object.";
_ ← only_keys params ["environment"; "_intent"; "_intent_name"; "_timeout_seconds_snapshot"]
      "netbox-openbao import accepts only 'environment';";
environment ← match text_in (get "environment" params) (map fst _OPENBAO_IMPORT_BINDING_SLUGS) with
              | Some s => Ok s
              | None => Err (invalid_param "netbox-openbao import requires environment in ('staging', 'production').")
              end;
b ← _openbao_import_target_binding rows environment;
_ ← bound_here i b
      ("netbox-openbao import environment " +:+ repr_str environment
       +:+ " is bound to a different device; the execution target must equal the device on RPCTargetBinding slug "
       +:+ repr_str (default EmptyString (table_get environment _OPENBAO_IMPORT_BINDING_SLUGS)) +:+ ".");
Ok (both "environment" (VStr environment) (mark_binding b (mark_target i (opening i [] [])))).

(** ** The release marker *)

(** No other key is accepted, those the platform stamps included. *)
Definition _normalize_release_marker_execution (rows : bindings) (i : norm_input) : res payload :=
_ ← device_target i "the release-marker procedures require a dcim.device target.";
_ ← demand (same_object i) "the release-marker procedures require an existing viewable dcim.device target.";
params ← object_params i "release-marker params must be an object.";
_ ← only_keys params ["app"] "release-marker procedures accept only 'app';";
app ← match text_in (get "app" params) NMULTICLOUD_DEPLOY_RELEASE_MARKER_APPS with
      | Some s => Ok s
      | None => Err (invalid_param "release-marker procedures require app in ('nms-backend-staging', 'nms-backend').")
      end;
b ← _release_marker_target_binding rows;
_ ← bound_here i b
      ("the release-marker procedures' execution target must equal the device on RPCTargetBinding slug "
       +:+ repr_str RPC_TARGET_BINDING_SLUG_NMULTICLOUD_DEPLOY_HOST +:+ ".");
Ok (both "app" (VStr app) (mark_binding b (mark_target i (opening i [] [])))).

(** ** The retained images *)

Definition _normalize_proxbox_api_release_images_execution (rows : bindings) (i : norm_input) : res payload :=
_ ← device_target i "proxbox-api release-image procedures require a dcim.device target.";
_ ← demand (named_object i "nmc-prod-207" && String.eqb (ni_target i) "nmc-prod-207")
      "proxbox-api release-image procedures require device nmc-prod-207.";
supplied_params ← params_of i;
_ ← require_none (foreign_keys supplied_params ["_timeout_seconds_snapshot"])
      (invalid_param "proxbox-api release-image procedures accept only an empty object.");
b ← _release_marker_target_binding rows;
_ ← bound_here i b
      ("proxbox-api release-image target must equal the device on RPCTargetBinding slug "
       +:+ repr_str RPC_TARGET_BINDING_SLUG_NMULTICLOUD_DEPLOY_HOST +:+ ".");
Ok (mark_binding b (mark_target i (opening i [] []))).

(** ** Proxmox Backup Server *)

Definition public_params (params : dict) : dict :=
List.filter (fun kv => negb (str_startswith "_" kv.1)) params.
Definition same_names (d : dict) (names : list string) : bool :=
forallb (fun k => str_in k names) (keys d) && forallb (fun k => dict_mem k d) names.
Definition both_all (d : dict) (p : payload) : payload := fold_left (fun q kv => both kv.1 kv.2 q) d p.
Definition _normalize_pbs_execution (f : code_gates) (i : norm_input) : res payload :=
_ ← gate_open f (ni_procedure i);
let model_label := ni_target_model i in
_ ← demand (str_in model_label [DEVICE_TYPE; VM_TYPE] && named_object i (ni_target i))
      "PBS procedures require one existing device or virtual machine target.";
params ← object_params i "PBS params must be an object.";
let public := public_params params in
let allowed := if String.eqb (ni_procedure i) PBS_1_DATASTORE_FROM_DISK
               then ["name"; "disk"; "filesystem"; "disk_identity"] else [] in
_ ← require (same_names public allowed) (invalid_param "PBS procedure parameters do not match the closed contract.");
let o := VDict ["content_type" :- model_label; "object_id" :- ni_object_id i] in
Ok (both_all public (both "target_object" o (opening i [] ["procedure" :- VStr (ni_procedure i)]))).

(** ** The RQ worker and the IAM interface: device 44 and a schema *)

Definition CONTROL_TARGET_ID : Z := 44.
Definition target_object_schema : value :=
VDict (closed ["content_type" :- VDict ["const" :- DEVICE_TYPE]; "object_id" :- VDict ["const" :- CONTROL_TARGET_ID]]).
(** [normalized_schema], around the schema of the fingerprint. *)
Definition normalized_schema (fingerprint_schema : dict) : dict :=
closed ["target" :- VDict ["const" :- RqWorker.TARGET_NAME]; "target_object" :- target_object_schema;
        "command_fingerprint" :- VDict fingerprint_schema].
Definition control_fingerprint_schema (handler_id : string) (more : dict) : dict :=
closed (["handler_id" :- VDict ["const" :- handler_id]; "procedure" :- VDict ["const" :- handler_id];
         "target_object" :- target_object_schema] ++ more).

Definition IAM_PREFIX : string := "service.keycloak.iam_ui.".
Definition IAM_HELPER : string := "/opt/nmulticloud/deploy/keycloak/bin/iam-ui-control".
(** [name.removeprefix(PREFIX)]. *)
Definition removeprefix (prefix s : string) : string :=
if str_startswith prefix s then String.substring (String.length prefix) (String.length s) s else s.
(** [canonical_sha256] of the command. *)
Definition iam_argv_sha256 (name : string) : value :=
_hash_json (VList [:"sudo"; "-n"; IAM_HELPER; removeprefix IAM_PREFIX name:]).

Definition control_target (i : norm_input) : bool :=
String.eqb (ni_target_model i) DEVICE_TYPE && py_eqb (ni_object_id i) CONTROL_TARGET_ID
&& negb (is_nothing (ni_object i)) && attr_is (attr (ni_object i) "pk") CONTROL_TARGET_ID
&& attr_is (attr (ni_object i) "name") RqWorker.TARGET_NAME && String.eqb (ni_target i) RqWorker.TARGET_NAME.
(** The two normalizers share their shape; the schemas are those of the contract. *)
Definition control_execution (i : norm_input) (target_message params_message schema_message : string)
  (names : list string) (more_schema : string -> dict) (more : dict) : res payload :=
let name := ni_procedure i in
let o := VDict ["content_type" :- DEVICE_TYPE; "object_id" :- CONTROL_TARGET_ID] in
_ ← demand (control_target i) target_message;
params ← object_params i params_message;
_ ← require_none (foreign_keys params ["_timeout_seconds_snapshot"]) (invalid_param params_message);
let p := {| body := ["target" :- RqWorker.TARGET_NAME; "target_object" :- o];
            fingerprint := ["handler_id" :- ni_handler_id i; "procedure" :- VStr name; "target_object" :- o] ++ more |} in
_ ← require (str_in name names
             && json_valid (VDict (normalized_schema (control_fingerprint_schema name (more_schema name))))
                  (VDict (assembled p)))
      (RPCExecutionError "RPC_NORMALIZED_CONTRACT_INVALID" schema_message);
Ok p.
Definition _normalize_netbox_production_rq_worker_execution (i : norm_input) : res payload :=
control_execution i "NetBox RQ worker procedures require device nmc-prod-207 (id 44)."
  "NetBox RQ worker procedures accept only an empty object."
  "NetBox RQ worker normalized contract validation failed."
  RqWorker.NETBOX_PRODUCTION_RQ_WORKER_PROCEDURE_NAMES (fun _ => []) [].
Definition _normalize_iam_ui_execution (i : norm_input) : res payload :=
control_execution i "IAM UI control requires device nmc-prod-207 (id 44)."
  "IAM UI control accepts only an empty object."
  "IAM UI normalized contract is invalid."
  IAM_UI_HANDLER_IDS (fun name => ["argv_sha256" :- VDict ["const" :- iam_argv_sha256 name]])
  ["argv_sha256" :- iam_argv_sha256 (ni_procedure i)].
End Normalizers.
