(* ===== verification/NormalizeIdentity.v ===== *)
(** * Normalization: the locked SSH identity

    The part of [netbox_rpc/domain/normalization.py] that freezes, for an approval, the
    one SSH service of a target with the revision of its credential, without its secret:
    [_resolve_locked_ssh_identity] over the rows of netbox-network or netbox-openbao, the
    host key it has to pin, and the staging DNS deployment that runs with it.

    The two plugins are outside the program: [ssh_directory] holds what their queries
    answer, nothing when the plugin is not installed. *)

From S2P Require Import Prelude PyValue CredentialContract Spans PyRegex SecretPatterns Protected Contracts Codec Lease.
From S2P Require Import Backends CredentialAuthority Targets Normalize NormalizeDevices NormalizePinned.
Import JsonNotations.

Local Open Scope Z_scope.

(** ** Attributes *)

Definition attr_truthy (o : Targets.attribute) : bool := match o with Val v => truthy v | Obj _ _ => true end.
Definition attr_true (o : Targets.attribute) : bool := match o with Val (VBool b) => b | _ => false end.
(** An attribute as a JSON value; an object is no JSON value and stands as its text. *)
Definition attr_value (o : Targets.attribute) : value := match o with Val v => v | Obj _ text => VStr text end.
(** [str(getattr(o, name, fallback) or fallback)]. *)
Definition attr_text_or (o : Targets.attribute) (name fallback : string) : string :=
  match getattr o name (Val (VStr fallback)) with
  | Val v => py_str (py_or v (VStr fallback))
  | Obj _ text => text
  end.
Definition attr_or_empty (o : Targets.attribute) (name : string) : string := attr_text (attr o name).

(** A name that is neither empty nor padded, at most 200 characters, without control
    characters. *)
Definition control_char (c : ascii) : bool := (code c <? 32) || (code c =? 127).
Definition valid_principal (s : string) : bool :=
  str_truthy s && String.eqb s (str_strip s) && (str_len s <=? 200) && negb (str_any control_char s).

(** ** The host key *)

Definition ED25519_KEY_BYTES : nat := 32.
(** The length-prefixed name of the algorithm, then the length of the key. *)
Definition ed25519_wire_prefix : list Z :=
  [0; 0; 0; 11] ++ code_points "ssh-ed25519" ++ [0; 0; 0; 32].
Definition is_ed25519_wire (decoded_key : list Z) : bool :=
  (length decoded_key =? length ed25519_wire_prefix + ED25519_KEY_BYTES)%nat
  && bool_decide (take (length ed25519_wire_prefix) decoded_key = ed25519_wire_prefix).
Definition line_breaks : list ascii := [ascii_of_nat 10; ascii_of_nat 13; ascii_of_nat 9].
Definition _validate_locked_known_hosts_entry (entry expected_host : string) : res unit :=
  _ ← demand (str_truthy entry && String.eqb entry (str_strip entry)
              && negb (str_any (fun c => bool_decide (c ∈ line_breaks)) entry) && (str_len entry <=? 512))
        "Runner registration SSH service requires one bounded host-key entry.";
  match str_split " "%char entry with
  | [host; algorithm; encoded_key] =>
      _ ← demand (str_truthy host && str_truthy algorithm && str_truthy encoded_key)
            "Runner registration known-hosts entry is malformed.";
      _ ← demand (String.eqb host expected_host && String.eqb algorithm "ssh-ed25519" && (str_len encoded_key <=? 256))
            "Runner registration known-hosts entry does not match the target.";
      match b64decode encoded_key with
      | None => invalid "Runner registration known-hosts key is malformed."
      | Some decoded_key =>
          demand (is_ed25519_wire decoded_key)
            "Runner registration known-hosts key is not an Ed25519 wire record."
      end
  | _ => invalid "Runner registration known-hosts entry is malformed."
  end.

(** ** The identity of netbox-openbao *)

Definition _openbao_ssh_method (credential_type : string) : res string :=
  if str_in credential_type ["ssh-keypair"; "ssh_key"] then Ok "key"
  else if str_in credential_type ["password"; "ssh-password"; "ssh_password"] then Ok "password"
  else invalid "Runner registration OpenBao SSH identity type is unsupported.".

Definition _openbao_ssh_host (service : Targets.attribute) (expected_host : string) : res (string * string) :=
  parsed_host ← match ip_address (attr_or_empty service "host") with
                | Some a => Ok a
                | None => invalid "Runner registration OpenBao SSH service has an invalid host."
                end;
  let known_hosts_entry := attr_or_empty service "ssh_known_hosts_entry" in
  let mismatch := "Runner registration OpenBao SSH service does not match the locked host policy." in
  match parsed_host with
  | IPv4 host =>
      _ ← demand (String.eqb host expected_host && attr_true (attr service "ssh_strict_host_key_checking")) mismatch;
      _ ← _validate_locked_known_hosts_entry known_hosts_entry expected_host;
      Ok (host, known_hosts_entry)
  | IPv6 => invalid mismatch
  end.

Record identity_metadata := {
  im_principal : string;
  im_credential_type : string;
  im_credential_uuid : string;
  im_kv_version : Z;
}.
Definition _openbao_ssh_identity_metadata (identity : Targets.attribute) : res identity_metadata :=
  _ ← demand (String.eqb (attr_or_empty identity "status") "active")
        "Runner registration OpenBao SSH identity is not active.";
  let live_version := attr identity "live_kv_version" in
  let kv := if is_nothing live_version then attr identity "kv_version" else live_version in
  kv_version ← match kv with
               | Val (VInt n) => _ ← demand (0 <=? n) "Runner registration OpenBao SSH identity has no current KV version.";
                                 Ok n
               | _ => invalid "Runner registration OpenBao SSH identity has no current KV version."
               end;
  let m := {| im_principal := attr_or_empty identity "username";
              im_credential_type := attr_or_empty identity "credential_type";
              im_credential_uuid := attr_or_empty identity "uuid";
              im_kv_version := kv_version |} in
  _ ← demand (valid_principal (im_principal m) && str_truthy (im_credential_uuid m)
              && (str_len (im_credential_type m) <=? 64))
        "Runner registration OpenBao SSH identity is invalid.";
  Ok m.

(** The queries: the enabled services of netbox-network (at most two are read), and the
    SSH endpoints on port 22 of netbox-openbao. *)
Record ssh_directory := {
  DeviceService : option (value -> value -> res (list Targets.attribute));
  ServiceEndpoint : option (value -> value -> res (list Targets.attribute));
}.

(** A row is disabled by [options = {"enabled": False}] alone. *)
Definition endpoint_enabled (endpoint : Targets.attribute) : bool :=
  match attr endpoint "options" with
  | Val (VDict d) => match get "enabled" d with VBool false => false | _ => true end
  | _ => true
  end.
Definition has_credential (o : Targets.attribute) : bool := negb (is_nothing (attr o "credential")).

Section Identity.
Context `{PyLib} `{LeaseLib}.

Definition openbao_snapshot (service : Targets.attribute) (expected_host policy_ref : string) : res dict :=
let identity := attr service "credential" in
m ← _openbao_ssh_identity_metadata identity;
h ← _openbao_ssh_host service expected_host;
service_id ← _positive_model_pk service "OpenBao SSH service";
service_revision ← _model_revision service "OpenBao SSH service";
identity_id ← _positive_model_pk identity "OpenBao SSH identity";
identity_revision ← _model_revision identity "OpenBao SSH identity";
ssh_method ← _openbao_ssh_method (im_credential_type m);
Ok ["ssh_storage_backend" :- "openbao"; "ssh_service_id" :- VInt service_id;
  "ssh_service_revision" :- VStr service_revision; "ssh_identity_id" :- VInt identity_id;
  "ssh_identity_revision" :- VStr identity_revision; "ssh_credential_uuid" :- VStr (im_credential_uuid m);
  "ssh_credential_type" :- VStr (im_credential_type m); "ssh_kv_version" :- VInt (im_kv_version m);
  "ssh_principal" :- VStr (im_principal m); "ssh_method" :- VStr ssh_method; "ssh_host" :- VStr h.1;
  "ssh_port" :- 22; "ssh_known_hosts_sha256" :- _hash_text h.2; "ssh_policy_ref" :- VStr policy_ref].
Definition _resolve_openbao_ssh_identity (d : ssh_directory) (type_id object_id : value)
(expected_host policy_ref : string) : res (option dict) :=
match ServiceEndpoint d with
| None => Ok None
| Some query =>
  endpoints ← match query type_id object_id with
              | Ok l => Ok l
              | Err _ => invalid "Runner registration OpenBao SSH policy could not be resolved."
              end;
  if bool_decide (endpoints = []) then Ok None else
  match List.filter has_credential (List.filter endpoint_enabled endpoints) with
  | [service] => Some <$> openbao_snapshot service expected_host policy_ref
  | _ => invalid "Runner registration requires exactly one enabled credentialed OpenBao SSH service."
  end
end.

(** ** The identity of netbox-network *)

Definition SUPPORTED_SSH_METHODS : list string := ["password"; "key"; "key_with_passphrase"].
Definition _require_locked_ssh_identity_material (identity : Targets.attribute) (ssh_method : string) : res unit :=
let storage_backend := attr_text_or identity "storage_backend" "local" in
let present :=
if negb (String.eqb storage_backend "local") then false
else if String.eqb ssh_method "password" then attr_truthy (attr identity "password_encrypted")
else attr_truthy (attr identity "ssh_private_key_encrypted")
     && (negb (String.eqb ssh_method "key_with_passphrase")
         || attr_truthy (attr identity "ssh_private_key_passphrase_encrypted")) in
demand present "Runner registration SSH identity requires local revision-bound material.".

Definition _build_local_ssh_snapshot (service : Targets.attribute) (expected_host policy_ref : string) : res dict :=
address ← match ip_address (str_before "/"%char (attr_str (attr (attr service "management_host") "address"))) with
        | Some a => Ok a
        | None => invalid "Runner registration SSH service has an invalid management host."
        end;
host ← match address with
     | IPv4 h => if String.eqb h expected_host then Ok h
                 else invalid "Runner registration SSH service does not match the locked host."
     | IPv6 => invalid "Runner registration SSH service does not match the locked host."
     end;
let port := attr service "port" in
let known_hosts_entry := attr_or_empty service "ssh_known_hosts_entry" in
_ ← demand (attr_int port 22 && attr_true (attr service "ssh_strict_host_key_checking"))
    "Runner registration SSH service must use strict port 22 policy.";
_ ← _validate_locked_known_hosts_entry known_hosts_entry expected_host;
let identity := attr service "credential" in
let principal := attr_or_empty identity "username" in
let ssh_method := attr_or_empty identity "auth_method" in
identity_id ← match positive_attr (attr service "credential_id") with
            | Some n => Ok n
            | None => invalid "Runner registration SSH identity is invalid."
            end;
_ ← demand (negb (is_nothing identity) && valid_principal principal && str_in ssh_method SUPPORTED_SSH_METHODS)
    "Runner registration SSH identity is invalid.";
_ ← _require_locked_ssh_identity_material identity ssh_method;
service_id ← _positive_model_pk service "SSH service";
service_revision ← _model_revision service "SSH service";
identity_revision ← _model_revision identity "SSH identity";
Ok ["ssh_service_id" :- VInt service_id; "ssh_service_revision" :- VStr service_revision;
  "ssh_identity_id" :- VInt identity_id; "ssh_identity_revision" :- VStr identity_revision;
  "ssh_storage_backend" :- "local"; "ssh_principal" :- VStr principal; "ssh_method" :- VStr ssh_method;
  "ssh_host" :- VStr host; "ssh_port" :- attr_value port; "ssh_known_hosts_sha256" :- _hash_text known_hosts_entry;
  "ssh_policy_ref" :- VStr policy_ref].

(** ** The one service of the target *)

Definition _resolve_locked_ssh_identity (d : ssh_directory) (type_id object_id : value)
(expected_host policy_ref : string) : res dict :=
_ ← demand (positive_id type_id) "Runner registration requires a concrete target content type.";
legacy_services ← match DeviceService d with
                | None => Ok []
                | Some query =>
                    match query type_id object_id with
                    | Ok l => Ok (take 2 l)
                    | Err _ => invalid "Runner registration SSH policy could not be resolved."
                    end
                end;
openbao ← (if bool_decide (legacy_services = [])
         then _resolve_openbao_ssh_identity d type_id object_id expected_host policy_ref else Ok None);
match openbao with
| Some snapshot => Ok snapshot
| None =>
  match legacy_services with
  | [service] =>
      _ ← demand (attr_true (attr service "enabled"))
            "Runner registration requires exactly one enabled target-owned SSH service.";
      _build_local_ssh_snapshot service expected_host policy_ref
  | _ => invalid "Runner registration requires exactly one enabled target-owned SSH service."
  end
end.

(** ** The staging DNS deployment *)

Section DnsStaging.
Local Open Scope re_scope.
Definition commit_sha_re : re := RRep true 40 (Some 40%nat) (RSet (fun c => between 48 57 c || between 97 102 c)%bool).
End DnsStaging.

Definition RPC_PRINCIPAL : string := "nms-proxy".
Definition requested_commit_sha (params : dict) : option string :=
match foreign_keys params ["commit_sha"; "_intent"; "_intent_name"; "_timeout_seconds_snapshot"], get "commit_sha" params with
| [], VStr s => if full commit_sha_re s then Some s else None
| _, _ => None
end.
Definition _normalize_dns_staging_deploy_execution (d : ssh_directory) (i : norm_input) : res payload :=
_ ← device_target i "Staging DNS deployment requires the nms-front-door device target.";
let target := str_strip (ni_target i) in
_ ← demand (String.eqb target "nms-front-door") "Staging DNS deployment requires the nms-front-door target.";
_ ← demand (named_object i target) "Staging DNS deployment requires the existing nms-front-door device.";
params ← match ni_params i with
       | VDict params => Ok params
       | _ => Err (invalid_param "Staging DNS deployment params must be an object.")
       end;
commit_sha ← match requested_commit_sha params with
           | Some s => Ok s
           | None => Err (invalid_param "Staging DNS deployment requires only one lowercase 40-hex commit_sha.")
           end;
ssh_host ← match primary_address (ni_object i) with
         | Some (IPv4 host) => Ok host
         | _ => invalid "Staging DNS deployment requires one explicit primary IPv4 address."
         end;
let policy_ref := "target-owned-ssh:dcim.device:" +:+ py_str (ni_object_id i) in
ssh_snapshot ← _resolve_locked_ssh_identity d (ni_type_id i) (ni_object_id i) ssh_host policy_ref;
_ ← demand (py_eqb (get "ssh_principal" ssh_snapshot) (VStr RPC_PRINCIPAL)
          && py_eqb (get "ssh_policy_ref" ssh_snapshot) (VStr policy_ref))
    "Staging DNS deployment requires the dedicated nms-proxy SSH identity.";
let p := mark_target i (opening i [] []) in
Ok (put "target" (VStr target) (mark "target" (VStr target)
 (both "commit_sha" (VStr commit_sha) (both "ssh_policy_ref" (VStr policy_ref)
 (mark "ssh_snapshot_sha256" (_hash_json (VDict ssh_snapshot)) (put "ssh_snapshot" (VDict ssh_snapshot) p)))))).
End Identity.
