(* ===== verification/NormalizeGitea.v ===== *)
(** * Normalization: Gitea

    The normalizers of [netbox_rpc/domain/normalization.py] for the production upgrade of
    Gitea, for the registration of its runner, which snapshots the fence of the token
    scope, and for the Docker runners; with the SSH identity the upgrade requires, which
    has its own host-key validator.

    [gitea_vm] is what the lookup of the locked Gitea machine answers, with its tags and
    the key of its content type; [fences] the fence row of a scope and the execution it
    refers to. *)

From S2P Require Import Prelude PyValue CredentialContract Spans PyRegex SecretPatterns Protected.
From S2P Require Import Projection EventStore Aggregate Fence Contracts Codec Lease Backends CredentialAuthority Targets.
From S2P Require Import Normalize NormalizeDevices NormalizePinned NormalizeIdentity.
Import JsonNotations.

Local Open Scope Z_scope.

(** ** The host key of Gitea *)

Definition SSH_HOST_KEY_ENCODED_MAX_LENGTH : Z := 256.
Definition SSH_HOST_KEY_ALGORITHM : string := "ssh-ed25519".
(** [int.from_bytes(data, "big")]. *)
Definition from_bytes (data : list Z) : Z := fold_left (fun n b => 256 * n + b) data 0.
(** [data[start:stop]]. *)
Definition slice (start stop : Z) (data : list Z) : list Z :=
  take (Z.to_nat (stop - start)) (drop (Z.to_nat start) data).
(** The lengths are read from the record itself. *)
Definition is_exact_ed25519 (decoded_key : list Z) : bool :=
  let size := Z.of_nat (length decoded_key) in
  let algorithm_length := from_bytes (slice 0 4 decoded_key) in
  let algorithm_end := 4 + algorithm_length in
  let key_length_end := algorithm_end + 4 in
  let key_length := if key_length_end <=? size then from_bytes (slice algorithm_end key_length_end decoded_key) else -1 in
  (algorithm_length =? str_len SSH_HOST_KEY_ALGORITHM)
  && bool_decide (slice 4 algorithm_end decoded_key = code_points SSH_HOST_KEY_ALGORITHM)
  && (key_length =? Z.of_nat ED25519_KEY_BYTES) && (size =? key_length_end + Z.of_nat ED25519_KEY_BYTES).
Definition _validate_gitea_known_hosts_entry (entry : string) : res unit :=
  _ ← demand (str_truthy entry && String.eqb entry (str_strip entry)
              && negb (str_any (fun c => bool_decide (c ∈ line_breaks)) entry) && (str_len entry <=? 8192))
        "Production Gitea SSH service requires one bounded pinned known-hosts entry.";
  let malformed := "Production Gitea known-hosts entry must contain exactly host, algorithm, and key." in
  match str_split " "%char entry with
  | [host; algorithm; encoded_key] =>
      _ ← demand (str_truthy host && str_truthy algorithm && str_truthy encoded_key) malformed;
      _ ← demand (String.eqb host Upgrade.IPV4_ADDRESS)
            "Production Gitea known-hosts entry must pin only the locked IPv4 address.";
      _ ← demand (str_in algorithm [SSH_HOST_KEY_ALGORITHM])
            "Production Gitea known-hosts entry uses an unsupported host-key algorithm.";
      _ ← demand (str_len encoded_key <=? SSH_HOST_KEY_ENCODED_MAX_LENGTH)
            "Production Gitea known-hosts key token is oversized.";
      match b64decode encoded_key with
      | None => invalid "Production Gitea known-hosts entry contains malformed key material."
      | Some decoded_key =>
          demand (is_exact_ed25519 decoded_key)
            "Production Gitea known-hosts key is not an exact Ed25519 wire record."
      end
  | _ => invalid malformed
  end.

(** ** The SSH identity of the upgrade *)

(** A Passbolt resource counts as stored material. *)
Definition _require_gitea_ssh_identity_material (identity : Targets.attribute) (ssh_method : string) : res unit :=
  let storage_backend := attr_text_or identity "storage_backend" "local" in
  let material_present :=
    if String.eqb storage_backend "passbolt" then str_truthy (attr_or_empty identity "passbolt_resource_id")
    else if negb (String.eqb storage_backend "local") then false
    else if String.eqb ssh_method "password" then attr_truthy (attr identity "password_encrypted")
    else attr_truthy (attr identity "ssh_private_key_encrypted")
         && (negb (String.eqb ssh_method "key_with_passphrase")
             || attr_truthy (attr identity "ssh_private_key_passphrase_encrypted")) in
  demand material_present "Production Gitea SSH identity has no usable stored material.".

Definition GITEA_SSH_POLICY_REF : string := "target-owned-ssh:virtualization.virtualmachine:170".

Section Gitea.
Context `{PyLib} `{LeaseLib}.

Definition _resolve_gitea_upgrade_ssh_identity (d : ssh_directory) (i : norm_input) : res dict :=
query ← match DeviceService d with
      | Some q => Ok q
      | None => invalid "Production Gitea SSH policy cannot be resolved because netbox-network DeviceService is unavailable."
      end;
_ ← demand (match ni_type_id i with VNone => false | _ => true end)
    "Production Gitea SSH policy requires a concrete target content type.";
service ← match query (ni_type_id i) (VInt Upgrade.TARGET_OBJECT_ID) with
        | Err _ => invalid "Production Gitea SSH policy could not be resolved."
        | Ok [service] => Ok service
        | Ok _ => invalid "Production Gitea requires exactly one enabled target-owned SSH service."
        end;
host ← match ip_address (str_before "/"%char (attr_str (attr (attr service "management_host") "address"))) with
     | None => invalid "Production Gitea SSH service requires an explicit IPv4 management host."
     | Some (IPv4 h) =>
         if String.eqb h Upgrade.IPV4_ADDRESS then Ok h
         else invalid "Production Gitea SSH management host does not match the locked target."
     | Some IPv6 => invalid "Production Gitea SSH management host does not match the locked target."
     end;
let port := attr service "port" in
_ ← demand (attr_int port 22) "Production Gitea SSH service must explicitly use port 22.";
_ ← demand (attr_true (attr service "ssh_strict_host_key_checking"))
    "Production Gitea SSH service must enforce strict host-key checking.";
let known_hosts_entry := attr_or_empty service "ssh_known_hosts_entry" in
_ ← _validate_gitea_known_hosts_entry known_hosts_entry;
let identity := attr service "credential" in
identity_id ← match positive_attr (attr service "credential_id") with
            | Some n => if is_nothing identity
                        then invalid "Production Gitea SSH service requires a stored SSH identity." else Ok n
            | None => invalid "Production Gitea SSH service requires a stored SSH identity."
            end;
let principal := attr_or_empty identity "username" in
_ ← demand (valid_principal principal) "Production Gitea SSH identity requires a bounded principal.";
let ssh_method := attr_or_empty identity "auth_method" in
_ ← demand (str_in ssh_method SUPPORTED_SSH_METHODS) "Production Gitea SSH identity uses an unsupported method.";
_ ← _require_gitea_ssh_identity_material identity ssh_method;
service_id ← _positive_model_pk service "SSH service";
service_revision ← _model_revision service "SSH service";
identity_revision ← _model_revision identity "SSH identity";
Ok ["ssh_service_id" :- VInt service_id; "ssh_service_revision" :- VStr service_revision;
  "ssh_identity_id" :- VInt identity_id; "ssh_identity_revision" :- VStr identity_revision;
  "ssh_principal" :- VStr principal; "ssh_method" :- VStr ssh_method; "ssh_host" :- VStr host;
  "ssh_port" :- attr_value port;
  "ssh_known_hosts_sha256" :- _hash_text known_hosts_entry; "ssh_policy_ref" :- GITEA_SSH_POLICY_REF].

(** ** The production upgrade *)

Definition EXPECTED_SOURCE_VERSION : string := "1.26.2".
Definition TARGET_VERSION : string := "1.27.1".
Definition ARTIFACT_SHA256 : string := "86a7ac26e7f9c9cca0f56c4fac07fff205d5fc3bca0e54af23a204f07b833bc9".
Definition target_object_sha256 (id : Z) : value := _hash_json (target_object id).

Definition _normalize_gitea_production_upgrade_execution (d : ssh_directory) (tags : tag_manager) (i : norm_input)
: res payload :=
params ← object_params i "Production Gitea upgrade params must be an object.";
let unexpected := foreign_keys params ["_intent"; "_intent_name"; "_timeout_seconds_snapshot"] in
_ ← require_none unexpected
    (invalid_param ("Production Gitea upgrade accepts no caller parameters; unexpected field(s): "
       +:+ str_join ", " (take 8 (map (str_take 64) unexpected)) +:+ "."));
target_metadata ← validate_gitea_upgrade_target (ni_object i) tags (ni_target_model i) (ni_object_id i)
                  (Val (VStr (ni_target i)));
ssh_identity ← _resolve_gitea_upgrade_ssh_identity d i;
let versions := ["expected_source_version" :- EXPECTED_SOURCE_VERSION; "target_version" :- TARGET_VERSION;
               "artifact_sha256" :- ARTIFACT_SHA256] in
Ok {| body := target_metadata ++ versions ++ ssh_identity;
    fingerprint := ["handler_id" :- ni_handler_id i; "target" :- Upgrade.TARGET_NAME;
                    "assigned_object_id" :- Upgrade.TARGET_OBJECT_ID;
                    "target_object_sha256" :- target_object_sha256 Upgrade.TARGET_OBJECT_ID;
                    "vmid" :- Upgrade.PROXMOX_VMID; "cluster_id" :- Upgrade.CLUSTER_ID;
                    "node" :- Upgrade.NODE_NAME; "ipv4" :- Upgrade.IPV4_ADDRESS] ++ versions ++ ssh_identity |}.

(** ** The registration of the runner *)

Definition RUNNER_SSH_POLICY_REF : string := "target-owned-ssh:virtualization.virtualmachine:399".
Definition RUNNER_REGISTER_HELPER_SHA256 : string := "15b72776c546ff433dc585bb8bab0645524adada7151aa9038d7b7e2711a49ed".
Definition GITEA_TOKEN_RESET_HELPER_SHA256 : string := "67562056a5c00c1f667383b98d83ff43a136ea10079ab041079680a511614c78".

Record gitea_machine := { gm_object : Targets.attribute; gm_tags : tag_manager; gm_type_id : value }.
Definition fence_lookup : Type := string -> option (fence * option execution).

(** [operation not in OPERATIONS or scope not in SCOPE_TO_GITEA_SCOPE]: the scope is looked
up in a dictionary, where a list or an object is an error. *)
Definition runner_request (params : dict) : res (string * string * string) :=
let refusal := Err (invalid_param "Gitea runner lifecycle requires one exact operation and reviewed scope.") in
match foreign_keys params ["_intent"; "_intent_name"; "_timeout_seconds_snapshot"; "operation"; "scope"],
    text_in (get "operation" params) GiteaRunner.OPERATIONS with
| [], Some operation =>
  match get "scope" params with
  | VStr scope =>
      match dict_get scope GiteaRunner.SCOPE_TO_GITEA_SCOPE with
      | Some (VStr canonical_scope) => Ok (operation, scope, canonical_scope)
      | _ => refusal
      end
  | VList _ | VDict _ => Err TypeError
  | _ => refusal
  end
| _, _ => refusal
end.

(** The fence, as the operation needs it; [start] is the operation that is not the
reconciliation. *)
Definition fence_ready (start starting operation : string) (f : fence) (blocking : option execution) (clock : Z) : res unit :=
let clear := bool_decide (f_state f = STATE_CLEAR) in
let reconciling := negb (bool_decide (reconciliation_execution_id f = None)) in
_ ← require ((0 <=? takeover_generation f) && (takeover_generation f <? JS_SAFE_INTEGER_MAX))
    (fence_error "RPC_SCOPE_FENCE_CHANGED" "Gitea runner scope fence generation is invalid or exhausted.");
_ ← require (negb (String.eqb operation start)
           || (clear && bool_decide (blocking_execution_id f = None) && negb reconciling))
    (fence_error "RPC_SCOPE_FENCE_BLOCKED" ("Gitea runner token scope requires reconciliation before " +:+ starting +:+ "."));
_ ← require (negb (String.eqb operation "reconcile")
           || (negb clear
               && match blocking_execution_id f with Some id => id <=? JS_SAFE_INTEGER_MAX | None => false end
               && negb reconciling))
    (fence_error "RPC_SCOPE_FENCE_CLEAR" "Gitea runner token scope has no blocked operation to reconcile.");
require (negb (String.eqb operation "reconcile")
       || _gitea_runner_fence_is_quiescent f blocking RECONCILIATION_QUIESCENCE_SECONDS clock)
(fence_error "RPC_SCOPE_FENCE_BUSY" "Gitea runner token scope is still inside its remote-operation safety window.").
(** What the approval keeps of it. *)
Definition fence_snapshot (f : fence) : dict :=
["fence_state" :- VStr (fence_state_value (f_state f));
 "fence_expected_sha256" :- VStr (str_or (expected_token_sha256 f) GiteaRunner.FENCE_UNKNOWN_SHA256);
 "fence_execution_id" :- id_value (blocking_execution_id f);
 "fence_generation" :- VInt (takeover_generation f + 1)].
Definition prefixed (prefix : string) (d : dict) : dict := map (fun kv => (prefix +:+ kv.1, kv.2)) d.
Definition reviewed_principal (snapshot : dict) (principal message : string) : res unit :=
demand (py_eqb (get "ssh_principal" snapshot) (VStr principal)) message.

Definition _normalize_gitea_runner_registration_execution (d : ssh_directory) (gitea_vm : res gitea_machine)
(fences : fence_lookup) (clock : Z) (i : norm_input) : res payload :=
let params := match ni_params i with VDict params => params | _ => [] end in
request ← runner_request params;
let '(operation, scope, canonical_scope) := request in
fb ← match fences canonical_scope with
   | Some fb => Ok fb
   | None => Err (fence_error "RPC_SCOPE_FENCE_UNAVAILABLE" "Gitea runner scope fence is unavailable.")
   end;
let f := fb.1 in
_ ← fence_ready "register" "registration" operation f fb.2 clock;
target_metadata ← validate_gitea_runner_target (ni_object i) (ni_target_model i) (ni_object_id i)
                  (Val (VStr (ni_target i)));
runner_ssh ← _resolve_locked_ssh_identity d (ni_type_id i) (VInt Runner.TARGET_ID)
             (py_str (get "runner_ipv4" target_metadata)) RUNNER_SSH_POLICY_REF;
vm ← match gitea_vm with
   | Ok vm => Ok vm
   | Err _ => invalid "Gitea runner registration could not resolve the locked Gitea VM."
   end;
gitea_metadata ← validate_gitea_upgrade_target (gm_object vm) (gm_tags vm) VM_TYPE (VInt Upgrade.TARGET_OBJECT_ID)
                 (Val (VStr Upgrade.TARGET_NAME));
gitea_ssh ← _resolve_locked_ssh_identity d (gm_type_id vm) (VInt Upgrade.TARGET_OBJECT_ID) Upgrade.IPV4_ADDRESS
            GITEA_SSH_POLICY_REF;
_ ← reviewed_principal runner_ssh "nms-runner-bootstrap"
    "Runner registration SSH principal does not match reviewed policy.";
_ ← reviewed_principal gitea_ssh "nms-gitea-runner-control"
    "Gitea token-control SSH principal does not match reviewed policy.";
let normalized :=
["operation" :- VStr operation; "scope" :- VStr scope; "gitea_scope" :- VStr canonical_scope]
++ fence_snapshot f
++ ["gitea_target" :- get "target" gitea_metadata; "gitea_target_object" :- get "target_object" gitea_metadata;
    "gitea_ipv4" :- get "ipv4" gitea_metadata; "register_helper_sha256" :- RUNNER_REGISTER_HELPER_SHA256;
    "token_reset_helper_sha256" :- GITEA_TOKEN_RESET_HELPER_SHA256]
++ target_metadata ++ prefixed "runner_" runner_ssh ++ prefixed "gitea_" gitea_ssh in
Ok {| body := normalized;
    fingerprint := ["handler_id" :- ni_handler_id i; "assigned_object_id" :- Runner.TARGET_ID;
                    "target_object_sha256" :- target_object_sha256 Runner.TARGET_ID;
                    "runner_target_object_sha256" :- target_object_sha256 Runner.TARGET_ID;
                    "gitea_target_object_sha256" :- target_object_sha256 Upgrade.TARGET_OBJECT_ID] ++ normalized |}.

(** ** The Docker runners *)

Definition DOCKER_SSH_POLICY_REF : string := "target-owned-ssh:virtualization.virtualmachine:604".
Definition GITEA_USER_CI_RUNNER_PROCEDURE_NAMES : list string :=
[DIAGNOSE_PROCEDURE_NAME gitea_docker_runner_contract; RECOVER_PROCEDURE_NAME gitea_docker_runner_contract].
Definition _normalize_gitea_docker_runner_execution (d : ssh_directory) (i : norm_input) : res payload :=
let user := str_in (ni_procedure i) GITEA_USER_CI_RUNNER_PROCEDURE_NAMES in
let contract := if user then gitea_docker_runner_contract else gitea_org_docker_runner_recovery_contract in
let validator := if user then validate_gitea_docker_runner_target else validate_gitea_org_docker_runner_recovery_target in
let lane_label := if user then "user" else "organization" in
let refusal := invalid_param ("Gitea " +:+ lane_label +:+ " CI runner operations accept no caller parameters.") in
params ← match py_or (ni_params i) (VDict []) with VDict params => Ok params | _ => Err refusal end;
_ ← require_none (foreign_keys params ["_intent"; "_intent_name"; "_timeout_seconds_snapshot"]) refusal;
_ ← require (negb (truthy (ni_references i)))
    (invalid_param ("Gitea " +:+ lane_label +:+ " CI runner credentials are resolved from the assigned target."));
ssh_host ← validator (ni_object i) (ni_target_model i) (ni_object_id i) (Val (VStr (ni_target i)));
ssh_snapshot ← _resolve_locked_ssh_identity d (ni_type_id i) (VInt (TARGET_OBJECT_ID contract)) ssh_host
               DOCKER_SSH_POLICY_REF;
Ok {| body := ["ssh_snapshot" :- VDict ssh_snapshot; "ssh_policy_ref" :- DOCKER_SSH_POLICY_REF];
    fingerprint := ["handler_id" :- ni_handler_id i; "assigned_object_id" :- TARGET_OBJECT_ID contract;
                    "target_object_sha256" :- target_object_sha256 (TARGET_OBJECT_ID contract);
                    "ssh_snapshot_sha256" :- _hash_json (VDict ssh_snapshot);
                    "ssh_policy_ref" :- DOCKER_SSH_POLICY_REF] |}.
End Gitea.
