(* ===== verification/NormalizeRunners.v ===== *)
(** * Normalization: the dedicated runner machine

    The normalizers of [netbox_rpc/domain/normalization.py] for the two families that run
    on the dedicated runner machine: the protected publication pair and the provisioning
    of the organization runner, with the contract of each
    ([gitea_protected_publication_pair_contract.py], [gitea_org_ci_runner_contract.py]).

    The content type of the target is the one its model label is made of, so the check
    that the two agree always passes and is left out. *)

From S2P Require Import Prelude PyValue CredentialContract Spans PyRegex SecretPatterns Protected.
From S2P Require Import Projection EventStore Aggregate Fence Contracts Codec Lease Backends CredentialAuthority Targets.
From S2P Require Import Admission Normalize NormalizeDevices NormalizeStores NormalizePinned NormalizeIdentity NormalizeGitea.
Import JsonNotations.

Local Open Scope Z_scope.

Definition DEDICATED_SSH_POLICY_REF : string := "target-owned-ssh:virtualization.virtualmachine:416".
Definition DEDICATED_SSH_PRINCIPAL : string := "nms-runner-bootstrap".

Section Runners.
Context `{PyLib} `{LeaseLib} `{JsonSchema}.

(** ** The protected publication pair *)

Definition canonical_sha256 (v : dict) : value := _hash_json (VDict v).
Definition pair_role (role : string) : value :=
VDict ["runner_name" :- "ci-release-" +:+ role +:+ "-netbox-rpc-backend"; "label" :- "release-" +:+ role;
     "service_user" :- "nmc-rpc-release-" +:+ role; "service_name" :- "nmc-rpc-release-" +:+ role +:+ ".service";
     "workspace_root" :- "/var/lib/nmc-rpc-release-" +:+ role +:+ "/work";
     "state_root" :- "/var/lib/nmc-rpc-release-" +:+ role; "cache_root" :- "/var/cache/nmc-rpc-release-" +:+ role;
     "config_path" :- "/etc/nmc-protected-publication/" +:+ role +:+ ".yaml";
     "package_mutation" :- if String.eqb role "publisher" then "broker-socket-only" else "none"].
Definition pinned_file (path sha : string) : value := VDict ["path" :- VStr path; "sha256" :- VStr sha].
Definition PAIR_CONTRACT : dict :=
["schema_version" :- 1;
 "target" :- VDict ["name" :- PublicationPair.TARGET_NAME; "model" :- VM_TYPE;
                  "object_id" :- PublicationPair.TARGET_OBJECT_ID;
                  "object_sha256" :- canonical_sha256 PublicationPair.TARGET_OBJECT;
                  "ssh_principal" :- DEDICATED_SSH_PRINCIPAL; "ssh_policy_ref" :- DEDICATED_SSH_POLICY_REF;
                  "ssh_host" :- DedicatedRunner.TARGET_IPV4_ADDRESS];
 "scope" :- VDict ["type" :- PublicationPair.SCOPE_TYPE; "owner" :- PublicationPair.SCOPE_OWNER];
 "helpers" :- VDict
 ["prove" :- pinned_file "/usr/local/libexec/nms/prove-protected-publication-pair" PublicationPair.PROVE_HELPER_SHA256;
  "provision" :- pinned_file "/usr/local/libexec/nms/provision-protected-publication-pair"
                   PublicationPair.PROVISION_HELPER_SHA256;
  "build_sandbox" :- pinned_file PublicationPair.BUILD_SANDBOX PublicationPair.BUILD_SANDBOX_SHA256];
 "host_generation_sha256" :- PublicationPair.HOST_GENERATION_SHA256;
 "runtime_inventory_sha256" :- PublicationPair.RUNTIME_INVENTORY_SHA256;
 "runner_binary_sha256" :- "7cc722a0de44af661d299c0b86eeee03231f993effa517718e48a45c2c188ef1";
 "roles" :- VDict ["builder" :- pair_role "builder"; "publisher" :- pair_role "publisher";
                 "validator" :- pair_role "validator"];
 "separation" :- VDict ["all_identities_distinct" :- true; "validator_build_authority_absent" :- true;
                      "validator_publisher_socket_absent" :- true];
 "publication_broker" :- VDict ["path" :- "/run/nmc-release-control/publish.sock";
                              "sha256" :- PublicationPair.PUBLICATION_BROKER_SHA256;
                              "policy_sha256" :- PublicationPair.PUBLICATION_POLICY_SHA256];
 "activation_policy" :- "default-dark-explicit-operator-enable";
 "publication_credential_boundary" :- "root-broker-only";
 "publication_activation_policy" :- "never-edit-publication-runner-json"].

(** The locked identity of the machine, under its reviewed principal. *)
Definition dedicated_ssh (d : ssh_directory) (i : norm_input) : res dict :=
_resolve_locked_ssh_identity d (ni_type_id i) (VInt DedicatedRunner.TARGET_OBJECT_ID) DedicatedRunner.TARGET_IPV4_ADDRESS
DEDICATED_SSH_POLICY_REF.
Definition dedicated_target (i : norm_input) : res dict :=
validate_gitea_org_ci_runner_target (ni_object i) (ni_target_model i) (ni_object_id i) (Val (VStr (ni_target i))).

Definition _normalize_gitea_protected_publication_pair_execution (d : ssh_directory) (i : norm_input) : res payload :=
let refusal := invalid_param "Protected publication-pair procedures accept no caller parameters." in
params ← match py_or (ni_params i) (VDict []) with VDict params => Ok params | _ => Err refusal end;
_ ← require (str_in (ni_procedure i) [PublicationPair.PROVE_PROCEDURE; PublicationPair.PROVISION_PROCEDURE]) refusal;
_ ← require_none (foreign_keys params ["_intent"; "_intent_name"; "_timeout_seconds_snapshot"]) refusal;
_ ← require (negb (truthy (ni_references i)))
    (invalid_param "Protected publication-pair runners are credential-free; publication authority remains behind the independently reauthorizing root broker.");
target_metadata ← dedicated_target i;
ssh_snapshot ← dedicated_ssh d i;
_ ← reviewed_principal ssh_snapshot DEDICATED_SSH_PRINCIPAL
    "Protected publication-pair SSH principal does not match reviewed policy.";
Ok {| body := ["target" :- get "target" target_metadata; "target_object" :- VDict PublicationPair.TARGET_OBJECT;
             "ssh_snapshot" :- VDict ssh_snapshot; "ssh_policy_ref" :- DEDICATED_SSH_POLICY_REF];
    fingerprint := ["handler_id" :- ni_handler_id i; "procedure" :- VStr (ni_procedure i);
                    "assigned_object_id" :- PublicationPair.TARGET_OBJECT_ID;
                    "target_object_sha256" :- canonical_sha256 PublicationPair.TARGET_OBJECT;
                    "ssh_snapshot_sha256" :- _hash_json (VDict ssh_snapshot);
                    "ssh_policy_ref" :- DEDICATED_SSH_POLICY_REF;
                    "pair_contract_sha256" :- canonical_sha256 PAIR_CONTRACT;
                    "host_generation_sha256" :- PublicationPair.HOST_GENERATION_SHA256;
                    "provision_helper_sha256" :- PublicationPair.PROVISION_HELPER_SHA256;
                    "prove_helper_sha256" :- PublicationPair.PROVE_HELPER_SHA256;
                    "build_sandbox_sha256" :- PublicationPair.BUILD_SANDBOX_SHA256] |}.

(** ** The schemas of the organization runner *)

Definition safe_positive : dict := ["minimum" :- 1; "maximum" :- OrgCiRunner.JS_SAFE_INTEGER_MAX].
Definition typed (type : string) (more : dict) : value := VDict (("type" :- VStr type) :: more).
Definition _REVISION_PATTERN : string := "^[0-9]{4}-[0-9]{2}-[0-9]{2}T[0-9]{2}:[0-9]{2}:[0-9]{2}(?:\.[0-9]{1,6})?Z$".
Definition const_of (v : value) : value := VDict ["const" :- v].
Definition digest_schema : value := typed "string" ["pattern" :- OrgCiRunner._SHA256_PATTERN].
Definition names_of (d : dict) : value := VList (map (fun kv => VStr kv.1) d).
Definition one_of (names : list string) : value := typed "string" ["enum" :- VList (VStr <$> names)].
Definition _ssh_snapshot_schema (host policy_ref principal : string) : value :=
VDict (closed
["ssh_service_id" :- typed "integer" safe_positive;
 "ssh_service_revision" :- typed "string" ["maxLength" :- 64; "pattern" :- _REVISION_PATTERN];
 "ssh_identity_id" :- typed "integer" safe_positive;
 "ssh_identity_revision" :- typed "string" ["maxLength" :- 64; "pattern" :- _REVISION_PATTERN];
 "ssh_storage_backend" :- const_of "local"; "ssh_principal" :- const_of (VStr principal);
 "ssh_method" :- VDict ["enum" :- VList [:"key"; "key_with_passphrase"; "password":]];
 "ssh_host" :- const_of (VStr host); "ssh_port" :- const_of 22; "ssh_known_hosts_sha256" :- digest_schema;
 "ssh_policy_ref" :- const_of (VStr policy_ref)]).
Definition RUNNER_SSH_SNAPSHOT_SCHEMA : value :=
_ssh_snapshot_schema DedicatedRunner.TARGET_IPV4_ADDRESS DEDICATED_SSH_POLICY_REF DEDICATED_SSH_PRINCIPAL.
Definition GITEA_SSH_PRINCIPAL : string := "nms-gitea-runner-control".
Definition GITEA_SSH_SNAPSHOT_SCHEMA : value :=
_ssh_snapshot_schema Upgrade.IPV4_ADDRESS GITEA_SSH_POLICY_REF GITEA_SSH_PRINCIPAL.

Definition BOOLEAN_PARAM_DEFAULTS : list (string * bool) :=
[("install_docker", true); ("build_runner_image", true); ("load_prebuilt_runner_image", false); ("force_recreate", false)].
Definition boolean_schemas : dict := map (fun kb => (kb.1, typed "boolean" [])) BOOLEAN_PARAM_DEFAULTS.
Definition lane_contract_of (lane : string) : dict := dict_of (get lane OrgCiRunner.LANES).
Definition LANE_CONTRACT_SHA256 (lane : string) : value := _hash_json (get lane OrgCiRunner.LANES).
Definition _lane_fingerprint_binding (lane : string) : value :=
VDict
["if" :- VDict ["properties" :- VDict ["lane" :- const_of (VStr lane)]; "required" :- VList [VStr "lane"]];
 "then" :- VDict ["properties" :- VDict ["scope" :- const_of (get lane OrgCiRunner.SCOPE_BY_LANE);
                                      "lane_contract_sha256" :- const_of (LANE_CONTRACT_SHA256 lane)]]].
Definition GITEA_SCOPE_BY_SCOPE : list (string * string) := [("nmulticloud-org-root", OrgCiRunner.DEFAULT_ORGANIZATION)].

(** The fields of the operation, the fence and the token the two schemas share. *)
Definition operation_schemas : dict :=
["operation" :- one_of OrgCiRunner.OPERATIONS; "scope" :- one_of OrgCiRunner._SCOPES;
 "gitea_scope" :- const_of OrgCiRunner.DEFAULT_ORGANIZATION; "fence_state" :- one_of ["blocked"; "clear"; "pending"];
 "fence_expected_sha256" :- digest_schema;
 "fence_execution_id" :- VDict (("type" :- VList [:"integer"; "null":]) :: safe_positive);
 "fence_generation" :- typed "integer" safe_positive].
Definition secret_ref_schema : dict :=
["registration_token_secret_ref" :- get_of "registration_token_secret_ref" (get "properties" OrgParams.PARAMS_SCHEMA)].
Definition instance_schemas : dict :=
["gitea_instance_url" :- const_of OrgCiRunner.DEFAULT_GITEA_INSTANCE_URL;
 "organization" :- const_of OrgCiRunner.DEFAULT_ORGANIZATION].
(** An object with these required fields, these optional ones and no other. *)
Definition object_schema (required_fields optional_fields : dict) (bindings : list value) : dict :=
["type" :- "object"; "additionalProperties" :- false; "required" :- names_of required_fields;
 "properties" :- VDict (required_fields ++ optional_fields); "allOf" :- VList bindings].
Definition COMMAND_FINGERPRINT_SCHEMA : dict :=
object_schema
(["handler_id" :- const_of OrgCiRunner.HANDLER_ID; "procedure" :- const_of OrgCiRunner.PROCEDURE_NAME;
  "assigned_object_id" :- const_of DedicatedRunner.TARGET_OBJECT_ID;
  "target_object_sha256" :- const_of (target_object_sha256 DedicatedRunner.TARGET_OBJECT_ID);
  "gitea_target_object_sha256" :- const_of (target_object_sha256 Upgrade.TARGET_OBJECT_ID)]
 ++ operation_schemas
 ++ ["lane" :- one_of OrgCiRunner._LANE_NAMES; "lane_contract_sha256" :- digest_schema]
 ++ instance_schemas
 ++ ["runner_ssh_snapshot_sha256" :- digest_schema; "gitea_ssh_snapshot_sha256" :- digest_schema]
 ++ boolean_schemas)
secret_ref_schema
(map _lane_fingerprint_binding OrgCiRunner._LANE_NAMES ++ OrgParams._secret_reference_operation_bindings).
Definition NORMALIZED_PARAMS_SCHEMA : dict :=
object_schema
(["target" :- const_of OrgCiRunner.TARGET_NAME;
  "target_object" :- const_of (target_object DedicatedRunner.TARGET_OBJECT_ID);
  "runner_ipv4" :- const_of DedicatedRunner.TARGET_IPV4_ADDRESS; "gitea_target" :- const_of Upgrade.TARGET_NAME;
  "gitea_target_object" :- const_of (target_object Upgrade.TARGET_OBJECT_ID);
  "gitea_ipv4" :- const_of Upgrade.IPV4_ADDRESS; "ssh_policy_ref" :- const_of DEDICATED_SSH_POLICY_REF;
  "runner_ssh_snapshot" :- RUNNER_SSH_SNAPSHOT_SCHEMA; "gitea_ssh_snapshot" :- GITEA_SSH_SNAPSHOT_SCHEMA]
 ++ operation_schemas
 ++ ["lane" :- one_of OrgCiRunner._LANE_NAMES]
 ++ instance_schemas
 ++ ["register_helper_sha256" :- const_of RUNNER_REGISTER_HELPER_SHA256;
     "token_reset_helper_sha256" :- const_of GITEA_TOKEN_RESET_HELPER_SHA256]
 ++ boolean_schemas
 ++ ["command_fingerprint" :- VDict COMMAND_FINGERPRINT_SCHEMA])
(secret_ref_schema ++ OrgCiRunner._LANE_RESULT_PROPERTIES)
(map OrgCiRunner._lane_binding OrgCiRunner._LANE_NAMES ++ OrgParams._secret_reference_operation_bindings).

(** ** The organization runner *)

Definition _GITEA_ORG_CI_RUNNER_FORBIDDEN_SSH_OVERRIDE_PARAMS : list string :=
["rpc_ssh_credential_pk"; "rpc_ssh_host"; "rpc_ssh_port"; "rpc_ssh_known_hosts_entry"; "rpc_ssh_strict_host_key_checking"].
Definition _GITEA_ORG_CI_RUNNER_INTERNAL_PARAM_KEYS : list string := ["_intent"; "_intent_name"; "_timeout_seconds_snapshot"].
Definition _GITEA_ORG_CI_RUNNER_PARAM_KEYS : list string :=
["operation"; "lane"; "registration_token_secret_ref"] ++ map fst BOOLEAN_PARAM_DEFAULTS.

Definition org_request (params : dict) : res (string * string) :=
let refusal := invalid_param "Gitea org CI runner lifecycle requires one exact operation and lane." in
_ ← require_none (foreign_keys params (_GITEA_ORG_CI_RUNNER_PARAM_KEYS ++ _GITEA_ORG_CI_RUNNER_INTERNAL_PARAM_KEYS)) refusal;
match text_in (get "operation" params) OrgCiRunner.OPERATIONS, text_in (get "lane" params) (keys OrgCiRunner.LANES) with
| Some operation, Some lane => Ok (operation, lane)
| _, _ => Err refusal
end.
(** The reference to the token is given with a provision, and only with it. *)
Definition org_token (params : dict) (operation : string) : res dict :=
if String.eqb operation "provision" then
match get "registration_token_secret_ref" params with
| VStr secret_ref =>
    _ ← require (String.eqb secret_ref (str_strip secret_ref) && full _INFLUXDB_SECRET_REF_RE secret_ref)
          (invalid_param "registration_token_secret_ref must be one exact nms-secret:<uuid> reference.");
    Ok ["registration_token_secret_ref" :- VStr secret_ref]
| _ => Err (invalid_param "registration_token_secret_ref must be one exact nms-secret:<uuid> reference.")
end
else
_ ← require (negb (dict_mem "registration_token_secret_ref" params))
      (invalid_param "reconcile derives its token proof from the durable scope fence and must not carry a registration token reference.");
Ok [].
Definition org_boolean (params : dict) (kb : string * bool) : res (string * value) :=
b ← _bool_param params kb.1 kb.2; Ok (kb.1 :- VBool b).
Definition org_booleans (params : dict) : res dict :=
booleans ← map_res (org_boolean params) BOOLEAN_PARAM_DEFAULTS;
_ ← require (negb (truthy (get "build_runner_image" booleans) && truthy (get "load_prebuilt_runner_image" booleans)))
    (invalid_param "build_runner_image and load_prebuilt_runner_image are mutually exclusive.");
Ok booleans.

Definition _normalize_gitea_org_ci_runner_provision_execution (g : code_gates) (d : ssh_directory)
(gitea_vm : res gitea_machine) (fences : fence_lookup) (clock : Z) (i : norm_input) : res payload :=
let procedure_name := ni_procedure i in
params ← match py_or (ni_params i) (VDict []) with
       | VDict params => Ok params
       | _ => Err (invalid_param (procedure_name +:+ " params must be an object."))
       end;
_ ← gate_open g procedure_name;
let supplied_overrides := common_keys params _GITEA_ORG_CI_RUNNER_FORBIDDEN_SSH_OVERRIDE_PARAMS in
_ ← require_none supplied_overrides
    (invalid_param ("Caller-supplied SSH overrides are not accepted for " +:+ procedure_name +:+ ": "
       +:+ str_join ", " supplied_overrides +:+ "."));
request ← org_request params;
let '(operation, lane) := request in
token ← org_token params operation;
_ ← match OrgParams.activation_unavailable_reason (VDict params) with
  | Some reason => Err (RPCExecutionError "RPC_HOST_GENERATION_UNAVAILABLE" reason)
  | None => Ok tt
  end;
booleans ← org_booleans params;
target_metadata ← dedicated_target i;
let scope := get lane OrgCiRunner.SCOPE_BY_LANE in
canonical_scope ← match table_get (py_str scope) GITEA_SCOPE_BY_SCOPE with Some s => Ok s | None => Err KeyError end;
fb ← match fences canonical_scope with
   | Some fb => Ok fb
   | None => Err (fence_error "RPC_SCOPE_FENCE_UNAVAILABLE" "Gitea runner scope fence is unavailable.")
   end;
_ ← fence_ready "provision" "provisioning" operation fb.1 fb.2 clock;
runner_ssh ← dedicated_ssh d i;
vm ← match gitea_vm with
   | Ok vm => Ok vm
   | Err _ => invalid "Gitea org CI runner could not resolve the locked Gitea VM."
   end;
gitea_metadata ← validate_gitea_upgrade_target (gm_object vm) (gm_tags vm) VM_TYPE (VInt Upgrade.TARGET_OBJECT_ID)
                 (Val (VStr Upgrade.TARGET_NAME));
gitea_ssh ← _resolve_locked_ssh_identity d (gm_type_id vm) (VInt Upgrade.TARGET_OBJECT_ID) Upgrade.IPV4_ADDRESS
            GITEA_SSH_POLICY_REF;
_ ← reviewed_principal runner_ssh DEDICATED_SSH_PRINCIPAL
    "Runner provisioning SSH principal does not match reviewed policy.";
_ ← reviewed_principal gitea_ssh GITEA_SSH_PRINCIPAL
    "Gitea token-control SSH principal does not match reviewed policy.";
let request_fields :=
["operation" :- VStr operation; "scope" :- scope; "gitea_scope" :- VStr canonical_scope] ++ fence_snapshot fb.1 ++ token in
let instance := ["gitea_instance_url" :- OrgCiRunner.DEFAULT_GITEA_INSTANCE_URL;
               "organization" :- OrgCiRunner.DEFAULT_ORGANIZATION] in
let p := {| body := target_metadata
                  ++ ["gitea_target" :- get "target" gitea_metadata;
                      "gitea_target_object" :- get "target_object" gitea_metadata; "gitea_ipv4" :- get "ipv4" gitea_metadata;
                      "ssh_policy_ref" :- DEDICATED_SSH_POLICY_REF; "runner_ssh_snapshot" :- VDict runner_ssh;
                      "gitea_ssh_snapshot" :- VDict gitea_ssh]
                  ++ request_fields ++ ["lane" :- VStr lane] ++ instance
                  ++ ["register_helper_sha256" :- RUNNER_REGISTER_HELPER_SHA256;
                      "token_reset_helper_sha256" :- GITEA_TOKEN_RESET_HELPER_SHA256]
                  ++ lane_contract_of lane ++ booleans;
          fingerprint := ["handler_id" :- ni_handler_id i; "procedure" :- VStr procedure_name;
                          "assigned_object_id" :- DedicatedRunner.TARGET_OBJECT_ID;
                          "target_object_sha256" :- target_object_sha256 DedicatedRunner.TARGET_OBJECT_ID;
                          "gitea_target_object_sha256" :- target_object_sha256 Upgrade.TARGET_OBJECT_ID]
                         ++ request_fields
                         ++ ["lane" :- VStr lane; "lane_contract_sha256" :- LANE_CONTRACT_SHA256 lane] ++ instance
                         ++ ["runner_ssh_snapshot_sha256" :- _hash_json (VDict runner_ssh);
                             "gitea_ssh_snapshot_sha256" :- _hash_json (VDict gitea_ssh)] ++ booleans |} in
_ ← require (json_valid (VDict NORMALIZED_PARAMS_SCHEMA) (VDict (assembled p)))
    (RPCExecutionError "RPC_NORMALIZED_CONTRACT_INVALID" "Gitea org CI runner normalized contract validation failed.");
Ok p.
End Runners.
