(* ===== verification/NormalizeSambaDc.v ===== *)
(** * Normalization: the Samba AD domain controller

    [netbox_rpc/samba_ad_dc_contract.py], which validates and canonicalizes every setting
    of a provision, and the three normalizers of the family in
    [netbox_rpc/domain/normalization.py] with the frozen SSH identity and the reference to
    the Administrator credential.

    [ipaddress] is modelled on the texts its callers' patterns let through; the
    properties of an IPv4-mapped address are those of the mapped one.  The credentials of
    netbox-nms the requester may view are an argument. *)

From S2P Require Import Prelude PyValue CredentialContract Spans PyRegex SecretPatterns Protected Contracts Lease.
From S2P Require Import Backends CredentialAuthority Targets Normalize NormalizeDevices NormalizeServices NormalizeHosts.
From S2P Require Import NormalizePinned NormalizeIdentity.
Import JsonNotations.

Local Open Scope Z_scope.

(** ** Constants *)

Definition INTERNAL_PARAM_KEYS : list string := ["_intent"; "_intent_name"; "_timeout_seconds_snapshot"].
Definition SSH_OVERRIDE_PARAM_KEYS : list string :=
  ["rpc_ssh_credential_pk"; "rpc_ssh_host"; "rpc_ssh_port"; "rpc_ssh_known_hosts_entry"; "rpc_ssh_strict_host_key_checking"].
Definition DEFAULT_NTP_SERVERS : list string := ["a.ntp.br"; "b.ntp.br"; "c.ntp.br"].
Definition DEFAULT_TIMEZONE : string := "America/Sao_Paulo".
Definition DEFAULT_SHARE_NAME : string := "shared".
Definition RESERVED_SSH_PORTS : list Z := [53; 88; 135; 139; 389; 445; 464; 636; 3268; 3269].
Definition RESERVED_SHARE_NAMES : list string := ["global"; "homes"; "printers"; "sysvol"; "netlogon"; "ipc"; "admin"].
Definition BOUNDED_INTEGER_PARAMS : list (string * Z * Z * Z) :=
  [("fail2ban_findtime", 600, 60, 86400); ("smb_max_retry", 10, 3, 100); ("smb_bantime", 900, 60, 86400);
   ("ssh_max_retry", 5, 3, 100); ("ssh_bantime", 3600, 60, 86400)].
Definition PROVISION_REQUIRED_PARAMS : list string := ["domain"; "netbios"; "hostname"; "ip"; "forwarder"; "client_networks"].
Definition PROVISION_OPTIONAL_PARAMS : list string :=
  ["dry_run"; "ntp_servers"; "timezone"; "share_name"; "share_path"; "ssh_ports"; "ssh_networks"; "ban_exempt_networks";
   "legacy_netbios"; "freeze_cloud_init"; "admin_credential_pk"] ++ map (fun b => b.1.1.1) BOUNDED_INTEGER_PARAMS.
Definition PROVISION_PARAMS : list string := PROVISION_REQUIRED_PARAMS ++ PROVISION_OPTIONAL_PARAMS.
Definition _SHARE_PATH_MAX_LENGTH : Z := 255.

Section DcPatterns.
Local Open Scope re_scope.
Definition lower_alnum (extra : string) (c : char) : bool := (digit c || between 97 122 c || chars extra c)%bool.
Definition quad : re := rep 1 3 digits_re ++ RRep true 3 (Some 3%nat) (ch 46%N ++ rep 1 3 digits_re).
Definition _DNS_LABEL_RE : re :=
RSet (lower_alnum EmptyString) ++ opt (rep 0 61 (RSet (lower_alnum "-")) ++ RSet (lower_alnum EmptyString)).
Definition _SHORT_NAME_RE : re := RSet ascii_letter ++ opt (rep 0 13 (cls "-") ++ cls EmptyString).
Definition _IPV4_RE : re := quad.
Definition _IPV4_CIDR_RE : re := quad ++ ch 47%N ++ rep 1 2 digits_re.
Definition _SOURCE_NETWORK_RE : re :=
rep 2 45 (RSet (fun c => digit c || between 65 70 c || between 97 102 c || chars ":." c)%bool)
++ opt (ch 47%N ++ rep 1 3 digits_re).
Definition _TIMEZONE_RE : re := rep 1 64 (cls "_+/-").
Definition _SHARE_NAME_RE : re := RSet ascii_letter ++ rep 0 63 (cls "_-").
Definition _SHARE_PATH_RE : re := lit "/srv" ++ RRep true 1 None (ch 47%N ++ RRep true 1 None (cls "_.-")).
Definition _NTP_SOURCE_RE : re := rep 1 253 (cls ":.-").
End DcPatterns.

(** ** Addresses *)

(** The width, the value and the prefix of a network. *)
Record ip_net := { net_bits : Z; net_value : Z; net_prefix : Z }.
Definition net_last (n : ip_net) : Z := net_value n + Z.ones (net_bits n - net_prefix n).
(** [v in base/prefix]. *)
Definition within (bits base prefix v : Z) : bool := Z.shiftr v (bits - prefix) =? Z.shiftr base (bits - prefix).
Definition v4 (a b c d : Z) : Z := ((a * 256 + b) * 256 + c) * 256 + d.
(** The first group of an IPv6 address. *)
Definition v6 (group : Z) : Z := Z.shiftl group 112.
Definition _reserved_networks : list (Z * Z) :=
  [(0, 8); (256, 8); (512, 7); (1024, 6); (2048, 5); (4096, 4); (16384, 3); (24576, 3); (32768, 3); (40960, 3); (49152, 3);
   (57344, 4); (61440, 5); (63488, 6); (65024, 9)].

Inductive address_kind : Type := Loopback | Unspecified | Multicast | LinkLocal | Reserved.
Definition is_kind4 (k : address_kind) (v : Z) : bool :=
  match k with
  | Loopback => within 32 (v4 127 0 0 0) 8 v
  | Unspecified => v =? 0
  | Multicast => within 32 (v4 224 0 0 0) 4 v
  | LinkLocal => within 32 (v4 169 254 0 0) 16 v
  | Reserved => within 32 (v4 240 0 0 0) 4 v
  end.
Definition is_kind6 (k : address_kind) (v : Z) : bool :=
  if Z.shiftr v 32 =? 65535 then is_kind4 k (Z.land v (Z.ones 32)) else
  match k with
  | Loopback => v =? 1
  | Unspecified => v =? 0
  | Multicast => within 128 (v6 65280) 8 v
  | LinkLocal => within 128 (v6 65152) 10 v
  | Reserved => existsb (fun n => within 128 (v6 n.1) n.2 v) _reserved_networks
  end.
Definition is_kind (k : address_kind) (bits v : Z) : bool := if bits =? 32 then is_kind4 k v else is_kind6 k v.
(** A network has the property when its first and its last address have it. *)
Definition net_is (n : ip_net) (k : address_kind) : bool :=
  is_kind k (net_bits n) (net_value n) && is_kind k (net_bits n) (net_last n).

Definition aligned_net (n : ip_net) : option ip_net :=
  if aligned (net_bits n) (net_prefix n) (net_value n) then Some n else None.
(** [ip_network(s, strict=True)]: IPv4 where the address and the mask are IPv4 ones. *)
Definition parse_network (s : string) : option ip_net :=
  let '(a, m) := match str_split "/"%char s with
                 | [a] => (a, Some None)
                 | [a; m] => (a, Some (Some m))
                 | _ => (EmptyString, None)
                 end in
  match m with
  | None => None
  | Some mask =>
      match (if is_ipv4 a then match mask with None => Some 32 | Some m => ipv4_prefix m end else None) with
      | Some p => aligned_net {| net_bits := 32; net_value := ipv4_value a; net_prefix := p |}
      | None =>
          match (if is_ipv6 a then match mask with None => Some 128 | Some m => prefix_of_digits 128 m end else None) with
          | Some p => aligned_net {| net_bits := 128; net_value := ipv6_value a; net_prefix := p |}
          | None => None
          end
      end
  end.

(** *** Texts of addresses *)

Definition hex_digit (n : Z) : string :=
  String (ascii_of_nat (Z.to_nat (if n <? 10 then 48 + n else 87 + n))) EmptyString.
(** ['%x' % n] for a group. *)
Definition hex_group (n : Z) : string :=
  let d k := hex_digit (Z.land (Z.shiftr n (4 * k)) 15) in
  if 4096 <=? n then d 3 +:+ d 2 +:+ d 1 +:+ d 0
  else if 256 <=? n then d 2 +:+ d 1 +:+ d 0
  else if 16 <=? n then d 1 +:+ d 0 else d 0.
Definition groups_of (v : Z) : list Z := map (fun i => Z.land (Z.shiftr v (16 * (7 - i))) 65535) (seqZ 0 8).
(** The first longest run of zeros: its start and its length. *)
Fixpoint longest_run (i start run best_start best_len : nat) (l : list Z) : nat * nat :=
  match l with
  | [] => (best_start, best_len)
  | g :: r =>
      if g =? 0 then
        let start := if (run =? 0)%nat then i else start in
        let run := S run in
        if (best_len <? run)%nat then longest_run (S i) start run start run r
        else longest_run (S i) start run best_start best_len r
      else longest_run (S i) start 0 best_start best_len r
  end.
Definition ipv6_str (v : Z) : string :=
  let groups := groups_of v in
  let hextets := map hex_group groups in
  let '(start, run) := longest_run 0 0 0 0 0 groups in
  if (1 <? run)%nat then
    str_join ":" ((if (start =? 0)%nat then [EmptyString] else []) ++ take start hextets ++ [EmptyString]
                  ++ drop (start + run) hextets ++ (if (start + run =? 8)%nat then [EmptyString] else []))
  else str_join ":" hextets.
Definition v4_str (v : Z) : string :=
  str_join "." (map (fun k => str_of_Z (Z.land (Z.shiftr v (8 * k)) 255)) [3; 2; 1; 0]).
Definition addr_str (bits v : Z) : string := if bits =? 32 then v4_str v else ipv6_str v.
Definition net_str (n : ip_net) : string := network_str (addr_str (net_bits n) (net_value n)) (net_prefix n).
(** [ip_address(s)]: its width and its value. *)
Definition parse_address (s : string) : option (Z * Z) :=
  if str_contains "/" s then None
  else if is_ipv4 s then Some (32, ipv4_value s)
  else if is_ipv6 s then Some (128, ipv6_value s)
  else None.

Example address_texts :
  ipv6_str (ipv6_value "2001:db8:0:0:1:0:0:1") = "2001:db8::1:0:0:1"
  /\ ipv6_str (ipv6_value "::1") = "::1" /\ ipv6_str (ipv6_value "fe80::") = "fe80::" /\ ipv6_str 0 = "::"
  /\ v4_str (ipv4_value "10.0.30.96") = "10.0.30.96".
Proof. vm_compute. repeat split. Qed.

(** ** Validators *)

(** [SambaParamError], as the normalizer translates it. *)
Definition samba_error {A} (field reason : string) : res A := Err (invalid_param (field +:+ " " +:+ reason)).
Definition samba_require (b : bool) (field reason : string) : res unit := if b then Ok tt else samba_error field reason.
Definition ascii_char (c : ascii) : bool := code c <? 128.

Definition _ascii_text (v : value) (field : string) : res string :=
  match v with
  | VStr s => if str_forall ascii_char s then Ok s else samba_error field "must be an ASCII string."
  | _ => samba_error field "must be an ASCII string."
  end.
Definition strict_bool (v : value) (field : string) : res bool :=
  match v with VBool b => Ok b | _ => samba_error field "must be a boolean." end.
Definition strict_int (v : value) (field : string) (minimum : Z) (maximum : option Z) : res Z :=
  match v with
  | VInt n => _ ← samba_require (in_range minimum maximum n) field "is outside the permitted range."; Ok n
  | _ => samba_error field "must be an integer."
  end.
Definition _strict_list (v : value) (field : string) (minimum maximum : Z) : res (list value) :=
  match v with
  | VList l =>
      let n := Z.of_nat (List.length l) in
      _ ← samba_require ((minimum <=? n) && (n <=? maximum)) field
            ("must contain between " +:+ str_of_Z minimum +:+ " and " +:+ str_of_Z maximum +:+ " entries.");
      Ok l
  | _ => samba_error field "must be an array."
  end.
Definition _reject_duplicates (canonical : list string) (field : string) : res (list string) :=
  _ ← samba_require (bool_decide (NoDup canonical)) field "must not contain duplicate entries.";
  Ok canonical.

Definition is_dns_name (text : string) : bool :=
  (str_len text <=? 253) && forallb (full _DNS_LABEL_RE) (str_split "."%char text).
Definition dns_name (v : value) (field : string) : res string :=
  text ← _ascii_text v field;
  let text := str_lower text in
  _ ← samba_require (is_dns_name text) field "must be a DNS name of letters, digits and hyphens.";
  Ok text.
Definition digits_only (s : string) : bool := str_truthy s && str_forall is_digit s.
Definition is_ad_domain (text : string) : bool :=
  str_contains "." text && negb (str_endswith ".local" text) && negb (digits_only (last_part (str_split "."%char text)))
  && (str_len text <=? 237).
Definition ad_domain (v : value) : res string :=
  text ← dns_name v "domain";
  _ ← samba_require (is_ad_domain text) "domain"
        "must be a multi-label DNS domain of at most 237 characters, not an IP address or a .local name.";
  Ok text.
Definition short_name (v : value) (field : string) : res string :=
  text ← _ascii_text v field;
  _ ← samba_require (full _SHORT_NAME_RE text) field
        "must be 1-15 characters, beginning with a letter and ending in a letter or digit.";
  Ok text.

Definition routable_unicast (v : Z) : bool :=
  negb (is_kind4 Loopback v) && negb (is_kind4 Unspecified v) && negb (is_kind4 Multicast v)
  && negb (is_kind4 LinkLocal v) && negb (is_kind4 Reserved v) && negb (Z.shiftr v 24 =? 0).
Definition ipv4 (v : value) (field : string) : res string :=
  text ← _ascii_text v field;
  _ ← samba_require (full _IPV4_RE text) field "must be a dotted-quad IPv4 address.";
  _ ← samba_require (is_ipv4 text) field "must be a valid IPv4 address.";
  _ ← samba_require (routable_unicast (ipv4_value text)) field "must be a routable unicast IPv4 address.";
  Ok text.

Definition trusted_network (n : ip_net) : bool :=
  negb (net_prefix n =? 0) && negb (net_is n Multicast) && negb (net_is n Loopback) && negb (net_is n LinkLocal).
Definition client_network (item : value) : res string :=
  let field := "client_networks" in
  text ← _ascii_text item field;
  _ ← samba_require (full _IPV4_CIDR_RE text) field "entries must be IPv4 CIDRs with a prefix length.";
  network ← match parse_network text with
            | Some n => Ok n
            | None => samba_error field "entries must be strict IPv4 networks."
            end;
  _ ← samba_require (trusted_network network) field
        "entries must be trusted client networks, not /0, loopback or multicast.";
  Ok (net_str network).
Definition client_networks (v : value) : res (list string) :=
  l ← _strict_list v "client_networks" 1 16;
  canonical ← map_res client_network l;
  _reject_duplicates canonical "client_networks".

Definition reachable_unicast (a : Z * Z) : bool :=
  forallb (fun k => negb (is_kind k a.1 a.2)) [Unspecified; Multicast; Loopback; LinkLocal].
Definition _ntp_source (item : value) : res string :=
  let field := "ntp_servers" in
  text ← _ascii_text item field;
  _ ← samba_require (full _NTP_SOURCE_RE text) field "entries must be DNS names or IP addresses.";
  match parse_address text with
  | None => dns_name (VStr text) field
  | Some a =>
      _ ← samba_require (reachable_unicast a) field "entries must be reachable upstream unicast hosts.";
      Ok (addr_str a.1 a.2)
  end.
Definition ntp_servers (v : value) : res (list string) :=
  l ← _strict_list v "ntp_servers" 1 8;
  canonical ← map_res _ntp_source l;
  _reject_duplicates canonical "ntp_servers".

Definition is_timezone (text : string) : bool :=
  full _TIMEZONE_RE text && negb (str_startswith "/" text) && negb (str_contains ".." text)
  && negb (str_in EmptyString (str_split "/"%char text)).
Definition timezone_name (v : value) : res string :=
  text ← _ascii_text v "timezone";
  _ ← samba_require (is_timezone text) "timezone" "must be a relative timezone identifier such as America/Sao_Paulo.";
  Ok text.
Definition share_name (v : value) : res string :=
  text ← _ascii_text v "share_name";
  _ ← samba_require (full _SHARE_NAME_RE text) "share_name"
        "must be 1-64 letters, digits, underscores or hyphens, starting with a letter.";
  _ ← samba_require (negb (str_in (str_lower text) RESERVED_SHARE_NAMES)) "share_name" "is a reserved share name.";
  Ok text.
Definition is_share_path (text : string) : bool :=
  (str_len text <=? _SHARE_PATH_MAX_LENGTH) && full _SHARE_PATH_RE text
  && forallb (fun part => negb (str_in part ["."; ".."])) (str_split "/"%char text).
Definition share_path (v : value) : res string :=
  text ← _ascii_text v "share_path";
  _ ← samba_require (is_share_path text) "share_path"
        "must be an absolute path below /srv without spaces or . / .. components.";
  Ok text.

Definition ssh_ports (v : value) : res (list Z) :=
  l ← _strict_list v "ssh_ports" 0 16;
  ports ← map_res (fun item => strict_int item "ssh_ports" 1 (Some 65535)) l;
  _ ← samba_require (bool_decide (NoDup ports)) "ssh_ports" "must not contain duplicate entries.";
  _ ← samba_require (forallb (fun p => negb (bool_decide (p ∈ RESERVED_SSH_PORTS))) ports) "ssh_ports"
        "must not use a Samba AD service port.";
  Ok ports.
Definition specific_unicast (n : ip_net) : bool :=
  trusted_network n && negb (net_is n Unspecified) && negb (net_is n Reserved).
Definition _source_network (field : string) (item : value) : res string :=
  text ← _ascii_text item field;
  _ ← samba_require (full _SOURCE_NETWORK_RE text) field "entries must be IPv4/IPv6 addresses or CIDRs without a scope id.";
  network ← match parse_network text with
            | Some n => Ok n
            | None => samba_error field "entries must be strict IPv4/IPv6 networks."
            end;
  _ ← samba_require (specific_unicast network) field
        "entries must be specific unicast hosts or networks, not /0 or special ranges.";
  Ok (net_str network).
Definition source_networks (v : value) (field : string) : res (list string) :=
  l ← _strict_list v field 0 32;
  canonical ← map_res (_source_network field) l;
  _reject_duplicates canonical field.
Definition credential_pk (v : value) : res Z := strict_int v "admin_credential_pk" 1 None.
Definition unknown_params (params : dict) (allowed : list string) : list string :=
  take 16 (map (str_take 64) (foreign_keys params (allowed ++ INTERNAL_PARAM_KEYS))).

(** ** The settings of a provision *)

(** [params.get(key, default)]. *)
Definition get_or (key : string) (standard : value) (params : dict) : value := default standard (dict_get key params).
Definition strings (l : list string) : value := VList (map VStr l).

(** [s.upper()] of an ASCII text. *)
Definition char_upper (c : ascii) : ascii :=
  if (97 <=? code c) && (code c <=? 122) then ascii_of_nat (Z.to_nat (code c - 32)) else c.
Fixpoint str_upper (s : string) : string :=
  match s with EmptyString => EmptyString | String c r => String (char_upper c) (str_upper r) end.

Record dc_identity := { dc_domain : string; dc_netbios : string; dc_hostname : string }.
Definition _resolve_identity (params : dict) : res dc_identity :=
  domain ← ad_domain (get "domain" params);
  netbios ← short_name (get "netbios" params) "netbios";
  hostname ← short_name (get "hostname" params) "hostname";
  let r := {| dc_domain := domain; dc_netbios := str_upper netbios; dc_hostname := str_lower hostname |} in
  _ ← samba_require (negb (String.eqb (str_upper (dc_hostname r)) (dc_netbios r))) "hostname"
        "must differ from the NetBIOS domain name.";
  Ok r.
Record dc_network := {
  dc_ip : string;
  dc_forwarder : string;
  dc_client_networks : list string;
  dc_ntp_servers : list string;
  dc_timezone : string;
}.
Definition _resolve_network (params : dict) : res dc_network :=
  ip ← ipv4 (get "ip" params) "ip";
  forwarder ← ipv4 (get "forwarder" params) "forwarder";
  clients ← client_networks (get "client_networks" params);
  ntp ← ntp_servers (get_or "ntp_servers" (strings DEFAULT_NTP_SERVERS) params);
  timezone ← timezone_name (get_or "timezone" (VStr DEFAULT_TIMEZONE) params);
  _ ← samba_require (negb (String.eqb forwarder ip)) "forwarder" "must not point back to the DC itself.";
  Ok {| dc_ip := ip; dc_forwarder := forwarder; dc_client_networks := clients; dc_ntp_servers := ntp;
        dc_timezone := timezone |}.
Definition _resolve_share (params : dict) : res (string * string) :=
  name ← share_name (get_or "share_name" (VStr DEFAULT_SHARE_NAME) params);
  path ← share_path (get_or "share_path" (VStr ("/srv/samba/" +:+ name)) params);
  Ok (name, path).
Definition bounded_integer (params : dict) (b : string * Z * Z * Z) : res (string * value) :=
  let '(name, standard, minimum, maximum) := b in
  n ← strict_int (get_or name (VInt standard) params) name minimum (Some maximum);
  Ok (name :- VInt n).
Record dc_security := {
  dc_ssh_ports : list Z;
  dc_ssh_networks : list string;
  dc_ban_exempt_networks : list string;
  dc_bounded : dict;
  dc_legacy_netbios : bool;
  dc_freeze_cloud_init : bool;
}.
Definition _resolve_security (params : dict) : res dc_security :=
  ports ← ssh_ports (get_or "ssh_ports" (VList []) params);
  networks ← source_networks (get_or "ssh_networks" (VList []) params) "ssh_networks";
  exempt ← source_networks (get_or "ban_exempt_networks" (VList []) params) "ban_exempt_networks";
  bounded ← map_res (bounded_integer params) BOUNDED_INTEGER_PARAMS;
  legacy ← strict_bool (get_or "legacy_netbios" (VBool false) params) "legacy_netbios";
  freeze ← strict_bool (get_or "freeze_cloud_init" (VBool true) params) "freeze_cloud_init";
  Ok {| dc_ssh_ports := ports; dc_ssh_networks := networks; dc_ban_exempt_networks := exempt; dc_bounded := bounded;
        dc_legacy_netbios := legacy; dc_freeze_cloud_init := freeze |}.
Definition nonempty {A} (l : list A) : bool := match l with [] => false | _ => true end.
Definition _check_ssh_allowlist (s : dc_security) (dry_run : bool) : res unit :=
  let has_ports := nonempty (dc_ssh_ports s) in
  let has_networks := nonempty (dc_ssh_networks s) in
  _ ← samba_require (Bool.eqb has_ports has_networks) "ssh_networks" "must be provided if and only if ssh_ports is provided.";
  samba_require (dry_run || has_ports) "ssh_ports"
    "must list the executing session's SSH port for a live run; the installer proves the firewall will not lock the operator out.".

Record dc_settings := {
  dc_dry_run : bool;
  dc_id : dc_identity;
  dc_net : dc_network;
  dc_share : string * string;
  dc_sec : dc_security;
  dc_credential : option Z;
}.
Definition missing_params (params : dict) : list string :=
  sorted_names (List.filter (fun k => negb (dict_mem k params)) PROVISION_REQUIRED_PARAMS).
Definition admin_pk (params : dict) (dry_run : bool) : res (option Z) :=
  if dict_mem "admin_credential_pk" params then Some <$> credential_pk (get "admin_credential_pk" params)
  else _ ← samba_require dry_run "admin_credential_pk" "is required for a live run (dry_run=false)."; Ok None.
Definition resolve_provision_settings (params : dict) : res dc_settings :=
  let unexpected := unknown_params params PROVISION_PARAMS in
  _ ← samba_require (negb (nonempty unexpected)) "params"
        ("contains unsupported parameters: " +:+ str_join ", " unexpected +:+ ".");
  let missing := missing_params params in
  _ ← samba_require (negb (nonempty missing)) "params"
        ("is missing required parameters: " +:+ str_join ", " missing +:+ ".");
  dry_run ← strict_bool (get_or "dry_run" (VBool true) params) "dry_run";
  i ← _resolve_identity params;
  n ← _resolve_network params;
  sh ← _resolve_share params;
  s ← _resolve_security params;
  _ ← _check_ssh_allowlist s dry_run;
  credential ← admin_pk params dry_run;
  Ok {| dc_dry_run := dry_run; dc_id := i; dc_net := n; dc_share := sh; dc_sec := s; dc_credential := credential |}.
(** The dictionary the contract returns. *)
Definition settings_dict (s : dc_settings) : dict :=
  ["dry_run" :- VBool (dc_dry_run s); "domain" :- VStr (dc_domain (dc_id s)); "netbios" :- VStr (dc_netbios (dc_id s));
   "hostname" :- VStr (dc_hostname (dc_id s)); "ip" :- VStr (dc_ip (dc_net s)); "forwarder" :- VStr (dc_forwarder (dc_net s));
   "client_networks" :- strings (dc_client_networks (dc_net s)); "ntp_servers" :- strings (dc_ntp_servers (dc_net s));
   "timezone" :- VStr (dc_timezone (dc_net s)); "share_name" :- VStr (dc_share s).1; "share_path" :- VStr (dc_share s).2;
   "ssh_ports" :- VList (map VInt (dc_ssh_ports (dc_sec s))); "ssh_networks" :- strings (dc_ssh_networks (dc_sec s));
   "ban_exempt_networks" :- strings (dc_ban_exempt_networks (dc_sec s))]
  ++ dc_bounded (dc_sec s)
  ++ ["legacy_netbios" :- VBool (dc_legacy_netbios (dc_sec s)); "freeze_cloud_init" :- VBool (dc_freeze_cloud_init (dc_sec s))]
  ++ match dc_credential s with Some pk => ["admin_credential_pk" :- VInt pk] | None => [] end.

(** ** The Administrator credential *)

(** [DeviceCredential.objects.restrict(user, "view").filter(pk=pk).first()]; [None] when
    netbox-nms is not installed, an error when the query fails. *)
Definition credential_lookup : Type := option (Z -> res (option Targets.attribute)).

Section DomainController.
Context `{PyLib} `{LeaseLib}.

Definition resolve_samba_ad_dc_admin_credential (rows : credential_lookup) (pk : Z) (ssh_identity_id : value)
: res dict :=
query ← match rows with
      | Some q => Ok q
      | None => Err (RPCExecutionError "RPC_CREDENTIAL_UNAVAILABLE"
                       "Samba AD DC provision requires netbox-nms to resolve the Administrator credential.")
      end;
credential ← match query pk with
           | Err _ => Err (RPCExecutionError "RPC_CREDENTIAL_UNAVAILABLE"
                             "The Administrator credential could not be authorized.")
           | Ok None => Err (RPCExecutionError "RPC_CREDENTIAL_FORBIDDEN"
                               "The Administrator credential does not exist or is not viewable by the actor.")
           | Ok (Some c) => Ok c
           end;
_ ← require (String.eqb (attr_or_empty credential "auth_method") "password"
           && String.eqb (attr_text_or credential "storage_backend" "local") "local"
           && attr_truthy (attr credential "password_encrypted")
           && (match ssh_identity_id with VNone => true | id => negb (attr_is (attr credential "pk") id) end))
    (RPCExecutionError "RPC_CREDENTIAL_FORBIDDEN"
       "The Administrator credential must be a stored local password credential distinct from the target's SSH login identity.");
credential_id ← _positive_model_pk credential "Administrator credential";
revision ← _model_revision credential "Administrator credential";
Ok ["admin_credential_id" :- VInt credential_id; "admin_credential_revision" :- VStr revision].

(** ** The normalizers *)

Definition _SAMBA_AD_DC_TARGET_MODEL_LABELS : list string := [DEVICE_TYPE; VM_TYPE].
Definition _samba_ad_dc_target_object (i : norm_input) : res dict :=
_ ← demand (str_in (ni_target_model i) _SAMBA_AD_DC_TARGET_MODEL_LABELS && positive_id (ni_object_id i))
    "Ubuntu 26.04 Samba AD DC procedures require an existing assigned dcim.device or virtualization.virtualmachine.";
Ok ["content_type" :- VStr (ni_target_model i); "object_id" :- ni_object_id i].
Definition _samba_ad_dc_reject_forbidden_ssh_overrides (params : dict) (procedure_name : string) : res unit :=
let supplied := common_keys params SSH_OVERRIDE_PARAM_KEYS in
require_none supplied
(invalid_param ("Caller-supplied SSH overrides are not accepted for " +:+ procedure_name +:+ ": "
   +:+ str_join ", " supplied
   +:+ ". The execution backend resolves host, port, credential and known-host policy from the execution's assigned NetBox object, so the execution always runs against the object named in the request.")).
Definition _samba_ad_dc_reject_unknown_params (params : dict) (procedure_name : string) : res unit :=
let unexpected := unknown_params params SSH_OVERRIDE_PARAM_KEYS in
require_none unexpected
(invalid_param ("Unsupported parameters for " +:+ procedure_name +:+ ": " +:+ str_join ", " unexpected +:+ ".")).
Definition _apply_samba_ad_dc_provision_settings (params : dict) (p : payload) : res (dc_settings * payload) :=
settings ← resolve_provision_settings params;
Ok (settings, both_all (settings_dict settings) p).
Definition _samba_ad_dc_primary_ipv4 (i : norm_input) : res string :=
match primary_address (ni_object i) with
| Some (IPv4 s) => Ok s
| _ => invalid "Samba AD DC provision requires the target to have one explicit primary IPv4 address."
end.
Definition _apply_samba_ad_dc_frozen_bindings (d : ssh_directory) (rows : credential_lookup) (i : norm_input)
(settings : dc_settings) (target_object : value) (p : payload) : res payload :=
host ← _samba_ad_dc_primary_ipv4 i;
_ ← require (String.eqb host (dc_ip (dc_net settings)))
    (invalid_param "ip must equal the target's primary IPv4 address.");
let policy_ref := "target-owned-ssh:" +:+ ni_target_model i +:+ ":" +:+ py_str (ni_object_id i) in
locked ← _resolve_locked_ssh_identity d (ni_type_id i) (ni_object_id i) host policy_ref;
let ssh_snapshot := dict_set "ssh_strict_host_key_checking" (VBool true) locked in
let p := mark "target_object_sha256" (_hash_json target_object)
         (both "ssh_policy_ref" (VStr policy_ref) (both "ssh_snapshot" (VDict ssh_snapshot) p)) in
match dc_credential settings with
| None => Ok p
| Some pk =>
  admin ← resolve_samba_ad_dc_admin_credential rows pk (get "ssh_identity_id" ssh_snapshot);
  Ok (both "admin_credential_snapshot" (VDict admin) p)
end.

Definition UBUNTU_26_SAMBA_AD_DC_PROCEDURE_NAMES : list string :=
["os.linux.ubuntu.26.samba_ad_dc.preflight"; "os.linux.ubuntu.26.samba_ad_dc.provision";
 "os.linux.ubuntu.26.samba_ad_dc.verify"].
Definition dc_provision : string := "os.linux.ubuntu.26.samba_ad_dc.provision".
Definition _normalize_ubuntu_26_samba_ad_dc_execution (d : ssh_directory) (rows : credential_lookup) (i : norm_input)
: res payload :=
params ← params_of i;
_ ← require (str_in (ni_procedure i) UBUNTU_26_SAMBA_AD_DC_PROCEDURE_NAMES) (not_normalizable (ni_procedure i));
target_object ← _samba_ad_dc_target_object i;
let p := opening i ["target_object" :- VDict target_object]
         ["procedure" :- VStr (ni_procedure i); "target_content_type" :- VStr (ni_target_model i);
          "target_object_id" :- ni_object_id i] in
if String.eqb (ni_procedure i) dc_provision then
_ ← _samba_ad_dc_reject_forbidden_ssh_overrides params (ni_procedure i);
sp ← _apply_samba_ad_dc_provision_settings params p;
_apply_samba_ad_dc_frozen_bindings d rows i sp.1 (VDict target_object) sp.2
else
_ ← _samba_ad_dc_reject_unknown_params params (ni_procedure i);
_copy_optional_ssh_overrides params p.
End DomainController.
