(* ===== verification/NormalizeAkvorado.v ===== *)
(** * Normalization: Akvorado

    The normalizers of [netbox_rpc/domain/normalization.py] for the Debian 13 bootstrap of
    Akvorado and for its life cycle, with the schemas of
    [netbox_rpc/akvorado_bootstrap_contract.py] each checks its payload against.  The
    check of the configuration itself is in the file Akvorado. *)

From S2P Require Import Prelude PyValue CredentialContract Spans PyRegex SecretPatterns Protected Contracts Lease.
From S2P Require Import Capabilities Response Backends CredentialAuthority Targets Akvorado Admission.
From S2P Require Import Normalize NormalizeDevices NormalizeServices NormalizeStores NormalizePinned NormalizeIdentity.
Import JsonNotations.

Local Open Scope Z_scope.

Definition AKVORADO_BOOTSTRAP_DEBIAN13_PREFLIGHT_HANDLER : string := "os.linux_debian_13.preflight_akvorado".
Definition AKVORADO_BOOTSTRAP_DEBIAN13_INSTALL_HANDLER : string := "os.linux_debian_13.install_akvorado".

(** ** Schemas *)

Definition of_type (type : string) (more : dict) : value := VDict (("type" :- VStr type) :: more).
Definition positive_schema : value := of_type "integer" ["minimum" :- 1].
Definition sized (lo hi : Z) : value := of_type "string" ["minLength" :- VInt lo; "maxLength" :- VInt hi].
Definition sha256_schema : value := of_type "string" ["pattern" :- "^[0-9a-f]{64}$"].
Definition policy_ref_schema : value := of_type "string" ["pattern" :- "^target-owned-ssh:dcim\.device:[1-9][0-9]*$"].
Definition constant (v : value) : value := VDict ["const" :- v].
Definition _TARGET_OBJECT_SCHEMA : value :=
  VDict (closed ["content_type" :- constant DEVICE_TYPE; "object_id" :- positive_schema]).
(** The fields the two snapshots share. *)
Definition snapshot_head : dict :=
  ["ssh_service_id" :- positive_schema; "ssh_service_revision" :- of_type "string" ["format" :- "date-time"];
   "ssh_identity_id" :- positive_schema; "ssh_identity_revision" :- of_type "string" ["format" :- "date-time"]].
Definition snapshot_tail : dict :=
  ["ssh_principal" :- sized 1 200; "ssh_method" :- VDict ["enum" :- VList [:"password"; "key"; "key_with_passphrase":]];
   "ssh_host" :- of_type "string" ["format" :- "ipv4"]; "ssh_port" :- constant 22;
   "ssh_strict_host_key_checking" :- constant true; "ssh_known_hosts_sha256" :- sha256_schema;
   "ssh_policy_ref" :- policy_ref_schema].
Definition _LOCAL_SSH_APPROVAL_SNAPSHOT_SCHEMA : value :=
  VDict (closed (snapshot_head ++ ["ssh_storage_backend" :- constant "local"] ++ snapshot_tail)).
Definition _OPENBAO_SSH_APPROVAL_SNAPSHOT_SCHEMA : value :=
  VDict (closed (["ssh_storage_backend" :- constant "openbao"] ++ snapshot_head
                 ++ ["ssh_credential_uuid" :- of_type "string" ["format" :- "uuid"]; "ssh_credential_type" :- sized 1 64;
                     "ssh_kv_version" :- of_type "integer" ["minimum" :- 0]] ++ snapshot_tail)).
Definition _SSH_APPROVAL_SNAPSHOT_SCHEMA : value :=
  VDict ["oneOf" :- VList [_LOCAL_SSH_APPROVAL_SNAPSHOT_SCHEMA; _OPENBAO_SSH_APPROVAL_SNAPSHOT_SCHEMA]].
Definition when (b : bool) (d : dict) : dict := if b then d else [].
(** [_command_fingerprint_schema] and [_normalized_params_schema]. *)
Definition bootstrap_fingerprint_schema (procedure handler : string) (install : bool) : dict :=
  closed (["handler_id" :- constant (VStr handler); "procedure" :- constant (VStr procedure);
           "target_content_type" :- constant DEVICE_TYPE; "target_object_id" :- positive_schema]
          ++ when install ["allow_resource_shortfall" :- of_type "boolean" []; "target_object_sha256" :- sha256_schema;
                           "ssh_snapshot" :- _SSH_APPROVAL_SNAPSHOT_SCHEMA; "ssh_policy_ref" :- policy_ref_schema]).
Definition bootstrap_schema (procedure handler : string) (install : bool) : dict :=
  closed (["target" :- sized 1 255; "target_object" :- _TARGET_OBJECT_SCHEMA;
           "command_fingerprint" :- VDict (bootstrap_fingerprint_schema procedure handler install)]
          ++ when install ["allow_resource_shortfall" :- of_type "boolean" [];
                           "ssh_snapshot" :- _SSH_APPROVAL_SNAPSHOT_SCHEMA; "ssh_policy_ref" :- policy_ref_schema]).

Definition AKVORADO_BOOTSTRAP_NORMALIZED_PARAMS_SCHEMAS (procedure : string) : option dict :=
  if String.eqb procedure AKVORADO_BOOTSTRAP_DEBIAN13_PREFLIGHT
  then Some (bootstrap_schema procedure AKVORADO_BOOTSTRAP_DEBIAN13_PREFLIGHT_HANDLER false)
  else if String.eqb procedure AKVORADO_BOOTSTRAP_DEBIAN13_INSTALL
  then Some (bootstrap_schema procedure AKVORADO_BOOTSTRAP_DEBIAN13_INSTALL_HANDLER true)
  else None.

Definition _LIFECYCLE_TARGET_OBJECT_SCHEMA : value :=
  VDict (closed ["content_type" :- VDict ["enum" :- VList [:DEVICE_TYPE; VM_TYPE:]]; "object_id" :- positive_schema]).
Definition AKVORADO_MAX_BYTES : Z := 1024 * 1024.
Definition _lifecycle_command_fingerprint_schema (procedure : string) (config_deploy : bool) : dict :=
  closed (["handler_id" :- constant (VStr procedure); "procedure" :- constant (VStr procedure);
           "target_object" :- _LIFECYCLE_TARGET_OBJECT_SCHEMA]
          ++ when config_deploy
               ["config_content_sha256" :- sha256_schema;
                "config_content_bytes" :- of_type "integer" ["minimum" :- 1; "maximum" :- VInt AKVORADO_MAX_BYTES]]).
Definition _lifecycle_normalized_params_schema (procedure : string) (config_deploy : bool) : dict :=
  closed (["target" :- sized 1 255; "target_object" :- _LIFECYCLE_TARGET_OBJECT_SCHEMA;
           "command_fingerprint" :- VDict (_lifecycle_command_fingerprint_schema procedure config_deploy)]
          ++ when config_deploy ["config_content" :- sized 1 AKVORADO_MAX_BYTES]).

Section Akvorado.
Context `{PyLib} `{LeaseLib} `{JsonSchema} `{Yaml}.

Definition contract_check (schema : dict) (p : payload) (message : string) : res payload :=
_ ← require (json_valid (VDict schema) (VDict (assembled p))) (RPCExecutionError "RPC_NORMALIZED_CONTRACT_INVALID" message);
Ok p.

(** ** The bootstrap *)

Definition bootstrap_target (i : norm_input) : res unit :=
demand (String.eqb (ni_target_model i) DEVICE_TYPE && positive_id (ni_object_id i))
  "Debian 13 Akvorado bootstrap requires an existing dcim.device target.".
Definition bootstrap_install (d : ssh_directory) (i : norm_input) (params : dict) (p : payload) : res payload :=
ssh_host ← match primary_address (ni_object i) with
           | Some (IPv4 s) => Ok s
           | _ => invalid "Debian 13 Akvorado install requires one explicit primary IPv4 address."
           end;
let policy_ref := "target-owned-ssh:dcim.device:" +:+ py_str (ni_object_id i) in
locked ← _resolve_locked_ssh_identity d (ni_type_id i) (ni_object_id i) ssh_host policy_ref;
let ssh_snapshot := VDict (dict_set "ssh_strict_host_key_checking" (VBool true) locked) in
allow_shortfall ← _bool_param params "allow_resource_shortfall" false;
Ok (mark "target_object_sha256" (_hash_json (object_of i))
   (both "ssh_policy_ref" (VStr policy_ref) (both "ssh_snapshot" ssh_snapshot
   (both "allow_resource_shortfall" (VBool allow_shortfall) p)))).
Definition _normalize_akvorado_bootstrap_debian13_execution (f : code_gates) (d : ssh_directory) (i : norm_input)
  : res payload :=
let procedure_name := ni_procedure i in
_ ← gate_open f procedure_name;
_ ← bootstrap_target i;
params ← params_of i;
let supplied_overrides := common_keys params _INFLUXDB3_FORBIDDEN_SSH_OVERRIDE_PARAMS in
_ ← require_none supplied_overrides
      (invalid_param ("Caller-supplied SSH overrides are not accepted for " +:+ procedure_name +:+ ": "
         +:+ str_join ", " supplied_overrides +:+ ". The backend resolves SSH exclusively from the assigned device."));
let install := String.eqb procedure_name AKVORADO_BOOTSTRAP_DEBIAN13_INSTALL in
_ ← require (str_in procedure_name [AKVORADO_BOOTSTRAP_DEBIAN13_PREFLIGHT; AKVORADO_BOOTSTRAP_DEBIAN13_INSTALL])
      (not_normalizable procedure_name);
let unexpected := foreign_keys params ((if install then ["allow_resource_shortfall"] else []) ++ _INFLUXDB3_INTERNAL_PARAM_KEYS) in
_ ← require_none unexpected
      (invalid_param ("Unsupported parameters for " +:+ procedure_name +:+ ": " +:+ str_join ", " unexpected +:+ "."));
let p := opening i ["target_object" :- object_of i]
           ["procedure" :- VStr procedure_name; "target_content_type" :- DEVICE_TYPE; "target_object_id" :- ni_object_id i] in
p ← (if install then bootstrap_install d i params p else Ok p);
match AKVORADO_BOOTSTRAP_NORMALIZED_PARAMS_SCHEMAS procedure_name with
| Some schema => contract_check schema p "Debian 13 Akvorado normalized contract validation failed."
| None => Err KeyError
end.

(** ** The life cycle *)

Definition AKVORADO_LIFECYCLE_NORMALIZED_PARAMS_SCHEMAS (procedure : string) : option dict :=
if str_in procedure AKVORADO_LIFECYCLE_HANDLER_IDS
then Some (_lifecycle_normalized_params_schema procedure (String.eqb procedure AKVORADO_1_CONFIG_DEPLOY)) else None.
(** [str(getattr(assigned_object, "name", None) or assigned_object).strip()]. *)
Definition object_name (o : Targets.attribute) : string :=
str_strip (match attr o "name" with
           | Val v => if truthy v then py_str v else attr_str o
           | name => attr_str name
           end).
Definition _normalize_akvorado_1_execution (i : norm_input) : res payload :=
_ ← require (negb (is_nothing (ni_object i)))
      (RPCExecutionError "RPC_TARGET_REQUIRED" "Akvorado procedures require an existing assigned NetBox object.");
let target := object_name (ni_object i) in
_ ← demand (str_truthy target && negb (str_any control_char target))
      "The assigned NetBox object does not provide a safe target name.";
params ← params_of i;
let procedure_name := ni_procedure i in
let o := VDict ["content_type" :- VStr (ni_target_model i); "object_id" :- ni_object_id i] in
let p := {| body := ["target" :- VStr target; "target_object" :- o];
            fingerprint := ["handler_id" :- ni_handler_id i; "procedure" :- VStr procedure_name; "target_object" :- o] |} in
p ← (if String.eqb procedure_name AKVORADO_1_CONFIG_DEPLOY then
       content ← _normalize_akvorado_content (get "config_content" params) "config_content";
       Ok (mark "config_content_bytes" (VInt (utf8_length content))
          (mark "config_content_sha256" (_hash_text content) (put "config_content" (VStr content) p)))
     else Ok p);
match AKVORADO_LIFECYCLE_NORMALIZED_PARAMS_SCHEMAS procedure_name with
| Some schema => contract_check schema p "Akvorado lifecycle normalized contract validation failed."
| None => Err KeyError
end.
End Akvorado.
