(* ===== verification/NormalizePlugins.v ===== *)
(** * Normalization: the plugin URL of Minecraft and the templates of Packer

    [_normalize_minecraft_plugin_install_url_execution] of
    [netbox_rpc/domain/normalization.py], with what it uses of [urllib.parse] and of
    [ipaddress], and [netbox_rpc/packer_normalizer.py].

    [urlparse] is the one of Python 3.12 on Latin-1 texts, where its NFKC check always
    passes.  [PackerTemplate] is the class of the other plugin as a test on objects, [None]
    when the plugin is not installed. *)

From S2P Require Import Prelude PyValue CredentialContract Spans PyRegex SecretPatterns Protected Contracts Lease.
From S2P Require Import Backends CredentialAuthority Targets Admission Normalize NormalizeDevices NormalizeServices.
From S2P Require Import NormalizeHosts NormalizeAllowlists NormalizeIdentity NormalizeSambaDc.
Import JsonNotations.

Local Open Scope Z_scope.

(** ** [urllib.parse.urlparse] *)

Fixpoint drop_c0 (s : string) : string :=
  match s with
  | String c r => if code c <=? 32 then drop_c0 r else s
  | EmptyString => s
  end.
(** [s[n:]]. *)
Definition str_drop (n : nat) (s : string) : string := String.substring n (String.length s - n) s.
(** The text before the first character that satisfies [p]. *)
Fixpoint str_until (p : ascii -> bool) (s : string) : string :=
  match s with
  | String c r => if p c then EmptyString else String c (str_until p r)
  | EmptyString => s
  end.
Definition between_code (lo hi : Z) (c : ascii) : bool := (lo <=? code c) && (code c <=? hi).
Definition ascii_alpha (c : ascii) : bool := between_code 65 90 c || between_code 97 122 c.
Definition is_any (cs : string) (c : ascii) : bool := str_contains (String c EmptyString) cs.
Definition scheme_char (c : ascii) : bool := ascii_alpha c || is_digit c || is_any "+-." c.
Definition starts_alpha (s : string) : bool := match s with String c _ => ascii_alpha c | EmptyString => false end.

Definition host_info (netloc : string) : string := last_part (str_split "@"%char netloc).
(** [_check_bracketed_netloc]. *)
Definition bracketed_ok (netloc : string) : bool :=
  let hostinfo := host_info netloc in
  let hostname :=
    if str_contains "[" hostinfo then
      let bracketed := str_after "["%char hostinfo in
      let rest := str_after "]"%char bracketed in
      if str_truthy (str_before "["%char hostinfo) || (str_truthy rest && negb (str_startswith ":" rest)) then None
      else Some (str_before "]"%char bracketed)
    else Some (str_before ":"%char hostinfo) in
  match hostname with
  | None => false
  | Some h =>
      if str_startswith "v" h then
        let digits := str_before "."%char (str_drop 1 h) in
        str_truthy digits && str_forall is_hex digits && str_truthy (str_after "."%char h)
      else match ip_address h with Some IPv6 => true | _ => false end
  end.
(** The scheme and the network location; [None] is [ValueError]. *)
Definition urlsplit (url : string) : option (string * string) :=
  let url := str_filter (fun c => negb ((code c =? 9) || (code c =? 10) || (code c =? 13))) (drop_c0 url) in
  let head := str_before ":"%char url in
  let '(scheme, url) :=
    if str_contains ":" url && starts_alpha head && str_forall scheme_char head
    then (str_lower head, str_after ":"%char url) else (EmptyString, url) in
  if str_startswith "//" url then
    let netloc := str_until (is_any "/?#") (str_drop 2 url) in
    let opened := str_contains "[" netloc in
    if negb (Bool.eqb opened (str_contains "]" netloc)) then None
    else if opened && negb (bracketed_ok netloc) then None
    else Some (scheme, netloc)
  else Some (scheme, EmptyString).
(** [SplitResult.hostname]; empty where it is [None]. *)
Definition hostname (netloc : string) : string :=
  let hostinfo := host_info netloc in
  let h := if str_contains "[" hostinfo then str_before "]"%char (str_after "["%char hostinfo)
           else str_before ":"%char hostinfo in
  str_lower (str_before "%"%char h) +:+ (if str_contains "%" h then "%" +:+ str_after "%"%char h else EmptyString).

(** ** Private addresses *)

Definition _private_networks4 : list (Z * Z) :=
  [(v4 0 0 0 0, 8); (v4 10 0 0 0, 8); (v4 127 0 0 0, 8); (v4 169 254 0 0, 16); (v4 172 16 0 0, 12); (v4 192 0 0 0, 24);
   (v4 192 0 0 170, 31); (v4 192 0 2 0, 24); (v4 192 168 0 0, 16); (v4 198 18 0 0, 15); (v4 198 51 100 0, 24);
   (v4 203 0 113 0, 24); (v4 240 0 0 0, 4); (v4 255 255 255 255, 32)].
Definition _private_exceptions4 : list (Z * Z) := [(v4 192 0 0 9, 32); (v4 192 0 0 10, 32)].
Definition in_any (bits : Z) (nets : list (Z * Z)) (v : Z) : bool := existsb (fun n => within bits n.1 n.2 v) nets.
(** Networks by the groups of their base. *)
Definition groups (l : list Z) : Z := Z.shiftl (fold_left (fun n g => 65536 * n + g) l 0) (16 * (8 - Z.of_nat (List.length l))).
Definition _private_networks6 : list (Z * Z) :=
  [(1, 128); (0, 128); (groups [0; 0; 0; 0; 0; 65535], 96); (groups [100; 65435; 1], 48); (groups [256], 64);
   (groups [8193], 23); (groups [8193; 3512], 32); (groups [8194], 16); (groups [16383], 20); (groups [64512], 7);
   (groups [65152], 10)].
Definition _private_exceptions6 : list (Z * Z) :=
  [(groups [8193; 1] + 1, 128); (groups [8193; 1] + 2, 128); (groups [8193; 3], 32); (groups [8193; 4; 274], 48);
   (groups [8193; 32], 28); (groups [8193; 48], 28)].
Definition is_private4 (v : Z) : bool := in_any 32 _private_networks4 v && negb (in_any 32 _private_exceptions4 v).
Definition is_private (bits v : Z) : bool :=
  if bits =? 32 then is_private4 v
  else if Z.shiftr v 32 =? 65535 then is_private4 (Z.land v (Z.ones 32))
  else in_any 128 _private_networks6 v && negb (in_any 128 _private_exceptions6 v).
Definition local_address (a : Z * Z) : bool :=
  is_private a.1 a.2 || is_kind Loopback a.1 a.2 || is_kind LinkLocal a.1 a.2 || is_kind Multicast a.1 a.2.

(** ** The plugin URL *)

Definition local_name (host : string) : bool :=
  str_in host ["localhost"; "localhost.localdomain"] || str_endswith ".local" host.
Definition _minecraft_public_url (raw : value) : res string :=
  let v := text_of raw in
  _ ← require (str_len v <=? 2048) (invalid_param "source_url may contain at most 2048 characters.");
  parsed ← match urlsplit v with Some p => Ok p | None => Err ValueError end;
  let '(scheme, netloc) := parsed in
  _ ← require (str_in scheme ["http"; "https"] && str_truthy netloc && str_truthy (hostname netloc))
        (invalid_param "source_url must be an http(s) URL.");
  let host := str_lower (str_strip (hostname netloc)) in
  _ ← require (negb (local_name host)) (invalid_param "source_url host is not allowed.");
  _ ← require (match parse_address host with Some a => negb (local_address a) | None => true end)
        (invalid_param "source_url must not point to a private or local IP address.");
  _ ← require (negb (str_any (fun c => code c <? 32) v)) (invalid_param "source_url must not contain control characters.");
  Ok v.

Example urls :
  map (fun u => match _minecraft_public_url (VStr u) with Ok _ => true | Err _ => false end)
    ["https://cdn.example.net/a.jar"; "http://user@8.8.8.8:80/"; "http://10.0.0.1/"; "http://[::ffff:10.0.0.1]/";
     "http://[2606:4700::1111]/a"; "ftp://example.net/"; "http://LOCALHOST/"; "http://[::1/"; "http:///a"]
  = [true; true; false; false; true; false; false; false; false].
Proof. vm_compute. done. Qed.

(** Names and short forms of the loopback address that the filter does not know. *)
Example loopback_urls :
  map (fun u => match _minecraft_public_url (VStr u) with Ok _ => true | Err _ => false end)
    ["http://localhost/"; "http://127.0.0.1/"; "http://localhost./"; "http://127.1/"; "http://2130706433/"]
  = [false; false; true; true; true].
Proof. vm_compute. done. Qed.

Section Url.
Context `{PyLib}.
Definition _normalize_minecraft_plugin_install_url_execution (i : norm_input) : res payload :=
params ← params_of i;
server_uuid ← _minecraft_server_uuid params;
source_url ← _minecraft_public_url (get "source_url" params);
filename ← _minecraft_jar_filename (get "filename" params) "filename";
restart ← _bool_param params "restart" false;
_copy_optional_ssh_overrides params
  (opening i ["server_uuid" :- VStr server_uuid; "source_url" :- VStr source_url; "filename" :- VStr filename;
              "restart" :- VBool restart]
             ["server_uuid" :- VStr server_uuid; "source_url_sha256" :- _hash_text source_url;
              "filename" :- VStr filename; "restart" :- VBool restart]).
End Url.

(** ** Packer *)

Definition _DEFAULT_VERIFY_SERVICES : list string := ["qemu-guest-agent"].
Definition _SERVICE_NAME_ALLOWED (c : ascii) : bool := ascii_alpha c || is_digit c || is_any "_.@:-" c.
Definition coerced_service (item : value) : res string :=
  let name := text_of item in
  _ ← require (str_truthy name && (str_len name <=? 100) && str_forall _SERVICE_NAME_ALLOWED name)
        (invalid_param "each services entry must be a valid systemd unit name.");
  Ok name.
Definition _coerce_services (raw : value) : res (list string) :=
  if blank raw then Ok _DEFAULT_VERIFY_SERVICES else
  match sequence_of raw with
  | None => Err (invalid_param "services must be a list of systemd unit names.")
  | Some l => services ← map_res coerced_service l; Ok (match services with [] => _DEFAULT_VERIFY_SERVICES | _ => services end)
  end.

(** Exactly one of the two references. *)
Inductive credential_reference : Type := Legacy (pk : Z) | OpenBao (assignment : Z).
Definition _resolve_credential_reference (d : openbao_directory) (i : norm_input) (params : dict)
  : res credential_reference :=
  legacy ← _optional_int_range params "rpc_ssh_credential_pk" 1 None;
  openbao ← _optional_int_range params "openbao_assignment_id" 1 None;
  let refusal := Err (invalid_param "Exactly one of rpc_ssh_credential_pk or openbao_assignment_id is required.") in
  match legacy, openbao with
  | Some pk, None => Ok (Legacy pk)
  | None, Some id =>
      reference ← resolve_openbao_assignment_reference d i (Some id) true;
      match reference with Some id => Ok (OpenBao id) | None => refusal end
  | _, _ => refusal
  end.
Definition is_openbao (r : credential_reference) : bool := match r with OpenBao _ => true | Legacy _ => false end.
Definition _resolve_ssh_host (params : dict) (template : Targets.attribute) (bound : bool) : res string :=
  let proxmox_node := str_strip (attr_or_empty template "proxmox_node") in
  let host_override := text_of (get "ssh_host" params) in
  if str_truthy host_override && negb bound then Ok host_override else
  _ ← require (negb (str_truthy host_override) || String.eqb host_override proxmox_node)
        (RPCExecutionError "RPC_PACKER_HOST_MISMATCH" "ssh_host must match the template's own proxmox_node.");
  _ ← require (str_truthy proxmox_node)
        (RPCExecutionError "RPC_PACKER_HOST_UNRESOLVED"
           "The PackerTemplate has no proxmox_node; cannot resolve an SSH host.");
  Ok proxmox_node.
Definition template_vmid (template : Targets.attribute) : res value :=
  match attr template "proxmox_template_id" with
  | Val v => match py_int v with
             | Ok n => Ok (VInt n)
             | Err OverflowError => Err OverflowError
             | Err _ => Ok VNone
             end
  | Obj _ _ => Ok VNone
  end.

Definition PACKER_VM_VERIFY_SERVICES : string := "packer.vm.verify_services".
Definition normalize_packer_vm_execution (PackerTemplate : option (Targets.attribute -> bool)) (d : openbao_directory)
  (i : norm_input) : res payload :=
  is_template ← match PackerTemplate with
                | Some f => Ok f
                | None => Err (RPCExecutionError "RPC_PACKER_PLUGIN_MISSING"
                                 "netbox-packer is not installed; packer.vm.* procedures require it.")
                end;
  let template := ni_object i in
  _ ← require (is_template template)
        (invalid_param "packer.vm.* procedures must target a netbox-packer PackerTemplate.");
  params ← params_of i;
  reference ← _resolve_credential_reference d i params;
  host ← _resolve_ssh_host params template (is_openbao reference);
  port ← _optional_int_range params "ssh_port" 1 (Some 65535);
  vmid ← template_vmid template;
  let node := ["proxmox_node" :- VStr host; "proxmox_template_id" :- vmid] in
  let p := opening i (["rpc_ssh_host" :- VStr host; "rpc_ssh_port" :- VInt (default 22 port)] ++ node) node in
  let p := match reference with
           | OpenBao id => both "rpc_openbao_assignment_id" (VInt id) p
           | Legacy pk => both "rpc_ssh_credential_pk" (VInt pk) p
           end in
  if String.eqb (ni_procedure i) PACKER_VM_VERIFY_SERVICES then
    services ← _coerce_services (get "services" params);
    Ok (both "services" (VList (map VStr services)) p)
  else Ok p.
