(* ===== verification/NormalizeDispatch.v ===== *)
(** * Normalization: the dispatch

    [normalize_execution_params] of [netbox_rpc/domain/normalization.py] as a whole: the
    two families decided by name, the table [_TABLE_NORMALIZERS], the branches of
    [_dispatch_normalize_execution_params] in their order, and the three steps that follow:
    the routing of the transport, the context of the target object and the credential
    fingerprint.

    What the normalizers read besides the execution is the record [world].  A branch of
    the dispatcher is the names it serves and the normalizer it calls; the first branch
    that serves the name is taken. *)

From S2P Require Import Prelude PyValue CredentialContract Spans PyRegex SecretPatterns Protected.
From S2P Require Import SchemaSpec Transport TargetSnapshot Templating.
From S2P Require Import Projection EventStore Aggregate Fence Contracts Codec Lease Capabilities Response Backends.
From S2P Require Import CredentialAuthority Targets Akvorado Admission Normalize NormalizeDevices NormalizeServices.
From S2P Require Import NormalizeStores NormalizeHosts NormalizeProxmox NormalizeAllowlists NormalizePinned.
From S2P Require Import NormalizeIdentity NormalizeGitea NormalizeRunners NormalizeSambaDc NormalizeAkvorado NormalizePlugins.
Import JsonNotations.

Local Open Scope Z_scope.

(** ** Names of procedures *)

Definition UBUNTU_24_RESTART_SERVICE : string := "os.linux.ubuntu.24.restart_service".
Definition UBUNTU_24_STATUS_SERVICE : string := "os.linux.ubuntu.24.status_service".
Definition UBUNTU_24_START_SERVICE : string := "os.linux.ubuntu.24.start_service".
Definition UBUNTU_24_STOP_SERVICE : string := "os.linux.ubuntu.24.stop_service".
Definition UBUNTU_24_RELOAD_SERVICE : string := "os.linux.ubuntu.24.reload_service".
Definition UBUNTU_24_ENABLE_SERVICE : string := "os.linux.ubuntu.24.enable_service".
Definition UBUNTU_24_DISABLE_SERVICE : string := "os.linux.ubuntu.24.disable_service".
Definition UBUNTU_24_JOURNAL_TAIL : string := "os.linux.ubuntu.24.journal_tail".
Definition UBUNTU_24_DAEMON_RELOAD : string := "os.linux.ubuntu.24.daemon_reload".
Definition HUAWEI_MA5800_R024_START_ONT : string := "network.device.huawei.olt.ma5800.r024.start_ont".
Definition LINUX_INSTALL_SSH_KEY : string := "os.linux.ubuntu.24.install_ssh_key".
Definition DNS_HOST_DEPLOY_PROCEDURE : string := "os.linux.dns_host.deploy_dns_stack".
Definition DNS_HOST_STATUS_PROCEDURE : string := "os.linux.dns_host.status_dns_stack".
Definition LINUX_INSTALL_QEMU_GUEST_AGENT : string := "os.linux.ubuntu.24.install_qemu_guest_agent".
Definition LINUX_INSTALL_ZABBIX_AGENT2 : string := "os.linux.ubuntu.24.install_zabbix_agent2".
Definition LINUX_PROXMOX_CONVERT_MELLANOX_NIC : string := "os.linux.proxmox.convert_mellanox_nic_to_ethernet".
Definition LINUX_PROXMOX_PVESH_JSON : string := "os.linux.proxmox.pvesh_json".
Definition LINUX_COLLECT_FACTS : string := "os.linux.collect_facts".
Definition OOKLA_PROCEDURE_NAMES : list string :=
  ["os.linux.ubuntu.24.ookla.check_firewall"; "os.linux.ubuntu.24.ookla.check_listeners";
   "os.linux.ubuntu.24.ookla.check_service"; "os.linux.ubuntu.24.ookla.check_tls";
   "os.linux.ubuntu.24.ookla.diagnose"].
Definition UBUNTU_UPGRADE_26_PROCEDURE_NAMES : list string :=
  ["os.linux.ubuntu.24.upgrade_26.analyze_preupgrade"; "os.linux.ubuntu.24.upgrade_26.run_upgrade";
   "os.linux.ubuntu.24.upgrade_26.save_preupgrade_state"; "os.linux.ubuntu.24.upgrade_26.verify_postupgrade"].
Definition PACKER_PROCEDURE_NAMES : list string :=
  ["packer.vm.check_agent_running"; "packer.vm.collect_info"; "packer.vm.test_ssh_connectivity";
   "packer.vm.verify_services"].
Definition PASSBOLT_PROCEDURE_NAMES : list string :=
  ["services.passbolt.cleanup"; "services.passbolt.export_secrets"; "services.passbolt.import_secrets";
   "services.passbolt.transfer_secrets"].
Definition SAMBA_1_PROCEDURE_NAMES : list string :=
  ["service.samba.1.config_deploy"; "service.samba.1.config_list_files"; "service.samba.1.config_read";
   "service.samba.1.config_rollback"; "service.samba.1.config_test"; "service.samba.1.domain_info";
   "service.samba.1.group_add_members"; "service.samba.1.group_create"; "service.samba.1.group_delete";
   "service.samba.1.group_list"; "service.samba.1.group_remove_members";
   "service.samba.1.include_file_delete"; "service.samba.1.include_file_read";
   "service.samba.1.include_file_write"; "service.samba.1.list_shares"; "service.samba.1.service_control";
   "service.samba.1.service_status"; "service.samba.1.share_acl_read"; "service.samba.1.share_delete";
   "service.samba.1.share_upsert"; "service.samba.1.status_report"; "service.samba.1.user_create";
   "service.samba.1.user_delete"; "service.samba.1.user_disable"; "service.samba.1.user_enable";
   "service.samba.1.user_list"; "service.samba.1.user_set_password"; "service.samba.1.version"].
Definition INFLUXDB_1_PROCEDURE_NAMES : list string :=
  ["service.influxdb.1.bootstrap"; "service.influxdb.1.config_deploy"; "service.influxdb.1.config_read";
   "service.influxdb.1.config_rollback"; "service.influxdb.1.database_create";
   "service.influxdb.1.file_delete"; "service.influxdb.1.file_read"; "service.influxdb.1.file_write";
   "service.influxdb.1.files_list"; "service.influxdb.1.health"; "service.influxdb.1.inspect";
   "service.influxdb.1.journal"; "service.influxdb.1.service_control"; "service.influxdb.1.service_status";
   "service.influxdb.1.token_create"].
Definition OPENBAO_1_PROCEDURE_NAMES : list string :=
  ["service.openbao.1.audit_disable"; "service.openbao.1.audit_enable"; "service.openbao.1.audit_list";
   "service.openbao.1.auth_disable"; "service.openbao.1.auth_enable"; "service.openbao.1.auth_list";
   "service.openbao.1.health"; "service.openbao.1.inspect"; "service.openbao.1.policies_list";
   "service.openbao.1.policy_delete"; "service.openbao.1.provision_netbox_approle";
   "service.openbao.1.raft_autopilot_state"; "service.openbao.1.raft_list_peers";
   "service.openbao.1.raft_remove_peer"; "service.openbao.1.seal"; "service.openbao.1.seal_status";
   "service.openbao.1.secrets_disable"; "service.openbao.1.secrets_enable"; "service.openbao.1.secrets_list";
   "service.openbao.1.service_action"; "service.openbao.1.snapshot_create";
   "service.openbao.1.snapshots_list"; "service.openbao.1.step_down"].
Definition AKVORADO_1_PROCEDURE_NAMES : list string :=
  ["service.akvorado.1.config_deploy"; "service.akvorado.1.config_read"; "service.akvorado.1.restart_stack";
   "service.akvorado.1.status_stack"].
Definition LINUX_PROXMOX_QEMU_VM_LIFECYCLE : string := "os.linux.proxmox.qemu_vm_lifecycle".
Definition LINUX_PROXMOX_SHOW_SYSTEMCTL_SERVICES : string := "os.linux.proxmox.show_systemctl_services".
Definition DELL_OS10_S5232F_BOOTSTRAP_RESTCONF : string := "network.device.dell_os10.s5232f_on.bootstrap_restconf".
Definition DELL_OS10_S5232F_ALLOW_THIRD_PARTY_TRANSCEIVER : string := "network.device.dell_os10.s5232f_on.allow_third_party_transceiver".
Definition DELL_OS10_S5232F_SHOW_VERSION : string := "network.device.dell_os10.s5232f_on.show_version".
Definition DELL_OS10_S5232F_WRITE_MEMORY : string := "network.device.dell_os10.s5232f_on.write_memory".
Definition DELL_OS10_S5232F_SHOW_VERSION_STRUCTURED : string := "network.device.dell_os10.s5232f_on.show_version_structured".
Definition DELL_OS10_S5232F_SET_INTERFACE_DESCRIPTION : string := "network.device.dell_os10.s5232f_on.set_interface_description".
Definition DELL_OS10_S5232F_SET_VLAN_DESCRIPTION : string := "network.device.dell_os10.s5232f_on.set_vlan_description".
Definition DELL_OS10_S5232F_SHOW_VLT : string := "network.device.dell_os10.s5232f_on.show_vlt".
Definition DELL_OS10_S5232F_CONFIGURE_VLT_DOMAIN : string := "network.device.dell_os10.s5232f_on.configure_vlt_domain".
Definition DELL_OS10_S5232F_CONFIGURE_VLT_PEER : string := "network.device.dell_os10.s5232f_on.configure_vlt_peer".
Definition DELL_OS10_S5232F_CONFIGURE_PORT_CHANNEL : string := "network.device.dell_os10.s5232f_on.configure_port_channel".
Definition DELL_OS10_S5232F_CONFIGURE_INTERFACE_LACP : string := "network.device.dell_os10.s5232f_on.configure_interface_lacp".
Definition DELL_OS10_S5232F_CONFIGURE_INTERFACE_BREAKOUT : string := "network.device.dell_os10.s5232f_on.configure_interface_breakout".
Definition DELL_OS10_S5232F_CONFIGURE_INTERFACE_FEC : string := "network.device.dell_os10.s5232f_on.configure_interface_fec".
Definition NGINX_1_CONFIG_TEST : string := "service.nginx.1.config_test".
Definition NGINX_1_CONFIG_DEPLOY : string := "service.nginx.1.config_deploy".
Definition NGINX_1_RELOAD : string := "service.nginx.1.reload".
Definition NGINX_1_ROLLBACK : string := "service.nginx.1.rollback".
Definition PTERODACTYL_BOOTSTRAP_API_KEY : string := "services.pterodactyl.bootstrap_api_key".
Definition PTERODACTYL_ARTISAN : string := "services.pterodactyl.artisan".
Definition PTERODACTYL_CONTAINER_LOGS : string := "services.pterodactyl.container_logs".
Definition MINECRAFT_PLUGIN_INSTALL_URL : string := "services.minecraft.plugin.install_url".
Definition MINECRAFT_VIAVERSION_INSTALL : string := "services.minecraft.viaversion.install".
Definition MINECRAFT_PAPERMC_INSTALL : string := "services.minecraft.papermc.install".
Definition PTERODACTYL_WINGS_STATUS : string := "services.pterodactyl.wings.status".
Definition PTERODACTYL_WINGS_LOGS : string := "services.pterodactyl.wings.logs".
Definition PTERODACTYL_WINGS_RESTART : string := "services.pterodactyl.wings.restart".
Definition GITEA_ORG_CI_RUNNER_RECOVERY_PROCEDURE_NAMES : list string :=
  ["service.gitea.actions_runner.diagnose_org_ci_runner";
   "service.gitea.actions_runner.recover_org_ci_runner"].

(** ** What the normalizers read *)

Record world := {
  w_gates : code_gates;
  w_config : option dict;
  w_tables : tables;
  w_openbao : openbao_directory;
  w_ssh : ssh_directory;
  w_proxmox : ssh_resolver;
  w_bindings : bindings;
  w_tags : tag_manager;
  w_gitea : res gitea_machine;
  w_fences : fence_lookup;
  w_clock : Z;
  w_credentials : credential_lookup;
  w_packer : option (Targets.attribute -> bool);
  w_policy : res (option RpcPluginSettings);
}.
Definition normalizer : Type := norm_input -> res payload.
Definition branch : Type := list string * normalizer.
Definition named_branch (name : string) (f : normalizer) : branch := ([name], f).
Definition serving (name : string) (b : branch) : bool := str_in name b.1.
(** The normalizer of the first branch that serves the name. *)
Definition chosen (name : string) (l : list branch) : option normalizer := option_map snd (List.find (serving name) l).

Section Dispatch.
Context `{PyLib} `{LeaseLib} `{JsonSchema} `{Yaml} (w : world).

Definition service_names : list string :=
[UBUNTU_24_RESTART_SERVICE; UBUNTU_24_STATUS_SERVICE; UBUNTU_24_START_SERVICE; UBUNTU_24_STOP_SERVICE;
 UBUNTU_24_RELOAD_SERVICE; UBUNTU_24_ENABLE_SERVICE; UBUNTU_24_DISABLE_SERVICE].
(** [_dispatch_normalize_execution_params]: the hosts. *)
Definition host_branches : list branch :=
[(service_names, _normalize_linux_service_execution (w_tables w) (w_openbao w));
 named_branch UBUNTU_24_JOURNAL_TAIL (journal_tail (w_tables w) (w_openbao w));
 named_branch UBUNTU_24_DAEMON_RELOAD daemon_reload;
 named_branch LINUX_ENV_FILE_UPSERT_VAR
   (_normalize_linux_env_file_upsert_execution (w_gates w) (w_tables w) (w_openbao w));
 named_branch NETBOX_PLUGIN_INSTALL
   (_normalize_netbox_plugin_install_execution (w_gates w) (w_tables w) (w_openbao w));
 named_branch HUAWEI_MA5800_R024_START_ONT huawei_start_ont;
 named_branch HUAWEI_NE8000_F1A_SHOW_BGP_PEER (_normalize_huawei_ne8000_bgp_execution (w_gates w));
 named_branch LINUX_INSTALL_SSH_KEY _normalize_ssh_install_key_execution;
 named_branch DNS_HOST_DEPLOY_PROCEDURE (_normalize_dns_host_deploy_execution (w_config w));
 named_branch DNS_HOST_STATUS_PROCEDURE (_normalize_dns_host_status_execution (w_config w));
 named_branch LINUX_INSTALL_QEMU_GUEST_AGENT (_normalize_linux_agent_install_execution (w_config w) false);
 named_branch LINUX_INSTALL_ZABBIX_AGENT2 (_normalize_linux_agent_install_execution (w_config w) true);
 named_branch LINUX_PROXMOX_CONVERT_MELLANOX_NIC (_normalize_convert_mellanox_nic_execution (w_proxmox w));
 named_branch LINUX_PROXMOX_PVESH_JSON _normalize_pvesh_json_execution;
 named_branch LINUX_PROXMOX_OCI_REGISTRY_PULL (_normalize_proxmox_oci_registry_pull_execution (w_proxmox w));
 named_branch LINUX_COLLECT_FACTS _normalize_pipeline_fixed_execution;
 (OOKLA_PROCEDURE_NAMES, _normalize_ookla_execution);
 (UBUNTU_UPGRADE_26_PROCEDURE_NAMES, _normalize_ubuntu_upgrade_26_execution);
 named_branch "nmap-scan" _normalize_nmap_execution].
(** The services and the pinned procedures. *)
Definition service_branches : list branch :=
[(PACKER_PROCEDURE_NAMES, normalize_packer_vm_execution (w_packer w) (w_openbao w));
 (PASSBOLT_PROCEDURE_NAMES, _normalize_passbolt_migration_execution);
 named_branch NETBOX_STAGING_ROTATE_BACKEND_TOKEN _normalize_staging_backend_token_rotation_execution;
 named_branch NETBOX_STAGING_DEPLOY_DNS_PAIR (_normalize_dns_staging_deploy_execution (w_ssh w));
 named_branch GITEA_PRODUCTION_UPGRADE_1_27_1 (_normalize_gitea_production_upgrade_execution (w_ssh w) (w_tags w));
 named_branch GITEA_RUNNER_REGISTER
   (_normalize_gitea_runner_registration_execution (w_ssh w) (w_gitea w) (w_fences w) (w_clock w));
 named_branch GITEA_ORG_CI_RUNNER_PROVISION
   (_normalize_gitea_org_ci_runner_provision_execution (w_gates w) (w_ssh w) (w_gitea w) (w_fences w) (w_clock w));
 (SAMBA_1_PROCEDURE_NAMES, _normalize_samba_1_execution);
 (INFLUXDB_1_PROCEDURE_NAMES, _normalize_influxdb_1_execution);
 (INFLUXDB3_DEBIAN13_PROCEDURE_NAMES, _normalize_influxdb3_debian13_execution (w_gates w));
 (AKVORADO_BOOTSTRAP_DEBIAN13_PROCEDURE_NAMES,
  _normalize_akvorado_bootstrap_debian13_execution (w_gates w) (w_ssh w));
 (OPENBAO_1_PROCEDURE_NAMES, _normalize_openbao_1_execution);
 (AKVORADO_1_PROCEDURE_NAMES, _normalize_akvorado_1_execution);
 named_branch LINUX_PROXMOX_QEMU_VM_LIFECYCLE
   (_normalize_proxmox_qemu_vm_lifecycle_execution (w_proxmox w) (w_config w));
 named_branch LINUX_PROXMOX_SHOW_SYSTEMCTL_SERVICES _normalize_show_systemctl_services_execution].
(** The devices and the panels. *)
Definition device_branches : list branch :=
[named_branch DELL_OS10_S5232F_BOOTSTRAP_RESTCONF _normalize_dell_os10_bootstrap_execution;
 ([DELL_OS10_S5232F_ALLOW_THIRD_PARTY_TRANSCEIVER; DELL_OS10_S5232F_SHOW_VERSION; DELL_OS10_S5232F_WRITE_MEMORY],
  _normalize_dell_os10_simple_execution);
 named_branch DELL_OS10_S5232F_SHOW_VERSION_STRUCTURED _normalize_pipeline_fixed_execution;
 named_branch DELL_OS10_S5232F_SET_INTERFACE_DESCRIPTION set_interface_description;
 named_branch DELL_OS10_S5232F_SET_VLAN_DESCRIPTION set_vlan_description;
 named_branch DELL_OS10_S5232F_SHOW_VLT show_vlt;
 named_branch DELL_OS10_S5232F_CONFIGURE_VLT_DOMAIN configure_vlt_domain;
 named_branch DELL_OS10_S5232F_CONFIGURE_VLT_PEER configure_vlt_peer;
 named_branch DELL_OS10_S5232F_CONFIGURE_PORT_CHANNEL configure_port_channel;
 named_branch DELL_OS10_S5232F_CONFIGURE_INTERFACE_LACP configure_interface_lacp;
 named_branch DELL_OS10_S5232F_CONFIGURE_INTERFACE_BREAKOUT configure_interface_breakout;
 named_branch DELL_OS10_S5232F_CONFIGURE_INTERFACE_FEC configure_interface_fec;
 named_branch NGINX_1_CONFIG_TEST (fun i => _normalize_nginx_node_execution i []);
 named_branch NGINX_1_CONFIG_DEPLOY nginx_config_deploy;
 named_branch NGINX_1_RELOAD (fun i => _normalize_nginx_node_execution i []);
 named_branch NGINX_1_ROLLBACK nginx_rollback;
 named_branch PTERODACTYL_BOOTSTRAP_API_KEY pterodactyl_bootstrap;
 named_branch PTERODACTYL_ARTISAN pterodactyl_artisan;
 named_branch PTERODACTYL_CONTAINER_LOGS pterodactyl_logs;
 named_branch MINECRAFT_PLUGIN_INSTALL_URL _normalize_minecraft_plugin_install_url_execution;
 named_branch MINECRAFT_VIAVERSION_INSTALL _normalize_minecraft_viaversion_install_execution;
 named_branch MINECRAFT_PAPERMC_INSTALL _normalize_minecraft_papermc_install_execution;
 named_branch PTERODACTYL_WINGS_STATUS (fun i => _normalize_pterodactyl_wings_service_execution i "status");
 named_branch PTERODACTYL_WINGS_LOGS wings_logs;
 named_branch PTERODACTYL_WINGS_RESTART (fun i => _normalize_pterodactyl_wings_service_execution i "restart")].
Definition branches : list branch := host_branches ++ service_branches ++ device_branches.
Definition _dispatch_normalize_execution_params (i : norm_input) : res payload :=
match chosen (ni_procedure i) branches with
| Some f => f i
| None => Err (not_normalizable (ni_procedure i))
end.

(** The table. *)
Definition _TABLE_NORMALIZERS : list branch :=
[(IAM_UI_HANDLER_IDS, _normalize_iam_ui_execution);
 ([NETBOX_OPENBAO_IMPORT_DRY_RUN; NETBOX_OPENBAO_IMPORT_APPLY], _normalize_openbao_import_execution (w_bindings w));
 ([NMULTICLOUD_DEPLOY_RELEASE_MARKER_CHECK; NMULTICLOUD_DEPLOY_RELEASE_MARKER_RECONCILE],
  _normalize_release_marker_execution (w_bindings w));
 (Capabilities.NETBOX_PRODUCTION_RQ_WORKER_PROCEDURE_NAMES, _normalize_netbox_production_rq_worker_execution);
 (PBS_1_PROCEDURE_NAMES, _normalize_pbs_execution (w_gates w));
 (UBUNTU_26_SAMBA_AD_DC_PROCEDURE_NAMES, _normalize_ubuntu_26_samba_ad_dc_execution (w_ssh w) (w_credentials w));
 ([PROXBOX_API_RELEASE_IMAGES_INSPECT; PROXBOX_API_RELEASE_IMAGES_RECOVER],
  _normalize_proxbox_api_release_images_execution (w_bindings w))].
Definition by_procedure (i : norm_input) : res payload :=
if str_in (ni_procedure i) GITEA_PROTECTED_PUBLICATION_PAIR_PROCEDURE_NAMES
then _normalize_gitea_protected_publication_pair_execution (w_ssh w) i
else if str_in (ni_procedure i) (GITEA_USER_CI_RUNNER_PROCEDURE_NAMES ++ GITEA_ORG_CI_RUNNER_RECOVERY_PROCEDURE_NAMES)
then _normalize_gitea_docker_runner_execution (w_ssh w) i
else match chosen (ni_procedure i) _TABLE_NORMALIZERS with
     | Some f => f i
     | None => _dispatch_normalize_execution_params i
     end.

(** ** The steps that follow *)

(** The settings row; whatever goes wrong in reading it means no policy. *)
Definition _transport_policy : option RpcPluginSettings :=
match w_policy w with Ok policy => policy | Err _ => None end.
Definition _target_platform_slug (target : Targets.attribute) : string :=
match attr (attr target "platform") "slug" with
| Val v => if truthy v then str_lower (str_strip (py_str v)) else EmptyString
| o => str_lower (str_strip (attr_str o))
end.
(** The render modes of the commands, where the procedure has a relation to commands. *)
Definition _has_jinja_command (commands : option (list string)) : bool :=
match commands with Some modes => str_in "jinja" modes | None => false end.

(** The execution with what the later steps read of it. *)
Record norm_request := {
  rq_input : norm_input;
  rq_routing : routing;
  rq_commands : option (list string);
  rq_target : option TargetSnapshot.target_object;
  rq_authority : value;
}.
Definition normalize_execution_params (r : norm_request) : res dict :=
let i := rq_input r in
p ← by_procedure i;
let normalized := _apply_driver_pipeline_overrides (rq_routing r) (_target_platform_slug (ni_object i))
                    _transport_policy (assembled p) in
let normalized := _apply_target_object_context (_has_jinja_command (rq_commands r)) (rq_target r) normalized in
apply_credential_fingerprint (ni_references i) (rq_authority r) normalized.
End Dispatch.
