(* ===== verification/NormalizeProperties.v ===== *)
(** * Properties of the normalizers

    A small logic of postconditions over fallible steps: a normalizer is a chain of steps
    on a payload, and an invariant that every [both] of a permitted key keeps is kept by
    the chain.  With it: what an accepted OpenBao request forwards, that the Debian 13
    installer never exposes a token in clear, that a scan is bounded, that an allowlisted
    service runs its own unit with a credential bound to the target, and that a Proxmox
    request holds every field its operations need. *)

From S2P Require Import Prelude PyValue CredentialContract JsonFacts Spans PyRegex SecretPatterns.
From S2P Require Import Protected Contracts Backends CredentialAuthority Targets Admission.
From S2P Require Import Normalize NormalizeDevices NormalizeServices NormalizeStores NormalizeHosts.
From S2P Require Import NormalizeProxmox NormalizeAllowlists.
Import JsonNotations.

Local Open Scope Z_scope.

(** ** Postconditions *)

Definition has_post {A} (m : res A) (Q : A -> Prop) : Prop := forall a, m = Ok a -> Q a.
Lemma post_Ok {A} (a : A) Q : Q a -> has_post (Ok a) Q.
Proof. by intros ? ? [= <-]. Qed.
Lemma post_Err {A} e (Q : A -> Prop) : has_post (Err e) Q.
Proof. done. Qed.
Lemma post_bind {A B} (m : res A) (f : A -> res B) P Q :
  has_post m P -> (forall a, P a -> has_post (f a) Q) -> has_post (m ≫= f) Q.
Proof. intros Hm Hf b (a & Ha & Hb)%bind_Ok. eapply Hf; eauto. Qed.
Lemma post_then {A B} (m : res A) (f : A -> res B) Q :
  (forall a, m = Ok a -> has_post (f a) Q) -> has_post (m ≫= f) Q.
Proof. intros Hf b (a & Ha & Hb)%bind_Ok. eapply Hf; eauto. Qed.
Lemma post_require {A} (b : bool) e (m : res A) Q :
  (b = true -> has_post m Q) -> has_post (_ ← require b e; m) Q.
Proof. intros Hm a (u & Hb%require_Ok & Ha)%bind_Ok. by apply Hm. Qed.
Lemma post_weaken {A} (m : res A) (P Q : A -> Prop) : has_post m P -> (forall a, P a -> Q a) -> has_post m Q.
Proof. unfold has_post. eauto. Qed.

(** ** Invariants of a chain of steps *)

Definition keeps (I : payload -> Prop) (f : payload -> res payload) : Prop := forall p, I p -> has_post (f p) I.
Lemma keeps_step I name names f : (str_in name names = true -> keeps I f) -> keeps I (step_for name names f).
Proof. unfold step_for. intros Hf p Hp. destruct (str_in name names); [by apply Hf|by apply post_Ok]. Qed.

Section Steps.
Variable I : payload -> Prop.
Variable K : string -> Prop.
Hypothesis I_both : forall k v p, K k -> I p -> I (both k v p).

Lemma both_if_keeps b k v p : K k -> I p -> I (both_if b k v p).
Proof. destruct b; cbn; auto. Qed.
Lemma both_opt_keeps k v p : K k -> I p -> I (both_opt k v p).
Proof. destruct v; cbn; auto. Qed.
Lemma both_text_keeps k v p : K k -> I p -> I (both_text k v p).
Proof. apply both_if_keeps. Qed.
Lemma both_list_keeps k l p : K k -> I p -> I (both_list k l p).
Proof. apply both_if_keeps. Qed.

Lemma copy_required_keeps params key r : K key -> keeps I (copy_required params key r).
Proof. intros HK p Hp. apply post_then. intros v _. apply post_Ok. auto. Qed.
Lemma copy_mount_keeps params key : K key -> keeps I (copy_mount params key).
Proof. intros HK p Hp. apply post_then. intros v _. apply post_Ok. auto. Qed.
Lemma copy_word_keeps params key words m : K key -> keeps I (copy_word params key words m).
Proof.
intros HK p Hp. unfold copy_word. destruct (get key params); try apply post_Err.
destruct (str_in _ _); [apply post_Ok; auto|apply post_Err].
Qed.
Lemma copy_int_if_keeps params key f m : K key -> keeps I (copy_int_if params key f m).
Proof.
intros HK p Hp. unfold copy_int_if. destruct (get key params); try apply post_Err.
destruct (f _); [apply post_Ok; auto|apply post_Err].
Qed.
Lemma unless_none_keeps params key f : keeps I f -> keeps I (unless_none params key f).
Proof. intros Hf p Hp. unfold unless_none. destruct (get key params); try by apply Hf. by apply post_Ok. Qed.
Lemma given_keeps params key f : keeps I f -> keeps I (given params key f).
Proof. intros Hf p Hp. unfold given. destruct (blank _); [by apply post_Ok|by apply Hf]. Qed.
Lemma copy_named_keeps params key r : K key -> keeps I (copy_named params key r).
Proof. intros HK p Hp. apply post_then. intros v _. apply post_Ok. auto. Qed.
Lemma copy_flags_keeps params flags : Forall (fun f => K f.1) flags -> keeps I (copy_flags params flags).
Proof.
intros HK. induction HK as [|[key standard] r Hk _ IH]; intros p Hp; cbn; [by apply post_Ok|].
apply post_then. intros v _. apply IH. auto.
Qed.
Lemma copy_matching_keeps params fields : Forall (fun f => K f.1) fields -> keeps I (copy_matching params fields).
Proof.
intros HK. induction HK as [|[key regex] r Hk _ IH]; intros p Hp; cbn; [by apply post_Ok|].
apply post_then. intros v _. apply IH. by apply both_text_keeps.
Qed.
Lemma copy_ranges_keeps params fields : Forall (fun f => K f.1.1) fields -> keeps I (copy_ranges params fields).
Proof.
intros HK. induction HK as [|[[key lo] hi] r Hk _ IH]; intros p Hp; cbn; [by apply post_Ok|].
apply post_then. intros v _. apply IH. by apply both_opt_keeps.
Qed.
End Steps.

(** ** What a payload and its fingerprint have in common *)

(** The body holds what the fingerprint holds, apart from the keys of the fingerprint's
    own, and nothing outside [allowed]. *)
Definition mirrored (own allowed : list string) (p : payload) : Prop :=
  (forall k, dict_get k (body p) = if decide (k ∈ own) then None else dict_get k (fingerprint p))
  /\ forall k, k ∈ keys (body p) -> k ∈ allowed.

Lemma elem_keys_get k d : k ∈ keys d <-> dict_get k d <> None.
Proof. rewrite dict_get_None. split; [auto|]. intros H. destruct (decide (k ∈ keys d)); tauto. Qed.
Lemma mirrored_both own allowed k v p :
  (k ∉ own) /\ (k ∈ allowed) -> mirrored own allowed p -> mirrored own allowed (both k v p).
Proof.
  intros [Hown Hin] [Hm Hk]. split; intros k'; cbn.
  - destruct (decide (k' = k)) as [->|Hne].
    + rewrite decide_False by done. by rewrite !dict_get_set_eq.
    + by rewrite !dict_get_set_ne.
  - rewrite elem_keys_get. destruct (decide (k' = k)) as [->|Hne]; [done|].
    rewrite dict_get_set_ne by done. rewrite <- elem_keys_get. auto.
Qed.

(** A closed fact about keys, decided. *)
Ltac key_ok := apply (bool_decide_unpack _); vm_compute; done.

(** ** OpenBao *)

Section OpenBao.
Context `{PyLib}.
Definition openbao_own : list string := ["handler_id"; "procedure"; "target_object_sha256"].
Definition openbao_body (allowed : list string) : list string := "target" :: "target_object" :: allowed.

Lemma openbao_payload_mirrored allowed i : mirrored openbao_own (openbao_body allowed) (openbao_payload i).
Proof.
split; intros k; unfold openbao_payload, openbao_own; cbn [body fingerprint].
- repeat (cbn [dict_get]; match goal with |- context [String.eqb ?a k] => destruct (String.eqb_spec a k) end;
          subst; try done).
  cbn. by destruct (decide _).
- rewrite !keys_cons. set_solver.
Qed.

(** The operation is one of the step's, and its keys are among the allowed ones. *)
Ltac on_step :=
intros Hop; apply bool_decide_eq_true in Hop;
repeat (apply elem_of_cons in Hop as [->|Hop]); try (by apply elem_of_nil in Hop);
match goal with Ha : allowed_by_operation _ = Some _ |- _ => vm_compute in Ha; injection Ha as <- end.
Ltac next_step p Hp := eapply post_bind; [refine (keeps_step _ _ _ _ _ p Hp); on_step|clear p Hp; intros p Hp; cbv beta].

Lemma provision_keeps I K params :
(forall k v p, K k -> I p -> I (both k v p)) ->
Forall K ["mount"; "role_name"; "engine_slug"; "path_prefix"; "ttl_seconds"; "restart_netbox"] ->
keeps I (provision_approle params).
Proof.
intros HI HK p Hp. repeat (apply Forall_cons in HK as [? HK]). unfold provision_approle.
eapply post_bind; [by apply (copy_mount_keeps I K)|clear p Hp; intros p Hp].
eapply post_bind; [by apply (copy_required_keeps I K)|clear p Hp; intros p Hp].
eapply post_bind; [by apply (copy_required_keeps I K)|clear p Hp; intros p Hp].
eapply post_bind; [by refine (unless_none_keeps I _ _ _ (copy_required_keeps I K HI _ _ _ _) p Hp)|clear p Hp; intros p Hp].
eapply post_bind; [by refine (unless_none_keeps I _ _ _ (copy_int_if_keeps I K HI _ _ _ _ _) p Hp)|clear p Hp; intros p Hp].
eapply unless_none_keeps; [|done]. clear p Hp. intros p Hp.
destruct (get _ params); try apply post_Err. apply post_Ok. auto.
Qed.

Lemma openbao_fields_keeps params operation allowed :
allowed_by_operation operation = Some allowed ->
keeps (mirrored openbao_own (openbao_body allowed)) (openbao_fields params operation).
Proof.
intros Ha p Hp. unfold openbao_fields.
pose proof (mirrored_both openbao_own (openbao_body allowed)) as HI.
next_step p Hp. { eapply copy_required_keeps; [apply mirrored_both|key_ok]. }
next_step p Hp. { eapply copy_word_keeps; [apply mirrored_both|key_ok]. }
next_step p Hp.
{ intros q Hq. eapply post_bind; [refine (copy_word_keeps _ _ (mirrored_both _ _) _ _ _ _ _ q Hq); key_ok|].
  apply unless_none_keeps, (copy_int_if_keeps _ _ (mirrored_both _ _)). key_ok. }
next_step p Hp. { eapply copy_word_keeps; [apply mirrored_both|key_ok]. }
next_step p Hp. 1-3: eapply unless_none_keeps, copy_mount_keeps; [apply mirrored_both|key_ok].
next_step p Hp. 1-3: eapply copy_mount_keeps; [apply mirrored_both|key_ok].
next_step p Hp. { eapply unless_none_keeps, copy_required_keeps; [apply mirrored_both|key_ok]. }
next_step p Hp. { eapply copy_word_keeps; [apply mirrored_both|key_ok]. }
next_step p Hp. { eapply copy_required_keeps; [apply mirrored_both|key_ok]. }
apply keeps_step; [|exact Hp]. on_step. eapply provision_keeps; [apply mirrored_both|].
repeat constructor; key_ok.
Qed.

Lemma no_foreign_keys params names : foreign_keys params names = [] -> forall k, k ∈ keys params -> k ∈ names.
Proof.
unfold foreign_keys, sorted_names. intros Hf k Hk. destruct (decide (k ∈ names)) as [|Hn]; [done|exfalso].
assert (Hin : k ∈ List.filter (fun k => negb (str_in k names)) (keys params)).
{ apply list_elem_of_In, filter_In. split; [by apply list_elem_of_In|].
  unfold str_in. by rewrite bool_decide_false. }
rewrite <- (merge_sort_Permutation (fun a b => Is_true (String.leb a b))), Hf in Hin. by apply elem_of_nil in Hin.
Qed.
Lemma require_none_Ok names e u : require_none names e = Ok u -> names = [].
Proof. intros Hn%require_Ok. by destruct names. Qed.

Definition openbao_accepts (i : norm_input) (p : payload) (params : dict) (allowed : list string) : Prop :=
py_or (ni_params i) (VDict []) = VDict params
/\ allowed_by_operation (openbao_operation (ni_procedure i)) = Some allowed
/\ ni_target_model i = "dcim.device"
/\ (forall k, k ∈ keys params -> k ∈ allowed ++ _OPENBAO_INTERNAL_PARAM_KEYS)
/\ mirrored openbao_own (openbao_body allowed) p.
Lemma openbao_accepted i p : _normalize_openbao_1_execution i = Ok p -> exists params allowed, openbao_accepts i p params allowed.
Proof.
unfold _normalize_openbao_1_execution. destruct (py_or _ _) as [| | | | | | | | | |params] eqn:Hp; try done.
intros (allowed & Ha & (? & _ & (? & Hf%require_none_Ok & (? & Hm%require_Ok & (? & _ & Hok)%bind_Ok)%bind_Ok)%bind_Ok)%bind_Ok)%bind_Ok.
destruct (allowed_by_operation _) as [a|] eqn:Ea; [injection Ha as ->|done].
exists params, allowed. apply andb_true_iff in Hm as [Hm%bool_decide_eq_true _].
apply elem_of_cons in Hm as [Hm|Hm%elem_of_nil]; [|done].
split_and!; [done..| |].
- by apply no_foreign_keys.
- by eapply openbao_fields_keeps; [|apply openbao_payload_mirrored|].
Qed.

(** No operation takes an SSH override. *)
Lemma no_ssh_key operation allowed k :
allowed_by_operation operation = Some allowed -> k ∈ _OPENBAO_FORBIDDEN_SSH_OVERRIDE_PARAMS ->
k ∉ "target" :: "target_object" :: allowed ++ _OPENBAO_INTERNAL_PARAM_KEYS.
Proof.
unfold allowed_by_operation. intros Ha Hk.
assert (Hall : Forall (fun k => k ∉ "target" :: "target_object" :: allowed ++ _OPENBAO_INTERNAL_PARAM_KEYS)
                 _OPENBAO_FORBIDDEN_SSH_OVERRIDE_PARAMS); [|by eapply Forall_forall in Hall].
destruct (str_in operation _); [injection Ha as <-; key_ok|].
repeat match type of Ha with context [match ?s with _ => _ end] => destruct s; try discriminate Ha end.
all: injection Ha as <-; key_ok.
Qed.

(** C19: an accepted OpenBao request is for a device, was sent nothing but the parameters
    of its operation and the internal ones, forwards nothing but those and the target, so
    no SSH override; and what the approval hashes determines all that is forwarded: two
    accepted requests with the same fingerprint have the same payload. *)
Theorem openbao_fingerprint_binds_payload i p :
_normalize_openbao_1_execution i = Ok p ->
exists params allowed,
  py_or (ni_params i) (VDict []) = VDict params
  /\ allowed_by_operation (openbao_operation (ni_procedure i)) = Some allowed
  /\ ni_target_model i = "dcim.device"
  /\ (forall k, k ∈ keys params -> k ∈ allowed ++ _OPENBAO_INTERNAL_PARAM_KEYS)
  /\ (forall k, k ∈ keys (body p) -> k ∈ "target" :: "target_object" :: allowed)
  /\ (forall k, k ∈ _OPENBAO_FORBIDDEN_SSH_OVERRIDE_PARAMS -> (k ∉ keys params) /\ (k ∉ keys (body p)))
  /\ forall j q, _normalize_openbao_1_execution j = Ok q ->
       (forall k, dict_get k (fingerprint q) = dict_get k (fingerprint p)) ->
       forall k, dict_get k (body q) = dict_get k (body p).
Proof.
intros (params & allowed & Hp & Ha & Hm & Hk & [Hmir Hb])%openbao_accepted. exists params, allowed.
split_and!; try done.
- intros k Hssh. pose proof (no_ssh_key _ _ k Ha Hssh) as Hno. split; [intros Hin%Hk|intros Hin%Hb]; set_solver.
- intros j q (? & ? & _ & _ & _ & _ & [Hq _])%openbao_accepted Hf k. rewrite Hq, Hmir, Hf. done.
Qed.
End OpenBao.

(** ** InfluxDB 3 on Debian 13 *)

(** The entry that [both] writes. *)
Lemma both_get k v p : dict_get k (body (both k v p)) = Some v.
Proof. apply dict_get_set_eq. Qed.
Lemma both_get_ne k k' v p : k <> k' -> dict_get k' (body (both k v p)) = dict_get k' (body p).
Proof. apply dict_get_set_ne. Qed.
Ltac look := repeat (rewrite both_get || rewrite both_get_ne by done).

(** What the unit may be started with: the certificate and the key of the request. *)
Definition tls_entries (params : dict) (p : payload) : Prop :=
  dict_get "tls_enabled" (body p) = Some (VBool true) ->
  exists cert key, dict_get "tls_cert" (body p) = Some (VStr cert) /\ dict_get "tls_key" (body p) = Some (VStr key)
    /\ text_of (get "tls_cert" params) = cert /\ text_of (get "tls_key" params) = key
    /\ normpath cert = cert /\ normpath key = key.
(** A directory in none of the trees that are hidden from the packaged unit. *)
Definition seen_by_unit (d : string) : Prop :=
  forall root, root ∈ ["/home"; "/root"; "/run"; "/tmp"; "/var/tmp"] -> d <> root /\ forall below, d <> root +:+ "/" +:+ below.
Definition data_entry (p : payload) : Prop :=
  forall v, dict_get "data_dir" (body p) = Some v -> exists d, v = VStr d /\ normpath d = d /\ seen_by_unit d.
(** A parameter that says yes. *)
Definition says_yes (v : value) : Prop :=
  v = VBool true \/ exists s, v = VStr s /\ str_lower (str_strip s) ∈ ["true"; "1"; "yes"; "on"].

Lemma bool_param_yes params key : _bool_param params key false = Ok true -> says_yes (get key params).
Proof.
  unfold _bool_param, says_yes. cbv zeta. intros Hb. destruct (get key params) as [|[]| | |s| | | | | |]; try done; [by left|right].
  destruct (str_in _ ["true"; _; _; _]) eqn:E in Hb; [|by destruct (str_in _ _) in Hb]. exists s. split; [done|].
  by apply bool_decide_eq_true in E.
Qed.
Lemma allowed_seen d : data_dir_allowed d = true -> seen_by_unit d.
Proof.
  unfold data_dir_allowed. rewrite forallb_forall. intros Ha root Hr.
  specialize (Ha root (proj1 (list_elem_of_In _ _) Hr)). apply negb_true_iff, orb_false_iff in Ha as [He Hp]. split.
  - by apply String.eqb_neq.
  - intros below ->. rewrite <- sapp_assoc in Hp. unfold str_startswith in Hp. by rewrite str_prefix_app in Hp.
Qed.
Lemma absolute_path_canonical raw name v :
  _influxdb3_absolute_path raw name = Ok v -> normpath v = v /\ text_of raw = v.
Proof. unfold _influxdb3_absolute_path. intros. res_inv. subst. split; [by apply String.eqb_eq|done]. Qed.

Section Install.
Variable params : dict.

Definition installing (b : bool) (p : payload) : Prop :=
  dict_get "tls_enabled" (body p) = Some (VBool b) /\ tls_entries params p /\ data_entry p
  /\ dict_get "http_bind" (body p) = None.
Lemma tls_checked p q b :
  dict_get "data_dir" (body p) = None -> dict_get "http_bind" (body p) = None ->
  influxdb3_tls params p = Ok (q, b) -> installing b q.
Proof.
  intros Hd Hh. unfold influxdb3_tls. intros (? & _ & (p' & Hp & [= <- <-])%bind_Ok)%bind_Ok.
  unfold installing, tls_entries, data_entry. destruct (negb (blank _) && negb (blank _)) eqn:E.
  - apply bind_Ok in Hp as (cert & [? Hc]%absolute_path_canonical & (key & [? Hk]%absolute_path_canonical & [= <-])%bind_Ok).
    look. rewrite Hd. split_and!; try done. intros _. by exists cert, key.
  - injection Hp as <-. look. by rewrite Hd.
Qed.

Definition installing_key (k : string) : Prop := k ∉ ["tls_enabled"; "tls_cert"; "tls_key"; "data_dir"; "http_bind"].
Lemma installing_both b k v p : installing_key k -> installing b p -> installing b (both k v p).
Proof.
  unfold installing_key. rewrite !not_elem_of_cons. intros (? & ? & ? & ? & ? & _) (Hb & Ht & Hd & Hh).
  unfold installing, tls_entries, data_entry. rewrite !both_get_ne by done. done.
Qed.
Lemma installing_data b d p :
  normpath d = d -> seen_by_unit d -> installing b p -> installing b (both "data_dir" (VStr d) p).
Proof.
  intros Hn Ha (Hb & Ht & Hd & Hh). unfold installing, tls_entries, data_entry. look.
  split_and!; try done. intros v [= <-]. eauto.
Qed.

Definition bound_to (host : string) (p : payload) : Prop :=
  (dict_get "http_bind" (body p) = None /\ host = "127.0.0.1")
  \/ exists port, dict_get "http_bind" (body p) = Some (VStr (host +:+ ":" +:+ str_of_Z port)) /\ 1 <= port <= 65535.
Lemma bind_checked b p q host :
  installing b p -> influxdb3_bind params p = Ok (q, host) ->
  dict_get "tls_enabled" (body q) = Some (VBool b) /\ tls_entries params q /\ data_entry q /\ bound_to host q.
Proof.
  intros (Hb & Ht & Hd & Hh). unfold influxdb3_bind. destruct (blank _).
  - intros [= <- <-]. split_and!; try done. by left.
  - intros (? & _ & (? & Hport%require_Ok & [= <- <-])%bind_Ok)%bind_Ok. bool_inv.
    unfold tls_entries, data_entry. look. split_and!; try done. right. look. eauto.
Qed.

Lemma install_keeps b p :
  installing b p ->
  has_post (influxdb3_install params b p) (fun q =>
    dict_get "tls_enabled" (body q) = Some (VBool b) /\ tls_entries params q /\ data_entry q
    /\ exists host remote, bound_to host q /\ dict_get "remote_bind" (body q) = Some (VBool remote)
       /\ (remote = false <-> host ∈ ["127.0.0.1"; "localhost"])
       /\ (remote = true -> b = true \/ dict_get "allow_plaintext_remote" (body q) = Some (VBool true))).
Proof.
  intros Hp. unfold influxdb3_install. pose proof (installing_both b) as HI.
  eapply post_bind; [refine (copy_flags_keeps _ _ HI _ _ _ p Hp); repeat constructor; key_ok|clear p Hp; intros p Hp].
  eapply post_bind; [refine (given_keeps _ _ _ _ _ p Hp)|clear p Hp; intros p Hp].
  { intros q Hq. apply post_then. intros v _. apply post_require. intros _. apply post_Ok, HI; [key_ok|done]. }
  eapply post_bind; [refine (given_keeps _ _ _ _ _ p Hp)|clear p Hp; intros p Hp].
  { intros q Hq. apply post_then. intros d [Hd _]%absolute_path_canonical. apply post_require. intros Ha%allowed_seen.
    by apply post_Ok, installing_data. }
  do 3 (eapply post_bind; [refine (given_keeps _ _ _ _ _ p Hp); apply (copy_named_keeps _ _ HI); key_ok
                          |clear p Hp; intros p Hp]).
  apply post_then. intros [q host] Hq.
  destruct (bind_checked _ _ _ _ Hp Hq) as (Hb & Ht & Hd & Hh). apply post_require. intros Hr.
  apply post_Ok. unfold tls_entries, data_entry. look. split_and!; try done.
  exists host, (negb (str_in host _INFLUXDB3_LOOPBACK_BIND_HOSTS)). split_and!.
  - unfold bound_to. by look.
  - done.
  - rewrite negb_false_iff. apply bool_decide_eq_true.
  - intros Hrem. rewrite Hrem in Hr. destruct b; [by left|right]. look. cbn in Hr. bool_inv.
    unfold get in Hr. destruct (dict_get "allow_plaintext_remote" (body q)); simplify_eq/=. done.
Qed.

(** The flag of the payload is the flag of the request. *)
Lemma install_flag b p :
  has_post (influxdb3_install params b p) (fun q => exists v,
    _bool_param params "allow_plaintext_remote" false = Ok v
    /\ dict_get "allow_plaintext_remote" (body q) = Some (VBool v)).
Proof.
  unfold influxdb3_install. apply post_then. intros p1 Hp1.
  assert (exists v, _bool_param params "allow_plaintext_remote" false = Ok v
            /\ dict_get "allow_plaintext_remote" (body p1) = Some (VBool v)) as (v & Hv & Hf).
  { cbn [copy_flags _INFLUXDB3_BOOLEAN_PARAM_DEFAULTS] in Hp1. res_inv. subst. eexists. split; [eassumption|apply both_get]. }
  clear Hp1. set (I := fun q => dict_get "allow_plaintext_remote" (body q) = Some (VBool v)). fold (I p1) in Hf.
  assert (HI : forall k w q, k <> "allow_plaintext_remote" -> I q -> I (both k w q))
    by (intros k w q Hk Hq; unfold I; by rewrite both_get_ne).
  do 2 (eapply (post_bind _ _ I); [refine (given_keeps _ _ _ _ _ p1 Hf); intros q Hq; apply post_then; intros w _;
                                  apply post_require; intros _; by apply post_Ok, HI
                                |clear p1 Hf; intros p1 Hf]).
  do 3 (eapply (post_bind _ _ I); [refine (given_keeps _ _ _ _ _ p1 Hf); intros q Hq; apply post_then; intros w _;
                                  by apply post_Ok, HI|clear p1 Hf; intros p1 Hf]).
  apply post_then. intros [q host] Hq. apply post_require. intros _. apply post_Ok. exists v. split; [done|].
  apply HI; [done|]. unfold influxdb3_bind in Hq. destruct (blank _); [by injection Hq as <- _|].
  apply bind_Ok in Hq as (? & _ & (? & _ & [= <- _])%bind_Ok). by apply HI.
Qed.
End Install.

(** C22: an accepted installation never exposes the token in clear unasked.  It listens on
    loopback, or with the certificate and the key of the request, or the request itself
    says yes to a remote plaintext listener: true, or one of the four words for it.  The
    port is a port, the certificate and the key are canonical paths, and the data
    directory lies in none of the trees the packaged unit does not see. *)
Theorem influxdb3_never_exposes_plaintext f i p :
  _normalize_influxdb3_debian13_execution f i = Ok p -> ni_procedure i = INFLUXDB3_DEBIAN13_INSTALL ->
  exists params, py_or (ni_params i) (VDict []) = VDict params /\ tls_entries params p /\ data_entry p
  /\ exists host remote, bound_to host p /\ dict_get "remote_bind" (body p) = Some (VBool remote)
     /\ (remote = false <-> host ∈ ["127.0.0.1"; "localhost"])
     /\ (remote = true -> dict_get "tls_enabled" (body p) = Some (VBool true)
                          \/ says_yes (get "allow_plaintext_remote" params)).
Proof.
  intros Hok Hname. unfold _normalize_influxdb3_debian13_execution in Hok. rewrite Hname in Hok.
  apply bind_Ok in Hok as (params & Hpar & (? & _ & (? & _ & (? & _ & (? & _ & (? & _ & (? & _ & Hok)%bind_Ok)%bind_Ok)%bind_Ok)%bind_Ok)%bind_Ok)%bind_Ok).
  apply bind_Ok in Hok as ([q b] & Hq%tls_checked & Hok); [|done..].
  destruct (install_flag _ _ _ _ Hok) as (v & Hv & Hflag).
  apply (install_keeps params b q) in Hok as (Hb & Ht & Hd & host & remote & Hh & Hr & Hloop & Htls); [|done].
  exists params. split; [unfold params_of in Hpar; by destruct (py_or _ _); simplify_eq/=|].
  split_and!; try done. exists host, remote. split_and!; try done. intros Hrem. destruct (Htls Hrem) as [->|Hyes]; [by left|].
  right. rewrite Hflag in Hyes. injection Hyes as ->. by apply bool_param_yes.
Qed.

(** ** The nmap scan *)

Lemma map_res_Forall {A B} (f : A -> res B) (P : B -> Prop) l ys :
  (forall x y, f x = Ok y -> P y) -> map_res f l = Ok ys -> Forall P ys /\ length ys = length l.
Proof.
  intros Hf. revert ys. induction l as [|x l IH]; cbn; intros ys Hys.
  - injection Hys as <-. done.
  - apply bind_Ok in Hys as (y & Hy%Hf & (zs & [? ?]%IH & [= <-])%bind_Ok). split; [by constructor|cbn; lia].
Qed.
Lemma Forall_image {A B} (f : A -> B) (P : A -> Prop) ys :
  Forall (fun y => exists x, y = f x /\ P x) ys -> exists xs, ys = map f xs /\ Forall P xs.
Proof.
  induction 1 as [|y ys (x & -> & Hx) _ (xs & -> & Hxs)]; [by exists []|]. exists (x :: xs). by split; [|constructor].
Qed.

(** A port, or the ports from one to another. *)
Notation port_range := (Z * option Z)%type.
Definition range_text (r : port_range) : string :=
  match r.2 with None => str_of_Z r.1 | Some e => str_of_Z r.1 +:+ "-" +:+ str_of_Z e end.
Definition range_ok (r : port_range) : Prop :=
  1 <= r.1 <= 65535 /\ match r.2 with None => True | Some e => r.1 <= e <= 65535 end.
(** One to thirty-two of them, written with commas. *)
Definition ports_text (s : string) : Prop :=
  exists rs, s = str_join "," (map range_text rs) /\ Forall range_ok rs /\ (1 <= length rs <= 32)%nat.

Lemma port_token_range t s : port_token t = Ok s -> exists r, s = range_text r /\ range_ok r.
Proof.
  unfold port_token, port_in_range. intros (? & _ & Ht)%bind_Ok. destruct (str_contains _ _).
  - apply bind_Ok in Ht as (? & Hle%require_Ok & (? & Hb%require_Ok & [= <-])%bind_Ok). bool_inv.
    exists (decimal (str_before "-"%char t), Some (decimal (str_after "-"%char t))). split; [done|]. cbv [range_ok fst snd]. lia.
  - apply bind_Ok in Ht as (? & Hb%require_Ok & [= <-]). bool_inv.
    exists (decimal t, None). split; [done|]. cbv [range_ok fst snd]. lia.
Qed.
Lemma port_entry_range v n : port_entry v = Ok n -> range_ok (n, None).
Proof.
  unfold port_entry, port_in_range. destruct v; try done. intros (? & Hb%require_Ok & [= <-])%bind_Ok. bool_inv.
  cbv [range_ok fst snd]. lia.
Qed.
Lemma split_on_length c cur s : (1 <= length (split_on c cur s))%nat.
Proof. revert cur. induction s as [|d s IH]; intros cur; cbn; [lia|]. destruct (Ascii.eqb c d); cbn; [lia|apply IH]. Qed.

Lemma ports_checked v s : _normalize_nmap_ports v = Ok s -> s = EmptyString \/ ports_text s.
Proof.
  assert (Hlist : forall l, (_ ← require (negb (bool_decide (l = []))) (invalid_param "ports must not be empty when provided.");
    _ ← require (Z.of_nat (length l) <=? 32) (invalid_param "ports may contain at most 32 entries.");
    numbers ← map_res port_entry l; Ok (str_join "," (map str_of_Z numbers))) = Ok s -> ports_text s).
  { intros l (? & Hne%require_Ok & (? & Hlen%require_Ok & (ns & [Hns Hl]%(map_res_Forall _ (fun n => range_ok (n, None))) & [= <-])%bind_Ok)%bind_Ok)%bind_Ok;
      [|apply port_entry_range]. bool_inv.
    exists (map (fun n => (n, None)) ns). rewrite map_map. split; [done|]. split; [by apply Forall_map|].
    rewrite length_map. destruct l; [done|]. cbn in *. lia. }
  destruct v; try done; cbn -[Z.of_nat]; [intros [= <-]; by left| |intros; right; by eapply Hlist|intros; right; by eapply Hlist].
  intros (? & _ & (? & _ & Ht)%bind_Ok)%bind_Ok. right. unfold _normalize_nmap_port_tokens in Ht.
  apply bind_Ok in Ht as (? & Hlen%require_Ok & (ts & [Hts Hl]%(map_res_Forall _ _ _ _ port_token_range) & [= <-])%bind_Ok).
  bool_inv. apply Forall_image in Hts as (rs & -> & Hrs). exists rs. split; [done|]. split; [done|].
  rewrite length_map in Hl. pose proof (split_on_length ","%char EmptyString (str_strip s0)). unfold str_split in *. lia.
Qed.

(** An address, a network of at most 256 addresses that starts where it says, or a host
    name in lower case. *)
Definition scan_target (t : string) : Prop :=
  is_ipv4 t = true
  \/ (exists base prefix, t = network_str base prefix /\ is_ipv4 base = true /\ 24 <= prefix <= 32
        /\ aligned 32 prefix (ipv4_value base) = true)
  \/ exists name, t = str_lower name /\ full _NMAP_HOSTNAME_RE name = true.

Lemma ipv4_prefix_bound s p : ipv4_prefix s = Some p -> p <= 32.
Proof.
  assert (Hm : forall m, prefix_of_mask m = Some p -> p <= 32).
  { intros m [Hin _]%List.find_some. apply list_elem_of_In, elem_of_seqZ in Hin. lia. }
  unfold ipv4_prefix. destruct (prefix_of_digits 32 s) eqn:E.
  - intros [= <-]. unfold prefix_of_digits in E.
    destruct (str_truthy s && str_forall is_digit s && (decimal s <=? 32)) eqn:Ed; [|done]. injection E as <-. bool_inv. done.
  - destruct (is_ipv4 s); [|done]. destruct (prefix_of_mask (ipv4_value s)) eqn:E'; [intros [= <-]; by apply Hm in E'|apply Hm].
Qed.
Lemma network_checked t base prefix :
  ip_network t = Some (Net4 base prefix) ->
  is_ipv4 base = true /\ prefix <= 32 /\ aligned 32 prefix (ipv4_value base) = true.
Proof.
  unfold ip_network. destruct (str_split "/"%char t) as [|a [|m [|]]]; try done.
  - destruct (is_ipv4 a) eqn:Ea; [|by destruct (is_ipv6 a)]. intros [= <- <-]. split_and!; [done|lia|].
    unfold aligned. by rewrite Z.land_0_r.
  - destruct (is_ipv4 a) eqn:Ea.
    + destruct (ipv4_prefix m) as [p|] eqn:Ep.
      * destruct (aligned 32 p (ipv4_value a)) eqn:Eal; [|done]. intros [= <- <-]. by apply ipv4_prefix_bound in Ep.
      * destruct (is_ipv6 a); [|done]. destruct (prefix_of_digits 128 m); [|done]. by destruct (aligned _ _ _).
    + destruct (is_ipv6 a); [|done]. destruct (prefix_of_digits 128 m); [|done]. by destruct (aligned _ _ _).
Qed.
Lemma target_checked v t : _normalize_nmap_target v = Ok t -> scan_target t.
Proof.
  unfold _normalize_nmap_target. intros (? & _ & (? & _ & Ht)%bind_Ok)%bind_Ok. destruct (str_contains _ _).
  - destruct (ip_network _) as [[base prefix|]|] eqn:En; [|done..].
    apply bind_Ok in Ht as (? & Hb%require_Ok & [= <-]). apply network_checked in En as (Hv & Hp & Ha).
    right; left. exists base, prefix. split_and!; try done. apply Z.leb_le in Hb. unfold num_addresses in Hb.
    change _NMAP_MAX_CIDR_HOSTS with (2 ^ 8) in Hb. apply Z.pow_le_mono_r_iff in Hb; lia.
  - unfold ip_address in Ht. destruct (str_contains _ _); [|destruct (is_ipv4 _) eqn:E4; [|destruct (is_ipv6 _)]].
    2: { injection Ht as <-. by left. } 2: done.
    all: destruct (full _ _) eqn:Ef; [injection Ht as <-|done]; right; right; eauto.
Qed.

(** The SSH overrides touch no other entry. *)
Definition ssh_keys : list string :=
  ["rpc_ssh_credential_pk"; "rpc_ssh_host"; "rpc_ssh_port"; "rpc_ssh_known_hosts_entry";
   "rpc_ssh_known_hosts_entry_sha256"; "rpc_ssh_strict_host_key_checking"].
Definition agree (k : string) (p q : payload) : Prop :=
  dict_get k (body q) = dict_get k (body p) /\ dict_get k (fingerprint q) = dict_get k (fingerprint p).
Lemma agree_put k key v p q : k <> key -> agree k p q -> agree k p (put key v q).
Proof. intros Hne [Hb Hf]. split; cbn; [by rewrite dict_get_set_ne|done]. Qed.
Lemma agree_mark k key v p q : k <> key -> agree k p q -> agree k p (mark key v q).
Proof. intros Hne [Hb Hf]. split; cbn; [done|by rewrite dict_get_set_ne]. Qed.
Lemma agree_both k key v p q : k <> key -> agree k p q -> agree k p (both key v q).
Proof. intros. by apply agree_mark, agree_put. Qed.

Section Hosts.
Context `{PyLib}.
Lemma ssh_overrides_agree params k p : k ∉ ssh_keys -> has_post (_copy_optional_ssh_overrides params p) (agree k p).
Proof.
unfold ssh_keys. rewrite !not_elem_of_cons. intros (? & ? & ? & ? & ? & ? & _).
assert (Hp : agree k p p) by done. unfold _copy_optional_ssh_overrides.
pose proof (fun key v q (Hk : k <> key) => agree_both k key v p q Hk) as HI.
eapply post_bind; [|].
{ apply post_then. intros v _. by apply post_Ok, (both_opt_keeps _ (fun key => k <> key)); [intros ?????; by apply HI|..]. }
clear Hp. intros q Hq. eapply (post_bind _ _ (agree k p)); [|clear q Hq; intros q Hq].
{ destruct (dict_mem _ _); [|by apply post_Ok]. apply post_then. intros u _. by apply post_Ok, agree_both. }
apply post_then. intros port _.
assert (Hq' : agree k p (both_opt "rpc_ssh_port" port q)) by (destruct port; [by apply agree_both|done]).
set (q' := both_opt _ _ _) in *. clearbody q'.
assert (Hq'' : agree k p (if dict_mem "rpc_ssh_known_hosts_entry" params then
  mark "rpc_ssh_known_hosts_entry_sha256" (_hash_text (text_of (get "rpc_ssh_known_hosts_entry" params)))
    (put "rpc_ssh_known_hosts_entry" (VStr (text_of (get "rpc_ssh_known_hosts_entry" params))) q') else q')).
{ destruct (dict_mem _ _); [by apply agree_mark, agree_put|done]. }
destruct (dict_mem "rpc_ssh_strict_host_key_checking" params); [|by apply post_Ok].
apply post_then. intros strict _. by apply post_Ok, agree_both.
Qed.

(** an accepted scan has one IPv4 address, one network of at most 256 addresses that
    starts on its own boundary, or one host name as its target, one of the three types,
    and either no ports or one to thirty-two ports and ascending ranges within 1 to 65535,
    in a canonical text; the fingerprint holds the same target, type and ports. *)
Theorem nmap_scan_is_bounded i p :
_normalize_nmap_execution i = Ok p ->
(exists t, dict_get "target" (body p) = Some (VStr t) /\ scan_target t)
/\ (exists s, dict_get "scan_type" (body p) = Some (VStr s) /\ s ∈ _NMAP_SCAN_TYPES)
/\ (dict_get "ports" (body p) = None \/ exists s, dict_get "ports" (body p) = Some (VStr s) /\ ports_text s)
/\ forall k, k ∈ ["target"; "scan_type"; "ports"] -> dict_get k (fingerprint p) = dict_get k (body p).
Proof.
unfold _normalize_nmap_execution.
intros (params & _ & (t & Ht%target_checked & (? & Hs%require_Ok & (ports & Hports & Hp)%bind_Ok)%bind_Ok)%bind_Ok)%bind_Ok.
apply bool_decide_eq_true in Hs.
assert (Hpt : ports = EmptyString \/ ports_text ports).
{ destruct (dict_mem _ _); [by apply ports_checked in Hports|injection Hports as <-; by left]. }
set (q := both_text _ _ _) in Hp.
assert (Hag : forall k, k ∈ ["target"; "scan_type"; "ports"] -> agree k q p).
{ intros k Hk. eapply ssh_overrides_agree; [|exact Hp]. revert k Hk. apply Forall_forall. repeat constructor; key_ok. }
clear Hp. unfold both_text in q.
assert (Hq : dict_get "target" (body q) = Some (VStr t)
  /\ dict_get "scan_type" (body q) = Some (VStr (text_or "connect" (get "scan_type" params)))
  /\ dict_get "ports" (body q) = (if str_truthy ports then Some (VStr ports) else None)
  /\ forall k, k ∈ ["target"; "scan_type"; "ports"] -> dict_get k (fingerprint q) = dict_get k (body q)).
{ subst q. destruct (str_truthy ports); cbn; (split_and!; try done); apply Forall_forall; repeat constructor. }
clearbody q. destruct Hq as (Hqt & Hqs & Hqp & Hqf).
split_and!.
- exists t. destruct (Hag "target") as [-> _]; [key_ok|done].
- exists (text_or "connect" (get "scan_type" params)). destruct (Hag "scan_type") as [-> _]; [key_ok|done].
- destruct (Hag "ports") as [-> _]; [key_ok|]. rewrite Hqp. destruct Hpt as [->|Hpt]; [by left|].
  destruct (str_truthy ports); [right; eauto|by left].
- intros k Hk. destruct (Hag k Hk) as [-> ->]. by apply Hqf.
Qed.
End Hosts.

(** ** Allowlisted services *)

(** The reference a row ends up with: the OpenBao assignment when it names one, which is
    then enabled, for logins, bound to the object of the execution and viewable by its
    requester; otherwise the credential of the row, if any.  Never both. *)
Definition credential_bound (d : openbao_directory) (i : norm_input) (assignment override : option Z) (p : payload) : Prop :=
  match assignment with
  | Some pk =>
      (exists a, od_installed d = true /\ od_assignment d pk = Some a /\ ca_enabled a = true /\ ca_purpose a = "login"
         /\ py_eq (ca_object_type_id a) (ni_type_id i) /\ py_eq (ca_object_id a) (ni_object_id i)
         /\ forall view, od_viewable d = Some view -> view (ca_credential_id a) = true)
      /\ dict_get "rpc_openbao_assignment_id" (body p) = Some (VInt pk)
      /\ dict_get "rpc_openbao_assignment_id" (fingerprint p) = Some (VInt pk)
      /\ dict_get "rpc_ssh_credential_pk" (body p) = None
  | None =>
      dict_get "rpc_openbao_assignment_id" (body p) = None
      /\ dict_get "rpc_ssh_credential_pk" (body p) = VInt <$> override
  end.

Lemma assignment_checked d i pk r :
  resolve_openbao_assignment_reference d i (Some pk) true = Ok r ->
  r = Some pk /\ exists a, od_installed d = true /\ od_assignment d pk = Some a /\ ca_enabled a = true
    /\ ca_purpose a = "login" /\ py_eq (ca_object_type_id a) (ni_type_id i) /\ py_eq (ca_object_id a) (ni_object_id i)
    /\ forall view, od_viewable d = Some view -> view (ca_credential_id a) = true.
Proof.
  cbn -[py_eqb]. intros (? & Hi%require_Ok & (a & Ha & (? & Hp%require_Ok & (? & Hb%require_Ok & (? & Hv%require_Ok & [= <-])%bind_Ok)%bind_Ok)%bind_Ok)%bind_Ok)%bind_Ok.
  split; [done|]. apply String.eqb_eq in Hp. unfold py_eqb in Hb. bool_inv.
  destruct (od_assignment d pk) as [a'|]; [|done]. destruct (ca_enabled a') eqn:He; [injection Ha as ->|done].
  exists a. split_and!; try done. intros view Hview. by rewrite Hview in Hv.
Qed.
Lemma reference_checked d i assignment override p q :
  dict_get "rpc_openbao_assignment_id" (body p) = None -> dict_get "rpc_ssh_credential_pk" (body p) = None ->
  _apply_allowlist_credential_reference d i assignment override p = Ok q ->
  credential_bound d i assignment override q
  /\ forall k, k ∉ ["rpc_openbao_assignment_id"; "rpc_ssh_credential_pk"] -> agree k p q.
Proof.
  intros Ho Hs. unfold _apply_allowlist_credential_reference. intros (r & Hr & [= <-])%bind_Ok.
  destruct assignment as [pk|].
  - apply assignment_checked in Hr as [-> Ha]. split.
    + unfold credential_bound. split; [done|]. look. split_and!; try done.
      cbn. apply dict_get_set_eq.
    + intros k. rewrite !not_elem_of_cons. intros (? & ? & _). by apply agree_both.
  - injection Hr as <-. destruct override as [pk|]; (split; [|intros k; rewrite !not_elem_of_cons; intros (? & ? & _)]).
    + cbn. by rewrite dict_get_set_eq, dict_get_set_ne.
    + by apply agree_put.
    + done.
    + done.
Qed.

Lemma allowed_row t i slug row :
  allowed_service t i slug = Ok row ->
  row ∈ services t /\ sa_slug row = slug /\ sa_enabled row = true
  /\ (sa_target_models row = [] \/ ni_target_model i ∈ sa_target_models row).
Proof.
  unfold allowed_service, service_row. intros (r & Hr & (? & Hs%require_Ok & [= ->])%bind_Ok)%bind_Ok.
  destruct (List.find _ _) as [r'|] eqn:Hf; [injection Hr as ->|done].
  apply List.find_some in Hf as [Hin [Hslug He]%andb_true_iff]. apply String.eqb_eq in Hslug.
  split_and!; [by apply list_elem_of_In|done..|]. unfold serves, str_in in Hs.
  by apply orb_true_iff in Hs as [?%bool_decide_eq_true|?%bool_decide_eq_true]; [left|right].
Qed.

(** C21: a service procedure and the environment-file procedure act on the unit of an
    enabled row of the allowlist that serves the target's model, whatever the caller
    sent, and with the credential reference of that row: the OpenBao assignment where the
    row has one, never beside the legacy credential and never replaced by it, and only
    when it is enabled, for logins, bound to this very object and viewable by the
    requester. *)
Theorem service_runs_its_row f t d i p :
  _normalize_linux_service_execution t d i = Ok p \/ _normalize_linux_env_file_upsert_execution f t d i = Ok p ->
  exists row,
    row ∈ services t /\ sa_enabled row = true
    /\ (sa_target_models row = [] \/ ni_target_model i ∈ sa_target_models row)
    /\ dict_get "service_slug" (body p) = Some (VStr (sa_slug row))
    /\ dict_get "systemd_unit" (body p) = Some (VStr (sa_systemd_unit row))
    /\ dict_get "systemd_unit" (fingerprint p) = Some (VStr (sa_systemd_unit row))
    /\ credential_bound d i (sa_openbao_assignment_id row) (sa_ssh_credential_override_id row) p.
Proof.
  assert (Hrow : forall slug row b fp,
    allowed_service t i slug = Ok row ->
    _apply_allowlist_credential_reference d i (sa_openbao_assignment_id row) (sa_ssh_credential_override_id row)
      (opening i (["service_slug" :- VStr slug; "systemd_unit" :- VStr (sa_systemd_unit row)] ++ b)
         (["systemd_unit" :- VStr (sa_systemd_unit row)] ++ fp)) = Ok p ->
    dict_get "rpc_openbao_assignment_id" b = None -> dict_get "rpc_ssh_credential_pk" b = None ->
    exists row,
    row ∈ services t /\ sa_enabled row = true
    /\ (sa_target_models row = [] \/ ni_target_model i ∈ sa_target_models row)
    /\ dict_get "service_slug" (body p) = Some (VStr (sa_slug row))
    /\ dict_get "systemd_unit" (body p) = Some (VStr (sa_systemd_unit row))
    /\ dict_get "systemd_unit" (fingerprint p) = Some (VStr (sa_systemd_unit row))
    /\ credential_bound d i (sa_openbao_assignment_id row) (sa_ssh_credential_override_id row) p).
  { intros slug row b fp (Hin & <- & He & Hm)%allowed_row Hp Hb1 Hb2.
    apply reference_checked in Hp as [Hc Ha]; [|done..]. exists row.
    destruct (Ha "service_slug") as [-> _]; [key_ok|]. destruct (Ha "systemd_unit") as [-> ->]; [key_ok|]. done. }
  intros [Hok|Hok].
  - unfold _normalize_linux_service_execution in Hok.
    apply bind_Ok in Hok as (params & _ & (row & Hr & Hok)%bind_Ok). eapply Hrow; [exact Hr|exact Hok|done..].
  - unfold _normalize_linux_env_file_upsert_execution in Hok.
    apply bind_Ok in Hok as (? & _ & (params & _ & (row & Hr & (? & _ & (? & _ & (? & _ & (pk & _ & Hok)%bind_Ok)%bind_Ok)%bind_Ok)%bind_Ok)%bind_Ok)%bind_Ok).
    eapply Hrow; [exact Hr|exact Hok|done..].
Qed.

(** ** The Proxmox life cycle *)

(** What an operation needs, beside the endpoint. *)
Definition needed (operation : string) : list string :=
  match operation with
  | "nextid" => []
  | "clone" => ["vmid"; "template_vmid"; "source_node"; "name"]
  | "migrate" => ["vmid"; "source_node"; "target_node"]
  | "resize" => ["vmid"; "node"; "disk_gb"; "resize_disk"]
  | "agent_configure_debian_network" => ["vmid"; "node"; "guest_networks"]
  | "agent_set_user_password" => ["vmid"; "node"; "guest_credential_pk"]
  | _ => ["vmid"; "node"]
  end.
Definition supplied (k : string) (d : dict) : Prop :=
  exists v, dict_get k d = Some v /\ v <> VNone /\ v <> VStr EmptyString /\ v <> VList [].

Lemma require_keys_supplied d names u : _require_keys d names = Ok u -> forall k, k ∈ names -> supplied k d.
Proof.
  unfold _require_keys. intros Hm%require_Ok k Hk. apply bool_decide_eq_true in Hm.
  destruct (match get k d with VNone | VStr EmptyString | VList [] => true | _ => false end) eqn:E.
  - assert (Hin : k ∈ missing_keys d names); [|rewrite Hm in Hin; by apply elem_of_nil in Hin].
    by apply list_elem_of_In, filter_In; split; [apply list_elem_of_In|].
  - unfold supplied, get in *. destruct (dict_get k d) as [v|]; [|done]. exists v. cbn in E.
    split_and!; [done|by intros ->..].
Qed.
Lemma some_of_in operations names o : o ∈ operations -> o ∈ names -> some_of operations names = true.
Proof.
  intros Ho Hn. apply existsb_exists. exists o. split; [by apply list_elem_of_In|]. by apply bool_decide_eq_true.
Qed.

Lemma fields_supplied operations d u :
  _require_proxmox_fields operations d = Ok u -> Forall (fun o => o ∈ _PROXMOX_QEMU_OPERATIONS) operations ->
  ("nextid" ∈ operations -> operations = ["nextid"])
  /\ forall o k, o ∈ operations -> k ∈ needed o -> supplied k d.
Proof.
  unfold _require_proxmox_fields. intros Hreq Hops. destruct (str_in "nextid" operations) eqn:En.
  - apply bool_decide_eq_true in En. apply require_Ok, Z.eqb_eq in Hreq.
    destruct operations as [|o [|]]; [done| |cbn in Hreq; lia].
    apply list_elem_of_singleton in En as <-. split; [done|].
    intros o' k ->%list_elem_of_singleton Hk. by apply elem_of_nil in Hk.
  - apply bool_decide_eq_false in En. split; [done|].
    apply bind_Ok in Hreq as (? & H1 & (? & H2 & (? & H3 & (? & H4 & (? & H5 & (? & H6 & H7)%bind_Ok)%bind_Ok)%bind_Ok)%bind_Ok)%bind_Ok).
    pose proof (require_keys_supplied _ _ _ H1) as Hvmid.
    assert (Hneed : forall names fields v, (if some_of operations names then _require_keys d fields else Ok tt) = Ok v ->
      forall o k, o ∈ operations -> o ∈ names -> k ∈ fields -> supplied k d).
    { intros names fields v Hif o k Ho Hn. rewrite (some_of_in operations names o) in Hif by done. by eapply require_keys_supplied. }
    intros o k Ho Hk. pose proof (proj1 (Forall_forall _ _) Hops o Ho) as Hin.
    pose proof (Hneed _ _ _ H2 o k Ho) as N2. pose proof (Hneed _ _ _ H3 o k Ho) as N3. pose proof (Hneed _ _ _ H4 o k Ho) as N4.
    pose proof (Hneed _ _ _ H5 o k Ho) as N5. pose proof (Hneed _ _ _ H6 o k Ho) as N6. pose proof (Hneed _ _ _ H7 o k Ho) as N7.
    clear -Hin Hk En Ho Hvmid N2 N3 N4 N5 N6 N7. unfold _PROXMOX_QEMU_OPERATIONS in Hin.
    repeat (apply elem_of_cons in Hin as [->|Hin]); try (by apply elem_of_nil in Hin); try done; cbn in Hk;
      repeat (apply elem_of_cons in Hk as [->|Hk]); try (by apply elem_of_nil in Hk);
      first [apply Hvmid; key_ok|apply N2; key_ok|apply N3; key_ok|apply N4; key_ok|apply N5; key_ok|apply N6; key_ok|apply N7; key_ok].
Qed.

Lemma operations_checked seen l ops :
  operations_of seen l = Ok ops ->
  NoDup ops /\ Forall (fun o => o ∈ _PROXMOX_QEMU_OPERATIONS) ops /\ (forall o, o ∈ ops -> o ∉ seen)
  /\ length ops = length l.
Proof.
  revert seen ops. induction l as [|v l IH]; cbn -[_PROXMOX_QEMU_OPERATIONS]; intros seen ops Hops.
  - injection Hops as <-. split_and!; [constructor|constructor|set_solver|done].
  - apply bind_Ok in Hops as (? & Hin%require_Ok & (? & Hnew%require_Ok & (rest & (Hnd & Hall & Hs & Hl)%IH & [= <-])%bind_Ok)%bind_Ok).
    apply bool_decide_eq_true in Hin. apply negb_true_iff, bool_decide_eq_false in Hnew.
    split_and!; [|by constructor| |cbn; lia].
    + constructor; [|done]. intros Hr%Hs. set_solver.
    + intros o [->|Ho]%elem_of_cons; [done|]. apply Hs in Ho. set_solver.
Qed.

(** The payload and the fingerprint agree but for these keys. *)
Definition lifecycle_own : list string :=
  ["target"; "handler_id"; "rpc_ssh_host"; "rpc_ssh_port"; "rpc_ssh_credential_pk"; "rpc_ssh_known_hosts_entry";
   "rpc_ssh_strict_host_key_checking"].
Definition lifecycle_kept (operations : list string) (p : payload) : Prop :=
  dict_get "operations" (body p) = Some (texts_value operations)
  /\ forall k, k ∉ lifecycle_own -> dict_get k (fingerprint p) = dict_get k (body p).
Lemma lifecycle_both operations k v p :
  k <> "operations" -> lifecycle_kept operations p -> lifecycle_kept operations (both k v p).
Proof.
  intros Hne [Ho Hf]. split; [by rewrite both_get_ne|]. intros k' Hk'. cbn. destruct (decide (k = k')) as [->|].
  - by rewrite !dict_get_set_eq.
  - rewrite !dict_get_set_ne by done. auto.
Qed.

Section Lifecycle.
Context `{PyLib}.
Variable ops : list string.

Lemma guest_keeps params : keeps (lifecycle_kept ops) (lifecycle_guest params).
Proof.
intros p Hp. apply post_require. intros _. apply post_then. intros sd _. apply post_then. intros servers _.
apply post_Ok. apply (both_list_keeps _ _ (lifecycle_both ops)); [done|]. apply (both_text_keeps _ _ (lifecycle_both ops)); [done|].
by apply (both_text_keeps _ _ (lifecycle_both ops)).
Qed.
Lemma disk_keeps params operations : keeps (lifecycle_kept ops) (lifecycle_disk params operations).
Proof.
intros p Hp. unfold lifecycle_disk. destruct (str_in _ _); [|by apply post_Ok].
apply post_require. intros _. by apply post_Ok, lifecycle_both.
Qed.
Lemma networks_keeps params : keeps (lifecycle_kept ops) (lifecycle_networks params).
Proof.
intros p Hp. apply post_then. intros n _. apply post_then. intros c _. apply post_then. intros g _.
apply post_Ok. repeat (apply (both_list_keeps _ _ (lifecycle_both ops)); [done|]). done.
Qed.
Lemma zabbix_keeps config params operations : keeps (lifecycle_kept ops) (lifecycle_zabbix config params operations).
Proof.
intros p Hp. unfold lifecycle_zabbix. destruct (some_of _ _); [|by apply post_Ok].
apply post_then. intros z _. by apply post_Ok, lifecycle_both.
Qed.
End Lifecycle.

Section ProxmoxTheorems.
Context `{PyLib}.

Lemma ssh_entries_keys b d : ssh_entries b = Ok d -> keys d =
["rpc_ssh_host"; "rpc_ssh_port"; "rpc_ssh_credential_pk"; "rpc_ssh_known_hosts_entry"; "rpc_ssh_strict_host_key_checking"].
Proof. unfold ssh_entries. by intros (? & _ & (? & _ & [= <-])%bind_Ok)%bind_Ok. Qed.
Lemma dict_get_app k (a b : dict) : k ∉ keys a -> dict_get k (a ++ b) = dict_get k b.
Proof.
induction a as [|[k' v] a IH]; [done|]. rewrite keys_cons, not_elem_of_cons. intros [Hne Hni]. cbn.
destruct (String.eqb_spec k' k); [congruence|by apply IH].
Qed.
Lemma opening_kept i ssh ops n :
keys ssh = ["rpc_ssh_host"; "rpc_ssh_port"; "rpc_ssh_credential_pk"; "rpc_ssh_known_hosts_entry"; "rpc_ssh_strict_host_key_checking"] ->
lifecycle_kept ops (opening i (ssh ++ ["proxmox_endpoint_id" :- VInt n; "operations" :- texts_value ops])
                    ["proxmox_endpoint_id" :- VInt n; "operations" :- texts_value ops]).
Proof.
intros Hs. split.
- cbn. rewrite dict_get_app; [done|]. rewrite Hs. key_ok.
- intros k Hk. unfold opening. cbn [body fingerprint dict_get]. unfold lifecycle_own in Hk. rewrite !not_elem_of_cons in Hk.
  destruct Hk as (Ht & Hh & Hk). destruct (String.eqb_spec "handler_id" k); [congruence|].
  destruct (String.eqb_spec "target" k); [congruence|]. rewrite dict_get_app; [done|].
  rewrite Hs, !not_elem_of_cons. done.
Qed.

(** an accepted life cycle request names operations of the catalog, each once, and at
    least one; the request for the next identifier stands alone; every field that one of
    the operations needs is in the payload and not blank; and apart from the target and
    the SSH binding, which the program looks up itself, the fingerprint holds exactly
    what the payload holds. *)
Theorem lifecycle_is_complete resolve config i p :
_normalize_proxmox_qemu_vm_lifecycle_execution resolve config i = Ok p ->
exists operations,
  dict_get "operations" (body p) = Some (texts_value operations)
  /\ operations <> [] /\ NoDup operations /\ Forall (fun o => o ∈ _PROXMOX_QEMU_OPERATIONS) operations
  /\ ("nextid" ∈ operations -> operations = ["nextid"])
  /\ (forall o k, o ∈ operations -> k ∈ needed o -> supplied k (body p))
  /\ forall k, k ∉ lifecycle_own -> dict_get k (fingerprint p) = dict_get k (body p).
Proof.
unfold _normalize_proxmox_qemu_vm_lifecycle_execution.
intros (params & _ & (n & _ & (b & _ & (ops & Hops & (vmid & _ & (ssh & Hssh%ssh_entries_keys & Hp)%bind_Ok)%bind_Ok)%bind_Ok)%bind_Ok)%bind_Ok)%bind_Ok.
assert (Hchecked : ops <> [] /\ NoDup ops /\ Forall (fun o => o ∈ _PROXMOX_QEMU_OPERATIONS) ops).
{ unfold _proxmox_operations in Hops. destruct (get _ _) as [| | | | | | |[|v l]| | |]; try done.
  apply operations_checked in Hops as (? & ? & _ & Hl). split_and!; try done. by intros ->. }
destruct Hchecked as (Hne & Hnd & Hall). exists ops.
pose proof (lifecycle_both ops) as HI.
set (p0 := both_opt _ _ _) in Hp. assert (H0 : lifecycle_kept ops p0).
{ by apply (both_opt_keeps _ _ HI), opening_kept. }
clearbody p0.
enough (Hpost : lifecycle_kept ops p /\ exists u, _require_proxmox_fields ops (body p) = Ok u).
{ destruct Hpost as [[Ho Hf] [u Hreq]]. apply fields_supplied in Hreq as [Hn Hneed]; [|done]. split_and!; done. }
revert p Hp. change (has_post (
  p ← copy_matching params lifecycle_fields p0;
  p ← copy_ranges params lifecycle_ranges p;
  full_clone ← _bool_param params "full_clone" true;
  agent_enabled ← _bool_param params "agent_enabled" true;
  p ← lifecycle_guest params (both "agent_enabled" (VBool agent_enabled) (both "full_clone" (VBool full_clone) p));
  p ← lifecycle_disk params ops p;
  p ← lifecycle_networks params p;
  p ← lifecycle_zabbix config params ops p;
  _ ← _require_proxmox_fields ops (body p);
  Ok p) (fun p => lifecycle_kept ops p /\ exists u, _require_proxmox_fields ops (body p) = Ok u)).
eapply post_bind; [by refine (copy_matching_keeps _ _ HI _ _ _ p0 H0); repeat constructor|clear p0 H0; intros p0 H0].
eapply post_bind; [by refine (copy_ranges_keeps _ _ HI _ _ _ p0 H0); repeat constructor|clear p0 H0; intros p0 H0].
apply post_then. intros fc _. apply post_then. intros ae _.
eapply post_bind; [refine (guest_keeps ops _ _ _); apply HI; [done|by apply HI]|clear p0 H0; intros p0 H0].
eapply post_bind; [by refine (disk_keeps ops _ _ _ H0)|clear p0 H0; intros p0 H0].
eapply post_bind; [by refine (networks_keeps ops _ _ H0)|clear p0 H0; intros p0 H0].
eapply post_bind; [by refine (zabbix_keeps ops _ _ _ _ H0)|clear p0 H0; intros p0 H0].
apply post_then. intros u Hu. apply post_Ok. eauto.
Qed.
End ProxmoxTheorems.

(** ** The plugin install and the service allowlist *)

(** the plugin install restarts a unit on a target that the service allowlist denies
    it on.  The rows a plugin lists are looked up by slug and switched on, but their
    [target_models] are not read: a service allowed on devices alone is refused on a
    virtual machine to the service procedures, and restarted there by the install. *)
Theorem plugin_install_restarts_denied_unit :
  exists f t d i p row,
    _normalize_netbox_plugin_install_execution f t d i = Ok p
    /\ row ∈ services t
    /\ dict_get "systemd_units" (body p) = Some (VList [VStr (sa_systemd_unit row)])
    /\ sa_target_models row = ["dcim.device"] /\ ni_target_model i = "virtualization.virtualmachine"
    /\ forall j, ni_app_label j = ni_app_label i -> ni_model j = ni_model i ->
         exists m, allowed_service t j (sa_slug row) = Err (RPCExecutionError "RPC_LINUX_SERVICE_TARGET_DENIED" m).
Proof.
  set (row := {| sa_slug := "netbox"; sa_systemd_unit := "netbox.service"; sa_environment_file := None; sa_enabled := true;
    sa_target_models := ["dcim.device"]; sa_ssh_credential_override_id := None; sa_openbao_assignment_id := None |}).
  set (plugin := {| pa_slug := "proxbox"; pa_distribution := "netbox-proxbox"; pa_module := "netbox_proxbox";
    pa_venv_python := "/opt/netbox/venv/bin/python"; pa_manage_py := "/opt/netbox/netbox/manage.py";
    pa_settings_file := "/etc/netbox/plugins.py"; pa_service_slugs := ["netbox"]; pa_enabled := true;
    pa_target_models := []; pa_ssh_credential_override_id := None; pa_openbao_assignment_id := None |}).
  exists (Build_code_gates false false true false false false false false false),
    {| services := [row]; plugins := [plugin] |},
    {| od_installed := false; od_assignment := fun _ => None; od_viewable := None |},
    {| ni_procedure := NETBOX_PLUGIN_INSTALL; ni_handler_id := "netbox.plugin.install";
       ni_params := VDict ["plugin_slug" :- VStr "proxbox"; "version" :- VStr "1.2.3"];
       ni_app_label := "virtualization"; ni_model := "virtualmachine"; ni_object_id := VInt 7;
       ni_object := Val VNone; ni_type_id := VInt 3; ni_references := VNone |}.
  eexists _, row. split; [vm_compute; reflexivity|]. split_and!; [left|reflexivity..|].
  intros j Ha Hm. eexists. unfold allowed_service, serves, ni_target_model. rewrite Ha, Hm. reflexivity.
Qed.

(** ** Samba *)

(** A path below [/etc/samba], without a step up, an empty or a single-dot component. *)
Definition under_samba (s : string) : Prop :=
  exists below, s = "/etc/samba/" +:+ str_join "/" below /\ below <> []
    /\ Forall (fun c => c <> ".." /\ c <> "." /\ c <> EmptyString) below.
(** A line that ends in a backslash, but for white space, continues on the next one. *)
Definition continues (line kept : string) : Prop := exists sp, line = kept +:+ "\" +:+ sp /\ all_space sp.
(** The lines joined to one at the head of a file, and the lines that are left. *)
Inductive joins : list string -> string -> list string -> Prop :=
| joins_last l rest : (forall kept, ~ continues l kept) -> joins (l :: rest) l rest
| joins_more l kept rest joined rest' :
    continues l kept -> joins rest joined rest' -> joins (l :: rest) (kept +:+ joined) rest'
| joins_end l kept : continues l kept -> joins [l] kept [].
(** [line] is one of the lines of a file, joined. *)
Inductive reads : list string -> string -> Prop :=
| reads_here lines line rest : joins lines line rest -> reads lines line
| reads_later lines joined rest line : joins lines joined rest -> reads rest line -> reads lines line.
(** A comment or a section header. *)
Definition comment (line : string) : Prop :=
  exists sp c r, line = sp +:+ String c r /\ all_space sp /\ c ∈ ["#"%char; ";"%char; "["%char].
(** [name] is [d] in any case, with white space anywhere. *)
Inductive spelled : string -> string -> Prop :=
| spelled_nil : spelled EmptyString EmptyString
| spelled_space c r d : chr_space (chr_lower c) = true -> spelled r d -> spelled (String c r) d
| spelled_char c r d : chr_space (chr_lower c) = false -> spelled r d -> spelled (String c r) (String (chr_lower c) d).
(** The hooks that are refused: the connection hooks of a share, and every parameter whose
    name ends in one of three words. *)
Definition hook (d : string) : Prop :=
  d ∈ ["preexec"; "postexec"; "rootpreexec"; "rootpostexec"; "preexecclose"; "rootpreexecclose"]
  \/ exists p, d = p +:+ "script" \/ d = p +:+ "command" \/ d = p +:+ "action".
(** A line that sets neither a hook nor an include of the registry or of another place. *)
Definition confined_line (line : string) : Prop :=
  forall name v, line = name +:+ String "="%char v -> str_forall (fun c => negb (Ascii.eqb "="%char c)) name = true ->
  ~ comment line ->
  (forall d, spelled name d -> ~ hook d)
  /\ (spelled name "include" ->
        str_lower (_strip_samba_config_value v) <> "registry"
        /\ exists s, _normalize_samba_include_path (VStr (_strip_samba_config_value v)) = Ok s /\ under_samba s).

(** What the check establishes of an assignment. *)
Definition harmless (a : Z * string * string) : Prop :=
  let name := _normalize_samba_config_param_name a.1.2 in
  command_directive name = false
  /\ (name = "include" -> str_lower (_strip_samba_config_value a.2) <> "registry"
        /\ exists s, _normalize_samba_include_path (VStr (_strip_samba_config_value a.2)) = Ok s /\ under_samba s).
Definition samba_body_ok (content : string) : Prop := Forall harmless (_iter_samba_config_assignments content).

Lemma join_cons2 a b l : str_join "/" (a :: b :: l) = a +:+ "/" +:+ str_join "/" (b :: l).
Proof. done. Qed.
Lemma posix_parts v : Forall (fun c => c <> "." /\ c <> EmptyString) (pp_parts (PurePosixPath v)).
Proof.
  apply Forall_forall. intros c [_ Hc]%list_elem_of_In%filter_In. unfold str_in in Hc. bool_inv. set_solver.
Qed.
Lemma include_confined raw s : _normalize_samba_include_path raw = Ok s -> under_samba s.
Proof.
  unfold _normalize_samba_include_path. intros (? & _ & (? & Hc%require_Ok & [= <-])%bind_Ok)%bind_Ok.
  set (q := join_path _ _) in *. assert (Hparts : Forall (fun c => c <> "." /\ c <> EmptyString) (pp_parts q)).
  { subst q. unfold join_path. destruct (is_absolute _); [apply posix_parts|]. cbn [pp_parts].
    apply Forall_app. split; [repeat constructor; done|apply posix_parts]. }
  clearbody q. unfold is_relative_to in Hc. bool_inv. apply String.eqb_eq in H1. destruct H2 as [below Hbelow].
  change (pp_root _SAMBA_CONF_ROOT) with "/" in H1. change (pp_parts _SAMBA_CONF_ROOT) with ["etc"; "samba"] in Hbelow.
  exists below. assert (Hne : below <> []).
  { intros ->. apply H0. destruct q as [r l]. cbn in *. by subst. }
  split_and!; [|done|].
  - unfold path_str. rewrite H1, Hbelow. destruct below as [|b l]; [done|]. reflexivity.
  - rewrite Hbelow in Hparts. cbn in Hparts. apply Forall_cons in Hparts as [_ [_ Hp]%Forall_cons].
    unfold str_in, all_parts in H. bool_inv. rewrite Hbelow in H. apply Forall_forall. intros c Hc.
    pose proof (proj1 (Forall_forall _ _) Hp c Hc) as [? ?]. split_and!; try done. intros ->. set_solver.
Qed.
Lemma directive_harmless name a u : check_directive name a = Ok u -> harmless a.
Proof.
  destruct a as [[n raw_name] raw_value]. unfold check_directive, harmless. cbn [fst snd].
  set (param := _normalize_samba_config_param_name raw_name). destruct (str_truthy param) eqn:Et; cbn [negb].
  - destruct (command_directive param); [done|]. destruct (String.eqb_spec param "include") as [->|Hne]; [|done].
    unfold _validate_samba_config_include_directive. intros (? & Hreg%require_Ok & Hp)%bind_Ok.
    split; [done|]. intros _. apply negb_true_iff, String.eqb_neq in Hreg. split; [done|].
    destruct (_normalize_samba_include_path _) as [s|e] eqn:E; [|by destruct e]. exists s. split; [done|].
    by apply include_confined in E.
  - intros _. destruct param; [|done]. split; [vm_compute; reflexivity|done].
Qed.
Lemma for_each_Forall {A} (f : A -> res unit) l u : for_each f l = Ok u -> Forall (fun a => exists u, f a = Ok u) l.
Proof.
  revert u. induction l as [|a l IH]; [constructor|]. cbn. intros u (v & Ha & Hl)%bind_Ok. constructor; eauto.
Qed.
Lemma startswith_head (m c : ascii) u : str_startswith (String m EmptyString) (String c u) = true -> m = c.
Proof. unfold str_startswith. cbn. by destruct (ascii_dec m c). Qed.
(** The assignments of the code are those of the joined lines. *)
Lemma continued_iff l kept : continued l = Some kept <-> continues l kept.
Proof.
  unfold continued, str_rstrip. destruct (lstrip_suffix (str_rev l)) as (pre & Hr & Hpre).
  assert (Hdrop : forall a c, drop_last (a +:+ String c EmptyString) = a).
  { intros a c. assert (String.length (a +:+ String c EmptyString) = S (String.length a)) as Hlen
      by (induction a as [|d a IH]; [done|]; rewrite sapp_cons; cbn; by rewrite IH).
    unfold drop_last, str_take, str_len. rewrite Hlen. destruct (Z.leb_spec (Z.of_nat (S (String.length a))) (Z.of_nat (S (String.length a)) - 1)); [lia|].
    replace (Z.to_nat _) with (String.length a) by lia. clear. induction a as [|d a IH]; [done|]. rewrite sapp_cons. cbn. by rewrite IH. }
  split.
  - destruct (str_endswith _ _) eqn:E; [|done]. intros [= <-]. unfold str_endswith in E. rewrite str_rev_involutive in E.
    destruct (str_lstrip (str_rev l)) as [|c u] eqn:El; [done|]. apply (startswith_head "\"%char) in E as <-.
    exists (str_rev pre). split; [|by apply all_space_rev]. rewrite str_rev_cons, Hdrop.
    apply (f_equal str_rev) in Hr. by rewrite str_rev_involutive, str_rev_sapp, str_rev_cons, sapp_assoc in Hr.
  - intros (sp & -> & Hsp). assert (str_lstrip (str_rev (kept +:+ "\" +:+ sp)) = String "\"%char (str_rev kept)) as ->.
    { rewrite !str_rev_sapp, sapp_assoc, lstrip_over by (by apply all_space_rev). done. }
    rewrite str_rev_cons, str_rev_involutive, Hdrop, endswith_app. done.
Qed.
Lemma joins_logical lines line rest : joins lines line rest -> forall k open,
  exists n k', logical_lines k open lines = (n, (default (k, EmptyString) open).2 +:+ line) :: logical_lines k' None rest.
Proof.
  induction 1 as [l rest Hl|l kept rest joined rest' Hl Hj IH|l kept Hl]; intros k open; cbn [logical_lines];
    destruct (default (k, EmptyString) open) as [st acc]; cbn [snd].
  - destruct (continued l) as [kept|] eqn:E; [by apply continued_iff, Hl in E|]. eauto.
  - apply continued_iff in Hl as ->. destruct (IH (k + 1)%Z (Some (st, acc +:+ kept))) as (n & k' & ->).
    exists n, k'. cbn. by rewrite sapp_assoc.
  - apply continued_iff in Hl as ->. cbn. by exists st, k.
Qed.
Lemma reads_logical lines line : reads lines line -> forall k, exists n, (n, line) ∈ logical_lines k None lines.
Proof.
  induction 1 as [lines line rest Hj|lines joined rest line Hj _ IH]; intros k;
    destruct (joins_logical _ _ _ Hj k None) as (n & k' & ->).
  - exists n. left.
  - destruct (IH k') as [m Hm]. exists m. by right.
Qed.

Lemma spelled_iff name d : spelled name d <-> d = _normalize_samba_config_param_name name.
Proof.
  unfold _normalize_samba_config_param_name. split.
  - induction 1 as [|c r d Hc _ IH|c r d Hc _ IH]; [done|..]; cbn; by rewrite Hc, IH.
  - intros ->. induction name as [|c r IH]; [constructor|]. cbn.
    destruct (chr_space (chr_lower c)) eqn:E; cbn [negb]; by constructor.
Qed.
Lemma split_equals name v :
  str_forall (fun c => negb (Ascii.eqb "="%char c)) name = true ->
  let line := name +:+ String "="%char v in
  str_contains "=" line = true /\ str_before "="%char line = name /\ str_after "="%char line = v.
Proof.
  induction name as [|c r IH]; intros Hn line.
  - subst line. change (EmptyString +:+ String "="%char v) with (String "="%char v).
    split_and!; [by destruct v|reflexivity|reflexivity].
  - cbn [str_forall] in Hn. apply andb_true_iff in Hn as [Hc Hr]. apply negb_true_iff in Hc.
    destruct (IH Hr) as (Hk & Hb & Ha). subst line. rewrite sapp_cons. cbn [str_contains str_before str_after].
    rewrite Hc, Hk, Hb, Ha, orb_true_r. done.
Qed.
Lemma comment_intro line c u : str_strip line = String c u -> c ∈ ["#"%char; ";"%char; "["%char] -> comment line.
Proof.
  intros Hs Hc. destruct (strip_inside line) as (pre & post & Hl & Hpre & _). rewrite Hs in Hl.
  exists pre, c, (u +:+ post). by rewrite sapp_cons in Hl.
Qed.
Lemma blank_spelled name : str_strip name = EmptyString -> _normalize_samba_config_param_name name = EmptyString.
Proof.
  intros Hs. destruct (strip_inside name) as (pre & post & Hn & Hpre & Hpost). rewrite Hs, sapp_nil in Hn.
  assert (Hall : all_space name) by (rewrite Hn; by apply all_space_app). clear Hs Hn.
  unfold _normalize_samba_config_param_name. induction name as [|c r IH]; [done|]. destruct Hall as [Hc Hr]. cbn.
  assert (chr_space (chr_lower c) = true) as ->; [|by apply IH]. revert Hc.
  by destruct c as [[] [] [] [] [] [] [] []].
Qed.
Lemma assignment_read line name v :
  line = name +:+ String "="%char v -> str_forall (fun c => negb (Ascii.eqb "="%char c)) name = true ->
  ~ comment line -> str_strip name <> EmptyString -> assignment_of line = Some (name, v).
Proof.
  intros Hl Hn Hcom Hne. destruct (split_equals name v Hn) as (Hk & Hb & Ha). rewrite <- Hl in Hk, Hb, Ha.
  unfold assignment_of. rewrite Hk, Hb, Ha. cbn [negb]. rewrite orb_false_r.
  destruct (str_strip line) as [|c u] eqn:Es.
  - exfalso. destruct (strip_inside line) as (pre & post & Hp & Hpre & Hpost). rewrite Es, sapp_nil in Hp.
    assert (all_space line) as Hall by (rewrite Hp; by apply all_space_app). rewrite Hl in Hall.
    apply all_space_app in Hall as [_ [Hall _]]. discriminate Hall.
  - cbn [str_truthy negb orb].
    assert (forall m, m ∈ ["#"%char; ";"%char; "["%char] -> str_startswith (String m EmptyString) (String c u) = false) as Hm.
    { intros m Hin. destruct (str_startswith _ _) eqn:E; [|done]. exfalso. apply Hcom.
      apply (comment_intro _ c u Es). by rewrite <- (startswith_head m c u E). }
    rewrite !Hm by set_solver. cbn [orb]. by destruct (str_strip name).
Qed.

Lemma hook_command d : hook d -> command_directive d = true.
Proof.
  unfold command_directive. intros [Hd|(p & Hd)]; apply orb_true_iff; [left; by apply bool_decide_eq_true|right].
  apply existsb_exists. destruct Hd as [-> |[-> | ->]]; eexists; (split; [|apply endswith_app]); cbn; auto.
Qed.
Lemma body_confined c line : samba_body_ok c -> reads (splitlines c) line -> confined_line line.
Proof.
  intros Hb Hr name v Hl Hn Hcom. destruct (reads_logical _ _ Hr 1%Z) as [k Hk].
  destruct (decide (str_strip name = EmptyString)) as [E|E].
  { apply blank_spelled in E. split; [intros d Hd Hh|intros Hd]; apply spelled_iff in Hd; rewrite E in Hd; [|done].
    apply hook_command in Hh. by rewrite Hd in Hh. }
  assert ((k, name, v) ∈ _iter_samba_config_assignments c) as Hin.
  { unfold _iter_samba_config_assignments. apply list_elem_of_omap. exists (k, line). split; [exact Hk|].
    cbn [snd fst]. by rewrite (assignment_read _ _ _ Hl Hn Hcom E). }
  destruct (proj1 (Forall_forall _ _) Hb _ Hin) as [Hcmd Hinc]. cbn [fst snd] in Hcmd, Hinc. split.
  - intros d Hd Hh%hook_command. apply spelled_iff in Hd. congruence.
  - intros Hd%spelled_iff. by apply Hinc.
Qed.
Lemma body_harmless raw name c : _normalize_samba_config_body raw name = Ok c -> samba_body_ok c.
Proof.
  unfold _normalize_samba_config_body. intros (content & _ & (? & Hd%for_each_Forall & [= <-])%bind_Ok)%bind_Ok.
  eapply Forall_impl; [exact Hd|]. intros a [v Ha]. by eapply directive_harmless.
Qed.

(** What the payload of a Samba procedure holds under the keys of files. *)
Definition samba_files (p : payload) : Prop :=
  (forall k v, k = "config_content" \/ k = "content" -> dict_get k (body p) = Some v ->
     exists c, v = VStr c /\ samba_body_ok c)
  /\ forall v, dict_get "include_path" (body p) = Some v -> exists s, v = VStr s /\ under_samba s.
Definition samba_key (k : string) : Prop := k ∉ ["config_content"; "content"; "include_path"].
Lemma files_put k v p : samba_key k -> samba_files p -> samba_files (put k v p).
Proof.
  unfold samba_key. rewrite !not_elem_of_cons. intros (? & ? & ? & _) [Hc Hi]. split.
  - intros k' w Hk. cbn. rewrite dict_get_set_ne by naive_solver. by apply Hc.
  - intros w. cbn. rewrite dict_get_set_ne by done. apply Hi.
Qed.
Lemma files_mark k v p : samba_files p -> samba_files (mark k v p).
Proof. done. Qed.
Lemma files_both k v p : samba_key k -> samba_files p -> samba_files (both k v p).
Proof. intros. by apply files_mark, files_put. Qed.
Lemma files_body k c p : k = "config_content" \/ k = "content" -> samba_body_ok c -> samba_files p ->
  samba_files (put k (VStr c) p).
Proof.
  intros Hk Hok [Hc Hi]. split.
  - intros k' w Hk'. cbn. destruct (decide (k = k')) as [->|Hne].
    + rewrite dict_get_set_eq. intros [= <-]. eauto.
    + rewrite dict_get_set_ne by done. by apply Hc.
  - intros w. cbn. rewrite dict_get_set_ne by naive_solver. apply Hi.
Qed.
Lemma files_include s p : under_samba s -> samba_files p -> samba_files (both "include_path" (VStr s) p).
Proof.
  intros Hs [Hc Hi]. split.
  - intros k' w Hk. rewrite both_get_ne by naive_solver. by apply Hc.
  - intros w. rewrite both_get. intros [= <-]. eauto.
Qed.

Section Samba.
Context `{PyLib}.

(** The steps of a chain one by one: each goal that is left is about one key. *)
Ltac chain :=
repeat match goal with
| |- has_post (Ok _) _ => apply post_Ok
| |- has_post (Err _) _ => apply post_Err
| |- has_post (_ ← require _ _; _) _ => apply post_require; intros _
| |- has_post (_ ≫= _) _ => apply post_then; intros ? _
| |- samba_files (both_if _ _ _ _) => apply (both_if_keeps _ _ files_both); [key_ok|]
| |- samba_files (both_text _ _ _) => apply (both_text_keeps _ _ files_both); [key_ok|]
| |- samba_files (both _ _ _) => apply files_both; [key_ok|]
| |- samba_files (put _ _ _) => apply files_put; [key_ok|]
| |- samba_files (mark _ _ _) => apply files_mark
| |- samba_files (if ?b then _ else _) => destruct b
| |- has_post (let '(_, _) := ?x in _) _ => destruct x
end; try done.
Lemma flag_keeps params key standard : samba_key key -> keeps samba_files (samba_flag params key standard).
Proof. intros Hk p Hp. apply post_then. intros v _. by apply post_Ok, files_both. Qed.
Lemma principals_keeps params key : samba_key key -> keeps samba_files (samba_principals params key).
Proof. intros Hk p Hp. apply post_then. intros v _. by apply post_Ok, (both_if_keeps _ _ files_both). Qed.
Lemma mask_keeps params key : samba_key key -> keeps samba_files (samba_mask params key).
Proof. intros Hk p Hp. apply post_then. intros v _. by apply post_Ok, (both_text_keeps _ _ files_both). Qed.
Lemma share_upsert_keeps params : keeps samba_files (_copy_samba_share_upsert_params params).
Proof.
intros p Hp. unfold _copy_samba_share_upsert_params. apply post_then. intros path _. apply post_then. intros comment _.
set (p0 := if str_truthy comment then _ else _). assert (H0 : samba_files p0) by (subst p0; chain). clearbody p0.
do 3 (eapply post_bind; [refine (flag_keeps _ _ _ _ p0 H0); key_ok|clear p0 H0; intros p0 H0]).
do 2 (eapply post_bind; [refine (principals_keeps _ _ _ p0 H0); key_ok|clear p0 H0; intros p0 H0]).
do 2 (eapply post_bind; [refine (mask_keeps _ _ _ p0 H0); key_ok|clear p0 H0; intros p0 H0]).
chain.
Qed.

Ltac samba_step p H0 :=
  eapply post_bind; [refine (keeps_step _ _ _ _ _ p H0); intros _; clear p H0; intros p H0; cbv beta
                    |clear p H0; intros p H0].

(** C20: what an accepted Samba request deploys or names stays within what the check
    refuses.  No line of the configuration or of an included file, after its continued
    lines are joined, and however its name is cased and spaced, sets a connection hook of
    a share (preexec, postexec and their root and close forms) or a parameter whose name
    ends in script, command or action, or includes the registry or a file outside
    [/etc/samba]; and an include path handed on is a path below [/etc/samba] without a
    step up. *)
Theorem samba_request_is_confined i p :
_normalize_samba_1_execution i = Ok p ->
(forall k v, k = "config_content" \/ k = "content" -> dict_get k (body p) = Some v ->
   exists c, v = VStr c /\ forall line, reads (splitlines c) line -> confined_line line)
/\ forall v, dict_get "include_path" (body p) = Some v -> exists s, v = VStr s /\ under_samba s.
Proof.
intros Hp. enough (samba_files p) as [Hc Hi].
{ split; [|exact Hi]. intros k v Hk Hv. destruct (Hc k v Hk Hv) as (c & -> & Hok). exists c. split; [done|].
  intros line. by apply body_confined. }
revert p Hp. change (has_post (_normalize_samba_1_execution i) samba_files).
apply post_then. intros params _. cbv zeta.
assert (H0 : samba_files (service_payload i)) by (split; [intros k v [-> | ->]|intros v]; done).
set (p := service_payload i) in *. clearbody p.
samba_step p H0. { apply post_then. intros c Hc%body_harmless. apply post_Ok. unfold put_content. do 2 apply files_mark. apply files_body; auto. }
samba_step p H0; [chain|].
samba_step p H0. { apply post_then. intros s Hs%include_confined. by apply post_Ok, files_include. }
samba_step p H0. { apply post_then. intros c Hc%body_harmless. apply post_Ok. unfold put_content. do 2 apply files_mark. apply files_body; auto. }
samba_step p H0; [chain|].
samba_step p H0; [by apply share_upsert_keeps|].
do 3 (samba_step p H0; [chain|]).
samba_step p H0. { apply post_then. intros name _. apply flag_keeps; [key_ok|]. chain. }
do 2 (samba_step p H0; [chain|]).
intros q Hq. destruct H0 as [Hc Hi].
assert (Hag : forall k, k ∈ ["config_content"; "content"; "include_path"] -> dict_get k (body q) = dict_get k (body p)).
{ intros k Hk. eapply ssh_overrides_agree; [|exact Hq]. revert k Hk. apply Forall_forall. repeat constructor; key_ok. }
split.
- intros k v Hk. rewrite Hag by (destruct Hk as [-> | ->]; key_ok). by apply Hc.
- intros v. rewrite Hag by key_ok. apply Hi.
Qed.
End Samba.

(** ** Concrete requests *)

Section Witnesses.
Import Demo.

Definition demo_input (procedure model : string) (params : dict) : norm_input :=
{| ni_procedure := procedure; ni_handler_id := "demo.handler"; ni_params := VDict params;
   ni_app_label := if String.eqb model "device" then "dcim" else "virtualization"; ni_model := model;
   ni_object_id := VInt 7; ni_object := Obj [("name", Val (VStr "bao01"))] "bao01"; ni_type_id := VInt 3;
   ni_references := VNone |}.
Definition demo_ok (r : res payload) : payload := match r with Ok p => p | Err _ => Build_payload [] [] end.

Definition demo_bao : norm_input :=
demo_input "service.openbao.1.auth_enable" "device" ["auth_type" :- VStr "approle"; "mount_path" :- VStr "apps/"].
Lemma openbao_fingerprint_binds_payload_witness :
exists params allowed p,
  _normalize_openbao_1_execution demo_bao = Ok p
  /\ allowed_by_operation (openbao_operation (ni_procedure demo_bao)) = Some allowed
  /\ (forall k, k ∈ keys params -> k ∈ allowed ++ _OPENBAO_INTERNAL_PARAM_KEYS)
  /\ dict_get "mount_path" (body p) = Some (VStr "apps").
Proof.
assert (Hok : _normalize_openbao_1_execution demo_bao = Ok (demo_ok (_normalize_openbao_1_execution demo_bao)))
  by (vm_compute; reflexivity).
destruct (openbao_fingerprint_binds_payload demo_bao _ Hok) as (params & allowed & _ & Ha & _ & Hk & _ & _ & _).
exists params, allowed, (demo_ok (_normalize_openbao_1_execution demo_bao)).
split; [exact Hok|]. split; [exact Ha|]. split; [exact Hk|]. vm_compute. reflexivity.
Defined.

Definition open_gates : code_gates := Build_code_gates true true true true true true true true true.
Definition demo_install : norm_input :=
demo_input INFLUXDB3_DEBIAN13_INSTALL "device"
  ["http_bind" :- VStr "influx.example.net:8181"; "tls_cert" :- VStr "/etc/ssl/influx.crt";
   "tls_key" :- VStr "/etc/ssl/influx.key"; "data_dir" :- VStr "/var/lib/influxdb3"].
Lemma influxdb3_never_exposes_plaintext_witness :
exists p host remote params,
  _normalize_influxdb3_debian13_execution open_gates demo_install = Ok p
  /\ dict_get "remote_bind" (body p) = Some (VBool remote)
  /\ (remote = false <-> host ∈ ["127.0.0.1"; "localhost"])
  /\ (remote = true -> dict_get "tls_enabled" (body p) = Some (VBool true) \/ says_yes (get "allow_plaintext_remote" params)).
Proof.
assert (Hok : _normalize_influxdb3_debian13_execution open_gates demo_install
              = Ok (demo_ok (_normalize_influxdb3_debian13_execution open_gates demo_install))) by (vm_compute; reflexivity).
destruct (influxdb3_never_exposes_plaintext open_gates demo_install _ Hok eq_refl)
  as (params & _ & _ & _ & host & remote & _ & Hr & Hl & Hy).
eexists _, host, remote, params. split; [exact Hok|]. split; [exact Hr|]. split; [exact Hl|exact Hy].
Defined.

Definition demo_scan : norm_input :=
demo_input "nmap-scan" "device" ["target" :- VStr "10.0.30.0/24"; "ports" :- VStr "22,8000-8100"].
Lemma nmap_scan_is_bounded_witness :
exists p, _normalize_nmap_execution demo_scan = Ok p
  /\ (exists t, dict_get "target" (body p) = Some (VStr t) /\ scan_target t)
  /\ dict_get "ports" (fingerprint p) = dict_get "ports" (body p).
Proof.
assert (Hok : _normalize_nmap_execution demo_scan = Ok (demo_ok (_normalize_nmap_execution demo_scan)))
  by (vm_compute; reflexivity).
destruct (nmap_scan_is_bounded demo_scan _ Hok) as (Ht & _ & _ & Hf).
eexists. split; [exact Hok|]. split; [exact Ht|]. apply Hf. key_ok.
Defined.

Definition demo_tables : tables :=
{| services := [{| sa_slug := "bao"; sa_systemd_unit := "openbao.service"; sa_environment_file := None; sa_enabled := true;
                   sa_target_models := ["dcim.device"]; sa_ssh_credential_override_id := Some 4;
                   sa_openbao_assignment_id := Some 9 |}];
   plugins := [] |}.
Definition demo_directory : openbao_directory :=
{| od_installed := true;
   od_assignment := fun pk => if pk =? 9 then Some {| ca_enabled := true; ca_purpose := "login";
     ca_object_type_id := VInt 3; ca_object_id := VInt 7; ca_credential_id := 2 |} else None;
   od_viewable := Some (fun pk => pk =? 2) |}.
Definition demo_restart : norm_input :=
demo_input "os.linux.ubuntu.24.restart_service" "device" ["service_slug" :- VStr "bao"].
Lemma service_runs_its_row_witness :
exists p row, _normalize_linux_service_execution demo_tables demo_directory demo_restart = Ok p
  /\ row ∈ services demo_tables
  /\ credential_bound demo_directory demo_restart (sa_openbao_assignment_id row) (sa_ssh_credential_override_id row) p.
Proof.
assert (Hok : _normalize_linux_service_execution demo_tables demo_directory demo_restart
              = Ok (demo_ok (_normalize_linux_service_execution demo_tables demo_directory demo_restart)))
  by (vm_compute; reflexivity).
destruct (service_runs_its_row open_gates demo_tables demo_directory demo_restart _ (or_introl Hok))
  as (row & Hin & _ & _ & _ & _ & _ & Hc).
eexists _, row. split; [exact Hok|]. split; [exact Hin|exact Hc].
Defined.

Definition demo_binding : ssh_resolver :=
Some (fun _ => Ok ["host" :- VStr " 10.0.30.5 "; "credential_pk" :- VInt 3]).
Definition demo_clone : norm_input :=
demo_input "os.linux.proxmox.qemu_vm_lifecycle" "virtualmachine"
  ["proxmox_endpoint_id" :- VInt 7; "operations" :- VList [VStr "clone"; VStr "start"]; "vmid" :- VInt 120;
   "template_vmid" :- VInt 100; "source_node" :- VStr "pve1"; "node" :- VStr "pve1"; "name" :- VStr "web01"].
Lemma lifecycle_is_complete_witness :
exists p operations,
  _normalize_proxmox_qemu_vm_lifecycle_execution demo_binding None demo_clone = Ok p
  /\ dict_get "operations" (body p) = Some (texts_value operations)
  /\ forall o k, o ∈ operations -> k ∈ needed o -> supplied k (body p).
Proof.
assert (Hok : _normalize_proxmox_qemu_vm_lifecycle_execution demo_binding None demo_clone
              = Ok (demo_ok (_normalize_proxmox_qemu_vm_lifecycle_execution demo_binding None demo_clone)))
  by (vm_compute; reflexivity).
destruct (lifecycle_is_complete demo_binding None demo_clone _ Hok) as (ops & Ho & _ & _ & _ & _ & Hneed & _).
eexists _, ops. split; [exact Hok|]. split; [exact Ho|exact Hneed].
Defined.

Definition demo_smb_conf : string := "[global]
  workgroup = LAB
  include = /etc/samba/shares.conf
".
(** The hook is found although its name is spaced and broken over two lines. *)
Example continued_hook_refused :
is_Ok (_normalize_samba_config_body (VStr "[share]
  root pre \
  exec = /bin/sh") "config_content") = false.
Proof. vm_compute. reflexivity. Qed.
Definition demo_deploy : norm_input :=
demo_input "service.samba.1.config_deploy" "device" ["config_content" :- VStr demo_smb_conf].
(** Samba runs a command, or reads another file, for parameters the list does not have. *)
Example unlisted_hooks_accepted :
is_Ok (_normalize_samba_config_body (VStr "[share]
  exec = /bin/sh
[global]
  wins hook = /bin/sh
  passwd program = /bin/sh
  config file = /tmp/other.conf") "config_content") = true.
Proof. vm_compute. reflexivity. Qed.
Lemma samba_request_is_confined_witness :
exists p c, _normalize_samba_1_execution demo_deploy = Ok p
  /\ dict_get "config_content" (body p) = Some (VStr c)
  /\ reads (splitlines c) "  include = /etc/samba/shares.conf"
  /\ confined_line "  include = /etc/samba/shares.conf".
Proof.
assert (Hok : _normalize_samba_1_execution demo_deploy = Ok (demo_ok (_normalize_samba_1_execution demo_deploy)))
  by (vm_compute; reflexivity).
assert (Hc : dict_get "config_content" (body (demo_ok (_normalize_samba_1_execution demo_deploy)))
             = Some (VStr demo_smb_conf)) by (vm_compute; reflexivity).
destruct (samba_request_is_confined demo_deploy _ Hok) as [Hbody _].
destruct (Hbody "config_content" _ (or_introl eq_refl) Hc) as (c & [= <-] & Hall).
assert (Hlast : forall l rest, continued l = None -> joins (l :: rest) l rest).
{ intros l rest Hl. apply joins_last. intros kept Hk. apply continued_iff in Hk. rewrite Hl in Hk. discriminate Hk. }
assert (Hr : reads (splitlines demo_smb_conf) "  include = /etc/samba/shares.conf").
{ change (splitlines demo_smb_conf) with ["[global]"; "  workgroup = LAB"; "  include = /etc/samba/shares.conf"].
  do 2 (eapply reads_later; [apply Hlast; vm_compute; reflexivity|]). eapply reads_here, Hlast. vm_compute. reflexivity. }
eexists _, demo_smb_conf. split; [exact Hok|]. split; [exact Hc|]. split; [exact Hr|exact (Hall _ Hr)].
Defined.
End Witnesses.
