(* ===== verification/PinnedProperties.v ===== *)
(** * Properties of the pinned procedures

    What the normalizers of the files NormalizePinned, NormalizeIdentity and
    NormalizeGitea promise: that a procedure bound by an [RPCTargetBinding] runs on the
    device of its row and freezes the row's revision, that the frozen SSH identity pins
    one Ed25519 key of one service, that the two host-key validators are the same, that a
    normalized registration finds its scope reservable; and that no created execution of
    the release-marker procedures can be normalized. *)

From S2P Require Import Prelude PyValue CredentialContract Spans PyRegex SecretPatterns Protected.
From S2P Require Import Events Projection EventStore Aggregate AggregateFacts StoreProperties AggregateProperties Approvals ApprovalProperties Fence Contracts Codec Capabilities Dispatch KeyFile JsonFacts Lease.
From S2P Require Import LeaseProperties Backends CredentialAuthority CredentialAuthorityProperties OpenBao Targets Akvorado Admission AdmissionProperties.
From S2P Require Import Normalize NormalizeDevices NormalizePinned NormalizeIdentity NormalizeGitea NormalizeProperties.
Import JsonNotations.

Local Open Scope Z_scope.
Local Notation length := List.length.

(** ** Parameters a normalizer refuses *)

Lemma sorted_names_Nil l : sorted_names l = [] -> l = [].
Proof.
  unfold sorted_names. intros Hl. apply Permutation_nil.
  rewrite <- Hl. apply merge_sort_Permutation.
Qed.
Lemma foreign_key params names k : k ∈ keys params -> k ∉ names -> foreign_keys params names <> [].
Proof. intros Hk Hn Hf. apply Hn. by eapply no_foreign_keys. Qed.
Lemma refuse_key params names k e : k ∈ keys params -> k ∉ names -> require_none (foreign_keys params names) e = Err e.
Proof.
  intros Hk Hn. pose proof (foreign_key params names k Hk Hn) as Hne. by destruct (foreign_keys params names).
Qed.

(** ** Texts cut at a separator *)

Lemma str_rev_app_app s a b : str_rev_app s a +:+ b = str_rev_app s (a +:+ b).
Proof. revert a. induction s as [|c s IH]; intros a; [done|]. cbn. by rewrite IH. Qed.
Lemma str_rev_snoc_char c s r : str_rev (String c s) +:+ r = str_rev s +:+ String c r.
Proof. unfold str_rev. cbn. by rewrite !str_rev_app_app. Qed.
Lemma split_on_cons c cur s : exists p l, split_on c cur s = p :: l.
Proof.
  revert cur. induction s as [|d s IH]; intros cur; cbn; [eauto|]. destruct (Ascii.eqb c d); eauto.
Qed.
(** Joining what a split gave restores the text. *)
Lemma join_split_on c cur s : str_join (String c EmptyString) (split_on c cur s) = str_rev cur +:+ s.
Proof.
  revert cur. induction s as [|d s IH]; intros cur; cbn [split_on]; [cbn; by rewrite sapp_nil_r|].
  destruct (Ascii.eqb_spec c d) as [->|Hne].
  - specialize (IH EmptyString). destruct (split_on_cons d EmptyString s) as (p & l & Hs).
    rewrite Hs in *. cbn [str_join]. cbn [str_join] in IH. rewrite IH. done.
  - rewrite IH. by rewrite str_rev_snoc_char.
Qed.
Lemma join_split c s : str_join (String c EmptyString) (str_split c s) = s.
Proof. apply join_split_on. Qed.

(** ** Host keys *)

(** The line pins one key of 32 bytes for one host. *)
Definition pins_key (entry host : string) : Prop :=
  exists token key, entry = host +:+ " ssh-ed25519 " +:+ token
    /\ b64decode token = Some (ed25519_wire_prefix ++ key) /\ length key = ED25519_KEY_BYTES.

Lemma b64_index_range c n : b64_index c = Some n -> 0 <= n < 64.
Proof.
  assert (forallb (fun k => match b64_index (ascii_of_nat k) with Some n => (0 <=? n) && (n <? 64) | None => true end)
            (seq 0 256) = true) as Hall by (vm_compute; reflexivity).
  rewrite forallb_forall in Hall. specialize (Hall (nat_of_ascii c)).
  rewrite ascii_nat_embedding in Hall. intros Hn. rewrite Hn in Hall.
  assert (In (nat_of_ascii c) (seq 0 256)) as Hin.
  { apply in_seq. pose proof (nat_ascii_bounded c). lia. }
  specialize (Hall Hin). bool_inv. lia.
Qed.
Lemma b64decode_bytes text data : b64decode text = Some data -> Forall (fun z => is_byte z = true) data.
Proof.
  assert (forall n text data, (String.length text <= n)%nat -> b64decode text = Some data ->
            Forall (fun z => is_byte z = true) data) as Hgen; [|by apply (Hgen (String.length text))].
  clear text data. induction n as [|n IH]; intros [|c1 [|c2 [|c3 [|c4 r]]]] data Hlen Hd; cbn in Hlen; try lia;
    cbn [b64decode] in Hd; try (injection Hd as <-; by constructor); try discriminate.
  apply bind_Some in Hd as (i & Hi%b64_index_range & (j & Hj%b64_index_range & Hd)%bind_Some).
  assert (Hb : forall a, 0 <= a < 256 -> is_byte a = true).
  { intros a Ha. unfold is_byte. apply andb_true_iff. rewrite Z.leb_le, Z.ltb_lt. lia. }
  destruct (Ascii.eqb c3 pad).
  { destruct (_ && _); [|done]. injection Hd as <-. repeat constructor. apply Hb. Z.to_euclidean_division_equations; lia. }
  apply bind_Some in Hd as (k & Hk%b64_index_range & Hd). destruct (Ascii.eqb c4 pad).
  { destruct (negb _); [|done]. injection Hd as <-.
    repeat constructor; apply Hb; Z.to_euclidean_division_equations; lia. }
  apply bind_Some in Hd as (l & Hl%b64_index_range & (rest & Hr & [= <-])%bind_Some).
  repeat constructor; try (apply Hb; Z.to_euclidean_division_equations; lia). apply (IH r); [lia|done].
Qed.

(** A record of the right lengths is the prefix followed by the key. *)
Lemma is_ed25519_wire_spec d :
  is_ed25519_wire d = true <-> exists key, d = ed25519_wire_prefix ++ key /\ length key = ED25519_KEY_BYTES.
Proof.
  unfold is_ed25519_wire. rewrite andb_true_iff, Nat.eqb_eq, bool_decide_eq_true. split.
  - intros [Hlen Hp]. exists (drop (length ed25519_wire_prefix) d). rewrite <- Hp at 1. rewrite take_drop.
    split; [done|]. rewrite length_drop, Hlen. cbn. done.
  - intros (key & -> & Hk). by rewrite length_app, Hk, take_app_length.
Qed.
Lemma from_bytes_4 a b c d : from_bytes [a; b; c; d] = ((a * 256 + b) * 256 + c) * 256 + d.
Proof. unfold from_bytes. cbn [fold_left]. lia. Qed.
Lemma four_bytes l n :
  length l = 4%nat -> Forall (fun z => is_byte z = true) l -> from_bytes l = n -> 0 <= n < 256 -> l = [0; 0; 0; n].
Proof.
  destruct l as [|a [|b [|c [|d [|e l]]]]]; cbn [List.length]; try lia. intros _ Hb Hn Hr.
  repeat (apply Forall_cons in Hb as [?%andb_true_iff Hb]). rewrite from_bytes_4 in Hn.
  rewrite !Z.leb_le, !Z.ltb_lt in *. repeat f_equal; lia.
Qed.
Lemma slices d : d = slice 0 4 d ++ slice 4 15 d ++ slice 15 19 d ++ drop 19 d.
Proof.
  unfold slice. change (Z.to_nat (4 - 0)) with 4%nat. change (Z.to_nat (15 - 4)) with 11%nat.
  change (Z.to_nat (19 - 15)) with 4%nat. change (Z.to_nat 0) with 0%nat. change (Z.to_nat 4) with 4%nat.
  change (Z.to_nat 15) with 15%nat. rewrite drop_0.
  rewrite <- (take_drop 4 d) at 1. f_equal. rewrite <- (take_drop 11 (drop 4 d)) at 1. f_equal.
  rewrite drop_drop. rewrite <- (take_drop 4 (drop (4 + 11) d)) at 1. by rewrite drop_drop.
Qed.
Lemma exact_iff_wire d : Forall (fun z => is_byte z = true) d -> is_exact_ed25519 d = is_ed25519_wire d.
Proof.
  intros Hd. apply eq_bool_prop_intro. rewrite !Is_true_true, is_ed25519_wire_spec. split.
  2:{ intros (key & -> & Hk). unfold is_exact_ed25519. rewrite length_app, Hk. reflexivity. }
  unfold is_exact_ed25519. intros He. bool_inv. apply Z.eqb_eq in H, H0, H1.
  change (str_len SSH_HOST_KEY_ALGORITHM) with 11 in H. change (Z.of_nat ED25519_KEY_BYTES) with 32 in *.
  rewrite H in *. change (4 + 11) with 15 in *. change (15 + 4) with 19 in *.
  rewrite (proj2 (Z.leb_le 19 _)) in H1 by lia.
  exists (drop 19 d). split; [|rewrite length_drop; unfold ED25519_KEY_BYTES; lia].
  rewrite (slices d) at 1. rewrite H2. unfold ed25519_wire_prefix. rewrite <- !app_assoc.
  rewrite (four_bytes (slice 0 4 d) 11), (four_bytes (slice 15 19 d) 32); try done; try lia.
  - unfold slice. rewrite length_take, length_drop. lia.
  - by apply Forall_take, Forall_drop.
  - unfold slice. rewrite length_take, length_drop. lia.
  - by apply Forall_take, Forall_drop.
Qed.

Lemma three_fields entry h a e : str_split " "%char entry = [h; a; e] -> entry = h +:+ " " +:+ a +:+ " " +:+ e.
Proof. intros Hs. rewrite <- (join_split " "%char entry), Hs. done. Qed.
Lemma demand_then {A} b m (r : res A) a : (_ ← demand b m; r) = Ok a <-> b = true /\ r = Ok a.
Proof. unfold demand, require. destruct b; cbn; naive_solver. Qed.
Lemma demand_iff b m : demand b m = Ok tt <-> b = true.
Proof. unfold demand, require. destruct b; naive_solver. Qed.
Lemma invalid_not_Ok {A} m (a : A) : invalid m = Ok a <-> False.
Proof. done. Qed.

(** A line with an Ed25519 record for [host], whatever its length. *)
Definition host_key_line (entry host : string) : Prop :=
  (str_truthy entry = true /\ entry = str_strip entry
   /\ str_any (fun c => bool_decide (c ∈ line_breaks)) entry = false)
  /\ exists token key, str_split " "%char entry = [host; "ssh-ed25519"; token]
       /\ (str_truthy host = true /\ str_truthy token = true /\ str_len token <= 256)
       /\ b64decode token = Some (ed25519_wire_prefix ++ key) /\ length key = ED25519_KEY_BYTES.

Lemma locked_iff entry host :
  _validate_locked_known_hosts_entry entry host = Ok tt <-> host_key_line entry host /\ str_len entry <= 512.
Proof.
  unfold _validate_locked_known_hosts_entry, host_key_line. rewrite demand_then, !andb_true_iff, negb_true_iff, String.eqb_eq, Z.leb_le.
  destruct (str_split " "%char entry) as [|h [|a [|e [|x l]]]] eqn:Es; try (rewrite invalid_not_Ok; naive_solver).
  rewrite !demand_then, !andb_true_iff, !String.eqb_eq, Z.leb_le. split.
  - intros ([[[Ht He] Hb] Hl] & [[Hh Ha] Hk] & [[-> ->] Hlen] & Hd).
    destruct (b64decode e) as [d|] eqn:Ed; [|done]. apply demand_iff, is_ed25519_wire_spec in Hd as (key & -> & Hlk).
    split; [|done]. split; [done|]. by exists e, key.
  - intros [[(? & ? & ?) (token & key & [= -> -> ->] & (? & ? & ?) & -> & Hlk)] ?].
    split_and!; try done. apply demand_iff, is_ed25519_wire_spec. eauto.
Qed.
Lemma gitea_iff entry :
  _validate_gitea_known_hosts_entry entry = Ok tt
  <-> host_key_line entry Upgrade.IPV4_ADDRESS /\ str_len entry <= 8192.
Proof.
  unfold _validate_gitea_known_hosts_entry, host_key_line. rewrite demand_then, !andb_true_iff, negb_true_iff, String.eqb_eq, Z.leb_le.
  destruct (str_split " "%char entry) as [|h [|a [|e [|x l]]]] eqn:Es; try (rewrite invalid_not_Ok; naive_solver).
  rewrite !demand_then, !andb_true_iff, !String.eqb_eq, Z.leb_le. unfold str_in. rewrite bool_decide_eq_true, list_elem_of_singleton.
  split.
  - intros ([[[Ht He] Hb] Hl] & [[Hh Ha] Hk] & -> & -> & Hlen & Hd).
    destruct (b64decode e) as [d|] eqn:Ed; [|done].
    apply demand_iff in Hd. rewrite exact_iff_wire in Hd by (by eapply b64decode_bytes).
    apply is_ed25519_wire_spec in Hd as (key & -> & Hlk). split; [|done]. split; [done|]. by exists e, key.
  - intros [[(? & ? & ?) (token & key & [= -> -> ->] & (? & ? & ?) & Hd & Hlk)] ?].
    split_and!; try done. rewrite Hd. apply demand_iff. rewrite exact_iff_wire by (by eapply b64decode_bytes).
    apply is_ed25519_wire_spec. eauto.
Qed.

(** C26: The two host-key validators are one.  The one of the production upgrade reads the
    lengths inside the record and allows 8192 characters, the one of the locked identity
    compares a fixed prefix and allows 512; they accept the same lines for Gitea's
    address, and an accepted line is the address, the algorithm and the text of one record
    that holds exactly one 32-byte key. *)
Theorem host_key_validators_agree entry :
  (_validate_gitea_known_hosts_entry entry = Ok tt
   <-> _validate_locked_known_hosts_entry entry Upgrade.IPV4_ADDRESS = Ok tt)
  /\ (_validate_gitea_known_hosts_entry entry = Ok tt -> pins_key entry Upgrade.IPV4_ADDRESS).
Proof.
  rewrite gitea_iff, locked_iff.
  assert (Hlen : host_key_line entry Upgrade.IPV4_ADDRESS -> str_len entry <= 512 /\ pins_key entry Upgrade.IPV4_ADDRESS).
  { intros (_ & token & key & Hs%three_fields & (_ & _ & ?) & Hd & Hk). split; [|by exists token, key].
    rewrite Hs, !str_len_app. change (str_len Upgrade.IPV4_ADDRESS) with 10. change (str_len " ") with 1.
    change (str_len "ssh-ed25519") with 11. lia. }
  split; [split|]; intros [Hl ?]; pose proof (Hlen Hl) as []; split_and?; try done; lia.
Qed.

(** ** The locked identity *)

Section Identity.
Context `{PyLib} `{LeaseLib}.

(** The one service the snapshot was taken from: the only enabled row of netbox-network,
or, where there is none, the only enabled and credentialed endpoint of netbox-openbao. *)
Definition sole_service (d : ssh_directory) (t o : value) (service : Targets.attribute) : Prop :=
(exists query, DeviceService d = Some query /\ query t o = Ok [service] /\ attr_true (attr service "enabled") = true)
\/ ((forall query, DeviceService d = Some query -> query t o = Ok [])
    /\ exists query l, ServiceEndpoint d = Some query /\ query t o = Ok l
         /\ List.filter has_credential (List.filter endpoint_enabled l) = [service]).
Definition snapshot_fields : list string :=
["ssh_storage_backend"; "ssh_service_id"; "ssh_service_revision"; "ssh_identity_id"; "ssh_identity_revision";
 "ssh_credential_uuid"; "ssh_credential_type"; "ssh_kv_version"; "ssh_principal"; "ssh_method"; "ssh_host"; "ssh_port";
 "ssh_known_hosts_sha256"; "ssh_policy_ref"].
(** What the snapshot says of the service and of its credential. *)
Record identity_pinned (service : Targets.attribute) (host ref : string) (s : dict) : Prop := {
ip_strict : attr_true (attr service "ssh_strict_host_key_checking") = true;
ip_key : pins_key (attr_or_empty service "ssh_known_hosts_entry") host;
ip_key_hash : dict_get "ssh_known_hosts_sha256" s = Some (_hash_text (attr_or_empty service "ssh_known_hosts_entry"));
ip_host : dict_get "ssh_host" s = Some (VStr host) /\ dict_get "ssh_port" s = Some (VInt 22);
ip_policy : dict_get "ssh_policy_ref" s = Some (VStr ref);
ip_principal : let principal := attr_or_empty (attr service "credential") "username" in
  valid_principal principal = true /\ dict_get "ssh_principal" s = Some (VStr principal);
ip_revisions : exists l l' r r', _model_revision service l = Ok r /\ _model_revision (attr service "credential") l' = Ok r'
  /\ dict_get "ssh_service_revision" s = Some (VStr r) /\ dict_get "ssh_identity_revision" s = Some (VStr r');
ip_fields : forall k, k ∈ keys s -> k ∈ snapshot_fields;
}.

Lemma locked_pins entry host u : _validate_locked_known_hosts_entry entry host = Ok u -> pins_key entry host.
Proof.
destruct u. intros [[_ (token & key & Hs%three_fields & _ & Hd & Hk)] _]%locked_iff. by exists token, key.
Qed.
(** A closed list of keys among the fields of a snapshot. *)
Ltac fields_ok := apply Forall_forall; cbn; repeat constructor; key_ok.

Lemma openbao_snapshot_pinned service host ref s :
  openbao_snapshot service host ref = Ok s -> identity_pinned service host ref s.
Proof.
unfold openbao_snapshot. cbv zeta. intros (m & Hm & (h & Hh & Hs)%bind_Ok)%bind_Ok.
apply bind_Ok in Hs as (pk & _ & (r & Hr & (pk' & _ & (r' & Hr' & (meth & _ & [= <-])%bind_Ok)%bind_Ok)%bind_Ok)%bind_Ok).
unfold _openbao_ssh_identity_metadata in Hm. apply demand_then in Hm as [_ (kv & _ & [Hp [= <-]]%demand_then)%bind_Ok].
cbn [im_principal im_credential_uuid im_credential_type] in *. rewrite !andb_true_iff in Hp. destruct Hp as [[Hp _] _].
unfold _openbao_ssh_host in Hh. apply bind_Ok in Hh as ([a|] & _ & Hh); [|done].
apply demand_then in Hh as [[->%String.eqb_eq Hst]%andb_true_iff (? & Hk%locked_pins & [= <-])%bind_Ok].
constructor; cbn [fst snd]; try done; try (split; done).
- by exists "OpenBao SSH service", "OpenBao SSH identity", r, r'.
Qed.

Lemma attr_int_value o n : attr_int o n = true -> attr_value o = VInt n.
Proof. destruct o as [[]|]; try done. by intros ->%Z.eqb_eq. Qed.
Lemma local_snapshot_pinned service host ref s :
  _build_local_ssh_snapshot service host ref = Ok s -> identity_pinned service host ref s.
Proof.
unfold _build_local_ssh_snapshot. cbv zeta. intros (a & _ & (h & Hh & Hs)%bind_Ok)%bind_Ok.
destruct a as [a|]; [|done]. destruct (String.eqb_spec a host) as [->|]; [|done]. injection Hh as <-.
apply demand_then in Hs as [[Hport%attr_int_value Hst]%andb_true_iff (? & Hk%locked_pins & (pk & _ & Hs)%bind_Ok)%bind_Ok].
apply demand_then in Hs as [Hp (? & _ & (? & _ & (r & Hr & (r' & Hr' & [= <-])%bind_Ok)%bind_Ok)%bind_Ok)%bind_Ok].
rewrite !andb_true_iff in Hp. destruct Hp as [[_ Hp] _]. rewrite Hport.
constructor; try done; try (split; done).
- by exists "SSH service", "SSH identity", r, r'.
- fields_ok.
Qed.

(** C24: A locked identity pins one host.  The snapshot an approval freezes comes from the
    only SSH service of the target, one with strict host keys whose line pins a single
    32-byte Ed25519 key for exactly the expected address; the snapshot names that address
    on port 22, the digest of that line, the login and the revisions of the service and of
    its credential, and holds no other field: no secret. *)
Theorem locked_identity_pins_host d t o host ref s :
  _resolve_locked_ssh_identity d t o host ref = Ok s ->
  exists service, sole_service d t o service /\ identity_pinned service host ref s.
Proof.
unfold _resolve_locked_ssh_identity. intros [_ (l & Hl & (ob & Hob & Hs)%bind_Ok)%bind_Ok]%demand_then.
destruct l as [|service [|]].
- cbn in Hob. destruct ob as [s'|]; [injection Hs as ->|done].
  unfold _resolve_openbao_ssh_identity in Hob. destruct (ServiceEndpoint d) as [query|] eqn:Hq; [|done].
  apply bind_Ok in Hob as (l & Hr & Hob). destruct (query t o) as [l'|] eqn:Hql; [injection Hr as ->|done].
  destruct (bool_decide _); [done|]. destruct (List.filter _ _) as [|service [|]] eqn:Hf; try done.
  destruct (openbao_snapshot service host ref) as [s''|] eqn:Hs; [injection Hob as ->|done].
  exists service. split; [right|by apply openbao_snapshot_pinned].
  split; [|by exists query, l]. intros q Hd. rewrite Hd in Hl. destruct (q t o) as [[]|]; done.
- cbn in Hob. injection Hob as <-. apply demand_then in Hs as [He Hs]. exists service.
  split; [left|by apply local_snapshot_pinned]. destruct (DeviceService d) as [query|]; [|done]. exists query.
  destruct (query t o) as [[|x [|y l]]|]; done.
- cbn in Hob. by injection Hob as <-.
Qed.
End Identity.

(** ** Bindings *)

Section Bindings.
Context `{PyLib} `{LeaseLib} `{JsonSchema}.

(** The execution runs on the device the row names; its fingerprint holds the row's key
and the text of its revision. *)
Record bound_to (rows : bindings) (slug : string) (i : norm_input) (p : payload) : Prop := {
bt_row : exists row device id revision,
  rows slug = Ok (Some row) /\ attr row "device_id" = Val (VInt device) /\ attr row "pk" = Val (VInt id)
  /\ _rpc_target_binding_revision row slug = Ok revision
  /\ ni_object_id i = VInt device
  /\ dict_get "assigned_object_id" (fingerprint p) = Some (VInt device)
  /\ dict_get "target_binding_id" (fingerprint p) = Some (VInt id)
  /\ dict_get "target_binding_revision" (fingerprint p) = Some (VStr revision);
bt_device : ni_target_model i = DEVICE_TYPE /\ attr_is (attr (ni_object i) "pk") (ni_object_id i) = true;
bt_object : dict_get "target_object_sha256" (fingerprint p) = Some (_hash_json (object_of i))
  /\ dict_get "target_object" (body p) = Some (object_of i);
}.

Lemma positive_attr_Some o n : positive_attr o = Some n -> o = Val (VInt n).
Proof. destruct o as [[]|]; cbn; try done. by case_match; intros [= ->]. Qed.
Lemma resolve_binding_Ok rows slug q m s b :
  resolve_binding rows slug q m s = Ok b ->
  exists row, rows slug = Ok (Some row) /\ attr row "device_id" = Val (VInt (bound_device b))
    /\ attr row "pk" = Val (VInt (bound_id b)) /\ _rpc_target_binding_revision row slug = Ok (bound_revision b).
Proof.
unfold resolve_binding. intros (row & Hr & (n & Hn & (k & Hk & (r & Hv & [= <-])%bind_Ok)%bind_Ok)%bind_Ok)%bind_Ok.
exists row. destruct (rows slug) as [[|]|]; try done. injection Hr as ->.
destruct (positive_attr (attr row "device_id")) eqn:E1; [injection Hn as ->|done].
destruct (positive_attr (attr row "pk")) eqn:E2; [injection Hk as ->|done].
apply positive_attr_Some in E1, E2. done.
Qed.
Lemma same_object_Ok i : same_object i = true ->
  (exists n, ni_object_id i = VInt n) /\ attr_is (attr (ni_object i) "pk") (ni_object_id i) = true.
Proof.
unfold same_object, positive_id. rewrite !andb_true_iff. intros [[Hid _] ?]. split; [|done].
destruct (ni_object_id i); try done. eauto.
Qed.
Lemma device_target_Ok i m u : device_target i m = Ok u -> ni_target_model i = DEVICE_TYPE.
Proof. unfold device_target, demand. by intros ->%require_Ok%String.eqb_eq. Qed.
(** The payloads of the three normalizers, up to the entry of the caller. *)
Lemma bound_payload rows slug q m s b i f message u :
  resolve_binding rows slug q m s = Ok b -> bound_here i b message = Ok u ->
  ni_target_model i = DEVICE_TYPE -> same_object i = true ->
  (forall p, f p = p \/ exists k v, f p = both k v p /\ k ∉ ["target_object"; "assigned_object_id"; "target_binding_id";
     "target_binding_revision"; "target_object_sha256"]) ->
  bound_to rows slug i (f (mark_binding b (mark_target i (opening i [] [])))).
Proof.
intros (row & Hr & Hd & Hk & Hv)%resolve_binding_Ok Hb%require_Ok Hm [[n Hn] Ha]%same_object_Ok Hf.
rewrite Hn in Hb. apply bool_decide_eq_true in Hb. injection Hb as ->.
set (p := mark_binding b _). assert (Hp : bound_to rows slug i p).
{ constructor; [|done|done]. exists row, (bound_device b), (bound_id b), (bound_revision b).
  rewrite <- Hn. split_and!; try done; by rewrite Hn. }
destruct (Hf p) as [->|(k & v & -> & Hne)]; [done|].
destruct Hp as [(row' & dv & id & rv & ? & ? & ? & ? & ? & ? & ? & ?) ? []]. clearbody p.
constructor; cbn [both mark put body fingerprint]; try done.
- exists row', dv, id, rv. split_and!; try done; rewrite dict_get_set_ne by set_solver; done.
- split; rewrite dict_get_set_ne by set_solver; done.
Qed.

Definition bound_body : list string := ["target"; "target_object"; "environment"; "app"].
Lemma text_in_Some v names s : text_in v names = Some s -> v = VStr s /\ s ∈ names.
Proof.
destruct v; cbn; try done. destruct (str_in _ _) eqn:E; intros [= ->]. split; [done|].
by apply bool_decide_eq_true in E.
Qed.
Lemma import_bound rows i p :
  _normalize_openbao_import_execution rows i = Ok p ->
  exists environment slug, dict_get "environment" (fingerprint p) = Some (VStr environment)
    /\ table_get environment _OPENBAO_IMPORT_BINDING_SLUGS = Some slug /\ bound_to rows slug i p
    /\ forall k, k ∈ keys (body p) -> k ∈ bound_body.
Proof.
unfold _normalize_openbao_import_execution.
intros (? & Hm%device_target_Ok & [Hs (params & Hp & (? & _ & (environment & He & Hb)%bind_Ok)%bind_Ok)%bind_Ok]%demand_then)%bind_Ok.
apply bind_Ok in Hb as (b & Hb & (? & Hd & [= <-])%bind_Ok).
unfold _openbao_import_target_binding in Hb. apply bind_Ok in Hb as (slug & Hslug & Hb).
destruct (table_get environment _) as [slug'|] eqn:Et; [injection Hslug as ->|done].
exists environment, slug. split_and!; try done.
- refine (bound_payload _ _ _ _ _ _ _ (both "environment" (VStr environment)) _ _ Hb Hd Hm Hs _).
  intros q. right. exists "environment", (VStr environment). split; [done|key_ok].
- apply Forall_forall. cbn. repeat constructor; key_ok.
Qed.
Lemma release_bound rows i p :
  _normalize_release_marker_execution rows i = Ok p \/ _normalize_proxbox_api_release_images_execution rows i = Ok p ->
  bound_to rows RPC_TARGET_BINDING_SLUG_NMULTICLOUD_DEPLOY_HOST i p /\ forall k, k ∈ keys (body p) -> k ∈ bound_body.
Proof.
unfold _normalize_release_marker_execution, _normalize_proxbox_api_release_images_execution, _release_marker_target_binding.
intros [(? & Hm%device_target_Ok & [Hs (params & Hp & (? & _ & (app & _ & (b & Hb & (? & Hd & [= <-])%bind_Ok)%bind_Ok)%bind_Ok)%bind_Ok)%bind_Ok]%demand_then)%bind_Ok
 |(? & Hm%device_target_Ok & [Hs (params & _ & (? & _ & (b & Hb & (? & Hd & [= <-])%bind_Ok)%bind_Ok)%bind_Ok)%bind_Ok]%demand_then)%bind_Ok].
- split; [|apply Forall_forall; cbn; repeat constructor; key_ok].
  refine (bound_payload _ _ _ _ _ _ _ (both "app" (VStr app)) _ _ Hb Hd Hm Hs _).
  intros q. right. exists "app", (VStr app). split; [done|key_ok].
- split; [|apply Forall_forall; cbn; repeat constructor; key_ok].
  unfold named_object in Hs. apply andb_true_iff in Hs as [[Hs _]%andb_true_iff _].
  refine (bound_payload _ _ _ _ _ _ _ (fun q => q) _ _ Hb Hd Hm Hs _). by left.
Qed.

(** C23: A procedure bound by an [RPCTargetBinding] runs where its row says.  An accepted
    importer, release-marker or retained-image request targets exactly the device of the
    row of its slot (the importer's is the slot of its environment), and its fingerprint
    holds that device, the key of the row and the text of its revision: an approval does
    not survive a move of the binding.  Nothing else of the request is forwarded. *)
Theorem bound_procedure_runs_on_its_device rows i p :
  (_normalize_openbao_import_execution rows i = Ok p ->
   exists environment slug, dict_get "environment" (fingerprint p) = Some (VStr environment)
     /\ table_get environment _OPENBAO_IMPORT_BINDING_SLUGS = Some slug /\ bound_to rows slug i p)
  /\ (_normalize_release_marker_execution rows i = Ok p \/ _normalize_proxbox_api_release_images_execution rows i = Ok p ->
      bound_to rows RPC_TARGET_BINDING_SLUG_NMULTICLOUD_DEPLOY_HOST i p)
  /\ (_normalize_openbao_import_execution rows i = Ok p \/ _normalize_release_marker_execution rows i = Ok p
      \/ _normalize_proxbox_api_release_images_execution rows i = Ok p ->
      forall k, k ∈ keys (body p) -> k ∈ bound_body).
Proof.
split_and!.
- intros (e & s & ? & ? & ? & _)%import_bound. eauto.
- intros [? _]%release_bound. done.
- intros [(e & s & _ & _ & _ & ?)%import_bound|[_ ?]%release_bound]; done.
Qed.
End Bindings.

(** ** Created executions that cannot be normalized *)

(** C28: No created release-marker execution can be normalized.  A creation stamps the
    frozen timeout into the parameters of every execution it stores, and the
    release-marker normalizer, like the one of the Huawei BGP peers, refuses every key but
    its own: whatever else the request, the binding and the gates say, normalizing the
    stored parameters is refused. *)
Theorem created_release_marker_never_normalizes `{PyLib} `{JsonSchema} `{ManifestLib} `{Yaml} `{LeaseLib}
    capture env rq pk tg normalize statuses job now c ex r rows f i :
  create_from_request capture env rq pk tg normalize statuses job now = (c, (Some ex, r)) ->
  ni_params i = ex_params ex ->
  (exists code message, _normalize_release_marker_execution rows i = Err (RPCExecutionError code message))
  /\ exists code message, _normalize_huawei_ne8000_bgp_execution f i = Err (RPCExecutionError code message).
Proof.
  intros (a & Ha & Hx & _)%created_admitted Hi. apply admit_checked in Ha as (d & Hd).
  pose proof (ah_timeout _ _ _ _ _ Hd) as Ht. set (k := "_timeout_seconds_snapshot") in *.
  assert (Hk : k ∈ keys (ad_params a)) by (apply elem_keys_get; by rewrite Ht).
  unfold _normalize_release_marker_execution, _normalize_huawei_ne8000_bgp_execution, device_target, demand, only_keys.
  unfold object_params. rewrite Hi, Hx. split.
  - destruct (String.eqb _ _); cbn; [|by do 2 eexists].
    destruct (same_object i); cbn; [|by do 2 eexists].
    rewrite (refuse_key _ _ k) by (done || key_ok). cbn. by do 2 eexists.
  - destruct (code_gate_unavailable_reason f (ni_procedure i)); cbn [mbind]; [by do 2 eexists|].
    cbn. set (l := sorted_names _). destruct l as [|x l'] eqn:E; [|cbn; by do 2 eexists].
    exfalso. apply sorted_names_Nil, map_eq_nil in E.
    assert (Hin : k ∈ List.filter (fun k => negb (str_in k _HUAWEI_NE8000_BGP_PARAM_KEYS)) (keys (ad_params a))).
    { apply list_elem_of_In, filter_In. split; [by apply list_elem_of_In|done]. }
    rewrite E in Hin. by apply elem_of_nil in Hin.
Qed.

(** ** From the approval of a registration to the reservation of its scope *)

Section Registration.
Context `{PyLib} `{JsonSchema} `{LeaseLib}.

(** The request and the fence a normalized registration was made from. *)
Lemma registration_Ok d vm fences clock i p :
  _normalize_gitea_runner_registration_execution d vm fences clock i = Ok p ->
  exists operation scope canonical f blocking rest,
    fences canonical = Some (f, blocking) /\ fence_ready "register" "registration" operation f blocking clock = Ok tt
    /\ operation ∈ GiteaRunner.OPERATIONS
    /\ body p = ["operation" :- VStr operation; "scope" :- VStr scope; "gitea_scope" :- VStr canonical]
                ++ fence_snapshot f ++ rest.
Proof.
unfold _normalize_gitea_runner_registration_execution. cbv zeta.
intros ([[operation scope] canonical] & Hq & (fb & Hf & ([] & Hr & Hp)%bind_Ok)%bind_Ok)%bind_Ok.
do 7 (apply bind_Ok in Hp as (? & _ & Hp)). injection Hp as <-. cbn [body].
exists operation, scope, canonical, fb.1, fb.2. eexists.
destruct (fences canonical) as [fb'|] eqn:Ef; [injection Hf as ->|done].
split_and!; [by destruct fb|done| |reflexivity].
unfold runner_request in Hq. destruct (foreign_keys _ _); [|done].
destruct (text_in _ _) as [o|] eqn:Eo; [|done]. apply text_in_Some in Eo as [_ Ho].
destruct (get "scope" _); try done. destruct (dict_get _ _) as [[]|]; try done. by injection Hq as -> _ _.
Qed.

(** What the worker writes for the operation. *)
Definition reserved (operation : string) (pk clock : Z) (f : fence) : fence :=
let start := String.eqb operation "register" in
{| f_state := if start then STATE_PENDING else STATE_BLOCKED;
   blocking_execution_id := if start then Some pk else blocking_execution_id f;
   reconciliation_execution_id := if start then None else Some pk;
   takeover_generation := takeover_generation f + 1;
   expected_token_sha256 := if start then EmptyString else expected_token_sha256 f;
   last_reset_state := last_reset_state f; last_prior_token_id := last_prior_token_id f;
   last_replacement_token_id := last_replacement_token_id f;
   last_prior_active_sha256 := last_prior_active_sha256 f; last_updated := clock |}.

Lemma quiescent_later f blocking delay clock clock' :
  clock <= clock' -> _gitea_runner_fence_is_quiescent f blocking delay clock = true ->
  _gitea_runner_fence_is_quiescent f blocking delay clock' = true.
Proof.
unfold _gitea_runner_fence_is_quiescent. intros Hc. destruct (blocking_execution_id f), blocking; try done.
rewrite !andb_true_iff, !Z.leb_le. intros [? ?]. split; [done|lia].
Qed.
Lemma py_str_or s : py_str (py_or (VStr s) (VStr EmptyString)) = s.
Proof. by destruct s. Qed.
Lemma snapshot_is_current f operation scope canonical rest :
  takeover_generation f < JS_SAFE_INTEGER_MAX ->
  snapshot_current f (["operation" :- VStr operation; "scope" :- VStr scope; "gitea_scope" :- VStr canonical]
                      ++ fence_snapshot f ++ rest) = true.
Proof.
intros Hg. unfold snapshot_current, get_str, get. cbn -[Z.add JS_SAFE_INTEGER_MAX py_str py_or].
rewrite !py_str_or, !String.eqb_refl, Z.eqb_refl. cbn -[Z.add JS_SAFE_INTEGER_MAX].
rewrite !andb_true_iff, Z.leb_le. split_and!; try done; [|lia]. apply bool_decide_eq_true. done.
Qed.

(** C25: An approved registration finds its scope.  As long as the fence is the one the
    request was normalized from, the worker's reservation of the same parameters, at any
    later time, is not refused by the fence: a registration always takes the scope, with
    the generation the approval names, and a reconciliation does as soon as the execution
    that blocks the scope could be closed. *)
Theorem registration_reserves_its_scope d vm fences clock clock' i p pk now :
  _normalize_gitea_runner_registration_execution d vm fences clock i = Ok p -> clock <= clock' ->
  exists operation canonical f blocking, operation ∈ GiteaRunner.OPERATIONS
  /\ get_str "operation" EmptyString (body p) = operation /\ fences canonical = Some (f, blocking)
  /\ get "fence_generation" (body p) = VInt (takeover_generation (reserved operation pk clock' f))
  /\ _reserve_gitea_runner_scope GITEA_RUNNER_REGISTER pk (body p) (Some f) blocking clock' now
      = (b ← (if String.eqb operation "register" then Ok blocking else release_blocking f blocking now);
         Ok (reserved operation pk clock' f, b)).
Proof.
intros (operation & scope & canonical & f & blocking & rest & Hf & Hr & Hop & Hb)%registration_Ok Hc.
exists operation, canonical, f, blocking.
assert (Ho : get_str "operation" EmptyString (body p) = operation).
{ rewrite Hb. unfold get_str, get. cbn -[py_str py_or]. apply py_str_or. }
unfold fence_ready in Hr. apply bind_Ok in Hr as (? & [Hg0 Hg]%require_Ok%andb_true_iff & Hr). apply Z.ltb_lt in Hg.
apply bind_Ok in Hr as (? & Hreg%require_Ok & (? & Hrec%require_Ok & Hq%require_Ok)%bind_Ok).
split_and!; try done; [by rewrite Hb|].
unfold _reserve_gitea_runner_scope. rewrite Ho, Hb, snapshot_is_current by done. cbn [negb].
change (_gitea_runner_start_operation GITEA_RUNNER_REGISTER) with "register".
apply elem_of_cons in Hop as [->|Hop%list_elem_of_singleton].
- cbn in Hrec, Hq |- *. rewrite !andb_true_iff, !negb_true_iff in Hrec. destruct Hrec as [[-> Hid] Hn].
  apply negb_false_iff, bool_decide_eq_true in Hn.
  destruct (blocking_execution_id f) as [id|] eqn:Ei; [|done]. rewrite (bool_decide_false (Some id = None)) by done.
  rewrite (bool_decide_true (_ = None)) by done. cbn. rewrite (quiescent_later _ _ _ clock) by done. cbn.
  unfold reserved. cbn. rewrite Ei. done.
- subst operation. cbn in Hreg |- *. rewrite !andb_true_iff in Hreg. destruct Hreg as [[-> ->] _]. done.
Qed.
End Registration.

(** ** Concrete requests *)

Section Witnesses.
Import MiniSchema Demo AuthorityDemo DemoLease.

Definition demo_host_key : string := b64encode (ed25519_wire_prefix ++ repeat 7 32).
Definition demo_line (host : string) : string := host +:+ " ssh-ed25519 " +:+ demo_host_key.
Lemma host_key_validators_agree_witness :
  _validate_locked_known_hosts_entry (demo_line "10.0.30.96") "10.0.30.96" = Ok tt
  /\ pins_key (demo_line "10.0.30.96") "10.0.30.96".
Proof.
  destruct (host_key_validators_agree (demo_line "10.0.30.96")) as [Ha Hp].
  assert (Hok : _validate_gitea_known_hosts_entry (demo_line "10.0.30.96") = Ok tt) by (vm_compute; reflexivity).
  exact (conj (proj1 Ha Hok) (Hp Hok)).
Defined.

Definition stamp (text : string) : string * Targets.attribute := ("last_updated", Val (VDatetime text)).
Definition demo_service (host principal : string) : Targets.attribute :=
  Obj [("pk", Val (VInt 31)); stamp "@1700000000000000"; ("enabled", Val (VBool true)); ("port", Val (VInt 22));
       ("management_host", Obj [("address", Val (VStr (host +:+ "/24")))] host);
       ("ssh_strict_host_key_checking", Val (VBool true)); ("ssh_known_hosts_entry", Val (VStr (demo_line host)));
       ("credential_id", Val (VInt 32));
       ("credential", Obj [("pk", Val (VInt 32)); stamp "@1700000000000001"; ("username", Val (VStr principal));
                           ("auth_method", Val (VStr "password")); ("password_encrypted", Val (VStr "x"))] "login")]
      "ssh".
(** The runner machine and Gitea, with a service each. *)
Definition demo_services : ssh_directory :=
  {| DeviceService := Some (fun _ o => Ok (if py_eqb o (VInt 399) then [demo_service "10.0.30.5" "nms-runner-bootstrap"]
                                            else if py_eqb o (VInt 170) then [demo_service "10.0.30.96" "nms-gitea-runner-control"]
                                            else []));
     ServiceEndpoint := None |}.
Lemma locked_identity_pins_host_witness :
  exists service s,
    _resolve_locked_ssh_identity demo_services (VInt 3) (VInt 170) "10.0.30.96" "ref" = Ok s
    /\ sole_service demo_services (VInt 3) (VInt 170) service /\ identity_pinned service "10.0.30.96" "ref" s.
Proof.
  destruct (_resolve_locked_ssh_identity demo_services (VInt 3) (VInt 170) "10.0.30.96" "ref") as [s|] eqn:E;
    [|exfalso; vm_compute in E; discriminate].
  destruct (locked_identity_pins_host demo_services (VInt 3) (VInt 170) "10.0.30.96" "ref" s E) as (service & Hs & Hi).
  exists service, s. exact (conj eq_refl (conj Hs Hi)).
Defined.

Definition demo_host : Targets.attribute :=
  Obj [("pk", Val (VInt 44)); ("name", Val (VStr "nmc-prod-207"))] "nmc-prod-207".
Definition demo_pinned (procedure : string) (params : dict) : norm_input :=
  {| ni_procedure := procedure; ni_handler_id := procedure; ni_params := VDict params; ni_app_label := "dcim";
     ni_model := "device"; ni_object_id := VInt 44; ni_object := demo_host; ni_type_id := VInt 3; ni_references := VNone |}.
Definition demo_bindings : bindings := fun slug =>
  Ok (Some (Obj [("device_id", Val (VInt 44)); ("pk", Val (VInt 9)); stamp "@1700000000000000"] slug)).
Lemma bound_procedure_runs_on_its_device_witness :
  exists p, _normalize_openbao_import_execution demo_bindings
              (demo_pinned NETBOX_OPENBAO_IMPORT_DRY_RUN ["environment" :- VStr "staging"]) = Ok p
    /\ exists slug, bound_to demo_bindings slug (demo_pinned NETBOX_OPENBAO_IMPORT_DRY_RUN ["environment" :- VStr "staging"]) p.
Proof.
  destruct (_normalize_openbao_import_execution demo_bindings
              (demo_pinned NETBOX_OPENBAO_IMPORT_DRY_RUN ["environment" :- VStr "staging"])) as [p|] eqn:E;
    [|exfalso; vm_compute in E; discriminate].
  destruct (proj1 (bound_procedure_runs_on_its_device demo_bindings
              (demo_pinned NETBOX_OPENBAO_IMPORT_DRY_RUN ["environment" :- VStr "staging"]) p) E)
    as (environment & slug & _ & _ & Hb).
  exists p. split; [reflexivity|]. exists slug. exact Hb.
Defined.

(** A created check, and the same request before it was stamped. *)
#[local] Instance pinned_yaml : Yaml := {| safe_load := fun _ => None |}.
#[local] Instance pinned_manifest : ManifestLib :=
  {| Capabilities.json_loads := fun text => Some (VInt (Z.of_nat (length text)));
     manifest_validate := fun _ => None; semantic_contract := fun _ _ => VNone |}.
Definition demo_marker : dict := ["app" :- VStr "nms-backend"].
Definition demo_marker_creation :=
  create_from_request None (demo_admission_env RequestFailed) (demo_creation NMULTICLOUD_DEPLOY_RELEASE_MARKER_CHECK demo_marker) 7 demo_target
    (fun _ _ => Ok []) [] (Ok (VInt 11)) demo_now.
Definition demo_marker_stored : execution := Eval vm_compute in default demo_new demo_marker_creation.2.1.
Lemma demo_marker_created : demo_marker_creation.2 = (Some demo_marker_stored, Ok tt).
Proof. vm_compute. reflexivity. Qed.
Definition demo_marker_input (params : value) : norm_input :=
  {| ni_procedure := NMULTICLOUD_DEPLOY_RELEASE_MARKER_CHECK; ni_handler_id := NMULTICLOUD_DEPLOY_RELEASE_MARKER_CHECK;
     ni_params := params; ni_app_label := "dcim"; ni_model := "device"; ni_object_id := VInt 44; ni_object := demo_host;
     ni_type_id := VInt 3; ni_references := VNone |}.
Lemma created_release_marker_never_normalizes_witness :
  (exists p, _normalize_release_marker_execution demo_bindings (demo_marker_input (VDict demo_marker)) = Ok p)
  /\ exists code message, _normalize_release_marker_execution demo_bindings
                            (demo_marker_input (ex_params demo_marker_stored)) = Err (RPCExecutionError code message).
Proof.
  split; [vm_compute; eexists; reflexivity|].
  destruct demo_marker_creation as [c s] eqn:E. pose proof demo_marker_created as Hs. rewrite E in Hs. cbn [snd] in Hs.
  subst s.
  exact (proj1 (created_release_marker_never_normalizes None (demo_admission_env RequestFailed)
    (demo_creation NMULTICLOUD_DEPLOY_RELEASE_MARKER_CHECK demo_marker) 7 demo_target (fun _ _ => Ok []) []
    (Ok (VInt 11)) demo_now c demo_marker_stored (Ok tt) demo_bindings shipped_gates
    (demo_marker_input (ex_params demo_marker_stored)) E eq_refl)).
Defined.

(** A registration on an unused scope, and Gitea. *)
Definition relation (id : Z) (name : string) : Targets.attribute := Obj [("pk", Val (VInt id)); ("name", Val (VStr name))] name.
Definition machine_base (id : Z) (name address : string) (vmid : Z) : list (string * Targets.attribute) :=
  [("pk", Val (VInt id)); ("name", Val (VStr name)); ("status", Val (VStr "active"));
   ("primary_ip4", Obj [("address", Val (VStr address))] address);
   ("custom_field_data", Val (VDict ["proxmox_vm_id" :- VInt vmid]))].
Definition related (field : string) (id : Z) (name : string) : list (string * Targets.attribute) :=
  [(field, relation id name); (field +:+ "_id", Val (VInt id))].
Definition demo_runner : Targets.attribute :=
  Obj (machine_base Runner.TARGET_ID Runner.TARGET_NAME "10.0.30.5/24" Runner.PROXMOX_VMID
       ++ [("vcpus", Val (VFloat "8.0")); ("memory", Val (VInt Runner.MEMORY_MIB)); ("disk", Val (VInt Runner.DISK_MIB))]
       ++ flat_map (fun r => related r.1.1 r.1.2 r.2) Runner.relations) Runner.TARGET_NAME.
Definition demo_gitea : gitea_machine :=
  {| gm_object := Obj (machine_base Upgrade.TARGET_OBJECT_ID Upgrade.TARGET_NAME "10.0.30.96/24" Upgrade.PROXMOX_VMID
                       ++ related "cluster" Upgrade.CLUSTER_ID Upgrade.CLUSTER_NAME
                       ++ related "device" Upgrade.NODE_ID Upgrade.NODE_NAME) Upgrade.TARGET_NAME;
     gm_tags := None; gm_type_id := VInt 4 |}.
Definition demo_clear : fence :=
  {| f_state := STATE_CLEAR; blocking_execution_id := None; reconciliation_execution_id := None; takeover_generation := 4;
     expected_token_sha256 := EmptyString; last_reset_state := EmptyString; last_prior_token_id := VNone;
     last_replacement_token_id := VNone; last_prior_active_sha256 := EmptyString; last_updated := 1000 |}.
Definition demo_registration : norm_input :=
  {| ni_procedure := GITEA_RUNNER_REGISTER; ni_handler_id := GITEA_RUNNER_REGISTER;
     ni_params := VDict ["operation" :- VStr "register"; "scope" :- VStr "proxbox-api"]; ni_app_label := "virtualization";
     ni_model := "virtualmachine"; ni_object_id := VInt Runner.TARGET_ID; ni_object := demo_runner; ni_type_id := VInt 4;
     ni_references := VNone |}.
Lemma registration_reserves_its_scope_witness :
  exists p f' b,
    _normalize_gitea_runner_registration_execution demo_services (Ok demo_gitea) (fun _ => Some (demo_clear, None)) 5000
      demo_registration = Ok p
    /\ _reserve_gitea_runner_scope GITEA_RUNNER_REGISTER 7 (body p) (Some demo_clear) None 6000 demo_now = Ok (f', b)
    /\ blocking_execution_id f' = Some 7.
Proof.
  destruct (_normalize_gitea_runner_registration_execution demo_services (Ok demo_gitea)
    (fun _ => Some (demo_clear, None)) 5000 demo_registration) as [p|] eqn:E; [|exfalso; vm_compute in E; discriminate].
  destruct (registration_reserves_its_scope demo_services (Ok demo_gitea) (fun _ => Some (demo_clear, None)) 5000 6000
    demo_registration p 7 demo_now E ltac:(lia)) as (operation & canonical & f & blocking & _ & Ho & Hf & _ & Hr).
  injection Hf as <- <-. assert (operation = "register") as ->.
  { rewrite <- Ho. vm_compute in E. injection E as <-. vm_compute. reflexivity. }
  exists p, (reserved "register" 7 6000 demo_clear), None. split; [reflexivity|]. split; [exact Hr|reflexivity].
Defined.
End Witnesses.
