(* ===== verification/SambaDcProperties.v ===== *)
(** * Properties of the Samba AD domain controller procedures

    What an accepted provision may do: it provisions the target it names, below [/srv],
    without any routing of the caller; a live run names the ports that stay open and a
    frozen Administrator credential; and every resolved setting is in the fingerprint the
    approval hashes. *)

From S2P Require Import Prelude PyValue CredentialContract Spans PyRegex SecretPatterns Protected Contracts Lease.
From S2P Require Import LeaseProperties Backends CredentialAuthority Targets Admission AdmissionProperties Normalize.
From S2P Require Import NormalizeDevices NormalizeServices NormalizeHosts NormalizePinned NormalizeIdentity NormalizeSambaDc.
From S2P Require Import NormalizeProperties PinnedProperties.
Import JsonNotations.

Local Open Scope Z_scope.
Local Notation length := List.length.

(** ** Copying a dictionary into a payload *)

Lemma both_all_other d p k : k ∉ keys d ->
  dict_get k (body (both_all d p)) = dict_get k (body p)
  /\ dict_get k (fingerprint (both_all d p)) = dict_get k (fingerprint p).
Proof.
  revert p. induction d as [|[n v] d IH]; intros p Hk; [done|]. rewrite keys_cons in Hk. unfold both_all. cbn [fold_left].
  destruct (IH (both n v p)) as [Hb Hf]; [set_solver|]. unfold both_all in Hb, Hf. cbn [fst snd].
  rewrite Hb, Hf. cbn [both put mark body fingerprint]. rewrite !dict_get_set_ne by set_solver. done.
Qed.
Lemma both_all_get d p k v : NoDup (keys d) -> dict_get k d = Some v ->
  dict_get k (body (both_all d p)) = Some v /\ dict_get k (fingerprint (both_all d p)) = Some v.
Proof.
  revert p. induction d as [|[n w] d IH]; intros p Hn Hk; [done|]. rewrite keys_cons in Hn.
  apply NoDup_cons in Hn as [Hni Hn]. cbn [dict_get] in Hk. unfold both_all. cbn [fold_left fst snd].
  destruct (String.eqb_spec n k) as [->|Hne]; [|by apply IH]. injection Hk as ->.
  destruct (both_all_other d (both k v p) k Hni) as [Hb Hf]. unfold both_all in Hb, Hf. rewrite Hb, Hf.
  cbn [both put mark body fingerprint]. by rewrite !dict_get_set_eq.
Qed.

(** ** Settings *)

Lemma samba_require_Ok b f r u : samba_require b f r = Ok u -> b = true.
Proof. by destruct b. Qed.
Lemma map_res_fst params l r : map_res (bounded_integer params) l = Ok r -> keys r = map (fun b => b.1.1.1) l.
Proof.
  revert r. induction l as [|[[[n s] lo] hi] l IH]; intros r; cbn; [by intros [= <-]|].
  intros (x & (m & _ & [= <-])%bind_Ok & (ys & Hy & [= <-])%bind_Ok)%bind_Ok. rewrite keys_cons. f_equal. by apply IH.
Qed.
Definition setting_names : list string :=
  ["dry_run"; "domain"; "netbios"; "hostname"; "ip"; "forwarder"; "client_networks"; "ntp_servers"; "timezone"; "share_name";
   "share_path"; "ssh_ports"; "ssh_networks"; "ban_exempt_networks"] ++ map (fun b => b.1.1.1) BOUNDED_INTEGER_PARAMS
  ++ ["legacy_netbios"; "freeze_cloud_init"; "admin_credential_pk"].
Lemma keys_app a b : keys (a ++ b) = keys a ++ keys b.
Proof. unfold keys. by rewrite fmap_app. Qed.
Lemma settings_keys s :
  keys (dc_bounded (dc_sec s)) = map (fun b => b.1.1.1) BOUNDED_INTEGER_PARAMS ->
  NoDup (keys (settings_dict s)) /\ forall k, k ∈ keys (settings_dict s) -> k ∈ setting_names.
Proof.
  intros Hb. unfold settings_dict. rewrite !keys_app, Hb. destruct (dc_credential s); cbn.
  - split; [apply (bool_decide_unpack _); vm_compute; done|]. apply Forall_forall. repeat constructor; key_ok.
  - split; [apply (bool_decide_unpack _); vm_compute; done|]. apply Forall_forall. repeat constructor; key_ok.
Qed.

(** What the contract guarantees of its settings. *)
Record settings_sound (params : dict) (s : dc_settings) : Prop := {
  ss_known : forall k, k ∈ keys params -> k ∈ PROVISION_PARAMS ++ INTERNAL_PARAM_KEYS;
  ss_bounded : keys (dc_bounded (dc_sec s)) = map (fun b => b.1.1.1) BOUNDED_INTEGER_PARAMS;
  ss_names : str_upper (dc_hostname (dc_id s)) <> dc_netbios (dc_id s) /\ is_dns_name (dc_domain (dc_id s)) = true;
  ss_forwarder : dc_forwarder (dc_net s) <> dc_ip (dc_net s);
  ss_routable : routable_unicast (ipv4_value (dc_ip (dc_net s))) = true;
  ss_share : is_share_path (dc_share s).2 = true;
  ss_ports : NoDup (dc_ssh_ports (dc_sec s))
    /\ Forall (fun p => 1 <= p <= 65535 /\ p ∉ RESERVED_SSH_PORTS) (dc_ssh_ports (dc_sec s));
  ss_live : dc_dry_run s = false ->
    dc_ssh_ports (dc_sec s) <> [] /\ dc_ssh_networks (dc_sec s) <> [] /\ dc_credential s <> None;
}.

Lemma strict_int_Ok v f lo hi n : strict_int v f lo (Some hi) = Ok n -> lo <= n <= hi.
Proof.
  destruct v; cbn; try done. intros (? & Hr%samba_require_Ok & [= <-])%bind_Ok. unfold in_range in Hr. bool_inv. lia.
Qed.
Lemma ssh_ports_Ok v l : ssh_ports v = Ok l ->
  NoDup l /\ Forall (fun p => 1 <= p <= 65535 /\ p ∉ RESERVED_SSH_PORTS) l.
Proof.
  unfold ssh_ports. intros (items & _ & (ports & Hp & (? & Hn%samba_require_Ok & (? & Hr%samba_require_Ok & [= <-])%bind_Ok)%bind_Ok)%bind_Ok)%bind_Ok.
  split; [by apply bool_decide_eq_true in Hn|]. rewrite forallb_forall in Hr. apply Forall_forall. intros p Hin. split.
  - apply map_res_Forall with (P := fun p => 1 <= p <= 65535) in Hp as [Hp _]; [|by intros ? ? ?%strict_int_Ok].
    by apply (proj1 (Forall_forall _ _) Hp).
  - apply list_elem_of_In in Hin. specialize (Hr p Hin). by apply negb_true_iff, bool_decide_eq_false in Hr.
Qed.

Lemma unknown_params_none params allowed : unknown_params params allowed = [] ->
  forall k, k ∈ keys params -> k ∈ allowed ++ INTERNAL_PARAM_KEYS.
Proof.
  unfold unknown_params. intros Hn. apply no_foreign_keys. destruct (foreign_keys _ _); [done|by cbn in Hn].
Qed.
Lemma nonempty_Nil {A} (l : list A) : nonempty l = false -> l = [].
Proof. by destruct l. Qed.
Lemma ad_domain_Ok v t : ad_domain v = Ok t -> is_dns_name t = true.
Proof.
  unfold ad_domain, dns_name. intros (t' & (a & _ & (? & Hd%samba_require_Ok & [= <-])%bind_Ok)%bind_Ok & (? & _ & [= <-])%bind_Ok)%bind_Ok.
  done.
Qed.
Lemma ipv4_Ok v f t : ipv4 v f = Ok t -> routable_unicast (ipv4_value t) = true.
Proof.
  unfold ipv4. intros (t' & _ & (? & _ & (? & _ & (? & Hr%samba_require_Ok & [= <-])%bind_Ok)%bind_Ok)%bind_Ok)%bind_Ok.
  done.
Qed.
Lemma identity_Ok params i : _resolve_identity params = Ok i ->
  str_upper (dc_hostname i) <> dc_netbios i /\ is_dns_name (dc_domain i) = true.
Proof.
  unfold _resolve_identity. cbv zeta.
  intros (t & Hd%ad_domain_Ok & (b & _ & (h & _ & (? & Hn%samba_require_Ok & [= <-])%bind_Ok)%bind_Ok)%bind_Ok)%bind_Ok.
  split; [|done]. by apply negb_true_iff, String.eqb_neq in Hn.
Qed.
Lemma network_Ok params n : _resolve_network params = Ok n ->
  dc_forwarder n <> dc_ip n /\ routable_unicast (ipv4_value (dc_ip n)) = true.
Proof.
  unfold _resolve_network. intros (ip & Hi%ipv4_Ok & (f & _ & Hr)%bind_Ok)%bind_Ok.
  apply bind_Ok in Hr as (c & _ & (m & _ & (z & _ & (? & Hn%samba_require_Ok & [= <-])%bind_Ok)%bind_Ok)%bind_Ok).
  split; [|done]. by apply negb_true_iff, String.eqb_neq in Hn.
Qed.
Lemma share_Ok params sh : _resolve_share params = Ok sh -> is_share_path sh.2 = true.
Proof.
  unfold _resolve_share, share_path. intros (n & _ & (q & Hq & [= <-])%bind_Ok)%bind_Ok. cbn [snd].
  apply bind_Ok in Hq as (t & _ & (? & Hs%samba_require_Ok & [= <-])%bind_Ok). done.
Qed.
Lemma settings_are_sound params s : resolve_provision_settings params = Ok s -> settings_sound params s.
Proof.
  unfold resolve_provision_settings. cbv zeta.
  intros (? & Hu%samba_require_Ok & (? & _ & (dry & _ & (i & Hi%identity_Ok & Hr)%bind_Ok)%bind_Ok)%bind_Ok)%bind_Ok.
  apply bind_Ok in Hr as (n & [Hf Hrt]%network_Ok & (sh & Hsh%share_Ok & (c & Hc & Hr)%bind_Ok)%bind_Ok).
  apply bind_Ok in Hr as (? & Ha & (pk & Hpk & [= <-])%bind_Ok).
  apply negb_true_iff, nonempty_Nil in Hu. unfold _resolve_security in Hc.
  apply bind_Ok in Hc as (ports & Hp%ssh_ports_Ok & (nets & _ & (ex & _ & (b & Hb%map_res_fst & Hc)%bind_Ok)%bind_Ok)%bind_Ok).
  apply bind_Ok in Hc as (? & _ & (? & _ & [= <-])%bind_Ok).
  unfold _check_ssh_allowlist in Ha. cbn [dc_ssh_ports dc_ssh_networks] in Ha.
  apply bind_Ok in Ha as (? & He%samba_require_Ok & Hl%samba_require_Ok). apply Bool.eqb_prop in He.
  constructor; cbn [dc_sec dc_net dc_id dc_share dc_dry_run dc_credential dc_ssh_ports dc_ssh_networks dc_bounded]; try done.
  - by apply unknown_params_none.
  - intros ->. cbn in Hl. rewrite Hl in He. split; [by destruct ports|]. split; [by destruct nets|].
    unfold admin_pk in Hpk. destruct (dict_mem _ _); [|done]. destruct (credential_pk _); [|done].
    injection Hpk as <-. done.
Qed.

(** ** Provisions *)

Section Provision.
Context `{PyLib} `{LeaseLib}.

(** A password stored here, which is not the login of the target. *)
Definition administrator (rows : credential_lookup) (pk : Z) (login : value) : Prop :=
exists query credential, rows = Some query /\ query pk = Ok (Some credential)
  /\ attr_or_empty credential "auth_method" = "password"
  /\ attr_text_or credential "storage_backend" "local" = "local"
  /\ attr_truthy (attr credential "password_encrypted") = true
  /\ (login <> VNone -> attr_is (attr credential "pk") login = false).
Lemma administrator_Ok rows pk login r :
  resolve_samba_ad_dc_admin_credential rows pk login = Ok r -> administrator rows pk login.
Proof.
unfold resolve_samba_ad_dc_admin_credential.
intros (query & Hq & (c & Hc & (? & Hr%require_Ok & _)%bind_Ok)%bind_Ok)%bind_Ok.
destruct rows as [q|]; [injection Hq as ->|done]. exists query, c.
destruct (query pk) as [[c'|]|]; [injection Hc as ->|done..].
rewrite !andb_true_iff, !String.eqb_eq in Hr. destruct Hr as [[[? ?] ?] Hl]. split_and!; try done.
intros Hne. destruct login; try done; by apply negb_true_iff in Hl.
Qed.

(** The bindings keep the entries of the settings and freeze the identities. *)
Definition frozen_names : list string :=
["target_object_sha256"; "ssh_policy_ref"; "ssh_snapshot"; "admin_credential_snapshot"].
Definition both_hold (p : payload) (k : string) (v : value) : Prop :=
dict_get k (body p) = Some v /\ dict_get k (fingerprint p) = Some v.
Lemma both_hold_both k v p k' v' : k' <> k -> both_hold p k' v' -> both_hold (both k v p) k' v'.
Proof. intros Hne [Hb Hf]. split; cbn [both put mark body fingerprint]; by rewrite dict_get_set_ne. Qed.
Lemma both_hold_mark k v p k' v' : k' <> k -> both_hold p k' v' -> both_hold (mark k v p) k' v'.
Proof. intros Hne [Hb Hf]. split; cbn [mark body fingerprint]; [done|by rewrite dict_get_set_ne]. Qed.
Lemma both_hold_new k v p : both_hold (both k v p) k v.
Proof. split; cbn [both put mark body fingerprint]; by rewrite dict_get_set_eq. Qed.

Lemma frozen_Ok d rows i s o p p' :
  _apply_samba_ad_dc_frozen_bindings d rows i s o p = Ok p' ->
  primary_address (ni_object i) = Some (IPv4 (dc_ip (dc_net s)))
  /\ (forall k v, k ∉ frozen_names -> both_hold p k v -> both_hold p' k v)
  /\ exists locked ref, _resolve_locked_ssh_identity d (ni_type_id i) (ni_object_id i) (dc_ip (dc_net s)) ref = Ok locked
       /\ let snapshot := dict_set "ssh_strict_host_key_checking" (VBool true) locked in
          both_hold p' "ssh_snapshot" (VDict snapshot)
          /\ forall pk, dc_credential s = Some pk -> exists admin,
               administrator rows pk (get "ssh_identity_id" snapshot)
               /\ resolve_samba_ad_dc_admin_credential rows pk (get "ssh_identity_id" snapshot) = Ok admin
               /\ both_hold p' "admin_credential_snapshot" (VDict admin).
Proof.
unfold _apply_samba_ad_dc_frozen_bindings, _samba_ad_dc_primary_ipv4. cbv zeta.
intros (host & Hh & (? & He%require_Ok%String.eqb_eq & (locked & Hl & Hr)%bind_Ok)%bind_Ok)%bind_Ok.
destruct (primary_address (ni_object i)) as [[a|]|]; [injection Hh as ->|done..]. subst host.
set (ref := "target-owned-ssh:" +:+ _) in *. set (snapshot := dict_set _ _ locked) in *.
set (q := mark _ _ _) in Hr. assert (Hq : both_hold q "ssh_snapshot" (VDict snapshot)).
{ apply both_hold_mark; [done|]. apply both_hold_both; [done|]. apply both_hold_new. }
assert (Hold : forall k v, k ∉ frozen_names -> both_hold p k v -> both_hold q k v).
{ intros k v Hk Hp. unfold frozen_names in Hk. apply both_hold_mark; [set_solver|].
  apply both_hold_both; [set_solver|]. apply both_hold_both; [set_solver|done]. }
clearbody q. split; [done|]. destruct (dc_credential s) as [pk|].
- apply bind_Ok in Hr as (admin & Ha & [= <-]). split.
  + intros k v Hk Hp. apply both_hold_both; [unfold frozen_names in Hk; set_solver|]. by apply Hold.
  + exists locked, ref. split; [done|]. split; [by apply both_hold_both|]. intros pk' [= <-]. exists admin.
    split_and!; [by eapply administrator_Ok|done|]. apply both_hold_new.
- injection Hr as <-. split; [done|]. exists locked, ref. done.
Qed.

(** Two lists of names without a common one. *)
Lemma apart (a b : list string) k : forallb (fun x => negb (str_in x b)) a = true -> k ∈ a -> k ∈ b -> False.
Proof.
rewrite forallb_forall. intros Hall Ha Hb. apply list_elem_of_In, Hall, negb_true_iff in Ha.
unfold str_in in Ha. by apply bool_decide_eq_false in Ha.
Qed.

(** C27: A provision is confined to its target.  An accepted provision is told nothing but
    known settings (no SSH routing); it provisions the primary address of the target with
    the locked SSH identity of that address; its share lies below [/srv] without dot
    components, its SSH ports are distinct and collide with no directory service, and the
    resolver does not point back to it; a live run keeps its own session's ports open and
    has an Administrator password, stored here and visible to the requester, that is not
    the login of the target.  Every resolved setting and both frozen identities are in the
    fingerprint as they are in the payload. *)
Theorem provision_is_confined d rows i p :
  _normalize_ubuntu_26_samba_ad_dc_execution d rows i = Ok p -> ni_procedure i = dc_provision ->
  exists params s, params_of i = Ok params /\ resolve_provision_settings params = Ok s /\ settings_sound params s
    /\ (forall k, k ∈ keys params -> k ∉ SSH_OVERRIDE_PARAM_KEYS)
    /\ (forall k v, dict_get k (settings_dict s) = Some v -> both_hold p k v)
    /\ primary_address (ni_object i) = Some (IPv4 (dc_ip (dc_net s)))
    /\ exists locked ref,
         _resolve_locked_ssh_identity d (ni_type_id i) (ni_object_id i) (dc_ip (dc_net s)) ref = Ok locked
         /\ let snapshot := dict_set "ssh_strict_host_key_checking" (VBool true) locked in
            both_hold p "ssh_snapshot" (VDict snapshot)
            /\ (dc_dry_run s = false -> exists pk admin, dc_credential s = Some pk
                 /\ administrator rows pk (get "ssh_identity_id" snapshot)
                 /\ both_hold p "admin_credential_snapshot" (VDict admin)).
Proof.
unfold _normalize_ubuntu_26_samba_ad_dc_execution, _apply_samba_ad_dc_provision_settings.
intros (params & Hp & (? & _ & (o & _ & Hr)%bind_Ok)%bind_Ok)%bind_Ok Hn. rewrite Hn in Hr. cbv zeta in Hr.
rewrite String.eqb_refl in Hr. apply bind_Ok in Hr as (? & _ & (sp & Hs & Hr)%bind_Ok).
apply bind_Ok in Hs as (s & Hres & [= <-]). pose proof (settings_are_sound _ _ Hres) as Hs. cbn [fst snd] in Hr.
apply frozen_Ok in Hr as (Ha & Hold & locked & ref & Hl & Hsn & Hadm).
exists params, s. split; [done|]. split; [done|]. split; [done|]. split_and!; try done.
- intros k Hk Ho. refine (apart _ _ k _ Ho (ss_known _ _ Hs k Hk)). by vm_compute.
- intros k v Hk. destruct (settings_keys s) as [Hnd Hsub]; [apply (ss_bounded _ _ Hs)|]. apply Hold.
  + intros Hf. refine (apart _ _ k _ Hf (Hsub k _)); [by vm_compute|]. apply elem_keys_get. by rewrite Hk.
  + by apply (both_all_get (settings_dict s)).
- exists locked, ref. split; [done|]. split; [done|]. intros Hlive. destruct (ss_live _ _ Hs Hlive) as (_ & _ & Hc).
  destruct (dc_credential s) as [pk|] eqn:Ec; [|done]. destruct (Hadm pk eq_refl) as (admin & ? & _ & ?). eauto.
Qed.
End Provision.

(** ** A live provision *)

Section Witnesses.
Import MiniSchema Demo DemoLease.

Definition demo_dc_params : dict :=
  ["domain" :- VStr "ad.example.org"; "netbios" :- VStr "EXAMPLE"; "hostname" :- VStr "DC01"; "ip" :- VStr "10.0.30.5";
   "forwarder" :- VStr "10.0.30.1"; "client_networks" :- VList [VStr "10.0.0.0/8"]; "dry_run" :- VBool false;
   "ssh_ports" :- VList [VInt 22]; "ssh_networks" :- VList [VStr "10.0.30.0/24"; VStr "2001:db8::/32"];
   "admin_credential_pk" :- VInt 77; "_timeout_seconds_snapshot" :- VInt 3600].
Definition demo_dc : norm_input :=
  {| ni_procedure := dc_provision; ni_handler_id := dc_provision; ni_params := VDict demo_dc_params;
     ni_app_label := "virtualization"; ni_model := "virtualmachine"; ni_object_id := VInt Runner.TARGET_ID;
     ni_object := demo_runner; ni_type_id := VInt 4; ni_references := VNone |}.
Definition demo_administrators : credential_lookup :=
  Some (fun _ => Ok (Some (Obj [("pk", Val (VInt 77)); ("auth_method", Val (VStr "password"));
                                ("password_encrypted", Val (VStr "x")); stamp "@1700000000000002"] "administrator"))).
Lemma provision_is_confined_witness :
  exists p, _normalize_ubuntu_26_samba_ad_dc_execution demo_services demo_administrators demo_dc = Ok p
    /\ both_hold p "hostname" (VStr "dc01") /\ both_hold p "ssh_networks" (VList [VStr "10.0.30.0/24"; VStr "2001:db8::/32"])
    /\ exists admin, both_hold p "admin_credential_snapshot" (VDict admin).
Proof.
  destruct (_normalize_ubuntu_26_samba_ad_dc_execution demo_services demo_administrators demo_dc) as [p|] eqn:E;
    [|exfalso; vm_compute in E; discriminate].
  exists p. split; [reflexivity|].
  destruct (provision_is_confined demo_services demo_administrators demo_dc p E eq_refl)
    as (params & s & Hp & Hs & _ & _ & Hall & _ & locked & ref & _ & _ & Hlive).
  injection Hp as <-. vm_compute in Hs. injection Hs as <-.
  split; [apply Hall; vm_compute; reflexivity|]. split; [apply Hall; vm_compute; reflexivity|].
  destruct (Hlive eq_refl) as (pk & admin & _ & _ & Ha). exists admin. exact Ha.
Defined.
End Witnesses.
