(* ===== verification/HandlerProperties.v ===== *)
(** * Properties of the normalization as a whole

    Whatever the procedure, what the approval hashes names the handler that will run it,
    and no normalizer is shadowed by another. *)

From S2P Require Import Prelude PyValue CredentialContract Spans PyRegex SecretPatterns Protected.
From S2P Require Import SchemaSpec Transport TargetSnapshot Templating.
From S2P Require Import Projection EventStore Aggregate Fence Contracts Codec Lease Capabilities Response Backends.
From S2P Require Import CredentialAuthority Targets Akvorado Admission Normalize NormalizeDevices NormalizeServices.
From S2P Require Import NormalizeStores NormalizeHosts NormalizeProxmox NormalizeAllowlists NormalizePinned.
From S2P Require Import NormalizeIdentity NormalizeGitea NormalizeRunners NormalizeSambaDc NormalizeAkvorado NormalizePlugins.
From S2P Require Import NormalizeDispatch.
From S2P Require Import LeaseProperties TransportProperties SnapshotProperties NormalizeProperties SambaDcProperties.
Import JsonNotations.

Local Open Scope Z_scope.

(** ** The handler in the fingerprint *)

Definition handled (i : norm_input) (p : payload) : Prop := dict_get "handler_id" (fingerprint p) = Some (VStr (ni_handler_id i)).

Section Handled.
Variable i : norm_input.
Lemma handled_mark k v p : k <> "handler_id" -> handled i p -> handled i (mark k v p).
Proof. intros Hk Hp. unfold handled. cbn [mark fingerprint]. by rewrite dict_get_set_ne. Qed.
Lemma handled_put k v p : handled i p -> handled i (put k v p).
Proof. done. Qed.
Lemma handled_both k v p : k <> "handler_id" -> handled i p -> handled i (both k v p).
Proof. intros Hk Hp. by apply handled_mark. Qed.
Lemma handled_opening b f : handled i (opening i b f).
Proof. done. Qed.
Lemma handled_both_all d p : "handler_id" ∉ keys d -> handled i p -> handled i (both_all d p).
Proof.
revert p. induction d as [|[k v] d IH]; intros p Hd Hp; [done|]. rewrite keys_cons in Hd. unfold both_all. cbn [fold_left].
apply IH; [set_solver|]. apply handled_both; [set_solver|done].
Qed.
Lemma handled_put_content `{PyLib} k content p :
  k +:+ "_bytes" <> "handler_id" -> k +:+ "_sha256" <> "handler_id" -> handled i p -> handled i (put_content k content p).
Proof. intros Hb Hs Hp. apply handled_mark; [done|]. by apply handled_mark. Qed.
Lemma handled_put_description `{PyLib} description p : handled i p -> handled i (put_description description p).
Proof. intros Hp. unfold put_description. destruct (str_truthy _); [|done]. by apply handled_mark. Qed.
Definition not_handler (k : string) : Prop := k <> "handler_id".
Lemma copy_flags_handled params flags p :
  Forall (fun f => not_handler f.1) flags -> handled i p -> has_post (copy_flags params flags p) (handled i).
Proof. intros Hf Hp. by apply (copy_flags_keeps (handled i) not_handler handled_both). Qed.
Lemma copy_matching_handled params fields p :
  Forall (fun f => not_handler f.1) fields -> handled i p -> has_post (copy_matching params fields p) (handled i).
Proof. intros Hf Hp. by apply (copy_matching_keeps (handled i) not_handler handled_both). Qed.
Lemma copy_ranges_handled params fields p :
  Forall (fun f => not_handler f.1.1) fields -> handled i p -> has_post (copy_ranges params fields p) (handled i).
Proof. intros Hf Hp. by apply (copy_ranges_keeps (handled i) not_handler handled_both). Qed.
End Handled.
Ltac other_keys := repeat constructor; discriminate.

Create HintDb handled discriminated.
#[export] Hint Resolve handled_mark handled_put handled_both handled_opening : handled.

Ltac in_fingerprint :=
  repeat first
    [ eassumption | apply handled_opening | apply handled_put
    | apply handled_both; [discriminate|] | apply handled_mark; [discriminate|]
    | apply (both_if_keeps (handled _) (fun k => k <> "handler_id") (handled_both _)); [discriminate|]
    | apply (both_opt_keeps (handled _) (fun k => k <> "handler_id") (handled_both _)); [discriminate|]
    | apply (both_text_keeps (handled _) (fun k => k <> "handler_id") (handled_both _)); [discriminate|]
    | apply (both_list_keeps (handled _) (fun k => k <> "handler_id") (handled_both _)); [discriminate|]
    | apply handled_put_description | apply handled_put_content; [by case_match|by case_match|]
    | match goal with |- handled _ (match ?x with _ => _ end) => destruct x end
    | reflexivity ].
Ltac head_of t := lazymatch t with ?f _ => head_of f | ?f => f end.
(** One step of a normalizer; a step that gives a payload keeps the handler. *)
Ltac handler_step :=
  lazymatch goal with
  | |- has_post (Err _) _ => apply post_Err
  | |- has_post (Ok _) _ => apply post_Ok; cbn [fst]; in_fingerprint
  | |- has_post (mbind (A:=payload) _ _) ?Q =>
      let i := lazymatch Q with context [handled ?i] => i end in
      apply (post_bind _ _ (handled i)); [|let p := fresh "p" in let Hp := fresh "Hp" in intros p Hp; cbv beta]
  | |- has_post (mbind (A:=(payload * _)%type) _ _) (handled ?i) =>
      apply (post_bind _ _ (fun a => handled i a.1));
      [|let p := fresh "p" in let Hp := fresh "Hp" in intros [p ?] Hp; cbn [fst] in Hp; cbv beta iota]
  | |- has_post (copy_flags _ _ _) _ => apply copy_flags_handled; [other_keys|]
  | |- has_post (copy_matching _ _ _) _ => apply copy_matching_handled; [other_keys|]
  | |- has_post (copy_ranges _ _ _) _ => apply copy_ranges_handled; [other_keys|]
  | |- has_post (mbind _ _) _ => apply post_then; intros ? _
  | |- has_post (let _ := _ in _) _ => cbv zeta
  | |- has_post (match ?x with _ => _ end) _ => destruct x
  | |- has_post ?m _ => first [solve [auto with handled] | let h := head_of m in unfold h]
  | |- handled _ _ => in_fingerprint
  end.
Ltac handler := cbv zeta; repeat handler_step.

Section Families.
Context `{PyLib} `{LeaseLib} `{JsonSchema} `{Yaml}.
Variable i : norm_input.
Notation ok m := (has_post m (handled i)).

Lemma credential_override_handled params p : handled i p -> ok (_copy_optional_credential_override params p).
Proof. intros Hp. unfold _copy_optional_credential_override. handler. Qed.
#[local] Hint Resolve credential_override_handled : handled.
Lemma ssh_overrides_handled params p : handled i p -> ok (_copy_optional_ssh_overrides params p).
Proof.
intros Hp. unfold _copy_optional_ssh_overrides. handler. Qed.
#[local] Hint Resolve ssh_overrides_handled : handled.


(** The two that copy a whole dictionary. *)
Lemma pbs_handled g : ok (_normalize_pbs_execution g i).
Proof.
intros p (? & _ & (? & _ & (params & _ & (? & [Hs _]%require_Ok%andb_true_iff & [= <-])%bind_Ok)%bind_Ok)%bind_Ok)%bind_Ok.
apply handled_both_all; [|in_fingerprint]. intros Hin. rewrite forallb_forall in Hs.
apply list_elem_of_In, Hs in Hin. by case_match.
Qed.
Lemma settings_handled params p :
  handled i p -> has_post (_apply_samba_ad_dc_provision_settings params p) (fun sp => handled i sp.2).
Proof.
intros Hp. apply post_then. intros s Hs%settings_are_sound. apply post_Ok. cbn [snd].
apply handled_both_all; [|done]. intros Hin. destruct (settings_keys s) as [_ Hk]; [apply (ss_bounded _ _ Hs)|].
apply Hk, (bool_decide_eq_true_2 _) in Hin. by vm_compute in Hin.
Qed.
Lemma domain_controller_handled d rows : ok (_normalize_ubuntu_26_samba_ad_dc_execution d rows i).
Proof.
unfold _normalize_ubuntu_26_samba_ad_dc_execution. cbv zeta. do 3 (apply post_then; intros ? _).
case_match; [|handler]. apply post_then; intros ? _.
eapply post_bind; [apply settings_handled; in_fingerprint|]. intros [s p] Hp. cbn [fst snd] in *. handler.
Qed.
#[local] Hint Resolve pbs_handled domain_controller_handled : handled.

Variable w : world.
(** The branches of the dispatcher and the table. *)
Lemma host_handled : Forall (fun b : branch => ok (b.2 i)) (host_branches w).
Proof. unfold host_branches. repeat constructor; cbn [snd named_branch]; handler. Qed.
Lemma device_handled : Forall (fun b : branch => ok (b.2 i)) device_branches.
Proof. unfold device_branches. repeat constructor; cbn [snd named_branch]; handler. Qed.
Lemma service_handled : Forall (fun b : branch => ok (b.2 i)) (service_branches w).
Proof. unfold service_branches. repeat constructor; cbn [snd named_branch]; handler. Qed.
Lemma table_handled : Forall (fun b : branch => ok (b.2 i)) (_TABLE_NORMALIZERS w).
Proof. unfold _TABLE_NORMALIZERS. repeat constructor; cbn [snd named_branch]; handler. Qed.
End Families.

(** ** One table *)

(** Every branch there is: the two families decided by name, the table and the dispatcher. *)
Section OneTable.
Context `{PyLib} `{LeaseLib} `{JsonSchema} `{Yaml}.

Definition all_branches (w : world) : list branch :=
[(GITEA_PROTECTED_PUBLICATION_PAIR_PROCEDURE_NAMES, _normalize_gitea_protected_publication_pair_execution (w_ssh w));
 (GITEA_USER_CI_RUNNER_PROCEDURE_NAMES ++ GITEA_ORG_CI_RUNNER_RECOVERY_PROCEDURE_NAMES,
  _normalize_gitea_docker_runner_execution (w_ssh w))] ++ _TABLE_NORMALIZERS w ++ branches w.
Definition served (l : list branch) : list string := l ≫= fst.

Lemma chosen_cons name b l : chosen name (b :: l) = if serving name b then Some b.2 else chosen name l.
Proof. unfold chosen. cbn [List.find]. by destruct (serving name b). Qed.
Lemma chosen_app name l l' :
  chosen name (l ++ l') = match chosen name l with Some f => Some f | None => chosen name l' end.
Proof. induction l as [|b l IH]; [done|]. cbn [app]. rewrite !chosen_cons. by destruct (serving name b). Qed.
Lemma chosen_served name b l : NoDup (served (b :: l)) -> serving name b = true -> chosen name l = None.
Proof.
intros Hn Hb. unfold served in Hn. rewrite bind_cons in Hn. apply NoDup_app in Hn as (_ & Hd & _).
unfold chosen. destruct (List.find (serving name) l) as [c|] eqn:E; [|done]. exfalso.
apply find_some in E as [Hc Hs]. apply bool_decide_eq_true in Hb, Hs.
apply (Hd name Hb). apply list_elem_of_bind. exists c. split; [done|]. by apply list_elem_of_In.
Qed.
Lemma chosen_perm name l l' : l ≡ₚ l' -> NoDup (served l) -> chosen name l = chosen name l'.
Proof.
induction 1 as [|b l l' Hp IH|b c l|l l' l'' Hp IH Hp' IH']; intros Hn; [done| | |].
- rewrite !chosen_cons. destruct (serving name b); [done|]. apply IH.
  unfold served in Hn. rewrite bind_cons in Hn. by apply NoDup_app in Hn as (_ & _ & ?).
- rewrite !chosen_cons. destruct (serving name c) eqn:Ec, (serving name b) eqn:Eb; try done.
  apply (chosen_served name c (b :: l)) in Hn; [|done]. by rewrite chosen_cons, Eb in Hn.
- rewrite IH by done. apply IH'. unfold served in *. by rewrite <- Hp.
Qed.

Lemma no_name_twice w : NoDup (served (all_branches w)).
Proof. refine (bool_decide_eq_true_1 _ (_ : bool_decide (NoDup (served (all_branches w))) = true)). by vm_compute. Qed.
Lemma by_procedure_chosen w i :
  by_procedure w i = match chosen (ni_procedure i) (all_branches w) with
                     | Some f => f i
                     | None => Err (not_normalizable (ni_procedure i))
                     end.
Proof.
unfold by_procedure, _dispatch_normalize_execution_params, all_branches. rewrite !chosen_app, !chosen_cons.
unfold serving. cbn [fst snd]. destruct (str_in _ _); [done|]. destruct (str_in _ _); [done|].
by destruct (chosen _ (_TABLE_NORMALIZERS w)).
Qed.

(** C18: The dispatch is one table.  No procedure is served by two normalizers, so the
    three stages of the dispatch - two families decided by name, the table, the chain of
    branches - are the lookup of the procedure in one table of all branches, in whatever
    order: no branch is shadowed by an earlier one, and a procedure in none of them is
    refused as not normalizable. *)
Theorem dispatch_is_one_table w i l : l ≡ₚ all_branches w ->
  by_procedure w i = match chosen (ni_procedure i) l with
                     | Some f => f i
                     | None => Err (not_normalizable (ni_procedure i))
                     end.
Proof. intros Hl. rewrite by_procedure_chosen. by rewrite (chosen_perm _ _ _ (symmetry Hl) (no_name_twice w)). Qed.

(** ** The handler of a normalized execution *)

Lemma branches_handled w i : Forall (fun b : branch => has_post (b.2 i) (handled i)) (all_branches w).
Proof.
unfold all_branches, branches. rewrite !Forall_app. split_and!.
- repeat constructor; cbn [snd]; handler.
- apply table_handled.
- apply host_handled.
- apply service_handled.
- apply device_handled.
Qed.
Lemma procedure_handled w i : has_post (by_procedure w i) (handled i).
Proof.
rewrite by_procedure_chosen. unfold chosen. destruct (List.find _ _) as [b|] eqn:E; [|apply post_Err]. cbn [option_map].
apply find_some in E as [Hb _]. pose proof (branches_handled w i) as Hall. rewrite Forall_forall in Hall.
apply Hall. by apply list_elem_of_In.
Qed.

(** The handler in the fingerprint of an assembled payload. *)
Definition names_handler (handler : string) (d : dict) : Prop :=
exists fp, dict_get "command_fingerprint" d = Some (VDict fp) /\ dict_get "handler_id" fp = Some (VStr handler).
Lemma names_handler_assembled i p : handled i p -> names_handler (ni_handler_id i) (assembled p).
Proof. intros Hp. exists (fingerprint p). split; [apply dict_get_set_eq|exact Hp]. Qed.
Lemma names_handler_set h k v d : k <> "command_fingerprint" -> names_handler h d -> names_handler h (dict_set k v d).
Proof. intros Hk (fp & Hd & Hh). exists fp. by rewrite dict_get_set_ne. Qed.
Lemma names_handler_fingerprint h k v d : k <> "handler_id" -> names_handler h d -> names_handler h (fingerprint_set k v d).
Proof.
intros Hk (fp & Hd & Hh). unfold fingerprint_set, get. rewrite Hd. exists (dict_set k v fp).
split; [apply dict_get_set_eq|]. by rewrite dict_get_set_ne.
Qed.
Lemma names_handler_routed h procedure slug policy d :
  names_handler h d -> names_handler h (_apply_driver_pipeline_overrides procedure slug policy d).
Proof.
intros Hd. apply overrides_ind; [|done]. intros k v fk n Hk Hn.
assert (k <> "command_fingerprint" /\ fk <> "handler_id") as [Hne Hnh] by (unfold routed_keys in Hk; set_solver).
by apply names_handler_fingerprint, names_handler_set.
Qed.
Lemma names_handler_target h jinja target d :
  names_handler h d -> names_handler h (_apply_target_object_context jinja target d).
Proof.
intros Hd. unfold _apply_target_object_context. repeat (case_match; try done).
do 2 (apply names_handler_fingerprint; [done|]). by apply names_handler_set.
Qed.

(** C17: Whatever the procedure, what an approval hashes names the handler that will run.
    Every normalized execution has a command fingerprint with the handler of its procedure:
    no branch forgets it, and neither a copied parameter nor the routing, the target context
    or the credentials overwrite it.  When the execution has credential references, the
    fingerprint has the hash of the frozen authority too. *)
Theorem fingerprint_names_handler w r d : normalize_execution_params w r = Ok d ->
  names_handler (ni_handler_id (rq_input r)) d
  /\ (truthy (ni_references (rq_input r)) = true ->
      get_of "credential_authority_sha256" (get "command_fingerprint" d) = VStr (canonical_hash (rq_authority r))).
Proof.
unfold normalize_execution_params. cbv zeta. intros (p & Hp & Hd)%bind_Ok.
apply procedure_handled in Hp. apply names_handler_assembled in Hp.
set (n := _apply_target_object_context _ _ _) in Hd.
assert (names_handler (ni_handler_id (rq_input r)) n) as Hn by (by apply names_handler_target, names_handler_routed).
clearbody n.
unfold apply_credential_fingerprint in Hd. destruct (truthy (ni_references _)); [|by injection Hd as <-].
apply bind_Ok in Hd as (refs & _ & Hd). destruct (_ || _); [done|].
destruct Hn as (fp & Hf & Hh).
set (n1 := dict_set "credential_references" _ n) in Hd.
assert (dict_get "command_fingerprint" n1 = Some (VDict fp)) as Hf1 by (unfold n1; by rewrite dict_get_set_ne).
clearbody n1. assert (dict_mem "command_fingerprint" n1 = true) as Hm.
{ apply bool_decide_eq_true, elem_keys_get. by rewrite Hf1. }
assert (get "command_fingerprint" n1 = VDict fp) as Hg by (unfold get; by rewrite Hf1).
rewrite Hm, Hg in Hd. injection Hd as <-.
split.
- eexists. rewrite dict_get_set_ne by done. split; [apply dict_get_set_eq|]. by rewrite dict_get_set_ne.
- intros _. rewrite get_set_ne, get_set_eq by done. cbn [get_of]. by rewrite get_set_eq.
Qed.
End OneTable.

(** ** A routed execution with a credential *)

Section Witnesses.
Import MiniSchema Demo DemoLease.
#[local] Instance no_yaml : Yaml := {| safe_load := fun _ => None |}.

Definition demo_world : world :=
  {| w_gates := open_gates; w_config := None; w_tables := demo_tables; w_openbao := demo_directory;
     w_ssh := {| DeviceService := None; ServiceEndpoint := None |}; w_proxmox := None; w_bindings := fun _ => Ok None;
     w_tags := None; w_gitea := Err KeyError; w_fences := fun _ => None; w_clock := 0; w_credentials := None;
     w_packer := None; w_policy := Ok (Some demo_settings) |}.
Definition demo_referenced : norm_input :=
  {| ni_procedure := ni_procedure demo_restart; ni_handler_id := ni_handler_id demo_restart; ni_params := ni_params demo_restart;
     ni_app_label := "dcim"; ni_model := "device"; ni_object_id := VInt 7; ni_object := ni_object demo_restart;
     ni_type_id := VInt 3; ni_references := VDict ["primary" :- reference] |}.
Definition demo_authority : value :=
  VDict ["references" :- match validate_named_references (VDict ["primary" :- reference]) with
                         | Ok d => VDict d | Err _ => VNone end].
Definition demo_request : norm_request :=
  {| rq_input := demo_referenced; rq_routing := demo_routing; rq_commands := Some ["literal"; "jinja"]; rq_target := Some demo_object;
     rq_authority := demo_authority |}.
Lemma fingerprint_names_handler_witness :
  exists d, normalize_execution_params demo_world demo_request = Ok d
    /\ names_handler (ni_handler_id demo_restart) d
    /\ get_of "credential_authority_sha256" (get "command_fingerprint" d) = VStr (canonical_hash demo_authority).
Proof.
  destruct (normalize_execution_params demo_world demo_request) as [d|] eqn:E; [|exfalso; vm_compute in E; discriminate].
  exists d. split; [reflexivity|]. destruct (fingerprint_names_handler demo_world demo_request d E) as [Hh Ha].
  split; [exact Hh|]. apply Ha. reflexivity.
Defined.
Lemma dispatch_is_one_table_witness :
  (exists p, by_procedure demo_world demo_restart = Ok p)
  /\ by_procedure demo_world demo_restart
     = match chosen (ni_procedure demo_restart) (rev (all_branches demo_world)) with
       | Some f => f demo_restart
       | None => Err (not_normalizable (ni_procedure demo_restart))
       end.
Proof.
  split; [vm_compute; eexists; reflexivity|].
  apply (dispatch_is_one_table demo_world demo_restart (rev (all_branches demo_world))).
  symmetry. apply Permutation_rev.
Defined.
End Witnesses.
